(* ===== verification/_CoqProject ===== *)
-Q . S2P
Prelude.v
ZeroCopy.v
BufferUtil.v
Yaml.v
StdString.v
StringUtil.v
TimeWheel.v
QueueExecutor.v
ExecutorManager.v
TbbExecutor.v
Core.v
Report.v
Filters.v
Channel.v
ChannelBackend.v
LocalChannel.v
ChannelManager.v
Rpc.v
Url.v
RpcBackend.v
LocalRpc.v
LocalRpcCalls.v
RpcManager.v
Decimal.v
TimeUtil.v
AsioExecutor.v
LogFormatter.v
LogFilter.v
RotateFile.v
Logger.v
Sync.v
ModuleManager.v
YamlTools.v
PluginManager.v
Parameter.v
Timer.v
Double.v
TimeManipulator.v
RecordAction.v
RecordTheory.v
PlaybackAction.v
PlaybackTheory.v
MqttWire.v
ZenohShm.v
ZenohManager.v
ZenohLoop.v
MqttRegistry.v
MqttRpc.v
MqttChannel.v
TcpSession.v
NetChannel.v
ZenohChannel.v
ZenohTheory.v
ZenohRpc.v
ZenohRpcTheory.v
TopicLogger.v
Ros2Name.v
Configurator.v
