(* ===== verification/Prelude.v ===== *)
(** * AimRT: a verification library for the runtime core

    AimRT is a runtime for robotic modules, in C++.  The core
    ([src/runtime/core]) loads modules and plugins and gives them executors
    (which run tasks), channels (publish and subscribe), remote procedure
    calls, loggers and parameters; [src/common/util] holds the utilities all
    of it uses.  This library models parts of both as executable definitions
    and proves what makes them correct.  Each definition that models code is
    preceded by a comment [@src file:lines symbol].

    ** The program's parts, and the files that model them

    - [Prelude.v] (this file): outcomes of calls, the state monad, machine
      integers, bytes, list lemmas, tactics and the hint database.
    - [Yaml.v]: what the decoders of options use of the YAML library, as a
      class with a concrete instance.
    - [StdString.v]: searching in strings and sorted maps and sets.
    - [BufferUtil.v] ([common/util/buffer_util.h]): the little-endian writing
      and reading cursors over raw memory.
    - [StringUtil.v] ([common/util/string_util.h]): splitting, joining,
      replacing, versions, hashes, truncation, tables.
    - [TimeWheel.v] ([core/executor/time_wheel_executor.*]): the timer.
    - [QueueExecutor.v] ([core/executor/guard_thread_executor.*],
      [simple_thread_executor.*], [main_thread_executor.*]): queues of tasks
      with one consumer thread.
    - [ExecutorManager.v] ([core/executor/executor_manager.*]): the executors a
      configuration names; the interface [ExecutorBase] of executors.
    - [TbbExecutor.v], [AsioExecutor.v] ([core/executor/tbb_thread_executor.*],
      [asio_thread_executor.*], [asio_strand_executor.*]): the executors on tbb
      and asio, instances of it.
    - [Timer.v] ([interface/.../executor/timer.h]): the timer of modules.
    - [Core.v] ([core/aimrt_core.*]): the life cycle of the core, which
      initializes, starts and shuts down the managers in order.
    - [Report.v]: the tables that managers report with.
    - [Filters.v]: the filters of topics and functions, shared by channels and
      calls ([*_framework_async_filter.h]).
    - The channel subsystem ([core/channel]): [Channel.v] (messages, contexts,
      registry), [ChannelBackend.v] (the interface [Backend] of backends, the
      backend manager), [LocalChannel.v] (the backend within a process, an
      instance of [Backend]), [ChannelManager.v] (configuration, handles, the
      report).
    - Remote procedure calls ([core/rpc]): [Rpc.v] (statuses, contexts,
      wrappers of calls, the registry, the tool that keeps a client's calls),
      [RpcBackend.v] (the interface [RpcBackend] of backends, the backend
      manager), [LocalRpc.v] (the local backend, an instance of it),
      [LocalRpcCalls.v] (its calls as a transition system), [RpcManager.v]
      (configuration, handles, the report).
    - The mqtt plugin ([plugins/mqtt_plugin]): [MqttWire.v] (its packages),
      [MqttRegistry.v] (handlers by topic), [MqttRpc.v] and [MqttChannel.v]
      (its backends, further instances of [RpcBackend] and [Backend]).
    - The net plugin: [TcpSession.v] ([common/net/asio_tcp_*.h]), messages over
      a stream, clients and servers; [NetChannel.v] ([plugins/net_plugin]), the
      tcp and udp channel backends.
    - The zenoh plugin ([plugins/zenoh_plugin]): [ZenohShm.v] (serializing into
      shared memory), [ZenohManager.v] (publishers and subscribers),
      [ZenohLoop.v] (finding a size of shared memory, shared by the backends),
      [ZenohChannel.v], [ZenohTheory.v] (the channel backend, its theorems),
      [ZenohRpc.v], [ZenohRpcTheory.v] (the rpc backend, its theorems).
    - [ZeroCopy.v] ([interface/.../util/protobuf_zero_copy_stream.h]): the
      streams that the protobuf library writes and reads buffers with.
    - Loggers ([core/logger]): [LogFormatter.v] (patterns), [LogFilter.v]
      (which module and level a backend takes), [RotateFile.v] (rotated
      files), [Logger.v] (the interface of backends, the console, proxies, the
      manager).
    - [TopicLogger.v] ([plugins/topic_logger_plugin]): a backend of loggers that
      publishes records, with the timer of modules.
    - [Configurator.v] ([core/configurator]): the sections of a configuration.
    - [Ros2Name.v] ([plugins/ros2_plugin]): names of functions for ROS 2.
    - [ModuleManager.v] ([core/module]), [PluginManager.v] ([core/plugin]),
      [Parameter.v] ([core/parameter] and the parameter plugin).
    - [YamlTools.v] ([core/util/yaml_tools.cc]): the check of a configuration
      against the options used.
    - [Double.v]: doubles, as the plugins use them.
    - [TimeManipulator.v] ([plugins/time_manipulator_plugin]): an executor on
      the wheels of [TimeWheel.v] whose time runs at a ratio.
    - [RecordAction.v] ([plugins/record_playback_plugin/record_action.*]):
      recording topics into files; [RecordTheory.v]: its theorems.
      [PlaybackAction.v], [PlaybackTheory.v]: playing them back.
    - Utilities ([common/util]): [Url.v] (percent coding, urls), [Decimal.v]
      and [TimeUtil.v] (time stamps, strings, calendar), [Sync.v] (blocking
      queue, latch, signal).

    The core calls the managers.  A module publishes through a handle of the
    channel manager, whose backend manager stamps the message, passes it
    through the filters of the topic and hands it to the backends of the
    topic; the local backend looks the subscribers up in the registry and
    calls them, directly or on an executor.  A call goes the same way through
    the RPC manager; the local backend hands it to a service of the process,
    the mqtt backend publishes it to another process, and both keep it in a
    client tool until it is answered or times out.  Modules log through
    proxies, which hand records to the backends of the logger manager.

    ** How code becomes a definition

    A call on an object with state [S] is a function [S -> res A * S] ([M]):
    it returns, throws an exception ([Throw]; the state stays as it was when
    the exception was thrown) or has no defined meaning ([Undef]: an access
    out of bounds, a null pointer).  A class is a record; its methods are
    definitions with the source's names, where two classes have the same
    method with the class as a prefix ([bm_Publish_proxy], [cm_Start]).
    Integers are [Z] with the wrap-around of their width written out.  Where
    threads interleave, the atomic actions are steps of a relation
    ([QueueExecutor.step], [LocalRpcCalls], [Sync]); elsewhere the mutex of an
    object makes its methods atomic.  Contexts, which are shared by reference,
    live in a store ([Channel.HasContexts], [Rpc.World]), and so do the
    objects that requests and responses are read into.  Loops that are not
    structural take fuel: the loops over a string its length and one, the
    sleeps of the timers their nanoseconds, the rounds in which a size of shared
    memory is doubled 64; [split_loop_spec], [loop_ends], the lemmas of
    [StringUtil]'s section [LoopsEnd], [SetPattern_parses] and
    [sleep_loop_total] show that this is enough.  Statements that only log are
    left out.

    Parameters stand for what is not in the repository or is supplied by its
    users: YAML nodes, [std::regex_match], the environment, the clock, the
    functions of type supports, callbacks, filters, dynamic libraries, the
    libraries that compress, the context of asio and the queue of tbb, the order
    in which hash tables are walked, addresses of buffers and of hosts, the pool of
    shared memory, the mqtt client, zenoh, protobuf and mcap libraries, and in [Core.v] the managers.  What a theorem assumes of them it says.

    ** What the theorems show

    - Buffers: fields written are read back; a failed write has no effect;
      reads stay inside the buffer for narrow length prefixes, and do not for
      the 64-bit prefix.  Streams over buffers: what is written is read back;
      what is given back in the last buffer is lost.
    - Strings: round trips of splitting and joining; in-place replacement
      equals its specification; truncation respects characters; tables are
      rectangular; a look-up that misses keys; urls and times are read back.
    - Timers: every iteration terminates and hands over exactly the tasks of
      its tick, at the pace of the ratio; scheduling is right between
      iterations, and what goes wrong within one, before the start, after
      shutdown and beyond the wheels.
    - Queues, latches, signals: the invariants of all interleavings (order, no
      loss, no duplication, bound), draining at shutdown, and where the
      counters and the drain fail.
    - The executors on tbb and asio: the same for several threads, that tasks
      are not early, that shutdown ends and what it waits for, and what tasks
      that throw do to them.  The timer: calls are a period apart.
    - Executor, module and plugin managers: what a configuration makes, in
      which order it is initialized, started and shut down, and what is left
      after a failure.
    - Core: a refinement of abstract plans; start and shutdown happen once.
    - Channels: the registry and its indices; messages survive serialization;
      filters form an onion; every registered topic is routed by the
      configured rules in every reachable state; publishing on every branch;
      messages are numbered; the local backend delivers exactly once to
      every subscriber, and so do the mqtt, tcp, udp and zenoh backends in
      another process, over shared memory or not; what shared memory does not
      allow; messages over tcp arrive whole and in order; the
      configuration resolves; the report is complete; contexts merge.
    - Calls: routed likewise; a call is answered at most once in every
      interleaving, and is never lost while the backend lives; request and
      response survive serialization; a call through a handle comes back with
      the service's answer; over mqtt and zenoh, a request reaches the service
      with its metadata, and the response answers the call; what goes wrong
      over zenoh, in shared memory and with a status that is not OK.
    - Recording: sampled topics are recorded an interval apart; the caches of
      the signal mode hold what a start may ask for and a start writes it;
      records go to the current file or to the next one; starts that fail.
      A playback publishes every message of the bag once, at its time, in
      whatever order the tasks run; what goes wrong in the second one.
    - Loggers: records reach the backends that take them; patterns are parsed;
      rotated files refine a log of chunks; records are published in frames,
      none lost but those counted, as long as the timer goes on.
    - Parameters: dumps can be loaded again.  Configurations: the check is
      silent exactly when everything written is used; sections are shared by
      those who write and those who report.  Names for ROS 2: encoding and
      remapping.

    ** What is not modelled

    Input and output, the loaders of dynamic libraries, the connection of the
    mqtt plugin to its broker, http and its backends (the messages of beast),
    and the crash handler are calls of libraries and the operating system with
    little of their own.  The backends of iceoryx and ROS 2 send packages as the
    mqtt and zenoh backends do, over middleware whose behaviour is not in the
    repository.  The ROS 2 conversions walk tables that generated code
    supplies.  Bindings and command line tools are glue.  The manifest says of
    each part which of these it is. *)

From Stdlib Require Import DecimalString.
From Stdlib Require Export ZArith Lia Ascii String.
From stdpp Require Export base decidable list gmap strings sets.

(** ** Outcomes of a C++ call

    A call returns normally, throws an exception, or has no defined meaning
    (an access outside an object).  The third case is kept apart from the
    second so that a safety theorem can say that it does not happen. *)

Inductive exn :=
| AimRTException (what : string)
| RuntimeError (what : string)
| BufferOutOfBoundsException
| BlockQueueStoppedException
| YamlException (what : string)
| UserException (what : string).

#[export] Instance exn_eq_dec : EqDecision exn.
Proof. solve_decision. Defined.

Inductive res (A : Type) :=
| Ok (a : A)
| Throw (e : exn)
| Undef.
Arguments Ok {A} a.
Arguments Throw {A} e.
Arguments Undef {A}.

#[export] Instance res_eq_dec `{EqDecision A} : EqDecision (res A).
Proof. solve_decision. Defined.

#[export] Instance res_ret : MRet res := λ A a, Ok a.
#[export] Instance res_bind : MBind res := λ A B f m,
  match m with Ok a => f a | Throw e => Throw e | Undef => Undef end.
#[export] Instance res_fmap : FMap res := λ A B f m,
  match m with Ok a => Ok (f a) | Throw e => Throw e | Undef => Undef end.

Definition is_ok {A} (r : res A) : bool := match r with Ok _ => true | _ => false end.

(** ** Stateful calls

    [M S A] is a call on an object whose state is [S].  A throw keeps the
    state reached when it was thrown, as in C++: nothing is rolled back. *)

Definition M (S A : Type) : Type := S → res A * S.

#[export] Instance M_ret S : MRet (M S) := λ A a s, (Ok a, s).
#[export] Instance M_fmap S : FMap (M S) := λ A B f m s,
  match m s with
  | (Ok a, s') => (Ok (f a), s')
  | (Throw e, s') => (Throw e, s')
  | (Undef, s') => (Undef, s')
  end.
#[export] Instance M_bind S : MBind (M S) := λ A B f m s,
  match m s with
  | (Ok a, s') => f a s'
  | (Throw e, s') => (Throw e, s')
  | (Undef, s') => (Undef, s')
  end.

Section MonadOps.
Context {S : Type}.

Definition get : M S S := λ s, (Ok s, s).
Definition put (s : S) : M S unit := λ _, (Ok tt, s).
Definition modify (f : S → S) : M S unit := λ s, (Ok tt, f s).
Definition gets {A} (f : S → A) : M S A := λ s, (Ok (f s), s).
Definition throw {A} (e : exn) : M S A := λ s, (Throw e, s).
Definition undef {A} : M S A := λ s, (Undef, s).
Definition lift {A} (r : res A) : M S A := λ s, (r, s).

(** [AIMRT_CHECK_ERROR_THROW(cond, what)] and [AIMRT_ASSERT(cond, what)]. *)
Definition check_throw (c : bool) (what : string) : M S unit :=
  if c then mret tt else throw (AimRTException what).

(** [try { m } catch (const std::exception&) { h }]. *)
Definition try_catch {A} (m : M S A) (h : exn → M S A) : M S A := λ s,
  match m s with
  | (Throw e, s') => h e s'
  | r => r
  end.

Fixpoint mapM_ {A} (f : A → M S unit) (l : list A) : M S unit :=
  match l with
  | [] => mret tt
  | x :: l' => f x ≫= λ _, mapM_ f l'
  end.
End MonadOps.

(** Run a call on a part of the state. *)
Definition zoom {S T A} (get_part : S → T) (set_part : T → S → S) (m : M T A) : M S A := λ s,
  let '(r, t) := m (get_part s) in (r, set_part t s).

(** Inequalities between closed integers, by evaluation. *)
Ltac zdec := repeat split; first [by apply Z.leb_le | by apply Z.ltb_lt].

(** A decidable closed proposition, by evaluation. *)
Ltac bdec := apply (bool_decide_unpack _); by vm_compute.

(** A run that succeeds is a sequence of runs that do. *)
Lemma bind_ok {T A B} (m : M T A) (f : A → M T B) s b s' :
  (m ≫= f) s = (Ok b, s') → ∃ a s1, m s = (Ok a, s1) ∧ f a s1 = (Ok b, s').
Proof. unfold mbind, M_bind. destruct (m s) as [[a| |] s1]; [by eauto|done..]. Qed.

(** Its first step, named; and a check, which has held. *)
Ltac run_step Hrun E :=
  let u := fresh "u" in let y := fresh "y" in apply bind_ok in Hrun as (u & y & E & Hrun).
Ltac run_check Hrun :=
  let E := fresh "E" in run_step Hrun E; unfold check_throw in E;
  match type of E with (if ?c then _ else _) _ = _ => destruct c eqn:?; [|discriminate E] end;
  injection E; clear E; intros <- <-.

(** Sequences of calls. *)
Lemma mapM_app {T A} (f : A → M T unit) (l l' : list A) s : mapM_ f (l ++ l') s = (mapM_ f l;; mapM_ f l') s.
Proof.
  revert s. induction l as [|x l IH]; intros s; [done|]. cbn [mapM_ app]. unfold mbind, M_bind.
  destruct (f x s) as [[[]| |] s']; [|done..]. apply IH.
Qed.

Lemma get_bind {T A} (f : T → M T A) s : (get ≫= f) s = f s s.
Proof. done. Qed.

Lemma bind_ext {T A B} (m : M T A) (f g : A → M T B) s :
  (∀ x s', m s = (Ok x, s') → f x s' = g x s') → (m ≫= f) s = (m ≫= g) s.
Proof. intros Hfg. unfold mbind, M_bind. destruct (m s) as [[| |] ?]; [by apply Hfg|done..]. Qed.

Lemma bind_left {T A B} (m m' : M T A) (f : A → M T B) s : m s = m' s → (m ≫= f) s = (m' ≫= f) s.
Proof. unfold mbind, M_bind. by intros ->. Qed.

Lemma bind_run {T A B} (m : M T A) (f : A → M T B) z x z' : m z = (Ok x, z') → (m ≫= f) z = f x z'.
Proof. unfold mbind, M_bind. by intros ->. Qed.

Lemma bind_assoc {T A B C} (m : M T A) (f : A → M T B) (g : B → M T C) z :
  ((m ≫= f) ≫= g) z = (m ≫= λ x, f x ≫= g) z.
Proof. unfold mbind, M_bind. by destruct (m z) as [[| |] ?]. Qed.

(** A loop over an interval, by its invariant. *)
Lemma mapM_seq_inv {S} (f : nat → M S unit) (I : nat → S → Prop) a n s :
  (∀ k s, a ≤ k < a + n → I k s → ∃ s', f k s = (Ok tt, s') ∧ I (k + 1) s') → I a s →
  ∃ s', mapM_ f (seq a n) s = (Ok tt, s') ∧ I (a + n) s'.
Proof.
  revert a s. induction n as [|n IH]; intros a s Hf Hi; cbn [seq mapM_].
  - exists s. rewrite Nat.add_0_r. done.
  - destruct (Hf a s ltac:(lia) Hi) as (s1 & Hs1 & Hi1). rewrite Nat.add_1_r in Hi1.
    destruct (IH (Datatypes.S a) s1) as (s2 & Hs2 & Hi2); [intros k s' Hk; apply Hf; lia|done|].
    exists s2. unfold mbind, M_bind. rewrite Hs1, Hs2. split; [done|]. by rewrite <-Nat.add_succ_comm.
Qed.

Ltac unfold_monad :=
  unfold mbind, M_bind, mret, M_ret, fmap, M_fmap, get, put, modify, gets, throw, undef, lift,
    check_throw, try_catch, zoom in *; cbn beta iota in *.

(** ** The life cycle shared by the managers, backends and executors

    Each class declares this enumeration for itself, with these members. *)

(* @src src/src/runtime/core/channel/channel_manager.h:43-48 State *)
Inductive State := kPreInit | kInit | kStart | kShutdown.

#[export] Instance State_eq_dec : EqDecision State.
Proof. solve_decision. Defined.

Definition state_eqb (a b : State) : bool := bool_decide (a = b).

(** ** Machine integers *)

Definition wrap (w z : Z) : Z := (z mod 2 ^ w)%Z.
Abbreviation wrap8 := (wrap 8).
Abbreviation wrap16 := (wrap 16).
Abbreviation wrap32 := (wrap 32).
Abbreviation wrap64 := (wrap 64).

Definition in_width (w z : Z) : Prop := (0 ≤ z < 2 ^ w)%Z.

Lemma wrap_in_width w z : (0 ≤ w)%Z → in_width w (wrap w z).
Proof. intros Hw. apply Z.mod_pos_bound, Z.pow_pos_nonneg; lia. Qed.

Lemma wrap_small w z : in_width w z → wrap w z = z.
Proof. intros H. by apply Z.mod_small. Qed.

Lemma wrap_wrap w z : wrap w (wrap w z) = wrap w z.
Proof. apply Zmod_mod. Qed.

(** The two's complement reading of [w] bits. *)
Definition signed (w z : Z) : Z :=
  let u := wrap w z in if (u <? 2 ^ (w - 1))%Z then u else (u - 2 ^ w)%Z.

Lemma signed_small w z : (0 ≤ z < 2 ^ (w - 1))%Z → (0 < w)%Z → signed w z = z.
Proof.
  intros Hz Hw. unfold signed. rewrite wrap_small.
  - by rewrite (proj2 (Z.ltb_lt _ _)) by lia.
  - split; [lia|]. pose proof (Z.pow_lt_mono_r 2 (w - 1) w). lia.
Qed.

(** [std::to_string] of an unsigned integer. *)
Definition to_string (z : Z) : string := NilEmpty.string_of_uint (N.to_uint (Z.to_N z)).

(** ** Characters and byte strings

    A C++ [char] is eight bits: an [ascii].  A [std::string] or
    [std::string_view] is a list of them. *)

Abbreviation bytes := (list ascii).

Definition u8_of_char (c : ascii) : Z := Z.of_N (N_of_ascii c).
Definition char_of_u8 (z : Z) : ascii := ascii_of_N (Z.to_N (wrap 8 z)).

Lemma u8_of_char_range c : in_width 8 (u8_of_char c).
Proof.
  unfold u8_of_char, in_width. pose proof (N_ascii_bounded c).
  change (2 ^ 8)%Z with 256%Z. lia.
Qed.

Lemma u8_of_char_of_u8 z : u8_of_char (char_of_u8 z) = wrap 8 z.
Proof.
  unfold u8_of_char, char_of_u8. pose proof (wrap_in_width 8 z ltac:(lia)) as H.
  unfold in_width in H. change (2 ^ 8)%Z with 256%Z in H.
  rewrite N_ascii_embedding by lia. lia.
Qed.

Lemma char_of_u8_of_char c : char_of_u8 (u8_of_char c) = c.
Proof.
  unfold char_of_u8. rewrite wrap_small by apply u8_of_char_range.
  unfold u8_of_char. rewrite N2Z.id. apply ascii_N_embedding.
Qed.

Lemma u8_of_char_inj c d : u8_of_char c = u8_of_char d → c = d.
Proof. intros H. by rewrite <-(char_of_u8_of_char c), H, char_of_u8_of_char. Qed.

(** The bytes of a string literal. *)
Definition lit (s : string) : bytes := list_ascii_of_string s.
Definition str (b : bytes) : string := string_of_list_ascii b.

Lemma str_lit s : str (lit s) = s.
Proof. apply string_of_list_ascii_of_string. Qed.
Lemma lit_str b : lit (str b) = b.
Proof. apply list_ascii_of_string_of_list_ascii. Qed.

Lemma lit_inj s s' : lit s = lit s' → s = s'.
Proof. intros Heq. by rewrite <-(str_lit s), Heq, str_lit. Qed.

(** ** Little-endian byte sequences *)

Section LittleEndian.
Local Open Scope Z_scope.

Fixpoint le_bytes (n : nat) (z : Z) : bytes :=
  match n with
  | O => []
  | S n' => char_of_u8 z :: le_bytes n' (z / 256)
  end.

Fixpoint le_val (b : bytes) : Z :=
  match b with
  | [] => 0
  | c :: b' => u8_of_char c + 256 * le_val b'
  end.

Lemma length_le_bytes n z : length (le_bytes n z) = n.
Proof. revert z; induction n as [|n IH]; intros z; cbn; [done|]. by rewrite IH. Qed.

Lemma le_val_range b : 0 ≤ le_val b < 256 ^ Z.of_nat (length b).
Proof.
  induction b as [|c b IH]; cbn [le_val length]; [lia|].
  rewrite Nat2Z.inj_succ, Z.pow_succ_r by lia.
  pose proof (u8_of_char_range c) as Hc. unfold in_width in Hc.
  change (2 ^ 8) with 256 in Hc. lia.
Qed.

Lemma le_val_le_bytes n z : 0 ≤ z < 256 ^ Z.of_nat n → le_val (le_bytes n z) = z.
Proof.
  revert z; induction n as [|n IH]; intros z Hz; cbn [le_bytes le_val].
  - change (256 ^ Z.of_nat 0) with 1 in Hz. lia.
  - rewrite Nat2Z.inj_succ, Z.pow_succ_r in Hz by lia.
    rewrite u8_of_char_of_u8, IH.
    + unfold wrap. change (2 ^ 8) with 256. pose proof (Z.div_mod z 256). lia.
    + split; [apply Z.div_pos; lia | apply Z.div_lt_upper_bound; lia].
Qed.

Lemma le_bytes_le_val b : le_bytes (length b) (le_val b) = b.
Proof.
  induction b as [|c b IH]; cbn [le_val length le_bytes]; [done|].
  pose proof (u8_of_char_range c) as Hc. unfold in_width in Hc. change (2 ^ 8) with 256 in Hc.
  f_equal.
  - transitivity (char_of_u8 (u8_of_char c)); [|apply char_of_u8_of_char].
    unfold char_of_u8, wrap. change (2 ^ 8) with 256.
    by rewrite Z.mul_comm, Z_mod_plus_full.
  - rewrite Z.mul_comm, Z.div_add, Z.div_small by lia. by rewrite Z.add_0_l.
Qed.
End LittleEndian.

(** ** Lists *)

(** Overwrite [src] at position [i] of [l]: what [memcpy] does to a buffer
    that has room for it. *)
Definition splice {A} (i : nat) (src l : list A) : list A :=
  take i l ++ src ++ drop (i + length src) l.

Section ListLemmas.
Context {A : Type}.
Implicit Types l src : list A.

Lemma length_splice i src l :
  i + length src ≤ length l → length (splice i src l) = length l.
Proof. intros H. unfold splice. rewrite !length_app, length_take, length_drop. lia. Qed.

Lemma splice_read i src l :
  i + length src ≤ length l → take (length src) (drop i (splice i src l)) = src.
Proof.
  intros H. unfold splice.
  rewrite drop_app_length' by (rewrite length_take; lia).
  by rewrite take_app_length.
Qed.

Lemma splice_before i src l : i ≤ length l → take i (splice i src l) = take i l.
Proof.
  intros H. unfold splice. by rewrite take_app_length' by (rewrite length_take; lia).
Qed.

Lemma splice_after i src l :
  i + length src ≤ length l →
  drop (i + length src) (splice i src l) = drop (i + length src) l.
Proof.
  intros H. unfold splice. rewrite app_assoc.
  by rewrite drop_app_length' by (rewrite length_app, length_take; lia).
Qed.

(** Two adjacent writes are one. *)
Lemma splice_splice i e1 e2 l :
  i + length e1 + length e2 ≤ length l →
  splice (i + length e1) e2 (splice i e1 l) = splice i (e1 ++ e2) l.
Proof.
  intros H. unfold splice at 1 3.
  assert (take (i + length e1) (splice i e1 l) = take i l ++ e1) as ->.
  { unfold splice. rewrite app_assoc. apply take_app_length'.
    rewrite length_app, length_take. lia. }
  rewrite <-(drop_drop (splice i e1 l)), splice_after, drop_drop, length_app by lia.
  rewrite <-!app_assoc. do 4 f_equal. lia.
Qed.
End ListLemmas.

(** ** Unordered containers *)

(** The order in which unordered containers are gone through. *)
Class IterOrder := {
  map_order {A} (m : gmap string A) : list (string * A);
  set_order (s : gset string) : list string;
  map_order_perm {A} (m : gmap string A) : map_order m ≡ₚ map_to_list m;
  set_order_perm (s : gset string) : set_order s ≡ₚ elements s
}.

(** One such order. *)
Definition plain_order : IterOrder.
Proof. exists (λ A m, map_to_list m) elements; done. Defined.

Section IterOrder.
Context `{IterOrder}.

Lemma elem_of_map_order {A} (m : gmap string A) k a : (k, a) ∈ map_order m ↔ m !! k = Some a.
Proof. by rewrite map_order_perm, elem_of_map_to_list. Qed.

Lemma NoDup_map_order {A} (m : gmap string A) : NoDup (map fst (map_order m)).
Proof.
  assert (map fst (map_order m) ≡ₚ (map_to_list m).*1) as -> by (apply Permutation_map, map_order_perm).
  apply NoDup_fst_map_to_list.
Qed.

Lemma elem_of_set_order (s : gset string) x : x ∈ set_order s ↔ x ∈ s.
Proof. by rewrite set_order_perm, elem_of_elements. Qed.

Lemma set_order_head (s : gset string) : s ≠ ∅ → ∃ x l, set_order s = x :: l ∧ x ∈ s.
Proof.
  intros Hs. destruct (set_order s) as [|x l] eqn:E.
  - exfalso. apply Hs, set_eq. intros x. rewrite <-elem_of_set_order, E. split; [|set_solver].
    by intros ?%not_elem_of_nil.
  - exists x, l. split; [done|]. rewrite <-elem_of_set_order, E. apply list_elem_of_here.
Qed.

Lemma map_order_head {A} (m : gmap string A) : m ≠ ∅ → ∃ k a l, map_order m = (k, a) :: l ∧ m !! k = Some a.
Proof.
  intros Hm. destruct (map_order m) as [|[k a] l] eqn:E.
  - exfalso. apply Hm, map_eq. intros k. rewrite lookup_empty. destruct (m !! k) as [a|] eqn:Hk; [|done].
    apply elem_of_map_order in Hk. rewrite E in Hk. by apply not_elem_of_nil in Hk.
  - exists k, a, l. split; [done|]. apply elem_of_map_order. rewrite E. apply list_elem_of_here.
Qed.

End IterOrder.

(** ** Automation *)

Create HintDb aimrt discriminated.
#[export] Hint Resolve u8_of_char_range wrap_in_width : aimrt.

(** Case analysis on the scrutinee of the first [match] or [if] of the goal. *)
Ltac split_match :=
  match goal with
  | |- context [match ?x with _ => _ end] => destruct x eqn:?
  end.
