(* ===== verification/ZeroCopy.v ===== *)
(** * Streams over buffer arrays:
    [src/interface/aimrt_module_protobuf_interface/util/protobuf_zero_copy_stream.h]

    The protobuf library serializes into a stream that hands out pieces of the
    buffers it allocates, and parses from one that hands out pieces of the
    buffers of a message; it gives back the end of a piece that it does not use.
    A piece is a [Region] of a buffer.  The library is a parameter: of it only
    its contract is used, in the step relation [os_step] - what is given back is
    at most the last piece.  What the allocator gives is a parameter too.

    Theorems: what is written is what the buffers hold, in blocks that are full
    but the last, and is read back piece by piece; skipping; and what is given
    back to the reader in the last buffer, which is lost. *)

From S2P Require Import Prelude.
Local Open Scope Z_scope.

(** A piece of a buffer: its number, the offset and the size, an [int]. *)
Record Region := mkRegion { rg_buffer : nat; rg_offset : Z; rg_size : Z }.

Definition region_bytes (bufs : list bytes) (r : Region) : bytes :=
  match bufs !! rg_buffer r with
  | Some b => take (Z.to_nat (rg_size r)) (drop (Z.to_nat (rg_offset r)) b)
  | None => []
  end.

(** ** Writing *)

Section Output.
(** What the allocator gives for a size, when the array has some buffers. *)
Context (allocate : list bytes → Z → option bytes).

(** The contents of the buffers, the size of the last block and how much of it
    is used, and the number of bytes. *)
(* @src src/src/interface/aimrt_module_protobuf_interface/util/protobuf_zero_copy_stream.h:56-64 BufferArrayZeroCopyOutputStream *)
Record OutputStream := mkOut { os_data : list bytes; os_block : Z; os_used : Z; os_count : Z }.

(* @src src/src/interface/aimrt_module_protobuf_interface/util/protobuf_zero_copy_stream.h:17-21 BufferArrayZeroCopyOutputStream::BufferArrayZeroCopyOutputStream *)
Definition os_new (data : list bytes) : OutputStream := mkOut data (1024 / 2) (1024 / 2) 0.

(* @src src/src/interface/aimrt_module_protobuf_interface/util/protobuf_zero_copy_stream.h:25-41 BufferArrayZeroCopyOutputStream::Next *)
Definition os_Next : M OutputStream (option Region) :=
  s ← get;
  if os_used s =? os_block s then
    let block := wrap64 (Z.shiftl (os_block s) 1) in
    match allocate (os_data s) block with
    | None => modify (λ s, mkOut (os_data s) block (os_used s) (os_count s));; mret None
    | Some b =>
        let size := signed 32 block in
        put (mkOut (os_data s ++ [b]) block block (os_count s + size));;
        mret (Some (mkRegion (length (os_data s)) 0 size))
    end
  else
    match os_data s with
    | [] => undef
    | _ =>
        let size := signed 32 (wrap64 (os_block s - os_used s)) in
        put (mkOut (os_data s) (os_block s) (os_block s) (os_count s + size));;
        mret (Some (mkRegion (length (os_data s) - 1) (os_used s) size))
    end.

(* @src src/src/interface/aimrt_module_protobuf_interface/util/protobuf_zero_copy_stream.h:43-46 BufferArrayZeroCopyOutputStream::BackUp *)
Definition os_BackUp (count : Z) (s : OutputStream) : OutputStream :=
  mkOut (os_data s) (os_block s) (wrap64 (os_used s - count)) (os_count s - count).

(* @src src/src/interface/aimrt_module_protobuf_interface/util/protobuf_zero_copy_stream.h:48-48 BufferArrayZeroCopyOutputStream::ByteCount *)
Definition os_ByteCount (s : OutputStream) : Z := os_count s.

(** The last buffer gets the length that is used of it, which has to be there. *)
(* @src src/src/interface/aimrt_module_protobuf_interface/util/protobuf_zero_copy_stream.h:50-54 BufferArrayZeroCopyOutputStream::CommitLastBuf *)
Definition CommitLastBuf (s : OutputStream) : res (list bytes) :=
  match last (os_data s) with
  | None => Ok []
  | Some b =>
      if os_used s <=? Z.of_nat (length b)
      then Ok (take (length (os_data s) - 1) (os_data s) ++ [take (Z.to_nat (os_used s)) b])
      else Undef
  end.

(** The library writes into a piece. *)
Definition write_region (r : Region) (chunk : bytes) (s : OutputStream) : OutputStream :=
  mkOut (alter (splice (Z.to_nat (rg_offset r)) chunk) (rg_buffer r) (os_data s)) (os_block s) (os_used s) (os_count s).

(** What the library does: it fills the piece it gets, or gives back the end of
    it.  With the stream: the bytes it has written, and how much it may still
    give back. *)
Inductive os_step : OutputStream * bytes * Z → OutputStream * bytes * Z → Prop :=
| step_next s flat last r s1 chunk :
    os_Next s = (Ok (Some r), s1) → Z.of_nat (length chunk) = rg_size r →
    os_step (s, flat, last) (write_region r chunk s1, flat ++ chunk, rg_size r)
| step_backup s flat last n :
    0 ≤ n ≤ last → os_step (s, flat, last) (os_BackUp n s, take (length flat - Z.to_nat n) flat, 0).

(** *** What is written is what the buffers hold *)

Context (Hallocate : ∀ data n b, allocate data n = Some b → Z.of_nat (length b) = n).

(** The block after [n] buffers. *)
Definition block_of (n : nat) : Z := 512 * 2 ^ Z.of_nat n.

Lemma block_of_succ n : block_of (S n) = 2 * block_of n.
Proof. unfold block_of. rewrite Nat2Z.inj_succ, Z.pow_succ_r by lia. lia. Qed.

Lemma block_of_pos n : 512 ≤ block_of n.
Proof. unfold block_of. pose proof (Z.pow_pos_nonneg 2 (Z.of_nat n)). lia. Qed.

(** Every buffer is a block; what has been written is the buffers but the last,
    and what is used of the last. *)
Record os_ok (s : OutputStream) (flat : bytes) (back : Z) : Prop := {
  ok_block : os_block s = block_of (length (os_data s));
  ok_sizes : ∀ i b, os_data s !! i = Some b → Z.of_nat (length b) = block_of (S i);
  ok_used : 0 ≤ back ≤ os_used s ≤ os_block s;
  ok_flat : flat = take (length flat) (concat (os_data s)) ∧
            Z.of_nat (length flat) = Z.of_nat (length (concat (os_data s))) - (os_block s - os_used s);
  ok_empty : os_data s = [] → os_used s = os_block s ∧ back = 0;
  ok_count : os_count s = Z.of_nat (length flat)
}.

Lemma os_new_ok : os_ok (os_new []) [] 0.
Proof. split; cbn; try done. Qed.

(** Twenty-one buffers are two gigabytes. *)
Lemma block_of_small n : (n ≤ 21)%nat → block_of n ≤ 2 ^ 30.
Proof.
  intros Hn. unfold block_of. pose proof (Z.pow_le_mono_r 2 (Z.of_nat n) 21 ltac:(lia) ltac:(lia)).
  change (2 ^ 30) with (512 * 2 ^ 21). lia.
Qed.

(** The bytes of the last buffer that are in use. *)
Lemma os_ok_last s flat back bs b :
  os_ok s flat back → os_data s = bs ++ [b] →
  flat = concat bs ++ take (Z.to_nat (os_used s)) b ∧ Z.of_nat (length b) = os_block s.
Proof.
  intros [Hb Hsz Hu [Hf Hl] _ _] Hd.
  assert (Z.of_nat (length b) = os_block s) as Hlen.
  { rewrite Hb, Hd, length_app, Nat.add_1_r. apply Hsz. rewrite Hd. by apply list_lookup_middle. }
  split; [|done]. rewrite Hf, Hd, concat_app. cbn [concat]. rewrite app_nil_r.
  rewrite Hd, concat_app, length_app in Hl. cbn [concat] in Hl. rewrite app_nil_r in Hl.
  rewrite take_app_ge by lia. f_equal. f_equal. lia.
Qed.

Lemma os_Next_ok s flat back r s1 chunk :
  os_ok s flat back → os_Next s = (Ok (Some r), s1) → Z.of_nat (length chunk) = rg_size r →
  (length (os_data s1) ≤ 21)%nat → os_ok (write_region r chunk s1) (flat ++ chunk) (rg_size r).
Proof using Hallocate.
  intros Hok. pose proof Hok as [Hb Hsz Hu [Hf Hl] He Hc]. unfold os_Next. rewrite get_bind.
  destruct (Z.eqb_spec (os_used s) (os_block s)) as [Hub|Hub].
  - destruct (allocate _ _) as [b|] eqn:Ha; [|done]. intros [= <- <-] Hch Hn. cbn in Hch, Hn |- *.
    rewrite length_app, Nat.add_1_r in Hn. pose proof (block_of_small _ Hn) as Hsm. pose proof (block_of_pos (length (os_data s))).
    rewrite block_of_succ in Hsm. rewrite Z.shiftl_mul_pow2 in * by lia. change (2 ^ 1) with 2 in *.
    rewrite Hb in *. rewrite (wrap_small 64) in * by (unfold in_width; lia). rewrite signed_small in * by lia.
    pose proof (Hallocate _ _ _ Ha) as Hlb.
    assert (alter (splice 0 chunk) (length (os_data s)) (os_data s ++ [b]) = os_data s ++ [chunk]) as Halt.
    { rewrite <-(Nat.add_0_r (length (os_data s))) at 1. rewrite alter_app_r. cbn. unfold splice. cbn.
      by rewrite drop_ge, app_nil_r by lia. }
    assert (flat = concat (os_data s)) as -> by (rewrite Hf; apply take_ge; lia).
    split; unfold write_region; cbn [rg_offset rg_buffer rg_size os_data os_block os_used os_count]; change (Z.to_nat 0) with 0%nat; rewrite ?Halt.
    + rewrite length_app, Nat.add_1_r, block_of_succ. lia.
    + intros i x Hx. apply lookup_snoc_Some in Hx as [[_ Hx]|[-> <-]]; [by apply Hsz|]. rewrite block_of_succ. lia.
    + lia.
    + rewrite !concat_app. cbn [concat]. rewrite app_nil_r, take_ge by lia. split; [done|lia].
    + intros Hnil. by destruct (os_data s).
    + rewrite length_app. lia.
  - destruct (os_data s) as [|b0 bs0] eqn:Hd; [by destruct (He eq_refl)|]. rewrite <-Hd in *.
    destruct (exists_last (l := os_data s)) as (bs & b & Hdl); [by rewrite Hd|]. clear Hd bs0 b0.
    intros [= <- <-] Hch Hn. cbn in Hch, Hn |- *.
    pose proof (block_of_small _ Hn) as Hsm. destruct (os_ok_last _ _ _ _ _ Hok Hdl) as [Hfl Hlb].
    rewrite Hb in *. rewrite (wrap_small 64) in * by (unfold in_width; lia). rewrite signed_small in * by lia.
    assert (alter (splice (Z.to_nat (os_used s)) chunk) (length (os_data s) - 1)%nat (os_data s) =
            bs ++ [take (Z.to_nat (os_used s)) b ++ chunk]) as Halt.
    { rewrite Hdl, length_app, Nat.add_sub. rewrite <-(Nat.add_0_r (length bs)) at 1. rewrite alter_app_r. cbn. unfold splice.
      by rewrite drop_ge, app_nil_r by lia. }
    split; unfold write_region; cbn [rg_offset rg_buffer rg_size os_data os_block os_used os_count]; rewrite ?Halt.
    + rewrite Hdl, !length_app. done.
    + intros i x Hx. apply lookup_snoc_Some in Hx as [[_ Hx]|[-> <-]].
      * apply Hsz. rewrite Hdl. by apply lookup_app_l_Some.
      * rewrite length_app, length_take. rewrite Hdl, length_app, Nat.add_1_r in Hlb, Hch, Hu. lia.
    + lia.
    + rewrite Hfl, concat_app. cbn [concat]. rewrite app_nil_r, <-app_assoc, firstn_all. split; [done|lia].
    + intros Hnil. by destruct bs.
    + rewrite length_app. lia.
Qed.

Lemma os_BackUp_ok s flat back n :
  os_ok s flat back → 0 ≤ n ≤ back → (length (os_data s) ≤ 21)%nat →
  os_ok (os_BackUp n s) (take (length flat - Z.to_nat n) flat) 0.
Proof.
  intros [Hb Hsz Hu [Hf Hl] He Hc] Hn Hlen. pose proof (block_of_small _ Hlen). pose proof (block_of_pos (length (os_data s))).
  assert (n ≤ Z.of_nat (length flat) ∧ (os_data s = [] → n = 0)) as [Hnl Hn0].
  { destruct (os_data s) as [|b0 bs0] eqn:Hd; [destruct (He eq_refl); lia|]. rewrite <-Hd in *.
    destruct (exists_last (l := os_data s)) as (bs & b & Hdl); [by rewrite Hd|]. split; [|by rewrite Hd].
    assert (Z.of_nat (length b) = os_block s) as Hlb.
    { rewrite Hb, Hdl, length_app, Nat.add_1_r. apply Hsz. rewrite Hdl. by apply list_lookup_middle. }
    rewrite Hdl, concat_app, length_app in Hl. cbn [concat] in Hl. rewrite app_nil_r in Hl. lia. }
  unfold os_BackUp. split; cbn [os_data os_block os_used os_count]; rewrite ?(wrap_small 64) by (unfold in_width; lia).
  - done.
  - done.
  - lia.
  - rewrite length_take, Nat.min_l by lia. rewrite Hf at 2. rewrite take_take, Nat.min_l by lia. split; [done|lia].
  - intros Hd. rewrite (Hn0 Hd). destruct (He Hd). lia.
  - rewrite length_take. lia.
Qed.
Lemma os_step_data x y : os_step x y → (length (os_data x.1.1) ≤ length (os_data y.1.1))%nat.
Proof using allocate.
  destruct 1 as [s flat last r s1 chunk Hnext _|]; [|done]. cbn. rewrite length_alter. revert Hnext.
  unfold os_Next. rewrite get_bind. destruct (_ =? _).
  - destruct (allocate _ _); [|done]. intros [= _ <-]. cbn. rewrite length_app. lia.
  - destruct (os_data s) eqn:Hd; [done|]. intros [= _ <-]. done.
Qed.

Lemma os_steps_ok x y :
  rtc os_step x y → os_ok x.1.1 x.1.2 x.2 → (length (os_data y.1.1) ≤ 21)%nat → os_ok y.1.1 y.1.2 y.2.
Proof using Hallocate.
  intros Hrun Hx. revert y Hrun.
  apply (rtc_ind_r (λ y, length (os_data y.1.1) ≤ 21 → os_ok y.1.1 y.1.2 y.2)%nat); [done|]. intros y z _ Hstep IH Hz.
  pose proof (os_step_data _ _ Hstep). specialize (IH ltac:(lia)).
  destruct Hstep as [s flat back r s1 chunk Hnext Hch|s flat back n Hn]; cbn in *.
  - rewrite length_alter in Hz. by apply (os_Next_ok s flat back).
  - by apply (os_BackUp_ok s flat back).
Qed.

(** The buffers of a finished stream: blocks, full but for the last. *)
Definition blocks (bufs : list bytes) : Prop :=
  ∀ i b, bufs !! i = Some b →
    Z.of_nat (length b) ≤ block_of (S i) ∧ ((S i < length bufs)%nat → Z.of_nat (length b) = block_of (S i)).

Lemma commit_ok s flat back : os_ok s flat back → ∃ bufs, CommitLastBuf s = Ok bufs ∧ concat bufs = flat ∧ blocks bufs.
Proof.
  intros Hok. unfold CommitLastBuf. destruct (os_data s) as [|b0 bs0] eqn:Hd.
  - exists []. split; [done|]. split; [|by intros i b Hib]. cbn.
    destruct Hok as [_ _ _ [Hf _] _ _]. rewrite Hf, Hd. by destruct (length flat).
  - rewrite <-Hd in *. destruct (exists_last (l := os_data s)) as (bs & b & Hdl); [by rewrite Hd|]. clear Hd.
    destruct (os_ok_last _ _ _ _ _ Hok Hdl) as [Hf Hlb]. destruct Hok as [Hb Hsz Hu _ _ _].
    rewrite Hdl, last_snoc, length_app, Nat.add_sub, take_app_length. rewrite (proj2 (Z.leb_le _ _)) by lia.
    eexists. split; [done|]. split; [rewrite Hf, concat_app; cbn; by rewrite app_nil_r|].
    intros i x Hx. rewrite length_app, Nat.add_1_r. apply lookup_snoc_Some in Hx as [[Hi Hx]|[-> <-]].
    + rewrite (Hsz i x); [done|]. rewrite Hdl. by apply lookup_app_l_Some.
    + split; [|lia]. rewrite length_take. rewrite Hb, Hdl, length_app, Nat.add_1_r in Hlb. lia.
Qed.
End Output.

(** ** Reading *)

(** The number of the next buffer, and how much of the one before is unused. *)
(* @src src/src/interface/aimrt_module_protobuf_interface/util/protobuf_zero_copy_stream.h:122-126 BufferArrayZeroCopyInputStream *)
Record InputStream := mkIn { is_view : list bytes; is_unused : Z; is_index : nat; is_count : Z }.

(* @src src/src/interface/aimrt_module_protobuf_interface/util/protobuf_zero_copy_stream.h:70-71 BufferArrayZeroCopyInputStream::BufferArrayZeroCopyInputStream *)
Definition is_new (view : list bytes) : InputStream := mkIn view 0 0 0.

Definition buf_len (b : bytes) : Z := Z.of_nat (length b).

(* @src src/src/interface/aimrt_module_protobuf_interface/util/protobuf_zero_copy_stream.h:75-90 BufferArrayZeroCopyInputStream::Next *)
Definition is_Next : M InputStream (option Region) :=
  s ← get;
  if bool_decide (length (is_view s) ≤ is_index s)%nat then mret None
  else if is_unused s =? 0 then
    match is_view s !! is_index s with
    | None => undef
    | Some b =>
        let size := signed 32 (buf_len b) in
        put (mkIn (is_view s) (is_unused s) (S (is_index s)) (is_count s + size));;
        mret (Some (mkRegion (is_index s) 0 size))
    end
  else
    match is_view s !! (is_index s - 1)%nat with
    | None => undef
    | Some b =>
        let size := signed 32 (is_unused s) in
        put (mkIn (is_view s) 0 (is_index s) (is_count s + size));;
        mret (Some (mkRegion (is_index s - 1) (buf_len b - is_unused s) size))
    end.

(* @src src/src/interface/aimrt_module_protobuf_interface/util/protobuf_zero_copy_stream.h:92-95 BufferArrayZeroCopyInputStream::BackUp *)
Definition is_BackUp (count : Z) (s : InputStream) : InputStream :=
  mkIn (is_view s) (wrap64 (is_unused s + count)) (is_index s) (is_count s - count).

(** The loop of [Skip]; it takes at most one round per buffer that is left and
    one more. *)
(* @src src/src/interface/aimrt_module_protobuf_interface/util/protobuf_zero_copy_stream.h:102-114 BufferArrayZeroCopyInputStream::Skip (loop) *)
Fixpoint skip_loop (fuel : nat) (view : list bytes) (count unused : Z) (index : nat) : option (Z * Z * nat) :=
  match fuel with
  | O => None
  | S fuel =>
      if count <? signed 32 unused then Some (0, wrap64 (unused - count), index)
      else
        let count := signed 32 (count - unused) in
        match view !! index with
        | None => Some (count, unused, index)
        | Some b => skip_loop fuel view count (buf_len b) (S index)
        end
  end.

(* @src src/src/interface/aimrt_module_protobuf_interface/util/protobuf_zero_copy_stream.h:97-117 BufferArrayZeroCopyInputStream::Skip *)
Definition is_Skip (count : Z) (s : InputStream) : option (bool * InputStream) :=
  match skip_loop (S (length (is_view s))) (is_view s) count (is_unused s) (is_index s) with
  | None => None
  | Some (rest, unused, index) => Some (rest =? 0, mkIn (is_view s) unused index (is_count s + count))
  end.

(* @src src/src/interface/aimrt_module_protobuf_interface/util/protobuf_zero_copy_stream.h:119-119 BufferArrayZeroCopyInputStream::ByteCount *)
Definition is_ByteCount (s : InputStream) : Z := is_count s.

(** What is left to read. *)
Definition remaining (s : InputStream) : bytes :=
  match is_index s with
  | O => []
  | S i => match is_view s !! i with
           | Some b => drop (Z.to_nat (buf_len b - is_unused s)) b
           | None => []
           end
  end ++ concat (drop (is_index s) (is_view s)).

Record stream_ok (s : InputStream) : Prop := {
  in_sizes : Forall (λ b, buf_len b < 2 ^ 31) (is_view s);
  in_index : (is_index s ≤ length (is_view s))%nat;
  in_unused : 0 ≤ is_unused s ∧
    match is_index s with
    | O => is_unused s = 0
    | S i => ∀ b, is_view s !! i = Some b → is_unused s ≤ buf_len b
    end
}.

Lemma is_new_ok view : Forall (λ b, buf_len b < 2 ^ 31) view → stream_ok (is_new view) ∧ remaining (is_new view) = concat view.
Proof. intros Hs. split; [|by unfold remaining]. split; [done|cbn; lia|by split]. Qed.

Lemma unused_chunk b u : 0 ≤ u ≤ buf_len b → take (Z.to_nat u) (drop (Z.to_nat (buf_len b - u)) b) = drop (Z.to_nat (buf_len b - u)) b.
Proof. intros Hu. apply take_ge. rewrite length_drop. unfold buf_len in *. lia. Qed.

(** A piece that is the end of the buffer that has been begun. *)
Definition last_piece (s : InputStream) (r : Region) : Prop :=
  is_unused s = 0 ∧ is_index s = S (rg_buffer r) ∧
  ∃ b, is_view s !! rg_buffer r = Some b ∧ 0 ≤ rg_offset r ∧ 0 ≤ rg_size r ∧ rg_offset r + rg_size r = buf_len b.

Lemma last_piece_bytes s r b :
  last_piece s r → is_view s !! rg_buffer r = Some b →
  region_bytes (is_view s) r = drop (Z.to_nat (rg_offset r)) b ∧ buf_len (region_bytes (is_view s) r) = rg_size r.
Proof.
  intros (_ & _ & b' & Hb' & Ho & Hz & Hsum) Hb. rewrite Hb' in Hb. injection Hb as ->. unfold region_bytes. rewrite Hb'.
  unfold buf_len in *. rewrite take_ge, length_drop by (rewrite length_drop; lia). split; [done|lia].
Qed.

(** [Next] gives what comes next of what is left, unless all the buffers have
    been begun. *)
Lemma is_Next_ok s : stream_ok s →
  if decide (is_index s = length (is_view s)) then is_Next s = (Ok None, s)
  else ∃ r s', is_Next s = (Ok (Some r), s') ∧ stream_ok s' ∧ is_view s' = is_view s ∧ last_piece s' r ∧
    region_bytes (is_view s) r ++ remaining s' = remaining s ∧ is_count s' = is_count s + rg_size r ∧
    (is_unused s = 0 → is_index s' = S (is_index s)).
Proof.
  intros [Hs Hi [Hu0 Hu]]. unfold is_Next. rewrite get_bind. destruct (decide _) as [Heq|Hne].
  { by rewrite bool_decide_true by lia. }
  rewrite bool_decide_false by lia. destruct (Z.eqb_spec (is_unused s) 0) as [Hz|Hz].
  - destruct (lookup_lt_is_Some_2 (is_view s) (is_index s) ltac:(lia)) as [b Hb]. rewrite Hb.
    pose proof (proj1 (Forall_lookup _ _) Hs _ _ Hb) as Hlt. cbn in Hlt. assert (0 ≤ buf_len b) by (unfold buf_len; lia).
    rewrite signed_small by lia. eexists _, _. split; [reflexivity|].
    split; [split; cbn; [done|lia|split; [lia|intros x Hx; unfold buf_len; lia]]|]. split; [done|].
    split; [split; [done|]; split; [done|]; exists b; cbn; split; [done|lia]|]. split; [|by split].
    unfold region_bytes, remaining; cbn. rewrite Hb, Hz, Z.sub_0_r, (drop_S _ b _ Hb). change (Z.to_nat 0) with 0%nat.
    rewrite drop_0, take_ge, (drop_ge b) by (unfold buf_len; lia). cbn. destruct (is_index s) as [|i]; [done|].
    destruct (is_view s !! i) as [x|]; [|done]. by rewrite Z.sub_0_r, (drop_ge x) by (unfold buf_len; lia).
  - destruct (is_index s) as [|i] eqn:Hidx; [done|]. cbn [Nat.sub]. rewrite Nat.sub_0_r.
    destruct (lookup_lt_is_Some_2 (is_view s) i ltac:(lia)) as [b Hb]. rewrite Hb.
    pose proof (proj1 (Forall_lookup _ _) Hs _ _ Hb) as Hlt. cbn in Hlt. specialize (Hu b Hb).
    rewrite signed_small by lia. eexists _, _. split; [reflexivity|].
    split; [split; cbn; [done|lia|split; [lia|intros x Hx; unfold buf_len; lia]]|]. split; [done|].
    split; [split; [done|]; split; [done|]; exists b; cbn; split; [done|lia]|]. split; [|by split].
    unfold region_bytes, remaining; cbn. rewrite Hidx, Hb, Z.sub_0_r, unused_chunk by lia.
    by rewrite (drop_ge b (Z.to_nat (buf_len b))) by (unfold buf_len; lia).
Qed.

(** What is given back is left to read again. *)
Lemma is_BackUp_ok s r n :
  stream_ok s → last_piece s r → 0 ≤ n ≤ rg_size r →
  let chunk := region_bytes (is_view s) r in
  stream_ok (is_BackUp n s) ∧ remaining (is_BackUp n s) = drop (length chunk - Z.to_nat n) chunk ++ remaining s.
Proof.
  intros [Hs Hi _] Hp Hn chunk. pose proof Hp as (Hu & Hidx & b & Hb & Ho & Hz & Hsum).
  destruct (last_piece_bytes s r b Hp Hb) as [Hch Hlen]. fold chunk in Hch, Hlen.
  pose proof (proj1 (Forall_lookup _ _) Hs _ _ Hb) as Hlt. cbn in Hlt.
  unfold is_BackUp. rewrite Hu, Z.add_0_l, (wrap_small 64) by (unfold in_width; lia). split.
  - split; cbn; [done|done|]. rewrite Hidx. split; [lia|]. intros x. rewrite Hb. intros [= <-]. lia.
  - unfold remaining; cbn. rewrite Hidx, Hb, Hu, Z.sub_0_r, (drop_ge b (Z.to_nat (buf_len b))) by (unfold buf_len; lia).
    cbn [app]. rewrite Hch, drop_drop. do 2 f_equal. unfold buf_len in *. rewrite Hch in Hlen. rewrite length_drop in Hlen |- *. lia.
Qed.

(** All the pieces, in order: what is parsed from a stream. *)
Fixpoint read_all (fuel : nat) : M InputStream bytes :=
  match fuel with
  | O => undef
  | S fuel =>
      r ← is_Next;
      match r with
      | None => mret []
      | Some r => s ← get; bs ← read_all fuel; mret (region_bytes (is_view s) r ++ bs)
      end
  end.

Lemma read_all_ok n : ∀ fuel s,
  stream_ok s → is_unused s = 0 → (length (is_view s) - is_index s ≤ n < fuel)%nat →
  ∃ s', read_all fuel s = (Ok (remaining s), s') ∧ is_count s' = is_count s + buf_len (remaining s).
Proof.
  induction n as [|n IH]; intros [|fuel] s Hok Hu Hn; [lia| |lia|]; pose proof (is_Next_ok s Hok) as Hnext; pose proof (in_index s Hok) as Hi;
    cbn [read_all]; unfold mbind, M_bind; (destruct (decide _) as [Hend|Hmore] in Hnext; [|try lia]).
  1,2: rewrite Hnext; exists s; unfold mret, M_ret;
    (assert (remaining s = []) as ->; [|split; [done|unfold buf_len; cbn; lia]]);
    unfold remaining; rewrite (drop_ge (is_view s)) by lia; destruct (is_index s) as [|i]; [done|];
    (destruct (is_view s !! i); [|done]); by rewrite Hu, Z.sub_0_r, drop_ge by (unfold buf_len; lia).
  destruct Hnext as (r & s1 & Hr & Hok1 & Hv & Hp & Hrem & Hc & Hidx). rewrite Hr. specialize (Hidx Hu).
  pose proof Hp as (Hu1 & _ & b & Hb & _).
  destruct (last_piece_bytes s1 r b Hp Hb) as [_ Hlen].
  destruct (IH fuel s1 Hok1 Hu1) as (s' & Hall & Hc'); [rewrite Hv, Hidx; lia|].
  unfold get. cbn beta iota. rewrite Hall. unfold mret, M_ret. exists s'. rewrite Hv, Hrem. split; [done|].
  rewrite Hc', Hc, <-Hrem. rewrite Hv in Hlen. unfold buf_len in *. rewrite length_app. lia.
Qed.

(** What is left of the buffer that has been begun. *)
Definition begun_rest (s : InputStream) : bytes :=
  match is_index s with
  | O => []
  | S i => match is_view s !! i with Some b => drop (Z.to_nat (buf_len b - is_unused s)) b | None => [] end
  end.

Lemma begun_rest_len s : stream_ok s → buf_len (begun_rest s) = is_unused s.
Proof.
  intros [_ Hi [Hu0 Hu]]. unfold begun_rest. destruct (is_index s) as [|i]; [by rewrite Hu|].
  destruct (lookup_lt_is_Some_2 (is_view s) i ltac:(lia)) as [b Hb]. rewrite Hb. specialize (Hu b Hb).
  unfold buf_len in *. rewrite length_drop. lia.
Qed.

(** The loop skips what is left, piece by piece; when there is not enough it
    says how much is missing. *)
Lemma skip_loop_ok n : ∀ fuel s count,
  stream_ok s → 0 ≤ count < 2 ^ 31 → is_unused s < 2 ^ 31 → (length (is_view s) - is_index s ≤ n < fuel)%nat →
  ∃ rest unused index, skip_loop fuel (is_view s) count (is_unused s) (is_index s) = Some (rest, unused, index) ∧
    let s' := mkIn (is_view s) unused index (is_count s + count) in
    if decide (count < buf_len (remaining s)) then rest = 0 ∧ stream_ok s' ∧ remaining s' = drop (Z.to_nat count) (remaining s)
    else rest = count - buf_len (remaining s).
Proof.
  induction n as [|n IH]; intros [|fuel] s count Hok Hc Hu31 Hn; [lia| |lia|]; pose proof Hok as [Hs Hi [Hu0 Hu]]; cbn [skip_loop];
    pose proof (begun_rest_len s Hok) as Hbl; change (remaining s) with (begun_rest s ++ concat (drop (is_index s) (is_view s)));
    set (tl := concat _); rewrite (signed_small 32 (is_unused s)) by lia;
    (destruct (Z.ltb_spec count (is_unused s)) as [Hlt|Hge];
     [rewrite (wrap_small 64) by (unfold in_width; lia); exists 0, (is_unused s - count), (is_index s); split; [done|]; cbn zeta;
      rewrite decide_True by (unfold buf_len in *; rewrite length_app; lia);
      destruct (is_index s) as [|i] eqn:Hidx; [lia|]; split; [done|];
      destruct (lookup_lt_is_Some_2 (is_view s) i ltac:(lia)) as [b Hb]; specialize (Hu b Hb);
      split; [split; cbn; [done|lia|split; [lia|intros x Hx; rewrite Hb in Hx; injection Hx as <-; lia]]|];
      unfold remaining, begun_rest in *; cbn; rewrite Hidx, Hb in *; rewrite drop_app_le by (unfold buf_len in *; lia);
      rewrite drop_drop; do 2 f_equal; unfold buf_len in *; lia|];
     rewrite (signed_small 32 (count - is_unused s)) by lia).
  1: assert (is_view s !! is_index s = None) as -> by (apply lookup_ge_None_2; lia);
     exists (count - is_unused s), (is_unused s), (is_index s); split; [done|]; cbn zeta;
     assert (tl = []) as -> by (unfold tl; by rewrite drop_ge by lia); rewrite app_nil_r, Hbl; rewrite decide_False by lia; done.
  destruct (is_view s !! is_index s) as [b|] eqn:Hb.
  - pose proof (proj1 (Forall_lookup _ _) Hs _ _ Hb) as Hlt. cbn in Hlt. pose proof (lookup_lt_Some _ _ _ Hb).
    set (s1 := mkIn (is_view s) (buf_len b) (S (is_index s)) (is_count s + is_unused s)).
    assert (stream_ok s1) as Hok1.
    { split; cbn; [done|lia|]. split; [unfold buf_len; lia|]. intros x. rewrite Hb. intros [= <-]. lia. }
    destruct (IH fuel s1 (count - is_unused s) Hok1 ltac:(lia) Hlt ltac:(cbn; lia)) as (rest & u & i & Hrun & Hspec).
    assert (remaining s1 = tl) as Htl.
    { unfold remaining, tl; cbn. rewrite Hb, Z.sub_diag, (drop_S _ b _ Hb). done. }
    exists rest, u, i. split; [exact Hrun|]. revert Hspec. rewrite Htl. cbn [s1 is_view is_count is_unused]. cbn zeta.
    replace (is_count s + is_unused s + (count - is_unused s)) with (is_count s + count) by lia.
    assert (buf_len (begun_rest s ++ tl) = is_unused s + buf_len tl) as Hsum by (unfold buf_len in *; rewrite length_app; lia).
    rewrite Hsum. destruct (decide (count - is_unused s < buf_len tl)), (decide (count < is_unused s + buf_len tl)); try lia.
    intros (Hr & Hok' & Hrem). split; [done|]. split; [done|]. rewrite Hrem, drop_app_ge by (unfold buf_len in *; lia).
    f_equal. unfold buf_len in *. lia.
  - apply lookup_ge_None in Hb. exists (count - is_unused s), (is_unused s), (is_index s). split; [done|]. cbn zeta.
    assert (tl = []) as -> by (unfold tl; by rewrite drop_ge by lia). rewrite app_nil_r, Hbl. rewrite decide_False by lia. done.
Qed.

(** ** What the streams promise *)

Section Streams.
Context (allocate : list bytes → Z → option bytes).
Context (Hallocate : ∀ data n b, allocate data n = Some b → Z.of_nat (length b) = n).

(** C36: What is serialized is what is parsed.  Whatever pieces the library asks
    for, fills and gives back, on an array that was empty, up to 21 buffers - two
    gigabytes: when it is done the array's buffers are, one after the other, the
    bytes it has written, which is what the stream counts; each buffer but the
    last is a full block, twice as long as the one before.  And a stream over
    these buffers gives the same bytes, piece after piece, and counts them. *)
Theorem zero_copy_roundtrip s flat back :
  rtc (os_step allocate) (os_new [], [], 0) (s, flat, back) → (length (os_data s) ≤ 21)%nat →
  ∃ bufs r, CommitLastBuf s = Ok bufs ∧ concat bufs = flat ∧ os_ByteCount s = buf_len flat ∧ blocks bufs ∧
    read_all (S (length bufs)) (is_new bufs) = (Ok flat, r) ∧ is_ByteCount r = buf_len flat.
Proof using Hallocate.
  intros Hrun Hlen. pose proof (os_steps_ok allocate Hallocate _ _ Hrun os_new_ok Hlen) as Hok. cbn in Hok.
  destruct (commit_ok _ _ _ Hok) as (bufs & Hcommit & Hflat & Hblocks). exists bufs.
  assert ((length bufs ≤ 21)%nat) as Hbufs.
  { revert Hcommit. unfold CommitLastBuf. destruct (last _); [|by intros [= <-]; cbn; lia]. destruct (_ <=? _); [|done].
    intros [= <-]. rewrite length_app, length_take. cbn. lia. }
  assert (Forall (λ b, buf_len b < 2 ^ 31) bufs) as Hs.
  { apply Forall_lookup. intros i b Hb. destruct (Hblocks i b Hb) as [Hle _]. apply lookup_lt_Some in Hb.
    pose proof (block_of_small (S i) ltac:(lia)). unfold buf_len. lia. }
  destruct (is_new_ok bufs Hs) as [Hin Hrem].
  destruct (read_all_ok (length bufs) (S (length bufs)) (is_new bufs) Hin eq_refl ltac:(cbn; lia)) as (r & Hread & Hc).
  exists r. rewrite Hrem, Hflat in Hread, Hc. split_and!; try done. apply Hok.
Qed.
End Streams.

(** What is given back in the last buffer is lost.  Once the last piece of
    the last buffer has been read, whatever part of it is given back is left to
    read, but [Next] says that there is nothing more - where the contract of
    the protobuf library wants the bytes again. *)
Theorem backed_up_at_the_end_is_lost s r n :
  stream_ok s → last_piece s r → is_index s = length (is_view s) → 0 < n ≤ rg_size r →
  let chunk := region_bytes (is_view s) r in
  remaining (is_BackUp n s) = drop (length chunk - Z.to_nat n) chunk ∧ remaining (is_BackUp n s) ≠ [] ∧
  is_Next (is_BackUp n s) = (Ok None, is_BackUp n s).
Proof.
  intros Hok Hp Hend Hn chunk. pose proof Hp as (Hu & _ & b & Hb & _).
  destruct (is_BackUp_ok s r n Hok Hp ltac:(lia)) as [Hok' Hrem]. fold chunk in Hrem.
  assert (remaining s = []) as Hnil.
  { unfold remaining. rewrite Hend, (drop_ge (is_view s)) by lia. destruct (length (is_view s)) as [|i]; [done|].
    destruct (is_view s !! i); [|done]. by rewrite Hu, Z.sub_0_r, drop_ge by (unfold buf_len; lia). }
  rewrite Hnil, app_nil_r in Hrem. split; [done|]. split.
  - destruct (last_piece_bytes s r b Hp Hb) as [_ Hlen]. rewrite Hrem. intros H%(f_equal length).
    unfold buf_len in Hlen. fold chunk in Hlen. rewrite length_drop in H. cbn in H. lia.
  - pose proof (is_Next_ok _ Hok') as Hnext. by rewrite decide_True in Hnext by done.
Qed.

(** Skipping.  [Skip] ends, and says whether there was enough; when more
    than it skips was left, what is left after it is the rest. *)
Theorem skip_skips s n :
  stream_ok s → is_unused s < 2 ^ 31 → 0 ≤ n < 2 ^ 31 →
  ∃ s', is_Skip n s = Some (bool_decide (n ≤ buf_len (remaining s)), s') ∧
    (n < buf_len (remaining s) → remaining s' = drop (Z.to_nat n) (remaining s)).
Proof.
  intros Hok Hu Hn.
  destruct (skip_loop_ok (length (is_view s)) (S (length (is_view s))) s n Hok Hn Hu ltac:(lia)) as (rest & u & i & Hrun & Hspec).
  unfold is_Skip. rewrite Hrun. eexists. cbn zeta in Hspec. destruct (decide _) as [Hlt|Hge] in Hspec.
  - destruct Hspec as (-> & _ & Hrem). rewrite bool_decide_true by lia. split; [done|]. intros _. exact Hrem.
  - split; [|lia]. do 2 f_equal. rewrite Hspec. destruct (Z.eqb_spec (n - buf_len (remaining s)) 0); [by rewrite bool_decide_true by lia|].
    by rewrite bool_decide_false by lia.
Qed.

(** In a message of one buffer nothing can be read after a [Skip]. *)
Theorem nothing_is_read_after_a_skip b n :
  0 ≤ n < buf_len b → buf_len b < 2 ^ 31 →
  ∃ s', is_Skip n (is_new [b]) = Some (true, s') ∧ remaining s' = drop (Z.to_nat n) b ∧ is_Next s' = (Ok None, s').
Proof.
  intros Hn Hb. unfold is_Skip. cbn [is_new is_view is_unused is_index length skip_loop lookup list_lookup].
  rewrite !signed_small by lia. rewrite (proj2 (Z.ltb_ge n 0)) by lia. rewrite Z.sub_0_r, (proj2 (Z.ltb_lt n (buf_len b))) by lia.
  rewrite wrap_small by (unfold in_width; lia). eexists. split; [reflexivity|]. split; [|done].
  unfold remaining. cbn. rewrite app_nil_r. do 2 f_equal. lia.
Qed.

(** * Examples *)

Module ZeroCopyDemo.
Definition demo_allocate (data : list bytes) (n : Z) : option bytes :=
  if n <? 0 then None else Some (replicate (Z.to_nat n) zero).

Lemma demo_allocate_size data n b : demo_allocate data n = Some b → Z.of_nat (length b) = n.
Proof. unfold demo_allocate. destruct (Z.ltb_spec n 0); [done|]. intros [= <-]. rewrite length_replicate. lia. Qed.

(** A message of two bytes: a piece, and what is not used of it. *)
Definition demo_chunk : bytes := lit "hi" ++ replicate 1022 zero.
Definition demo_piece : OutputStream := mkOut [demo_chunk] 1024 1024 1024.
Definition demo_written : OutputStream := os_BackUp 1022 demo_piece.

Lemma demo_run : rtc (os_step demo_allocate) (os_new [], [], 0) (demo_written, lit "hi", 0).
Proof.
  apply rtc_l with (demo_piece, demo_chunk, 1024).
  - exact (step_next demo_allocate (os_new []) [] 0 (mkRegion 0 0 1024) (mkOut [replicate 1024 zero] 1024 1024 1024)
      demo_chunk ltac:(by vm_compute) ltac:(by vm_compute)).
  - apply rtc_once. exact (step_backup demo_allocate demo_piece demo_chunk 1024 1022 ltac:(lia)).
Qed.

Definition demo_read : InputStream := mkIn [lit "hello"] 0 1 5.
Lemma demo_read_ok : stream_ok demo_read ∧ last_piece demo_read (mkRegion 0 0 5).
Proof.
  split; [split; cbn; [by repeat constructor|lia|split; [lia|intros b _; unfold buf_len; lia]]|].
  split; [done|]. split; [done|]. exists (lit "hello"). cbn. split; [done|]. unfold buf_len. cbn. lia.
Qed.
End ZeroCopyDemo.
Import ZeroCopyDemo.

Lemma zero_copy_roundtrip_witness :
  ∃ bufs r, CommitLastBuf demo_written = Ok bufs ∧ concat bufs = lit "hi" ∧ os_ByteCount demo_written = 2 ∧ blocks bufs ∧
    read_all (S (length bufs)) (is_new bufs) = (Ok (lit "hi"), r) ∧ is_ByteCount r = 2.
Proof. exact (zero_copy_roundtrip demo_allocate demo_allocate_size _ _ _ demo_run ltac:(cbn; lia)). Defined.

Lemma backed_up_at_the_end_is_lost_witness :
  remaining (is_BackUp 2 demo_read) = lit "lo" ∧ remaining (is_BackUp 2 demo_read) ≠ [] ∧
  is_Next (is_BackUp 2 demo_read) = (Ok None, is_BackUp 2 demo_read).
Proof.
  destruct demo_read_ok as [Hok Hp]. exact (backed_up_at_the_end_is_lost demo_read (mkRegion 0 0 5) 2 Hok Hp eq_refl ltac:(cbn; lia)).
Defined.

Lemma skip_skips_witness :
  ∃ s', is_Skip 3 (is_new [lit "ab"; lit "cde"]) = Some (true, s') ∧ remaining s' = lit "de".
Proof.
  destruct (skip_skips (is_new [lit "ab"; lit "cde"]) 3
    (proj1 (is_new_ok [lit "ab"; lit "cde"] ltac:(by repeat constructor))) ltac:(cbn; lia) ltac:(lia)) as (s' & H1 & H2).
  exists s'. split; [exact H1|exact (H2 ltac:(by vm_compute))].
Defined.

Lemma nothing_is_read_after_a_skip_witness :
  ∃ s', is_Skip 3 (is_new [lit "hello"]) = Some (true, s') ∧ remaining s' = lit "lo" ∧ is_Next s' = (Ok None, s').
Proof. exact (nothing_is_read_after_a_skip (lit "hello") 3 ltac:(by vm_compute) ltac:(by vm_compute)). Defined.
