(* ===== verification/BufferUtil.v ===== *)
(** * Buffers: [src/common/util/buffer_util.h]

    The little-endian encoders of fixed-width integers and the two cursors
    [BufferOperator] (writing) and [ConstBufferOperator] (reading).  A cursor
    holds three 64-bit addresses, whose sums wrap as the compiled code's do,
    and the bytes of the buffer.  A write or a read outside the buffer has the
    outcome [Undef].  Theorems: the encoders do not depend on the byte order
    of the host and invert each other; what is written field by field is read
    back; a call that throws leaves the buffer and the cursor as they were; a
    length prefix read from the buffer is checked safely when it is 8, 16 or 32
    bits wide, and not when it is 64 bits wide. *)

From S2P Require Import Prelude.
Local Open Scope Z_scope.

Section Encoders.
(** [std::endian::native == std::endian::little]. *)
Context (little : bool).

(** The object representation of an [n]-byte unsigned integer. *)
Definition object_bytes (n : nat) (z : Z) : bytes :=
  if little then le_bytes n z else rev (le_bytes n z).
Definition object_value (b : bytes) : Z :=
  if little then le_val b else le_val (rev b).

(* @src src/src/common/util/buffer_util.h:17-26 SetBufFromUint64 *)
Definition SetBufFromUint64 (n : Z) : bytes :=
  [ char_of_u8 (Z.land n 0xFF);
    char_of_u8 (Z.land (Z.shiftr n 8) 0xFF);
    char_of_u8 (Z.land (Z.shiftr n 16) 0xFF);
    char_of_u8 (Z.land (Z.shiftr n 24) 0xFF);
    char_of_u8 (Z.land (Z.shiftr n 32) 0xFF);
    char_of_u8 (Z.land (Z.shiftr n 40) 0xFF);
    char_of_u8 (Z.land (Z.shiftr n 48) 0xFF);
    char_of_u8 (Z.land (Z.shiftr n 56) 0xFF) ].

(* @src src/src/common/util/buffer_util.h:29-38 GetUint64FromBuf *)
Definition GetUint64FromBuf (p : bytes) : res Z :=
  match p with
  | p0 :: p1 :: p2 :: p3 :: p4 :: p5 :: p6 :: p7 :: _ =>
      Ok (wrap64 (u8_of_char p0 +
                  Z.shiftl (u8_of_char p1) 8 +
                  Z.shiftl (u8_of_char p2) 16 +
                  Z.shiftl (u8_of_char p3) 24 +
                  Z.shiftl (u8_of_char p4) 32 +
                  Z.shiftl (u8_of_char p5) 40 +
                  Z.shiftl (u8_of_char p6) 48 +
                  Z.shiftl (u8_of_char p7) 56))
  | _ => Undef
  end.

(* @src src/src/common/util/buffer_util.h:41-50 SetBufFromUint32 *)
Definition SetBufFromUint32 (n : Z) : bytes :=
  if little then object_bytes 4 n
  else [ char_of_u8 (Z.land n 0xFF);
         char_of_u8 (Z.land (Z.shiftr n 8) 0xFF);
         char_of_u8 (Z.land (Z.shiftr n 16) 0xFF);
         char_of_u8 (Z.land (Z.shiftr n 24) 0xFF) ].

(* @src src/src/common/util/buffer_util.h:53-62 GetUint32FromBuf *)
Definition GetUint32FromBuf (p : bytes) : res Z :=
  match p with
  | p0 :: p1 :: p2 :: p3 :: _ =>
      if little then Ok (object_value [p0; p1; p2; p3])
      else Ok (wrap32 (u8_of_char p0 +
                       Z.shiftl (u8_of_char p1) 8 +
                       Z.shiftl (u8_of_char p2) 16 +
                       Z.shiftl (u8_of_char p3) 24))
  | _ => Undef
  end.

(* @src src/src/common/util/buffer_util.h:65-72 SetBufFromUint16 *)
Definition SetBufFromUint16 (n : Z) : bytes :=
  if little then object_bytes 2 n
  else [ char_of_u8 (Z.land n 0xFF);
         char_of_u8 (Z.land (Z.shiftr n 8) 0xFF) ].

(* @src src/src/common/util/buffer_util.h:75-82 GetUint16FromBuf *)
Definition GetUint16FromBuf (p : bytes) : res Z :=
  match p with
  | p0 :: p1 :: _ =>
      if little then Ok (object_value [p0; p1])
      else Ok (wrap16 (u8_of_char p0 + Z.shiftl (u8_of_char p1) 8))
  | _ => Undef
  end.

(** Every encoder writes the little-endian bytes, whatever the host. *)

Lemma byte_shift n k : 0 ≤ k → char_of_u8 (Z.land (Z.shiftr n k) 0xFF) = char_of_u8 (n / 2 ^ k).
Proof.
  intros Hk. unfold char_of_u8. do 2 f_equal. unfold wrap.
  change 0xFF with (Z.ones 8). rewrite Z.land_ones, Z.shiftr_div_pow2 by lia.
  apply Zmod_mod.
Qed.

Lemma byte_low n : char_of_u8 (Z.land n 0xFF) = char_of_u8 n.
Proof. rewrite <-(Z.shiftr_0_r n) at 1. rewrite byte_shift by lia. by rewrite Z.div_1_r. Qed.

Ltac le_bytes_tac :=
  cbn [le_bytes]; rewrite byte_low, !byte_shift by lia;
  rewrite ?Z.div_div by lia; reflexivity.

Lemma SetBufFromUint64_le n : SetBufFromUint64 n = le_bytes 8 n.
Proof. unfold SetBufFromUint64. le_bytes_tac. Qed.
Lemma SetBufFromUint32_le n : SetBufFromUint32 n = le_bytes 4 n.
Proof. unfold SetBufFromUint32, object_bytes. destruct little; [done|]. le_bytes_tac. Qed.
Lemma SetBufFromUint16_le n : SetBufFromUint16 n = le_bytes 2 n.
Proof. unfold SetBufFromUint16, object_bytes. destruct little; [done|]. le_bytes_tac. Qed.

Ltac le_val_tac :=
  cbn [le_val app]; rewrite !Z.shiftl_mul_pow2 by lia; unfold wrap;
  repeat match goal with
  | |- context [u8_of_char ?c] =>
      let H := fresh in let x := fresh in
      pose proof (u8_of_char_range c) as H; unfold in_width in H; change (2 ^ 8) with 256 in H;
      set (x := u8_of_char c) in *; clearbody x
  end;
  f_equal; rewrite Z.mod_small; lia.

Lemma GetUint64FromBuf_le b rest :
  length b = 8%nat → GetUint64FromBuf (b ++ rest) = Ok (le_val b).
Proof. intros H. do 9 (destruct b as [|? b]; try discriminate). cbn [app GetUint64FromBuf]. le_val_tac. Qed.
Lemma GetUint32FromBuf_le b rest :
  length b = 4%nat → GetUint32FromBuf (b ++ rest) = Ok (le_val b).
Proof.
  intros H. do 5 (destruct b as [|? b]; try discriminate). unfold GetUint32FromBuf, object_value.
  cbn [app]. destruct little; [done|]. le_val_tac.
Qed.
Lemma GetUint16FromBuf_le b rest :
  length b = 2%nat → GetUint16FromBuf (b ++ rest) = Ok (le_val b).
Proof.
  intros H. do 3 (destruct b as [|? b]; try discriminate). unfold GetUint16FromBuf, object_value.
  cbn [app]. destruct little; [done|]. le_val_tac.
Qed.
End Encoders.

(** ** Length prefixes *)

(* @src src/src/common/util/buffer_util.h:84-89 BufferLenType *)
Inductive BufferLenType :=
| kUInt8
| kUInt16
| kUInt32
| kUInt64
| kOtherLenType (raw : Z).  (* any other value cast to the enumeration *)

(** [static_cast<size_t>(len_type)]. *)
Definition len_type_size (lt : BufferLenType) : Z :=
  match lt with
  | kUInt8 => 1 | kUInt16 => 2 | kUInt32 => 4 | kUInt64 => 8
  | kOtherLenType raw => raw
  end.

(** ** The writing cursor *)

(* @src src/src/common/util/buffer_util.h:202-204 BufferOperator *)
Record BufferOperator := mkBufferOperator {
  bo_start : Z;
  bo_end : Z;
  bo_cur : Z;
  bo_mem : bytes      (* the bytes at [bo_start], [bo_start + 1], ... *)
}.

(* @src src/src/common/util/buffer_util.h:98-99 BufferOperator::BufferOperator *)
Definition BufferOperator_new (ptr : Z) (mem : bytes) : BufferOperator :=
  mkBufferOperator ptr (wrap64 (ptr + Z.of_nat (length mem))) ptr mem.

Section Writer.
Context (little : bool).

(** [if (cur_ + len > end_) throw BufferOutOfBoundsException();] *)
Definition bo_check (len : Z) : M BufferOperator unit :=
  s ← get;
  if bo_end s <? wrap64 (bo_cur s + len) then throw BufferOutOfBoundsException else mret tt.

(** Store [src] at [cur_]. *)
Definition bo_store (src : bytes) : M BufferOperator unit :=
  s ← get;
  let off := bo_cur s - bo_start s in
  if (0 <=? off) && (off + Z.of_nat (length src) <=? Z.of_nat (length (bo_mem s)))
  then put (mkBufferOperator (bo_start s) (bo_end s) (bo_cur s)
                             (splice (Z.to_nat off) src (bo_mem s)))
  else undef.

(** [cur_ += len;] *)
Definition bo_advance (len : Z) : M BufferOperator unit :=
  modify (λ s, mkBufferOperator (bo_start s) (bo_end s) (wrap64 (bo_cur s + len)) (bo_mem s)).

(* @src src/src/common/util/buffer_util.h:105-110 BufferOperator::Skip *)
Definition BufferOperator_Skip (len : Z) : M BufferOperator Z :=
  bo_check len;;
  bo_advance len;;
  gets (λ s, wrap64 (bo_cur s - bo_start s)).

(* @src src/src/common/util/buffer_util.h:112-116 BufferOperator::JumpTo *)
Definition BufferOperator_JumpTo (pos : Z) : M BufferOperator unit :=
  s ← get;
  if wrap64 (bo_end s - bo_start s) <? pos then throw BufferOutOfBoundsException
  else put (mkBufferOperator (bo_start s) (bo_end s) (wrap64 (bo_start s + pos)) (bo_mem s)).

(* @src src/src/common/util/buffer_util.h:118-123 BufferOperator::SetUint8 *)
Definition SetUint8 (n : Z) : M BufferOperator unit :=
  bo_check 1;; bo_store [char_of_u8 n];; bo_advance 1.

(* @src src/src/common/util/buffer_util.h:125-130 BufferOperator::SetUint16 *)
Definition SetUint16 (n : Z) : M BufferOperator unit :=
  bo_check 2;; bo_store (SetBufFromUint16 little n);; bo_advance 2.

(* @src src/src/common/util/buffer_util.h:132-137 BufferOperator::SetUint32 *)
Definition SetUint32 (n : Z) : M BufferOperator unit :=
  bo_check 4;; bo_store (SetBufFromUint32 little n);; bo_advance 4.

(* @src src/src/common/util/buffer_util.h:139-144 BufferOperator::SetUint64 *)
Definition SetUint64 (n : Z) : M BufferOperator unit :=
  bo_check 8;; bo_store (SetBufFromUint64 n);; bo_advance 8.

(* @src src/src/common/util/buffer_util.h:146-156 BufferOperator::SetBuffer *)
Definition SetBuffer (data : bytes) : M BufferOperator unit :=
  let len := Z.of_nat (length data) in
  bo_check len;; bo_store data;; bo_advance len.

(* @src src/src/common/util/buffer_util.h:158-195 BufferOperator::SetString *)
Definition SetString (s : bytes) (len_type : BufferLenType) : M BufferOperator unit :=
  let str_len := Z.of_nat (length s) in
  st ← get;
  (if bo_end st <? wrap64 (wrap64 (bo_cur st + len_type_size len_type) + str_len)
   then throw BufferOutOfBoundsException else mret tt);;
  (match len_type with
   | kUInt8 =>
       if 0xFF <? str_len then throw (RuntimeError "String length out of range.")
       else SetUint8 (wrap8 str_len)
   | kUInt16 =>
       if 0xFFFF <? str_len then throw (RuntimeError "String length out of range.")
       else SetUint16 (wrap16 str_len)
   | kUInt32 =>
       if 0xFFFFFFFF <? str_len then throw (RuntimeError "String length out of range.")
       else SetUint32 (wrap32 str_len)
   | kUInt64 =>
       if 0xFFFFFFFFFFFFFFFF <? str_len then throw (RuntimeError "String length out of range.")
       else SetUint64 (wrap64 str_len)
   | kOtherLenType _ => throw (RuntimeError "Invalid buffer len type.")
   end);;
  bo_store s;;
  bo_advance str_len.

(* @src src/src/common/util/buffer_util.h:197-199 BufferOperator::GetRemainingSize *)
Definition BufferOperator_GetRemainingSize : M BufferOperator Z :=
  gets (λ s, wrap64 (bo_end s - bo_cur s)).
End Writer.

(** ** The reading cursor *)

(* @src src/src/common/util/buffer_util.h:312-315 ConstBufferOperator *)
Record ConstBufferOperator := mkConstBufferOperator {
  cb_start : Z;
  cb_end : Z;
  cb_cur : Z;
  cb_mem : bytes
}.

(* @src src/src/common/util/buffer_util.h:209-210 ConstBufferOperator::ConstBufferOperator *)
Definition ConstBufferOperator_new (ptr : Z) (mem : bytes) : ConstBufferOperator :=
  mkConstBufferOperator ptr (wrap64 (ptr + Z.of_nat (length mem))) ptr mem.

(** A [std::span<const char>] or [std::string_view] into the buffer: an
    address and a length. *)
Record view := mkView { v_ptr : Z; v_len : Z }.

Definition view_in_bounds (s : ConstBufferOperator) (v : view) : bool :=
  (cb_start s <=? v_ptr v) && (0 <=? v_len v) &&
  (v_ptr v + v_len v <=? cb_start s + Z.of_nat (length (cb_mem s))).

(** The characters a view denotes. *)
Definition view_bytes (s : ConstBufferOperator) (v : view) : res bytes :=
  if view_in_bounds s v
  then Ok (take (Z.to_nat (v_len v)) (drop (Z.to_nat (v_ptr v - cb_start s)) (cb_mem s)))
  else Undef.

Section Reader.
Context (little : bool).

Definition cb_check (len : Z) : M ConstBufferOperator unit :=
  s ← get;
  if cb_end s <? wrap64 (cb_cur s + len) then throw BufferOutOfBoundsException else mret tt.

Definition cb_advance (len : Z) : M ConstBufferOperator unit :=
  modify (λ s, mkConstBufferOperator (cb_start s) (cb_end s) (wrap64 (cb_cur s + len)) (cb_mem s)).

(** The [len] characters at [cur_]. *)
Definition cb_load (len : Z) : M ConstBufferOperator bytes :=
  s ← get; lift (view_bytes s (mkView (cb_cur s) len)).

(* @src src/src/common/util/buffer_util.h:217-222 ConstBufferOperator::Skip *)
Definition ConstBufferOperator_Skip (len : Z) : M ConstBufferOperator Z :=
  cb_check len;;
  cb_advance len;;
  gets (λ s, wrap64 (cb_cur s - cb_start s)).

(* @src src/src/common/util/buffer_util.h:224-228 ConstBufferOperator::JumpTo *)
Definition ConstBufferOperator_JumpTo (pos : Z) : M ConstBufferOperator unit :=
  s ← get;
  if wrap64 (cb_end s - cb_start s) <? pos then throw BufferOutOfBoundsException
  else put (mkConstBufferOperator (cb_start s) (cb_end s) (wrap64 (cb_start s + pos)) (cb_mem s)).

(* @src src/src/common/util/buffer_util.h:230-236 ConstBufferOperator::GetUint8 *)
Definition GetUint8 : M ConstBufferOperator Z :=
  cb_check 1;;
  b ← cb_load 1;
  n ← lift (match b with c :: _ => Ok (u8_of_char c) | [] => Undef end);
  cb_advance 1;;
  mret n.

(* @src src/src/common/util/buffer_util.h:238-244 ConstBufferOperator::GetUint16 *)
Definition GetUint16 : M ConstBufferOperator Z :=
  cb_check 2;;
  b ← cb_load 2;
  n ← lift (GetUint16FromBuf little b);
  cb_advance 2;;
  mret n.

(* @src src/src/common/util/buffer_util.h:246-252 ConstBufferOperator::GetUint32 *)
Definition GetUint32 : M ConstBufferOperator Z :=
  cb_check 4;;
  b ← cb_load 4;
  n ← lift (GetUint32FromBuf little b);
  cb_advance 4;;
  mret n.

(* @src src/src/common/util/buffer_util.h:254-260 ConstBufferOperator::GetUint64 *)
Definition GetUint64 : M ConstBufferOperator Z :=
  cb_check 8;;
  b ← cb_load 8;
  n ← lift (GetUint64FromBuf b);
  cb_advance 8;;
  mret n.

(* @src src/src/common/util/buffer_util.h:262-268 ConstBufferOperator::GetBuffer *)
Definition GetBuffer (len : Z) : M ConstBufferOperator view :=
  cb_check len;;
  v ← gets (λ s, mkView (cb_cur s) len);
  cb_advance len;;
  mret v.

(** The overload that copies to [dst]: the result is what [dst] receives. *)
(* @src src/src/common/util/buffer_util.h:270-275 ConstBufferOperator::GetBuffer *)
Definition GetBuffer_copy (len : Z) : M ConstBufferOperator bytes :=
  cb_check len;;
  b ← cb_load len;
  cb_advance len;;
  mret b.

(* @src src/src/common/util/buffer_util.h:277-302 ConstBufferOperator::GetString *)
Definition GetString (len_type : BufferLenType) : M ConstBufferOperator view :=
  str_len ← (match len_type with
             | kUInt8 => GetUint8
             | kUInt16 => GetUint16
             | kUInt32 => GetUint32
             | kUInt64 => GetUint64
             | kOtherLenType _ => throw (RuntimeError "Invalid buffer len type.")
             end);
  cb_check str_len;;
  s ← gets (λ s, mkView (cb_cur s) str_len);
  cb_advance str_len;;
  mret s.

(* @src src/src/common/util/buffer_util.h:304-306 ConstBufferOperator::GetRemainingSize *)
Definition ConstBufferOperator_GetRemainingSize : M ConstBufferOperator Z :=
  gets (λ s, wrap64 (cb_end s - cb_cur s)).

(* @src src/src/common/util/buffer_util.h:308-310 ConstBufferOperator::GetRemainingBuffer *)
Definition GetRemainingBuffer : M ConstBufferOperator view :=
  n ← ConstBufferOperator_GetRemainingSize; GetBuffer n.
End Reader.

(** ** Well-formed cursors *)

Record bo_wf (s : BufferOperator) : Prop := {
  bo_wf_start : 0 ≤ bo_start s;
  bo_wf_end : bo_end s = bo_start s + Z.of_nat (length (bo_mem s));
  bo_wf_top : bo_end s < 2 ^ 64;
  bo_wf_cur : bo_start s ≤ bo_cur s ≤ bo_end s
}.

Record cb_wf (s : ConstBufferOperator) : Prop := {
  cb_wf_start : 0 ≤ cb_start s;
  cb_wf_end : cb_end s = cb_start s + Z.of_nat (length (cb_mem s));
  cb_wf_top : cb_end s < 2 ^ 64;
  cb_wf_cur : cb_start s ≤ cb_cur s ≤ cb_end s
}.

(** The writer after [e] has been stored at the cursor. *)
Definition bo_after (s : BufferOperator) (e : bytes) : BufferOperator :=
  mkBufferOperator (bo_start s) (bo_end s) (bo_cur s + Z.of_nat (length e))
                   (splice (Z.to_nat (bo_cur s - bo_start s)) e (bo_mem s)).

Definition bo_fits (s : BufferOperator) (n : Z) : Prop := bo_cur s + n ≤ bo_end s.

#[export] Instance bo_fits_dec s n : Decision (bo_fits s n).
Proof. unfold bo_fits. apply _. Defined.

Lemma wrap64_small z : 0 ≤ z < 2 ^ 64 → wrap64 z = z.
Proof. apply wrap_small. Qed.

Lemma bo_after_wf s e : bo_wf s → bo_fits s (Z.of_nat (length e)) → bo_wf (bo_after s e).
Proof.
  intros [] Hf. unfold bo_fits in Hf. split; cbn; try lia.
  rewrite length_splice; lia.
Qed.

Lemma bo_after_app s e1 e2 :
  bo_wf s → bo_fits s (Z.of_nat (length (e1 ++ e2))) →
  bo_after (bo_after s e1) e2 = bo_after s (e1 ++ e2).
Proof.
  intros [] Hf. unfold bo_fits in Hf. rewrite length_app in Hf.
  unfold bo_after; cbn. f_equal; [rewrite length_app; lia|].
  replace (Z.to_nat (bo_cur s + Z.of_nat (length e1) - bo_start s))
    with (Z.to_nat (bo_cur s - bo_start s) + length e1)%nat by lia.
  apply splice_splice. lia.
Qed.

(** ** Writing one block *)

Definition write_block (e : bytes) : M BufferOperator unit :=
  let len := Z.of_nat (length e) in bo_check len;; bo_store e;; bo_advance len.

Lemma SetUint8_block n : SetUint8 n = write_block (le_bytes 1 n).
Proof. done. Qed.
Lemma SetUint16_block little n : SetUint16 little n = write_block (le_bytes 2 n).
Proof. unfold SetUint16. by rewrite SetBufFromUint16_le. Qed.
Lemma SetUint32_block little n : SetUint32 little n = write_block (le_bytes 4 n).
Proof. unfold SetUint32. by rewrite SetBufFromUint32_le. Qed.
Lemma SetUint64_block n : SetUint64 n = write_block (le_bytes 8 n).
Proof. unfold SetUint64. by rewrite SetBufFromUint64_le. Qed.

Lemma bo_check_ok s n : bo_wf s → 0 ≤ n → bo_fits s n → bo_check n s = (Ok tt, s).
Proof.
  intros [] Hn Hf. unfold bo_fits in Hf. unfold bo_check. unfold_monad.
  rewrite wrap64_small by lia. destruct (Z.ltb_spec (bo_end s) (bo_cur s + n)); [lia|done].
Qed.

Lemma bo_check_oob s n :
  bo_wf s → 0 ≤ n → ¬ bo_fits s n → bo_cur s + n < 2 ^ 64 →
  bo_check n s = (Throw BufferOutOfBoundsException, s).
Proof.
  intros [] Hn Hf Ht. unfold bo_fits in Hf. unfold bo_check. unfold_monad.
  rewrite wrap64_small by lia. destruct (Z.ltb_spec (bo_end s) (bo_cur s + n)); [done|lia].
Qed.

(** Storing and advancing, once the room has been checked. *)
Lemma bo_store_advance s e :
  bo_wf s → bo_fits s (Z.of_nat (length e)) →
  (bo_store e;; bo_advance (Z.of_nat (length e))) s = (Ok tt, bo_after s e).
Proof.
  intros [] Hf. unfold bo_fits in Hf. unfold bo_store, bo_advance, bo_after. unfold_monad.
  destruct (Z.leb_spec 0 (bo_cur s - bo_start s)); [|lia].
  destruct (Z.leb_spec (bo_cur s - bo_start s + Z.of_nat (length e))
                       (Z.of_nat (length (bo_mem s)))); [|lia].
  cbn. by rewrite wrap64_small by lia.
Qed.

Lemma write_block_ok s e :
  bo_wf s → bo_fits s (Z.of_nat (length e)) → write_block e s = (Ok tt, bo_after s e).
Proof.
  intros Hwf Hf. unfold write_block. rewrite <-bo_store_advance by done.
  unfold mbind at 1, M_bind at 1. by rewrite bo_check_ok by (done || lia).
Qed.

Lemma write_block_oob s e :
  bo_wf s → ¬ bo_fits s (Z.of_nat (length e)) → bo_cur s + Z.of_nat (length e) < 2 ^ 64 →
  write_block e s = (Throw BufferOutOfBoundsException, s).
Proof.
  intros Hwf Hf Ht. unfold write_block, mbind at 1, M_bind at 1.
  by rewrite bo_check_oob by (done || lia).
Qed.

(** ** Typed fields *)

Inductive field :=
| FU8 (n : Z) | FU16 (n : Z) | FU32 (n : Z) | FU64 (n : Z)
| FBuf (b : bytes)
| FStr (lt : BufferLenType) (s : bytes).

Inductive shape := SU8 | SU16 | SU32 | SU64 | SBuf (n : nat) | SStr (lt : BufferLenType).

Definition shape_of (f : field) : shape :=
  match f with
  | FU8 _ => SU8 | FU16 _ => SU16 | FU32 _ => SU32 | FU64 _ => SU64
  | FBuf b => SBuf (length b) | FStr lt _ => SStr lt
  end.

(** Width in bytes of the four length prefixes. *)
Definition prefix_bytes (lt : BufferLenType) : option nat :=
  match lt with
  | kUInt8 => Some 1%nat | kUInt16 => Some 2%nat | kUInt32 => Some 4%nat | kUInt64 => Some 8%nat
  | kOtherLenType _ => None
  end.

(** What a field's value must satisfy to be representable. *)
Definition field_ok (f : field) : Prop :=
  match f with
  | FU8 n => in_width 8 n | FU16 n => in_width 16 n
  | FU32 n => in_width 32 n | FU64 n => in_width 64 n
  | FBuf _ => True
  | FStr lt s =>
      match prefix_bytes lt with
      | Some k => Z.of_nat (length s) < 256 ^ Z.of_nat k
      | None => False
      end
  end.

(** The reference encoding. *)
Definition encode (f : field) : bytes :=
  match f with
  | FU8 n => le_bytes 1 n | FU16 n => le_bytes 2 n
  | FU32 n => le_bytes 4 n | FU64 n => le_bytes 8 n
  | FBuf b => b
  | FStr lt s =>
      le_bytes (default 0%nat (prefix_bytes lt)) (Z.of_nat (length s)) ++ s
  end.

Section Fields.
Context (little : bool).

Definition put_field (f : field) : M BufferOperator unit :=
  match f with
  | FU8 n => SetUint8 n | FU16 n => SetUint16 little n
  | FU32 n => SetUint32 little n | FU64 n => SetUint64 n
  | FBuf b => SetBuffer b
  | FStr lt s => SetString little s lt
  end.

(** Read a field; the characters of a string are read through its view. *)
Definition get_field (sh : shape) : M ConstBufferOperator field :=
  match sh with
  | SU8 => FU8 <$> GetUint8
  | SU16 => FU16 <$> GetUint16 little
  | SU32 => FU32 <$> GetUint32 little
  | SU64 => FU64 <$> GetUint64
  | SBuf n => FBuf <$> GetBuffer_copy (Z.of_nat n)
  | SStr lt =>
      v ← GetString little lt;
      s ← get;
      FStr lt <$> lift (view_bytes s v)
  end.

Definition put_fields (fs : list field) : M BufferOperator unit := mapM_ put_field fs.

Fixpoint get_fields (shs : list shape) : M ConstBufferOperator (list field) :=
  match shs with
  | [] => mret []
  | sh :: shs' => f ← get_field sh; fs ← get_fields shs'; mret (f :: fs)
  end.

(** The room [put_field] asks for, and what its arguments' C++ types and
    the address space guarantee. *)
Definition field_room (f : field) : Z :=
  match f with
  | FStr lt s => len_type_size lt + Z.of_nat (length s)
  | f => Z.of_nat (length (encode f))
  end.

Definition field_arg (f : field) : Prop :=
  match f with
  | FU8 n => in_width 8 n | FU16 n => in_width 16 n
  | FU32 n => in_width 32 n | FU64 n => in_width 64 n
  | FBuf _ => True
  | FStr lt _ => 0 ≤ len_type_size lt
  end.

(** The switch of [SetString], for a length that fits the prefix. *)
Lemma SetString_prefix lt k s st :
  prefix_bytes lt = Some k →
  0 ≤ bo_cur st → bo_cur st + Z.of_nat k + Z.of_nat (length s) < 2 ^ 64 →
  SetString little s lt st =
  if bo_end st <? bo_cur st + Z.of_nat k + Z.of_nat (length s)
  then (Throw BufferOutOfBoundsException, st)
  else if Z.of_nat (length s) <? 256 ^ Z.of_nat k
  then (write_block (le_bytes k (Z.of_nat (length s)));;
        bo_store s;; bo_advance (Z.of_nat (length s))) st
  else (Throw (RuntimeError "String length out of range."), st).
Proof.
  intros Hk Hc Ht. unfold SetString. unfold mbind at 1, M_bind at 1, get at 1.
  destruct lt; try discriminate; injection Hk as <-; cbn [len_type_size];
    rewrite (wrap64_small (bo_cur _ + _)) by lia; rewrite (wrap64_small (bo_cur _ + _ + _)) by lia;
    match goal with |- context [bo_end st <? ?x] => destruct (Z.ltb_spec (bo_end st) x) end;
    repeat match goal with
    | |- context [bo_end st <? ?x] => destruct (Z.ltb_spec (bo_end st) x); try lia
    end; try done;
    unfold mbind at 1, M_bind at 1, mret at 1, M_ret at 1;
    match goal with
    | |- context [?c <? Z.of_nat (length s)] => destruct (Z.ltb_spec c (Z.of_nat (length s)))
    end;
    repeat match goal with
    | |- context [Z.of_nat (length s) <? ?x] =>
        let v := eval vm_compute in x in change x with v;
        destruct (Z.ltb_spec (Z.of_nat (length s)) v); try lia
    end; try done;
    rewrite ?SetUint8_block, ?SetUint16_block, ?SetUint32_block, ?SetUint64_block;
    by rewrite wrap_small by (unfold in_width; lia).
Qed.

Lemma put_field_ok s f :
  bo_wf s → field_ok f → bo_fits s (Z.of_nat (length (encode f))) →
  put_field f s = (Ok tt, bo_after s (encode f)).
Proof.
  intros Hwf Hok Hf. destruct f as [n|n|n|n|b|lt x]; cbn [put_field encode] in *;
    rewrite ?SetUint8_block, ?SetUint16_block, ?SetUint32_block, ?SetUint64_block;
    try by apply write_block_ok.
  cbn [field_ok] in Hok. destruct (prefix_bytes lt) as [k|] eqn:Hk; [|done].
  cbn [default id] in *. pose proof Hf as Hf'.
  unfold bo_fits in Hf. rewrite length_app, length_le_bytes in Hf. pose proof Hwf as [].
  rewrite (SetString_prefix lt k) by (done || lia).
  destruct (Z.ltb_spec (bo_end s) (bo_cur s + Z.of_nat k + Z.of_nat (length x))); [lia|].
  destruct (Z.ltb_spec (Z.of_nat (length x)) (256 ^ Z.of_nat k)); [|lia].
  assert (bo_fits s (Z.of_nat (length (le_bytes k (Z.of_nat (length x)))))) as Hfp
    by (unfold bo_fits; rewrite length_le_bytes; lia).
  unfold mbind at 1, M_bind at 1. rewrite write_block_ok by done.
  rewrite bo_store_advance, bo_after_app; [done..| |].
  - by apply bo_after_wf.
  - unfold bo_fits; cbn. rewrite length_le_bytes. lia.
Qed.

Lemma put_field_oob s f :
  bo_wf s → field_arg f → ¬ bo_fits s (field_room f) → bo_cur s + field_room f < 2 ^ 64 →
  put_field f s = (Throw BufferOutOfBoundsException, s).
Proof.
  intros Hwf Ha Hf Ht. destruct f as [n|n|n|n|b|lt x]; cbn [put_field encode field_room] in *;
    rewrite ?SetUint8_block, ?SetUint16_block, ?SetUint32_block, ?SetUint64_block;
    try by apply write_block_oob.
  destruct Hwf. unfold bo_fits in Hf. cbn [field_arg] in Ha.
  unfold SetString. unfold_monad. rewrite (wrap64_small (bo_cur _ + _)) by lia; rewrite (wrap64_small (bo_cur _ + _ + _)) by lia.
  by destruct (Z.ltb_spec (bo_end s) (bo_cur s + len_type_size lt + Z.of_nat (length x))); [|lia].
Qed.

(** When the room is there, a field is refused only if it is a string whose
    length does not fit its prefix. *)
Lemma put_field_unrepresentable s f :
  bo_wf s → field_arg f → bo_fits s (field_room f) → ¬ field_ok f →
  ∃ what, put_field f s = (Throw (RuntimeError what), s).
Proof.
  intros Hwf Ha Hf Hok. destruct f as [n|n|n|n|b|lt x]; cbn in Hok, Ha; try done.
  destruct Hwf. unfold bo_fits in Hf. cbn [field_room] in Hf. cbn [put_field].
  destruct (prefix_bytes lt) as [k|] eqn:Hk.
  - assert (Z.of_nat k = len_type_size lt) as Hkl by (by destruct lt; try discriminate; injection Hk as <-).
    rewrite (SetString_prefix lt k) by (done || lia).
    destruct (Z.ltb_spec (bo_end s) (bo_cur s + Z.of_nat k + Z.of_nat (length x))); [lia|].
    destruct (Z.ltb_spec (Z.of_nat (length x)) (256 ^ Z.of_nat k)); [lia|]. by eexists.
  - destruct lt; try done. unfold SetString. unfold_monad. cbn [len_type_size] in *.
    rewrite (wrap64_small (bo_cur _ + _)) by lia; rewrite (wrap64_small (bo_cur _ + _ + _)) by lia.
    destruct (Z.ltb_spec (bo_end s) (bo_cur s + raw + Z.of_nat (length x))); [lia|]. by eexists.
Qed.

#[export] Instance field_ok_dec f : Decision (field_ok f).
Proof.
  destruct f as [n|n|n|n|b|lt x]; cbn; unfold in_width;
    [apply _.. | destruct (prefix_bytes lt); apply _].
Defined.

Lemma field_room_ok f : field_ok f → field_room f = Z.of_nat (length (encode f)).
Proof.
  destruct f as [n|n|n|n|b|lt x]; cbn [field_ok field_room]; try done.
  destruct (prefix_bytes lt) as [k|] eqn:Hk; [|done]. intros _. cbn [encode].
  rewrite Hk. cbn [default id]. rewrite length_app, length_le_bytes, Nat2Z.inj_add.
  by destruct lt; try discriminate; injection Hk as <-.
Qed.
End Fields.

(** ** Reading back *)

(** The bytes from the reading cursor on, and the cursor moved past [n]. *)
Definition cb_rest (s : ConstBufferOperator) : bytes :=
  drop (Z.to_nat (cb_cur s - cb_start s)) (cb_mem s).
Definition cb_past (s : ConstBufferOperator) (n : nat) : ConstBufferOperator :=
  mkConstBufferOperator (cb_start s) (cb_end s) (cb_cur s + Z.of_nat n) (cb_mem s).

Section ReaderLemmas.
Context (s : ConstBufferOperator) (e rest : bytes).
Context (Hwf : cb_wf s) (Hr : cb_rest s = e ++ rest).

Lemma cb_room : cb_cur s + Z.of_nat (length e) ≤ cb_end s.
Proof using Hwf Hr.
  destruct Hwf. apply (f_equal length) in Hr. unfold cb_rest in Hr.
  rewrite length_app, length_drop in Hr. lia.
Qed.

Lemma cb_past_wf : cb_wf (cb_past s (length e)).
Proof using Hwf Hr. pose proof cb_room. destruct Hwf. split; cbn; lia. Qed.

Lemma cb_past_rest : cb_rest (cb_past s (length e)) = rest.
Proof using Hwf Hr.
  unfold cb_rest in *; cbn. destruct Hwf.
  replace (Z.to_nat (cb_cur s + Z.of_nat (length e) - cb_start s))
    with (Z.to_nat (cb_cur s - cb_start s) + length e)%nat by lia.
  by rewrite <-drop_drop, Hr, drop_app_length.
Qed.

Lemma cb_check_ok : cb_check (Z.of_nat (length e)) s = (Ok tt, s).
Proof using Hwf Hr.
  pose proof cb_room. destruct Hwf. unfold cb_check. unfold_monad.
  rewrite wrap64_small by lia.
  destruct (Z.ltb_spec (cb_end s) (cb_cur s + Z.of_nat (length e))); [lia|done].
Qed.

Lemma view_bytes_here : view_bytes s (mkView (cb_cur s) (Z.of_nat (length e))) = Ok e.
Proof using Hwf Hr.
  pose proof cb_room. destruct Hwf. unfold view_bytes, view_in_bounds; cbn.
  repeat match goal with
  | |- context [?a <=? ?b] => destruct (Z.leb_spec a b); [|lia]
  end; cbn.
  unfold cb_rest in Hr. by rewrite Hr, Nat2Z.id, take_app_length.
Qed.

Lemma cb_load_ok : cb_load (Z.of_nat (length e)) s = (Ok e, s).
Proof using Hwf Hr. unfold cb_load. unfold_monad. by rewrite view_bytes_here. Qed.

Lemma cb_advance_ok : cb_advance (Z.of_nat (length e)) s = (Ok tt, cb_past s (length e)).
Proof using Hwf Hr.
  pose proof cb_room. destruct Hwf. unfold cb_advance, cb_past. unfold_monad.
  by rewrite wrap64_small by lia.
Qed.

(** A fixed-width read of the bytes [e] decoded by [dec]. *)
Lemma fixed_read {A} (k : nat) (dec : bytes → res A) (a : A) :
  length e = k → dec e = Ok a →
  (cb_check (Z.of_nat k);; b ← cb_load (Z.of_nat k); n ← lift (dec b);
   cb_advance (Z.of_nat k);; mret n) s = (Ok a, cb_past s k).
Proof using Hwf Hr.
  intros <- Hd. unfold mbind at 1, M_bind at 1. rewrite cb_check_ok.
  unfold mbind at 1, M_bind at 1. rewrite cb_load_ok.
  unfold mbind at 1, M_bind at 1, lift. rewrite Hd.
  unfold mbind at 1, M_bind at 1. by rewrite cb_advance_ok.
Qed.
End ReaderLemmas.

Section RoundTrip.
Context (little : bool).

Lemma dec_le {A} (dec : bytes → res A) b a : (∀ rest, dec (b ++ rest) = Ok a) → dec b = Ok a.
Proof. intros H. rewrite <-(app_nil_r b). apply H. Qed.

Lemma read_uint (k : nat) (dec : bytes → res Z) n s rest :
  (∀ b r, length b = k → dec (b ++ r) = Ok (le_val b)) →
  0 ≤ n < 256 ^ Z.of_nat k →
  cb_wf s → cb_rest s = le_bytes k n ++ rest →
  (cb_check (Z.of_nat k);; b ← cb_load (Z.of_nat k); m ← lift (dec b);
   cb_advance (Z.of_nat k);; mret m) s = (Ok n, cb_past s k).
Proof.
  intros Hdec Hn Hwf Hr. apply (fixed_read s (le_bytes k n) rest Hwf Hr).
  - apply length_le_bytes.
  - apply dec_le. intros r. rewrite Hdec by apply length_le_bytes. f_equal.
    by apply le_val_le_bytes.
Qed.

Lemma GetUint8_le n s rest :
  in_width 8 n → cb_wf s → cb_rest s = le_bytes 1 n ++ rest → GetUint8 s = (Ok n, cb_past s 1).
Proof.
  intros Hn Hwf Hr. unfold GetUint8. change 1 with (Z.of_nat 1).
  eapply read_uint; [|apply Hn|done..].
  intros b r Hb. do 2 (destruct b as [|? b]; try discriminate). cbn. f_equal. lia.
Qed.
Lemma GetUint16_le n s rest :
  in_width 16 n → cb_wf s → cb_rest s = le_bytes 2 n ++ rest →
  GetUint16 little s = (Ok n, cb_past s 2).
Proof.
  intros Hn Hwf Hr. unfold GetUint16. change 2 with (Z.of_nat 2).
  eapply read_uint; [apply GetUint16FromBuf_le|apply Hn|done..].
Qed.
Lemma GetUint32_le n s rest :
  in_width 32 n → cb_wf s → cb_rest s = le_bytes 4 n ++ rest →
  GetUint32 little s = (Ok n, cb_past s 4).
Proof.
  intros Hn Hwf Hr. unfold GetUint32. change 4 with (Z.of_nat 4).
  eapply read_uint; [apply GetUint32FromBuf_le|apply Hn|done..].
Qed.
Lemma GetUint64_le n s rest :
  in_width 64 n → cb_wf s → cb_rest s = le_bytes 8 n ++ rest → GetUint64 s = (Ok n, cb_past s 8).
Proof.
  intros Hn Hwf Hr. unfold GetUint64. change 8 with (Z.of_nat 8).
  eapply read_uint; [apply GetUint64FromBuf_le|apply Hn|done..].
Qed.

(** The length prefix of [GetString]. *)
Definition get_prefix (lt : BufferLenType) : M ConstBufferOperator Z :=
  match lt with
  | kUInt8 => GetUint8 | kUInt16 => GetUint16 little
  | kUInt32 => GetUint32 little | kUInt64 => GetUint64
  | kOtherLenType _ => throw (RuntimeError "Invalid buffer len type.")
  end.

Lemma get_prefix_le lt k n s rest :
  prefix_bytes lt = Some k → 0 ≤ n < 256 ^ Z.of_nat k →
  cb_wf s → cb_rest s = le_bytes k n ++ rest → get_prefix lt s = (Ok n, cb_past s k).
Proof.
  intros Hk Hn Hwf Hr. destruct lt; try discriminate; injection Hk as <-; cbn [get_prefix].
  - by apply (GetUint8_le n s rest).
  - by apply (GetUint16_le n s rest).
  - by apply (GetUint32_le n s rest).
  - by apply (GetUint64_le n s rest).
Qed.

(** Reading a well-prefixed string. *)
Lemma GetString_ok lt k x s rest :
  prefix_bytes lt = Some k → Z.of_nat (length x) < 256 ^ Z.of_nat k →
  cb_wf s → cb_rest s = le_bytes k (Z.of_nat (length x)) ++ x ++ rest →
  GetString little lt s =
  (Ok (mkView (cb_cur s + Z.of_nat k) (Z.of_nat (length x))), cb_past s (k + length x)).
Proof.
  intros Hk Hx Hwf Hr. unfold GetString. fold (get_prefix lt). unfold mbind at 1, M_bind at 1.
  rewrite (get_prefix_le lt k (Z.of_nat (length x)) s (x ++ rest)) by (done || lia).
  pose proof (cb_past_wf s _ _ Hwf Hr) as Hwf'. pose proof (cb_past_rest s _ _ Hwf Hr) as Hr'.
  rewrite length_le_bytes in Hwf', Hr'.
  unfold mbind at 1, M_bind at 1. rewrite (cb_check_ok _ _ _ Hwf' Hr').
  unfold mbind at 1, M_bind at 1, gets.
  unfold mbind at 1, M_bind at 1. rewrite (cb_advance_ok _ _ _ Hwf' Hr').
  unfold mret, M_ret, cb_past; cbn. do 2 f_equal. lia.
Qed.

Lemma get_field_ok f s rest :
  field_ok f → cb_wf s → cb_rest s = encode f ++ rest →
  get_field little (shape_of f) s = (Ok f, cb_past s (length (encode f))).
Proof.
  intros Hok Hwf Hr.
  destruct f as [n|n|n|n|b|lt x]; cbn [shape_of get_field encode] in *;
    unfold fmap, M_fmap; rewrite ?length_le_bytes.
  - by rewrite (GetUint8_le n s rest).
  - by rewrite (GetUint16_le n s rest).
  - by rewrite (GetUint32_le n s rest).
  - by rewrite (GetUint64_le n s rest).
  - unfold GetBuffer_copy. unfold_monad.
    rewrite (cb_check_ok s b rest), (cb_load_ok s b rest), (cb_advance_ok s b rest) by done.
    done.
  - cbn [field_ok] in Hok. destruct (prefix_bytes lt) as [k|] eqn:Hk; [|done].
    cbn [default id] in *. rewrite <-app_assoc in Hr.
    unfold mbind at 1, M_bind at 1. rewrite (GetString_ok lt k x s rest) by done.
    unfold mbind at 1, M_bind at 1, get, lift.
    pose proof (cb_past_wf s _ _ Hwf Hr) as Hwf'. pose proof (cb_past_rest s _ _ Hwf Hr) as Hr'.
    rewrite length_le_bytes in Hwf', Hr'.
    pose proof (view_bytes_here _ _ _ Hwf' Hr') as Hv.
    unfold view_bytes, view_in_bounds in Hv |- *; cbn in Hv |- *. rewrite Hv.
    by rewrite length_app, length_le_bytes.
Qed.
End RoundTrip.

(** ** Sequences of fields *)

Definition encode_all (fs : list field) : bytes := concat (map encode fs).

Lemma put_fields_ok little fs s :
  bo_wf s → Forall field_ok fs → bo_fits s (Z.of_nat (length (encode_all fs))) →
  put_fields little fs s = (Ok tt, bo_after s (encode_all fs)).
Proof.
  revert s; induction fs as [|f fs IH]; intros s Hwf Hok Hf.
  - cbn. unfold mret, M_ret, bo_after, splice; cbn. rewrite Nat.add_0_r, take_drop, Z.add_0_r.
    by destruct s.
  - apply Forall_cons in Hok as [Hf1 Hok].
    unfold encode_all in *; cbn [map concat] in *. fold (encode_all fs) in *.
    assert (bo_fits s (Z.of_nat (length (encode f)))) as Hf'
      by (unfold bo_fits in *; rewrite length_app in Hf; lia).
    cbn [put_fields mapM_]. unfold mbind, M_bind. rewrite put_field_ok by done.
    fold (put_fields little fs). rewrite IH; [by rewrite bo_after_app|by apply bo_after_wf|done|].
    unfold bo_fits in *; cbn. rewrite length_app in Hf. lia.
Qed.

Lemma get_fields_ok little fs s rest :
  Forall field_ok fs → cb_wf s → cb_rest s = encode_all fs ++ rest →
  get_fields little (map shape_of fs) s = (Ok fs, cb_past s (length (encode_all fs))).
Proof.
  revert s rest; induction fs as [|f fs IH]; intros s rest Hok Hwf Hr.
  - cbn. unfold mret, M_ret, cb_past; cbn. rewrite Z.add_0_r. by destruct s.
  - apply Forall_cons in Hok as [Hf1 Hok].
    unfold encode_all in *; cbn [map concat] in *. fold (encode_all fs) in *.
    rewrite <-app_assoc in Hr. cbn [get_fields]. unfold mbind, M_bind.
    rewrite (get_field_ok little f s _ Hf1 Hwf Hr).
    rewrite (IH _ rest Hok (cb_past_wf _ _ _ Hwf Hr) (cb_past_rest _ _ _ Hwf Hr)).
    unfold mret, M_ret, cb_past; cbn. rewrite length_app. do 2 f_equal. lia.
Qed.

Lemma BufferOperator_new_wf ptr mem :
  0 ≤ ptr → ptr + Z.of_nat (length mem) < 2 ^ 64 → bo_wf (BufferOperator_new ptr mem).
Proof. intros. split; cbn; rewrite ?wrap64_small by lia; lia. Qed.

Lemma ConstBufferOperator_new_wf ptr mem :
  0 ≤ ptr → ptr + Z.of_nat (length mem) < 2 ^ 64 → cb_wf (ConstBufferOperator_new ptr mem).
Proof. intros. split; cbn; rewrite ?wrap64_small by lia; lia. Qed.

(** ** Properties *)

(** C37: Serialising a sequence of typed fields (integers of the four widths,
    raw bytes and length-prefixed strings) into a buffer with enough room
    succeeds, and reading fields of the same shapes back from the buffer, on a
    host of either byte order, returns exactly the fields written. *)
Theorem write_read_roundtrip (writer_little reader_little : bool)
    (fs : list field) (ptr ptr' : Z) (mem : bytes) :
  Forall field_ok fs →
  0 ≤ ptr → ptr + Z.of_nat (length mem) < 2 ^ 64 →
  0 ≤ ptr' → ptr' + Z.of_nat (length mem) < 2 ^ 64 →
  (length (encode_all fs) ≤ length mem)%nat →
  ∃ w r,
    put_fields writer_little fs (BufferOperator_new ptr mem) = (Ok tt, w) ∧
    length (bo_mem w) = length mem ∧
    get_fields reader_little (map shape_of fs)
      (ConstBufferOperator_new ptr' (bo_mem w)) = (Ok fs, r).
Proof.
  intros Hok Hp Ht Hp' Ht' Hlen.
  pose proof (BufferOperator_new_wf ptr mem Hp Ht) as Hw.
  assert (length (splice 0 (encode_all fs) mem) = length mem) as Hl by (apply length_splice; lia).
  exists (bo_after (BufferOperator_new ptr mem) (encode_all fs)). eexists. split_and!.
  - apply put_fields_ok; [done..|]. destruct Hw. unfold bo_fits in *. cbn in *. lia.
  - cbn. by rewrite Z.sub_diag.
  - cbn. rewrite Z.sub_diag. change (Z.to_nat 0) with 0%nat.
    apply (get_fields_ok _ _ _ (drop (length (encode_all fs)) mem)); [done| |].
    + apply ConstBufferOperator_new_wf; [done|]. by rewrite Hl.
    + unfold cb_rest; cbn. by rewrite Z.sub_diag.
Qed.

(** A call of the writing cursor is atomic: on a well-formed cursor it
    either stores exactly its encoding between the old and the new position,
    or throws and leaves both buffer and cursor unchanged (the room is checked
    before the first byte is written, also for a string and its prefix); it
    never writes outside the buffer. *)
Theorem put_field_atomic (little : bool) (s : BufferOperator) (f : field) :
  bo_wf s → field_arg f → bo_cur s + field_room f < 2 ^ 64 →
  match put_field little f s with
  | (Ok _, s') => field_ok f ∧ bo_fits s (field_room f) ∧ s' = bo_after s (encode f) ∧ bo_wf s'
  | (Throw _, s') => s' = s ∧ (¬ field_ok f ∨ ¬ bo_fits s (field_room f))
  | (Undef, _) => False
  end.
Proof.
  intros Hwf Ha Ht. destruct (decide (bo_fits s (field_room f))) as [Hf|Hf].
  - destruct (decide (field_ok f)) as [Hok|Hok].
    + rewrite put_field_ok; [|done..|by rewrite <-field_room_ok].
      split_and!; [done..|]. apply bo_after_wf; [done|]. by rewrite <-field_room_ok.
    + destruct (put_field_unrepresentable little s f Hwf Ha Hf Hok) as [w ->]. auto.
  - rewrite put_field_oob by done. auto.
Qed.

(** The view and the cursor [GetString] yields once the prefix is read. *)
Lemma GetString_unfold little lt k n s rest :
  prefix_bytes lt = Some k → 0 ≤ n < 256 ^ Z.of_nat k →
  cb_wf s → cb_rest s = le_bytes k n ++ rest →
  GetString little lt s =
  let s1 := cb_past s k in
  if cb_end s <? wrap64 (cb_cur s1 + n) then (Throw BufferOutOfBoundsException, s1)
  else (Ok (mkView (cb_cur s1) n),
        mkConstBufferOperator (cb_start s) (cb_end s) (wrap64 (cb_cur s1 + n)) (cb_mem s)).
Proof.
  intros Hk Hn Hwf Hr. unfold GetString. fold (get_prefix little lt).
  unfold mbind at 1, M_bind at 1. rewrite (get_prefix_le little lt k n s rest) by done.
  unfold cb_check, cb_advance. unfold_monad. cbn zeta.
  cbn [cb_past cb_end cb_cur cb_start cb_mem]. by destruct (_ <? _).
Qed.


(** With the default 64-bit prefix the bounds check can be bypassed: if the
    buffer claims a length of [2^64 - k], for a [k] no larger than what has
    been read so far, [cur_ + str_len] wraps, the check passes, and [GetString]
    returns a view that runs past the end of the buffer and moves the cursor
    backwards. *)
Theorem GetString_wide_wraps (little : bool) (s : ConstBufferOperator) (k : Z) (rest : bytes) :
  cb_wf s → cb_rest s = le_bytes 8 (2 ^ 64 - k) ++ rest →
  1 ≤ k ≤ cb_cur s + 8 - cb_start s →
  ∃ s', GetString little kUInt64 s = (Ok (mkView (cb_cur s + 8) (2 ^ 64 - k)), s') ∧
        view_in_bounds s (mkView (cb_cur s + 8) (2 ^ 64 - k)) = false ∧
        cb_cur s' = cb_cur s + 8 - k.
Proof.
  intros Hwf Hr Hk. pose proof (cb_room s _ _ Hwf Hr) as Hroom.
  rewrite length_le_bytes in Hroom. pose proof Hwf as [].
  assert (wrap64 (cb_cur s + 8 + (2 ^ 64 - k)) = cb_cur s + 8 - k) as Hwrap.
  { replace (cb_cur s + 8 + (2 ^ 64 - k)) with (cb_cur s + 8 - k + 1 * 2 ^ 64) by lia.
    unfold wrap. rewrite Z.mod_add by lia. apply Z.mod_small. lia. }
  rewrite (GetString_unfold little kUInt64 8 (2 ^ 64 - k) s rest) by (done || lia).
  cbn [cb_past cb_cur]. change (Z.of_nat 8) with 8 in *. cbn zeta. rewrite Hwrap.
  destruct (Z.ltb_spec (cb_end s) (cb_cur s + 8 - k)); [lia|].
  eexists. split_and!; [done| |done].
  unfold view_in_bounds; cbn [v_ptr v_len].
  destruct (Z.leb_spec (cb_cur s + 8 + (2 ^ 64 - k)) (cb_start s + Z.of_nat (length (cb_mem s))));
    [lia|]. by rewrite andb_false_r.
Qed.

(** ** Witnesses *)

Lemma write_read_roundtrip_witness :
  ∃ w r,
    put_fields true [FU16 258; FStr kUInt8 (lit "ab")]
      (BufferOperator_new 4096 (replicate 6 zero)) = (Ok tt, w) ∧
    length (bo_mem w) = 6%nat ∧
    get_fields false [SU16; SStr kUInt8] (ConstBufferOperator_new 8192 (bo_mem w)) =
      (Ok [FU16 258; FStr kUInt8 (lit "ab")], r).
Proof.
  apply (write_read_roundtrip true false [FU16 258; FStr kUInt8 (lit "ab")] 4096 8192
           (replicate 6 zero)).
  - repeat constructor; vm_compute; congruence.
  - lia.
  - vm_compute. reflexivity.
  - lia.
  - vm_compute. reflexivity.
  - vm_compute. lia.
Defined.

Lemma put_field_atomic_witness :
  put_field true (FStr kUInt16 (lit "abc")) (BufferOperator_new 4096 (replicate 4 zero)) =
    (Throw BufferOutOfBoundsException, BufferOperator_new 4096 (replicate 4 zero)) ∧
  match put_field true (FStr kUInt16 (lit "abc")) (BufferOperator_new 4096 (replicate 4 zero)) with
  | (Ok _, _) => False
  | (Throw _, s') => s' = BufferOperator_new 4096 (replicate 4 zero)
  | (Undef, _) => False
  end.
Proof.
  split; [vm_compute; reflexivity|].
  pose proof (put_field_atomic true (BufferOperator_new 4096 (replicate 4 zero))
                (FStr kUInt16 (lit "abc"))
                (BufferOperator_new_wf 4096 (replicate 4 zero) ltac:(lia) ltac:(vm_compute; reflexivity))
                ltac:(cbn; lia) ltac:(vm_compute; reflexivity)) as H.
  vm_compute in H |- *. exact (proj1 H).
Defined.


Lemma GetString_wide_wraps_witness :
  ∃ s', GetString true kUInt64 (ConstBufferOperator_new 4096 (le_bytes 8 (2 ^ 64 - 1))) =
          (Ok (mkView 4104 (2 ^ 64 - 1)), s') ∧
        view_in_bounds (ConstBufferOperator_new 4096 (le_bytes 8 (2 ^ 64 - 1)))
                       (mkView 4104 (2 ^ 64 - 1)) = false ∧
        cb_cur s' = 4103.
Proof.
  apply (GetString_wide_wraps true (ConstBufferOperator_new 4096 (le_bytes 8 (2 ^ 64 - 1))) 1 []).
  - apply ConstBufferOperator_new_wf; [lia | vm_compute; reflexivity].
  - vm_compute. reflexivity.
  - vm_compute. split; congruence.
Defined.
