(* ===== verification/Yaml.v ===== *)
(** * Configuration nodes

    The runtime reads its options from [YAML::Node]s.  The YAML library is not
    part of the repository: what the decoders use of it is the class
    [YamlOps], whose operations are parameters of every decoder.  [Tree] is a
    concrete implementation, used where a theorem is applied to an input. *)

From S2P Require Import Prelude.

Class YamlOps (node : Type) := {
  IsMap : node → bool;
  IsSequence : node → bool;
  IsNull : node → bool;
  (** [node[key]]: [None] is the undefined node. *)
  index : node → string → option node;
  elements_of : node → list node;
  NullNode : node;
  (** [node.as<T>()] for the types the decoders ask for; it throws when the
      node does not hold such a value. *)
  as_string : node → res string;
  as_bool : node → res bool;
  as_uint64 : node → res Z;
  as_uint32 : node → res Z;
  as_int32 : node → res Z;
  as_strings : node → res (list string);
  as_uint32s : node → res (list Z);
  as_sizes : node → res (list Z)
}.

Section Access.
Context `{Y : YamlOps node}.

(** [.as<T>()] of a node that may be undefined. *)
Definition as_of {A} (conv : node → res A) (n : option node) : res A :=
  match n with
  | Some n => conv n
  | None => Throw (YamlException "invalid node")
  end.

(** [if (node[key]) field = node[key].as<T>();] *)
Definition set_if {A} (n : node) (key : string) (conv : node → res A) (old : A) : res A :=
  match index n key with
  | Some c => conv c
  | None => Ok old
  end.

(** [if (options_node && !options_node.IsNull()) options_ = options_node.as<Options>();]
    A [decode] that returns false makes [as] throw. *)
Definition read_options {O} (decode : node → O → res (option O)) (dflt : O)
    (n : option node) : res (option O) :=
  match n with
  | None => Ok None
  | Some n =>
      if IsNull n then Ok None
      else r ← decode n dflt;
           match r with
           | Some o => Ok (Some o)
           | None => Throw (YamlException "bad conversion")
           end
  end.
End Access.

Fixpoint map_res {A B} (f : A → res B) (l : list A) : res (list B) :=
  match l with
  | [] => Ok []
  | a :: l' => b ← f a; bs ← map_res f l'; Ok (b :: bs)
  end.

Section EachOf.
Context `{Y : YamlOps node}.

(** [if (node[key] && node[key].IsSequence()) for (const auto& x : node[key])
    old.emplace_back(f(x));] *)
Definition each_of {A} (n : node) (key : string) (f : node → res A) (old : list A) : res (list A) :=
  match index n key with
  | Some c => if IsSequence c then l ← map_res f (elements_of c); Ok (old ++ l) else Ok old
  | None => Ok old
  end.
End EachOf.

Lemma map_res_ok {A B} (f : A → res B) l bs :
  map_res f l = Ok bs ↔ Forall2 (λ a b, f a = Ok b) l bs.
Proof.
  revert bs; induction l as [|a l IH]; intros bs; cbn.
  - split; [intros [=<-]; constructor | by inversion 1].
  - split.
    + destruct (f a) as [b| |] eqn:Hf; cbn; try done.
      destruct (map_res f l) as [bs'| |]; cbn; try done.
      intros [=<-]. constructor; [done|]. by apply IH.
    + inversion 1 as [|? b ? bs' Hb Hbs]; subst. rewrite Hb; cbn.
      apply IH in Hbs as ->. done.
Qed.

(** ** A concrete implementation *)

Inductive tree :=
| TNull
| TStr (s : string)
| TNum (z : Z)
| TBool (b : bool)
| TSeq (l : list tree)
| TMap (l : list (string * tree)).

Fixpoint assoc {A} (k : string) (l : list (string * A)) : option A :=
  match l with
  | [] => None
  | (k', a) :: l' => if String.eqb k k' then Some a else assoc k l'
  end.

Section Tree.
Definition bad {A} : res A := Throw (YamlException "bad conversion").
Definition tree_string (t : tree) : res string := match t with TStr s => Ok s | _ => bad end.
Definition tree_num (w : Z) (t : tree) : res Z :=
  match t with
  | TNum z => if ((0 <=? z) && (z <? 2 ^ w))%Z then Ok z else bad
  | _ => bad
  end.
Definition tree_int32 (t : tree) : res Z :=
  match t with
  | TNum z => if ((- 2 ^ 31 <=? z) && (z <? 2 ^ 31))%Z then Ok z else bad
  | _ => bad
  end.
Definition tree_list {A} (f : tree → res A) (t : tree) : res (list A) :=
  match t with TSeq l => map_res f l | _ => bad end.

#[export] Instance tree_ops : YamlOps tree := {
  IsMap t := match t with TMap _ => true | _ => false end;
  IsSequence t := match t with TSeq _ => true | _ => false end;
  IsNull t := match t with TNull => true | _ => false end;
  index t k := match t with TMap l => assoc k l | _ => None end;
  elements_of t := match t with TSeq l => l | _ => [] end;
  NullNode := TNull;
  as_string := tree_string;
  as_bool t := match t with TBool b => Ok b | _ => bad end;
  as_uint64 := tree_num 64;
  as_uint32 := tree_num 32;
  as_int32 := tree_int32;
  as_strings := tree_list tree_string;
  as_uint32s := tree_list (tree_num 32);
  as_sizes := tree_list (tree_num 64)
}.
End Tree.
