(* ===== verification/StdString.v ===== *)
(** * What the code uses of [std::string_view], [std::map] and [std::set]

    A string is a list of characters and a position a [nat]; [npos] is [None].
    [std::map] and [std::set] over strings are kept as lists sorted by key, as
    their iteration order shows. *)

From Stdlib Require Import Sorting.Sorted.
From S2P Require Import Prelude.

(** ** Searching *)

Fixpoint prefixb (p s : bytes) : bool :=
  match p, s with
  | [], _ => true
  | a :: p', b :: s' => bool_decide (a = b) && prefixb p' s'
  | _ :: _, [] => false
  end.

Fixpoint find0 (p s : bytes) : option nat :=
  if prefixb p s then Some O
  else match s with
       | [] => None
       | _ :: s' => S <$> find0 p s'
       end.

(** [s.find(p, pos)] *)
Definition find (p s : bytes) (pos : nat) : option nat :=
  if pos <=? length s then (λ i, pos + i) <$> find0 p (drop pos s) else None.

(** [s.rfind(p, pos)] *)
Fixpoint rfind (p s : bytes) (pos : nat) : option nat :=
  if prefixb p (drop pos s) then Some pos
  else match pos with
       | O => None
       | S pos' => rfind p s pos'
       end.

Definition contains (p s : bytes) : bool := bool_decide (is_Some (find p s 0)).

(** [s.substr(a, b - a)] with the difference in [size_t]: when [b < a] it
    wraps to a count that reaches the end. *)
Definition substr_between (s : bytes) (a b : nat) : bytes :=
  if a <=? b then take (b - a) (drop a s) else drop a s.

Fixpoint find_first_not_of (c : ascii) (s : bytes) : option nat :=
  match s with
  | [] => None
  | d :: s' => if bool_decide (d = c) then S <$> find_first_not_of c s' else Some O
  end.

Fixpoint find_last_not_of (c : ascii) (s : bytes) : option nat :=
  match s with
  | [] => None
  | d :: s' =>
      match find_last_not_of c s' with
      | Some i => Some (S i)
      | None => if bool_decide (d = c) then None else Some O
      end
  end.

Lemma prefixb_spec p s : prefixb p s = true ↔ ∃ t, s = p ++ t.
Proof.
  revert s; induction p as [|a p IH]; intros s; cbn.
  - split; [by exists s|done].
  - destruct s as [|b s]; [split; [done|by intros [t Ht]]|].
    rewrite andb_true_iff, bool_decide_eq_true, IH. split.
    + intros [-> [t ->]]. by exists t.
    + intros [t [= -> ->]]. eauto.
Qed.

Lemma find0_some p s i :
  find0 p s = Some i →
  ∃ a b, s = a ++ p ++ b ∧ length a = i ∧ ∀ j, j < i → prefixb p (drop j s) = false.
Proof.
  revert i; induction s as [|c s IH]; intros i; cbn [find0].
  - destruct (prefixb p []) eqn:Hp; [|done]. intros [= <-].
    apply prefixb_spec in Hp as [t Ht]. exists [], t. split_and!; [done..|lia].
  - destruct (prefixb p (c :: s)) eqn:Hp.
    + intros [= <-]. apply prefixb_spec in Hp as [t Ht]. exists [], t. split_and!; [done..|lia].
    + destruct (find0 p s) as [k|] eqn:Hk; [|done]. intros [= <-].
      destruct (IH k eq_refl) as (a & b & Hs & Hl & Hj). exists (c :: a), b.
      split_and!; [by rewrite Hs|cbn; lia|]. intros [|j] Hlt; [done|]. apply Hj. lia.
Qed.

Lemma find0_none p s : find0 p s = None → ∀ a b, s ≠ a ++ p ++ b.
Proof.
  induction s as [|c s IH]; cbn [find0]; destruct (prefixb p _) eqn:Hp; try done.
  - intros _ a b Hs. symmetry in Hs. apply app_nil in Hs as [-> Hs].
    assert (prefixb p [] = true) as Ht; [|by rewrite Ht in Hp].
    apply prefixb_spec. by exists b.
  - destruct (find0 p s); [done|]. intros _ [|d a] b Hs.
    + assert (prefixb p (c :: s) = true) as Ht; [|by rewrite Ht in Hp].
      apply prefixb_spec. by exists b.
    + injection Hs as -> Hs. by eapply IH.
Qed.

(** A character: [find] of a one-character string. *)
Lemma find0_char_none c s : find0 [c] s = None ↔ c ∉ s.
Proof.
  induction s as [|d s IH]; cbn.
  - split; [intros _; apply not_elem_of_nil|done].
  - destruct (bool_decide_reflect (c = d)) as [->|Hne]; cbn.
    + split; [done|]. intros H. destruct H. apply list_elem_of_here.
    + rewrite not_elem_of_cons. destruct (find0 [c] s); cbn.
      * split; [done|]. intros [_ H%IH]. done.
      * split; [|done]. intros _. split; [done|]. by apply IH.
Qed.

Lemma find0_char_app c a b : c ∉ a → find0 [c] (a ++ c :: b) = Some (length a).
Proof.
  induction a as [|d a IH]; cbn; intros Hn.
  - by rewrite bool_decide_true.
  - apply not_elem_of_cons in Hn as [Hne Hn].
    rewrite bool_decide_false by done. cbn. by rewrite IH.
Qed.

(** ** Ordered containers *)

Fixpoint bytes_cmp (a b : bytes) : comparison :=
  match a, b with
  | [], [] => Eq
  | [], _ :: _ => Lt
  | _ :: _, [] => Gt
  | c :: a', d :: b' =>
      match Z.compare (u8_of_char c) (u8_of_char d) with
      | Eq => bytes_cmp a' b'
      | r => r
      end
  end.

Lemma bytes_cmp_eq a b : bytes_cmp a b = Eq ↔ a = b.
Proof.
  revert b; induction a as [|c a IH]; intros [|d b]; cbn; try done.
  destruct (Z.compare_spec (u8_of_char c) (u8_of_char d)) as [He|Hl|Hl].
  - apply u8_of_char_inj in He as ->. rewrite IH. split; [by intros ->|by intros [= ->]].
  - split; [done|]. intros [= -> ->]. lia.
  - split; [done|]. intros [= -> ->]. lia.
Qed.

Lemma bytes_cmp_antisym a b : bytes_cmp b a = CompOpp (bytes_cmp a b).
Proof.
  revert b; induction a as [|c a IH]; intros [|d b]; cbn; try done.
  rewrite Z.compare_antisym. destruct (Z.compare _ _); cbn; [apply IH|done..].
Qed.

Section OrderedMap.
Context {V : Type}.
Abbreviation omap := (list (bytes * V)).

(** [m[k] = v] *)
Fixpoint omap_insert (k : bytes) (v : V) (m : omap) : omap :=
  match m with
  | [] => [(k, v)]
  | (k', v') :: m' =>
      match bytes_cmp k k' with
      | Lt => (k, v) :: m
      | Eq => (k, v) :: m'
      | Gt => (k', v') :: omap_insert k v m'
      end
  end.

(** [m.find(k)] *)
Fixpoint omap_find (k : bytes) (m : omap) : option V :=
  match m with
  | [] => None
  | (k', v) :: m' => if bool_decide (k = k') then Some v else omap_find k m'
  end.

Definition omap_sorted (m : omap) : Prop := StronglySorted (λ a b, bytes_cmp a.1 b.1 = Lt) m.

Lemma omap_insert_last m k v :
  Forall (λ a, bytes_cmp a.1 k = Lt) m → omap_insert k v m = m ++ [(k, v)].
Proof.
  induction 1 as [|[k' v'] m Hk _ IH]; cbn; [done|]. cbn in Hk.
  rewrite bytes_cmp_antisym, Hk. cbn. by rewrite IH.
Qed.

Lemma omap_find_insert m k v : omap_find k (omap_insert k v m) = Some v.
Proof.
  induction m as [|[k' v'] m IH]; cbn; [by rewrite bool_decide_true|].
  destruct (bytes_cmp k k') eqn:Hc; cbn; try by rewrite bool_decide_true.
  rewrite bool_decide_false, IH; [done|]. intros ->.
  assert (bytes_cmp k' k' = Eq) as He by (by apply bytes_cmp_eq). by rewrite He in Hc.
Qed.
End OrderedMap.

Abbreviation oset := (list bytes).

Fixpoint oset_insert (k : bytes) (m : oset) : oset :=
  match m with
  | [] => [k]
  | k' :: m' =>
      match bytes_cmp k k' with
      | Lt => k :: m
      | Eq => m
      | Gt => k' :: oset_insert k m'
      end
  end.

Lemma elem_of_oset_insert k k' m : k ∈ oset_insert k' m ↔ k = k' ∨ k ∈ m.
Proof.
  induction m as [|x m IH]; cbn; [by rewrite elem_of_cons|].
  destruct (bytes_cmp k' x) eqn:Hc; rewrite !elem_of_cons; [|done|rewrite IH; tauto].
  apply bytes_cmp_eq in Hc as ->. tauto.
Qed.
