(* ===== verification/StringUtil.v ===== *)
(** * String utilities: [src/common/util/string_util.h]

    Splitting and joining, key-value strings, versions, replacement in place,
    tables, environment variables, prefixes and hashes.  A function that
    returns a reference to its argument returns the new value here.

    Theorems: splitting undoes joining for vectors and maps, and joining undoes
    splitting for every separator; the in-place [ReplaceString], in its three
    cases, replaces every occurrence; a table is rectangular; truncation cuts a
    UTF-8 string between characters.  One theorem shows where
    [GetValueFromStrKV] disagrees with [SplitToMap]. *)

From Stdlib Require Import Sorting.Sorted.
From S2P Require Import Prelude StdString.

Definition kSpace : ascii := " "%char.

(* @src src/src/common/util/string_util.h:33-40 Trim *)
Definition Trim (s : bytes) : bytes :=
  match s with
  | [] => []
  | _ =>
      let s := take (match find_last_not_of kSpace s with Some p => p + 1 | None => 0 end) s in
      drop (match find_first_not_of kSpace s with Some p => p | None => length s end) s
  end.

(** ** Splitting

    The [do ... while] loop that [SplitToMap], [SplitToVec] and [SplitToSet]
    share; [emit] is what the body does with the substring found. *)

Section SplitLoop.
Context {A : Type} (emit : A → bytes → A) (source sep : bytes).

(* @src src/src/common/util/string_util.h:232-244 SplitToVec (loop) *)
Fixpoint split_loop (fuel pos_start : nat) (result : A) : option A :=
  match fuel with
  | O => None
  | S fuel' =>
      let pos_end := default (length source) (find sep source pos_start) in
      let result := emit result (take (pos_end - pos_start) (drop pos_start source)) in
      if pos_end <? length source then split_loop fuel' (pos_end + length sep) result
      else Some result
  end.

(** One iteration per position is enough ([split_loop_spec] below). *)
Definition split_all (result : A) : A := default result (split_loop (S (length source)) 0 result).
End SplitLoop.

Definition emit_vec (trim clear : bool) (result : list bytes) (sub_str : bytes) : list bytes :=
  let sub_str := if trim then Trim sub_str else sub_str in
  if clear && bool_decide (sub_str = []) then result else result ++ [sub_str].

(* @src src/src/common/util/string_util.h:225-247 SplitToVec *)
Definition SplitToVec (source sep : bytes) (trim clear : bool) : list bytes :=
  if bool_decide (source = []) || bool_decide (sep = []) then []
  else split_all (emit_vec trim clear) source sep [].

Definition emit_set (trim clear : bool) (result : oset) (sub_str : bytes) : oset :=
  let sub_str := if trim then Trim sub_str else sub_str in
  if clear && bool_decide (sub_str = []) then result else oset_insert sub_str result.

(* @src src/src/common/util/string_util.h:280-302 SplitToSet *)
Definition SplitToSet (source sep : bytes) (trim clear : bool) : oset :=
  if bool_decide (source = []) || bool_decide (sep = []) then []
  else split_all (emit_set trim clear) source sep [].

(* @src src/src/common/util/string_util.h:69-86 SplitToMap (a key and value) *)
Definition emit_map (msep : bytes) (trim clear : bool) (result : list (bytes * bytes))
    (kv_str : bytes) : list (bytes * bytes) :=
  if bool_decide (kv_str = []) then result else
  match find msep kv_str 0 with
  | None => result
  | Some msep_pos =>
      let first := take msep_pos kv_str in
      let second := drop (msep_pos + length msep) kv_str in
      if trim then
        let first := Trim first in
        if negb (clear && bool_decide (first = [])) then omap_insert first (Trim second) result
        else result
      else if negb (clear && bool_decide (first = [])) then omap_insert first second result
      else result
  end.

(* @src src/src/common/util/string_util.h:56-91 SplitToMap *)
Definition SplitToMap (source vsep msep : bytes) (trim clear : bool) : list (bytes * bytes) :=
  if bool_decide (source = []) || bool_decide (vsep = []) || bool_decide (msep = [])
     || bool_decide (vsep = msep)
  then []
  else split_all (emit_map msep trim clear) source vsep [].

(** ** Joining *)

(* @src src/src/common/util/string_util.h:259-266 JoinVec *)
Fixpoint JoinVec (vec : list bytes) (sep : bytes) : bytes :=
  match vec with
  | [] => []
  | [s] => s
  | s :: vec' => s ++ sep ++ JoinVec vec' sep
  end.

(* @src src/src/common/util/string_util.h:314-321 JoinSet *)
Definition JoinSet (st : oset) (sep : bytes) : bytes := JoinVec st sep.

(* @src src/src/common/util/string_util.h:104-113 JoinMap *)
Definition JoinMap (kvmap : list (bytes * bytes)) (vsep msep : bytes) : bytes :=
  JoinVec (map (λ kv, kv.1 ++ msep ++ kv.2) kvmap) vsep.

(** ** Key-value strings *)

(* @src src/src/common/util/string_util.h:126-131 GetMapItemWithDef *)
Definition GetMapItemWithDef (m : list (bytes * bytes)) (key defval : bytes) : bytes :=
  default defval (omap_find key m).

(* @src src/src/common/util/string_util.h:143-153 AddKV *)
Definition AddKV (s key val vsep msep : bytes) : bytes :=
  let s := if bool_decide (s = []) then s else s ++ vsep in
  s ++ key ++ msep ++ val.

Section GetValueFromStrKV.
Context (str key vsep msep : bytes) (trim : bool).

(** The [while] loop; [key_pos] is the position found before it. *)
Fixpoint get_value_loop (fuel : nat) (key_pos : option nat) : option bytes :=
  match fuel, key_pos with
  | O, _ => None
  | _, None => Some []
  | S fuel', Some key_pos =>
      match find msep str (key_pos + length key) with
      | None => Some []
      | Some msep_pos =>
          let key_start_pos :=
            match rfind vsep str key_pos with None => 0 | Some p => p + length vsep end in
          let right_key_flag :=
            if trim then bool_decide (Trim (substr_between str key_start_pos msep_pos) = key)
            else (key_start_pos =? key_pos) && (msep_pos =? key_pos + length key) in
          if right_key_flag then
            let val_start_pos := msep_pos + length msep in
            let val_end_pos := default (length str) (find vsep str val_start_pos) in
            let re := substr_between str val_start_pos val_end_pos in
            Some (if trim then Trim re else re)
          else get_value_loop fuel' (find key str (msep_pos + length msep))
      end
  end.

(* @src src/src/common/util/string_util.h:166-211 GetValueFromStrKV *)
Definition GetValueFromStrKV : bytes :=
  if bool_decide (key = []) || bool_decide (vsep = []) || bool_decide (msep = [])
     || bool_decide (vsep = msep) then []
  else if contains vsep key || contains msep key then []
  else default [] (get_value_loop (S (length str)) (find key str 0)).
End GetValueFromStrKV.

Section CheckIfInList.
Context (str key sep : bytes) (trim : bool).

Fixpoint in_list_loop (fuel : nat) (key_pos : option nat) : option bool :=
  match fuel, key_pos with
  | O, _ => None
  | _, None => Some false
  | S fuel', Some key_pos =>
      let key_start_pos :=
        match rfind sep str key_pos with None => 0 | Some p => p + length sep end in
      let key_end_pos := default (length str) (find sep str (key_pos + length key)) in
      let found :=
        if trim then bool_decide (Trim (substr_between str key_start_pos key_end_pos) = key)
        else (key_start_pos =? key_pos) && (key_end_pos =? key_pos + length key) in
      if found then Some true
      else in_list_loop fuel' (find key str (key_end_pos + length sep))
  end.

(* @src src/src/common/util/string_util.h:334-365 CheckIfInList *)
Definition CheckIfInList : bool :=
  if bool_decide (key = []) || bool_decide (sep = []) then false
  else if contains sep key then false
  else default false (in_list_loop (S (length str)) (find key str 0)).
End CheckIfInList.

(** ** Versions *)

Definition digit_of (c : ascii) : option Z :=
  let z := u8_of_char c in
  if ((48 <=? z) && (z <=? 57))%Z then Some (z - 48)%Z else None.

(** The longest prefix of digits: its value, whether there is one, and the
    rest. *)
Fixpoint scan_digits (s : bytes) (acc : Z) (any : bool) : Z * bool * bytes :=
  match s with
  | [] => (acc, any, [])
  | c :: s' =>
      match digit_of c with
      | Some d => scan_digits s' (10 * acc + d)%Z true
      | None => (acc, any, s)
      end
  end.

(** [std::from_chars] into an [int]: the value and what is left unread, or
    [None] for an error code. *)
Definition from_chars_int (s : bytes) : option (Z * bytes) :=
  let neg := match s with c :: _ => bool_decide (c = "-"%char) | [] => false end in
  let '(v, any, rest) := scan_digits (if neg then tail s else s) 0%Z false in
  let v := if neg then (- v)%Z else v in
  if any && ((- 2 ^ 31 <=? v) && (v <? 2 ^ 31))%Z then Some (v, rest) else None.

(** A component of a version: the whole of it must be a number. *)
Definition version_number (s : bytes) : option Z :=
  match from_chars_int s with
  | Some (v, []) => Some v
  | _ => None
  end.

Fixpoint cmp_components (v1 v2 : list bytes) : res Z :=
  match v1, v2 with
  | [], [] => Ok 0%Z
  | s1 :: v1', s2 :: v2' =>
      match version_number s1, version_number s2 with
      | Some n1, Some n2 =>
          if (n1 <? n2)%Z then Ok (-1)%Z
          else if (n1 >? n2)%Z then Ok 1%Z
          else cmp_components v1' v2'
      | _, _ => Throw (RuntimeError "Invalid version format")
      end
  | _ :: _, [] => Ok 1%Z
  | [], _ :: _ => Ok (-1)%Z
  end.

(* @src src/src/common/util/string_util.h:374-403 CmpVersion *)
Definition CmpVersion (ver1 ver2 : bytes) : res Z :=
  cmp_components (SplitToVec ver1 (lit ".") true true) (SplitToVec ver2 (lit ".") true true).

(* @src src/src/common/util/string_util.h:414-419 CheckVersionInside *)
Definition CheckVersionInside (ver start_ver end_ver : bytes) : res bool :=
  a ← CmpVersion ver (if bool_decide (start_ver = []) then lit "0.0.0.0" else start_ver);
  if (a >=? 0)%Z then
    b ← CmpVersion ver (if bool_decide (end_ver = []) then lit "999.9.9.9" else end_ver);
    Ok (b <=? 0)%Z
  else Ok false.

(** ** Replacement in place *)

Section ReplaceString.
Context (ov nv : bytes).

(* @src src/src/common/util/string_util.h:433-438 ReplaceString (positions) *)
Fixpoint replace_positions (fuel : nat) (str : bytes) (pos : nat) : list nat :=
  match fuel with
  | O => []
  | S fuel' =>
      match find ov str pos with
      | None => []
      | Some pos => pos :: replace_positions fuel' str (pos + length ov)
      end
  end.

(* @src src/src/common/util/string_util.h:441-444 ReplaceString (same length) *)
Definition replace_same (str : bytes) (vec_pos : list nat) : bytes :=
  fold_left (λ str pos, splice pos nv str) vec_pos str.

(** The loop that shifts to the left: [vec_pos] from position [ii] on, with
    the old size as its last element; the result is the string and [p]. *)
(* @src src/src/common/util/string_util.h:448-454 ReplaceString (shorter) *)
Fixpoint replace_shorter (str : bytes) (vec_pos : list nat) (p : nat) : bytes * nat :=
  match vec_pos with
  | pos :: ((next :: _) as vec_pos') =>
      let str := splice p nv str in
      let p := p + length nv in
      let cplen := next - pos - length ov in
      let str := splice p (take cplen (drop (pos + length ov) str)) str in
      replace_shorter str vec_pos' (p + cplen)
  | _ => (str, p)
  end.

(** The loop that shifts to the right, from the last position to the first:
    the recursion is on the positions not yet treated. *)
(* @src src/src/common/util/string_util.h:461-467 ReplaceString (longer) *)
Fixpoint replace_longer (vec_pos : list nat) (str : bytes) : bytes * nat :=
  match vec_pos with
  | pos :: ((next :: _) as vec_pos') =>
      let '(str, p) := replace_longer vec_pos' str in
      let cplen := next - pos - length ov in
      let p := p - cplen in
      let str := splice p (take cplen (drop (pos + length ov) str)) str in
      let p := p - length nv in
      (splice p nv str, p)
  | _ => (str, length str)
  end.

(* @src src/src/common/util/string_util.h:429-471 ReplaceString *)
Definition ReplaceString (str : bytes) : bytes :=
  if bool_decide (str = []) || bool_decide (ov = []) then str else
  let old_len := length ov in
  let new_len := length nv in
  let vec_pos := replace_positions (S (length str)) str 0 in
  let vec_len := length vec_pos in
  match vec_pos with
  | [] => str
  | pos0 :: _ =>
      if old_len =? new_len then replace_same str vec_pos
      else if new_len <? old_len then
        let '(str, p) := replace_shorter str (vec_pos ++ [length str]) pos0 in take p str
      else
        let diff := new_len - old_len in
        (replace_longer (vec_pos ++ [length str])
           (str ++ replicate (diff * vec_len) Ascii.zero)).1
  end.
End ReplaceString.

(** ** Tests on characters *)

(** In the "C" locale. *)
Definition isupper (c : ascii) : bool := ((65 <=? u8_of_char c) && (u8_of_char c <=? 90))%Z.
Definition islower (c : ascii) : bool := ((97 <=? u8_of_char c) && (u8_of_char c <=? 122))%Z.
Definition isdigit (c : ascii) : bool := ((48 <=? u8_of_char c) && (u8_of_char c <=? 57))%Z.
Definition isalnum (c : ascii) : bool := isupper c || islower c || isdigit c.

(* @src src/src/common/util/string_util.h:661-661 CharToLower *)
Definition CharToLower (c : ascii) : ascii :=
  if isupper c then char_of_u8 (u8_of_char c + 32) else c.
(* @src src/src/common/util/string_util.h:669-669 CharToUpper *)
Definition CharToUpper (c : ascii) : ascii :=
  if islower c then char_of_u8 (u8_of_char c - 32) else c.

(* @src src/src/common/util/string_util.h:480-486 IsAlnumStr *)
Definition IsAlnumStr (str : bytes) : bool :=
  if length str =? 0 then false else forallb isalnum str.

(* @src src/src/common/util/string_util.h:495-501 IsDigitStr *)
Definition IsDigitStr (str : bytes) : bool :=
  if length str =? 0 then false else forallb isdigit str.

(* @src src/src/common/util/string_util.h:512-516 GetMapKeys *)
Definition GetMapKeys {V} (m : list (bytes * V)) : oset :=
  fold_left (λ re it, oset_insert it.1 re) m [].

(* @src src/src/common/util/string_util.h:688-694 StrToLower *)
Definition StrToLower (str : bytes) : bytes := map CharToLower str.
(* @src src/src/common/util/string_util.h:713-719 StrToUpper *)
Definition StrToUpper (str : bytes) : bytes := map CharToUpper str.

(* @src src/src/common/util/string_util.h:729-734 CheckIEqual *)
Definition CheckIEqual (str1 str2 : bytes) : bool :=
  if negb (length str1 =? length str2) then false
  else forallb (λ ab, bool_decide (CharToLower ab.1 = CharToLower ab.2)) (zip str1 str2).

(** The loop of [StrToTitleCase] after the first character: [prev] is the
    character before. *)
Fixpoint title_loop (prev : ascii) (s : bytes) : bytes :=
  match s with
  | [] => []
  | c :: s' =>
      let c := if bool_decide (prev = kSpace) then CharToUpper c else c in
      c :: title_loop c s'
  end.

(** Dereferencing the iterator of an empty string is undefined. *)
(* @src src/src/common/util/string_util.h:742-751 StrToTitleCase *)
Definition StrToTitleCase (str : bytes) : res bytes :=
  match str with
  | [] => Undef
  | c :: s => let c := CharToUpper c in Ok (c :: title_loop c s)
  end.

(* @src src/src/common/util/string_util.h:759-764 StandardisePath *)
Definition StandardisePath (path : bytes) : bytes :=
  match path with
  | [] => lit "/"
  | _ =>
      let path := map (λ c, if bool_decide (c = "\"%char) then "/"%char else c) path in
      if bool_decide (last path = Some "/"%char) then path else path ++ lit "/"
  end.

(** The comparison loop of [StartsWith] and [EndsWith]. *)
Fixpoint same_prefix (eq : ascii → ascii → bool) (pattern str : bytes) : bool :=
  match pattern, str with
  | [], _ => true
  | p :: pattern', c :: str' => eq p c && same_prefix eq pattern' str'
  | _ :: _, [] => false
  end.

Definition char_eq (ignore_case : bool) (a b : ascii) : bool :=
  if ignore_case then bool_decide (CharToLower a = CharToLower b) else bool_decide (a = b).

(* @src src/src/common/util/string_util.h:775-792 StartsWith *)
Definition StartsWith (str pattern : bytes) (ignore_case : bool) : bool :=
  if (length str <? length pattern) || (length pattern =? 0) then false
  else same_prefix (char_eq ignore_case) pattern str.

(* @src src/src/common/util/string_util.h:803-821 EndsWith *)
Definition EndsWith (str pattern : bytes) (ignore_case : bool) : bool :=
  if (length str <? length pattern) || (length pattern =? 0) then false
  else same_prefix (char_eq ignore_case) pattern (drop (length str - length pattern) str).

(* @src src/src/common/util/string_util.h:830-837 Hash64Fnv1a *)
Definition Hash64Fnv1a (data : bytes) : Z :=
  fold_left (λ hash c, wrap64 (Z.lxor hash (u8_of_char c) * 0x100000001b3)) data
    0xcbf29ce484222325%Z.

(* @src src/src/common/util/string_util.h:846-853 Hash32Fnv1a *)
Definition Hash32Fnv1a (data : bytes) : Z :=
  fold_left (λ hash c, wrap32 (Z.lxor hash (u8_of_char c) * 0x1000193)) data 0x811c9dc5%Z.

(** ** Truncation of UTF-8 *)

(** A continuation byte: [(c & 0xC0) == 0x80]. *)
Definition is_cont (c : ascii) : bool := (Z.land (u8_of_char c) 0xC0 =? 0x80)%Z.

Fixpoint truncate_loop (s : bytes) (truncate_pos : nat) : nat :=
  match truncate_pos with
  | O => O
  | S pos' =>
      match s !! truncate_pos with
      | Some c => if is_cont c then truncate_loop s pos' else truncate_pos
      | None => truncate_pos
      end
  end.

(* @src src/src/common/util/string_util.h:879-898 SafeUtf8TruncationLength *)
Definition SafeUtf8TruncationLength (utf8_str : bytes) (desired_length : nat) : nat :=
  let actual_length := length utf8_str in
  if actual_length <=? desired_length then actual_length
  else match utf8_str !! desired_length with
       | Some c => if negb (is_cont c) then desired_length else truncate_loop utf8_str desired_length
       | None => desired_length
       end.

(** ** Environment variables *)

Section ReplaceEnvVars.
(** [std::getenv] *)
Context (getenv : bytes → option bytes).

(** The longest prefix without a closing brace. *)
Fixpoint span_name (s : bytes) : bytes * bytes :=
  match s with
  | [] => ([], [])
  | c :: s' =>
      if bool_decide (c = "}"%char) then ([], s)
      else let '(name, rest) := span_name s' in (c :: name, rest)
  end.

(** A match of [\$\{([^}]+)\}] at the beginning of [s]: the name and what
    follows the match. *)
Definition match_env (s : bytes) : option (bytes * bytes) :=
  match s with
  | c1 :: c2 :: s' =>
      if bool_decide (c1 = "$"%char) && bool_decide (c2 = "{"%char) then
        match span_name s' with
        | (c :: name, _ :: rest) => Some (c :: name, rest)
        | _ => None
        end
      else None
  | _ => None
  end.

(** [std::regex_search]: the first match, with what precedes it. *)
Fixpoint search_env (s : bytes) : option (bytes * bytes * bytes) :=
  match match_env s with
  | Some (name, rest) => Some ([], name, rest)
  | None =>
      match s with
      | [] => None
      | c :: s' =>
          match search_env s' with
          | Some (before, name, rest) => Some (c :: before, name, rest)
          | None => None
          end
      end
  end.

(** The [while] loop, on what lies from [cur_pos] on. *)
Fixpoint replace_env_loop (fuel : nat) (s : bytes) : option bytes :=
  match fuel with
  | O => None
  | S fuel' =>
      match search_env s with
      | None => Some s
      | Some (before, name, rest) =>
          (λ rest, before ++ default [] (getenv name) ++ rest) <$> replace_env_loop fuel' rest
      end
  end.

(* @src src/src/common/util/string_util.h:636-653 ReplaceEnvVars *)
Definition ReplaceEnvVars (input : bytes) : bytes :=
  default [] (replace_env_loop (S (length input)) input).
End ReplaceEnvVars.

(** ** Tables *)

Definition kNewline : ascii := ascii_of_nat 10.
Definition kReturn : ascii := ascii_of_nat 13.

(** Drop one carriage return at the end. *)
Definition strip_cr (line : bytes) : bytes :=
  if bool_decide (last line = Some kReturn) then removelast line else line.

(** [line]: the characters since the last newline. *)
(* @src src/src/common/util/string_util.h:534-553 DrawTable (split_lines) *)
Fixpoint split_lines (line : bytes) (sv : bytes) : list bytes :=
  match sv with
  | [] => [strip_cr line]
  | c :: sv' =>
      if bool_decide (c = kNewline) then strip_cr line :: split_lines [] sv'
      else split_lines (line ++ [c]) sv'
  end.

Definition cell_width (cell : bytes) : nat := foldr Nat.max 0 (map length (split_lines [] cell)).

(* @src src/src/common/util/string_util.h:557-570 DrawTable (column width) *)
Fixpoint widen (column_width : list nat) (row_item : list bytes) : list nat :=
  match row_item, column_width with
  | [], w => w
  | cell :: row', [] => cell_width cell :: widen [] row'
  | cell :: row', w :: ws => Nat.max w (cell_width cell) :: widen ws row'
  end.

(** [std::setw(w)] with [std::left]. *)
Definition pad_right (w : nat) (fill : ascii) (s : bytes) : bytes := s ++ replicate (w - length s) fill.

(** The first column's width comes with the [-] itself right-aligned. *)
(* @src src/src/common/util/string_util.h:583-588 DrawTable (draw_horizontal_line) *)
Definition horizontal_line (column_width : list nat) : bytes :=
  concat (map (λ w, "+"%char :: replicate (w - 1) "-"%char ++ ["-"%char]) column_width) ++ ["+"%char].

(** One line of a row: cell [jj] contributes its line [line_idx]. *)
(* @src src/src/common/util/string_util.h:607-617 DrawTable (a line of a row) *)
Definition row_line (column_width : list nat) (split_cells : list (list bytes)) (line_idx : nat) : bytes :=
  concat (map (λ wc, "|"%char :: pad_right wc.1 kSpace (kSpace :: default [] (wc.2 !! line_idx)))
              (zip column_width split_cells)) ++ ["|"%char].

(* @src src/src/common/util/string_util.h:593-619 DrawTable (a row) *)
Definition row_lines (column_width : list nat) (row : list bytes) : list bytes :=
  let split_cells_this_row :=
    map (λ jj, match row !! jj with Some cell => split_lines [] cell | None => [[]] end)
        (seq 0 (length column_width)) in
  let max_visual_lines := foldr Nat.max 1 (map length split_cells_this_row) in
  map (row_line column_width split_cells_this_row) (seq 0 max_visual_lines).

(** The lines of the table, without their newlines. *)
Definition table_lines (column_width : list nat) (table : list (list bytes)) (with_header : bool)
    : list bytes :=
  horizontal_line column_width ::
  concat (imap (λ ii row,
    row_lines column_width row ++
    if with_header && (ii =? 0) then [horizontal_line column_width] else []) table) ++
  [horizontal_line column_width].

(* @src src/src/common/util/string_util.h:529-628 DrawTable *)
Definition DrawTable (table : list (list bytes)) (with_header : bool) : bytes :=
  match table with
  | [] => lit "<empty table>"
  | _ =>
      let column_width := fold_left widen table [] in
      match column_width with
      | [] => lit "<table with rows but no columns>"
      | _ =>
          let column_width := map (λ w, w + 2) column_width in
          concat (map (λ l, l ++ [kNewline]) (table_lines column_width table with_header))
      end
  end.

(** The list of names of the reports: "[ a , b ]", or "<empty>". *)
Definition name_list (names : list string) : bytes :=
  match names with
  | [] => lit "<empty>"
  | _ => lit "[ " ++ JoinVec (map lit names) (lit " , ") ++ lit " ]"
  end.

(** * Splitting and joining *)

Lemma JoinVec_cons s v sep : v ≠ [] → JoinVec (s :: v) sep = s ++ sep ++ JoinVec v sep.
Proof. by destruct v. Qed.

(** The positions of the separators between pieces that begin at [pos]. *)
Fixpoint offsets (sep : bytes) (pos : nat) (pieces : list bytes) : list nat :=
  match pieces with
  | [] | [_] => []
  | p :: pieces' => (pos + length p) :: offsets sep (pos + length p + length sep) pieces'
  end.

Lemma offsets_cons sep pos p pieces :
  pieces ≠ [] →
  offsets sep pos (p :: pieces) =
    (pos + length p) :: offsets sep (pos + length p + length sep) pieces.
Proof. by destruct pieces. Qed.

Lemma length_offsets sep pos pieces : length (offsets sep pos pieces) = length pieces - 1.
Proof.
  revert pos; induction pieces as [|p pieces IH]; intros pos; [done|].
  destruct (decide (pieces = [])) as [->|Hne]; [done|].
  rewrite offsets_cons by done. cbn. rewrite IH. destruct pieces; [done|cbn; lia].
Qed.

Section SplitSpec.
Context {A : Type} (emit : A → bytes → A) (source sep : bytes) (Hsep : sep ≠ []).

(** What the loop does from position [pos_start] on: it cuts the rest of the
    string into pieces, none of which contains the separator before its
    end. *)
Lemma split_loop_spec fuel pos acc :
  pos ≤ length source → length source - pos < fuel →
  ∃ pieces, split_loop emit source sep fuel pos acc = Some (fold_left emit pieces acc) ∧
    pieces ≠ [] ∧ JoinVec pieces sep = drop pos source ∧
    replace_positions sep fuel source pos = offsets sep pos pieces ∧
    (∀ c, sep = [c] → Forall (λ p, c ∉ p) pieces).
Proof using Hsep.
  revert pos acc; induction fuel as [|fuel IH]; intros pos acc Hpos Hf; [lia|].
  cbn [split_loop replace_positions]. cbn zeta. unfold find. destruct (Nat.leb_spec pos (length source)); [|lia].
  destruct (find0 sep (drop pos source)) as [i|] eqn:Hi; cbn [fmap option_fmap option_map default];
    unfold id.
  - apply find0_some in Hi as Hi'. destruct Hi' as (a & b & Hab & Hla & Hfirst).
    pose proof (f_equal length Hab) as Hlen. rewrite length_drop, !length_app in Hlen.
    assert (0 < length sep) as Hls by (destruct sep; [done|cbn; lia]).
    destruct (Nat.ltb_spec (pos + i) (length source)); [|lia].
    destruct (IH (pos + i + length sep)
      (emit acc (take (pos + i - pos) (drop pos source)))) as (ps & -> & Hne & Hj & Ho & Hc); [lia..|].
    exists (a :: ps). replace (pos + i - pos) with i by lia.
    rewrite Hab at 1. rewrite take_app_length' by done. split_and!; [done..| | |].
    + rewrite JoinVec_cons, Hj by done. rewrite Hab. f_equal.
      replace (pos + i + length sep) with (pos + (i + length sep)) by lia.
      rewrite <-drop_drop, Hab. by rewrite app_assoc, drop_app_length' by (rewrite length_app; lia).
    + by rewrite offsets_cons, Ho, Hla.
    + intros c Hce. constructor; [|by apply Hc]. intros Hin.
      apply list_elem_of_split in Hin as (a1 & a2 & Ha).
      specialize (Hfirst (length a1)). rewrite Hab, Ha, <-app_assoc in Hfirst.
      rewrite drop_app_length in Hfirst. rewrite Hce in Hfirst. cbn in Hfirst.
      rewrite bool_decide_true in Hfirst by done. cbn in Hfirst.
      apply (f_equal length) in Ha. rewrite length_app in Ha. cbn in Ha.
      discriminate (Hfirst ltac:(lia)).
  - destruct (Nat.ltb_spec (length source) (length source)); [lia|].
    exists [drop pos source]. rewrite take_ge by (rewrite length_drop; lia). split_and!; [done..|].
    intros c ->. constructor; [by apply find0_char_none|constructor].
Qed.

Lemma split_all_spec acc :
  ∃ pieces, split_all emit source sep acc = fold_left emit pieces acc ∧
    pieces ≠ [] ∧ JoinVec pieces sep = source ∧
    replace_positions sep (S (length source)) source 0 = offsets sep 0 pieces ∧
    (∀ c, sep = [c] → Forall (λ p, c ∉ p) pieces).
Proof using Hsep.
  destruct (split_loop_spec (S (length source)) 0 acc) as (ps & H1 & H); [lia..|].
  exists ps. unfold split_all. by rewrite H1.
Qed.
End SplitSpec.

(** A character cuts a string in one way only. *)
Lemma cut_inj c (a1 a2 b1 b2 : bytes) :
  c ∉ a1 → c ∉ a2 → a1 ++ c :: b1 = a2 ++ c :: b2 → a1 = a2 ∧ b1 = b2.
Proof.
  revert a2; induction a1 as [|x a1 IH]; intros [|y a2] H1 H2 He; cbn in He; injection He.
  - by intros ->.
  - intros _ ->. destruct H2. apply list_elem_of_here.
  - intros _ ->. destruct H1. apply list_elem_of_here.
  - intros Hr ->. apply not_elem_of_cons in H1 as [_ H1], H2 as [_ H2].
    by destruct (IH a2 H1 H2 Hr) as [-> ->].
Qed.

Lemma no_cut c (a1 a2 b : bytes) : c ∉ a1 → a1 ≠ a2 ++ c :: b.
Proof. intros H ->. destruct H. apply elem_of_app. right. apply list_elem_of_here. Qed.

Lemma JoinVec_inj c v1 v2 :
  v1 ≠ [] → v2 ≠ [] → Forall (λ p, c ∉ p) v1 → Forall (λ p, c ∉ p) v2 →
  JoinVec v1 [c] = JoinVec v2 [c] → v1 = v2.
Proof.
  revert v2; induction v1 as [|x v1 IH]; intros [|y v2]; try done. intros _ _ [Hx H1]%Forall_cons
    [Hy H2]%Forall_cons Hj.
  destruct v1 as [|x' v1], v2 as [|y' v2]; cbn [JoinVec app] in Hj.
  - by subst.
  - by apply no_cut in Hj.
  - symmetry in Hj. by apply no_cut in Hj.
  - apply cut_inj in Hj as [-> Hj]; [|done..]. f_equal. by apply IH.
Qed.

(** Splitting undoes joining.  Joining a vector with a one-character
    separator and splitting the result with trimming and clearing gives the
    vector back, when its elements are trimmed, not empty, and do not contain
    the separator. *)
Theorem SplitToVec_JoinVec (c : ascii) (vec : list bytes) :
  Forall (λ s, (c ∉ s) ∧ s ≠ [] ∧ Trim s = s) vec →
  SplitToVec (JoinVec vec [c]) [c] true true = vec.
Proof.
  intros Hv. unfold SplitToVec. destruct (bool_decide_reflect (JoinVec vec [c] = [])) as [He|He]; cbn [orb].
  - destruct vec as [|s [|s' vec]]; [done| |]; apply Forall_cons in Hv as [(_ & Hs & _) _]; cbn in He.
    + done.
    + by destruct s.
  - rewrite bool_decide_false by done.
    destruct (split_all_spec (emit_vec true true) (JoinVec vec [c]) [c] ltac:(done) [])
      as (ps & -> & Hne & Hj & _ & Hc).
    assert (ps = vec) as ->.
    { apply (JoinVec_inj c); [done|by intros ->|by apply Hc| |done].
      eapply Forall_impl; [exact Hv|]. by intros s [? _]. }
    transitivity ([] ++ vec); [|done]. generalize (@nil bytes) as acc. clear He Hne Hj Hc.
    induction Hv as [|s vec (_ & Hs & Ht) _ IH]; intros acc; cbn [fold_left]; [by rewrite app_nil_r|].
    rewrite IH. unfold emit_vec. cbn zeta iota. rewrite Ht, bool_decide_false by done. cbn.
    by rewrite <-app_assoc.
Qed.

Lemma fold_emit_plain pieces acc :
  fold_left (emit_vec false false) pieces acc = acc ++ pieces.
Proof.
  revert acc; induction pieces as [|p pieces IH]; intros acc; cbn [fold_left]; [by rewrite app_nil_r|].
  rewrite IH. unfold emit_vec. cbn. by rewrite <-app_assoc.
Qed.

(** Joining undoes splitting, for every separator: the pieces of a string,
    neither trimmed nor cleared, joined with the separator are the string. *)
Theorem JoinVec_SplitToVec (source sep : bytes) :
  sep ≠ [] → JoinVec (SplitToVec source sep false false) sep = source.
Proof.
  intros Hs. unfold SplitToVec. destruct (bool_decide_reflect (source = [])) as [->|He]; [done|].
  rewrite bool_decide_false by done. cbn [orb].
  destruct (split_all_spec (emit_vec false false) source sep Hs []) as (ps & -> & _ & Hj & _).
  by rewrite fold_emit_plain.
Qed.

Lemma omap_sorted_snoc_lt {V} (m : list (bytes * V)) a m' :
  omap_sorted (m ++ a :: m') → Forall (λ b, bytes_cmp b.1 a.1 = Lt) m.
Proof.
  induction m as [|b m IH]; intros Hs; [constructor|]. cbn in Hs. inversion Hs as [|? ? Hs' Hf]; subst.
  constructor; [|by apply IH]. rewrite Forall_app in Hf. destruct Hf as [_ Hf].
  by apply Forall_cons in Hf as [? _].
Qed.

(** Splitting a joined map gives the map back, for one-character
    separators [v] between and [e] inside pairs, when no key or value contains
    [v], no key contains [e], keys are not empty and all is trimmed; a value
    may contain [e]. *)
Theorem SplitToMap_JoinMap (v e : ascii) (m : list (bytes * bytes)) :
  v ≠ e → omap_sorted m →
  Forall (λ kv, (v ∉ kv.1) ∧ (v ∉ kv.2) ∧ (e ∉ kv.1) ∧ kv.1 ≠ [] ∧ Trim kv.1 = kv.1 ∧ Trim kv.2 = kv.2) m →
  SplitToMap (JoinMap m [v] [e]) [v] [e] true true = m.
Proof.
  intros Hve Hsort Hm. unfold SplitToMap.
  destruct (bool_decide_reflect (JoinMap m [v] [e] = [])) as [He|He]; cbn [orb].
  - destruct m as [|[k x] [|kv m]]; [done| |]; apply Forall_cons in Hm as [(_ & _ & _ & Hk & _) _];
      unfold JoinMap in He; cbn in He; by destruct k.
  - rewrite !bool_decide_false by congruence.
    cbn [orb]. destruct (split_all_spec (emit_map [e] true true) (JoinMap m [v] [e]) [v] ltac:(done) [])
      as (ps & -> & Hne & Hj & _ & Hc).
    assert (ps = map (λ kv, kv.1 ++ [e] ++ kv.2) m) as ->.
    { apply (JoinVec_inj v); [done|by destruct m|by apply Hc| |done].
      apply Forall_map. eapply Forall_impl; [exact Hm|]. intros kv (H1 & H2 & _). cbn.
      rewrite elem_of_app, elem_of_cons. tauto. }
    transitivity ([] ++ m); [|done]. change m with ([] ++ m) in Hsort. revert Hsort.
    generalize (@nil (bytes * bytes)) as acc. clear He Hne Hj Hc.
    induction Hm as [|[k x] m (Hk1 & Hk2 & Hke & Hk0 & Ht1 & Ht2) _ IH]; intros acc Hsort;
      cbn [fold_left map]; [by rewrite app_nil_r|].
    cbn [fst snd] in *. unfold emit_map at 2. rewrite bool_decide_false by (by destruct k).
    unfold find. cbn [Nat.leb]. rewrite drop_0. cbn [app]. rewrite find0_char_app by done. cbn -[drop take omap_insert].
    rewrite take_app_length' by lia.
    replace (length k + 1) with (length (k ++ [e])) by (rewrite length_app; cbn; lia).
    change (e :: x) with ([e] ++ x). rewrite app_assoc, drop_app_length.
    rewrite Ht1, Ht2, bool_decide_false by done. cbn [andb negb].
    rewrite omap_insert_last by (by eapply omap_sorted_snoc_lt in Hsort).
    rewrite IH; [by rewrite <-app_assoc|by rewrite <-app_assoc].
Qed.

(** * Replacement in place *)

Section ReplaceSpec.
Context (ov nv : bytes).
Implicit Types (pre out junk tl p : bytes) (ps : list bytes).

Lemma splice_at pre (src b : bytes) i :
  i = length pre → splice i src (pre ++ b) = pre ++ src ++ drop (length src) b.
Proof.
  intros ->. unfold splice. rewrite take_app_length, <-drop_drop, drop_app_length. done.
Qed.

Lemma drop_app_le {B} n (a b : list B) : n ≤ length a → drop n (a ++ b) = drop n a ++ b.
Proof. intros H. rewrite drop_app. replace (n - length a) with 0 by lia. by rewrite drop_0. Qed.

Lemma replace_same_spec ps pre :
  length ov = length nv → ps ≠ [] →
  replace_same nv (pre ++ JoinVec ps ov) (offsets ov (length pre) ps) = pre ++ JoinVec ps nv.
Proof.
  intros Hl. unfold replace_same. revert pre; induction ps as [|p ps IH]; intros pre Hne; [done|].
  destruct (decide (ps = [])) as [->|Hps]; [done|].
  rewrite offsets_cons, !JoinVec_cons by done. cbn [fold_left].
  rewrite app_assoc, splice_at by (by rewrite length_app).
  rewrite <-Hl, drop_app_length. specialize (IH (pre ++ p ++ nv) Hps).
  rewrite !length_app, <-Hl, !Nat.add_assoc in IH. rewrite <-!app_assoc in *. by rewrite IH.
Qed.

(** One step of the loop that shifts to the left. *)
Lemma shift_left_step out junk p tl :
  length nv ≤ length ov →
  let s1 := splice (length out) nv (out ++ junk ++ ov ++ p ++ tl) in
  let src := take (length p) (drop (length out + length junk + length ov) s1) in
  ∃ junk', splice (length out + length nv) src s1 = out ++ nv ++ p ++ junk' ++ tl ∧
    length junk' = length junk + length ov - length nv.
Proof.
  intros Hl s1 src. subst s1 src. rewrite splice_at by done.
  assert (drop (length nv) (junk ++ ov ++ p ++ tl) = drop (length nv) (junk ++ ov) ++ p ++ tl) as ->.
  { rewrite (app_assoc junk). apply drop_app_le. rewrite length_app. lia. }
  set (j1 := drop (length nv) (junk ++ ov)).
  assert (length j1 = length junk + length ov - length nv) as Hj1
    by (unfold j1; by rewrite length_drop, length_app).
  assert (take (length p) (drop (length out + length junk + length ov) (out ++ nv ++ j1 ++ p ++ tl)) = p) as ->.
  { rewrite !(app_assoc out), (app_assoc _ j1).
    rewrite drop_app_length' by (rewrite !length_app; lia). by rewrite take_app_length. }
  rewrite (app_assoc out), splice_at by (by rewrite length_app).
  exists (drop (length p) (j1 ++ p)). split; [|rewrite length_drop, length_app; lia].
  rewrite <-!app_assoc. do 3 f_equal. rewrite (app_assoc j1), drop_app_le; [done|].
  rewrite length_app. lia.
Qed.

Lemma replace_shorter_spec ps out junk :
  length nv ≤ length ov → ps ≠ [] →
  let q := length out + length junk in
  let total := q + length ov + length (JoinVec ps ov) in
  let r := replace_shorter ov nv (out ++ junk ++ ov ++ JoinVec ps ov)
             (q :: offsets ov (q + length ov) ps ++ [total]) (length out) in
  take r.2 r.1 = out ++ nv ++ JoinVec ps nv.
Proof.
  intros Hl. revert out junk; induction ps as [|p ps IH]; intros out junk Hne q total; [done|].
  destruct (decide (ps = [])) as [->|Hps].
  - cbn [offsets app replace_shorter JoinVec] in *. subst total q.
    match goal with |- context [take (?n - _ - _) _] =>
      replace (n - (length out + length junk) - length ov) with (length p) by lia end.
    destruct (shift_left_step out junk p [] Hl) as (j' & Hs & _).
    rewrite !app_nil_r in Hs. rewrite Hs. cbn [fst snd].
    rewrite !(app_assoc out), (app_assoc _ p). apply take_app_length'. rewrite !length_app. lia.
  - subst total. rewrite offsets_cons, !JoinVec_cons by done. cbn [app replace_shorter].
    replace (q + length ov + length p - q - length ov) with (length p) by lia.
    destruct (shift_left_step out junk p (ov ++ JoinVec ps ov) Hl) as (j' & Hs & Hj').
    unfold q. rewrite Hs. specialize (IH (out ++ nv ++ p) j' Hps). cbn zeta in IH.
    rewrite !length_app, <-!app_assoc in *.
    replace (length out + (length nv + length p) + length j')
      with (length out + length junk + length ov + length p) in IH by lia.
    replace (length out + length nv + length p) with (length out + (length nv + length p)) by lia.
    replace (length out + length junk + length ov + (length p + (length ov + length (JoinVec ps ov))))
      with (length out + length junk + length ov + length p + length ov + length (JoinVec ps ov)) by lia.
    exact IH.
Qed.

(** One step of the loop that shifts to the right. *)
Lemma shift_right_step pre p junk tl pos :
  length nv ≤ length ov + length junk →
  let s := pre ++ ov ++ p ++ junk ++ tl in
  pos = length (pre ++ ov ++ p ++ junk) →
  let s1 := splice (pos - length p) (take (length p) (drop (length pre + length ov) s)) s in
  ∃ junk', splice (pos - length p - length nv) nv s1 = pre ++ junk' ++ nv ++ p ++ tl ∧
    length junk' = length ov + length junk - length nv ∧
    pos - length p - length nv = length (pre ++ junk').
Proof.
  intros Hl s Hpos s1. subst s1 s. rewrite !length_app in Hpos.
  assert (take (length p) (drop (length pre + length ov) (pre ++ ov ++ p ++ junk ++ tl)) = p) as ->.
  { rewrite (app_assoc pre), drop_app_length' by (by rewrite length_app). apply take_app_length. }
  set (x := ov ++ p ++ junk).
  assert (length x = length ov + length p + length junk) as Hx by (unfold x; rewrite !length_app; lia).
  assert (pre ++ ov ++ p ++ junk ++ tl =
          (pre ++ take (length x - length p) x) ++ drop (length x - length p) x ++ tl) as ->.
  { rewrite <-(app_assoc pre (take _ x)), (app_assoc (take _ x)), take_drop. unfold x. by rewrite <-!app_assoc. }
  rewrite splice_at by (rewrite length_app, length_take; lia).
  rewrite drop_app_length' by (rewrite length_drop; lia).
  set (x1 := take (length x - length p) x).
  assert (length x1 = length ov + length junk) as Hx1 by (unfold x1; rewrite length_take; lia).
  rewrite <-(take_drop (length x1 - length nv) x1). rewrite <-!app_assoc.
  rewrite (app_assoc pre), splice_at by (rewrite length_app, length_take; lia).
  rewrite drop_app_length' by (rewrite length_drop; lia).
  exists (take (length x1 - length nv) x1).
  rewrite <-!app_assoc, !length_app, length_take. split_and!; [done|lia|lia].
Qed.

Lemma replace_longer_cons pos next rest str :
  replace_longer ov nv (pos :: next :: rest) str =
  let '(str, p) := replace_longer ov nv (next :: rest) str in
  let cplen := next - pos - length ov in
  (splice (p - cplen - length nv) nv (splice (p - cplen) (take cplen (drop (pos + length ov) str)) str),
   p - cplen - length nv).
Proof. done. Qed.

Lemma replace_longer_spec ps pre fill :
  length ov ≤ length nv → ps ≠ [] → (length nv - length ov) * length ps ≤ length fill →
  let q := length pre in
  let total := q + length ov + length (JoinVec ps ov) in
  ∃ junk, replace_longer ov nv (q :: offsets ov (q + length ov) ps ++ [total])
            (pre ++ ov ++ JoinVec ps ov ++ fill) =
          (pre ++ junk ++ nv ++ JoinVec ps nv, length (pre ++ junk)) ∧
    length junk = length fill - (length nv - length ov) * length ps.
Proof.
  intros Hl. revert pre fill; induction ps as [|p ps IH]; intros pre fill Hne Hfill q total; [done|].
  cbn [length] in Hfill. destruct (decide (ps = [])) as [->|Hps].
  - cbn [offsets app replace_longer JoinVec length] in *. subst total q.
    match goal with |- context [take (?n - _ - _) _] =>
      replace (n - length pre - length ov) with (length p) by lia end.
    destruct (shift_right_step pre p fill [] (length (pre ++ ov ++ p ++ fill)) ltac:(lia) ltac:(done))
      as (j' & Hs & Hj' & Hp).
    rewrite !app_nil_r in Hs. rewrite Hs, Hp. exists j'. split; [done|lia].
  - subst total. rewrite offsets_cons, !JoinVec_cons by done.
    cbn [app length]. rewrite replace_longer_cons, !length_app.
    destruct (IH (pre ++ ov ++ p) fill Hps ltac:(lia)) as (j & Hin & Hj). cbn zeta in Hin.
    rewrite !length_app, <-!app_assoc in Hin.
    replace (length pre + (length ov + length p)) with (q + length ov + length p) in Hin
      by (unfold q; lia).
    replace (q + length ov + (length p + (length ov + length (JoinVec ps ov))))
      with (q + length ov + length p + length ov + length (JoinVec ps ov)) by lia.
    rewrite <-!app_assoc, Hin. cbn zeta.
    replace (q + length ov + length p - q - length ov) with (length p) by lia.
    destruct (shift_right_step pre p j (nv ++ JoinVec ps nv) (q + length ov + length p + length j)
      ltac:(lia) ltac:(rewrite !length_app; unfold q; lia)) as (j' & Hs & Hj' & Hp).
    change (length pre) with q in Hs. rewrite Hs, Hp. exists j'. split; [done|lia].
Qed.
End ReplaceSpec.

(** Replacement in place.  Whichever of its three loops runs, [ReplaceString]
    yields the string with every occurrence of [ov], from left to right and
    without overlap, replaced by [nv]: the pieces that splitting at [ov] gives,
    joined with [nv]. *)
Theorem ReplaceString_correct (ov nv str : bytes) :
  ov ≠ [] → ReplaceString ov nv str = JoinVec (SplitToVec str ov false false) nv.
Proof.
  intros Hov. unfold ReplaceString, SplitToVec.
  destruct (bool_decide_reflect (str = [])) as [->|Hstr]; [done|].
  rewrite bool_decide_false by done. cbn [orb]. cbn zeta.
  destruct (split_all_spec (emit_vec false false) str ov Hov []) as (ps & -> & Hne & Hj & Ho & _).
  rewrite Ho, fold_emit_plain. cbn [app]. destruct ps as [|p ps]; [done|].
  destruct (decide (ps = [])) as [->|Hps]; [by cbn in Hj |- *|].
  rewrite offsets_cons by done. cbn [Nat.add].
  rewrite JoinVec_cons in Hj |- * by done.
  destruct (Nat.eqb_spec (length ov) (length nv)) as [He|Hn].
  - pose proof (replace_same_spec ov nv (p :: ps) [] He ltac:(done)) as Hr.
    rewrite offsets_cons, !JoinVec_cons in Hr by done. cbn [length Nat.add app] in Hr.
    by rewrite Hj in Hr.
  - assert (length str = length p + length ov + length (JoinVec ps ov)) as Hlen
      by (rewrite <-Hj, !length_app; lia).
    destruct (Nat.ltb_spec (length nv) (length ov)).
    + pose proof (replace_shorter_spec ov nv ps p [] ltac:(lia) Hps) as Hr. cbn zeta in Hr.
      cbn [app length] in Hr. rewrite Nat.add_0_r, Hj, <-Hlen in Hr.
      cbn [app]. by destruct (replace_shorter _ _ _ _ _).
    + assert (length (offsets ov (length p + length ov) ps) = length ps - 1) as Hlo
        by (apply length_offsets).
      destruct (replace_longer_spec ov nv ps p (replicate ((length nv - length ov) * length ps) Ascii.zero)
        ltac:(lia) Hps ltac:(by rewrite length_replicate)) as (j & Hr & Hjl).
      cbn zeta in Hr. rewrite <-Hlen in Hr. rewrite length_replicate, Nat.sub_diag in Hjl.
      apply nil_length_inv in Hjl as ->.
      cbn [length app]. rewrite Hlo. destruct ps as [|p' ps']; [done|]. cbn [length] in *.
      rewrite Nat.sub_succ, Nat.sub_0_r.
      assert (∀ r, str ++ r = p ++ ov ++ JoinVec (p' :: ps') ov ++ r) as Happ
        by (intros r; by rewrite <-Hj, <-!app_assoc).
      by rewrite Happ, Hr.
Qed.

(** * Truncation *)

(** A character of well-formed UTF-8, as far as truncation is concerned: one
    byte that begins it and the continuation bytes that follow. *)
Definition utf8_char (c : bytes) : Prop :=
  match c with
  | [] => False
  | lead :: conts => is_cont lead = false ∧ Forall (λ b, is_cont b = true) conts
  end.

Section Utf8.
Implicit Types (chars : list bytes) (s : bytes).

Lemma truncate_loop_spec s n :
  n < length s →
  let r := truncate_loop s n in
  r ≤ n ∧ (r = 0 ∨ ∃ c, s !! r = Some c ∧ is_cont c = false) ∧
  ∀ i, r < i ≤ n → ∃ c, s !! i = Some c ∧ is_cont c = true.
Proof.
  induction n as [|n IH]; intros Hn; cbn [truncate_loop].
  - split_and!; [lia|by left|lia].
  - destruct (lookup_lt_is_Some_2 s (S n) Hn) as [c Hc]. rewrite Hc.
    destruct (is_cont c) eqn:Hcc.
    + destruct (IH ltac:(lia)) as (H1 & H2 & H3). split_and!; [lia|done|].
      intros i Hi. destruct (decide (i = S n)) as [->|]; [by exists c|]. apply H3. lia.
    + split_and!; [lia|right; by exists c|lia].
Qed.

(** The bytes that begin a character are those that are not continuation
    bytes. *)
Lemma char_boundary chars i c :
  Forall utf8_char chars → concat chars !! i = Some c → is_cont c = false →
  ∃ k, k < length chars ∧ i = length (concat (take k chars)).
Proof.
  revert i; induction chars as [|ch chars IH]; intros i Hch Hi Hc; [done|].
  apply Forall_cons in Hch as [Hu Hch]. cbn in Hi. apply lookup_app_Some in Hi as [Hi|[Hle Hi]].
  - destruct ch as [|lead conts]; [done|]. destruct Hu as [_ Hcs].
    destruct i as [|i]; [exists 0; cbn; split; [lia|done]|]. cbn in Hi.
    rewrite Forall_lookup in Hcs. rewrite (Hcs _ _ Hi) in Hc. done.
  - destruct (IH _ Hch Hi Hc) as (k & Hk & He). exists (S k). cbn. rewrite length_app. lia.
Qed.

Lemma boundary_byte chars k :
  Forall utf8_char chars → k < length chars →
  ∃ c, concat chars !! length (concat (take k chars)) = Some c ∧ is_cont c = false.
Proof.
  revert k; induction chars as [|ch chars IH]; intros k Hch Hk; cbn in Hk; [lia|].
  apply Forall_cons in Hch as [Hu Hch]. destruct k as [|k]; cbn.
  - destruct ch as [|lead conts]; [done|]. destruct Hu as [Hl _]. by exists lead.
  - rewrite length_app, lookup_app_r by lia.
    replace (length ch + _ - length ch) with (length (concat (take k chars))) by lia.
    apply IH; [done|lia].
Qed.

(** Truncation never cuts a character and drops no more than it must: the
    length returned is that of the longest prefix of whole characters that
    fits in [n] bytes. *)
Theorem SafeUtf8TruncationLength_longest chars (n : nat) :
  Forall utf8_char chars →
  let s := concat chars in
  ∃ k, k ≤ length chars ∧ SafeUtf8TruncationLength s n = length (concat (take k chars)) ∧
    length (concat (take k chars)) ≤ n ∧
    (k < length chars → n < length (concat (take (S k) chars))).
Proof.
  intros Hch s. unfold SafeUtf8TruncationLength.
  destruct (Nat.leb_spec (length s) n) as [Hle|Hlt].
  - exists (length chars). rewrite firstn_all. split_and!; [lia|done|done|lia].
  - assert (∃ r, (match s !! n with
                  | Some c => if negb (is_cont c) then n else truncate_loop s n
                  | None => n end) = r ∧ r ≤ n ∧
                 (∃ c, s !! r = Some c ∧ is_cont c = false) ∧
                 ∀ i, r < i ≤ n → ∃ c, s !! i = Some c ∧ is_cont c = true) as (r & -> & Hr & Hb & Hcont).
    { destruct (lookup_lt_is_Some_2 s n Hlt) as [c Hc]. rewrite Hc.
      destruct (is_cont c) eqn:Hcc; cbn [negb].
      - destruct (truncate_loop_spec s n Hlt) as (H1 & [H2|H2] & H3);
          exists (truncate_loop s n); split_and!; try done.
        rewrite H2. destruct chars as [|ch chars]; [done|].
        apply (boundary_byte (ch :: chars) 0 Hch). cbn. lia.
      - exists n. split_and!; [done|lia|by exists c|lia]. }
    destruct Hb as (c & Hc & Hcc).
    destruct (char_boundary chars r c Hch Hc Hcc) as (k & Hk & Hrk).
    exists k. split_and!; [lia|done|lia|]. intros _.
    destruct (decide (n < length (concat (take (S k) chars)))) as [|Hge]; [done|exfalso].
    assert (r < length (concat (take (S k) chars))) as Hgt.
    { destruct (lookup_lt_is_Some_2 chars k Hk) as [ch Hkc].
      rewrite (take_S_r _ _ _ Hkc), concat_app, length_app; cbn [concat].
      rewrite Forall_lookup in Hch. specialize (Hch _ _ Hkc).
      destruct ch; [done|]. cbn. lia. }
    destruct (Nat.lt_ge_cases (S k) (length chars)) as [Hk'|Hk'].
    + destruct (boundary_byte chars (S k) Hch Hk') as (d & Hd & Hdc).
      destruct (Hcont (length (concat (take (S k) chars)))) as (d' & Hd' & Hdc'); [lia|].
      unfold s in Hd'. rewrite Hd in Hd'. injection Hd' as <-. congruence.
    + rewrite take_ge in Hge by lia. unfold s in Hlt. lia.
Qed.
End Utf8.

(** * Tables *)

Section Table.
Implicit Types (ws : list nat) (row : list bytes) (table : list (list bytes)).

Lemma lookup_widen_mono ws row jj w :
  ws !! jj = Some w → ∃ w', widen ws row !! jj = Some w' ∧ w ≤ w'.
Proof.
  revert row jj; induction ws as [|w0 ws IH]; intros [|cell row] [|jj]; try done; cbn.
  - intros [= ->]. eauto.
  - eauto.
  - intros [= ->]. eexists; split; [done|lia].
  - apply IH.
Qed.

Definition row_fits ws row : Prop :=
  ∀ jj cell, row !! jj = Some cell → ∃ w, ws !! jj = Some w ∧ cell_width cell ≤ w.

Lemma widen_fits ws row : row_fits (widen ws row) row.
Proof.
  unfold row_fits. revert ws; induction row as [|c row IH]; intros ws [|jj] cell Hc; try done.
  - injection Hc as ->. destruct ws; cbn; eexists; (split; [done|lia]).
  - destruct ws as [|w ws]; cbn; by apply IH.
Qed.

Lemma row_fits_widen ws row row' : row_fits ws row → row_fits (widen ws row') row.
Proof.
  intros H jj cell Hc. destruct (H jj cell Hc) as (w & Hw & Hle).
  destruct (lookup_widen_mono ws row' jj w Hw) as (w' & ? & ?). exists w'. split; [done|lia].
Qed.

Lemma fold_widen_fits table ws row :
  (row ∈ table ∨ row_fits ws row) → row_fits (fold_left widen table ws) row.
Proof.
  revert ws; induction table as [|r table IH]; intros ws H; cbn.
  - destruct H as [H|H]; [by apply not_elem_of_nil in H|done].
  - apply IH. rewrite elem_of_cons in H. destruct H as [[->|H]|H]; [right; apply widen_fits|by left|].
    right. by apply row_fits_widen.
Qed.

(** The width of a whole line. *)
Definition line_width ws : nat := foldr (λ w n, S w + n) 1 ws.

Definition good_line ws (l : bytes) : Prop := length l = line_width ws ∧ kNewline ∉ l.

Lemma horizontal_line_good ws : Forall (λ w, 1 ≤ w) ws → good_line ws (horizontal_line ws).
Proof.
  unfold good_line, horizontal_line. induction 1 as [|w ws Hw _ [IH1 IH2]]; cbn.
  - split; [done|]. rewrite list_elem_of_singleton. by vm_compute.
  - rewrite <-app_assoc. split.
    + unfold line_width in *. cbn. rewrite !length_app, length_replicate in *. cbn in *. lia.
    + rewrite elem_of_cons, !elem_of_app in *. intros [H|[[H|H]|H]]; [done| | |tauto].
      * by apply elem_of_replicate in H as [H _].
      * by apply list_elem_of_singleton in H.
Qed.

Lemma row_line_good ws (cells : list (list bytes)) idx :
  Forall2 (λ w lines, Forall (λ l, length l < w ∧ kNewline ∉ l) lines ∧ 1 ≤ w) ws cells →
  good_line ws (row_line ws cells idx).
Proof.
  unfold good_line, row_line. induction 1 as [|w lines ws cells [Hl Hw] _ [IH1 IH2]]; cbn.
  - split; [done|]. rewrite list_elem_of_singleton. by vm_compute.
  - set (content := default [] (lines !! idx)).
    assert (length content < w ∧ kNewline ∉ content) as [Hlen Hno].
    { unfold content. destruct (lines !! idx) eqn:Hi; cbn; [|split; [lia|apply not_elem_of_nil]].
      by rewrite Forall_lookup in Hl; apply (Hl idx). }
    unfold pad_right. cbn. rewrite <-!app_assoc. split.
    + unfold line_width in *. rewrite !length_app, length_replicate in *. cbn in *. lia.
    + rewrite !elem_of_cons, !elem_of_app in *. intros [H|[H|[H|[H|H]]]];
        first [done | tauto | by apply elem_of_replicate in H as [H _]].
Qed.

Lemma strip_cr_incl l : length (strip_cr l) ≤ length l ∧ ∀ c, c ∈ strip_cr l → c ∈ l.
Proof.
  unfold strip_cr. case_bool_decide; [|done].
  rewrite removelast_firstn_len. split; [rewrite length_take; lia|].
  intros c Hc. rewrite <-(take_drop (pred (length l)) l), elem_of_app. by left.
Qed.

Lemma split_lines_no_newline line sv :
  kNewline ∉ line → Forall (λ l, kNewline ∉ l) (split_lines line sv).
Proof.
  revert line; induction sv as [|c sv IH]; intros line Hl; cbn.
  - constructor; [|constructor]. intros H%(proj2 (strip_cr_incl line)). done.
  - case_bool_decide as Hc.
    + constructor; [|apply IH, not_elem_of_nil]. intros H%(proj2 (strip_cr_incl line)). done.
    + apply IH. rewrite elem_of_app, list_elem_of_singleton. intros [H|H]; [done|congruence].
Qed.
End Table.

Section TableTheorem.
Implicit Types (ws : list nat) (row : list bytes) (table : list (list bytes)).

Lemma split_lines_fit cell w :
  cell_width cell ≤ w → Forall (λ l, length l < w + 2 ∧ kNewline ∉ l) (split_lines [] cell).
Proof.
  intros Hw. pose proof (split_lines_no_newline [] cell (not_elem_of_nil _)) as Hn.
  unfold cell_width in Hw. induction Hn as [|l ls Hl _ IH]; [constructor|]. cbn in Hw.
  constructor; [split; [lia|done]|]. apply IH. lia.
Qed.

Lemma row_lines_good ws row :
  row_fits ws row →
  Forall (good_line (map (λ w, w + 2) ws)) (row_lines (map (λ w, w + 2) ws) row).
Proof.
  intros Hfit. unfold row_lines. apply Forall_map, Forall_forall. intros idx _.
  apply row_line_good. rewrite length_map. apply Forall2_same_length_lookup_2.
  { by rewrite !length_map, length_seq. }
  intros jj w lines Hw Hlines. rewrite (list_lookup_fmap _ ws) in Hw. rewrite (list_lookup_fmap _ (seq _ _)) in Hlines.
  destruct (ws !! jj) as [w0|] eqn:Hw0; [|done]. injection Hw as <-.
  rewrite lookup_seq_lt in Hlines by (by eapply lookup_lt_Some). injection Hlines as <-. cbn.
  split; [|lia]. destruct (row !! jj) as [cell|] eqn:Hc.
  - destruct (Hfit jj cell Hc) as (w' & Hw' & Hle). rewrite Hw0 in Hw'. injection Hw' as <-.
    by apply split_lines_fit.
  - constructor; [|constructor]. split; [cbn; lia|apply not_elem_of_nil].
Qed.

(** A table is drawn as a rectangle: whatever the cells hold, ragged rows,
    several lines in a cell or carriage returns, every line of the text is as
    wide as the widest content of each column requires, and no line is broken
    by the content of a cell. *)
Theorem DrawTable_rectangular table (with_header : bool) :
  let ws := map (λ w, w + 2) (fold_left widen table []) in
  ws ≠ [] →
  DrawTable table with_header =
    concat (map (λ l, l ++ [kNewline]) (table_lines ws table with_header)) ∧
  Forall (λ l, length l = line_width ws ∧ kNewline ∉ l) (table_lines ws table with_header).
Proof.
  intros ws Hws. split.
  - unfold DrawTable, ws in *. destruct table; [done|]. by destruct (fold_left _ _ _).
  - assert (good_line ws (horizontal_line ws)) as Hh.
    { apply horizontal_line_good, Forall_map, Forall_forall. intros w _; cbn. lia. }
    constructor; [done|]. apply Forall_app. split; [|by repeat constructor; apply Hh].
    apply Forall_concat, Forall_lookup. intros i ls Hi. rewrite list_lookup_imap in Hi.
    destruct (table !! i) as [row|] eqn:Hr; [|done]. injection Hi as <-.
    apply Forall_app. split.
    + apply row_lines_good, fold_widen_fits. left. by eapply list_elem_of_lookup_2.
    + destruct (with_header && _); by repeat constructor; apply Hh.
Qed.
End TableTheorem.

(** * The loops end

    The fuel that [GetValueFromStrKV], [CheckIfInList] and [ReplaceEnvVars]
    give their loops is enough: the position moves forward every time. *)

Section LoopsEnd.

Lemma find_bound p s pos i : find p s pos = Some i → pos ≤ i ∧ i + length p ≤ length s.
Proof.
  unfold find. destruct (Nat.leb_spec pos (length s)) as [Hle|]; [|done].
  destruct (find0 p (drop pos s)) as [j|] eqn:Hj; [|done]. cbn. intros [= <-].
  apply find0_some in Hj as (a & b & Hs & Ha & _). apply (f_equal length) in Hs.
  rewrite length_drop, !length_app in Hs. lia.
Qed.

(** Fuel left for a search that has found position [kp]. *)
Definition enough_fuel (str : bytes) (fuel : nat) (kp : option nat) : Prop :=
  match kp with Some p => length str - p < fuel | None => 0 < fuel end.

Lemma enough_fuel_start str key : enough_fuel str (S (length str)) (find key str 0).
Proof. unfold enough_fuel. destruct (find key str 0); lia. Qed.

Lemma enough_fuel_next str key fuel kp pos :
  enough_fuel str (S fuel) (Some kp) → kp + length key ≤ length str → key ≠ [] → kp < pos →
  enough_fuel str fuel (find key str pos).
Proof.
  unfold enough_fuel. intros Hf Hkp Hkey Hpos. destruct key as [|c key]; [done|]. cbn in Hkp.
  destruct (find (c :: key) str pos) as [kp'|] eqn:Hfind; [|lia].
  apply find_bound in Hfind. cbn in Hfind. lia.
Qed.

Lemma get_value_loop_total str key vsep msep trim fuel : ∀ kp,
  key ≠ [] → (∀ p, kp = Some p → p + length key ≤ length str) → enough_fuel str fuel kp →
  is_Some (get_value_loop str key vsep msep trim fuel kp).
Proof.
  induction fuel as [|fuel IH]; intros kp Hkey Hb Hf; [destruct kp; cbn in Hf; lia|].
  destruct kp as [kp|]; cbn [get_value_loop]; [|by eauto].
  specialize (Hb kp eq_refl).
  destruct (find msep str (kp + length key)) as [mp|] eqn:Hm; [|by eauto].
  case_match; [by eauto|]. apply find_bound in Hm. destruct key as [|c key]; [done|]. cbn in Hm, Hb.
  apply IH; [done|intros p Hp; apply find_bound in Hp; lia|].
  eapply enough_fuel_next; [exact Hf|cbn; lia|done|lia].
Qed.

Lemma in_list_loop_total str key sep trim fuel : ∀ kp,
  key ≠ [] → (∀ p, kp = Some p → p + length key ≤ length str) → enough_fuel str fuel kp →
  is_Some (in_list_loop str key sep trim fuel kp).
Proof.
  induction fuel as [|fuel IH]; intros kp Hkey Hb Hf; [destruct kp; cbn in Hf; lia|].
  destruct kp as [kp|]; cbn [in_list_loop]; [|by eauto].
  specialize (Hb kp eq_refl). set (ke := default (length str) (find sep str (kp + length key))).
  assert (kp < ke) as Hke.
  { destruct key as [|c key]; [done|]. cbn in Hb. unfold ke.
    destruct (find sep str _) as [e|] eqn:He; cbn; [|lia]. apply find_bound in He. cbn in He. lia. }
  case_match; [by eauto|].
  apply IH; [done|intros p Hp; apply find_bound in Hp; lia|].
  eapply enough_fuel_next; [exact Hf|done|done|lia].
Qed.

Lemma span_name_length s : length (span_name s).2 ≤ length s.
Proof.
  induction s as [|c s IH]; cbn; [lia|]. case_bool_decide; cbn; [lia|].
  destruct (span_name s) as [name rest]; cbn in *. lia.
Qed.

Lemma match_env_shorter s name rest : match_env s = Some (name, rest) → length rest < length s.
Proof.
  destruct s as [|c1 [|c2 s]]; cbn [match_env]; try done. case_match; [|done].
  pose proof (span_name_length s) as Hl. destruct (span_name s) as [[|c n] [|d r]]; try done.
  intros [= _ <-]. cbn in *. lia.
Qed.

Lemma search_env_shorter s before name rest :
  search_env s = Some (before, name, rest) → length rest < length s.
Proof.
  revert before. induction s as [|c s IH]; intros before; cbn [search_env].
  - done.
  - destruct (match_env (c :: s)) as [[n r]|] eqn:Hm.
    + intros [= _ _ <-]. by apply match_env_shorter in Hm.
    + destruct (search_env s) as [[[b n] r]|]; [|done]. intros [= _ -> ->].
      specialize (IH b eq_refl). cbn. lia.
Qed.

Lemma replace_env_loop_total getenv fuel : ∀ s,
  length s < fuel → is_Some (replace_env_loop getenv fuel s).
Proof.
  induction fuel as [|fuel IH]; intros s Hs; [lia|]. cbn [replace_env_loop].
  destruct (search_env s) as [[[before name] rest]|] eqn:Hm; [|by eauto].
  apply search_env_shorter in Hm. destruct (IH rest) as [r ->]; [lia|]. by eexists.
Qed.
End LoopsEnd.

(** * Key-value strings *)

(** [GetValueFromStrKV] does not find what [SplitToMap] finds: the item [xb]
    has no separator, and the search for the key resumes after the separator of
    the next item, so that the value of [b] is missed. *)
Theorem GetValueFromStrKV_misses_key :
  GetValueFromStrKV (lit "xb&b=2") (lit "b") (lit "&") (lit "=") true = [] ∧
  omap_find (lit "b") (SplitToMap (lit "xb&b=2") (lit "&") (lit "=") true true) = Some (lit "2") ∧
  GetValueFromStrKV (lit "b=2&xb") (lit "b") (lit "&") (lit "=") true = lit "2".
Proof. by vm_compute. Qed.

(** ** Witnesses *)

Lemma SplitToVec_JoinVec_witness :
  SplitToVec (JoinVec [lit "a b"; lit "c"] [","%char]) [","%char] true true = [lit "a b"; lit "c"].
Proof. apply SplitToVec_JoinVec. bdec. Defined.

Lemma JoinVec_SplitToVec_witness :
  JoinVec (SplitToVec (lit "a,,b,") (lit ",") false false) (lit ",") = lit "a,,b,".
Proof. by apply JoinVec_SplitToVec. Defined.

Lemma SplitToMap_JoinMap_witness :
  SplitToMap (lit "a=1&b=x=y") (lit "&") (lit "=") true true =
    [(lit "a", lit "1"); (lit "b", lit "x=y")].
Proof.
  apply (SplitToMap_JoinMap "&"%char "="%char [(lit "a", lit "1"); (lit "b", lit "x=y")]).
  - done.
  - by repeat constructor.
  - bdec.
Defined.

Lemma ReplaceString_correct_witness :
  ReplaceString (lit "ab") (lit "xyz") (lit "abcab") =
    JoinVec (SplitToVec (lit "abcab") (lit "ab") false false) (lit "xyz") ∧
  ReplaceString (lit "ab") (lit "xyz") (lit "abcab") = lit "xyzcxyz" ∧
  ReplaceString (lit "ab") (lit "x") (lit "abcab") = lit "xcx".
Proof. split; [by apply ReplaceString_correct|by vm_compute]. Defined.

Lemma SafeUtf8TruncationLength_longest_witness :
  ∃ k, SafeUtf8TruncationLength (concat [lit "a"; map char_of_u8 [226; 130; 172]%Z]) 3 =
    length (concat (take k [lit "a"; map char_of_u8 [226; 130; 172]%Z])) ∧
  SafeUtf8TruncationLength (concat [lit "a"; map char_of_u8 [226; 130; 172]%Z]) 3 = 1.
Proof.
  destruct (SafeUtf8TruncationLength_longest [lit "a"; map char_of_u8 [226; 130; 172]%Z] 3)
    as (k & _ & Hk & _); [by repeat constructor|].
  exists k. split; [exact Hk|by vm_compute].
Defined.

Lemma DrawTable_rectangular_witness :
  DrawTable [[lit "a"; lit "bcd"]; [lit "x"]] true =
    concat (map (λ l, l ++ [kNewline]) (table_lines [3; 5] [[lit "a"; lit "bcd"]; [lit "x"]] true)) ∧
  nth 1 (table_lines [3; 5] [[lit "a"; lit "bcd"]; [lit "x"]] true) [] = lit "| a | bcd |".
Proof.
  split; [|by vm_compute].
  destruct (DrawTable_rectangular [[lit "a"; lit "bcd"]; [lit "x"]] true) as [H _]; [done|].
  exact H.
Defined.
