(* ===== verification/TimeWheel.v ===== *)
(** * The time wheel executor: [src/runtime/core/executor/time_wheel_executor.*]

    A hierarchical timing wheel: level [ii] holds in slot [p] the tasks due
    when that slot is reached, an unordered map holds what lies beyond the last
    level.  [TimerLoop] wakes once per [dt], takes out the slot of the current
    tick, runs it with the tick mutex released, and only then increments the
    tick counter.  The definitions follow that: each critical section of the
    loop or of a caller is one definition, and [loop_iteration] composes those
    of the loop.

    Theorems: between two iterations of the loop, a task scheduled within the
    first two levels is run at its tick, neither lost nor duplicated; the sleep
    loop sleeps for exactly [dt].  Four theorems show where the code departs
    from that: a task scheduled for the current tick while the tasks of that
    tick run, a task beyond the horizon of a two-level wheel, a time point
    before the start of the executor, and a call after [Shutdown]. *)

From S2P Require Import Prelude Yaml.
Local Open Scope Z_scope.

(** ** Options *)

(* @src src/src/runtime/core/executor/time_wheel_executor.h:20-27 TimeWheelExecutor::Options *)
Record Options := mkOptions {
  bind_executor : string;
  dt : Z;                        (* nanoseconds *)
  wheel_size : list Z;
  thread_sched_policy : string;
  thread_bind_cpu : list Z;
  use_system_clock : bool
}.

Definition default_options : Options := mkOptions "" 100000000 [100; 360] "" [] false.

(** [std::chrono::microseconds(us)] converted to nanoseconds. *)
Definition us_to_ns (us : Z) : Z := us * 1000.

Section Decode.
Context `{YamlOps node}.

(* @src src/src/runtime/core/executor/time_wheel_executor.cc:27-44 convert<TimeWheelExecutor::Options>::decode *)
Definition decode (n : node) (rhs : Options) : res (option Options) :=
  if negb (IsMap n) then Ok None else
  be ← set_if n "bind_executor" as_string (bind_executor rhs);
  d ← set_if n "dt_us" (λ c, us_to_ns <$> as_uint64 c) (dt rhs);
  ws ← set_if n "wheel_size" as_sizes (wheel_size rhs);
  pol ← set_if n "thread_sched_policy" as_string (thread_sched_policy rhs);
  cpu ← set_if n "thread_bind_cpu" as_uint32s (thread_bind_cpu rhs);
  sc ← set_if n "use_system_clock" as_bool (use_system_clock rhs);
  Ok (Some (mkOptions be d ws pol cpu sc)).
End Decode.

(** What the executor uses of another executor. *)
Record ExecutorRef := mkExecutorRef { er_name : string; er_thread_safe : bool }.

Section TimeWheel.
Context {Task : Type}.

(* @src src/src/runtime/core/executor/time_wheel_executor.h:68-71 TaskWithTimestamp *)
Record TaskWithTimestamp := mkTask {
  tick_count : Z;   (* ticks since the start of the executor *)
  task : Task
}.

Abbreviation TaskList := (list TaskWithTimestamp).

(* @src src/src/runtime/core/executor/time_wheel_executor.h:75-79 TimingWheelTool *)
Record TimingWheelTool := mkWheel {
  current_pos : Z;
  scale : Z;
  wheel : list TaskList
}.

(** [timing_task_map_pos_] and [timing_task_map_]. *)
Record TaskMap := mkTaskMap {
  task_map_pos : Z;
  task_map : gmap Z TaskList
}.

(** ** Advancing the wheels *)

Definition slot_append (t : TaskWithTimestamp) (p : Z) (wh : list TaskList) : list TaskList :=
  alter (λ l, l ++ [t]) (Z.to_nat p) wh.

(** The [while (!task_list.empty())] loop of [borrow_func]. *)
(* @src src/src/runtime/core/executor/time_wheel_executor.cc:102-108 TimeWheelExecutor::Initialize (borrow_func, distribution) *)
Fixpoint distribute (task_list : TaskList) (wh : list TaskList) : res (list TaskList) :=
  match task_list with
  | [] => Ok wh
  | t :: rest =>
      if Z.of_nat (length wh) =? 0 then Undef
      else distribute rest (slot_append t (tick_count t mod Z.of_nat (length wh)) wh)
  end.

(** [borrow_func] past the last level: take the entry of the task map. *)
(* @src src/src/runtime/core/executor/time_wheel_executor.cc:94-99 TimeWheelExecutor::Initialize (borrow_func, task map) *)
Definition borrow_map (m : TaskMap) : TaskList * TaskMap :=
  let p := task_map_pos m in
  (default [] (task_map m !! p), mkTaskMap (wrap64 (p + 1)) (delete p (task_map m))).

(** [Tick] of the first of [ws]; [borrow_func] ticks the next one, or reads
    the task map when there is none. *)
(* @src src/src/runtime/core/executor/time_wheel_executor.h:81-92 TimingWheelTool::Tick *)
Fixpoint Tick (ws : list TimingWheelTool) (m : TaskMap)
    : res (TaskList * (list TimingWheelTool * TaskMap)) :=
  match ws with
  | [] => let '(l, m') := borrow_map m in Ok (l, ([], m'))
  | w :: ws' =>
      match wheel w !! Z.to_nat (current_pos w) with
      | None => Undef
      | Some task_list =>
          let wh := <[Z.to_nat (current_pos w) := []]> (wheel w) in
          let pos := wrap64 (current_pos w + 1) in
          if pos =? Z.of_nat (length wh) then
            r ← Tick ws' m;
            wh' ← distribute r.1 wh;
            Ok (task_list, (mkWheel 0 (scale w) wh' :: r.2.1, r.2.2))
          else Ok (task_list, (mkWheel pos (scale w) wh :: ws', m))
      end
  end.

(** ** The executor *)

(** What the executor has handed over for execution, in order: run by the
    timer thread, or passed to the bound executor. *)
Inductive event := Ran (t : Task) | Bound (t : Task).

(* @src src/src/runtime/core/executor/time_wheel_executor.h:95-121 TimeWheelExecutor *)
Record TimeWheelExecutor := mkTW {
  tw_name : string;
  tw_options : Options;
  tw_state : State;
  tw_get_executor_func : option (string → option ExecutorRef);
  tw_bind_executor_ref : option ExecutorRef;
  tw_thread_safe : bool;
  tw_dt_count : Z;
  tw_start_time_point : Z;
  tw_start_flag : bool;
  tw_current_tick_count : Z;
  tw_timing_wheel_vec : list TimingWheelTool;
  tw_task_map : TaskMap;
  tw_imd_queue : list Task;
  tw_trace : list event   (* ghost: tasks handed over so far *)
}.

Definition TimeWheelExecutor_new : TimeWheelExecutor :=
  mkTW "" default_options kPreInit None None true 0 0 false 0 [] (mkTaskMap 0 ∅) [] [].

Implicit Types s : TimeWheelExecutor.

Definition set_state st s :=
  mkTW (tw_name s) (tw_options s) st (tw_get_executor_func s) (tw_bind_executor_ref s)
       (tw_thread_safe s) (tw_dt_count s) (tw_start_time_point s) (tw_start_flag s)
       (tw_current_tick_count s) (tw_timing_wheel_vec s) (tw_task_map s) (tw_imd_queue s)
       (tw_trace s).
Definition set_config name o s :=
  mkTW name o (tw_state s) (tw_get_executor_func s) (tw_bind_executor_ref s)
       (tw_thread_safe s) (tw_dt_count s) (tw_start_time_point s) (tw_start_flag s)
       (tw_current_tick_count s) (tw_timing_wheel_vec s) (tw_task_map s) (tw_imd_queue s)
       (tw_trace s).
Definition set_get_executor f s :=
  mkTW (tw_name s) (tw_options s) (tw_state s) f (tw_bind_executor_ref s)
       (tw_thread_safe s) (tw_dt_count s) (tw_start_time_point s) (tw_start_flag s)
       (tw_current_tick_count s) (tw_timing_wheel_vec s) (tw_task_map s) (tw_imd_queue s)
       (tw_trace s).
Definition set_bind r ts s :=
  mkTW (tw_name s) (tw_options s) (tw_state s) (tw_get_executor_func s) r
       ts (tw_dt_count s) (tw_start_time_point s) (tw_start_flag s)
       (tw_current_tick_count s) (tw_timing_wheel_vec s) (tw_task_map s) (tw_imd_queue s)
       (tw_trace s).
Definition set_wheels ws m s :=
  mkTW (tw_name s) (tw_options s) (tw_state s) (tw_get_executor_func s) (tw_bind_executor_ref s)
       (tw_thread_safe s) (tw_dt_count s) (tw_start_time_point s) (tw_start_flag s)
       (tw_current_tick_count s) ws m (tw_imd_queue s) (tw_trace s).
Definition set_dt_count d s :=
  mkTW (tw_name s) (tw_options s) (tw_state s) (tw_get_executor_func s) (tw_bind_executor_ref s)
       (tw_thread_safe s) d (tw_start_time_point s) (tw_start_flag s)
       (tw_current_tick_count s) (tw_timing_wheel_vec s) (tw_task_map s) (tw_imd_queue s)
       (tw_trace s).
Definition set_started tp s :=
  mkTW (tw_name s) (tw_options s) (tw_state s) (tw_get_executor_func s) (tw_bind_executor_ref s)
       (tw_thread_safe s) (tw_dt_count s) tp true
       (tw_current_tick_count s) (tw_timing_wheel_vec s) (tw_task_map s) (tw_imd_queue s)
       (tw_trace s).
Definition set_tick c s :=
  mkTW (tw_name s) (tw_options s) (tw_state s) (tw_get_executor_func s) (tw_bind_executor_ref s)
       (tw_thread_safe s) (tw_dt_count s) (tw_start_time_point s) (tw_start_flag s)
       c (tw_timing_wheel_vec s) (tw_task_map s) (tw_imd_queue s) (tw_trace s).
Definition set_imd q tr s :=
  mkTW (tw_name s) (tw_options s) (tw_state s) (tw_get_executor_func s) (tw_bind_executor_ref s)
       (tw_thread_safe s) (tw_dt_count s) (tw_start_time_point s) (tw_start_flag s)
       (tw_current_tick_count s) (tw_timing_wheel_vec s) (tw_task_map s) q tr.

(* @src src/src/runtime/core/executor/time_wheel_executor.cc:209-215 TimeWheelExecutor::RegisterGetExecutorFunc *)
Definition RegisterGetExecutorFunc (f : string → option ExecutorRef) : M TimeWheelExecutor unit :=
  s ← get;
  check_throw (state_eqb (tw_state s) kPreInit)
    "Method can only be called when state is 'PreInit'.";;
  modify (set_get_executor (Some f)).

(** The wheels [Initialize] builds: level 0 starts at slot 0, every other
    level at slot 1. *)
(* @src src/src/runtime/core/executor/time_wheel_executor.cc:82-88 TimeWheelExecutor::Initialize (wheels) *)
Fixpoint make_wheels (ii : nat) (cur_scale : Z) (sizes : list Z) : list TimingWheelTool :=
  match sizes with
  | [] => []
  | w :: sizes' =>
      let start_pos := if (ii =? 0)%nat then 0 else 1 in
      let sc := wrap64 (cur_scale * w) in
      mkWheel start_pos sc (replicate (Z.to_nat w) []) :: make_wheels (S ii) sc sizes'
  end.

(* @src src/src/runtime/core/executor/time_wheel_executor.cc:50-115 TimeWheelExecutor::Initialize *)
Definition Initialize `{YamlOps node} (name : string) (options_node : option node)
    : M TimeWheelExecutor unit :=
  s ← get;
  check_throw (bool_decide (is_Some (tw_get_executor_func s)))
    "Get executor function is not set before initialize.";;
  modify (set_state kInit);;
  check_throw (state_eqb (tw_state s) kPreInit) "TimeWheelExecutor can only be initialized once.";;
  modify (λ s, set_config name (tw_options s) s);;
  o ← lift (read_options decode default_options options_node);
  (match o with Some o => modify (set_config name o) | None => mret tt end);;
  s ← get;
  (if String.eqb (bind_executor (tw_options s)) "" then mret tt
   else
     let ref := match tw_get_executor_func s with
                | Some f => f (bind_executor (tw_options s))
                | None => None
                end in
     modify (set_bind ref (tw_thread_safe s));;
     match ref with
     | None => throw (AimRTException "Can not get executor {}.")
     | Some r =>
         check_throw (negb (String.eqb (er_name r) name)) "Bind executor '{}' is self!";;
         modify (set_bind (Some r) (er_thread_safe r))
     end);;
  modify (λ s, set_dt_count (wrap64 (dt (tw_options s))) s);;
  modify (λ s, set_wheels (tw_timing_wheel_vec s ++ make_wheels 0 1 (wheel_size (tw_options s)))
                          (mkTaskMap 1 (task_map (tw_task_map s))) s).

(** [Start] returns once the timer thread has recorded the initial time
    [now] of the configured clock. *)
(* @src src/src/runtime/core/executor/time_wheel_executor.cc:117-125 TimeWheelExecutor::Start *)
Definition Start (now : Z) : M TimeWheelExecutor unit :=
  s ← get;
  modify (set_state kStart);;
  check_throw (state_eqb (tw_state s) kInit) "Method can only be called when state is 'Init'.";;
  modify (set_started now).

(* @src src/src/runtime/core/executor/time_wheel_executor.cc:127-138 TimeWheelExecutor::Shutdown *)
Definition Shutdown : M TimeWheelExecutor unit :=
  s ← get;
  modify (set_state kShutdown);;
  if state_eqb (tw_state s) kShutdown then mret tt
  else
    modify (λ s, set_wheels [] (mkTaskMap (task_map_pos (tw_task_map s)) ∅) s);;
    modify (set_get_executor None).

(* @src src/src/runtime/core/executor/time_wheel_executor.cc:151-163 TimeWheelExecutor::Execute *)
Definition Execute (t : Task) : M TimeWheelExecutor unit :=
  s ← get;
  match tw_bind_executor_ref s with
  | Some _ => put (set_imd (tw_imd_queue s) (tw_trace s ++ [Bound t]) s)
  | None => put (set_imd (tw_imd_queue s ++ [t]) (tw_trace s) s)
  end.

(** The timestamp of [Now]. *)
(* @src src/src/runtime/core/executor/time_wheel_executor.cc:165-170 TimeWheelExecutor::Now *)
Definition Now (s : TimeWheelExecutor) : Z :=
  wrap64 (tw_current_tick_count s * tw_dt_count s + tw_start_time_point s).

(** The [for] loop of [ExecuteAt] over the levels. *)
(* @src src/src/runtime/core/executor/time_wheel_executor.cc:188-203 TimeWheelExecutor::ExecuteAt (insertion) *)
Fixpoint insert_at (t : TaskWithTimestamp) (sizes : list Z) (ws : list TimingWheelTool)
    (m : TaskMap) (diff_tick_count target_tick : Z) : res (list TimingWheelTool * TaskMap) :=
  match sizes, ws with
  | [], _ =>
      Ok (ws, mkTaskMap (task_map_pos m)
                (<[target_tick := default [] (task_map m !! target_tick) ++ [t]]> (task_map m)))
  | size :: sizes', w :: ws' =>
      if diff_tick_count <? size then
        Ok (mkWheel (current_pos w) (scale w)
                    (slot_append t (target_tick mod size) (wheel w)) :: ws', m)
      else if size =? 0 then Undef
      else
        r ← insert_at t sizes' ws' m (diff_tick_count / size) (target_tick / size);
        Ok (w :: r.1, r.2)
  | _ :: _, [] => Undef
  end.

(* @src src/src/runtime/core/executor/time_wheel_executor.cc:172-207 TimeWheelExecutor::ExecuteAt *)
Definition ExecuteAt (tp : Z) (t : Task) : M TimeWheelExecutor unit :=
  s ← get;
  let virtual_tp := wrap64 (tp - tw_start_time_point s) in
  if virtual_tp <? wrap64 (tw_current_tick_count s * tw_dt_count s) then Execute t
  else if tw_dt_count s =? 0 then undef
  else
    let target_tick := virtual_tp / tw_dt_count s in
    let diff_tick_count := wrap64 (target_tick - tw_current_tick_count s) in
    r ← lift (insert_at (mkTask target_tick t) (wheel_size (tw_options s))
                        (tw_timing_wheel_vec s) (tw_task_map s) diff_tick_count target_tick);
    modify (set_wheels r.1 r.2).

(** ** The timer loop *)

(** Sleeping a [dt]: the chunks passed to [sleep_until], one per iteration
    of the [do ... while] loop while the state is not [kShutdown]. *)
Definition kMaxSleepDt : Z := 1000000000.

(* @src src/src/runtime/core/executor/time_wheel_executor.cc:246-270 TimeWheelExecutor::TimerLoop (sleep) *)
Fixpoint sleep_loop (fuel : nat) (options_dt real_dt : Z) : option (list Z) :=
  match fuel with
  | O => None
  | S fuel' =>
      let sleep_time := if kMaxSleepDt <? real_dt then kMaxSleepDt else real_dt in
      let real_dt := real_dt - sleep_time in
      let tail := negb (real_dt =? 0) && (options_dt <? kMaxSleepDt) && (real_dt <=? options_dt) in
      let sleep_time := if tail then sleep_time + real_dt else sleep_time in
      let real_dt := if tail then 0 else real_dt in
      if real_dt =? 0 then Some [sleep_time]
      else cons sleep_time <$> sleep_loop fuel' options_dt real_dt
  end.

(** The immediate tasks, all taken out in one critical section. *)
(* @src src/src/runtime/core/executor/time_wheel_executor.cc:272-291 TimeWheelExecutor::TimerLoop (immediate tasks) *)
Definition loop_immediate : M TimeWheelExecutor unit :=
  s ← get;
  match tw_bind_executor_ref s with
  | Some _ => mret tt
  | None => put (set_imd [] (tw_trace s ++ map Ran (tw_imd_queue s)) s)
  end.

(* @src src/src/runtime/core/executor/time_wheel_executor.cc:293-297 TimeWheelExecutor::TimerLoop (tick) *)
Definition loop_tick : M TimeWheelExecutor TaskList :=
  s ← get;
  match tw_timing_wheel_vec s with
  | [] => undef
  | ws =>
      r ← lift (Tick ws (tw_task_map s));
      modify (set_wheels r.2.1 r.2.2);;
      mret r.1
  end.

(* @src src/src/runtime/core/executor/time_wheel_executor.cc:303-313 TimeWheelExecutor::TimerLoop (run a task) *)
Definition loop_run (t : TaskWithTimestamp) : M TimeWheelExecutor unit :=
  s ← get;
  match tw_bind_executor_ref s with
  | Some _ => put (set_imd (tw_imd_queue s) (tw_trace s ++ [Bound (task t)]) s)
  | None => put (set_imd (tw_imd_queue s) (tw_trace s ++ [Ran (task t)]) s)
  end.

(* @src src/src/runtime/core/executor/time_wheel_executor.cc:318-321 TimeWheelExecutor::TimerLoop (advance) *)
Definition loop_advance : M TimeWheelExecutor unit :=
  modify (λ s, set_tick (wrap64 (tw_current_tick_count s + 1)) s).

(** One iteration of the loop with nothing interleaved. *)
(* @src src/src/runtime/core/executor/time_wheel_executor.cc:243-326 TimeWheelExecutor::TimerLoop *)
Definition loop_iteration : M TimeWheelExecutor unit :=
  loop_immediate;;
  task_list ← loop_tick;
  mapM_ loop_run task_list;;
  loop_advance.

(** ** Slots and the tasks they hold *)

Implicit Types (wh : list TaskList) (t : TaskWithTimestamp) (l : TaskList).

(** Every task of slot [p] has [f t = p] and satisfies [P]. *)
Definition wheel_ok (f : TaskWithTimestamp → Z) (P : TaskWithTimestamp → Prop) wh : Prop :=
  ∀ p l, wh !! p = Some l → Forall (λ t, f t = Z.of_nat p ∧ P t) l.

Lemma wheel_ok_mono f (P Q : TaskWithTimestamp → Prop) wh :
  (∀ t, t ∈ concat wh → P t → Q t) → wheel_ok f P wh → wheel_ok f Q wh.
Proof.
  intros HPQ H p l Hl. apply Forall_forall. intros t Ht.
  pose proof (H p l Hl) as Hf. rewrite Forall_forall in Hf. destruct (Hf t Ht) as [? HP].
  split; [done|]. apply HPQ; [|done].
  apply list_elem_of_In, in_concat. exists l. split; apply list_elem_of_In; [|done].
  by eapply list_elem_of_lookup_2.
Qed.

Lemma concat_replicate_nil n : concat (replicate n ([] : TaskList)) = [].
Proof. by induction n. Qed.

Lemma wheel_ok_replicate f P n : wheel_ok f P (replicate n []).
Proof. intros p l [-> _]%lookup_replicate_1. constructor. Qed.

Lemma concat_take_slot wh p l :
  wh !! p = Some l → concat wh ≡ₚ l ++ concat (<[p := []]> wh).
Proof.
  revert p; induction wh as [|l' wh IH]; intros [|p] Hp; try discriminate; cbn in *.
  - by injection Hp as ->.
  - rewrite (IH p Hp). by rewrite Permutation_app_swap_app.
Qed.

Lemma wheel_ok_take_slot f P wh p l :
  wh !! p = Some l → wheel_ok f P wh →
  wheel_ok f (λ t, P t ∧ f t ≠ Z.of_nat p) (<[p := []]> wh).
Proof.
  intros Hp H q l' Hq. destruct (decide (p = q)) as [<-|Hne].
  - rewrite list_lookup_insert_eq in Hq by (by eapply lookup_lt_Some).
    injection Hq as <-. constructor.
  - rewrite list_lookup_insert_ne in Hq by done.
    eapply Forall_impl; [apply (H q l' Hq)|]. cbn. intros t [Ht HP]. split_and!; [done..|].
    rewrite Ht. lia.
Qed.

Lemma length_slot_append t p wh : length (slot_append t p wh) = length wh.
Proof. apply length_alter. Qed.

Lemma concat_slot_append t p wh :
  0 ≤ p < Z.of_nat (length wh) → concat (slot_append t p wh) ≡ₚ t :: concat wh.
Proof.
  intros Hp. unfold slot_append.
  assert (Z.to_nat p < length wh)%nat as Hn by lia. clear Hp. revert Hn.
  generalize (Z.to_nat p) as n. clear p.
  induction wh as [|l wh IH]; intros [|n] Hn; cbn in *; try lia.
  - rewrite <-app_assoc. cbn. by rewrite <-Permutation_middle.
  - rewrite IH by lia. by rewrite <-Permutation_middle.
Qed.

Lemma wheel_ok_slot_append f P t wh :
  0 ≤ f t → P t → wheel_ok f P wh → wheel_ok f P (slot_append t (f t) wh).
Proof.
  intros Hf HP H p l Hp. unfold slot_append in Hp. rewrite list_lookup_alter in Hp.
  case_decide as Hd; [|by apply (H p)].
  rewrite Hd in Hp. destruct (wh !! p) as [l'|] eqn:Hl'; [|done]. injection Hp as <-.
  apply Forall_app. split; [by apply (H p)|]. constructor; [|constructor]. split; [|done]. lia.
Qed.

Lemma distribute_spec (P : TaskWithTimestamp → Prop) l wh n :
  length wh = n → (0 < n)%nat →
  let f := λ t, tick_count t mod Z.of_nat n in
  Forall P l → wheel_ok f P wh →
  ∃ wh', distribute l wh = Ok wh' ∧ length wh' = n ∧
         concat wh' ≡ₚ l ++ concat wh ∧ wheel_ok f P wh'.
Proof.
  intros Hn Hpos f. revert wh Hn. induction l as [|t l IH]; intros wh Hn HP Hok; cbn [distribute].
  - by exists wh.
  - apply Forall_cons in HP as [HPt HP]. rewrite Hn.
    destruct (Z.eqb_spec (Z.of_nat n) 0); [lia|].
    assert (0 ≤ f t < Z.of_nat n) as Hft by (apply Z.mod_pos_bound; lia).
    destruct (IH (slot_append t (f t) wh)) as (wh' & Hd & Hl & Hp & Hok').
    + by rewrite length_slot_append.
    + done.
    + apply wheel_ok_slot_append; [lia|done..].
    + exists wh'. split_and!; [done..| |done].
      rewrite Hp, concat_slot_append by (rewrite Hn; lia). by rewrite <-Permutation_middle.
Qed.

Lemma length_distribute l wh wh' : distribute l wh = Ok wh' → length wh' = length wh.
Proof.
  revert wh; induction l as [|t l IH]; intros wh; cbn [distribute]; [by intros [= ->]|].
  destruct (_ =? 0); [done|]. intros Hd. rewrite (IH _ Hd). apply length_slot_append.
Qed.

Lemma ExecuteAt_unfold (tp : Z) (t : Task) s :
  ExecuteAt tp t s =
  let v := wrap64 (tp - tw_start_time_point s) in
  let tick := v / tw_dt_count s in
  if v <? wrap64 (tw_current_tick_count s * tw_dt_count s) then Execute t s
  else if tw_dt_count s =? 0 then (Undef, s)
  else match insert_at (mkTask tick t) (wheel_size (tw_options s)) (tw_timing_wheel_vec s)
               (tw_task_map s) (wrap64 (tick - tw_current_tick_count s)) tick with
       | Ok r => (Ok tt, set_wheels r.1 r.2 s)
       | Throw e => (Throw e, s)
       | Undef => (Undef, s)
       end.
Proof.
  unfold ExecuteAt. unfold_monad. cbn zeta.
  destruct (_ <? _); [done|]. destruct (_ =? 0); [done|]. by destruct (insert_at _ _ _ _ _ _).
Qed.

(** ** Two-level wheels

    The invariant of a wheel with levels of [w0] and [w1] slots when the
    current tick is [cur] and the loop is between two iterations. *)

Section TwoLevels.
Context (w0 w1 : Z).
Context (Hw0 : 1 ≤ w0) (Hw1 : 2 ≤ w1) (Hw : w0 * w1 < 2 ^ 64).

Definition slot0 t : Z := tick_count t mod w0.
Definition slot1 t : Z := (tick_count t / w0) mod w1.
Definition due0 (cur : Z) t : Prop := cur ≤ tick_count t < cur + w0.
Definition due1 (cur : Z) t : Prop := cur / w0 < tick_count t / w0 ≤ cur / w0 + w1.

Inductive two_level (cur : Z) : list TimingWheelTool → TaskMap → Prop :=
| two_level_intro sc0 sc1 wh0 wh1 mp :
    Z.of_nat (length wh0) = w0 → Z.of_nat (length wh1) = w1 →
    wheel_ok slot0 (due0 cur) wh0 → wheel_ok slot1 (due1 cur) wh1 →
    two_level cur
      [mkWheel (cur mod w0) sc0 wh0; mkWheel ((cur / w0 + 1) mod w1) sc1 wh1]
      (mkTaskMap mp ∅).

(** All tasks held in the wheels. *)
Definition held (ws : list TimingWheelTool) : TaskList := concat (map (λ w, concat (wheel w)) ws).

Lemma held_two a b : held [a; b] = concat (wheel a) ++ concat (wheel b).
Proof. unfold held; cbn. by rewrite app_nil_r. Qed.

Lemma wheel_ok_held f P wh t : wheel_ok f P wh → t ∈ concat wh → P t.
Proof.
  intros H Ht. apply list_elem_of_In, in_concat in Ht as (l & Hl & Ht).
  apply list_elem_of_In in Hl, Ht. apply list_elem_of_lookup in Hl as [p Hp].
  pose proof (H p l Hp) as Hf. rewrite Forall_forall in Hf. by apply Hf.
Qed.

Lemma two_level_future cur ws m t :
  0 ≤ cur → two_level cur ws m → t ∈ held ws → cur ≤ tick_count t.
Proof using Hw0.
  intros Hc [sc0 sc1 wh0 wh1 mp H0 H1 Hok0 Hok1] Ht. rewrite held_two in Ht; cbn in Ht.
  apply elem_of_app in Ht as [Ht|Ht].
  - apply (wheel_ok_held _ _ _ _ Hok0) in Ht. unfold due0 in Ht. lia.
  - apply (wheel_ok_held _ _ _ _ Hok1) in Ht. unfold due1 in Ht.
    pose proof (Z.div_mod cur w0). pose proof (Z.div_mod (tick_count t) w0).
    pose proof (Z.mod_pos_bound cur w0). pose proof (Z.mod_pos_bound (tick_count t) w0). nia.
Qed.

(** Arithmetic of the slots. *)
Lemma mod_window a b n : 0 < n → a ≤ b < a + n → b mod n = a mod n → b = a.
Proof.
  intros Hn Hab Hm. pose proof (Z.div_mod a n). pose proof (Z.div_mod b n).
  pose proof (Z.mod_pos_bound a n). assert (b / n = a / n) by nia. nia.
Qed.

Lemma succ_mod a n : 0 < n →
  (a + 1) mod n = if a mod n + 1 =? n then 0 else a mod n + 1.
Proof.
  intros Hn. pose proof (Z.div_mod a n ltac:(lia)). pose proof (Z.mod_pos_bound a n Hn).
  destruct (Z.eqb_spec (a mod n + 1) n).
  - symmetry. apply (Z.mod_unique _ _ (a / n + 1)); lia.
  - symmetry. apply (Z.mod_unique _ _ (a / n)); lia.
Qed.

Lemma succ_div a n : 0 < n →
  (a + 1) / n = if a mod n + 1 =? n then a / n + 1 else a / n.
Proof.
  intros Hn. pose proof (Z.div_mod a n ltac:(lia)). pose proof (Z.mod_pos_bound a n Hn).
  destruct (Z.eqb_spec (a mod n + 1) n).
  - symmetry. apply (Z.div_unique _ _ _ 0); lia.
  - symmetry. apply (Z.div_unique _ _ _ (a mod n + 1)); lia.
Qed.

(** One tick takes out exactly the tasks of the current tick. *)
(** Emptying the current slot of the first wheel. *)
Lemma slot0_taken cur wh0 l :
  0 ≤ cur → wheel_ok slot0 (due0 cur) wh0 → wh0 !! Z.to_nat (cur mod w0) = Some l →
  Forall (λ t, tick_count t = cur) l ∧
  wheel_ok slot0 (due0 (cur + 1)) (<[Z.to_nat (cur mod w0) := []]> wh0).
Proof using Hw0 Hw1 Hw.
  intros Hc Hok0 Hl. pose proof (Z.mod_pos_bound cur w0 ltac:(lia)). split.
  - eapply Forall_impl; [apply (Hok0 _ _ Hl)|]. cbn. intros t [Hs Hd].
    apply (mod_window cur _ w0); [lia|done|]. unfold slot0 in Hs. lia.
  - eapply wheel_ok_mono; [|apply (wheel_ok_take_slot _ _ _ _ _ Hl Hok0)].
    unfold due0, slot0. intros t _ [Hd Hne].
    assert (tick_count t ≠ cur) by (intros Heq; rewrite Heq in Hne; lia). lia.
Qed.

(** Emptying the next slot of the second wheel when the first wraps. *)
Lemma slot1_taken cur wh1 l1 :
  0 ≤ cur → cur mod w0 + 1 = w0 → wheel_ok slot1 (due1 cur) wh1 →
  wh1 !! Z.to_nat ((cur / w0 + 1) mod w1) = Some l1 →
  Forall (due0 (cur + 1)) l1 ∧
  wheel_ok slot1 (due1 (cur + 1)) (<[Z.to_nat ((cur / w0 + 1) mod w1) := []]> wh1).
Proof using Hw0 Hw1 Hw.
  intros Hc Hwrap Hok1 Hl1. pose proof (Z.mod_pos_bound (cur / w0 + 1) w1 ltac:(lia)).
  pose proof (succ_mod cur w0 ltac:(lia)) as Hm. pose proof (succ_div cur w0 ltac:(lia)) as Hdv.
  rewrite (proj2 (Z.eqb_eq _ _) Hwrap) in Hm, Hdv. split.
  - eapply Forall_impl; [apply (Hok1 _ _ Hl1)|]. cbn. intros t [Hs Hd].
    unfold due1 in Hd. unfold slot1 in Hs.
    assert (tick_count t / w0 = cur / w0 + 1) as Heq.
    { apply (mod_window _ _ w1); [lia|lia|]. lia. }
    unfold due0. pose proof (Z.div_mod (tick_count t) w0). pose proof (Z.div_mod cur w0).
    pose proof (Z.mod_pos_bound (tick_count t) w0). nia.
  - eapply wheel_ok_mono; [|apply (wheel_ok_take_slot _ _ _ _ _ Hl1 Hok1)].
    unfold due1, slot1. intros t _ [Hd Hne]. rewrite Hdv.
    assert (tick_count t / w0 ≠ cur / w0 + 1) by (intros Heq; rewrite Heq in Hne; lia).
    lia.
Qed.

Lemma Tick_two_level cur ws m :
  0 ≤ cur → two_level cur ws m →
  ∃ l ws' m', Tick ws m = Ok (l, (ws', m')) ∧ two_level (cur + 1) ws' m' ∧
    held ws ≡ₚ l ++ held ws' ∧ Forall (λ t, tick_count t = cur) l.
Proof using Hw0 Hw1 Hw.
  intros Hc [sc0 sc1 wh0 wh1 mp H0 H1 Hok0 Hok1].
  pose proof (Z.mod_pos_bound cur w0 ltac:(lia)) as Hp0.
  pose proof (Z.mod_pos_bound (cur / w0 + 1) w1 ltac:(lia)) as Hp1.
  destruct (lookup_lt_is_Some_2 wh0 (Z.to_nat (cur mod w0)) ltac:(lia)) as [l Hl].
  destruct (lookup_lt_is_Some_2 wh1 (Z.to_nat ((cur / w0 + 1) mod w1)) ltac:(lia)) as [l1 Hl1].
  set (wh0' := <[Z.to_nat (cur mod w0) := []]> wh0).
  assert (Z.of_nat (length wh0') = w0) as H0' by (unfold wh0'; by rewrite length_insert).
  destruct (slot0_taken cur wh0 l Hc Hok0 Hl) as [Hcur Hok0']. fold wh0' in Hok0'.
  cbn [Tick wheel current_pos]. rewrite Hl. fold wh0'. rewrite H0'.
  assert (w0 ≤ w0 * w1) by nia.
  rewrite wrap_small by (unfold in_width; lia).
  pose proof (succ_mod cur w0 ltac:(lia)) as Hm. pose proof (succ_div cur w0 ltac:(lia)) as Hdv.
  destruct (Z.eqb_spec (cur mod w0 + 1) w0) as [Hwrap|Hwrap].
  - rewrite Hl1. set (wh1' := <[Z.to_nat ((cur / w0 + 1) mod w1) := []]> wh1).
    assert (Z.of_nat (length wh1') = w1) as H1' by (unfold wh1'; by rewrite length_insert).
    destruct (slot1_taken cur wh1 l1 Hc Hwrap Hok1 Hl1) as [Hl1d Hok1']. fold wh1' in Hok1'.
    destruct (distribute_spec (due0 (cur + 1)) l1 wh0' (length wh0'))
      as (wh0'' & Hdist & Hlen & Hperm & Hok0''); [done|lia|done|by rewrite H0'|].
    rewrite H0' in Hok0''.
    exists l, [mkWheel ((cur + 1) mod w0) sc0 wh0'';
               mkWheel (((cur + 1) / w0 + 1) mod w1) sc1 wh1'],
      (mkTaskMap (if ((cur / w0 + 1) mod w1 + 1 =? w1) then wrap64 (mp + 1) else mp) ∅).
    split_and!.
    + rewrite H1'.
      assert (w1 ≤ w0 * w1) by nia.
      rewrite wrap_small by (unfold in_width; lia).
      rewrite Hm, Hdv, (succ_mod (cur / w0 + 1) w1) by lia.
      destruct (_ =? w1); cbn; unfold mbind, res_bind; cbn.
      * rewrite lookup_empty. cbn. rewrite delete_empty, Hdist. done.
      * by rewrite Hdist.
    + constructor; [lia|lia|done|done].
    + rewrite !held_two; cbn [wheel].
      rewrite (concat_take_slot _ _ _ Hl), (concat_take_slot _ _ _ Hl1), Hperm.
      fold wh0' wh1'. rewrite <-!app_assoc.
      apply Permutation_app_head. rewrite app_assoc, (Permutation_app_comm (concat wh0')).
      by rewrite <-app_assoc.
    + done.
  - exists l, [mkWheel ((cur + 1) mod w0) sc0 wh0';
               mkWheel (((cur + 1) / w0 + 1) mod w1) sc1 wh1], (mkTaskMap mp ∅).
    split_and!.
    + cbn. by rewrite Hm, Hdv.
    + constructor; [done|done|done|].
      eapply wheel_ok_mono; [|done]. unfold due1. intros t _ Hd. by rewrite Hdv.
    + rewrite !held_two; cbn [wheel]. rewrite (concat_take_slot _ _ _ Hl). fold wh0'.
      by rewrite app_assoc.
    + done.
Qed.

(** Inserting a task that is due within the two levels. *)
Lemma insert_two_level cur ws m t :
  0 ≤ cur → two_level cur ws m → cur ≤ tick_count t < cur + w0 * w1 →
  ∃ ws', insert_at t [w0; w1] ws m (tick_count t - cur) (tick_count t) = Ok (ws', m) ∧
    two_level cur ws' m ∧ held ws' ≡ₚ t :: held ws.
Proof using Hw0 Hw1.
  intros Hc [sc0 sc1 wh0 wh1 mp H0 H1 Hok0 Hok1] Ht. cbn [insert_at wheel current_pos scale].
  pose proof (Z.mod_pos_bound (tick_count t) w0 ltac:(lia)) as Hs0.
  pose proof (Z.mod_pos_bound (tick_count t / w0) w1 ltac:(lia)) as Hs1.
  destruct (Z.ltb_spec (tick_count t - cur) w0) as [Hlt|Hge].
  - eexists. split_and!; [done| |].
    + constructor; [by rewrite length_slot_append|done| |done].
      apply (wheel_ok_slot_append slot0); [unfold slot0; lia| |done]. unfold due0. lia.
    + rewrite !held_two; cbn [wheel]. by rewrite concat_slot_append by lia.
  - destruct (Z.eqb_spec w0 0); [lia|].
    assert ((tick_count t - cur) / w0 < w1) as Hd by (apply Z.div_lt_upper_bound; lia).
    assert (1 ≤ (tick_count t - cur) / w0) by (apply Z.div_le_lower_bound; lia).
    destruct (Z.ltb_spec ((tick_count t - cur) / w0) w1); [|lia].
    exists [mkWheel (cur mod w0) sc0 wh0;
            mkWheel ((cur / w0 + 1) mod w1) sc1 (slot_append t (slot1 t) wh1)].
    split_and!; [done| |].
    + constructor; [done|by rewrite length_slot_append|done|].
      apply (wheel_ok_slot_append slot1); [unfold slot1; lia| |done]. unfold due1.
      pose proof (Z.div_mod (tick_count t) w0). pose proof (Z.div_mod cur w0).
      pose proof (Z.div_mod (tick_count t - cur) w0).
      pose proof (Z.mod_pos_bound (tick_count t) w0). pose proof (Z.mod_pos_bound cur w0).
      pose proof (Z.mod_pos_bound (tick_count t - cur) w0). nia.
    + rewrite !held_two; cbn [wheel]. rewrite concat_slot_append by (unfold slot1; lia).
      by rewrite <-Permutation_middle.
Qed.

(** ** The executor between two iterations *)

Record ready (s : TimeWheelExecutor) : Prop := {
  ready_sizes : wheel_size (tw_options s) = [w0; w1];
  ready_dt : 1 ≤ tw_dt_count s;
  ready_tick : 0 ≤ tw_current_tick_count s;
  ready_wheels : two_level (tw_current_tick_count s) (tw_timing_wheel_vec s) (tw_task_map s)
}.

(** The tasks scheduled and not yet run. *)
Definition pending s : TaskList := held (tw_timing_wheel_vec s).

(** How a due task is handed over. *)
Definition hand_over s (t : Task) : event :=
  match tw_bind_executor_ref s with Some _ => Bound t | None => Ran t end.

Definition immediate_events s : list event :=
  match tw_bind_executor_ref s with Some _ => [] | None => map Ran (tw_imd_queue s) end.

Lemma loop_run_one t s :
  loop_run t s = (Ok tt, set_imd (tw_imd_queue s) (tw_trace s ++ [hand_over s (task t)]) s).
Proof. unfold loop_run, hand_over. unfold_monad. by destruct (tw_bind_executor_ref s). Qed.

Lemma loop_run_all l s :
  mapM_ loop_run l s =
  (Ok tt, set_imd (tw_imd_queue s) (tw_trace s ++ map (hand_over s ∘ task) l) s).
Proof.
  revert s; induction l as [|t l IH]; intros s; cbn.
  - unfold mret, M_ret, set_imd. rewrite app_nil_r. by destruct s.
  - unfold mbind, M_bind. rewrite loop_run_one.
    rewrite IH. unfold set_imd, hand_over; cbn. by rewrite <-app_assoc.
Qed.

Definition not_yet (c : Z) (t : TaskWithTimestamp) : Prop := c ≤ tick_count t.
#[local] Instance not_yet_dec c t : Decision (not_yet c t).
Proof. unfold not_yet. apply _. Defined.

Lemma loop_iteration_ready s :
  ready s → tw_current_tick_count s + 1 < 2 ^ 64 →
  ∃ l s', loop_iteration s = (Ok tt, s') ∧ ready s' ∧
    tw_current_tick_count s' = tw_current_tick_count s + 1 ∧
    tw_bind_executor_ref s' = tw_bind_executor_ref s ∧
    immediate_events s' = [] ∧
    tw_trace s' = tw_trace s ++ immediate_events s ++ map (hand_over s ∘ task) l ∧
    pending s ≡ₚ l ++ pending s' ∧
    Forall (λ t, tick_count t = tw_current_tick_count s) l.
Proof using Hw0 Hw1 Hw.
  intros [Hsz Hdt Hc Htw] Hov.
  destruct (Tick_two_level _ _ _ Hc Htw) as (l & ws' & m' & Htick & Htw' & Hperm & Hcur).
  exists l.
  assert (∃ ws0 wr, tw_timing_wheel_vec s = ws0 :: wr) as (ws0 & wr & Hws)
    by (inversion Htw; eauto).
  unfold loop_iteration, loop_immediate, loop_tick, loop_advance. unfold_monad.
  destruct (tw_bind_executor_ref s) as [r|] eqn:Hb; cbn -[Tick]; rewrite Hws in Htick |- *;
    rewrite Htick; cbn; rewrite loop_run_all; cbn; eexists;
    (split; [reflexivity|]); cbn; rewrite wrap_small by (unfold in_width; lia);
    unfold immediate_events, pending; cbn; rewrite ?Hb;
    (split; [split; cbn; (done || lia)|]); split_and!; try done.
  unfold hand_over; cbn. by rewrite <-app_assoc.
Qed.

Fixpoint iterate (n : nat) : M TimeWheelExecutor unit :=
  match n with
  | O => mret tt
  | S n' => loop_iteration;; iterate n'
  end.

Lemma iterate_ready (n : nat) (s : TimeWheelExecutor) :
  ready s → tw_current_tick_count s + Z.of_nat n < 2 ^ 64 →
  ∃ s' run rest, iterate n s = (Ok tt, s') ∧ ready s' ∧
    tw_current_tick_count s' = tw_current_tick_count s + Z.of_nat n ∧
    tw_trace s' = tw_trace s ++ (if n is O then [] else immediate_events s)
                    ++ map (hand_over s ∘ task) run ∧
    pending s ≡ₚ run ++ rest ∧ pending s' ≡ₚ rest ∧
    Forall (λ t, tick_count t < tw_current_tick_count s + Z.of_nat n) run ∧
    Forall (λ t, tw_current_tick_count s + Z.of_nat n ≤ tick_count t) rest.
Proof using Hw0 Hw1 Hw.
  revert s; induction n as [|n IH]; intros s Hr Hov.
  - exists s, [], (pending s). rewrite Z.add_0_r, !app_nil_r. split_and!; try done.
    apply Forall_forall. intros t Ht. destruct Hr. by eapply two_level_future.
  - destruct (loop_iteration_ready s Hr ltac:(lia))
      as (l & s1 & Hit & Hr1 & Hc1 & Hb1 & Himm1 & Htr1 & Hp1 & Hl).
    destruct (IH s1 Hr1 ltac:(lia))
      as (s' & run & rest & Hit' & Hr' & Hc' & Htr' & Hp & Hp' & Hrun & Hrest).
    exists s', (l ++ run), rest. split_and!.
    + cbn. unfold mbind, M_bind. by rewrite Hit.
    + done.
    + lia.
    + rewrite Htr', Htr1, Himm1, map_app.
      assert (map (hand_over s1 ∘ task) run = map (hand_over s ∘ task) run) as ->
        by (apply map_ext; intros t; cbn; unfold hand_over; by rewrite Hb1).
      rewrite <-!app_assoc. by destruct n.
    + by rewrite Hp1, Hp, app_assoc.
    + done.
    + apply Forall_app; split; [|eapply Forall_impl; [done|]; cbn; lia].
      eapply Forall_impl; [done|]. cbn. lia.
    + eapply Forall_impl; [done|]. cbn. lia.
Qed.


(** Scheduling between two iterations.  For a time point that is not in
    the past and lies within the two levels, [ExecuteAt] adds the task to
    the pending ones with its tick, [(tp - start) / dt], and runs nothing;
    for a time point in the past the task goes the way of [Execute]. *)
Theorem ExecuteAt_schedules (s : TimeWheelExecutor) (tp : Z) (t : Task) :
  ready s →
  tw_start_time_point s ≤ tp < tw_start_time_point s + 2 ^ 64 →
  tw_current_tick_count s * tw_dt_count s < 2 ^ 64 →
  let tick := (tp - tw_start_time_point s) / tw_dt_count s in
  (tick < tw_current_tick_count s → ExecuteAt tp t s = Execute t s) ∧
  (tw_current_tick_count s ≤ tick < tw_current_tick_count s + w0 * w1 →
   ∃ s', ExecuteAt tp t s = (Ok tt, s') ∧ ready s' ∧
     pending s' ≡ₚ mkTask tick t :: pending s ∧
     tw_trace s' = tw_trace s ∧ tw_imd_queue s' = tw_imd_queue s ∧
     tw_current_tick_count s' = tw_current_tick_count s).
Proof using Hw0 Hw1 Hw.
  intros [Hsz Hdt Hc Htw] Htp Hov tick.
  assert (wrap64 (tp - tw_start_time_point s) = tp - tw_start_time_point s) as Hv
    by (apply wrap_small; unfold in_width; lia).
  rewrite ExecuteAt_unfold. cbn zeta.
  rewrite Hv, (wrap_small 64 (tw_current_tick_count s * tw_dt_count s))
    by (unfold in_width; nia).
  pose proof (Z.div_mod (tp - tw_start_time_point s) (tw_dt_count s) ltac:(lia)) as Hdm.
  pose proof (Z.mod_pos_bound (tp - tw_start_time_point s) (tw_dt_count s) ltac:(lia)) as Hmb.
  fold tick in Hdm |- *. split; intros Hlt.
  - destruct (Z.ltb_spec (tp - tw_start_time_point s) (tw_current_tick_count s * tw_dt_count s));
      [done|nia].
  - destruct (Z.ltb_spec (tp - tw_start_time_point s) (tw_current_tick_count s * tw_dt_count s));
      [nia|].
    destruct (Z.eqb_spec (tw_dt_count s) 0); [lia|].
    rewrite (wrap_small 64 (tick - _)) by (unfold in_width; lia). rewrite Hsz.
    destruct (insert_two_level _ _ _ (mkTask tick t) Hc Htw Hlt) as (ws' & Hins & Htw' & Hp).
    cbn [tick_count] in Hins. rewrite Hins. eexists.
    split; [reflexivity|]. split; [by split|]. by split_and!.
Qed.

(** What [Initialize] leaves is ready, with nothing pending. *)
Lemma make_wheels_two_level :
  two_level 0 (make_wheels 0 1 [w0; w1]) (mkTaskMap 1 ∅) ∧ held (make_wheels 0 1 [w0; w1]) = [].
Proof using Hw0 Hw1.
  cbn [make_wheels Nat.eqb]. split.
  - pose proof (two_level_intro 0 (wrap64 (1 * w0)) (wrap64 (wrap64 (1 * w0) * w1))
      (replicate (Z.to_nat w0) []) (replicate (Z.to_nat w1) []) 1) as H.
    rewrite Z.div_0_l, Z.mod_0_l, Z.mod_small in H by lia. apply H.
    + rewrite length_replicate. lia.
    + rewrite length_replicate. lia.
    + apply wheel_ok_replicate.
    + apply wheel_ok_replicate.
  - rewrite held_two; cbn. by rewrite !concat_replicate_nil.
Qed.

(** ** A task scheduled while the tasks of the current tick run *)

(** One iteration of the loop in which [ExecuteAt tp t] is called, by a
    task or by another thread, after the tasks of the tick have run and
    before the tick counter is incremented: [tick_mutex_] is free then
    when there was a task to run. *)
Definition loop_iteration_with (tp : Z) (t : Task) : M TimeWheelExecutor unit :=
  loop_immediate;;
  task_list ← loop_tick;
  (match task_list with
   | [] => mret tt
   | _ => mapM_ loop_run task_list;; ExecuteAt tp t
   end);;
  loop_advance.

(** The first level never looks at the tick of a task it holds: tasks of
    tick [c] behave as tasks of tick [c + w0]. *)
Definition relabel (c : Z) (t : TaskWithTimestamp) : TaskWithTimestamp :=
  if tick_count t =? c then mkTask (c + w0) (task t) else t.
Definition relabel_wheel (c : Z) (w : TimingWheelTool) : TimingWheelTool :=
  mkWheel (current_pos w) (scale w) (map (map (relabel c)) (wheel w)).
Definition relabel_state (c : Z) (s : TimeWheelExecutor) : TimeWheelExecutor :=
  set_wheels (map (relabel_wheel c) (tw_timing_wheel_vec s)) (tw_task_map s) s.

Lemma slot0_relabel c t : slot0 (relabel c t) = slot0 t.
Proof using Hw0.
  unfold slot0, relabel. destruct (Z.eqb_spec (tick_count t) c) as [->|]; [|done]. cbn.
  replace (c + w0) with (c + 1 * w0) by lia. apply Z.mod_add. lia.
Qed.

Lemma slot_append_relabel c t p wh :
  slot_append (relabel c t) p (map (map (relabel c)) wh) =
  map (map (relabel c)) (slot_append t p wh).
Proof.
  unfold slot_append. generalize (Z.to_nat p) as n.
  induction wh as [|l wh IH]; intros [|n]; cbn; [done..| |].
  - by rewrite map_app.
  - f_equal. apply IH.
Qed.

Lemma distribute_relabel c l wh :
  Z.of_nat (length wh) = w0 →
  distribute (map (relabel c) l) (map (map (relabel c)) wh) =
  map (map (relabel c)) <$> distribute l wh.
Proof using Hw0.
  revert wh; induction l as [|t l IH]; intros wh Hl; cbn [map distribute]; [done|].
  rewrite length_map, Hl. destruct (w0 =? 0); [done|].
  pose proof (slot0_relabel c t) as Hs. unfold slot0 in Hs. rewrite Hs.
  rewrite slot_append_relabel. apply IH. by rewrite length_slot_append.
Qed.

(** The shape of a two-level wheel with an empty task map. *)
Inductive two_shape : list TimingWheelTool → TaskMap → Prop :=
| two_shape_intro a b p : Z.of_nat (length (wheel a)) = w0 → two_shape [a; b] (mkTaskMap p ∅).

Lemma insert_map_relabel c p wh :
  <[p := []]> (map (map (relabel c)) wh) = map (map (relabel c)) (<[p := []]> wh).
Proof. symmetry. apply (list_fmap_insert (map (relabel c)) wh p []). Qed.

Lemma lookup_map_relabel c p wh :
  map (map (relabel c)) wh !! p = map (relabel c) <$> wh !! p.
Proof. apply list_lookup_fmap. Qed.

Lemma length_insert_nil p wh : length (<[p := []]> wh) = length wh.
Proof. apply length_insert. Qed.

(** A tick of the second level alone. *)
Lemma Tick_last_relabel c b p :
  Tick (map (relabel_wheel c) [b]) (mkTaskMap p ∅) =
  (λ r, (map (relabel c) r.1, (map (relabel_wheel c) r.2.1, r.2.2))) <$> Tick [b] (mkTaskMap p ∅)
  ∧ ∀ l ws' m', Tick [b] (mkTaskMap p ∅) = Ok (l, (ws', m')) →
      ∃ b' p', ws' = [b'] ∧ m' = mkTaskMap p' ∅.
Proof.
  cbn. rewrite lookup_map_relabel, lookup_empty, insert_map_relabel, length_map, length_insert.
  destruct (wheel b !! _) as [l|]; cbn; [|by split].
  rewrite delete_empty. destruct (_ =? _); cbn; unfold relabel_wheel; cbn; (split; [done|]);
    intros ? ? ? [= <- <- <-]; eauto.
Qed.

Lemma Tick_relabel c ws m :
  two_shape ws m →
  Tick (map (relabel_wheel c) ws) m =
  (λ r, (map (relabel c) r.1, (map (relabel_wheel c) r.2.1, r.2.2))) <$> Tick ws m
  ∧ ∀ l ws' m', Tick ws m = Ok (l, (ws', m')) → two_shape ws' m'.
Proof using Hw0.
  intros [a b p Ha]. destruct (Tick_last_relabel c b p) as [Hb Hb'].
  remember [b] as bs eqn:Hbs. cbn [map Tick relabel_wheel wheel current_pos scale].
  rewrite lookup_map_relabel, insert_map_relabel, length_map, length_insert.
  destruct (wheel a !! _) as [l|] eqn:Hl; cbn [fmap option_fmap option_map]; [|by split].
  destruct (_ =? _).
  - rewrite Hb. destruct (Tick bs (mkTaskMap p ∅)) as [[l1 [bs' m']]| |] eqn:Ht; cbn; [|by split..].
    destruct (Hb' _ _ _ eq_refl) as (b' & p' & -> & ->).
    rewrite distribute_relabel by (by rewrite length_insert).
    pose proof (length_distribute l1 (<[Z.to_nat (current_pos a) := []]> (wheel a))) as Hlen.
    rewrite length_insert in Hlen.
    destruct (distribute l1 _) as [wh'| |]; cbn; [|by split..].
    split; [done|]. intros ? ? ? [= <- <- <-]. constructor; cbn. by rewrite (Hlen _ eq_refl).
  - split; [done|]. intros ? ? ? [= <- <- <-]. rewrite Hbs. constructor. cbn.
    by rewrite length_insert.
Qed.

Definition state_shape (s : TimeWheelExecutor) : Prop :=
  two_shape (tw_timing_wheel_vec s) (tw_task_map s).

Lemma ready_shape s : ready s → state_shape s.
Proof. intros [_ _ _ H]. unfold state_shape. destruct H. by constructor. Qed.

(** An iteration computed from one tick. *)
Lemma loop_iteration_unfold s :
  state_shape s →
  loop_iteration s =
  let s0 := set_imd (match tw_bind_executor_ref s with Some _ => tw_imd_queue s | None => [] end)
                    (tw_trace s ++ immediate_events s) s in
  match Tick (tw_timing_wheel_vec s) (tw_task_map s) with
  | Ok r =>
      let s1 := set_wheels r.2.1 r.2.2 s0 in
      (Ok tt, set_tick (wrap64 (tw_current_tick_count s + 1))
                (set_imd (tw_imd_queue s0) (tw_trace s0 ++ map (hand_over s ∘ task) r.1) s1))
  | Throw e => (Throw e, s0)
  | Undef => (Undef, s0)
  end.
Proof.
  intros Hs. assert (∃ ws0 wr, tw_timing_wheel_vec s = ws0 :: wr) as (ws0 & wr & Hws)
    by (inversion Hs; eauto).
  unfold loop_iteration, loop_immediate, loop_tick, loop_advance, immediate_events. unfold_monad.
  destruct (tw_bind_executor_ref s) as [r|] eqn:Hb; cbn -[Tick]; rewrite !Hws;
    destruct (Tick _ _) as [r'| |]; cbn; rewrite ?loop_run_all; cbn;
    unfold set_imd, hand_over; cbn; rewrite ?Hb, ?app_nil_r; try done; rewrite <-Hb; by destruct s.
Qed.

Lemma loop_iteration_relabel c s :
  state_shape s →
  loop_iteration (relabel_state c s) =
    ((loop_iteration s).1, relabel_state c (loop_iteration s).2) ∧
  ((loop_iteration s).1 = Ok tt → state_shape (loop_iteration s).2).
Proof using Hw0.
  intros Hs. destruct (Tick_relabel c _ _ Hs) as [Ht Hshape].
  assert (state_shape (relabel_state c s)) as Hs'.
  { unfold state_shape, relabel_state; cbn. destruct Hs as [a b p Ha]. constructor. cbn.
    by rewrite length_map. }
  rewrite !loop_iteration_unfold by done.
  assert (immediate_events (relabel_state c s) = immediate_events s) as -> by done.
  cbn zeta. cbn [relabel_state set_wheels tw_timing_wheel_vec tw_task_map]. rewrite Ht.
  destruct (Tick (tw_timing_wheel_vec s) (tw_task_map s)) as [[l [ws' m']]| |] eqn:Htick; cbn; (split; [|try done]).
  - unfold relabel_state, set_tick, set_imd, set_wheels; cbn. do 2 f_equal.
    f_equal. rewrite map_map. apply map_ext. intros t. unfold hand_over, relabel; cbn.
    by destruct (tick_count t =? c).
  - intros _. by eapply Hshape.
  - done.
  - done.
Qed.

Lemma iterate_relabel c n s :
  state_shape s →
  iterate n (relabel_state c s) = ((iterate n s).1, relabel_state c (iterate n s).2).
Proof using Hw0.
  revert s; induction n as [|n IH]; intros s Hs; cbn; [done|].
  destruct (loop_iteration_relabel c s Hs) as [Hr Hs']. unfold mbind, M_bind. rewrite Hr.
  destruct (loop_iteration s) as [[[]| |] s1]; cbn in *; [|done..]. apply IH, Hs'. done.
Qed.

Lemma relabel_id c t : c + 1 ≤ tick_count t → relabel c t = t.
Proof. unfold relabel. destruct (Z.eqb_spec (tick_count t) c); [lia|done]. Qed.

Lemma wheels_relabel_id f c (P : TaskWithTimestamp → Prop) wh :
  wheel_ok f P wh → (∀ t, P t → c + 1 ≤ tick_count t) → map (map (relabel c)) wh = wh.
Proof.
  intros Hok HP. apply list_eq. intros p. rewrite lookup_map_relabel.
  destruct (wh !! p) as [l|] eqn:Hp; cbn; [|done]. f_equal.
  pose proof (Hok p l Hp) as Hl.
  transitivity (map id l); [|by rewrite map_id]. apply map_ext_in. intros t Ht.
  rewrite Forall_forall in Hl. apply relabel_id, HP.
  by apply (Hl t), list_elem_of_In.
Qed.

(** Inserting a task of tick [cur] when the wheels are already at
    [cur + 1]: they behave as if it had tick [cur + w0]. *)
Lemma insert_late cur ws m t :
  0 ≤ cur → two_level (cur + 1) ws m → tick_count t = cur →
  ∃ ws', insert_at t [w0; w1] ws m 0 cur = Ok (ws', m) ∧ two_shape ws' m ∧
    two_level (cur + 1) (map (relabel_wheel cur) ws') m ∧
    held (map (relabel_wheel cur) ws') ≡ₚ mkTask (cur + w0) (task t) :: held ws.
Proof using Hw0 Hw1.
  intros Hc [sc0 sc1 wh0 wh1 mp H0 H1 Hok0 Hok1] Ht. cbn [insert_at wheel current_pos scale].
  destruct (Z.ltb_spec 0 w0); [|lia]. eexists; split; [reflexivity|].
  pose proof (Z.mod_pos_bound cur w0 ltac:(lia)) as Hp.
  assert (map (map (relabel cur)) wh0 = wh0) as Hr0
    by (eapply wheels_relabel_id; [done|]; unfold due0; lia).
  assert (map (map (relabel cur)) wh1 = wh1) as Hr1.
  { eapply wheels_relabel_id; [done|]. unfold due1. intros u Hu.
    pose proof (Z.div_mod (cur + 1) w0). pose proof (Z.div_mod (tick_count u) w0).
    pose proof (Z.mod_pos_bound (cur + 1) w0). pose proof (Z.mod_pos_bound (tick_count u) w0). nia. }
  assert (slot0 (mkTask (cur + w0) (task t)) = cur mod w0) as Hs.
  { unfold slot0; cbn. replace (cur + w0) with (cur + 1 * w0) by lia. apply Z.mod_add. lia. }
  assert (relabel cur t = mkTask (cur + w0) (task t)) as Hrt.
  { unfold relabel. by rewrite Ht, Z.eqb_refl. }
  cbn [map]. unfold relabel_wheel; cbn [wheel current_pos scale].
  rewrite <-slot_append_relabel, Hr0, Hr1, Hrt. split_and!.
  - constructor. cbn. by rewrite length_slot_append.
  - constructor; [by rewrite length_slot_append|done| |done]. rewrite <-Hs.
    apply wheel_ok_slot_append; [lia| |done]. unfold due0; cbn. lia.
  - rewrite !held_two; cbn [wheel]. by rewrite concat_slot_append by lia.
Qed.

Lemma late_iteration s (tp : Z) (t : Task) :
  ready s → tw_current_tick_count s + 1 < 2 ^ 64 →
  tw_start_time_point s ≤ tp < tw_start_time_point s + 2 ^ 64 →
  (tw_current_tick_count s * tw_dt_count s) < 2 ^ 64 →
  (tp - tw_start_time_point s) / tw_dt_count s = tw_current_tick_count s →
  Exists (λ u, tick_count u = tw_current_tick_count s) (pending s) →
  ∃ s1 s1', loop_iteration_with tp t s = (Ok tt, s1) ∧ loop_iteration s = (Ok tt, s1') ∧
    tw_trace s1 = tw_trace s1' ∧ tw_current_tick_count s1' = tw_current_tick_count s + 1 ∧
    tw_current_tick_count s1 = tw_current_tick_count s + 1 ∧
    tw_bind_executor_ref s1 = tw_bind_executor_ref s ∧ immediate_events s1 = [] ∧
    state_shape s1 ∧ ready (relabel_state (tw_current_tick_count s) s1) ∧
    pending (relabel_state (tw_current_tick_count s) s1)
      ≡ₚ mkTask (tw_current_tick_count s + w0) t :: pending s1'.
Proof using Hw0 Hw1 Hw.
  intros [Hsz Hdt Hc Htw] Hov Htp Hov' Hcur Hdue.
  assert (wrap64 (tp - tw_start_time_point s) = tp - tw_start_time_point s) as Hv
    by (apply wrap_small; unfold in_width; lia).
  pose proof (Z.div_mod (tp - tw_start_time_point s) (tw_dt_count s) ltac:(lia)) as Hdm.
  pose proof (Z.mod_pos_bound (tp - tw_start_time_point s) (tw_dt_count s) ltac:(lia)) as Hmb.
  destruct (Tick_two_level _ _ _ Hc Htw) as (l & ws' & m' & Htick & Htw' & Hperm & _).
  assert (∃ u l', l = u :: l') as (u & l' & Hl).
  { destruct l as [|u l']; [exfalso|by eauto]. apply Exists_exists in Hdue as (u & Hu & Hcu).
    unfold pending in Hu. rewrite Hperm in Hu.
    apply (two_level_future (tw_current_tick_count s + 1)) with (m := m') in Hu; lia || done. }
  destruct (insert_late _ _ _ (mkTask (tw_current_tick_count s) t) Hc Htw' eq_refl)
    as (ws2 & Hins & Hsh2 & Htw2 & Hp2).
  assert (∃ ws0 wr, tw_timing_wheel_vec s = ws0 :: wr) as (ws0 & wr & Hws)
    by (inversion Htw; eauto).
  rewrite loop_iteration_unfold by (unfold state_shape; destruct Htw; by constructor).
  cbn zeta. rewrite Htick.
  unfold loop_iteration_with, loop_immediate, loop_tick, loop_advance, immediate_events.
  unfold_monad.
  destruct (tw_bind_executor_ref s) as [r|] eqn:Hb; do 2 eexists; cbn -[Tick ExecuteAt]; rewrite !Hws in Htick |- *;
    rewrite Htick; cbn -[ExecuteAt mapM_]; rewrite Hl; rewrite loop_run_all; rewrite <-Hl;
    cbn -[ExecuteAt];
    rewrite ExecuteAt_unfold; cbn zeta; cbn;
    rewrite Hv, (wrap_small 64 (_ * _)) by (unfold in_width; nia);
    (destruct (Z.ltb_spec (tp - tw_start_time_point s)
                 (tw_current_tick_count s * tw_dt_count s)); [nia|]);
    (destruct (Z.eqb_spec (tw_dt_count s) 0); [lia|]);
    rewrite Hcur, Z.sub_diag, Hsz; change (wrap64 0) with 0; rewrite Hins; cbn;
    (split; [reflexivity|]); (split; [reflexivity|]); cbn;
    rewrite ?(wrap_small 64 (tw_current_tick_count s + 1)) by (unfold in_width; lia);
    unfold immediate_events, hand_over; cbn; rewrite ?Hb, ?app_nil_r; split_and!; try done;
    (split; cbn; (done || lia)).
Qed.

(** A task scheduled for the running tick is a revolution late.  While
    the tasks of tick [cur] run, the tick counter still reads [cur], but
    their slot has been taken out.  A call [ExecuteAt tp t] made then, with
    [tp] inside the tick (neither in the past nor in the next tick), leaves
    the executor behaving from there on exactly as if [t] had been
    scheduled for tick [cur + w0], a full turn of the first wheel later.  It
    applies when the tick has a task to run, since the mutex is released
    only then. *)
Theorem ExecuteAt_in_running_tick_late (s : TimeWheelExecutor) (tp : Z) (t : Task) (n : nat) :
  ready s →
  tw_current_tick_count s + 1 + Z.of_nat n < 2 ^ 64 →
  tw_start_time_point s ≤ tp < tw_start_time_point s + 2 ^ 64 →
  tw_current_tick_count s * tw_dt_count s < 2 ^ 64 →
  (tp - tw_start_time_point s) / tw_dt_count s = tw_current_tick_count s →
  Exists (λ u, tick_count u = tw_current_tick_count s) (pending s) →
  let cur := tw_current_tick_count s in
  ∃ s1 s1' s2 run rest,
    loop_iteration_with tp t s = (Ok tt, s1) ∧ loop_iteration s = (Ok tt, s1') ∧
    tw_trace s1 = tw_trace s1' ∧
    iterate n s1 = (Ok tt, s2) ∧
    tw_trace s2 = tw_trace s1 ++ map (hand_over s ∘ task) run ∧
    run ++ rest ≡ₚ mkTask (cur + w0) t :: pending s1' ∧
    Forall (λ u, tick_count u < cur + 1 + Z.of_nat n) run ∧
    Forall (λ u, cur + 1 + Z.of_nat n ≤ tick_count u) rest.
Proof using Hw0 Hw1 Hw.
  intros Hr Hov Htp Hmul Htick Hdue cur.
  destruct (late_iteration s tp t Hr ltac:(lia) Htp Hmul Htick Hdue)
    as (s1 & s1' & Hit & Hit' & Htr & Hc1' & Hc1 & Hb & Himm & Hsh & Hrr & Hp).
  fold cur in Hc1, Hc1', Hrr, Hp, Hov |- *. set (c := cur) in *.
  destruct (iterate_ready n (relabel_state c s1) Hrr)
    as (s' & run & rest & Hn & _ & Hc' & Htr' & Hperm & _ & Hrun & Hrest).
  { cbn. lia. }
  rewrite iterate_relabel in Hn by done.
  destruct (iterate n s1) as [r s2] eqn:Hn1. cbn in Hn. injection Hn as -> <-.
  exists s1, s1', s2, run, rest. cbn in Htr', Hrun, Hrest, Hperm. rewrite Hc1 in Hrun, Hrest.
  split_and!; try done.
  - rewrite Htr'. f_equal.
    assert (immediate_events (relabel_state c s1) = []) as -> by exact Himm.
    destruct n; cbn; apply map_ext; intros u; unfold hand_over; cbn; by rewrite Hb.
  - by rewrite <-Hperm.
Qed.

(** Initialisation.  With the executor getter registered, no bound
    executor and a two-level [wheel_size], [Initialize] succeeds and leaves
    empty wheels for which the loop's invariant holds at tick 0. *)
Theorem Initialize_ready `{YamlOps node} (name : string) (options_node : option node)
    (o : Options) (f : string → option ExecutorRef) :
  read_options decode default_options options_node = Ok (Some o) →
  bind_executor o = "" → wheel_size o = [w0; w1] → 1 ≤ dt o < 2 ^ 64 →
  ∃ s, (RegisterGetExecutorFunc f;; Initialize name options_node) TimeWheelExecutor_new = (Ok tt, s) ∧
    ready s ∧ pending s = [] ∧ tw_state s = kInit ∧ tw_trace s = [] ∧ tw_name s = name ∧
    tw_options s = o.
Proof using Hw0 Hw1.
  intros Ho Hb Hsz Hdt. unfold RegisterGetExecutorFunc, Initialize. unfold_monad. cbn.
  rewrite Ho. cbn. rewrite Hb. cbn -[make_wheels]. rewrite Hsz.
  destruct make_wheels_two_level as [Htl Hh]. eexists. split; [reflexivity|].
  rewrite (wrap_small 64 (dt o)) by (unfold in_width; lia).
  split_and!; try done. split; cbn -[make_wheels]; try done; lia.
Qed.
End TwoLevels.

(** ** Sleeping *)

Lemma sleep_loop_chunks (fuel : nat) (options_dt real_dt : Z) :
  0 < real_dt ≤ options_dt → real_dt ≤ Z.of_nat fuel * kMaxSleepDt →
  ∃ chunks, sleep_loop fuel options_dt real_dt = Some chunks ∧
    foldr Z.add 0 chunks = real_dt ∧ Forall (λ c, 0 < c ≤ kMaxSleepDt) chunks.
Proof.
  revert real_dt. induction fuel as [|fuel IH]; intros r Hr Hf; [lia|].
  cbn [sleep_loop]. cbn zeta. unfold kMaxSleepDt in *.
  destruct (Z.ltb_spec 1000000000 r).
  - destruct (Z.ltb_spec options_dt 1000000000); [lia|].
    rewrite andb_false_r; cbn [andb].
    destruct (Z.eqb_spec (r - 1000000000) 0); [lia|].
    destruct (IH (r - 1000000000)) as (ch & -> & Hs & Hc); [lia..|].
    exists (1000000000 :: ch). cbn. split; [done|]. split; [lia|]. constructor; [lia|done].
  - rewrite Z.sub_diag. cbn. exists [r]. cbn. split; [done|]. split; [lia|].
    constructor; [lia|done].
Qed.

(** The timer thread sleeps for exactly [dt] per tick, in chunks of at
    most a second, so that it looks at the state at least once a second: the
    chunk loop ends for every positive [dt]. *)
Theorem sleep_loop_total (o : Options) :
  0 < dt o →
  ∃ chunks, sleep_loop (Z.to_nat (dt o)) (dt o) (dt o) = Some chunks ∧
    foldr Z.add 0 chunks = dt o ∧ Forall (λ c, 0 < c ≤ kMaxSleepDt) chunks.
Proof. intros Hdt. apply sleep_loop_chunks; unfold kMaxSleepDt; lia. Qed.

(** A time point before the start of the executor is taken for one in the
    far future: the difference is stored in an unsigned 64-bit integer, so
    [ExecuteAt] does not hand the task to [Execute] as it does for any other
    time in the past, but schedules it some [2^64] nanoseconds ahead. *)
Theorem ExecuteAt_before_start_far_future (s : TimeWheelExecutor) (tp : Z) (t : Task) :
  tw_start_time_point s - 2 ^ 63 ≤ tp < tw_start_time_point s →
  0 ≤ tw_current_tick_count s * tw_dt_count s < 2 ^ 63 → 1 ≤ tw_dt_count s →
  let tick := (tp - tw_start_time_point s + 2 ^ 64) / tw_dt_count s in
  (2 ^ 63) / tw_dt_count s ≤ tick ∧
  ExecuteAt tp t s =
    (r ← lift (insert_at (mkTask tick t) (wheel_size (tw_options s)) (tw_timing_wheel_vec s)
                 (tw_task_map s) (wrap64 (tick - tw_current_tick_count s)) tick);
     modify (set_wheels r.1 r.2)) s.
Proof.
  intros Htp Hcur Hdt tick.
  assert (wrap64 (tp - tw_start_time_point s) = tp - tw_start_time_point s + 2 ^ 64) as Hv.
  { unfold wrap64, wrap. rewrite <-(Z.mod_add _ 1 (2 ^ 64)) by lia. apply Z.mod_small. lia. }
  split; [apply Z.div_le_mono; lia|].
  rewrite ExecuteAt_unfold. cbn zeta. rewrite Hv.
  rewrite (wrap_small 64 (_ * _)) by (unfold in_width; lia).
  destruct (Z.ltb_spec (tp - tw_start_time_point s + 2 ^ 64)
              (tw_current_tick_count s * tw_dt_count s)); [lia|].
  destruct (Z.eqb_spec (tw_dt_count s) 0); [lia|].
  fold tick. unfold_monad. by destruct (insert_at _ _ _ _ _ _).
Qed.

(** After [Shutdown] the wheels are gone but the options still list
    them: a call of [ExecuteAt] for a time that has not passed indexes an
    empty vector. *)
Theorem ExecuteAt_after_Shutdown_undefined (s s' : TimeWheelExecutor) (tp : Z) (t : Task) :
  tw_state s ≠ kShutdown → Shutdown s = (Ok tt, s') → wheel_size (tw_options s) ≠ [] →
  1 ≤ tw_dt_count s →
  wrap64 (tw_current_tick_count s * tw_dt_count s) ≤ wrap64 (tp - tw_start_time_point s) →
  (ExecuteAt tp t s').1 = Undef.
Proof.
  intros Hst Hsh Hsz Hdt Htp. unfold Shutdown in Hsh. unfold_monad.
  destruct (tw_state s) eqn:Hs; cbn in Hsh; try done; injection Hsh as <-;
    rewrite ExecuteAt_unfold; cbn zeta; cbn;
    (destruct (Z.ltb_spec (wrap64 (tp - tw_start_time_point s))
                (wrap64 (tw_current_tick_count s * tw_dt_count s))); [lia|]);
    (destruct (Z.eqb_spec (tw_dt_count s) 0); [lia|]);
    by destruct (wheel_size (tw_options s)).
Qed.
End TimeWheel.

(** ** A small executor: four and three slots, ticks of one nanosecond *)

Module Demo.
Definition options : Options := mkOptions "" 1 [4; 3] "" [] false.
Definition node : tree :=
  TMap [("dt_us", TNum 0); ("wheel_size", TSeq [TNum 4; TNum 3])].
Definition initialized : TimeWheelExecutor (Task := nat) :=
  set_wheels (make_wheels 0 1 [4; 3]) (mkTaskMap 1 ∅)
    (set_dt_count 1 (set_config "wheel" options (set_state kInit TimeWheelExecutor_new))).
Definition started (now : Z) : TimeWheelExecutor (Task := nat) := (Start now initialized).2.
Definition scheduled (tp : Z) : TimeWheelExecutor (Task := nat) := (ExecuteAt tp 7%nat (started 0)).2.
Definition fired (tp : Z) (n : nat) : list event := tw_trace (iterate n (scheduled tp)).2.

Lemma started_ready now : ready 4 3 (started now).
Proof.
  destruct (make_wheels_two_level (Task := nat) 4 3 ltac:(lia) ltac:(lia)) as [H _].
  split; [done|by apply Z.leb_le|by apply Z.leb_le|done].
Qed.
End Demo.

(** Beyond the levels of the wheel the executor is not punctual.  The last
    level distributes what it takes from the task map by the tick modulo its
    size, without dividing by the length of a turn of the level below: with
    levels of 4 and 3 slots a task for tick 14 runs in tick 22, and a task for
    tick 18 already in tick 14. *)
Theorem beyond_horizon_not_punctual :
  Demo.fired 14 15 = [] ∧ Demo.fired 14 22 = [] ∧ Demo.fired 14 23 = [Ran 7%nat] ∧
  Demo.fired 18 14 = [] ∧ Demo.fired 18 15 = [Ran 7%nat].
Proof. by vm_compute. Qed.

(** ** Witnesses *)


Lemma ExecuteAt_schedules_witness :
  ∃ s', ExecuteAt 6 7%nat (Demo.started 0) = (Ok tt, s') ∧ ready 4 3 s' ∧
    pending s' ≡ₚ [mkTask 6 7%nat].
Proof.
  destruct (ExecuteAt_schedules 4 3 ltac:(lia) ltac:(lia) ltac:(lia) (Demo.started 0) 6 7%nat
    (Demo.started_ready 0) ltac:(zdec) ltac:(zdec)) as [_ H].
  destruct (H ltac:(zdec)) as (s' & He & Hr & Hp & _). exists s'. split; [exact He|].
  split; [exact Hr|]. exact Hp.
Defined.

Lemma ExecuteAt_in_running_tick_late_witness :
  let s := Demo.scheduled 0 in
  ∃ s1 s1' s2 run rest,
    loop_iteration_with 0 9%nat s = (Ok tt, s1) ∧ loop_iteration s = (Ok tt, s1') ∧
    iterate 4 s1 = (Ok tt, s2) ∧ tw_trace s2 = tw_trace s1 ++ map (hand_over s ∘ task) run ∧
    run ++ rest ≡ₚ mkTask 4 9%nat :: pending s1' ∧
    (iterate 3 s1).2.(tw_trace) = [Ran 7%nat] ∧ tw_trace s2 = [Ran 7%nat; Ran 9%nat].
Proof.
  intros s.
  assert (ready 4 3 s) as Hr.
  { destruct (insert_two_level 4 3 ltac:(lia) ltac:(lia) 0 (make_wheels 0 1 [4; 3]) (mkTaskMap 1 ∅)
      (mkTask 0 7%nat) ltac:(lia) (ready_wheels _ _ _ (Demo.started_ready 0)) ltac:(zdec))
      as (ws' & Hins & Htl & _).
    vm_compute in Hins. injection Hins as <-.
    split; [done|by apply Z.leb_le|by apply Z.leb_le|exact Htl]. }
  destruct (ExecuteAt_in_running_tick_late 4 3 ltac:(lia) ltac:(lia) ltac:(lia) s 0 9%nat 4 Hr
    ltac:(zdec) ltac:(zdec) ltac:(zdec) eq_refl ltac:(by constructor))
    as (s1 & s1' & s2 & run & rest & H1 & H1' & _ & H2 & Htr & Hp & _).
  exists s1, s1', s2, run, rest. split_and!; try done.
  - apply (f_equal snd) in H1; cbn [snd] in H1. rewrite <-H1. by vm_compute.
  - apply (f_equal snd) in H1, H2; cbn [snd] in H1, H2. rewrite <-H2, <-H1. by vm_compute.
Defined.

Lemma Initialize_ready_witness :
  ∃ s, (RegisterGetExecutorFunc (λ _, None);;
        Initialize "wheel" (Some (TMap [("dt_us", TNum 5); ("wheel_size", TSeq [TNum 4; TNum 3])])))
         (TimeWheelExecutor_new (Task := nat)) = (Ok tt, s) ∧ ready 4 3 s ∧ tw_dt_count s = 5000.
Proof.
  destruct (Initialize_ready (Task := nat) 4 3 ltac:(lia) ltac:(lia) "wheel"
    (Some (TMap [("dt_us", TNum 5); ("wheel_size", TSeq [TNum 4; TNum 3])]))
    (mkOptions "" 5000 [4; 3] "" [] false) (λ _, None) ltac:(by vm_compute) eq_refl eq_refl ltac:(zdec))
    as (s & H & Hr & _).
  exists s. split; [exact H|]. split; [exact Hr|]. vm_compute in H. by injection H as <-.
Defined.

Lemma sleep_loop_total_witness :
  ∃ chunks, sleep_loop (Z.to_nat 100000000) 100000000 100000000 = Some chunks ∧
    foldr Z.add 0 chunks = 100000000.
Proof.
  destruct (sleep_loop_total default_options ltac:(zdec)) as (ch & H & Hs & _).
  by exists ch.
Defined.

Lemma ExecuteAt_before_start_far_future_witness :
  ∃ s', ExecuteAt 5 7%nat (Demo.started 10) = (Ok tt, s') ∧ tw_imd_queue s' = [].
Proof.
  destruct (ExecuteAt_before_start_far_future (Demo.started 10) 5 7%nat ltac:(zdec)
    ltac:(zdec) ltac:(zdec)) as [_ H].
  eexists. split; [rewrite H; vm_compute; reflexivity|]. done.
Defined.

Lemma ExecuteAt_after_Shutdown_undefined_witness :
  (ExecuteAt 6 7%nat (Shutdown (Demo.started 0)).2).1 = Undef.
Proof.
  apply (ExecuteAt_after_Shutdown_undefined (Demo.started 0)).
  - discriminate.
  - by vm_compute.
  - discriminate.
  - zdec.
  - zdec.
Defined.
