(* ===== verification/QueueExecutor.v ===== *)
(** * The queue executors: [src/runtime/core/executor/guard_thread_executor.*],
    [simple_thread_executor.*] and [main_thread_executor.*]

    The guard thread executor and the simple thread executor own one consumer
    thread and one queue and have the same code but for their options and log
    lines: any thread calls [Execute], which reserves a place in a counter,
    compares the counter with a threshold and appends the task to the queue
    under a mutex; the consumer swaps the queue out, runs the tasks, and drains
    the queue once more after shutdown.  [step] interleaves the atomic actions
    of the callers with those of the consumer.

    Theorems: an invariant over all interleavings (tasks are run in the order
    in which they were queued, none lost or run twice; the counter counts the
    tasks in flight; the threshold bounds the queue), and what follows from it
    for shutdown.  Two theorems show where the counter and the final drain
    depart from what is meant. *)

From S2P Require Import Prelude Yaml.
Local Open Scope Z_scope.

(** ** Options *)

(* @src src/src/runtime/core/executor/guard_thread_executor.h:20-26 GuardThreadExecutor::Options *)
Record GuardOptions := mkGuardOptions {
  go_name : string;
  go_thread_sched_policy : string;
  go_thread_bind_cpu : list Z;
  go_queue_threshold : Z;
  go_threshold_alarm_interval_ms : Z
}.

Definition guard_default : GuardOptions := mkGuardOptions "aimrt_guard" "" [] 10000 1000.

(* @src src/src/runtime/core/executor/simple_thread_executor.h:17-22 SimpleThreadExecutor::Options *)
Record SimpleOptions := mkSimpleOptions {
  so_thread_sched_policy : string;
  so_thread_bind_cpu : list Z;
  so_queue_threshold : Z;
  so_threshold_alarm_interval_ms : Z
}.

Definition simple_default : SimpleOptions := mkSimpleOptions "" [] 10000 1000.

(* @src src/src/runtime/core/executor/main_thread_executor.h:14-18 MainThreadExecutor::Options *)
Record MainOptions := mkMainOptions {
  mo_name : string;
  mo_thread_sched_policy : string;
  mo_thread_bind_cpu : list Z
}.

Definition main_default : MainOptions := mkMainOptions "aimrt_main" "" [].

Section Decode.
Context `{YamlOps node}.

(* @src src/src/runtime/core/executor/guard_thread_executor.cc:24-43 convert<GuardThreadExecutor::Options>::decode *)
Definition guard_decode (n : node) (rhs : GuardOptions) : res (option GuardOptions) :=
  if negb (IsMap n) then Ok None else
  nm ← set_if n "name" as_string (go_name rhs);
  pol ← set_if n "thread_sched_policy" as_string (go_thread_sched_policy rhs);
  cpu ← set_if n "thread_bind_cpu" as_uint32s (go_thread_bind_cpu rhs);
  thr ← set_if n "queue_threshold" as_uint32 (go_queue_threshold rhs);
  ms ← set_if n "threshold_alarm_interval_ms" as_int32 (go_threshold_alarm_interval_ms rhs);
  Ok (Some (mkGuardOptions nm pol cpu thr ms)).

(* @src src/src/runtime/core/executor/simple_thread_executor.cc:23-39 convert<SimpleThreadExecutor::Options>::decode *)
Definition simple_decode (n : node) (rhs : SimpleOptions) : res (option SimpleOptions) :=
  if negb (IsMap n) then Ok None else
  pol ← set_if n "thread_sched_policy" as_string (so_thread_sched_policy rhs);
  cpu ← set_if n "thread_bind_cpu" as_uint32s (so_thread_bind_cpu rhs);
  thr ← set_if n "queue_threshold" as_uint32 (so_queue_threshold rhs);
  ms ← set_if n "threshold_alarm_interval_ms" as_int32 (so_threshold_alarm_interval_ms rhs);
  Ok (Some (mkSimpleOptions pol cpu thr ms)).

(* @src src/src/runtime/core/executor/main_thread_executor.cc:22-35 convert<MainThreadExecutor::Options>::decode *)
Definition main_decode (n : node) (rhs : MainOptions) : res (option MainOptions) :=
  if negb (IsMap n) then Ok None else
  nm ← set_if n "name" as_string (mo_name rhs);
  pol ← set_if n "thread_sched_policy" as_string (mo_thread_sched_policy rhs);
  cpu ← set_if n "thread_bind_cpu" as_uint32s (mo_thread_bind_cpu rhs);
  Ok (Some (mkMainOptions nm pol cpu)).
End Decode.

(** ** The main thread executor: a name and a life cycle *)

(* @src src/src/runtime/core/executor/main_thread_executor.h:43-50 MainThreadExecutor *)
Record MainThreadExecutor := mkMain {
  me_options : MainOptions;
  me_state : State;
  me_name : string;
  me_main_thread_id : option Z
}.

Definition MainThreadExecutor_new : MainThreadExecutor := mkMain main_default kPreInit "" None.

(** [thread] identifies the calling thread. *)
(* @src src/src/runtime/core/executor/main_thread_executor.cc:41-64 MainThreadExecutor::Initialize *)
Definition Main_Initialize `{YamlOps node} (thread : Z) (options_node : option node)
    : M MainThreadExecutor unit :=
  s ← get;
  put (mkMain (me_options s) kInit (me_name s) (me_main_thread_id s));;
  check_throw (state_eqb (me_state s) kPreInit) "Main thread executor can only be initialized once.";;
  o ← lift (read_options main_decode main_default options_node);
  let o := default (me_options s) o in
  put (mkMain o kInit (mo_name o) (Some thread)).

(* @src src/src/runtime/core/executor/main_thread_executor.cc:66-70 MainThreadExecutor::Start *)
Definition Main_Start : M MainThreadExecutor unit :=
  s ← get;
  put (mkMain (me_options s) kStart (me_name s) (me_main_thread_id s));;
  check_throw (state_eqb (me_state s) kInit) "Main thread executor can only run when state is 'Init'.".

(* @src src/src/runtime/core/executor/main_thread_executor.cc:72-77 MainThreadExecutor::Shutdown *)
Definition Main_Shutdown : M MainThreadExecutor unit :=
  s ← get;
  put (mkMain (me_options s) kShutdown (me_name s) (me_main_thread_id s)).

(** ** The queue executors *)

Section QueueExecutor.
Context {Task : Type}.

(** A call of [Execute] between its atomic actions: it has found the state
    to be [kInit] or [kStart]; it holds the value [++queue_task_num_] gave. *)
Inductive call := Entered (t : Task) | Reserved (t : Task) (cur : Z).

(** Where the consumer thread is: not created; at the test of the [while]
    loop; at the mutex, waiting; running what it swapped out; in the drain
    after the loop; finished. *)
Inductive consumer := CNone | CTest | CWait | CRun (tmp_queue : list Task) | CDrain | CExit.

(* @src src/src/runtime/core/executor/guard_thread_executor.h:92-113 GuardThreadExecutor *)
Record QueueExecutor := mkQE {
  qe_state : State;
  qe_name : string;
  qe_queue_threshold : Z;
  qe_interval : Z;              (* threshold_alarm_interval_ms *)
  qe_task_num : Z;              (* queue_task_num_ *)
  qe_queue : list Task;
  qe_pc : consumer;
  qe_calls : list call;         (* the calls of Execute in progress *)
  qe_queued : list Task;        (* ghost: tasks appended to the queue so far *)
  qe_ran : list Task;           (* ghost: tasks run so far *)
  qe_threw : list Task          (* ghost: those that threw *)
}.

Definition QueueExecutor_new : QueueExecutor :=
  mkQE kPreInit "" 0 0 0 [] CNone [] [] [] [].

Implicit Types s : QueueExecutor.

Definition qe_set_state x (s : QueueExecutor) : QueueExecutor :=
    mkQE x (qe_name s) (qe_queue_threshold s) (qe_interval s) (qe_task_num s) (qe_queue s)
      (qe_pc s) (qe_calls s) (qe_queued s) (qe_ran s) (qe_threw s).
Definition qe_set_task_num x (s : QueueExecutor) : QueueExecutor :=
    mkQE (qe_state s) (qe_name s) (qe_queue_threshold s) (qe_interval s) x (qe_queue s) (qe_pc s)
      (qe_calls s) (qe_queued s) (qe_ran s) (qe_threw s).
Definition qe_set_queue x (s : QueueExecutor) : QueueExecutor :=
    mkQE (qe_state s) (qe_name s) (qe_queue_threshold s) (qe_interval s) (qe_task_num s) x
      (qe_pc s) (qe_calls s) (qe_queued s) (qe_ran s) (qe_threw s).
Definition qe_set_pc x (s : QueueExecutor) : QueueExecutor :=
    mkQE (qe_state s) (qe_name s) (qe_queue_threshold s) (qe_interval s) (qe_task_num s)
      (qe_queue s) x (qe_calls s) (qe_queued s) (qe_ran s) (qe_threw s).
Definition qe_set_calls x (s : QueueExecutor) : QueueExecutor :=
    mkQE (qe_state s) (qe_name s) (qe_queue_threshold s) (qe_interval s) (qe_task_num s)
      (qe_queue s) (qe_pc s) x (qe_queued s) (qe_ran s) (qe_threw s).
Definition qe_set_queued x (s : QueueExecutor) : QueueExecutor :=
    mkQE (qe_state s) (qe_name s) (qe_queue_threshold s) (qe_interval s) (qe_task_num s)
      (qe_queue s) (qe_pc s) (qe_calls s) x (qe_ran s) (qe_threw s).
Definition qe_set_ran x (s : QueueExecutor) : QueueExecutor :=
    mkQE (qe_state s) (qe_name s) (qe_queue_threshold s) (qe_interval s) (qe_task_num s)
      (qe_queue s) (qe_pc s) (qe_calls s) (qe_queued s) x (qe_threw s).
Definition qe_set_threw x (s : QueueExecutor) : QueueExecutor :=
    mkQE (qe_state s) (qe_name s) (qe_queue_threshold s) (qe_interval s) (qe_task_num s)
      (qe_queue s) (qe_pc s) (qe_calls s) (qe_queued s) (qe_ran s) x.

(** What both [Initialize] do with the options once read; the thread is
    created last. *)
Definition initialized_with (name : string) (threshold interval : Z) : M QueueExecutor unit :=
  modify (λ s, mkQE (qe_state s) name threshold interval (qe_task_num s) (qe_queue s) CTest
                 (qe_calls s) (qe_queued s) (qe_ran s) (qe_threw s)).

(* @src src/src/runtime/core/executor/guard_thread_executor.cc:49-118 GuardThreadExecutor::Initialize *)
Definition Guard_Initialize `{YamlOps node} (options_node : option node) : M QueueExecutor unit :=
  s ← get;
  modify (qe_set_state kInit);;
  check_throw (state_eqb (qe_state s) kPreInit) "GuardThreadExecutor can only be initialized once.";;
  o ← lift (read_options guard_decode guard_default options_node);
  let o := default guard_default o in
  initialized_with (go_name o) (go_queue_threshold o) (go_threshold_alarm_interval_ms o).

(* @src src/src/runtime/core/executor/simple_thread_executor.cc:45-111 SimpleThreadExecutor::Initialize *)
Definition Simple_Initialize `{YamlOps node} (name : string) (options_node : option node)
    : M QueueExecutor unit :=
  s ← get;
  modify (qe_set_state kInit);;
  check_throw (state_eqb (qe_state s) kPreInit) "SimpleThreadExecutor can only be initialized once.";;
  modify (λ s, mkQE (qe_state s) name (qe_queue_threshold s) (qe_interval s) (qe_task_num s)
                 (qe_queue s) (qe_pc s) (qe_calls s) (qe_queued s) (qe_ran s) (qe_threw s));;
  o ← lift (read_options simple_decode simple_default options_node);
  let o := default simple_default o in
  initialized_with name (so_queue_threshold o) (so_threshold_alarm_interval_ms o).

(* @src src/src/runtime/core/executor/guard_thread_executor.cc:120-124 GuardThreadExecutor::Start *)
Definition Queue_Start : M QueueExecutor unit :=
  s ← get;
  modify (qe_set_state kStart);;
  check_throw (state_eqb (qe_state s) kInit) "Method can only be called when state is 'Init'.".

(** The atomic exchange of [Shutdown]; the call then wakes the consumer and
    waits for it to finish. *)
(* @src src/src/runtime/core/executor/guard_thread_executor.cc:126-141 GuardThreadExecutor::Shutdown *)
Definition Queue_Shutdown s : QueueExecutor := qe_set_state kShutdown s.

(* @src src/src/runtime/core/executor/guard_thread_executor.cc:144-148 GuardThreadExecutor::Execute (state) *)
Definition may_execute s : bool := state_eqb (qe_state s) kInit || state_eqb (qe_state s) kStart.

(* @src src/src/runtime/core/executor/guard_thread_executor.cc:152-159 GuardThreadExecutor::Execute (threshold) *)
Definition over (thr iv cur : Z) : bool := (0 <=? iv) && (thr <? cur).

Definition over_threshold s (cur : Z) : bool := over (qe_queue_threshold s) (qe_interval s) cur.

(** [++queue_task_num_] *)
(* @src src/src/runtime/core/executor/guard_thread_executor.cc:150-150 GuardThreadExecutor::Execute (reserve) *)
Definition reserve s : QueueExecutor * Z :=
  let cur := wrap32 (qe_task_num s + 1) in (qe_set_task_num cur s, cur).

(* @src src/src/runtime/core/executor/guard_thread_executor.cc:168-170 GuardThreadExecutor::Execute (enqueue) *)
Definition enqueue (t : Task) s : QueueExecutor :=
  qe_set_queued (qe_queued s ++ [t]) (qe_set_queue (qe_queue s ++ [t]) s).

Definition deliver (t : Task) (cur : Z) s : QueueExecutor :=
  if over_threshold s cur then qe_set_task_num (wrap32 (qe_task_num s - 1)) s
  else enqueue t s.

(** A whole call with nothing interleaved. *)
(* @src src/src/runtime/core/executor/guard_thread_executor.cc:143-171 GuardThreadExecutor::Execute *)
Definition Queue_Execute (t : Task) s : QueueExecutor :=
  if negb (may_execute s) then s
  else let '(s, cur) := reserve s in deliver t cur s.

(* @src src/src/runtime/core/executor/simple_thread_executor.cc:134-160 SimpleThreadExecutor::Execute *)
Definition Simple_Execute : Task → QueueExecutor → QueueExecutor := Queue_Execute.

(** A task has run: the counter is decremented only when it did not throw. *)
(* @src src/src/runtime/core/executor/guard_thread_executor.cc:87-92 GuardThreadExecutor::Initialize (run a task) *)
Definition run_task (t : Task) (threw : bool) s : QueueExecutor :=
  let s := qe_set_ran (qe_ran s ++ [t]) s in
  if threw then qe_set_threw (qe_threw s ++ [t]) s
  else qe_set_task_num (wrap32 (qe_task_num s - 1)) s.

(** The actions of the consumer thread. *)
(* @src src/src/runtime/core/executor/guard_thread_executor.cc:74-113 GuardThreadExecutor::Initialize (thread) *)
Inductive consumer_step s : QueueExecutor → Prop :=
| step_test :
    qe_pc s = CTest →
    consumer_step s (qe_set_pc (if state_eqb (qe_state s) kShutdown then CDrain else CWait) s)
| step_swap :
    qe_pc s = CWait → qe_queue s ≠ [] ∨ qe_state s = kShutdown →
    consumer_step s (qe_set_queue [] (qe_set_pc (CRun (qe_queue s)) s))
| step_run t tmp_queue threw :
    qe_pc s = CRun (t :: tmp_queue) →
    consumer_step s (run_task t threw (qe_set_pc (CRun tmp_queue) s))
| step_run_end :
    qe_pc s = CRun [] → consumer_step s (qe_set_pc CTest s)
| step_drain t queue threw :
    qe_pc s = CDrain → qe_queue s = t :: queue →
    consumer_step s (run_task t threw (qe_set_queue queue s))
| step_exit :
    qe_pc s = CDrain → qe_queue s = [] → consumer_step s (qe_set_pc CExit s).

(** Any number of threads may be inside [Execute], fewer than [max_calls]. *)
Context (max_calls : Z).

Inductive step s : QueueExecutor → Prop :=
| step_consumer s' : consumer_step s s' → step s s'
| step_enter t :
    may_execute s = true → Z.of_nat (length (qe_calls s)) < max_calls →
    step s (qe_set_calls (Entered t :: qe_calls s) s)
| step_reserve c1 t c2 :
    qe_calls s = c1 ++ Entered t :: c2 →
    step s (let '(s, cur) := reserve s in qe_set_calls (c1 ++ Reserved t cur :: c2) s)
| step_deliver c1 t cur c2 :
    qe_calls s = c1 ++ Reserved t cur :: c2 →
    step s (deliver t cur (qe_set_calls (c1 ++ c2) s))
| step_start : qe_state s = kInit → step s (Queue_Start s).2
| step_shutdown : step s (Queue_Shutdown s).

Lemma Queue_Start_state s : (Queue_Start s).2 = qe_set_state kStart s.
Proof. unfold Queue_Start. unfold_monad. by destruct (state_eqb _ _). Qed.

(** ** The invariant *)

(** Swapped out and not yet run. *)
Definition running s : list Task := match qe_pc s with CRun l => l | _ => [] end.

Definition call_over (thr iv : Z) (c : call) : bool :=
  match c with Reserved _ cur => over thr iv cur | Entered _ => false end.
Definition call_admitted (thr iv : Z) (c : call) : bool :=
  match c with Reserved _ cur => negb (over thr iv cur) | Entered _ => false end.

Definition count (p : call → bool) (l : list call) : Z := Z.of_nat (length (List.filter p l)).

Lemma count_app p l1 l2 : count p (l1 ++ l2) = count p l1 + count p l2.
Proof. unfold count. rewrite List.filter_app, length_app. lia. Qed.
Lemma count_cons p c l : count p (c :: l) = (if p c then 1 else 0) + count p l.
Proof. unfold count. cbn. destruct (p c); cbn [length]; lia. Qed.
Lemma count_le p l : 0 ≤ count p l ≤ Z.of_nat (length l).
Proof. unfold count. pose proof (List.filter_length_le p l). lia. Qed.

(** Places of the counter taken for good or until the task has run. *)
Definition admitted (thr iv : Z) s : Z :=
  count (call_admitted thr iv) (qe_calls s) + Z.of_nat (length (qe_queue s))
  + Z.of_nat (length (running s)) + Z.of_nat (length (qe_threw s)).

Record inv (thr iv : Z) s : Prop := {
  inv_thr : qe_queue_threshold s = thr;
  inv_iv : qe_interval s = iv;
  inv_fifo : qe_queued s = qe_ran s ++ running s ++ qe_queue s;
  inv_calls : Z.of_nat (length (qe_calls s)) ≤ max_calls;
  inv_num : qe_task_num s = wrap32 (admitted thr iv s + count (call_over thr iv) (qe_calls s));
  inv_bound : 0 ≤ iv → admitted thr iv s ≤ thr
}.

(** What [Initialize] leaves. *)
Record fresh (thr iv : Z) s : Prop := {
  fresh_state : qe_state s = kInit;
  fresh_thr : qe_queue_threshold s = thr;
  fresh_iv : qe_interval s = iv;
  fresh_num : qe_task_num s = 0;
  fresh_queue : qe_queue s = [];
  fresh_pc : qe_pc s = CTest;
  fresh_calls : qe_calls s = [];
  fresh_ghost : qe_queued s = [] ∧ qe_ran s = [] ∧ qe_threw s = []
}.

Definition reachable (thr iv : Z) s : Prop := ∃ s0, fresh thr iv s0 ∧ rtc step s0 s.

Section Invariant.
Context (thr iv : Z).
Context (Hthr : 0 ≤ thr) (Hmax : 0 ≤ max_calls) (Hfit : thr + max_calls < 2 ^ 32).

Lemma inv_fresh s : fresh thr iv s → inv thr iv s.
Proof using Hthr Hmax.
  intros [Hst Ht Hi Hn Hq Hp Hc (Hg1 & Hg2 & Hg3)].
  assert (running s = []) as Hr by (unfold running; by rewrite Hp).
  split; unfold admitted; rewrite ?Hc, ?Hr, ?Hq, ?Hg1, ?Hg2, ?Hg3, ?Hn; try done; lia.
Qed.

Lemma wrap32_dec z : wrap32 (wrap32 z - 1) = wrap32 (z - 1).
Proof. unfold wrap. apply Zminus_mod_idemp_l. Qed.
Lemma wrap32_inc z : wrap32 (wrap32 z + 1) = wrap32 (z + 1).
Proof. unfold wrap. apply Zplus_mod_idemp_l. Qed.

(** Compute the accounting of a state given by its fields. *)
Ltac account :=
  unfold run_task, deliver, reserve, enqueue, admitted, running, over_threshold in *; cbn -[wrap Z.of_nat Z.leb Z.ltb] in *; subst;
  rewrite ?count_app, ?count_cons, ?length_app in *;
  cbn -[wrap Z.of_nat Z.leb Z.ltb app] in *.

Lemma consumer_step_inv s s' : inv thr iv s → consumer_step s s' → inv thr iv s'.
Proof.
  intros [Ht Hi Hf Hc Hn Hb] Hs.
  destruct Hs as [Hp|Hp Hq|t tmp threw Hp|Hp|t q threw Hp Hq|Hp Hq];
    destruct s as [st nm th iv' num q0 pc calls qd ran thw]; account.
  - destruct (state_eqb st kShutdown); split; account; try done; lia.
  - split; account; try done; [by rewrite app_nil_r|f_equal; lia|lia].
  - destruct threw; split; account; try done; rewrite <-?app_assoc, ?wrap32_dec;
      try done; try (f_equal; lia); lia.
  - split; account; done.
  - destruct threw; split; account; try done; rewrite <-?app_assoc, ?wrap32_dec;
      try done; try (f_equal; lia); lia.
  - split; account; done.
Qed.

Lemma step_inv s s' : inv thr iv s → step s s' → inv thr iv s'.
Proof using Hthr Hmax Hfit.
  intros Hinv Hs. destruct Hs as [s' Hs|t Hm Hl|c1 t c2 Hcs|c1 t cur c2 Hcs|Hk|];
    [by eapply consumer_step_inv|..];
    destruct Hinv as [Ht Hi Hf Hc Hn Hb];
    destruct s as [st nm th iv' num q0 pc calls qd ran thw]; account.
  - split; account; try done; lia.
  - (* reserve: the value the increment gives decides *)
    pose proof (count_le (call_over thr iv) c1). pose proof (count_le (call_over thr iv) c2).
    pose proof (count_le (call_admitted thr iv) c1).
    pose proof (count_le (call_admitted thr iv) c2).
    rewrite !wrap32_inc. set (z := _ + 1).
    assert (0 ≤ iv → wrap32 z = z) as Hz.
    { intros Hiv. specialize (Hb Hiv). apply wrap_small. unfold in_width. lia. }
    destruct (over thr iv (wrap32 z)) eqn:Ho; split; account; rewrite ?Ho; cbn [negb];
      try done; try lia; try (f_equal; lia).
    intros Hiv. unfold over in Ho. rewrite Hz in Ho by done. lia.
  - destruct (over thr iv cur) eqn:Ho; split; account; rewrite ?Ho in *;
      cbn [negb] in *; rewrite ?wrap32_dec; try done; try (f_equal; lia); try lia.
    by rewrite <-!app_assoc.
  - split; account; done.
  - split; account; done.
Qed.

Lemma reachable_inv s : reachable thr iv s → inv thr iv s.
Proof using Hthr Hmax Hfit.
  intros (s0 & H0 & Hs). apply inv_fresh in H0. revert H0.
  induction Hs as [|s1 s2 s3 H12 _ IH]; intros H1; [done|]. by eapply IH, step_inv.
Qed.

Lemma reachable_step s s' : reachable thr iv s → rtc step s s' → reachable thr iv s'.
Proof. intros (s0 & H0 & H1) H2. exists s0. split; [done|]. by transitivity s. Qed.

(** C19: Every interleaving of callers, consumer and life cycle keeps the
    queue executor consistent: tasks are run in the order in which they
    were queued, each at most once, and none is lost; the number of tasks
    queued and not yet run, together with the tasks that threw, never
    exceeds the threshold when the threshold is enabled; and with no call
    in progress the counter is exactly that number. *)
Theorem queue_executor_safe s :
  reachable thr iv s →
  qe_queued s = qe_ran s ++ running s ++ qe_queue s ∧
  (0 ≤ iv →
   Z.of_nat (length (running s ++ qe_queue s)) + Z.of_nat (length (qe_threw s)) ≤ thr ∧
   (qe_calls s = [] →
    qe_task_num s = Z.of_nat (length (running s ++ qe_queue s)) + Z.of_nat (length (qe_threw s)))).
Proof using Hthr Hmax Hfit.
  intros [Ht Hi Hf Hc Hn Hb]%reachable_inv. split; [done|]. intros Hiv. specialize (Hb Hiv).
  rewrite length_app. unfold admitted in *.
  pose proof (count_le (call_admitted thr iv) (qe_calls s)).
  split; [lia|]. intros Hcs. rewrite Hcs in *.
  assert (∀ p, count p [] = 0) as H0 by done. rewrite !H0 in *.
  rewrite Hn, wrap_small; [lia|]. unfold in_width. lia.
Qed.

(** Tasks that threw are never given back to the counter. *)
Lemma step_threw s s' : step s s' → (length (qe_threw s) ≤ length (qe_threw s'))%nat.
Proof.
  intros [? [| |t tmp []| |t q []|]|t| |c1 t cur c2| |];
    unfold run_task, deliver, enqueue; try destruct (over_threshold _ _); cbn;
    rewrite ?length_app; try lia. by rewrite Queue_Start_state.
Qed.

Lemma saturated_step s s' :
  inv thr iv s → 0 ≤ iv → Z.of_nat (length (qe_threw s)) = thr → step s s' →
  qe_queued s' = qe_queued s.
Proof.
  intros [Ht Hi Hf Hc Hn Hb] Hiv Hth Hs. specialize (Hb Hiv). unfold admitted in Hb.
  pose proof (count_le (call_admitted thr iv) (qe_calls s)).
  destruct Hs as [? [| |t tmp []| |t q []|]|t| |c1 t cur c2 Hcs| |];
    rewrite ?Queue_Start_state; try done.
  rewrite Hcs, count_app, count_cons in Hb.
  pose proof (count_le (call_admitted thr iv) c1). pose proof (count_le (call_admitted thr iv) c2).
  unfold deliver, over_threshold. cbn. rewrite Ht, Hi. cbn [call_admitted] in Hb.
  destruct (over thr iv cur); [done|]. cbn [negb] in Hb. lia.
Qed.

(** The counter leaks.  The decrement that follows a task is skipped
    when the task throws, so a task that threw keeps its place for ever:
    once as many tasks have thrown as the threshold allows, no call of
    [Execute] ever queues a task again, however empty the queue is. *)
Theorem thrown_tasks_block_executor s s' :
  reachable thr iv s → 0 ≤ iv → Z.of_nat (length (qe_threw s)) = thr → rtc step s s' →
  qe_queued s' = qe_queued s ∧ Z.of_nat (length (qe_threw s')) = thr.
Proof using Hthr Hmax Hfit.
  intros Hr Hiv Hth Hs. apply reachable_inv in Hr. revert Hr Hth.
  induction Hs as [|s1 s2 s3 H12 _ IH]; intros Hr Hth; [done|].
  pose proof (step_inv _ _ Hr H12) as Hr2. pose proof (step_threw _ _ H12).
  pose proof (inv_bound _ _ _ Hr2 Hiv) as Hb. unfold admitted in Hb.
  pose proof (count_le (call_admitted thr iv) (qe_calls s2)).
  destruct (IH Hr2 ltac:(lia)) as [-> ?]. split; [|done]. by eapply saturated_step.
Qed.
End Invariant.

(** ** Shutdown *)

(** The consumer is alive, or has ended with nothing left behind. *)
Definition consumer_ok s : Prop :=
  qe_pc s ≠ CNone ∧ (qe_pc s = CExit → qe_queue s = []).

Definition closing s : Prop := qe_state s = kShutdown ∧ qe_calls s = [] ∧ consumer_ok s.

Lemma closing_step s s' : closing s → step s s' → closing s' ∧ qe_queued s' = qe_queued s.
Proof.
  intros (Hst & Hc & Hn & Hx) Hs. unfold closing, consumer_ok.
  destruct Hs as [? [Hp| |t tmp []| |t q []|]|t Hm|c1 t c2 Hcs|c1 t cur c2 Hcs| |]; cbn; try congruence;
    rewrite ?Hst; try (split_and!; (done || congruence)).
  - unfold may_execute in Hm. by rewrite Hst in Hm.
  - by destruct c1; rewrite Hc in Hcs.
  - by destruct c1; rewrite Hc in Hcs.
Qed.

Lemma closing_steps s s' : closing s → rtc step s s' → closing s' ∧ qe_queued s' = qe_queued s.
Proof.
  intros Hc Hs. induction Hs as [|s1 s2 s3 H12 _ IH]; [done|].
  destruct (closing_step _ _ Hc H12) as [Hc2 Hq]. destruct (IH Hc2) as [? ?]. split; congruence.
Qed.

(** How far the consumer of a closing executor is from its end. *)
Definition remaining s : nat :=
  match qe_pc s with
  | CNone => 0
  | CTest => 2 + length (qe_queue s)
  | CWait => 5 + 2 * length (qe_queue s)
  | CRun l => 3 + length l + length (qe_queue s)
  | CDrain => 1 + length (qe_queue s)
  | CExit => 0
  end.

Lemma remaining_decreases s s' :
  qe_state s = kShutdown → consumer_step s s' → (remaining s' < remaining s)%nat.
Proof.
  intros Hst Hs. unfold remaining.
  destruct Hs as [Hp|Hp Hq|t tmp [] Hp|Hp|t q [] Hp Hq|Hp Hq]; cbn; rewrite ?Hp, ?Hst, ?Hq;
    try change (state_eqb kShutdown kShutdown) with true; cbn; lia.
Qed.

Lemma closing_progress s :
  closing s → qe_pc s ≠ CExit → ∃ s', consumer_step s s'.
Proof.
  intros (Hst & _ & Hn & _) Hx. destruct (qe_pc s) as [| | |[|t tmp]| |] eqn:Hp; try done.
  - eexists. by apply step_test.
  - eexists. apply step_swap; auto.
  - eexists. by apply step_run_end.
  - eexists. by apply (step_run s t tmp false).
  - destruct (qe_queue s) as [|t q] eqn:Hq; eexists; [by apply step_exit|].
    by apply (step_drain s t q false).
Qed.

(** Shutdown runs everything that was queued.  If no call of [Execute] is
    in progress when the state becomes [kShutdown], the consumer takes at
    most [remaining s] more steps, is never stuck before its end, and when it
    has ended every task ever queued has been run, in order. *)
Theorem shutdown_drains_queue (thr iv : Z) s :
  0 ≤ thr → 0 ≤ max_calls → thr + max_calls < 2 ^ 32 → reachable thr iv s → closing s →
  (∀ s', rtc step s s' → qe_pc s' ≠ CExit →
     (∃ s'', consumer_step s' s'') ∧
     ∀ s'', consumer_step s' s'' → (remaining s'' < remaining s')%nat) ∧
  (∀ s', rtc step s s' → qe_pc s' = CExit → qe_ran s' = qe_queued s).
Proof.
  intros Hthr Hmax Hfit Hr Hc. split; intros s' Hs Hx;
    destruct (closing_steps _ _ Hc Hs) as [Hc' Hq].
  - split; [by apply closing_progress|]. intros s''. apply remaining_decreases, Hc'.
  - assert (inv thr iv s') as [_ _ Hf _ _ _] by (by eapply reachable_inv, reachable_step).
    destruct Hc' as (_ & _ & _ & He). rewrite He in Hf by done.
    unfold running in Hf. rewrite Hx in Hf. cbn in Hf. rewrite app_nil_r in Hf. by rewrite <-Hq.
Qed.

(** ** A new executor *)

(** What [Initialize] of the guard thread executor establishes. *)
Lemma Guard_Initialize_fresh `{YamlOps node} (options_node : option node) o :
  read_options guard_decode guard_default options_node = Ok o →
  let o := default guard_default o in
  ∃ s, Guard_Initialize options_node QueueExecutor_new = (Ok tt, s) ∧
    fresh (go_queue_threshold o) (go_threshold_alarm_interval_ms o) s.
Proof.
  intros Ho o'. unfold Guard_Initialize, initialized_with. unfold_monad. cbn. rewrite Ho. cbn.
  eexists. split; [reflexivity|]. by split.
Qed.

(** ** A call that outlives the consumer *)

Lemma step_exited s s' : qe_pc s = CExit → step s s' → qe_pc s' = CExit ∧ qe_ran s' = qe_ran s.
Proof.
  intros Hp Hs. destruct Hs as [? [| |t tmp []| |t q []|]|t| |c1 t cur c2 Hcs| |];
    rewrite ?Queue_Start_state; cbn; try congruence; try done.
  unfold deliver. by destruct (over_threshold _ _).
Qed.

Lemma rtc_exited s s' : qe_pc s = CExit → rtc step s s' → qe_ran s' = qe_ran s.
Proof.
  intros Hp Hs. induction Hs as [|s1 s2 s3 H12 _ IH]; [done|].
  destruct (step_exited _ _ Hp H12) as [Hp2 <-]. by apply IH.
Qed.

(** A task can be queued after the final drain.  [Execute] tests the
    state first and appends to the queue later, so a call that is between
    the two when the executor shuts down queues its task after the consumer
    has drained the queue and ended: the call succeeds, and the task is never
    run. *)
Theorem task_queued_after_drain (thr iv : Z) s (t : Task) :
  fresh thr iv s → 1 ≤ thr → 1 ≤ max_calls →
  ∃ s', rtc step s s' ∧ qe_pc s' = CExit ∧ qe_queued s' = [t] ∧
    ∀ s'', rtc step s' s'' → qe_ran s'' = [].
Proof.
  intros [Hst Ht Hi Hn Hq Hp Hc (Hg1 & Hg2 & Hg3)] Hthr Hmax.
  destruct s as [st nm th iv' num q0 pc calls qd ran thw]; cbn in *; subst.
  exists (mkQE kShutdown nm thr iv 1 [t] CExit [] [t] [] []). split_and!; try done.
  - eapply rtc_l; [apply (step_enter _ t); [done|cbn; lia]|].
    eapply rtc_l; [apply step_shutdown|].
    eapply rtc_l; [apply step_consumer, step_test; done|].
    eapply rtc_l; [apply step_consumer, step_exit; done|].
    eapply rtc_l; [apply (step_reserve _ [] t []); done|].
    eapply rtc_l; [apply (step_deliver _ [] t 1 []); done|].
    unfold deliver, over_threshold, over. cbn -[Z.leb Z.ltb].
    replace (thr <? 1) with false by lia. rewrite andb_false_r. apply rtc_refl.
  - intros s'' Hs. by apply rtc_exited in Hs.
Qed.
End QueueExecutor.

(** ** Witnesses *)

Section Witnesses.
Definition demo_queue (thr : Z) : QueueExecutor :=
  mkQE (Task := nat) kInit "guard" thr 1000 0 [] CTest [] [] [] [].

Lemma demo_fresh thr : fresh thr 1000 (demo_queue thr).
Proof. by split. Qed.

(** One task queued; then run, throwing. *)
Definition demo_one (thr : Z) : QueueExecutor :=
  mkQE kInit "guard" thr 1000 1 [7%nat] CTest [] [7%nat] [] [].
Definition demo_threw (thr : Z) : QueueExecutor :=
  mkQE kInit "guard" thr 1000 1 [] (CRun []) [] [7%nat] [7%nat] [7%nat].

Lemma demo_one_reachable : reachable 8 1 1000 (demo_one 1).
Proof.
  exists (demo_queue 1). split; [apply demo_fresh|].
  eapply rtc_l; [apply (step_enter _ _ 7%nat); [done|cbn; lia]|].
  eapply rtc_l; [apply (step_reserve _ _ [] 7%nat []); done|].
  eapply rtc_l; [apply (step_deliver _ _ [] 7%nat 1 []); done|]. apply rtc_refl.
Qed.

Lemma demo_threw_reachable : reachable 8 1 1000 (demo_threw 1).
Proof.
  eapply reachable_step; [apply demo_one_reachable|].
  eapply rtc_l; [apply step_consumer, step_test; done|].
  eapply rtc_l; [apply step_consumer, step_swap; [done|by left]|].
  eapply rtc_l; [apply step_consumer, (step_run _ 7%nat [] true); done|]. apply rtc_refl.
Qed.
End Witnesses.

Lemma queue_executor_safe_witness :
  qe_queued (demo_one 1) = [7%nat] ∧
  Z.of_nat (length (running (demo_one 1) ++ qe_queue (demo_one 1)))
    + Z.of_nat (length (qe_threw (demo_one 1))) ≤ 1.
Proof.
  destruct (queue_executor_safe 8 1 1000 ltac:(lia) ltac:(lia) ltac:(lia) _ demo_one_reachable)
    as [Hf Hb].
  split; [rewrite Hf; reflexivity|]. apply Hb. lia.
Defined.

(** Another call, dropped by the full executor. *)
Lemma demo_threw_call :
  ∃ s', rtc (step 8) (demo_threw 1) s' ∧ s' ≠ demo_threw 1 ∧ qe_calls s' = [].
Proof.
  eexists. split; [|split]; [|shelve|].
  - eapply rtc_l; [apply (step_enter _ _ 8%nat); [done|cbn; lia]|].
    eapply rtc_l; [apply (step_reserve _ _ [] 8%nat []); done|].
    eapply rtc_l; [apply (step_deliver _ _ [] 8%nat 2 []); done|].
    eapply rtc_l; [apply step_consumer, step_run_end; done|]. apply rtc_refl.
  - reflexivity.
  Unshelve. discriminate.
Qed.

Lemma thrown_tasks_block_executor_witness :
  ∃ s', rtc (step 8) (demo_threw 1) s' ∧ s' ≠ demo_threw 1 ∧ qe_queued s' = [7%nat].
Proof.
  destruct demo_threw_call as (s' & Hs & Hne & _). exists s'. split; [exact Hs|]. split; [exact Hne|].
  exact (proj1 (thrown_tasks_block_executor 8 1 1000 ltac:(lia) ltac:(lia) ltac:(lia) _ s'
    demo_threw_reachable ltac:(lia) eq_refl Hs)).
Defined.

(** The queued task is run after shutdown. *)
Lemma demo_drained :
  ∃ s', rtc (step 8) (Queue_Shutdown (demo_one 1)) s' ∧ qe_pc s' = CExit.
Proof.
  eexists. split.
  - eapply rtc_l; [apply step_consumer, step_test; done|].
    eapply rtc_l; [apply step_consumer, (step_drain _ 7%nat [] false); done|].
    eapply rtc_l; [apply step_consumer, step_exit; done|]. apply rtc_refl.
  - reflexivity.
Qed.

Lemma shutdown_drains_queue_witness :
  ∃ s', rtc (step 8) (Queue_Shutdown (demo_one 1)) s' ∧ qe_ran s' = [7%nat].
Proof.
  destruct demo_drained as (s' & Hs & Hx). exists s'. split; [exact Hs|].
  apply (shutdown_drains_queue 8 1 1000 (Queue_Shutdown (demo_one 1)));
    [lia|lia|lia| |by split_and!|exact Hs|exact Hx].
  eapply reachable_step; [apply demo_one_reachable|]. apply rtc_once, step_shutdown.
Defined.

Lemma task_queued_after_drain_witness :
  ∃ s', rtc (step 8) (demo_queue 1) s' ∧ qe_pc s' = CExit ∧ qe_queued s' = [7%nat] ∧
    ∀ s'', rtc (step 8) s' s'' → qe_ran s'' = [].
Proof. apply (task_queued_after_drain 8 1 1000); [apply demo_fresh|lia|lia]. Defined.
