(* ===== verification/ExecutorManager.v ===== *)
(** * The executor manager: [src/runtime/core/executor/executor_manager.*]

    [ExecutorManager] makes the executors a configuration names, in the order
    in which it names them, each by the function registered for its type;
    it starts and shuts them down in that order, and finds them by name.
    Executors are used through the class [ExecutorBase].  Two of its
    implementations are those of [QueueExecutor] and [TimeWheel]; the executors
    on asio and tbb, and those of plugins, are a parameter [X] with the same
    interface.

    An executor is a value of the vector [em_executor_vec]; a handle to it is
    its index there.  The functions that make executors are closures over the
    manager: they get what they may read of it.

    Theorems: initialization refines [builds], which says in what order and
    from what each executor is made, and fails exactly when there is nothing
    that [builds] allows; a time wheel can only be bound to an executor that
    the configuration names before it. *)

From S2P Require Import Prelude Yaml StringUtil TimeWheel QueueExecutor.

(** ** Executors *)

(* @src src/src/runtime/core/executor/executor_base.h:15-33 ExecutorBase *)
Class ExecutorBase (node E : Type) := {
  eb_Initialize : string → option node → M E unit;
  eb_Start : Z → M E unit;     (* with the time at which it is started *)
  eb_Shutdown : M E unit;
  eb_Report : E → list (string * bytes);
  eb_Type : E → string;
  eb_Name : E → string;
  eb_ThreadSafe : E → bool;
  eb_SupportTimerSchedule : E → bool
}.

#[global] Arguments eb_Initialize : simpl never.

(** What the class promises: an executor keeps its type and, once it has been
    initialized with a name, that name. *)
Class ExecutorLaws (node E : Type) `{ExecutorBase node E} := {
  eb_Initialize_type (name : string) (o : option node) (e : E) :
    eb_Type (node := node) (eb_Initialize name o e).2 = eb_Type (node := node) e;
  eb_Initialize_name (name : string) (o : option node) (e e' : E) :
    eb_Initialize name o e = (Ok tt, e') → eb_Name (node := node) e' = name;
  eb_Start_keeps (now : Z) (e : E) :
    let e' := (eb_Start (node := node) now e).2 in
    eb_Type (node := node) e' = eb_Type (node := node) e ∧
    eb_Name (node := node) e' = eb_Name (node := node) e
}.

Inductive Executor (Task X : Type) :=
| SimpleThread (q : @QueueExecutor Task)
| Wheel (w : @TimeWheelExecutor Task)
| Other (x : X).
Arguments SimpleThread {Task X} q.
Arguments Wheel {Task X} w.
Arguments Other {Task X} x.

(** Run a call on the executor of a constructor. *)
Definition under {T E A} (c : T → E) (m : M T A) (t : T) : res A * E :=
  let '(r, t') := m t in (r, c t').

Lemma under_ok {T E A} (c : T → E) (m : M T A) t a e :
  under c m t = (Ok a, e) → ∃ t', m t = (Ok a, t') ∧ e = c t'.
Proof. unfold under. destruct (m t) as [r t']. intros [= -> <-]. by exists t'. Qed.

Section Executors.
Context {Task X node : Type} `{YamlOps node} `{ExecutorBase node X}.
Abbreviation E := (Executor Task X).

Definition ex_Initialize (name : string) (o : option node) : M E unit := λ e,
  match e with
  | SimpleThread q => under SimpleThread (Simple_Initialize name o) q
  | Wheel w => under Wheel (TimeWheel.Initialize name o) w
  | Other x => under Other (eb_Initialize name o) x
  end.

Definition ex_Start (now : Z) : M E unit := λ e,
  match e with
  | SimpleThread q => under SimpleThread Queue_Start q
  | Wheel w => under Wheel (TimeWheel.Start now) w
  | Other x => under Other (eb_Start (node := node) now) x
  end.

(** The wait for the threads is a matter of [QueueExecutor.step]. *)
Definition ex_Shutdown : M E unit := λ e,
  match e with
  | SimpleThread q => under SimpleThread (modify Queue_Shutdown) q
  | Wheel w => under Wheel TimeWheel.Shutdown w
  | Other x => under Other (eb_Shutdown (node := node)) x
  end.

(* @src src/src/runtime/core/executor/time_wheel_executor.h:45-50 TimeWheelExecutor::Type, Name, ThreadSafe, SupportTimerSchedule *)
#[export] Instance executor_base : ExecutorBase node E := {
  eb_Initialize := ex_Initialize;
  eb_Start := ex_Start;
  eb_Shutdown := ex_Shutdown;
  eb_Report e := match e with Other x => eb_Report (node := node) x | _ => [] end;
  eb_Type e := match e with
               | SimpleThread _ => "simple_thread"
               | Wheel _ => "time_wheel"
               | Other x => eb_Type (node := node) x
               end;
  eb_Name e := match e with
               | SimpleThread q => qe_name q
               | Wheel w => tw_name w
               | Other x => eb_Name (node := node) x
               end;
  eb_ThreadSafe e := match e with
                     | SimpleThread _ => true
                     | Wheel w => tw_thread_safe w
                     | Other x => eb_ThreadSafe (node := node) x
                     end;
  eb_SupportTimerSchedule e := match e with
                               | SimpleThread _ => false
                               | Wheel _ => true
                               | Other x => eb_SupportTimerSchedule (node := node) x
                               end
}.
End Executors.

(** ** Options *)

Section Options.
Context `{Y : YamlOps node}.

(* @src src/src/runtime/core/executor/executor_manager.h:25-32 ExecutorManager::Options *)
Record ExecutorOptions := mkExecutorOptions {
  eo_name : string;
  eo_type : string;
  eo_options : node
}.

(* @src src/src/runtime/core/executor/executor_manager.cc:38-47 convert<ExecutorManager::Options>::decode (executor) *)
Definition decode_executor (n : node) : res ExecutorOptions :=
  nm ← as_of as_string (index n "name");
  ty ← as_of as_string (index n "type");
  Ok (mkExecutorOptions nm ty (default NullNode (index n "options"))).

(* @src src/src/runtime/core/executor/executor_manager.cc:33-52 convert<ExecutorManager::Options>::decode *)
Definition executor_decode (n : node) (rhs : list ExecutorOptions) : res (option (list ExecutorOptions)) :=
  if negb (IsMap n) then Ok None
  else os ← each_of n "executors" decode_executor rhs; Ok (Some os).
End Options.

Arguments ExecutorOptions : clear implicits.

(** ** [ExecutorManager] *)

Section ExecutorManager.
Context {Task X node : Type} `{YamlOps node} `{ExecutorBase node X}.
(** The constructors of the executors on asio and tbb; the function a strand
    looks its thread up with. *)
Context (new_asio_thread : X) (new_asio_strand : (string → option X) → X) (new_tbb_thread : X).
Abbreviation E := (Executor Task X).

(** What the functions that make executors read of the manager: the vector of
    executors and the map of proxies. *)
Record Made := mkMade {
  executor_vec : list E;
  executor_proxy_map : gmap string nat
}.

Definition ExecutorGenFunc : Type := Made → res (option E).

(* @src src/src/runtime/core/executor/executor_manager.h:83-109 ExecutorManager *)
Record ExecutorManager := mkEM {
  em_options : list (ExecutorOptions node);
  em_state : State;
  em_executor_gen_func_map : gmap string ExecutorGenFunc;
  em_used_executor_names : gset string;
  em_made : Made;
  em_executor_manager_proxy_map : gset string;
  em_retired : list E   (* ghost: the executors destroyed by Shutdown *)
}.

Definition ExecutorManager_new : ExecutorManager := mkEM [] kPreInit ∅ ∅ (mkMade [] ∅) ∅ [].

Implicit Types m : ExecutorManager.

Definition em_set_options x m :=
  mkEM x (em_state m) (em_executor_gen_func_map m) (em_used_executor_names m) (em_made m)
    (em_executor_manager_proxy_map m) (em_retired m).
Definition em_set_state x m :=
  mkEM (em_options m) x (em_executor_gen_func_map m) (em_used_executor_names m) (em_made m)
    (em_executor_manager_proxy_map m) (em_retired m).
Definition em_set_gens x m :=
  mkEM (em_options m) (em_state m) x (em_used_executor_names m) (em_made m)
    (em_executor_manager_proxy_map m) (em_retired m).
Definition em_set_used x m :=
  mkEM (em_options m) (em_state m) (em_executor_gen_func_map m) x (em_made m)
    (em_executor_manager_proxy_map m) (em_retired m).
Definition em_set_made x m :=
  mkEM (em_options m) (em_state m) (em_executor_gen_func_map m) (em_used_executor_names m) x
    (em_executor_manager_proxy_map m) (em_retired m).
Definition em_set_proxies x m :=
  mkEM (em_options m) (em_state m) (em_executor_gen_func_map m) (em_used_executor_names m) (em_made m)
    x (em_retired m).
Definition em_set_retired x m :=
  mkEM (em_options m) (em_state m) (em_executor_gen_func_map m) (em_used_executor_names m) (em_made m)
    (em_executor_manager_proxy_map m) x.

Definition when_em_state (st : State) (what : string) : M ExecutorManager unit :=
  m ← get; check_throw (state_eqb (em_state m) st) what.

(** [None] stands for the empty reference. *)
(* @src src/src/runtime/core/executor/executor_manager.cc:160-169 ExecutorManager::GetExecutor *)
Definition em_GetExecutor (name : string) (d : Made) : option nat := executor_proxy_map d !! name.

(** A proxy made for a module holds a reference to the same map. *)
(* @src src/src/runtime/core/executor/executor_proxy.h:86-93 ExecutorManagerProxy::GetExecutor *)
Definition proxy_GetExecutor (name : string) (d : Made) : option nat := executor_proxy_map d !! name.

(** [emplace]: a function registered before stays. *)
(* @src src/src/runtime/core/executor/executor_manager.cc:134-141 ExecutorManager::RegisterExecutorGenFunc *)
Definition RegisterExecutorGenFunc (type : string) (gen : ExecutorGenFunc) : M ExecutorManager unit :=
  when_em_state kPreInit "Method can only be called when state is 'PreInit'.";;
  modify (λ m, em_set_gens
    (match em_executor_gen_func_map m !! type with
     | Some _ => em_executor_gen_func_map m
     | None => <[type := gen]> (em_executor_gen_func_map m)
     end) m).

(* @src src/src/runtime/core/executor/executor_manager.h:76-78 ExecutorManager::SetUsedExecutorName *)
Definition SetUsedExecutorName (name : string) : M ExecutorManager unit :=
  modify (λ m, em_set_used ({[name]} ∪ em_used_executor_names m) m).

(* @src src/src/runtime/core/executor/executor_manager.cc:182-195 ExecutorManager::RegisterAsioExecutorGenFunc (get asio handle) *)
Definition get_asio_handle (d : Made) (name : string) : option X :=
  match filter (λ e, eb_Type (node := node) e = "asio_thread" ∧ eb_Name (node := node) e = name)
          (executor_vec d) with
  | Other x :: _ => Some x
  | _ => None
  end.

(* @src src/src/runtime/core/executor/executor_manager.cc:171-198 ExecutorManager::RegisterAsioExecutorGenFunc *)
Definition RegisterAsioExecutorGenFunc : M ExecutorManager unit :=
  RegisterExecutorGenFunc "asio_thread" (λ _, Ok (Some (Other new_asio_thread)));;
  RegisterExecutorGenFunc "asio_strand" (λ d, Ok (Some (Other (new_asio_strand (get_asio_handle d))))).

(* @src src/src/runtime/core/executor/executor_manager.cc:200-206 ExecutorManager::RegisterTBBExecutorGenFunc *)
Definition RegisterTBBExecutorGenFunc : M ExecutorManager unit :=
  RegisterExecutorGenFunc "tbb_thread" (λ _, Ok (Some (Other new_tbb_thread))).

(* @src src/src/runtime/core/executor/executor_manager.cc:208-214 ExecutorManager::RegisterSimpleThreadExecutorGenFunc *)
Definition RegisterSimpleThreadExecutorGenFunc : M ExecutorManager unit :=
  RegisterExecutorGenFunc "simple_thread" (λ _, Ok (Some (SimpleThread QueueExecutor_new))).

(** What a time wheel sees of an executor it looks up. *)
Definition executor_ref (d : Made) (name : string) : option ExecutorRef :=
  i ← em_GetExecutor name d;
  e ← executor_vec d !! i;
  Some (mkExecutorRef (eb_Name (node := node) e) (eb_ThreadSafe (node := node) e)).

Definition new_time_wheel (d : Made) : res (option E) :=
  let '(r, w) := RegisterGetExecutorFunc (executor_ref d) TimeWheelExecutor_new in
  (λ _, Some (Wheel w)) <$> r.

(* @src src/src/runtime/core/executor/executor_manager.cc:216-225 ExecutorManager::RegisterTImeWheelExecutorGenFunc *)
Definition RegisterTImeWheelExecutorGenFunc : M ExecutorManager unit :=
  RegisterExecutorGenFunc "time_wheel" new_time_wheel.

(** One executor.  When its [Initialize] throws it is destroyed. *)
(* @src src/src/runtime/core/executor/executor_manager.cc:72-98 ExecutorManager::Initialize (executor) *)
Definition init_executor (o : ExecutorOptions node) : M ExecutorManager unit :=
  m ← get;
  let d := em_made m in
  check_throw (bool_decide (executor_proxy_map d !! eo_name o = None) &&
               bool_decide (eo_name o ∉ em_used_executor_names m)) "Duplicate executor name '{}'.";;
  match em_executor_gen_func_map m !! eo_type o with
  | None => throw (AimRTException "Invalid executor type '{}'.")
  | Some gen =>
      p ← lift (gen d);
      match p with
      | None => throw (AimRTException "Gen executor failed, executor name '{}', executor type '{}'.")
      | Some e =>
          let '(r, e') := eb_Initialize (eo_name o) (Some (eo_options o)) e in
          lift r;;
          modify (em_set_made (mkMade (executor_vec d ++ [e'])
                                 (<[eo_name o := length (executor_vec d)]> (executor_proxy_map d))))
      end
  end.

(* @src src/src/runtime/core/executor/executor_manager.cc:58-103 ExecutorManager::Initialize *)
Definition em_Initialize (options_node : option node) : M ExecutorManager unit :=
  RegisterAsioExecutorGenFunc;;
  RegisterTBBExecutorGenFunc;;
  RegisterSimpleThreadExecutorGenFunc;;
  RegisterTImeWheelExecutorGenFunc;;
  m ← get;
  modify (em_set_state kInit);;
  check_throw (state_eqb (em_state m) kPreInit) "Executor manager can only be initialized once.";;
  o ← lift (read_options executor_decode [] options_node);
  modify (λ m, em_set_options (default (em_options m) o) m);;
  m ← get;
  mapM_ init_executor (em_options m).

(** [for (auto& itr : executor_vec_) itr->f();] *)
Fixpoint each_executor (f : nat → M E unit) (i : nat) (es : list E) : res unit * list E :=
  match es with
  | [] => (Ok tt, [])
  | e :: es' =>
      match f i e with
      | (Ok _, e') => let '(r, es'') := each_executor f (S i) es' in (r, e' :: es'')
      | (r, e') => (r, e' :: es')
      end
  end.

Definition on_executors (f : nat → M E unit) : M ExecutorManager unit := λ m,
  let '(r, es) := each_executor f 0 (executor_vec (em_made m)) in
  (r, em_set_made (mkMade es (executor_proxy_map (em_made m))) m).

(** [clock] gives the time at which each executor is started. *)
(* @src src/src/runtime/core/executor/executor_manager.cc:105-115 ExecutorManager::Start *)
Definition em_Start (clock : nat → Z) : M ExecutorManager unit :=
  m ← get;
  modify (em_set_state kStart);;
  check_throw (state_eqb (em_state m) kInit) "Method can only be called when state is 'Init'.";;
  on_executors (λ i, eb_Start (node := node) (clock i)).

(* @src src/src/runtime/core/executor/executor_manager.cc:117-132 ExecutorManager::Shutdown *)
Definition em_Shutdown : M ExecutorManager unit :=
  m ← get;
  modify (em_set_state kShutdown);;
  if state_eqb (em_state m) kShutdown then mret tt
  else
    modify (em_set_proxies ∅);;
    modify (λ m, em_set_made (mkMade (executor_vec (em_made m)) ∅) m);;
    on_executors (λ _, eb_Shutdown (node := node));;
    modify (λ m, em_set_retired (executor_vec (em_made m)) (em_set_made (mkMade [] ∅) m));;
    modify (em_set_gens ∅).

(* @src src/src/runtime/core/executor/executor_manager.cc:143-158 ExecutorManager::GetExecutorManagerProxy *)
Definition em_GetExecutorManagerProxy (module : string) : M ExecutorManager string :=
  when_em_state kInit "Method can only be called when state is 'Init'.";;
  modify (λ m, em_set_proxies ({[module]} ∪ em_executor_manager_proxy_map m) m);;
  mret module.

Definition yes_no (b : bool) : bytes := if b then lit "Y" else lit "N".

Definition executor_row (e : E) : list bytes :=
  [lit (eb_Name (node := node) e); lit (eb_Type (node := node) e);
   yes_no (eb_ThreadSafe (node := node) e); yes_no (eb_SupportTimerSchedule (node := node) e)].

(* @src src/src/runtime/core/executor/executor_manager.cc:227-265 ExecutorManager::GenInitializationReport *)
Definition em_GenInitializationReport : M ExecutorManager (list (string * bytes)) :=
  when_em_state kInit "Method can only be called when state is 'Init'.";;
  m ← get;
  let es := executor_vec (em_made m) in
  mret ([("Executor Type List", name_list (map fst (map_to_list (em_executor_gen_func_map m))));
         ("Executor List", DrawTable
            ([lit "name"; lit "type"; lit "thread safe"; lit "support time schedule"] :: map executor_row es)
            true)] ++
        (e ← es; eb_Report (node := node) e)).

(** The executor a caller of the core gets: the guard thread, or one of the
    manager's. *)
Inductive CoreExecutor := GuardThread | Managed (i : nat).

(* @src src/src/runtime/core/aimrt_core.cc:316-320 AimRTCore::GetExecutor *)
Definition core_GetExecutor (guard_name name : string) (m : ExecutorManager) : option CoreExecutor :=
  if String.eqb name "" || String.eqb name guard_name then Some GuardThread
  else Managed <$> em_GetExecutor name (em_made m).
End ExecutorManager.

Arguments ExecutorManager : clear implicits.
Arguments Made : clear implicits.

(** * Initialization refines its specification *)

Section Builds.
Context {Task X node : Type} `{YamlOps node} `{ExecutorBase node X}.
Abbreviation E := (Executor Task X).

(** The map of proxies after the executors of [os] have been made. *)
Definition proxies_of (os : list (ExecutorOptions node)) : gmap string nat :=
  list_to_map (imap (λ i o, (eo_name o, i)) os).

Definition made_of (os : list (ExecutorOptions node)) (es : list E) : Made Task X :=
  mkMade es (proxies_of os).

(** The specification: [builds gens used os es] when the entries [os] of a
    configuration give the executors [es].  Each is made, when those before
    it are there, by the function registered for its type, and initialized
    with its name and options; its name is new. *)
Inductive builds (gens : gmap string (@ExecutorGenFunc Task X)) (used : gset string)
    : list (ExecutorOptions node) → list E → Prop :=
| builds_nil : builds gens used [] []
| builds_snoc os es o gen e e' :
    builds gens used os es →
    eo_name o ∉ map eo_name os →
    eo_name o ∉ used →
    gens !! eo_type o = Some gen →
    gen (made_of os es) = Ok (Some e) →
    eb_Initialize (eo_name o) (Some (eo_options o)) e = (Ok tt, e') →
    builds gens used (os ++ [o]) (es ++ [e']).

Implicit Types os : list (ExecutorOptions node).
Implicit Types es : list E.

Lemma builds_length gens used os es : builds gens used os es → length os = length es.
Proof. induction 1; [done|]. rewrite !length_app. cbn. lia. Qed.

Lemma builds_names gens used os es :
  builds gens used os es → NoDup (map eo_name os) ∧ ∀ n, n ∈ map eo_name os → n ∉ used.
Proof.
  induction 1 as [|os es o gen e e' _ [IH1 IH2] Hn Hu _ _ _].
  - split; [constructor|]. intros n Hin. by apply not_elem_of_nil in Hin.
  - rewrite map_app. split.
    + apply NoDup_app. split; [done|]. split; [|apply NoDup_singleton].
      intros n Hin ->%list_elem_of_singleton. done.
    + intros n [Hin| ->%list_elem_of_singleton]%elem_of_app; [by apply IH2|done].
Qed.

Lemma imap_names os : (imap (λ i o, (eo_name o, i)) os).*1 = map eo_name os.
Proof.
  apply list_eq. intros j. rewrite list_lookup_fmap, list_lookup_imap.
  change (map eo_name os) with (eo_name <$> os). rewrite list_lookup_fmap. by destruct (os !! j).
Qed.

Lemma proxies_of_None os n : proxies_of os !! n = None ↔ n ∉ map eo_name os.
Proof. unfold proxies_of. by rewrite <-not_elem_of_list_to_map, imap_names. Qed.

Lemma proxies_of_Some os n i :
  NoDup (map eo_name os) → proxies_of os !! n = Some i ↔ ∃ o, os !! i = Some o ∧ eo_name o = n.
Proof.
  intros Hnd. unfold proxies_of.
  rewrite <-elem_of_list_to_map by (by rewrite imap_names). rewrite elem_of_lookup_imap. split.
  - intros (j & o & [= -> ->] & Hj). eauto.
  - intros (o & Ho & <-). eauto.
Qed.

Lemma proxies_of_snoc os o :
  eo_name o ∉ map eo_name os → NoDup (map eo_name os) →
  proxies_of (os ++ [o]) = <[eo_name o := length os]> (proxies_of os).
Proof.
  intros Hn Hnd. apply map_eq. intros n. apply option_eq. intros i.
  assert (NoDup (map eo_name (os ++ [o]))) as Hnd'.
  { rewrite map_app. apply NoDup_app. split; [done|]. split; [|apply NoDup_singleton].
    by intros n' Hin ->%list_elem_of_singleton. }
  rewrite proxies_of_Some by done. split.
  - intros (o' & Ho' & <-). apply lookup_app_Some in Ho' as [Ho'|[Hge Ho']].
    + rewrite lookup_insert_ne; [apply proxies_of_Some; eauto|]. intros Heq. apply Hn. rewrite Heq.
      apply list_elem_of_fmap. exists o'. split; [done|]. by eapply list_elem_of_lookup_2.
    + apply list_lookup_singleton_Some in Ho' as [Hi <-]. rewrite lookup_insert_eq. f_equal. lia.
  - destruct (decide (n = eo_name o)) as [->|Hne].
    + rewrite lookup_insert_eq. intros [= <-]. exists o. split; [|done].
      by rewrite lookup_app_r, Nat.sub_diag by lia.
    + rewrite lookup_insert_ne, proxies_of_Some by done. intros (o' & Ho' & Hn').
      exists o'. split; [by apply lookup_app_l_Some|done].
Qed.

Lemma builds_functional gens used os es es' :
  builds gens used os es → builds gens used os es' → es = es'.
Proof.
  intros Hb. revert es'. induction Hb as [|os es o gen e e' Hb IH Hn Hu Hg Hge Hi]; intros es' Hb'.
  - inversion Hb' as [|os' ? o']; [done|]. by destruct os'.
  - inversion Hb' as [|os' es'' o' gen' e2 e2' Hb'' Hn' Hu' Hg' Hge' Hi' Heq Heq']; [by destruct os|].
    apply app_inj_tail in Heq as [-> ->]. rewrite <-(IH _ Hb'') in *.
    rewrite Hg in Hg'. injection Hg' as <-. rewrite Hge in Hge'. injection Hge' as <-.
    rewrite Hi in Hi'. by injection Hi' as <-.
Qed.

Lemma builds_snoc_inv gens used os o es :
  builds gens used (os ++ [o]) es →
  ∃ es' gen e e', es = es' ++ [e'] ∧ builds gens used os es' ∧
    (eo_name o ∉ map eo_name os) ∧ (eo_name o ∉ used) ∧ gens !! eo_type o = Some gen ∧
    gen (made_of os es') = Ok (Some e) ∧
    eb_Initialize (eo_name o) (Some (eo_options o)) e = (Ok tt, e').
Proof.
  inversion 1 as [Heq|os' es' o' gen e e' ? ? ? ? ? ? Heq]; [by destruct os|].
  apply app_inj_tail in Heq as [-> ->]. naive_solver.
Qed.

Lemma builds_next gens used os o es es' :
  builds gens used os es → builds gens used (os ++ [o]) es' →
  ∃ gen e e', (eo_name o ∉ map eo_name os) ∧ (eo_name o ∉ used) ∧ gens !! eo_type o = Some gen ∧
    gen (made_of os es) = Ok (Some e) ∧
    eb_Initialize (eo_name o) (Some (eo_options o)) e = (Ok tt, e').
Proof.
  intros Hb (es1 & gen & e & e' & _ & Hb1 & Hrest)%builds_snoc_inv.
  rewrite (builds_functional _ _ _ _ _ Hb1 Hb) in Hrest. by exists gen, e, e'.
Qed.

Lemma builds_prefix gens used os1 os2 es :
  builds gens used (os1 ++ os2) es → ∃ es1 es2, es = es1 ++ es2 ∧ builds gens used os1 es1.
Proof.
  revert es. induction os2 as [|o os2 IH] using rev_ind; intros es.
  - rewrite app_nil_r. intros Hb. exists es, []. by rewrite app_nil_r.
  - rewrite app_assoc. intros (es' & _ & _ & e' & -> & Hb & _)%builds_snoc_inv.
    destruct (IH _ Hb) as (es1 & es2 & -> & Hb1). exists es1, (es2 ++ [e']). by rewrite app_assoc.
Qed.

(** What the entry at position [i] gives. *)
Lemma builds_lookup gens used os es i o :
  builds gens used os es → os !! i = Some o →
  ∃ gen e e', es !! i = Some e' ∧ gens !! eo_type o = Some gen ∧
    gen (made_of (take i os) (take i es)) = Ok (Some e) ∧ builds gens used (take i os) (take i es) ∧
    eb_Initialize (eo_name o) (Some (eo_options o)) e = (Ok tt, e').
Proof.
  induction 1 as [|os es o' gen e e' Hb IH Hn Hu Hg Hge Hi]; [done|].
  pose proof (builds_length _ _ _ _ Hb) as Hlen. intros Ho.
  apply lookup_app_Some in Ho as [Ho|[Hle Ho]].
  - pose proof (lookup_lt_Some _ _ _ Ho) as Hlt.
    destruct (IH Ho) as (gen1 & e1 & e1' & H1 & H2 & H3 & H4 & H5). exists gen1, e1, e1'.
    rewrite !take_app_le by lia. split; [by apply lookup_app_l_Some|done].
  - apply list_lookup_singleton_Some in Ho as [Hi0 <-]. assert (i = length os) as -> by lia.
    exists gen, e, e'. rewrite take_app_length. rewrite Hlen, take_app_length.
    split; [by rewrite lookup_app_r, Nat.sub_diag by lia|done].
Qed.
End Builds.

Section InitializeSpec.
Context {Task X node : Type} `{YamlOps node} `{ExecutorBase node X}.
Context (new_asio_thread : X) (new_asio_strand : (string → option X) → X) (new_tbb_thread : X).

Implicit Types m : ExecutorManager Task X node.
Abbreviation Init := (em_Initialize new_asio_thread new_asio_strand new_tbb_thread).
Abbreviation gen := (@ExecutorGenFunc Task X).

(** The functions [Initialize] registers by itself. *)
Definition builtin : gmap string gen :=
  {["asio_thread" := λ _, Ok (Some (Other new_asio_thread))]} ∪
  ({["asio_strand" := λ d, Ok (Some (Other (new_asio_strand (get_asio_handle (node := node) d))))]} ∪
   ({["tbb_thread" := λ _, Ok (Some (Other new_tbb_thread))]} ∪
    ({["simple_thread" := λ _, Ok (Some (SimpleThread QueueExecutor_new))]} ∪
     {["time_wheel" := new_time_wheel (node := node)]}))).

Definition all_gens m : gmap string gen := em_executor_gen_func_map m ∪ builtin.

Lemma emplace_union (g : gmap string gen) t f :
  match g !! t with Some _ => g | None => <[t := f]> g end = g ∪ {[t := f]}.
Proof.
  destruct (g !! t) eqn:Ht.
  - apply map_eq. intros k. rewrite lookup_union. destruct (decide (k = t)) as [->|Hne].
    + by rewrite Ht, lookup_singleton_eq.
    + rewrite lookup_singleton_ne by done. by destruct (g !! k).
  - by rewrite insert_union_singleton_l, map_union_comm by (by apply map_disjoint_singleton_l_2).
Qed.

Lemma RegisterExecutorGenFunc_preinit t f m :
  em_state m = kPreInit →
  RegisterExecutorGenFunc t f m = (Ok tt, em_set_gens (em_executor_gen_func_map m ∪ {[t := f]}) m).
Proof.
  intros Hst. unfold RegisterExecutorGenFunc, when_em_state. unfold_monad.
  rewrite Hst. change (state_eqb kPreInit kPreInit) with true. cbn. by rewrite emplace_union.
Qed.

Lemma register_builtin {B} (k : M (ExecutorManager Task X node) B) m :
  em_state m = kPreInit →
  (RegisterAsioExecutorGenFunc new_asio_thread new_asio_strand;;
   RegisterTBBExecutorGenFunc new_tbb_thread;;
   RegisterSimpleThreadExecutorGenFunc;;
   RegisterTImeWheelExecutorGenFunc;; k) m = k (em_set_gens (all_gens m) m).
Proof.
  intros Hst. unfold RegisterAsioExecutorGenFunc, RegisterTBBExecutorGenFunc,
    RegisterSimpleThreadExecutorGenFunc, RegisterTImeWheelExecutorGenFunc.
  unfold mbind, M_bind.
  do 5 (rewrite RegisterExecutorGenFunc_preinit by done; cbn -[new_time_wheel]).
  unfold all_gens, builtin. by rewrite !(assoc_L (∪)).
Qed.

(** One executor: it is made as [builds] says, or nothing is changed. *)
Lemma init_executor_spec o os es m :
  builds (em_executor_gen_func_map m) (em_used_executor_names m) os es → em_made m = made_of os es →
  (∃ e, builds (em_executor_gen_func_map m) (em_used_executor_names m) (os ++ [o]) (es ++ [e]) ∧
     init_executor o m = (Ok tt, em_set_made (made_of (os ++ [o]) (es ++ [e])) m)) ∨
  (∃ r, r ≠ Ok tt ∧ init_executor o m = (r, m) ∧
     ∀ es', ¬ builds (em_executor_gen_func_map m) (em_used_executor_names m) (os ++ [o]) es').
Proof.
  intros Hb Hm. destruct (builds_names _ _ _ _ Hb) as [Hnd _]. unfold init_executor. unfold_monad.
  rewrite Hm. cbn.
  assert (∀ (r : res unit) (what : Prop), r ≠ Ok tt → what →
    (what → ∀ es', ¬ builds (em_executor_gen_func_map m) (em_used_executor_names m) (os ++ [o]) es') →
    ∃ r', r' ≠ Ok tt ∧ (r, m) = (r', m) ∧
      ∀ es', ¬ builds (em_executor_gen_func_map m) (em_used_executor_names m) (os ++ [o]) es') as Hfail.
  { intros r what Hr Hw Hno. exists r. auto. }
  assert (∀ es', builds _ _ (os ++ [o]) es' → _) as Hnext by (intros es'; exact (builds_next _ _ _ o _ es' Hb)).
  destruct (decide (eo_name o ∈ map eo_name os)) as [Hin|Hn].
  { right. rewrite bool_decide_false by (rewrite proxies_of_None; tauto).
    refine (Hfail _ _ _ Hin _); [done|]. by intros _ es' (? & ? & ? & ? & _)%Hnext. }
  rewrite (bool_decide_true (_ = None)) by (by rewrite proxies_of_None). cbn.
  destruct (decide (eo_name o ∈ em_used_executor_names m)) as [Hu|Hu].
  { right. rewrite bool_decide_false by tauto.
    refine (Hfail _ _ _ Hu _); [done|]. by intros _ es' (? & ? & ? & _ & ? & _)%Hnext. }
  rewrite (bool_decide_true (_ ∉ _)) by done. cbn.
  destruct (em_executor_gen_func_map m !! eo_type o) as [g|] eqn:Hg; cbn.
  2: { right. refine (Hfail _ _ _ Hg _); [done|]. intros _ es' (? & ? & ? & _ & _ & ? & _)%Hnext. congruence. }
  destruct (g (made_of os es)) as [[e|]| |] eqn:Hge; cbn.
  2-4: right; refine (Hfail _ _ _ Hge _); [done|]; intros _ es' (? & ? & ? & _ & _ & ? & ? & _)%Hnext; congruence.
  destruct (eb_Initialize (eo_name o) (Some (eo_options o)) e) as [[[]| |] e'] eqn:Hi; cbn.
  2-3: right; refine (Hfail _ _ _ Hi _); [done|]; intros _ es' (? & ? & ? & _ & _ & ? & ? & ?)%Hnext; congruence.
  left. exists e'. split; [by econstructor|].
  unfold made_of. by rewrite proxies_of_snoc, (builds_length _ _ _ _ Hb).
Qed.

(** The loop makes the longest prefix that [builds] allows. *)
Lemma init_executors_spec rest : ∀ os es m,
  builds (em_executor_gen_func_map m) (em_used_executor_names m) os es → em_made m = made_of os es →
  ∃ r os1 os2 es', rest = os1 ++ os2 ∧
    mapM_ init_executor rest m = (r, em_set_made (made_of (os ++ os1) es') m) ∧
    builds (em_executor_gen_func_map m) (em_used_executor_names m) (os ++ os1) es' ∧
    (r = Ok tt ∧ os2 = [] ∨
     r ≠ Ok tt ∧ os2 ≠ [] ∧
     ∀ es'', ¬ builds (em_executor_gen_func_map m) (em_used_executor_names m) (os ++ rest) es'').
Proof.
  induction rest as [|o rest IH]; intros os es m Hb Hm.
  - exists (Ok tt), [], [], es. rewrite (app_nil_r os), <-Hm. split; [done|]. split; [by destruct m|]. auto.
  - cbn. unfold mbind, M_bind.
    destruct (init_executor_spec o os es m Hb Hm) as [(e & Hb1 & ->)|(r & Hr & -> & Hno)].
    + destruct (IH (os ++ [o]) (es ++ [e]) (em_set_made (made_of (os ++ [o]) (es ++ [e])) m) Hb1 eq_refl)
        as (r & os1 & os2 & es' & -> & -> & Hb2 & Hend).
      exists r, (o :: os1), os2, es'. rewrite <-!app_assoc in *. done.
    + exists r, [], (o :: rest), es. rewrite (app_nil_r os), <-Hm. split; [done|].
      split; [destruct m, r as [[]| |]; done|]. split; [done|]. right. split; [done|]. split; [done|].
      intros es'' Hb'. rewrite cons_middle, app_assoc in Hb'.
      apply builds_prefix in Hb' as (es1 & _ & _ & Hb1). by eapply Hno.
Qed.

End InitializeSpec.

(** * Time wheels and the executors they are bound to *)

(** A time wheel that has been initialized has its name, and is bound to what
    it was bound to before (nothing, for a new one), or to what its function
    for looking executors up found. *)
Lemma tw_Initialize_bound {Task node} `{YamlOps node} name (o : option node) (w0 w : @TimeWheelExecutor Task) :
  TimeWheel.Initialize name o w0 = (Ok tt, w) →
  tw_name w = name ∧
  let b := bind_executor (tw_options w) in
  (b = "" ∧ tw_bind_executor_ref w = tw_bind_executor_ref w0 ∧ tw_thread_safe w = tw_thread_safe w0 ∨
   b ≠ "" ∧ ∃ f r, tw_get_executor_func w0 = Some f ∧ f b = Some r ∧
     tw_bind_executor_ref w = Some r ∧ tw_thread_safe w = er_thread_safe r).
Proof.
  unfold TimeWheel.Initialize. unfold_monad.
  destruct (bool_decide _); cbn; [|done]. destruct (state_eqb _ _); cbn; [|done].
  destruct (read_options _ _ _) as [[o'|]| |]; cbn; try done.
  all: match goal with |- context [String.eqb ?a ""] => destruct (String.eqb_spec a "") as [He|Hne] end; cbn.
  1,3: intros [= <-]; cbn; auto.
  all: destruct (tw_get_executor_func w0) as [f|]; cbn; [|done];
    destruct (f _) as [r|] eqn:Hr; cbn; [|done];
    destruct (negb _); cbn; [|done]; intros [= <-]; cbn; split; [done|right; eauto 10].
Qed.

Lemma Simple_Initialize_name {Task node} `{YamlOps node} name (o : option node) (q q' : @QueueExecutor Task) :
  Simple_Initialize name o q = (Ok tt, q') → qe_name q' = name.
Proof.
  unfold Simple_Initialize, initialized_with. unfold_monad.
  destruct (state_eqb (qe_state q) kPreInit); cbn; [|done].
  destruct (read_options simple_decode simple_default o); cbn; [|done..]. by intros [= <-].
Qed.

Section TimeWheels.
Context {Task X node : Type} `{YamlOps node} `{ExecutorBase node X} `{!ExecutorLaws node X}.

Lemma ex_Initialize_name name (o : option node) (e e' : Executor Task X) :
  eb_Initialize name o e = (Ok tt, e') → eb_Name (node := node) e' = name.
Proof.
  unfold eb_Initialize at 1; cbn. destruct e as [q|w|x]; cbn; intros (t & Hi & ->)%under_ok; cbn.
  - by eapply Simple_Initialize_name.
  - by apply tw_Initialize_bound in Hi as [? _].
  - by eapply eb_Initialize_name.
Qed.

Lemma ex_Initialize_type name (o : option node) (e : Executor Task X) :
  eb_Type (node := node) (eb_Initialize name o e).2 = eb_Type (node := node) e.
Proof.
  unfold eb_Initialize at 1; cbn. destruct e as [q|w|x]; cbn; unfold under.
  - by destruct (Simple_Initialize name o q).
  - by destruct (TimeWheel.Initialize name o w).
  - pose proof (eb_Initialize_type name o x) as Hx. by destruct (eb_Initialize name o x).
Qed.

Lemma ex_Start_keeps now (e : Executor Task X) :
  let e' := (eb_Start (node := node) now e).2 in
  eb_Type (node := node) e' = eb_Type (node := node) e ∧ eb_Name (node := node) e' = eb_Name (node := node) e.
Proof.
  destruct e as [q|w|x]; cbn; unfold under.
  - unfold Queue_Start. unfold_monad. by destruct (state_eqb (qe_state q) kInit).
  - unfold TimeWheel.Start. unfold_monad. by destruct (state_eqb (tw_state w) kInit).
  - pose proof (eb_Start_keeps (node := node) now x) as Hx. by destruct (eb_Start now x).
Qed.

#[export] Instance executor_laws : ExecutorLaws node (Executor Task X) := {
  eb_Initialize_type := ex_Initialize_type;
  eb_Initialize_name := ex_Initialize_name;
  eb_Start_keeps := ex_Start_keeps
}.

(** Starting the executors, wherever it stops, keeps their names, so that the
    map of proxies stays right. *)
Lemma em_Start_names clock (m : ExecutorManager Task X node) :
  map (eb_Name (node := node)) (executor_vec (em_made (em_Start clock m).2)) =
    map (eb_Name (node := node)) (executor_vec (em_made m)).
Proof.
  assert (∀ (es : list (Executor Task X)) i, map (eb_Name (node := node))
    (each_executor (λ i, eb_Start (node := node) (clock i)) i es).2 = map (eb_Name (node := node)) es) as Hes.
  { induction es as [|e es IH]; intros i; [done|]. cbn [each_executor].
    pose proof (eb_Start_keeps (node := node) (clock i) e) as [_ Hn]. specialize (IH (S i)).
    destruct (eb_Start (clock i) e) as [[[]| |] e'], (each_executor (λ i, eb_Start (clock i)) (S i) es) as [r es'];
      cbn [snd map] in *; congruence. }
  unfold em_Start, on_executors. unfold_monad. destruct (state_eqb (em_state m) kInit); cbn; [|done].
  specialize (Hes (executor_vec (em_made m)) 0). by destruct (each_executor _ 0 _).
Qed.

Lemma executor_ref_Some (d : Made Task X) name r :
  executor_ref (node := node) d name = Some r →
  ∃ i e, executor_proxy_map d !! name = Some i ∧ executor_vec d !! i = Some e ∧
    r = mkExecutorRef (eb_Name (node := node) e) (eb_ThreadSafe (node := node) e).
Proof.
  unfold executor_ref, em_GetExecutor. destruct (executor_proxy_map d !! name) as [i|] eqn:Hi; cbn; [|done].
  destruct (executor_vec d !! i) as [e|] eqn:He; cbn; [|done]. intros [= <-]. eauto.
Qed.

Lemma builds_name gens used (os : list (ExecutorOptions node)) (es : list (Executor Task X)) i o e :
  builds gens used os es → os !! i = Some o → es !! i = Some e → eb_Name (node := node) e = eo_name o.
Proof.
  intros Hb Ho He. destruct (builds_lookup _ _ _ _ _ _ Hb Ho) as (? & ? & e' & He' & _ & _ & _ & Hi).
  rewrite He in He'. injection He' as <-. by eapply ex_Initialize_name.
Qed.

(** A time wheel is bound to an executor configured before it.  When an
    entry of type "time_wheel" gives an executor, this is a time wheel with
    the entry's name; it is bound to nothing, or to the executor of an earlier
    entry, the one with the name it asks for, whose thread safety it takes
    over.  So a configuration that names the bound executor later, or not at
    all, does not initialize. *)
Theorem time_wheel_bound_earlier gens used (os : list (ExecutorOptions node))
    (es : list (Executor Task X)) i o :
  builds gens used os es → os !! i = Some o →
  eo_type o = "time_wheel" → gens !! "time_wheel" = Some (new_time_wheel (node := node)) →
  ∃ w, es !! i = Some (Wheel w) ∧ tw_name w = eo_name o ∧
    let b := bind_executor (tw_options w) in
    (b = "" ∧ tw_bind_executor_ref w = None ∧ tw_thread_safe w = true ∨
     b ≠ "" ∧ ∃ j oj ej, j < i ∧ os !! j = Some oj ∧ es !! j = Some ej ∧ eo_name oj = b ∧
       tw_bind_executor_ref w = Some (mkExecutorRef b (eb_ThreadSafe (node := node) ej)) ∧
       tw_thread_safe w = eb_ThreadSafe (node := node) ej).
Proof.
  intros Hb Ho Hty Hg.
  destruct (builds_lookup _ _ _ _ _ _ Hb Ho) as (gen & e & e' & He' & Hgen & Hmk & Hb1 & Hi).
  rewrite Hty, Hg in Hgen. injection Hgen as <-. cbn in Hmk. injection Hmk as <-.
  unfold eb_Initialize in Hi; cbn in Hi. apply under_ok in Hi as (w & Hw & ->).
  destruct (tw_Initialize_bound _ _ _ _ Hw) as [Hname Hcase]. exists w. split; [done|]. split; [done|].
  destruct Hcase as [?|(Hne & f & r & [= <-] & Hr & Hbind & Hts)]; [by left|right].
  split; [done|]. apply executor_ref_Some in Hr as (j & ej & Hj & Hej & ->). cbn in Hj, Hej, Hts.
  apply proxies_of_Some in Hj as (oj & Hoj & Hnj); [|by eapply builds_names].
  exists j, oj, ej. pose proof (builds_name _ _ _ _ _ _ _ Hb1 Hoj Hej) as Hnm. rewrite Hnj in Hnm.
  apply lookup_take_Some in Hoj as [Hoj Hlt]. apply lookup_take_Some in Hej as [Hej _].
  by rewrite <-Hnm at 2.
Qed.
End TimeWheels.

(** * The theorems at concrete inputs *)

Module ExecutorDemo.

(** An executor of another kind: a type and a name. *)
Record other := mkOther { o_type : string; o_name : string }.

#[global] Instance other_base : ExecutorBase tree other := {
  eb_Initialize name _ := λ x, (Ok tt, mkOther (o_type x) name);
  eb_Start _ := mret tt;
  eb_Shutdown := mret tt;
  eb_Report _ := [];
  eb_Type := o_type;
  eb_Name := o_name;
  eb_ThreadSafe _ := true;
  eb_SupportTimerSchedule _ := true
}.

#[global] Instance other_laws : ExecutorLaws tree other.
Proof. split; [done| |done]. intros name o e e' [= <-]. done. Qed.

Definition new_other (ty : string) : other := mkOther ty "".

Definition entry (name ty : string) (more : list (string * tree)) : tree :=
  TMap (("name", TStr name) :: ("type", TStr ty) :: more).

Definition pool : tree := entry "pool" "simple_thread" [].
Definition timer : tree := entry "timer" "time_wheel" [("options", TMap [("bind_executor", TStr "pool")])].
Definition config : tree := TMap [("executors", TSeq [pool; timer; entry "net" "asio_thread" []])].

Definition config_options : list (ExecutorOptions tree) :=
  [mkExecutorOptions "pool" "simple_thread" TNull;
   mkExecutorOptions "timer" "time_wheel" (TMap [("bind_executor", TStr "pool")]);
   mkExecutorOptions "net" "asio_thread" TNull].

Example demo_read : read_options executor_decode [] (Some config) = Ok (Some config_options).
Proof. vm_compute. reflexivity. Qed.

Definition demo_manager : ExecutorManager nat other tree := (SetUsedExecutorName "aimrt_main" ExecutorManager_new).2.

Definition demo_init (n : tree) : res unit * ExecutorManager nat other tree :=
  em_Initialize (new_other "asio_thread") (λ _, new_other "asio_strand") (new_other "tbb_thread") (Some n) demo_manager.

(** Initialization in the order of [config]; with the time wheel before what
    it is bound to; with the name of a thread of the core. *)
Example demo_ok : (demo_init config).1 = Ok tt.
Proof. vm_compute. reflexivity. Qed.
Example demo_late :
  (demo_init (TMap [("executors", TSeq [timer; pool])])).1 = Throw (AimRTException "Can not get executor {}.").
Proof. vm_compute. reflexivity. Qed.
Example demo_taken :
  (demo_init (TMap [("executors", TSeq [entry "aimrt_main" "simple_thread" []])])).1 =
    Throw (AimRTException "Duplicate executor name '{}'.").
Proof. vm_compute. reflexivity. Qed.

Definition demo_gens : gmap string (@ExecutorGenFunc nat other) :=
  {["simple_thread" := λ _, Ok (Some (SimpleThread QueueExecutor_new))]} ∪
  {["time_wheel" := new_time_wheel (node := tree)]}.

Definition pool_options : ExecutorOptions tree := mkExecutorOptions "pool" "simple_thread" TNull.
Definition timer_options : ExecutorOptions tree :=
  mkExecutorOptions "timer" "time_wheel" (TMap [("bind_executor", TStr "pool")]).

Definition demo_pool : Executor nat other :=
  (eb_Initialize "pool" (Some TNull) (SimpleThread QueueExecutor_new)).2.
Definition demo_wheel : @TimeWheelExecutor nat :=
  (TimeWheel.Initialize "timer" (Some (TMap [("bind_executor", TStr "pool")]))
    (RegisterGetExecutorFunc (executor_ref (node := tree) (made_of [pool_options] [demo_pool]))
       TimeWheelExecutor_new).2).2.

Lemma demo_builds : builds demo_gens ∅ [pool_options; timer_options] [demo_pool; Wheel demo_wheel].
Proof.
  apply (builds_snoc demo_gens ∅ [pool_options] [demo_pool] timer_options (new_time_wheel (node := tree))
    (Wheel (RegisterGetExecutorFunc (executor_ref (node := tree) (made_of [pool_options] [demo_pool]))
       TimeWheelExecutor_new).2)).
  - apply (builds_snoc demo_gens ∅ [] [] pool_options (λ _, Ok (Some (SimpleThread QueueExecutor_new)))
      (SimpleThread QueueExecutor_new)); [constructor|bdec..|reflexivity|reflexivity|reflexivity].
  - bdec.
  - bdec.
  - reflexivity.
  - reflexivity.
  - vm_compute. reflexivity.
Qed.
End ExecutorDemo.


Lemma time_wheel_bound_earlier_witness :
  tw_bind_executor_ref ExecutorDemo.demo_wheel = Some (mkExecutorRef "pool" true).
Proof.
  destruct (time_wheel_bound_earlier _ _ _ _ 1 ExecutorDemo.timer_options ExecutorDemo.demo_builds
    eq_refl eq_refl eq_refl) as (w & Hw & _ & Hcase).
  injection Hw as <-. destruct Hcase as [(He & _)|(_ & j & oj & ej & Hj & Hoj & Hej & _ & Hb & _)].
  - discriminate He.
  - destruct j as [|[|j]]; [|lia|lia]. injection Hej as <-. exact Hb.
Defined.
