(* ===== verification/TbbExecutor.v ===== *)
(** * The executor on tbb: [src/runtime/core/executor/tbb_thread_executor.*]

    Several threads take tasks from one queue.  Any thread calls [Execute],
    which tests the state, reserves a place in a counter, compares the counter
    with a threshold and pushes the task.  A thread of the executor takes tasks
    without waiting until the queue is empty, then tests for shutdown, then
    takes one task waiting for it, and starts again; [Shutdown] sets the state
    and aborts those that wait until no thread is left.  [tbb_step] interleaves
    the atomic actions of all of them.

    The queue [tbb::concurrent_bounded_queue] is a parameter with its documented
    behaviour ([BoundedQueue]): it is first in, first out.

    Theorems: an invariant of all interleavings; a single thread runs the tasks
    one after another; shutdown ends all threads, whatever happens meanwhile;
    the executor as an [ExecutorBase].  Where the counter and the shutdown fail
    is shown at the end. *)

From S2P Require Import Prelude Yaml QueueExecutor ExecutorManager.
Local Open Scope Z_scope.

(** ** Options *)

(* @src src/src/runtime/core/executor/tbb_thread_executor.h:16-22 TBBThreadExecutor::Options *)
Record TbbOptions := mkTbbOptions {
  to_thread_num : Z;
  to_thread_sched_policy : string;
  to_thread_bind_cpu : list Z;
  to_queue_threshold : Z;
  to_threshold_alarm_interval_ms : Z
}.

Definition tbb_default : TbbOptions := mkTbbOptions 1 "" [] 10000 1000.

(* @src src/src/runtime/core/executor/tbb_thread_executor.cc:24-39 convert<TBBThreadExecutor::Options>::decode *)
Definition tbb_decode `{YamlOps node} (n : node) (rhs : TbbOptions) : res (option TbbOptions) :=
  if negb (IsMap n) then Ok None else
  num ← set_if n "thread_num" as_uint32 (to_thread_num rhs);
  pol ← set_if n "thread_sched_policy" as_string (to_thread_sched_policy rhs);
  cpu ← set_if n "thread_bind_cpu" as_uint32s (to_thread_bind_cpu rhs);
  thr ← set_if n "queue_threshold" as_uint32 (to_queue_threshold rhs);
  ms ← set_if n "threshold_alarm_interval_ms" as_int32 (to_threshold_alarm_interval_ms rhs);
  Ok (Some (mkTbbOptions num pol cpu thr ms)).

(** ** A list with one element changed *)

Lemma concat_insert {A B} (f : A → list B) (l : list A) i x y :
  l !! i = Some x → f x ++ concat (map f (<[i:=y]> l)) ≡ₚ f y ++ concat (map f l).
Proof.
  revert i. induction l as [|a l IH]; intros [|i] Hi; cbn in *; [done|done| |].
  - injection Hi as ->. apply Permutation_app_swap_app.
  - rewrite Permutation_app_swap_app, (IH _ Hi). apply Permutation_app_swap_app.
Qed.

Lemma sum_insert {A} (f : A → nat) (l : list A) i x y :
  l !! i = Some x → (f x + sum_list_with f (<[i:=y]> l) = f y + sum_list_with f l)%nat.
Proof.
  revert i. induction l as [|a l IH]; intros [|i] Hi; [done|done| |]; cbn in Hi.
  - injection Hi as ->. cbn. lia.
  - apply IH in Hi. change (<[S i:=y]> (a :: l)) with (a :: <[i:=y]> l). cbn [sum_list_with]. lia.
Qed.

(** ** The queue *)

Class BoundedQueue (Task Q : Type) := {
  q_empty : Q;
  q_push : Task → Q → Q;
  q_try_pop : Q → option (Task * Q);
  q_elems : Q → list Task;
  q_elems_empty : q_elems q_empty = [];
  q_elems_push t q : q_elems (q_push t q) = q_elems q ++ [t];
  q_elems_pop q : match q_try_pop q with
                  | None => q_elems q = []
                  | Some (t, q') => q_elems q = t :: q_elems q'
                  end
}.

#[export] Instance list_queue Task : BoundedQueue Task (list Task) := {
  q_empty := [];
  q_push t q := q ++ [t];
  q_try_pop q := match q with [] => None | t :: q' => Some (t, q') end;
  q_elems q := q;
  q_elems_empty := eq_refl;
  q_elems_push t q := eq_refl;
  q_elems_pop q := match q with [] => eq_refl | t :: q' => eq_refl end
}.

(** ** The executor *)

Section TbbExecutor.
Context {Task Q : Type} `{BoundedQueue Task Q}.

(** Where a thread of the executor is: not begun; at [try_pop]; running a task
    it got there, or, [blocking], from [pop]; at the test for shutdown; at
    [pop]; ended. *)
Inductive worker := WStart | WPoll | WRun (t : Task) (blocking : bool) | WCheck | WPop | WEnd.

(* @src src/src/runtime/core/executor/tbb_thread_executor.h:60-73 TBBThreadExecutor *)
Record TBBThreadExecutor := mkTbb {
  te_name : string;
  te_options : TbbOptions;
  te_state : State;
  te_queue_threshold : Z;
  te_task_num : Z;             (* queue_task_num_ *)
  te_qu : Q;
  te_work_num : Z;             (* work_thread_num_ *)
  te_ids : list (option Z);    (* thread_id_vec_ *)
  te_workers : list worker;    (* threads_ *)
  te_calls : list (@call Task);  (* the calls of Execute in progress *)
  te_pushed : list Task;       (* ghost: tasks pushed so far *)
  te_started : list Task;      (* ghost: those a thread has taken *)
  te_finished : list Task;     (* ghost: those that have returned or thrown *)
  te_lost : list Task          (* ghost: those whose place was not given back *)
}.

Implicit Types s : TBBThreadExecutor.

Definition TBBThreadExecutor_new : TBBThreadExecutor :=
  mkTbb "" tbb_default kPreInit 0 0 q_empty 0 [] [] [] [] [] [] [].

Definition te_set_name x s := mkTbb x (te_options s) (te_state s) (te_queue_threshold s) (te_task_num s)
  (te_qu s) (te_work_num s) (te_ids s) (te_workers s) (te_calls s) (te_pushed s) (te_started s) (te_finished
  s) (te_lost s).
Definition te_set_options x s := mkTbb (te_name s) x (te_state s) (te_queue_threshold s) (te_task_num s)
  (te_qu s) (te_work_num s) (te_ids s) (te_workers s) (te_calls s) (te_pushed s) (te_started s) (te_finished
  s) (te_lost s).
Definition te_set_state x s := mkTbb (te_name s) (te_options s) x (te_queue_threshold s) (te_task_num s)
  (te_qu s) (te_work_num s) (te_ids s) (te_workers s) (te_calls s) (te_pushed s) (te_started s) (te_finished
  s) (te_lost s).
Definition te_set_queue_threshold x s := mkTbb (te_name s) (te_options s) (te_state s) x (te_task_num s)
  (te_qu s) (te_work_num s) (te_ids s) (te_workers s) (te_calls s) (te_pushed s) (te_started s) (te_finished
  s) (te_lost s).
Definition te_set_task_num x s := mkTbb (te_name s) (te_options s) (te_state s) (te_queue_threshold s) x
  (te_qu s) (te_work_num s) (te_ids s) (te_workers s) (te_calls s) (te_pushed s) (te_started s) (te_finished
  s) (te_lost s).
Definition te_set_qu x s := mkTbb (te_name s) (te_options s) (te_state s) (te_queue_threshold s) (te_task_num
  s) x (te_work_num s) (te_ids s) (te_workers s) (te_calls s) (te_pushed s) (te_started s) (te_finished s)
  (te_lost s).
Definition te_set_work_num x s := mkTbb (te_name s) (te_options s) (te_state s) (te_queue_threshold s)
  (te_task_num s) (te_qu s) x (te_ids s) (te_workers s) (te_calls s) (te_pushed s) (te_started s) (te_finished
  s) (te_lost s).
Definition te_set_ids x s := mkTbb (te_name s) (te_options s) (te_state s) (te_queue_threshold s) (te_task_num
  s) (te_qu s) (te_work_num s) x (te_workers s) (te_calls s) (te_pushed s) (te_started s) (te_finished s)
  (te_lost s).
Definition te_set_workers x s := mkTbb (te_name s) (te_options s) (te_state s) (te_queue_threshold s)
  (te_task_num s) (te_qu s) (te_work_num s) (te_ids s) x (te_calls s) (te_pushed s) (te_started s)
  (te_finished s) (te_lost s).
Definition te_set_calls x s := mkTbb (te_name s) (te_options s) (te_state s) (te_queue_threshold s)
  (te_task_num s) (te_qu s) (te_work_num s) (te_ids s) (te_workers s) x (te_pushed s) (te_started s)
  (te_finished s) (te_lost s).
Definition te_set_pushed x s := mkTbb (te_name s) (te_options s) (te_state s) (te_queue_threshold s)
  (te_task_num s) (te_qu s) (te_work_num s) (te_ids s) (te_workers s) (te_calls s) x (te_started s)
  (te_finished s) (te_lost s).
Definition te_set_started x s := mkTbb (te_name s) (te_options s) (te_state s) (te_queue_threshold s)
  (te_task_num s) (te_qu s) (te_work_num s) (te_ids s) (te_workers s) (te_calls s) (te_pushed s) x
  (te_finished s) (te_lost s).
Definition te_set_finished x s := mkTbb (te_name s) (te_options s) (te_state s) (te_queue_threshold s)
  (te_task_num s) (te_qu s) (te_work_num s) (te_ids s) (te_workers s) (te_calls s) (te_pushed s) (te_started
  s) x (te_lost s).
Definition te_set_lost x s := mkTbb (te_name s) (te_options s) (te_state s) (te_queue_threshold s)
  (te_task_num s) (te_qu s) (te_work_num s) (te_ids s) (te_workers s) (te_calls s) (te_pushed s) (te_started
  s) (te_finished s) x.

(** The threads are created at the end; that some of them begin before is the
    same as that they begin at once. *)
(* @src src/src/runtime/core/executor/tbb_thread_executor.cc:45-114 TBBThreadExecutor::Initialize *)
Definition Tbb_Initialize `{YamlOps node} (name : string) (options_node : option node)
    : M TBBThreadExecutor unit :=
  s ← get;
  modify (te_set_state kInit);;
  check_throw (state_eqb (te_state s) kPreInit) "TBBThreadExecutor can only be initialized once.";;
  modify (te_set_name name);;
  o ← lift (read_options tbb_decode tbb_default options_node);
  let o := default tbb_default o in
  modify (λ s, te_set_queue_threshold (to_queue_threshold o) (te_set_options o s));;
  check_throw (0 <? to_thread_num o) "Invalide tbb thread executor options, thread num is zero.";;
  let n := Z.to_nat (to_thread_num o) in
  modify (λ s, te_set_workers (replicate n WStart) (te_set_ids (replicate n None) s)).

(* @src src/src/runtime/core/executor/tbb_thread_executor.cc:116-120 TBBThreadExecutor::Start *)
Definition Tbb_Start : M TBBThreadExecutor unit :=
  s ← get;
  modify (te_set_state kStart);;
  check_throw (state_eqb (te_state s) kInit) "Method can only be called when state is 'Init'.".

(** The atomic exchange; the aborts are [abort_step], and the threads are
    joined when they have ended. *)
(* @src src/src/runtime/core/executor/tbb_thread_executor.cc:122-124 TBBThreadExecutor::Shutdown (state) *)
Definition Tbb_Shutdown s : TBBThreadExecutor := te_set_state kShutdown s.

(** Called on the thread [this]. *)
(* @src src/src/runtime/core/executor/tbb_thread_executor.cc:137-145 TBBThreadExecutor::IsInCurrentExecutor *)
Definition Tbb_IsInCurrentExecutor (this : Z) s : bool := bool_decide (Some this ∈ te_ids s).

(* @src src/src/runtime/core/executor/tbb_thread_executor.h:43-43 TBBThreadExecutor::ThreadSafe *)
Definition Tbb_ThreadSafe s : bool := to_thread_num (te_options s) =? 1.

(* @src src/src/runtime/core/executor/tbb_thread_executor.h:52-52 TBBThreadExecutor::CurrentTaskNum *)
Definition Tbb_CurrentTaskNum s : Z := te_task_num s.

(** Not supported: the epoch of the clock. *)
(* @src src/src/runtime/core/executor/tbb_thread_executor.cc:178-181 TBBThreadExecutor::Now *)
Definition Tbb_Now : Z := 0.

(* @src src/src/runtime/core/executor/tbb_thread_executor.cc:183-186 TBBThreadExecutor::ExecuteAt *)
Definition Tbb_ExecuteAt (tp : Z) (t : Task) s : TBBThreadExecutor := s.

(* @src src/src/runtime/core/executor/tbb_thread_executor.cc:148-153 TBBThreadExecutor::Execute (state) *)
Definition Tbb_may_execute s : bool := state_eqb (te_state s) kInit || state_eqb (te_state s) kStart.

(* @src src/src/runtime/core/executor/tbb_thread_executor.cc:155-155 TBBThreadExecutor::Execute (reserve) *)
Definition Tbb_reserve s : TBBThreadExecutor * Z :=
  let cur := wrap32 (te_task_num s + 1) in (te_set_task_num cur s, cur).

(* @src src/src/runtime/core/executor/tbb_thread_executor.cc:157-163 TBBThreadExecutor::Execute (threshold) *)
Definition Tbb_over s (cur : Z) : bool :=
  over (te_queue_threshold s) (to_threshold_alarm_interval_ms (te_options s)) cur.

(** The queue may throw: then the task is dropped. *)
(* @src src/src/runtime/core/executor/tbb_thread_executor.cc:157-175 TBBThreadExecutor::Execute (push) *)
Definition Tbb_push (t : Task) (cur : Z) (threw : bool) s : TBBThreadExecutor :=
  if Tbb_over s cur then te_set_task_num (wrap32 (te_task_num s - 1)) s
  else if threw then te_set_lost (te_lost s ++ [t]) s
  else te_set_pushed (te_pushed s ++ [t]) (te_set_qu (q_push t (te_qu s)) s).

(** A whole call with nothing interleaved. *)
(* @src src/src/runtime/core/executor/tbb_thread_executor.cc:147-176 TBBThreadExecutor::Execute *)
Definition Tbb_Execute (t : Task) (threw : bool) s : TBBThreadExecutor :=
  if negb (Tbb_may_execute s) then s
  else let '(s, cur) := Tbb_reserve s in Tbb_push t cur threw s.

Definition set_worker (i : nat) (w : worker) s := te_set_workers (<[i:=w]> (te_workers s)) s.

(** Thread [i], whose id is [id], begins and ends. *)
(* @src src/src/runtime/core/executor/tbb_thread_executor.cc:65-67 TBBThreadExecutor::Initialize (a thread begins) *)
Definition begin_thread (i : nat) (id : Z) s : TBBThreadExecutor :=
  set_worker i WPoll (te_set_ids (<[i:=Some id]> (te_ids s)) (te_set_work_num (wrap32 (te_work_num s + 1)) s)).

(* @src src/src/runtime/core/executor/tbb_thread_executor.cc:107-109 TBBThreadExecutor::Initialize (a thread ends) *)
Definition end_thread (i : nat) s : TBBThreadExecutor :=
  set_worker i WEnd (te_set_ids (<[i:=None]> (te_ids s)) (te_set_work_num (wrap32 (te_work_num s - 1)) s)).

Definition take_task (i : nat) (t : Task) (q : Q) (blocking : bool) s : TBBThreadExecutor :=
  set_worker i (WRun t blocking) (te_set_started (te_started s ++ [t]) (te_set_qu q s)).

(** A task has returned, or thrown: then its place is not given back, and the
    thread leaves the inner loop. *)
(* @src src/src/runtime/core/executor/tbb_thread_executor.cc:83-105 TBBThreadExecutor::Initialize (a task has run) *)
Definition finish_task (i : nat) (t : Task) (blocking threw : bool) s : TBBThreadExecutor :=
  let s := te_set_finished (te_finished s ++ [t]) s in
  let s := if threw then te_set_lost (te_lost s ++ [t]) s
           else te_set_task_num (wrap32 (te_task_num s - 1)) s in
  set_worker i (if threw && negb blocking then WCheck else WPoll) s.

(** The actions of thread [i]. *)
(* @src src/src/runtime/core/executor/tbb_thread_executor.cc:64-110 TBBThreadExecutor::Initialize (thread) *)
Inductive worker_step (i : nat) s : TBBThreadExecutor → Prop :=
| worker_begin id : te_workers s !! i = Some WStart → worker_step i s (begin_thread i id s)
| worker_poll t q :
    te_workers s !! i = Some WPoll → q_try_pop (te_qu s) = Some (t, q) →
    worker_step i s (take_task i t q false s)
| worker_poll_none :
    te_workers s !! i = Some WPoll → q_try_pop (te_qu s) = None → worker_step i s (set_worker i WCheck s)
| worker_run t blocking threw :
    te_workers s !! i = Some (WRun t blocking) → worker_step i s (finish_task i t blocking threw s)
| worker_check :
    te_workers s !! i = Some WCheck → te_state s ≠ kShutdown → worker_step i s (set_worker i WPop s)
| worker_end :
    te_workers s !! i = Some WCheck → te_state s = kShutdown → worker_step i s (end_thread i s)
| worker_pop t q :
    te_workers s !! i = Some WPop → q_try_pop (te_qu s) = Some (t, q) →
    worker_step i s (take_task i t q true s).

(** A round of [Shutdown] aborts a thread that waits. *)
(* @src src/src/runtime/core/executor/tbb_thread_executor.cc:126-129 TBBThreadExecutor::Shutdown (abort) *)
Inductive abort_step s : TBBThreadExecutor → Prop :=
| abort_waiting i :
    te_state s = kShutdown → te_work_num s ≠ 0 → te_workers s !! i = Some WPop → q_try_pop (te_qu s) = None →
    abort_step s (set_worker i WPoll s).

(** What the executor and the calls in progress do of themselves. *)
Inductive own_step s : TBBThreadExecutor → Prop :=
| own_worker i s' : worker_step i s s' → own_step s s'
| own_abort s' : abort_step s s' → own_step s s'
| own_reserve c1 t c2 :
    te_calls s = c1 ++ Entered t :: c2 →
    own_step s (let '(s, cur) := Tbb_reserve s in te_set_calls (c1 ++ Reserved t cur :: c2) s)
| own_push c1 t cur c2 threw :
    te_calls s = c1 ++ Reserved t cur :: c2 → own_step s (Tbb_push t cur threw (te_set_calls (c1 ++ c2) s)).

(** Any number of threads may be inside [Execute], fewer than [max_calls]. *)
Context (max_calls : Z).

Inductive tbb_step s : TBBThreadExecutor → Prop :=
| tbb_own s' : own_step s s' → tbb_step s s'
| tbb_enter t :
    Tbb_may_execute s = true → Z.of_nat (length (te_calls s)) < max_calls →
    tbb_step s (te_set_calls (Entered t :: te_calls s) s)
| tbb_start s' : Tbb_Start s = (Ok tt, s') → tbb_step s s'
| tbb_shutdown : tbb_step s (Tbb_Shutdown s).

(** ** The invariant *)

Definition running_of (w : worker) : list Task := match w with WRun t _ => [t] | _ => [] end.
Definition tbb_running s : list Task := concat (map running_of (te_workers s)).

(** Begun and not ended. *)
Definition alive (w : worker) : bool := match w with WStart | WEnd => false | _ => true end.
Definition alive_num s : nat := sum_list_with (λ w, if alive w then 1 else 0)%nat (te_workers s).

(** Places of the counter taken for good or until the task has run. *)
Definition tbb_admitted (thr iv : Z) s : Z :=
  count (call_admitted thr iv) (te_calls s) + Z.of_nat (length (q_elems (te_qu s)))
  + Z.of_nat (length (tbb_running s)) + Z.of_nat (length (te_lost s)).

(** A thread that is alive has its id in the vector. *)
Definition ids_ok (w : worker) (id : option Z) : Prop := alive w = true ↔ is_Some id.

Record tbb_inv (o : TbbOptions) s : Prop := {
  tb_options : te_options s = o;
  tb_thr : te_queue_threshold s = to_queue_threshold o;
  tb_fifo : te_pushed s = te_started s ++ q_elems (te_qu s);
  tb_started : te_started s ≡ₚ te_finished s ++ tbb_running s;
  tb_serial : length (te_workers s) = 1%nat → te_started s = te_finished s ++ tbb_running s;
  tb_workers : length (te_workers s) = Z.to_nat (to_thread_num o);
  tb_ids : Forall2 ids_ok (te_workers s) (te_ids s);
  tb_work : te_work_num s = Z.of_nat (alive_num s);
  tb_calls : Z.of_nat (length (te_calls s)) ≤ max_calls;
  tb_num : let thr := to_queue_threshold o in let iv := to_threshold_alarm_interval_ms o in
    te_task_num s = wrap32 (tbb_admitted thr iv s + count (call_over thr iv) (te_calls s));
  tb_bound : let thr := to_queue_threshold o in let iv := to_threshold_alarm_interval_ms o in
    0 ≤ iv → tbb_admitted thr iv s ≤ thr
}.

(** What [Initialize] makes. *)
Definition tbb_made (name : string) (o : TbbOptions) : TBBThreadExecutor :=
  let n := Z.to_nat (to_thread_num o) in
  mkTbb name o kInit (to_queue_threshold o) 0 q_empty 0 (replicate n None) (replicate n WStart) [] [] [] [] [].

Definition tbb_reachable (name : string) (o : TbbOptions) s : Prop := rtc tbb_step (tbb_made name o) s.

Lemma Tbb_Initialize_makes `{YamlOps node} name (options_node : option node) o :
  read_options tbb_decode tbb_default options_node = Ok o →
  Tbb_Initialize name options_node TBBThreadExecutor_new =
    (if 0 <? to_thread_num (default tbb_default o) then (Ok tt, tbb_made name (default tbb_default o))
     else (Throw (AimRTException "Invalide tbb thread executor options, thread num is zero."),
           te_set_workers [] (te_set_ids [] (tbb_made name (default tbb_default o))))).
Proof.
  intros Ho. unfold Tbb_Initialize. unfold_monad. cbn. rewrite Ho. cbn. by destruct (0 <? _).
Qed.

Section Invariant.
Context (o : TbbOptions).
Context (Hnum : 0 < to_thread_num o < 2 ^ 32) (Hthr : 0 ≤ to_queue_threshold o) (Hmax : 0 ≤ max_calls)
  (Hfit : to_queue_threshold o + max_calls < 2 ^ 32).

Lemma made_inv name : tbb_inv o (tbb_made name o).
Proof using Hthr Hmax.
  set (n := Z.to_nat (to_thread_num o)).
  assert (tbb_running (tbb_made name o) = []) as Hr.
  { unfold tbb_running. cbn. fold n. clear. by induction n. }
  assert (alive_num (tbb_made name o) = 0%nat) as Ha.
  { unfold alive_num. cbn. fold n. clear. by induction n. }
  split; unfold tbb_admitted; rewrite ?Hr, ?Ha; cbn -[wrap tbb_running]; rewrite ?q_elems_empty, ?length_replicate; try done.
  apply Forall2_replicate. split; [done|]. by intros [].
Qed.

(** ** Every step keeps it *)

Lemma running_insert i x y s : te_workers s !! i = Some x →
  running_of x ++ tbb_running (set_worker i y s) ≡ₚ running_of y ++ tbb_running s.
Proof. apply concat_insert. Qed.

Lemma alive_insert i x y s : te_workers s !! i = Some x →
  ((if alive x then 1 else 0) + alive_num (set_worker i y s) = (if alive y then 1 else 0) + alive_num s)%nat.
Proof. apply (sum_insert (λ w, if alive w then 1 else 0)%nat). Qed.

Lemma serial_insert i x y s : te_workers s !! i = Some x → length (te_workers s) = 1%nat →
  tbb_running s = running_of x ∧ tbb_running (set_worker i y s) = running_of y.
Proof.
  intros Hi Hl. unfold tbb_running. cbn. destruct (te_workers s) as [|w [|]]; [done| |done].
  destruct i; [|done]. injection Hi as ->. cbn. by rewrite !app_nil_r.
Qed.

Lemma alive_num_le s : (alive_num s ≤ length (te_workers s))%nat.
Proof. unfold alive_num. induction (te_workers s) as [|w l IH]; cbn; [lia|]. destruct (alive w); lia. Qed.

(** A thread goes on with no task before nor after. *)
Lemma inv_worker i x y id num s :
  te_workers s !! i = Some x → running_of x = running_of y → ids_ok y id →
  num + Z.of_nat (if alive x then 1 else 0) = te_work_num s + Z.of_nat (if alive y then 1 else 0) →
  tbb_inv o s → tbb_inv o (set_worker i y (te_set_ids (<[i:=id]> (te_ids s)) (te_set_work_num num s))).
Proof.
  intros Hi Hrun Hid Hnum' [Ho Ht Hf Hst Hse Hl Hids Hw Hc Hn Hb].
  pose proof (alive_insert _ _ y _ Hi) as Ha.
  assert (tbb_running (set_worker i y s) = tbb_running s) as Hr.
  { unfold tbb_running. cbn. rewrite list_fmap_insert, list_insert_id; [done|]. rewrite list_lookup_fmap, Hi. cbn. by rewrite Hrun. }
  split; unfold tbb_admitted in *; cbn -[wrap tbb_running alive_num]; rewrite ?length_insert; try done.
  - by change (te_started s ≡ₚ te_finished s ++ tbb_running (set_worker i y s)); rewrite Hr.
  - intros H1. change (te_started s = te_finished s ++ tbb_running (set_worker i y s)). rewrite Hr. auto.
  - by apply Forall2_insert.
  - change (num = Z.of_nat (alive_num (set_worker i y s))). lia.
  - rewrite <-Hr in Hn. exact Hn.
  - rewrite <-Hr in Hb. exact Hb.
Qed.

Lemma inv_move i x y s :
  te_workers s !! i = Some x → running_of x = running_of y → alive x = alive y →
  tbb_inv o s → tbb_inv o (set_worker i y s).
Proof.
  intros Hi Hrun Ha Hinv. destruct (Forall2_lookup_l _ _ _ _ _ (tb_ids _ _ Hinv) Hi) as (id & Hid & Hok).
  pose proof (inv_worker i x y id (te_work_num s) s Hi Hrun) as Hm. rewrite list_insert_id in Hm by done.
  replace (te_set_ids (te_ids s) (te_set_work_num (te_work_num s) s)) with s in Hm by (by destruct s).
  apply Hm; [by unfold ids_ok; rewrite <-Ha|by rewrite Ha|done].
Qed.

(** A thread takes a task. *)
Lemma inv_take i x t q b s :
  te_workers s !! i = Some x → running_of x = [] → alive x = true → q_try_pop (te_qu s) = Some (t, q) →
  tbb_inv o s → tbb_inv o (take_task i t q b s).
Proof.
  intros Hi Hrun Hal Hq [Ho Ht Hf Hst Hse Hl Hids Hw Hc Hn Hb].
  pose proof (q_elems_pop (te_qu s)) as He. rewrite Hq in He.
  pose proof (alive_insert _ _ (WRun t b) _ Hi) as Ha. rewrite Hal in Ha. cbn [alive] in Ha.
  pose proof (running_insert _ _ (WRun t b) _ Hi) as Hr. rewrite Hrun in Hr. cbn [running_of app] in Hr.
  pose proof (Permutation_length Hr) as Hrl. cbn [length] in Hrl.
  change (tbb_running (set_worker i (WRun t b) s)) with (tbb_running (take_task i t q b s)) in *.
  split; unfold tbb_admitted in *; cbn -[wrap tbb_running alive_num]; rewrite ?length_insert; try done.
  - by rewrite Hf, He, <-app_assoc.
  - rewrite Hr, Hst, <-app_assoc. apply Permutation_app_head, Permutation_app_comm.
  - intros H1. destruct (serial_insert _ _ (WRun t b) _ Hi H1) as [H2 H3].
    change (tbb_running (set_worker i (WRun t b) s)) with (tbb_running (take_task i t q b s)) in *.
    by rewrite H3, (Hse H1), H2, Hrun, app_nil_r.
  - rewrite <-(list_insert_id (te_ids s) i (default None (te_ids s !! i))).
    + apply Forall2_insert; [done|]. destruct (Forall2_lookup_l _ _ _ _ _ Hids Hi) as (id & -> & Hok).
      cbn. unfold ids_ok in *. by rewrite Hal in Hok.
    + by destruct (Forall2_lookup_l _ _ _ _ _ Hids Hi) as (id & -> & _).
  - change (te_work_num s = Z.of_nat (alive_num (set_worker i (WRun t b) s))). lia.
  - rewrite Hn, Hrl. rewrite He. cbn [length]. f_equal. lia.
  - rewrite Hrl. rewrite He in Hb. cbn [length] in Hb. lia.
Qed.

(** A task has run. *)
Lemma inv_finish i t b threw s :
  te_workers s !! i = Some (WRun t b) → tbb_inv o s → tbb_inv o (finish_task i t b threw s).
Proof.
  intros Hi [Ho Ht Hf Hst Hse Hl Hids Hw Hc Hn Hb]. set (y := if threw && negb b then WCheck else WPoll).
  assert (running_of y = [] ∧ alive y = true) as [Hy Hya] by (subst y; by destruct threw, b).
  pose proof (alive_insert _ _ y _ Hi) as Ha. rewrite Hya in Ha. cbn [alive] in Ha.
  pose proof (running_insert _ _ y _ Hi) as Hr. rewrite Hy in Hr. cbn [running_of app] in Hr.
  pose proof (Permutation_length Hr) as Hrl. cbn [length] in Hrl.
  assert (tbb_running (finish_task i t b threw s) = tbb_running (set_worker i y s)) as Hrs by (by destruct threw).
  assert (alive_num (finish_task i t b threw s) = alive_num (set_worker i y s)) as Has by (by destruct threw).
  assert (te_task_num (finish_task i t b threw s) = if threw then te_task_num s else wrap32 (te_task_num s - 1)) as Htn
    by (by destruct threw).
  assert (te_lost (finish_task i t b threw s) = if threw then te_lost s ++ [t] else te_lost s) as Hls by (by destruct threw).
  assert (te_work_num (finish_task i t b threw s) = te_work_num s) as Hwn by (by destruct threw).
  assert (te_calls (finish_task i t b threw s) = te_calls s) as Hcs by (by destruct threw).
  assert (te_qu (finish_task i t b threw s) = te_qu s) as Hqs by (by destruct threw).
  destruct (Forall2_lookup_l _ _ _ _ _ Hids Hi) as (id & Hid & Hok).
  assert (Forall2 ids_ok (<[i:=y]> (te_workers s)) (te_ids s)) as Hids'.
  { rewrite <-(list_insert_id _ _ _ Hid). apply Forall2_insert; [done|]. unfold ids_ok in *. by rewrite Hya. }
  split; unfold tbb_admitted in *; rewrite ?Hrs, ?Has.
  - by destruct threw.
  - by destruct threw.
  - by destruct threw.
  - replace (te_finished (finish_task i t b threw s)) with (te_finished s ++ [t]) by (by destruct threw).
    replace (te_started (finish_task i t b threw s)) with (te_started s) by (by destruct threw).
    by rewrite <-app_assoc, Hst, <-Hr.
  - replace (length (te_workers (finish_task i t b threw s))) with (length (te_workers s))
      by (destruct threw; cbn; by rewrite length_insert).
    intros H1. destruct (serial_insert _ _ y _ Hi H1) as [H2 H3]. rewrite H3, Hy, app_nil_r.
    destruct threw; cbn; by rewrite (Hse H1), H2.
  - destruct threw; cbn; by rewrite length_insert.
  - by destruct threw.
  - rewrite Hwn. lia.
  - by rewrite Hcs.
  - rewrite Htn, Hls, Hcs, Hqs, Hn. destruct threw; rewrite ?length_app, ?wrap32_dec; cbn [length]; f_equal; lia.
  - intros Hiv. specialize (Hb Hiv). rewrite Hls, Hcs, Hqs. destruct threw; rewrite ?length_app; cbn [length]; lia.
Qed.

Lemma worker_step_inv i s s' : worker_step i s s' → tbb_inv o s → tbb_inv o s'.
Proof using Hnum.
  intros Hs Hinv. pose proof (alive_num_le s) as Hle. pose proof (tb_work _ _ Hinv) as Hw.
  rewrite (tb_workers _ _ Hinv) in Hle.
  destruct Hs as [id Hi|t q Hi Hq|Hi Hq|t b threw Hi|Hi _|Hi _|t q Hi Hq].
  - pose proof (alive_insert _ _ WPoll _ Hi) as Ha. cbn [alive] in Ha.
    pose proof (alive_num_le (set_worker i WPoll s)) as Hle'. cbn [set_worker te_workers te_set_workers] in Hle'.
    rewrite length_insert, (tb_workers _ _ Hinv) in Hle'.
    apply (inv_worker _ WStart); [done|done|by cbn| |done]. rewrite wrap_small; [cbn; lia|]. unfold in_width. lia.
  - by apply (inv_take _ WPoll).
  - by apply (inv_move _ WPoll).
  - by apply inv_finish.
  - by apply (inv_move _ WCheck).
  - pose proof (alive_insert _ _ WEnd _ Hi) as Ha. cbn [alive] in Ha.
    apply (inv_worker _ WCheck); [done|done| | |done].
    + split; [done|]. by intros [].
    + rewrite wrap_small; [cbn; lia|]. unfold in_width. lia.
  - by apply (inv_take _ WPop).
Qed.

(** A call reserves a place: the value the increment gives decides. *)
Lemma inv_reserve c1 t c2 s :
  te_calls s = c1 ++ Entered t :: c2 → tbb_inv o s →
  tbb_inv o (let '(s, cur) := Tbb_reserve s in te_set_calls (c1 ++ Reserved t cur :: c2) s).
Proof using Hnum Hthr Hmax Hfit.
  intros Hcs [Ho Ht Hf Hst Hse Hl Hids Hw Hc Hn Hb]. cbn -[wrap].
  unfold tbb_admitted, tbb_running in Hn, Hb.
  set (thr := to_queue_threshold o) in *. set (iv := to_threshold_alarm_interval_ms o) in *.
  rewrite Hcs, length_app in Hc. cbn [length] in Hc.
  rewrite Hcs, !count_app, !count_cons in Hn. rewrite Hcs, count_app, count_cons in Hb.
  pose proof (count_le (call_over thr iv) c1). pose proof (count_le (call_over thr iv) c2).
  pose proof (count_le (call_admitted thr iv) c1). pose proof (count_le (call_admitted thr iv) c2).
  cbn [call_admitted call_over] in *. rewrite Hn, wrap32_inc. set (z := _ + 1).
  assert (0 ≤ iv → wrap32 z = z) as Hz.
  { intros Hiv. specialize (Hb Hiv). apply wrap_small. unfold in_width. subst z. lia. }
  split; unfold tbb_admitted, tbb_running; cbn -[wrap alive_num Z.of_nat concat map]; fold thr iv; try done;
    rewrite ?count_app, ?count_cons, ?length_app; cbn [length call_admitted call_over].
  - lia.
  - destruct (over thr iv (wrap32 z)); cbn [negb]; f_equal; subst z; lia.
  - intros Hiv. specialize (Hb Hiv). destruct (over thr iv (wrap32 z)) eqn:Hov; cbn [negb]; [lia|].
    unfold over in Hov. rewrite Hz in Hov by done. subst z. lia.
Qed.

(** The call pushes its task, or gives its place back. *)
Lemma inv_push c1 t cur c2 threw s :
  te_calls s = c1 ++ Reserved t cur :: c2 → tbb_inv o s →
  tbb_inv o (Tbb_push t cur threw (te_set_calls (c1 ++ c2) s)).
Proof.
  intros Hcs [Ho Ht Hf Hst Hse Hl Hids Hw Hc Hn Hb].
  unfold Tbb_push, Tbb_over. cbn [te_queue_threshold te_options te_set_calls]. rewrite Ht, Ho.
  set (thr := to_queue_threshold o) in *. set (iv := to_threshold_alarm_interval_ms o) in *.
  unfold tbb_admitted, tbb_running in Hn, Hb. rewrite Hcs, length_app in Hc. cbn [length] in Hc.
  rewrite Hcs, !count_app, !count_cons in Hn. rewrite Hcs, count_app, count_cons in Hb.
  pose proof (q_elems_push t (te_qu s)) as He. pose proof (f_equal length He) as Hel. rewrite length_app in Hel.
  cbn [call_admitted call_over length] in *.
  destruct (over thr iv cur) eqn:Hov; [|destruct threw]; split; unfold tbb_admitted, tbb_running;
    cbn -[wrap alive_num Z.of_nat concat map]; try done;
    rewrite ?count_app, ?length_app; cbn [length negb] in *; rewrite ?Hel; fold thr iv; try lia;
    rewrite ?Hn, ?wrap32_dec; try (f_equal; lia).
  by rewrite He, Hf, <-app_assoc.
Qed.

Lemma own_step_inv s s' : own_step s s' → tbb_inv o s → tbb_inv o s'.
Proof using Hnum Hthr Hmax Hfit.
  intros [i s2 Hs|s2 [i _ _ Hi _]|c1 t c2 Hcs|c1 t cur c2 threw Hcs] Hinv.
  - by eapply worker_step_inv.
  - by apply (inv_move _ WPop).
  - by apply inv_reserve.
  - by apply inv_push.
Qed.

Lemma Tbb_Start_ok s s' : Tbb_Start s = (Ok tt, s') → te_state s = kInit ∧ s' = te_set_state kStart s.
Proof.
  unfold Tbb_Start. unfold_monad. destruct (state_eqb _ _) eqn:E; [|done]. intros [= <-].
  by apply bool_decide_eq_true in E.
Qed.

Lemma tbb_step_inv s s' : tbb_step s s' → tbb_inv o s → tbb_inv o s'.
Proof using Hnum Hthr Hmax Hfit.
  intros [s2 Hs|t _ Hlen|s2 Hs|] Hinv.
  - by eapply own_step_inv.
  - destruct Hinv. split; unfold tbb_admitted in *; cbn -[Z.of_nat] in *; rewrite ?count_cons; try done. lia.
  - apply Tbb_Start_ok in Hs as [_ ->]. by destruct Hinv.
  - by destruct Hinv.
Qed.

Lemma tbb_reachable_inv name s : tbb_reachable name o s → tbb_inv o s.
Proof using Hnum Hthr Hmax Hfit.
  intros Hs. assert (tbb_inv o (tbb_made name o)) as H0 by apply made_inv. revert H0.
  induction Hs as [|s1 s2 s3 H12 _ IH]; [done|]. intros H1. by eapply IH, tbb_step_inv.
Qed.

(** C22: Every interleaving of callers, threads and life cycle keeps the tbb
    executor consistent: the threads take the tasks in the order in which they
    were pushed, every task that has been taken is running or has finished, and
    none is taken twice; a thread that runs a task is found by
    [IsInCurrentExecutor]; with the threshold enabled the tasks pushed and not
    yet finished, with those that threw, never exceed it, and with no call in
    progress the counter is exactly their number. *)
Theorem tbb_executor_safe name s :
  tbb_reachable name o s →
  te_pushed s = te_started s ++ q_elems (te_qu s) ∧ te_started s ≡ₚ te_finished s ++ tbb_running s ∧
  (∀ i t b, te_workers s !! i = Some (WRun t b) →
     ∃ id, te_ids s !! i = Some (Some id) ∧ Tbb_IsInCurrentExecutor id s = true) ∧
  (0 ≤ to_threshold_alarm_interval_ms o →
   let held := Z.of_nat (length (q_elems (te_qu s)) + length (tbb_running s) + length (te_lost s)) in
   held ≤ to_queue_threshold o ∧ (te_calls s = [] → Tbb_CurrentTaskNum s = held)).
Proof using Hnum Hthr Hmax Hfit.
  intros [Ho Ht Hf Hst Hse Hl Hids Hw Hc Hn Hb]%tbb_reachable_inv. do 2 (split; [done|]). split.
  { intros i t b Hi. destruct (Forall2_lookup_l _ _ _ _ _ Hids Hi) as (id & Hid & Hok).
    destruct (proj1 Hok eq_refl) as [id' ->]. exists id'. split; [done|].
    apply bool_decide_eq_true. by apply list_elem_of_lookup_2 in Hid. }
  intros Hiv held. specialize (Hb Hiv). unfold tbb_admitted in *.
  pose proof (count_le (call_admitted (to_queue_threshold o) (to_threshold_alarm_interval_ms o)) (te_calls s)).
  split; [lia|]. intros Hcs. unfold Tbb_CurrentTaskNum. rewrite Hn, Hcs in *.
  assert (∀ p, count p (@nil (@call Task)) = 0) as Hnil by done. rewrite !Hnil in *.
  rewrite wrap_small; [lia|]. unfold in_width. lia.
Qed.

(** An executor that says it is thread safe runs its tasks one after another,
    in the order in which they were pushed. *)
Theorem tbb_thread_safe_is_serial name s :
  tbb_reachable name o s → Tbb_ThreadSafe s = true →
  te_pushed s = te_finished s ++ tbb_running s ++ q_elems (te_qu s) ∧ (length (tbb_running s) ≤ 1)%nat.
Proof using Hnum Hthr Hmax Hfit.
  intros [Ho Ht Hf Hst Hse Hl Hids Hw Hc Hn Hb]%tbb_reachable_inv Hts.
  unfold Tbb_ThreadSafe in Hts. rewrite Ho in Hts. apply Z.eqb_eq in Hts. rewrite Hts in Hl.
  split; [by rewrite Hf, (Hse Hl), <-app_assoc|]. unfold tbb_running.
  destruct (te_workers s) as [|w [|]]; [done| |done]. cbn. rewrite app_nil_r. destruct w; cbn; lia.
Qed.
End Invariant.

(** ** Shutdown *)

(** How far a thread and a call are from their end after a shutdown, and a
    task in the queue from being taken. *)
Definition worker_left (w : worker) : nat :=
  match w with WStart => 4 | WPoll => 3 | WRun _ _ => 4 | WCheck => 2 | WPop => 4 | WEnd => 0 end.
Definition call_left (c : @call Task) : nat := match c with Entered _ => 4 | Reserved _ _ => 3 end.
Definition tbb_left s : nat :=
  sum_list_with worker_left (te_workers s) + sum_list_with call_left (te_calls s) + 2 * length (q_elems (te_qu s)).

Lemma left_insert i x y q s s' :
  te_workers s !! i = Some x → te_workers s' = <[i:=y]> (te_workers s) → te_calls s' = te_calls s → te_qu s' = q →
  (worker_left x + tbb_left s' + 2 * length (q_elems (te_qu s))
   = worker_left y + tbb_left s + 2 * length (q_elems q))%nat.
Proof.
  intros Hi Hw Hc Hq. unfold tbb_left. rewrite Hw, Hc, Hq. pose proof (sum_insert worker_left _ _ _ y Hi). lia.
Qed.

Lemma pop_length q t q' : q_try_pop q = Some (t, q') → length (q_elems q) = S (length (q_elems q')).
Proof. intros Hq. pose proof (q_elems_pop q) as He. rewrite Hq in He. by rewrite He. Qed.

Lemma own_step_left s s' : te_state s = kShutdown → own_step s s' → te_state s' = kShutdown ∧ (tbb_left s' < tbb_left s)%nat.
Proof.
  intros Hst [i s2 Hs|s2 [i _ _ Hi Hq]|c1 t c2 Hcs|c1 t cur c2 threw Hcs].
  - destruct Hs as [id Hi|t q Hi Hq|Hi Hq|t b threw Hi|Hi Hne|Hi _|t q Hi Hq]; try apply pop_length in Hq.
    + split; [done|]. pose proof (left_insert _ _ WPoll (te_qu s) _ (begin_thread i id s) Hi eq_refl eq_refl eq_refl) as Hm. cbn [worker_left] in Hm. lia.
    + split; [done|]. pose proof (left_insert _ _ (WRun t false) q _ (take_task i t q false s) Hi eq_refl eq_refl eq_refl) as Hm. cbn [worker_left] in Hm. lia.
    + split; [done|]. pose proof (left_insert _ _ WCheck (te_qu s) _ (set_worker i WCheck s) Hi eq_refl eq_refl eq_refl) as Hm. cbn [worker_left] in Hm. lia.
    + split; [by destruct threw|]. set (s2 := finish_task i t b threw s).
      pose proof (left_insert _ _ (if threw && negb b then WCheck else WPoll) (te_qu s) _ s2 Hi) as Hm. subst s2.
      destruct threw, b; specialize (Hm eq_refl eq_refl eq_refl); cbn [worker_left negb andb] in Hm; lia.
    + done.
    + split; [done|]. pose proof (left_insert _ _ WEnd (te_qu s) _ (end_thread i s) Hi eq_refl eq_refl eq_refl) as Hm. cbn [worker_left] in Hm. lia.
    + split; [done|]. pose proof (left_insert _ _ (WRun t true) q _ (take_task i t q true s) Hi eq_refl eq_refl eq_refl) as Hm. cbn [worker_left] in Hm. lia.
  - split; [done|]. pose proof (left_insert _ _ WPoll (te_qu s) _ (set_worker i WPoll s) Hi eq_refl eq_refl eq_refl) as Hm. cbn [worker_left] in Hm. lia.
  - split; [done|]. unfold tbb_left. cbn -[wrap]. rewrite Hcs, !sum_list_with_app. cbn. lia.
  - pose proof (f_equal length (q_elems_push t (te_qu s))) as He. rewrite length_app in He. cbn [length] in He.
    unfold Tbb_push, tbb_left. destruct (Tbb_over _ _); [|destruct threw]; cbn -[wrap];
      (split; [done|]); rewrite Hcs, ?He, !sum_list_with_app; cbn [sum_list_with call_left]; lia.
Qed.

(** A thread that has not ended can go on, or be aborted. *)
Lemma own_progress o s i w :
  tbb_inv o s → te_state s = kShutdown → te_workers s !! i = Some w → w ≠ WEnd → ∃ s', own_step s s'.
Proof.
  intros Hinv Hst Hi Hw. destruct w as [| |t b| | |]; [| | | | |done].
  - eexists. eapply own_worker. by apply (worker_begin i s 0).
  - destruct (q_try_pop (te_qu s)) as [[t q]|] eqn:Hq; eexists; eapply own_worker; [by eapply worker_poll|by apply worker_poll_none].
  - eexists. eapply own_worker. by apply (worker_run i s t b false).
  - eexists. eapply own_worker. by apply worker_end.
  - destruct (q_try_pop (te_qu s)) as [[t q]|] eqn:Hq; eexists; [eapply own_worker; by eapply worker_pop|].
    eapply own_abort. apply (abort_waiting s i); [done| |done..]. rewrite (tb_work _ _ Hinv).
    pose proof (alive_insert _ _ WEnd _ Hi) as Ha. cbn [alive] in Ha. lia.
Qed.

(** C23: Shutdown ends.  After the state has become [kShutdown], whatever the
    threads, the calls in progress and the tasks do, the executor makes at most
    [tbb_left] steps, and as long as a thread has not ended - also one that
    waits for a task, and one that has not begun - some step can be made: so
    all threads end, and [Shutdown] can join them. *)
Theorem tbb_shutdown_ends o name s :
  0 < to_thread_num o < 2 ^ 32 → 0 ≤ to_queue_threshold o → 0 ≤ max_calls →
  to_queue_threshold o + max_calls < 2 ^ 32 → tbb_reachable name o s →
  (∀ n s', nsteps own_step n (Tbb_Shutdown s) s' → (n ≤ tbb_left s)%nat) ∧
  (∀ s', rtc own_step (Tbb_Shutdown s) s' →
     (∃ s'', own_step s' s'') ∨ ∀ i w, te_workers s' !! i = Some w → w = WEnd).
Proof.
  intros Hnum Hthr Hmax Hfit Hr. split.
  - assert (∀ n s1 s', te_state s1 = kShutdown → nsteps own_step n s1 s' → (n ≤ tbb_left s1)%nat) as Hgo.
    { induction n as [|n IH]; intros s1 s' Hst Hs; [lia|]. inversion Hs as [|? ? s2 ? H12 H2]; subst.
      destruct (own_step_left _ _ Hst H12) as [Hst2 Hl]. specialize (IH _ _ Hst2 H2). lia. }
    intros n s' Hs. change (tbb_left s) with (tbb_left (Tbb_Shutdown s)). by eapply Hgo.
  - intros s' Hs.
    assert (tbb_inv o s' ∧ te_state s' = kShutdown) as [Hinv Hst].
    { assert (tbb_inv o (Tbb_Shutdown s)) as H1.
      { eapply tbb_step_inv; [done..|apply tbb_shutdown|]. by eapply tbb_reachable_inv. }
      assert (te_state (Tbb_Shutdown s) = kShutdown) as H2 by done. revert H1 H2.
      induction Hs as [|s1 s2 s3 H12 _ IH]; [done|]. intros H1 H2. apply IH; [by eapply own_step_inv|].
      by eapply own_step_left. }
    destruct (decide (Exists (λ w, worker_left w ≠ 0%nat) (te_workers s'))) as [Hex|Hno].
    + left. apply Exists_exists in Hex as (w & [i Hi]%list_elem_of_lookup & Hw).
      eapply own_progress; [done..|exact Hi|]. by intros ->.
    + right. intros i w Hi. apply not_Exists_Forall in Hno; [|intros ?; apply _].
      eapply Forall_lookup in Hno; [|exact Hi]. cbn in Hno. destruct w; cbn in Hno; done || lia.
Qed.

(** ** What goes wrong *)

Lemma own_step_lost s s' : own_step s s' → (length (te_lost s) ≤ length (te_lost s'))%nat.
Proof.
  intros [i s2 []|s2 []|c1 t c2 _|c1 t cur c2 threw _]; try done.
  - destruct threw; cbn; rewrite ?length_app; lia.
  - unfold Tbb_push. destruct (Tbb_over _ _); [|destruct threw]; cbn; rewrite ?length_app; lia.
Qed.

Lemma tbb_saturated o s s' :
  tbb_inv o s → 0 ≤ to_threshold_alarm_interval_ms o →
  to_queue_threshold o ≤ Z.of_nat (length (te_lost s)) → tbb_step s s' →
  te_pushed s' = te_pushed s ∧ (length (te_lost s) ≤ length (te_lost s'))%nat.
Proof.
  intros Hinv Hiv Hl Hs. destruct Hs as [s2 Hs|t _ _|s2 Hs|]; [|done| |done].
  2: { by apply Tbb_Start_ok in Hs as [_ ->]. }
  split; [|by apply own_step_lost]. destruct Hs as [i s2 []|s2 []|c1 t c2 _|c1 t cur c2 threw Hcs]; try done.
  { by destruct threw. }
  pose proof (tb_bound _ _ Hinv Hiv) as Hb. unfold tbb_admitted in Hb. rewrite Hcs, count_app, count_cons in Hb.
  set (p := call_admitted _ _) in *. pose proof (count_le p c1). pose proof (count_le p c2).
  unfold Tbb_push. destruct (Tbb_over _ cur) eqn:Hov; [done|].
  unfold Tbb_over in Hov. cbn [te_queue_threshold te_options te_set_calls] in Hov.
  rewrite (tb_thr _ _ Hinv), (tb_options _ _ Hinv) in Hov. subst p. cbn [call_admitted] in Hb. rewrite Hov in Hb. cbn [negb] in Hb. lia.
Qed.

(** The counter leaks: a task that throws keeps its place for ever, and once as
    many have thrown as the threshold allows no task is pushed any more, however
    empty the queue is. *)
Theorem tbb_thrown_tasks_block o name s s' :
  0 < to_thread_num o < 2 ^ 32 → 0 ≤ to_queue_threshold o → 0 ≤ max_calls →
  to_queue_threshold o + max_calls < 2 ^ 32 → tbb_reachable name o s →
  0 ≤ to_threshold_alarm_interval_ms o → Z.of_nat (length (te_lost s)) = to_queue_threshold o →
  rtc tbb_step s s' → te_pushed s' = te_pushed s.
Proof.
  intros Hnum Hthr Hmax Hfit Hr Hiv Hl Hs.
  assert (tbb_inv o s) as Hinv by (by eapply tbb_reachable_inv).
  assert (to_queue_threshold o ≤ Z.of_nat (length (te_lost s))) as Hge by lia. clear Hl Hr. revert Hinv Hge.
  induction Hs as [|s1 s2 s3 H12 _ IH]; [done|]. intros Hinv Hge.
  destruct (tbb_saturated _ _ _ Hinv Hiv Hge H12) as [<- Hle]. apply IH; [by eapply tbb_step_inv|lia].
Qed.

Lemma tbb_ended_step s s' : Forall (λ w, w = WEnd) (te_workers s) → tbb_step s s' →
  Forall (λ w, w = WEnd) (te_workers s') ∧ te_started s' = te_started s.
Proof.
  intros Hall Hs. destruct Hs as [s2 [i s3 Hs|s3 [i _ _ Hi _]|c1 t c2 _|c1 t cur c2 threw _]|t _ _|s2 Hs|]; try done.
  - destruct Hs as [id Hi|t q Hi Hq|Hi Hq|t b threw Hi|Hi Hne|Hi _|t q Hi Hq]; by eapply Forall_lookup in Hall; [|exact Hi].
  - by eapply Forall_lookup in Hall; [|exact Hi].
  - unfold Tbb_push. destruct (Tbb_over _ _); [|destruct threw]; done.
  - by apply Tbb_Start_ok in Hs as [_ ->].
Qed.

(** A task can be lost: the thread has found the queue empty, the call pushes
    its task and returns, the executor is shut down, and then the thread tests
    the state, and ends. *)
Theorem tbb_task_lost_at_shutdown o name (t : Task) :
  to_thread_num o = 1 → 1 ≤ to_queue_threshold o → 1 ≤ max_calls →
  ∃ s, rtc tbb_step (tbb_made name o) s ∧ te_pushed s = [t] ∧ te_calls s = [] ∧
    ∀ s', rtc tbb_step s s' → te_started s' = [].
Proof.
  intros Hn Hthr Hmax.
  assert (q_try_pop q_empty = None) as Hq.
  { pose proof (q_elems_pop q_empty) as Hq. rewrite q_elems_empty in Hq. by destruct (q_try_pop _) as [[]|]. }
  exists (mkTbb name o kShutdown (to_queue_threshold o) 1 (q_push t q_empty) 0 [None] [WEnd] [] [t] [] [] []).
  split_and!; [|done|done|].
  - unfold tbb_made. rewrite Hn. cbn.
    eapply rtc_l; [eapply tbb_own, own_worker; by apply (worker_begin 0%nat _ 7)|]. cbn.
    eapply rtc_l; [eapply tbb_own, own_worker; by apply (worker_poll_none 0%nat)|]. cbn.
    eapply rtc_l; [apply (tbb_enter _ t); [done|cbn; lia]|]. cbn.
    eapply rtc_l; [eapply tbb_own, (own_reserve _ [] t []); done|]. cbn.
    eapply rtc_l; [eapply tbb_own, (own_push _ [] t 1 [] false); done|].
    unfold Tbb_push, Tbb_over, over. cbn -[Z.leb Z.ltb].
    replace (to_queue_threshold o <? 1) with false by lia. rewrite andb_false_r.
    eapply rtc_l; [apply tbb_shutdown|]. cbn.
    eapply rtc_l; [eapply tbb_own, own_worker; by apply (worker_end 0%nat)|]. apply rtc_refl.
  - assert (∀ s1 s', rtc tbb_step s1 s' → Forall (λ w, w = WEnd) (te_workers s1) → te_started s' = te_started s1) as Hgo.
    { intros s1 s' Hs. induction Hs as [|s1 s2 s3 H12 _ IH]; [done|]. intros Hall.
      destruct (tbb_ended_step _ _ Hall H12) as [Hall2 <-]. by apply IH. }
    intros s' Hs. rewrite (Hgo _ _ Hs); [done|]. by constructor.
Qed.

(** ** The interface of executors *)

(* @src src/src/runtime/core/executor/tbb_thread_executor.h:40-45 TBBThreadExecutor::Type, Name, ThreadSafe, SupportTimerSchedule *)
#[export] Instance tbb_base `{YamlOps node} : ExecutorBase node TBBThreadExecutor := {
  eb_Initialize := Tbb_Initialize;
  eb_Start now := Tbb_Start;
  eb_Shutdown := modify Tbb_Shutdown;
  eb_Report e := [];
  eb_Type e := "tbb_thread";
  eb_Name := te_name;
  eb_ThreadSafe := Tbb_ThreadSafe;
  eb_SupportTimerSchedule e := false
}.

#[export] Instance tbb_laws `{YamlOps node} : ExecutorLaws node TBBThreadExecutor.
Proof.
  split; [done| |].
  - intros name o e e' Hrun. change (Tbb_Initialize name o e = (Ok tt, e')) in Hrun. change (te_name e' = name).
    unfold Tbb_Initialize in Hrun.
    rewrite get_bind in Hrun. run_step Hrun E1. injection E1 as <- <-. run_step Hrun C1. unfold check_throw in C1.
    destruct (state_eqb _ _); [|discriminate]. injection C1 as <- <-.
    run_step Hrun E2. injection E2 as <- <-. run_step Hrun E3. injection E3 as E3 <-.
    run_step Hrun E4. injection E4 as <- <-. run_step Hrun C2. unfold check_throw in C2.
    destruct (_ <? _); [|discriminate]. injection C2 as <- <-. by injection Hrun as <-.
  - intros now e. cbn. unfold Tbb_Start. unfold_monad. by destruct (state_eqb _ _).
Qed.
End TbbExecutor.

(** ** At a concrete input *)

Module TbbDemo.
Definition demo_options : TbbOptions := mkTbbOptions 1 "" [] 1 1000.
Definition demo_made : @TBBThreadExecutor nat (list nat) := tbb_made "pool" demo_options.

(** One task pushed and running. *)
Definition demo_running : @TBBThreadExecutor nat (list nat) :=
  mkTbb "pool" demo_options kInit 1 1 [] 1 [Some 7] [WRun 5%nat false] [] [5%nat] [5%nat] [] [].
(** It has thrown. *)
Definition demo_thrown : @TBBThreadExecutor nat (list nat) :=
  mkTbb "pool" demo_options kInit 1 1 [] 1 [Some 7] [WCheck] [] [5%nat] [5%nat] [5%nat] [5%nat].

Lemma tbb_running_reachable : tbb_reachable 8 "pool" demo_options demo_running.
Proof.
  eapply rtc_l; [apply (tbb_enter _ _ 5%nat); [done|cbn; lia]|].
  eapply rtc_l; [eapply tbb_own, (own_reserve _ [] 5%nat []); done|].
  eapply rtc_l; [eapply tbb_own, (own_push _ [] 5%nat 1 [] false); done|].
  eapply rtc_l; [eapply tbb_own, own_worker; by apply (worker_begin 0%nat _ 7)|].
  eapply rtc_l; [eapply tbb_own, own_worker; by apply (worker_poll 0%nat _ 5%nat [])|]. apply rtc_refl.
Qed.

Lemma tbb_thrown_reachable : tbb_reachable 8 "pool" demo_options demo_thrown.
Proof.
  eapply rtc_r; [apply tbb_running_reachable|]. eapply tbb_own, own_worker. by apply (worker_run 0%nat demo_running 5%nat false true).
Qed.

Lemma tbb_refused : ∃ s, rtc (tbb_step 8) demo_thrown s ∧ s ≠ demo_thrown ∧ te_calls s = [].
Proof.
  eexists. split; [|split]; [|shelve|].
  - eapply rtc_l; [apply (tbb_enter _ _ 6%nat); [done|cbn; lia]|].
    eapply rtc_l; [eapply tbb_own, (own_reserve _ [] 6%nat []); done|].
    eapply rtc_l; [eapply tbb_own, (own_push _ [] 6%nat 2 [] false); done|].
    eapply rtc_l; [eapply tbb_own, own_worker; by apply (worker_check 0%nat)|]. apply rtc_refl.
  - reflexivity.
  Unshelve. discriminate.
Qed.
End TbbDemo.
Import TbbDemo.

Lemma tbb_executor_safe_witness :
  te_pushed demo_running = [5%nat] ++ [] ∧ (∃ id, Tbb_IsInCurrentExecutor id demo_running = true) ∧
  Tbb_CurrentTaskNum demo_running = 1.
Proof.
  destruct (tbb_executor_safe 8 demo_options ltac:(zdec) ltac:(zdec) ltac:(zdec) ltac:(zdec) "pool" demo_running
    tbb_running_reachable) as (H1 & _ & H3 & H4).
  split; [exact H1|]. split; [|exact (proj2 (H4 ltac:(zdec)) eq_refl)].
  destruct (H3 0%nat 5%nat false eq_refl) as (id & _ & Hid). exists id. exact Hid.
Defined.

Lemma tbb_thread_safe_is_serial_witness : (length (tbb_running demo_running) ≤ 1)%nat.
Proof.
  exact (proj2 (tbb_thread_safe_is_serial 8 demo_options ltac:(zdec) ltac:(zdec) ltac:(zdec) ltac:(zdec) "pool" demo_running
    tbb_running_reachable eq_refl)).
Defined.

Lemma tbb_shutdown_ends_witness :
  (∃ s, own_step (Tbb_Shutdown demo_running) s) ∨ ∀ i w, te_workers demo_running !! i = Some w → w = WEnd.
Proof.
  exact (proj2 (tbb_shutdown_ends 8 demo_options "pool" demo_running ltac:(zdec) ltac:(zdec) ltac:(zdec) ltac:(zdec)
    tbb_running_reachable) _ (rtc_refl _ _)).
Defined.

Lemma tbb_thrown_tasks_block_witness : ∃ s, rtc (tbb_step 8) demo_thrown s ∧ s ≠ demo_thrown ∧ te_pushed s = [5%nat].
Proof.
  destruct tbb_refused as (s & Hs & Hne & _). exists s. split; [exact Hs|]. split; [exact Hne|].
  exact (tbb_thrown_tasks_block 8 demo_options "pool" demo_thrown s ltac:(zdec) ltac:(zdec) ltac:(zdec) ltac:(zdec)
    tbb_thrown_reachable ltac:(zdec) eq_refl Hs).
Defined.

Lemma tbb_task_lost_at_shutdown_witness :
  ∃ s, rtc (tbb_step 8) demo_made s ∧ te_pushed s = [5%nat] ∧ te_calls s = [] ∧ ∀ s', rtc (tbb_step 8) s s' → te_started s' = [].
Proof. exact (tbb_task_lost_at_shutdown 8 demo_options "pool" 5%nat eq_refl ltac:(zdec) ltac:(zdec)). Defined.
