(* ===== verification/Core.v ===== *)
(** * The core: [src/runtime/core/aimrt_core.*]

    [AimRTCore] owns the managers and takes them through their life cycle:
    each is initialized, started and shut down between two states of the core,
    and entering a state runs the hooks registered for it.  The managers are
    the class [Managers]: calls on a world [W] that may throw.  The ghost
    [co_trace] records the states entered and the calls made.

    Theorems: the exact sequence of states and calls of every phase, also when
    a call or a hook throws; shutting down is the reverse of starting; every
    manager is shut down at most once whatever the order of the calls; [Start]
    has an effect only right after [Initialize]. *)

From Stdlib Require Import DecimalString.
From S2P Require Import Prelude StdString StringUtil.

(** ** States *)

Module CoreState.
(* @src src/src/runtime/core/aimrt_core.h:31-144 AimRTCore::State *)
Inductive State :=
| kPreInit | kPreInitConfigurator | kPostInitConfigurator | kPreInitPlugin | kPostInitPlugin 
| kPreInitMainThread | kPostInitMainThread | kPreInitGuardThread | kPostInitGuardThread 
| kPreInitExecutor | kPostInitExecutor | kPreInitLog | kPostInitLog | kPreInitAllocator 
| kPostInitAllocator | kPreInitRpc | kPostInitRpc | kPreInitChannel | kPostInitChannel 
| kPreInitParameter | kPostInitParameter | kPreInitModules | kPostInitModules | kPostInit 
| kPreStart | kPreStartConfigurator | kPostStartConfigurator | kPreStartPlugin 
| kPostStartPlugin | kPreStartMainThread | kPostStartMainThread | kPreStartGuardThread 
| kPostStartGuardThread | kPreStartExecutor | kPostStartExecutor | kPreStartLog 
| kPostStartLog | kPreStartAllocator | kPostStartAllocator | kPreStartRpc | kPostStartRpc 
| kPreStartChannel | kPostStartChannel | kPreStartParameter | kPostStartParameter 
| kPreStartModules | kPostStartModules | kPostStart | kPreShutdown | kPreShutdownModules 
| kPostShutdownModules | kPreShutdownParameter | kPostShutdownParameter | kPreShutdownChannel 
| kPostShutdownChannel | kPreShutdownRpc | kPostShutdownRpc | kPreShutdownAllocator 
| kPostShutdownAllocator | kPreShutdownLog | kPostShutdownLog | kPreShutdownExecutor 
| kPostShutdownExecutor | kPreShutdownGuardThread | kPostShutdownGuardThread 
| kPreShutdownMainThread | kPostShutdownMainThread | kPreShutdownPlugin | kPostShutdownPlugin 
| kPreShutdownConfigurator | kPostShutdownConfigurator | kPostShutdown | kMaxStateNum.

(** [static_cast<uint32_t>(state)] *)
Definition to_nat (st : State) : nat :=
  match st with
  | kPreInit => 0 | kPreInitConfigurator => 1 | kPostInitConfigurator => 2 
  | kPreInitPlugin => 3 | kPostInitPlugin => 4 | kPreInitMainThread => 5 
  | kPostInitMainThread => 6 | kPreInitGuardThread => 7 | kPostInitGuardThread => 8 
  | kPreInitExecutor => 9 | kPostInitExecutor => 10 | kPreInitLog => 11 | kPostInitLog => 12 
  | kPreInitAllocator => 13 | kPostInitAllocator => 14 | kPreInitRpc => 15 
  | kPostInitRpc => 16 | kPreInitChannel => 17 | kPostInitChannel => 18 
  | kPreInitParameter => 19 | kPostInitParameter => 20 | kPreInitModules => 21 
  | kPostInitModules => 22 | kPostInit => 23 | kPreStart => 24 | kPreStartConfigurator => 25 
  | kPostStartConfigurator => 26 | kPreStartPlugin => 27 | kPostStartPlugin => 28 
  | kPreStartMainThread => 29 | kPostStartMainThread => 30 | kPreStartGuardThread => 31 
  | kPostStartGuardThread => 32 | kPreStartExecutor => 33 | kPostStartExecutor => 34 
  | kPreStartLog => 35 | kPostStartLog => 36 | kPreStartAllocator => 37 
  | kPostStartAllocator => 38 | kPreStartRpc => 39 | kPostStartRpc => 40 
  | kPreStartChannel => 41 | kPostStartChannel => 42 | kPreStartParameter => 43 
  | kPostStartParameter => 44 | kPreStartModules => 45 | kPostStartModules => 46 
  | kPostStart => 47 | kPreShutdown => 48 | kPreShutdownModules => 49 
  | kPostShutdownModules => 50 | kPreShutdownParameter => 51 | kPostShutdownParameter => 52 
  | kPreShutdownChannel => 53 | kPostShutdownChannel => 54 | kPreShutdownRpc => 55 
  | kPostShutdownRpc => 56 | kPreShutdownAllocator => 57 | kPostShutdownAllocator => 58 
  | kPreShutdownLog => 59 | kPostShutdownLog => 60 | kPreShutdownExecutor => 61 
  | kPostShutdownExecutor => 62 | kPreShutdownGuardThread => 63 
  | kPostShutdownGuardThread => 64 | kPreShutdownMainThread => 65 
  | kPostShutdownMainThread => 66 | kPreShutdownPlugin => 67 | kPostShutdownPlugin => 68 
  | kPreShutdownConfigurator => 69 | kPostShutdownConfigurator => 70 | kPostShutdown => 71 
  | kMaxStateNum => 72
  end.

Definition of_nat (n : nat) : State :=
  match n with
  | 0 => kPreInit | 1 => kPreInitConfigurator | 2 => kPostInitConfigurator 
  | 3 => kPreInitPlugin | 4 => kPostInitPlugin | 5 => kPreInitMainThread 
  | 6 => kPostInitMainThread | 7 => kPreInitGuardThread | 8 => kPostInitGuardThread 
  | 9 => kPreInitExecutor | 10 => kPostInitExecutor | 11 => kPreInitLog | 12 => kPostInitLog 
  | 13 => kPreInitAllocator | 14 => kPostInitAllocator | 15 => kPreInitRpc 
  | 16 => kPostInitRpc | 17 => kPreInitChannel | 18 => kPostInitChannel 
  | 19 => kPreInitParameter | 20 => kPostInitParameter | 21 => kPreInitModules 
  | 22 => kPostInitModules | 23 => kPostInit | 24 => kPreStart | 25 => kPreStartConfigurator 
  | 26 => kPostStartConfigurator | 27 => kPreStartPlugin | 28 => kPostStartPlugin 
  | 29 => kPreStartMainThread | 30 => kPostStartMainThread | 31 => kPreStartGuardThread 
  | 32 => kPostStartGuardThread | 33 => kPreStartExecutor | 34 => kPostStartExecutor 
  | 35 => kPreStartLog | 36 => kPostStartLog | 37 => kPreStartAllocator 
  | 38 => kPostStartAllocator | 39 => kPreStartRpc | 40 => kPostStartRpc 
  | 41 => kPreStartChannel | 42 => kPostStartChannel | 43 => kPreStartParameter 
  | 44 => kPostStartParameter | 45 => kPreStartModules | 46 => kPostStartModules 
  | 47 => kPostStart | 48 => kPreShutdown | 49 => kPreShutdownModules 
  | 50 => kPostShutdownModules | 51 => kPreShutdownParameter | 52 => kPostShutdownParameter 
  | 53 => kPreShutdownChannel | 54 => kPostShutdownChannel | 55 => kPreShutdownRpc 
  | 56 => kPostShutdownRpc | 57 => kPreShutdownAllocator | 58 => kPostShutdownAllocator 
  | 59 => kPreShutdownLog | 60 => kPostShutdownLog | 61 => kPreShutdownExecutor 
  | 62 => kPostShutdownExecutor | 63 => kPreShutdownGuardThread 
  | 64 => kPostShutdownGuardThread | 65 => kPreShutdownMainThread 
  | 66 => kPostShutdownMainThread | 67 => kPreShutdownPlugin | 68 => kPostShutdownPlugin 
  | 69 => kPreShutdownConfigurator | 70 => kPostShutdownConfigurator | 71 => kPostShutdown
  | _ => kMaxStateNum
  end.

Lemma of_to_nat st : of_nat (to_nat st) = st.
Proof. by destruct st. Qed.

#[export] Instance eq_dec : EqDecision State.
Proof.
  intros a b. destruct (decide (to_nat a = to_nat b)) as [H|H].
  - left. by rewrite <-(of_to_nat a), H, of_to_nat.
  - right. by intros ->.
Defined.
End CoreState.

Import CoreState.

(** ** Managers *)

Inductive component :=
  mConfigurator | mPlugin | mMainThread | mGuardThread | mExecutor | mLog | mAllocator | mRpc | mChannel
| mParameter | mModules.

#[export] Instance component_eq_dec : EqDecision component.
Proof. solve_decision. Defined.

(** What the core calls on its managers.  [W] is everything outside the core:
    the managers, the modules and plugins, the hooks' own state. *)
Class Managers (W node Hook : Type) := {
  SetLogger : component → M W unit;
  Configurator_Initialize : string → M W unit;
  GetAimRTOptionsNode : string → M W node;
  Manager_Initialize : component → node → M W unit;
  Manager_Start : component → M W unit;
  Manager_Shutdown : component → M W unit;
  RegisterCorePtr : M W unit;
  RegisterGetExecutorFunc : component → M W unit;
  RegisterCoreProxyConfigurator : M W unit;
  SetUsedExecutorName : string → M W unit;
  Executor_Name : component → W → string;
  GetLoggerProxy : string → M W unit;
  CheckYamlNodes : M W unit;
  Manager_Report : component → W → list (bytes * bytes);
  Base_Info : W → list (list bytes);
  run_hook : Hook → M W unit
}.

(** ** The core *)

Inductive event :=
| Entered (st : State)
| Initialized (c : component)
| Started (c : component)
| ShutDown (c : component).

Section AimRTCore.
Context {W node Hook : Type} `{MG : Managers W node Hook}.

(* @src src/src/runtime/core/aimrt_core.h:198-220 AimRTCore *)
Record AimRTCore := mkCore {
  co_cfg_file_path : string;
  co_state : State;
  co_core_logger : bool;          (* logger_ptr_ goes to the logger manager *)
  co_shutdown_flag : bool;
  co_promise_set : bool;
  co_future_taken : bool;
  co_shutdown_impl_flag : bool;
  co_hooks : State → list Hook;   (* hook_task_vec_array_ *)
  co_waiting : bool;              (* a thread is in Start or AsyncStart, waiting *)
  co_world : W;
  co_trace : list event           (* ghost *)
}.

Definition AimRTCore_new (w : W) : AimRTCore :=
  mkCore "" kPreInit false false false false false (λ _, []) false w [].

Implicit Types s : AimRTCore.

Definition co_set_cfg_file_path x (s : AimRTCore) : AimRTCore :=
    mkCore x (co_state s) (co_core_logger s) (co_shutdown_flag s) (co_promise_set s)
      (co_future_taken s) (co_shutdown_impl_flag s) (co_hooks s) (co_waiting s) (co_world s)
      (co_trace s).
Definition co_set_state x (s : AimRTCore) : AimRTCore :=
    mkCore (co_cfg_file_path s) x (co_core_logger s) (co_shutdown_flag s) (co_promise_set s)
      (co_future_taken s) (co_shutdown_impl_flag s) (co_hooks s) (co_waiting s) (co_world s)
      (co_trace s).
Definition co_set_core_logger x (s : AimRTCore) : AimRTCore :=
    mkCore (co_cfg_file_path s) (co_state s) x (co_shutdown_flag s) (co_promise_set s)
      (co_future_taken s) (co_shutdown_impl_flag s) (co_hooks s) (co_waiting s) (co_world s)
      (co_trace s).
Definition co_set_shutdown_flag x (s : AimRTCore) : AimRTCore :=
    mkCore (co_cfg_file_path s) (co_state s) (co_core_logger s) x (co_promise_set s)
      (co_future_taken s) (co_shutdown_impl_flag s) (co_hooks s) (co_waiting s) (co_world s)
      (co_trace s).
Definition co_set_promise_set x (s : AimRTCore) : AimRTCore :=
    mkCore (co_cfg_file_path s) (co_state s) (co_core_logger s) (co_shutdown_flag s) x
      (co_future_taken s) (co_shutdown_impl_flag s) (co_hooks s) (co_waiting s) (co_world s)
      (co_trace s).
Definition co_set_future_taken x (s : AimRTCore) : AimRTCore :=
    mkCore (co_cfg_file_path s) (co_state s) (co_core_logger s) (co_shutdown_flag s)
      (co_promise_set s) x (co_shutdown_impl_flag s) (co_hooks s) (co_waiting s) (co_world s)
      (co_trace s).
Definition co_set_shutdown_impl_flag x (s : AimRTCore) : AimRTCore :=
    mkCore (co_cfg_file_path s) (co_state s) (co_core_logger s) (co_shutdown_flag s)
      (co_promise_set s) (co_future_taken s) x (co_hooks s) (co_waiting s) (co_world s)
      (co_trace s).
Definition co_set_hooks x (s : AimRTCore) : AimRTCore :=
    mkCore (co_cfg_file_path s) (co_state s) (co_core_logger s) (co_shutdown_flag s)
      (co_promise_set s) (co_future_taken s) (co_shutdown_impl_flag s) x (co_waiting s)
      (co_world s) (co_trace s).
Definition co_set_waiting x (s : AimRTCore) : AimRTCore :=
    mkCore (co_cfg_file_path s) (co_state s) (co_core_logger s) (co_shutdown_flag s)
      (co_promise_set s) (co_future_taken s) (co_shutdown_impl_flag s) (co_hooks s) x (co_world s)
      (co_trace s).
Definition co_set_world x (s : AimRTCore) : AimRTCore :=
    mkCore (co_cfg_file_path s) (co_state s) (co_core_logger s) (co_shutdown_flag s)
      (co_promise_set s) (co_future_taken s) (co_shutdown_impl_flag s) (co_hooks s) (co_waiting s)
      x (co_trace s).
Definition co_set_trace x (s : AimRTCore) : AimRTCore :=
    mkCore (co_cfg_file_path s) (co_state s) (co_core_logger s) (co_shutdown_flag s)
      (co_promise_set s) (co_future_taken s) (co_shutdown_impl_flag s) (co_hooks s) (co_waiting s)
      (co_world s) x.

(** A call outside the core. *)
Definition world {A} (m : M W A) : M AimRTCore A := zoom co_world co_set_world m.

Definition record (e : event) : M AimRTCore unit :=
  modify (λ s, co_set_trace (co_trace s ++ [e]) s).

(* @src src/src/runtime/core/aimrt_core.h:164-169 AimRTCore::RegisterHookFunc *)
Definition RegisterHookFunc (st : State) (h : Hook) : M AimRTCore unit :=
  modify (λ s, co_set_hooks (λ st', if decide (st' = st) then co_hooks s st' ++ [h]
                                    else co_hooks s st') s).

(* @src src/src/runtime/core/aimrt_core.cc:282-286 AimRTCore::EnterState *)
Definition EnterState (st : State) : M AimRTCore unit :=
  modify (co_set_state st);;
  record (Entered st);;
  hooks ← gets (λ s, co_hooks s st);
  mapM_ (λ h, world (run_hook h)) hooks.

(* @src src/src/runtime/core/aimrt_core.cc:288-309 AimRTCore::SetCoreLogger *)
Definition SetCoreLogger : M AimRTCore unit :=
  world (GetLoggerProxy "core");; modify (co_set_core_logger true).

(* @src src/src/runtime/core/aimrt_core.cc:311-314 AimRTCore::ResetCoreLogger *)
Definition ResetCoreLogger : M AimRTCore unit := modify (co_set_core_logger false).

Definition init_manager (c : component) (key : string) : M AimRTCore unit :=
  options ← world (GetAimRTOptionsNode key);
  record (Initialized c);;
  world (Manager_Initialize c options).

(* @src src/src/runtime/core/aimrt_core.cc:50-138 AimRTCore::Initialize *)
Definition Initialize (cfg_file_path : string) : M AimRTCore unit :=
  EnterState kPreInit;;
  modify (co_set_cfg_file_path cfg_file_path);;
  EnterState kPreInitConfigurator;;
  world (SetLogger mConfigurator);;
  record (Initialized mConfigurator);;
  world (Configurator_Initialize cfg_file_path);;
  EnterState kPostInitConfigurator;;
  EnterState kPreInitPlugin;;
  world (SetLogger mPlugin);;
  world RegisterCorePtr;;
  init_manager mPlugin "plugin";;
  EnterState kPostInitPlugin;;
  EnterState kPreInitMainThread;;
  world (SetLogger mMainThread);;
  init_manager mMainThread "main_thread";;
  EnterState kPostInitMainThread;;
  EnterState kPreInitGuardThread;;
  world (SetLogger mGuardThread);;
  init_manager mGuardThread "guard_thread";;
  EnterState kPostInitGuardThread;;
  EnterState kPreInitExecutor;;
  world (SetLogger mExecutor);;
  w ← gets co_world;
  world (SetUsedExecutorName (Executor_Name mMainThread w));;
  w ← gets co_world;
  world (SetUsedExecutorName (Executor_Name mGuardThread w));;
  init_manager mExecutor "executor";;
  EnterState kPostInitExecutor;;
  EnterState kPreInitLog;;
  world (SetLogger mLog);;
  world (RegisterGetExecutorFunc mLog);;
  init_manager mLog "log";;
  SetCoreLogger;;
  EnterState kPostInitLog;;
  EnterState kPreInitAllocator;;
  world (SetLogger mAllocator);;
  init_manager mAllocator "allocator";;
  EnterState kPostInitAllocator;;
  EnterState kPreInitRpc;;
  world (SetLogger mRpc);;
  world (RegisterGetExecutorFunc mRpc);;
  init_manager mRpc "rpc";;
  EnterState kPostInitRpc;;
  EnterState kPreInitChannel;;
  world (SetLogger mChannel);;
  world (RegisterGetExecutorFunc mChannel);;
  init_manager mChannel "channel";;
  EnterState kPostInitChannel;;
  EnterState kPreInitParameter;;
  world (SetLogger mParameter);;
  init_manager mParameter "parameter";;
  EnterState kPostInitParameter;;
  EnterState kPreInitModules;;
  world (SetLogger mModules);;
  world RegisterCoreProxyConfigurator;;
  init_manager mModules "module";;
  EnterState kPostInitModules;;
  world CheckYamlNodes;;
  EnterState kPostInit.

Definition nat_to_bytes (n : nat) : bytes :=
  lit (NilEmpty.string_of_uint (Nat.to_uint n)).

(** The numbered sections of the report. *)
Fixpoint report_sections (count : nat) (report : list (bytes * bytes)) : bytes :=
  match report with
  | [] => []
  | (title, text) :: report' =>
      let count := S count in
      lit "[" ++ nat_to_bytes count ++ lit "]. " ++ title ++ [kNewline] ++ text
        ++ [kNewline; kNewline] ++ report_sections count report'
  end.

(* @src src/src/runtime/core/aimrt_core.cc:343-380 AimRTCore::GenInitializationReport *)
Definition GenInitializationReport : M AimRTCore bytes :=
  s ← get;
  check_throw (bool_decide (co_state s = kPostInit))
    "Initialization report can only be generated after initialization is complete.";;
  let w := co_world s in
  let report :=
    (lit "Base Info", DrawTable (Base_Info w) false) ::
    concat (map (λ c, Manager_Report c w)
      [mConfigurator; mPlugin; mExecutor; mLog; mAllocator; mRpc; mChannel; mParameter; mModules]) in
  mret ([kNewline]
    ++ lit "----------------------- AimRT Initialization Report Begin ----------------------"
    ++ [kNewline; kNewline] ++ report_sections 0 report ++ [kNewline]
    ++ lit "----------------------- AimRT Initialization Report End ------------------------"
    ++ [kNewline; kNewline]).

Definition start_manager (c : component) : M AimRTCore unit :=
  record (Started c);; world (Manager_Start c).
Definition shutdown_manager (c : component) : M AimRTCore unit :=
  record (ShutDown c);; world (Manager_Shutdown c).

(** The calls of [StartImpl] once the report is made. *)
Definition start_all : M AimRTCore unit :=
  EnterState kPreStart;;
  EnterState kPreStartConfigurator;;
  start_manager mConfigurator;;
  EnterState kPostStartConfigurator;;
  EnterState kPreStartPlugin;;
  start_manager mPlugin;;
  EnterState kPostStartPlugin;;
  EnterState kPreStartMainThread;;
  start_manager mMainThread;;
  EnterState kPostStartMainThread;;
  EnterState kPreStartGuardThread;;
  start_manager mGuardThread;;
  EnterState kPostStartGuardThread;;
  EnterState kPreStartExecutor;;
  start_manager mExecutor;;
  EnterState kPostStartExecutor;;
  EnterState kPreStartLog;;
  start_manager mLog;;
  EnterState kPostStartLog;;
  EnterState kPreStartAllocator;;
  start_manager mAllocator;;
  EnterState kPostStartAllocator;;
  EnterState kPreStartRpc;;
  start_manager mRpc;;
  EnterState kPostStartRpc;;
  EnterState kPreStartChannel;;
  start_manager mChannel;;
  EnterState kPostStartChannel;;
  EnterState kPreStartParameter;;
  start_manager mParameter;;
  EnterState kPostStartParameter;;
  EnterState kPreStartModules;;
  start_manager mModules;;
  EnterState kPostStartModules;;
  EnterState kPostStart.

(* @src src/src/runtime/core/aimrt_core.cc:140-190 AimRTCore::StartImpl *)
Definition StartImpl : M AimRTCore unit := GenInitializationReport;; start_all.

(** The calls of [ShutdownImpl] once the flag is taken. *)
Definition shutdown_all : M AimRTCore unit :=
  EnterState kPreShutdown;;
  EnterState kPreShutdownModules;;
  shutdown_manager mModules;;
  EnterState kPostShutdownModules;;
  EnterState kPreShutdownParameter;;
  shutdown_manager mParameter;;
  EnterState kPostShutdownParameter;;
  EnterState kPreShutdownChannel;;
  shutdown_manager mChannel;;
  EnterState kPostShutdownChannel;;
  EnterState kPreShutdownRpc;;
  shutdown_manager mRpc;;
  EnterState kPostShutdownRpc;;
  EnterState kPreShutdownAllocator;;
  shutdown_manager mAllocator;;
  EnterState kPostShutdownAllocator;;
  EnterState kPreShutdownLog;;
  ResetCoreLogger;;
  shutdown_manager mLog;;
  EnterState kPostShutdownLog;;
  EnterState kPreShutdownExecutor;;
  shutdown_manager mExecutor;;
  EnterState kPostShutdownExecutor;;
  EnterState kPreShutdownGuardThread;;
  shutdown_manager mGuardThread;;
  EnterState kPostShutdownGuardThread;;
  EnterState kPreShutdownMainThread;;
  shutdown_manager mMainThread;;
  EnterState kPostShutdownMainThread;;
  EnterState kPreShutdownPlugin;;
  shutdown_manager mPlugin;;
  EnterState kPostShutdownPlugin;;
  EnterState kPreShutdownConfigurator;;
  shutdown_manager mConfigurator;;
  EnterState kPostShutdownConfigurator;;
  EnterState kPostShutdown.

(* @src src/src/runtime/core/aimrt_core.cc:192-246 AimRTCore::ShutdownImpl *)
Definition ShutdownImpl : M AimRTCore unit :=
  s ← get;
  modify (co_set_shutdown_impl_flag true);;
  if co_shutdown_impl_flag s then mret tt else shutdown_all.

(** [shutdown_promise_.get_future()] *)
Definition take_future : M AimRTCore unit :=
  s ← get;
  if co_future_taken s then throw (RuntimeError "future_already_retrieved")
  else modify (co_set_future_taken true).

(** [Start] and [AsyncStart] up to the point where a thread, the caller's or
    a new one, waits for the future. *)
(* @src src/src/runtime/core/aimrt_core.cc:248-255 AimRTCore::Start *)
Definition Start : M AimRTCore unit :=
  StartImpl;; take_future;; modify (co_set_waiting true).

(** The rest of [Start] and [AsyncStart], once the promise is set. *)
(* @src src/src/runtime/core/aimrt_core.cc:257-272 AimRTCore::AsyncStart *)
Definition Start_wake : M AimRTCore unit :=
  s ← get;
  if co_waiting s && co_promise_set s then modify (co_set_waiting false);; ShutdownImpl
  else mret tt.

(* @src src/src/runtime/core/aimrt_core.cc:274-280 AimRTCore::Shutdown *)
Definition Shutdown : M AimRTCore unit :=
  s ← get;
  modify (co_set_shutdown_flag true);;
  if co_shutdown_flag s then mret tt
  else if co_promise_set s then throw (RuntimeError "promise_already_satisfied")
  else modify (co_set_promise_set true).

(* @src src/src/runtime/core/aimrt_core.cc:19-27 AimRTCore::~AimRTCore *)
Definition Destroy : M AimRTCore unit := try_catch ShutdownImpl (λ _, mret tt).

(** [get_executor] is the executor manager's lookup. *)
(* @src src/src/runtime/core/aimrt_core.cc:316-320 AimRTCore::GetExecutor *)
Definition GetExecutor {E} (guard : E) (get_executor : string → E) (name : string) s : E :=
  if String.eqb name "" || String.eqb name (Executor_Name mGuardThread (co_world s)) then guard
  else get_executor name.

(** ** Plans

    The events of each phase when nothing throws. *)

Definition components : list component :=
  [mConfigurator; mPlugin; mMainThread; mGuardThread; mExecutor; mLog; mAllocator; mRpc;
   mChannel; mParameter; mModules].

(** The two states around the call on the [i]-th component of a phase that
    begins after state [base]. *)
Definition around (base i : nat) (e : event) : list event :=
  [Entered (of_nat (base + 2 * i + 1)); e; Entered (of_nat (base + 2 * i + 2))].

Definition phase (call : component → event) (first last : State) (cs : list component) : list event :=
  Entered first ::
  concat (imap (λ i c, around (to_nat first) i (call c)) cs) ++ [Entered last].

Definition init_plan : list event := phase Initialized kPreInit kPostInit components.
Definition start_plan : list event := phase Started kPreStart kPostStart components.
Definition shutdown_plan : list event := phase ShutDown kPreShutdown kPostShutdown (rev components).

(** ** Runs *)

Definition last_entered (st : State) (evs : list event) : State :=
  fold_left (λ st e, match e with Entered st' => st' | _ => st end) evs st.

Lemma last_entered_app st e1 e2 : last_entered st (e1 ++ e2) = last_entered (last_entered st e1) e2.
Proof. apply fold_left_app. Qed.

(** The flags of the core, untouched by the phases. *)
Definition same_flags s s' : Prop :=
  co_shutdown_flag s' = co_shutdown_flag s ∧ co_promise_set s' = co_promise_set s ∧
  co_future_taken s' = co_future_taken s ∧ co_shutdown_impl_flag s' = co_shutdown_impl_flag s ∧
  co_waiting s' = co_waiting s ∧ co_hooks s' = co_hooks s.

Lemma same_flags_trans s1 s2 s3 : same_flags s1 s2 → same_flags s2 s3 → same_flags s1 s3.
Proof. unfold same_flags. intuition congruence. Qed.

Lemma take_of_prefix {B} k (l l' : list B) : take (length (take k l)) (l ++ l') = take k l.
Proof. rewrite <-(take_drop k l) at 2. by rewrite <-app_assoc, take_app_length. Qed.

(** [m] performs the events [evs], a prefix of them if it throws, but at
    least [j]. *)
Definition runs {A} (j : nat) (m : M AimRTCore A) (evs : list event) : Prop := ∀ s,
  ∃ k, j ≤ k ∧ co_trace (m s).2 = co_trace s ++ take k evs ∧
    co_state (m s).2 = last_entered (co_state s) (take k evs) ∧
    same_flags s (m s).2 ∧
    (∀ a, (m s).1 = Ok a → take k evs = evs).

Lemma runs_bind {A B} j (m : M AimRTCore A) (f : A → M AimRTCore B) e1 e2 :
  j ≤ length e1 → runs j m e1 → (∀ a, runs 0 (f a) e2) → runs j (m ≫= f) (e1 ++ e2).
Proof.
  intros Hj Hm Hf s. destruct (Hm s) as (k1 & Hk1 & Ht & Hst & Hfl & Hok). unfold mbind, M_bind.
  destruct (m s) as [[a|e|] s1] eqn:Hms; cbn in *.
  - specialize (Hok a eq_refl). rewrite Hok in Ht, Hst.
    destruct (Hf a s1) as (k2 & _ & Ht2 & Hst2 & Hfl2 & Hok2).
    exists (length e1 + k2). rewrite take_app_add. split_and!.
    + lia.
    + by rewrite Ht2, Ht, app_assoc.
    + by rewrite Hst2, Hst, last_entered_app.
    + by eapply same_flags_trans.
    + intros b Hb. by rewrite (Hok2 b Hb).
  - exists (length (take k1 e1)). rewrite take_of_prefix. rewrite length_take. split_and!; [lia|done..].
  - exists (length (take k1 e1)). rewrite take_of_prefix. rewrite length_take. split_and!; [lia|done..].
Qed.

Lemma runs_quiet {A} (m : M AimRTCore A) :
  (∀ s, co_trace (m s).2 = co_trace s ∧ co_state (m s).2 = co_state s ∧ same_flags s (m s).2) →
  runs 0 m [].
Proof. intros Hm s. destruct (Hm s) as (-> & -> & H). exists 0. rewrite app_nil_r. by split_and!. Qed.

Lemma runs_world {A} (m : M W A) : runs 0 (world m) [].
Proof. apply runs_quiet. intros s. unfold world, zoom. by destruct (m (co_world s)) as [r w]. Qed.

Lemma runs_gets {A} (f : AimRTCore → A) : runs 0 (gets f) [].
Proof. by apply runs_quiet. Qed.

Lemma runs_core_logger b : runs 0 (modify (co_set_core_logger b)) [].
Proof. by apply runs_quiet. Qed.

Lemma runs_cfg p : runs 0 (modify (co_set_cfg_file_path p)) [].
Proof. by apply runs_quiet. Qed.

Lemma runs_hooks hs : runs 0 (mapM_ (λ h, world (run_hook h)) hs) [].
Proof.
  induction hs as [|h hs IH]; cbn [mapM_]; [by apply runs_quiet|].
  apply (runs_bind _ _ _ [] []); [lia|apply runs_world|done].
Qed.

Lemma runs_weaken {A} j (m : M AimRTCore A) evs : runs j m evs → runs 0 m evs.
Proof. intros H s. destruct (H s) as (k & _ & Hk). exists k. split; [lia|done]. Qed.

Lemma runs_enter1 st : runs 1 (EnterState st) [Entered st].
Proof.
  unfold EnterState. intros s.
  destruct (runs_hooks (co_hooks s st)
              (co_set_trace (co_trace s ++ [Entered st]) (co_set_state st s)))
    as (k & _ & Ht & Hst & Hfl & Hok).
  rewrite take_nil in *. exists 1. unfold record. unfold_monad. cbn in *.
  rewrite app_nil_r in Ht. split_and!; [lia|done..].
Qed.

Lemma runs_enter st : runs 0 (EnterState st) [Entered st].
Proof. eapply runs_weaken, runs_enter1. Qed.

Lemma runs_record e : (∀ st, e ≠ Entered st) → runs 0 (record e) [e].
Proof.
  intros He s. exists 1. cbn. split_and!; try done; [lia|].
  by destruct e as [st| | |]; [destruct (He st)|..].
Qed.

Lemma runs_init c key : runs 0 (init_manager c key) [Initialized c].
Proof.
  apply (runs_bind _ _ _ []); [lia|apply runs_world|]. intros o.
  apply (runs_bind _ _ _ [Initialized c] []); [lia|by apply runs_record|]. intros _. apply runs_world.
Qed.

Lemma runs_start c : runs 0 (start_manager c) [Started c].
Proof.
  apply (runs_bind _ _ _ [Started c] []); [lia|by apply runs_record|]. intros _. apply runs_world.
Qed.

Lemma runs_shutdown c : runs 0 (shutdown_manager c) [ShutDown c].
Proof.
  apply (runs_bind _ _ _ [ShutDown c] []); [lia|by apply runs_record|]. intros _. apply runs_world.
Qed.

Lemma runs_set_logger : runs 0 SetCoreLogger [].
Proof.
  apply (runs_bind _ _ _ [] []); [lia|apply runs_world|]. intros _. apply runs_core_logger.
Qed.

Lemma runs_eq {A} j (m : M AimRTCore A) e1 e2 : runs j m e1 → e1 = e2 → runs j m e2.
Proof. by intros ? <-. Qed.

(** Walk through a phase, one statement at a time. *)
Ltac run_step :=
  first [ apply runs_enter | apply runs_world | apply runs_gets | apply runs_init
        | apply runs_start | apply runs_shutdown | apply runs_set_logger
        | apply runs_core_logger | apply runs_cfg | by apply runs_record ].
Ltac run_phase :=
  eapply runs_eq;
  [eapply runs_bind; [|apply runs_enter1|intros ?];
   [cbn; lia|repeat (eapply runs_bind; [apply Nat.le_0_l|run_step|intros ?]); run_step]
  |reflexivity].

Lemma Initialize_runs cfg : runs 1 (Initialize cfg) init_plan.
Proof. unfold Initialize. run_phase. Qed.

Lemma start_all_runs : runs 1 start_all start_plan.
Proof. unfold start_all. run_phase. Qed.

Lemma shutdown_all_runs : runs 1 shutdown_all shutdown_plan.
Proof. unfold shutdown_all, ResetCoreLogger. run_phase. Qed.

(** ** The phases *)

Lemma StartImpl_guarded s :
  co_state s ≠ kPostInit →
  StartImpl s = (Throw (AimRTException
    "Initialization report can only be generated after initialization is complete."), s).
Proof.
  intros Hs. unfold StartImpl, GenInitializationReport. unfold_monad.
  by rewrite bool_decide_false.
Qed.

Lemma StartImpl_unguarded s : co_state s = kPostInit → StartImpl s = start_all s.
Proof.
  intros Hs. unfold StartImpl, GenInitializationReport. unfold_monad.
  by rewrite bool_decide_true.
Qed.

(** C35: The phases of the core.  Initializing, starting and shutting down run
    through exactly the states and calls of [init_plan], [start_plan] and
    [shutdown_plan]: every manager is called between the two states made for
    it, in the order of [components], and in the reverse order for shutting
    down.  When a manager or a hook throws, the phase has performed a prefix
    of its plan, and the state of the core is the last one entered.  Shutting
    down calls every manager, whether it was initialized or not. *)
Theorem core_phases s (cfg : string) :
  let performs (r : res unit * AimRTCore) (plan : list event) :=
    ∃ k, co_trace r.2 = co_trace s ++ take k plan ∧
      co_state r.2 = last_entered (co_state s) (take k plan) ∧
      (r.1 = Ok tt → take k plan = plan) in
  performs (Initialize cfg s) init_plan ∧
  (co_state s = kPostInit → performs (StartImpl s) start_plan) ∧
  (co_shutdown_impl_flag s = false → performs (ShutdownImpl s) shutdown_plan).
Proof.
  assert (∀ j (m : M AimRTCore unit) plan, runs j m plan → ∃ k, co_trace (m s).2 = co_trace s ++ take k plan ∧
      co_state (m s).2 = last_entered (co_state s) (take k plan) ∧
      ((m s).1 = Ok tt → take k plan = plan)) as Hr.
  { intros j m plan Hm. destruct (Hm s) as (k & _ & H1 & H2 & _ & H3). exists k. by split_and!; [| |apply H3]. }
  intros performs. split_and!.
  - eapply Hr, Initialize_runs.
  - intros Hst. rewrite StartImpl_unguarded by done. eapply Hr, start_all_runs.
  - intros Hf. unfold performs, ShutdownImpl. unfold_monad. rewrite Hf.
    destruct (shutdown_all_runs (co_set_shutdown_impl_flag true s)) as (k & _ & H1 & H2 & _ & H3).
    exists k. by split_and!; [| |apply H3].
Qed.

(** [Start] works once, right after [Initialize].  In any other state it
    throws and does nothing, and once it has run, whether it completed or
    threw in the middle, calling it again throws and does nothing. *)
Theorem StartImpl_once s :
  (co_state s ≠ kPostInit → ∃ e, StartImpl s = (Throw e, s)) ∧
  (let s1 := (StartImpl s).2 in ∃ e, StartImpl s1 = (Throw e, s1)).
Proof.
  split; [intros Hs; eexists; by apply StartImpl_guarded|].
  intros s1. eexists. apply StartImpl_guarded. unfold s1.
  destruct (decide (co_state s = kPostInit)) as [Hs|Hs]; [|by rewrite StartImpl_guarded].
  rewrite StartImpl_unguarded by done.
  destruct (start_all_runs s) as (k & Hk & _ & -> & _).
  assert (Forall (λ e, match e with Entered st => st ≠ kPostInit | _ => True end) start_plan) as Hall.
  { vm_compute. repeat (constructor; [done|]). constructor. }
  destruct k as [|k]; [lia|]. unfold start_plan, phase in *. cbn [take last_entered fold_left].
  apply Forall_cons in Hall as [Hfirst Hrest].
  apply (Forall_take _ k) in Hrest. revert Hfirst. unfold last_entered. cbn [fold_left]. generalize kPreStart at 1 3 as st. induction Hrest as [|e evs He _ IH]; intros st Hst; cbn; [done|].
  apply IH. by destruct e.
Qed.

(** ** Any sequence of calls *)

Inductive api :=
| ApiInitialize (cfg : string)
| ApiRegisterHookFunc (st : State) (h : Hook)
| ApiStart
| ApiWake
| ApiShutdown
| ApiDestroy.

(** An exception leaves the core as it was when it was thrown. *)
Definition run_api (a : api) s : AimRTCore :=
  match a with
  | ApiInitialize cfg => (Initialize cfg s).2
  | ApiRegisterHookFunc st h => (RegisterHookFunc st h s).2
  | ApiStart => (Start s).2
  | ApiWake => (Start_wake s).2
  | ApiShutdown => (Shutdown s).2
  | ApiDestroy => (Destroy s).2
  end.

(** The managers shut down, in order. *)
Definition shut (evs : list event) : list component :=
  omap (λ e, match e with ShutDown c => Some c | _ => None end) evs.

Lemma shut_take k evs : shut (take k evs) `prefix_of` shut evs.
Proof. rewrite <-(take_drop k evs) at 2. unfold shut. rewrite omap_app. by apply prefix_app_r. Qed.

Definition shutdown_inv s : Prop :=
  shut (co_trace s) `prefix_of` rev components ∧
  (co_shutdown_impl_flag s = false → shut (co_trace s) = []).

Lemma runs_shutdown_inv j (m : M AimRTCore unit) evs s :
  runs j m evs → shut evs = [] → shutdown_inv s → shutdown_inv (m s).2.
Proof.
  intros Hm He [H1 H2]. destruct (Hm s) as (k & _ & Ht & _ & (_ & _ & _ & Hf & _) & _).
  assert (shut (co_trace (m s).2) = shut (co_trace s)) as Heq.
  { rewrite Ht. unfold shut in *. rewrite omap_app. pose proof (shut_take k evs) as Hp.
    unfold shut in Hp. rewrite He in Hp. apply prefix_nil_inv in Hp. by rewrite Hp, app_nil_r. }
  split; rewrite Heq; [done|]. by rewrite Hf.
Qed.

Lemma ShutdownImpl_inv s : shutdown_inv s → shutdown_inv (ShutdownImpl s).2.
Proof.
  intros [H1 H2]. unfold ShutdownImpl. unfold_monad.
  destruct (co_shutdown_impl_flag s) eqn:Hf; [by split|].
  destruct (shutdown_all_runs (co_set_shutdown_impl_flag true s))
    as (k & _ & Ht & _ & (_ & _ & _ & Hf' & _) & _).
  split; [|rewrite Hf'; done]. rewrite Ht. unfold shut in *. rewrite omap_app.
  cbn [co_trace co_set_shutdown_impl_flag]. rewrite H2 by done.
  apply (shut_take k shutdown_plan).
Qed.

Lemma run_api_inv a s : shutdown_inv s → shutdown_inv (run_api a s).
Proof.
  intros Hi. destruct a; cbn [run_api].
  - by eapply runs_shutdown_inv; [apply Initialize_runs|done|].
  - done.
  - unfold Start. unfold_monad. destruct (decide (co_state s = kPostInit)) as [Hs|Hs].
    + rewrite StartImpl_unguarded by done.
      assert (shutdown_inv (start_all s).2) as Hi'
        by (by eapply runs_shutdown_inv; [apply start_all_runs|done|]).
      destruct (start_all s) as [[[]|e|] s1]; cbn in *; [|done|done].
      unfold take_future. unfold_monad. by destruct (co_future_taken s1).
    + by rewrite StartImpl_guarded.
  - unfold Start_wake. unfold_monad. destruct (_ && _); [|done]. by apply ShutdownImpl_inv.
  - unfold Shutdown. unfold_monad. destruct (co_shutdown_flag s); [done|]. by destruct (co_promise_set s).
  - unfold Destroy. unfold_monad. pose proof (ShutdownImpl_inv s Hi) as H.
    by destruct (ShutdownImpl s) as [[[]|e|] s1].
Qed.

(** Whatever the sequence of calls on the core, and whatever throws, the
    managers are shut down in the reverse order of their initialization and
    each at most once: by the thread that waits for the shutdown signal, by
    the destructor, or by the first of both. *)
Theorem shutdown_at_most_once (w : W) (calls : list api) :
  let s := fold_left (λ s a, run_api a s) calls (AimRTCore_new w) in
  shut (co_trace s) `prefix_of` rev components ∧ NoDup (shut (co_trace s)).
Proof.
  intros s. assert (shutdown_inv s) as [H _].
  { unfold s. assert (shutdown_inv (AimRTCore_new w)) as H0 by (split; [apply prefix_nil|done]).
    revert H0. generalize (AimRTCore_new w) as s0. induction calls as [|a calls IH]; intros s0 H0; [done|].
    cbn. by apply IH, run_api_inv. }
  split; [done|]. destruct H as [l Hl].
  assert (NoDup (rev components)) as Hnd by bdec. rewrite Hl in Hnd.
  by apply NoDup_app in Hnd as [? _].
Qed.
End AimRTCore.

(** ** Witnesses

    A world that lists what failed: hook [false] throws. *)

#[local] Instance demo_managers : Managers unit unit bool := {
  SetLogger _ := mret tt;
  Configurator_Initialize _ := mret tt;
  GetAimRTOptionsNode _ := mret tt;
  Manager_Initialize _ _ := mret tt;
  Manager_Start _ := mret tt;
  Manager_Shutdown _ := mret tt;
  RegisterCorePtr := mret tt;
  RegisterGetExecutorFunc _ := mret tt;
  RegisterCoreProxyConfigurator := mret tt;
  SetUsedExecutorName _ := mret tt;
  Executor_Name _ _ := "aimrt_guard";
  GetLoggerProxy _ := mret tt;
  CheckYamlNodes := mret tt;
  Manager_Report _ _ := [];
  Base_Info _ := [[lit "Version"; lit "1"]];
  run_hook h := if h then mret tt else throw (UserException "hook")
}.

(** A whole life; the managers are shut down once though the destructor runs
    as well. *)
Example core_whole_life :
  co_trace (fold_left (λ s a, run_api a s)
    [ApiInitialize "cfg"; ApiStart; ApiShutdown; ApiWake; ApiDestroy] (AimRTCore_new tt)) =
  init_plan ++ start_plan ++ shutdown_plan.
Proof. by vm_compute. Qed.

(** A hook that throws while the logger is being initialized. *)
Example core_interrupted :
  shut (co_trace (fold_left (λ s a, run_api a s)
    [ApiRegisterHookFunc kPreInitLog false; ApiInitialize "cfg"; ApiStart; ApiDestroy]
    (AimRTCore_new tt))) = rev components.
Proof. by vm_compute. Qed.

Lemma core_phases_witness :
  let s := (Initialize "cfg" (AimRTCore_new tt)).2 in
  co_state s = kPostInit ∧
  ∃ k, co_trace (StartImpl s).2 = co_trace s ++ take k start_plan ∧
    ((StartImpl s).1 = Ok tt → take k start_plan = start_plan).
Proof.
  intros s. assert (co_state s = kPostInit) as Hs by (by vm_compute). clearbody s.
  split; [exact Hs|]. destruct (core_phases s "cfg") as (_ & H & _). destruct (H Hs) as (k & H1 & _ & H2). exists k. split; [exact H1|exact H2].
Defined.

Lemma StartImpl_once_witness :
  let s := AimRTCore_new tt in ∃ e, StartImpl s = (Throw e, s).
Proof. intros s. destruct (StartImpl_once s) as [H _]. apply H. discriminate. Defined.
