(* ===== verification/Report.v ===== *)
(** * Tables of reports: the loops of [GenInitializationReport] in
    [src/runtime/core/channel/channel_manager.cc] and
    [src/runtime/core/rpc/rpc_manager.cc]

    Both managers print, for each direction, a table with one row per topic and
    message type, or per function, that has been registered; the modules that
    have registered it are listed in one cell of the row, one per line.  The
    loops are the same up to what a row is for, [K], and the cells that say so.

    Theorem [table_of_ok]: a table has exactly one row for each. *)

From S2P Require Import Prelude StringUtil.

Section Table.
(** What a row is for; its first [width] cells. *)
Context {K : Type} `{Countable K} (cells : K → list bytes) (width : nat).
(** An entry of the index: its row and its module. *)
Context {E : Type} (key_of : string → E → K) (module_of : E → string).
(** The error of a name that has no backends. *)
Context (what : string).

Abbreviation Table := (list (list bytes) * gmap K nat)%type.

Definition add_module (module : string) (row : list bytes) : list bytes :=
  alter (λ cell, cell ++ ["010"%char] ++ lit module) width row.

(** [indices] tells which row there already is. *)
Definition add_row (backends filters : bytes) (k : K) (module : string) (acc : Table) : Table :=
  let '(table, indices) := acc in
  match indices !! k with
  | Some i => (alter (add_module module) i table, indices)
  | None => (table ++ [cells k ++ [lit module; backends; filters]], <[k := length table]> indices)
  end.

Definition add_entries (t : string) (backends filters : bytes) (es : list E) (acc : Table) : Table :=
  foldl (λ acc e, add_row backends filters (key_of t e) (module_of e) acc) acc es.

(** The rows of each name of the index, which must have its backends. *)
Fixpoint add_names (info : gmap string (list string)) (filters : string → list string)
    (names : list (string * list E)) (acc : Table) : res (list (list bytes)) :=
  match names with
  | [] => Ok acc.1
  | (t, es) :: names' =>
      match info !! t with
      | None => Throw (AimRTException what)
      | Some bs =>
          add_names info filters names'
            (add_entries t (JoinVec (map lit bs) (lit ",")) (JoinVec (map lit (filters t)) (lit ",")) es acc)
      end
  end.

Definition table_of (header : list bytes) (index : gmap string (list E)) (info : gmap string (list string))
    (filters : string → list string) : res (list (list bytes)) :=
  add_names info filters (map_to_list index) ([header], ∅).

(** ** The rows follow the index *)

Context (Hwidth : ∀ k, length (cells k) = width) (Hcells : Inj (=) (=) cells).
Implicit Types acc : Table.

Record table_ok (header : list bytes) acc : Prop := {
  table_head : ∃ rows, acc.1 = header :: rows;
  table_indexed k i : acc.2 !! k = Some i → 1 ≤ i ∧ ∃ row, acc.1 !! i = Some row ∧ take width row = cells k;
  table_rows i row : 1 ≤ i → acc.1 !! i = Some row → ∃ k, acc.2 !! k = Some i
}.

Lemma take_add_module module row : take width (add_module module row) = take width row.
Proof. unfold add_module. apply take_alter_ge. lia. Qed.

Lemma take_cells k l : take width (cells k ++ l) = cells k.
Proof. rewrite <-(Hwidth k). apply take_app_length. Qed.

Lemma add_row_ok header backends filters k module acc :
  table_ok header acc →
  table_ok header (add_row backends filters k module acc) ∧
  ∀ k', is_Some ((add_row backends filters k module acc).2 !! k') ↔ k' = k ∨ is_Some (acc.2 !! k').
Proof.
  destruct acc as [table indices]. intros [[rows Hh] Hi Hr]; cbn in *. unfold add_row.
  destruct (indices !! k) as [i0|] eqn:Hk.
  - destruct (Hi k i0 Hk) as (Hge & _). split.
    + split; cbn.
      * destruct i0 as [|i0]; [lia|]. rewrite Hh. by eexists.
      * intros k' i Hp. destruct (Hi k' i Hp) as (Hge' & row & Hrow & Htake). split; [done|].
        destruct (decide (i = i0)) as [->|Hne].
        -- rewrite list_lookup_alter_eq, Hrow. eexists. split; [reflexivity|]. by rewrite take_add_module.
        -- rewrite list_lookup_alter_ne by done. by eauto.
      * intros i row Hi1 Hrow. destruct (decide (i = i0)) as [->|Hne]; [by eauto|].
        rewrite list_lookup_alter_ne in Hrow by done. by eapply Hr.
    + cbn. intros k'. split; [by right|]. intros [->|]; [by rewrite Hk|done].
  - split.
    + split; cbn.
      * rewrite Hh. by eexists.
      * intros k' i Hp. destruct (decide (k' = k)) as [->|Hne].
        -- rewrite lookup_insert_eq in Hp. injection Hp as <-. split; [rewrite Hh; cbn; lia|].
           rewrite lookup_app_r, Nat.sub_diag by lia. eexists. split; [reflexivity|]. apply take_cells.
        -- rewrite lookup_insert_ne in Hp by done. destruct (Hi k' i Hp) as (Hge & row & Hrow & Htake).
           split; [done|]. exists row. split; [by apply lookup_app_l_Some|done].
      * intros i row Hi1 Hrow. apply lookup_app_Some in Hrow as [Hrow|[Hlen Hrow]].
        -- destruct (Hr i row Hi1 Hrow) as [k' Hp]. exists k'. rewrite lookup_insert_ne; [done|].
           intros <-. by rewrite Hk in Hp.
        -- apply list_lookup_singleton_Some in Hrow as [Hi0 _]. exists k.
           rewrite lookup_insert_eq. f_equal. lia.
    + cbn. intros k'. destruct (decide (k' = k)) as [->|Hne].
      * rewrite lookup_insert_eq. split; [by left|by eauto].
      * rewrite lookup_insert_ne by done. split; [by right|]. by intros [|].
Qed.

Lemma add_entries_ok header t backends filters es : ∀ acc,
  table_ok header acc →
  let acc' := add_entries t backends filters es acc in
  table_ok header acc' ∧
  ∀ k, is_Some (acc'.2 !! k) ↔ (∃ e, e ∈ es ∧ k = key_of t e) ∨ is_Some (acc.2 !! k).
Proof.
  unfold add_entries. induction es as [|e es IH]; intros acc Hok.
  - split; [done|]. intros k. split; [by right|]. intros [(e & He & _)|]; [by apply not_elem_of_nil in He|done].
  - cbn. destruct (add_row_ok header backends filters (key_of t e) (module_of e) acc Hok) as [Hok1 Hp1].
    destruct (IH _ Hok1) as [Hok2 Hp2]. split; [exact Hok2|]. intros k. rewrite Hp2, Hp1. split.
    + intros [(e' & He' & ->)|[->|]]; [left; exists e'; split; [by right|done]|left; exists e; split; [by left|done]|by right].
    + intros [(e' & [->|He']%elem_of_cons & ->)|]; [right; by left|left; by exists e'|right; by right].
Qed.

Lemma add_names_ok header info filters names : ∀ acc,
  table_ok header acc → (∀ t es, (t, es) ∈ names → is_Some (info !! t)) →
  ∃ table indices, add_names info filters names acc = Ok table ∧ table_ok header (table, indices) ∧
    ∀ k, is_Some (indices !! k) ↔
      (∃ t es e, (t, es) ∈ names ∧ e ∈ es ∧ k = key_of t e) ∨ is_Some (acc.2 !! k).
Proof.
  induction names as [|[t es] names IH]; intros acc Hok Hinfo.
  - exists acc.1, acc.2. split; [done|]. split; [by destruct acc|]. intros k. split; [by right|].
    intros [(t & es & e & Hin & _)|]; [by apply not_elem_of_nil in Hin|done].
  - cbn [add_names]. destruct (Hinfo t es) as [bs ->]; [apply list_elem_of_here|].
    set (backends := JoinVec _ _). set (fs := JoinVec _ _).
    destruct (add_entries_ok header t backends fs es acc Hok) as [Hok1 Hp1].
    destruct (IH _ Hok1) as (table & indices & Ht & Hok2 & Hp2).
    { intros t' es' Hin. apply (Hinfo t' es'). by right. }
    exists table, indices. split; [exact Ht|]. split; [done|]. intros k. rewrite Hp2, Hp1. split.
    + intros [(t' & es' & e & Hin & He & ->)|[(e & He & ->)|]].
      * left. exists t', es', e. split; [by right|done].
      * left. exists t, es, e. split; [by left|done].
      * by right.
    + intros [(t' & es' & e & Hin & He & ->)|]; [|by auto].
      apply elem_of_cons in Hin as [[= -> ->]|Hin]; [right; left; by exists e|left; by exists t', es', e].
Qed.

Lemma table_ok_rows header table indices :
  table_ok header (table, indices) →
  ∃ rows, table = header :: rows ∧ NoDup (take width <$> rows) ∧
    ∀ k, cells k ∈ take width <$> rows ↔ is_Some (indices !! k).
Proof.
  intros [[rows Hh] Hi Hr]. cbn in *. subst table. exists rows. split; [done|].
  assert (∀ j row, rows !! j = Some row → ∃ k, indices !! k = Some (S j) ∧ take width row = cells k) as Hrow.
  { intros j row Hj. destruct (Hr (S j) row) as [k Hk]; [lia|done|]. exists k. split; [done|].
    destruct (Hi k _ Hk) as (_ & row' & Hrow' & Htake). change (rows !! j = Some row') in Hrow'.
    rewrite Hj in Hrow'. by injection Hrow' as <-. }
  split.
  - apply NoDup_alt. intros j1 j2 x H1 H2. rewrite list_lookup_fmap in H1, H2.
    apply fmap_Some in H1 as (row1 & Hj1 & ->). apply fmap_Some in H2 as (row2 & Hj2 & Hx).
    destruct (Hrow j1 row1 Hj1) as (k1 & Hk1 & Ht1). destruct (Hrow j2 row2 Hj2) as (k2 & Hk2 & Ht2).
    rewrite Ht1, Ht2 in Hx. apply Hcells in Hx as ->. rewrite Hk1 in Hk2. by injection Hk2.
  - intros k. rewrite list_elem_of_fmap. split.
    + intros (row & Hx & [j Hj]%list_elem_of_lookup). destruct (Hrow j row Hj) as (k' & Hk & Htake).
      rewrite Htake in Hx. apply Hcells in Hx as ->. by eauto.
    + intros [i Hk]. destruct (Hi _ _ Hk) as (Hge & row & Hlook & Htake). destruct i as [|j]; [lia|].
      exists row. split; [done|]. by apply (list_elem_of_lookup_2 _ j).
Qed.

(** The table of an index whose names all have their backends. *)
Lemma table_of_ok header index info filters :
  (∀ t es, index !! t = Some es → is_Some (info !! t)) →
  ∃ rows, table_of header index info filters = Ok (header :: rows) ∧ NoDup (take width <$> rows) ∧
    ∀ k, cells k ∈ take width <$> rows ↔ ∃ t es e, index !! t = Some es ∧ e ∈ es ∧ key_of t e = k.
Proof.
  intros Hinfo. unfold table_of.
  destruct (add_names_ok header info filters (map_to_list index) ([header], ∅)) as (table & indices & Ht & Hok & Hp).
  - split; cbn; [by exists []|intros *; by rewrite lookup_empty|]. intros [|i] row Hi Hl; [lia|done].
  - intros t es Hin%elem_of_map_to_list. by eapply Hinfo.
  - destruct (table_ok_rows header table indices Hok) as (rows & -> & Hnd & Hrows).
    exists rows. split; [done|]. split; [done|]. intros k. rewrite Hrows, Hp. split.
    + intros [(t & es & e & Hin%elem_of_map_to_list & He & ->)|[? Hs]]; [by exists t, es, e|].
      cbn in Hs. by rewrite lookup_empty in Hs.
    + intros (t & es & e & Hin & He & <-). left. exists t, es, e. by rewrite elem_of_map_to_list.
Qed.
End Table.

