(* ===== verification/Filters.v ===== *)
(** * Filters: [src/runtime/core/channel/channel_framework_async_filter.h]

    A filter turns a handle into another.  A manager keeps filters by name and
    composes those a topic is to have into a collector.  The file of the rpc
    subsystem, [src/runtime/core/rpc/rpc_framework_async_filter.h], has the same
    classes for another type of handles: here the type [H] of handles is a
    parameter.  A filter that calls its handle after it has returned is not
    modelled.

    Theorem: the filters of a topic form an onion. *)

From S2P Require Import Prelude.

(** Calling an empty [std::function] throws. *)
Class BadCall (H : Type) := bad_function_call : H.

#[export] Instance bad_call {S A} : BadCall (M S A) := throw (RuntimeError "bad_function_call").
#[export] Instance bad_call_fun {A H} `{BadCall H} : BadCall (A → H) | 10 := λ _, bad_function_call.

(** ** Filters *)

Section Filters.
Context {H : Type} `{BadCall H}.

(* @src src/src/runtime/core/channel/channel_framework_async_filter.h:12-13 FrameworkAsyncChannelFilter *)
Definition Filter : Type := H → H.

(* @src src/src/runtime/core/channel/channel_framework_async_filter.h:47-49 FrameworkAsyncChannelFilterCollector *)
Record Collector := mkCollector { final_filter : option Filter }.

(* @src src/src/runtime/core/channel/channel_framework_async_filter.h:17-21 FrameworkAsyncChannelFilterCollector::FrameworkAsyncChannelFilterCollector *)
Definition Collector_new : Collector := mkCollector (Some (λ h, h)).

Definition apply_filter (f : option Filter) : Filter := λ h,
  match f with
  | Some f => f h
  | None => bad_function_call
  end.

(* @src src/src/runtime/core/channel/channel_framework_async_filter.h:27-37 FrameworkAsyncChannelFilterCollector::RegisterFilter *)
Definition Collector_RegisterFilter (filter : Filter) (c : Collector) : Collector :=
  mkCollector (Some (λ h, filter (apply_filter (final_filter c) h))).

(* @src src/src/runtime/core/channel/channel_framework_async_filter.h:39-41 FrameworkAsyncChannelFilterCollector::InvokeChannel *)
Definition InvokeChannel (c : Collector) (h : H) : H :=
  apply_filter (final_filter c) h.

(* @src src/src/runtime/core/channel/channel_framework_async_filter.h:43-45 FrameworkAsyncChannelFilterCollector::Clear *)
Definition Collector_Clear (c : Collector) : Collector := mkCollector None.

(* @src src/src/runtime/core/channel/channel_framework_async_filter.h:123-144 FrameworkAsyncChannelFilterManager *)
Record FilterManager := mkFilterManager {
  filter_map : gmap string Filter;
  filter_collector_map : gmap string Collector;
  filter_names_map : gmap string (list string)
}.

Definition FilterManager_new : FilterManager := mkFilterManager ∅ ∅ ∅.

(* @src src/src/runtime/core/channel/channel_framework_async_filter.h:59-62 FrameworkAsyncChannelFilterManager::RegisterFilter *)
Definition RegisterFilter (name : string) (filter : Filter) : M FilterManager unit :=
  fm ← get;
  match filter_map fm !! name with
  | Some _ => throw (AimRTException "Register filter {} failed.")
  | None => put (mkFilterManager (<[name := filter]> (filter_map fm))
                   (filter_collector_map fm) (filter_names_map fm))
  end.

(* @src src/src/runtime/core/channel/channel_framework_async_filter.h:64-71 FrameworkAsyncChannelFilterManager::GetAllFiltersName *)
Definition GetAllFiltersName (fm : FilterManager) : list string := (map_to_list (filter_map fm)).*1.

(** The collector of a list of names. *)
Fixpoint collect (fm : FilterManager) (names : list string) (c : Collector) : res Collector :=
  match names with
  | [] => Ok c
  | name :: names' =>
      match filter_map fm !! name with
      | None => Throw (AimRTException "Can not find filter: {}")
      | Some f => collect fm names' (Collector_RegisterFilter f c)
      end
  end.

(* @src src/src/runtime/core/channel/channel_framework_async_filter.h:73-92 FrameworkAsyncChannelFilterManager::CreateFilterCollector *)
Definition CreateFilterCollector (topic : string) (filter_name_vec : list string) : M FilterManager unit :=
  match filter_name_vec with
  | [] => mret tt
  | _ =>
      fm ← get;
      c ← lift (collect fm filter_name_vec Collector_new);
      check_throw (negb (bool_decide (is_Some (filter_collector_map fm !! topic))))
        "Func {} set filter collector failed.";;
      put (mkFilterManager (filter_map fm) (<[topic := c]> (filter_collector_map fm))
             (match filter_names_map fm !! topic with
              | Some _ => filter_names_map fm
              | None => <[topic := filter_name_vec]> (filter_names_map fm)
              end))
  end.

(* @src src/src/runtime/core/channel/channel_framework_async_filter.h:94-98 FrameworkAsyncChannelFilterManager::CreateFilterCollectorIfNotExist *)
Definition CreateFilterCollectorIfNotExist (topic : string) (filter_name_vec : list string)
    : M FilterManager unit :=
  fm ← get;
  match filter_collector_map fm !! topic with
  | None => CreateFilterCollector topic filter_name_vec
  | Some _ => mret tt
  end.

(* @src src/src/runtime/core/channel/channel_framework_async_filter.h:100-107 FrameworkAsyncChannelFilterManager::GetFilterCollector *)
Definition GetFilterCollector (fm : FilterManager) (topic : string) : Collector :=
  default Collector_new (filter_collector_map fm !! topic).

(* @src src/src/runtime/core/channel/channel_framework_async_filter.h:109-116 FrameworkAsyncChannelFilterManager::GetFilterNameVec *)
Definition GetFilterNameVec (fm : FilterManager) (topic : string) : list string :=
  default [] (filter_names_map fm !! topic).

(* @src src/src/runtime/core/channel/channel_framework_async_filter.h:118-121 FrameworkAsyncChannelFilterManager::Clear *)
Definition FilterManager_Clear (fm : FilterManager) : FilterManager :=
  mkFilterManager ∅ ∅ (filter_names_map fm).
End Filters.

Arguments Filter : clear implicits.
Arguments Collector : clear implicits.
Arguments FilterManager : clear implicits.

(** * Filters *)

Section FilterSpec.
Context {H : Type} `{BadCall H}.
Implicit Types fm : FilterManager H.

(** The handle that [h] becomes under the filters [fs]: the first is the
    innermost. *)
Definition onion (fs : list (Filter H)) (h : H) : H :=
  foldl (λ h f, f h) h fs.

Lemma collect_spec fm names fs c :
  Forall2 (λ n f, filter_map fm !! n = Some f) names fs →
  ∃ c', collect fm names c = Ok c' ∧ ∀ h, InvokeChannel c' h = onion fs (InvokeChannel c h).
Proof.
  intros Hn. revert c; induction Hn as [|n f names fs Hf _ IH]; intros c; [by exists c|].
  cbn [collect]. rewrite Hf. destruct (IH (Collector_RegisterFilter f c)) as (c' & -> & Hc').
  by exists c'.
Qed.

Lemma collect_unknown fm names c :
  Exists (λ n, filter_map fm !! n = None) names → ∃ e, collect fm names c = Throw e.
Proof.
  intros Hn. revert c. induction Hn as [n names Hn|n names _ IH]; intros c; cbn [collect].
  - rewrite Hn. eauto.
  - destruct (filter_map fm !! n); [apply IH|by eauto].
Qed.

(** Filters form an onion.  For a topic without filters yet, the listed
    filters are composed so that the last of the list sees the message first
    and the first of the list calls the handle itself; a topic keeps the
    filters it first got; and a name that is not registered makes the call
    throw and leaves the manager as it was. *)
Theorem filters_compose fm (topic : string) (names : list string) (fs : list (Filter H)) :
  filter_collector_map fm !! topic = None →
  (Forall2 (λ n f, filter_map fm !! n = Some f) names fs →
   ∃ fm', CreateFilterCollectorIfNotExist topic names fm = (Ok tt, fm') ∧
     (∀ h, InvokeChannel (GetFilterCollector fm' topic) h = onion fs h) ∧
     (∀ t, t ≠ topic → GetFilterCollector fm' t = GetFilterCollector fm t) ∧
     (names ≠ [] → ∀ names', CreateFilterCollectorIfNotExist topic names' fm' = (Ok tt, fm'))) ∧
  (Exists (λ n, filter_map fm !! n = None) names →
   ∃ e, CreateFilterCollectorIfNotExist topic names fm = (Throw e, fm)).
Proof.
  intros Ht. unfold CreateFilterCollectorIfNotExist, CreateFilterCollector.
  split.
  - intros Hn. unfold_monad. rewrite Ht. destruct names as [|n names].
    + apply Forall2_nil_inv_l in Hn as ->. exists fm. split_and!; try done.
      intros h. unfold GetFilterCollector. by rewrite Ht.
    + destruct (collect_spec fm (n :: names) fs Collector_new Hn) as (c & Hc & Hh).
      rewrite Hc. cbn -[collect]. rewrite Ht. cbn. eexists. split; [reflexivity|]. split_and!.
      * intros h. unfold GetFilterCollector. cbn. rewrite lookup_insert_eq. apply Hh.
      * intros t Hne. unfold GetFilterCollector. cbn. by rewrite lookup_insert_ne.
      * intros _ names'. cbn. by rewrite lookup_insert_eq.
  - intros Hn. unfold_monad. rewrite Ht. destruct names as [|n names]; [by apply Exists_nil in Hn|].
    destruct (collect_unknown fm (n :: names) Collector_new Hn) as (e & He).
    rewrite He. by exists e.
Qed.
End FilterSpec.

(** * The theorem at a concrete input *)

Module FiltersDemo.
Definition count : Filter (M nat unit) := λ h, modify S;; h.
Definition fm : FilterManager (M nat unit) := mkFilterManager {["f" := count]} ∅ ∅.
End FiltersDemo.

Lemma filters_compose_witness :
  ∃ fm', CreateFilterCollectorIfNotExist "topic" ["f"; "f"] FiltersDemo.fm = (Ok tt, fm') ∧
    InvokeChannel (GetFilterCollector fm' "topic") (mret tt) 0 = (Ok tt, 2).
Proof.
  destruct (filters_compose FiltersDemo.fm "topic" ["f"; "f"] [FiltersDemo.count; FiltersDemo.count]
              (lookup_empty _)) as [H _].
  destruct H as (fm' & H1 & H2 & _); [repeat constructor; apply lookup_insert_eq|].
  exists fm'. split; [exact H1|]. by rewrite H2.
Defined.
