(* ===== verification/Channel.v ===== *)
(** * Messages of the channel subsystem: [src/runtime/core/channel/channel_msg_wrapper.h],
    [channel_backend_tools.h], [channel_registry.*] and the context of
    [src/interface/aimrt_module_cpp_interface/channel/channel_context.h]

    A [MsgWrapper] carries a message on its way: the message itself, or only
    serialized forms of it, or both.  [CheckMsg] makes sure the message is
    there, [SerializeMsgWithCache] that a serialized form is.  Contexts are
    shared by reference: they live in a store [ctxs] of the state [S], the rest
    of which belongs to the callbacks.  [ChannelRegistry] records who publishes
    and who subscribes.

    A type support is a record of functions the user supplies; that it
    round-trips is a hypothesis of the theorems that need it. *)

From S2P Require Import Prelude.

(** ** Contexts *)

Inductive context_type := AIMRT_CHANNEL_PUBLISHER_CONTEXT | AIMRT_CHANNEL_SUBSCRIBER_CONTEXT.

#[export] Instance context_type_eq_dec : EqDecision context_type.
Proof. solve_decision. Defined.

Definition KEY_SERIALIZATION_TYPE : string := "aimrt-serialization_type".
Definition KEY_BACKEND : string := "aimrt-backend".
Definition KEY_PUB_SEQ : string := "aimrt-pub_seq".
Definition KEY_PUB_TIMESTAMP : string := "aimrt-pub_ts".

(* @src src/src/interface/aimrt_module_cpp_interface/channel/channel_context.h:175-191 Context *)
Record Context := mkContext {
  meta_data_map : gmap string string;
  ctx_used : bool;
  ctx_type : context_type
}.

(* @src src/src/interface/aimrt_module_cpp_interface/channel/channel_context.h:21-27 Context::Context *)
Definition Context_new (t : context_type) : Context := mkContext ∅ false t.

(* @src src/src/interface/aimrt_module_cpp_interface/channel/channel_context.h:48-49 Context::SetUsed *)
Definition SetUsed (c : Context) : Context := mkContext (meta_data_map c) true (ctx_type c).

(* @src src/src/interface/aimrt_module_cpp_interface/channel/channel_context.h:51-55 Context::Reset *)
Definition Reset (c : Context) : Context := mkContext ∅ false (ctx_type c).

(* @src src/src/interface/aimrt_module_cpp_interface/channel/channel_context.h:60-64 Context::GetMetaValue *)
Definition GetMetaValue (c : Context) (key : string) : string := default "" (meta_data_map c !! key).

(* @src src/src/interface/aimrt_module_cpp_interface/channel/channel_context.h:66-73 Context::SetMetaValue *)
Definition SetMetaValue (key val : string) (c : Context) : Context :=
  mkContext (<[key := val]> (meta_data_map c)) (ctx_used c) (ctx_type c).

(* @src src/src/interface/aimrt_module_cpp_interface/channel/channel_context.h:75-80 Context::GetMetaKeys *)
Definition GetMetaKeys (c : Context) : list string := (map_to_list (meta_data_map c)).*1.

(* @src src/src/interface/aimrt_module_cpp_interface/channel/channel_context.h:88-90 Context::GetSerializationType *)
Definition GetSerializationType (c : Context) : string := GetMetaValue c KEY_SERIALIZATION_TYPE.

(** The store of contexts of a state. *)
Class HasContexts (S : Type) := {
  ctxs : S → gmap nat Context;
  set_ctxs : gmap nat Context → S → S;
  ctxs_set_ctxs m s : ctxs (set_ctxs m s) = m;
  set_ctxs_set_ctxs m m' s : set_ctxs m (set_ctxs m' s) = set_ctxs m s
}.

Section Contexts.
Context {S : Type} `{HasContexts S}.

(** Dereferencing a [ContextRef]; the assertion of its methods is that it is
    not null. *)
Definition get_ctx (ctx_ref : nat) : M S Context :=
  s ← get;
  match ctxs s !! ctx_ref with
  | Some c => mret c
  | None => throw (AimRTException "Reference is null.")
  end.

Definition update_ctx (ctx_ref : nat) (f : Context → Context) : M S unit :=
  c ← get_ctx ctx_ref;
  modify (λ s, set_ctxs (<[ctx_ref := f c]> (ctxs s)) s).

(** [std::make_shared<aimrt::channel::Context>(type)] *)
Definition new_ctx (t : context_type) : M S nat :=
  s ← get;
  let id := fresh (dom (ctxs s)) in
  modify (λ s, set_ctxs (<[id := Context_new t]> (ctxs s)) s);;
  mret id.
End Contexts.

(** ** Messages *)

(** [aimrt::util::BufferArrayView]: the buffers of a serialized message. *)
Abbreviation BufferArrayView := (list bytes).

Section Channel.
Context {Msg : Type}.

(** [aimrt::util::TypeSupportRef]: functions the user supplies. *)
Record TypeSupport := mkTypeSupport {
  TypeName : string;
  SerializationTypesSupportedList : list string;
  Copy : Msg → Msg;
  Serialize : string → Msg → option BufferArrayView;
  Deserialize : string → BufferArrayView → option Msg
}.

(** The first of the list: reading it from an empty list is undefined. *)
(* @src src/src/interface/aimrt_module_cpp_interface/util/type_support.h:104-106 TypeSupportRef::DefaultSerializationType *)
Definition DefaultSerializationType (ts : TypeSupport) : res string :=
  match SerializationTypesSupportedList ts with
  | t :: _ => Ok t
  | [] => Undef
  end.

(* @src src/src/runtime/core/channel/channel_msg_wrapper.h:18-26 TopicInfo *)
Record TopicInfo := mkTopicInfo {
  msg_type : string;
  topic_name : string;
  pkg_path : string;
  module_name : string;
  ti_index : Z;
  msg_type_support_ref : TypeSupport
}.

(** [msg_cache_ptr] only keeps the message alive; it has no field here. *)
(* @src src/src/runtime/core/channel/channel_msg_wrapper.h:32-52 MsgWrapper *)
Record MsgWrapper := mkMsgWrapper {
  mw_info : TopicInfo;
  msg_ptr : option Msg;
  ctx_ref : nat;
  serialization_cache : gmap string BufferArrayView
}.

Definition set_msg (m : Msg) (w : MsgWrapper) : MsgWrapper :=
  mkMsgWrapper (mw_info w) (Some m) (ctx_ref w) (serialization_cache w).
Definition add_cache (ty : string) (b : BufferArrayView) (w : MsgWrapper) : MsgWrapper :=
  mkMsgWrapper (mw_info w) (msg_ptr w) (ctx_ref w) (<[ty := b]> (serialization_cache w)).

Definition deserialize_into (ts : TypeSupport) (ty : string) (b : BufferArrayView) : M MsgWrapper unit :=
  match Deserialize ts ty b with
  | Some m => modify (set_msg m)
  | None => throw (AimRTException "Can not get msg, msg is null and deserialize failed.")
  end.

(** The loop over the supported types when several forms are cached. *)
Fixpoint check_supported (ts : TypeSupport) (types : list string) : M MsgWrapper unit :=
  match types with
  | [] => throw (AimRTException "Can not get msg, msg is null and can not deserialize from cache.")
  | ty :: types' =>
      w ← get;
      match serialization_cache w !! ty with
      | None => check_supported ts types'
      | Some b => deserialize_into ts ty b
      end
  end.

(* @src src/src/runtime/core/channel/channel_backend_tools.h:173-224 CheckMsg *)
Definition CheckMsg : M MsgWrapper unit :=
  w ← get;
  match msg_ptr w with
  | Some _ => mret tt
  | None =>
      let ts := msg_type_support_ref (mw_info w) in
      match map_to_list (serialization_cache w) with
      | [] =>
          throw (AimRTException "Can not get msg, msg is null and serialization cache is empty.")
      | [(ty, b)] => deserialize_into ts ty b
      | _ => check_supported ts (SerializationTypesSupportedList ts)
      end
  end.

(* @src src/src/runtime/core/channel/channel_backend_tools.h:226-233 TryCheckMsg *)
Definition TryCheckMsg : M MsgWrapper bool :=
  try_catch (CheckMsg;; mret true) (λ _, mret false).

(* @src src/src/runtime/core/channel/channel_backend_tools.h:235-263 SerializeMsgWithCache *)
Definition SerializeMsgWithCache (serialization_type : string) : M MsgWrapper BufferArrayView :=
  w ← get;
  match serialization_cache w !! serialization_type with
  | Some b => mret b
  | None =>
      CheckMsg;;
      w ← get;
      match msg_ptr w with
      | None => undef
      | Some m =>
          match Serialize (msg_type_support_ref (mw_info w)) serialization_type m with
          | None => throw (AimRTException "Serialize failed.")
          | Some b =>
              modify (add_cache serialization_type b);;
              mret b
          end
      end
  end.

(* @src src/src/runtime/core/channel/channel_backend_tools.h:265-272 TrySerializeMsgWithCache *)
Definition TrySerializeMsgWithCache (serialization_type : string)
    : M MsgWrapper (option BufferArrayView) :=
  try_catch (b ← SerializeMsgWithCache serialization_type; mret (Some b)) (λ _, mret None).
End Channel.

Arguments TypeSupport : clear implicits.
Arguments TopicInfo : clear implicits.
Arguments MsgWrapper : clear implicits.

(** ** Callbacks

    A callback or handle works on the message wrapper it is given, which it may
    change, and on the state. *)

Section Flows.
Context {Msg S : Type}.

Definition Flow : Type := MsgWrapper Msg * S.
Definition Handle : Type := M Flow unit.

Definition on_msg {A} (m : M (MsgWrapper Msg) A) : M Flow A := zoom fst (λ w f, (w, f.2)) m.
Definition on_state {A} (m : M S A) : M Flow A := zoom snd (λ s f, (f.1, s)) m.

(** Call [h] on a wrapper of its own, a local variable of the caller. *)
Definition call_with (w : MsgWrapper Msg) (h : Handle) : M S unit := λ s,
  let '(r, (_, s')) := h (w, s) in (r, s').

(* @src src/src/runtime/core/channel/channel_registry.h:18-22 SubscribeWrapper *)
Record SubscribeWrapper := mkSubscribeWrapper {
  sw_info : TopicInfo Msg;
  sw_require_cache_serialization_types : gset string;
  sw_callback : Handle
}.

(* @src src/src/runtime/core/channel/channel_registry.h:24-27 PublishTypeWrapper *)
Record PublishTypeWrapper := mkPublishTypeWrapper {
  pw_info : TopicInfo Msg;
  pw_require_cache_serialization_types : gset string
}.

(** ** [SubscribeTool] *)

(* @src src/src/runtime/core/channel/channel_backend_tools.h:168-171 SubscribeTool *)
Record SubscribeTool := mkSubscribeTool {
  sub_wrapper_vec : list SubscribeWrapper;
  require_cache_serialization_types : gset string
}.

(* @src src/src/runtime/core/channel/channel_backend_tools.h:20-25 SubscribeTool::AddSubscribeWrapper *)
Definition AddSubscribeWrapper (w : SubscribeWrapper) (t : SubscribeTool) : SubscribeTool :=
  mkSubscribeTool (sub_wrapper_vec t ++ [w])
    (require_cache_serialization_types t ∪ sw_require_cache_serialization_types w).

(** Call a subscriber with the message. *)
Definition deliver_msg (ctx : nat) (m : Msg) (w : SubscribeWrapper) : M S unit :=
  call_with (mkMsgWrapper (sw_info w) (Some m) ctx ∅) (sw_callback w).
(** Call a subscriber with a serialized form. *)
Definition deliver_cache (ctx : nat) (ty : string) (b : BufferArrayView) (w : SubscribeWrapper) : M S unit :=
  call_with (mkMsgWrapper (sw_info w) None ctx {[ty := b]}) (sw_callback w).

(** [DoSubscribeCallback] with a message: [is_first] tells whether the
    wrapper passed is the first of the tool, which is asserted. *)
(* @src src/src/runtime/core/channel/channel_backend_tools.h:27-71 SubscribeTool::DoSubscribeCallback (message) *)
Definition DoSubscribeCallback_msg (t : SubscribeTool) (ctx : nat) (is_first : bool) (m : Msg) : M S unit :=
  match sub_wrapper_vec t with
  | [] => undef
  | w0 :: rest =>
      check_throw is_first "Unexpected errors.";;
      deliver_msg ctx m w0;;
      match rest with
      | [] => mret tt
      | _ =>
          let ts := msg_type_support_ref (sw_info w0) in
          ty ← lift (DefaultSerializationType ts);
          match Serialize ts ty m with
          | None => throw (AimRTException "Serialize failed.")
          | Some b => mapM_ (deliver_cache ctx ty b) rest
          end
      end
  end.

(* @src src/src/runtime/core/channel/channel_backend_tools.h:127-150 SubscribeTool::DoSubscribeCallbackWithoutCache *)
Definition DoSubscribeCallbackWithoutCache (t : SubscribeTool) (ctx : nat) (ty : string)
    (b : BufferArrayView) : M S unit :=
  mapM_ (λ w, match Deserialize (msg_type_support_ref (sw_info w)) ty b with
              | None => throw (AimRTException "Msg deserialize failed.")
              | Some m => deliver_msg ctx m w
              end) (sub_wrapper_vec t).

(* @src src/src/runtime/core/channel/channel_backend_tools.h:152-166 SubscribeTool::DoSubscribeCallbackWithCache *)
Definition DoSubscribeCallbackWithCache (t : SubscribeTool) (ctx : nat) (ty : string)
    (b : BufferArrayView) : M S unit :=
  mapM_ (deliver_cache ctx ty b) (sub_wrapper_vec t).

(** The buffers are copied into one when the form must be kept. *)
(* @src src/src/runtime/core/channel/channel_backend_tools.h:73-101 SubscribeTool::DoSubscribeCallback (buffers) *)
Definition DoSubscribeCallback_buffers (t : SubscribeTool) (ctx : nat) (ty : string)
    (b : BufferArrayView) : M S unit :=
  if bool_decide (ty ∈ require_cache_serialization_types t)
  then DoSubscribeCallbackWithCache t ctx ty [concat b]
  else DoSubscribeCallbackWithoutCache t ctx ty b.

(* @src src/src/runtime/core/channel/channel_backend_tools.h:103-124 SubscribeTool::DoSubscribeCallback (data) *)
Definition DoSubscribeCallback_data (t : SubscribeTool) (ctx : nat) (ty : string) (data : bytes) : M S unit :=
  if bool_decide (ty ∈ require_cache_serialization_types t)
  then DoSubscribeCallbackWithCache t ctx ty [data]
  else DoSubscribeCallbackWithoutCache t ctx ty [data].
End Flows.

Arguments Flow : clear implicits.
Arguments Handle : clear implicits.
Arguments SubscribeWrapper : clear implicits.
Arguments PublishTypeWrapper : clear implicits.
Arguments SubscribeTool : clear implicits.

(** ** [ChannelRegistry] *)

(* @src src/src/runtime/core/channel/channel_registry.h:73-94 ChannelRegistry::Key *)
Record Key := mkKey { k_msg_type : string; k_topic_name : string; k_pkg_path : string; k_module_name : string }.
(* @src src/src/runtime/core/channel/channel_registry.h:96-114 ChannelRegistry::MTPKey *)
Record MTPKey := mkMTPKey { m_msg_type : string; m_topic_name : string; m_pkg_path : string }.

#[export] Instance Key_eq_dec : EqDecision Key.
Proof. solve_decision. Defined.
#[export] Instance Key_countable : Countable Key.
Proof.
  apply (inj_countable' (λ k, (k_msg_type k, k_topic_name k, k_pkg_path k, k_module_name k))
                        (λ '(a, b, c, d), mkKey a b c d)). by intros [].
Defined.
#[export] Instance MTPKey_eq_dec : EqDecision MTPKey.
Proof. solve_decision. Defined.
#[export] Instance MTPKey_countable : Countable MTPKey.
Proof.
  apply (inj_countable' (λ k, (m_msg_type k, m_topic_name k, m_pkg_path k))
                        (λ '(a, b, c), mkMTPKey a b c)). by intros [].
Defined.

Section ChannelRegistry.
Context {Msg S : Type}.

(** The index maps hold pointers to the wrappers: their keys here. *)
(* @src src/src/runtime/core/channel/channel_registry.h:116-133 ChannelRegistry *)
Record ChannelRegistry := mkRegistry {
  publish_type_wrapper_map : gmap Key (PublishTypeWrapper Msg);
  pub_topic_index_map : gmap string (list Key);
  subscribe_wrapper_map : gmap Key (SubscribeWrapper Msg S);
  sub_topic_index_map : gmap string (list Key);
  sub_msg_topic_pkg_index_map : gmap MTPKey (gmap string Key)
}.

Definition ChannelRegistry_new : ChannelRegistry := mkRegistry ∅ ∅ ∅ ∅ ∅.

Definition key_of (i : TopicInfo Msg) : Key :=
  mkKey (msg_type i) (topic_name i) (pkg_path i) (module_name i).
Definition mtp_of (k : Key) : MTPKey := mkMTPKey (k_msg_type k) (k_topic_name k) (k_pkg_path k).

(* @src src/src/runtime/core/channel/channel_registry.cc:8-35 ChannelRegistry::RegisterPublishType *)
Definition Registry_RegisterPublishType (w : PublishTypeWrapper Msg) : M ChannelRegistry bool :=
  r ← get;
  let key := key_of (pw_info w) in
  match publish_type_wrapper_map r !! key with
  | Some _ => mret false
  | None =>
      put (mkRegistry
             (<[key := w]> (publish_type_wrapper_map r))
             (<[k_topic_name key :=
                  default [] (pub_topic_index_map r !! k_topic_name key) ++ [key]]> (pub_topic_index_map r))
             (subscribe_wrapper_map r) (sub_topic_index_map r) (sub_msg_topic_pkg_index_map r));;
      mret true
  end.

(* @src src/src/runtime/core/channel/channel_registry.cc:37-71 ChannelRegistry::Subscribe *)
Definition Registry_Subscribe (w : SubscribeWrapper Msg S) : M ChannelRegistry bool :=
  r ← get;
  let key := key_of (sw_info w) in
  match subscribe_wrapper_map r !! key with
  | Some _ => mret false
  | None =>
      let modules := default ∅ (sub_msg_topic_pkg_index_map r !! mtp_of key) in
      put (mkRegistry (publish_type_wrapper_map r) (pub_topic_index_map r)
             (<[key := w]> (subscribe_wrapper_map r))
             (<[k_topic_name key :=
                  default [] (sub_topic_index_map r !! k_topic_name key) ++ [key]]> (sub_topic_index_map r))
             (<[mtp_of key := <[k_module_name key := key]> modules]> (sub_msg_topic_pkg_index_map r)));;
      mret true
  end.

(* @src src/src/runtime/core/channel/channel_registry.cc:73-85 ChannelRegistry::GetSubscribeWrapperPtr *)
Definition GetSubscribeWrapperPtr (r : ChannelRegistry) (k : Key) : option (SubscribeWrapper Msg S) :=
  subscribe_wrapper_map r !! k.

(* @src src/src/runtime/core/channel/channel_registry.cc:87-98 ChannelRegistry::GetModuleSubscribeWrapperMapPtr *)
Definition GetModuleSubscribeWrapperMapPtr (r : ChannelRegistry) (k : MTPKey) : option (gmap string Key) :=
  sub_msg_topic_pkg_index_map r !! k.

(* @src src/src/runtime/core/channel/channel_registry.cc:100-112 ChannelRegistry::GetPublishTypeWrapperPtr *)
Definition GetPublishTypeWrapperPtr (r : ChannelRegistry) (k : Key) : option (PublishTypeWrapper Msg) :=
  publish_type_wrapper_map r !! k.
End ChannelRegistry.

Arguments ChannelRegistry : clear implicits.

(** * The message carried by a wrapper *)

Section Carries.
Context {Msg : Type} (m : Msg).
Implicit Types w : MsgWrapper Msg.

Abbreviation ts w := (msg_type_support_ref (mw_info w)).

(** [w] stands for the message [m]: it holds it or can make it, and every
    serialized form it holds is a form of [m]. *)
Record carries w : Prop := {
  carries_msg :
    msg_ptr w = Some m ∨
    msg_ptr w = None ∧
      (size (serialization_cache w) = 1 ∨
       ∃ ty, ty ∈ SerializationTypesSupportedList (ts w) ∧ is_Some (serialization_cache w !! ty));
  carries_cache ty b :
    serialization_cache w !! ty = Some b → Deserialize (ts w) ty b = Some m
}.

Lemma check_supported_carries w types :
  (∀ ty b, serialization_cache w !! ty = Some b → Deserialize (ts w) ty b = Some m) →
  (∃ ty, ty ∈ types ∧ is_Some (serialization_cache w !! ty)) →
  check_supported (ts w) types w = (Ok tt, set_msg m w).
Proof.
  intros Hc. induction types as [|ty types IH]; intros (ty' & Hin & Hs).
  - by apply not_elem_of_nil in Hin.
  - cbn [check_supported]. unfold_monad.
    destruct (serialization_cache w !! ty) as [b|] eqn:Hb.
    + unfold deserialize_into. by rewrite (Hc ty b Hb).
    + apply elem_of_cons in Hin as [->|Hin]; [by rewrite Hb in Hs; destruct Hs|].
      apply IH. eauto.
Qed.

Lemma CheckMsg_present w m' : msg_ptr w = Some m' → CheckMsg w = (Ok tt, w).
Proof. intros Hm. unfold CheckMsg. unfold_monad. by rewrite Hm. Qed.

Lemma CheckMsg_spec w : carries w → CheckMsg w = (Ok tt, set_msg m w).
Proof.
  intros [Hm Hc]. destruct Hm as [Hm|[Hm Hcase]].
  - rewrite (CheckMsg_present w m Hm). unfold set_msg. rewrite <-Hm. by destruct w.
  - unfold CheckMsg. unfold_monad. rewrite Hm.
    destruct (map_to_list (serialization_cache w)) as [|[ty b] [|x l]] eqn:Hl.
    + exfalso. apply map_to_list_empty_iff in Hl. rewrite Hl in Hcase.
      destruct Hcase as [Hs|(ty & _ & Hs)]; [by rewrite map_size_empty in Hs|].
      rewrite lookup_empty in Hs. by destruct Hs.
    + assert (serialization_cache w !! ty = Some b) as Hb
        by (apply elem_of_map_to_list; rewrite Hl; apply list_elem_of_here).
      unfold deserialize_into. by rewrite (Hc ty b Hb).
    + apply check_supported_carries; [done|]. destruct Hcase as [Hs|]; [|done].
      rewrite <-length_map_to_list, Hl in Hs. done.
Qed.

Lemma set_msg_carries w : carries w → carries (set_msg m w).
Proof. intros [_ Hc]. split; [by left|exact Hc]. Qed.

Lemma add_cache_carries w ty b :
  msg_ptr w = Some m → carries w → Deserialize (ts w) ty b = Some m → carries (add_cache ty b w).
Proof.
  intros Hm [_ Hc] Hb. split; [by left|]. intros ty' b' Hl. cbn in *.
  destruct (decide (ty' = ty)) as [->|Hne].
  - rewrite lookup_insert_eq in Hl. by injection Hl as <-.
  - rewrite lookup_insert_ne in Hl by done. by apply Hc.
Qed.

Lemma SerializeMsgWithCache_spec w (ty : string) (b : BufferArrayView) :
  carries w → Serialize (ts w) ty m = Some b → Deserialize (ts w) ty b = Some m →
  ∃ b' w', SerializeMsgWithCache ty w = (Ok b', w') ∧ carries w' ∧
    mw_info w' = mw_info w ∧ ctx_ref w' = ctx_ref w ∧ serialization_cache w' !! ty = Some b'.
Proof.
  intros Hw Hs Hd. unfold SerializeMsgWithCache. unfold_monad.
  destruct (serialization_cache w !! ty) as [b'|] eqn:Hb'; [by exists b', w|].
  rewrite CheckMsg_spec by done. cbn. rewrite Hs. exists b, (add_cache ty b (set_msg m w)).
  split_and!; [done|by apply add_cache_carries, Hd; [|apply set_msg_carries]|done|done|].
  apply lookup_insert_eq.
Qed.

(** Messages survive the ways they are carried.  When the type support
    reads back what it writes, a wrapper that stands for [m] yields [m] from
    [CheckMsg]; [SerializeMsgWithCache] yields a form of [m], writes it only
    once, and leaves a wrapper that still stands for [m]; and a wrapper made
    of nothing but a form of [m], as the subscribers of another package get,
    yields [m] too. *)
Theorem carried_message_survives w (ty : string) (b : BufferArrayView) :
  carries w →
  Serialize (ts w) ty m = Some b → Deserialize (ts w) ty b = Some m →
  CheckMsg w = (Ok tt, set_msg m w) ∧
  ∃ b' w', SerializeMsgWithCache ty w = (Ok b', w') ∧ carries w' ∧
    SerializeMsgWithCache ty w' = (Ok b', w') ∧
    ∀ i ctx, msg_type_support_ref i = ts w →
      CheckMsg (mkMsgWrapper i None ctx {[ty := b']}) =
        (Ok tt, mkMsgWrapper i (Some m) ctx {[ty := b']}).
Proof.
  intros Hw Hs Hd. split; [by apply CheckMsg_spec|].
  assert (∀ b' i ctx, Deserialize (ts w) ty b' = Some m → msg_type_support_ref i = ts w →
    CheckMsg (mkMsgWrapper i None ctx {[ty := b']}) =
      (Ok tt, mkMsgWrapper i (Some m) ctx {[ty := b']})) as Hother.
  { intros b' i ctx Hb' Hi. unfold CheckMsg. unfold_monad. cbn -[map_to_list].
    rewrite map_to_list_singleton. unfold deserialize_into. by rewrite Hi, Hb'. }
  destruct (SerializeMsgWithCache_spec w ty b Hw Hs Hd) as (b' & w' & Hrun & Hw' & Hi & _ & Hb').
  exists b', w'. split_and!; [done|done| |].
  - unfold SerializeMsgWithCache. unfold_monad. by rewrite Hb'.
  - intros i ctx Hts. apply Hother; [|done]. rewrite <-Hi. by apply (carries_cache w' Hw').
Qed.
End Carries.

(** * The registry *)

Section RegistrySpec.
Context {Msg S : Type}.
Implicit Types r : ChannelRegistry Msg S.

(** The index maps list exactly the wrappers registered, each once. *)
Record registry_ok r : Prop := {
  ok_sub_key k w : subscribe_wrapper_map r !! k = Some w → key_of (sw_info w) = k;
  ok_pub_key k w : publish_type_wrapper_map r !! k = Some w → key_of (pw_info w) = k;
  ok_sub_topic t k :
    k ∈ default [] (sub_topic_index_map r !! t) ↔
    k_topic_name k = t ∧ is_Some (subscribe_wrapper_map r !! k);
  ok_pub_topic t k :
    k ∈ default [] (pub_topic_index_map r !! t) ↔
    k_topic_name k = t ∧ is_Some (publish_type_wrapper_map r !! k);
  ok_sub_nodup t : NoDup (default [] (sub_topic_index_map r !! t));
  ok_pub_nodup t : NoDup (default [] (pub_topic_index_map r !! t));
  ok_sub_topics t : sub_topic_index_map r !! t ≠ Some [];
  ok_pub_topics t : pub_topic_index_map r !! t ≠ Some [];
  ok_mtp mk mo k :
    default ∅ (sub_msg_topic_pkg_index_map r !! mk) !! mo = Some k ↔
    mtp_of k = mk ∧ k_module_name k = mo ∧ is_Some (subscribe_wrapper_map r !! k)
}.

Lemma registry_ok_new : registry_ok ChannelRegistry_new.
Proof.
  split; cbn; intros *; rewrite ?lookup_empty; cbn; rewrite ?lookup_empty;
    try done; try apply NoDup_nil_2.
  - split; [intros H; by apply not_elem_of_nil in H|by intros [_ [? ?]]].
  - split; [intros H; by apply not_elem_of_nil in H|by intros [_ [? ?]]].
  - split; [done|by intros (_ & _ & ? & ?)].
Qed.

(** Appending a new key to a topic's list. *)
Lemma index_insert {A} (idx : gmap string (list Key)) (m : gmap Key A) key a :
  m !! key = None →
  (∀ t k, k ∈ default [] (idx !! t) ↔ k_topic_name k = t ∧ is_Some (m !! k)) →
  (∀ t, NoDup (default [] (idx !! t))) →
  let idx' := <[k_topic_name key := default [] (idx !! k_topic_name key) ++ [key]]> idx in
  (∀ t k, k ∈ default [] (idx' !! t) ↔ k_topic_name k = t ∧ is_Some (<[key := a]> m !! k)) ∧
  (∀ t, NoDup (default [] (idx' !! t))).
Proof.
  intros Hnew Hidx Hnd idx'. unfold idx'.
  assert (∀ k, is_Some (<[key := a]> m !! k) ↔ k = key ∨ is_Some (m !! k)) as Hins.
  { intros k. destruct (decide (k = key)) as [->|Hne].
    - rewrite lookup_insert_eq. split; [by left|by eauto].
    - rewrite lookup_insert_ne by done. split; [by right|]. by intros [|]. }
  split.
  - intros t k. rewrite Hins. destruct (decide (t = k_topic_name key)) as [->|Ht].
    + rewrite lookup_insert_eq. cbn. rewrite elem_of_app, list_elem_of_singleton, Hidx.
      split; [intros [[]|]; subst; auto|intros [? [|]]; auto].
    + rewrite lookup_insert_ne by done. rewrite Hidx. split; [intros []; auto|].
      intros [Hk [->|]]; [by destruct Ht|auto].
  - intros t. destruct (decide (t = k_topic_name key)) as [->|Ht].
    + rewrite lookup_insert_eq. cbn. apply NoDup_app. split_and!; [done| |apply NoDup_singleton].
      intros k Hk%Hidx. rewrite list_elem_of_singleton. intros ->. rewrite Hnew in Hk.
      by destruct Hk as [_ [? ?]].
    + by rewrite lookup_insert_ne.
Qed.

Lemma index_insert_nonempty (idx : gmap string (list Key)) key :
  (∀ t, idx !! t ≠ Some []) →
  ∀ t, <[k_topic_name key := default [] (idx !! k_topic_name key) ++ [key]]> idx !! t ≠ Some [].
Proof.
  intros Hidx t. destruct (decide (t = k_topic_name key)) as [->|Ht].
  - rewrite lookup_insert_eq. intros [= Happ]. by apply app_eq_nil in Happ as [].
  - by rewrite lookup_insert_ne.
Qed.

Lemma key_ext k k' : mtp_of k = mtp_of k' → k_module_name k = k_module_name k' → k = k'.
Proof. destruct k, k'; cbn. by intros [= -> -> ->] ->. Qed.

(** Registering a new key under its package and module. *)
Lemma mtp_insert {A} (idx : gmap MTPKey (gmap string Key)) (m : gmap Key A) key a :
  m !! key = None →
  (∀ mk mo k, default ∅ (idx !! mk) !! mo = Some k ↔
     mtp_of k = mk ∧ k_module_name k = mo ∧ is_Some (m !! k)) →
  let idx' := <[mtp_of key := <[k_module_name key := key]> (default ∅ (idx !! mtp_of key))]> idx in
  ∀ mk mo k, default ∅ (idx' !! mk) !! mo = Some k ↔
    mtp_of k = mk ∧ k_module_name k = mo ∧ is_Some (<[key := a]> m !! k).
Proof.
  intros Hnew Hidx idx' mk mo k. unfold idx'.
  destruct (decide (k = key)) as [->|Hk].
  - rewrite lookup_insert_eq. split.
    + destruct (decide (mk = mtp_of key)) as [->|Hmk].
      * rewrite lookup_insert_eq. cbn. destruct (decide (mo = k_module_name key)) as [->|Hmo]; [by eauto|].
        rewrite lookup_insert_ne by done. rewrite Hidx. by intros (_ & ? & _).
      * rewrite lookup_insert_ne by done. rewrite Hidx. by intros (? & _).
    + intros (<- & <- & _). rewrite lookup_insert_eq. cbn. by rewrite lookup_insert_eq.
  - rewrite (lookup_insert_ne m) by done.
    destruct (decide (mk = mtp_of key)) as [->|Hmk]; [|by rewrite lookup_insert_ne by done].
    rewrite lookup_insert_eq. cbn. destruct (decide (mo = k_module_name key)) as [->|Hmo].
    + rewrite lookup_insert_eq. split; [by intros [= ->]|]. intros (H1 & H2 & _).
      destruct Hk. by apply key_ext.
    + by rewrite lookup_insert_ne by done.
Qed.

Lemma Registry_Subscribe_spec r (w : SubscribeWrapper Msg S) :
  registry_ok r →
  match Registry_Subscribe w r with
  | (Ok true, r') =>
      registry_ok r' ∧ subscribe_wrapper_map r !! key_of (sw_info w) = None ∧
      GetSubscribeWrapperPtr r' (key_of (sw_info w)) = Some w
  | (Ok false, r') => r' = r ∧ is_Some (GetSubscribeWrapperPtr r (key_of (sw_info w)))
  | _ => False
  end.
Proof.
  intros [Hsk Hpk Hst Hpt Hsn Hpn Hse Hpe Hm].
  unfold Registry_Subscribe, GetSubscribeWrapperPtr. unfold_monad. set (key := key_of (sw_info w)).
  destruct (subscribe_wrapper_map r !! key) eqn:Hk; [by eauto|].
  split_and!; [|done|cbn; apply lookup_insert_eq].
  destruct (index_insert _ _ key w Hk Hst Hsn) as [Hst' Hsn'].
  split; try done; cbn.
  - intros k w' Hl. destruct (decide (k = key)) as [->|Hne].
    + rewrite lookup_insert_eq in Hl. by injection Hl as <-.
    + rewrite lookup_insert_ne in Hl by done. by apply Hsk.
  - by apply (index_insert_nonempty _ key).
  - by apply mtp_insert.
Qed.

Lemma Registry_RegisterPublishType_spec r (p : PublishTypeWrapper Msg) :
  registry_ok r →
  match Registry_RegisterPublishType p r with
  | (Ok true, r') =>
      registry_ok r' ∧ publish_type_wrapper_map r !! key_of (pw_info p) = None ∧
      GetPublishTypeWrapperPtr r' (key_of (pw_info p)) = Some p
  | (Ok false, r') => r' = r ∧ is_Some (GetPublishTypeWrapperPtr r (key_of (pw_info p)))
  | _ => False
  end.
Proof.
  intros [Hsk Hpk Hst Hpt Hsn Hpn Hse Hpe Hm].
  unfold Registry_RegisterPublishType, GetPublishTypeWrapperPtr. unfold_monad.
  set (key := key_of (pw_info p)).
  destruct (publish_type_wrapper_map r !! key) eqn:Hk; [by eauto|].
  split_and!; [|done|cbn; apply lookup_insert_eq].
  destruct (index_insert _ _ key p Hk Hpt Hpn) as [Hpt' Hpn'].
  split; try done; cbn.
  - intros k w' Hl. destruct (decide (k = key)) as [->|Hne].
    + rewrite lookup_insert_eq in Hl. by injection Hl as <-.
    + rewrite lookup_insert_ne in Hl by done. by apply Hpk.
  - by apply (index_insert_nonempty _ key).
Qed.

(** The registry.  A publisher or subscriber is registered once per
    message type, topic, package and module: a repeated registration returns
    false and changes nothing, a new one returns true and is then found; and
    the indices by topic and by package list exactly the registered wrappers,
    each once. *)
Theorem registry_registration r (w : SubscribeWrapper Msg S) (p : PublishTypeWrapper Msg) :
  registry_ok r →
  (match Registry_Subscribe w r with
   | (Ok true, r') =>
       registry_ok r' ∧ subscribe_wrapper_map r !! key_of (sw_info w) = None ∧
       GetSubscribeWrapperPtr r' (key_of (sw_info w)) = Some w
   | (Ok false, r') => r' = r ∧ is_Some (GetSubscribeWrapperPtr r (key_of (sw_info w)))
   | _ => False
   end) ∧
  (match Registry_RegisterPublishType p r with
   | (Ok true, r') =>
       registry_ok r' ∧ publish_type_wrapper_map r !! key_of (pw_info p) = None ∧
       GetPublishTypeWrapperPtr r' (key_of (pw_info p)) = Some p
   | (Ok false, r') => r' = r ∧ is_Some (GetPublishTypeWrapperPtr r (key_of (pw_info p)))
   | _ => False
   end).
Proof.
  intros Hr. split; [by apply Registry_Subscribe_spec|by apply Registry_RegisterPublishType_spec].
Qed.
End RegistrySpec.

(** * The theorems at a concrete input

    Messages are byte strings, written in two ways. *)

Module ChannelDemo.
Definition demo_ts : TypeSupport bytes :=
  mkTypeSupport "demo/Msg" ["raw"; "rev"] (λ m, m)
    (λ ty m, if bool_decide (ty = "raw") then Some [m]
             else if bool_decide (ty = "rev") then Some [reverse m] else None)
    (λ ty b, if bool_decide (ty = "raw") then Some (concat b)
             else if bool_decide (ty = "rev") then Some (reverse (concat b)) else None).

Definition demo_info : TopicInfo bytes := mkTopicInfo "demo/Msg" "topic" "pkg" "mod" 1 demo_ts.
Definition demo_msg : bytes := lit "hello".

(** Only the reversed form is carried. *)
Definition demo_wrapper : MsgWrapper bytes := mkMsgWrapper demo_info None 0 {["rev" := [reverse demo_msg]]}.

Definition demo_sub : SubscribeWrapper bytes unit := mkSubscribeWrapper demo_info ∅ (mret tt : M (Flow bytes unit) unit).
Definition demo_pub : PublishTypeWrapper bytes := mkPublishTypeWrapper demo_info ∅.

(** Contexts, and what subscribers have received: module, context, message. *)
Definition demo_state : Type := gmap nat Context * list (string * nat * bytes).

#[global] Instance demo_contexts : HasContexts demo_state.
Proof. by exists fst (λ m s, (m, s.2)). Defined.

Definition demo_record : Handle bytes demo_state := λ f,
  let '(w, (cs, log)) := f in
  (Ok tt, (w, (cs, log ++ [(module_name (mw_info w), ctx_ref w, default [] (msg_ptr w))]))).
End ChannelDemo.

Lemma carried_message_survives_witness :
  ∃ b' w', SerializeMsgWithCache "raw" ChannelDemo.demo_wrapper = (Ok b', w') ∧
    carries ChannelDemo.demo_msg w'.
Proof.
  assert (carries ChannelDemo.demo_msg ChannelDemo.demo_wrapper) as Hc.
  { split.
    - right. split; [done|]. by left.
    - intros ty b Hl. cbn in Hl. apply lookup_singleton_Some in Hl as [<- <-]. by vm_compute. }
  destruct (carried_message_survives ChannelDemo.demo_msg ChannelDemo.demo_wrapper "raw"
              [ChannelDemo.demo_msg] Hc eq_refl eq_refl) as [_ (b' & w' & H1 & H2 & _)].
  exists b', w'. exact (conj H1 H2).
Defined.

Lemma registry_registration_witness :
  match Registry_Subscribe ChannelDemo.demo_sub ChannelRegistry_new with
  | (Ok true, r) => registry_ok r
  | _ => False
  end.
Proof.
  destruct (registry_registration ChannelRegistry_new ChannelDemo.demo_sub ChannelDemo.demo_pub
              registry_ok_new) as [H _].
  revert H. unfold Registry_Subscribe. unfold_monad. cbn. rewrite lookup_empty. by intros [H _].
Defined.
