(* ===== verification/ChannelBackend.v ===== *)
(** * Backends: [src/runtime/core/channel/channel_backend_base.h] and
    [channel_backend_manager.*]

    A backend is a record of operations.
    [ChannelBackendManager] chooses filters and backends for each topic by the
    first rule whose regular expression matches, records publishers and
    subscribers in the registry, and passes published messages through the
    filters to the backends.

    The registry and the filter managers, which the source reaches through
    pointers, are fields of the manager here.  [std::regex_match], which may
    throw for an ill-formed expression, the clock and the users' callbacks are
    parameters.  Release callbacks, which only keep messages alive, have no
    counterpart. *)

From S2P Require Import Prelude Yaml Filters Channel.

(** ** Filters of messages *)

Abbreviation Filter Msg S := (Filters.Filter (Handle Msg S)).
Abbreviation Collector Msg S := (Filters.Collector (Handle Msg S)).
Abbreviation FilterManager Msg S := (Filters.FilterManager (Handle Msg S)).

(** ** Backends *)

Section Backend.
Context {Msg S node : Type}.

(* @src src/src/runtime/core/channel/channel_backend_base.h:18-66 ChannelBackendBase *)
Record Backend := mkBackend {
  be_Name : string;
  be_Initialize : node → M S unit;
  be_Start : M S unit;
  be_Shutdown : M S unit;
  be_RegisterPublishType : PublishTypeWrapper Msg → M S bool;
  be_Subscribe : SubscribeWrapper Msg S → M S bool;
  be_Publish : ChannelRegistry Msg S → Handle Msg S;
  be_Report : S → list (string * string)
}.
End Backend.

Arguments Backend : clear implicits.

(** ** [ChannelBackendManager] *)

Section ChannelBackendManager.
Context {Msg S node : Type} `{HasContexts S}.
(** [std::regex_match(topic, std::regex(pattern))] *)
Context (regex_match : string → string → res bool).

Abbreviation rules := (list (string * list string)).
Abbreviation backend := (Backend Msg S node).

(* @src src/src/runtime/core/channel/channel_backend_manager.h:108-155 ChannelBackendManager *)
Record ChannelBackendManager := mkCBM {
  bm_state : State;
  bm_sub_topic_index : Z;
  bm_pub_topic_index : Z;
  bm_registry : ChannelRegistry Msg S;
  bm_publish_filters_rules : rules;
  bm_subscribe_filters_rules : rules;
  bm_publish_filter_manager : FilterManager Msg S;
  bm_subscribe_filter_manager : FilterManager Msg S;
  bm_channel_backend_index_vec : list backend;
  bm_pub_topics_backends_rules : rules;
  bm_sub_topics_backends_rules : rules;
  bm_pub_topics_backend_index_map : gmap string (list backend);
  bm_sub_topics_backend_index_map : gmap string (list backend);
  bm_pub_topic_seq_map : gmap string Z
}.

Definition ChannelBackendManager_new : ChannelBackendManager :=
  mkCBM kPreInit 0 0 ChannelRegistry_new [] [] FilterManager_new FilterManager_new [] [] [] ∅ ∅ ∅.

Implicit Types bm : ChannelBackendManager.

Definition bm_set_state x (s : ChannelBackendManager) :=
    mkCBM x (bm_sub_topic_index s) (bm_pub_topic_index s) (bm_registry s)
      (bm_publish_filters_rules s) (bm_subscribe_filters_rules s) (bm_publish_filter_manager s)
      (bm_subscribe_filter_manager s) (bm_channel_backend_index_vec s)
      (bm_pub_topics_backends_rules s) (bm_sub_topics_backends_rules s)
      (bm_pub_topics_backend_index_map s) (bm_sub_topics_backend_index_map s)
      (bm_pub_topic_seq_map s).
Definition bm_set_sub_topic_index x (s : ChannelBackendManager) :=
    mkCBM (bm_state s) x (bm_pub_topic_index s) (bm_registry s) (bm_publish_filters_rules s)
      (bm_subscribe_filters_rules s) (bm_publish_filter_manager s) (bm_subscribe_filter_manager s)
      (bm_channel_backend_index_vec s) (bm_pub_topics_backends_rules s)
      (bm_sub_topics_backends_rules s) (bm_pub_topics_backend_index_map s)
      (bm_sub_topics_backend_index_map s) (bm_pub_topic_seq_map s).
Definition bm_set_pub_topic_index x (s : ChannelBackendManager) :=
    mkCBM (bm_state s) (bm_sub_topic_index s) x (bm_registry s) (bm_publish_filters_rules s)
      (bm_subscribe_filters_rules s) (bm_publish_filter_manager s) (bm_subscribe_filter_manager s)
      (bm_channel_backend_index_vec s) (bm_pub_topics_backends_rules s)
      (bm_sub_topics_backends_rules s) (bm_pub_topics_backend_index_map s)
      (bm_sub_topics_backend_index_map s) (bm_pub_topic_seq_map s).
Definition bm_set_registry x (s : ChannelBackendManager) :=
    mkCBM (bm_state s) (bm_sub_topic_index s) (bm_pub_topic_index s) x
      (bm_publish_filters_rules s) (bm_subscribe_filters_rules s) (bm_publish_filter_manager s)
      (bm_subscribe_filter_manager s) (bm_channel_backend_index_vec s)
      (bm_pub_topics_backends_rules s) (bm_sub_topics_backends_rules s)
      (bm_pub_topics_backend_index_map s) (bm_sub_topics_backend_index_map s)
      (bm_pub_topic_seq_map s).
Definition bm_set_publish_filters_rules x (s : ChannelBackendManager) :=
    mkCBM (bm_state s) (bm_sub_topic_index s) (bm_pub_topic_index s) (bm_registry s) x
      (bm_subscribe_filters_rules s) (bm_publish_filter_manager s) (bm_subscribe_filter_manager s)
      (bm_channel_backend_index_vec s) (bm_pub_topics_backends_rules s)
      (bm_sub_topics_backends_rules s) (bm_pub_topics_backend_index_map s)
      (bm_sub_topics_backend_index_map s) (bm_pub_topic_seq_map s).
Definition bm_set_subscribe_filters_rules x (s : ChannelBackendManager) :=
    mkCBM (bm_state s) (bm_sub_topic_index s) (bm_pub_topic_index s) (bm_registry s)
      (bm_publish_filters_rules s) x (bm_publish_filter_manager s) (bm_subscribe_filter_manager s)
      (bm_channel_backend_index_vec s) (bm_pub_topics_backends_rules s)
      (bm_sub_topics_backends_rules s) (bm_pub_topics_backend_index_map s)
      (bm_sub_topics_backend_index_map s) (bm_pub_topic_seq_map s).
Definition bm_set_publish_filter_manager x (s : ChannelBackendManager) :=
    mkCBM (bm_state s) (bm_sub_topic_index s) (bm_pub_topic_index s) (bm_registry s)
      (bm_publish_filters_rules s) (bm_subscribe_filters_rules s) x
      (bm_subscribe_filter_manager s) (bm_channel_backend_index_vec s)
      (bm_pub_topics_backends_rules s) (bm_sub_topics_backends_rules s)
      (bm_pub_topics_backend_index_map s) (bm_sub_topics_backend_index_map s)
      (bm_pub_topic_seq_map s).
Definition bm_set_subscribe_filter_manager x (s : ChannelBackendManager) :=
    mkCBM (bm_state s) (bm_sub_topic_index s) (bm_pub_topic_index s) (bm_registry s)
      (bm_publish_filters_rules s) (bm_subscribe_filters_rules s) (bm_publish_filter_manager s) x
      (bm_channel_backend_index_vec s) (bm_pub_topics_backends_rules s)
      (bm_sub_topics_backends_rules s) (bm_pub_topics_backend_index_map s)
      (bm_sub_topics_backend_index_map s) (bm_pub_topic_seq_map s).
Definition bm_set_channel_backend_index_vec x (s : ChannelBackendManager) :=
    mkCBM (bm_state s) (bm_sub_topic_index s) (bm_pub_topic_index s) (bm_registry s)
      (bm_publish_filters_rules s) (bm_subscribe_filters_rules s) (bm_publish_filter_manager s)
      (bm_subscribe_filter_manager s) x (bm_pub_topics_backends_rules s)
      (bm_sub_topics_backends_rules s) (bm_pub_topics_backend_index_map s)
      (bm_sub_topics_backend_index_map s) (bm_pub_topic_seq_map s).
Definition bm_set_pub_topics_backends_rules x (s : ChannelBackendManager) :=
    mkCBM (bm_state s) (bm_sub_topic_index s) (bm_pub_topic_index s) (bm_registry s)
      (bm_publish_filters_rules s) (bm_subscribe_filters_rules s) (bm_publish_filter_manager s)
      (bm_subscribe_filter_manager s) (bm_channel_backend_index_vec s) x
      (bm_sub_topics_backends_rules s) (bm_pub_topics_backend_index_map s)
      (bm_sub_topics_backend_index_map s) (bm_pub_topic_seq_map s).
Definition bm_set_sub_topics_backends_rules x (s : ChannelBackendManager) :=
    mkCBM (bm_state s) (bm_sub_topic_index s) (bm_pub_topic_index s) (bm_registry s)
      (bm_publish_filters_rules s) (bm_subscribe_filters_rules s) (bm_publish_filter_manager s)
      (bm_subscribe_filter_manager s) (bm_channel_backend_index_vec s)
      (bm_pub_topics_backends_rules s) x (bm_pub_topics_backend_index_map s)
      (bm_sub_topics_backend_index_map s) (bm_pub_topic_seq_map s).
Definition bm_set_pub_topics_backend_index_map x (s : ChannelBackendManager) :=
    mkCBM (bm_state s) (bm_sub_topic_index s) (bm_pub_topic_index s) (bm_registry s)
      (bm_publish_filters_rules s) (bm_subscribe_filters_rules s) (bm_publish_filter_manager s)
      (bm_subscribe_filter_manager s) (bm_channel_backend_index_vec s)
      (bm_pub_topics_backends_rules s) (bm_sub_topics_backends_rules s) x
      (bm_sub_topics_backend_index_map s) (bm_pub_topic_seq_map s).
Definition bm_set_sub_topics_backend_index_map x (s : ChannelBackendManager) :=
    mkCBM (bm_state s) (bm_sub_topic_index s) (bm_pub_topic_index s) (bm_registry s)
      (bm_publish_filters_rules s) (bm_subscribe_filters_rules s) (bm_publish_filter_manager s)
      (bm_subscribe_filter_manager s) (bm_channel_backend_index_vec s)
      (bm_pub_topics_backends_rules s) (bm_sub_topics_backends_rules s)
      (bm_pub_topics_backend_index_map s) x (bm_pub_topic_seq_map s).
Definition bm_set_pub_topic_seq_map x (s : ChannelBackendManager) :=
    mkCBM (bm_state s) (bm_sub_topic_index s) (bm_pub_topic_index s) (bm_registry s)
      (bm_publish_filters_rules s) (bm_subscribe_filters_rules s) (bm_publish_filter_manager s)
      (bm_subscribe_filter_manager s) (bm_channel_backend_index_vec s)
      (bm_pub_topics_backends_rules s) (bm_sub_topics_backends_rules s)
      (bm_pub_topics_backend_index_map s) (bm_sub_topics_backend_index_map s) x.

(** Calls on the manager and the state beside it. *)
Abbreviation Sys := (ChannelBackendManager * S)%type.
Definition on_bm {A} (m : M ChannelBackendManager A) : M Sys A := zoom fst (λ b y, (b, y.2)) m.
Definition on_s {A} (m : M S A) : M Sys A := zoom snd (λ s y, (y.1, s)) m.
Definition on_registry {A} (m : M (ChannelRegistry Msg S) A) : M Sys A :=
  on_bm (zoom bm_registry bm_set_registry m).
Definition on_publish_filters {A} (m : M (FilterManager Msg S) A) : M Sys A :=
  on_bm (zoom bm_publish_filter_manager bm_set_publish_filter_manager m).
Definition on_subscribe_filters {A} (m : M (FilterManager Msg S) A) : M Sys A :=
  on_bm (zoom bm_subscribe_filter_manager bm_set_subscribe_filter_manager m).

(** Exchange the state, then check what it was. *)
Definition exchange (new old : State) (what : string) : M Sys unit :=
  bm ← on_bm get;
  on_bm (modify (bm_set_state new));;
  check_throw (state_eqb (bm_state bm) old) what.

(* @src src/src/runtime/core/channel/channel_backend_manager.cc:17-21 ChannelBackendManager::Initialize *)
Definition bm_Initialize : M Sys unit :=
  exchange kInit kPreInit "Channel backend manager can only be initialized once.".

(* @src src/src/runtime/core/channel/channel_backend_manager.cc:23-32 ChannelBackendManager::Start *)
Definition bm_Start : M Sys unit :=
  exchange kStart kInit "Method can only be called when state is 'Init'.";;
  bm ← on_bm get;
  mapM_ (λ b, on_s (be_Start b)) (bm_channel_backend_index_vec bm).

(* @src src/src/runtime/core/channel/channel_backend_manager.cc:34-42 ChannelBackendManager::Shutdown *)
Definition bm_Shutdown : M Sys unit :=
  bm ← on_bm get;
  on_bm (modify (bm_set_state kShutdown));;
  if state_eqb (bm_state bm) kShutdown then mret tt
  else mapM_ (λ b, on_s (be_Shutdown b)) (bm_channel_backend_index_vec bm).

Definition preinit_only (f : ChannelBackendManager → ChannelBackendManager) : M Sys unit :=
  bm ← on_bm get;
  check_throw (state_eqb (bm_state bm) kPreInit) "Method can only be called when state is 'PreInit'.";;
  on_bm (modify f).

(* @src src/src/runtime/core/channel/channel_backend_manager.cc:44-49 ChannelBackendManager::SetChannelRegistry *)
Definition bm_SetChannelRegistry (r : ChannelRegistry Msg S) : M Sys unit := preinit_only (bm_set_registry r).
(* @src src/src/runtime/core/channel/channel_backend_manager.cc:51-57 ChannelBackendManager::SetPublishFrameworkAsyncChannelFilterManager *)
Definition bm_SetPublishFilterManager (f : FilterManager Msg S) : M Sys unit :=
  preinit_only (bm_set_publish_filter_manager f).
(* @src src/src/runtime/core/channel/channel_backend_manager.cc:59-65 ChannelBackendManager::SetSubscribeFrameworkAsyncChannelFilterManager *)
Definition bm_SetSubscribeFilterManager (f : FilterManager Msg S) : M Sys unit :=
  preinit_only (bm_set_subscribe_filter_manager f).
(* @src src/src/runtime/core/channel/channel_backend_manager.cc:67-73 ChannelBackendManager::SetPublishFiltersRules *)
Definition bm_SetPublishFiltersRules (r : rules) : M Sys unit := preinit_only (bm_set_publish_filters_rules r).
(* @src src/src/runtime/core/channel/channel_backend_manager.cc:75-81 ChannelBackendManager::SetSubscribeFiltersRules *)
Definition bm_SetSubscribeFiltersRules (r : rules) : M Sys unit := preinit_only (bm_set_subscribe_filters_rules r).
(* @src src/src/runtime/core/channel/channel_backend_manager.cc:83-89 ChannelBackendManager::SetPubTopicsBackendsRules *)
Definition bm_SetPubTopicsBackendsRules (r : rules) : M Sys unit := preinit_only (bm_set_pub_topics_backends_rules r).
(* @src src/src/runtime/core/channel/channel_backend_manager.cc:91-97 ChannelBackendManager::SetSubTopicsBackendsRules *)
Definition bm_SetSubTopicsBackendsRules (r : rules) : M Sys unit := preinit_only (bm_set_sub_topics_backends_rules r).
(* @src src/src/runtime/core/channel/channel_backend_manager.cc:99-106 ChannelBackendManager::RegisterChannelBackend *)
Definition bm_RegisterChannelBackend (b : backend) : M Sys unit :=
  preinit_only (λ bm, bm_set_channel_backend_index_vec (bm_channel_backend_index_vec bm ++ [b]) bm).

(** ** Rules *)

(** A regular expression that throws is skipped. *)
(* @src src/src/runtime/core/channel/channel_backend_manager.cc:542-560 ChannelBackendManager::GetFilterRules *)
Fixpoint GetFilterRules (topic : string) (r : rules) : list string :=
  match r with
  | [] => []
  | (topic_regex, filters) :: r' =>
      match regex_match topic_regex topic with
      | Ok true => filters
      | _ => GetFilterRules topic r'
      end
  end.

Definition find_backend (bs : list backend) (name : string) : option backend :=
  List.find (λ b, String.eqb (be_Name b) name) bs.

(* @src src/src/runtime/core/channel/channel_backend_manager.cc:505-540 ChannelBackendManager::GetBackendsByRules *)
Fixpoint GetBackendsByRules (bs : list backend) (topic : string) (r : rules) : list backend :=
  match r with
  | [] => []
  | (topic_regex, enable_backends) :: r' =>
      match regex_match topic_regex topic with
      | Ok true => omap (find_backend bs) enable_backends
      | _ => GetBackendsByRules bs topic r'
      end
  end.

(** ** Registration *)

(** [ret &= backend->Call(...)] over the backends of a topic. *)
Fixpoint all_backends (f : backend → M S bool) (bs : list backend) : M Sys bool :=
  match bs with
  | [] => mret true
  | b :: bs' => r ← on_s (f b); rs ← all_backends f bs'; mret (r && rs)
  end.

(** The part both versions of [Subscribe] share, from the filter on;
    [callback] is made from the collector. *)
(* @src src/src/runtime/core/channel/channel_backend_manager.cc:325-382 ChannelBackendManager::Subscribe (framework) *)
Definition bm_Subscribe_wrapper (i : TopicInfo Msg) (require : gset string)
    (callback : Collector Msg S → Handle Msg S) : M Sys bool :=
  let topic := topic_name i in
  bm ← on_bm get;
  on_subscribe_filters (CreateFilterCollectorIfNotExist topic
    (GetFilterRules topic (bm_subscribe_filters_rules bm)));;
  bm ← on_bm get;
  let filter_collector := GetFilterCollector (bm_subscribe_filter_manager bm) topic in
  let w := mkSubscribeWrapper i require (callback filter_collector) in
  registered ← on_registry (Registry_Subscribe w);
  if negb registered then mret false else
  bm ← on_bm get;
  backends ← match bm_sub_topics_backend_index_map bm !! topic with
             | Some bs => mret bs
             | None =>
                 let bs := GetBackendsByRules (bm_channel_backend_index_vec bm) topic
                             (bm_sub_topics_backends_rules bm) in
                 on_bm (modify (λ bm, bm_set_sub_topics_backend_index_map
                                        (<[topic := bs]> (bm_sub_topics_backend_index_map bm)) bm));;
                 mret bs
             end;
  all_backends (λ b, be_Subscribe b w) backends.

(** The framework's own subscribers get the wrapper as it is. *)
Definition bm_Subscribe_framework (w : SubscribeWrapper Msg S) : M Sys bool :=
  bm ← on_bm get;
  if negb (state_eqb (bm_state bm) kInit) then mret false
  else bm_Subscribe_wrapper (sw_info w) (sw_require_cache_serialization_types w)
         (λ c, InvokeChannel c (sw_callback w)).

(** A user's subscriber gets the context and the message; what goes wrong is
    logged. *)
Definition proxy_callback (user : nat → Msg → M S unit) (c : Collector Msg S) : Handle Msg S :=
  InvokeChannel c
    (try_catch
      (on_msg CheckMsg;;
       w ← on_msg get;
       match msg_ptr w with
       | Some m => on_state (user (ctx_ref w) m)
       | None => undef
       end)
      (λ _, mret tt)).

(* @src src/src/runtime/core/channel/channel_backend_manager.cc:108-199 ChannelBackendManager::Subscribe (proxy) *)
Definition bm_Subscribe_proxy (pkg module topic : string) (type_support : option (TypeSupport Msg))
    (callback : option (nat → Msg → M S unit)) : M Sys bool :=
  bm ← on_bm get;
  if negb (state_eqb (bm_state bm) kInit) then mret false else
  match type_support, callback with
  | Some ts, Some user =>
      on_bm (modify (λ bm, bm_set_sub_topic_index (wrap64 (bm_sub_topic_index bm + 1)) bm));;
      bm ← on_bm get;
      bm_Subscribe_wrapper (mkTopicInfo (TypeName ts) topic pkg module (bm_sub_topic_index bm) ts) ∅
        (proxy_callback user)
  | _, _ => mret false
  end.

(* @src src/src/runtime/core/channel/channel_backend_manager.cc:384-422 ChannelBackendManager::RegisterPublishType (framework) *)
Definition bm_RegisterPublishType_wrapper (w : PublishTypeWrapper Msg) : M Sys bool :=
  let topic := topic_name (pw_info w) in
  on_bm (modify (λ bm, bm_set_pub_topic_seq_map
    (match bm_pub_topic_seq_map bm !! topic with
     | Some _ => bm_pub_topic_seq_map bm
     | None => <[topic := 0%Z]> (bm_pub_topic_seq_map bm)
     end) bm));;
  bm ← on_bm get;
  on_publish_filters (CreateFilterCollectorIfNotExist topic
    (GetFilterRules topic (bm_publish_filters_rules bm)));;
  registered ← on_registry (Registry_RegisterPublishType w);
  if negb registered then mret false else
  bm ← on_bm get;
  backends ← match bm_pub_topics_backend_index_map bm !! topic with
             | Some bs => mret bs
             | None =>
                 let bs := GetBackendsByRules (bm_channel_backend_index_vec bm) topic
                             (bm_pub_topics_backends_rules bm) in
                 on_bm (modify (λ bm, bm_set_pub_topics_backend_index_map
                                        (<[topic := bs]> (bm_pub_topics_backend_index_map bm)) bm));;
                 mret bs
             end;
  all_backends (λ b, be_RegisterPublishType b w) backends.

Definition bm_RegisterPublishType_framework (w : PublishTypeWrapper Msg) : M Sys bool :=
  bm ← on_bm get;
  if negb (state_eqb (bm_state bm) kInit) then mret false else bm_RegisterPublishType_wrapper w.

(* @src src/src/runtime/core/channel/channel_backend_manager.cc:201-253 ChannelBackendManager::RegisterPublishType (proxy) *)
Definition bm_RegisterPublishType_proxy (pkg module topic : string)
    (type_support : option (TypeSupport Msg)) : M Sys bool :=
  bm ← on_bm get;
  if negb (state_eqb (bm_state bm) kInit) then mret false else
  match type_support with
  | None => mret false
  | Some ts =>
      on_bm (modify (λ bm, bm_set_pub_topic_index (wrap64 (bm_pub_topic_index bm + 1)) bm));;
      bm ← on_bm get;
      bm_RegisterPublishType_wrapper
        (mkPublishTypeWrapper (mkTopicInfo (TypeName ts) topic pkg module (bm_pub_topic_index bm) ts) ∅)
  end.

(** ** Publishing *)

(** Hand the message to the backends of its topic. *)
(* @src src/src/runtime/core/channel/channel_backend_manager.cc:305-322 ChannelBackendManager::Publish (handle) *)
Definition publish_to_backends bm : Handle Msg S :=
  w ← on_msg get;
  match bm_pub_topics_backend_index_map bm !! topic_name (mw_info w) with
  | None => mret tt
  | Some bs => mapM_ (λ b, be_Publish b (bm_registry bm)) bs
  end.

(** The part both versions of [Publish] share: [now] is the time, [topic] the
    name the sequence number and the filters are looked up by. *)
(* @src src/src/runtime/core/channel/channel_backend_manager.cc:424-475 ChannelBackendManager::Publish (framework) *)
Definition bm_Publish_wrapper (now : Z) (topic : string) (w : MsgWrapper Msg) : M Sys unit :=
  c ← on_s (get_ctx (ctx_ref w));
  if negb (bool_decide (ctx_type c = AIMRT_CHANNEL_PUBLISHER_CONTEXT)) || ctx_used c then mret tt
  else
    on_s (update_ctx (ctx_ref w) SetUsed);;
    bm ← on_bm get;
    (match bm_pub_topic_seq_map bm !! topic with
     | None => mret tt
     | Some n =>
         let seq := wrap32 (n + 1) in
         on_bm (modify (λ bm, bm_set_pub_topic_seq_map (<[topic := seq]> (bm_pub_topic_seq_map bm)) bm));;
         on_s (update_ctx (ctx_ref w) (SetMetaValue KEY_PUB_SEQ (to_string seq)))
     end);;
    on_s (update_ctx (ctx_ref w) (SetMetaValue KEY_PUB_TIMESTAMP (to_string now)));;
    bm ← on_bm get;
    let filter_collector := GetFilterCollector (bm_publish_filter_manager bm) topic in
    on_s (call_with w (InvokeChannel filter_collector (publish_to_backends bm))).

Definition bm_Publish_framework (now : Z) (w : MsgWrapper Msg) : M Sys unit :=
  bm ← on_bm get;
  if negb (state_eqb (bm_state bm) kStart) then mret tt
  else bm_Publish_wrapper now (topic_name (mw_info w)) w.

(* @src src/src/runtime/core/channel/channel_backend_manager.cc:255-323 ChannelBackendManager::Publish (proxy) *)
Definition bm_Publish_proxy (now : Z) (pkg module topic msg_type : string) (ctx : nat) (m : Msg)
    : M Sys unit :=
  bm ← on_bm get;
  if negb (state_eqb (bm_state bm) kStart) then mret tt else
  match GetPublishTypeWrapperPtr (bm_registry bm) (mkKey msg_type topic pkg module) with
  | None => mret tt
  | Some pub => bm_Publish_wrapper now topic (mkMsgWrapper (pw_info pub) (Some m) ctx ∅)
  end.

(* @src src/src/runtime/core/channel/channel_backend_manager.cc:477-489 ChannelBackendManager::GetPubTopicBackendInfo *)
Definition GetPubTopicBackendInfo bm : gmap string (list string) :=
  map be_Name <$> bm_pub_topics_backend_index_map bm.
(* @src src/src/runtime/core/channel/channel_backend_manager.cc:491-503 ChannelBackendManager::GetSubTopicBackendInfo *)
Definition GetSubTopicBackendInfo bm : gmap string (list string) :=
  map be_Name <$> bm_sub_topics_backend_index_map bm.
End ChannelBackendManager.

(** * Routing *)

Arguments ChannelBackendManager : clear implicits.

Section Routing.
Context {Msg S node : Type} `{HasContexts S}.
Context (regex_match : string → string → res bool).

Abbreviation cbm := (ChannelBackendManager Msg S node).
Abbreviation Sys := (cbm * S)%type.
Implicit Types bm : cbm.

(** Every call on the manager, by the frameworks and through proxies. *)
Inductive bm_call :=
| CallInitialize | CallStart | CallShutdown
| CallSetChannelRegistry
| CallSetPublishFilterManager (f : FilterManager Msg S)
| CallSetSubscribeFilterManager (f : FilterManager Msg S)
| CallSetPublishFiltersRules (r : list (string * list string))
| CallSetSubscribeFiltersRules (r : list (string * list string))
| CallSetPubTopicsBackendsRules (r : list (string * list string))
| CallSetSubTopicsBackendsRules (r : list (string * list string))
| CallRegisterChannelBackend (b : Backend Msg S node)
| CallSubscribe_framework (w : SubscribeWrapper Msg S)
| CallSubscribe_proxy (pkg module topic : string) (ts : option (TypeSupport Msg))
    (callback : option (nat → Msg → M S unit))
| CallRegisterPublishType_framework (w : PublishTypeWrapper Msg)
| CallRegisterPublishType_proxy (pkg module topic : string) (ts : option (TypeSupport Msg))
| CallPublish_framework (now : Z) (w : MsgWrapper Msg)
| CallPublish_proxy (now : Z) (pkg module topic msg_type : string) (ctx : nat) (m : Msg).

(** The registry is set when it is new. *)
Definition run_call (c : bm_call) : M Sys unit :=
  match c with
  | CallInitialize => bm_Initialize
  | CallStart => bm_Start
  | CallShutdown => bm_Shutdown
  | CallSetChannelRegistry => bm_SetChannelRegistry ChannelRegistry_new
  | CallSetPublishFilterManager f => bm_SetPublishFilterManager f
  | CallSetSubscribeFilterManager f => bm_SetSubscribeFilterManager f
  | CallSetPublishFiltersRules r => bm_SetPublishFiltersRules r
  | CallSetSubscribeFiltersRules r => bm_SetSubscribeFiltersRules r
  | CallSetPubTopicsBackendsRules r => bm_SetPubTopicsBackendsRules r
  | CallSetSubTopicsBackendsRules r => bm_SetSubTopicsBackendsRules r
  | CallRegisterChannelBackend b => bm_RegisterChannelBackend b
  | CallSubscribe_framework w => bm_Subscribe_framework regex_match w;; mret tt
  | CallSubscribe_proxy pkg module topic ts cb => bm_Subscribe_proxy regex_match pkg module topic ts cb;; mret tt
  | CallRegisterPublishType_framework w => bm_RegisterPublishType_framework regex_match w;; mret tt
  | CallRegisterPublishType_proxy pkg module topic ts =>
      bm_RegisterPublishType_proxy regex_match pkg module topic ts;; mret tt
  | CallPublish_framework now w => bm_Publish_framework now w
  | CallPublish_proxy now pkg module topic ty ctx m => bm_Publish_proxy now pkg module topic ty ctx m
  end.

(** A call, however it ends; between calls the other state may change. *)
Definition bm_step (bm bm' : cbm) : Prop :=
  ∃ c s r s', run_call c (bm, s) = (r, (bm', s')).

Abbreviation pub_rule bm t :=
  (GetBackendsByRules regex_match (bm_channel_backend_index_vec bm) t (bm_pub_topics_backends_rules bm)).
Abbreviation sub_rule bm t :=
  (GetBackendsByRules regex_match (bm_channel_backend_index_vec bm) t (bm_sub_topics_backends_rules bm)).

Record bm_ok bm : Prop := {
  bm_ok_registry : registry_ok (bm_registry bm);
  bm_ok_fresh : bm_state bm = kPreInit →
    publish_type_wrapper_map (bm_registry bm) = ∅ ∧ subscribe_wrapper_map (bm_registry bm) = ∅ ∧
    bm_pub_topics_backend_index_map bm = ∅ ∧ bm_sub_topics_backend_index_map bm = ∅;
  bm_ok_seq k : is_Some (publish_type_wrapper_map (bm_registry bm) !! k) →
    is_Some (bm_pub_topic_seq_map bm !! k_topic_name k);
  bm_ok_pub k : is_Some (publish_type_wrapper_map (bm_registry bm) !! k) →
    is_Some (bm_pub_topics_backend_index_map bm !! k_topic_name k);
  bm_ok_sub k : is_Some (subscribe_wrapper_map (bm_registry bm) !! k) →
    is_Some (bm_sub_topics_backend_index_map bm !! k_topic_name k);
  bm_ok_pub_rule t bs : bm_pub_topics_backend_index_map bm !! t = Some bs → bs = pub_rule bm t;
  bm_ok_sub_rule t bs : bm_sub_topics_backend_index_map bm !! t = Some bs → bs = sub_rule bm t
}.

Lemma bm_ok_new : bm_ok ChannelBackendManager_new.
Proof.
  split; cbn; try done; try (intros *; rewrite ?lookup_empty; by intros [? [=]] || by intros [=]).
  - apply registry_ok_new.
Qed.

(** Calls that leave the manager as it is. *)
Lemma on_s_bm {A} (m : M S A) (y : Sys) : (on_s m y).2.1 = y.1.
Proof. unfold on_s. unfold_monad. by destruct (m y.2). Qed.

Lemma mapM_on_s_bm {A} (f : A → M S unit) l (y : Sys) : (mapM_ (λ b, on_s (f b)) l y).2.1 = y.1.
Proof.
  revert y; induction l as [|b l IH]; intros y; [done|]. cbn [mapM_]. unfold_monad.
  pose proof (on_s_bm (f b) y) as Hb. destruct (on_s (f b) y) as [[] y'] eqn:Hf; cbn in *; [|done..].
  by rewrite IH.
Qed.

Lemma all_backends_bm (f : Backend Msg S node → M S bool) bs (y : Sys) : (all_backends f bs y).2.1 = y.1.
Proof.
  revert y; induction bs as [|b bs IH]; intros y; [done|]. cbn [all_backends]. unfold_monad.
  pose proof (on_s_bm (f b) y) as Hb. destruct (on_s (f b) y) as [[] y'] eqn:Hf; cbn in *; [|done..].
  specialize (IH y'). by destruct (all_backends f bs y') as [[] ?]; cbn in *; rewrite IH.
Qed.

(** Only these fields matter; sequence numbers may be added or change. *)
Lemma bm_ok_frame bm bm' :
  (bm_registry bm, bm_channel_backend_index_vec bm, bm_pub_topics_backends_rules bm,
   bm_sub_topics_backends_rules bm, bm_pub_topics_backend_index_map bm,
   bm_sub_topics_backend_index_map bm) =
  (bm_registry bm', bm_channel_backend_index_vec bm', bm_pub_topics_backends_rules bm',
   bm_sub_topics_backends_rules bm', bm_pub_topics_backend_index_map bm',
   bm_sub_topics_backend_index_map bm') →
  (bm_state bm' = kPreInit → bm_state bm = kPreInit) →
  (∀ t, is_Some (bm_pub_topic_seq_map bm !! t) → is_Some (bm_pub_topic_seq_map bm' !! t)) →
  bm_ok bm → bm_ok bm'.
Proof.
  intros [= E1 E2 E3 E4 E5 E6] Hst Hseq [H1 H2 H3 H4 H5 H6 H7].
  split; rewrite <-?E1, <-?E2, <-?E3, <-?E4, <-?E5, <-?E6; auto.
Qed.

Lemma is_Some_insert {A} (m : gmap string A) t t' a : is_Some (m !! t') → is_Some (<[t := a]> m !! t').
Proof. intros Hs. destruct (decide (t' = t)) as [->|]; [by rewrite lookup_insert_eq|by rewrite lookup_insert_ne]. Qed.

(** What a registered wrapper adds: a route for its topic. *)
Definition add_route (idx : gmap string (list (Backend Msg S node))) t bs :=
  match idx !! t with Some _ => idx | None => <[t := bs]> idx end.

Lemma add_route_some idx t bs t' :
  t' = t ∨ is_Some (idx !! t') → is_Some (add_route idx t bs !! t').
Proof.
  unfold add_route. destruct (idx !! t) eqn:Ht.
  - intros [->|]; [by rewrite Ht|done].
  - intros [->|]; [by rewrite lookup_insert_eq|by apply is_Some_insert].
Qed.

Lemma add_route_lookup idx t bs t' bs' :
  add_route idx t bs !! t' = Some bs' → idx !! t' = Some bs' ∨ t' = t ∧ bs' = bs.
Proof.
  unfold add_route. destruct (idx !! t) eqn:Ht; [by left|].
  destruct (decide (t' = t)) as [->|]; [|by rewrite lookup_insert_ne by done; left].
  rewrite lookup_insert_eq. intros [= <-]. by right.
Qed.

Lemma is_Some_insert_key {A} (m : gmap Key A) key a k :
  is_Some (<[key := a]> m !! k) → k = key ∨ is_Some (m !! k).
Proof.
  destruct (decide (k = key)) as [->|]; [by left|]. rewrite lookup_insert_ne by done. by right.
Qed.

Lemma commit_pub bm (w : PublishTypeWrapper Msg) r' :
  bm_ok bm → bm_state bm ≠ kPreInit →
  is_Some (bm_pub_topic_seq_map bm !! topic_name (pw_info w)) →
  Registry_RegisterPublishType w (bm_registry bm) = (Ok true, r') →
  bm_ok (bm_set_pub_topics_backend_index_map
           (add_route (bm_pub_topics_backend_index_map bm) (topic_name (pw_info w))
              (pub_rule bm (topic_name (pw_info w))))
           (bm_set_registry r' bm)).
Proof.
  intros [H1 H2 H3 H4 H5 H6 H7] Hst Hseq Hr.
  pose proof (Registry_RegisterPublishType_spec _ w H1) as Hspec. rewrite Hr in Hspec.
  destruct Hspec as (Hr' & _).
  unfold Registry_RegisterPublishType in Hr. unfold_monad.
  destruct (publish_type_wrapper_map (bm_registry bm) !! key_of (pw_info w)); [done|].
  injection Hr as Hr. subst r'.
  split; cbn; auto; try done.
  - intros k [->|Hk]%is_Some_insert_key; [done|by apply H3].
  - intros k Hk. apply add_route_some. apply is_Some_insert_key in Hk as [->|Hk]; [by left|right; auto].
  - intros t bs [Hb|[-> ->]]%add_route_lookup; [by apply H6|done].
Qed.

Lemma commit_sub bm (w : SubscribeWrapper Msg S) r' :
  bm_ok bm → bm_state bm ≠ kPreInit →
  Registry_Subscribe w (bm_registry bm) = (Ok true, r') →
  bm_ok (bm_set_sub_topics_backend_index_map
           (add_route (bm_sub_topics_backend_index_map bm) (topic_name (sw_info w))
              (sub_rule bm (topic_name (sw_info w))))
           (bm_set_registry r' bm)).
Proof.
  intros [H1 H2 H3 H4 H5 H6 H7] Hst Hr.
  pose proof (Registry_Subscribe_spec _ w H1) as Hspec. rewrite Hr in Hspec.
  destruct Hspec as (Hr' & _).
  unfold Registry_Subscribe in Hr. unfold_monad.
  destruct (subscribe_wrapper_map (bm_registry bm) !! key_of (sw_info w)); [done|].
  injection Hr as Hr. subst r'.
  split; cbn; auto; try done.
  - intros k Hk. apply add_route_some. apply is_Some_insert_key in Hk as [->|Hk]; [by left|right; auto].
  - intros t bs [Hb|[-> ->]]%add_route_lookup; [by apply H7|done].
Qed.

Lemma Registry_calls_total bm (w : PublishTypeWrapper Msg) (v : SubscribeWrapper Msg S) :
  (∃ b r', Registry_RegisterPublishType w (bm_registry bm) = (Ok b, r') ∧ (b = false → r' = bm_registry bm)) ∧
  (∃ b r', Registry_Subscribe v (bm_registry bm) = (Ok b, r') ∧ (b = false → r' = bm_registry bm)).
Proof.
  unfold Registry_RegisterPublishType, Registry_Subscribe. unfold_monad.
  split; case_match; do 2 eexists; (split; [reflexivity|done]).
Qed.

Lemma set_registry_same bm : bm_set_registry (bm_registry bm) bm = bm.
Proof. by destruct bm. Qed.

Lemma set_pub_index_same bm : bm_set_pub_topics_backend_index_map (bm_pub_topics_backend_index_map bm) bm = bm.
Proof. by destruct bm. Qed.

Lemma set_sub_index_same bm : bm_set_sub_topics_backend_index_map (bm_sub_topics_backend_index_map bm) bm = bm.
Proof. by destruct bm. Qed.

(** The manager after the registration of a wrapper, up to the backends. *)
Lemma RegisterPublishType_keeps w (y : Sys) :
  bm_ok y.1 → bm_state y.1 ≠ kPreInit → bm_ok (bm_RegisterPublishType_wrapper regex_match w y).2.1.
Proof.
  destruct y as [bm s]; cbn. intros Hok Hst.
  set (t := topic_name (pw_info w)).
  set (bm1 := bm_set_pub_topic_seq_map (match bm_pub_topic_seq_map bm !! t with
     | Some _ => bm_pub_topic_seq_map bm | None => <[t := 0%Z]> (bm_pub_topic_seq_map bm) end) bm).
  assert (bm_ok bm1) as Hok1.
  { eapply bm_ok_frame, Hok; [done|done|]. intros t' Ht'. cbn.
    destruct (bm_pub_topic_seq_map bm !! t); [done|by apply is_Some_insert]. }
  assert (is_Some (bm_pub_topic_seq_map bm1 !! t)) as Hseq.
  { cbn. destruct (bm_pub_topic_seq_map bm !! t) eqn:E; [by rewrite E|by rewrite lookup_insert_eq]. }
  assert (bm_state bm1 ≠ kPreInit) as Hst1 by done.
  unfold bm_RegisterPublishType_wrapper, on_publish_filters, on_registry, on_bm. unfold_monad.
  fold t. cbn [fst snd]. change (bm_set_pub_topic_seq_map _ bm) with bm1. clearbody bm1. clear Hok Hst bm. cbn.
  destruct (CreateFilterCollectorIfNotExist t _ _) as [rf fm]. cbn.
  set (bm2 := bm_set_publish_filter_manager fm bm1).
  assert (bm_ok bm2) as Hok2 by (eapply bm_ok_frame, Hok1; done).
  destruct rf; [|done..]. cbn -[bm2].
  destruct (Registry_calls_total bm2 w (mkSubscribeWrapper (pw_info w) ∅ (λ f, (Ok tt, f))))
    as [(b & r' & Hr & Hsame) _].
  change (bm_registry bm2) with (bm_registry bm1) in Hr, Hsame. rewrite Hr. cbn -[bm2].
  destruct b; cbn -[bm2]; [|by rewrite Hsame by done; destruct bm1].
  pose proof (commit_pub bm2 w r' Hok2 Hst1 Hseq Hr) as Hc. fold t in Hc. unfold add_route in Hc.
  change (bm_pub_topics_backend_index_map bm2) with (bm_pub_topics_backend_index_map bm1) in *.
  destruct (bm_pub_topics_backend_index_map bm1 !! t); cbn -[bm2]; rewrite all_backends_bm; cbn -[bm2]; [|exact Hc].
  by destruct bm1.
Qed.

Lemma Subscribe_keeps i require cb (y : Sys) :
  bm_ok y.1 → bm_state y.1 ≠ kPreInit → bm_ok (bm_Subscribe_wrapper regex_match i require cb y).2.1.
Proof.
  destruct y as [bm1 s]; cbn. intros Hok1 Hst1. set (t := topic_name i).
  unfold bm_Subscribe_wrapper, on_subscribe_filters, on_registry, on_bm. unfold_monad. fold t. cbn.
  destruct (CreateFilterCollectorIfNotExist t _ _) as [rf fm]. cbn.
  set (bm2 := bm_set_subscribe_filter_manager fm bm1).
  assert (bm_ok bm2) as Hok2 by (eapply bm_ok_frame, Hok1; done).
  destruct rf; [|done..]. cbn -[bm2].
  set (w := mkSubscribeWrapper i require _).
  destruct (Registry_calls_total bm2 (mkPublishTypeWrapper i ∅) w) as [_ (b & r' & Hr & Hsame)].
  change (bm_registry bm2) with (bm_registry bm1) in Hr, Hsame. rewrite Hr. cbn -[bm2].
  destruct b; cbn -[bm2]; [|by rewrite Hsame by done; destruct bm1].
  pose proof (commit_sub bm2 w r' Hok2 Hst1 Hr) as Hc. change (topic_name (sw_info w)) with t in Hc.
  unfold add_route in Hc.
  change (bm_sub_topics_backend_index_map bm2) with (bm_sub_topics_backend_index_map bm1) in *.
  destruct (bm_sub_topics_backend_index_map bm1 !! t); cbn -[bm2]; rewrite all_backends_bm; cbn -[bm2]; [|exact Hc].
  by destruct bm1.
Qed.

(** Publishing touches nothing but the sequence numbers. *)
Lemma Publish_keeps now topic w (y : Sys) : bm_ok y.1 → bm_ok (bm_Publish_wrapper now topic w y).2.1.
Proof.
  intros Hok. unfold bm_Publish_wrapper, on_bm. unfold_monad.
  pose proof (on_s_bm (get_ctx (ctx_ref w)) y) as E1.
  destruct (on_s (get_ctx (ctx_ref w)) y) as [[c| |] y1]; cbn in *; try by rewrite E1.
  destruct (_ || _); cbn; [by rewrite E1|].
  pose proof (on_s_bm (update_ctx (ctx_ref w) SetUsed) y1) as E2.
  destruct (on_s (update_ctx (ctx_ref w) SetUsed) y1) as [[u| |] y2]; cbn in *; try by rewrite E2, E1.
  destruct (bm_pub_topic_seq_map y2.1 !! topic) as [n|] eqn:Hn; cbn.
  - set (bm3 := bm_set_pub_topic_seq_map _ y2.1).
    assert (bm_ok bm3) as Hok3.
    { eapply bm_ok_frame, Hok; [by rewrite <-E1, <-E2..|]. cbn. rewrite E2, E1.
      intros t. apply is_Some_insert. }
    pose proof (on_s_bm (update_ctx (ctx_ref w) (SetMetaValue KEY_PUB_SEQ (to_string (wrap32 (n + 1))))) (bm3, y2.2)) as E4.
    destruct (on_s _ (bm3, y2.2)) as [[v| |] y4]; cbn in *; try by rewrite E4.
    pose proof (on_s_bm (update_ctx (ctx_ref w) (SetMetaValue KEY_PUB_TIMESTAMP (to_string now))) y4) as E5.
    destruct (on_s _ y4) as [[v'| |] y5]; cbn in *; try by rewrite E5, E4.
    rewrite on_s_bm. by rewrite E5, E4.
  - rewrite <-(surjective_pairing y2).
    pose proof (on_s_bm (update_ctx (ctx_ref w) (SetMetaValue KEY_PUB_TIMESTAMP (to_string now))) y2) as E5.
    destruct (on_s _ y2) as [[v'| |] y5]; cbn in *; try by rewrite E5, E2, E1.
    rewrite on_s_bm. by rewrite E5, E2, E1.
Qed.

Lemma preinit_only_keeps f (y : Sys) :
  (∀ bm, bm_ok bm → bm_state bm = kPreInit → bm_ok (f bm)) →
  bm_ok y.1 → bm_ok (preinit_only f y).2.1.
Proof.
  intros Hf Hok. unfold preinit_only, on_bm. unfold_monad. cbn. unfold state_eqb.
  case_bool_decide as Hst; [|done]. by apply Hf.
Qed.

Lemma exchange_keeps new old what (y : Sys) :
  new ≠ kPreInit → bm_ok y.1 → bm_ok (exchange new old what y).2.1.
Proof.
  intros Hnew Hok. unfold exchange, on_bm. unfold_monad. cbn.
  assert (bm_ok (bm_set_state new y.1)) by (eapply bm_ok_frame, Hok; done).
  by case_match.
Qed.

(** While nothing is registered, registry, rules and backends may change. *)
Lemma empty_indices_ok bm :
  registry_ok (bm_registry bm) →
  publish_type_wrapper_map (bm_registry bm) = ∅ → subscribe_wrapper_map (bm_registry bm) = ∅ →
  bm_pub_topics_backend_index_map bm = ∅ → bm_sub_topics_backend_index_map bm = ∅ →
  bm_ok bm.
Proof.
  intros Hr E1 E2 E3 E4. split; rewrite ?E1, ?E2, ?E3, ?E4; try done;
    intros *; rewrite lookup_empty; intros Habs; by first [discriminate Habs | destruct Habs].
Qed.

Lemma run_call_keeps c (y : Sys) : bm_ok y.1 → bm_ok (run_call c y).2.1.
Proof.
  intros Hok.
  assert (∀ (m : M Sys bool) z, bm_ok (m z).2.1 → bm_ok ((m;; mret tt) z).2.1) as Hdrop.
  { intros m z. unfold_monad. by destruct (m z) as [[] ?]. }
  destruct c; cbn [run_call].
  - by apply exchange_keeps.
  - unfold bm_Start, on_bm. unfold_monad.
    pose proof (exchange_keeps kStart kInit "Method can only be called when state is 'Init'." y ltac:(done) Hok) as He.
    destruct (exchange _ _ _ y) as [[] y1]; cbn in *; [|done..]. by rewrite mapM_on_s_bm.
  - unfold bm_Shutdown, on_bm. unfold_monad. cbn.
    assert (bm_ok (bm_set_state kShutdown y.1)) by (eapply bm_ok_frame, Hok; done).
    case_match; [done|]. by rewrite mapM_on_s_bm.
  - apply preinit_only_keeps; [|done].
    intros bm Hb Hpre. destruct (bm_ok_fresh bm Hb Hpre) as (E1 & E2 & E3 & E4).
    apply empty_indices_ok; try done. apply registry_ok_new.
  - apply preinit_only_keeps; [|done]. intros bm Hb _. by eapply (bm_ok_frame bm).
  - apply preinit_only_keeps; [|done]. intros bm Hb _. by eapply (bm_ok_frame bm).
  - apply preinit_only_keeps; [|done]. intros bm Hb _. by eapply (bm_ok_frame bm).
  - apply preinit_only_keeps; [|done]. intros bm Hb _. by eapply (bm_ok_frame bm).
  - apply preinit_only_keeps; [|done]. intros bm Hb Hpre.
    destruct (bm_ok_fresh bm Hb Hpre) as (E1 & E2 & E3 & E4). by apply empty_indices_ok; [apply Hb|..].
  - apply preinit_only_keeps; [|done]. intros bm Hb Hpre.
    destruct (bm_ok_fresh bm Hb Hpre) as (E1 & E2 & E3 & E4). by apply empty_indices_ok; [apply Hb|..].
  - apply preinit_only_keeps; [|done]. intros bm Hb Hpre.
    destruct (bm_ok_fresh bm Hb Hpre) as (E1 & E2 & E3 & E4). by apply empty_indices_ok; [apply Hb|..].
  - apply Hdrop. unfold bm_Subscribe_framework, on_bm. unfold_monad. cbn. unfold state_eqb.
    case_bool_decide as Hi; [|done]. apply Subscribe_keeps; [done|]. cbn. by rewrite Hi.
  - apply Hdrop. unfold bm_Subscribe_proxy, on_bm. unfold_monad. cbn. unfold state_eqb.
    case_bool_decide as Hi; [|done]. destruct ts, callback; [|done..]. cbn [negb].
    apply Subscribe_keeps; [|change (bm_state y.1 ≠ kPreInit); by rewrite Hi].
    apply (bm_ok_frame y.1); [reflexivity|done|auto|done].
  - apply Hdrop. unfold bm_RegisterPublishType_framework, on_bm. unfold_monad. cbn. unfold state_eqb.
    case_bool_decide as Hi; [|done]. apply RegisterPublishType_keeps; [done|]. cbn. by rewrite Hi.
  - apply Hdrop. unfold bm_RegisterPublishType_proxy, on_bm. unfold_monad. cbn. unfold state_eqb.
    case_bool_decide as Hi; [|done]. destruct ts; [|done]. cbn [negb].
    apply RegisterPublishType_keeps; [|change (bm_state y.1 ≠ kPreInit); by rewrite Hi].
    apply (bm_ok_frame y.1); [reflexivity|done|auto|done].
  - unfold bm_Publish_framework, on_bm. unfold_monad. cbn. case_match; [done|]. by apply Publish_keeps.
  - unfold bm_Publish_proxy, on_bm. unfold_monad. cbn. case_match; [done|].
    case_match; [|done]. by apply Publish_keeps.
Qed.

Lemma reachable_ok bm : rtc bm_step ChannelBackendManager_new bm → bm_ok bm.
Proof.
  intros Hr. assert (bm_ok ChannelBackendManager_new) as Hn by apply bm_ok_new. revert Hn.
  induction Hr as [|x y z (c & s & r & s' & Hstep) _ IH]; [done|].
  intros Hx. apply IH. pose proof (run_call_keeps c (x, s) Hx) as Hk. by rewrite Hstep in Hk.
Qed.

(** C18: Every registered topic is routed.  However the calls on the manager
    are ordered and however they end (a filter unknown, a backend that
    throws or refuses), each type registered to be published has a sequence
    number and the backends that the first matching rule names, each
    subscription has its backends, and the indices of the registry list what
    is registered; the rules cannot change any more. *)
Theorem registered_topics_are_routed bm :
  rtc bm_step ChannelBackendManager_new bm →
  registry_ok (bm_registry bm) ∧
  (∀ k, is_Some (GetPublishTypeWrapperPtr (bm_registry bm) k) →
     is_Some (bm_pub_topic_seq_map bm !! k_topic_name k) ∧
     bm_pub_topics_backend_index_map bm !! k_topic_name k = Some (pub_rule bm (k_topic_name k))) ∧
  (∀ k, is_Some (GetSubscribeWrapperPtr (bm_registry bm) k) →
     bm_sub_topics_backend_index_map bm !! k_topic_name k = Some (sub_rule bm (k_topic_name k))).
Proof.
  intros [H1 H2 H3 H4 H5 H6 H7]%reachable_ok. split_and!; [done| |].
  - intros k Hk. split; [by apply H3|]. destruct (H4 k Hk) as [bs Hbs]. by rewrite Hbs, <-(H6 _ _ Hbs).
  - intros k Hk. destruct (H5 k Hk) as [bs Hbs]. by rewrite Hbs, <-(H7 _ _ Hbs).
Qed.
End Routing.

(** * Publishing *)

Section Publishing.
Context {Msg S node : Type} `{HasContexts S}.

Abbreviation cbm := (ChannelBackendManager Msg S node).
Implicit Types bm : cbm.

(** The context that goes out with a message. *)
Definition stamp (c : Context) (seq : option Z) (now : Z) : Context :=
  SetMetaValue KEY_PUB_TIMESTAMP (to_string now)
    (match seq with
     | Some n => SetMetaValue KEY_PUB_SEQ (to_string n) (SetUsed c)
     | None => SetUsed c
     end).

Definition next_seq bm (t : string) : option Z :=
  (λ n, wrap32 (n + 1)) <$> bm_pub_topic_seq_map bm !! t.
Definition advance bm (t : string) : cbm :=
  match next_seq bm t with
  | Some n => bm_set_pub_topic_seq_map (<[t := n]> (bm_pub_topic_seq_map bm)) bm
  | None => bm
  end.

Lemma update_ctx_eq i f (s : S) c :
  ctxs s !! i = Some c → update_ctx i f s = (Ok tt, set_ctxs (<[i := f c]> (ctxs s)) s).
Proof. intros Hc. unfold update_ctx, get_ctx. unfold_monad. by rewrite Hc. Qed.

Definition fresh_publisher (c : Context) : Prop :=
  ctx_type c = AIMRT_CHANNEL_PUBLISHER_CONTEXT ∧ ctx_used c = false.

Lemma Publish_wrapper_fresh now t (w : MsgWrapper Msg) bm (s : S) c :
  ctxs s !! ctx_ref w = Some c → fresh_publisher c →
  bm_Publish_wrapper now t w (bm, s) =
    let bm' := advance bm t in
    let s' := set_ctxs (<[ctx_ref w := stamp c (next_seq bm t) now]> (ctxs s)) s in
    let '(r, s'') := call_with w (InvokeChannel (GetFilterCollector (bm_publish_filter_manager bm') t)
                                    (publish_to_backends bm')) s' in (r, (bm', s'')).
Proof.
  intros Hc [Ht Hu]. unfold bm_Publish_wrapper, on_s, on_bm, get_ctx. unfold_monad. cbn [fst snd].
  rewrite Hc, Ht, Hu, bool_decide_eq_true_2 by done. cbn [fst snd negb orb].
  rewrite (update_ctx_eq _ _ s c) by done. unfold advance, next_seq, stamp. cbn [fst snd].
  destruct (bm_pub_topic_seq_map bm !! t) as [n|]; cbn [fst snd fmap option_fmap option_map];
    repeat (erewrite update_ctx_eq by (rewrite ctxs_set_ctxs; apply lookup_insert_eq);
            rewrite ctxs_set_ctxs, set_ctxs_set_ctxs, insert_insert_eq; cbn [fst snd]);
    done.
Qed.

Lemma Publish_wrapper_used now t (w : MsgWrapper Msg) bm (s : S) c :
  ctxs s !! ctx_ref w = Some c → ctx_used c = true →
  bm_Publish_wrapper now t w (bm, s) = (Ok tt, (bm, s)).
Proof.
  intros Hc Hu. unfold bm_Publish_wrapper, on_s, on_bm, get_ctx. unfold_monad. cbn [fst snd].
  rewrite Hc, Hu. by rewrite orb_true_r.
Qed.

(** What the filters and backends do with a message goes through, and keeps
    the contexts there are. *)
Definition delivers (m : M S unit) : Prop :=
  ∀ s, ∃ s', m s = (Ok tt, s') ∧ ctxs s ⊆ ctxs s'.

(** Publishing, on every branch.  A message is dropped without effect
    when the manager has not been started, when the type was not registered,
    and when the context is not a publisher's or has been used.  Otherwise
    the context is marked as used and stamped with the next sequence number
    of the topic (which wraps at 32 bits) and the time, the number is kept,
    and the message goes through the topic's filters to each of its
    backends, whose outcome is the outcome of the call. *)
Theorem publish_branches bm (s : S) now (pkg module topic ty : string) i m c :
  ctxs s !! i = Some c →
  bm_Publish_proxy now pkg module topic ty i m (bm, s) =
    match bm_state bm, GetPublishTypeWrapperPtr (bm_registry bm) (mkKey ty topic pkg module), ctx_type c, ctx_used c with
    | kStart, Some pub, AIMRT_CHANNEL_PUBLISHER_CONTEXT, false =>
        let bm' := advance bm topic in
        let '(r, s') :=
          call_with (mkMsgWrapper (pw_info pub) (Some m) i ∅)
            (InvokeChannel (GetFilterCollector (bm_publish_filter_manager bm') topic) (publish_to_backends bm'))
            (set_ctxs (<[i := stamp c (next_seq bm topic) now]> (ctxs s)) s) in
        (r, (bm', s'))
    | _, _, _, _ => (Ok tt, (bm, s))
    end.
Proof.
  intros Hc. unfold bm_Publish_proxy, on_bm. unfold_monad. cbn [fst snd]. unfold state_eqb.
  destruct (bm_state bm); try done. rewrite bool_decide_eq_true_2 by done. cbn [negb].
  destruct (GetPublishTypeWrapperPtr _ _) as [pub|]; [|done].
  set (w := mkMsgWrapper _ _ _ _).
  destruct (ctx_type c) eqn:Ht; [destruct (ctx_used c) eqn:Hu|].
  - by apply (Publish_wrapper_used now topic w bm s c).
  - by apply (Publish_wrapper_fresh now topic w bm s c).
  - unfold bm_Publish_wrapper, on_s, get_ctx. unfold_monad. cbn [fst snd ctx_ref w].
    rewrite Hc, Ht. by rewrite bool_decide_eq_false_2 by done.
Qed.

Lemma wrap_add_l w a b : wrap w (wrap w a + b) = wrap w (a + b).
Proof. apply Zplus_mod_idemp_l. Qed.

Lemma Publish_run now t bm info m (f : nat → M (cbm * S) unit) n refs : ∀ (s : S),
  (∀ seqs i s, let bm' := bm_set_pub_topic_seq_map seqs bm in
     f i (bm', s) = bm_Publish_wrapper now t (mkMsgWrapper info (Some m) i ∅) (bm', s)) →
  bm_pub_topic_seq_map bm !! t = Some n → in_width 32 n →
  NoDup refs →
  Forall (λ i, ∃ c, ctxs s !! i = Some c ∧ fresh_publisher c) refs →
  (∀ seqs i, let bm' := bm_set_pub_topic_seq_map seqs bm in
     delivers (call_with (mkMsgWrapper info (Some m) i ∅)
       (InvokeChannel (GetFilterCollector (bm_publish_filter_manager bm') t) (publish_to_backends bm')))) →
  ∃ seqs s',
    mapM_ f refs (bm, s) =
      (Ok tt, (bm_set_pub_topic_seq_map seqs bm, s')) ∧
    seqs !! t = Some (wrap32 (n + Z.of_nat (length refs))) ∧
    (∀ i c, i ∉ refs → ctxs s !! i = Some c → ctxs s' !! i = Some c) ∧
    ∀ j i, refs !! j = Some i →
      ∃ c, ctxs s' !! i = Some c ∧ ctx_used c = true ∧
           GetMetaValue c KEY_PUB_SEQ = to_string (wrap32 (n + Z.of_nat j + 1)).
Proof.
  revert bm n. induction refs as [|i refs IH]; intros bm n s Heq Hn Hw Hnd Hf Hd.
  - exists (bm_pub_topic_seq_map bm), s. split; [by destruct bm|].
    split; [|done]. cbn. by rewrite Z.add_0_r, wrap_small.
  - apply NoDup_cons in Hnd as [Hni Hnd]. apply Forall_cons in Hf as [(c & Hc & Hfc) Hf].
    set (w := mkMsgWrapper info (Some m) i ∅).
    cbn [mapM_]. unfold mbind at 1, M_bind at 1.
    assert (f i (bm, s) = bm_Publish_wrapper now t w (bm, s)) as ->
      by (destruct bm; apply (Heq _ i s)).
    rewrite (Publish_wrapper_fresh now t w bm s c Hc Hfc). cbv zeta.
    unfold advance, next_seq. rewrite Hn. cbn [fmap option_fmap option_map].
    set (bm1 := bm_set_pub_topic_seq_map (<[t:=wrap32 (n + 1)]> _) bm).
    set (s1 := set_ctxs _ s).
    destruct (Hd (<[t:=wrap32 (n + 1)]> (bm_pub_topic_seq_map bm)) i s1) as (s2 & Hs2 & Hsub).
    fold bm1 w in Hs2. rewrite Hs2.
    assert (∀ i' c', ctxs s1 !! i' = Some c' → ctxs s2 !! i' = Some c') as Hkeep
      by (intros i' c' Hi'; exact (lookup_weaken _ _ _ _ Hi' Hsub)).
    assert (ctxs s2 !! i = Some (stamp c (Some (wrap32 (n + 1))) now)) as Hi.
    { apply Hkeep. unfold s1. rewrite ctxs_set_ctxs. apply lookup_insert_eq. }
    assert (∀ i' c', i' ≠ i → ctxs s !! i' = Some c' → ctxs s2 !! i' = Some c') as Hother.
    { intros i' c' Hne Hc'. apply Hkeep. unfold s1. rewrite ctxs_set_ctxs. by rewrite lookup_insert_ne. }
    destruct (IH bm1 (wrap32 (n + 1)) s2) as (seqs & s' & Hrun & Hseq & Hout & Hin).
    + intros seqs i' s'. apply (Heq seqs i' s').
    + apply lookup_insert_eq.
    + by apply wrap_in_width.
    + done.
    + apply Forall_forall. intros i' Hi'. rewrite Forall_forall in Hf. destruct (Hf i' Hi') as (c' & Hc' & ?).
      exists c'. split; [|done]. apply Hother; [by intros ->|done].
    + intros seqs i'. apply (Hd seqs i').
    + exists seqs, s'. split; [exact Hrun|]. split_and!.
      * rewrite Hseq, wrap_add_l. do 2 f_equal. cbn [length]. lia.
      * intros i' c' [Hne Hni']%not_elem_of_cons Hc'. by apply Hout, Hother.
      * intros [|j] i' Hj.
        -- injection Hj as <-. eexists. split; [by apply Hout|]. split; [done|].
           unfold GetMetaValue, stamp, SetMetaValue. cbn [meta_data_map].
           rewrite lookup_insert_ne by done. rewrite lookup_insert_eq. cbn [default id].
           do 2 f_equal. lia.
        -- destruct (Hin j i' Hj) as (c' & Hc' & Hu & Hm). exists c'. split_and!; [done..|].
           rewrite Hm. f_equal. rewrite <-Z.add_assoc, wrap_add_l. f_equal. lia.
Qed.

(** Messages are numbered.  When the filters and backends go through and
    leave the contexts they are given alone, messages published one after
    the other on a topic carry consecutive numbers, modulo 2^32; every
    context ends up used; and publishing with one of them once more has no
    effect. *)
Theorem publish_numbers_messages bm (s : S) now (pkg module topic ty : string) pub m n refs :
  bm_state bm = kStart →
  GetPublishTypeWrapperPtr (bm_registry bm) (mkKey ty topic pkg module) = Some pub →
  bm_pub_topic_seq_map bm !! topic = Some n → in_width 32 n →
  NoDup refs →
  Forall (λ i, ∃ c, ctxs s !! i = Some c ∧ fresh_publisher c) refs →
  (∀ seqs i, let bm' := bm_set_pub_topic_seq_map seqs bm in
     delivers (call_with (mkMsgWrapper (pw_info pub) (Some m) i ∅)
       (InvokeChannel (GetFilterCollector (bm_publish_filter_manager bm') topic) (publish_to_backends bm')))) →
  let publish i := bm_Publish_proxy now pkg module topic ty i m in
  ∃ y, mapM_ publish refs (bm, s) = (Ok tt, y) ∧
    bm_pub_topic_seq_map y.1 !! topic = Some (wrap32 (n + Z.of_nat (length refs))) ∧
    ∀ j i, refs !! j = Some i →
      ∃ c, ctxs y.2 !! i = Some c ∧ ctx_used c = true ∧
           GetMetaValue c KEY_PUB_SEQ = to_string (wrap32 (n + Z.of_nat j + 1)) ∧
           publish i y = (Ok tt, y).
Proof.
  intros Hst Hpub Hn Hw Hnd Hf Hd publish.
  assert (∀ seqs i s, let bm' := bm_set_pub_topic_seq_map seqs bm in
     publish i (bm', s) = bm_Publish_wrapper now topic (mkMsgWrapper (pw_info pub) (Some m) i ∅) (bm', s)) as Heq.
  { intros seqs i s'. unfold publish, bm_Publish_proxy, on_bm. unfold_monad. cbn [fst snd].
    change (bm_state (bm_set_pub_topic_seq_map seqs bm)) with (bm_state bm).
    change (bm_registry (bm_set_pub_topic_seq_map seqs bm)) with (bm_registry bm).
    rewrite Hst. unfold state_eqb. rewrite bool_decide_eq_true_2 by done. cbn [negb]. by rewrite Hpub. }
  destruct (Publish_run now topic bm (pw_info pub) m publish n refs s Heq Hn Hw Hnd Hf Hd)
    as (seqs & s' & Hrun & Hseq & _ & Hin).
  eexists. split; [exact Hrun|]. split; [exact Hseq|].
  intros j i Hj. destruct (Hin j i Hj) as (c & Hc & Hu & Hm). exists c. split_and!; [done..|].
  rewrite (Heq seqs i s'). by apply (Publish_wrapper_used _ _ _ _ _ c).
Qed.
End Publishing.

(** * The theorems at a concrete input *)

Module BackendDemo.
Import ChannelDemo.

Definition demo_regex (pattern topic : string) : res bool :=
  if String.eqb pattern "(" then Throw (RuntimeError "regex_error")
  else Ok (String.eqb pattern topic).

(** A backend that records what is published. *)
Definition demo_backend (name : string) : Backend bytes demo_state unit :=
  mkBackend name (λ _ s, (Ok tt, s)) (λ s, (Ok tt, s)) (λ s, (Ok tt, s))
    (λ _ s, (Ok true, s)) (λ _ s, (Ok true, s)) (λ _, demo_record) (λ _, []).


Definition demo_calls : list (bm_call (Msg := bytes) (S := demo_state) (node := unit)) :=
  [CallRegisterChannelBackend (demo_backend "a"); CallRegisterChannelBackend (demo_backend "b");
   CallSetPubTopicsBackendsRules [("(", ["a"]); ("topic", ["b"; "a"])];
   CallInitialize;
   CallRegisterPublishType_proxy "pkg" "mod" "topic" (Some demo_ts);
   CallStart].

Fixpoint run_calls (cs : list bm_call) (y : ChannelBackendManager bytes demo_state unit * demo_state) :=
  match cs with
  | [] => y
  | c :: cs' => run_calls cs' (run_call demo_regex c y).2
  end.

Definition demo_manager : ChannelBackendManager bytes demo_state unit :=
  (run_calls demo_calls (ChannelBackendManager_new, (∅, []))).1.

Definition demo_contexts_state : demo_state :=
  ({[0 := Context_new AIMRT_CHANNEL_PUBLISHER_CONTEXT; 1 := Context_new AIMRT_CHANNEL_PUBLISHER_CONTEXT]}, []).

Lemma demo_ctx0 :
  ctxs demo_contexts_state !! 0 = Some (Context_new AIMRT_CHANNEL_PUBLISHER_CONTEXT).
Proof. vm_compute. reflexivity. Qed.

Lemma run_calls_steps cs y : rtc (bm_step demo_regex) y.1 (run_calls cs y).1.
Proof.
  revert y; induction cs as [|c cs IH]; intros y; [apply rtc_refl|]. cbn [run_calls].
  eapply rtc_l, IH. exists c, y.2, (run_call demo_regex c y).1, (run_call demo_regex c y).2.2.
  rewrite <-!surjective_pairing. reflexivity.
Qed.

Lemma demo_delivers seqs i :
  let bm' := bm_set_pub_topic_seq_map seqs demo_manager in
  delivers (call_with (mkMsgWrapper demo_info (Some demo_msg) i ∅)
    (InvokeChannel (GetFilterCollector (bm_publish_filter_manager bm') "topic") (publish_to_backends bm'))).
Proof.
  intros bm' [cs log]. eexists. split; [reflexivity|]. reflexivity.
Qed.
End BackendDemo.



Lemma registered_topics_are_routed_witness :
  map be_Name <$> (bm_pub_topics_backend_index_map BackendDemo.demo_manager !! "topic") = Some ["b"; "a"] ∧
  registry_ok (bm_registry BackendDemo.demo_manager).
Proof.
  split; [vm_compute; reflexivity|].
  exact (proj1 (registered_topics_are_routed BackendDemo.demo_regex BackendDemo.demo_manager
                  (BackendDemo.run_calls_steps BackendDemo.demo_calls (ChannelBackendManager_new, (∅, []))))).
Defined.

Lemma publish_branches_witness :
  (bm_Publish_proxy (S := ChannelDemo.demo_state) 7 "pkg" "mod" "topic" "other" 0 ChannelDemo.demo_msg
     (BackendDemo.demo_manager, BackendDemo.demo_contexts_state)).1 = Ok tt.
Proof.
  rewrite (publish_branches BackendDemo.demo_manager BackendDemo.demo_contexts_state 7 "pkg" "mod" "topic"
             "other" 0 ChannelDemo.demo_msg (Context_new AIMRT_CHANNEL_PUBLISHER_CONTEXT) BackendDemo.demo_ctx0).
  vm_compute. reflexivity.
Defined.

Lemma publish_numbers_messages_witness :
  ∃ y, mapM_ (λ i, bm_Publish_proxy 7 "pkg" "mod" "topic" "demo/Msg" i ChannelDemo.demo_msg) [0; 1]
         (BackendDemo.demo_manager, BackendDemo.demo_contexts_state) = (Ok tt, y) ∧
    ∃ c, ctxs y.2 !! 1 = Some c ∧ GetMetaValue c KEY_PUB_SEQ = "2".
Proof.
  destruct (publish_numbers_messages BackendDemo.demo_manager BackendDemo.demo_contexts_state 7
              "pkg" "mod" "topic" "demo/Msg" (mkPublishTypeWrapper ChannelDemo.demo_info ∅)
              ChannelDemo.demo_msg 0 [0; 1]) as (y & H1 & _ & H2).
  - vm_compute. reflexivity.
  - vm_compute. reflexivity.
  - vm_compute. reflexivity.
  - split; [by apply Z.leb_le|by apply Z.ltb_lt].
  - bdec.
  - repeat constructor; eexists; (split; [vm_compute; reflexivity|split; vm_compute; reflexivity]).
  - exact BackendDemo.demo_delivers.
  - exists y. split; [exact H1|]. destruct (H2 1 1 eq_refl) as (c & Hc & _ & Hm & _).
    exists c. split; [exact Hc|]. rewrite Hm. vm_compute. reflexivity.
Defined.
