(* ===== verification/LocalChannel.v ===== *)
(** * The local backend: [src/runtime/core/channel/local_channel_backend.*]

    The backend that passes messages between the modules of one process:
    within a package as a copy, to other packages through a serialized form.
    Its state is a part of the state [S] (class [HasLocal]), because other
    parts of [S] belong to the callbacks it calls; the registry, to which it
    has a pointer, is an argument of [Publish].  Executors are parameters,
    named by the string that configures them.  The options written back to the
    configuration node are not modelled, nor is the time a message object
    lives. *)

From S2P Require Import Prelude Yaml Filters Channel ChannelBackend.

(* @src src/src/runtime/core/channel/local_channel_backend.h:17-20 LocalChannelBackend::Options *)
Record LocalOptions := mkLocalOptions {
  subscriber_use_inline_executor : bool;
  subscriber_executor : string
}.

Definition local_default : LocalOptions := mkLocalOptions true "".

(** By message type, topic and package. *)
(* @src src/src/runtime/core/channel/local_channel_backend.h:68-76 LocalChannelBackend::SubscribeIndexMap *)
Definition SubscribeIndexMap : Type := gmap string (gmap string (gmap string (gset string))).

(** [lc_has_get_executor_func] tells whether the function to look executors up
    is set; [subscribe_executor_ref] names the executor, if there is one. *)
(* @src src/src/runtime/core/channel/local_channel_backend.h:58-77 LocalChannelBackend *)
Record LocalChannelBackend := mkLocal {
  lc_options : LocalOptions;
  lc_state : State;
  lc_has_get_executor_func : bool;
  subscribe_executor_ref : option string;
  subscribe_index_map : SubscribeIndexMap
}.

Definition LocalChannelBackend_new : LocalChannelBackend := mkLocal local_default kPreInit false None ∅.

Class HasLocal (S : Type) `{HasContexts S} := {
  lc : S → LocalChannelBackend;
  set_lc : LocalChannelBackend → S → S;
  lc_set_lc l s : lc (set_lc l s) = l;
  lc_set_ctxs m s : lc (set_ctxs m s) = lc s;
  ctxs_set_lc l s : ctxs (set_lc l s) = ctxs s
}.

Section Decode.
Context `{Y : YamlOps node}.

(* @src src/src/runtime/core/channel/local_channel_backend.cc:24-32 convert<LocalChannelBackend::Options>::decode *)
Definition local_decode (n : node) (rhs : LocalOptions) : res (option LocalOptions) :=
  if negb (IsMap n) then Ok None
  else
    inline ← as_of as_bool (index n "subscriber_use_inline_executor");
    ex ← (if inline then Ok (subscriber_executor rhs)
          else as_of as_string (index n "subscriber_executor"));
    Ok (Some (mkLocalOptions inline ex)).
End Decode.

Section LocalChannelBackend.
Context {Msg S : Type} `{YamlOps node} `{HasLocal S}.
(** [get_executor_func_] and the executors it finds; [exec name task] is
    [Execute(task)] on one. *)
Context (find_executor : string → option string) (exec : string → M S unit → M S unit).

Definition on_local {A} (m : M LocalChannelBackend A) : M S A := zoom lc set_lc m.

Definition set_local_state x (l : LocalChannelBackend) :=
  mkLocal (lc_options l) x (lc_has_get_executor_func l) (subscribe_executor_ref l) (subscribe_index_map l).

(** [std::atomic_exchange(&state_, new)], checked against [old]. *)
Definition local_exchange (new old : State) (what : string) : M LocalChannelBackend unit :=
  l ← get;
  modify (set_local_state new);;
  check_throw (state_eqb (lc_state l) old) what.

(* @src src/src/runtime/core/channel/local_channel_backend.cc:38-59 LocalChannelBackend::Initialize *)
Definition local_Initialize (options_node : option node) : M LocalChannelBackend unit :=
  local_exchange kInit kPreInit "Local channel backend can only be initialized once.";;
  o ← lift (read_options local_decode local_default options_node);
  modify (λ l, mkLocal (default (lc_options l) o) (lc_state l) (lc_has_get_executor_func l)
                 (subscribe_executor_ref l) (subscribe_index_map l));;
  l ← get;
  if subscriber_use_inline_executor (lc_options l) then mret tt
  else
    check_throw (lc_has_get_executor_func l) "Get executor function is not set before initialize.";;
    let ref := find_executor (subscriber_executor (lc_options l)) in
    modify (λ l, mkLocal (lc_options l) (lc_state l) (lc_has_get_executor_func l) ref
                   (subscribe_index_map l));;
    check_throw (bool_decide (is_Some ref)) "Invalid local subscriber executor '{}'.".

(* @src src/src/runtime/core/channel/local_channel_backend.cc:61-65 LocalChannelBackend::Start *)
Definition local_Start : M LocalChannelBackend unit :=
  local_exchange kStart kInit "Method can only be called when state is 'Init'.".

(* @src src/src/runtime/core/channel/local_channel_backend.cc:67-74 LocalChannelBackend::Shutdown *)
Definition local_Shutdown : M LocalChannelBackend unit :=
  l ← get;
  modify (set_local_state kShutdown);;
  if state_eqb (lc_state l) kShutdown then mret tt
  else modify (λ l, mkLocal (lc_options l) (lc_state l) false (subscribe_executor_ref l) ∅).

(* @src src/src/runtime/core/channel/local_channel_backend.cc:76-89 LocalChannelBackend::RegisterPublishType *)
Definition local_RegisterPublishType (w : PublishTypeWrapper Msg) : M LocalChannelBackend bool :=
  l ← get;
  mret (state_eqb (lc_state l) kInit).

(** [subscribe_index_map_[msg_type][topic_name][pkg_path].emplace(module_name)] *)
Definition index_emplace (i : TopicInfo Msg) (m : SubscribeIndexMap) : SubscribeIndexMap :=
  let topics := default ∅ (m !! msg_type i) in
  let pkgs := default ∅ (topics !! topic_name i) in
  let modules := default ∅ (pkgs !! pkg_path i) in
  <[msg_type i := <[topic_name i := <[pkg_path i := {[module_name i]} ∪ modules]> pkgs]> topics]> m.

(* @src src/src/runtime/core/channel/local_channel_backend.cc:91-107 LocalChannelBackend::Subscribe *)
Definition local_Subscribe (w : SubscribeWrapper Msg S) : M LocalChannelBackend bool :=
  l ← get;
  if negb (state_eqb (lc_state l) kInit) then mret false
  else
    modify (λ l, mkLocal (lc_options l) (lc_state l) (lc_has_get_executor_func l)
                   (subscribe_executor_ref l) (index_emplace (sw_info w) (subscribe_index_map l)));;
    mret true.

(** Call a subscriber, on the executor if there is one. *)
(* @src src/src/runtime/core/channel/local_channel_backend.cc:185-192 LocalChannelBackend::Publish (call) *)
Definition call_subscriber (v : SubscribeWrapper Msg S) (w : MsgWrapper Msg) : M S unit :=
  s ← get;
  match subscribe_executor_ref (lc s) with
  | Some e => exec e (call_with w (sw_callback v))
  | None => call_with w (sw_callback v)
  end.

(** The wrappers a package's module map points to. *)
Definition module_wrappers (r : ChannelRegistry Msg S) (modules : gmap string Key)
    : list (option (SubscribeWrapper Msg S)) :=
  map (λ '(_, k), GetSubscribeWrapperPtr r k) (map_to_list modules).

(** Each subscriber of a package; a dangling pointer is undefined. *)
Fixpoint call_subscribers (vs : list (option (SubscribeWrapper Msg S)))
    (make : SubscribeWrapper Msg S → MsgWrapper Msg) : M S unit :=
  match vs with
  | [] => mret tt
  | Some v :: vs' => call_subscriber v (make v);; call_subscribers vs' make
  | None :: _ => undef
  end.

(** The subscribers' context: the publisher's meta data, and the backend. *)
(* @src src/src/runtime/core/channel/local_channel_backend.cc:153-161 LocalChannelBackend::Publish (context) *)
Definition subscriber_context (c : Context) : M S nat :=
  id ← new_ctx AIMRT_CHANNEL_SUBSCRIBER_CONTEXT;
  mapM_ (λ k, update_ctx id (SetMetaValue k (GetMetaValue c k))) (GetMetaKeys c);;
  update_ctx id (SetMetaValue KEY_BACKEND "local");;
  mret id.

(** One package of subscribers. *)
(* @src src/src/runtime/core/channel/local_channel_backend.cc:133-226 LocalChannelBackend::Publish (package) *)
Definition publish_to_pkg (r : ChannelRegistry Msg S) (serialization_type cur_sub_pkg_path : string)
    : Handle Msg S :=
  w ← on_msg get;
  let pub_info := mw_info w in
  let modules := default ∅ (GetModuleSubscribeWrapperMapPtr r
                   (mkMTPKey (msg_type pub_info) (topic_name pub_info) cur_sub_pkg_path)) in
  match module_wrappers r modules with
  | [] => mret tt
  | None :: _ => undef
  | (Some tpl :: _) as vs =>
      c ← on_state (get_ctx (ctx_ref w));
      id ← on_state (subscriber_context c);
      if bool_decide (cur_sub_pkg_path = pkg_path pub_info) then
        on_msg CheckMsg;;
        w ← on_msg get;
        match msg_ptr w with
        | None => undef
        | Some m =>
            let m' := Copy (msg_type_support_ref (sw_info tpl)) m in
            on_state (call_subscribers vs
              (λ v, mkMsgWrapper (sw_info v) (Some m') id (serialization_cache w)))
        end
      else
        on_state (update_ctx id (SetMetaValue KEY_SERIALIZATION_TYPE serialization_type));;
        on_msg (SerializeMsgWithCache serialization_type);;
        w ← on_msg get;
        on_state (call_subscribers vs
          (λ v, mkMsgWrapper (sw_info v) None id (serialization_cache w)))
  end.

(** The serialization type asked for, or the publisher's first. *)
(* @src src/src/runtime/core/channel/local_channel_backend.cc:127-130 LocalChannelBackend::Publish (type) *)
Definition choose_serialization_type (c : Context) (ts : TypeSupport Msg) : res string :=
  if bool_decide (GetSerializationType c = "") then DefaultSerializationType ts
  else Ok (GetSerializationType c).

(* @src src/src/runtime/core/channel/local_channel_backend.cc:109-230 LocalChannelBackend::Publish *)
Definition local_Publish (r : ChannelRegistry Msg S) : Handle Msg S :=
  try_catch
    (s ← on_state get;
     if negb (state_eqb (lc_state (lc s)) kStart) then mret tt
     else
       w ← on_msg get;
       let pub_info := mw_info w in
       match subscribe_index_map (lc s) !! msg_type pub_info with
       | None => mret tt
       | Some topics =>
           match topics !! topic_name pub_info with
           | None => mret tt
           | Some pkgs =>
               c ← on_state (get_ctx (ctx_ref w));
               ty ← lift (choose_serialization_type c (msg_type_support_ref pub_info));
               mapM_ (λ '(pkg, _), publish_to_pkg r ty pkg) (map_to_list pkgs)
           end
       end)
    (λ _, mret tt).

(* @src src/src/runtime/core/channel/local_channel_backend.cc:232-239 LocalChannelBackend::RegisterGetExecutorFunc *)
Definition local_RegisterGetExecutorFunc (is_set : bool) : M LocalChannelBackend unit :=
  l ← get;
  check_throw (state_eqb (lc_state l) kPreInit) "Method can only be called when state is 'PreInit'.";;
  put (mkLocal (lc_options l) (lc_state l) is_set (subscribe_executor_ref l) (subscribe_index_map l)).

(** The backend as the manager sees it. *)
(* @src src/src/runtime/core/channel/local_channel_backend.h:29-53 LocalChannelBackend *)
Definition local_backend : Backend Msg S (option node) :=
  mkBackend "local" (λ n, on_local (local_Initialize n)) (on_local local_Start) (on_local local_Shutdown)
    (λ w, on_local (local_RegisterPublishType w)) (λ w, on_local (local_Subscribe w)) local_Publish
    (λ _, []).
End LocalChannelBackend.

(** * The index *)

Section Index.
Context {Msg S : Type}.

(** The packages that subscribe to a topic, according to the index. *)
Definition topic_index (idx : SubscribeIndexMap) (mt t : string) : gmap string (gset string) :=
  default ∅ (default ∅ (idx !! mt) !! t).

(** The index names a package when the registry has a subscriber there. *)
Definition index_follows (idx : SubscribeIndexMap) (r : ChannelRegistry Msg S) : Prop :=
  ∀ mt t pkg mo, mo ∈ default ∅ (topic_index idx mt t !! pkg) ↔
    is_Some (subscribe_wrapper_map r !! mkKey mt t pkg mo).

Definition index_nonempty (idx : SubscribeIndexMap) : Prop :=
  ∀ mt t pkg ms, topic_index idx mt t !! pkg = Some ms → ms ≠ ∅.

Lemma topic_index_emplace i idx mt t :
  topic_index (index_emplace (Msg := Msg) i idx) mt t =
    if decide (mt = msg_type i ∧ t = topic_name i) then
      <[pkg_path i := {[module_name i]} ∪ default ∅ (topic_index idx mt t !! pkg_path i)]> (topic_index idx mt t)
    else topic_index idx mt t.
Proof.
  unfold SubscribeIndexMap in idx. unfold topic_index, index_emplace, SubscribeIndexMap.
  destruct (decide (mt = msg_type i)) as [->|Hmt].
  - rewrite lookup_insert_eq. cbn. destruct (decide (t = topic_name i)) as [->|Ht].
    + rewrite decide_True by done. by rewrite lookup_insert_eq.
    + rewrite decide_False by tauto. by rewrite lookup_insert_ne.
  - rewrite decide_False by tauto. by rewrite lookup_insert_ne.
Qed.

Lemma local_Subscribe_follows (l : LocalChannelBackend) (r : ChannelRegistry Msg S) w r' :
  lc_state l = kInit → index_follows (subscribe_index_map l) r → index_nonempty (subscribe_index_map l) →
  Registry_Subscribe w r = (Ok true, r') →
  ∃ l', local_Subscribe w l = (Ok true, l') ∧ lc_state l' = kInit ∧
    subscribe_executor_ref l' = subscribe_executor_ref l ∧
    index_follows (subscribe_index_map l') r' ∧ index_nonempty (subscribe_index_map l').
Proof.
  intros Hst Hf Hne Hr. unfold local_Subscribe. unfold_monad. rewrite Hst. cbn.
  eexists. split; [reflexivity|]. do 2 (split; [done|]). cbn [subscribe_index_map].
  unfold Registry_Subscribe in Hr. unfold_monad.
  destruct (subscribe_wrapper_map r !! key_of (sw_info w)) eqn:Hnew; [done|]. injection Hr as Hr. subst r'.
  set (i := sw_info w) in *. unfold index_follows. cbn [subscribe_wrapper_map]. split.
  - intros mt t pkg mo. rewrite topic_index_emplace.
    destruct (decide (mkKey mt t pkg mo = key_of i)) as [Heq|Hk].
    + rewrite Heq, lookup_insert_eq. injection Heq as -> -> -> ->. rewrite decide_True by done.
      rewrite lookup_insert_eq. cbn. split; [by eauto|set_solver].
    + rewrite (lookup_insert_ne (subscribe_wrapper_map r)) by done. etrans; [|apply Hf].
      case_decide as Hd; [|done].
      destruct Hd as [-> ->]. destruct (decide (pkg = pkg_path i)) as [->|Hp].
      * rewrite lookup_insert_eq. cbn. rewrite elem_of_union, elem_of_singleton. split; [|by right].
        intros [->|]; [by destruct Hk|done].
      * by rewrite lookup_insert_ne.
  - intros mt t pkg ms. rewrite topic_index_emplace. case_decide; [|by apply Hne].
    destruct (decide (pkg = pkg_path i)) as [->|Hp].
    + rewrite lookup_insert_eq. intros [= <-]. apply non_empty_inhabited_L with (x := module_name i), elem_of_union_l. by apply elem_of_singleton.
    + rewrite lookup_insert_ne by done. by apply Hne.
Qed.

(** C39: The index follows the registry.  When the registry takes a subscriber
    and the backend, not yet started, is told of it, the backend accepts it;
    its index then still names exactly the packages and modules that are
    registered, and no package without modules. *)
Theorem local_index_follows_registry (l : LocalChannelBackend) (r : ChannelRegistry Msg S) w r' :
  lc_state l = kInit → index_follows (subscribe_index_map l) r → index_nonempty (subscribe_index_map l) →
  Registry_Subscribe w r = (Ok true, r') →
  ∃ l', local_Subscribe w l = (Ok true, l') ∧ lc_state l' = kInit ∧
    subscribe_executor_ref l' = subscribe_executor_ref l ∧
    index_follows (subscribe_index_map l') r' ∧ index_nonempty (subscribe_index_map l').
Proof. apply local_Subscribe_follows. Qed.

Lemma index_follows_new : index_follows ∅ (ChannelRegistry_new (Msg := Msg) (S := S)) ∧ index_nonempty ∅.
Proof.
  split; intros mt t pkg; unfold topic_index, SubscribeIndexMap; rewrite !lookup_empty; cbn;
    rewrite ?lookup_empty; cbn; rewrite ?lookup_empty; cbn; [|done].
  intros mo. rewrite lookup_empty. split; [set_solver|by intros [? [=]]].
Qed.
End Index.

(** * Delivery *)

Section Delivery.
Context {Msg S : Type} `{HasLocal S}.
Context (exec : string → M S unit → M S unit).
Context (r : ChannelRegistry Msg S) (m : Msg).
(** What the subscribers are seen to receive. *)
Context (log : S → list (Key * Msg * Context)) (log_set_ctxs : ∀ x s, log (set_ctxs x s) = log s).

(** A subscriber that checks its message, notes it with the context, and
    goes on. *)
Definition records (v : SubscribeWrapper Msg S) : Prop :=
  ∀ w w' s c mm,
    CheckMsg w = (Ok tt, w') → msg_ptr w' = Some mm → ctxs s !! ctx_ref w = Some c →
    ∃ w'' s', sw_callback v (w, s) = (Ok tt, (w'', s')) ∧
      log s' = log s ++ [(key_of (sw_info v), mm, c)] ∧ ctxs s ⊆ ctxs s' ∧ lc s' = lc s.

Lemma call_subscribers_spec vs make id c : ∀ s,
  subscribe_executor_ref (lc s) = None → ctxs s !! id = Some c →
  Forall (λ v, records v ∧ ctx_ref (make v) = id ∧
               ∃ w', CheckMsg (make v) = (Ok tt, w') ∧ msg_ptr w' = Some m) vs →
  ∃ s', call_subscribers exec (Some <$> vs) make s = (Ok tt, s') ∧
    log s' = log s ++ ((λ v, (key_of (sw_info v), m, c)) <$> vs) ∧ ctxs s ⊆ ctxs s' ∧ lc s' = lc s.
Proof.
  induction vs as [|v vs IH]; intros s Hex Hid Hvs.
  - exists s. split_and!; [done|by rewrite app_nil_r|done|done].
  - apply Forall_cons in Hvs as [(Hv & Hctx & w' & Hw' & Hm) Hvs].
    rewrite <-Hctx in Hid. destruct (Hv (make v) w' s c m Hw' Hm Hid) as (w'' & s1 & Hrun & Hlog & Hsub & Hlc).
    destruct (IH s1) as (s2 & Hrun2 & Hlog2 & Hsub2 & Hlc2).
    { by rewrite Hlc. }
    { rewrite Hctx in Hid. by apply (lookup_weaken _ _ _ _ Hid). }
    { done. }
    exists s2. split_and!.
    + rewrite fmap_cons. cbn [call_subscribers]. unfold call_subscriber at 1. unfold_monad. rewrite Hex.
      unfold call_with. rewrite Hrun. exact Hrun2.
    + rewrite Hlog2, Hlog. by rewrite <-app_assoc.
    + by trans (ctxs s1).
    + by rewrite Hlc2.
Qed.

(** ** The subscribers' context *)

Definition with_meta (meta : gmap string string) : Context :=
  mkContext meta false AIMRT_CHANNEL_SUBSCRIBER_CONTEXT.

(** The context the subscribers of a package find. *)
Definition pkg_context (c : Context) (same_pkg : bool) (ty : string) : Context :=
  let c' := with_meta (<[KEY_BACKEND := "local"]> (meta_data_map c)) in
  if same_pkg then c' else SetMetaValue KEY_SERIALIZATION_TYPE ty c'.

Lemma copy_meta c id ks acc (s : S) :
  mapM_ (λ k, update_ctx id (SetMetaValue k (GetMetaValue c k))) ks
    (set_ctxs (<[id := with_meta acc]> (ctxs s)) s) =
  (Ok tt, set_ctxs (<[id := with_meta (foldl (λ a k, <[k := GetMetaValue c k]> a) acc ks)]> (ctxs s)) s).
Proof.
  revert acc; induction ks as [|k ks IH]; intros acc; [done|]. cbn [mapM_ foldl]. unfold_monad.
  erewrite update_ctx_eq by (rewrite ctxs_set_ctxs; apply lookup_insert_eq).
  rewrite ctxs_set_ctxs, set_ctxs_set_ctxs, insert_insert_eq. apply IH.
Qed.

Lemma foldl_meta_lookup c ks (acc : gmap string string) k :
  foldl (λ a k, <[k := GetMetaValue c k]> a) acc ks !! k =
  if decide (k ∈ ks) then Some (GetMetaValue c k) else acc !! k.
Proof.
  revert acc; induction ks as [|k' ks IH]; intros acc; cbn [foldl].
  - by rewrite decide_False by apply not_elem_of_nil.
  - rewrite IH. destruct (decide (k ∈ ks)) as [Hin|Hni].
    + rewrite decide_True; [done|by apply list_elem_of_further].
    + destruct (decide (k = k')) as [->|Hne].
      * rewrite lookup_insert_eq, decide_True; [done|apply list_elem_of_here].
      * rewrite lookup_insert_ne, decide_False; [done| |done]. by intros [|]%elem_of_cons.
Qed.

Lemma copied_meta c : foldl (λ a k, <[k := GetMetaValue c k]> a) ∅ (GetMetaKeys c) = meta_data_map c.
Proof.
  apply map_eq. intros k. rewrite foldl_meta_lookup, lookup_empty. unfold GetMetaKeys, GetMetaValue.
  destruct (meta_data_map c !! k) as [v|] eqn:Hk.
  - rewrite decide_True; [done|]. apply list_elem_of_fmap. exists (k, v). by rewrite elem_of_map_to_list.
  - rewrite decide_False; [done|]. intros ((k' & v) & -> & Hin)%list_elem_of_fmap.
    rewrite elem_of_map_to_list in Hin. cbn in Hk. congruence.
Qed.

Lemma subscriber_context_spec c (s : S) :
  ∃ id, (id ∉ dom (ctxs s)) ∧
    subscriber_context c s = (Ok id, set_ctxs (<[id := pkg_context c true ""]> (ctxs s)) s).
Proof.
  exists (fresh (dom (ctxs s))). split; [apply is_fresh|].
  unfold subscriber_context, new_ctx. unfold_monad.
  change (Context_new AIMRT_CHANNEL_SUBSCRIBER_CONTEXT) with (with_meta ∅).
  rewrite copy_meta, copied_meta.
  erewrite update_ctx_eq by (rewrite ctxs_set_ctxs; apply lookup_insert_eq).
  by rewrite ctxs_set_ctxs, set_ctxs_set_ctxs, insert_insert_eq.
Qed.

(** ** The subscribers of a package *)

Lemma module_wrappers_spec mk :
  registry_ok r →
  ∃ vs, module_wrappers r (default ∅ (GetModuleSubscribeWrapperMapPtr r mk)) = (Some <$> vs) ∧
    NoDup ((key_of ∘ sw_info) <$> vs) ∧
    (∀ v, v ∈ vs → subscribe_wrapper_map r !! key_of (sw_info v) = Some v) ∧
    ∀ k, k ∈ (key_of ∘ sw_info) <$> vs ↔ mtp_of k = mk ∧ is_Some (subscribe_wrapper_map r !! k).
Proof.
  intros Hok. unfold module_wrappers, GetModuleSubscribeWrapperMapPtr, GetSubscribeWrapperPtr.
  set (mods := default ∅ (sub_msg_topic_pkg_index_map r !! mk)).
  assert (∀ mo k, (mo, k) ∈ map_to_list mods ↔
    mtp_of k = mk ∧ k_module_name k = mo ∧ is_Some (subscribe_wrapper_map r !! k)) as Hel.
  { intros mo k. rewrite elem_of_map_to_list. apply (ok_mtp r Hok). }
  assert (∀ l, (∀ p, p ∈ l → p ∈ map_to_list mods) →
    ∃ vs, map (λ '(_, k), subscribe_wrapper_map r !! k) l = (Some <$> vs) ∧
      ((key_of ∘ sw_info) <$> vs) = l.*2 ∧
      ∀ v, v ∈ vs → subscribe_wrapper_map r !! key_of (sw_info v) = Some v) as Hall.
  { induction l as [|[mo k] l IH]; intros Hl.
    - exists []. split_and!; [done|done|]. intros v Hv. by apply not_elem_of_nil in Hv.
    - destruct IH as (vs & H1 & H2 & H3). { intros p Hp. by apply Hl, list_elem_of_further. }
      destruct (Hel mo k) as [Hk _]. destruct (Hk (Hl _ (list_elem_of_here _ _))) as (_ & _ & v & Hv).
      pose proof (ok_sub_key r Hok k v Hv) as Hkey. exists (v :: vs). cbn. split_and!.
      + by rewrite Hv, H1.
      + by rewrite Hkey, H2.
      + intros v' [->|Hv']%elem_of_cons; [by rewrite Hkey|by apply H3]. }
  destruct (Hall (map_to_list mods)) as (vs & H1 & H2 & H3); [done|].
  exists vs. rewrite H2. split_and!; [done| |done|].
  - apply (NoDup_fmap_1 k_module_name). rewrite <-list_fmap_compose.
    assert ((k_module_name ∘ snd) <$> map_to_list mods = (map_to_list mods).*1) as ->.
    { apply list_fmap_ext. intros i [mo k] Hi. cbn. apply list_elem_of_lookup_2, Hel in Hi. tauto. }
    apply NoDup_fst_map_to_list.
  - intros k. rewrite list_elem_of_fmap. split.
    + intros ((mo & k') & -> & Hin). apply Hel in Hin. cbn. tauto.
    + intros [Hk Hs]. exists (k_module_name k, k). split; [done|]. by apply Hel.
Qed.

(** ** One package *)

Context (pi : TopicInfo Msg) (i : nat) (c : Context) (ty : string) (b : BufferArrayView) (l : LocalChannelBackend).
Abbreviation ts := (msg_type_support_ref pi).

(** The publisher's type support reads back the form it writes of [m]; the
    subscribers of the topic read what it writes, copy faithfully, support
    the type and note what they receive. *)
Context (Hser : Serialize ts ty m = Some b) (Hde : Deserialize ts ty b = Some m).
Context (Hsubs : ∀ k v, subscribe_wrapper_map r !! k = Some v →
  k_msg_type k = msg_type pi → k_topic_name k = topic_name pi →
  records v ∧ Copy (msg_type_support_ref (sw_info v)) m = m ∧
  ty ∈ SerializationTypesSupportedList (msg_type_support_ref (sw_info v)) ∧
  ∀ ty' b', Deserialize ts ty' b' = Some m →
            Deserialize (msg_type_support_ref (sw_info v)) ty' b' = Some m).
Context (Hreg : registry_ok r) (Hinline : subscribe_executor_ref l = None).

(** What holds of the message and the state between packages. *)
Definition publishing (w : MsgWrapper Msg) (s : S) : Prop :=
  carries m w ∧ mw_info w = pi ∧ ctx_ref w = i ∧ ctxs s !! i = Some c ∧ lc s = l.

Definition entry (k : Key) : Key * Msg * Context :=
  (k, m, pkg_context c (bool_decide (k_pkg_path k = pkg_path pi)) ty).

(** The keys of a package's subscribers to the topic. *)
Definition pkg_keys (pkg : string) (ks : list Key) : Prop :=
  NoDup ks ∧ ∀ k, k ∈ ks ↔ mtp_of k = mkMTPKey (msg_type pi) (topic_name pi) pkg ∧
                            is_Some (subscribe_wrapper_map r !! k).

Lemma publishing_step w s w' s0 id c' s' :
  publishing w s → id ∉ dom (ctxs s) → s0 = set_ctxs (<[id := c']> (ctxs s)) s →
  carries m w' → mw_info w' = pi → ctx_ref w' = i →
  ctxs s0 ⊆ ctxs s' → lc s' = lc s0 → publishing w' s'.
Proof.
  intros (_ & _ & _ & Hc & Hl) Hid -> Hw' Hi' Hctx' Hsub Hlc. split_and!; [done..| |].
  - apply (lookup_weaken (<[id := c']> (ctxs s))).
    + rewrite lookup_insert_ne; [done|]. intros ->. apply Hid. by apply elem_of_dom_2 in Hc.
    + by rewrite ctxs_set_ctxs in Hsub.
  - by rewrite Hlc, lc_set_ctxs.
Qed.

(** Calling the subscribers of a package with a context of their own. *)
Lemma call_pkg (vs : list (SubscribeWrapper Msg S)) make w w' s id cc :
  publishing w s → id ∉ dom (ctxs s) →
  carries m w' → mw_info w' = pi → ctx_ref w' = i →
  Forall (λ v, records v ∧ ctx_ref (make v) = id ∧
               ∃ w'', CheckMsg (make v) = (Ok tt, w'') ∧ msg_ptr w'' = Some m) vs →
  ∃ s', call_subscribers exec (Some <$> vs) make (set_ctxs (<[id := cc]> (ctxs s)) s) = (Ok tt, s') ∧
    publishing w' s' ∧ log s' = log s ++ ((λ v, (key_of (sw_info v), m, cc)) <$> vs).
Proof.
  intros Hp Hid Hw' Hi' Hctx' Hvs. destruct (Hp) as (_ & _ & _ & _ & Hl).
  destruct (call_subscribers_spec vs make id cc (set_ctxs (<[id := cc]> (ctxs s)) s))
    as (s' & Hrun & Hlog & Hsub & Hlc).
  - by rewrite lc_set_ctxs, Hl.
  - rewrite ctxs_set_ctxs. apply lookup_insert_eq.
  - done.
  - exists s'. split; [done|]. split; [by eapply publishing_step|]. by rewrite Hlog, log_set_ctxs.
Qed.

Lemma publish_to_pkg_spec pkg w s :
  publishing w s →
  ∃ w' s' ks, publish_to_pkg exec r ty pkg (w, s) = (Ok tt, (w', s')) ∧ publishing w' s' ∧
    pkg_keys pkg ks ∧ log s' = log s ++ (entry <$> ks).
Proof.
  intros Hp. destruct (Hp) as (Hw & Hi & Hctx & Hc & Hl).
  destruct (module_wrappers_spec (mkMTPKey (msg_type pi) (topic_name pi) pkg) Hreg)
    as (vs & Hvs & Hnd & Hlook & Hel).
  assert (∀ v, v ∈ vs → k_pkg_path (key_of (sw_info v)) = pkg ∧
      k_msg_type (key_of (sw_info v)) = msg_type pi ∧ k_topic_name (key_of (sw_info v)) = topic_name pi) as Hkeys.
  { intros v Hv. destruct (proj1 (Hel (key_of (sw_info v)))) as [Hm _].
    - apply list_elem_of_fmap. by exists v.
    - by injection Hm. }
  set (ks := (key_of ∘ sw_info) <$> vs) in *.
  assert (pkg_keys pkg ks) as Hks by done.
  assert (((λ v, (key_of (sw_info v), m, pkg_context c (bool_decide (pkg = pkg_path pi)) ty)) <$> vs) = (entry <$> ks)) as Hent.
  { unfold ks. rewrite <-list_fmap_compose. apply list_fmap_ext. intros j v Hv.
    apply list_elem_of_lookup_2, Hkeys in Hv as (Hv & _). unfold entry, compose. by rewrite Hv. }
  unfold publish_to_pkg, on_msg, on_state. unfold_monad. cbn [fst snd]. rewrite Hi, Hvs.
  destruct vs as [|tpl vs']; [by exists w, s, []; cbn; rewrite app_nil_r|].
  rewrite fmap_cons. unfold get_ctx. unfold_monad. cbn [fst snd]. rewrite Hctx, Hc. cbn [fst snd].
  destruct (subscriber_context_spec c s) as (id & Hid & ->). cbn [fst snd].
  rewrite <-fmap_cons. set (vs := tpl :: vs') in *.
  set (s0 := set_ctxs (<[id := pkg_context c true ""]> (ctxs s)) s).
  destruct (Hsubs (key_of (sw_info tpl)) tpl) as (_ & Hcopy & _);
    [apply Hlook, list_elem_of_here|apply Hkeys, list_elem_of_here|apply Hkeys, list_elem_of_here|].
  case_bool_decide as Hpkg; cbn [fst snd].
  - rewrite (CheckMsg_spec m w Hw). cbn [fst snd msg_ptr set_msg mw_info serialization_cache].
    rewrite Hcopy.
    destruct (call_pkg vs (λ v, mkMsgWrapper (sw_info v) (Some m) id (serialization_cache w))
      w (set_msg m w) s id (pkg_context c true ty) Hp Hid) as (s' & Hrun & Hp' & Hlog).
    + by apply set_msg_carries.
    + done.
    + done.
    + apply Forall_forall. intros v Hv. destruct (Hkeys v Hv) as (_ & H1 & H2).
      destruct (Hsubs _ v (Hlook v Hv) H1 H2) as (Hrec & _).
      split_and!; [done|done|]. eexists. split; [by eapply CheckMsg_present|done].
    + unfold s0. change (pkg_context c true "") with (pkg_context c true ty). rewrite Hrun.
      eexists _, s', ks. split; [reflexivity|]. split; [exact Hp'|]. split; [done|].
      rewrite Hlog. f_equal. exact Hent.
  - erewrite update_ctx_eq by (unfold s0; rewrite ctxs_set_ctxs; apply lookup_insert_eq).
    unfold s0. rewrite ctxs_set_ctxs, set_ctxs_set_ctxs, insert_insert_eq. cbn [fst snd].
    change (SetMetaValue KEY_SERIALIZATION_TYPE ty (pkg_context c true "")) with (pkg_context c false ty).
    clear s0.
    destruct (SerializeMsgWithCache_spec m w ty b Hw) as (b' & w' & Hrunw & Hw' & Hi' & Hctx' & Hb');
      [by rewrite Hi..|].
    rewrite Hrunw. cbn [fst snd].
    destruct (call_pkg vs (λ v, mkMsgWrapper (sw_info v) None id (serialization_cache w'))
      w w' s id (pkg_context c false ty) Hp Hid Hw') as (s' & Hrun & Hp' & Hlog); [congruence|congruence| |].
    + apply Forall_forall. intros v Hv. destruct (Hkeys v Hv) as (_ & H1 & H2).
      destruct (Hsubs _ v (Hlook v Hv) H1 H2) as (Hrec & _ & Hty & Hread).
      split_and!; [done|done|]. eexists. split; [apply (CheckMsg_spec m)|done]. split.
      * right. split; [done|]. right. by exists ty; cbn; rewrite Hb'.
      * intros ty' b'' Hl'. apply Hread. pose proof (carries_cache m w' Hw' ty' b'' Hl') as Hd.
        by rewrite Hi', Hi in Hd.
    + rewrite Hrun. eexists _, s', ks. split; [reflexivity|]. split; [exact Hp'|]. split; [done|].
      rewrite Hlog. f_equal. exact Hent.
Qed.

(** ** All packages *)

Lemma publish_to_pkgs_spec pkgs : ∀ w s,
  publishing w s → NoDup pkgs →
  ∃ w' s' ks, mapM_ (publish_to_pkg exec r ty) pkgs (w, s) = (Ok tt, (w', s')) ∧
    log s' = log s ++ (entry <$> ks) ∧ NoDup ks ∧
    ∀ k, k ∈ ks ↔ k_msg_type k = msg_type pi ∧ k_topic_name k = topic_name pi ∧ k_pkg_path k ∈ pkgs ∧
                  is_Some (subscribe_wrapper_map r !! k).
Proof.
  induction pkgs as [|pkg pkgs IH]; intros w s Hp Hnd.
  - exists w, s, []. split_and!; [done|by rewrite app_nil_r|apply NoDup_nil_2|]. intros k.
    split; [intros Hk; by apply not_elem_of_nil in Hk|]. intros (_ & _ & Hk & _). by apply not_elem_of_nil in Hk.
  - apply NoDup_cons in Hnd as [Hni Hnd].
    destruct (publish_to_pkg_spec pkg w s Hp) as (w1 & s1 & ks1 & Hrun1 & Hp1 & [Hnd1 Hks1] & Hlog1).
    destruct (IH w1 s1 Hp1 Hnd) as (w2 & s2 & ks2 & Hrun2 & Hlog2 & Hnd2 & Hks2).
    exists w2, s2, (ks1 ++ ks2). split_and!.
    + cbn [mapM_]. unfold_monad. rewrite Hrun1. exact Hrun2.
    + by rewrite Hlog2, Hlog1, fmap_app, <-app_assoc.
    + apply NoDup_app. split_and!; [done| |done]. intros k Hk1 Hk2.
      apply Hks1 in Hk1 as [Hm _]. apply Hks2 in Hk2 as (_ & _ & Hk2 & _). injection Hm as _ _ Hm.
      by rewrite Hm in Hk2.
    + intros k. rewrite elem_of_app, Hks1, Hks2, elem_of_cons.
      assert (mtp_of k = mkMTPKey (msg_type pi) (topic_name pi) pkg ↔
        k_msg_type k = msg_type pi ∧ k_topic_name k = topic_name pi ∧ k_pkg_path k = pkg) as ->.
      { unfold mtp_of. split; [by intros [= -> -> ->]|by intros (-> & -> & ->)]. }
      tauto.
Qed.

Lemma mapM_fst {A} (f : string → Handle Msg S) (l' : list (string * A)) :
  mapM_ (λ '(pkg, _), f pkg) l' = mapM_ f l'.*1.
Proof. induction l' as [|[pkg a] l' IH]; cbn; [done|]. by rewrite IH. Qed.

Lemma local_Publish_spec w s :
  carries m w → mw_info w = pi → ctx_ref w = i → ctxs s !! i = Some c → lc s = l →
  lc_state l = kStart →
  choose_serialization_type c ts = Ok ty →
  index_follows (subscribe_index_map l) r → index_nonempty (subscribe_index_map l) →
  ∃ w' s' ks, local_Publish exec r (w, s) = (Ok tt, (w', s')) ∧
    log s' = log s ++ (entry <$> ks) ∧ NoDup ks ∧
    ∀ k, k ∈ ks ↔ k_msg_type k = msg_type pi ∧ k_topic_name k = topic_name pi ∧
                  is_Some (subscribe_wrapper_map r !! k).
Proof.
  intros Hw Hi Hctx Hc Hl Hst Hty Hf Hne.
  assert (∀ k, k_msg_type k = msg_type pi → k_topic_name k = topic_name pi →
    is_Some (subscribe_wrapper_map r !! k) →
    is_Some (topic_index (subscribe_index_map l) (msg_type pi) (topic_name pi) !! k_pkg_path k)) as Hidx.
  { intros [mt t pkg mo] H1 H2 Hk; cbn in *. subst mt t. apply Hf in Hk.
    destruct (topic_index _ _ _ !! pkg); [by eauto|]. cbn in Hk. set_solver. }
  assert (topic_index (subscribe_index_map l) (msg_type pi) (topic_name pi) = ∅ →
    ∃ w' s' ks, (Ok tt, (w, s)) = (Ok tt, (w', s')) ∧ log s' = log s ++ (entry <$> ks) ∧ NoDup ks ∧
    ∀ k, k ∈ ks ↔ k_msg_type k = msg_type pi ∧ k_topic_name k = topic_name pi ∧
                  is_Some (subscribe_wrapper_map r !! k)) as Hempty.
  { intros He. exists w, s, []. split_and!; [done|by rewrite app_nil_r|apply NoDup_nil_2|].
    intros k. split; [intros Hk; by apply not_elem_of_nil in Hk|]. intros (H1 & H2 & Hk).
    apply (Hidx k H1 H2) in Hk. rewrite He, lookup_empty in Hk. by destruct Hk. }
  unfold local_Publish, on_msg, on_state. unfold_monad. cbn [fst snd]. rewrite Hl, Hst.
  unfold state_eqb. rewrite bool_decide_eq_true_2 by done. cbn [negb fst snd]. rewrite Hi.
  unfold topic_index in *.
  destruct (subscribe_index_map l !! msg_type pi) as [topics|] eqn:Htopics; [|by apply Hempty].
  destruct (topics !! topic_name pi) as [pkgs|] eqn:Hpkgs; [|by apply Hempty; cbn; rewrite Hpkgs].
  clear Hempty. unfold get_ctx. unfold_monad. cbn [fst snd]. rewrite Hctx, Hc. cbn [fst snd].
  rewrite Hty, mapM_fst.
  destruct (publish_to_pkgs_spec (map_to_list pkgs).*1 w s) as (w' & s' & ks & Hrun & Hlog & Hnd & Hks);
    [done|apply NoDup_fst_map_to_list|].
  rewrite Hrun. exists w', s', ks. split_and!; [done..|]. intros k. rewrite Hks. split; [tauto|].
  intros (H1 & H2 & Hk). split_and!; [done..| |done].
  destruct (Hidx k H1 H2 Hk) as [ms Hms]. cbn in Hms. rewrite Hpkgs in Hms.
  apply list_elem_of_fmap. exists (k_pkg_path k, ms). split; [done|]. by rewrite elem_of_map_to_list.
Qed.
(** Delivery.  A started backend without an executor hands a published
    message to every subscriber of its type and topic, whatever its package,
    exactly once, and to no one else: each finds the message itself, with a
    context of its own package that carries the publisher's meta data, names
    the backend and, in another package, the serialization type.  The call
    returns normally. *)
Theorem local_publish_delivers_once w s :
  carries m w → mw_info w = pi → ctx_ref w = i → ctxs s !! i = Some c → lc s = l →
  lc_state l = kStart →
  choose_serialization_type c ts = Ok ty →
  index_follows (subscribe_index_map l) r → index_nonempty (subscribe_index_map l) →
  ∃ w' s' ks, local_Publish exec r (w, s) = (Ok tt, (w', s')) ∧
    log s' = log s ++ (entry <$> ks) ∧ NoDup ks ∧
    ∀ k, k ∈ ks ↔ k_msg_type k = msg_type pi ∧ k_topic_name k = topic_name pi ∧
                  is_Some (subscribe_wrapper_map r !! k).
Proof. apply local_Publish_spec. Qed.
End Delivery.

(** * From the publisher to the subscribers *)

Section EndToEnd.
Context {Msg S : Type} `{YamlOps node} `{HasLocal S}.
Context (find_executor : string → option string) (exec : string → M S unit → M S unit).
Context (log : S → list (Key * Msg * Context)) (log_set_ctxs : ∀ x s, log (set_ctxs x s) = log s).

Lemma stamp_serialization_type c seq now : GetSerializationType (stamp c seq now) = GetSerializationType c.
Proof.
  unfold GetSerializationType, GetMetaValue, stamp, SetMetaValue, SetUsed. cbn [meta_data_map].
  rewrite lookup_insert_ne by done. destruct seq; cbn [meta_data_map]; by rewrite ?lookup_insert_ne.
Qed.

(** C1: End to end.  With the local backend as the backend of a topic and no
    filters, a call of [Publish] with a fresh context hands the message to
    every subscriber of the topic and type that is registered, in whatever
    package, exactly once and to no one else; each finds the message, and in
    its context the publisher's meta data with the sequence number and the
    time of this very call. *)
Theorem publish_reaches_subscribers (bm : ChannelBackendManager Msg S (option node)) (s : S) now
    (pkg module topic mt : string) i m pub c ty b l :
  let r := bm_registry bm in
  let pi := pw_info pub in
  bm_state bm = kStart → registry_ok r →
  GetPublishTypeWrapperPtr r (mkKey mt topic pkg module) = Some pub →
  bm_pub_topics_backend_index_map bm !! topic = Some [local_backend find_executor exec] →
  filter_collector_map (bm_publish_filter_manager bm) !! topic = None →
  ctxs s !! i = Some c → fresh_publisher c →
  lc s = l → lc_state l = kStart → subscribe_executor_ref l = None →
  index_follows (subscribe_index_map l) r → index_nonempty (subscribe_index_map l) →
  choose_serialization_type c (msg_type_support_ref pi) = Ok ty →
  Serialize (msg_type_support_ref pi) ty m = Some b →
  Deserialize (msg_type_support_ref pi) ty b = Some m →
  (∀ k v, subscribe_wrapper_map r !! k = Some v → k_msg_type k = mt → k_topic_name k = topic →
     records log v ∧ Copy (msg_type_support_ref (sw_info v)) m = m ∧
     ty ∈ SerializationTypesSupportedList (msg_type_support_ref (sw_info v)) ∧
     ∀ ty' b', Deserialize (msg_type_support_ref pi) ty' b' = Some m →
               Deserialize (msg_type_support_ref (sw_info v)) ty' b' = Some m) →
  ∃ s' ks, bm_Publish_proxy now pkg module topic mt i m (bm, s) = (Ok tt, (advance bm topic, s')) ∧
    log s' = log s ++ (entry m pi (stamp c (next_seq bm topic) now) ty <$> ks) ∧ NoDup ks ∧
    ∀ k, k ∈ ks ↔ k_msg_type k = mt ∧ k_topic_name k = topic ∧ is_Some (subscribe_wrapper_map r !! k).
Proof.
  intros r pi Hst Hr Hpub Hbs Hfilter Hc Hfresh Hl Hlst Hinline Hf Hn Hty Hs Hd Hsubs.
  pose proof (ok_pub_key r Hr _ _ Hpub) as Hkey. injection Hkey as Hmt Ht _ _.
  change (msg_type pi = mt) in Hmt. change (topic_name pi = topic) in Ht.
  unfold bm_Publish_proxy, on_bm. unfold_monad. cbn [fst snd]. rewrite Hst.
  change (state_eqb kStart kStart) with true. cbn [negb]. fold r. rewrite Hpub.
  rewrite (Publish_wrapper_fresh now topic _ bm s c) by done. cbv zeta.
  set (c' := stamp c (next_seq bm topic) now). set (s0 := set_ctxs _ s).
  assert (GetFilterCollector (bm_publish_filter_manager (advance bm topic)) topic = Collector_new) as ->.
  { unfold GetFilterCollector, advance. destruct (next_seq bm topic); cbn; by rewrite Hfilter. }
  assert (bm_pub_topics_backend_index_map (advance bm topic) = bm_pub_topics_backend_index_map bm) as Hidx
    by (unfold advance; by destruct (next_seq bm topic)).
  assert (bm_registry (advance bm topic) = r) as Hreg by (unfold advance; by destruct (next_seq bm topic)).
  unfold call_with, InvokeChannel, Collector_new, apply_filter, publish_to_backends, on_msg. unfold_monad.
  cbn [fst snd final_filter mw_info]. fold pi. rewrite Ht, Hidx, Hbs. cbn [mapM_]. unfold_monad.
  change (be_Publish (local_backend find_executor exec)) with (local_Publish (Msg := Msg) exec). rewrite Hreg.
  destruct (local_Publish_spec exec r m log log_set_ctxs pi i c' ty b l) with
    (w := mkMsgWrapper pi (Some m) i ∅) (s := s0) as (w' & s' & ks & Hrun & Hlog & Hnd & Hks).
  all: try done.
  - rewrite Hmt, Ht. exact Hsubs.
  - split; [by left|]. intros ty' b' Hl'. cbn in Hl'. by rewrite lookup_empty in Hl'.
  - unfold s0. rewrite ctxs_set_ctxs. apply lookup_insert_eq.
  - unfold s0. by rewrite lc_set_ctxs.
  - unfold choose_serialization_type, c'. by rewrite stamp_serialization_type.
  - fold pi. rewrite Hrun. exists s', ks. split; [done|]. split; [|split; [done|]].
    + rewrite Hlog. unfold s0. by rewrite log_set_ctxs.
    + intros k. by rewrite Hks, Hmt, Ht.
Qed.
End EndToEnd.

(** * The theorems at a concrete input *)

Module LocalDemo.
Import ChannelDemo.

Record St := mkSt {
  st_ctxs : gmap nat Context;
  st_lc : LocalChannelBackend;
  st_log : list (Key * bytes * Context)
}.

#[global] Instance st_contexts : HasContexts St.
Proof. by exists st_ctxs (λ m s, mkSt m (st_lc s) (st_log s)). Defined.
#[global] Instance st_local : HasLocal St.
Proof. by exists st_lc (λ l s, mkSt (st_ctxs s) l (st_log s)). Defined.

Lemma log_set_ctxs x (s : St) : st_log (set_ctxs x s) = st_log s.
Proof. done. Qed.

(** A subscriber that notes what it gets. *)
Definition note_callback (i : TopicInfo bytes) : Handle bytes St := λ f,
  match CheckMsg f.1 with
  | (Ok _, w') =>
      match msg_ptr w', st_ctxs f.2 !! ctx_ref f.1 with
      | Some mm, Some c =>
          (Ok tt, (w', mkSt (st_ctxs f.2) (st_lc f.2) (st_log f.2 ++ [(key_of i, mm, c)])))
      | _, _ => (Ok tt, f)
      end
  | _ => (Ok tt, f)
  end.

Definition info_of (pkg mo : string) : TopicInfo bytes := mkTopicInfo "demo/Msg" "topic" pkg mo 0 demo_ts.
Definition sub_of (pkg mo : string) : SubscribeWrapper bytes St :=
  mkSubscribeWrapper (info_of pkg mo) ∅ (note_callback (info_of pkg mo)).

Lemma sub_records pkg mo : records st_log (sub_of pkg mo).
Proof.
  intros w w' s c mm Hw Hm Hc. cbn [sw_callback sub_of]. unfold note_callback. cbn [fst snd].
  rewrite Hw, Hm. change (st_ctxs s !! ctx_ref w = Some c) in Hc. rewrite Hc.
  eexists _, _. split; [reflexivity|]. cbn. split_and!; [done|done|done].
Qed.

Definition demo_local0 : LocalChannelBackend := mkLocal local_default kInit false None ∅.

Lemma subscribe_new (r : ChannelRegistry bytes St) v :
  subscribe_wrapper_map r !! key_of (sw_info v) = None →
  ∃ r', Registry_Subscribe v r = (Ok true, r') ∧
    subscribe_wrapper_map r' = <[key_of (sw_info v) := v]> (subscribe_wrapper_map r) ∧
    publish_type_wrapper_map r' = publish_type_wrapper_map r.
Proof. intros Hn. unfold Registry_Subscribe. unfold_monad. rewrite Hn. by eexists. Qed.

(** A registry and a backend that have seen the same subscribers. *)
Definition in_step (r : ChannelRegistry bytes St) (l : LocalChannelBackend) : Prop :=
  registry_ok r ∧ publish_type_wrapper_map r = ∅ ∧ lc_state l = kInit ∧ subscribe_executor_ref l = None ∧
  index_follows (subscribe_index_map l) r ∧ index_nonempty (subscribe_index_map l).

Lemma in_step_subscribe r l v :
  in_step r l → subscribe_wrapper_map r !! key_of (sw_info v) = None →
  ∃ r' l', in_step r' l' ∧
    subscribe_wrapper_map r' = <[key_of (sw_info v) := v]> (subscribe_wrapper_map r).
Proof.
  intros (Hok & Hp & Hl & He & Hf & Hn) Hnew. destruct (subscribe_new r v Hnew) as (r' & Hr' & Hm & Hp').
  destruct (local_Subscribe_follows l r v r' Hl Hf Hn Hr') as (l' & _ & Hl' & He' & Hf' & Hn').
  pose proof (Registry_Subscribe_spec r v Hok) as H. rewrite Hr' in H. destruct H as (Hok' & _).
  exists r', l'. split; [|done]. unfold in_step. by rewrite He', Hp'.
Qed.

(** Two subscribers, one in the publisher's package. *)
Lemma demo_indexed :
  ∃ r l, in_step r l ∧
    subscribe_wrapper_map r =
      <[mkKey "demo/Msg" "topic" "other" "far" := sub_of "other" "far"]>
        {[mkKey "demo/Msg" "topic" "pkg" "near" := sub_of "pkg" "near"]}.
Proof.
  destruct (in_step_subscribe ChannelRegistry_new demo_local0 (sub_of "pkg" "near")) as (r1 & l1 & H1 & Hm1).
  { destruct (index_follows_new (Msg := bytes) (S := St)). split_and!; try done. apply registry_ok_new. }
  { apply lookup_empty. }
  destruct (in_step_subscribe r1 l1 (sub_of "other" "far") H1) as (r2 & l2 & H2 & Hm2).
  { rewrite Hm1, lookup_insert_ne by done. apply lookup_empty. }
  exists r2, l2. split; [done|]. rewrite Hm2, Hm1. done.
Qed.

(** The callbacks of the two subscribers record what they get. *)
Lemma demo_subs_record (r : ChannelRegistry bytes St) :
  subscribe_wrapper_map r =
    <[mkKey "demo/Msg" "topic" "other" "far" := sub_of "other" "far"]>
      {[mkKey "demo/Msg" "topic" "pkg" "near" := sub_of "pkg" "near"]} →
  ∀ k v, subscribe_wrapper_map r !! k = Some v → k_msg_type k = "demo/Msg" → k_topic_name k = "topic" →
    records st_log v ∧ Copy (msg_type_support_ref (sw_info v)) demo_msg = demo_msg ∧
    "raw" ∈ SerializationTypesSupportedList (msg_type_support_ref (sw_info v)) ∧
    ∀ ty' b', Deserialize demo_ts ty' b' = Some demo_msg →
              Deserialize (msg_type_support_ref (sw_info v)) ty' b' = Some demo_msg.
Proof.
  intros Hm k v. rewrite Hm.
  intros [[_ <-]|[_ [_ <-]%lookup_singleton_Some]]%lookup_insert_Some _ _;
    (split; [apply sub_records|]; split; [reflexivity|]; split; [apply list_elem_of_here|]; exact (λ _ _ h, h)).
Qed.

(** A started manager that routes the topic to the local backend. *)
Definition demo_bm (r : ChannelRegistry bytes St) : ChannelBackendManager bytes St (option tree) :=
  mkCBM kStart 0 1 r [] [] FilterManager_new FilterManager_new [] [] []
    {["topic" := [local_backend (λ _, None) (λ _ t, t)]]} ∅ {["topic" := 41%Z]}.

(** The publisher joins the subscribers in the registry. *)
Lemma demo_published :
  ∃ r l, registry_ok r ∧ lc_state l = kInit ∧ subscribe_executor_ref l = None ∧
    index_follows (subscribe_index_map l) r ∧ index_nonempty (subscribe_index_map l) ∧
    GetPublishTypeWrapperPtr r (mkKey "demo/Msg" "topic" "pkg" "pub") =
      Some (mkPublishTypeWrapper (info_of "pkg" "pub") ∅) ∧
    subscribe_wrapper_map r =
      <[mkKey "demo/Msg" "topic" "other" "far" := sub_of "other" "far"]>
        {[mkKey "demo/Msg" "topic" "pkg" "near" := sub_of "pkg" "near"]}.
Proof.
  destruct demo_indexed as (r & l & (Hok & Hp & Hl & He & Hf & Hn) & Hm).
  pose proof (Registry_RegisterPublishType_spec r (mkPublishTypeWrapper (info_of "pkg" "pub") ∅) Hok) as Hs.
  unfold Registry_RegisterPublishType in Hs. unfold_monad. rewrite Hp, lookup_empty in Hs.
  destruct Hs as (Hok' & _ & Hlook). eexists _, l. split; [exact Hok'|].
  split; [done|]. split; [done|]. split; [exact Hf|]. split; [done|]. split; [exact Hlook|exact Hm].
Qed.

Lemma demo_carries : carries demo_msg (mkMsgWrapper (info_of "pkg" "pub") (Some demo_msg) 0 ∅).
Proof. split; [by left|]. intros ty b Hl. cbn in Hl. by rewrite lookup_empty in Hl. Qed.
End LocalDemo.

Lemma local_index_follows_registry_witness :
  ∃ l', local_Subscribe (LocalDemo.sub_of "pkg" "near") LocalDemo.demo_local0 = (Ok true, l').
Proof.
  destruct (local_index_follows_registry LocalDemo.demo_local0 ChannelRegistry_new
              (LocalDemo.sub_of "pkg" "near")
              (Registry_Subscribe (LocalDemo.sub_of "pkg" "near") ChannelRegistry_new).2
              eq_refl (proj1 (index_follows_new (Msg := bytes))) (proj2 (index_follows_new (Msg := bytes) (S := LocalDemo.St)))) as (l' & H & _).
  - unfold Registry_Subscribe. unfold_monad. cbn. by rewrite lookup_empty.
  - exists l'. exact H.
Defined.

Lemma local_publish_delivers_once_witness :
  ∃ r l w' s' ks,
    local_Publish (λ _ t, t) r
      (mkMsgWrapper (LocalDemo.info_of "pkg" "pub") (Some ChannelDemo.demo_msg) 0 ∅,
       LocalDemo.mkSt {[0 := Context_new AIMRT_CHANNEL_PUBLISHER_CONTEXT]} l []) = (Ok tt, (w', s')) ∧
    length (LocalDemo.st_log s') = length ks ∧ mkKey "demo/Msg" "topic" "other" "far" ∈ ks.
Proof.
  destruct LocalDemo.demo_indexed as (r & l & (Hok & _ & Hl & He & Hf & Hn) & Hm).
  destruct (local_publish_delivers_once (λ _ t, t) r ChannelDemo.demo_msg LocalDemo.st_log
    LocalDemo.log_set_ctxs (LocalDemo.info_of "pkg" "pub") 0 (Context_new AIMRT_CHANNEL_PUBLISHER_CONTEXT)
    "raw" [ChannelDemo.demo_msg] (set_local_state kStart l) eq_refl eq_refl) with
    (w := mkMsgWrapper (LocalDemo.info_of "pkg" "pub") (Some ChannelDemo.demo_msg) 0 ∅)
    (s := LocalDemo.mkSt {[0 := Context_new AIMRT_CHANNEL_PUBLISHER_CONTEXT]} (set_local_state kStart l) [])
    as (w' & s' & ks & Hrun & Hlog & _ & Hks).
  - exact (LocalDemo.demo_subs_record r Hm).
  - exact Hok.
  - exact He.
  - exact LocalDemo.demo_carries.
  - reflexivity.
  - reflexivity.
  - apply lookup_insert_eq.
  - reflexivity.
  - reflexivity.
  - vm_compute. reflexivity.
  - exact Hf.
  - exact Hn.
  - exists r, (set_local_state kStart l), w', s', ks. split; [exact Hrun|]. split.
    + rewrite Hlog. cbn [LocalDemo.st_log app]. apply length_fmap.
    + apply Hks. rewrite Hm, lookup_insert_eq. repeat split. by eexists.
Defined.

Lemma publish_reaches_subscribers_witness :
  ∃ (bm : ChannelBackendManager bytes LocalDemo.St (option tree)) s s', bm_Publish_proxy 7 "pkg" "pub" "topic" "demo/Msg" 0 ChannelDemo.demo_msg (bm, s) =
      (Ok tt, (advance bm "topic", s')) ∧
    ∃ c, (mkKey "demo/Msg" "topic" "other" "far", ChannelDemo.demo_msg, c) ∈ LocalDemo.st_log s' ∧
      GetMetaValue c KEY_PUB_SEQ = "42" ∧ GetMetaValue c KEY_BACKEND = "local".
Proof.
  destruct LocalDemo.demo_published as (r & l & Hok & Hl & He & Hf & Hn & Hpub & Hm).
  set (s := LocalDemo.mkSt {[0 := Context_new AIMRT_CHANNEL_PUBLISHER_CONTEXT]} (set_local_state kStart l) []).
  destruct (publish_reaches_subscribers (λ _, None) (λ _ t, t) LocalDemo.st_log LocalDemo.log_set_ctxs
    (LocalDemo.demo_bm r) s 7 "pkg" "pub" "topic" "demo/Msg" 0 ChannelDemo.demo_msg
    (mkPublishTypeWrapper (LocalDemo.info_of "pkg" "pub") ∅)
    (Context_new AIMRT_CHANNEL_PUBLISHER_CONTEXT) "raw" [ChannelDemo.demo_msg] (set_local_state kStart l))
    as (s' & ks & Hrun & Hlog & _ & Hks).
  - reflexivity.
  - exact Hok.
  - exact Hpub.
  - apply lookup_insert_eq.
  - apply lookup_empty.
  - apply lookup_insert_eq.
  - split; reflexivity.
  - reflexivity.
  - reflexivity.
  - exact He.
  - exact Hf.
  - exact Hn.
  - reflexivity.
  - reflexivity.
  - reflexivity.
  - exact (LocalDemo.demo_subs_record r Hm).
  - exists (LocalDemo.demo_bm r), s, s'. split; [exact Hrun|]. eexists. split.
    + rewrite Hlog. apply elem_of_app. right. apply list_elem_of_fmap. eexists. split; [reflexivity|].
      apply Hks. split; [reflexivity|]. split; [reflexivity|]. cbn [bm_registry LocalDemo.demo_bm].
      rewrite Hm, lookup_insert_eq. by eexists.
    + split; vm_compute; reflexivity.
Defined.
