(* ===== verification/ChannelManager.v ===== *)
(** * The channel manager and its handles: [src/runtime/core/channel/channel_manager.*]
    and [channel_handle_proxy.h]

    [ChannelManager] reads the configuration, initializes the backends it
    names, hands the rules to the backend manager, and gives each module a
    handle, from which publishers and subscribers are taken until the manager
    is started.

    The registry and the two filter managers, which the manager owns and the
    backend manager points to, are fields of the backend manager here.  The
    options written back to the configuration node, the C tables of the
    handles and what becomes of a handle when its manager is destroyed are not
    modelled. *)

From S2P Require Import Prelude Yaml StringUtil Report Filters Channel ChannelBackend LocalChannel.

(** ** Options *)

Section Options.
Context `{Y : YamlOps node}.

(* @src src/src/runtime/core/channel/channel_manager.h:28-32 ChannelManager::Options::PubTopicOptions *)
Record TopicOptions := mkTopicOptions {
  to_topic_name : string;
  to_enable_backends : list string;
  to_enable_filters : list string
}.

(* @src src/src/runtime/core/channel/channel_manager.h:21-41 ChannelManager::Options *)
Record ChannelOptions := mkChannelOptions {
  backends_options : list (string * node);
  pub_topics_options : list TopicOptions;
  sub_topics_options : list TopicOptions
}.

Definition channel_default : ChannelOptions := mkChannelOptions [] [] [].

(* @src src/src/runtime/core/channel/channel_manager.cc:50-60 convert<ChannelManager::Options>::decode (backend) *)
Definition decode_backend (n : node) : res (string * node) :=
  ty ← as_of as_string (index n "type");
  Ok (ty, default NullNode (index n "options")).

(* @src src/src/runtime/core/channel/channel_manager.cc:64-73 convert<ChannelManager::Options>::decode (topic) *)
Definition decode_topic (n : node) : res TopicOptions :=
  t ← as_of as_string (index n "topic_name");
  bs ← as_of as_strings (index n "enable_backends");
  fs ← set_if n "enable_filters" as_strings [];
  Ok (mkTopicOptions t bs fs).

(* @src src/src/runtime/core/channel/channel_manager.cc:46-90 convert<ChannelManager::Options>::decode *)
Definition channel_decode (n : node) (rhs : ChannelOptions) : res (option ChannelOptions) :=
  if negb (IsMap n) then Ok None
  else
    bs ← each_of n "backends" decode_backend (backends_options rhs);
    ps ← each_of n "pub_topics_options" decode_topic (pub_topics_options rhs);
    ss ← each_of n "sub_topics_options" decode_topic (sub_topics_options rhs);
    Ok (Some (mkChannelOptions bs ps ss)).
End Options.

Arguments ChannelOptions : clear implicits.

(** ** Handles *)

(* @src src/src/runtime/core/channel/channel_handle_proxy.h:105-116 PublisherProxy *)
Record PublisherProxy := mkPublisherProxy { pp_pkg_path : string; pp_module_name : string; pp_topic_name : string }.

(* @src src/src/runtime/core/channel/channel_handle_proxy.h:162-170 SubscriberProxy *)
Record SubscriberProxy := mkSubscriberProxy { sp_pkg_path : string; sp_module_name : string; sp_topic_name : string }.

(* @src src/src/runtime/core/channel/channel_manager.h:125-152 ChannelManager::ChannelHandleProxyWrap *)
Record ChannelHandleProxy := mkHandle {
  hp_pkg_path : string;
  hp_module_name : string;
  publisher_proxy_map : gmap string PublisherProxy;
  subscriber_proxy_map : gmap string SubscriberProxy
}.

(** [None] stands for the null handle. *)
(* @src src/src/runtime/core/channel/channel_handle_proxy.h:214-238 ChannelHandleProxy::GetPublisher *)
Definition GetPublisher (start_flag : bool) (topic : string) : M ChannelHandleProxy (option PublisherProxy) :=
  h ← get;
  match publisher_proxy_map h !! topic with
  | Some p => mret (Some p)
  | None =>
      if start_flag then mret None
      else
        let p := mkPublisherProxy (hp_pkg_path h) (hp_module_name h) topic in
        put (mkHandle (hp_pkg_path h) (hp_module_name h) (<[topic := p]> (publisher_proxy_map h))
               (subscriber_proxy_map h));;
        mret (Some p)
  end.

(* @src src/src/runtime/core/channel/channel_handle_proxy.h:240-262 ChannelHandleProxy::GetSubscriber *)
Definition GetSubscriber (start_flag : bool) (topic : string) : M ChannelHandleProxy (option SubscriberProxy) :=
  h ← get;
  match subscriber_proxy_map h !! topic with
  | Some p => mret (Some p)
  | None =>
      if start_flag then mret None
      else
        let p := mkSubscriberProxy (hp_pkg_path h) (hp_module_name h) topic in
        put (mkHandle (hp_pkg_path h) (hp_module_name h) (publisher_proxy_map h)
               (<[topic := p]> (subscriber_proxy_map h)));;
        mret (Some p)
  end.

Section Merge.
Context {S : Type} `{HasContexts S}.

(** Copy the passed keys that have a value. *)
Fixpoint merge_keys (keys : list string) (subscribe_ctx publish_ctx : nat) : M S unit :=
  match keys with
  | [] => mret tt
  | key :: keys' =>
      c ← get_ctx subscribe_ctx;
      let val := GetMetaValue c key in
      (if bool_decide (val = "") then mret tt else update_ctx publish_ctx (SetMetaValue key val));;
      merge_keys keys' subscribe_ctx publish_ctx
  end.

(* @src src/src/runtime/core/channel/channel_handle_proxy.h:264-279 ChannelHandleProxy::MergeSubscribeContextToPublishContext *)
Definition MergeSubscribeContextToPublishContext (passed_context_meta_keys : gset string)
    (subscribe_ctx publish_ctx : nat) : M S unit :=
  cs ← get_ctx subscribe_ctx;
  if bool_decide (ctx_type cs ≠ AIMRT_CHANNEL_SUBSCRIBER_CONTEXT) then mret tt
  else
    cp ← get_ctx publish_ctx;
    if bool_decide (ctx_type cp ≠ AIMRT_CHANNEL_PUBLISHER_CONTEXT) then mret tt
    else merge_keys (elements passed_context_meta_keys) subscribe_ctx publish_ctx.
End Merge.

(** ** [ChannelManager] *)

Section ChannelManager.
Context {Msg S : Type} `{YamlOps node} `{HasLocal S}.
Context (regex_match : string → string → res bool).
(** What the function that looks executors up finds, and [Execute] on it. *)
Context (find_executor : string → option string) (exec : string → M S unit → M S unit).

Abbreviation backend := (Backend Msg S (option node)).
Abbreviation cbm := (ChannelBackendManager Msg S (option node)).

(* @src src/src/runtime/core/channel/channel_manager.h:106-155 ChannelManager *)
Record ChannelManager := mkCM {
  cm_options : ChannelOptions node;
  cm_state : State;
  cm_has_get_executor_func : bool;
  cm_passed_context_meta_keys : gset string;
  cm_channel_backend_vec : list backend;
  cm_used_channel_backend_vec : list backend;
  cm_has_channel_registry : bool;
  cm_channel_backend_manager : cbm;
  cm_channel_handle_proxy_start_flag : bool;
  cm_channel_handle_proxy_wrap_map : gmap string ChannelHandleProxy
}.

Definition ChannelManager_new : ChannelManager :=
  mkCM channel_default kPreInit false ∅ [] [] false ChannelBackendManager_new false ∅.

Definition cm_set_options x (s : ChannelManager) :=
  mkCM x (cm_state s) (cm_has_get_executor_func s) (cm_passed_context_meta_keys s)
    (cm_channel_backend_vec s) (cm_used_channel_backend_vec s) (cm_has_channel_registry s) (cm_channel_backend_manager s)
    (cm_channel_handle_proxy_start_flag s) (cm_channel_handle_proxy_wrap_map s).
Definition cm_set_state x (s : ChannelManager) :=
  mkCM (cm_options s) x (cm_has_get_executor_func s) (cm_passed_context_meta_keys s)
    (cm_channel_backend_vec s) (cm_used_channel_backend_vec s) (cm_has_channel_registry s) (cm_channel_backend_manager s)
    (cm_channel_handle_proxy_start_flag s) (cm_channel_handle_proxy_wrap_map s).
Definition cm_set_has_get_executor_func x (s : ChannelManager) :=
  mkCM (cm_options s) (cm_state s) x (cm_passed_context_meta_keys s)
    (cm_channel_backend_vec s) (cm_used_channel_backend_vec s) (cm_has_channel_registry s) (cm_channel_backend_manager s)
    (cm_channel_handle_proxy_start_flag s) (cm_channel_handle_proxy_wrap_map s).
Definition cm_set_passed_context_meta_keys x (s : ChannelManager) :=
  mkCM (cm_options s) (cm_state s) (cm_has_get_executor_func s) x
    (cm_channel_backend_vec s) (cm_used_channel_backend_vec s) (cm_has_channel_registry s) (cm_channel_backend_manager s)
    (cm_channel_handle_proxy_start_flag s) (cm_channel_handle_proxy_wrap_map s).
Definition cm_set_channel_backend_vec x (s : ChannelManager) :=
  mkCM (cm_options s) (cm_state s) (cm_has_get_executor_func s) (cm_passed_context_meta_keys s)
    x (cm_used_channel_backend_vec s) (cm_has_channel_registry s) (cm_channel_backend_manager s)
    (cm_channel_handle_proxy_start_flag s) (cm_channel_handle_proxy_wrap_map s).
Definition cm_set_used_channel_backend_vec x (s : ChannelManager) :=
  mkCM (cm_options s) (cm_state s) (cm_has_get_executor_func s) (cm_passed_context_meta_keys s)
    (cm_channel_backend_vec s) x (cm_has_channel_registry s) (cm_channel_backend_manager s)
    (cm_channel_handle_proxy_start_flag s) (cm_channel_handle_proxy_wrap_map s).
Definition cm_set_has_channel_registry x (s : ChannelManager) :=
  mkCM (cm_options s) (cm_state s) (cm_has_get_executor_func s) (cm_passed_context_meta_keys s)
    (cm_channel_backend_vec s) (cm_used_channel_backend_vec s) x (cm_channel_backend_manager s)
    (cm_channel_handle_proxy_start_flag s) (cm_channel_handle_proxy_wrap_map s).
Definition cm_set_channel_backend_manager x (s : ChannelManager) :=
  mkCM (cm_options s) (cm_state s) (cm_has_get_executor_func s) (cm_passed_context_meta_keys s)
    (cm_channel_backend_vec s) (cm_used_channel_backend_vec s) (cm_has_channel_registry s) x
    (cm_channel_handle_proxy_start_flag s) (cm_channel_handle_proxy_wrap_map s).
Definition cm_set_start_flag x (s : ChannelManager) :=
  mkCM (cm_options s) (cm_state s) (cm_has_get_executor_func s) (cm_passed_context_meta_keys s)
    (cm_channel_backend_vec s) (cm_used_channel_backend_vec s) (cm_has_channel_registry s) (cm_channel_backend_manager s)
    x (cm_channel_handle_proxy_wrap_map s).
Definition cm_set_wrap_map x (s : ChannelManager) :=
  mkCM (cm_options s) (cm_state s) (cm_has_get_executor_func s) (cm_passed_context_meta_keys s)
    (cm_channel_backend_vec s) (cm_used_channel_backend_vec s) (cm_has_channel_registry s) (cm_channel_backend_manager s)
    (cm_channel_handle_proxy_start_flag s) x.

(** Calls on the manager and the state beside it. *)
Abbreviation Sys := (ChannelManager * S)%type.
Definition on_cm {A} (m : M ChannelManager A) : M Sys A := zoom fst (λ c y, (c, y.2)) m.
Definition on_rest {A} (m : M S A) : M Sys A := zoom snd (λ s y, (y.1, s)) m.
(** A call on the backend manager. *)
Definition on_backend_manager {A} (m : M (cbm * S) A) : M Sys A :=
  zoom (λ y, (cm_channel_backend_manager y.1, y.2))
       (λ z y, (cm_set_channel_backend_manager z.1 y.1, z.2)) m.

Definition when_state (st : State) (what : string) : M Sys unit :=
  cm ← on_cm get;
  check_throw (state_eqb (cm_state cm) st) what.
Definition when_preinit : M Sys unit := when_state kPreInit "Method can only be called when state is 'PreInit'.".
Definition when_init : M Sys unit := when_state kInit "Method can only be called when state is 'Init'.".

(* @src src/src/runtime/core/channel/channel_manager.cc:334-341 ChannelManager::RegisterChannelBackend *)
Definition cm_RegisterChannelBackend (b : backend) : M Sys unit :=
  when_preinit;;
  on_cm (modify (λ cm, cm_set_channel_backend_vec (cm_channel_backend_vec cm ++ [b]) cm)).

(* @src src/src/runtime/core/channel/channel_manager.cc:343-350 ChannelManager::RegisterGetExecutorFunc *)
Definition cm_RegisterGetExecutorFunc (is_set : bool) : M Sys unit :=
  when_preinit;; on_cm (modify (cm_set_has_get_executor_func is_set)).

(* @src src/src/runtime/core/channel/channel_manager.cc:396-401 ChannelManager::RegisterPublishFilter *)
Definition cm_RegisterPublishFilter (name : string) (filter : Filter Msg S) : M Sys unit :=
  when_preinit;; on_backend_manager (on_publish_filters (RegisterFilter name filter)).

(* @src src/src/runtime/core/channel/channel_manager.cc:403-408 ChannelManager::RegisterSubscribeFilter *)
Definition cm_RegisterSubscribeFilter (name : string) (filter : Filter Msg S) : M Sys unit :=
  when_preinit;; on_backend_manager (on_subscribe_filters (RegisterFilter name filter)).

(* @src src/src/runtime/core/channel/channel_manager.cc:410-415 ChannelManager::AddPassedContextMetaKeys *)
Definition cm_AddPassedContextMetaKeys (keys : gset string) : M Sys unit :=
  when_preinit;;
  on_cm (modify (λ cm, cm_set_passed_context_meta_keys (cm_passed_context_meta_keys cm ∪ keys) cm)).

(** The backend is a new object: the state of one there already is not
    touched when the manager refuses it. *)
(* @src src/src/runtime/core/channel/channel_manager.cc:431-442 ChannelManager::RegisterLocalChannelBackend *)
Definition RegisterLocalChannelBackend : M Sys unit :=
  cm ← on_cm get;
  let '(r, l) := local_RegisterGetExecutorFunc (cm_has_get_executor_func cm) LocalChannelBackend_new in
  lift r;;
  cm_RegisterChannelBackend (local_backend find_executor exec);;
  on_rest (modify (set_lc l)).

(** Both filters print the message and go on. *)
Definition debug_log_filter : Filter Msg S := λ h,
  (on_msg (TrySerializeMsgWithCache "json") : M (Flow Msg S) (option BufferArrayView)) ≫= λ _,
  (h : M (Flow Msg S) unit).

(* @src src/src/runtime/core/channel/channel_manager.cc:444-490 ChannelManager::RegisterDebugLogFilter *)
Definition RegisterDebugLogFilter : M Sys unit :=
  cm_RegisterPublishFilter "debug_log" debug_log_filter;;
  cm_RegisterSubscribeFilter "debug_log" debug_log_filter.

(** The backend a configuration entry names, initialized and registered. *)
(* @src src/src/runtime/core/channel/channel_manager.cc:118-136 ChannelManager::Initialize (backend) *)
Definition init_backend (o : string * node) : M Sys unit :=
  cm ← on_cm get;
  match find_backend (cm_channel_backend_vec cm) o.1 with
  | None => throw (AimRTException "Invalid channel backend type '{}'")
  | Some b =>
      on_rest (be_Initialize b (Some o.2));;
      on_backend_manager (bm_RegisterChannelBackend b);;
      on_cm (modify (λ cm, cm_set_used_channel_backend_vec (cm_used_channel_backend_vec cm ++ [b]) cm))
  end.

(** Every backend a topic enables must be in use. *)
Definition rules_ok (names : list string) (ts : list TopicOptions) : bool :=
  forallb (λ t, forallb (λ n, bool_decide (n ∈ names)) (to_enable_backends t)) ts.

Definition backends_rules (ts : list TopicOptions) : list (string * list string) :=
  map (λ t, (to_topic_name t, to_enable_backends t)) ts.
Definition filters_rules (ts : list TopicOptions) : list (string * list string) :=
  map (λ t, (to_topic_name t, to_enable_filters t)) ts.

(* @src src/src/runtime/core/channel/channel_manager.cc:96-177 ChannelManager::Initialize *)
Definition cm_Initialize (options_node : option node) : M Sys unit :=
  RegisterLocalChannelBackend;;
  RegisterDebugLogFilter;;
  cm ← on_cm get;
  on_cm (modify (cm_set_state kInit));;
  check_throw (state_eqb (cm_state cm) kPreInit) "Channel manager can only be initialized once.";;
  o ← lift (read_options channel_decode (cm_options cm) options_node);
  on_cm (modify (λ cm, cm_set_options (default (cm_options cm) o) cm));;
  on_cm (modify (cm_set_has_channel_registry true));;
  on_backend_manager (bm_SetChannelRegistry ChannelRegistry_new);;
  cm ← on_cm get;
  on_backend_manager (bm_SetPublishFilterManager
    (bm_publish_filter_manager (cm_channel_backend_manager cm)));;
  on_backend_manager (bm_SetSubscribeFilterManager
    (bm_subscribe_filter_manager (cm_channel_backend_manager cm)));;
  mapM_ init_backend (backends_options (cm_options cm));;
  cm ← on_cm get;
  let names := map be_Name (cm_used_channel_backend_vec cm) in
  let pubs := pub_topics_options (cm_options cm) in
  check_throw (rules_ok names pubs) "Invalid channel backend type '{}' for pub topic '{}'";;
  on_backend_manager (bm_SetPubTopicsBackendsRules (backends_rules pubs));;
  on_backend_manager (bm_SetPublishFiltersRules (filters_rules pubs));;
  let subs := sub_topics_options (cm_options cm) in
  check_throw (rules_ok names subs) "Invalid channel backend type '{}' for sub topic '{}'";;
  on_backend_manager (bm_SetSubTopicsBackendsRules (backends_rules subs));;
  on_backend_manager (bm_SetSubscribeFiltersRules (filters_rules subs));;
  on_backend_manager bm_Initialize.

(* @src src/src/runtime/core/channel/channel_manager.cc:179-188 ChannelManager::Start *)
Definition cm_Start : M Sys unit :=
  cm ← on_cm get;
  on_cm (modify (cm_set_state kStart));;
  check_throw (state_eqb (cm_state cm) kInit) "Method can only be called when state is 'Init'.";;
  on_backend_manager bm_Start;;
  on_cm (modify (cm_set_start_flag true)).

(* @src src/src/runtime/core/channel/channel_manager.cc:190-208 ChannelManager::Shutdown *)
Definition cm_Shutdown : M Sys unit :=
  cm ← on_cm get;
  on_cm (modify (cm_set_state kShutdown));;
  if state_eqb (cm_state cm) kShutdown then mret tt
  else
    on_cm (modify (cm_set_wrap_map ∅));;
    on_backend_manager bm_Shutdown;;
    on_cm (modify (cm_set_channel_backend_vec []));;
    on_cm (modify (cm_set_has_channel_registry false));;
    on_backend_manager (on_subscribe_filters (modify FilterManager_Clear));;
    on_backend_manager (on_publish_filters (modify FilterManager_Clear));;
    on_cm (modify (cm_set_has_get_executor_func false)).

(** A module's handle, made when it is first asked for. *)
(* @src src/src/runtime/core/channel/channel_manager.cc:352-373 ChannelManager::GetChannelHandleProxy *)
Definition GetChannelHandleProxy (pkg name : string) : M Sys string :=
  when_init;;
  on_cm (modify (λ cm, cm_set_wrap_map
    (match cm_channel_handle_proxy_wrap_map cm !! name with
     | Some _ => cm_channel_handle_proxy_wrap_map cm
     | None => <[name := mkHandle pkg name ∅ ∅]> (cm_channel_handle_proxy_wrap_map cm)
     end) cm));;
  mret name.

(** Calls through a handle, named by its module. *)
Definition on_handle {A} (name : string) (m : bool → M ChannelHandleProxy A) : M Sys A := λ y,
  match cm_channel_handle_proxy_wrap_map y.1 !! name with
  | None => (Undef, y)
  | Some h =>
      let '(r, h') := m (cm_channel_handle_proxy_start_flag y.1) h in
      (r, (cm_set_wrap_map (<[name := h']> (cm_channel_handle_proxy_wrap_map y.1)) y.1, y.2))
  end.

(* @src src/src/runtime/core/channel/channel_handle_proxy.h:44-51 PublisherProxy::RegisterPublishType *)
Definition pp_RegisterPublishType (p : PublisherProxy) (ts : option (TypeSupport Msg)) : M Sys bool :=
  on_backend_manager (bm_RegisterPublishType_proxy regex_match (pp_pkg_path p) (pp_module_name p)
                        (pp_topic_name p) ts).

(* @src src/src/runtime/core/channel/channel_handle_proxy.h:53-64 PublisherProxy::Publish *)
Definition pp_Publish (now : Z) (p : PublisherProxy) (msg_type : string) (ctx : nat) (m : Msg) : M Sys unit :=
  on_backend_manager (bm_Publish_proxy now (pp_pkg_path p) (pp_module_name p) (pp_topic_name p) msg_type ctx m).

(* @src src/src/runtime/core/channel/channel_handle_proxy.h:138-147 SubscriberProxy::Subscribe *)
Definition sp_Subscribe (p : SubscriberProxy) (ts : option (TypeSupport Msg))
    (callback : option (nat → Msg → M S unit)) : M Sys bool :=
  on_backend_manager (bm_Subscribe_proxy regex_match (sp_pkg_path p) (sp_module_name p)
                        (sp_topic_name p) ts callback).

(** ** The report *)

(** One row per topic and message type. *)
Definition table_header : list bytes := [lit "topic"; lit "msg type"; lit "module"; lit "backends"; lit "filters"].

Definition topic_cells (p : string * string) : list bytes := [lit p.1; lit p.2].

(* @src src/src/runtime/core/channel/channel_manager.cc:215-252 ChannelManager::GenInitializationReport (publishers) *)
Definition topic_table (index : gmap string (list Key)) (info : gmap string (list string))
    (filters : string → list string) : res (list (list bytes)) :=
  table_of topic_cells 2 (λ t k, (t, k_msg_type k)) k_module_name "Invalid channel registry info."
    table_header index info filters.

(* @src src/src/runtime/core/channel/channel_manager.cc:210-332 ChannelManager::GenInitializationReport *)
Definition cm_GenInitializationReport : M Sys (list (string * bytes)) :=
  when_init;;
  cm ← on_cm get;
  if negb (cm_has_channel_registry cm) then undef else
  s ← on_rest get;
  let bm := cm_channel_backend_manager cm in
  let r := bm_registry bm in
  pub ← lift (topic_table (pub_topic_index_map r) (GetPubTopicBackendInfo bm)
                (GetFilterNameVec (bm_publish_filter_manager bm)));
  sub ← lift (topic_table (sub_topic_index_map r) (GetSubTopicBackendInfo bm)
                (GetFilterNameVec (bm_subscribe_filter_manager bm)));
  mret ([("Channel Backend List", name_list (map be_Name (cm_channel_backend_vec cm)));
         ("Channel Pub Filter List", name_list (GetAllFiltersName (bm_publish_filter_manager bm)));
         ("Channel Sub Filter List", name_list (GetAllFiltersName (bm_subscribe_filter_manager bm)));
         ("Channel Pub Topic Info", DrawTable pub true);
         ("Channel Sub Topic Info", DrawTable sub true)] ++
        (b ← cm_used_channel_backend_vec cm; (λ '(k, v), (k, lit v)) <$> be_Report b s)).
End ChannelManager.

Arguments ChannelManager : clear implicits.

(** * The report *)

#[export] Instance topic_cells_inj : Inj (=) (=) topic_cells.
Proof. intros [t ty] [t' ty'] [= ->%lit_inj ->%lit_inj]. done. Qed.

(** The table of an index whose topics all have their backends. *)
Lemma topic_table_ok index info filters :
  (∀ t ks, index !! t = Some ks → is_Some (info !! t)) →
  ∃ rows, topic_table index info filters = Ok (table_header :: rows) ∧ NoDup (take 2 <$> rows) ∧
    ∀ t ty, topic_cells (t, ty) ∈ take 2 <$> rows ↔
      ∃ ks k, index !! t = Some ks ∧ k ∈ ks ∧ k_msg_type k = ty.
Proof.
  intros Hinfo.
  destruct (table_of_ok topic_cells 2 (λ t k, (t, k_msg_type k)) k_module_name "Invalid channel registry info."
    (λ _, eq_refl) _ table_header index info filters Hinfo) as (rows & Ht & Hnd & Hrows).
  exists rows. split; [exact Ht|]. split; [done|]. intros t ty. rewrite Hrows. naive_solver.
Qed.

Section ManagerReport.
Context {Msg S : Type} `{YamlOps node} `{HasLocal S}.
Context (regex_match : string → string → res bool).

(** The report is complete.  When the manager has been initialized, whatever has
    been registered and whatever went wrong on the way, the report is made
    without an error and changes nothing; its two tables have a row for each
    topic and message type that is published or subscribed to, and only one. *)
Theorem report_complete (cm : ChannelManager Msg S node) (s : S) :
  cm_state cm = kInit → cm_has_channel_registry cm = true →
  let bm := cm_channel_backend_manager cm in
  rtc (bm_step regex_match) ChannelBackendManager_new bm →
  ∃ report pub sub, cm_GenInitializationReport (cm, s) = (Ok report, (cm, s)) ∧
    ("Channel Pub Topic Info", DrawTable (table_header :: pub) true) ∈ report ∧
    ("Channel Sub Topic Info", DrawTable (table_header :: sub) true) ∈ report ∧
    NoDup (take 2 <$> pub) ∧ NoDup (take 2 <$> sub) ∧
    (∀ t ty, topic_cells (t, ty) ∈ take 2 <$> pub ↔
       ∃ k, k_topic_name k = t ∧ k_msg_type k = ty ∧ is_Some (GetPublishTypeWrapperPtr (bm_registry bm) k)) ∧
    (∀ t ty, topic_cells (t, ty) ∈ take 2 <$> sub ↔
       ∃ k, k_topic_name k = t ∧ k_msg_type k = ty ∧ is_Some (GetSubscribeWrapperPtr (bm_registry bm) k)).
Proof.
  intros Hst Hreg bm [Hr _ _ Hpub Hsub _ _]%reachable_ok.
  destruct (topic_table_ok (pub_topic_index_map (bm_registry bm)) (GetPubTopicBackendInfo bm)
    (GetFilterNameVec (bm_publish_filter_manager bm))) as (pub & Hpt & Hpn & Hpr).
  { intros t ks Hks. unfold GetPubTopicBackendInfo. rewrite lookup_fmap.
    destruct ks as [|k ks]; [by destruct (ok_pub_topics _ Hr t)|].
    pose proof (ok_pub_topic _ Hr t k) as [Hk _]. rewrite Hks in Hk.
    destruct (Hk (list_elem_of_here _ _)) as [<- Hs]. destruct (Hpub k Hs) as [bs ->]. by eexists. }
  destruct (topic_table_ok (sub_topic_index_map (bm_registry bm)) (GetSubTopicBackendInfo bm)
    (GetFilterNameVec (bm_subscribe_filter_manager bm))) as (sub & Hst' & Hsn & Hsr).
  { intros t ks Hks. unfold GetSubTopicBackendInfo. rewrite lookup_fmap.
    destruct ks as [|k ks]; [by destruct (ok_sub_topics _ Hr t)|].
    pose proof (ok_sub_topic _ Hr t k) as [Hk _]. rewrite Hks in Hk.
    destruct (Hk (list_elem_of_here _ _)) as [<- Hs]. destruct (Hsub k Hs) as [bs ->]. by eexists. }
  unfold cm_GenInitializationReport, when_init, when_state, on_cm, on_rest. unfold_monad. cbn [fst snd].
  rewrite Hst. change (state_eqb kInit kInit) with true. cbv iota. unfold_monad. cbn [fst snd].
  rewrite Hreg. cbn [negb fst snd]. fold bm. rewrite Hpt, Hst'. cbn [fst snd].
  eexists _, pub, sub. split; [reflexivity|]. split; [apply elem_of_app; left; do 3 apply list_elem_of_further; apply list_elem_of_here|].
  split; [apply elem_of_app; left; do 4 apply list_elem_of_further; apply list_elem_of_here|]. split; [done|]. split; [done|].
  split; intros t ty; [rewrite Hpr|rewrite Hsr]; split.
  - intros (ks & k & Hks & Hk & <-). exists k. destruct (proj1 (ok_pub_topic _ Hr t k)) as [Ht Hs];
      [by rewrite Hks|done].
  - intros (k & <- & <- & Hs).
    pose proof (proj2 (ok_pub_topic _ Hr (k_topic_name k) k) (conj eq_refl Hs)) as Hk.
    destruct (pub_topic_index_map (bm_registry bm) !! k_topic_name k) as [ks|]; [by exists ks, k|].
    by apply not_elem_of_nil in Hk.
  - intros (ks & k & Hks & Hk & <-). exists k. destruct (proj1 (ok_sub_topic _ Hr t k)) as [Ht Hs];
      [by rewrite Hks|done].
  - intros (k & <- & <- & Hs).
    pose proof (proj2 (ok_sub_topic _ Hr (k_topic_name k) k) (conj eq_refl Hs)) as Hk.
    destruct (sub_topic_index_map (bm_registry bm) !! k_topic_name k) as [ks|]; [by exists ks, k|].
    by apply not_elem_of_nil in Hk.
Qed.
End ManagerReport.

(** * Initialization *)

Section ManagerInitialize.
Context {Msg S : Type} `{YamlOps node} `{HasLocal S}.
Context (regex_match : string → string → res bool).
Context (find_executor : string → option string) (exec : string → M S unit → M S unit).

Abbreviation manager := (ChannelManager Msg S node).
Abbreviation Sys := (manager * S)%type.

(** What the steps of [Initialize] keep. *)
Record initializing (reg : bool) (st : State) (o : ChannelOptions node)
    (vec : list (Backend Msg S (option node))) (y : Sys) : Prop := {
  ini_state : cm_state y.1 = st;
  ini_options : cm_options y.1 = o;
  ini_bm : bm_state (cm_channel_backend_manager y.1) = kPreInit;
  ini_vec : bm_channel_backend_index_vec (cm_channel_backend_manager y.1) = vec;
  ini_used : cm_used_channel_backend_vec y.1 = vec;
  ini_registry : cm_has_channel_registry y.1 = reg
}.

Lemma when_preinit_ok (y : Sys) a y' : when_preinit y = (Ok a, y') → y' = y ∧ cm_state y.1 = kPreInit.
Proof.
  unfold when_preinit, when_state, on_cm. unfold_monad. unfold state_eqb.
  case_bool_decide as Hst; [|done]. intros [= _ <-]. by destruct y.
Qed.

Lemma on_backend_manager_preinit f (y : Sys) :
  bm_state (cm_channel_backend_manager y.1) = kPreInit →
  on_backend_manager (preinit_only f) y =
    (Ok tt, (cm_set_channel_backend_manager (f (cm_channel_backend_manager y.1)) y.1, y.2)).
Proof.
  intros Hst. unfold on_backend_manager, preinit_only, on_bm. unfold_monad. cbn [fst snd].
  rewrite Hst. done.
Qed.

Lemma RegisterLocal_ok reg st o vec (y : Sys) a y' :
  initializing reg st o vec y → RegisterLocalChannelBackend find_executor exec y = (Ok a, y') →
  initializing reg st o vec y' ∧ st = kPreInit.
Proof.
  intros [I1 I2 I3 I4 I5 I6] Hrun. unfold RegisterLocalChannelBackend in Hrun.
  apply bind_ok in Hrun as (cm & y1 & Hg & Hrun). unfold on_cm, get, zoom in Hg. injection Hg as <- <-.
  destruct (local_RegisterGetExecutorFunc _ _) as [r l].
  apply bind_ok in Hrun as (u & y1 & Hl & Hrun). unfold lift in Hl. injection Hl as _ <-.
  apply bind_ok in Hrun as (u' & y1 & Hreg & Hrun). unfold cm_RegisterChannelBackend in Hreg.
  apply bind_ok in Hreg as (u2 & y2 & Hw & Hreg). apply when_preinit_ok in Hw as [-> Hst]. cbn in Hst.
  unfold on_cm, modify, zoom in Hreg. injection Hreg as _ <-.
  unfold on_rest, modify, zoom in Hrun. injection Hrun as _ <-.
  split; [by split|congruence].
Qed.

Lemma RegisterFilter_ok (zp : M (FilterManager Msg S) unit → M (ChannelBackendManager Msg S (option node) * S) unit)
    (m : M (FilterManager Msg S) unit) reg st o vec (y : Sys) a y' :
  (∀ z a z', zp m z = (Ok a, z') → bm_state z'.1 = bm_state z.1 ∧
     bm_channel_backend_index_vec z'.1 = bm_channel_backend_index_vec z.1) →
  initializing reg st o vec y → (when_preinit;; on_backend_manager (zp m)) y = (Ok a, y') →
  initializing reg st o vec y'.
Proof.
  intros Hzp [I1 I2 I3 I4 I5 I6] (u & y1 & Hw & Hrun)%bind_ok. apply when_preinit_ok in Hw as [-> _].
  unfold on_backend_manager, zoom in Hrun.
  destruct (zp m _) as [r z'] eqn:Hz. injection Hrun as -> <-.
  destruct (Hzp _ _ _ Hz) as [E1 E2]. cbn in E1, E2. by split; cbn; [| |rewrite E1|rewrite E2| |].
Qed.

Lemma RegisterDebugLogFilter_ok reg st o vec (y : Sys) a y' :
  initializing reg st o vec y → RegisterDebugLogFilter y = (Ok a, y') → initializing reg st o vec y'.
Proof.
  intros Hi (u & y1 & I1 & I2)%bind_ok.
  assert (initializing reg st o vec y1) as Hi1.
  { eapply (RegisterFilter_ok on_publish_filters), I1; [|done].
    intros z b z'. unfold on_publish_filters, on_bm, zoom.
    destruct (RegisterFilter _ _ _) as [r fm]. by intros [= -> <-]. }
  eapply (RegisterFilter_ok on_subscribe_filters), I2; [|done].
  intros z b z'. unfold on_subscribe_filters, on_bm, zoom.
  destruct (RegisterFilter _ _ _) as [r fm]. by intros [= -> <-].
Qed.

Lemma find_backend_name (bs : list (Backend Msg S (option node))) n b :
  find_backend bs n = Some b → be_Name b = n.
Proof. unfold find_backend. intros [_ Hb]%List.find_some. by apply String.eqb_eq. Qed.

Lemma init_backend_ok reg st o vec opt (y : Sys) a y' :
  initializing reg st o vec y → init_backend opt y = (Ok a, y') →
  ∃ b, initializing reg st o (vec ++ [b]) y' ∧ be_Name b = opt.1.
Proof.
  intros [I1 I2 I3 I4 I5 I6] (cm & y1 & Hg & Hrun)%bind_ok. unfold on_cm, get, zoom in Hg. injection Hg as <- <-.
  destruct (find_backend _ _) as [b|] eqn:Hb; [|done]. exists b. split; [|by eapply find_backend_name].
  apply bind_ok in Hrun as (u & y1 & Hi & Hrun). unfold on_rest, zoom in Hi.
  destruct (be_Initialize b _ _) as [r s']. injection Hi as -> <-.
  apply bind_ok in Hrun as (u' & y1 & Hr & Hrun). unfold bm_RegisterChannelBackend in Hr.
  rewrite on_backend_manager_preinit in Hr by done. injection Hr as _ <-.
  unfold on_cm, modify, zoom in Hrun. injection Hrun as _ <-. split; cbn; try done; by rewrite ?I4, ?I5.
Qed.

Lemma init_backends_ok opts : ∀ reg st o vec (y : Sys) a y',
  initializing reg st o vec y → mapM_ init_backend opts y = (Ok a, y') →
  ∃ vec', initializing reg st o vec' y' ∧ map be_Name vec' = map be_Name vec ++ opts.*1.
Proof.
  induction opts as [|opt opts IH]; intros reg st o vec y a y' Hi Hrun.
  - injection Hrun as _ <-. exists vec. split; [done|]. by rewrite app_nil_r.
  - apply bind_ok in Hrun as (u & y1 & Hb & Hrun).
    destruct (init_backend_ok _ _ _ _ _ _ _ _ Hi Hb) as (b & Hi1 & Hn).
    destruct (IH _ _ _ _ _ _ _ Hi1 Hrun) as (vec' & Hi2 & Hv). exists vec'. split; [done|].
    rewrite Hv, map_app, <-app_assoc. cbn. by rewrite Hn.
Qed.

Lemma find_backend_some (bs : list (Backend Msg S (option node))) n :
  n ∈ map be_Name bs → is_Some (find_backend bs n).
Proof.
  intros (b & -> & Hb)%list_elem_of_fmap. unfold find_backend.
  destruct (List.find _ bs) eqn:Hf; [by eauto|]. apply List.find_none with (x := b) in Hf.
  - by rewrite String.eqb_refl in Hf.
  - by apply list_elem_of_In.
Qed.

Lemma omap_find_backend (bs : list (Backend Msg S (option node))) names :
  Forall (λ n, n ∈ map be_Name bs) names → map be_Name (omap (find_backend bs) names) = names.
Proof.
  induction 1 as [|n names Hn _ IH]; [done|].
  destruct (find_backend_some bs n Hn) as [b Hb]. cbn. rewrite Hb. cbn.
  by rewrite IH, (find_backend_name bs n b Hb).
Qed.

(** No backend a rule names is lost when the rule is applied. *)
Lemma rules_resolve (bs : list (Backend Msg S (option node))) ts topic :
  rules_ok (map be_Name bs) ts = true →
  map be_Name (GetBackendsByRules regex_match bs topic (backends_rules ts)) =
    GetFilterRules regex_match topic (backends_rules ts).
Proof.
  induction ts as [|t ts IH]; [done|]. cbn [rules_ok forallb]. intros [Ht Hts]%andb_prop.
  cbn [backends_rules map GetBackendsByRules GetFilterRules].
  destruct (regex_match (to_topic_name t) topic) as [[]| |]; try by apply IH.
  apply omap_find_backend. apply Forall_forall. intros n Hn%list_elem_of_In.
  apply (proj1 (forallb_forall _ _) Ht) in Hn. by apply bool_decide_eq_true in Hn.
Qed.

(** Steps of a run that has succeeded: reads and assignments of the manager,
    checks, and assignments of the backend manager. *)
Ltac run_quiet Hrun :=
  let E := fresh "E" in run_step Hrun E; unfold on_cm, get, modify, zoom in E; cbn [fst snd] in E;
  injection E; clear E; intros <- <-; cbn [fst snd] in Hrun.
Ltac run_set Hrun :=
  let E := fresh "E" in run_step Hrun E; rewrite on_backend_manager_preinit in E by done;
  injection E; clear E; intros <- <-; cbn [fst snd] in Hrun.

(** Initialization.  When the manager of a new core is initialized without
    an error, exactly the backends the configuration lists have been
    initialized and registered, in that order, the rules are those of the
    configuration, and for every topic the backends chosen are, name for
    name, those that the first matching rule enables: none is dropped. *)
Theorem Initialize_resolves_rules n (y y' : Sys) :
  initializing false kPreInit channel_default [] y →
  cm_Initialize find_executor exec n y = (Ok tt, y') →
  let cm := y'.1 in
  let bm := cm_channel_backend_manager cm in
  cm_state cm = kInit ∧ cm_has_channel_registry cm = true ∧ bm_state bm = kInit ∧
  bm_channel_backend_index_vec bm = cm_used_channel_backend_vec cm ∧
  map be_Name (cm_used_channel_backend_vec cm) = (backends_options (cm_options cm)).*1 ∧
  bm_pub_topics_backends_rules bm = backends_rules (pub_topics_options (cm_options cm)) ∧
  bm_sub_topics_backends_rules bm = backends_rules (sub_topics_options (cm_options cm)) ∧
  bm_publish_filters_rules bm = filters_rules (pub_topics_options (cm_options cm)) ∧
  bm_subscribe_filters_rules bm = filters_rules (sub_topics_options (cm_options cm)) ∧
  ∀ topic,
    map be_Name (GetBackendsByRules regex_match (bm_channel_backend_index_vec bm) topic (bm_pub_topics_backends_rules bm))
      = GetFilterRules regex_match topic (bm_pub_topics_backends_rules bm) ∧
    map be_Name (GetBackendsByRules regex_match (bm_channel_backend_index_vec bm) topic (bm_sub_topics_backends_rules bm))
      = GetFilterRules regex_match topic (bm_sub_topics_backends_rules bm).
Proof.
  intros Hi Hrun. unfold cm_Initialize in Hrun.
  apply bind_ok in Hrun as (u1 & y1 & E1 & Hrun).
  destruct (RegisterLocal_ok _ _ _ _ _ _ _ Hi E1) as [Hi1 _].
  apply bind_ok in Hrun as (u2 & y2 & E2 & Hrun).
  destruct (RegisterDebugLogFilter_ok _ _ _ _ _ _ _ Hi1 E2) as [_ I2 I3 I4 I5 _]. clear Hi Hi1 E1 E2 y y1.
  run_quiet Hrun. run_quiet Hrun. run_check Hrun.
  apply bind_ok in Hrun as (o & y6 & E6 & Hrun). unfold lift in E6. injection E6 as _ <-.
  run_quiet Hrun.
  unfold bm_SetChannelRegistry, bm_SetPublishFilterManager, bm_SetSubscribeFilterManager in Hrun.
  run_quiet Hrun. run_set Hrun. run_quiet Hrun. run_set Hrun. run_set Hrun.
  apply bind_ok in Hrun as (u12 & y12 & E12 & Hrun).
  assert (∃ vec, initializing true kInit (default channel_default o) vec y12 ∧
    map be_Name vec = (backends_options (default channel_default o)).*1) as (vec & Hi & Hnames).
  { refine (_ (λ Hi, init_backends_ok _ true kInit (default channel_default o) [] _ _ _ Hi E12)).
    intros Hx. destruct Hx as (vec & Hi & Hn); [split; cbn; by rewrite ?I2|].
    exists vec. split; [done|]. rewrite Hn. cbn. by rewrite I2. }
  clear E12. run_quiet Hrun. destruct Hi as [J1 J2 J3 J4 J5 J6]. destruct y12 as [cm s]. cbn [fst snd] in *.
  unfold bm_SetPubTopicsBackendsRules, bm_SetPublishFiltersRules, bm_SetSubTopicsBackendsRules,
    bm_SetSubscribeFiltersRules in Hrun.
  run_check Hrun. run_set Hrun. run_set Hrun. run_check Hrun. run_set Hrun. run_set Hrun.
  unfold on_backend_manager, bm_Initialize, exchange, on_bm in Hrun. unfold_monad. cbn in Hrun. rewrite J3 in Hrun.
  injection Hrun as <-. cbn. rewrite J4, J5, J2.
  assert (rules_ok (map be_Name vec) (pub_topics_options (default channel_default o)) = true) as Hp by congruence.
  assert (rules_ok (map be_Name vec) (sub_topics_options (default channel_default o)) = true) as Hs by congruence.
  do 4 (split; [done|]). split; [exact Hnames|]. do 4 (split; [done|]).
  intros topic. split; by apply rules_resolve.
Qed.
End ManagerInitialize.

(** * Merging contexts *)

Section MergeSpec.
Context {S : Type} `{HasContexts S}.

(** What a passed key [k] becomes. *)
Definition merged_value (passed : bool) (cs cp : Context) (k : string) : option string :=
  if passed && bool_decide (GetMetaValue cs k ≠ "") then Some (GetMetaValue cs k)
  else meta_data_map cp !! k.

Lemma merge_keys_spec keys sub pub cs : ∀ (s : S) cp,
  sub ≠ pub → ctxs s !! sub = Some cs → ctxs s !! pub = Some cp →
  ∃ s' c', merge_keys keys sub pub s = (Ok tt, s') ∧ ctxs s' = <[pub := c']> (ctxs s) ∧
    ctx_used c' = ctx_used cp ∧ ctx_type c' = ctx_type cp ∧
    ∀ k, meta_data_map c' !! k = merged_value (bool_decide (k ∈ keys)) cs cp k.
Proof.
  induction keys as [|key keys IH]; intros s cp Hne Hs Hp.
  - exists s, cp. split; [done|]. split; [by rewrite insert_id|]. split_and!; [done..|]. intros k.
    unfold merged_value. rewrite bool_decide_eq_false_2; [done|apply not_elem_of_nil].
  - cbn [merge_keys]. unfold get_ctx at 1. unfold_monad. rewrite Hs. case_bool_decide as Hval.
    + destruct (IH s cp Hne Hs Hp) as (s' & c' & Hrun & Hc & Hu & Ht & Hm).
      exists s', c'. split; [exact Hrun|]. split_and!; [done..|]. intros k. rewrite Hm.
      unfold merged_value. destruct (decide (k = key)) as [->|Hk].
      * rewrite Hval. by rewrite !andb_false_r.
      * by rewrite (bool_decide_ext (k ∈ key :: keys) (k ∈ keys)) by (rewrite elem_of_cons; tauto).
    + rewrite (update_ctx_eq _ _ s cp) by done.
      set (s1 := set_ctxs _ s). set (cp1 := SetMetaValue key (GetMetaValue cs key) cp) in *.
      destruct (IH s1 cp1 Hne) as (s' & c' & Hrun & Hc & Hu & Ht & Hm).
      { unfold s1. rewrite ctxs_set_ctxs. by rewrite lookup_insert_ne. }
      { unfold s1. rewrite ctxs_set_ctxs. apply lookup_insert_eq. }
      exists s', c'. split; [exact Hrun|]. split_and!; [|done|done|].
      * rewrite Hc. unfold s1. by rewrite ctxs_set_ctxs, insert_insert_eq.
      * intros k. rewrite Hm. unfold merged_value, cp1, SetMetaValue. cbn [meta_data_map].
        destruct (decide (k = key)) as [->|Hk].
        -- rewrite lookup_insert_eq, (bool_decide_eq_true_2 (GetMetaValue cs key ≠ "")) by done.
           rewrite (bool_decide_eq_true_2 (key ∈ key :: keys)) by apply list_elem_of_here.
           by destruct (bool_decide (key ∈ keys)).
        -- rewrite lookup_insert_ne by done.
           by rewrite (bool_decide_ext (k ∈ key :: keys) (k ∈ keys)) by (rewrite elem_of_cons; tauto).
Qed.

(** Merging contexts.  From a subscriber's context to a publisher's, exactly
    the passed keys with a value are copied, over what the publisher's context
    had; everything else of it and every other context stays.  With contexts
    of other types nothing happens. *)
Theorem merge_copies_passed_keys (passed : gset string) sub pub (s : S) cs cp :
  ctxs s !! sub = Some cs → ctxs s !! pub = Some cp →
  match ctx_type cs, ctx_type cp with
  | AIMRT_CHANNEL_SUBSCRIBER_CONTEXT, AIMRT_CHANNEL_PUBLISHER_CONTEXT =>
      ∃ s' c', MergeSubscribeContextToPublishContext passed sub pub s = (Ok tt, s') ∧
        ctxs s' = <[pub := c']> (ctxs s) ∧ ctx_used c' = ctx_used cp ∧ ctx_type c' = ctx_type cp ∧
        ∀ k, meta_data_map c' !! k = merged_value (bool_decide (k ∈ passed)) cs cp k
  | _, _ => MergeSubscribeContextToPublishContext passed sub pub s = (Ok tt, s)
  end.
Proof.
  intros Hs Hp. unfold MergeSubscribeContextToPublishContext, get_ctx. unfold_monad. rewrite Hs.
  destruct (ctx_type cs) eqn:Hts; [by rewrite bool_decide_eq_true_2|].
  rewrite bool_decide_eq_false_2 by (intros Hx; by apply Hx).
  rewrite Hp. destruct (ctx_type cp) eqn:Htp; [|by rewrite bool_decide_eq_true_2].
  rewrite bool_decide_eq_false_2 by (intros Hx; by apply Hx).
  destruct (merge_keys_spec (elements passed) sub pub cs s cp) as (s' & c' & Hrun & Hc & Hu & Ht & Hm); [|done..|].
  - intros <-. rewrite Hs in Hp. injection Hp as ->. congruence.
  - exists s', c'. split_and!; [done|done|done|congruence|]. intros k. rewrite Hm.
    by rewrite (bool_decide_ext (k ∈ elements passed) (k ∈ passed)) by apply elem_of_elements.
Qed.
End MergeSpec.

(** * The theorems at a concrete input *)

Module ManagerDemo.
Import LocalDemo.

Definition demo_exec : string → M St unit → M St unit := λ _ t, t.
Definition demo_match (pattern topic : string) : res bool := Ok (String.eqb pattern topic).

Definition demo_config : tree :=
  TMap [("backends", TSeq [TMap [("type", TStr "local")]]);
        ("pub_topics_options",
         TSeq [TMap [("topic_name", TStr "topic"); ("enable_backends", TSeq [TStr "local"])]])].

Definition demo_start : ChannelManager bytes St tree * St := (ChannelManager_new, mkSt ∅ LocalChannelBackend_new []).
Definition demo_initialized : ChannelManager bytes St tree * St :=
  (cm_Initialize (λ _, None) demo_exec (Some demo_config) demo_start).2.

Lemma demo_initialize :
  cm_Initialize (λ _, None) demo_exec (Some demo_config) demo_start = (Ok tt, demo_initialized).
Proof.
  unfold demo_initialized. rewrite (surjective_pairing (cm_Initialize _ _ _ _)) at 1. f_equal.
Qed.

Definition demo_manager : ChannelManager bytes St tree :=
  cm_set_has_channel_registry true (cm_set_state kInit ChannelManager_new).

Definition sub_ctx : Context := mkContext {["trace" := "7"; "other" := "1"]} false AIMRT_CHANNEL_SUBSCRIBER_CONTEXT.
Definition pub_ctx : Context := mkContext {["trace" := "0"]} false AIMRT_CHANNEL_PUBLISHER_CONTEXT.
Definition demo_merge : St := mkSt {[0 := sub_ctx; 1 := pub_ctx]} LocalChannelBackend_new [].
End ManagerDemo.

Lemma Initialize_resolves_rules_witness :
  map be_Name (cm_used_channel_backend_vec ManagerDemo.demo_initialized.1) = ["local"] ∧
  bm_state (cm_channel_backend_manager ManagerDemo.demo_initialized.1) = kInit.
Proof.
  destruct (Initialize_resolves_rules ManagerDemo.demo_match (λ _, None) ManagerDemo.demo_exec
    (Some ManagerDemo.demo_config) ManagerDemo.demo_start ManagerDemo.demo_initialized) as (_ & _ & H & _).
  - split; reflexivity.
  - exact ManagerDemo.demo_initialize.
  - split; [vm_compute; reflexivity|exact H].
Defined.

Lemma report_complete_witness :
  ∃ report, cm_GenInitializationReport (ManagerDemo.demo_manager, ManagerDemo.demo_merge) =
    (Ok report, (ManagerDemo.demo_manager, ManagerDemo.demo_merge)).
Proof.
  destruct (report_complete ManagerDemo.demo_match ManagerDemo.demo_manager ManagerDemo.demo_merge eq_refl eq_refl
    (rtc_refl _ _)) as (report & _ & _ & H & _).
  exists report. exact H.
Defined.

Lemma merge_copies_passed_keys_witness :
  ∃ s' c', MergeSubscribeContextToPublishContext {["trace"; "absent"]} 0 1 ManagerDemo.demo_merge = (Ok tt, s') ∧
    ctxs s' !! 1 = Some c' ∧ GetMetaValue c' "trace" = "7" ∧ GetMetaValue c' "other" = "".
Proof.
  destruct (merge_copies_passed_keys {["trace"; "absent"]} 0 1 ManagerDemo.demo_merge
    ManagerDemo.sub_ctx ManagerDemo.pub_ctx) as (s' & c' & H & Hc & _ & _ & Hm).
  - apply lookup_insert_eq.
  - vm_compute. reflexivity.
  - exists s', c'. split; [exact H|]. rewrite Hc, lookup_insert_eq. split; [reflexivity|].
    unfold GetMetaValue. rewrite !Hm. split; vm_compute; reflexivity.
Defined.
