(* ===== verification/Rpc.v ===== *)
(** * Remote procedure calls, the data: [src/runtime/core/rpc/rpc_invoke_wrapper.h],
    [rpc_backend_tools.h], [rpc_registry.*], [src/runtime/core/util/rpc_client_tool.h],
    and the context and status of [src/interface/aimrt_module_cpp_interface/rpc]

    A call is carried by an [InvokeWrapper]: one at the client, made by the
    backend manager, and one at the service, made by a backend.  Wrappers,
    contexts and message objects are shared by reference, so they live in a
    [World]; a reference is the key.  Callbacks are closures that refer to
    wrappers: they are values of the types [ClientCb] and [ServiceCb], one
    constructor for each lambda that makes one, run by [run_client] and by the
    backend that made them.

    What happens outside the runtime is recorded: [w_answers] lists the calls
    whose user callback has been called and with which status, [w_calls] the
    service functions that have been called, each with the callback it was
    given.  What a service does with it (write the response, call the callback
    at once, later, or never) is a step of its own of the world.

    A C++ object that a [shared_ptr] keeps alive is never removed from the
    world; [std::move] of a callback leaves it empty. *)

From S2P Require Import Prelude Yaml Filters Channel.

(** ** Status *)

Section Status.
Local Open Scope Z_scope.

Definition STATUS_OK : Z := 0.
Definition STATUS_UNKNOWN : Z := 1.
Definition STATUS_TIMEOUT : Z := 2.
Definition STATUS_SVR_UNKNOWN : Z := 1000.
Definition STATUS_SVR_BACKEND_INTERNAL_ERROR : Z := 1001.
Definition STATUS_SVR_NOT_IMPLEMENTED : Z := 1002.
Definition STATUS_SVR_NOT_FOUND : Z := 1003.
Definition STATUS_SVR_INVALID_SERIALIZATION_TYPE : Z := 1004.
Definition STATUS_SVR_SERIALIZATION_FAILED : Z := 1005.
Definition STATUS_SVR_INVALID_DESERIALIZATION_TYPE : Z := 1006.
Definition STATUS_SVR_DESERIALIZATION_FAILED : Z := 1007.
Definition STATUS_SVR_HANDLE_FAILED : Z := 1008.
Definition STATUS_SVR_NOT_READY : Z := 1009.
Definition STATUS_CLI_UNKNOWN : Z := 2000.
Definition STATUS_CLI_FUNC_NOT_REGISTERED : Z := 2001.
Definition STATUS_CLI_BACKEND_INTERNAL_ERROR : Z := 2002.
Definition STATUS_CLI_INVALID_CONTEXT : Z := 2003.
Definition STATUS_CLI_INVALID_ADDR : Z := 2004.
Definition STATUS_CLI_INVALID_SERIALIZATION_TYPE : Z := 2005.
Definition STATUS_CLI_SERIALIZATION_FAILED : Z := 2006.
Definition STATUS_CLI_INVALID_DESERIALIZATION_TYPE : Z := 2007.
Definition STATUS_CLI_DESERIALIZATION_FAILED : Z := 2008.
Definition STATUS_CLI_NO_BACKEND_TO_HANDLE : Z := 2009.
Definition STATUS_CLI_SEND_REQ_FAILED : Z := 2010.
Definition STATUS_CLI_NOT_READY : Z := 2011.

(* @src src/src/interface/aimrt_module_cpp_interface/rpc/rpc_status.h:22-24 Status::OK *)
Definition status_OK (code : Z) : bool := code =? STATUS_OK.

(* @src src/src/interface/aimrt_module_cpp_interface/rpc/rpc_status.h:40-68 Status::GetCodeMsg (kCodeMsgMap) *)
Definition kCodeMsgMap : list (Z * string) :=
  [(STATUS_OK, "OK");
   (STATUS_UNKNOWN, "Unknown error");
   (STATUS_TIMEOUT, "Timeout");
   (STATUS_SVR_UNKNOWN, "Server side unknown error");
   (STATUS_SVR_BACKEND_INTERNAL_ERROR, "Server side backend internal error");
   (STATUS_SVR_NOT_IMPLEMENTED, "Server not implemented");
   (STATUS_SVR_NOT_FOUND, "Server not found");
   (STATUS_SVR_INVALID_SERIALIZATION_TYPE, "Server side invalid serialization type");
   (STATUS_SVR_SERIALIZATION_FAILED, "Server side serialization failed");
   (STATUS_SVR_INVALID_DESERIALIZATION_TYPE, "Server side invalid deserialization type");
   (STATUS_SVR_DESERIALIZATION_FAILED, "Server side deserialization failed");
   (STATUS_SVR_HANDLE_FAILED, "Server handle failed");
   (STATUS_SVR_NOT_READY, "Server not ready");
   (STATUS_CLI_UNKNOWN, "Client side unknown error");
   (STATUS_CLI_BACKEND_INTERNAL_ERROR, "Client side backend internal error");
   (STATUS_CLI_INVALID_CONTEXT, "Client side invalid context");
   (STATUS_CLI_INVALID_ADDR, "Client side invalid address");
   (STATUS_CLI_INVALID_SERIALIZATION_TYPE, "Client side invalid serialization type");
   (STATUS_CLI_SERIALIZATION_FAILED, "Client side serialization failed");
   (STATUS_CLI_INVALID_DESERIALIZATION_TYPE, "Client side invalid deserialization type");
   (STATUS_CLI_DESERIALIZATION_FAILED, "Client side deserialization failed");
   (STATUS_CLI_NO_BACKEND_TO_HANDLE, "Client side no backend to handle");
   (STATUS_CLI_SEND_REQ_FAILED, "Client side send req failed");
   (STATUS_CLI_FUNC_NOT_REGISTERED, "Client side function not registered");
   (STATUS_CLI_NOT_READY, "Client side not ready")].

(* @src src/src/interface/aimrt_module_cpp_interface/rpc/rpc_status.h:39-72 Status::GetCodeMsg *)
Definition GetCodeMsg (code : Z) : string :=
  default "Unknown code" ((list_to_map kCodeMsgMap : gmap Z string) !! code).

(* @src src/src/interface/aimrt_module_cpp_interface/rpc/rpc_status.h:33-37 Status::ToString *)
Definition status_ToString (code : Z) : string :=
  ((if status_OK code then "suc" else "fail") ++ ", code " ++ to_string code ++ ", msg: " ++ GetCodeMsg code)%string.
End Status.

(** ** Contexts *)

Inductive rpc_context_type := AIMRT_RPC_CLIENT_CONTEXT | AIMRT_RPC_SERVER_CONTEXT.

#[export] Instance rpc_context_type_eq_dec : EqDecision rpc_context_type.
Proof. solve_decision. Defined.

Definition KEY_TO_ADDR : string := "aimrt-to_addr".
Definition KEY_FUNCTION_NAME : string := "aimrt-function_name".
Definition KEY_REQUEST_ID : string := "aimrt-request_id".
Definition KEY_RESPONSE_ID : string := "aimrt-response_id".

(* @src src/src/interface/aimrt_module_cpp_interface/rpc/rpc_context.h:215-234 Context *)
Record RpcContext := mkRpcContext {
  rc_meta_data_map : gmap string string;
  timeout_ns : Z;      (* 64 bits, unsigned *)
  rc_used : bool;
  rc_type : rpc_context_type
}.

(* @src src/src/interface/aimrt_module_cpp_interface/rpc/rpc_context.h:25-30 Context::Context *)
Definition RpcContext_new (t : rpc_context_type) : RpcContext := mkRpcContext ∅ 0 false t.

(* @src src/src/interface/aimrt_module_cpp_interface/rpc/rpc_context.h:57-57 Context::SetUsed *)
Definition rc_SetUsed (c : RpcContext) : RpcContext :=
  mkRpcContext (rc_meta_data_map c) (timeout_ns c) true (rc_type c).

(* @src src/src/interface/aimrt_module_cpp_interface/rpc/rpc_context.h:59-64 Context::Reset *)
Definition rc_Reset (c : RpcContext) : RpcContext := mkRpcContext ∅ 0 false (rc_type c).

(** [std::chrono::nanoseconds] counts in a signed integer. *)
(* @src src/src/interface/aimrt_module_cpp_interface/rpc/rpc_context.h:71-73 Context::Timeout *)
Definition rc_Timeout (c : RpcContext) : Z := signed 64 (timeout_ns c).

(* @src src/src/interface/aimrt_module_cpp_interface/rpc/rpc_context.h:75-77 Context::SetTimeout *)
Definition rc_SetTimeout (timeout : Z) (c : RpcContext) : RpcContext :=
  mkRpcContext (rc_meta_data_map c) (wrap64 timeout) (rc_used c) (rc_type c).

(* @src src/src/interface/aimrt_module_cpp_interface/rpc/rpc_context.h:80-84 Context::GetMetaValue *)
Definition rc_GetMetaValue (c : RpcContext) (key : string) : string :=
  default "" (rc_meta_data_map c !! key).

(* @src src/src/interface/aimrt_module_cpp_interface/rpc/rpc_context.h:86-93 Context::SetMetaValue *)
Definition rc_SetMetaValue (key val : string) (c : RpcContext) : RpcContext :=
  mkRpcContext (<[key := val]> (rc_meta_data_map c)) (timeout_ns c) (rc_used c) (rc_type c).

(* @src src/src/interface/aimrt_module_cpp_interface/rpc/rpc_context.h:95-100 Context::GetMetaKeys *)
Definition rc_GetMetaKeys (c : RpcContext) : list string := (map_to_list (rc_meta_data_map c)).*1.

(* @src src/src/interface/aimrt_module_cpp_interface/rpc/rpc_context.h:108-110 Context::GetToAddr *)
Definition rc_GetToAddr (c : RpcContext) : string := rc_GetMetaValue c KEY_TO_ADDR.
(* @src src/src/interface/aimrt_module_cpp_interface/rpc/rpc_context.h:115-117 Context::GetSerializationType *)
Definition rc_GetSerializationType (c : RpcContext) : string := rc_GetMetaValue c KEY_SERIALIZATION_TYPE.
(* @src src/src/interface/aimrt_module_cpp_interface/rpc/rpc_context.h:118-120 Context::SetSerializationType *)
Definition rc_SetSerializationType (val : string) : RpcContext → RpcContext :=
  rc_SetMetaValue KEY_SERIALIZATION_TYPE val.
(* @src src/src/interface/aimrt_module_cpp_interface/rpc/rpc_context.h:125-127 Context::SetFunctionName *)
Definition rc_SetFunctionName (val : string) : RpcContext → RpcContext := rc_SetMetaValue KEY_FUNCTION_NAME val.

(** ** Calls *)

(** A hook a filter puts in front of a callback: that of the "debug_log"
    filters, or one of a user. *)
Inductive hook := DebugLog | UserHook (n : nat).

(** The callbacks of a client's wrapper: the lambda that calls the user's
    callback number [call], and a filter's that calls what was there before. *)
Inductive ClientCb :=
| Answer (call : nat)
| ClientThen (h : hook) (w : nat) (inner : option ClientCb).

(** The callbacks of a service's wrapper: those the local backend makes for a
    service of the same package and of another one, and a filter's. *)
Inductive ServiceCb :=
| ToClient (client : nat)
| Reply (service : nat) (req_id : Z) (serialization_type : string)
| ServiceThen (h : hook) (w : nat) (inner : option ServiceCb).

Section Calls.
Context {Msg : Type}.

(* @src src/src/runtime/core/rpc/rpc_invoke_wrapper.h:16-25 FuncInfo *)
Record FuncInfo := mkFuncInfo {
  func_name : string;
  fi_pkg_path : string;
  fi_module_name : string;
  fi_index : Z;
  req_type_support_ref : TypeSupport Msg;
  rsp_type_support_ref : TypeSupport Msg
}.

(** The request is constant; the response is an object of the world. *)
(* @src src/src/runtime/core/rpc/rpc_invoke_wrapper.h:27-49 InvokeWrapper *)
Record InvokeWrapper (Cb : Type) := mkInvokeWrapper {
  iw_info : FuncInfo;
  iw_req : option Msg;
  iw_rsp : option nat;
  iw_ctx : nat;
  iw_callback : option Cb;
  req_serialization_cache : gmap string BufferArrayView;
  rsp_serialization_cache : gmap string BufferArrayView
}.
End Calls.

Arguments FuncInfo : clear implicits.
Arguments InvokeWrapper : clear implicits.
Arguments mkInvokeWrapper {Msg Cb}.
Arguments iw_info {Msg Cb}.
Arguments iw_req {Msg Cb}.
Arguments iw_rsp {Msg Cb}.
Arguments iw_ctx {Msg Cb}.
Arguments iw_callback {Msg Cb}.
Arguments req_serialization_cache {Msg Cb}.
Arguments rsp_serialization_cache {Msg Cb}.

Section Wrappers.
Context {Msg Cb : Type}.
Implicit Types i : InvokeWrapper Msg Cb.

Definition set_callback x i : InvokeWrapper Msg Cb :=
  mkInvokeWrapper (iw_info i) (iw_req i) (iw_rsp i) (iw_ctx i) x (req_serialization_cache i)
    (rsp_serialization_cache i).
Definition set_req_rsp req rsp i : InvokeWrapper Msg Cb :=
  mkInvokeWrapper (iw_info i) req rsp (iw_ctx i) (iw_callback i) (req_serialization_cache i)
    (rsp_serialization_cache i).
Definition set_req_cache x i : InvokeWrapper Msg Cb :=
  mkInvokeWrapper (iw_info i) (iw_req i) (iw_rsp i) (iw_ctx i) (iw_callback i) x (rsp_serialization_cache i).
Definition set_rsp_cache x i : InvokeWrapper Msg Cb :=
  mkInvokeWrapper (iw_info i) (iw_req i) (iw_rsp i) (iw_ctx i) (iw_callback i) (req_serialization_cache i) x.

(** [cache.emplace(ty, b)] keeps what is there. *)
Definition emplace_cache (ty : string) (b : BufferArrayView) (m : gmap string BufferArrayView)
    : gmap string BufferArrayView :=
  match m !! ty with Some _ => m | None => <[ty := b]> m end.

(** A null pointer to a message is not tested for. *)
(* @src src/src/runtime/core/rpc/rpc_backend_tools.h:10-36 SerializeReqWithCache *)
Definition SerializeReqWithCache (ty : string) : M (InvokeWrapper Msg Cb) BufferArrayView :=
  i ← get;
  match req_serialization_cache i !! ty with
  | Some b => mret b
  | None =>
      match iw_req i with
      | None => undef
      | Some m =>
          match Serialize (req_type_support_ref (iw_info i)) ty m with
          | None => throw (AimRTException "Serialize failed.")
          | Some b => modify (set_req_cache (emplace_cache ty b (req_serialization_cache i)));; mret b
          end
      end
  end.

(* @src src/src/runtime/core/rpc/rpc_backend_tools.h:38-45 TrySerializeReqWithCache *)
Definition TrySerializeReqWithCache (ty : string) : M (InvokeWrapper Msg Cb) (option BufferArrayView) :=
  try_catch (b ← SerializeReqWithCache ty; mret (Some b)) (λ _, mret None).

(** [rsp] is what the response object holds. *)
(* @src src/src/runtime/core/rpc/rpc_backend_tools.h:47-73 SerializeRspWithCache *)
Definition SerializeRspWithCache (rsp : option Msg) (ty : string) : M (InvokeWrapper Msg Cb) BufferArrayView :=
  i ← get;
  match rsp_serialization_cache i !! ty with
  | Some b => mret b
  | None =>
      match rsp with
      | None => undef
      | Some m =>
          match Serialize (rsp_type_support_ref (iw_info i)) ty m with
          | None => throw (AimRTException "Serialize failed.")
          | Some b => modify (set_rsp_cache (emplace_cache ty b (rsp_serialization_cache i)));; mret b
          end
      end
  end.

(* @src src/src/runtime/core/rpc/rpc_backend_tools.h:75-82 TrySerializeRspWithCache *)
Definition TrySerializeRspWithCache (rsp : option Msg) (ty : string)
    : M (InvokeWrapper Msg Cb) (option BufferArrayView) :=
  try_catch (b ← SerializeRspWithCache rsp ty; mret (Some b)) (λ _, mret None).
End Wrappers.

(** ** [RpcClientTool]

    It keeps a call until it is answered or its time is out.  The timers it
    has set on the executor are listed in [ct_timers], each with its time-out;
    when one fires is up to the executor.  Those of a tool that has been
    destroyed do nothing: they are forgotten with it. *)

Section RpcClientTool.
Context {MsgRecorder : Type}.

(* @src src/src/runtime/core/util/rpc_client_tool.h:74-81 RpcClientTool *)
Record RpcClientTool := mkTool {
  ct_timeout_executor : bool;
  ct_timeout_handle : bool;
  ct_timers : list (Z * Z);
  client_msg_recorder_map : gmap Z MsgRecorder
}.

Definition RpcClientTool_new : RpcClientTool := mkTool false false [] ∅.

(* @src src/src/runtime/core/util/rpc_client_tool.h:26-31 RpcClientTool::RegisterTimeoutExecutor *)
Definition RegisterTimeoutExecutor (support_timer_schedule : bool) : M RpcClientTool unit :=
  (if support_timer_schedule then mret tt
   else throw (RuntimeError "Timeout executor do not support timer schedule."));;
  modify (λ t, mkTool true (ct_timeout_handle t) (ct_timers t) (client_msg_recorder_map t)).

(* @src src/src/runtime/core/util/rpc_client_tool.h:33-35 RpcClientTool::RegisterTimeoutHandle *)
Definition RegisterTimeoutHandle : M RpcClientTool unit :=
  modify (λ t, mkTool (ct_timeout_executor t) true (ct_timers t) (client_msg_recorder_map t)).

(* @src src/src/runtime/core/util/rpc_client_tool.h:37-58 RpcClientTool::Record *)
Definition Tool_Record (req_id timeout : Z) (msg_recorder : MsgRecorder) : M RpcClientTool bool :=
  t ← get;
  match client_msg_recorder_map t !! req_id with
  | Some _ => mret false
  | None =>
      put (mkTool (ct_timeout_executor t) (ct_timeout_handle t)
             (if ct_timeout_executor t then ct_timers t ++ [(req_id, timeout)] else ct_timers t)
             (<[req_id := msg_recorder]> (client_msg_recorder_map t)));;
      mret true
  end.

(* @src src/src/runtime/core/util/rpc_client_tool.h:60-72 RpcClientTool::GetRecord *)
Definition GetRecord (req_id : Z) : M RpcClientTool (option MsgRecorder) :=
  t ← get;
  match client_msg_recorder_map t !! req_id with
  | None => mret None
  | Some r =>
      put (mkTool (ct_timeout_executor t) (ct_timeout_handle t) (ct_timers t)
             (delete req_id (client_msg_recorder_map t)));;
      mret (Some r)
  end.
End RpcClientTool.

Arguments RpcClientTool : clear implicits.

(** ** The world *)

Section World.
Context {Msg X : Type}.

(** What the rpc subsystem shares by reference, the record of what the
    outside has seen, and the rest [X]: the state of the backends. *)
Record World := mkWorld {
  w_ctxs : gmap nat RpcContext;
  w_objs : gmap nat Msg;
  w_clients : gmap nat (InvokeWrapper Msg ClientCb);
  w_services : gmap nat (InvokeWrapper Msg ServiceCb);
  w_answers : list (nat * Z);
  w_calls : list (nat * option ServiceCb);
  w_rest : X
}.

Implicit Types w : World.

Definition set_w_ctxs x w :=
  mkWorld x (w_objs w) (w_clients w) (w_services w) (w_answers w) (w_calls w) (w_rest w).
Definition set_w_objs x w :=
  mkWorld (w_ctxs w) x (w_clients w) (w_services w) (w_answers w) (w_calls w) (w_rest w).
Definition set_w_clients x w :=
  mkWorld (w_ctxs w) (w_objs w) x (w_services w) (w_answers w) (w_calls w) (w_rest w).
Definition set_w_services x w :=
  mkWorld (w_ctxs w) (w_objs w) (w_clients w) x (w_answers w) (w_calls w) (w_rest w).
Definition set_w_answers x w :=
  mkWorld (w_ctxs w) (w_objs w) (w_clients w) (w_services w) x (w_calls w) (w_rest w).
Definition set_w_calls x w :=
  mkWorld (w_ctxs w) (w_objs w) (w_clients w) (w_services w) (w_answers w) x (w_rest w).
Definition set_w_rest x w :=
  mkWorld (w_ctxs w) (w_objs w) (w_clients w) (w_services w) (w_answers w) (w_calls w) x.

(** Dereferencing a context; its methods assert that it is not null. *)
Definition get_rctx (ctx : nat) : M World RpcContext :=
  w ← get;
  match w_ctxs w !! ctx with
  | Some c => mret c
  | None => throw (AimRTException "Reference is null.")
  end.

Definition update_rctx (ctx : nat) (f : RpcContext → RpcContext) : M World unit :=
  c ← get_rctx ctx;
  modify (λ w, set_w_ctxs (<[ctx := f c]> (w_ctxs w)) w).

Definition new_rctx (t : rpc_context_type) : M World nat :=
  w ← get;
  let id := fresh (dom (w_ctxs w)) in
  put (set_w_ctxs (<[id := RpcContext_new t]> (w_ctxs w)) w);;
  mret id.

(** A message object of its own. *)
Definition new_obj (m : Msg) : M World nat :=
  w ← get;
  let id := fresh (dom (w_objs w)) in
  put (set_w_objs (<[id := m]> (w_objs w)) w);;
  mret id.

Definition obj_at (w : World) (a : option nat) : option Msg := a ≫= λ a, w_objs w !! a.

Definition write_obj (a : option nat) (m : Msg) : M World unit :=
  match a with
  | Some a => modify (λ w, set_w_objs (<[a := m]> (w_objs w)) w)
  | None => undef
  end.

(** A call on the wrapper of a client or of a service. *)
Definition on_client {A} (cw : nat) (m : M (InvokeWrapper Msg ClientCb) A) : M World A := λ w,
  match w_clients w !! cw with
  | None => (Undef, w)
  | Some i => let '(r, i') := m i in (r, set_w_clients (<[cw := i']> (w_clients w)) w)
  end.

Definition on_service {A} (sw : nat) (m : M (InvokeWrapper Msg ServiceCb) A) : M World A := λ w,
  match w_services w !! sw with
  | None => (Undef, w)
  | Some i => let '(r, i') := m i in (r, set_w_services (<[sw := i']> (w_services w)) w)
  end.

Definition new_client (i : InvokeWrapper Msg ClientCb) : M World nat :=
  w ← get;
  let id := fresh (dom (w_clients w)) in
  put (set_w_clients (<[id := i]> (w_clients w)) w);;
  mret id.

Definition new_service (i : InvokeWrapper Msg ServiceCb) : M World nat :=
  w ← get;
  let id := fresh (dom (w_services w)) in
  put (set_w_services (<[id := i]> (w_services w)) w);;
  mret id.

(** Serialize the response of a wrapper's object. *)
Definition try_serialize_client_rsp (cw : nat) (ty : string) : M World (option BufferArrayView) :=
  w ← get;
  i ← on_client cw get;
  on_client cw (TrySerializeRspWithCache (obj_at w (iw_rsp i)) ty).

Definition try_serialize_service_rsp (sw : nat) (ty : string) : M World (option BufferArrayView) :=
  w ← get;
  i ← on_service sw get;
  on_service sw (TrySerializeRspWithCache (obj_at w (iw_rsp i)) ty).

(** *** Running callbacks *)

(** What the hooks of users' filters do with a wrapper and a status. *)
Context (user_client_hook user_service_hook : nat → nat → Z → M World unit).

(* @src src/src/runtime/core/rpc/rpc_manager.cc:442-463 RpcManager::RegisterDebugLogFilter (client callback) *)
Definition run_client_hook (h : hook) (cw : nat) (status : Z) : M World unit :=
  match h with
  | DebugLog =>
      if status_OK status then try_serialize_client_rsp cw "json";; mret tt else mret tt
  | UserHook n => user_client_hook n cw status
  end.

(* @src src/src/runtime/core/rpc/rpc_manager.cc:484-505 RpcManager::RegisterDebugLogFilter (server callback) *)
Definition run_service_hook (h : hook) (sw : nat) (status : Z) : M World unit :=
  match h with
  | DebugLog =>
      if status_OK status then try_serialize_service_rsp sw "json";; mret tt else mret tt
  | UserHook n => user_service_hook n sw status
  end.

Definition answer (call : nat) (status : Z) : M World unit :=
  modify (λ w, set_w_answers (w_answers w ++ [(call, status)]) w).

Fixpoint run_client (cb : ClientCb) (status : Z) : M World unit :=
  match cb with
  | Answer call => answer call status
  | ClientThen h cw inner =>
      run_client_hook h cw status;;
      match inner with
      | Some cb => run_client cb status
      | None => bad_function_call
      end
  end.

(** [client_invoke_wrapper_ptr->callback(status)] *)
Definition call_client (cw : nat) (status : Z) : M World unit :=
  cb ← on_client cw (gets iw_callback);
  match cb with
  | Some cb => run_client cb status
  | None => bad_function_call
  end.

(* @src src/src/runtime/core/rpc/rpc_backend_tools.h:84-87 InvokeCallBack *)
Definition InvokeCallBack (cw : nat) (status : Z) : M World unit :=
  call_client cw status;;
  on_client cw (modify (set_callback None)).

(** ** [RpcRegistry] *)

(* @src src/src/runtime/core/rpc/rpc_framework_async_filter.h:13-13 FrameworkAsyncRpcHandle *)
Definition RpcHandle : Type := nat → M World unit.

(* @src src/src/runtime/core/rpc/rpc_registry.h:16-19 ServiceFuncWrapper *)
Record ServiceFuncWrapper := mkServiceFuncWrapper {
  sf_info : FuncInfo Msg;
  service_func : RpcHandle
}.

(* @src src/src/runtime/core/rpc/rpc_registry.h:21-23 ClientFuncWrapper *)
Record ClientFuncWrapper := mkClientFuncWrapper { cf_info : FuncInfo Msg }.
End World.

Arguments World : clear implicits.
Arguments RpcHandle : clear implicits.
Arguments ServiceFuncWrapper : clear implicits.
Arguments ClientFuncWrapper : clear implicits.

(* @src src/src/runtime/core/rpc/rpc_registry.h:56-74 RpcRegistry::Key *)
Record RpcKey := mkRpcKey { rk_func_name : string; rk_pkg_path : string; rk_module_name : string }.

#[export] Instance RpcKey_eq_dec : EqDecision RpcKey.
Proof. solve_decision. Defined.
#[export] Instance RpcKey_countable : Countable RpcKey.
Proof.
  apply (inj_countable' (λ k, (rk_func_name k, rk_pkg_path k, rk_module_name k))
                        (λ '(a, b, c), mkRpcKey a b c)). by intros [].
Defined.

Section RpcRegistry.
Context {Msg X : Type}.

(** The index maps hold pointers to the wrappers: their keys here. *)
(* @src src/src/runtime/core/rpc/rpc_registry.h:76-88 RpcRegistry *)
Record RpcRegistry := mkRpcRegistry {
  service_func_wrapper_map : gmap RpcKey (ServiceFuncWrapper Msg X);
  service_index_map : gmap string (list RpcKey);
  client_func_wrapper_map : gmap RpcKey (ClientFuncWrapper Msg);
  client_index_map : gmap string (list RpcKey)
}.

Definition RpcRegistry_new : RpcRegistry := mkRpcRegistry ∅ ∅ ∅ ∅.

Definition rpc_key_of (i : FuncInfo Msg) : RpcKey := mkRpcKey (func_name i) (fi_pkg_path i) (fi_module_name i).

(** [index_map[key.func_name].emplace_back(...)] *)
Definition index_append (k : RpcKey) (m : gmap string (list RpcKey)) : gmap string (list RpcKey) :=
  <[rk_func_name k := default [] (m !! rk_func_name k) ++ [k]]> m.

(* @src src/src/runtime/core/rpc/rpc_registry.cc:8-32 RpcRegistry::RegisterServiceFunc *)
Definition Registry_RegisterServiceFunc (v : ServiceFuncWrapper Msg X) : M RpcRegistry bool :=
  r ← get;
  let key := rpc_key_of (sf_info v) in
  match service_func_wrapper_map r !! key with
  | Some _ => mret false
  | None =>
      put (mkRpcRegistry (<[key := v]> (service_func_wrapper_map r)) (index_append key (service_index_map r))
             (client_func_wrapper_map r) (client_index_map r));;
      mret true
  end.

(* @src src/src/runtime/core/rpc/rpc_registry.cc:34-58 RpcRegistry::RegisterClientFunc *)
Definition Registry_RegisterClientFunc (v : ClientFuncWrapper Msg) : M RpcRegistry bool :=
  r ← get;
  let key := rpc_key_of (cf_info v) in
  match client_func_wrapper_map r !! key with
  | Some _ => mret false
  | None =>
      put (mkRpcRegistry (service_func_wrapper_map r) (service_index_map r)
             (<[key := v]> (client_func_wrapper_map r)) (index_append key (client_index_map r)));;
      mret true
  end.

(* @src src/src/runtime/core/rpc/rpc_registry.cc:60-69 RpcRegistry::GetServiceFuncWrapperPtr *)
Definition GetServiceFuncWrapperPtr (r : RpcRegistry) (func pkg module : string)
    : option (ServiceFuncWrapper Msg X) := service_func_wrapper_map r !! mkRpcKey func pkg module.

(* @src src/src/runtime/core/rpc/rpc_registry.cc:71-80 RpcRegistry::GetClientFuncWrapperPtr *)
Definition GetClientFuncWrapperPtr (r : RpcRegistry) (func pkg module : string)
    : option (ClientFuncWrapper Msg) := client_func_wrapper_map r !! mkRpcKey func pkg module.
End RpcRegistry.

Arguments RpcRegistry : clear implicits.

(** ** Filters of calls: the classes of [Filters] for another type of handle *)

Section RpcFilters.
Context {Msg X : Type}.
Abbreviation H := (RpcHandle Msg X).

#[export] Instance rpc_bad_call : BadCall H := λ _, bad_function_call.

(* @src src/src/runtime/core/rpc/rpc_framework_async_filter.h:14-14 FrameworkAsyncRpcFilter *)
Definition RpcFilter : Type := Filter H.
(* @src src/src/runtime/core/rpc/rpc_framework_async_filter.h:16-51 FrameworkAsyncRpcFilterCollector *)
Definition RpcCollector : Type := Collector H.
(* @src src/src/runtime/core/rpc/rpc_framework_async_filter.h:53-59 FrameworkAsyncRpcFilterManager *)
Definition RpcFilterManager : Type := FilterManager H.
(* @src src/src/runtime/core/rpc/rpc_framework_async_filter.h:40-43 FrameworkAsyncRpcFilterCollector::InvokeRpc *)
Definition InvokeRpc : RpcCollector → H → H := InvokeChannel.
(* @src src/src/runtime/core/rpc/rpc_framework_async_filter.h:61-64 FrameworkAsyncRpcFilterManager::RegisterFilter *)
Definition Rpc_RegisterFilter : string → RpcFilter → M RpcFilterManager unit := RegisterFilter.
(* @src src/src/runtime/core/rpc/rpc_framework_async_filter.h:66-73 FrameworkAsyncRpcFilterManager::GetAllFiltersName *)
Definition Rpc_GetAllFiltersName : RpcFilterManager → list string := GetAllFiltersName.
(* @src src/src/runtime/core/rpc/rpc_framework_async_filter.h:75-100 FrameworkAsyncRpcFilterManager::CreateFilterCollectorIfNotExist *)
Definition Rpc_CreateFilterCollectorIfNotExist : string → list string → M RpcFilterManager unit :=
  CreateFilterCollectorIfNotExist.
(* @src src/src/runtime/core/rpc/rpc_framework_async_filter.h:102-109 FrameworkAsyncRpcFilterManager::GetFilterCollector *)
Definition Rpc_GetFilterCollector : RpcFilterManager → string → RpcCollector := GetFilterCollector.
(* @src src/src/runtime/core/rpc/rpc_framework_async_filter.h:111-118 FrameworkAsyncRpcFilterManager::GetFilterNameVec *)
Definition Rpc_GetFilterNameVec : RpcFilterManager → string → list string := GetFilterNameVec.
(* @src src/src/runtime/core/rpc/rpc_framework_async_filter.h:120-123 FrameworkAsyncRpcFilterManager::Clear *)
Definition Rpc_Clear : RpcFilterManager → RpcFilterManager := FilterManager_Clear.
End RpcFilters.

Arguments RpcFilter : clear implicits.
Arguments RpcCollector : clear implicits.
Arguments RpcFilterManager : clear implicits.

(** * The registry lists what is registered *)

Section RegistrySpec.
Context {Msg X : Type}.
Implicit Types r : RpcRegistry Msg X.

(** An index lists the keys of a map by function, each once. *)
Definition index_lists {A} (m : gmap RpcKey A) (idx : gmap string (list RpcKey)) : Prop :=
  (∀ f k, k ∈ default [] (idx !! f) ↔ rk_func_name k = f ∧ is_Some (m !! k)) ∧
  ∀ f, NoDup (default [] (idx !! f)) ∧ idx !! f ≠ Some [].

Record rpc_registry_ok r : Prop := {
  rok_service k v : service_func_wrapper_map r !! k = Some v → rpc_key_of (sf_info v) = k;
  rok_client k v : client_func_wrapper_map r !! k = Some v → rpc_key_of (cf_info v) = k;
  rok_service_index : index_lists (service_func_wrapper_map r) (service_index_map r);
  rok_client_index : index_lists (client_func_wrapper_map r) (client_index_map r)
}.

Lemma index_lists_empty {A} : index_lists (∅ : gmap RpcKey A) ∅.
Proof.
  split; intros f; rewrite lookup_empty; [|by split; [apply NoDup_nil_2|]]. intros k. rewrite lookup_empty. cbn.
  split; [by intros ?%not_elem_of_nil|by intros [_ [? [=]]]].
Qed.

Lemma rpc_registry_ok_new : rpc_registry_ok RpcRegistry_new.
Proof. split; try apply index_lists_empty; cbn; intros k v; by rewrite lookup_empty. Qed.

Lemma index_lists_append {A} (m : gmap RpcKey A) idx k a :
  m !! k = None → index_lists m idx → index_lists (<[k := a]> m) (index_append k idx).
Proof.
  intros Hk [Hin Hnd]. unfold index_append. split; intros f.
  - intros k'. destruct (decide (f = rk_func_name k)) as [->|Hf].
    + rewrite lookup_insert_eq. cbn. rewrite elem_of_app, Hin, list_elem_of_singleton.
      destruct (decide (k' = k)) as [->|Hne].
      * rewrite lookup_insert_eq. naive_solver.
      * rewrite lookup_insert_ne by done. naive_solver.
    + rewrite lookup_insert_ne by done. rewrite Hin.
      destruct (decide (k' = k)) as [->|Hne]; [naive_solver|]. by rewrite lookup_insert_ne.
  - destruct (decide (f = rk_func_name k)) as [->|Hf]; [|by rewrite lookup_insert_ne].
    rewrite lookup_insert_eq. cbn. split; [|by intros [= [_ Hx]%app_nil]]. apply NoDup_app. split_and!; [apply Hnd| |apply NoDup_singleton].
    intros k' [_ Hs]%Hin ->%list_elem_of_singleton. rewrite Hk in Hs. by destruct Hs.
Qed.

Lemma map_keys_insert {A} (m : gmap RpcKey A) (key : A → RpcKey) v :
  (∀ k v, m !! k = Some v → key v = k) → ∀ k v', <[key v := v]> m !! k = Some v' → key v' = k.
Proof. intros Hm k v' [[<- <-]|[_ H]]%lookup_insert_Some; [done|by apply Hm]. Qed.

Lemma Registry_RegisterServiceFunc_ok r v : rpc_registry_ok r →
  match service_func_wrapper_map r !! rpc_key_of (sf_info v) with
  | Some _ => Registry_RegisterServiceFunc v r = (Ok false, r)
  | None => ∃ r', Registry_RegisterServiceFunc v r = (Ok true, r') ∧ rpc_registry_ok r' ∧
      service_func_wrapper_map r' = <[rpc_key_of (sf_info v) := v]> (service_func_wrapper_map r) ∧
      client_func_wrapper_map r' = client_func_wrapper_map r
  end.
Proof.
  intros [H1 H2 H3 H4]. unfold Registry_RegisterServiceFunc. unfold_monad.
  destruct (service_func_wrapper_map r !! rpc_key_of (sf_info v)) eqn:Hv; [done|].
  eexists. split; [reflexivity|]. split; [|done]. split; cbn; [|done| |done].
  - by apply (map_keys_insert _ (λ v, rpc_key_of (sf_info v))).
  - by apply index_lists_append.
Qed.

Lemma Registry_RegisterClientFunc_ok r v : rpc_registry_ok r →
  match client_func_wrapper_map r !! rpc_key_of (cf_info v) with
  | Some _ => Registry_RegisterClientFunc v r = (Ok false, r)
  | None => ∃ r', Registry_RegisterClientFunc v r = (Ok true, r') ∧ rpc_registry_ok r' ∧
      client_func_wrapper_map r' = <[rpc_key_of (cf_info v) := v]> (client_func_wrapper_map r) ∧
      service_func_wrapper_map r' = service_func_wrapper_map r
  end.
Proof.
  intros [H1 H2 H3 H4]. unfold Registry_RegisterClientFunc. unfold_monad.
  destruct (client_func_wrapper_map r !! rpc_key_of (cf_info v)) eqn:Hv; [done|].
  eexists. split; [reflexivity|]. split; [|done]. split; cbn; [done| |done|].
  - by apply (map_keys_insert _ (λ v, rpc_key_of (cf_info v))).
  - by apply index_lists_append.
Qed.
End RegistrySpec.
