(* ===== verification/Url.v ===== *)
(** * Addresses: [src/common/util/url_parser.h] and [url_encode.h]

    [ParseUrl] matches a fixed regular expression, in which every part is
    delimited by characters the part before cannot hold: the match is found
    here by cutting the string at them.  [.] does not match a line terminator.
    [std::isalnum] is that of the "C" locale.

    Theorems: parsing what [JoinUrl] joins gives the parts back; the parts
    [ParseUrl] finds make up the string; decoding undoes encoding. *)

From S2P Require Import Prelude StdString.

Local Open Scope char_scope.

(** ** Parsing *)

(* @src src/src/common/util/url_parser.h:22-29 Url *)
Record Url := mkUrl {
  protocol : bytes;
  host : bytes;
  service : bytes;
  path : bytes;
  query : bytes;
  fragment : bytes
}.

(** The longest prefix whose characters satisfy [p], and what is after it:
    [[^...]*], when what may follow begins with an excluded character. *)
Fixpoint span (p : ascii → bool) (s : bytes) : bytes * bytes :=
  match s with
  | [] => ([], [])
  | c :: s' => if p c then let '(a, b) := span p s' in (c :: a, b) else ([], s)
  end.

Definition none_of (cs : bytes) (c : ascii) : bool := negb (bool_decide (c ∈ cs)).

(** [(([^:\/?#]+)://)?] *)
Definition url_scheme (s : bytes) : bytes * bytes :=
  let '(a, b) := span (none_of [":"; "/"; "?"; "#"]) s in
  if negb (bool_decide (a = [])) && prefixb [":"; "/"; "/"] b then (a, drop 3 b) else ([], s).

(** What the text after [open] is, up to a character that [stop] holds. *)
Definition url_part (open : ascii) (stop : bytes) (s : bytes) : bytes * bytes :=
  match s with
  | c :: s' => if bool_decide (c = open) then span (none_of stop) s' else ([], s)
  | [] => ([], [])
  end.

Definition newline : ascii := "010".
Definition carriage_return : ascii := "013".

(* @src src/src/common/util/url_parser.h:37-72 ParseUrl *)
Definition ParseUrl (url_str : bytes) : option Url :=
  let '(protocol, s) := url_scheme url_str in
  let '(auth, s) := span (none_of ["/"; "?"; "#"]) s in
  let '(path, s) := span (none_of ["?"; "#"]) s in
  let '(query, s) := url_part "?" ["#"] s in
  let '(fragment, s) := url_part "#" [newline; carriage_return] s in
  match s with
  | _ :: _ => None
  | [] =>
      let '(host, service) :=
        match find [":"] auth 0 with
        | Some pos => (take pos auth, drop (S pos) auth)
        | None => (auth, [])
        end in
      Some (mkUrl protocol host service path query fragment)
  end.

Definition join_scheme (p : bytes) : bytes :=
  match p with [] => [] | c :: p' => (c :: p') ++ [":"; "/"; "/"] end.

(** A part and the character in front of it, unless it is empty. *)
Definition join_part (open : ascii) (s : bytes) : bytes :=
  match s with [] => [] | c :: s' => open :: c :: s' end.

(* @src src/src/common/util/url_parser.h:80-94 JoinUrl *)
Definition JoinUrl (url : Url) : bytes :=
  join_scheme (protocol url) ++
  host url ++
  join_part ":" (service url) ++
  (match path url with [] => [] | c :: p => if bool_decide (c = "/") then c :: p else "/" :: c :: p end) ++
  join_part "?" (query url) ++ join_part "#" (fragment url).

(** ** Encoding *)

Local Open Scope Z_scope.

Definition code (c : ascii) : Z := u8_of_char c.

(* @src src/src/common/util/url_encode.h:11-13 ToHex *)
Definition ToHex (x : Z) (up : bool) : Z :=
  if x >? 9 then x + code (if up then "A" else "a")%char - 10 else x + code "0".

(* @src src/src/common/util/url_encode.h:15-26 FromHex *)
Definition FromHex (x : Z) : Z :=
  if (code "0" <=? x) && (x <=? code "9") then x - code "0"
  else if (code "A" <=? x) && (x <=? code "F") then x - code "A" + 10
  else if (code "a" <=? x) && (x <=? code "f") then x - code "a" + 10
  else 0.

Definition isalnum (c : ascii) : bool :=
  let x := code c in
  ((code "0" <=? x) && (x <=? code "9")) || ((code "A" <=? x) && (x <=? code "Z"))
  || ((code "a" <=? x) && (x <=? code "z")).

(** [%XX] *)
Definition percent (up : bool) (c : ascii) : bytes :=
  ["%"%char; char_of_u8 (ToHex (Z.shiftr (code c) 4) up); char_of_u8 (ToHex (Z.land (code c) 15) up)].

(* @src src/src/common/util/url_encode.h:35-51 UrlEncode *)
Definition UrlEncode (str : bytes) (up : bool) : bytes :=
  flat_map (λ c,
    if isalnum c || bool_decide (c ∈ ["-"; "_"; "."; "~"]%char) then [c]
    else if bool_decide (c = " "%char) then ["+"%char]
    else percent up c) str.

Definition unhex (a b : ascii) : ascii :=
  char_of_u8 (Z.lor (Z.shiftl (FromHex (code a)) 4) (FromHex (code b))).

(** A [%] that two characters do not follow ends the result. *)
(* @src src/src/common/util/url_encode.h:59-80 UrlDecode *)
Fixpoint UrlDecode (str : bytes) : bytes :=
  match str with
  | [] => []
  | c :: s =>
      if bool_decide (c = "+"%char) then " "%char :: UrlDecode s
      else if bool_decide (c = "%"%char) then
        match s with
        | a :: b :: s' => unhex a b :: UrlDecode s'
        | _ => []
        end
      else c :: UrlDecode s
  end.

(* @src src/src/common/util/url_encode.h:82-96 HttpHeaderEncode *)
Definition HttpHeaderEncode (str : bytes) (up : bool) : bytes :=
  flat_map (λ c, if isalnum c || bool_decide (c = "-"%char) then [c] else percent up c) str.

(* @src src/src/common/util/url_encode.h:98-113 HttpHeaderDecode *)
Fixpoint HttpHeaderDecode (str : bytes) : bytes :=
  match str with
  | [] => []
  | c :: s =>
      if bool_decide (c = "%"%char) then
        match s with
        | a :: b :: s' => unhex a b :: HttpHeaderDecode s'
        | _ => []
        end
      else c :: HttpHeaderDecode s
  end.

(** * Round trips *)

Local Close Scope Z_scope.

(** What holds of all characters, by evaluation. *)
Definition all_chars : bytes := (λ n, ascii_of_nat n) <$> seq 0 256.

Lemma all_chars_all c : c ∈ all_chars.
Proof.
  unfold all_chars. apply list_elem_of_fmap. exists (nat_of_ascii c).
  rewrite ascii_nat_embedding. split; [done|]. apply elem_of_seq.
  pose proof (nat_ascii_bounded c). lia.
Qed.

Lemma by_all_chars (p : ascii → bool) : forallb p all_chars = true → ∀ c, p c = true.
Proof. rewrite forallb_forall. intros H c. apply H. apply list_elem_of_In, all_chars_all. Qed.

Lemma percent_spec up c :
  ∃ a b, percent up c = ["%"%char; a; b] ∧ unhex a b = c ∧ isalnum a = true ∧ isalnum b = true.
Proof.
  do 2 eexists. split; [reflexivity|].
  assert (bool_decide (unhex (char_of_u8 (ToHex (Z.shiftr (code c) 4) up)) (char_of_u8 (ToHex (Z.land (code c) 15) up)) = c)
          && isalnum (char_of_u8 (ToHex (Z.shiftr (code c) 4) up))
          && isalnum (char_of_u8 (ToHex (Z.land (code c) 15) up)) = true) as H.
  { revert c. apply by_all_chars. by destruct up; vm_compute. }
  apply andb_true_iff in H as [[H1 H2]%andb_true_iff H3].
  split_and!; [by apply bool_decide_eq_true in H1|done|done].
Qed.

Definition url_safe (c : ascii) : bool :=
  isalnum c || bool_decide (c ∈ ["-"; "_"; "."; "~"; "+"; "%"]%char).

(** How a character is encoded. *)
Definition url_char (up : bool) (c : ascii) : bytes :=
  if isalnum c || bool_decide (c ∈ ["-"; "_"; "."; "~"]%char) then [c]
  else if bool_decide (c = " "%char) then ["+"%char] else percent up c.

Definition header_char (up : bool) (c : ascii) : bytes :=
  if isalnum c || bool_decide (c = "-"%char) then [c] else percent up c.

Lemma UrlEncode_cons c s up : UrlEncode (c :: s) up = url_char up c ++ UrlEncode s up.
Proof. done. Qed.

Lemma HttpHeaderEncode_cons c s up : HttpHeaderEncode (c :: s) up = header_char up c ++ HttpHeaderEncode s up.
Proof. done. Qed.

(** Encoding loses nothing.  [UrlDecode] gives back what [UrlEncode] was
    given and [HttpHeaderDecode] what [HttpHeaderEncode] was given, byte for
    byte, whichever case the digits are in; and what an encoder makes holds
    only letters, digits and the marks of its alphabet. *)
Theorem encode_roundtrip (s : bytes) (up : bool) :
  UrlDecode (UrlEncode s up) = s ∧ HttpHeaderDecode (HttpHeaderEncode s up) = s ∧
  Forall (λ c, url_safe c = true) (UrlEncode s up) ∧
  Forall (λ c, isalnum c || bool_decide (c ∈ ["-"; "%"]%char) = true) (HttpHeaderEncode s up).
Proof.
  assert (∀ c, (isalnum c || bool_decide (c ∈ ["-"; "_"; "."; "~"]%char)) = true →
    bool_decide (c = "+"%char) = false ∧ bool_decide (c = "%"%char) = false ∧ url_safe c = true) as Hkeep.
  { intros c Hc.
    assert (implb (isalnum c || bool_decide (c ∈ ["-"; "_"; "."; "~"]%char))
             (negb (bool_decide (c = "+"%char)) && negb (bool_decide (c = "%"%char)) && url_safe c) = true) as H
      by (clear Hc; revert c; apply by_all_chars; by vm_compute).
    rewrite Hc in H. apply andb_true_iff in H as [[H1 H2]%andb_true_iff H3].
    by apply negb_true_iff in H1, H2. }
  induction s as [|c s (IH1 & IH2 & IH3 & IH4)]; [by repeat split; constructor|].
  destruct (percent_spec up c) as (a & b & Hp & Hu & Ha & Hb).
  rewrite UrlEncode_cons, HttpHeaderEncode_cons, !Forall_app. unfold url_char, header_char.
  repeat match goal with |- _ ∧ _ => split end; try done.
  - destruct (isalnum c || _) eqn:Hc.
    + destruct (Hkeep c Hc) as (H1 & H2 & _). cbn [app UrlDecode HttpHeaderDecode]. by rewrite H1, H2, IH1.
    + destruct (bool_decide (c = " "%char)) eqn:Hsp.
      * apply bool_decide_eq_true in Hsp as ->. cbn [app UrlDecode]. by rewrite bool_decide_eq_true_2, IH1.
      * rewrite Hp. cbn [app UrlDecode]. by rewrite bool_decide_eq_false_2, bool_decide_eq_true_2, Hu, IH1.
  - destruct (isalnum c || _) eqn:Hc.
    + assert (bool_decide (c = "%"%char) = false) as H2.
      { apply (Hkeep c). apply orb_true_iff in Hc as [->|Hc]; [done|].
        apply bool_decide_eq_true in Hc as ->. apply orb_true_r. }
      cbn [app UrlDecode HttpHeaderDecode]. by rewrite H2, IH2.
    + rewrite Hp. cbn [app HttpHeaderDecode]. by rewrite bool_decide_eq_true_2, Hu, IH2.
  - destruct (isalnum c || _) eqn:Hc; [by repeat constructor; apply Hkeep|].
    destruct (bool_decide (c = " "%char)); [by repeat constructor|]. rewrite Hp. unfold url_safe.
    repeat constructor; [by rewrite Ha|by rewrite Hb].
  - destruct (isalnum c || _) eqn:Hc.
    + repeat constructor. apply orb_true_iff in Hc as [->|Hc]; [done|].
      apply bool_decide_eq_true in Hc as ->. apply orb_true_r.
    + rewrite Hp. repeat constructor; [by rewrite Ha|by rewrite Hb].
Qed.

(** ** Urls *)

Definition all_of (p : ascii → bool) (s : bytes) : Prop := Forall (λ c, p c = true) s.

(** [s] is empty, or begins with a character that [p] excludes. *)
Definition stops (p : ascii → bool) (s : bytes) : Prop :=
  match s with [] => True | c :: _ => p c = false end.

Lemma span_app p a b : all_of p a → stops p b → span p (a ++ b) = (a, b).
Proof.
  intros Ha Hb. induction Ha as [|c a Hc _ IH]; cbn.
  - destruct b as [|c b]; [done|]. cbn in *. by rewrite Hb.
  - by rewrite Hc, IH.
Qed.

Lemma span_spec p s : ∃ a b, span p s = (a, b) ∧ s = a ++ b ∧ all_of p a ∧ stops p b.
Proof.
  induction s as [|c s (a & b & IH & -> & Ha & Hb)]; [by exists [], []; split_and!; try constructor|]. cbn. rewrite IH.
  destruct (p c) eqn:Hc; do 2 eexists; (split; [reflexivity|]); split_and!; try done.
  - by constructor.
  - by constructor.
Qed.

Lemma all_of_app p a b : all_of p (a ++ b) ↔ all_of p a ∧ all_of p b.
Proof. apply Forall_app. Qed.

Lemma find_char_app c a b : all_of (none_of [c]) a → find [c] (a ++ c :: b) 0 = Some (length a).
Proof.
  intros Ha. unfold find. rewrite (proj2 (Nat.leb_le _ _)) by lia. rewrite drop_0.
  assert (find0 [c] (a ++ c :: b) = Some (length a)) as ->; [|done].
  induction Ha as [|d a Hd _ IH]; cbn.
  - by rewrite bool_decide_eq_true_2.
  - rewrite bool_decide_eq_false_2; cbn; [by rewrite IH|]. intros ->.
    unfold none_of in Hd. rewrite bool_decide_eq_true_2 in Hd; [done|apply list_elem_of_here].
Qed.

Lemma find_char_none c a : all_of (none_of [c]) a → find [c] a 0 = None.
Proof.
  intros Ha. unfold find. cbn [Nat.leb]. rewrite drop_0.
  assert (find0 [c] a = None) as ->; [|done].
  induction Ha as [|d a Hd _ IH]; cbn; [done|].
  rewrite bool_decide_eq_false_2; cbn; [by rewrite IH|]. intros ->.
  unfold none_of in Hd. rewrite bool_decide_eq_true_2 in Hd; [done|apply list_elem_of_here].
Qed.

Lemma none_of_weaken cs ds s : (∀ c, c ∈ ds → c ∈ cs) → all_of (none_of cs) s → all_of (none_of ds) s.
Proof.
  intros Hsub Hs. eapply Forall_impl; [exact Hs|]. cbn. intros c. unfold none_of. rewrite !negb_true_iff, !bool_decide_eq_false. auto.
Qed.

Lemma none_of_cons c cs s :
  all_of (none_of [c]) s → all_of (none_of cs) s → all_of (none_of (c :: cs)) s.
Proof.
  unfold all_of. rewrite !Forall_forall. intros H1 H2 d Hd. specialize (H1 d Hd). specialize (H2 d Hd).
  unfold none_of in *. rewrite negb_true_iff, bool_decide_eq_false in *. set_solver.
Qed.

(** The parts a url can be made of: none holds a character that ends it. *)
Record url_ok (u : Url) : Prop := {
  protocol_ok : all_of (none_of [":"; "/"; "?"; "#"]) (protocol u);
  host_ok : all_of (none_of [":"; "/"; "?"; "#"]) (host u);
  service_ok : all_of (none_of ["/"; "?"; "#"]) (service u);
  path_ok : all_of (none_of ["?"; "#"]) (path u);
  query_ok : all_of (none_of ["#"]) (query u);
  fragment_ok : all_of (none_of [newline; carriage_return]) (fragment u)
}.

(** A path that is not empty begins with a slash. *)
Definition slashed (p : bytes) : bytes :=
  match p with [] => [] | c :: p' => if bool_decide (c = "/") then c :: p' else "/" :: c :: p' end.

Definition join_auth (u : Url) : bytes :=
  host u ++ join_part ":" (service u).

Lemma url_scheme_join u rest :
  url_ok u → stops (none_of ["/"; "?"; "#"]) rest →
  url_scheme (join_scheme (protocol u) ++ join_auth u ++ rest)
    = (protocol u, join_auth u ++ rest).
Proof.
  intros [Hp Hh Hs _ _ _] Hrest. unfold url_scheme.
  destruct (protocol u) as [|c p] eqn:Ep; unfold join_scheme.
  - cbn [app]. unfold join_auth. rewrite <-app_assoc.
    destruct (service u) as [|d s] eqn:Es; cbn [join_part].
    + cbn [app]. rewrite span_app; [|done|].
      * destruct (host u) as [|h hs]; [done|]. destruct rest as [|r rest]; [done|].
        cbn. rewrite bool_decide_eq_false_2; [done|]. intros <-. by vm_compute in Hrest.
      * destruct rest as [|r rest]; [done|]. cbn in *. unfold none_of in *.
        apply negb_false_iff, bool_decide_eq_true in Hrest. apply negb_false_iff, bool_decide_eq_true. set_solver.
    + rewrite span_app by done. destruct (negb _); [|done]. cbn [app prefixb andb].
      apply Forall_cons in Hs as [Hd _]. rewrite (bool_decide_eq_false_2 ("/" = d)); [|by intros <-].
      by rewrite andb_false_r.
  - rewrite <-app_assoc. rewrite span_app by done. cbn [app prefixb drop].
    by rewrite (bool_decide_eq_false_2 (c :: p = [])), !bool_decide_eq_true_2.
Qed.

Lemma url_part_join open stop s rest :
  all_of (none_of stop) s → stops (none_of stop) rest → (∀ c r, rest = c :: r → c ≠ open) →
  url_part open stop (join_part open s ++ rest) = (s, rest).
Proof.
  intros Hs Hrest Hne. destruct s as [|c s]; cbn [app].
  - destruct rest as [|c r]; [done|]. cbn. by rewrite bool_decide_eq_false_2 by by eapply Hne.
  - unfold join_part. cbn [app url_part]. rewrite bool_decide_eq_true_2 by done. apply (span_app _ (c :: s)); done.
Qed.

(** Parsing undoes joining.  When no part of a url holds a character that
    would end it, [ParseUrl] finds the parts in what [JoinUrl] makes of them,
    empty parts included, up to the slash that [JoinUrl] puts in front of a
    path that has none. *)
Theorem parse_join_url (u : Url) :
  url_ok u →
  ParseUrl (JoinUrl u) =
    Some (mkUrl (protocol u) (host u) (service u) (slashed (path u)) (query u) (fragment u)).
Proof.
  intros Hok. pose proof Hok as [Hp Hh Hs Hpa Hq Hf].
  set (q := join_part "?" (query u)).
  set (f := join_part "#" (fragment u)).
  assert (JoinUrl u = join_scheme (protocol u)
                        ++ join_auth u ++ slashed (path u) ++ q ++ f) as ->.
  { unfold JoinUrl, join_auth. by rewrite <-!app_assoc. }
  assert (∀ p, p "?" = false → p "#" = false → stops p (q ++ f)) as Hqf.
  { intros p H1 H2. unfold q, f. destruct (query u); [destruct (fragment u)|]; done. }
  assert (∀ p, p "#" = false → stops p f) as Hf' by (intros p H2; unfold f; by destruct (fragment u)).
  unfold ParseUrl. rewrite url_scheme_join; [|done|].
  2: { unfold slashed. destruct (path u) as [|c p]; [by apply Hqf|].
       case_bool_decide; [by subst c|done]. }
  rewrite span_app.
  2: { unfold join_auth. apply all_of_app. split; [eapply none_of_weaken; [|exact Hh]; set_solver|].
       destruct (service u); [constructor|]. by constructor. }
  2: { unfold slashed. destruct (path u) as [|c p]; [by apply Hqf|].
       case_bool_decide; [by subst c|done]. }
  rewrite span_app; [|..|by apply Hqf].
  2: { unfold slashed. destruct (path u) as [|c p]; [constructor|]. case_bool_decide; [done|by constructor]. }
  unfold q. rewrite url_part_join; [|done|by apply Hf'|].
  2: { intros c r. unfold f. destruct (fragment u); [done|]. by intros [= <- _]. }
  unfold f. rewrite <-(app_nil_r (join_part "#" (fragment u))).
  rewrite url_part_join; [|done..].
  unfold join_auth. destruct (service u) as [|c s].
  - cbn [join_part]. rewrite app_nil_r, find_char_none; [done|]. eapply none_of_weaken; [|exact Hh]; set_solver.
  - cbn [join_part]. rewrite find_char_app; [|eapply none_of_weaken; [|exact Hh]; set_solver].
    rewrite take_app_length. by rewrite drop_app_ge, Nat.sub_succ_l, Nat.sub_diag by lia.
Qed.

(** A part that is there, or not. *)
Definition is_part (open : ascii) (text s : bytes) : Prop :=
  text = open :: s ∨ text = [] ∧ s = [].

Lemma url_scheme_spec s :
  ∃ p r, url_scheme s = (p, r) ∧ all_of (none_of [":"; "/"; "?"; "#"]) p ∧
    s = join_scheme p ++ r.
Proof.
  unfold url_scheme. destruct (span_spec (none_of [":"; "/"; "?"; "#"]) s) as (a & b & Hab & -> & Ha & _).
  rewrite Hab. destruct a as [|c a]; [by exists [], b; repeat split; constructor|].
  rewrite (bool_decide_eq_false_2 (c :: a = [])) by done. cbn [negb andb].
  destruct (prefixb [":"; "/"; "/"] b) eqn:Hb; [|by exists [], ((c :: a) ++ b); repeat split; constructor].
  exists (c :: a), (drop 3 b). split_and!; [done..|].
  destruct b as [|x [|y [|z b]]]; cbn in Hb; rewrite ?andb_true_r, ?andb_false_r in Hb; try done.
  apply andb_true_iff in Hb as [<-%bool_decide_eq_true [<-%bool_decide_eq_true <-%bool_decide_eq_true]%andb_true_iff].
  unfold join_scheme; by rewrite <-app_assoc.
Qed.

Lemma url_part_spec open stop s :
  ∃ p text r, url_part open stop s = (p, r) ∧ s = text ++ r ∧ is_part open text p ∧ all_of (none_of stop) p ∧
    (text = [] ∧ p = [] ∧ (∀ c r', s = c :: r' → c ≠ open) ∨ text = open :: p ∧ stops (none_of stop) r).
Proof.
  destruct s as [|c s]; cbn.
  - exists [], [], []. split_and!; try done; [by right|constructor|by left].
  - case_bool_decide as Hc.
    + subst c. destruct (span_spec (none_of stop) s) as (a & b & -> & -> & Ha & Hb).
      exists a, (open :: a), b. split_and!; try done; [by left|by right].
    + exists [], [], (c :: s). split_and!; try done; [by right|constructor|].
      left. split_and!; try done. by intros ? ? [= <- _].
Qed.

Lemma none_of_in cs c : none_of cs c = false ↔ c ∈ cs.
Proof. unfold none_of. by rewrite negb_false_iff, bool_decide_eq_true. Qed.

Lemma find_char_spec c a :
  match find [c] a 0 with
  | Some pos => a = take pos a ++ c :: drop (S pos) a ∧ all_of (none_of [c]) (take pos a)
  | None => all_of (none_of [c]) a
  end.
Proof.
  destruct (span_spec (none_of [c]) a) as (x & y & _ & -> & Hx & Hy). destruct y as [|d y].
  - by rewrite app_nil_r, find_char_none.
  - apply none_of_in, list_elem_of_singleton in Hy as ->. rewrite find_char_app by done.
    rewrite take_app_length. by rewrite drop_app_ge, Nat.sub_succ_l, Nat.sub_diag by lia.
Qed.

(** What [ParseUrl] finds is there.  It fails only for a string with a line
    break after its first ["#"].  Otherwise the string is the protocol with
    its mark, the authority, the path, the query with its mark and the
    fragment with its mark, one after the other; no part holds a character
    that would end it, the authority is cut at its first colon, and the path is
    empty or begins with a slash. *)
Theorem parse_url_parts (s : bytes) :
  match ParseUrl s with
  | None => ∃ a b, s = a ++ "#" :: b ∧ all_of (none_of ["#"]) a ∧ ¬ all_of (none_of [newline; carriage_return]) b
  | Some u =>
      url_ok u ∧ slashed (path u) = path u ∧
      ∃ auth q f, s = join_scheme (protocol u) ++ auth ++ path u ++ q ++ f ∧
        (auth = host u ++ ":" :: service u ∨ auth = host u ∧ service u = []) ∧
        is_part "?" q (query u) ∧ is_part "#" f (fragment u)
  end.
Proof.
  unfold ParseUrl.
  destruct (url_scheme_spec s) as (p & r0 & -> & Hp & ->).
  destruct (span_spec (none_of ["/"; "?"; "#"]) r0) as (auth & r1 & -> & -> & Hauth & Hr1).
  destruct (span_spec (none_of ["?"; "#"]) r1) as (pa & r2 & -> & -> & Hpa & Hr2).
  destruct (url_part_spec "?" ["#"] r2) as (q & qt & r3 & -> & -> & Hqt & Hq & Hr3).
  assert (∀ c r, r3 = c :: r → c = "#") as Hhash.
  { intros c r ->. destruct Hr3 as [(-> & -> & Hne)|[-> Hst]].
    - apply none_of_in in Hr2. specialize (Hne c r eq_refl). set_solver.
    - apply none_of_in in Hst. set_solver. }
  destruct (url_part_spec "#" [newline; carriage_return] r3) as (f & ft & r4 & -> & -> & Hft & Hf & Hr4).
  assert (all_of (none_of ["#"]) (join_scheme p ++ auth ++ pa ++ qt)) as Hno.
  { rewrite !all_of_app. split_and!.
    - destruct p as [|c p]; [constructor|]. apply all_of_app.
      split; [eapply none_of_weaken; [|exact Hp]; set_solver|by repeat constructor].
    - eapply none_of_weaken; [|exact Hauth]; set_solver.
    - eapply none_of_weaken; [|exact Hpa]; set_solver.
    - destruct Hqt as [->|[-> _]]; by constructor. }
  destruct r4 as [|c r4].
  - pose proof (find_char_spec ":" auth) as Hfind.
    assert (slashed pa = pa) as Hsl.
    { destruct pa as [|c pa]; [done|]. cbn. case_bool_decide as Hc; [done|exfalso].
      apply Forall_cons in Hpa as [Hpa _]. cbn in Hr1. apply none_of_in in Hr1.
      unfold none_of in Hpa. apply negb_true_iff, bool_decide_eq_false in Hpa. set_solver. }
    rewrite app_nil_r.
    destruct (find [":"] auth 0) as [pos|].
    + destruct Hfind as [Ha Hh]. split_and!; [|done|].
      * rewrite Ha in Hauth. apply all_of_app in Hauth as [Hhost [_ Hserv]%Forall_cons].
        split; cbn; try done. by apply none_of_cons.
      * exists auth, qt, ft. cbn. split_and!; try done. by left.
    + split_and!; [|done|].
      * split; cbn; try done; try constructor; by apply none_of_cons.
      * exists auth, qt, ft. cbn. split_and!; try done. by right.
  - destruct Hr4 as [(-> & -> & Hne)|[-> Hst]].
    + exfalso. exact (Hne c r4 eq_refl (Hhash c r4 eq_refl)).
    + eexists _, (f ++ c :: r4). split; [|split; [exact Hno|]].
      * by rewrite <-!app_assoc.
      * intros [_ [Hc _]%Forall_cons]%all_of_app. cbn in Hst. congruence.
Qed.

(** * The theorems at a concrete input *)

Lemma parse_join_url_witness :
  ParseUrl (lit "local://:8080/func?pkg_path=a&module_name=b#f") =
    Some (mkUrl (lit "local") [] (lit "8080") (lit "/func") (lit "pkg_path=a&module_name=b") (lit "f")).
Proof.
  exact (parse_join_url (mkUrl (lit "local") [] (lit "8080") (lit "func") (lit "pkg_path=a&module_name=b") (lit "f"))
           ltac:(split; apply (bool_decide_unpack _); vm_compute; reflexivity)).
Defined.
