(* ===== verification/RpcBackend.v ===== *)
(** * Backends of calls: [src/runtime/core/rpc/rpc_backend_base.h] and
    [rpc_backend_manager.*]

    A backend is a record of operations.  [RpcBackendManager] chooses filters
    and backends for each function by the first rule whose regular expression
    matches, records service and client functions in the registry, and passes
    calls through the filters to one backend: the one the call's address names,
    or else the first.

    A pointer to a backend is its index in [rpc_backend_index_vec].  The
    registry and the filter managers, which the source reaches through
    pointers, are fields of the manager here.  [std::regex_match], which may
    throw, and what users' hooks do are parameters.  A user's service function
    is not run: that it has been called, and the callback it was given, is
    noted in the world.

    Theorems: every registered function has its backends and a request number,
    however the calls on the manager are ordered; what a call does on every
    branch; calls that the manager refuses are answered once, with the status
    that says why. *)

From S2P Require Import Prelude Yaml Filters Channel ChannelBackend Rpc.

(** ** Backends *)

Section RpcBackend.
Context {Msg X node : Type}.

(* @src src/src/runtime/core/rpc/rpc_backend_base.h:14-70 RpcBackendBase *)
Record RpcBackend := mkRpcBackend {
  rb_Name : string;
  rb_Initialize : node → M (World Msg X) unit;
  rb_Start : M (World Msg X) unit;
  rb_Shutdown : M (World Msg X) unit;
  rb_RegisterServiceFunc : ServiceFuncWrapper Msg X → M (World Msg X) bool;
  rb_RegisterClientFunc : ClientFuncWrapper Msg → M (World Msg X) bool;
  rb_Invoke : RpcRegistry Msg X → RpcHandle Msg X;
  rb_Report : World Msg X → list (string * string)
}.
End RpcBackend.

Arguments RpcBackend : clear implicits.

(** ** [RpcBackendManager] *)

Section RpcBackendManager.
Context {Msg X node : Type}.
(** [std::regex_match(func_name, std::regex(pattern))], and what the hooks of
    users' filters do. *)
Context (regex_match : string → string → res bool).
Context (user_client_hook : nat → nat → Z → M (World Msg X) unit).

Abbreviation rules := (list (string * list string)).
Abbreviation backend := (RpcBackend Msg X node).
Abbreviation W := (World Msg X).

(* @src src/src/runtime/core/rpc/rpc_backend_manager.h:107-149 RpcBackendManager *)
Record RpcBackendManager := mkRBM {
  rbm_state : State;
  rbm_client_index : Z;
  rbm_server_index : Z;
  rbm_registry : RpcRegistry Msg X;
  clients_filters_rules : rules;
  servers_filters_rules : rules;
  client_filter_manager : RpcFilterManager Msg X;
  server_filter_manager : RpcFilterManager Msg X;
  rpc_backend_index_vec : list backend;
  rpc_backend_index_map : gmap string nat;
  clients_backends_rules : rules;
  servers_backends_rules : rules;
  clients_backend_index_map : gmap string (list nat);
  servers_backend_index_map : gmap string (list nat);
  request_id_map : gmap string Z
}.

Definition RpcBackendManager_new : RpcBackendManager :=
  mkRBM kPreInit 0 0 RpcRegistry_new [] [] FilterManager_new FilterManager_new [] ∅ [] [] ∅ ∅ ∅.

Definition set_rbm_state x (s : RpcBackendManager) : RpcBackendManager :=
  mkRBM x (rbm_client_index s) (rbm_server_index s) (rbm_registry s) (clients_filters_rules s)
    (servers_filters_rules s) (client_filter_manager s) (server_filter_manager s) (rpc_backend_index_vec
    s) (rpc_backend_index_map s) (clients_backends_rules s) (servers_backends_rules s)
    (clients_backend_index_map s) (servers_backend_index_map s) (request_id_map s).
Definition set_rbm_client_index x (s : RpcBackendManager) : RpcBackendManager :=
  mkRBM (rbm_state s) x (rbm_server_index s) (rbm_registry s) (clients_filters_rules s)
    (servers_filters_rules s) (client_filter_manager s) (server_filter_manager s) (rpc_backend_index_vec
    s) (rpc_backend_index_map s) (clients_backends_rules s) (servers_backends_rules s)
    (clients_backend_index_map s) (servers_backend_index_map s) (request_id_map s).
Definition set_rbm_server_index x (s : RpcBackendManager) : RpcBackendManager :=
  mkRBM (rbm_state s) (rbm_client_index s) x (rbm_registry s) (clients_filters_rules s)
    (servers_filters_rules s) (client_filter_manager s) (server_filter_manager s) (rpc_backend_index_vec
    s) (rpc_backend_index_map s) (clients_backends_rules s) (servers_backends_rules s)
    (clients_backend_index_map s) (servers_backend_index_map s) (request_id_map s).
Definition set_rbm_registry x (s : RpcBackendManager) : RpcBackendManager :=
  mkRBM (rbm_state s) (rbm_client_index s) (rbm_server_index s) x (clients_filters_rules s)
    (servers_filters_rules s) (client_filter_manager s) (server_filter_manager s) (rpc_backend_index_vec
    s) (rpc_backend_index_map s) (clients_backends_rules s) (servers_backends_rules s)
    (clients_backend_index_map s) (servers_backend_index_map s) (request_id_map s).
Definition set_clients_filters_rules x (s : RpcBackendManager) : RpcBackendManager :=
  mkRBM (rbm_state s) (rbm_client_index s) (rbm_server_index s) (rbm_registry s) x (servers_filters_rules
    s) (client_filter_manager s) (server_filter_manager s) (rpc_backend_index_vec s)
    (rpc_backend_index_map s) (clients_backends_rules s) (servers_backends_rules s)
    (clients_backend_index_map s) (servers_backend_index_map s) (request_id_map s).
Definition set_servers_filters_rules x (s : RpcBackendManager) : RpcBackendManager :=
  mkRBM (rbm_state s) (rbm_client_index s) (rbm_server_index s) (rbm_registry s) (clients_filters_rules
    s) x (client_filter_manager s) (server_filter_manager s) (rpc_backend_index_vec s)
    (rpc_backend_index_map s) (clients_backends_rules s) (servers_backends_rules s)
    (clients_backend_index_map s) (servers_backend_index_map s) (request_id_map s).
Definition set_client_filter_manager x (s : RpcBackendManager) : RpcBackendManager :=
  mkRBM (rbm_state s) (rbm_client_index s) (rbm_server_index s) (rbm_registry s) (clients_filters_rules
    s) (servers_filters_rules s) x (server_filter_manager s) (rpc_backend_index_vec s)
    (rpc_backend_index_map s) (clients_backends_rules s) (servers_backends_rules s)
    (clients_backend_index_map s) (servers_backend_index_map s) (request_id_map s).
Definition set_server_filter_manager x (s : RpcBackendManager) : RpcBackendManager :=
  mkRBM (rbm_state s) (rbm_client_index s) (rbm_server_index s) (rbm_registry s) (clients_filters_rules
    s) (servers_filters_rules s) (client_filter_manager s) x (rpc_backend_index_vec s)
    (rpc_backend_index_map s) (clients_backends_rules s) (servers_backends_rules s)
    (clients_backend_index_map s) (servers_backend_index_map s) (request_id_map s).
Definition set_rpc_backend_index_vec x (s : RpcBackendManager) : RpcBackendManager :=
  mkRBM (rbm_state s) (rbm_client_index s) (rbm_server_index s) (rbm_registry s) (clients_filters_rules
    s) (servers_filters_rules s) (client_filter_manager s) (server_filter_manager s) x
    (rpc_backend_index_map s) (clients_backends_rules s) (servers_backends_rules s)
    (clients_backend_index_map s) (servers_backend_index_map s) (request_id_map s).
Definition set_rpc_backend_index_map x (s : RpcBackendManager) : RpcBackendManager :=
  mkRBM (rbm_state s) (rbm_client_index s) (rbm_server_index s) (rbm_registry s) (clients_filters_rules
    s) (servers_filters_rules s) (client_filter_manager s) (server_filter_manager s)
    (rpc_backend_index_vec s) x (clients_backends_rules s) (servers_backends_rules s)
    (clients_backend_index_map s) (servers_backend_index_map s) (request_id_map s).
Definition set_clients_backends_rules x (s : RpcBackendManager) : RpcBackendManager :=
  mkRBM (rbm_state s) (rbm_client_index s) (rbm_server_index s) (rbm_registry s) (clients_filters_rules
    s) (servers_filters_rules s) (client_filter_manager s) (server_filter_manager s)
    (rpc_backend_index_vec s) (rpc_backend_index_map s) x (servers_backends_rules s)
    (clients_backend_index_map s) (servers_backend_index_map s) (request_id_map s).
Definition set_servers_backends_rules x (s : RpcBackendManager) : RpcBackendManager :=
  mkRBM (rbm_state s) (rbm_client_index s) (rbm_server_index s) (rbm_registry s) (clients_filters_rules
    s) (servers_filters_rules s) (client_filter_manager s) (server_filter_manager s)
    (rpc_backend_index_vec s) (rpc_backend_index_map s) (clients_backends_rules s) x
    (clients_backend_index_map s) (servers_backend_index_map s) (request_id_map s).
Definition set_clients_backend_index_map x (s : RpcBackendManager) : RpcBackendManager :=
  mkRBM (rbm_state s) (rbm_client_index s) (rbm_server_index s) (rbm_registry s) (clients_filters_rules
    s) (servers_filters_rules s) (client_filter_manager s) (server_filter_manager s)
    (rpc_backend_index_vec s) (rpc_backend_index_map s) (clients_backends_rules s)
    (servers_backends_rules s) x (servers_backend_index_map s) (request_id_map s).
Definition set_servers_backend_index_map x (s : RpcBackendManager) : RpcBackendManager :=
  mkRBM (rbm_state s) (rbm_client_index s) (rbm_server_index s) (rbm_registry s) (clients_filters_rules
    s) (servers_filters_rules s) (client_filter_manager s) (server_filter_manager s)
    (rpc_backend_index_vec s) (rpc_backend_index_map s) (clients_backends_rules s)
    (servers_backends_rules s) (clients_backend_index_map s) x (request_id_map s).
Definition set_request_id_map x (s : RpcBackendManager) : RpcBackendManager :=
  mkRBM (rbm_state s) (rbm_client_index s) (rbm_server_index s) (rbm_registry s) (clients_filters_rules
    s) (servers_filters_rules s) (client_filter_manager s) (server_filter_manager s)
    (rpc_backend_index_vec s) (rpc_backend_index_map s) (clients_backends_rules s)
    (servers_backends_rules s) (clients_backend_index_map s) (servers_backend_index_map s) x.

(** Calls on the manager and the world. *)
Abbreviation RSys := (RpcBackendManager * W)%type.
Definition on_rbm {A} (m : M RpcBackendManager A) : M RSys A := zoom fst (λ b y, (b, y.2)) m.
Definition on_w {A} (m : M W A) : M RSys A := zoom snd (λ s y, (y.1, s)) m.
Definition on_rpc_registry {A} (m : M (RpcRegistry Msg X) A) : M RSys A :=
  on_rbm (zoom rbm_registry set_rbm_registry m).
Definition on_client_filters {A} (m : M (RpcFilterManager Msg X) A) : M RSys A :=
  on_rbm (zoom client_filter_manager set_client_filter_manager m).
Definition on_server_filters {A} (m : M (RpcFilterManager Msg X) A) : M RSys A :=
  on_rbm (zoom server_filter_manager set_server_filter_manager m).

(** A call on the backend a pointer points to. *)
Definition on_backend {A} (f : backend → M W A) (p : nat) : M RSys A :=
  bm ← on_rbm get;
  match rpc_backend_index_vec bm !! p with
  | Some b => on_w (f b)
  | None => undef
  end.

(** Exchange the state, then check what it was. *)
Definition rbm_exchange (new old : State) (what : string) : M RSys unit :=
  bm ← on_rbm get;
  on_rbm (modify (set_rbm_state new));;
  check_throw (state_eqb (rbm_state bm) old) what.

(* @src src/src/runtime/core/rpc/rpc_backend_manager.cc:15-19 RpcBackendManager::Initialize *)
Definition rbm_Initialize : M RSys unit :=
  rbm_exchange kInit kPreInit "Rpc backend manager can only be initialized once.".

(* @src src/src/runtime/core/rpc/rpc_backend_manager.cc:21-30 RpcBackendManager::Start *)
Definition rbm_Start : M RSys unit :=
  rbm_exchange kStart kInit "Method can only be called when state is 'Init'.";;
  bm ← on_rbm get;
  mapM_ (λ b, on_w (rb_Start b)) (rpc_backend_index_vec bm).

(* @src src/src/runtime/core/rpc/rpc_backend_manager.cc:32-40 RpcBackendManager::Shutdown *)
Definition rbm_Shutdown : M RSys unit :=
  bm ← on_rbm get;
  on_rbm (modify (set_rbm_state kShutdown));;
  if state_eqb (rbm_state bm) kShutdown then mret tt
  else mapM_ (λ b, on_w (rb_Shutdown b)) (rpc_backend_index_vec bm).

Definition rbm_preinit_only (f : RpcBackendManager → RpcBackendManager) : M RSys unit :=
  bm ← on_rbm get;
  check_throw (state_eqb (rbm_state bm) kPreInit) "Method can only be called when state is 'PreInit'.";;
  on_rbm (modify f).

(* @src src/src/runtime/core/rpc/rpc_backend_manager.cc:42-47 RpcBackendManager::SetRpcRegistry *)
Definition rbm_SetRpcRegistry (r : RpcRegistry Msg X) : M RSys unit := rbm_preinit_only (set_rbm_registry r).
(* @src src/src/runtime/core/rpc/rpc_backend_manager.cc:49-55 RpcBackendManager::SetClientFrameworkAsyncRpcFilterManager *)
Definition rbm_SetClientFilterManager (f : RpcFilterManager Msg X) : M RSys unit :=
  rbm_preinit_only (set_client_filter_manager f).
(* @src src/src/runtime/core/rpc/rpc_backend_manager.cc:57-63 RpcBackendManager::SetServerFrameworkAsyncRpcFilterManager *)
Definition rbm_SetServerFilterManager (f : RpcFilterManager Msg X) : M RSys unit :=
  rbm_preinit_only (set_server_filter_manager f).
(* @src src/src/runtime/core/rpc/rpc_backend_manager.cc:65-71 RpcBackendManager::SetClientsFiltersRules *)
Definition rbm_SetClientsFiltersRules (r : rules) : M RSys unit := rbm_preinit_only (set_clients_filters_rules r).
(* @src src/src/runtime/core/rpc/rpc_backend_manager.cc:73-79 RpcBackendManager::SetServersFiltersRules *)
Definition rbm_SetServersFiltersRules (r : rules) : M RSys unit := rbm_preinit_only (set_servers_filters_rules r).
(* @src src/src/runtime/core/rpc/rpc_backend_manager.cc:81-87 RpcBackendManager::SetClientsBackendsRules *)
Definition rbm_SetClientsBackendsRules (r : rules) : M RSys unit := rbm_preinit_only (set_clients_backends_rules r).
(* @src src/src/runtime/core/rpc/rpc_backend_manager.cc:89-95 RpcBackendManager::SetServersBackendsRules *)
Definition rbm_SetServersBackendsRules (r : rules) : M RSys unit := rbm_preinit_only (set_servers_backends_rules r).

(** [emplace] keeps the first backend of a name. *)
Definition add_backend (b : backend) (bm : RpcBackendManager) : RpcBackendManager :=
  let p := length (rpc_backend_index_vec bm) in
  set_rpc_backend_index_map
    (match rpc_backend_index_map bm !! rb_Name b with
     | Some _ => rpc_backend_index_map bm
     | None => <[rb_Name b := p]> (rpc_backend_index_map bm)
     end)
    (set_rpc_backend_index_vec (rpc_backend_index_vec bm ++ [b]) bm).

(* @src src/src/runtime/core/rpc/rpc_backend_manager.cc:97-104 RpcBackendManager::RegisterRpcBackend *)
Definition rbm_RegisterRpcBackend (b : backend) : M RSys unit := rbm_preinit_only (add_backend b).

(** ** Rules *)

(* @src src/src/runtime/core/rpc/rpc_backend_manager.cc:419-437 RpcBackendManager::GetFilterRules *)
Definition rpc_GetFilterRules : string → rules → list string := GetFilterRules regex_match.

(** [std::find_if] over the backends, from the one at [p] on. *)
Fixpoint find_rpc_backend (bs : list backend) (p : nat) (name : string) : option nat :=
  match bs with
  | [] => None
  | b :: bs' => if String.eqb (rb_Name b) name then Some p else find_rpc_backend bs' (S p) name
  end.

(* @src src/src/runtime/core/rpc/rpc_backend_manager.cc:382-417 RpcBackendManager::GetBackendsByRules *)
Fixpoint rpc_GetBackendsByRules (bs : list backend) (func : string) (r : rules) : list nat :=
  match r with
  | [] => []
  | (func_regex, enable_backends) :: r' =>
      match regex_match func_regex func with
      | Ok true => omap (find_rpc_backend bs 0) enable_backends
      | _ => rpc_GetBackendsByRules bs func r'
      end
  end.

(** ** Registration *)

(** [ret &= backend->Call(...)] over the backends of a function. *)
Fixpoint all_rpc_backends (f : backend → M W bool) (ps : list nat) : M RSys bool :=
  match ps with
  | [] => mret true
  | p :: ps' => r ← on_backend f p; rs ← all_rpc_backends f ps'; mret (r && rs)
  end.

(** The user's service function, called under the filters: its callback is
    taken from the wrapper. *)
(* @src src/src/runtime/core/rpc/rpc_backend_manager.cc:148-164 RpcBackendManager::RegisterServiceFunc (service call) *)
Definition service_terminal : RpcHandle Msg X := λ sw,
  callback ← on_service sw (gets iw_callback);
  on_service sw (modify (set_callback None));;
  i ← on_service sw get;
  c ← get_rctx (iw_ctx i);
  update_rctx (iw_ctx i) (rc_SetMetaValue KEY_RESPONSE_ID (rc_GetMetaValue c KEY_REQUEST_ID));;
  modify (λ w, set_w_calls (w_calls w ++ [(sw, callback)]) w).

(** The type supports of a request and of a response may be null, the service
    function too. *)
(* @src src/src/runtime/core/rpc/rpc_backend_manager.cc:106-186 RpcBackendManager::RegisterServiceFunc *)
Definition rbm_RegisterServiceFunc (pkg module func : string) (req_ts rsp_ts : option (TypeSupport Msg))
    (has_service_func : bool) : M RSys bool :=
  bm ← on_rbm get;
  if negb (state_eqb (rbm_state bm) kInit) then mret false else
  match req_ts, rsp_ts with
  | Some req_ts, Some rsp_ts =>
      if negb has_service_func then mret false else
      on_rbm (modify (λ bm, set_rbm_server_index (wrap64 (rbm_server_index bm + 1)) bm));;
      bm ← on_rbm get;
      let info := mkFuncInfo func pkg module (rbm_server_index bm) req_ts rsp_ts in
      on_server_filters (Rpc_CreateFilterCollectorIfNotExist func
        (rpc_GetFilterRules func (servers_filters_rules bm)));;
      bm ← on_rbm get;
      let filter_collector := Rpc_GetFilterCollector (server_filter_manager bm) func in
      let w := mkServiceFuncWrapper info (InvokeRpc filter_collector service_terminal) in
      registered ← on_rpc_registry (Registry_RegisterServiceFunc w);
      if negb registered then mret false else
      bm ← on_rbm get;
      backends ← match servers_backend_index_map bm !! func with
                 | Some bs => mret bs
                 | None =>
                     let bs := rpc_GetBackendsByRules (rpc_backend_index_vec bm) func
                                 (servers_backends_rules bm) in
                     on_rbm (modify (λ bm, set_servers_backend_index_map
                                            (<[func := bs]> (servers_backend_index_map bm)) bm));;
                     mret bs
                 end;
      all_rpc_backends (λ b, rb_RegisterServiceFunc b w) backends
  | _, _ => mret false
  end.

(* @src src/src/runtime/core/rpc/rpc_backend_manager.cc:188-238 RpcBackendManager::RegisterClientFunc *)
Definition rbm_RegisterClientFunc (pkg module func : string) (req_ts rsp_ts : option (TypeSupport Msg))
    : M RSys bool :=
  bm ← on_rbm get;
  if negb (state_eqb (rbm_state bm) kInit) then mret false else
  match req_ts, rsp_ts with
  | Some req_ts, Some rsp_ts =>
      on_rbm (modify (λ bm, set_rbm_client_index (wrap64 (rbm_client_index bm + 1)) bm));;
      bm ← on_rbm get;
      let w := mkClientFuncWrapper (mkFuncInfo func pkg module (rbm_client_index bm) req_ts rsp_ts) in
      on_rbm (modify (λ bm, set_request_id_map
        (match request_id_map bm !! func with
         | Some _ => request_id_map bm
         | None => <[func := 0%Z]> (request_id_map bm)
         end) bm));;
      on_client_filters (Rpc_CreateFilterCollectorIfNotExist func
        (rpc_GetFilterRules func (clients_filters_rules bm)));;
      registered ← on_rpc_registry (Registry_RegisterClientFunc w);
      if negb registered then mret false else
      bm ← on_rbm get;
      backends ← match clients_backend_index_map bm !! func with
                 | Some bs => mret bs
                 | None =>
                     let bs := rpc_GetBackendsByRules (rpc_backend_index_vec bm) func
                                 (clients_backends_rules bm) in
                     on_rbm (modify (λ bm, set_clients_backend_index_map
                                            (<[func := bs]> (clients_backend_index_map bm)) bm));;
                     mret bs
                 end;
      all_rpc_backends (λ b, rb_RegisterClientFunc b w) backends
  | _, _ => mret false
  end.

(** ** Calls *)

(** [std::chrono::seconds(5)] *)
Definition default_timeout : Z := 5000000000.

(** [s.find("://")], and what is before it. *)
Fixpoint before_scheme (s : string) : option string :=
  match s with
  | EmptyString => None
  | String c s' => if String.prefix "://" s then Some EmptyString else String c <$> before_scheme s'
  end.

(** The backend a call goes to, with whether it is noted in the context, or
    the status the call is answered with. *)
(* @src src/src/runtime/core/rpc/rpc_backend_manager.cc:304-349 RpcBackendManager::Invoke (backend) *)
Definition choose_backend (bm : RpcBackendManager) (func to_addr : string) : Z + (nat * bool) :=
  match clients_backend_index_map bm !! func with
  | None | Some [] => inl STATUS_CLI_NO_BACKEND_TO_HANDLE
  | Some (p :: ps) =>
      if String.eqb to_addr "" then inr (p, true)
      else
        match before_scheme to_addr ≫= λ name, rpc_backend_index_map bm !! name with
        | Some q => if bool_decide (q ∈ p :: ps) then inr (q, false) else inl STATUS_CLI_INVALID_ADDR
        | None => inl STATUS_CLI_INVALID_ADDR
        end
  end.

(** What is under the filters. *)
(* @src src/src/runtime/core/rpc/rpc_backend_manager.cc:297-352 RpcBackendManager::Invoke (handle) *)
Definition client_terminal (bm : RpcBackendManager) : RpcHandle Msg X := λ cw,
  i ← on_client cw get;
  c ← get_rctx (iw_ctx i);
  (if (rc_Timeout c =? 0)%Z then update_rctx (iw_ctx i) (rc_SetTimeout default_timeout) else mret tt);;
  match choose_backend bm (func_name (iw_info i)) (rc_GetToAddr c) with
  | inl status => InvokeCallBack user_client_hook cw status
  | inr (p, noted) =>
      match rpc_backend_index_vec bm !! p with
      | None => undef
      | Some b =>
          (if noted then update_rctx (iw_ctx i) (rc_SetMetaValue KEY_BACKEND (rb_Name b)) else mret tt);;
          rb_Invoke b (rbm_registry bm) cw
      end
  end.

(** [call] names the user's callback. *)
(* @src src/src/runtime/core/rpc/rpc_backend_manager.cc:240-353 RpcBackendManager::Invoke *)
Definition rbm_Invoke (pkg module func : string) (ctx : nat) (req : option Msg) (rsp : option nat)
    (call : nat) : M RSys unit :=
  bm ← on_rbm get;
  check_throw (state_eqb (rbm_state bm) kStart) "Method can only be called when state is 'Start'.";;
  match GetClientFuncWrapperPtr (rbm_registry bm) func pkg module with
  | None => on_w (answer call STATUS_CLI_FUNC_NOT_REGISTERED)
  | Some f =>
      c ← on_w (get_rctx ctx);
      if negb (bool_decide (rc_type c = AIMRT_RPC_CLIENT_CONTEXT)) || rc_used c
      then on_w (answer call STATUS_CLI_INVALID_CONTEXT)
      else
        on_w (update_rctx ctx rc_SetUsed);;
        (match request_id_map bm !! func with
         | None => mret tt
         | Some n =>
             let seq := wrap32 (n + 1) in
             on_rbm (modify (λ bm, set_request_id_map (<[func := seq]> (request_id_map bm)) bm));;
             on_w (update_rctx ctx (rc_SetMetaValue KEY_REQUEST_ID (to_string seq)))
         end);;
        c ← on_w (get_rctx ctx);
        (if String.eqb (rc_GetSerializationType c) "" then
           ty ← lift (DefaultSerializationType (req_type_support_ref (cf_info f)));
           on_w (update_rctx ctx (rc_SetSerializationType ty))
         else mret tt);;
        bm ← on_rbm get;
        let filter_collector := Rpc_GetFilterCollector (client_filter_manager bm) func in
        cw ← on_w (new_client (mkInvokeWrapper (cf_info f) req rsp ctx (Some (Answer call)) ∅ ∅));
        on_w (InvokeRpc filter_collector (client_terminal bm) cw)
  end.

(** ** Reports *)

Definition backend_names (bm : RpcBackendManager) (ps : list nat) : list string :=
  omap (λ p, rb_Name <$> rpc_backend_index_vec bm !! p) ps.

(* @src src/src/runtime/core/rpc/rpc_backend_manager.cc:355-367 RpcBackendManager::GetClientsBackendInfo *)
Definition GetClientsBackendInfo (bm : RpcBackendManager) : gmap string (list string) :=
  backend_names bm <$> clients_backend_index_map bm.
(* @src src/src/runtime/core/rpc/rpc_backend_manager.cc:369-380 RpcBackendManager::GetServersBackendInfo *)
Definition GetServersBackendInfo (bm : RpcBackendManager) : gmap string (list string) :=
  backend_names bm <$> servers_backend_index_map bm.
End RpcBackendManager.

Arguments RpcBackendManager : clear implicits.

(** * Routing *)

Section RpcRouting.
Context {Msg X node : Type}.
Context (regex_match : string → string → res bool).
Context (user_client_hook : nat → nat → Z → M (World Msg X) unit).

Abbreviation rbm := (RpcBackendManager Msg X node).
Abbreviation RSys := (rbm * World Msg X)%type.
Implicit Types bm : rbm.

(** Every call on the manager, by the rpc manager and through handles. *)
Inductive rbm_call :=
| RCallInitialize | RCallStart | RCallShutdown
| RCallSetRpcRegistry
| RCallSetClientFilterManager (f : RpcFilterManager Msg X)
| RCallSetServerFilterManager (f : RpcFilterManager Msg X)
| RCallSetClientsFiltersRules (r : list (string * list string))
| RCallSetServersFiltersRules (r : list (string * list string))
| RCallSetClientsBackendsRules (r : list (string * list string))
| RCallSetServersBackendsRules (r : list (string * list string))
| RCallRegisterRpcBackend (b : RpcBackend Msg X node)
| RCallRegisterServiceFunc (pkg module func : string) (req_ts rsp_ts : option (TypeSupport Msg)) (has : bool)
| RCallRegisterClientFunc (pkg module func : string) (req_ts rsp_ts : option (TypeSupport Msg))
| RCallInvoke (pkg module func : string) (ctx : nat) (req : option Msg) (rsp : option nat) (call : nat).

(** The registry is set when it is new. *)
Definition run_rbm_call (c : rbm_call) : M RSys unit :=
  match c with
  | RCallInitialize => rbm_Initialize
  | RCallStart => rbm_Start
  | RCallShutdown => rbm_Shutdown
  | RCallSetRpcRegistry => rbm_SetRpcRegistry RpcRegistry_new
  | RCallSetClientFilterManager f => rbm_SetClientFilterManager f
  | RCallSetServerFilterManager f => rbm_SetServerFilterManager f
  | RCallSetClientsFiltersRules r => rbm_SetClientsFiltersRules r
  | RCallSetServersFiltersRules r => rbm_SetServersFiltersRules r
  | RCallSetClientsBackendsRules r => rbm_SetClientsBackendsRules r
  | RCallSetServersBackendsRules r => rbm_SetServersBackendsRules r
  | RCallRegisterRpcBackend b => rbm_RegisterRpcBackend b
  | RCallRegisterServiceFunc pkg module func req_ts rsp_ts has =>
      rbm_RegisterServiceFunc regex_match pkg module func req_ts rsp_ts has;; mret tt
  | RCallRegisterClientFunc pkg module func req_ts rsp_ts =>
      rbm_RegisterClientFunc regex_match pkg module func req_ts rsp_ts;; mret tt
  | RCallInvoke pkg module func ctx req rsp call =>
      rbm_Invoke user_client_hook pkg module func ctx req rsp call
  end.

(** A call, however it ends; between calls the world may change. *)
Definition rbm_step (bm bm' : rbm) : Prop :=
  ∃ c s r s', run_rbm_call c (bm, s) = (r, (bm', s')).

Abbreviation client_rule bm f :=
  (rpc_GetBackendsByRules regex_match (rpc_backend_index_vec bm) f (clients_backends_rules bm)).
Abbreviation server_rule bm f :=
  (rpc_GetBackendsByRules regex_match (rpc_backend_index_vec bm) f (servers_backends_rules bm)).

Record rbm_ok bm : Prop := {
  rbm_ok_registry : rpc_registry_ok (rbm_registry bm);
  rbm_ok_fresh : rbm_state bm = kPreInit →
    client_func_wrapper_map (rbm_registry bm) = ∅ ∧ service_func_wrapper_map (rbm_registry bm) = ∅ ∧
    clients_backend_index_map bm = ∅ ∧ servers_backend_index_map bm = ∅;
  rbm_ok_seq k : is_Some (client_func_wrapper_map (rbm_registry bm) !! k) →
    is_Some (request_id_map bm !! rk_func_name k);
  rbm_ok_client k : is_Some (client_func_wrapper_map (rbm_registry bm) !! k) →
    is_Some (clients_backend_index_map bm !! rk_func_name k);
  rbm_ok_server k : is_Some (service_func_wrapper_map (rbm_registry bm) !! k) →
    is_Some (servers_backend_index_map bm !! rk_func_name k);
  rbm_ok_client_rule f ps : clients_backend_index_map bm !! f = Some ps → ps = client_rule bm f;
  rbm_ok_server_rule f ps : servers_backend_index_map bm !! f = Some ps → ps = server_rule bm f;
  rbm_ok_names n : rpc_backend_index_map bm !! n = find_rpc_backend (rpc_backend_index_vec bm) 0 n
}.

Lemma rbm_ok_new : rbm_ok RpcBackendManager_new.
Proof.
  split; cbn; try done; try (intros *; rewrite ?lookup_empty; by intros [? [=]] || by intros [=]).
  apply rpc_registry_ok_new.
Qed.

(** Calls that leave the manager as it is. *)
Lemma on_w_bm {A} (m : M (World Msg X) A) (y : RSys) : (on_w m y).2.1 = y.1.
Proof. unfold on_w. unfold_monad. by destruct (m y.2). Qed.

Lemma on_backend_bm {A} (f : RpcBackend Msg X node → M (World Msg X) A) p (y : RSys) :
  (on_backend f p y).2.1 = y.1.
Proof.
  unfold on_backend, on_rbm. unfold_monad. cbn. destruct (rpc_backend_index_vec y.1 !! p); [|done].
  by rewrite on_w_bm.
Qed.

Lemma mapM_on_w_bm {A} (f : A → M (World Msg X) unit) l (y : RSys) : (mapM_ (λ b, on_w (f b)) l y).2.1 = y.1.
Proof.
  revert y; induction l as [|b l IH]; intros y; [done|]. cbn [mapM_]. unfold_monad.
  pose proof (on_w_bm (f b) y) as Hb. destruct (on_w (f b) y) as [[] y'] eqn:Hf; cbn in *; [|done..].
  by rewrite IH.
Qed.

Lemma all_rpc_backends_bm (f : RpcBackend Msg X node → M (World Msg X) bool) ps (y : RSys) :
  (all_rpc_backends f ps y).2.1 = y.1.
Proof.
  revert y; induction ps as [|p ps IH]; intros y; [done|]. cbn [all_rpc_backends]. unfold_monad.
  pose proof (on_backend_bm f p y) as Hb. destruct (on_backend f p y) as [[] y'] eqn:Hf; cbn in *; [|done..].
  specialize (IH y'). by destruct (all_rpc_backends f ps y') as [[] ?]; cbn in *; rewrite IH.
Qed.

(** Only these fields matter; request numbers may be added or change. *)
Lemma rbm_ok_frame bm bm' :
  (rbm_registry bm, rpc_backend_index_vec bm, clients_backends_rules bm, servers_backends_rules bm,
   clients_backend_index_map bm, servers_backend_index_map bm, rpc_backend_index_map bm) =
  (rbm_registry bm', rpc_backend_index_vec bm', clients_backends_rules bm', servers_backends_rules bm',
   clients_backend_index_map bm', servers_backend_index_map bm', rpc_backend_index_map bm') →
  (rbm_state bm' = kPreInit → rbm_state bm = kPreInit) →
  (∀ f, is_Some (request_id_map bm !! f) → is_Some (request_id_map bm' !! f)) →
  rbm_ok bm → rbm_ok bm'.
Proof.
  intros [= E1 E2 E3 E4 E5 E6 E7] Hst Hseq [H1 H2 H3 H4 H5 H6 H7 H8].
  split; rewrite <-?E1, <-?E2, <-?E3, <-?E4, <-?E5, <-?E6, <-?E7; auto.
Qed.

(** What a registered function adds: a route. *)
Definition add_rpc_route (idx : gmap string (list nat)) f ps :=
  match idx !! f with Some _ => idx | None => <[f := ps]> idx end.

Lemma add_rpc_route_some idx f ps f' :
  f' = f ∨ is_Some (idx !! f') → is_Some (add_rpc_route idx f ps !! f').
Proof.
  unfold add_rpc_route. destruct (idx !! f) eqn:Hf.
  - intros [->|]; [by rewrite Hf|done].
  - intros [->|]; [by rewrite lookup_insert_eq|by apply is_Some_insert].
Qed.

Lemma add_rpc_route_lookup idx f ps f' ps' :
  add_rpc_route idx f ps !! f' = Some ps' → idx !! f' = Some ps' ∨ f' = f ∧ ps' = ps.
Proof.
  unfold add_rpc_route. destruct (idx !! f) eqn:Hf; [by left|].
  intros [[-> ->]|[_ H]]%lookup_insert_Some; [by right|by left].
Qed.

Lemma is_Some_insert_rpc_key {A} (m : gmap RpcKey A) key a k :
  is_Some (<[key := a]> m !! k) → k = key ∨ is_Some (m !! k).
Proof.
  destruct (decide (k = key)) as [->|]; [by left|]. rewrite lookup_insert_ne by done. by right.
Qed.

Lemma commit_client bm (v : ClientFuncWrapper Msg) r' :
  rbm_ok bm → rbm_state bm ≠ kPreInit → is_Some (request_id_map bm !! func_name (cf_info v)) →
  Registry_RegisterClientFunc v (rbm_registry bm) = (Ok true, r') →
  let f := func_name (cf_info v) in
  rbm_ok (set_clients_backend_index_map (add_rpc_route (clients_backend_index_map bm) f (client_rule bm f))
            (set_rbm_registry r' bm)).
Proof.
  intros [H1 H2 H3 H4 H5 H6 H7 H8] Hst Hseq Hr f.
  pose proof (Registry_RegisterClientFunc_ok _ v H1) as Hspec.
  destruct (client_func_wrapper_map (rbm_registry bm) !! _); [congruence|].
  destruct Hspec as (r'' & Hr'' & Hok & Ec & Es). rewrite Hr in Hr''. injection Hr'' as <-.
  split; cbn; auto; rewrite ?Ec, ?Es; auto; try done.
  - intros k [->|Hk]%is_Some_insert_rpc_key; [done|by apply H3].
  - intros k Hk. apply add_rpc_route_some. apply is_Some_insert_rpc_key in Hk as [->|Hk]; [by left|right; auto].
  - intros f' ps [Hb|[-> ->]]%add_rpc_route_lookup; [by apply H6|done].
Qed.

Lemma commit_service bm (v : ServiceFuncWrapper Msg X) r' :
  rbm_ok bm → rbm_state bm ≠ kPreInit →
  Registry_RegisterServiceFunc v (rbm_registry bm) = (Ok true, r') →
  let f := func_name (sf_info v) in
  rbm_ok (set_servers_backend_index_map (add_rpc_route (servers_backend_index_map bm) f (server_rule bm f))
            (set_rbm_registry r' bm)).
Proof.
  intros [H1 H2 H3 H4 H5 H6 H7 H8] Hst Hr f.
  pose proof (Registry_RegisterServiceFunc_ok _ v H1) as Hspec.
  destruct (service_func_wrapper_map (rbm_registry bm) !! _); [congruence|].
  destruct Hspec as (r'' & Hr'' & Hok & Es & Ec). rewrite Hr in Hr''. injection Hr'' as <-.
  split; cbn; auto; rewrite ?Ec, ?Es; auto; try done.
  - intros k Hk. apply add_rpc_route_some. apply is_Some_insert_rpc_key in Hk as [->|Hk]; [by left|right; auto].
  - intros f' ps [Hb|[-> ->]]%add_rpc_route_lookup; [by apply H7|done].
Qed.

Lemma Registry_rpc_total bm (v : ClientFuncWrapper Msg) (w : ServiceFuncWrapper Msg X) :
  (∃ b r', Registry_RegisterClientFunc v (rbm_registry bm) = (Ok b, r') ∧ (b = false → r' = rbm_registry bm)) ∧
  (∃ b r', Registry_RegisterServiceFunc w (rbm_registry bm) = (Ok b, r') ∧ (b = false → r' = rbm_registry bm)).
Proof.
  unfold Registry_RegisterClientFunc, Registry_RegisterServiceFunc. unfold_monad.
  split; case_match; do 2 eexists; (split; [reflexivity|done]).
Qed.

(** The manager after the registration of a function, up to the backends. *)
Lemma RegisterClientFunc_keeps pkg module func q p (y : RSys) :
  rbm_ok y.1 → rbm_ok (rbm_RegisterClientFunc regex_match pkg module func q p y).2.1.
Proof.
  destruct y as [bm s]; cbn. intros Hok.
  unfold rbm_RegisterClientFunc, on_client_filters, on_rpc_registry, on_rbm. unfold_monad. cbn [fst snd].
  unfold state_eqb. case_bool_decide as Hst; [|done]. cbn [negb]. destruct q as [q|], p as [p|]; try done.
  cbn [fst snd].
  match goal with |- context [set_request_id_map ?m (set_rbm_client_index ?x bm)] =>
    set (bm1 := set_request_id_map m (set_rbm_client_index x bm)) end.
  assert (rbm_ok bm1) as Hok1.
  { eapply rbm_ok_frame, Hok; [done|done|]. intros t' Ht'. cbn.
    destruct (request_id_map bm !! func); [done|by apply is_Some_insert]. }
  assert (is_Some (request_id_map bm1 !! func)) as Hseq.
  { cbn. destruct (request_id_map bm !! func) eqn:E; [by rewrite E|by rewrite lookup_insert_eq]. }
  assert (rbm_state bm1 ≠ kPreInit) as Hst1 by (by cbn; rewrite Hst).
  set (v := mkClientFuncWrapper _).
  change (clients_filters_rules bm) with (clients_filters_rules bm1).
  change (client_filter_manager bm) with (client_filter_manager bm1). cbn -[bm1 v].
  destruct (Rpc_CreateFilterCollectorIfNotExist func _ _) as [rf fm]. cbn -[bm1 v].
  set (bm2 := set_client_filter_manager fm bm1).
  assert (rbm_ok bm2) as Hok2 by (eapply rbm_ok_frame, Hok1; done).
  destruct rf; [|done..]. cbn -[bm2 v].
  destruct (Registry_rpc_total bm2 v (mkServiceFuncWrapper (cf_info v) (λ _ w, (Ok tt, w))))
    as [(b & r' & Hr & Hsame) _].
  change (rbm_registry bm2) with (rbm_registry bm) in Hr, Hsame. rewrite Hr. cbn -[bm2 v].
  destruct b; cbn -[bm2 v]; [|by rewrite Hsame by done; destruct bm].
  pose proof (commit_client bm2 v r' Hok2 Hst1 Hseq Hr) as Hc. unfold add_rpc_route in Hc.
  change (func_name (cf_info v)) with func in Hc.
  change (clients_backend_index_map bm2) with (clients_backend_index_map bm) in *.
  destruct (clients_backend_index_map bm !! func); cbn -[bm2 v]; rewrite all_rpc_backends_bm; cbn -[bm2 v];
    [by destruct bm|exact Hc].
Qed.

Lemma RegisterServiceFunc_keeps pkg module func q p has (y : RSys) :
  rbm_ok y.1 → rbm_ok (rbm_RegisterServiceFunc regex_match pkg module func q p has y).2.1.
Proof.
  destruct y as [bm s]; cbn. intros Hok.
  unfold rbm_RegisterServiceFunc, on_server_filters, on_rpc_registry, on_rbm. unfold_monad. cbn [fst snd].
  unfold state_eqb. case_bool_decide as Hst; [|done]. cbn [negb]. destruct q as [q|], p as [p|]; try done.
  destruct has; [|done]. cbn [negb fst snd].
  set (bm1 := set_rbm_server_index _ bm).
  assert (rbm_ok bm1) as Hok1 by (eapply rbm_ok_frame, Hok; done).
  assert (rbm_state bm1 ≠ kPreInit) as Hst1 by (by cbn; rewrite Hst).
  set (info := mkFuncInfo _ _ _ _ _ _).
  cbn -[bm1 info].
  destruct (Rpc_CreateFilterCollectorIfNotExist func _ _) as [rf fm]. cbn -[bm1 info].
  set (bm2 := set_server_filter_manager fm bm1).
  assert (rbm_ok bm2) as Hok2 by (eapply rbm_ok_frame, Hok1; done).
  destruct rf; [|done..]. cbn -[bm2 info].
  set (w := mkServiceFuncWrapper info _).
  destruct (Registry_rpc_total bm2 (mkClientFuncWrapper info) w) as [_ (b & r' & Hr & Hsame)].
  change (rbm_registry bm2) with (rbm_registry bm) in Hr, Hsame. rewrite Hr. cbn -[bm2 w].
  destruct b; cbn -[bm2 w]; [|by rewrite Hsame by done; destruct bm].
  pose proof (commit_service bm2 w r' Hok2 Hst1 Hr) as Hc. unfold add_rpc_route in Hc.
  change (func_name (sf_info w)) with func in Hc.
  change (servers_backend_index_map bm2) with (servers_backend_index_map bm) in *.
  destruct (servers_backend_index_map bm !! func); cbn -[bm2 w]; rewrite all_rpc_backends_bm; cbn -[bm2 w];
    [by destruct bm|exact Hc].
Qed.

(** A step that keeps what a predicate says of the manager, whatever it
    returns. *)
Lemma rbm_bind_keeps {A B} (P : rbm → Prop) (m : M RSys A) (k : A → M RSys B) (y : RSys) :
  P (m y).2.1 → (∀ a z, P z.1 → P (k a z).2.1) → P ((m ≫= k) y).2.1.
Proof.
  intros Hm Hk. unfold_monad. destruct (m y) as [[a| |] y'] eqn:E; cbn in *; [by apply Hk|done..].
Qed.

(** A call changes nothing of the manager but request numbers. *)
Lemma Invoke_keeps pkg module func ctx req rsp call (y : RSys) :
  rbm_ok y.1 → rbm_ok (rbm_Invoke user_client_hook pkg module func ctx req rsp call y).2.1.
Proof.
  assert (∀ A (m : M (World Msg X) A) z, rbm_ok z.1 → rbm_ok (on_w m z).2.1) as Hw
    by (intros A m z; by rewrite on_w_bm).
  assert (∀ z : RSys, rbm_ok z.1 → rbm_ok ((on_rbm get : M RSys rbm) z).2.1) as Hget by (by intros [z1 z2]).
  intros Hok. unfold rbm_Invoke. apply (rbm_bind_keeps rbm_ok); [by apply Hget|]. intros bm z Hz.
  apply (rbm_bind_keeps rbm_ok); [unfold check_throw, throw; by case_match|]. intros _ z1 Hz1.
  destruct (GetClientFuncWrapperPtr (rbm_registry bm) func pkg module) as [f|]; [|by apply Hw].
  apply (rbm_bind_keeps rbm_ok); [by apply Hw|]. intros c z2 Hz2.
  destruct (_ || _); [by apply Hw|].
  apply (rbm_bind_keeps rbm_ok); [by apply Hw|]. intros _ z3 Hz3.
  apply (rbm_bind_keeps rbm_ok).
  { destruct (request_id_map bm !! func) as [n|]; [|done].
    apply (rbm_bind_keeps rbm_ok); [|by intros; apply Hw].
    cbn. eapply rbm_ok_frame, Hz3; [done|done|]. intros t. apply is_Some_insert. }
  intros _ z4 Hz4. apply (rbm_bind_keeps rbm_ok); [by apply Hw|]. intros c' z5 Hz5.
  apply (rbm_bind_keeps rbm_ok).
  { destruct (String.eqb _ _); [|done]. apply (rbm_bind_keeps rbm_ok); [done|]. intros; by apply Hw. }
  intros _ z6 Hz6. apply (rbm_bind_keeps rbm_ok); [by apply Hget|]. intros bm' z7 Hz7.
  apply (rbm_bind_keeps rbm_ok); [by apply Hw|]. intros cw z8 Hz8. by apply Hw.
Qed.

Lemma rbm_preinit_only_keeps f (y : RSys) :
  (∀ bm, rbm_ok bm → rbm_state bm = kPreInit → rbm_ok (f bm)) →
  rbm_ok y.1 → rbm_ok (rbm_preinit_only f y).2.1.
Proof.
  intros Hf Hok. unfold rbm_preinit_only, on_rbm. unfold_monad. cbn. unfold state_eqb.
  case_bool_decide as Hst; [|done]. by apply Hf.
Qed.

Lemma rbm_exchange_keeps new old what (y : RSys) :
  new ≠ kPreInit → rbm_ok y.1 → rbm_ok (rbm_exchange new old what y).2.1.
Proof.
  intros Hnew Hok. unfold rbm_exchange, on_rbm. unfold_monad. cbn.
  assert (rbm_ok (set_rbm_state new y.1)) by (eapply rbm_ok_frame, Hok; done).
  by case_match.
Qed.

Lemma find_rpc_backend_app (bs : list (RpcBackend Msg X node)) b p n :
  find_rpc_backend (bs ++ [b]) p n =
  match find_rpc_backend bs p n with
  | Some q => Some q
  | None => if String.eqb (rb_Name b) n then Some (p + length bs) else None
  end.
Proof.
  revert p; induction bs as [|b' bs IH]; intros p; cbn.
  - by rewrite Nat.add_0_r.
  - destruct (String.eqb (rb_Name b') n); [done|]. rewrite IH, Nat.add_succ_r. done.
Qed.

(** While nothing is registered, registry, rules and backends may change. *)
Lemma empty_rpc_indices_ok bm bm' :
  rbm_ok bm → rbm_state bm = kPreInit →
  (rbm_registry bm' = rbm_registry bm ∨ rbm_registry bm' = RpcRegistry_new) →
  clients_backend_index_map bm' = clients_backend_index_map bm →
  servers_backend_index_map bm' = servers_backend_index_map bm →
  (∀ n, rpc_backend_index_map bm' !! n = find_rpc_backend (rpc_backend_index_vec bm') 0 n) →
  rbm_ok bm'.
Proof.
  intros Hok Hpre Hr Ec Es Hn. destruct (rbm_ok_fresh bm Hok Hpre) as (E1 & E2 & E3 & E4).
  assert (rpc_registry_ok (rbm_registry bm') ∧ client_func_wrapper_map (rbm_registry bm') = ∅ ∧
          service_func_wrapper_map (rbm_registry bm') = ∅) as (Hr' & F1 & F2).
  { destruct Hr as [-> | ->]; [by split_and!; [apply Hok|..]|by split_and!; [apply rpc_registry_ok_new|..]]. }
  rewrite E3 in Ec. rewrite E4 in Es.
  split; rewrite ?F1, ?F2, ?Ec, ?Es; try done;
    intros *; rewrite lookup_empty; intros Habs; by first [discriminate Habs | destruct Habs].
Qed.

Lemma run_rbm_call_keeps c (y : RSys) : rbm_ok y.1 → rbm_ok (run_rbm_call c y).2.1.
Proof.
  intros Hok.
  assert (∀ (m : M RSys bool) z, rbm_ok (m z).2.1 → rbm_ok ((m;; mret tt) z).2.1) as Hdrop
    by (intros m z Hm; by apply (rbm_bind_keeps rbm_ok)).
  destruct c; cbn [run_rbm_call];
    try (apply rbm_preinit_only_keeps; [|done]; intros bm Hb Hpre).
  - by apply rbm_exchange_keeps.
  - apply (rbm_bind_keeps rbm_ok); [by apply rbm_exchange_keeps|]. intros _ z Hz.
    unfold on_rbm. unfold_monad. cbn. by rewrite mapM_on_w_bm.
  - unfold rbm_Shutdown, on_rbm. unfold_monad. cbn.
    assert (rbm_ok (set_rbm_state kShutdown y.1)) by (eapply rbm_ok_frame, Hok; done).
    case_match; [done|]. by rewrite mapM_on_w_bm.
  - apply (empty_rpc_indices_ok bm); try done; [by right|apply Hb].
  - by eapply (rbm_ok_frame bm).
  - by eapply (rbm_ok_frame bm).
  - by eapply (rbm_ok_frame bm).
  - by eapply (rbm_ok_frame bm).
  - apply (empty_rpc_indices_ok bm); try done; [by left|apply Hb].
  - apply (empty_rpc_indices_ok bm); try done; [by left|apply Hb].
  - apply (empty_rpc_indices_ok bm); try done; [by left|]. intros n. cbn.
    rewrite find_rpc_backend_app, <-(rbm_ok_names bm Hb n), Nat.add_0_l.
    destruct (String.eqb_spec (rb_Name b) n) as [->|Hne].
    + destruct (rpc_backend_index_map bm !! n) eqn:E; [done|by rewrite lookup_insert_eq].
    + destruct (rpc_backend_index_map bm !! rb_Name b); [|rewrite lookup_insert_ne by done];
        by destruct (rpc_backend_index_map bm !! n).
  - by apply Hdrop, RegisterServiceFunc_keeps.
  - by apply Hdrop, RegisterClientFunc_keeps.
  - by apply Invoke_keeps.
Qed.

Lemma rbm_reachable_ok bm : rtc rbm_step RpcBackendManager_new bm → rbm_ok bm.
Proof.
  intros Hr. assert (rbm_ok RpcBackendManager_new) as Hn by apply rbm_ok_new. revert Hn.
  induction Hr as [|x y z (c & s & r & s' & Hstep) _ IH]; [done|].
  intros Hx. apply IH. pose proof (run_rbm_call_keeps c (x, s) Hx) as Hk. by rewrite Hstep in Hk.
Qed.

(** Every registered function is routed.  However the calls on the manager
    are ordered and however they end, each client function that is registered
    has a request number and the backends that the first matching rule names,
    each service function has its backends, and the indices of the registry
    list what is registered, each function once. *)
Theorem registered_functions_are_routed bm :
  rtc rbm_step RpcBackendManager_new bm →
  rpc_registry_ok (rbm_registry bm) ∧
  (∀ func pkg module, is_Some (GetClientFuncWrapperPtr (rbm_registry bm) func pkg module) →
     is_Some (request_id_map bm !! func) ∧ clients_backend_index_map bm !! func = Some (client_rule bm func)) ∧
  (∀ func pkg module, is_Some (GetServiceFuncWrapperPtr (rbm_registry bm) func pkg module) →
     servers_backend_index_map bm !! func = Some (server_rule bm func)).
Proof.
  intros [H1 H2 H3 H4 H5 H6 H7 H8]%rbm_reachable_ok. split_and!; [done| |].
  - intros func pkg module Hk. split; [by apply (H3 (mkRpcKey func pkg module))|].
    destruct (H4 _ Hk) as [ps Hps]. cbn in Hps. by rewrite Hps, <-(H6 _ _ Hps).
  - intros func pkg module Hk. destruct (H5 _ Hk) as [ps Hps]. cbn in Hps. by rewrite Hps, <-(H7 _ _ Hps).
Qed.
End RpcRouting.

(** * Calls *)

Section RpcCalls.
Context {Msg X node : Type}.
Context (regex_match : string → string → res bool).
Context (user_client_hook : nat → nat → Z → M (World Msg X) unit).

Abbreviation rbm := (RpcBackendManager Msg X node).
Abbreviation RSys := (rbm * World Msg X)%type.
Implicit Types bm : rbm.
Implicit Types w : World Msg X.

Definition answered (call : nat) (status : Z) w : World Msg X :=
  set_w_answers (w_answers w ++ [(call, status)]) w.

Definition next_request bm (func : string) : option Z :=
  (λ n, wrap32 (n + 1)) <$> request_id_map bm !! func.
Definition advance_request bm (func : string) : rbm :=
  match next_request bm func with
  | Some n => set_request_id_map (<[func := n]> (request_id_map bm)) bm
  | None => bm
  end.

(** The context that goes out with a call: [ty] if it names no type. *)
Definition stamp_call (c : RpcContext) (seq : option Z) (ty : string) : RpcContext :=
  let c1 := match seq with
            | Some n => rc_SetMetaValue KEY_REQUEST_ID (to_string n) (rc_SetUsed c)
            | None => rc_SetUsed c
            end in
  if String.eqb (rc_GetSerializationType c1) "" then rc_SetSerializationType ty c1 else c1.

Definition set_ctx (ctx : nat) (c : RpcContext) w : World Msg X := set_w_ctxs (<[ctx := c]> (w_ctxs w)) w.
Definition add_client (i : InvokeWrapper Msg ClientCb) w : World Msg X :=
  set_w_clients (<[fresh (dom (w_clients w)) := i]> (w_clients w)) w.

Lemma get_rctx_eq ctx w c : w_ctxs w !! ctx = Some c → get_rctx ctx w = (Ok c, w).
Proof. intros Hc. unfold get_rctx. unfold_monad. by rewrite Hc. Qed.

Lemma update_rctx_eq ctx f w c :
  w_ctxs w !! ctx = Some c → update_rctx ctx f w = (Ok tt, set_ctx ctx (f c) w).
Proof. intros Hc. unfold update_rctx. unfold_monad. by rewrite (get_rctx_eq _ _ _ Hc). Qed.

Lemma set_ctx_lookup ctx c w : w_ctxs (set_ctx ctx c w) !! ctx = Some c.
Proof. apply lookup_insert_eq. Qed.

Lemma set_ctx_twice ctx c c' w : set_ctx ctx c' (set_ctx ctx c w) = set_ctx ctx c' w.
Proof. unfold set_ctx. cbn. by rewrite insert_insert_eq. Qed.

(** The effect of a call, as an equation. *)
Lemma rbm_Invoke_eq bm w (pkg module func : string) ctx c req rsp call ty :
  w_ctxs w !! ctx = Some c →
  (∀ f, GetClientFuncWrapperPtr (rbm_registry bm) func pkg module = Some f →
     DefaultSerializationType (req_type_support_ref (cf_info f)) = Ok ty) →
  rbm_Invoke user_client_hook pkg module func ctx req rsp call (bm, w) =
    match rbm_state bm with
    | kStart =>
        match GetClientFuncWrapperPtr (rbm_registry bm) func pkg module with
        | None => (Ok tt, (bm, answered call STATUS_CLI_FUNC_NOT_REGISTERED w))
        | Some f =>
            match rc_type c, rc_used c with
            | AIMRT_RPC_CLIENT_CONTEXT, false =>
                let bm' := advance_request bm func in
                let w' := set_ctx ctx (stamp_call c (next_request bm func) ty) w in
                let i := mkInvokeWrapper (cf_info f) req rsp ctx (Some (Answer call)) ∅ ∅ in
                let '(r, w'') :=
                  InvokeRpc (Rpc_GetFilterCollector (client_filter_manager bm') func)
                    (client_terminal user_client_hook bm') (fresh (dom (w_clients w))) (add_client i w') in
                (r, (bm', w''))
            | _, _ => (Ok tt, (bm, answered call STATUS_CLI_INVALID_CONTEXT w))
            end
        end
    | _ => (Throw (AimRTException "Method can only be called when state is 'Start'."), (bm, w))
    end.
Proof.
  intros Hc Hty. unfold rbm_Invoke, on_rbm, on_w. unfold_monad. cbn [fst snd]. unfold state_eqb.
  destruct (rbm_state bm); try done. rewrite bool_decide_eq_true_2 by done. unfold_monad. cbn [fst snd].
  destruct (GetClientFuncWrapperPtr _ func pkg module) as [f|] eqn:Hf; [|done]. cbn [fst snd].
  rewrite (get_rctx_eq _ _ _ Hc). cbn [fst snd].
  destruct (rc_type c) eqn:Ht; [rewrite bool_decide_eq_true_2 by done|by rewrite bool_decide_eq_false_2].
  destruct (rc_used c) eqn:Hu; [done|]. cbn [negb orb fst snd].
  rewrite (update_rctx_eq _ _ _ _ Hc). cbn [fst snd].
  unfold advance_request, next_request, stamp_call.
  destruct (request_id_map bm !! func) as [n|]; cbn [fst snd fmap option_fmap option_map];
    repeat (rewrite ?(update_rctx_eq _ _ _ _ (set_ctx_lookup _ _ _)), ?(get_rctx_eq _ _ _ (set_ctx_lookup _ _ _)),
              ?set_ctx_twice; cbn [fst snd]);
    (destruct (String.eqb _ ""); rewrite ?(Hty f eq_refl); cbn [fst snd];
     rewrite ?(update_rctx_eq _ _ _ _ (set_ctx_lookup _ _ _)), ?set_ctx_twice; done).
Qed.

(** A call, on every branch.  It throws unless the manager has been
    started; it is answered at once when the function was not registered by
    this module of this package, and when the context is not a client's or
    has been used.  Otherwise the context is marked as used and stamped with
    the function's next request number (which wraps at 32 bits) and, if it
    names none, the default serialization type; and the call goes through the
    function's filters, with a wrapper of its own whose callback answers it. *)
Theorem rpc_invoke_branches bm w (pkg module func : string) ctx c req rsp call ty :
  w_ctxs w !! ctx = Some c →
  (∀ f, GetClientFuncWrapperPtr (rbm_registry bm) func pkg module = Some f →
     DefaultSerializationType (req_type_support_ref (cf_info f)) = Ok ty) →
  rbm_Invoke user_client_hook pkg module func ctx req rsp call (bm, w) =
    match rbm_state bm with
    | kStart =>
        match GetClientFuncWrapperPtr (rbm_registry bm) func pkg module with
        | None => (Ok tt, (bm, answered call STATUS_CLI_FUNC_NOT_REGISTERED w))
        | Some f =>
            match rc_type c, rc_used c with
            | AIMRT_RPC_CLIENT_CONTEXT, false =>
                let bm' := advance_request bm func in
                let w' := set_ctx ctx (stamp_call c (next_request bm func) ty) w in
                let i := mkInvokeWrapper (cf_info f) req rsp ctx (Some (Answer call)) ∅ ∅ in
                let '(r, w'') :=
                  InvokeRpc (Rpc_GetFilterCollector (client_filter_manager bm') func)
                    (client_terminal user_client_hook bm') (fresh (dom (w_clients w))) (add_client i w') in
                (r, (bm', w''))
            | _, _ => (Ok tt, (bm, answered call STATUS_CLI_INVALID_CONTEXT w))
            end
        end
    | _ => (Throw (AimRTException "Method can only be called when state is 'Start'."), (bm, w))
    end.
Proof. exact (rbm_Invoke_eq bm w pkg module func ctx c req rsp call ty). Qed.

(** *** Which backend *)

(** The names of the backends of a function: those of the first rule that
    matches which a backend has. *)
Definition enabled_names bm (func : string) : list string :=
  filter (λ n, is_Some (find_rpc_backend (rpc_backend_index_vec bm) 0 n))
    (GetFilterRules regex_match func (clients_backends_rules bm)).

(** The name of the backend a call is for, or the status it is answered with. *)
Definition route (names : list string) (to_addr : string) : Z + string :=
  match names with
  | [] => inl STATUS_CLI_NO_BACKEND_TO_HANDLE
  | first :: _ =>
      if String.eqb to_addr "" then inr first
      else
        match before_scheme to_addr with
        | Some name => if bool_decide (name ∈ names) then inr name else inl STATUS_CLI_INVALID_ADDR
        | None => inl STATUS_CLI_INVALID_ADDR
        end
  end.

Lemma find_rpc_backend_Some (bs : list (RpcBackend Msg X node)) p n q :
  find_rpc_backend bs p n = Some q →
  ∃ b, bs !! (q - p) = Some b ∧ rb_Name b = n ∧ p ≤ q ∧
    ∀ j b', bs !! j = Some b' → rb_Name b' = n → q - p ≤ j.
Proof.
  revert p; induction bs as [|b bs IH]; intros p; cbn; [done|].
  destruct (String.eqb_spec (rb_Name b) n) as [Hb|Hb].
  - intros [= <-]. exists b. rewrite Nat.sub_diag. split_and!; [done..|lia].
  - intros (b' & Hb' & Hn & Hle & Hfirst)%IH. exists b'.
    replace (q - p) with (S (q - S p)) by lia. split_and!; [done..|lia|].
    intros [|j] b'' Hj Hb''; [cbn in Hj; congruence|]. cbn in Hj. specialize (Hfirst j b'' Hj Hb''). lia.
Qed.

Lemma find_rpc_backend_inj bm n n' q :
  find_rpc_backend (rpc_backend_index_vec bm) 0 n = Some q →
  find_rpc_backend (rpc_backend_index_vec bm) 0 n' = Some q → n = n'.
Proof.
  intros (b & Hb & Hn & _)%find_rpc_backend_Some (b' & Hb' & Hn' & _)%find_rpc_backend_Some. congruence.
Qed.

Lemma GetBackendsByRules_names bs func r :
  rpc_GetBackendsByRules regex_match bs func r =
  omap (find_rpc_backend (Msg := Msg) (X := X) (node := node) bs 0) (GetFilterRules regex_match func r).
Proof.
  induction r as [|[func_regex bs'] r IH]; [done|]. cbn.
  destruct (regex_match func_regex func) as [[]| |]; done.
Qed.

Lemma omap_filter_Some {A B} (f : A → option B) (l : list A) : omap f l = omap f (filter (λ a, is_Some (f a)) l).
Proof.
  induction l as [|a l IH]; [done|]. rewrite filter_cons. cbn [omap list_omap].
  destruct (f a) eqn:E; [rewrite decide_True by eauto; cbn [omap list_omap]; by rewrite E, IH|].
  rewrite decide_False; [done|]. by intros [? ?].
Qed.

Lemma choose_backend_route bm func to_addr :
  rbm_ok regex_match bm → is_Some (clients_backend_index_map bm !! func) →
  match route (enabled_names bm func) to_addr with
  | inl status => choose_backend bm func to_addr = inl status
  | inr name => ∃ p, choose_backend bm func to_addr = inr (p, String.eqb to_addr "") ∧
      find_rpc_backend (rpc_backend_index_vec bm) 0 name = Some p
  end.
Proof.
  intros Hok [ps Hps]. unfold choose_backend. rewrite Hps.
  assert (ps = omap (find_rpc_backend (rpc_backend_index_vec bm) 0) (enabled_names bm func)) as Hps'.
  { unfold enabled_names. rewrite <-omap_filter_Some, <-GetBackendsByRules_names.
    by apply (rbm_ok_client_rule _ _ Hok). }
  assert (∀ n, n ∈ enabled_names bm func → is_Some (find_rpc_backend (rpc_backend_index_vec bm) 0 n)) as Hen
    by (intros n; unfold enabled_names; rewrite list_elem_of_filter; tauto).
  unfold route. destruct (enabled_names bm func) as [|first names]; [by subst ps|].
  destruct (Hen first) as [p Hp]; [apply list_elem_of_here|].
  rewrite Hps'. cbn [omap list_omap]. rewrite Hp.
  destruct (String.eqb to_addr ""); [by exists p|].
  destruct (before_scheme to_addr) as [name|]; [|done]. cbn [mbind option_bind].
  rewrite (rbm_ok_names _ _ Hok). case_bool_decide as Hin.
  - destruct (Hen name Hin) as [q Hq]. rewrite Hq. exists q. split; [|done].
    rewrite bool_decide_eq_true_2; [done|].
    assert (q ∈ omap (find_rpc_backend (rpc_backend_index_vec bm) 0) (first :: names)) as Hq'
      by (apply list_elem_of_omap; by exists name).
    cbn in Hq'. by rewrite Hp in Hq'.
  - destruct (find_rpc_backend _ 0 name) as [q|] eqn:Hq; [|done].
    rewrite bool_decide_eq_false_2; [done|]. intros Hq'. apply Hin.
    assert (q ∈ omap (find_rpc_backend (rpc_backend_index_vec bm) 0) (first :: names)) as Hq''
      by (cbn; by rewrite Hp).
    apply list_elem_of_omap in Hq'' as (n' & Hn' & Hq''). by rewrite (find_rpc_backend_inj _ _ _ _ Hq Hq'').
Qed.

(** A call that names no time-out gets five seconds. *)
Definition with_timeout (c : RpcContext) : RpcContext :=
  if (rc_Timeout c =? 0)%Z then rc_SetTimeout default_timeout c else c.

(** The handle under the filters, as equations. *)
Lemma client_terminal_eq bm w cw i c call :
  rbm_ok regex_match bm →
  is_Some (GetClientFuncWrapperPtr (rbm_registry bm) (func_name (iw_info i)) (fi_pkg_path (iw_info i))
             (fi_module_name (iw_info i))) →
  w_clients w !! cw = Some i → iw_callback i = Some (Answer call) → w_ctxs w !! iw_ctx i = Some c →
  match route (enabled_names bm (func_name (iw_info i))) (rc_GetToAddr c) with
  | inl status =>
      client_terminal user_client_hook bm cw w =
        (Ok tt, set_w_clients (<[cw := set_callback None i]> (w_clients w))
                  (answered call status (set_ctx (iw_ctx i) (with_timeout c) w)))
  | inr name =>
      ∃ p b, rpc_backend_index_vec bm !! p = Some b ∧ rb_Name b = name ∧
        (∀ q b', rpc_backend_index_vec bm !! q = Some b' → rb_Name b' = name → p ≤ q) ∧
        let c' := if String.eqb (rc_GetToAddr c) "" then rc_SetMetaValue KEY_BACKEND name (with_timeout c)
                  else with_timeout c in
        client_terminal user_client_hook bm cw w =
          rb_Invoke b (rbm_registry bm) cw (set_ctx (iw_ctx i) c' w)
  end.
Proof.
  intros Hok Hreg Hi Hcb Hc. set (func := func_name (iw_info i)).
  destruct (rbm_ok_client _ _ Hok _ Hreg) as [ps Hps]. cbn in Hps. fold func in Hps.
  pose proof (choose_backend_route bm func (rc_GetToAddr c) Hok (ex_intro _ ps Hps)) as Hroute.
  assert (set_ctx (iw_ctx i) c w = w) as Hsame by (destruct w; unfold set_ctx; cbn in *; by rewrite insert_id).
  assert (set_w_clients (<[cw := i]> (w_clients w)) w = w) as Hcl by (destruct w; cbn in *; by rewrite insert_id).
  assert ((if (rc_Timeout c =? 0)%Z then update_rctx (iw_ctx i) (rc_SetTimeout default_timeout) else mret tt) w
          = (Ok tt, set_ctx (iw_ctx i) (with_timeout c) w)) as Ht.
  { unfold with_timeout. destruct (_ =? 0)%Z; [by rewrite (update_rctx_eq _ _ _ _ Hc)|by rewrite Hsame]. }
  unfold client_terminal, on_client. unfold_monad. rewrite Hi, Hcl, (get_rctx_eq _ _ _ Hc), Ht. fold func.
  destruct (route (enabled_names bm func) (rc_GetToAddr c)) as [status|name].
  - rewrite Hroute. unfold InvokeCallBack, call_client, on_client. unfold_monad. cbn. rewrite Hi. cbn.
    rewrite Hcb. cbn. by rewrite lookup_insert_eq, insert_insert_eq.
  - destruct Hroute as (p & Hp & Hfind). rewrite Hp.
    destruct (find_rpc_backend_Some _ _ _ _ Hfind) as (b & Hb & Hn & _ & Hfirst).
    rewrite Nat.sub_0_r in Hb, Hfirst. exists p, b. split_and!; [done..|]. rewrite Hb, Hn.
    destruct (String.eqb (rc_GetToAddr c) ""); [|done].
    by rewrite (update_rctx_eq _ _ _ _ (set_ctx_lookup _ _ _)), set_ctx_twice.
Qed.

(** A call reaches one backend, or is answered.  Under the filters, a call
    to a registered function gets a time-out of five seconds if it has none;
    when its context gives no address it goes to the first backend of the
    function, noted in the context; when the address is of the form
    [name://...] and [name] is that of a backend of the function, it goes to
    the first backend registered under that name; in every other case it is
    answered once, with the status that says whether the function has no
    backend or the address is wrong. *)
Theorem calls_are_routed bm w cw i c call :
  rtc (rbm_step regex_match user_client_hook) RpcBackendManager_new bm →
  is_Some (GetClientFuncWrapperPtr (rbm_registry bm) (func_name (iw_info i)) (fi_pkg_path (iw_info i))
             (fi_module_name (iw_info i))) →
  w_clients w !! cw = Some i → iw_callback i = Some (Answer call) → w_ctxs w !! iw_ctx i = Some c →
  match route (enabled_names bm (func_name (iw_info i))) (rc_GetToAddr c) with
  | inl status =>
      client_terminal user_client_hook bm cw w =
        (Ok tt, set_w_clients (<[cw := set_callback None i]> (w_clients w))
                  (answered call status (set_ctx (iw_ctx i) (with_timeout c) w)))
  | inr name =>
      ∃ p b, rpc_backend_index_vec bm !! p = Some b ∧ rb_Name b = name ∧
        (∀ q b', rpc_backend_index_vec bm !! q = Some b' → rb_Name b' = name → p ≤ q) ∧
        let c' := if String.eqb (rc_GetToAddr c) "" then rc_SetMetaValue KEY_BACKEND name (with_timeout c)
                  else with_timeout c in
        client_terminal user_client_hook bm cw w =
          rb_Invoke b (rbm_registry bm) cw (set_ctx (iw_ctx i) c' w)
  end.
Proof. intros Hok%rbm_reachable_ok. exact (client_terminal_eq bm w cw i c call Hok). Qed.
End RpcCalls.

(** * The theorems at a concrete input *)

Module RpcBackendDemo.
Import ChannelDemo.

Definition demo_regex (pattern topic : string) : res bool :=
  if String.eqb pattern "(" then Throw (RuntimeError "regex_error")
  else Ok (String.eqb pattern topic).
Definition demo_hook : nat → nat → Z → M (World bytes (list (string * nat))) unit := λ _ _ _, mret tt.

(** A backend that notes the calls it gets. *)
Definition demo_backend (name : string) : RpcBackend bytes (list (string * nat)) unit :=
  mkRpcBackend name (λ _, mret tt) (mret tt) (mret tt) (λ _, mret true) (λ _, mret true)
    (λ _ cw, modify (λ w, set_w_rest (w_rest w ++ [(name, cw)]) w)) (λ _, []).

Definition demo_calls : list (rbm_call (Msg := bytes) (X := list (string * nat)) (node := unit)) :=
  [RCallRegisterRpcBackend (demo_backend "a"); RCallRegisterRpcBackend (demo_backend "b");
   RCallSetClientsBackendsRules [("(", ["a"]); ("func", ["b"; "c"; "a"])];
   RCallInitialize;
   RCallRegisterClientFunc "pkg" "mod" "func" (Some demo_ts) (Some demo_ts);
   RCallStart].

Fixpoint run_calls (cs : list rbm_call)
    (y : RpcBackendManager bytes (list (string * nat)) unit * World bytes (list (string * nat))) :=
  match cs with
  | [] => y
  | c :: cs' => run_calls cs' (run_rbm_call demo_regex demo_hook c y).2
  end.

Lemma run_rpc_calls_steps cs y : rtc (rbm_step demo_regex demo_hook) y.1 (run_calls cs y).1.
Proof.
  revert y; induction cs as [|c cs IH]; intros y; [apply rtc_refl|]. cbn [run_calls].
  eapply rtc_l, IH. exists c, y.2, (run_rbm_call demo_regex demo_hook c y).1,
    (run_rbm_call demo_regex demo_hook c y).2.2.
  rewrite <-!surjective_pairing. reflexivity.
Qed.

Definition demo_ctx : RpcContext := rc_SetMetaValue KEY_TO_ADDR "a://x" (RpcContext_new AIMRT_RPC_CLIENT_CONTEXT).
Definition demo_finfo : FuncInfo bytes := mkFuncInfo "func" "pkg" "mod" 1 demo_ts demo_ts.
Definition demo_call : InvokeWrapper bytes ClientCb :=
  mkInvokeWrapper demo_finfo (Some demo_msg) (Some 0) 0 (Some (Answer 7)) ∅ ∅.
Definition demo_world : World bytes (list (string * nat)) :=
  mkWorld {[0 := demo_ctx]} {[0 := []]} {[0 := demo_call]} ∅ [] [] [].

Definition demo_manager : RpcBackendManager bytes (list (string * nat)) unit :=
  (run_calls demo_calls (RpcBackendManager_new, demo_world)).1.
End RpcBackendDemo.

Lemma registered_functions_are_routed_witness :
  clients_backend_index_map RpcBackendDemo.demo_manager !! "func" = Some [1; 0] ∧
  rpc_registry_ok (rbm_registry RpcBackendDemo.demo_manager).
Proof.
  split; [vm_compute; reflexivity|].
  exact (proj1 (registered_functions_are_routed RpcBackendDemo.demo_regex RpcBackendDemo.demo_hook
                  RpcBackendDemo.demo_manager
                  (RpcBackendDemo.run_rpc_calls_steps RpcBackendDemo.demo_calls
                     (RpcBackendManager_new, RpcBackendDemo.demo_world)))).
Defined.

Lemma rpc_invoke_branches_witness :
  ∃ y, rbm_Invoke RpcBackendDemo.demo_hook "pkg" "mod" "func" 0 (Some ChannelDemo.demo_msg) (Some 0) 8
         (RpcBackendDemo.demo_manager, RpcBackendDemo.demo_world) = (Ok tt, y) ∧
    w_rest y.2 = [("a", 1)] ∧ request_id_map y.1 !! "func" = Some 1%Z.
Proof.
  rewrite (rpc_invoke_branches RpcBackendDemo.demo_hook RpcBackendDemo.demo_manager RpcBackendDemo.demo_world
             "pkg" "mod" "func" 0 RpcBackendDemo.demo_ctx (Some ChannelDemo.demo_msg) (Some 0) 8 "raw").
  - eexists. split; [vm_compute; reflexivity|split; vm_compute; reflexivity].
  - apply lookup_singleton_eq.
  - intros f Hf. vm_compute in Hf. injection Hf as <-. reflexivity.
Defined.

Lemma demo_route :
  route (enabled_names RpcBackendDemo.demo_regex RpcBackendDemo.demo_manager "func")
    (rc_GetToAddr RpcBackendDemo.demo_ctx) = inr "a".
Proof. vm_compute. reflexivity. Qed.

Lemma calls_are_routed_witness :
  ∃ (b : RpcBackend bytes (list (string * nat)) unit) c', rb_Name b = "a" ∧
    client_terminal RpcBackendDemo.demo_hook RpcBackendDemo.demo_manager 0 RpcBackendDemo.demo_world =
    rb_Invoke b (rbm_registry RpcBackendDemo.demo_manager) 0 (set_ctx 0 c' RpcBackendDemo.demo_world).
Proof.
  pose proof (calls_are_routed RpcBackendDemo.demo_regex RpcBackendDemo.demo_hook RpcBackendDemo.demo_manager
    RpcBackendDemo.demo_world 0 RpcBackendDemo.demo_call RpcBackendDemo.demo_ctx 7
    (RpcBackendDemo.run_rpc_calls_steps RpcBackendDemo.demo_calls
       (RpcBackendManager_new, RpcBackendDemo.demo_world))
    ltac:(vm_compute; by eexists) (lookup_singleton_eq _ _) eq_refl (lookup_singleton_eq _ _)) as H.
  change (func_name (iw_info RpcBackendDemo.demo_call)) with "func" in H. rewrite demo_route in H.
  destruct H as (p & b & _ & H2 & _ & H3). exists b. eexists. exact (conj H2 H3).
Defined.
