(* ===== verification/LocalRpc.v ===== *)
(** * The local backend of calls: [src/runtime/core/rpc/local_rpc_backend.*]

    The backend that carries calls between the modules of one process: within
    a package it hands the service the client's own request and response;
    across packages it serializes them and keeps the call in a
    [RpcClientTool] until the service answers or the time is out.  Its state is
    a part of the rest of the world (class [HasLocalRpc]); the registry, to
    which it has a pointer, is an argument of [Invoke].  Executors are
    parameters, named by the string that configures them, as are the order in
    which an [unordered_map] is gone through and the value of a new response.
    The options written back to the configuration node are not modelled.

    Theorems: the service a call is for; what a call does, on every branch.
    [LocalRpcCalls] has those about many calls. *)

From S2P Require Import Prelude Yaml StringUtil Filters Channel Rpc Url RpcBackend.

(* @src src/src/runtime/core/rpc/local_rpc_backend.h:17-19 LocalRpcBackend::Options *)
Record LocalRpcOptions := mkLocalRpcOptions { lro_timeout_executor : string }.

(** By function and package: the modules. *)
(* @src src/src/runtime/core/rpc/local_rpc_backend.h:72-79 LocalRpcBackend::ServiceFuncIndexMap *)
Definition ServiceFuncIndexMap : Type := gmap string (gmap string (gset string)).

(** The tool keeps the keys of clients' wrappers. *)
(* @src src/src/runtime/core/rpc/local_rpc_backend.h:59-80 LocalRpcBackend *)
Record LocalRpcBackend := mkLocalRpc {
  lr_options : LocalRpcOptions;
  lr_state : State;
  lr_has_get_executor_func : bool;
  lr_req_id : Z;
  client_tool_ptr : option (RpcClientTool nat);
  service_func_register_index : ServiceFuncIndexMap
}.

Definition LocalRpcBackend_new : LocalRpcBackend :=
  mkLocalRpc (mkLocalRpcOptions "") kPreInit false 0 None ∅.

Class HasLocalRpc (X : Type) := {
  lr : X → LocalRpcBackend;
  set_lr : LocalRpcBackend → X → X;
  lr_set_lr l x : lr (set_lr l x) = l;
  set_lr_lr x : set_lr (lr x) x = x;
  set_lr_set_lr l l' x : set_lr l (set_lr l' x) = set_lr l x
}.

(* @src src/src/runtime/core/rpc/local_rpc_backend.cc:22-27 convert<LocalRpcBackend::Options>::decode *)
Definition local_rpc_decode `{YamlOps node} (n : node) (rhs : LocalRpcOptions) : res (option LocalRpcOptions) :=
  e ← set_if n "timeout_executor" as_string (lro_timeout_executor rhs);
  Ok (Some (mkLocalRpcOptions e)).

(** ** The life cycle *)

Section LifeCycle.
Context {Msg X : Type} `{YamlOps node}.
(** [get_executor_func_]: the executor of a name, if there is one, and whether
    it supports timers. *)
Context (find_executor : string → option bool).

Definition set_lr_state x (l : LocalRpcBackend) :=
  mkLocalRpc (lr_options l) x (lr_has_get_executor_func l) (lr_req_id l) (client_tool_ptr l)
    (service_func_register_index l).
Definition set_lr_req_id x (l : LocalRpcBackend) :=
  mkLocalRpc (lr_options l) (lr_state l) (lr_has_get_executor_func l) x (client_tool_ptr l)
    (service_func_register_index l).
Definition set_client_tool x (l : LocalRpcBackend) :=
  mkLocalRpc (lr_options l) (lr_state l) (lr_has_get_executor_func l) (lr_req_id l) x
    (service_func_register_index l).

(** [std::atomic_exchange(&state_, new)], checked against [old]. *)
Definition lr_exchange (new old : State) (what : string) : M LocalRpcBackend unit :=
  l ← get;
  modify (set_lr_state new);;
  check_throw (state_eqb (lr_state l) old) what.

(** A call on the tool; there is none before [Initialize] and after
    [Shutdown]. *)
Definition on_tool {A} (m : M (RpcClientTool nat) A) : M LocalRpcBackend A := λ l,
  match client_tool_ptr l with
  | None => (Undef, l)
  | Some t => let '(r, t') := m t in (r, set_client_tool (Some t') l)
  end.

(* @src src/src/runtime/core/rpc/local_rpc_backend.cc:33-68 LocalRpcBackend::Initialize *)
Definition lr_Initialize (options_node : option node) : M LocalRpcBackend unit :=
  lr_exchange kInit kPreInit "Local rpc backend can only be initialized once.";;
  o ← lift (read_options local_rpc_decode (mkLocalRpcOptions "") options_node);
  modify (λ l, mkLocalRpc (default (lr_options l) o) (lr_state l) (lr_has_get_executor_func l) (lr_req_id l)
                 (Some RpcClientTool_new) (service_func_register_index l));;
  l ← get;
  let name := lro_timeout_executor (lr_options l) in
  if String.eqb name "" then mret tt
  else
    check_throw (lr_has_get_executor_func l) "Get executor function is not set before initialize.";;
    match find_executor name with
    | None => throw (AimRTException "Get timeout executor '{}' failed.")
    | Some support_timer_schedule =>
        on_tool (RegisterTimeoutExecutor support_timer_schedule);;
        on_tool RegisterTimeoutHandle
    end.

(* @src src/src/runtime/core/rpc/local_rpc_backend.cc:70-74 LocalRpcBackend::Start *)
Definition lr_Start : M LocalRpcBackend unit :=
  lr_exchange kStart kInit "Method can only be called when state is 'Init'.".

(* @src src/src/runtime/core/rpc/local_rpc_backend.cc:76-85 LocalRpcBackend::Shutdown *)
Definition lr_Shutdown : M LocalRpcBackend unit :=
  l ← get;
  modify (set_lr_state kShutdown);;
  if state_eqb (lr_state l) kShutdown then mret tt
  else modify (λ l, mkLocalRpc (lr_options l) (lr_state l) false (lr_req_id l) None ∅).

(** [service_func_register_index_[func_name][pkg_path].emplace(module_name)] *)
Definition service_index_emplace (i : FuncInfo Msg) (m : ServiceFuncIndexMap) : ServiceFuncIndexMap :=
  let pkgs := default ∅ (m !! func_name i) in
  let modules := default ∅ (pkgs !! fi_pkg_path i) in
  <[func_name i := <[fi_pkg_path i := {[fi_module_name i]} ∪ modules]> pkgs]> m.

(* @src src/src/runtime/core/rpc/local_rpc_backend.cc:87-104 LocalRpcBackend::RegisterServiceFunc *)
Definition lr_RegisterServiceFunc (f : ServiceFuncWrapper Msg X) : M LocalRpcBackend bool :=
  l ← get;
  if negb (state_eqb (lr_state l) kInit) then mret false
  else
    put (mkLocalRpc (lr_options l) (lr_state l) (lr_has_get_executor_func l) (lr_req_id l) (client_tool_ptr l)
           (service_index_emplace (sf_info f) (service_func_register_index l)));;
    mret true.

(* @src src/src/runtime/core/rpc/local_rpc_backend.cc:106-119 LocalRpcBackend::RegisterClientFunc *)
Definition lr_RegisterClientFunc (f : ClientFuncWrapper Msg) : M LocalRpcBackend bool :=
  l ← get;
  mret (state_eqb (lr_state l) kInit).

(* @src src/src/runtime/core/rpc/local_rpc_backend.cc:387-393 LocalRpcBackend::RegisterGetExecutorFunc *)
Definition lr_RegisterGetExecutorFunc (is_set : bool) : M LocalRpcBackend unit :=
  l ← get;
  check_throw (state_eqb (lr_state l) kPreInit) "Method can only be called when state is 'PreInit'.";;
  put (mkLocalRpc (lr_options l) (lr_state l) is_set (lr_req_id l) (client_tool_ptr l)
         (service_func_register_index l)).
End LifeCycle.

(** ** Which service *)

Section Select.
Context `{IterOrder}.

(** The package and the module an address names; none if it is not a url. *)
(* @src src/src/runtime/core/rpc/local_rpc_backend.cc:130-148 LocalRpcBackend::Invoke (address) *)
Definition parse_service_addr (to_addr : string) : Z + (string * string) :=
  if String.eqb to_addr "" then inr ("", "")
  else
    match ParseUrl (lit to_addr) with
    | None => inr ("", "")
    | Some url =>
        if negb (bool_decide (protocol url = lit "local")) then inl STATUS_CLI_BACKEND_INTERNAL_ERROR
        else inr (str (GetValueFromStrKV (query url) (lit "pkg_path") (lit "&") (lit "=") true),
                  str (GetValueFromStrKV (query url) (lit "module_name") (lit "&") (lit "=") true))
    end.

(** The service's package and module, or the status the call is answered
    with; [pkgs] are the packages and modules that have the function.  The
    first element of an empty container is undefined. *)
(* @src src/src/runtime/core/rpc/local_rpc_backend.cc:160-213 LocalRpcBackend::Invoke (selection) *)
Definition select_service (pkgs : gmap string (gset string)) (pkg module : string)
    : res (Z + (string * string)) :=
  if String.eqb pkg "" then
    if String.eqb module "" then
      match map_order pkgs with
      | [] => Undef
      | (p, ms) :: _ => match set_order ms with [] => Undef | m :: _ => Ok (inr (p, m)) end
      end
    else
      let p := default "" (fst <$> List.find (λ '(_, ms), bool_decide (module ∈ ms)) (map_order pkgs)) in
      if String.eqb p "" then Ok (inl STATUS_CLI_INVALID_ADDR) else Ok (inr (p, module))
  else
    match pkgs !! pkg with
    | None => Ok (inl STATUS_CLI_INVALID_ADDR)
    | Some ms =>
        if String.eqb module "" then
          match set_order ms with [] => Undef | m :: _ => Ok (inr (pkg, m)) end
        else if bool_decide (module ∈ ms) then Ok (inr (pkg, module))
        else Ok (inl STATUS_CLI_INVALID_ADDR)
    end.
End Select.

(** ** Calls *)

Section LocalRpcCalls.
Context {Msg X : Type} `{HasLocalRpc X} `{IterOrder}.
(** What users' hooks do, and [CreateSharedPtr()]: what a new response holds. *)
Context (user_client_hook user_service_hook : nat → nat → Z → M (World Msg X) unit).
Context (Create : TypeSupport Msg → Msg).

Abbreviation W := (World Msg X).
Definition on_lr {A} (m : M LocalRpcBackend A) : M W A :=
  zoom (λ w, lr (w_rest w)) (λ l w, set_w_rest (set_lr l (w_rest w)) w) m.

Abbreviation InvokeCallBack := (InvokeCallBack user_client_hook).
Abbreviation call_client := (call_client user_client_hook).

(** The callback of a service of another package. *)
(* @src src/src/runtime/core/rpc/local_rpc_backend.cc:320-378 LocalRpcBackend::Invoke (callback) *)
Definition reply (sw : nat) (cur_req_id : Z) (serialization_type : string) (status : Z) : M W unit :=
  msg_recorder ← on_lr (on_tool (GetRecord cur_req_id));
  match msg_recorder with
  | None => mret tt
  | Some cw =>
      buffer ← try_serialize_service_rsp sw serialization_type;
      match buffer with
      | None => InvokeCallBack cw STATUS_SVR_SERIALIZATION_FAILED
      | Some b =>
          i ← on_client cw get;
          match Deserialize (rsp_type_support_ref (iw_info i)) serialization_type b with
          | None => InvokeCallBack cw STATUS_SVR_DESERIALIZATION_FAILED
          | Some m =>
              write_obj (iw_rsp i) m;;
              on_client cw (modify (λ i,
                set_rsp_cache (emplace_cache serialization_type b (rsp_serialization_cache i)) i));;
              InvokeCallBack cw status
          end
      end
  end.

(** A service calls its callback: the lambdas of the local backend, under what
    filters have put in front of them. *)
Fixpoint run_service (cb : ServiceCb) (status : Z) : M W unit :=
  match cb with
  | ToClient cw => call_client cw status
  | Reply sw req_id ty => reply sw req_id ty status
  | ServiceThen h sw inner =>
      run_service_hook user_service_hook h sw status;;
      match inner with
      | Some cb => run_service cb status
      | None => bad_function_call
      end
  end.

(** The service's context: the client's meta data, and who calls. *)
(* @src src/src/runtime/core/rpc/local_rpc_backend.cc:235-248 LocalRpcBackend::Invoke (context) *)
Definition service_context (c : RpcContext) (func : string) (client_info : FuncInfo Msg) : M W nat :=
  id ← new_rctx AIMRT_RPC_SERVER_CONTEXT;
  update_rctx id (rc_SetTimeout (rc_Timeout c));;
  mapM_ (λ k, update_rctx id (rc_SetMetaValue k (rc_GetMetaValue c k))) (rc_GetMetaKeys c);;
  update_rctx id (rc_SetFunctionName func);;
  update_rctx id (rc_SetMetaValue KEY_BACKEND "local");;
  update_rctx id (rc_SetMetaValue "aimrt-from_pkg" (fi_pkg_path client_info));;
  update_rctx id (rc_SetMetaValue "aimrt-from_module" (fi_module_name client_info));;
  mret id.

(** A call to a service of another package; its wrapper has neither request
    nor response yet. *)
(* @src src/src/runtime/core/rpc/local_rpc_backend.cc:265-381 LocalRpcBackend::Invoke (other package) *)
Definition invoke_other_pkg (f : ServiceFuncWrapper Msg X) (ctx_id : nat) (cw : nat) : M W unit :=
  i ← on_client cw get;
  c ← get_rctx (iw_ctx i);
  l ← on_lr get;
  let cur_req_id := lr_req_id l in
  on_lr (modify (set_lr_req_id (wrap32 (cur_req_id + 1))));;
  ret ← on_lr (on_tool (Tool_Record cur_req_id (rc_Timeout c) cw));
  if negb ret then InvokeCallBack cw STATUS_CLI_BACKEND_INTERNAL_ERROR
  else
    c ← get_rctx (iw_ctx i);
    let serialization_type := rc_GetSerializationType c in
    buffer ← on_client cw (TrySerializeReqWithCache serialization_type);
    match buffer with
    | None => InvokeCallBack cw STATUS_CLI_SERIALIZATION_FAILED
    | Some b =>
        match Deserialize (req_type_support_ref (sf_info f)) serialization_type b with
        | None => InvokeCallBack cw STATUS_CLI_DESERIALIZATION_FAILED
        | Some req =>
            rsp ← new_obj (Create (rsp_type_support_ref (sf_info f)));
            sw ← new_service (mkInvokeWrapper (sf_info f) (Some req) (Some rsp) ctx_id None
                                {[serialization_type := b]} ∅);
            on_service sw (modify (set_callback (Some (Reply sw cur_req_id serialization_type))));;
            service_func f sw
        end
    end.

(** Within a package: no serialization, no record, no time-out. *)
(* @src src/src/runtime/core/rpc/local_rpc_backend.cc:250-263 LocalRpcBackend::Invoke (same package) *)
Definition invoke_same_pkg (f : ServiceFuncWrapper Msg X) (ctx_id : nat) (cw : nat) : M W unit :=
  i ← on_client cw get;
  sw ← new_service (mkInvokeWrapper (sf_info f) (iw_req i) (iw_rsp i) ctx_id (Some (ToClient cw)) ∅ ∅);
  service_func f sw.

(** Once the service is chosen. *)
(* @src src/src/runtime/core/rpc/local_rpc_backend.cc:218-263 LocalRpcBackend::Invoke (service) *)
Definition invoke_service (r : RpcRegistry Msg X) (pkg module : string) (cw : nat) : M W unit :=
  i ← on_client cw get;
  match GetServiceFuncWrapperPtr r (func_name (iw_info i)) pkg module with
  | None => InvokeCallBack cw STATUS_CLI_BACKEND_INTERNAL_ERROR
  | Some f =>
      c ← get_rctx (iw_ctx i);
      ctx_id ← service_context c (func_name (sf_info f)) (iw_info i);
      if bool_decide (pkg = fi_pkg_path (iw_info i)) then invoke_same_pkg f ctx_id cw
      else invoke_other_pkg f ctx_id cw
  end.

(* @src src/src/runtime/core/rpc/local_rpc_backend.cc:121-385 LocalRpcBackend::Invoke *)
Definition lr_Invoke (r : RpcRegistry Msg X) : RpcHandle Msg X := λ cw,
  try_catch
    (l ← on_lr get;
     if negb (state_eqb (lr_state l) kStart) then InvokeCallBack cw STATUS_CLI_BACKEND_INTERNAL_ERROR
     else
       i ← on_client cw get;
       c ← get_rctx (iw_ctx i);
       match parse_service_addr (rc_GetMetaValue c KEY_TO_ADDR) with
       | inl status => InvokeCallBack cw status
       | inr (pkg, module) =>
           match service_func_register_index l !! func_name (iw_info i) with
           | None => InvokeCallBack cw STATUS_SVR_NOT_FOUND
           | Some pkgs =>
               s ← lift (select_service pkgs pkg module);
               match s with
               | inl status => InvokeCallBack cw status
               | inr (pkg, module) => invoke_service r pkg module cw
               end
           end
       end)
    (λ _, mret tt).

(** The timer at [k] fires: it is over, and the call it is for, if it is still
    recorded, is answered. *)
(* @src src/src/runtime/core/util/rpc_client_tool.h:45-54 RpcClientTool::Record (timer) *)
Definition fire_timer (k : nat) : M W unit :=
  l ← on_lr get;
  match client_tool_ptr l with
  | None => mret tt
  | Some t =>
      match ct_timers t !! k with
      | None => mret tt
      | Some (req_id, _) =>
          on_lr (on_tool (modify (λ t, mkTool (ct_timeout_executor t) (ct_timeout_handle t)
                                         (delete k (ct_timers t)) (client_msg_recorder_map t))));;
          msg_recorder ← on_lr (on_tool (GetRecord req_id));
          match msg_recorder with
          | Some cw => if ct_timeout_handle t then call_client cw STATUS_TIMEOUT else bad_function_call
          | None => mret tt
          end
      end
  end.

(** The backend as the manager sees it. *)
(* @src src/src/runtime/core/rpc/local_rpc_backend.h:27-57 LocalRpcBackend *)
Definition local_rpc_backend `{YamlOps node} (find_executor : string → option bool)
    : RpcBackend Msg X (option node) :=
  mkRpcBackend "local" (λ n, on_lr (lr_Initialize find_executor n)) (on_lr lr_Start) (on_lr lr_Shutdown)
    (λ f, on_lr (lr_RegisterServiceFunc f)) (λ f, on_lr (lr_RegisterClientFunc f)) lr_Invoke
    (λ _, []).
End LocalRpcCalls.

(** * Selection *)

Section SelectSpec.
Context `{IterOrder}.
Implicit Types pkgs : gmap string (gset string).

(** A service in [pkgs] that an address, with empty parts for what it leaves
    open, can mean. *)
Definition matches_addr pkgs (pkg module : string) (s : string * string) : Prop :=
  (∃ ms, pkgs !! s.1 = Some ms ∧ s.2 ∈ ms) ∧ (pkg ≠ "" → s.1 = pkg) ∧ (module ≠ "" → s.2 = module).

(** Which service a call is for.  Whatever the order in which the index is
    gone through: when services are registered for the function, in packages
    that have a name, the one chosen is registered, in the package and the
    module that the address names if it names them; and the call is refused
    exactly when the address fits none. *)
Theorem select_service_spec pkgs (pkg module : string) :
  pkgs ≠ ∅ → pkgs !! "" = None → (∀ p ms, pkgs !! p = Some ms → ms ≠ ∅) →
  (∃ s, select_service pkgs pkg module = Ok (inr s) ∧ matches_addr pkgs pkg module s) ∨
  (select_service pkgs pkg module = Ok (inl STATUS_CLI_INVALID_ADDR) ∧ ∀ s, ¬ matches_addr pkgs pkg module s).
Proof.
  intros Hne Hempty Hms. unfold select_service.
  destruct (String.eqb_spec pkg "") as [->|Hpkg]; destruct (String.eqb_spec module "") as [->|Hmod].
  - left. destruct (map_order_head pkgs Hne) as (p & ms & l & -> & Hp).
    destruct (set_order_head ms (Hms p ms Hp)) as (x & l' & -> & Hx).
    eexists. split; [reflexivity|]. split; [by exists ms|done].
  - destruct (List.find _ _) as [[p ms]|] eqn:Hf; cbn [fst default fmap option_fmap option_map].
    + left. apply List.find_some in Hf as [Hin Hm]. apply list_elem_of_In, elem_of_map_order in Hin.
      apply bool_decide_eq_true in Hm. cbn. destruct (String.eqb_spec p "") as [->|Hp]; [congruence|].
      eexists. split; [reflexivity|]. split; [by exists ms|done].
    + right. split; [done|]. intros [p x] ((ms & Hp & Hx) & _ & Hm). cbn in *.
      rewrite Hm in Hx by done. apply elem_of_map_order, list_elem_of_In in Hp.
      apply (List.find_none _ _ Hf) in Hp. by apply bool_decide_eq_false in Hp.
  - destruct (pkgs !! pkg) as [ms|] eqn:Hp.
    + left. destruct (set_order_head ms (Hms pkg ms Hp)) as (x & l' & -> & Hx).
      eexists. split; [reflexivity|]. split; [by exists ms|done].
    + right. split; [done|]. intros [p x] ((ms & Hp' & _) & Hpk & _). cbn in *.
      rewrite Hpk in Hp' by done. congruence.
  - destruct (pkgs !! pkg) as [ms|] eqn:Hp; [case_bool_decide as Hm|].
    + left. eexists. split; [reflexivity|]. split; [by exists ms|done].
    + right. split; [done|]. intros [p x] ((ms' & Hp' & Hx) & Hpk & Hmo). cbn in *.
      rewrite Hpk, Hp in Hp' by done. injection Hp' as <-. by rewrite Hmo in Hx.
    + right. split; [done|]. intros [p x] ((ms' & Hp' & _) & Hpk & _). cbn in *.
      rewrite Hpk in Hp' by done. congruence.
Qed.
End SelectSpec.

(** * What a call does *)

Section InvokeSpec.
Context {Msg X : Type} `{HasLocalRpc X} `{IterOrder}.
Context (user_client_hook user_service_hook : nat → nat → Z → M (World Msg X) unit).
Context (Create : TypeSupport Msg → Msg).
Implicit Types w : World Msg X.

Abbreviation lr_Invoke := (lr_Invoke user_client_hook Create).
Abbreviation run_service := (run_service user_client_hook user_service_hook).
Abbreviation fire_timer := (fire_timer user_client_hook).

Definition lr_of w : LocalRpcBackend := lr (w_rest w).
Definition with_lr (l : LocalRpcBackend) w : World Msg X := set_w_rest (set_lr l (w_rest w)) w.

(** Answer a call and forget its callback. *)
Definition refuse (cw : nat) (i : InvokeWrapper Msg ClientCb) (call : nat) (status : Z) w : World Msg X :=
  set_w_clients (<[cw := set_callback None i]> (w_clients w)) (answered call status w).

Lemma with_lr_same w l : lr_of (with_lr l w) = l.
Proof. apply lr_set_lr. Qed.

Lemma on_client_get cw w i : w_clients w !! cw = Some i → on_client cw get w = (Ok i, w).
Proof. intros Hi. unfold on_client. rewrite Hi. cbn. destruct w; cbn in *. by rewrite insert_id. Qed.

Lemma on_client_modify cw f w i :
  w_clients w !! cw = Some i →
  on_client cw (modify f) w = (Ok tt, set_w_clients (<[cw := f i]> (w_clients w)) w).
Proof. intros Hi. unfold on_client. by rewrite Hi. Qed.

Lemma call_client_eq cw w i call status :
  w_clients w !! cw = Some i → iw_callback i = Some (Answer call) →
  call_client user_client_hook cw status w = (Ok tt, answered call status w).
Proof.
  intros Hi Hcb. unfold call_client, on_client. unfold_monad. rewrite Hi. cbn. rewrite Hcb.
  replace (set_w_clients (<[cw:=i]> (w_clients w)) w) with w; [done|].
  destruct w; cbn in *. by rewrite insert_id.
Qed.

Lemma InvokeCallBack_eq cw w i call status :
  w_clients w !! cw = Some i → iw_callback i = Some (Answer call) →
  InvokeCallBack user_client_hook cw status w = (Ok tt, refuse cw i call status w).
Proof.
  intros Hi Hcb. unfold InvokeCallBack, mbind, M_bind. rewrite (call_client_eq cw w i call status Hi Hcb).
  by rewrite (on_client_modify cw _ _ i).
Qed.

Lemma with_lr_id w : with_lr (lr_of w) w = w.
Proof. unfold with_lr, lr_of. rewrite set_lr_lr. by destruct w. Qed.

Lemma with_lr_twice l l' w : with_lr l (with_lr l' w) = with_lr l w.
Proof. unfold with_lr. cbn. by rewrite set_lr_set_lr. Qed.

Lemma on_lr_eq {A} (m : M LocalRpcBackend A) w a l :
  m (lr_of w) = (a, l) → on_lr m w = (a, with_lr l w).
Proof. intros Hm. unfold on_lr, zoom. unfold lr_of in Hm. by rewrite Hm. Qed.

Lemma on_lr_get w : on_lr get w = (Ok (lr_of w), w).
Proof. erewrite on_lr_eq; [|reflexivity]. by rewrite with_lr_id. Qed.

(** *** The service's context *)

Definition service_ctx (c : RpcContext) (func : string) (client_info : FuncInfo Msg) : RpcContext :=
  rc_SetMetaValue "aimrt-from_module" (fi_module_name client_info)
    (rc_SetMetaValue "aimrt-from_pkg" (fi_pkg_path client_info)
      (rc_SetMetaValue KEY_BACKEND "local"
        (rc_SetFunctionName func
          (mkRpcContext (rc_meta_data_map c) (wrap64 (rc_Timeout c)) false AIMRT_RPC_SERVER_CONTEXT)))).

Definition rc_copy_meta (c : RpcContext) ks (acc : gmap string string) : gmap string string :=
  foldl (λ a k, <[k := rc_GetMetaValue c k]> a) acc ks.

Lemma rc_copy_meta_lookup c ks acc k :
  rc_copy_meta c ks acc !! k = if decide (k ∈ ks) then Some (rc_GetMetaValue c k) else acc !! k.
Proof.
  unfold rc_copy_meta. revert acc; induction ks as [|k' ks IH]; intros acc; cbn [foldl].
  - by rewrite decide_False by apply not_elem_of_nil.
  - rewrite IH. destruct (decide (k ∈ ks)) as [Hin|Hni].
    + rewrite decide_True; [done|by apply list_elem_of_further].
    + destruct (decide (k = k')) as [->|Hne].
      * rewrite lookup_insert_eq, decide_True; [done|apply list_elem_of_here].
      * rewrite lookup_insert_ne, decide_False; [done| |done]. by intros [|]%elem_of_cons.
Qed.

Lemma rc_copied_meta c : rc_copy_meta c (rc_GetMetaKeys c) ∅ = rc_meta_data_map c.
Proof.
  apply map_eq. intros k. rewrite rc_copy_meta_lookup, lookup_empty. unfold rc_GetMetaKeys, rc_GetMetaValue.
  destruct (rc_meta_data_map c !! k) as [v|] eqn:Hk.
  - rewrite decide_True; [done|]. apply list_elem_of_fmap. exists (k, v). by rewrite elem_of_map_to_list.
  - rewrite decide_False; [done|]. intros ((k' & v) & -> & Hin)%list_elem_of_fmap.
    rewrite elem_of_map_to_list in Hin. cbn in Hk. congruence.
Qed.

Lemma rc_copy_meta_run c id ks : ∀ c' w, w_ctxs w !! id = Some c' →
  mapM_ (λ k, update_rctx id (rc_SetMetaValue k (rc_GetMetaValue c k))) ks w =
  (Ok tt, set_ctx id (mkRpcContext (rc_copy_meta c ks (rc_meta_data_map c')) (timeout_ns c') (rc_used c') (rc_type c')) w).
Proof.
  induction ks as [|k ks IH]; intros c' w Hc'; cbn [mapM_ rc_copy_meta foldl].
  - destruct w, c'; unfold set_ctx; cbn in *. by rewrite insert_id.
  - unfold_monad. rewrite (update_rctx_eq _ _ _ _ Hc').
    rewrite (IH (rc_SetMetaValue k (rc_GetMetaValue c k) c')) by apply set_ctx_lookup.
    by rewrite set_ctx_twice.
Qed.

Lemma service_context_spec c func client_info w :
  let id := fresh (dom (w_ctxs w)) in
  service_context c func client_info w = (Ok id, set_ctx id (service_ctx c func client_info) w).
Proof.
  intros id. unfold service_context, new_rctx. unfold_monad. fold id.
  change (set_w_ctxs (<[id := ?c]> (w_ctxs w)) w) with (set_ctx id c w).
  rewrite (update_rctx_eq _ _ _ _ (set_ctx_lookup _ _ _)), set_ctx_twice.
  rewrite (rc_copy_meta_run _ _ _ _ _ (set_ctx_lookup _ _ _)), set_ctx_twice. cbn [rc_SetTimeout RpcContext_new rc_meta_data_map timeout_ns rc_used rc_type].
  rewrite rc_copied_meta.
  do 4 (rewrite (update_rctx_eq _ _ _ _ (set_ctx_lookup _ _ _)), set_ctx_twice). done.
Qed.

(** *** Every branch *)

(** The service at [sw] is called. *)
Definition call_service (sw : nat) (j : InvokeWrapper Msg ServiceCb) (c : RpcContext) w : World Msg X :=
  set_w_calls (w_calls w ++ [(sw, iw_callback j)])
    (set_ctx (iw_ctx j) (rc_SetMetaValue KEY_RESPONSE_ID (rc_GetMetaValue c KEY_REQUEST_ID) c)
      (set_w_services (<[sw := set_callback None j]> (w_services w)) w)).

Lemma service_terminal_eq sw j c w :
  w_services w !! sw = Some j → w_ctxs w !! iw_ctx j = Some c →
  service_terminal sw w = (Ok tt, call_service sw j c w).
Proof.
  intros Hj Hc. unfold service_terminal, on_service. unfold_monad. rewrite Hj. cbn -[set_callback].
  rewrite lookup_insert_eq. cbn -[set_callback]. rewrite !lookup_insert_eq, !insert_insert_eq. cbn.
  rewrite (get_rctx_eq _ _ c) by done. cbn.
  by rewrite (update_rctx_eq _ _ _ c).
Qed.

(** A wrapper for the service, made and given to it. *)
Definition new_call (j : InvokeWrapper Msg ServiceCb) (c : RpcContext) w : World Msg X :=
  call_service (fresh (dom (w_services w))) j c w.

Definition record_call (cw : nat) (c : RpcContext) (t : RpcClientTool nat) (l : LocalRpcBackend) : LocalRpcBackend :=
  set_client_tool (Some (mkTool (ct_timeout_executor t) (ct_timeout_handle t)
      (if ct_timeout_executor t then ct_timers t ++ [(lr_req_id l, rc_Timeout c)] else ct_timers t)
      (<[lr_req_id l := cw]> (client_msg_recorder_map t))))
    (set_lr_req_id (wrap32 (lr_req_id l + 1)) l).

(** A call to another package, from the record on. *)
Definition other_pkg_effect (f : ServiceFuncWrapper Msg X) (ctx_id cw : nat) (i : InvokeWrapper Msg ClientCb)
    (call : nat) (c sc : RpcContext) (m : Msg) (t : RpcClientTool nat) w : World Msg X :=
  let l := lr_of w in
  let id := lr_req_id l in
  match client_msg_recorder_map t !! id with
  | Some _ => refuse cw i call STATUS_CLI_BACKEND_INTERNAL_ERROR (with_lr (set_lr_req_id (wrap32 (id + 1)) l) w)
  | None =>
      let w1 := with_lr (record_call cw c t l) w in
      let ty := rc_GetSerializationType c in
      match Serialize (req_type_support_ref (iw_info i)) ty m with
      | None => refuse cw i call STATUS_CLI_SERIALIZATION_FAILED w1
      | Some b =>
          let i' := set_req_cache {[ty := b]} i in
          let w2 := set_w_clients (<[cw := i']> (w_clients w1)) w1 in
          match Deserialize (req_type_support_ref (sf_info f)) ty b with
          | None => refuse cw i' call STATUS_CLI_DESERIALIZATION_FAILED w2
          | Some req =>
              let rsp := fresh (dom (w_objs w)) in
              let sw := fresh (dom (w_services w)) in
              new_call (mkInvokeWrapper (sf_info f) (Some req) (Some rsp) ctx_id (Some (Reply sw id ty))
                          {[ty := b]} ∅) sc
                (set_w_objs (<[rsp := Create (rsp_type_support_ref (sf_info f))]> (w_objs w)) w2)
          end
      end
  end.

(** What a call does to the world, on every branch. *)
Definition invoke_effect (r : RpcRegistry Msg X) (cw : nat) (i : InvokeWrapper Msg ClientCb) (call : nat)
    (c : RpcContext) (m : Msg) (t : RpcClientTool nat) w : World Msg X :=
  let l := lr_of w in
  match parse_service_addr (rc_GetMetaValue c KEY_TO_ADDR) with
  | inl status => refuse cw i call status w
  | inr (pkg, module) =>
      match service_func_register_index l !! func_name (iw_info i) with
      | None => refuse cw i call STATUS_SVR_NOT_FOUND w
      | Some pkgs =>
          match select_service pkgs pkg module with
          | Ok (inl status) => refuse cw i call status w
          | Ok (inr (pkg, module)) =>
              match GetServiceFuncWrapperPtr r (func_name (iw_info i)) pkg module with
              | None => refuse cw i call STATUS_CLI_BACKEND_INTERNAL_ERROR w
              | Some f =>
                  let ctx_id := fresh (dom (w_ctxs w)) in
                  let sc := service_ctx c (func_name (sf_info f)) (iw_info i) in
                  let w1 := set_ctx ctx_id sc w in
                  if bool_decide (pkg = fi_pkg_path (iw_info i)) then
                    new_call (mkInvokeWrapper (sf_info f) (iw_req i) (iw_rsp i) ctx_id (Some (ToClient cw)) ∅ ∅) sc w1
                  else other_pkg_effect f ctx_id cw i call c sc m t w1
              end
          | _ => w
          end
      end
  end.

Section Branches.
Context (r : RpcRegistry Msg X).
Context (Hservices : ∀ k f, service_func_wrapper_map r !! k = Some f → service_func f = service_terminal).
Context (cw : nat) (i : InvokeWrapper Msg ClientCb) (call : nat) (c : RpcContext) (m : Msg) (t : RpcClientTool nat).
Context (Hcb : iw_callback i = Some (Answer call)) (Hreq : iw_req i = Some m) (Hcache : req_serialization_cache i = ∅).

Lemma new_service_terminal (f : ServiceFuncWrapper Msg X) j sc w :
  service_func f = service_terminal → w_ctxs w !! iw_ctx j = Some sc →
  (sw ← new_service j; service_func f sw) w = (Ok tt, new_call j sc w).
Proof.
  intros Hf Hc. unfold new_service. unfold_monad. rewrite Hf. set (sw := fresh _).
  rewrite (service_terminal_eq sw j sc); [|apply lookup_insert_eq|done].
  unfold new_call, call_service. cbn. fold sw. by rewrite insert_insert_eq.
Qed.

Lemma TrySerialize_req_eq ty w :
  w_clients w !! cw = Some i →
  on_client cw (TrySerializeReqWithCache ty) w =
    match Serialize (req_type_support_ref (iw_info i)) ty m with
    | Some b => (Ok (Some b), set_w_clients (<[cw := set_req_cache {[ty := b]} i]> (w_clients w)) w)
    | None => (Ok None, w)
    end.
Proof using Hreq Hcache.
  intros Hi. unfold on_client. rewrite Hi. unfold TrySerializeReqWithCache, SerializeReqWithCache. unfold_monad.
  rewrite Hcache, lookup_empty, Hreq. unfold emplace_cache.
  destruct (Serialize (req_type_support_ref (iw_info i)) ty m) as [b|]; cbn.
  - by rewrite lookup_empty, insert_empty.
  - destruct w; cbn in *. by rewrite insert_id.
Qed.

Lemma invoke_other_pkg_eq (f : ServiceFuncWrapper Msg X) ctx_id sc w :
  service_func f = service_terminal →
  w_clients w !! cw = Some i → w_ctxs w !! iw_ctx i = Some c → w_ctxs w !! ctx_id = Some sc →
  client_tool_ptr (lr_of w) = Some t →
  invoke_other_pkg user_client_hook Create f ctx_id cw w =
    (Ok tt, other_pkg_effect f ctx_id cw i call c sc m t w).
Proof using Hcb Hreq Hcache.
  intros Hf Hi Hc Hsc Ht. unfold invoke_other_pkg, other_pkg_effect, mbind, M_bind.
  rewrite (on_client_get _ _ _ Hi), (get_rctx_eq _ _ _ Hc), on_lr_get.
  set (l := lr_of w) in *. set (id := lr_req_id l).
  rewrite (on_lr_eq _ w (Ok tt) (set_lr_req_id (wrap32 (id + 1)) l)) by done.
  destruct (client_msg_recorder_map t !! id) as [cw'|] eqn:Hid.
  - rewrite (on_lr_eq _ _ (Ok false) (set_client_tool (Some t) (set_lr_req_id (wrap32 (id + 1)) l))).
    2: { rewrite with_lr_same. unfold on_tool. cbn. rewrite Ht. unfold Tool_Record. unfold_monad. by rewrite Hid. }
    cbn [negb]. rewrite with_lr_twice. rewrite (InvokeCallBack_eq _ (with_lr _ w) _ _ _ Hi Hcb).
    do 3 f_equal. destruct l; cbn in *. by rewrite Ht.
  - rewrite (on_lr_eq _ _ (Ok true) (record_call cw c t l)).
    2: { rewrite with_lr_same. unfold on_tool. cbn. rewrite Ht. unfold Tool_Record. unfold_monad. by rewrite Hid. }
    cbn [negb]. rewrite with_lr_twice. set (w1 := with_lr (record_call cw c t l) w).
    rewrite (get_rctx_eq (iw_ctx i) w1 c) by done.
    rewrite (TrySerialize_req_eq _ w1) by done.
    destruct (Serialize _ _ m) as [b|]; [|by rewrite (InvokeCallBack_eq _ w1 _ _ _ Hi Hcb)].
    set (i' := set_req_cache _ i). set (w2 := set_w_clients _ w1).
    destruct (Deserialize _ _ b) as [req|].
    2: { by rewrite (InvokeCallBack_eq _ w2 i' call); [|apply lookup_insert_eq|]. }
    unfold new_obj, new_service, on_service. unfold_monad. cbn -[service_terminal].
    rewrite lookup_insert_eq. cbn -[service_terminal]. rewrite insert_insert_eq, Hf.
    match goal with |- service_terminal ?sw ?w' = _ =>
      rewrite (service_terminal_eq sw (mkInvokeWrapper (sf_info f) (Some req) (Some (fresh (dom (w_objs w)))) ctx_id
        (Some (Reply sw id (rc_GetSerializationType c))) {[rc_GetSerializationType c := b]} ∅) sc w') end.
    + unfold new_call, call_service. cbn. by rewrite insert_insert_eq.
    + apply lookup_insert_eq.
    + done.
Qed.

(** The effect of a call through the backend, as an equation. *)
Lemma lr_Invoke_eq w :
  w_clients w !! cw = Some i → w_ctxs w !! iw_ctx i = Some c →
  lr_state (lr_of w) = kStart → client_tool_ptr (lr_of w) = Some t →
  (∀ pkgs pkg module, service_func_register_index (lr_of w) !! func_name (iw_info i) = Some pkgs →
     is_ok (select_service pkgs pkg module) = true) →
  lr_Invoke r cw w = (Ok tt, invoke_effect r cw i call c m t w).
Proof using Hservices Hcb Hreq Hcache.
  intros Hi Hc Hst Ht Hsel. unfold LocalRpc.lr_Invoke, try_catch, mbind, M_bind.
  rewrite on_lr_get. rewrite Hst. unfold state_eqb. rewrite (bool_decide_eq_true_2 (kStart = kStart)) by done. cbn [negb].
  rewrite (on_client_get _ _ _ Hi), (get_rctx_eq _ _ _ Hc). cbn [negb]. unfold invoke_effect.
  destruct (parse_service_addr _) as [status|[pkg module]]; [by rewrite (InvokeCallBack_eq _ _ _ _ _ Hi Hcb)|].
  destruct (_ !! func_name (iw_info i)) as [pkgs|]; [|by rewrite (InvokeCallBack_eq _ _ _ _ _ Hi Hcb)].
  specialize (Hsel pkgs pkg module eq_refl). unfold lift.
  destruct (select_service pkgs pkg module) as [[status|[pkg' module']]| |]; try done;
    [by rewrite (InvokeCallBack_eq _ _ _ _ _ Hi Hcb)|].
  unfold invoke_service, mbind, M_bind. rewrite (on_client_get _ _ _ Hi).
  destruct (GetServiceFuncWrapperPtr r _ pkg' module') as [f|] eqn:Hf;
    [|by rewrite (InvokeCallBack_eq _ _ _ _ _ Hi Hcb)].
  apply Hservices in Hf. rewrite (get_rctx_eq _ _ _ Hc), service_context_spec.
  set (id := fresh _). set (sc := service_ctx _ _ _). set (w1 := set_ctx id sc w).
  assert (w_ctxs w1 !! iw_ctx i = Some c) as Hc1.
  { unfold w1, set_ctx. cbn. rewrite lookup_insert_ne; [done|].
    intros Heq. apply (is_fresh (dom (w_ctxs w))). apply elem_of_dom. fold id. rewrite Heq. by exists c. }
  case_bool_decide.
  - unfold invoke_same_pkg, mbind at 1, M_bind at 1. rewrite (on_client_get _ w1 _ Hi).
    by rewrite (new_service_terminal f (mkInvokeWrapper (sf_info f) (iw_req i) (iw_rsp i) id (Some (ToClient cw)) ∅ ∅)
                  sc w1 Hf (set_ctx_lookup _ _ _)).
  - by rewrite (invoke_other_pkg_eq f id sc w1 Hf Hi Hc1 (set_ctx_lookup _ _ _) Ht).
Qed.

(** A call through the local backend, on every branch.  When the backend
    is started, the caller's context and request exist and the selection of
    the service is defined, the call returns normally and does what
    [invoke_effect] says: it is refused with the status of the step that
    failed; or the service of the same package is called with the client's own
    request and response; or the call is recorded with its time-out, and the
    service of another package is called with the request's serialized form
    read back and a new response. *)
Theorem local_invoke_branches w :
  w_clients w !! cw = Some i → w_ctxs w !! iw_ctx i = Some c →
  lr_state (lr_of w) = kStart → client_tool_ptr (lr_of w) = Some t →
  (∀ pkgs pkg module, service_func_register_index (lr_of w) !! func_name (iw_info i) = Some pkgs →
     is_ok (select_service pkgs pkg module) = true) →
  lr_Invoke r cw w = (Ok tt, invoke_effect r cw i call c m t w).
Proof using Hservices Hcb Hreq Hcache. exact (lr_Invoke_eq w). Qed.
End Branches.

(** *** What a service's answer does *)

Definition drop_record (id : Z) (t : RpcClientTool nat) : RpcClientTool nat :=
  mkTool (ct_timeout_executor t) (ct_timeout_handle t) (ct_timers t) (delete id (client_msg_recorder_map t)).

(** The serialized form of a service's response [m]. *)
Definition response_form (j : InvokeWrapper Msg ServiceCb) (ty : string) (m : Msg) : option BufferArrayView :=
  match rsp_serialization_cache j !! ty with
  | Some b => Some b
  | None => Serialize (rsp_type_support_ref (iw_info j)) ty m
  end.

(** The world after the record of a call is taken and its service's response
    is serialized, and its status. *)
Definition reply_effect (sw : nat) (j : InvokeWrapper Msg ServiceCb) (cw : nat) (i : InvokeWrapper Msg ClientCb)
    (call a : nat) (id : Z) (ty : string) (m : Msg) (t : RpcClientTool nat) (status : Z) w : World Msg X :=
  let w1 := with_lr (set_client_tool (Some (drop_record id t)) (lr_of w)) w in
  match response_form j ty m with
  | None => refuse cw i call STATUS_SVR_SERIALIZATION_FAILED w1
  | Some b =>
      let w2 := set_w_services (<[sw := set_rsp_cache (emplace_cache ty b (rsp_serialization_cache j)) j]> (w_services w1)) w1 in
      match Deserialize (rsp_type_support_ref (iw_info i)) ty b with
      | None => refuse cw i call STATUS_SVR_DESERIALIZATION_FAILED w2
      | Some m' =>
          let i' := set_rsp_cache (emplace_cache ty b (rsp_serialization_cache i)) i in
          refuse cw i' call status (set_w_objs (<[a := m']> (w_objs w)) w2)
      end
  end.

Lemma try_serialize_service_rsp_eq sw j ty m w :
  w_services w !! sw = Some j → obj_at w (iw_rsp j) = Some m →
  try_serialize_service_rsp sw ty w =
    match response_form j ty m with
    | Some b => (Ok (Some b), set_w_services (<[sw := set_rsp_cache (emplace_cache ty b (rsp_serialization_cache j)) j]> (w_services w)) w)
    | None => (Ok None, w)
    end.
Proof.
  intros Hj Hm. unfold try_serialize_service_rsp, on_service. unfold_monad. rewrite Hj. cbn.
  rewrite lookup_insert_eq. rewrite Hm. unfold TrySerializeRspWithCache, SerializeRspWithCache, response_form. unfold_monad.
  destruct (rsp_serialization_cache j !! ty) as [b|] eqn:Hb; cbn.
  - rewrite insert_insert_eq. unfold emplace_cache. rewrite Hb.
    replace (set_rsp_cache (rsp_serialization_cache j) j) with j by by destruct j. done.
  - destruct (Serialize _ ty m) as [b|]; cbn; [by rewrite insert_insert_eq|].
    rewrite insert_insert_eq. destruct w; cbn in *. by rewrite insert_id.
Qed.

Lemma GetRecord_eq id t w : client_tool_ptr (lr_of w) = Some t →
  on_lr (on_tool (GetRecord id)) w =
    match client_msg_recorder_map t !! id with
    | Some cw => (Ok (Some cw), with_lr (set_client_tool (Some (drop_record id t)) (lr_of w)) w)
    | None => (Ok None, w)
    end.
Proof.
  intros Ht. destruct (client_msg_recorder_map t !! id) as [cw|] eqn:Hid.
  - apply on_lr_eq. unfold on_tool. rewrite Ht. unfold GetRecord. unfold_monad. by rewrite Hid.
  - erewrite on_lr_eq.
    2: { unfold on_tool. rewrite Ht. unfold GetRecord. unfold_monad. rewrite Hid. reflexivity. }
    f_equal. etrans; [|apply (with_lr_id w)]. f_equal. destruct (lr_of w); cbn in *. by rewrite Ht.
Qed.

Lemma reply_eq sw j cw i call a id ty m t status w :
  client_tool_ptr (lr_of w) = Some t → client_msg_recorder_map t !! id = Some cw →
  w_clients w !! cw = Some i → iw_callback i = Some (Answer call) → iw_rsp i = Some a →
  w_services w !! sw = Some j → obj_at w (iw_rsp j) = Some m →
  reply user_client_hook sw id ty status w = (Ok tt, reply_effect sw j cw i call a id ty m t status w).
Proof.
  intros Ht Hid Hi Hcb Ha Hj Hm. unfold reply, reply_effect, mbind, M_bind.
  rewrite (GetRecord_eq id t w Ht), Hid. set (w1 := with_lr _ w).
  rewrite (try_serialize_service_rsp_eq sw j ty m w1 Hj Hm).
  destruct (response_form j ty m) as [b|]; [|by rewrite (InvokeCallBack_eq _ w1 _ _ _ Hi Hcb)].
  set (w2 := set_w_services _ w1). rewrite (on_client_get _ w2 _ Hi).
  destruct (Deserialize _ ty b) as [m'|]; [|by rewrite (InvokeCallBack_eq _ w2 _ _ _ Hi Hcb)].
  rewrite Ha. cbn [write_obj]. unfold modify at 1. set (w3 := set_w_objs _ w2).
  rewrite (on_client_modify cw _ w3 i Hi).
  rewrite (InvokeCallBack_eq _ _ (set_rsp_cache (emplace_cache ty b (rsp_serialization_cache i)) i) call);
    [|apply lookup_insert_eq|done].
  unfold refuse. cbn. by rewrite insert_insert_eq.
Qed.

Lemma reply_no_record sw id ty status t w :
  client_tool_ptr (lr_of w) = Some t → client_msg_recorder_map t !! id = None →
  reply user_client_hook sw id ty status w = (Ok tt, w).
Proof.
  intros Ht Hid. unfold reply, mbind, M_bind. by rewrite (GetRecord_eq id t w Ht), Hid.
Qed.

(** *** What a timer does *)

Definition drop_timer (k : nat) (t : RpcClientTool nat) : RpcClientTool nat :=
  mkTool (ct_timeout_executor t) (ct_timeout_handle t) (delete k (ct_timers t)) (client_msg_recorder_map t).

Lemma fire_timer_eq k id timeout t w :
  client_tool_ptr (lr_of w) = Some t → ct_timers t !! k = Some (id, timeout) → ct_timeout_handle t = true →
  fire_timer k w =
    match client_msg_recorder_map t !! id with
    | Some cw => call_client user_client_hook cw STATUS_TIMEOUT
                   (with_lr (set_client_tool (Some (drop_record id (drop_timer k t))) (lr_of w)) w)
    | None => (Ok tt, with_lr (set_client_tool (Some (drop_timer k t)) (lr_of w)) w)
    end.
Proof.
  intros Ht Hk Hh. unfold LocalRpc.fire_timer, mbind, M_bind. rewrite on_lr_get, Ht, Hk.
  rewrite (on_lr_eq _ w (Ok tt) (set_client_tool (Some (drop_timer k t)) (lr_of w))).
  2: { unfold on_tool. by rewrite Ht. }
  rewrite (GetRecord_eq id (drop_timer k t)) by by rewrite with_lr_same. cbn [drop_timer client_msg_recorder_map].
  destruct (client_msg_recorder_map t !! id) as [cw|]; [|done]. rewrite Hh, with_lr_twice, with_lr_same. done.
Qed.
End InvokeSpec.

