(* ===== verification/LocalRpcCalls.v ===== *)
(** * Calls through the local backend

    About the definitions of [LocalRpc], for services without filters.
    Theorems: whatever the order in which calls are made, services write and
    answer (once, never, or many times), timers fire and the backend shuts
    down, a call to another package is answered at most once; none is lost
    while the backend runs: until it is answered, its timer and its service's
    callback both answer it; starting up leads to a state these theorems start
    from; the answer carries the response the service wrote; and what goes
    wrong: a request that cannot be serialized leaves its record behind, and a
    service that answers after the shutdown uses a tool that is gone. *)

From S2P Require Import Prelude Yaml StringUtil Filters Channel Rpc Url RpcBackend LocalRpc.

(** * Answers are never repeated and never lost

    What matters of the world: the callbacks of the clients' wrappers, the
    answers given, the services called, and the records of the tool. *)

Section CallInvariant.
Implicit Types (u : gset nat) (cb : gmap nat (option ClientCb)) (ans : list (nat * Z)).
Implicit Types (calls : list (nat * option ServiceCb)) (recs : gmap Z nat).

(** The answers to a call. *)
Definition answers_of (call : nat) ans : list Z := snd <$> filter (λ a, a.1 = call) ans.

(** The service of [call] is of the client's package: it was given the
    client's own callback. *)
Definition direct cb calls (call : nat) : Prop :=
  ∃ sw cw, (sw, Some (ToClient cw)) ∈ calls ∧ cb !! cw = Some (Some (Answer call)).

(** [u]: the calls made so far. *)
Record call_inv u cb ans calls recs : Prop := {
  ci_cb cw f : cb !! cw = Some (Some f) → ∃ call, f = Answer call ∧ call ∈ u;
  ci_inj cw cw' call : cb !! cw = Some (Some (Answer call)) → cb !! cw' = Some (Some (Answer call)) → cw = cw';
  ci_ans call : answers_of call ans ≠ [] → call ∈ u;
  ci_rec_inj id id' cw : recs !! id = Some cw → recs !! id' = Some cw → id = id';
  ci_rec id cw : recs !! id = Some cw →
    is_Some (cb !! cw) ∧ (∀ sw, ((sw, Some (ToClient cw)) ∉ calls)) ∧
    ∀ call, cb !! cw = Some (Some (Answer call)) → answers_of call ans = [];
  ci_calls sw f : (sw, Some f) ∈ calls →
    (∃ cw, f = ToClient cw ∧ is_Some (cb !! cw)) ∨ ∃ sw' id ty, f = Reply sw' id ty;
  ci_once call : length (answers_of call ans) ≤ 1 ∨ direct cb calls call
}.

Lemma answers_of_app call ans call' status :
  answers_of call (ans ++ [(call', status)]) = answers_of call ans ++ (if decide (call' = call) then [status] else []).
Proof.
  unfold answers_of. rewrite filter_app, fmap_app. f_equal. rewrite filter_cons, filter_nil. cbn. by case_decide.
Qed.

Lemma call_inv_new : call_inv ∅ ∅ [] [] ∅.
Proof.
  split; try (intros *; rewrite lookup_empty; done); try done.
  - intros sw f Hin. by apply not_elem_of_nil in Hin.
  - intros call. left. cbn. lia.
Qed.

(** A client's wrapper, for a new call. *)
Lemma ci_add_client u cb ans calls recs cw call :
  call ∉ u → cb !! cw = None → call_inv u cb ans calls recs →
  call_inv ({[call]} ∪ u) (<[cw := Some (Answer call)]> cb) ans calls recs ∧
  answers_of call ans = [] ∧ (∀ id, recs !! id ≠ Some cw) ∧ (∀ sw, ((sw, Some (ToClient cw)) ∉ calls)).
Proof.
  intros Hu Hcw [H1 H2 H3 H4 H5 H6 H7].
  assert (answers_of call ans = []) as Hans by (destruct (answers_of call ans) eqn:E; [done|]; exfalso; apply Hu, H3; by rewrite E).
  assert (∀ id, recs !! id ≠ Some cw) as Hr by (intros id Hid; destruct (H5 id cw Hid) as [[? ?] _]; congruence).
  assert (∀ sw, ((sw, Some (ToClient cw)) ∉ calls)) as Hc.
  { intros sw Hin. destruct (H6 _ _ Hin) as [(cw' & [= <-] & [? ?])|(? & ? & ? & [=])]. congruence. }
  split_and!; try done. split.
  - intros cw' f [[<- [= <-]]|[_ Hf]]%lookup_insert_Some; [exists call; set_solver|].
    destruct (H1 _ _ Hf) as (call' & -> & Hin). exists call'. set_solver.
  - intros cw1 cw2 call' [[<- [= <-]]|[Hn1 Hf1]]%lookup_insert_Some [[<- ?]|[Hn2 Hf2]]%lookup_insert_Some; try done.
    + destruct (H1 _ _ Hf2) as (call'' & [= <-] & ?). done.
    + destruct (H1 _ _ Hf1) as (call'' & [= <-] & Hin). congruence.
    + by eapply H2.
  - intros call' Hin%H3. set_solver.
  - done.
  - intros id cw' Hid. destruct (H5 id cw' Hid) as (Hs & Hn & Ha).
    assert (cw' ≠ cw) by (intros ->; by eapply Hr). rewrite lookup_insert_ne by done. done.
  - intros sw f Hin. destruct (H6 sw f Hin) as [(cw' & -> & Hs)|Hf]; [left|by right].
    exists cw'. split; [done|]. destruct (decide (cw' = cw)) as [->|]; [by rewrite lookup_insert_eq|by rewrite lookup_insert_ne].
  - intros call'. destruct (H7 call') as [Hl|(sw & cw' & Hin & Hcb)]; [by left|right].
    exists sw, cw'. split; [done|]. rewrite lookup_insert_ne; [done|]. intros <-. by eapply Hc.
Qed.

(** An answer, after which the callback is forgotten. *)
Lemma ci_refuse u cb ans calls recs cw call status :
  cb !! cw = Some (Some (Answer call)) → answers_of call ans = [] → (∀ sw, ((sw, Some (ToClient cw)) ∉ calls)) →
  call_inv u cb ans calls recs → call_inv u (<[cw := None]> cb) (ans ++ [(call, status)]) calls recs.
Proof.
  intros Hcw Hans Hnd [H1 H2 H3 H4 H5 H6 H7].
  assert (∀ cw' f, <[cw := None]> cb !! cw' = Some (Some f) → cw' ≠ cw ∧ cb !! cw' = Some (Some f)) as Hold
    by (intros cw' f [[? [=]]|[? ?]]%lookup_insert_Some; done).
  split.
  - intros cw' f [_ Hf]%Hold. by eapply H1.
  - intros cw1 cw2 call' [_ Hf1]%Hold [_ Hf2]%Hold. by eapply H2.
  - intros call'. rewrite answers_of_app. case_decide as Hc; [subst call'|rewrite app_nil_r; apply H3].
    intros _. destruct (H1 _ _ Hcw) as (? & [= <-] & ?). done.
  - done.
  - intros id cw' Hid. destruct (H5 id cw' Hid) as (Hs & Hn & Ha). split_and!; [|done|].
    + destruct (decide (cw' = cw)) as [->|]; [by rewrite lookup_insert_eq|by rewrite lookup_insert_ne].
    + intros call' [Hne Hf]%Hold. rewrite answers_of_app, (Ha _ Hf). rewrite decide_False; [done|].
      intros <-. apply Hne. by eapply H2.
  - intros sw f Hin. destruct (H6 sw f Hin) as [(cw' & -> & Hs)|Hf]; [left|by right].
    exists cw'. split; [done|]. destruct (decide (cw' = cw)) as [->|]; [by rewrite lookup_insert_eq|by rewrite lookup_insert_ne].
  - intros call'. rewrite answers_of_app. destruct (H7 call') as [Hl|(sw & cw' & Hin & Hcb)].
    + left. case_decide as Hc; [subst call'; rewrite Hans; cbn; lia|by rewrite app_nil_r].
    + right. exists sw, cw'. split; [done|]. rewrite lookup_insert_ne; [done|]. intros <-. by eapply Hnd.
Qed.

(** An answer that leaves the callback: of the timer, or of a direct call. *)
Lemma ci_answer u cb ans calls recs cw call status :
  cb !! cw = Some (Some (Answer call)) → (∀ id, recs !! id ≠ Some cw) →
  answers_of call ans = [] ∨ (∃ sw, (sw, Some (ToClient cw)) ∈ calls) →
  call_inv u cb ans calls recs → call_inv u cb (ans ++ [(call, status)]) calls recs.
Proof.
  intros Hcw Hnr Hor [H1 H2 H3 H4 H5 H6 H7]. split; try done.
  - intros call'. rewrite answers_of_app. case_decide as Hc; [subst call'|rewrite app_nil_r; apply H3].
    intros _. destruct (H1 _ _ Hcw) as (? & [= <-] & ?). done.
  - intros id cw' Hid. destruct (H5 id cw' Hid) as (Hs & Hn & Ha). split_and!; [done|done|].
    intros call' Hf. rewrite answers_of_app, (Ha _ Hf). rewrite decide_False; [done|].
    intros <-. eapply (Hnr id). by rewrite Hid, (H2 _ _ _ Hcw Hf).
  - intros call'. rewrite answers_of_app. destruct (H7 call') as [Hl|Hd]; [|by right].
    case_decide as Hc; [subst call'|left; by rewrite app_nil_r].
    destruct Hor as [->|[sw Hsw]]; [left; cbn; lia|right; by exists sw, cw].
Qed.

Lemma ci_record u cb ans calls recs cw call id :
  cb !! cw = Some (Some (Answer call)) → answers_of call ans = [] →
  (∀ id, recs !! id ≠ Some cw) → (∀ sw, ((sw, Some (ToClient cw)) ∉ calls)) →
  call_inv u cb ans calls recs → call_inv u cb ans calls (<[id := cw]> recs).
Proof.
  intros Hcw Hans Hnr Hnd [H1 H2 H3 H4 H5 H6 H7]. split; try done.
  - intros id1 id2 cw' [[<- <-]|[_ Hf1]]%lookup_insert_Some [[<- ?]|[_ Hf2]]%lookup_insert_Some; try done.
    + by destruct (Hnr id2).
    + subst cw'. by destruct (Hnr id1).
    + by eapply H4.
  - intros id' cw' [[<- <-]|[_ Hf]]%lookup_insert_Some; [|by eapply H5].
    split_and!; [by eexists|done|]. intros call' Hc. congruence.
Qed.

Lemma ci_unrecord u cb ans calls recs id :
  call_inv u cb ans calls recs → call_inv u cb ans calls (delete id recs).
Proof.
  intros [H1 H2 H3 H4 H5 H6 H7]. split; try done.
  - intros id1 id2 cw' [_ Hf1]%lookup_delete_Some [_ Hf2]%lookup_delete_Some. by eapply H4.
  - intros id' cw' [_ Hf]%lookup_delete_Some. by eapply H5.
Qed.

Lemma ci_unrecord_all u cb ans calls recs : call_inv u cb ans calls recs → call_inv u cb ans calls ∅.
Proof. intros [H1 H2 H3 H4 H5 H6 H7]. split; try done. Qed.

Lemma ci_add_call u cb ans calls recs sw f :
  (∃ sw' id ty, f = Some (Reply sw' id ty)) ∨
  (∃ cw, f = Some (ToClient cw) ∧ is_Some (cb !! cw) ∧ ∀ id, recs !! id ≠ Some cw) →
  call_inv u cb ans calls recs → call_inv u cb ans (calls ++ [(sw, f)]) recs.
Proof.
  intros Hf [H1 H2 H3 H4 H5 H6 H7]. split; try done.
  - intros id cw Hid. destruct (H5 id cw Hid) as (Hs & Hn & Ha). split_and!; try done.
    intros sw' [Hin|Heq%list_elem_of_singleton]%elem_of_app; [by eapply Hn|]. injection Heq as <- <-.
    destruct Hf as [(? & ? & ? & [=])|(cw' & [= <-] & _ & Hne)]. by eapply Hne.
  - intros sw' f' [Hin|Heq%list_elem_of_singleton]%elem_of_app; [by eapply H6|]. injection Heq as <- <-.
    destruct Hf as [(? & ? & ? & [= ->])|(cw' & [= ->] & Hs & _)]; [right; eauto|left; eauto].
  - intros call. destruct (H7 call) as [Hl|(sw' & cw & Hin & Hcb)]; [by left|right].
    exists sw', cw. split; [|done]. apply elem_of_app. by left.
Qed.
End CallInvariant.

(** * Every interleaving *)

Section Interleaving.
Context {Msg X : Type} `{HasLocalRpc X} `{IterOrder}.
Context (user_client_hook user_service_hook : nat → nat → Z → M (World Msg X) unit).
Context (Create : TypeSupport Msg → Msg).
Context (r : RpcRegistry Msg X).
Context (Hservices : ∀ k f, service_func_wrapper_map r !! k = Some f → service_func f = service_terminal).
Implicit Types w : World Msg X.
Implicit Types u : gset nat.

Abbreviation lr_Invoke := (lr_Invoke user_client_hook Create).
Abbreviation run_service := (run_service user_client_hook user_service_hook).
Abbreviation fire_timer := (fire_timer user_client_hook).

(** What may happen to the world after the backend has been started, with the
    calls made so far: a new call, by a wrapper such as the manager makes; a
    service that calls its callback, once more or not, or writes its response;
    a timer that fires; the shutdown; and anything the users do to contexts
    and message objects. *)
Inductive lr_step : gset nat * World Msg X → gset nat * World Msg X → Prop :=
| lr_step_invoke u w i call c m :
    call ∉ u → iw_callback i = Some (Answer call) → iw_req i = Some m → req_serialization_cache i = ∅ →
    is_Some (iw_rsp i) → w_ctxs w !! iw_ctx i = Some c →
    lr_step (u, w) ({[call]} ∪ u, ((cw ← new_client i; lr_Invoke r cw) w).2)
| lr_step_reply u w sw cb status :
    (sw, Some cb) ∈ w_calls w → lr_step (u, w) (u, (run_service cb status w).2)
| lr_step_write u w sw j m :
    w_services w !! sw = Some j → lr_step (u, w) (u, (write_obj (iw_rsp j) m w).2)
| lr_step_timer u w k : lr_step (u, w) (u, (fire_timer k w).2)
| lr_step_shutdown u w : lr_step (u, w) (u, (on_lr lr_Shutdown w).2)
| lr_step_outside u w ctxs objs :
    (∀ a, is_Some (w_objs w !! a) → is_Some (objs !! a)) →
    lr_step (u, w) (u, set_w_ctxs ctxs (set_w_objs objs w)).

Definition cbm w : gmap nat (option ClientCb) := iw_callback <$> w_clients w.
Definition tool_recs (t : option (RpcClientTool nat)) : gmap Z nat :=
  match t with Some t => client_msg_recorder_map t | None => ∅ end.
Definition recs w : gmap Z nat := tool_recs (client_tool_ptr (lr_of w)).

(** A call that the tool keeps: its timer is set, if there are timers, and its
    service holds the callback. *)
Definition pending w (t : RpcClientTool nat) (call : nat) : Prop :=
  ∃ id cw, client_msg_recorder_map t !! id = Some cw ∧ cbm w !! cw = Some (Some (Answer call)) ∧
    (ct_timeout_executor t = true → ∃ timeout, (id, timeout) ∈ ct_timers t) ∧
    ∃ sw ty, (sw, Some (Reply sw id ty)) ∈ w_calls w.

Definition live u w (t : RpcClientTool nat) : Prop :=
  ∀ call, call ∈ u →
    answers_of call (w_answers w) ≠ [] ∨ direct (cbm w) (w_calls w) call ∨ pending w t call.

Definition index_ok (idx : ServiceFuncIndexMap) : Prop :=
  ∀ f pkgs, idx !! f = Some pkgs → pkgs ≠ ∅ ∧ ∀ p ms, pkgs !! p = Some ms → ms ≠ ∅.

(** Timers are set when there is an executor for them, and then there is what
    they do. *)
Definition tool_ok (t : RpcClientTool nat) : Prop :=
  ct_timeout_handle t = ct_timeout_executor t ∧ (ct_timers t ≠ [] → ct_timeout_executor t = true).

(** [ul]: the calls made so far that are on their way. *)
Record world_inv u (ul : gset nat) w : Prop := {
  wi_calls : call_inv u (cbm w) (w_answers w) (w_calls w) (recs w);
  wi_rsp cw i : w_clients w !! cw = Some i → is_Some (iw_rsp i);
  wi_services sw sw' id ty : (sw, Some (Reply sw' id ty)) ∈ w_calls w →
    sw' = sw ∧ ∃ j, w_services w !! sw = Some j ∧ is_Some (obj_at w (iw_rsp j));
  wi_index : index_ok (service_func_register_index (lr_of w));
  wi_running : match lr_state (lr_of w) with
               | kStart => ∃ t, client_tool_ptr (lr_of w) = Some t ∧
                             tool_ok t ∧ live ul w t
               | kShutdown => client_tool_ptr (lr_of w) = None
               | _ => False
               end
}.

(** *** How the parts of the world change *)

Lemma cbm_insert cw i w : cbm (set_w_clients (<[cw := i]> (w_clients w)) w) = <[cw := iw_callback i]> (cbm w).
Proof. unfold cbm. cbn. by rewrite fmap_insert. Qed.

Lemma cbm_lookup w cw i : w_clients w !! cw = Some i → cbm w !! cw = Some (iw_callback i).
Proof. intros Hi. unfold cbm. by rewrite lookup_fmap, Hi. Qed.

Lemma cbm_lookup_inv w cw f : cbm w !! cw = Some f → ∃ i, w_clients w !! cw = Some i ∧ iw_callback i = f.
Proof. unfold cbm. rewrite lookup_fmap. destruct (w_clients w !! cw) as [i|]; [|done]. intros [= <-]. by exists i. Qed.

Lemma cbm_same_cb cw i i' w :
  w_clients w !! cw = Some i → iw_callback i' = iw_callback i →
  cbm (set_w_clients (<[cw := i']> (w_clients w)) w) = cbm w.
Proof. intros Hi Hcb. rewrite cbm_insert, Hcb. apply insert_id. by apply cbm_lookup. Qed.

Lemma select_service_ok pkgs pkg module :
  pkgs ≠ ∅ → (∀ p ms, pkgs !! p = Some ms → ms ≠ ∅) → is_ok (select_service pkgs pkg module) = true.
Proof.
  intros Hne Hms. unfold select_service.
  destruct (String.eqb pkg ""); [destruct (String.eqb module "")|].
  - destruct (map_order_head pkgs Hne) as (p & ms & l & -> & Hp).
    by destruct (set_order_head ms (Hms p ms Hp)) as (x & l' & -> & _).
  - by destruct (String.eqb _ "").
  - destruct (pkgs !! pkg) as [ms|] eqn:Hp; [|done]. destruct (String.eqb module "").
    + by destruct (set_order_head ms (Hms pkg ms Hp)) as (x & l' & -> & _).
    + by case_bool_decide.
Qed.

(** Two worlds that differ in nothing the invariant is about. *)
Lemma world_inv_frame u ul w w' :
  world_inv u ul w → w_clients w' = w_clients w → w_answers w' = w_answers w → w_calls w' = w_calls w →
  lr_of w' = lr_of w → w_services w' = w_services w →
  (∀ a, is_Some (w_objs w !! a) → is_Some (w_objs w' !! a)) → world_inv u ul w'.
Proof.
  intros [H1 H2 H3 H4 H5] E1 E2 E3 E4 E5 Hobjs.
  assert (cbm w' = cbm w) as Ec by (unfold cbm; by rewrite E1).
  split; unfold recs, live, pending; rewrite ?Ec, ?E1, ?E2, ?E3, ?E4, ?E5; try done.
  intros sw sw' id ty Hin. destruct (H3 sw sw' id ty Hin) as (-> & j & Hj & Ho). split; [done|].
  exists j. split; [done|]. unfold obj_at in *. destruct (iw_rsp j) as [a|]; cbn in *; [by apply Hobjs|done].
Qed.

Lemma live_mono ul w w' t t' :
  live ul w t → cbm w' = cbm w →
  (∀ call, answers_of call (w_answers w) ≠ [] → answers_of call (w_answers w') ≠ []) →
  (∀ x, x ∈ w_calls w → x ∈ w_calls w') →
  client_msg_recorder_map t ⊆ client_msg_recorder_map t' → ct_timeout_executor t' = ct_timeout_executor t →
  (∀ x, x ∈ ct_timers t → x ∈ ct_timers t') →
  live ul w' t'.
Proof.
  intros Hl Ec Ha Hc Hr He Ht call Hin. rewrite Ec. destruct (Hl call Hin) as [Hans|[(sw & cw & Hd & Hcb)|Hp]].
  - left. by apply Ha.
  - right; left. exists sw, cw. auto.
  - right; right. destruct Hp as (id & cw & Hid & Hcb & Htm & sw & ty & Hcall). exists id, cw. rewrite Ec, He.
    split; [by eapply lookup_weaken|]. split; [done|]. split.
    + intros Hex. destruct (Htm Hex) as [timeout Hti]. eauto.
    + exists sw, ty. auto.
Qed.

(** The new call is on its way too. *)
Lemma wi_live_add u ul w call :
  world_inv u ul w →
  (∀ t, client_tool_ptr (lr_of w) = Some t →
     answers_of call (w_answers w) ≠ [] ∨ direct (cbm w) (w_calls w) call ∨ pending w t call) →
  world_inv u ({[call]} ∪ ul) w.
Proof.
  intros [H1 H2 H3 H4 H5] Hnew. split; try done. destruct (lr_state (lr_of w)); try done.
  destruct H5 as (t & Ht & Hh & Hl). exists t. split_and!; try done.
  intros call' [->%elem_of_singleton|Hin]%elem_of_union; [by apply Hnew|by apply Hl].
Qed.

Lemma answers_of_kept call call' ans status :
  answers_of call ans ≠ [] → answers_of call (ans ++ [(call', status)]) ≠ [].
Proof. intros Ha. rewrite answers_of_app. intros [? _]%app_nil. done. Qed.

Lemma answers_of_new call ans status : answers_of call (ans ++ [(call, status)]) ≠ [].
Proof. rewrite answers_of_app, decide_True by done. by intros [_ [=]]%app_nil. Qed.

(** What a refusal keeps of the calls on their way. *)
Lemma live_refuse ul w w' t call cw status :
  live ul w t → cbm w !! cw = Some (Some (Answer call)) → cbm w' = <[cw := None]> (cbm w) →
  w_answers w' = w_answers w ++ [(call, status)] → w_calls w' = w_calls w →
  live ul w' t.
Proof.
  intros Hl Hcw Ec Ea El call' Hin. rewrite Ec, Ea, El. destruct (decide (call' = call)) as [->|Hne].
  { left. apply answers_of_new. }
  destruct (Hl call' Hin) as [Hans|[(sw & cw' & Hd & Hcb)|Hp]].
  - left. by apply answers_of_kept.
  - right; left. exists sw, cw'. split; [done|]. rewrite lookup_insert_ne; [done|]. intros <-. congruence.
  - right; right. destruct Hp as (id & cw' & Hid & Hcb & Htm & Hcall). exists id, cw'. rewrite Ec, El.
    split_and!; try done. rewrite lookup_insert_ne; [done|]. intros <-. congruence.
Qed.

Lemma wi_refuse u ul w cw i i' call status :
  world_inv u ul w → w_clients w !! cw = Some i → iw_callback i = Some (Answer call) → is_Some (iw_rsp i') →
  answers_of call (w_answers w) = [] → (∀ sw, ((sw, Some (ToClient cw)) ∉ w_calls w)) →
  world_inv u ({[call]} ∪ ul) (refuse cw i' call status w).
Proof.
  intros [H1 H2 H3 H4 H5] Hi Hcb Hrsp Hans Hnd.
  assert (cbm w !! cw = Some (Some (Answer call))) as Hcw by (by rewrite (cbm_lookup _ _ _ Hi), Hcb).
  set (w' := refuse cw i' call status w).
  assert (cbm w' = <[cw := None]> (cbm w)) as Ec by (unfold w', refuse, cbm; cbn; by rewrite fmap_insert).
  apply wi_live_add; [|intros t _; left; apply answers_of_new].
  split; try done.
  - rewrite Ec. by apply ci_refuse.
  - intros cw' i0. unfold w', refuse. cbn. intros [[_ <-]|[_ Hi0]]%lookup_insert_Some; [done|by eapply H2].
  - change (lr_of w') with (lr_of w). destruct (lr_state (lr_of w)); try done.
    destruct H5 as (t & Ht & Hh & Hl). exists t. split_and!; try done. by eapply live_refuse.
Qed.

(** The service is called. *)
Lemma wi_new_call u ul w j sc f :
  world_inv u ul w → iw_callback j = Some f →
  (∃ id ty, f = Reply (fresh (dom (w_services w))) id ty ∧ is_Some (obj_at w (iw_rsp j))) ∨
  (∃ cw, f = ToClient cw ∧ is_Some (cbm w !! cw) ∧ ∀ id, recs w !! id ≠ Some cw) →
  world_inv u ul (new_call j sc w).
Proof.
  intros [H1 H2 H3 H4 H5] Hj Hf. set (sw := fresh (dom (w_services w))) in *.
  assert (w_services w !! sw = None) as Hsw by (apply not_elem_of_dom, is_fresh).
  unfold new_call. fold sw. set (w' := call_service sw j sc w).
  assert (w_calls w' = w_calls w ++ [(sw, Some f)]) as El by (unfold w', call_service; cbn; by rewrite Hj).
  split; try done.
  - change (cbm w') with (cbm w). change (recs w') with (recs w). rewrite El.
    apply ci_add_call; [|done]. destruct Hf as [(id & ty & -> & _)|(cw & -> & Hs & Hn)]; [left|right]; eauto.
  - intros sw1 sw2 id ty. rewrite El. intros [Hin|Heq%list_elem_of_singleton]%elem_of_app.
    + destruct (H3 _ _ _ _ Hin) as (-> & j' & Hj' & Ho). split; [done|]. exists j'. split; [|done].
      cbn. rewrite lookup_insert_ne; [done|]. intros <-. congruence.
    + injection Heq as -> <-. destruct Hf as [(id' & ty' & [= <- _ _] & Ho)|(? & [=] & _)].
      split; [done|]. eexists. split; [apply lookup_insert_eq|done].
  - change (lr_of w') with (lr_of w). destruct (lr_state (lr_of w)); try done.
    destruct H5 as (t & Ht & Hh & Hl). exists t. split_and!; try done.
    eapply live_mono; [done|done|done| |done|done|done].
    intros x Hx. rewrite El. apply elem_of_app. by left.
Qed.

(** The call is recorded. *)
Lemma wi_record u ul w cw call c t :
  world_inv u ul w → client_tool_ptr (lr_of w) = Some t → client_msg_recorder_map t !! lr_req_id (lr_of w) = None →
  cbm w !! cw = Some (Some (Answer call)) → answers_of call (w_answers w) = [] →
  (∀ id, recs w !! id ≠ Some cw) → (∀ sw, ((sw, Some (ToClient cw)) ∉ w_calls w)) →
  world_inv u ul (with_lr (record_call cw c t (lr_of w)) w).
Proof.
  intros [H1 H2 H3 H4 H5] Ht Hid Hcw Hans Hnr Hnd. set (w' := with_lr _ w).
  assert (lr_of w' = record_call cw c t (lr_of w)) as El by apply with_lr_same.
  assert (recs w = client_msg_recorder_map t) as Er by (unfold recs; by rewrite Ht).
  split; try done.
  - change (cbm w') with (cbm w). unfold recs. rewrite El. cbn. rewrite <-Er.
    eapply ci_record; try done.
  - by rewrite El.
  - rewrite El. cbn. destruct (lr_state (lr_of w)); try done; [|congruence].
    destruct H5 as (t' & Ht' & Hh & Hl). eexists. split; [reflexivity|].
    rewrite Ht in Ht'. injection Ht' as <-. split.
    { destruct Hh as [Hh1 Hh2]. split; [done|]. cbn. by destruct (ct_timeout_executor t). }
    eapply live_mono; [exact Hl|done..|cbn; by apply insert_subseteq|done|].
    cbn. intros x Hx. destruct (ct_timeout_executor t); [|done]. apply elem_of_app. by left.
Qed.

(** A client's wrapper is made for a new call. *)
Lemma wi_add_client u w i call :
  world_inv u u w → call ∉ u → iw_callback i = Some (Answer call) → is_Some (iw_rsp i) →
  let cw := fresh (dom (w_clients w)) in
  let w1 := set_w_clients (<[cw := i]> (w_clients w)) w in
  world_inv ({[call]} ∪ u) u w1 ∧ answers_of call (w_answers w1) = [] ∧ (∀ id, recs w1 !! id ≠ Some cw) ∧
  (∀ sw, ((sw, Some (ToClient cw)) ∉ w_calls w1)).
Proof.
  intros [H1 H2 H3 H4 H5] Hu Hcb Hrsp cw w1.
  assert (w_clients w !! cw = None) as Hcw by (apply not_elem_of_dom, is_fresh).
  assert (cbm w !! cw = None) as Hcw' by (unfold cbm; by rewrite lookup_fmap, Hcw).
  assert (cbm w1 = <[cw := Some (Answer call)]> (cbm w)) as Ec by (unfold w1; by rewrite cbm_insert, Hcb).
  destruct (ci_add_client u (cbm w) (w_answers w) (w_calls w) (recs w) cw call Hu Hcw' H1) as (Hci & Ha & Hr & Hc).
  split_and!; try done. split; try done.
  - by rewrite Ec.
  - intros cw' i0. cbn. intros [[_ <-]|[_ Hi0]]%lookup_insert_Some; [done|by eapply H2].
  - change (lr_of w1) with (lr_of w). destruct (lr_state (lr_of w)); try done.
    destruct H5 as (t & Ht & Hh & Hl). exists t. split_and!; try done.
    intros call' Hin. rewrite Ec. change (w_answers w1) with (w_answers w). change (w_calls w1) with (w_calls w).
    destruct (Hl call' Hin) as [Hans|[(sw & cw' & Hd & Hcb')|Hp]]; [by left|right; left|right; right].
    + exists sw, cw'. split; [done|]. rewrite lookup_insert_ne; [done|]. intros <-. congruence.
    + destruct Hp as (id & cw' & Hid & Hcb' & Htm & Hcall). exists id, cw'. rewrite Ec. split_and!; try done.
      rewrite lookup_insert_ne; [done|]. intros <-. congruence.
Qed.

Lemma w_ctxs_set_ctx_other ctx c' w k c : w_ctxs w !! k = Some c → ctx = fresh (dom (w_ctxs w)) →
  w_ctxs (set_ctx ctx c' w) !! k = Some c.
Proof.
  intros Hk ->. cbn. rewrite lookup_insert_ne; [done|]. intros Heq.
  apply (is_fresh (dom (w_ctxs w))). apply elem_of_dom. rewrite Heq. by exists c.
Qed.

Lemma wi_set_ctx u ul ctx c w : world_inv u ul w → world_inv u ul (set_ctx ctx c w).
Proof. intros Hw. by eapply world_inv_frame. Qed.

(** From the record on. *)
Lemma wi_other_pkg u ul f ctx_id cw i call c sc m t w :
  world_inv u ul w → w_clients w !! cw = Some i → iw_callback i = Some (Answer call) → is_Some (iw_rsp i) →
  client_tool_ptr (lr_of w) = Some t → answers_of call (w_answers w) = [] →
  (∀ id, recs w !! id ≠ Some cw) → (∀ sw, ((sw, Some (ToClient cw)) ∉ w_calls w)) →
  world_inv u ({[call]} ∪ ul) (other_pkg_effect Create f ctx_id cw i call c sc m t w).
Proof.
  intros Hw Hi Hcb Hrsp Ht Hans Hnr Hnd.
  assert (cbm w !! cw = Some (Some (Answer call))) as Hcw by (by rewrite (cbm_lookup _ _ _ Hi), Hcb).
  unfold other_pkg_effect. set (l := lr_of w) in *. set (id := lr_req_id l).
  destruct (client_msg_recorder_map t !! id) as [cw'|] eqn:Hid.
  - apply (wi_refuse _ _ _ _ i); try done. destruct Hw as [H1 H2 H3 H4 H5].
    assert (lr_of (with_lr (set_lr_req_id (wrap32 (id + 1)) l) w) = set_lr_req_id (wrap32 (id + 1)) l) as El
      by apply with_lr_same.
    split; try done; rewrite ?El; try done. unfold recs. by rewrite El.
  - pose proof (wi_record u ul w cw call c t Hw Ht Hid Hcw Hans Hnr Hnd) as Hw1. fold l in Hw1.
    set (w1 := with_lr (record_call cw c t l) w) in *.
    destruct (Serialize _ _ m) as [b|]; [|by apply (wi_refuse _ _ _ _ i)].
    set (i' := set_req_cache _ i). set (w2 := set_w_clients _ w1).
    assert (world_inv u ul w2) as Hw2.
    { destruct Hw1 as [H1 H2 H3 H4 H5].
      assert (cbm w2 = cbm w1) as Ec by by apply (cbm_same_cb cw i i' w1).
      split; try done; rewrite ?Ec; try done.
      - intros cw0 i0. cbn. intros [[_ <-]|[_ Hi0]]%lookup_insert_Some; [done|by eapply H2].
      - change (lr_of w2) with (lr_of w1). destruct (lr_state (lr_of w1)); try done.
        destruct H5 as (t' & Ht' & Hh & Hl). exists t'. split_and!; try done.
        by eapply live_mono. }
    destruct (Deserialize _ _ b) as [req|]; [|by apply (wi_refuse _ _ _ _ i'); try done; apply lookup_insert_eq].
    set (j := mkInvokeWrapper _ _ _ _ _ _ _). set (rsp := fresh (dom (w_objs w))) in *.
    match goal with |- world_inv _ _ (new_call j sc ?w') => set (w3 := w') end.
    assert (world_inv u ul w3) as Hw3.
    { eapply world_inv_frame; [exact Hw2|done..|]. intros a Ha. cbn. destruct (decide (a = rsp)) as [->|].
      - by rewrite lookup_insert_eq.
      - by rewrite lookup_insert_ne. }
    apply wi_live_add.
    + eapply wi_new_call; [exact Hw3|done|]. left. do 2 eexists. split; [done|].
      cbn. unfold obj_at. cbn. rewrite lookup_insert_eq. by eexists.
    + intros t' Ht'. right; right. change (client_tool_ptr (lr_of w1) = Some t') in Ht'.
      unfold w1 in Ht'. rewrite with_lr_same in Ht'. injection Ht' as <-.
      exists id, cw. split; [cbn; apply lookup_insert_eq|]. split.
      { change (cbm (new_call j sc w3)) with (cbm w2). unfold w2. rewrite cbm_insert. cbn.
        by rewrite lookup_insert_eq, Hcb. }
      split.
      * cbn. intros ->. exists (rc_Timeout c). apply elem_of_app. right. by apply list_elem_of_singleton.
      * do 2 eexists. apply elem_of_app. right. apply list_elem_of_singleton. reflexivity.
Qed.

Lemma wi_invoke u w i call c m :
  world_inv u u w → call ∉ u → iw_callback i = Some (Answer call) → iw_req i = Some m →
  req_serialization_cache i = ∅ → is_Some (iw_rsp i) → w_ctxs w !! iw_ctx i = Some c →
  world_inv ({[call]} ∪ u) ({[call]} ∪ u) ((cw ← new_client i; lr_Invoke r cw) w).2.
Proof using Hservices.
  intros Hw Hu Hcb Hreq Hcache Hrsp Hc.
  destruct (wi_add_client u w i call Hw Hu Hcb Hrsp) as (Hw1 & Hans & Hnr & Hnd).
  unfold new_client. unfold_monad. set (cw := fresh _) in *. set (w1 := set_w_clients _ w) in *.
  assert (w_clients w1 !! cw = Some i) as Hi by apply lookup_insert_eq.
  assert (cbm w1 !! cw = Some (Some (Answer call))) as Hcw by (by rewrite (cbm_lookup _ _ _ Hi), Hcb).
  destruct (lr_state (lr_of w1)) eqn:Hst.
  1, 2: pose proof (wi_running _ _ _ Hw1) as Hrun; by rewrite Hst in Hrun.
  - pose proof (wi_running _ _ _ Hw1) as Hrun. rewrite Hst in Hrun.
    destruct Hrun as (t & Ht & _).
    rewrite (lr_Invoke_eq _ _ _ Hservices cw i call c m t Hcb Hreq Hcache w1 Hi Hc Hst Ht).
    2: { intros pkgs pkg module Hp. destruct (wi_index _ _ _ Hw1 _ _ Hp). by apply select_service_ok. }
    cbn [snd]. unfold invoke_effect.
    destruct (parse_service_addr _) as [status|[pkg module]]; [by apply (wi_refuse _ _ _ _ i)|].
    destruct (service_func_register_index (lr_of w1) !! _) as [pkgs|] eqn:Hp; [|by apply (wi_refuse _ _ _ _ i)].
    destruct (wi_index _ _ _ Hw1 _ _ Hp) as [Hp1 Hp2]. pose proof (select_service_ok pkgs pkg module Hp1 Hp2) as Hok.
    destruct (select_service pkgs pkg module) as [[status|[pkg' module']]| |]; try done; [by apply (wi_refuse _ _ _ _ i)|].
    destruct (GetServiceFuncWrapperPtr r _ pkg' module') as [f|]; [|by apply (wi_refuse _ _ _ _ i)].
    set (id := fresh _). set (sc := service_ctx _ _ _).
    pose proof (wi_set_ctx _ _ id sc _ Hw1) as Hw2. set (w2 := set_ctx id sc w1) in *.
    case_bool_decide.
    + apply wi_live_add.
      * eapply wi_new_call; [exact Hw2|done|]. right. exists cw. by split_and!.
      * intros t' _. right; left. eexists _, cw. split; [|exact Hcw].
        apply elem_of_app. right. apply list_elem_of_singleton. reflexivity.
    + by apply wi_other_pkg.
  - unfold LocalRpc.lr_Invoke, try_catch, mbind, M_bind. rewrite on_lr_get. rewrite Hst. unfold state_eqb.
    rewrite (bool_decide_eq_false_2 (kShutdown = kStart)) by done. cbn [negb].
    rewrite (InvokeCallBack_eq _ _ _ _ _ _ Hi Hcb). cbn [snd]. by apply (wi_refuse _ _ _ _ i).
Qed.

(** A record is taken: the call is no longer pending, the others are. *)
Lemma live_unrecord ul w w' t t' id cw call :
  live ul w t → (∀ id', id' ≠ id → client_msg_recorder_map t' !! id' = client_msg_recorder_map t !! id') →
  client_msg_recorder_map t !! id = Some cw → cbm w !! cw = Some (Some (Answer call)) →
  ct_timeout_executor t' = ct_timeout_executor t →
  (∀ x, x ∈ ct_timers t → x.1 ≠ id → x ∈ ct_timers t') →
  cbm w' = cbm w → w_calls w' = w_calls w → w_answers w' = w_answers w →
  live (ul ∖ {[call]}) w' t'.
Proof.
  intros Hl Hr Hid Hcw Hex Htm Ec El Ea call' [Hin Hne]%elem_of_difference. rewrite Ec, El, Ea.
  destruct (Hl call' Hin) as [Hans|[Hd|Hp]]; [by left|by right; left|right; right].
  destruct Hp as (id' & cw' & Hid' & Hcb' & Ht & Hcall). exists id', cw'.
  assert (id' ≠ id) as Hidne.
  { intros ->. rewrite Hid in Hid'. injection Hid' as <-. rewrite Hcw in Hcb'. injection Hcb' as ->. set_solver. }
  rewrite Hr, Ec, El, Hex by done. split_and!; try done.
  intros He. destruct (Ht He) as [timeout Hti]. exists timeout. by apply Htm.
Qed.

(** The world once the record of a call is taken. *)
Lemma wi_drop_record u w t t' id cw call :
  world_inv u u w → client_tool_ptr (lr_of w) = Some t → client_msg_recorder_map t !! id = Some cw →
  cbm w !! cw = Some (Some (Answer call)) → client_msg_recorder_map t' = delete id (client_msg_recorder_map t) →
  ct_timeout_executor t' = ct_timeout_executor t → ct_timeout_handle t' = ct_timeout_handle t →
  (ct_timers t' ≠ [] → ct_timers t ≠ []) → (∀ x, x ∈ ct_timers t → x.1 ≠ id → x ∈ ct_timers t') →
  let w' := with_lr (set_client_tool (Some t') (lr_of w)) w in
  world_inv u (u ∖ {[call]}) w' ∧ answers_of call (w_answers w') = [] ∧ (∀ id, recs w' !! id ≠ Some cw) ∧
  (∀ sw, ((sw, Some (ToClient cw)) ∉ w_calls w')) ∧ call ∈ u.
Proof.
  intros [H1 H2 H3 H4 H5] Ht Hid Hcw Hr Hex Hh Hne Htm w'.
  assert (lr_of w' = set_client_tool (Some t') (lr_of w)) as El by apply with_lr_same.
  assert (recs w = client_msg_recorder_map t) as Er by (unfold recs; by rewrite Ht).
  assert (recs w' = delete id (recs w)) as Er' by (unfold recs; rewrite El, Ht; cbn; by rewrite Hr).
  rewrite <-Er in Hid. destruct (ci_rec _ _ _ _ _ H1 id cw Hid) as (_ & Hnd & Hans).
  split_and!; try done.
  - split; try done; rewrite ?El; try done.
    + change (cbm w') with (cbm w). rewrite Er'. by apply ci_unrecord.
    + cbn. destruct (lr_state (lr_of w)); try done; [|congruence].
      destruct H5 as (t0 & Ht0 & Hh0 & Hl). rewrite Ht in Ht0. injection Ht0 as <-.
      exists t'. split; [done|]. split; [destruct Hh0; split; rewrite ?Hh, ?Hex; auto|]. rewrite Er in Hid.
      eapply live_unrecord; try done. intros id' Hn'. rewrite Hr. by rewrite lookup_delete_ne.
  - by apply Hans.
  - intros id'. rewrite Er'. intros [Hn' Hid']%lookup_delete_Some. apply Hn'. by eapply (ci_rec_inj _ _ _ _ _ H1).
  - destruct (ci_cb _ _ _ _ _ H1 _ _ Hcw) as (? & [= <-] & ?). done.
Qed.

Lemma union_restore u call : call ∈ u → ({[call]} : gset nat) ∪ u ∖ {[call]} = u.
Proof. intros Hin. apply set_eq. intros x. destruct (decide (x = call)) as [->|]; set_solver. Qed.

Lemma pending_callback u w id cw t :
  world_inv u u w → client_tool_ptr (lr_of w) = Some t → client_msg_recorder_map t !! id = Some cw →
  ∃ i, w_clients w !! cw = Some i ∧
    ((∃ call, iw_callback i = Some (Answer call)) ∨ iw_callback i = None).
Proof.
  intros Hw Ht Hid.
  assert (recs w !! id = Some cw) as Hr by (unfold recs; by rewrite Ht).
  destruct (ci_rec _ _ _ _ _ (wi_calls _ _ _ Hw) id cw Hr) as ([f Hf] & _).
  destruct (cbm_lookup_inv _ _ _ Hf) as (i & Hi & Hcb). exists i. split; [done|].
  destruct f as [f|]; [left|by right]. destruct (ci_cb _ _ _ _ _ (wi_calls _ _ _ Hw) _ _ Hf) as (call & -> & _). eauto.
Qed.

(** Two worlds that differ in caches, contexts and what objects hold. *)
Lemma world_inv_caches u ul w w' :
  world_inv u ul w → cbm w' = cbm w → w_answers w' = w_answers w → w_calls w' = w_calls w → lr_of w' = lr_of w →
  (∀ cw i', w_clients w' !! cw = Some i' → ∃ i, w_clients w !! cw = Some i ∧ iw_rsp i' = iw_rsp i) →
  (∀ sw j, w_services w !! sw = Some j → ∃ j', w_services w' !! sw = Some j' ∧ iw_rsp j' = iw_rsp j) →
  (∀ a, is_Some (w_objs w !! a) → is_Some (w_objs w' !! a)) → world_inv u ul w'.
Proof.
  intros [H1 H2 H3 H4 H5] Ec E2 E3 E4 Hcl Hsv Hobjs.
  split; unfold recs, live, pending; rewrite ?Ec, ?E2, ?E3, ?E4; try done.
  - intros cw i' Hi'. destruct (Hcl cw i' Hi') as (i & Hi & Heq). rewrite Heq. by eapply H2.
  - intros sw sw' id ty Hin. destruct (H3 sw sw' id ty Hin) as (-> & j & Hj & Ho). split; [done|].
    destruct (Hsv sw j Hj) as (j' & Hj' & Heq). exists j'. split; [done|]. rewrite Heq.
    unfold obj_at in *. destruct (iw_rsp j) as [a|]; cbn in *; [by apply Hobjs|done].
Qed.

Lemma wi_cache_service u ul w sw j x :
  world_inv u ul w → w_services w !! sw = Some j →
  world_inv u ul (set_w_services (<[sw := set_rsp_cache x j]> (w_services w)) w).
Proof.
  intros Hw Hj. eapply world_inv_caches; try done.
  - intros cw i' Hi'. by exists i'.
  - intros sw' j' Hj'. cbn. destruct (decide (sw' = sw)) as [->|].
    + rewrite lookup_insert_eq. eexists. split; [done|]. cbn. congruence.
    + rewrite lookup_insert_ne by done. by exists j'.
Qed.

Lemma wi_cache_client u ul w cw i x :
  world_inv u ul w → w_clients w !! cw = Some i →
  world_inv u ul (set_w_clients (<[cw := set_rsp_cache x i]> (w_clients w)) w).
Proof.
  intros Hw Hi. eapply world_inv_caches; try done.
  - by apply (cbm_same_cb cw i).
  - intros cw' i'. cbn. intros [[<- <-]|[_ Hi']]%lookup_insert_Some; [by exists i|by exists i'].
  - intros sw j Hj. by exists j.
Qed.

Lemma wi_write_obj u ul w a m : world_inv u ul w → world_inv u ul (set_w_objs (<[a := m]> (w_objs w)) w).
Proof.
  intros Hw. eapply world_inv_frame; try done. intros a' Ha. cbn.
  destruct (decide (a' = a)) as [->|]; [by rewrite lookup_insert_eq|by rewrite lookup_insert_ne].
Qed.

(** A callback that has been forgotten throws. *)
Lemma call_client_none cw i status w :
  w_clients w !! cw = Some i → iw_callback i = None →
  call_client user_client_hook cw status w = (Throw (RuntimeError "bad_function_call"), w).
Proof.
  intros Hi Hcb. unfold call_client, on_client. unfold_monad. rewrite Hi. cbn. rewrite Hcb.
  unfold bad_function_call, bad_call, throw. f_equal. destruct w; cbn in *. by rewrite insert_id.
Qed.

Lemma InvokeCallBack_none cw i status w :
  w_clients w !! cw = Some i → iw_callback i = None →
  InvokeCallBack user_client_hook cw status w = (Throw (RuntimeError "bad_function_call"), w).
Proof. intros Hi Hcb. unfold InvokeCallBack, mbind, M_bind. by rewrite (call_client_none cw i). Qed.

(** Taking the record of a call that has been answered already. *)
Lemma wi_drop_dead u w t t' id cw i :
  world_inv u u w → client_tool_ptr (lr_of w) = Some t → client_msg_recorder_map t !! id = Some cw →
  w_clients w !! cw = Some i → iw_callback i = None →
  client_msg_recorder_map t' = delete id (client_msg_recorder_map t) →
  ct_timeout_executor t' = ct_timeout_executor t → ct_timeout_handle t' = ct_timeout_handle t →
  (ct_timers t' ≠ [] → ct_timers t ≠ []) → (∀ x, x ∈ ct_timers t → x.1 ≠ id → x ∈ ct_timers t') →
  world_inv u u (with_lr (set_client_tool (Some t') (lr_of w)) w).
Proof.
  intros [H1 H2 H3 H4 H5] Ht Hid Hi Hcb Hr Hex Hh Hne Htm. set (w' := with_lr _ w).
  assert (lr_of w' = set_client_tool (Some t') (lr_of w)) as El by apply with_lr_same.
  assert (recs w' = delete id (recs w)) as Er' by (unfold recs; rewrite El, Ht; cbn; by rewrite Hr).
  split; try done; rewrite ?El; try done.
  - change (cbm w') with (cbm w). rewrite Er'. by apply ci_unrecord.
  - cbn. destruct (lr_state (lr_of w)); try done; [|congruence].
    destruct H5 as (t0 & Ht0 & Hh0 & Hl). rewrite Ht in Ht0. injection Ht0 as <-.
    exists t'. split; [done|]. split; [destruct Hh0; split; rewrite ?Hh, ?Hex; auto|]. intros call' Hin.
    destruct (Hl call' Hin) as [Hans|[Hd|Hp]]; [by left|by right; left|right; right].
    destruct Hp as (id' & cw' & Hid' & Hcb' & Htm' & Hcall). exists id', cw'.
    assert (id' ≠ id) as Hidne.
    { intros ->. rewrite Hid in Hid'. injection Hid' as <-. rewrite (cbm_lookup _ _ _ Hi), Hcb in Hcb'. done. }
    rewrite Hr, Hex. split_and!; try done; [by rewrite lookup_delete_ne|].
    intros He. destruct (Htm' He) as [timeout Hti]. exists timeout. by apply Htm.
Qed.

Lemma wi_reply u w sw id ty status :
  world_inv u u w → (sw, Some (Reply sw id ty)) ∈ w_calls w →
  world_inv u u (reply user_client_hook sw id ty status w).2.
Proof.
  intros Hw Hin. destruct (client_tool_ptr (lr_of w)) as [t|] eqn:Ht.
  2: { unfold reply, mbind, M_bind. rewrite (on_lr_eq _ w Undef (lr_of w)); [by rewrite with_lr_id|].
       unfold on_tool. by rewrite Ht. }
  destruct (client_msg_recorder_map t !! id) as [cw|] eqn:Hid; [|by rewrite (reply_no_record _ _ _ _ _ t)].
  destruct (wi_services _ _ _ Hw _ _ _ _ Hin) as (_ & j & Hj & [m Hm]).
  destruct (pending_callback u w id cw t Hw Ht Hid) as (i & Hi & [[call Hcb]|Hcb]).
  - destruct (wi_rsp _ _ _ Hw _ _ Hi) as [a Ha].
    assert (cbm w !! cw = Some (Some (Answer call))) as Hcw by (by rewrite (cbm_lookup _ _ _ Hi), Hcb).
    rewrite (reply_eq user_client_hook sw j cw i call a id ty m t status w) by done. cbn [snd].
    destruct (wi_drop_record u w t (drop_record id t) id cw call Hw Ht Hid Hcw) as (Hw1 & Hans & _ & Hnd & Hu); try done.
    rewrite <-(union_restore u call) at 2 by done. unfold reply_effect.
    set (w1 := with_lr _ w) in *.
    destruct (response_form j ty m) as [b|]; [|by apply (wi_refuse _ _ _ _ i)].
    pose proof (wi_cache_service _ _ w1 sw j (emplace_cache ty b (rsp_serialization_cache j)) Hw1 Hj) as Hw2.
    set (w2 := set_w_services _ w1) in *.
    destruct (Deserialize _ ty b) as [m'|]; [|by apply (wi_refuse _ _ _ _ i)].
    apply (wi_refuse _ _ _ _ i); try done. by apply (wi_write_obj _ _ w2).
  - pose proof (wi_drop_dead u w t (drop_record id t) id cw i Hw Ht Hid Hi Hcb) as Hw1.
    specialize (Hw1 eq_refl eq_refl eq_refl ltac:(done) ltac:(done)).
    unfold reply, mbind, M_bind. rewrite (GetRecord_eq id t w Ht), Hid. set (w1 := with_lr _ w) in *.
    rewrite (try_serialize_service_rsp_eq sw j ty m w1 Hj Hm).
    destruct (response_form j ty m) as [b|]; [|by rewrite (InvokeCallBack_none _ _ _ w1 Hi Hcb)].
    pose proof (wi_cache_service _ _ w1 sw j (emplace_cache ty b (rsp_serialization_cache j)) Hw1 Hj) as Hw2.
    set (w2 := set_w_services _ w1) in *. rewrite (on_client_get _ w2 _ Hi).
    destruct (Deserialize _ ty b) as [m'|]; [|by rewrite (InvokeCallBack_none _ _ _ w2 Hi Hcb)].
    destruct (wi_rsp _ _ _ Hw _ _ Hi) as [a Ha]. rewrite Ha. cbn [write_obj]. unfold modify at 1.
    pose proof (wi_write_obj _ _ w2 a m' Hw2) as Hw3. set (w3 := set_w_objs _ w2) in *.
    rewrite (on_client_modify cw _ w3 i Hi).
    rewrite (InvokeCallBack_none cw (set_rsp_cache (emplace_cache ty b (rsp_serialization_cache i)) i));
      [|apply lookup_insert_eq|done].
    by apply (wi_cache_client _ _ w3).
Qed.

Lemma wi_to_client u w sw cw status :
  world_inv u u w → (sw, Some (ToClient cw)) ∈ w_calls w →
  world_inv u u (call_client user_client_hook cw status w).2.
Proof.
  intros Hw Hin. pose proof (wi_calls _ _ _ Hw) as Hc.
  destruct (ci_calls _ _ _ _ _ Hc _ _ Hin) as [(cw' & [= <-] & [f Hf])|(? & ? & ? & [=])].
  destruct (cbm_lookup_inv _ _ _ Hf) as (i & Hi & Hcb). destruct f as [f|].
  2: { by rewrite (call_client_none cw i). }
  destruct (ci_cb _ _ _ _ _ Hc _ _ Hf) as (call & -> & Hu).
  rewrite (call_client_eq user_client_hook cw w i call status Hi Hcb). cbn [snd].
  destruct Hw as [H1 H2 H3 H4 H5]. split; try done.
  - apply (ci_answer _ _ _ _ _ cw); [done| |right; by exists sw|done].
    intros id Hid. destruct (ci_rec _ _ _ _ _ Hc _ _ Hid) as (_ & Hn & _). by apply (Hn sw).
  - change (lr_of (answered call status w)) with (lr_of w). destruct (lr_state (lr_of w)); try done.
    destruct H5 as (t & Ht & Hh & Hl). exists t. split_and!; try done.
    eapply live_mono; [exact Hl|done| |done..]. intros call'. cbn. apply answers_of_kept.
Qed.

Lemma wi_run_service u w sw cb status :
  world_inv u u w → (sw, Some cb) ∈ w_calls w → world_inv u u (run_service cb status w).2.
Proof.
  intros Hw Hin. pose proof (wi_calls _ _ _ Hw) as Hc.
  destruct (ci_calls _ _ _ _ _ Hc _ _ Hin) as [(cw & -> & _)|(sw' & id & ty & ->)].
  - by eapply wi_to_client.
  - destruct (wi_services _ _ _ Hw _ _ _ _ Hin) as [-> _]. by apply wi_reply.
Qed.

Lemma elem_of_delete {A} (l : list A) k x : x ∈ l → l !! k ≠ Some x → x ∈ delete k l.
Proof.
  intros [j Hj]%list_elem_of_lookup Hk. apply list_elem_of_lookup.
  destruct (decide (j < k)) as [Hlt|Hge].
  - exists j. by rewrite list_lookup_delete_lt.
  - destruct (decide (j = k)) as [->|]; [congruence|]. exists (j - 1).
    rewrite list_lookup_delete_ge by lia. by replace (S (j - 1)) with j by lia.
Qed.

Lemma delete_nonempty {A} (l : list A) k : delete k l ≠ [] → l ≠ [].
Proof. intros Hd ->. by destruct k. Qed.

Lemma wi_fire_timer u w k : world_inv u u w → world_inv u u (fire_timer k w).2.
Proof.
  intros Hw. destruct (client_tool_ptr (lr_of w)) as [t|] eqn:Ht.
  2: { unfold LocalRpc.fire_timer, mbind, M_bind. by rewrite on_lr_get, Ht. }
  destruct (ct_timers t !! k) as [[id timeout]|] eqn:Hk.
  2: { unfold LocalRpc.fire_timer, mbind, M_bind. by rewrite on_lr_get, Ht, Hk. }
  assert (lr_state (lr_of w) = kStart) as Hst.
  { pose proof (wi_running _ _ _ Hw) as Hrun. destruct (lr_state (lr_of w)); try done. congruence. }
  assert (ct_timeout_handle t = true) as Hh.
  { pose proof (wi_running _ _ _ Hw) as Hrun. rewrite Hst in Hrun. destruct Hrun as (t' & Ht' & [Hh1 Hh2] & _).
    rewrite Ht in Ht'. injection Ht' as <-. rewrite Hh1. apply Hh2. by intros Heq; rewrite Heq in Hk. }
  rewrite (fire_timer_eq user_client_hook k id timeout t w Ht Hk Hh).
  assert (∀ x, x ∈ ct_timers t → x.1 ≠ id → x ∈ delete k (ct_timers t)) as Hkeep.
  { intros x Hx Hne. apply elem_of_delete; [done|]. rewrite Hk. intros [= <-]. done. }
  destruct (client_msg_recorder_map t !! id) as [cw|] eqn:Hid.
  - destruct (pending_callback u w id cw t Hw Ht Hid) as (i & Hi & [[call Hcb]|Hcb]).
    + assert (cbm w !! cw = Some (Some (Answer call))) as Hcw by (by rewrite (cbm_lookup _ _ _ Hi), Hcb).
      destruct (wi_drop_record u w t (drop_record id (drop_timer k t)) id cw call Hw Ht Hid Hcw)
        as (Hw1 & Hans & Hnr & Hnd & Hu); try done; [by apply delete_nonempty|].
      set (w1 := with_lr _ w) in *. rewrite (call_client_eq _ _ w1 i call _ Hi Hcb). cbn [snd].
      rewrite <-(union_restore u call) at 2 by done. destruct Hw1 as [H1 H2 H3 H4 H5].
      apply wi_live_add; [|intros t' _; left; apply answers_of_new]. split; try done.
      * apply (ci_answer _ _ _ _ _ cw); [done|done|by left|done].
      * change (lr_of (answered call STATUS_TIMEOUT w1)) with (lr_of w1). destruct (lr_state (lr_of w1)); try done.
        destruct H5 as (t' & Ht' & Hh' & Hl). exists t'. split_and!; try done.
        eapply live_mono; [exact Hl|done| |done..]. intros call'. cbn. apply answers_of_kept.
    + rewrite (call_client_none cw i) by done. cbn [snd].
      by eapply (wi_drop_dead _ _ t (drop_record id (drop_timer k t))); try done; apply delete_nonempty.
  - cbn [snd]. destruct Hw as [H1 H2 H3 H4 H5]. set (w' := with_lr _ w).
    assert (lr_of w' = set_client_tool (Some (drop_timer k t)) (lr_of w)) as El by apply with_lr_same.
    assert (recs w' = recs w) as Er by (unfold recs; by rewrite El, Ht).
    split; try done; rewrite ?El, ?Er; try done. cbn. rewrite Hst in *.
    destruct H5 as (t0 & Ht0 & [Hh1 Hh2] & Hl). rewrite Ht in Ht0. injection Ht0 as <-.
    exists (drop_timer k t). split; [done|]. split; [split; [done|by intros ?%delete_nonempty; apply Hh2]|].
    intros call Hin. destruct (Hl call Hin) as [Hans|[Hd|Hp]]; [by left|by right; left|right; right].
    destruct Hp as (id' & cw' & Hid' & Hcb' & Htm & Hcall). exists id', cw'. split_and!; try done.
    intros He. destruct (Htm He) as [timeout' Hti]. exists timeout'. apply Hkeep; [done|]. cbn. congruence.
Qed.

Lemma wi_shutdown u w : world_inv u u w → world_inv u u (on_lr lr_Shutdown w).2.
Proof.
  intros Hw. destruct (decide (lr_state (lr_of w) = kShutdown)) as [Hst|Hst].
  - erewrite on_lr_eq; [|unfold lr_Shutdown; unfold_monad; rewrite Hst; reflexivity]. cbn [snd].
    replace (set_lr_state kShutdown (lr_of w)) with (lr_of w); [by rewrite with_lr_id|].
    destruct (lr_of w); cbn in *. by rewrite Hst.
  - erewrite on_lr_eq.
    2: { unfold lr_Shutdown. unfold_monad. unfold state_eqb. rewrite bool_decide_eq_false_2 by done. reflexivity. }
    cbn [snd]. set (w' := with_lr _ w). destruct Hw as [H1 H2 H3 H4 H5].
    split; try done; unfold recs; unfold w'; rewrite ?with_lr_same; try done.
    by eapply ci_unrecord_all.
Qed.

Lemma lr_step_inv s s' : lr_step s s' → world_inv s.1 s.1 s.2 → world_inv s'.1 s'.1 s'.2.
Proof using Hservices.
  intros Hstep Hw. destruct Hstep; cbn [fst snd] in *.
  - by eapply wi_invoke.
  - by eapply wi_run_service.
  - destruct (iw_rsp j) as [a|]; [by apply wi_write_obj|done].
  - by apply wi_fire_timer.
  - by apply wi_shutdown.
  - by eapply world_inv_frame.
Qed.

(** *** The theorems *)

(** The backend has been started and nothing has been called. *)
Definition lr_ready w : Prop :=
  w_clients w = ∅ ∧ w_answers w = [] ∧ w_calls w = [] ∧ lr_state (lr_of w) = kStart ∧
  index_ok (service_func_register_index (lr_of w)) ∧
  ∃ t, client_tool_ptr (lr_of w) = Some t ∧ tool_ok t ∧ client_msg_recorder_map t = ∅.

Lemma lr_ready_inv w : lr_ready w → world_inv ∅ ∅ w.
Proof.
  intros (E1 & E2 & E3 & Hst & Hidx & t & Ht & Hok & Hr).
  assert (cbm w = ∅) as Ec by (unfold cbm; by rewrite E1, fmap_empty).
  split; unfold recs; rewrite ?E2, ?E3, ?Ec, ?Ht; cbn; rewrite ?Hr; try done.
  - apply call_inv_new.
  - intros cw i. by rewrite E1, lookup_empty.
  - intros sw sw' id ty Hin. by apply not_elem_of_nil in Hin.
  - rewrite Hst. exists t. split_and!; try done.
Qed.

Lemma lr_reachable_inv w0 u w : lr_ready w0 → rtc lr_step (∅, w0) (u, w) → world_inv u u w.
Proof using Hservices.
  intros Hw. apply lr_ready_inv in Hw.
  assert (∀ s s', rtc lr_step s s' → world_inv s.1 s.1 s.2 → world_inv s'.1 s'.1 s'.2) as Hall.
  { induction 1 as [|s1 s2 s3 Hs _ IH]; [done|]. intros Hw1. apply IH. by eapply lr_step_inv. }
  intros Hr. exact (Hall _ _ Hr Hw).
Qed.


(** C3: No call is lost while the backend runs.  In the same interleavings,
    until the shutdown, each call that was made has been answered, or was
    handed to a service of its own package, or is kept: then the timer set for
    it, if there is an executor for timers, answers it with the status
    "timeout", and the callback its service holds answers it with the service's
    status, or with the status that says that the response could not be
    passed on. *)
Theorem no_call_is_lost w0 u w call :
  lr_ready w0 → rtc lr_step (∅, w0) (u, w) → lr_state (lr_of w) = kStart → call ∈ u →
  answers_of call (w_answers w) ≠ [] ∨ direct (cbm w) (w_calls w) call ∨
  (answers_of call (w_answers w) = [] ∧
   (∃ t, client_tool_ptr (lr_of w) = Some t ∧
      (ct_timeout_executor t = true → ∃ k w', fire_timer k w = (Ok tt, w') ∧
         answers_of call (w_answers w') = [STATUS_TIMEOUT])) ∧
   ∃ sw cb, (sw, Some cb) ∈ w_calls w ∧ ∀ status, ∃ w' status', run_service cb status w = (Ok tt, w') ∧
      answers_of call (w_answers w') = [status'] ∧
      status' ∈ [status; STATUS_SVR_SERIALIZATION_FAILED; STATUS_SVR_DESERIALIZATION_FAILED]).
Proof using Hservices.
  intros Hw0 Hr Hst Hu. pose proof (lr_reachable_inv w0 u w Hw0 Hr) as Hw.
  pose proof (wi_running _ _ _ Hw) as Hrun. rewrite Hst in Hrun. destruct Hrun as (t & Ht & [Hh1 Hh2] & Hl).
  destruct (Hl call Hu) as [?|[?|(id & cw & Hid & Hcw & Htm & sw & ty & Hin)]]; [by left|by right; left|right; right].
  assert (recs w !! id = Some cw) as Hrec by (unfold recs; by rewrite Ht).
  destruct (ci_rec _ _ _ _ _ (wi_calls _ _ _ Hw) id cw Hrec) as (_ & _ & Hans). specialize (Hans call Hcw).
  destruct (cbm_lookup_inv _ _ _ Hcw) as (i & Hi & Hcb). destruct (wi_rsp _ _ _ Hw _ _ Hi) as [a Ha].
  split_and!; [done| |].
  - exists t. split; [done|]. intros He. destruct (Htm He) as [timeout [k Hk]%list_elem_of_lookup].
    exists k. rewrite (fire_timer_eq user_client_hook k id timeout t w Ht Hk) by by rewrite Hh1. rewrite Hid.
    set (w1 := with_lr _ w). rewrite (call_client_eq _ _ w1 i call _ Hi Hcb). eexists. split; [reflexivity|].
    cbn -[answers_of]. by rewrite answers_of_app, Hans, decide_True.
  - exists sw, (Reply sw id ty). split; [done|]. intros status.
    destruct (wi_services _ _ _ Hw _ _ _ _ Hin) as (_ & j & Hj & [m Hm]).
    cbn [LocalRpc.run_service]. rewrite (reply_eq user_client_hook sw j cw i call a id ty m t status w) by done.
    unfold reply_effect. destruct (response_form j ty m) as [b|]; [destruct (Deserialize _ ty b) as [m'|]|];
      do 2 eexists; (split; [reflexivity|]); cbn -[answers_of]; rewrite answers_of_app, Hans, decide_True by done;
      (split; [reflexivity|]); rewrite !elem_of_cons; tauto.
Qed.

(** The shutdown abandons the calls that are kept.  Once the backend has
    been shut down no timer answers them any more, and a service of another
    package that calls its callback, however many times, uses the tool that the
    shutdown has destroyed: undefined behaviour. *)
Theorem shutdown_abandons_calls w0 u w :
  lr_ready w0 → rtc lr_step (∅, w0) (u, w) →
  let w' := (on_lr lr_Shutdown w).2 in
  (∀ k, fire_timer k w' = (Ok tt, w')) ∧
  ∀ sw id ty status, (sw, Some (Reply sw id ty)) ∈ w_calls w → run_service (Reply sw id ty) status w' = (Undef, w').
Proof using Hservices.
  intros Hw0 Hr w'. pose proof (wi_shutdown u w (lr_reachable_inv w0 u w Hw0 Hr)) as Hw. fold w' in Hw.
  assert (client_tool_ptr (lr_of w') = None) as Ht.
  { pose proof (wi_running _ _ _ Hw) as Hrun.
    assert (lr_state (lr_of w') = kShutdown) as Hst; [|by rewrite Hst in Hrun].
    unfold w', on_lr, zoom. destruct (lr_Shutdown (lr (w_rest w))) as [x l] eqn:E. cbn [snd].
    change (set_w_rest (set_lr l (w_rest w)) w) with (with_lr l w). rewrite with_lr_same.
    unfold lr_Shutdown in E. unfold_monad. destruct (state_eqb _ _); by injection E as <- <-. }
  split.
  - intros k. unfold LocalRpc.fire_timer, mbind, M_bind. by rewrite on_lr_get, Ht.
  - intros sw id ty status _. cbn [LocalRpc.run_service]. unfold reply, mbind, M_bind.
    rewrite (on_lr_eq _ w' Undef (lr_of w')); [by rewrite with_lr_id|]. unfold on_tool. by rewrite Ht.
Qed.
End Interleaving.

(** * Start-up *)

Section Startup.
Context {Msg X : Type} `{HasLocalRpc X} `{YamlOps node}.
Context (find_executor : string → option bool).

(** The modules of a package that have a function. *)
Definition service_modules (idx : ServiceFuncIndexMap) (f p : string) : gset string :=
  default ∅ (default ∅ (idx !! f) !! p).

Lemma service_modules_emplace (i : FuncInfo Msg) (idx : ServiceFuncIndexMap) f p :
  service_modules (service_index_emplace i idx) f p =
  if decide (f = func_name i ∧ p = fi_pkg_path i) then {[fi_module_name i]} ∪ service_modules idx f p
  else service_modules idx f p.
Proof.
  unfold ServiceFuncIndexMap in idx. unfold service_modules, service_index_emplace, ServiceFuncIndexMap.
  destruct (decide (f = func_name i)) as [->|Hf].
  - rewrite lookup_insert_eq. cbn. destruct (decide (p = fi_pkg_path i)) as [->|Hp].
    + rewrite decide_True by done. by rewrite lookup_insert_eq.
    + rewrite decide_False by tauto. by rewrite lookup_insert_ne.
  - rewrite decide_False by tauto. by rewrite lookup_insert_ne.
Qed.

Lemma index_ok_emplace (i : FuncInfo Msg) (idx : ServiceFuncIndexMap) :
  index_ok idx → index_ok (service_index_emplace i idx).
Proof.
  intros Hok f pkgs. unfold service_index_emplace. intros [[<- <-]|[_ Hf]]%lookup_insert_Some; [|exact (Hok f pkgs Hf)].
  split; [apply insert_non_empty|]. intros p ms [[<- <-]|[_ Hp]]%lookup_insert_Some.
  - apply non_empty_inhabited_L with (x := fi_module_name i), elem_of_union_l. by apply elem_of_singleton.
  - destruct (idx !! func_name i) as [pkgs'|] eqn:E; cbn in Hp; [|by rewrite lookup_empty in Hp].
    exact (proj2 (Hok _ _ E) p ms Hp).
Qed.

Lemma lr_register_all (fs : list (ServiceFuncWrapper Msg X)) : ∀ l,
  lr_state l = kInit → index_ok (service_func_register_index l) →
  ∃ idx, mapM_ (λ f, lr_RegisterServiceFunc f;; mret tt) fs l =
    (Ok tt, mkLocalRpc (lr_options l) kInit (lr_has_get_executor_func l) (lr_req_id l) (client_tool_ptr l) idx) ∧
    index_ok idx ∧
    ∀ f p mo, mo ∈ service_modules idx f p ↔ mo ∈ service_modules (service_func_register_index l) f p ∨
      ∃ fw, fw ∈ fs ∧ rpc_key_of (sf_info fw) = mkRpcKey f p mo.
Proof.
  induction fs as [|fw fs IH]; intros l Hst Hok.
  - exists (service_func_register_index l). split; [destruct l; cbn in *; by rewrite Hst|]. split; [done|].
    intros f p mo. split; [by left|]. intros [|(fw & Hin & _)]; [done|]. by apply not_elem_of_nil in Hin.
  - set (l1 := mkLocalRpc (lr_options l) kInit (lr_has_get_executor_func l) (lr_req_id l) (client_tool_ptr l)
                 (service_index_emplace (sf_info fw) (service_func_register_index l))).
    assert ((lr_RegisterServiceFunc fw;; mret tt) l = (Ok tt, l1)) as Hreg
      by (unfold lr_RegisterServiceFunc; unfold_monad; by rewrite Hst).
    cbn [mapM_]. unfold mbind at 1, M_bind at 1. rewrite Hreg.
    destruct (IH l1) as (idx & Hrun & Hidx & Hspec); [done|by apply index_ok_emplace|].
    exists idx. split; [exact Hrun|]. split; [done|]. intros f p mo. rewrite Hspec. cbn.
    rewrite service_modules_emplace. split.
    + intros [Hm|(fw' & Hin & Hk)]; [|right; exists fw'; split; [by apply list_elem_of_further|done]].
      case_decide as Hd; [|by left]. destruct Hd as [-> ->]. apply elem_of_union in Hm as [->%elem_of_singleton|Hm]; [|by left].
      right. exists fw. split; [apply list_elem_of_here|done].
    + intros [Hm|(fw' & [->|Hin]%elem_of_cons & Hk)].
      * left. case_decide; [set_solver|done].
      * left. injection Hk as <- <- <-. rewrite decide_True by done. set_solver.
      * right. by exists fw'.
Qed.

(** Starting up.  When the options can be read and the executor they name,
    if they name one, is found and supports timers, then initializing the new
    backend, registering services and starting it succeeds; the backend is
    then ready: the hypothesis of the theorems about interleavings; and its
    index names exactly the services that were registered. *)
Theorem local_rpc_startup (w : World Msg X) (n : option node) o has_func (fs : list (ServiceFuncWrapper Msg X)) :
  w_clients w = ∅ → w_answers w = [] → w_calls w = [] →
  lr_of w = mkLocalRpc (mkLocalRpcOptions "") kPreInit has_func 0 None ∅ →
  read_options local_rpc_decode (mkLocalRpcOptions "") n = Ok o →
  let name := lro_timeout_executor (default (mkLocalRpcOptions "") o) in
  name = "" ∨ (has_func = true ∧ find_executor name = Some true) →
  ∃ w', on_lr (lr_Initialize find_executor n;; mapM_ (λ f, lr_RegisterServiceFunc f;; mret tt) fs;; lr_Start) w
          = (Ok tt, w') ∧ lr_ready w' ∧
    ∀ f p mo, mo ∈ service_modules (service_func_register_index (lr_of w')) f p ↔
      ∃ fw, fw ∈ fs ∧ rpc_key_of (sf_info fw) = mkRpcKey f p mo.
Proof.
  intros E1 E2 E3 Hl Ho name Hname.
  assert (∃ t, lr_Initialize find_executor n (lr_of w) =
    (Ok tt, mkLocalRpc (default (mkLocalRpcOptions "") o) kInit has_func 0 (Some t) ∅) ∧ tool_ok t ∧
    client_msg_recorder_map t = ∅) as (t & Hinit & Ht & Hr).
  { rewrite Hl. unfold lr_Initialize, lr_exchange. unfold_monad. cbn. rewrite Ho.
    change (state_eqb kPreInit kPreInit) with true. unfold_monad. cbn. unfold name in Hname. clear name.
    set (opts := default _ o) in *.
    destruct Hname as [Hn|[-> Hf]]; [rewrite Hn; eexists; split; [reflexivity|by split]|].
    destruct (String.eqb _ ""); [eexists; split; [reflexivity|by split]|]. cbn. rewrite Hf.
    eexists. split; [reflexivity|by split]. }
  set (l1 := mkLocalRpc _ _ _ _ _ _) in Hinit.
  destruct (lr_register_all fs l1) as (idx & Hreg & Hidx & Hspec); [done|done|].
  eexists. split; [|split].
  - apply on_lr_eq. unfold mbind at 1, M_bind at 1. rewrite Hinit.
    unfold mbind at 1, M_bind at 1. rewrite Hreg.
    unfold lr_Start, lr_exchange. unfold_monad. cbn. reflexivity.
  - unfold lr_ready. rewrite with_lr_same. cbn. split_and!; try done. exists t. by split_and!.
  - intros f p mo. rewrite with_lr_same. cbn. rewrite Hspec. cbn. unfold service_modules, ServiceFuncIndexMap.
    rewrite lookup_empty. cbn. rewrite lookup_empty. cbn. split; [|by right].
    intros [Hm|Hm]; [by apply not_elem_of_empty in Hm|done].
Qed.
End Startup.

(** * One call *)

Section OneCall.
Context {Msg X : Type} `{HasLocalRpc X} `{IterOrder}.
Context (user_client_hook user_service_hook : nat → nat → Z → M (World Msg X) unit).
Context (Create : TypeSupport Msg → Msg).
Context (r : RpcRegistry Msg X).
Context (Hservices : ∀ k f, service_func_wrapper_map r !! k = Some f → service_func f = service_terminal).
(** A call whose service is of another package, while the backend runs. *)
Context (w : World Msg X) (cw call a : nat) (i : InvokeWrapper Msg ClientCb) (c : RpcContext) (m : Msg).
Context (t : RpcClientTool nat) (f : ServiceFuncWrapper Msg X).
Context (pkgs : gmap string (gset string)) (addr : string * string) (pkg module : string).
Context (Hi : w_clients w !! cw = Some i) (Hcb : iw_callback i = Some (Answer call)) (Hreq : iw_req i = Some m)
  (Hcache : req_serialization_cache i = ∅) (Hrsp : iw_rsp i = Some a) (Hc : w_ctxs w !! iw_ctx i = Some c)
  (Hst : lr_state (lr_of w) = kStart) (Ht : client_tool_ptr (lr_of w) = Some t)
  (Hidx : index_ok (service_func_register_index (lr_of w)))
  (Haddr : parse_service_addr (rc_GetMetaValue c KEY_TO_ADDR) = inr addr)
  (Hpkgs : service_func_register_index (lr_of w) !! func_name (iw_info i) = Some pkgs)
  (Hsel : select_service pkgs addr.1 addr.2 = Ok (inr (pkg, module)))
  (Hf : GetServiceFuncWrapperPtr r (func_name (iw_info i)) pkg module = Some f)
  (Hother : pkg ≠ fi_pkg_path (iw_info i))
  (Hid : client_msg_recorder_map t !! lr_req_id (lr_of w) = None).

Abbreviation ty := (rc_GetSerializationType c).
Abbreviation req_form := (Serialize (req_type_support_ref (iw_info i)) ty m).

(** The world when the service's context has been made. *)
Definition one_call_world : World Msg X :=
  set_ctx (fresh (dom (w_ctxs w))) (service_ctx c (func_name (sf_info f)) (iw_info i)) w.

Lemma one_call_effect :
  lr_Invoke user_client_hook Create r cw w =
  (Ok tt, other_pkg_effect Create f (fresh (dom (w_ctxs w))) cw i call c
            (service_ctx c (func_name (sf_info f)) (iw_info i)) m t one_call_world).
Proof using All.
  rewrite (lr_Invoke_eq _ _ r Hservices cw i call c m t Hcb Hreq Hcache w Hi Hc Hst Ht).
  2: { intros pkgs' p mo Hp. destruct (Hidx _ _ Hp). by apply select_service_ok. }
  unfold invoke_effect. rewrite Haddr. destruct addr as [p0 m0]. rewrite Hpkgs. cbn in Hsel. rewrite Hsel, Hf.
  by rewrite bool_decide_eq_false_2.
Qed.

(** A service writes its response and calls its callback. *)
Definition respond (j : InvokeWrapper Msg ServiceCb) (m' : Msg) (cb : ServiceCb) (status : Z) : M (World Msg X) unit :=
  write_obj (iw_rsp j) m';; run_service user_client_hook user_service_hook cb status.

(** C6: A remote call, from end to end.  When the type supports of the two
    sides read back what the other serializes, a call to a service of another
    package reaches it with the client's request; and whatever response the
    service then writes before it calls its callback with a status, the client
    is answered once, with that status, and finds that response in its own. *)
Theorem remote_call_roundtrip b m' b' :
  req_form = Some b → Deserialize (req_type_support_ref (sf_info f)) ty b = Some m →
  Serialize (rsp_type_support_ref (sf_info f)) ty m' = Some b' →
  Deserialize (rsp_type_support_ref (iw_info i)) ty b' = Some m' →
  is_Some (w_objs w !! a) →
  ∃ w1 sw cb j, lr_Invoke user_client_hook Create r cw w = (Ok tt, w1) ∧
    w_calls w1 = w_calls w ++ [(sw, Some cb)] ∧ w_answers w1 = w_answers w ∧
    w_services w1 !! sw = Some j ∧ iw_info j = sf_info f ∧ iw_req j = Some m ∧ iw_rsp j ≠ Some a ∧
    ∀ status, ∃ w2,
      respond j m' cb status w1 = (Ok tt, w2) ∧
      obj_at w2 (iw_rsp i) = Some m' ∧ w_answers w2 = w_answers w ++ [(call, status)].
Proof using All.
  intros Hb Hd Hb' Hd' Ha. rewrite one_call_effect. unfold other_pkg_effect.
  change (lr_of one_call_world) with (lr_of w). rewrite Hid, Hb, Hd.
  set (id := lr_req_id (lr_of w)). set (ctx_id := fresh (dom (w_ctxs w))).
  set (rsp := fresh (dom (w_objs one_call_world))). set (sw := fresh (dom (w_services one_call_world))).
  set (j := mkInvokeWrapper _ _ _ _ _ _ _). set (w1 := new_call _ _ _).
  assert (rsp ≠ a) as Hne.
  { intros Heq. apply (is_fresh (dom (w_objs w))). apply elem_of_dom.
    change (is_Some (w_objs w !! rsp)). by rewrite Heq. }
  exists w1, sw, (Reply sw id ty), (set_callback None j). split_and!; try done.
  - apply lookup_insert_eq.
  - cbn. congruence.
  - intros status.
    assert (write_obj (iw_rsp (set_callback None j)) m' w1 = (Ok tt, set_w_objs (<[rsp := m']> (w_objs w1)) w1)) as Hw by done.
    unfold respond, mbind, M_bind. rewrite Hw. set (w2 := set_w_objs _ w1). cbn [run_service].
    set (i' := set_req_cache {[ty := b]} i).
    assert (client_tool_ptr (lr_of w2) = Some (mkTool (ct_timeout_executor t) (ct_timeout_handle t)
      (if ct_timeout_executor t then ct_timers t ++ [(id, rc_Timeout c)] else ct_timers t)
      (<[id := cw]> (client_msg_recorder_map t)))) as Ht2.
    { change (lr_of w2) with (lr_of (with_lr (record_call cw c t (lr_of w)) one_call_world)). by rewrite with_lr_same. }
    rewrite (reply_eq user_client_hook sw (set_callback None j) cw i' call a id ty m' _ status w2 Ht2).
    + eexists. split; [reflexivity|]. unfold reply_effect, response_form. cbn [rsp_serialization_cache set_callback j].
      rewrite lookup_empty. change (iw_info (set_callback None j)) with (sf_info f). rewrite Hb'.
      change (iw_info i') with (iw_info i). rewrite Hd'. split; [|done].
      unfold obj_at. rewrite Hrsp. cbn -[w2]. apply lookup_insert_eq.
    + cbn. apply lookup_insert_eq.
    + apply lookup_insert_eq.
    + done.
    + done.
    + apply lookup_insert_eq.
    + unfold obj_at. cbn -[w1]. apply lookup_insert_eq.
Qed.

(** A request that cannot be passed on leaves its record behind.  When the
    client's type support cannot serialize the request, or the service's
    cannot read it, the client is answered at once; but the tool keeps the
    call, whose callback is gone: its timer, if one was set, calls an empty
    function, which throws. *)
Theorem failed_request_leaves_record :
  req_form = None ∨ (∃ b, req_form = Some b ∧ Deserialize (req_type_support_ref (sf_info f)) ty b = None) →
  tool_ok t →
  ∃ w1 t1 status, lr_Invoke user_client_hook Create r cw w = (Ok tt, w1) ∧
    w_answers w1 = w_answers w ++ [(call, status)] ∧
    status ∈ [STATUS_CLI_SERIALIZATION_FAILED; STATUS_CLI_DESERIALIZATION_FAILED] ∧
    client_tool_ptr (lr_of w1) = Some t1 ∧ client_msg_recorder_map t1 !! lr_req_id (lr_of w) = Some cw ∧
    (ct_timeout_executor t = true → ∃ k w2,
       fire_timer user_client_hook k w1 = (Throw (RuntimeError "bad_function_call"), w2)).
Proof using All.
  intros Hfail [Hh _]. rewrite one_call_effect. unfold other_pkg_effect.
  change (lr_of one_call_world) with (lr_of w). rewrite Hid. set (id := lr_req_id (lr_of w)).
  set (w0 := with_lr _ one_call_world).
  set (t1 := mkTool (ct_timeout_executor t) (ct_timeout_handle t)
    (if ct_timeout_executor t then ct_timers t ++ [(id, rc_Timeout c)] else ct_timers t)
    (<[id := cw]> (client_msg_recorder_map t))).
  assert (∀ i' status w', lr_of w' = lr_of w0 → w_answers w' = w_answers w → 
    status ∈ [STATUS_CLI_SERIALIZATION_FAILED; STATUS_CLI_DESERIALIZATION_FAILED] →
    let w1 := refuse cw i' call status w' in
    w_answers w1 = w_answers w ++ [(call, status)] ∧ client_tool_ptr (lr_of w1) = Some t1 ∧
    (ct_timeout_executor t = true → ∃ k w2,
       fire_timer user_client_hook k w1 = (Throw (RuntimeError "bad_function_call"), w2))) as Hall.
  { intros i' status w' El Ea _ w1.
    assert (client_tool_ptr (lr_of w1) = Some t1) as Ht1
      by (change (lr_of w1) with (lr_of w'); rewrite El; unfold w0; by rewrite with_lr_same).
    split_and!; [cbn; by rewrite Ea|done|]. intros He. exists (length (ct_timers t)).
    rewrite (fire_timer_eq user_client_hook _ id (rc_Timeout c) t1 w1 Ht1).
    - cbn [t1 client_msg_recorder_map]. rewrite lookup_insert_eq.
      erewrite call_client_none; [by eexists|apply lookup_insert_eq|done].
    - cbn [t1 ct_timers]. rewrite He. by rewrite list_lookup_middle.
    - cbn. by rewrite Hh. }
  destruct Hfail as [-> |(b & -> & ->)].
  - destruct (Hall i STATUS_CLI_SERIALIZATION_FAILED w0) as (H1 & H2 & H3); [done|done|set_solver|].
    exists (refuse cw i call STATUS_CLI_SERIALIZATION_FAILED w0), t1, STATUS_CLI_SERIALIZATION_FAILED.
    split_and!; [done|done|set_solver|done|apply lookup_insert_eq|done].
  - match goal with |- context [refuse cw ?i' call STATUS_CLI_DESERIALIZATION_FAILED ?w'] =>
      destruct (Hall i' STATUS_CLI_DESERIALIZATION_FAILED w') as (H1 & H2 & H3); [done|done|set_solver|];
      exists (refuse cw i' call STATUS_CLI_DESERIALIZATION_FAILED w'), t1, STATUS_CLI_DESERIALIZATION_FAILED end.
    split_and!; [done|done|set_solver|done|apply lookup_insert_eq|done].
Qed.
End OneCall.

(** * The theorems at a concrete input *)

Module LocalRpcDemo.
Import ChannelDemo.

#[global] Instance demo_has_local_rpc : HasLocalRpc LocalRpcBackend.
Proof. by exists id (λ l _, l). Defined.

#[global] Instance demo_order : IterOrder.
Proof. exists (λ A m, map_to_list m) elements; done. Defined.

Definition hook : nat → nat → Z → M (World bytes LocalRpcBackend) unit := λ _ _ _, mret tt.
Definition create : TypeSupport bytes → bytes := λ _, [].

(** A type support that serializes nothing. *)
Definition broken_ts : TypeSupport bytes :=
  mkTypeSupport "demo/Msg" ["raw"] (λ m, m) (λ _ _, None) (λ _ _, None).

Definition service_info : FuncInfo bytes := mkFuncInfo "func" "srv" "mod" 1 demo_ts demo_ts.
Definition service : ServiceFuncWrapper bytes LocalRpcBackend := mkServiceFuncWrapper service_info service_terminal.
Definition registry : RpcRegistry bytes LocalRpcBackend := (Registry_RegisterServiceFunc service RpcRegistry_new).2.

Definition client_info (ts : TypeSupport bytes) : FuncInfo bytes := mkFuncInfo "func" "pkg" "mod" 1 ts demo_ts.
Definition client (ts : TypeSupport bytes) : InvokeWrapper bytes ClientCb :=
  mkInvokeWrapper (client_info ts) (Some demo_msg) (Some 0) 0 (Some (Answer 7)) ∅ ∅.

(** The url names the package. *)
Definition ctx : RpcContext :=
  rc_SetMetaValue KEY_TO_ADDR "local://rpc/func?pkg_path=srv"
    (rc_SetSerializationType "rev" (RpcContext_new AIMRT_RPC_CLIENT_CONTEXT)).

Definition fresh_world : World bytes LocalRpcBackend :=
  mkWorld {[0 := ctx]} {[0 := []]} ∅ ∅ [] [] (mkLocalRpc (mkLocalRpcOptions "") kPreInit true 0 None ∅).

Definition find_executor (name : string) : option bool :=
  if String.eqb name "timer" then Some true else None.
Definition options : option tree := Some (TMap [("timeout_executor", TStr "timer")]).

Definition startup : M (World bytes LocalRpcBackend) unit :=
  on_lr (lr_Initialize find_executor options;; mapM_ (λ f, lr_RegisterServiceFunc f;; mret tt) [service];; lr_Start).

Definition started : World bytes LocalRpcBackend := (startup fresh_world).2.

(** The world with a client's wrapper. *)
Definition called (ts : TypeSupport bytes) : World bytes LocalRpcBackend :=
  set_w_clients {[0 := client ts]} started.

Definition pkgs : gmap string (gset string) := {["srv" := {["mod"]}]}.

Lemma services k f : service_func_wrapper_map registry !! k = Some f → service_func f = service_terminal.
Proof.
  assert (service_func_wrapper_map registry = {[rpc_key_of service_info := service]}) as -> by reflexivity.
  intros [_ <-]%lookup_singleton_Some. reflexivity.
Qed.

Lemma started_local_ready : lr_ready started.
Proof.
  destruct (local_rpc_startup find_executor fresh_world options (Some (mkLocalRpcOptions "timer")) true [service])
    as (w' & Hrun & Hready & _); [reflexivity..|right; split; reflexivity|].
  unfold started, startup. by rewrite Hrun.
Qed.

Lemma started_index : index_ok (service_func_register_index (lr_of started)).
Proof. apply started_local_ready. Qed.

Lemma service_found : GetServiceFuncWrapperPtr registry "func" "srv" "mod" = Some service.
Proof. reflexivity. Qed.

(** One call, before anything else happens. *)
Definition after_call : World bytes LocalRpcBackend :=
  ((cw ← new_client (client demo_ts); lr_Invoke hook create registry cw) started).2.

Lemma one_call_steps : rtc (lr_step hook hook create registry) (∅, started) ({[7]} ∪ ∅, after_call).
Proof.
  apply rtc_once. unfold after_call.
  apply (lr_step_invoke hook hook create registry ∅ started (client demo_ts) 7 ctx demo_msg); try done.
Qed.
End LocalRpcDemo.

Lemma select_service_spec_witness :
  ∃ s, select_service LocalRpcDemo.pkgs "srv" "" = Ok (inr s) ∧ matches_addr LocalRpcDemo.pkgs "srv" "" s.
Proof.
  destruct (select_service_spec LocalRpcDemo.pkgs "srv" "") as [Hs|[Habs _]].
  - apply map_non_empty_singleton.
  - reflexivity.
  - intros p ms Hp. unfold LocalRpcDemo.pkgs in Hp. apply lookup_singleton_Some in Hp as [_ <-].
    apply non_empty_singleton_L.
  - exact Hs.
  - exfalso. vm_compute in Habs. discriminate Habs.
Defined.

Lemma local_rpc_startup_witness :
  lr_ready LocalRpcDemo.started ∧
  "mod" ∈ service_modules (service_func_register_index (lr_of LocalRpcDemo.started)) "func" "srv".
Proof.
  destruct (local_rpc_startup LocalRpcDemo.find_executor LocalRpcDemo.fresh_world LocalRpcDemo.options
              (Some (mkLocalRpcOptions "timer")) true [LocalRpcDemo.service])
    as (w' & Hrun & Hready & Hidx); [reflexivity..|right; split; reflexivity|].
  assert (LocalRpcDemo.started = w') as -> by (unfold LocalRpcDemo.started, LocalRpcDemo.startup; by rewrite Hrun).
  split; [exact Hready|]. apply Hidx. exists LocalRpcDemo.service. split; [apply list_elem_of_here|reflexivity].
Defined.

Lemma local_invoke_branches_witness :
  ∃ w', lr_Invoke LocalRpcDemo.hook LocalRpcDemo.create LocalRpcDemo.registry 0
          (LocalRpcDemo.called ChannelDemo.demo_ts) = (Ok tt, w') ∧
    w_calls w' = [(0, Some (Reply 0 0 "rev"))] ∧ w_answers w' = [].
Proof.
  rewrite (local_invoke_branches LocalRpcDemo.hook LocalRpcDemo.create LocalRpcDemo.registry LocalRpcDemo.services
             0 (LocalRpcDemo.client ChannelDemo.demo_ts) 7 LocalRpcDemo.ctx ChannelDemo.demo_msg
             (mkTool true true [] ∅)); try reflexivity.
  - eexists. split; [reflexivity|]. split; vm_compute; reflexivity.
  - intros p pkg mo Hp. destruct (LocalRpcDemo.started_index _ _ Hp).
    by apply select_service_ok.
Defined.


Lemma no_call_is_lost_witness :
  ∃ k w', fire_timer LocalRpcDemo.hook k LocalRpcDemo.after_call = (Ok tt, w') ∧
    answers_of 7 (w_answers w') = [STATUS_TIMEOUT].
Proof.
  destruct (no_call_is_lost LocalRpcDemo.hook LocalRpcDemo.hook LocalRpcDemo.create LocalRpcDemo.registry
              LocalRpcDemo.services LocalRpcDemo.started _ LocalRpcDemo.after_call 7
              LocalRpcDemo.started_local_ready LocalRpcDemo.one_call_steps) as [Ha|[Hd|(_ & (t & Ht & Hk) & _)]].
  - reflexivity.
  - by apply elem_of_union_l, elem_of_singleton.
  - exfalso. apply Ha. vm_compute. reflexivity.
  - exfalso. destruct Hd as (sw & cw & Hin & _). vm_compute in Hin.
    apply list_elem_of_singleton in Hin. discriminate Hin.
  - apply Hk. vm_compute in Ht. injection Ht as <-. reflexivity.
Defined.

Lemma shutdown_abandons_calls_witness :
  (run_service LocalRpcDemo.hook LocalRpcDemo.hook (Reply 0 0 "rev") STATUS_OK
     (on_lr lr_Shutdown LocalRpcDemo.after_call).2).1 = Undef.
Proof.
  destruct (shutdown_abandons_calls LocalRpcDemo.hook LocalRpcDemo.hook LocalRpcDemo.create LocalRpcDemo.registry
              LocalRpcDemo.services LocalRpcDemo.started _ LocalRpcDemo.after_call
              LocalRpcDemo.started_local_ready LocalRpcDemo.one_call_steps) as [_ H].
  rewrite (H 0 0%Z "rev" STATUS_OK); [reflexivity|]. vm_compute. apply list_elem_of_here.
Defined.

Lemma remote_call_roundtrip_witness :
  ∃ w1 sw cb j, lr_Invoke LocalRpcDemo.hook LocalRpcDemo.create LocalRpcDemo.registry 0
                  (LocalRpcDemo.called ChannelDemo.demo_ts) = (Ok tt, w1) ∧
    w_services w1 !! sw = Some j ∧ iw_req j = Some ChannelDemo.demo_msg ∧
    ∃ w2, (write_obj (iw_rsp j) (lit "answer");;
           run_service LocalRpcDemo.hook LocalRpcDemo.hook cb STATUS_OK) w1 = (Ok tt, w2) ∧
      obj_at w2 (Some 0) = Some (lit "answer") ∧ w_answers w2 = [(7, STATUS_OK)].
Proof.
  destruct (remote_call_roundtrip LocalRpcDemo.hook LocalRpcDemo.hook LocalRpcDemo.create LocalRpcDemo.registry
              LocalRpcDemo.services (LocalRpcDemo.called ChannelDemo.demo_ts) 0 7 0
              (LocalRpcDemo.client ChannelDemo.demo_ts) LocalRpcDemo.ctx ChannelDemo.demo_msg
              (mkTool true true [] ∅) LocalRpcDemo.service LocalRpcDemo.pkgs ("srv", "") "srv" "mod")
    with (b := [reverse ChannelDemo.demo_msg]) (m' := lit "answer") (b' := [reverse (lit "answer")])
    as (w1 & sw & cb & j & H1 & _ & _ & H2 & _ & H3 & _ & H4).
  all: try exact LocalRpcDemo.started_index.
  all: try exact LocalRpcDemo.service_found.
  all: try (vm_compute; reflexivity).
  - discriminate.
  - exists []. vm_compute. reflexivity.
  - exists w1, sw, cb, j. split; [exact H1|]. split; [exact H2|]. split; [exact H3|].
    destruct (H4 STATUS_OK) as (w2 & H5 & H6 & H7). exists w2. exact (conj H5 (conj H6 H7)).
Defined.

Lemma failed_request_leaves_record_witness :
  ∃ w1 k w2, lr_Invoke LocalRpcDemo.hook LocalRpcDemo.create LocalRpcDemo.registry 0
               (LocalRpcDemo.called LocalRpcDemo.broken_ts) = (Ok tt, w1) ∧
    fire_timer LocalRpcDemo.hook k w1 = (Throw (RuntimeError "bad_function_call"), w2).
Proof.
  destruct (failed_request_leaves_record LocalRpcDemo.hook LocalRpcDemo.hook LocalRpcDemo.create LocalRpcDemo.registry
              LocalRpcDemo.services (LocalRpcDemo.called LocalRpcDemo.broken_ts) 0 7 0
              (LocalRpcDemo.client LocalRpcDemo.broken_ts) LocalRpcDemo.ctx ChannelDemo.demo_msg
              (mkTool true true [] ∅) LocalRpcDemo.service LocalRpcDemo.pkgs ("srv", "") "srv" "mod")
    as (w1 & t1 & status & H1 & _ & _ & _ & _ & H2).
  all: try exact LocalRpcDemo.started_index.
  all: try exact LocalRpcDemo.service_found.
  all: try (vm_compute; reflexivity).
  - discriminate.
  - left. vm_compute. reflexivity.
  - split; [reflexivity|]. intros Habs. by destruct Habs.
  - destruct (H2 eq_refl) as (k & w2 & H3). exists w1, k, w2. exact (conj H1 H3).
Defined.
