(* ===== verification/RpcManager.v ===== *)
(** * The rpc manager and its handles: [src/runtime/core/rpc/rpc_manager.*] and
    [rpc_handle_proxy.h]

    [RpcManager] reads the configuration, initializes the backends it names,
    hands the rules to the backend manager, and gives each module a handle.
    Through the handle the module registers services and clients and makes
    calls.  The functions of a handle are [noexcept]: an exception in one of
    them ends the program.

    The registry and the two filter managers, which the manager owns and the
    backend manager points to, are fields of the backend manager here.  The
    options written back to the configuration node, the C tables of the
    handles and what becomes of a handle when its manager is destroyed are not
    modelled.

    Theorems: what initialization leaves when it succeeds; the "debug_log"
    filters change nothing but caches; the report is complete; contexts merge;
    a call through a handle before the start ends the program. *)

From S2P Require Import Prelude Yaml StringUtil Report Filters Channel ChannelBackend Rpc RpcBackend LocalRpc LocalRpcCalls.

(** ** Options *)

Section Options.
Context `{Y : YamlOps node}.

(* @src src/src/runtime/core/rpc/rpc_manager.h:30-35 RpcManager::Options::ClientOptions *)
Record FuncOptions := mkFuncOptions {
  fo_func_name : string;
  fo_enable_backends : list string;
  fo_enable_filters : list string
}.

(* @src src/src/runtime/core/rpc/rpc_manager.h:23-43 RpcManager::Options *)
Record RpcOptions := mkRpcOptions {
  rpc_backends_options : list (string * node);
  clients_options : list FuncOptions;
  servers_options : list FuncOptions
}.

Definition rpc_default : RpcOptions := mkRpcOptions [] [] [].

(* @src src/src/runtime/core/rpc/rpc_manager.cc:49-59 convert<RpcManager::Options>::decode (backend) *)
Definition rpc_decode_backend (n : node) : res (string * node) :=
  ty ← as_of as_string (index n "type");
  Ok (ty, default NullNode (index n "options")).

(* @src src/src/runtime/core/rpc/rpc_manager.cc:63-72 convert<RpcManager::Options>::decode (client) *)
Definition decode_func (n : node) : res FuncOptions :=
  f ← as_of as_string (index n "func_name");
  bs ← as_of as_strings (index n "enable_backends");
  fs ← set_if n "enable_filters" as_strings [];
  Ok (mkFuncOptions f bs fs).

(* @src src/src/runtime/core/rpc/rpc_manager.cc:45-89 convert<RpcManager::Options>::decode *)
Definition rpc_decode (n : node) (rhs : RpcOptions) : res (option RpcOptions) :=
  if negb (IsMap n) then Ok None
  else
    bs ← each_of n "backends" rpc_decode_backend (rpc_backends_options rhs);
    cs ← each_of n "clients_options" decode_func (clients_options rhs);
    ss ← each_of n "servers_options" decode_func (servers_options rhs);
    Ok (Some (mkRpcOptions bs cs ss)).
End Options.

Arguments RpcOptions : clear implicits.

(** ** Handles *)

(** The references to the backend manager and to the passed keys are fields of
    the manager. *)
(* @src src/src/runtime/core/rpc/rpc_handle_proxy.h:13-24 RpcHandleProxy *)
Record RpcHandleProxy := mkRpcHandle { rh_pkg_path : string; rh_module_name : string }.

(** A [noexcept] function: [None] when the program has been terminated. *)
Definition noexcept {S A} (m : M S A) : M S (option A) :=
  try_catch (a ← m; mret (Some a)) (λ _, mret None).

Section MergeContexts.
Context {Msg X : Type}.
Abbreviation W := (World Msg X).

(** Copy the passed keys that have a value. *)
Fixpoint rpc_merge_keys (keys : list string) (server_ctx client_ctx : nat) : M W unit :=
  match keys with
  | [] => mret tt
  | key :: keys' =>
      c ← get_rctx server_ctx;
      let val := rc_GetMetaValue c key in
      (if bool_decide (val = "") then mret tt else update_rctx client_ctx (rc_SetMetaValue key val));;
      rpc_merge_keys keys' server_ctx client_ctx
  end.

(* @src src/src/runtime/core/rpc/rpc_handle_proxy.h:83-98 RpcHandleProxy::MergeServerContextToClientContext *)
Definition MergeServerContextToClientContext (passed_context_meta_keys : gset string)
    (server_ctx client_ctx : nat) : M W unit :=
  cs ← get_rctx server_ctx;
  if bool_decide (rc_type cs ≠ AIMRT_RPC_SERVER_CONTEXT) then mret tt
  else
    cc ← get_rctx client_ctx;
    if bool_decide (rc_type cc ≠ AIMRT_RPC_CLIENT_CONTEXT) then mret tt
    else rpc_merge_keys (elements passed_context_meta_keys) server_ctx client_ctx.

(** ** The "debug_log" filters

    They print the request and put a hook that prints the response in front of
    the callback, then go on. *)

(* @src src/src/runtime/core/rpc/rpc_manager.cc:433-469 RpcManager::RegisterDebugLogFilter (client) *)
Definition client_debug_log : RpcFilter Msg X := λ h cw,
  on_client cw (TrySerializeReqWithCache "json");;
  i ← on_client cw get;
  get_rctx (iw_ctx i);;
  on_client cw (modify (λ i, set_callback (Some (ClientThen DebugLog cw (iw_callback i))) i));;
  h cw.

(* @src src/src/runtime/core/rpc/rpc_manager.cc:473-509 RpcManager::RegisterDebugLogFilter (server) *)
Definition server_debug_log : RpcFilter Msg X := λ h sw,
  on_service sw (TrySerializeReqWithCache "json");;
  i ← on_service sw get;
  get_rctx (iw_ctx i);;
  on_service sw (modify (λ i, set_callback (Some (ServiceThen DebugLog sw (iw_callback i))) i));;
  h sw.
End MergeContexts.

(** ** [RpcManager] *)

Section RpcManager.
Context {Msg X : Type} `{YamlOps node} `{HasLocalRpc X} `{IterOrder}.
Context (regex_match : string → string → res bool).
(** What users' hooks do, [CreateSharedPtr()] of a type support, and the
    executor of a name with whether it supports timers. *)
Context (user_client_hook user_service_hook : nat → nat → Z → M (World Msg X) unit).
Context (Create : TypeSupport Msg → Msg).
Context (find_executor : string → option bool).

Abbreviation W := (World Msg X).
Abbreviation backend := (RpcBackend Msg X (option node)).
Abbreviation rbm := (RpcBackendManager Msg X (option node)).

(* @src src/src/runtime/core/rpc/rpc_manager.h:97-116 RpcManager *)
Record RpcManager := mkRM {
  rm_options : RpcOptions node;
  rm_state : State;
  rm_has_get_executor_func : bool;
  rm_passed_context_meta_keys : gset string;
  rm_rpc_backend_vec : list backend;
  rm_used_rpc_backend_vec : list backend;
  rm_has_rpc_registry : bool;
  rm_rpc_backend_manager : rbm;
  rm_rpc_handle_proxy_map : gmap string RpcHandleProxy
}.

Definition RpcManager_new : RpcManager := mkRM rpc_default kPreInit false ∅ [] [] false RpcBackendManager_new ∅.

Definition set_rm_options x (s : RpcManager) : RpcManager :=
  mkRM x (rm_state s) (rm_has_get_executor_func s) (rm_passed_context_meta_keys s) (rm_rpc_backend_vec s)
    (rm_used_rpc_backend_vec s) (rm_has_rpc_registry s) (rm_rpc_backend_manager s)
    (rm_rpc_handle_proxy_map s).
Definition set_rm_state x (s : RpcManager) : RpcManager :=
  mkRM (rm_options s) x (rm_has_get_executor_func s) (rm_passed_context_meta_keys s) (rm_rpc_backend_vec
    s) (rm_used_rpc_backend_vec s) (rm_has_rpc_registry s) (rm_rpc_backend_manager s)
    (rm_rpc_handle_proxy_map s).
Definition set_rm_has_get_executor_func x (s : RpcManager) : RpcManager :=
  mkRM (rm_options s) (rm_state s) x (rm_passed_context_meta_keys s) (rm_rpc_backend_vec s)
    (rm_used_rpc_backend_vec s) (rm_has_rpc_registry s) (rm_rpc_backend_manager s)
    (rm_rpc_handle_proxy_map s).
Definition set_rm_passed_context_meta_keys x (s : RpcManager) : RpcManager :=
  mkRM (rm_options s) (rm_state s) (rm_has_get_executor_func s) x (rm_rpc_backend_vec s)
    (rm_used_rpc_backend_vec s) (rm_has_rpc_registry s) (rm_rpc_backend_manager s)
    (rm_rpc_handle_proxy_map s).
Definition set_rm_rpc_backend_vec x (s : RpcManager) : RpcManager :=
  mkRM (rm_options s) (rm_state s) (rm_has_get_executor_func s) (rm_passed_context_meta_keys s) x
    (rm_used_rpc_backend_vec s) (rm_has_rpc_registry s) (rm_rpc_backend_manager s)
    (rm_rpc_handle_proxy_map s).
Definition set_rm_used_rpc_backend_vec x (s : RpcManager) : RpcManager :=
  mkRM (rm_options s) (rm_state s) (rm_has_get_executor_func s) (rm_passed_context_meta_keys s)
    (rm_rpc_backend_vec s) x (rm_has_rpc_registry s) (rm_rpc_backend_manager s) (rm_rpc_handle_proxy_map
    s).
Definition set_rm_has_rpc_registry x (s : RpcManager) : RpcManager :=
  mkRM (rm_options s) (rm_state s) (rm_has_get_executor_func s) (rm_passed_context_meta_keys s)
    (rm_rpc_backend_vec s) (rm_used_rpc_backend_vec s) x (rm_rpc_backend_manager s)
    (rm_rpc_handle_proxy_map s).
Definition set_rm_rpc_backend_manager x (s : RpcManager) : RpcManager :=
  mkRM (rm_options s) (rm_state s) (rm_has_get_executor_func s) (rm_passed_context_meta_keys s)
    (rm_rpc_backend_vec s) (rm_used_rpc_backend_vec s) (rm_has_rpc_registry s) x (rm_rpc_handle_proxy_map
    s).
Definition set_rm_rpc_handle_proxy_map x (s : RpcManager) : RpcManager :=
  mkRM (rm_options s) (rm_state s) (rm_has_get_executor_func s) (rm_passed_context_meta_keys s)
    (rm_rpc_backend_vec s) (rm_used_rpc_backend_vec s) (rm_has_rpc_registry s) (rm_rpc_backend_manager s)
    x.

(** Calls on the manager and the world beside it. *)
Abbreviation Sys := (RpcManager * W)%type.
Definition on_rm {A} (m : M RpcManager A) : M Sys A := zoom fst (λ c y, (c, y.2)) m.
Definition on_world {A} (m : M W A) : M Sys A := zoom snd (λ s y, (y.1, s)) m.
(** A call on the backend manager. *)
Definition on_rpc_backend_manager {A} (m : M (rbm * W) A) : M Sys A :=
  zoom (λ y, (rm_rpc_backend_manager y.1, y.2)) (λ z y, (set_rm_rpc_backend_manager z.1 y.1, z.2)) m.

Definition rm_when_state (st : State) (what : string) : M Sys unit :=
  rm ← on_rm get;
  check_throw (state_eqb (rm_state rm) st) what.
Definition rm_when_preinit : M Sys unit :=
  rm_when_state kPreInit "Method can only be called when state is 'PreInit'.".
Definition rm_when_init : M Sys unit := rm_when_state kInit "Method can only be called when state is 'Init'.".

(* @src src/src/runtime/core/rpc/rpc_manager.cc:323-330 RpcManager::RegisterRpcBackend *)
Definition rm_RegisterRpcBackend (b : backend) : M Sys unit :=
  rm_when_preinit;;
  on_rm (modify (λ rm, set_rm_rpc_backend_vec (rm_rpc_backend_vec rm ++ [b]) rm)).

(* @src src/src/runtime/core/rpc/rpc_manager.cc:332-339 RpcManager::RegisterGetExecutorFunc *)
Definition rm_RegisterGetExecutorFunc (is_set : bool) : M Sys unit :=
  rm_when_preinit;; on_rm (modify (set_rm_has_get_executor_func is_set)).

(* @src src/src/runtime/core/rpc/rpc_manager.cc:358-363 RpcManager::RegisterClientFilter *)
Definition rm_RegisterClientFilter (name : string) (filter : RpcFilter Msg X) : M Sys unit :=
  rm_when_preinit;; on_rpc_backend_manager (on_client_filters (Rpc_RegisterFilter name filter)).

(* @src src/src/runtime/core/rpc/rpc_manager.cc:365-370 RpcManager::RegisterServerFilter *)
Definition rm_RegisterServerFilter (name : string) (filter : RpcFilter Msg X) : M Sys unit :=
  rm_when_preinit;; on_rpc_backend_manager (on_server_filters (Rpc_RegisterFilter name filter)).

(* @src src/src/runtime/core/rpc/rpc_manager.cc:396-401 RpcManager::AddPassedContextMetaKeys *)
Definition rm_AddPassedContextMetaKeys (keys : gset string) : M Sys unit :=
  rm_when_preinit;;
  on_rm (modify (λ rm, set_rm_passed_context_meta_keys (rm_passed_context_meta_keys rm ∪ keys) rm)).

(** The backend is a new object: the state of one there already is not
    touched when the manager refuses it. *)
(* @src src/src/runtime/core/rpc/rpc_manager.cc:417-428 RpcManager::RegisterLocalRpcBackend *)
Definition RegisterLocalRpcBackend : M Sys unit :=
  rm ← on_rm get;
  let '(r, l) := lr_RegisterGetExecutorFunc (rm_has_get_executor_func rm) LocalRpcBackend_new in
  lift r;;
  rm_RegisterRpcBackend (local_rpc_backend user_client_hook Create find_executor);;
  on_world (on_lr (put l)).

(* @src src/src/runtime/core/rpc/rpc_manager.cc:430-510 RpcManager::RegisterDebugLogFilter *)
Definition rm_RegisterDebugLogFilter : M Sys unit :=
  rm_RegisterClientFilter "debug_log" client_debug_log;;
  rm_RegisterServerFilter "debug_log" server_debug_log.

(** [std::find_if] over the backends of the manager. *)
Definition rm_find_backend (bs : list backend) (name : string) : option backend :=
  List.find (λ b, String.eqb (rb_Name b) name) bs.

(** The backend a configuration entry names, initialized and registered. *)
(* @src src/src/runtime/core/rpc/rpc_manager.cc:117-135 RpcManager::Initialize (backend) *)
Definition rpc_init_backend (o : string * node) : M Sys unit :=
  rm ← on_rm get;
  match rm_find_backend (rm_rpc_backend_vec rm) o.1 with
  | None => throw (AimRTException "Invalid rpc backend type '{}'")
  | Some b =>
      on_world (rb_Initialize b (Some o.2));;
      on_rpc_backend_manager (rbm_RegisterRpcBackend b);;
      on_rm (modify (λ rm, set_rm_used_rpc_backend_vec (rm_used_rpc_backend_vec rm ++ [b]) rm))
  end.

(** Every backend a function enables must be in use. *)
Definition func_rules_ok (names : list string) (fs : list FuncOptions) : bool :=
  forallb (λ f, forallb (λ n, bool_decide (n ∈ names)) (fo_enable_backends f)) fs.

Definition func_backends_rules (fs : list FuncOptions) : list (string * list string) :=
  map (λ f, (fo_func_name f, fo_enable_backends f)) fs.
Definition func_filters_rules (fs : list FuncOptions) : list (string * list string) :=
  map (λ f, (fo_func_name f, fo_enable_filters f)) fs.

(* @src src/src/runtime/core/rpc/rpc_manager.cc:95-176 RpcManager::Initialize *)
Definition rm_Initialize (options_node : option node) : M Sys unit :=
  RegisterLocalRpcBackend;;
  rm_RegisterDebugLogFilter;;
  rm ← on_rm get;
  on_rm (modify (set_rm_state kInit));;
  check_throw (state_eqb (rm_state rm) kPreInit) "Rpc manager can only be initialized once.";;
  o ← lift (read_options rpc_decode (rm_options rm) options_node);
  on_rm (modify (λ rm, set_rm_options (default (rm_options rm) o) rm));;
  on_rm (modify (set_rm_has_rpc_registry true));;
  on_rpc_backend_manager (rbm_SetRpcRegistry RpcRegistry_new);;
  rm ← on_rm get;
  on_rpc_backend_manager (rbm_SetClientFilterManager (client_filter_manager (rm_rpc_backend_manager rm)));;
  on_rpc_backend_manager (rbm_SetServerFilterManager (server_filter_manager (rm_rpc_backend_manager rm)));;
  mapM_ rpc_init_backend (rpc_backends_options (rm_options rm));;
  rm ← on_rm get;
  let names := map rb_Name (rm_used_rpc_backend_vec rm) in
  let clients := clients_options (rm_options rm) in
  check_throw (func_rules_ok names clients) "Invalid rpc backend type '{}' for func '{}'";;
  on_rpc_backend_manager (rbm_SetClientsBackendsRules (func_backends_rules clients));;
  on_rpc_backend_manager (rbm_SetClientsFiltersRules (func_filters_rules clients));;
  let servers := servers_options (rm_options rm) in
  check_throw (func_rules_ok names servers) "Invalid rpc backend type '{}' for func '{}'";;
  on_rpc_backend_manager (rbm_SetServersBackendsRules (func_backends_rules servers));;
  on_rpc_backend_manager (rbm_SetServersFiltersRules (func_filters_rules servers));;
  on_rpc_backend_manager rbm_Initialize.

(* @src src/src/runtime/core/rpc/rpc_manager.cc:178-186 RpcManager::Start *)
Definition rm_Start : M Sys unit :=
  rm ← on_rm get;
  on_rm (modify (set_rm_state kStart));;
  check_throw (state_eqb (rm_state rm) kInit) "Method can only be called when state is 'Init'.";;
  on_rpc_backend_manager rbm_Start.

(* @src src/src/runtime/core/rpc/rpc_manager.cc:188-206 RpcManager::Shutdown *)
Definition rm_Shutdown : M Sys unit :=
  rm ← on_rm get;
  on_rm (modify (set_rm_state kShutdown));;
  if state_eqb (rm_state rm) kShutdown then mret tt
  else
    on_rm (modify (set_rm_rpc_handle_proxy_map ∅));;
    on_rpc_backend_manager rbm_Shutdown;;
    on_rm (modify (set_rm_rpc_backend_vec []));;
    on_rm (modify (set_rm_has_rpc_registry false));;
    on_rpc_backend_manager (on_server_filters (modify Rpc_Clear));;
    on_rpc_backend_manager (on_client_filters (modify Rpc_Clear));;
    on_rm (modify (set_rm_has_get_executor_func false)).

(** A module's handle, made when it is first asked for; named by the module. *)
(* @src src/src/runtime/core/rpc/rpc_manager.cc:341-356 RpcManager::GetRpcHandleProxy *)
Definition GetRpcHandleProxy (pkg name : string) : M Sys string :=
  rm_when_init;;
  on_rm (modify (λ rm, set_rm_rpc_handle_proxy_map
    (match rm_rpc_handle_proxy_map rm !! name with
     | Some _ => rm_rpc_handle_proxy_map rm
     | None => <[name := mkRpcHandle pkg name]> (rm_rpc_handle_proxy_map rm)
     end) rm));;
  mret name.

(** The accessors: the manager's part, when it is initialized. *)
(* @src src/src/runtime/core/rpc/rpc_manager.cc:372-378 RpcManager::GetRpcBackendManager *)
Definition rm_GetRpcBackendManager : M Sys rbm := rm_when_init;; on_rm (gets rm_rpc_backend_manager).
(* @src src/src/runtime/core/rpc/rpc_manager.cc:380-386 RpcManager::GetClientFilterManager *)
Definition rm_GetClientFilterManager : M Sys (RpcFilterManager Msg X) :=
  rm_when_init;; on_rm (gets (λ rm, client_filter_manager (rm_rpc_backend_manager rm))).
(* @src src/src/runtime/core/rpc/rpc_manager.cc:388-394 RpcManager::GetServerFilterManager *)
Definition rm_GetServerFilterManager : M Sys (RpcFilterManager Msg X) :=
  rm_when_init;; on_rm (gets (λ rm, server_filter_manager (rm_rpc_backend_manager rm))).
(* @src src/src/runtime/core/rpc/rpc_manager.cc:403-408 RpcManager::GetRpcRegistry *)
Definition rm_GetRpcRegistry : M Sys (option (RpcRegistry Msg X)) :=
  rm_when_init;;
  on_rm (gets (λ rm, if rm_has_rpc_registry rm then Some (rbm_registry (rm_rpc_backend_manager rm)) else None)).
(* @src src/src/runtime/core/rpc/rpc_manager.cc:410-415 RpcManager::GetUsedRpcBackend *)
Definition rm_GetUsedRpcBackend : M Sys (list backend) := rm_when_init;; on_rm (gets rm_used_rpc_backend_vec).

(** *** Calls through a handle *)

Definition on_rpc_handle {A} (name : string) (m : RpcHandleProxy → M Sys A) : M Sys A :=
  rm ← on_rm get;
  match rm_rpc_handle_proxy_map rm !! name with
  | None => undef
  | Some h => m h
  end.

(* @src src/src/runtime/core/rpc/rpc_handle_proxy.h:34-49 RpcHandleProxy::RegisterServiceFunc *)
Definition rh_RegisterServiceFunc (h : RpcHandleProxy) (func : string) (req_ts rsp_ts : option (TypeSupport Msg))
    (has_service_func : bool) : M Sys (option bool) :=
  noexcept (on_rpc_backend_manager
    (rbm_RegisterServiceFunc regex_match (rh_pkg_path h) (rh_module_name h) func req_ts rsp_ts has_service_func)).

(* @src src/src/runtime/core/rpc/rpc_handle_proxy.h:51-64 RpcHandleProxy::RegisterClientFunc *)
Definition rh_RegisterClientFunc (h : RpcHandleProxy) (func : string) (req_ts rsp_ts : option (TypeSupport Msg))
    : M Sys (option bool) :=
  noexcept (on_rpc_backend_manager
    (rbm_RegisterClientFunc regex_match (rh_pkg_path h) (rh_module_name h) func req_ts rsp_ts)).

(* @src src/src/runtime/core/rpc/rpc_handle_proxy.h:66-81 RpcHandleProxy::Invoke *)
Definition rh_Invoke (h : RpcHandleProxy) (func : string) (ctx : nat) (req : option Msg) (rsp : option nat)
    (call : nat) : M Sys (option unit) :=
  noexcept (on_rpc_backend_manager
    (rbm_Invoke user_client_hook (rh_pkg_path h) (rh_module_name h) func ctx req rsp call)).

(** ** The report *)

Definition func_cells (func : string) : list bytes := [lit func].
Definition func_header : list bytes := [lit "func"; lit "module"; lit "backends"; lit "filters"].

(* @src src/src/runtime/core/rpc/rpc_manager.cc:213-245 RpcManager::GenInitializationReport (clients) *)
Definition func_table (index : gmap string (list RpcKey)) (info : gmap string (list string))
    (filters : string → list string) : res (list (list bytes)) :=
  table_of func_cells 1 (λ f _, f) rk_module_name "Invalid rpc registry info." func_header index info filters.

(* @src src/src/runtime/core/rpc/rpc_manager.cc:208-321 RpcManager::GenInitializationReport *)
Definition rm_GenInitializationReport : M Sys (list (string * bytes)) :=
  rm_when_init;;
  rm ← on_rm get;
  if negb (rm_has_rpc_registry rm) then undef else
  w ← on_world get;
  let bm := rm_rpc_backend_manager rm in
  let r := rbm_registry bm in
  cli ← lift (func_table (client_index_map r) (GetClientsBackendInfo bm)
                (Rpc_GetFilterNameVec (client_filter_manager bm)));
  srv ← lift (func_table (service_index_map r) (GetServersBackendInfo bm)
                (Rpc_GetFilterNameVec (server_filter_manager bm)));
  mret ([("Rpc Backend List", name_list (map rb_Name (rm_rpc_backend_vec rm)));
         ("Rpc Client Filter List", name_list (Rpc_GetAllFiltersName (client_filter_manager bm)));
         ("Rpc Server Filter List", name_list (Rpc_GetAllFiltersName (server_filter_manager bm)));
         ("Rpc Client Info", DrawTable cli true);
         ("Rpc Server Info", DrawTable srv true)] ++
        (b ← rm_used_rpc_backend_vec rm; (λ '(k, v), (k, lit v)) <$> rb_Report b w)).
End RpcManager.

Arguments RpcManager : clear implicits.

(** * The report *)

#[export] Instance func_cells_inj : Inj (=) (=) func_cells.
Proof. intros f f' [= ->%lit_inj]. done. Qed.

Section RpcReport.
Context {Msg X : Type} `{YamlOps node} `{HasLocalRpc X} `{IterOrder}.
Context (regex_match : string → string → res bool).
Context (user_client_hook : nat → nat → Z → M (World Msg X) unit).

(** The table of an index of the functions of [m], which all have backends. *)
Lemma func_table_ok {A} (m : gmap RpcKey A) index info filters :
  index_lists m index → (∀ k, is_Some (m !! k) → is_Some (info !! rk_func_name k)) →
  ∃ rows, func_table index info filters = Ok (func_header :: rows) ∧ NoDup (take 1 <$> rows) ∧
    ∀ f, func_cells f ∈ take 1 <$> rows ↔ ∃ k, rk_func_name k = f ∧ is_Some (m !! k).
Proof.
  intros [Hin Hne] Hinfo.
  destruct (table_of_ok func_cells 1 (λ f (_ : RpcKey), f) rk_module_name "Invalid rpc registry info."
    (λ _, eq_refl) _ func_header index info filters) as (rows & Ht & Hnd & Hrows).
  - intros f [|k ks] Hks; [by destruct (Hne f)|]. destruct (proj1 (Hin f k)) as [<- Hk]; [|by apply Hinfo].
    rewrite Hks. apply list_elem_of_here.
  - exists rows. split; [exact Ht|]. split; [done|]. intros f. rewrite Hrows. split.
    + intros (f' & ks & k & Hks & Hk & ->). exists k. apply Hin. by rewrite Hks.
    + intros (k & <- & Hk). pose proof (proj2 (Hin (rk_func_name k) k) (conj eq_refl Hk)) as Hel.
      destruct (index !! rk_func_name k) as [ks|] eqn:Hks; [by exists (rk_func_name k), ks, k|].
      by apply not_elem_of_nil in Hel.
Qed.

(** The report is complete.  When the manager has been initialized, whatever
    has been registered and whatever went wrong on the way, the report is made
    without an error and changes nothing; its two tables have a row for each
    function that has a client or a service, and only one. *)
Theorem rpc_report_complete (rm : RpcManager Msg X node) (w : World Msg X) :
  rm_state rm = kInit → rm_has_rpc_registry rm = true →
  let bm := rm_rpc_backend_manager rm in
  rtc (rbm_step regex_match user_client_hook) RpcBackendManager_new bm →
  ∃ report cli srv, rm_GenInitializationReport (rm, w) = (Ok report, (rm, w)) ∧
    ("Rpc Client Info", DrawTable (func_header :: cli) true) ∈ report ∧
    ("Rpc Server Info", DrawTable (func_header :: srv) true) ∈ report ∧
    NoDup (take 1 <$> cli) ∧ NoDup (take 1 <$> srv) ∧
    (∀ f, func_cells f ∈ take 1 <$> cli ↔
       ∃ pkg mo, is_Some (GetClientFuncWrapperPtr (rbm_registry bm) f pkg mo)) ∧
    (∀ f, func_cells f ∈ take 1 <$> srv ↔
       ∃ pkg mo, is_Some (GetServiceFuncWrapperPtr (rbm_registry bm) f pkg mo)).
Proof.
  intros Hst Hreg bm [Hr _ _ Hcli Hsrv _ _ _]%rbm_reachable_ok.
  destruct (func_table_ok _ (client_index_map (rbm_registry bm)) (GetClientsBackendInfo bm)
    (Rpc_GetFilterNameVec (client_filter_manager bm)) (rok_client_index _ Hr)) as (cli & Hct & Hcn & Hcr).
  { intros k Hk. unfold GetClientsBackendInfo. rewrite lookup_fmap. destruct (Hcli k Hk) as [bs ->]. by eexists. }
  destruct (func_table_ok _ (service_index_map (rbm_registry bm)) (GetServersBackendInfo bm)
    (Rpc_GetFilterNameVec (server_filter_manager bm)) (rok_service_index _ Hr)) as (srv & Hst' & Hsn & Hsr).
  { intros k Hk. unfold GetServersBackendInfo. rewrite lookup_fmap. destruct (Hsrv k Hk) as [bs ->]. by eexists. }
  unfold rm_GenInitializationReport, rm_when_init, rm_when_state, on_rm, on_world. unfold_monad. cbn [fst snd].
  rewrite Hst. change (state_eqb kInit kInit) with true. cbv iota. unfold_monad. cbn [fst snd].
  rewrite Hreg. cbn [negb fst snd]. fold bm. rewrite Hct, Hst'. cbn [fst snd].
  eexists _, cli, srv. split; [reflexivity|].
  split; [apply elem_of_app; left; do 3 apply list_elem_of_further; apply list_elem_of_here|].
  split; [apply elem_of_app; left; do 4 apply list_elem_of_further; apply list_elem_of_here|].
  split; [done|]. split; [done|]. split; intros f; [rewrite Hcr|rewrite Hsr]; split.
  1,3: intros ([f' pkg mo] & <- & Hk); by exists pkg, mo.
  all: intros (pkg & mo & Hk); by exists (mkRpcKey f pkg mo).
Qed.
End RpcReport.

(** * Initialization *)

Section RpcInitialize.
Context {Msg X : Type} `{YamlOps node} `{HasLocalRpc X} `{IterOrder}.
Context (regex_match : string → string → res bool).
Context (user_client_hook : nat → nat → Z → M (World Msg X) unit).
Context (Create : TypeSupport Msg → Msg).
Context (find_executor : string → option bool).

Abbreviation manager := (RpcManager Msg X node).
Abbreviation Sys := (manager * World Msg X)%type.
Abbreviation backend := (RpcBackend Msg X (option node)).

(** What the steps of [Initialize] keep. *)
Record rpc_initializing (reg : bool) (st : State) (o : RpcOptions node) (vec : list backend) (y : Sys) : Prop := {
  rini_state : rm_state y.1 = st;
  rini_options : rm_options y.1 = o;
  rini_bm : rbm_state (rm_rpc_backend_manager y.1) = kPreInit;
  rini_vec : rpc_backend_index_vec (rm_rpc_backend_manager y.1) = vec;
  rini_used : rm_used_rpc_backend_vec y.1 = vec;
  rini_registry : rm_has_rpc_registry y.1 = reg
}.

Lemma rm_when_preinit_ok (y : Sys) a y' : rm_when_preinit y = (Ok a, y') → y' = y ∧ rm_state y.1 = kPreInit.
Proof.
  unfold rm_when_preinit, rm_when_state, on_rm. unfold_monad. unfold state_eqb.
  case_bool_decide as Hst; [|done]. intros [= _ <-]. by destruct y.
Qed.

Lemma on_rpc_backend_manager_preinit f (y : Sys) :
  rbm_state (rm_rpc_backend_manager y.1) = kPreInit →
  on_rpc_backend_manager (rbm_preinit_only f) y =
    (Ok tt, (set_rm_rpc_backend_manager (f (rm_rpc_backend_manager y.1)) y.1, y.2)).
Proof.
  intros Hst. unfold on_rpc_backend_manager, rbm_preinit_only, on_rbm. unfold_monad. cbn [fst snd].
  rewrite Hst. done.
Qed.

Lemma RegisterLocalRpc_ok reg st o vec (y : Sys) a y' :
  rpc_initializing reg st o vec y → RegisterLocalRpcBackend user_client_hook Create find_executor y = (Ok a, y') →
  rpc_initializing reg st o vec y' ∧ st = kPreInit.
Proof.
  intros [I1 I2 I3 I4 I5 I6] Hrun. unfold RegisterLocalRpcBackend in Hrun.
  apply bind_ok in Hrun as (rm & y1 & Hg & Hrun). unfold on_rm, get, zoom in Hg. injection Hg as <- <-.
  destruct (lr_RegisterGetExecutorFunc _ _) as [r l].
  apply bind_ok in Hrun as (u & y1 & Hl & Hrun). unfold lift in Hl. injection Hl as _ <-.
  apply bind_ok in Hrun as (u' & y1 & Hreg & Hrun). unfold rm_RegisterRpcBackend in Hreg.
  apply bind_ok in Hreg as (u2 & y2 & Hw & Hreg). apply rm_when_preinit_ok in Hw as [-> Hst]. cbn in Hst.
  unfold on_rm, modify, zoom in Hreg. injection Hreg as _ <-.
  unfold on_world, on_lr, put, zoom in Hrun. injection Hrun as _ <-.
  split; [by split|congruence].
Qed.

Lemma RegisterRpcFilter_ok (zp : M (RpcFilterManager Msg X) unit → M (RpcBackendManager Msg X (option node) * World Msg X) unit)
    (m : M (RpcFilterManager Msg X) unit) reg st o vec (y : Sys) a y' :
  (∀ z a z', zp m z = (Ok a, z') → rbm_state z'.1 = rbm_state z.1 ∧
     rpc_backend_index_vec z'.1 = rpc_backend_index_vec z.1) →
  rpc_initializing reg st o vec y → (rm_when_preinit;; on_rpc_backend_manager (zp m)) y = (Ok a, y') →
  rpc_initializing reg st o vec y'.
Proof.
  intros Hzp [I1 I2 I3 I4 I5 I6] (u & y1 & Hw & Hrun)%bind_ok. apply rm_when_preinit_ok in Hw as [-> _].
  unfold on_rpc_backend_manager, zoom in Hrun.
  destruct (zp m _) as [r z'] eqn:Hz. injection Hrun as -> <-.
  destruct (Hzp _ _ _ Hz) as [E1 E2]. cbn in E1, E2. by split; cbn; [| |rewrite E1|rewrite E2| |].
Qed.

Lemma rm_RegisterDebugLogFilter_ok reg st o vec (y : Sys) a y' :
  rpc_initializing reg st o vec y → rm_RegisterDebugLogFilter y = (Ok a, y') → rpc_initializing reg st o vec y'.
Proof.
  intros Hi (u & y1 & I1 & I2)%bind_ok.
  assert (rpc_initializing reg st o vec y1) as Hi1.
  { eapply (RegisterRpcFilter_ok on_client_filters), I1; [|done].
    intros z b z'. unfold on_client_filters, on_rbm, zoom.
    destruct (Rpc_RegisterFilter _ _ _) as [r fm]. by intros [= -> <-]. }
  eapply (RegisterRpcFilter_ok on_server_filters), I2; [|done].
  intros z b z'. unfold on_server_filters, on_rbm, zoom.
  destruct (Rpc_RegisterFilter _ _ _) as [r fm]. by intros [= -> <-].
Qed.

Lemma rm_find_backend_name (bs : list backend) n b : rm_find_backend bs n = Some b → rb_Name b = n.
Proof. unfold rm_find_backend. intros [_ Hb]%List.find_some. by apply String.eqb_eq. Qed.

Lemma rpc_init_backend_ok reg st o vec opt (y : Sys) a y' :
  rpc_initializing reg st o vec y → rpc_init_backend opt y = (Ok a, y') →
  ∃ b, rpc_initializing reg st o (vec ++ [b]) y' ∧ rb_Name b = opt.1.
Proof.
  intros [I1 I2 I3 I4 I5 I6] (rm & y1 & Hg & Hrun)%bind_ok. unfold on_rm, get, zoom in Hg. injection Hg as <- <-.
  destruct (rm_find_backend _ _) as [b|] eqn:Hb; [|done]. exists b. split; [|by eapply rm_find_backend_name].
  apply bind_ok in Hrun as (u & y1 & Hi & Hrun). unfold on_world, zoom in Hi.
  destruct (rb_Initialize b _ _) as [r s']. injection Hi as -> <-.
  apply bind_ok in Hrun as (u' & y1 & Hr & Hrun). unfold rbm_RegisterRpcBackend in Hr.
  rewrite on_rpc_backend_manager_preinit in Hr by done. injection Hr as _ <-.
  unfold on_rm, modify, zoom in Hrun. injection Hrun as _ <-. split; cbn; try done; by rewrite ?I4, ?I5.
Qed.

Lemma rpc_init_backends_ok opts : ∀ reg st o vec (y : Sys) a y',
  rpc_initializing reg st o vec y → mapM_ rpc_init_backend opts y = (Ok a, y') →
  ∃ vec', rpc_initializing reg st o vec' y' ∧ map rb_Name vec' = map rb_Name vec ++ opts.*1.
Proof.
  induction opts as [|opt opts IH]; intros reg st o vec y a y' Hi Hrun.
  - injection Hrun as _ <-. exists vec. split; [done|]. by rewrite app_nil_r.
  - apply bind_ok in Hrun as (u & y1 & Hb & Hrun).
    destruct (rpc_init_backend_ok _ _ _ _ _ _ _ _ Hi Hb) as (b & Hi1 & Hn).
    destruct (IH _ _ _ _ _ _ _ Hi1 Hrun) as (vec' & Hi2 & Hv). exists vec'. split; [done|].
    rewrite Hv, map_app, <-app_assoc. cbn. by rewrite Hn.
Qed.

Lemma find_rpc_backend_in (bs : list backend) n p : n ∈ map rb_Name bs → is_Some (find_rpc_backend bs p n).
Proof.
  revert p; induction bs as [|b bs IH]; intros p Hn; [by apply not_elem_of_nil in Hn|]. cbn in *.
  destruct (String.eqb_spec (rb_Name b) n) as [|Hne]; [by eexists|]. apply IH.
  apply elem_of_cons in Hn as [->|]; done.
Qed.

(** The names of the pointers that names have been looked up to. *)
Lemma names_of_pointers (bm : RpcBackendManager Msg X (option node)) names :
  Forall (λ n, n ∈ map rb_Name (rpc_backend_index_vec bm)) names →
  backend_names bm (omap (find_rpc_backend (rpc_backend_index_vec bm) 0) names) = names.
Proof.
  induction 1 as [|n names Hn _ IH]; [done|].
  destruct (find_rpc_backend_in _ n 0 Hn) as [p Hp]. cbn. rewrite Hp.
  destruct (find_rpc_backend_Some _ _ _ _ Hp) as (b & Hb & Hname & _). rewrite Nat.sub_0_r in Hb.
  unfold backend_names in *. cbn [omap list_omap]. rewrite Hb. cbn. by rewrite Hname, IH.
Qed.

(** No backend a rule names is lost when the rule is applied. *)
Lemma rpc_rules_resolve (bm : RpcBackendManager Msg X (option node)) fs func :
  func_rules_ok (map rb_Name (rpc_backend_index_vec bm)) fs = true →
  backend_names bm (rpc_GetBackendsByRules regex_match (rpc_backend_index_vec bm) func (func_backends_rules fs)) =
    rpc_GetFilterRules regex_match func (func_backends_rules fs).
Proof.
  intros Hfs. rewrite GetBackendsByRules_names. apply names_of_pointers. unfold rpc_GetFilterRules.
  induction fs as [|f fs IH]; [apply Forall_nil_2|]. cbn in Hfs. apply andb_prop in Hfs as [Hf Hfs]. cbn.
  destruct (regex_match (fo_func_name f) func) as [[]| |]; try by apply IH.
  apply Forall_forall. intros n Hn%list_elem_of_In.
  apply (proj1 (forallb_forall _ _) Hf) in Hn. by apply bool_decide_eq_true in Hn.
Qed.

Ltac run_quiet Hrun :=
  let E := fresh "E" in run_step Hrun E; unfold on_rm, get, modify, zoom in E; cbn [fst snd] in E;
  injection E; clear E; intros <- <-; cbn [fst snd] in Hrun.
Ltac run_set Hrun :=
  let E := fresh "E" in run_step Hrun E; rewrite on_rpc_backend_manager_preinit in E by done;
  injection E; clear E; intros <- <-; cbn [fst snd] in Hrun.

(** Initialization.  When the manager of a new core is initialized without
    an error, exactly the backends the configuration lists have been
    initialized and registered, in that order, the rules are those of the
    configuration, and for every function the backends chosen are, name for
    name, those that the first matching rule enables: none is dropped. *)
Theorem rpc_initialize_resolves_rules n (y y' : Sys) :
  rpc_initializing false kPreInit rpc_default [] y →
  rm_Initialize user_client_hook Create find_executor n y = (Ok tt, y') →
  let rm := y'.1 in
  let bm := rm_rpc_backend_manager rm in
  rm_state rm = kInit ∧ rm_has_rpc_registry rm = true ∧ rbm_state bm = kInit ∧
  rpc_backend_index_vec bm = rm_used_rpc_backend_vec rm ∧
  map rb_Name (rm_used_rpc_backend_vec rm) = (rpc_backends_options (rm_options rm)).*1 ∧
  clients_backends_rules bm = func_backends_rules (clients_options (rm_options rm)) ∧
  servers_backends_rules bm = func_backends_rules (servers_options (rm_options rm)) ∧
  clients_filters_rules bm = func_filters_rules (clients_options (rm_options rm)) ∧
  servers_filters_rules bm = func_filters_rules (servers_options (rm_options rm)) ∧
  ∀ func,
    backend_names bm (rpc_GetBackendsByRules regex_match (rpc_backend_index_vec bm) func (clients_backends_rules bm))
      = rpc_GetFilterRules regex_match func (clients_backends_rules bm) ∧
    backend_names bm (rpc_GetBackendsByRules regex_match (rpc_backend_index_vec bm) func (servers_backends_rules bm))
      = rpc_GetFilterRules regex_match func (servers_backends_rules bm).
Proof.
  intros Hi Hrun. unfold rm_Initialize in Hrun.
  apply bind_ok in Hrun as (u1 & y1 & E1 & Hrun).
  destruct (RegisterLocalRpc_ok _ _ _ _ _ _ _ Hi E1) as [Hi1 _].
  apply bind_ok in Hrun as (u2 & y2 & E2 & Hrun).
  destruct (rm_RegisterDebugLogFilter_ok _ _ _ _ _ _ _ Hi1 E2) as [_ I2 I3 I4 I5 _]. clear Hi Hi1 E1 E2 y y1.
  run_quiet Hrun. run_quiet Hrun. run_check Hrun.
  apply bind_ok in Hrun as (o & y6 & E6 & Hrun). unfold lift in E6. injection E6 as _ <-.
  run_quiet Hrun.
  unfold rbm_SetRpcRegistry, rbm_SetClientFilterManager, rbm_SetServerFilterManager in Hrun.
  run_quiet Hrun. run_set Hrun. run_quiet Hrun. run_set Hrun. run_set Hrun.
  apply bind_ok in Hrun as (u12 & y12 & E12 & Hrun).
  assert (∃ vec, rpc_initializing true kInit (default rpc_default o) vec y12 ∧
    map rb_Name vec = (rpc_backends_options (default rpc_default o)).*1) as (vec & Hi & Hnames).
  { refine (_ (λ Hi, rpc_init_backends_ok _ true kInit (default rpc_default o) [] _ _ _ Hi E12)).
    intros Hx. destruct Hx as (vec & Hi & Hn); [split; cbn; by rewrite ?I2|].
    exists vec. split; [done|]. rewrite Hn. cbn. by rewrite I2. }
  clear E12. run_quiet Hrun. destruct Hi as [J1 J2 J3 J4 J5 J6]. destruct y12 as [rm w]. cbn [fst snd] in *.
  unfold rbm_SetClientsBackendsRules, rbm_SetClientsFiltersRules, rbm_SetServersBackendsRules,
    rbm_SetServersFiltersRules in Hrun.
  run_check Hrun. run_set Hrun. run_set Hrun. run_check Hrun. run_set Hrun. run_set Hrun.
  unfold on_rpc_backend_manager, rbm_Initialize, rbm_exchange, on_rbm in Hrun. unfold_monad. cbn in Hrun.
  rewrite J3 in Hrun. injection Hrun as <-. cbn. rewrite J4, J5, J2.
  assert (func_rules_ok (map rb_Name vec) (clients_options (default rpc_default o)) = true) as Hc by congruence.
  assert (func_rules_ok (map rb_Name vec) (servers_options (default rpc_default o)) = true) as Hs by congruence.
  do 4 (split; [done|]). split; [exact Hnames|]. do 4 (split; [done|]).
  intros func. rewrite <-J4 in Hc, Hs |- *.
  split; [apply (rpc_rules_resolve _ _ func Hc)|apply (rpc_rules_resolve _ _ func Hs)].
Qed.
End RpcInitialize.

(** * The "debug_log" filters *)

Section DebugLog.
Context {Msg X : Type} `{HasLocalRpc X} `{IterOrder}.
Context (user_client_hook user_service_hook : nat → nat → Z → M (World Msg X) unit).
Context (Create : TypeSupport Msg → Msg).
Implicit Types w : World Msg X.

Definition without_caches {Cb} (i : InvokeWrapper Msg Cb) : InvokeWrapper Msg Cb :=
  set_req_cache ∅ (set_rsp_cache ∅ i).
Definition forget_caches w : World Msg X :=
  set_w_clients (without_caches <$> w_clients w) (set_w_services (without_caches <$> w_services w) w).

(** Worlds that differ at most in what wrappers have cached. *)
Definition same_but_caches w w' : Prop := forget_caches w = forget_caches w'.

#[export] Instance same_but_caches_equiv : Equivalence same_but_caches.
Proof. unfold same_but_caches. split; red; congruence. Qed.

Lemma same_client cw i i' w :
  without_caches i = without_caches i' →
  same_but_caches (set_w_clients (<[cw := i]> (w_clients w)) w) (set_w_clients (<[cw := i']> (w_clients w)) w).
Proof. intros Hi. unfold same_but_caches, forget_caches. cbn. by rewrite !fmap_insert, Hi. Qed.

Lemma same_service sw i i' w :
  without_caches i = without_caches i' →
  same_but_caches (set_w_services (<[sw := i]> (w_services w)) w) (set_w_services (<[sw := i']> (w_services w)) w).
Proof. intros Hi. unfold same_but_caches, forget_caches. cbn. by rewrite !fmap_insert, Hi. Qed.

Lemma set_client_same cw i w : w_clients w !! cw = Some i → set_w_clients (<[cw := i]> (w_clients w)) w = w.
Proof. intros Hi. destruct w; cbn in *. unfold set_w_clients. cbn. by rewrite insert_id. Qed.
Lemma set_service_same sw i w : w_services w !! sw = Some i → set_w_services (<[sw := i]> (w_services w)) w = w.
Proof. intros Hi. destruct w; cbn in *. unfold set_w_services. cbn. by rewrite insert_id. Qed.

Lemma without_caches_callback {Cb} x (i i' : InvokeWrapper Msg Cb) :
  without_caches i = without_caches i' → without_caches (set_callback x i) = without_caches (set_callback x i').
Proof.
  destruct i, i'. unfold without_caches, set_callback, set_req_cache, set_rsp_cache. cbn. congruence.
Qed.

(** Trying to serialize changes at most a cache, whether it succeeds or not. *)
Lemma try_serialize_req {Cb} ty (i : InvokeWrapper Msg Cb) :
  is_Some (iw_req i) →
  ∃ b i', TrySerializeReqWithCache ty i = (Ok b, i') ∧ without_caches i' = without_caches i ∧
    iw_ctx i' = iw_ctx i ∧ iw_callback i' = iw_callback i.
Proof.
  intros [m Hm]. unfold TrySerializeReqWithCache, SerializeReqWithCache. unfold_monad. rewrite Hm.
  destruct (req_serialization_cache i !! ty); [by eexists _, _|].
  destruct (Serialize _ ty m); by eexists _, _.
Qed.

Lemma try_serialize_rsp {Cb} ty m (i : InvokeWrapper Msg Cb) :
  ∃ b i', TrySerializeRspWithCache (Some m) ty i = (Ok b, i') ∧ without_caches i' = without_caches i.
Proof.
  unfold TrySerializeRspWithCache, SerializeRspWithCache. unfold_monad.
  destruct (rsp_serialization_cache i !! ty); [by eexists _, _|].
  destruct (Serialize _ ty m); by eexists _, _.
Qed.

(** The client's "debug_log" filter is transparent.  What is under it is run
    in a world that differs from the one without it in caches and in a hook in
    front of the callback; and the callback with the hook does what it does
    without, in a world that differs at most in caches: whatever the status,
    and whether or not the messages can be serialized. *)
Theorem debug_log_transparent cw i c w :
  w_clients w !! cw = Some i → is_Some (iw_req i) → w_ctxs w !! iw_ctx i = Some c →
  let hooked cb := Some (ClientThen DebugLog cw cb) in
  (∃ w1, same_but_caches w1
           (set_w_clients (<[cw := set_callback (hooked (iw_callback i)) i]> (w_clients w)) w) ∧
         ∀ h, client_debug_log h cw w = h cw w1) ∧
  ∀ cb status w2 j, w_clients w2 !! cw = Some j → is_Some (obj_at w2 (iw_rsp j)) →
    ∃ w3, same_but_caches w3 w2 ∧
      run_client user_client_hook (ClientThen DebugLog cw (Some cb)) status w2 = run_client user_client_hook cb status w3.
Proof.
  intros Hi Hreq Hc hooked. split.
  - destruct (try_serialize_req "json" i Hreq) as (b & i' & Hs & He & Hctx & Hcb).
    exists (set_w_clients (<[cw := set_callback (hooked (iw_callback i)) i']> (w_clients w)) w). split.
    + apply same_client. by apply without_caches_callback.
    + intros h. unfold client_debug_log, on_client, get_rctx. unfold_monad. rewrite Hi, Hs. cbn.
      rewrite lookup_insert_eq. cbn. rewrite !insert_insert_eq, Hctx, Hc. cbn. rewrite lookup_insert_eq. cbn.
      by rewrite insert_insert_eq, Hcb.
  - intros cb status w2 j Hj [m Hm]. destruct (status_OK status) eqn:Hst.
    + destruct (try_serialize_rsp "json" m j) as (b & j' & Hs & He).
      exists (set_w_clients (<[cw := j']> (w_clients w2)) w2). split.
      * transitivity (set_w_clients (<[cw := j]> (w_clients w2)) w2); [by apply same_client|by rewrite (set_client_same cw j)].
      * cbn [run_client run_client_hook]. rewrite Hst. unfold try_serialize_client_rsp, on_client. unfold_monad.
        rewrite Hj. rewrite (set_client_same cw j) by done. rewrite Hj, Hm, Hs. done.
    + exists w2. split; [done|]. cbn [run_client run_client_hook]. rewrite Hst. done.
Qed.

(** The service's is, too. *)
Lemma server_debug_log_transparent sw i c w :
  w_services w !! sw = Some i → is_Some (iw_req i) → w_ctxs w !! iw_ctx i = Some c →
  let hooked cb := Some (ServiceThen DebugLog sw cb) in
  (∃ w1, same_but_caches w1
           (set_w_services (<[sw := set_callback (hooked (iw_callback i)) i]> (w_services w)) w) ∧
         ∀ h, server_debug_log h sw w = h sw w1) ∧
  ∀ cb status w2 j, w_services w2 !! sw = Some j → is_Some (obj_at w2 (iw_rsp j)) →
    ∃ w3, same_but_caches w3 w2 ∧
      run_service user_client_hook user_service_hook (ServiceThen DebugLog sw (Some cb)) status w2 =
      run_service user_client_hook user_service_hook cb status w3.
Proof.
  intros Hi Hreq Hc hooked. split.
  - destruct (try_serialize_req "json" i Hreq) as (b & i' & Hs & He & Hctx & Hcb).
    exists (set_w_services (<[sw := set_callback (hooked (iw_callback i)) i']> (w_services w)) w). split.
    + apply same_service. by apply without_caches_callback.
    + intros h. unfold server_debug_log, on_service, get_rctx. unfold_monad. rewrite Hi, Hs. cbn.
      rewrite lookup_insert_eq. cbn. rewrite !insert_insert_eq, Hctx, Hc. cbn. rewrite lookup_insert_eq. cbn.
      by rewrite insert_insert_eq, Hcb.
  - intros cb status w2 j Hj [m Hm]. destruct (status_OK status) eqn:Hst.
    + destruct (try_serialize_rsp "json" m j) as (b & j' & Hs & He).
      exists (set_w_services (<[sw := j']> (w_services w2)) w2). split.
      * transitivity (set_w_services (<[sw := j]> (w_services w2)) w2); [by apply same_service|by rewrite (set_service_same sw j)].
      * cbn [run_service run_service_hook]. rewrite Hst. unfold try_serialize_service_rsp, on_service. unfold_monad.
        rewrite Hj. rewrite (set_service_same sw j) by done. rewrite Hj, Hm, Hs. done.
    + exists w2. split; [done|]. cbn [run_service run_service_hook]. rewrite Hst. done.
Qed.
End DebugLog.

(** * Handles *)

Section HandleSpec.
Context {Msg X : Type} `{YamlOps node} `{HasLocalRpc X} `{IterOrder}.
Implicit Types w : World Msg X.

Lemma bind_get_rctx {A} ctx c w (f : RpcContext → M (World Msg X) A) :
  w_ctxs w !! ctx = Some c → (get_rctx ctx ≫= f) w = f c w.
Proof. intros Hc. unfold mbind, M_bind. by rewrite (get_rctx_eq _ _ _ Hc). Qed.

(** What a passed key [k] becomes. *)
Definition rpc_merged_value (passed : bool) (cs cc : RpcContext) (k : string) : option string :=
  if passed && bool_decide (rc_GetMetaValue cs k ≠ "") then Some (rc_GetMetaValue cs k)
  else rc_meta_data_map cc !! k.

Lemma rpc_merge_keys_spec keys srv cli cs : ∀ w cc,
  srv ≠ cli → w_ctxs w !! srv = Some cs → w_ctxs w !! cli = Some cc →
  ∃ c', rpc_merge_keys keys srv cli w = (Ok tt, set_ctx cli c' w) ∧
    timeout_ns c' = timeout_ns cc ∧ rc_used c' = rc_used cc ∧ rc_type c' = rc_type cc ∧
    ∀ k, rc_meta_data_map c' !! k = rpc_merged_value (bool_decide (k ∈ keys)) cs cc k.
Proof.
  induction keys as [|key keys IH]; intros w cc Hne Hs Hc.
  - exists cc. split; [cbn; f_equal; destruct w; unfold set_ctx; cbn in *; by rewrite insert_id|].
    split_and!; [done..|]. intros k.
    unfold rpc_merged_value. rewrite bool_decide_eq_false_2; [done|apply not_elem_of_nil].
  - cbn [rpc_merge_keys]. rewrite (bind_get_rctx _ _ _ _ Hs).
    case_bool_decide as Hval; unfold mbind at 1, M_bind at 1.
    + destruct (IH w cc Hne Hs Hc) as (c' & Hrun & Ht & Hu & Hty & Hm).
      exists c'. split; [exact Hrun|]. split_and!; [done..|]. intros k. rewrite Hm.
      unfold rpc_merged_value. destruct (decide (k = key)) as [->|Hk].
      * rewrite Hval. by rewrite !andb_false_r.
      * by rewrite (bool_decide_ext (k ∈ key :: keys) (k ∈ keys)) by (rewrite elem_of_cons; tauto).
    + rewrite (update_rctx_eq _ _ w cc) by done.
      set (c1 := rc_SetMetaValue key (rc_GetMetaValue cs key) cc) in *.
      destruct (IH (set_ctx cli c1 w) c1 Hne) as (c' & Hrun & Ht & Hu & Hty & Hm).
      { unfold set_ctx. cbn. by rewrite lookup_insert_ne. }
      { apply set_ctx_lookup. }
      exists c'. rewrite set_ctx_twice in Hrun. split; [exact Hrun|]. split_and!; [done..|].
      intros k. rewrite Hm. unfold rpc_merged_value, c1, rc_SetMetaValue. cbn [rc_meta_data_map].
      destruct (decide (k = key)) as [->|Hk].
      * rewrite lookup_insert_eq, (bool_decide_eq_true_2 (rc_GetMetaValue cs key ≠ "")) by done.
        rewrite (bool_decide_eq_true_2 (key ∈ key :: keys)) by apply list_elem_of_here.
        by destruct (bool_decide (key ∈ keys)).
      * rewrite lookup_insert_ne by done.
        by rewrite (bool_decide_ext (k ∈ key :: keys) (k ∈ keys)) by (rewrite elem_of_cons; tauto).
Qed.

(** Merging contexts.  From a server's context to a client's, exactly the
    passed keys with a value are copied, over what the client's context had;
    its time-out, its type, everything else of it and every other context
    stay.  With contexts of other types nothing happens. *)
Theorem rpc_merge_copies_passed_keys (passed : gset string) srv cli w cs cc :
  w_ctxs w !! srv = Some cs → w_ctxs w !! cli = Some cc →
  match rc_type cs, rc_type cc with
  | AIMRT_RPC_SERVER_CONTEXT, AIMRT_RPC_CLIENT_CONTEXT =>
      ∃ c', MergeServerContextToClientContext passed srv cli w = (Ok tt, set_ctx cli c' w) ∧
        timeout_ns c' = timeout_ns cc ∧ rc_used c' = rc_used cc ∧ rc_type c' = rc_type cc ∧
        ∀ k, rc_meta_data_map c' !! k = rpc_merged_value (bool_decide (k ∈ passed)) cs cc k
  | _, _ => MergeServerContextToClientContext passed srv cli w = (Ok tt, w)
  end.
Proof.
  intros Hs Hc. unfold MergeServerContextToClientContext.
  rewrite (bind_get_rctx _ _ _ _ Hs).
  destruct (rc_type cs) eqn:Hts; [by rewrite bool_decide_eq_true_2|].
  rewrite bool_decide_eq_false_2 by (intros Hx; by apply Hx).
  rewrite (bind_get_rctx _ _ _ _ Hc).
  destruct (rc_type cc) eqn:Htc; [|by rewrite bool_decide_eq_true_2].
  rewrite bool_decide_eq_false_2 by (intros Hx; by apply Hx).
  destruct (rpc_merge_keys_spec (elements passed) srv cli cs w cc) as (c' & Hrun & Ht & Hu & Hty & Hm); [|done..|].
  - intros <-. rewrite Hs in Hc. injection Hc as ->. congruence.
  - exists c'. split_and!; [done|done|done|congruence|]. intros k. rewrite Hm.
    by rewrite (bool_decide_ext (k ∈ elements passed) (k ∈ passed)) by apply elem_of_elements.
Qed.

(** Calls at the wrong time.  A call through a handle when the backend
    manager is not started, before the start or after the shutdown, is not
    answered with a status: the exception leaves a [noexcept] function and the
    program is terminated.  (There is a status [CLI_NOT_READY].) *)
Theorem early_call_terminates (user_client_hook : nat → nat → Z → M (World Msg X) unit) (h : RpcHandleProxy) func ctx req rsp call (rm : RpcManager Msg X node) w :
  rbm_state (rm_rpc_backend_manager rm) ≠ kStart →
  rh_Invoke user_client_hook h func ctx req rsp call (rm, w) = (Ok None, (rm, w)).
Proof.
  intros Hst. unfold rh_Invoke, noexcept, on_rpc_backend_manager, rbm_Invoke, on_rbm. unfold_monad. cbn [fst snd].
  unfold state_eqb. rewrite bool_decide_eq_false_2 by done. unfold_monad. cbn [fst snd]. by destruct rm.
Qed.
End HandleSpec.

(** * A call through a handle, end to end *)

Section EndToEnd.
Context {Msg X : Type} `{YamlOps node} `{HasLocalRpc X} `{IterOrder}.
Context (regex_match : string → string → res bool).
Context (user_client_hook user_service_hook : nat → nat → Z → M (World Msg X) unit).
Context (Create : TypeSupport Msg → Msg) (find_executor : string → option bool).

Abbreviation rbm := (RpcBackendManager Msg X (option node)).
Abbreviation local := (local_rpc_backend (Msg := Msg) (X := X) (node := node) user_client_hook Create find_executor).
Implicit Types bm : rbm.

(** The context with which a call leaves for the local backend. *)
Definition outgoing bm (c : RpcContext) (func ty : string) : RpcContext :=
  let c1 := with_timeout (stamp_call c (next_request bm func) ty) in
  if String.eqb (rc_GetToAddr c1) "" then rc_SetMetaValue KEY_BACKEND "local" c1 else c1.

Lemma advance_request_ok bm func : rbm_ok regex_match bm → rbm_ok regex_match (advance_request bm func).
Proof.
  intros Hok. unfold advance_request. destruct (next_request bm func); [|done].
  eapply rbm_ok_frame, Hok; [done..|]. intros f Hf. by apply is_Some_insert.
Qed.

Lemma advance_request_frame bm func :
  let bm' := advance_request bm func in
  rbm_registry bm' = rbm_registry bm ∧ rpc_backend_index_vec bm' = rpc_backend_index_vec bm ∧
  enabled_names regex_match bm' func = enabled_names regex_match bm func ∧
  client_filter_manager bm' = client_filter_manager bm.
Proof. unfold advance_request. by destruct (next_request bm func). Qed.

End EndToEnd.

(** * The theorems at a concrete input *)

Module RpcManagerDemo.
Import ChannelDemo LocalRpcDemo.

Abbreviation World := (World bytes LocalRpcBackend).

Definition demo_regex (pattern func : string) : res bool := Ok (String.eqb pattern func).

Definition demo_config : tree :=
  TMap [("backends", TSeq [TMap [("type", TStr "local")]]);
        ("clients_options",
         TSeq [TMap [("func_name", TStr "func"); ("enable_backends", TSeq [TStr "local"])]]);
        ("servers_options",
         TSeq [TMap [("func_name", TStr "func"); ("enable_backends", TSeq [TStr "local"])]])].

Definition new_world : World := mkWorld ∅ ∅ ∅ ∅ [] [] LocalRpcBackend_new.
Definition demo_start : RpcManager bytes LocalRpcBackend tree * World := (RpcManager_new, new_world).

Definition demo_initialized : RpcManager bytes LocalRpcBackend tree * World :=
  (rm_Initialize hook create (λ _, None) (Some demo_config) demo_start).2.

Lemma demo_rpc_initialize :
  rm_Initialize hook create (λ _, None) (Some demo_config) demo_start = (Ok tt, demo_initialized).
Proof.
  unfold demo_initialized. rewrite (surjective_pairing (rm_Initialize _ _ _ _ _)) at 1. f_equal.
Qed.

Definition demo_manager : RpcManager bytes LocalRpcBackend tree :=
  set_rm_has_rpc_registry true (set_rm_state kInit RpcManager_new).

Definition server_ctx : RpcContext :=
  mkRpcContext {["trace" := "7"; "other" := "1"]} 3 false AIMRT_RPC_SERVER_CONTEXT.
Definition client_ctx : RpcContext := mkRpcContext {["trace" := "0"]} 5 false AIMRT_RPC_CLIENT_CONTEXT.
Definition demo_merge : World := mkWorld {[0 := server_ctx; 1 := client_ctx]} ∅ ∅ ∅ [] [] LocalRpcBackend_new.

(** A started manager of calls over the local backend, with a service and a
    client in one package. *)
Abbreviation manager := (RpcBackendManager bytes LocalRpcBackend (option tree)).

Definition demo_local : RpcBackend bytes LocalRpcBackend (option tree) := local_rpc_backend hook create (λ _, None).

Definition demo_calls : list (rbm_call (Msg := bytes) (X := LocalRpcBackend) (node := option tree)) :=
  [RCallRegisterRpcBackend demo_local;
   RCallSetClientsBackendsRules [("func", ["local"])]; RCallSetServersBackendsRules [("func", ["local"])];
   RCallInitialize;
   RCallRegisterServiceFunc "pkg" "srv" "func" (Some demo_ts) (Some demo_ts) true;
   RCallRegisterClientFunc "pkg" "mod" "func" (Some demo_ts) (Some demo_ts);
   RCallStart].

Fixpoint run_calls (cs : list (rbm_call (Msg := bytes) (X := LocalRpcBackend) (node := option tree)))
    (y : manager * World) : manager * World :=
  match cs with
  | [] => y
  | c :: cs' => run_calls cs' (run_rbm_call demo_regex hook c y).2
  end.

Lemma run_manager_calls_steps cs y : rtc (rbm_step demo_regex hook) y.1 (run_calls cs y).1.
Proof.
  revert y; induction cs as [|c cs IH]; intros y; [apply rtc_refl|]. cbn [run_calls].
  eapply rtc_l, IH. exists c, y.2, (run_rbm_call demo_regex hook c y).1, (run_rbm_call demo_regex hook c y).2.2.
  rewrite <-!surjective_pairing. reflexivity.
Qed.

Definition plain_ctx : RpcContext := RpcContext_new AIMRT_RPC_CLIENT_CONTEXT.
Definition before_calls : World :=
  (on_lr (lr_Initialize (λ _, None) (None : option tree))
     (mkWorld {[0 := plain_ctx]} {[0 := []]} ∅ ∅ [] [] LocalRpcBackend_new)).2.

Definition demo_running : manager * World := run_calls demo_calls (RpcBackendManager_new, before_calls).
Definition running_manager : RpcManager bytes LocalRpcBackend tree :=
  set_rm_rpc_backend_manager demo_running.1 RpcManager_new.

Definition demo_service_info : FuncInfo bytes := mkFuncInfo "func" "pkg" "srv" 1 demo_ts demo_ts.

Lemma running_services k s :
  service_func_wrapper_map (rbm_registry demo_running.1) !! k = Some s → service_func s = service_terminal.
Proof.
  assert (service_func_wrapper_map (rbm_registry demo_running.1) =
    {[rpc_key_of demo_service_info := mkServiceFuncWrapper demo_service_info (InvokeRpc Collector_new service_terminal)]})
    as -> by reflexivity.
  intros [_ <-]%lookup_singleton_Some. reflexivity.
Qed.

Lemma running_local q b :
  rpc_backend_index_vec demo_running.1 !! q = Some b → rb_Name b = "local" → b = demo_local.
Proof.
  assert (rpc_backend_index_vec demo_running.1 = [demo_local]) as -> by reflexivity.
  by intros [_ <-]%list_lookup_singleton_Some.
Qed.

Lemma running_state : rbm_state demo_running.1 = kStart.
Proof. reflexivity. Qed.
Lemma running_filters : Rpc_GetFilterCollector (client_filter_manager demo_running.1) "func" = Collector_new.
Proof. reflexivity. Qed.
Definition demo_client : ClientFuncWrapper bytes :=
  mkClientFuncWrapper (mkFuncInfo "func" "pkg" "mod" 1 demo_ts demo_ts).
Lemma running_client : GetClientFuncWrapperPtr (rbm_registry demo_running.1) "func" "pkg" "mod" = Some demo_client.
Proof. reflexivity. Qed.
Lemma running_tool : client_tool_ptr (lr_of demo_running.2) = Some RpcClientTool_new.
Proof. reflexivity. Qed.
Lemma running_local_state : lr_state (lr_of demo_running.2) = kStart.
Proof. reflexivity. Qed.
Lemma running_ctx : w_ctxs demo_running.2 !! 0 = Some plain_ctx.
Proof. reflexivity. Qed.
Lemma running_route :
  route (enabled_names demo_regex demo_running.1 "func")
    (rc_GetToAddr (stamp_call plain_ctx (next_request demo_running.1 "func") "raw")) = inr "local".
Proof. vm_compute. reflexivity. Qed.
Lemma running_index : service_func_register_index (lr_of demo_running.2) !! "func" = Some {["pkg" := {["srv"]}]}.
Proof. reflexivity. Qed.

(** A client's wrapper, its context, and its response. *)
Definition demo_call : World :=
  mkWorld {[0 := ctx]} {[0 := demo_msg]} {[0 := client broken_ts]} ∅ [] [] LocalRpcBackend_new.
End RpcManagerDemo.

Lemma rpc_initialize_resolves_rules_witness :
  map rb_Name (rm_used_rpc_backend_vec RpcManagerDemo.demo_initialized.1) = ["local"] ∧
  rbm_state (rm_rpc_backend_manager RpcManagerDemo.demo_initialized.1) = kInit.
Proof.
  destruct (rpc_initialize_resolves_rules RpcManagerDemo.demo_regex LocalRpcDemo.hook LocalRpcDemo.create (λ _, None)
    (Some RpcManagerDemo.demo_config) RpcManagerDemo.demo_start RpcManagerDemo.demo_initialized) as (_ & _ & H & _).
  - split; reflexivity.
  - exact RpcManagerDemo.demo_rpc_initialize.
  - split; [vm_compute; reflexivity|exact H].
Defined.

Lemma rpc_report_complete_witness :
  ∃ report, rm_GenInitializationReport (RpcManagerDemo.demo_manager, RpcManagerDemo.demo_merge) =
    (Ok report, (RpcManagerDemo.demo_manager, RpcManagerDemo.demo_merge)).
Proof.
  destruct (rpc_report_complete RpcManagerDemo.demo_regex LocalRpcDemo.hook RpcManagerDemo.demo_manager
    RpcManagerDemo.demo_merge eq_refl eq_refl (rtc_refl _ _)) as (report & _ & _ & H & _).
  exists report. exact H.
Defined.

Lemma rpc_merge_copies_passed_keys_witness :
  ∃ c', MergeServerContextToClientContext {["trace"; "absent"]} 0 1 RpcManagerDemo.demo_merge =
      (Ok tt, set_ctx 1 c' RpcManagerDemo.demo_merge) ∧
    timeout_ns c' = 5%Z ∧ rc_GetMetaValue c' "trace" = "7" ∧ rc_GetMetaValue c' "other" = "".
Proof.
  destruct (rpc_merge_copies_passed_keys {["trace"; "absent"]} 0 1 RpcManagerDemo.demo_merge
    RpcManagerDemo.server_ctx RpcManagerDemo.client_ctx) as (c' & H & Ht & _ & _ & Hm).
  - apply lookup_insert_eq.
  - vm_compute. reflexivity.
  - exists c'. split; [exact H|]. split; [exact Ht|].
    unfold rc_GetMetaValue at 1 2. rewrite !Hm. split; vm_compute; reflexivity.
Defined.

Lemma debug_log_transparent_witness :
  ∃ w1, same_but_caches w1
      (set_w_clients {[0 := set_callback (Some (ClientThen DebugLog 0 (Some (Answer 7))))
                              (LocalRpcDemo.client LocalRpcDemo.broken_ts)]} RpcManagerDemo.demo_call) ∧
    client_debug_log (λ cw, call_client LocalRpcDemo.hook cw STATUS_TIMEOUT) 0 RpcManagerDemo.demo_call =
    call_client LocalRpcDemo.hook 0 STATUS_TIMEOUT w1.
Proof.
  destruct (debug_log_transparent LocalRpcDemo.hook 0 (LocalRpcDemo.client LocalRpcDemo.broken_ts) LocalRpcDemo.ctx
    RpcManagerDemo.demo_call (lookup_singleton_eq _ _) ltac:(by eexists) (lookup_singleton_eq _ _))
    as [(w1 & Hsame & Hrun) _].
  exists w1. split; [exact Hsame|apply Hrun].
Defined.

Lemma early_call_terminates_witness :
  rbm_state (rm_rpc_backend_manager RpcManagerDemo.demo_manager) ≠ kStart ∧
  rh_Invoke LocalRpcDemo.hook (mkRpcHandle "pkg" "mod") "func" 0 None None 7
    (RpcManagerDemo.demo_manager, RpcManagerDemo.demo_call) =
  (Ok None, (RpcManagerDemo.demo_manager, RpcManagerDemo.demo_call)).
Proof.
  assert (rbm_state (rm_rpc_backend_manager RpcManagerDemo.demo_manager) ≠ kStart) as H by discriminate.
  split; [exact H|]. exact (early_call_terminates LocalRpcDemo.hook (mkRpcHandle "pkg" "mod") "func" 0 None None 7
    RpcManagerDemo.demo_manager RpcManagerDemo.demo_call H).
Defined.

