(* ===== verification/Decimal.v ===== *)
(** * Decimal numbers

    [std::to_string], [std::from_chars] and the conversions [%0nd] of [snprintf]
    that the time and logging code uses, with the lemmas that relate them:
    what is printed is read back, and has the width it is given. *)

From Stdlib Require Import DecimalString DecimalN.
From S2P Require Import Prelude StringUtil.
Local Open Scope Z_scope.

(** [std::from_chars] into a [uint32_t]: the value and what is left unread, or
    [None] for an error code. *)
Definition from_chars_u32 (s : bytes) : option (Z * bytes) :=
  let '(v, any, rest) := scan_digits s 0 false in
  if any && (v <? 2 ^ 32) then Some (v, rest) else None.

(** [%0nd] of a number that is not negative. *)
Definition zero_pad (n : nat) (z : Z) : bytes :=
  let s := lit (to_string z) in repeat "0"%char (n - length s) ++ s.

Lemma lit_append s s' : lit (s ++ s')%string = lit s ++ lit s'.
Proof. unfold lit. induction s as [|c s IH]; [done|]. 
  change (c :: list_ascii_of_string (s ++ s')%string = c :: (list_ascii_of_string s ++ list_ascii_of_string s')).
  by rewrite IH.
Qed.

(** ** Digits *)

Lemma digits_of_uint d : forallb isdigit (lit (NilEmpty.string_of_uint d)) = true.
Proof. unfold lit. by induction d. Qed.

Lemma to_string_digits z : IsDigitStr (lit (to_string z)) = true.
Proof.
  unfold IsDigitStr, to_string. rewrite digits_of_uint. destruct (Z.to_N z) as [|p]; [done|].
  pose proof (DecimalPos.Unsigned.to_uint_nonnil p) as Hp. change (N.to_uint (N.pos p)) with (Pos.to_uint p).
  by destruct (Pos.to_uint p).
Qed.

Lemma scan_digits_acc d rest : ∀ p any,
  ∃ any', scan_digits (lit (NilEmpty.string_of_uint d) ++ rest) (Z.pos p) any =
          scan_digits rest (Z.pos (Pos.of_uint_acc d p)) any' ∧ (any = true → any' = true).
Proof.
  assert (∀ c k s p any, digit_of c = Some k →
    scan_digits (c :: s) (Z.pos p) any = scan_digits s (10 * Z.pos p + k) true) as Hstep.
  { intros c k s p any Hc. cbn. by rewrite Hc. }
  induction d as [|d IH|d IH|d IH|d IH|d IH|d IH|d IH|d IH|d IH|d IH]; intros p any; [by exists any|..];
    (match goal with |- context [lit (NilEmpty.string_of_uint (?D d))] =>
       destruct (IH (Pos.of_uint_acc (D Decimal.Nil) p) true) as (any' & Hs & Ha) end;
     exists any'; split; [|by intros _; apply Ha];
     cbn [NilEmpty.string_of_uint]; change (lit (String ?c ?s)) with (c :: lit s); cbn [app];
     erewrite Hstep by reflexivity; etransitivity; [|exact Hs]; f_equal;
     match goal with |- context [u8_of_char ?c] =>
       let v := eval vm_compute in (u8_of_char c) in change (u8_of_char c) with v end;
     cbn -[Pos.mul Pos.add Z.mul Z.add]; lia).
Qed.

(** Reading stops at a character that is not a digit. *)
Definition no_digit_first (s : bytes) : Prop := match s with c :: _ => digit_of c = None | [] => True end.

Lemma scan_digits_stop s v any : no_digit_first s → scan_digits s v any = (v, any, s).
Proof. destruct s as [|c s]; [done|]. cbn. by intros ->. Qed.

Lemma scan_digits_uint d rest any :
  no_digit_first rest →
  ∃ any', scan_digits (lit (NilEmpty.string_of_uint d) ++ rest) 0 any = (Z.of_N (N.of_uint d), any', rest) ∧
    (any = true ∨ d ≠ Decimal.Nil → any' = true).
Proof.
  intros Hrest. revert any.
  induction d as [|d IH|d IH|d IH|d IH|d IH|d IH|d IH|d IH|d IH|d IH]; intros any;
    [exists any; split; [by apply scan_digits_stop|by intros [|]]
    |destruct (IH true) as (any' & Hs & Ha); exists any'; split; [exact Hs|by intros _; apply Ha; left]|..];
    (change (N.of_uint (?D ?d)) with (Pos.of_uint (D d)); cbn [Pos.of_uint];
     match goal with |- context [Pos.of_uint_acc d ?p] =>
       destruct (scan_digits_acc d rest p true) as (any' & Hs & Ha) end;
     exists any'; split; [etransitivity; [exact Hs|]; by apply scan_digits_stop|by intros _; apply Ha]).
Qed.

(** What is printed is read back, up to what follows it. *)
Lemma scan_to_string z rest :
  0 ≤ z → no_digit_first rest → scan_digits (lit (to_string z) ++ rest) 0 false = (z, true, rest).
Proof.
  intros Hz Hrest. unfold to_string.
  destruct (scan_digits_uint (N.to_uint (Z.to_N z)) rest false Hrest) as (any' & -> & Ha).
  rewrite DecimalN.Unsigned.of_to, Z2N.id by done. rewrite Ha; [done|]. right.
  destruct (Z.to_N z) as [|p]; [done|]. apply DecimalPos.Unsigned.to_uint_nonnil.
Qed.

Lemma from_chars_to_string z rest :
  0 ≤ z < 2 ^ 32 → no_digit_first rest → from_chars_u32 (lit (to_string z) ++ rest) = Some (z, rest).
Proof.
  intros Hz Hrest. unfold from_chars_u32. rewrite scan_to_string by (done || lia).
  by rewrite (proj2 (Z.ltb_lt z _)) by lia.
Qed.

Lemma to_string_inj z z' : 0 ≤ z → 0 ≤ z' → to_string z = to_string z' → z = z'.
Proof.
  intros Hz Hz' Heq. pose proof (scan_to_string z [] Hz I) as H. rewrite Heq, scan_to_string in H by done.
  by injection H.
Qed.

(** ** Width *)

Lemma zero_pad_width n z : (0 < n ≤ 4)%nat → 0 ≤ z < 10 ^ Z.of_nat n → length (zero_pad n z) = n.
Proof.
  intros Hn Hz.
  assert (forallb (λ k, forallb (λ i, length (zero_pad k (Z.of_nat i)) =? k)%nat (seq 0 (10 ^ k))) [1; 2; 3; 4]%nat = true)
    as Hall by (vm_compute; reflexivity).
  apply (proj1 (forallb_forall _ _)) with (x := n) in Hall; [|cbn; lia].
  apply (proj1 (forallb_forall _ _)) with (x := Z.to_nat z) in Hall.
  - apply Nat.eqb_eq in Hall. by rewrite Z2Nat.id in Hall by lia.
  - apply in_seq. split; [lia|]. apply Nat2Z.inj_lt. rewrite Nat2Z.inj_add, Nat2Z.inj_pow, Z2Nat.id by lia. lia.
Qed.
