(* ===== verification/TimeUtil.v ===== *)
(** * Times: [src/common/util/time_util.h]

    A [time_point] of the system clock is a signed 64-bit count of nanoseconds,
    as the standard library of Linux has it.  [localtime_r] and [mktime], which
    read the time zone, are parameters.  Functions of the current time are
    those of a time, applied to the clock; they are not repeated.

    Theorems: time stamps are read back up to an exact bound, beyond which the
    conversion overflows; every time string has its documented width, whatever
    [localtime_r] returns; months have the days of the Gregorian calendar; the
    number of days between two times is wrong in a time zone that is not UTC. *)

From S2P Require Import Prelude Yaml StringUtil Decimal.
Local Open Scope Z_scope.

(* @src src/src/common/util/time_util.h:13-25 TimeConstant *)
Definition kSecondPerDay : Z := 86400.

(** Nanoseconds per unit. *)
Definition ns_per_us : Z := 1000.
Definition ns_per_ms : Z := 1000000.
Definition ns_per_sec : Z := 1000000000.

(** ** Time stamps *)

(** [duration_cast] to a coarser unit truncates; the result is unsigned. *)
Definition timestamp (unit t : Z) : Z := wrap64 (t ÷ unit).

(* @src src/src/common/util/time_util.h:36-38 GetTimestampNs *)
Definition GetTimestampNs (t : Z) : Z := wrap64 t.
(* @src src/src/common/util/time_util.h:76-78 GetTimestampUs *)
Definition GetTimestampUs : Z → Z := timestamp ns_per_us.
(* @src src/src/common/util/time_util.h:116-118 GetTimestampMs *)
Definition GetTimestampMs : Z → Z := timestamp ns_per_ms.
(* @src src/src/common/util/time_util.h:156-158 GetTimestampSec *)
Definition GetTimestampSec : Z → Z := timestamp ns_per_sec.

Definition in_int64 (z : Z) : Prop := - 2 ^ 63 ≤ z < 2 ^ 63.
#[export] Instance in_int64_dec z : Decision (in_int64 z).
Proof. unfold in_int64. apply _. Defined.

(** A stamp becomes a signed count of its unit; [duration_cast] to nanoseconds
    multiplies, and a signed overflow has no defined meaning. *)
Definition time_point (unit stamp : Z) : res Z :=
  let t := signed 64 stamp * unit in if decide (in_int64 t) then Ok t else Undef.

(* @src src/src/common/util/time_util.h:61-65 GetTimePointFromTimestampNs *)
Definition GetTimePointFromTimestampNs : Z → res Z := time_point 1.
(* @src src/src/common/util/time_util.h:101-105 GetTimePointFromTimestampUs *)
Definition GetTimePointFromTimestampUs : Z → res Z := time_point ns_per_us.
(* @src src/src/common/util/time_util.h:141-145 GetTimePointFromTimestampMs *)
Definition GetTimePointFromTimestampMs : Z → res Z := time_point ns_per_ms.
(* @src src/src/common/util/time_util.h:181-185 GetTimePointFromTimestampSec *)
Definition GetTimePointFromTimestampSec : Z → res Z := time_point ns_per_sec.

(** ** Broken-down time *)

(** [struct tm]: the fields that are used. *)
Record tm := mkTm {
  tm_sec : Z;
  tm_min : Z;
  tm_hour : Z;
  tm_mday : Z;
  tm_mon : Z;
  tm_year : Z;
  tm_wday : Z
}.

(** [x % m] of an [int] and an unsigned [m]: the [int] becomes unsigned. *)
Definition umod (x m : Z) : Z := wrap32 x mod m.

(** Two and four digits. *)
Definition d2 (x : Z) : bytes := zero_pad 2 (umod x 100).
Definition d4 (x : Z) : bytes := zero_pad 4 (umod x 10000).

(** What [snprintf] leaves in a buffer of [n] characters. *)
Definition snprintf (n : nat) (s : bytes) : bytes := take (n - 1) s.

Definition date_format (t : tm) : bytes :=
  d4 (tm_year t + 1900) ++ lit "-" ++ d2 (tm_mon t + 1) ++ lit "-" ++ d2 (tm_mday t).
Definition clock_format (t : tm) : bytes :=
  d2 (tm_hour t) ++ lit ":" ++ d2 (tm_min t) ++ lit ":" ++ d2 (tm_sec t).

(* @src src/src/common/util/time_util.h:235-247 GetTimeStr *)
Definition GetTimeStr_tm (t : tm) : bytes := snprintf 20 (date_format t ++ lit " " ++ clock_format t).

Section LocalTime.
(** [localtime_r] and [mktime] *)
Context (TimeT2TmLocal : Z → tm) (mktime : tm → Z).

(* @src src/src/common/util/time_util.h:255-257 GetTimeStr *)
Definition GetTimeStr (t : Z) : bytes := GetTimeStr_tm (TimeT2TmLocal t).
(* @src src/src/common/util/time_util.h:432-437 GetYearStr *)
Definition GetYearStr (t : Z) : bytes := snprintf 5 (d4 (tm_year (TimeT2TmLocal t) + 1900)).
(* @src src/src/common/util/time_util.h:445-450 GetMonthStr *)
Definition GetMonthStr (t : Z) : bytes := snprintf 3 (d2 (tm_mon (TimeT2TmLocal t) + 1)).
(* @src src/src/common/util/time_util.h:458-463 GetDayStr *)
Definition GetDayStr (t : Z) : bytes := snprintf 3 (d2 (tm_mday (TimeT2TmLocal t))).
(* @src src/src/common/util/time_util.h:471-476 GetHourStr *)
Definition GetHourStr (t : Z) : bytes := snprintf 3 (d2 (tm_hour (TimeT2TmLocal t))).
(* @src src/src/common/util/time_util.h:484-489 GetMinuteStr *)
Definition GetMinuteStr (t : Z) : bytes := snprintf 3 (d2 (tm_min (TimeT2TmLocal t))).
(* @src src/src/common/util/time_util.h:497-502 GetSecondStr *)
Definition GetSecondStr (t : Z) : bytes := snprintf 3 (d2 (tm_sec (TimeT2TmLocal t))).
(* @src src/src/common/util/time_util.h:510-518 GetDateStr *)
Definition GetDateStr (t : Z) : bytes := snprintf 11 (date_format (TimeT2TmLocal t)).
(* @src src/src/common/util/time_util.h:526-534 GetClockStr *)
Definition GetClockStr (t : Z) : bytes := snprintf 9 (clock_format (TimeT2TmLocal t)).

(** An element of a table of names. *)
Definition table_at (table : list string) (i : Z) : res bytes :=
  if 0 <=? i then match table !! Z.to_nat i with Some s => Ok (lit s) | None => Undef end else Undef.

(* @src src/src/common/util/time_util.h:406-411 GetWeekDayStr *)
Definition GetWeekDayStr (t : Z) : res bytes :=
  table_at ["Sunday"; "Monday"; "Tuesday"; "Wednesday"; "Thursday"; "Friday"; "Saturday"] (tm_wday (TimeT2TmLocal t)).
(* @src src/src/common/util/time_util.h:419-424 GetWeekDayStrShort *)
Definition GetWeekDayStrShort (t : Z) : res bytes :=
  table_at ["Sun"; "Mon"; "Tue"; "Wed"; "Thu"; "Fri"; "Sat"] (tm_wday (TimeT2TmLocal t)).

(* @src src/src/common/util/time_util.h:357-365 GetDayStartTime *)
Definition GetDayStartTime (t : Z) : Z :=
  let st := TimeT2TmLocal t in
  mktime (mkTm 0 0 0 (tm_mday st) (tm_mon st) (tm_year st) (tm_wday st)).

(* @src src/src/common/util/time_util.h:373-376 GetWeekDay *)
Definition GetWeekDay (t : Z) : Z :=
  let st := TimeT2TmLocal t in wrap32 (if tm_wday st =? 0 then 7 else tm_wday st).

(* @src src/src/common/util/time_util.h:384-386 GetWeekStartTime *)
Definition GetWeekStartTime (t : Z) : Z :=
  wrap32 (GetDayStartTime (t - wrap32 (wrap32 (GetWeekDay t - 1) * kSecondPerDay))).
End LocalTime.

(** ** The calendar *)

(* @src src/src/common/util/time_util.h:284-286 IsLeapYear *)
Definition IsLeapYear (year : Z) : bool :=
  if negb (year mod 100 =? 0) then year mod 4 =? 0 else year mod 400 =? 0.

Definition kMonthDayCount : list Z := [31; 28; 31; 30; 31; 30; 31; 31; 30; 31; 30; 31].

(** An index past the table has no defined meaning. *)
(* @src src/src/common/util/time_util.h:295-311 GetMonthDayCount *)
Definition GetMonthDayCount (year month : Z) : res Z :=
  if (month =? 1) && IsLeapYear year then Ok 29
  else match kMonthDayCount !! Z.to_nat month with Some n => Ok n | None => Undef end.

(** Division truncates. *)
(* @src src/src/common/util/time_util.h:345-349 IsPassDay *)
Definition IsPassDay (l_time r_time time_zone : Z) : bool :=
  let l_day := (l_time + time_zone) ÷ kSecondPerDay in
  let r_day := (r_time + time_zone) ÷ kSecondPerDay in
  r_day <? l_day.

(* @src src/src/common/util/time_util.h:396-398 GetDayCount *)
Definition GetDayCount (l_time r_time time_zone : Z) : Z :=
  signed 32 ((l_time + time_zone - r_time) ÷ kSecondPerDay).

(** * Theorems *)

Lemma umod_range x m : 0 < m → 0 ≤ umod x m < m.
Proof. apply Z.mod_pos_bound. Qed.

Lemma length_d2 x : length (d2 x) = 2%nat.
Proof. apply zero_pad_width; [lia|]. apply (umod_range x 100). lia. Qed.
Lemma length_d4 x : length (d4 x) = 4%nat.
Proof. apply zero_pad_width; [lia|]. apply (umod_range x 10000). lia. Qed.

Lemma length_date t : length (date_format t) = 10%nat.
Proof. unfold date_format. by rewrite !length_app, !length_d2, length_d4. Qed.
Lemma length_clock t : length (clock_format t) = 8%nat.
Proof. unfold clock_format. by rewrite !length_app, !length_d2. Qed.

Lemma snprintf_fits n s : (length s < n)%nat → snprintf n s = s.
Proof. intros Hn. unfold snprintf. apply take_ge. lia. Qed.

(** Time strings.  Whatever [localtime_r] makes of a time, with fields out of
    any range, the strings have their documented widths and are not cut off by
    the buffers, which they fill exactly. *)
Theorem time_strings_fit localtime t :
  length (GetTimeStr localtime t) = 19%nat ∧ length (GetDateStr localtime t) = 10%nat ∧
  length (GetClockStr localtime t) = 8%nat ∧ length (GetYearStr localtime t) = 4%nat ∧
  length (GetMonthStr localtime t) = 2%nat ∧ length (GetSecondStr localtime t) = 2%nat ∧
  GetTimeStr localtime t = GetDateStr localtime t ++ lit " " ++ GetClockStr localtime t.
Proof.
  pose proof (length_date (localtime t)) as Hd. pose proof (length_clock (localtime t)) as Hc.
  unfold GetTimeStr, GetTimeStr_tm, GetDateStr, GetClockStr, GetYearStr, GetMonthStr, GetSecondStr.
  rewrite !snprintf_fits by (rewrite ?length_app, ?Hd, ?Hc, ?length_d2, ?length_d4; cbn; lia).
  rewrite !length_app, Hd, Hc, !length_d2, length_d4. done.
Qed.

Lemma quot_mul_exact n unit : 0 < unit → (n * unit) ÷ unit = n.
Proof. intros Hu. apply Z.quot_mul. lia. Qed.

(** Time stamps.  For each unit, the stamp of the time made of a stamp is the
    stamp, as long as the time fits a signed 64-bit count of nanoseconds: until
    the year 2262.  A stamp of microseconds or more beyond that, though a
    [uint64_t] holds it, has no defined time. *)
Theorem timestamp_roundtrip unit stamp :
  unit = 1 ∨ unit = ns_per_us ∨ unit = ns_per_ms ∨ unit = ns_per_sec → 0 ≤ stamp < 2 ^ 63 →
  if stamp * unit <? 2 ^ 63 then ∃ t, time_point unit stamp = Ok t ∧ timestamp unit t = stamp
  else time_point unit stamp = Undef.
Proof.
  intros Hunit Hs. assert (0 < unit) as Hu by (destruct Hunit as [-> | [-> | [-> | ->]]]; done).
  unfold time_point. rewrite signed_small by lia. destruct (Z.ltb_spec (stamp * unit) (2 ^ 63)).
  - exists (stamp * unit). unfold in_int64. rewrite decide_True by nia. split; [done|].
    unfold timestamp. rewrite quot_mul_exact by done. apply wrap_small. unfold in_width. lia.
  - unfold in_int64. rewrite decide_False; [done|]. lia.
Qed.

(** Months.  A year is a leap year when four divides it, except that of the
    centuries only those that 400 divides are; each month has the days of the
    calendar, 365 or 366 in all; a month past December reads past the table. *)
Theorem calendar year :
  0 ≤ year →
  (IsLeapYear year = true ↔ (4 | year) ∧ (¬ (100 | year) ∨ (400 | year))) ∧
  (∃ days, map_res (GetMonthDayCount year) [0; 1; 2; 3; 4; 5; 6; 7; 8; 9; 10; 11] = Ok days ∧
     days = [31; if IsLeapYear year then 29 else 28; 31; 30; 31; 30; 31; 31; 30; 31; 30; 31] ∧
     foldr Z.add 0 days = if IsLeapYear year then 366 else 365) ∧
  ∀ month, 12 ≤ month → GetMonthDayCount year month = Undef.
Proof.
  intros Hy. split_and!.
  - unfold IsLeapYear. rewrite <-!Z.mod_divide by done.
    pose proof (Z.div_mod year 400 ltac:(done)). pose proof (Z.div_mod year 100 ltac:(done)).
    pose proof (Z.div_mod year 4 ltac:(done)).
    pose proof (Z.mod_pos_bound year 400 ltac:(done)). pose proof (Z.mod_pos_bound year 100 ltac:(done)).
    pose proof (Z.mod_pos_bound year 4 ltac:(done)).
    destruct (Z.eqb_spec (year mod 100) 0); cbn [negb]; rewrite Z.eqb_eq; lia.
  - exists [31; if IsLeapYear year then 29 else 28; 31; 30; 31; 30; 31; 31; 30; 31; 30; 31].
    unfold GetMonthDayCount. by destruct (IsLeapYear year).
  - intros month Hm. unfold GetMonthDayCount. rewrite (proj2 (Z.eqb_neq month 1)) by lia. cbn [andb].
    rewrite lookup_ge_None_2; [done|]. unfold kMonthDayCount. cbn. lia.
Qed.

(** Days between two times.  [GetDayCount] adds the time zone to one of the
    times only.  East of UTC it says that a day has passed between a time and
    one less than a day later; when the earlier time is the start of a local
    day, the two are on the same day, and [IsPassDay] says so. *)
Theorem GetDayCount_ignores_zone day time_zone :
  0 ≤ day < 2 ^ 31 → 0 < time_zone < kSecondPerDay →
  let r_time := day * kSecondPerDay - time_zone in
  let l_time := r_time + (kSecondPerDay - time_zone) in
  l_time - r_time < kSecondPerDay ∧ GetDayCount l_time r_time time_zone = 1 ∧
  IsPassDay l_time r_time time_zone = false.
Proof.
  intros Hd Hz r_time l_time. unfold kSecondPerDay in *. split; [lia|]. split.
  - unfold GetDayCount, kSecondPerDay. replace (l_time + time_zone - r_time) with 86400 by lia. done.
  - unfold IsPassDay, kSecondPerDay.
    replace (l_time + time_zone) with (day * 86400 + (86400 - time_zone)) by lia.
    replace (r_time + time_zone) with (day * 86400) by lia.
    apply Z.ltb_ge. rewrite (Z.quot_div_nonneg (day * 86400 + _)), (Z.quot_div_nonneg (day * 86400)) by lia.
    rewrite Z.div_mul by done. rewrite Z.add_comm, Z.div_add by done. rewrite Z.div_small by lia. lia.
Qed.

Lemma timestamp_roundtrip_witness : ∃ t, time_point ns_per_sec 1710513045 = Ok t ∧ timestamp ns_per_sec t = 1710513045.
Proof. apply (timestamp_roundtrip ns_per_sec 1710513045); [by right; right; right|lia]. Defined.

Lemma calendar_witness : IsLeapYear 2024 = true ∧ (4 | 2024).
Proof.
  destruct (calendar 2024) as [Hleap _]; [lia|].
  assert (IsLeapYear 2024 = true) as H by reflexivity. split; [exact H|]. apply Hleap in H as [H4 _]. exact H4.
Defined.

Lemma GetDayCount_ignores_zone_witness :
  GetDayCount (20000 * kSecondPerDay - 28800 + (kSecondPerDay - 28800)) (20000 * kSecondPerDay - 28800) 28800 = 1.
Proof. apply (GetDayCount_ignores_zone 20000 28800); unfold kSecondPerDay; lia. Defined.
