(* ===== verification/AsioExecutor.v ===== *)
(** * The executors on asio: [src/runtime/core/executor/asio_thread_executor.*]
    and [asio_strand_executor.*]

    An asio thread executor owns an [asio::io_context] and threads that run it;
    a strand executor posts on the context of the thread executor that its
    options name, on a strand of its own.  A task is posted, or given to a timer
    of the context.  [asio_step] interleaves the calls, the threads, the life
    cycles and the clocks.

    The context is a parameter of which only the documented behaviour is used:
    a handler is run by a thread inside [run()], once, not before its timer has
    expired, the handlers of a strand one at a time; [run()] returns when there
    is nothing left to run or to wait for and no work guard, and then in all
    threads; an exception of a handler leaves [run()] in the thread that runs
    it.  In which order handlers run is left open.

    Theorems: no task is lost or run twice, nor run before its time on the
    executor's clock; shutdown runs everything the context was given before it
    stopped; it waits for the timers; a task that throws ends a thread. *)

From S2P Require Import Prelude Yaml ExecutorManager TbbExecutor TimeUtil.
Local Open Scope Z_scope.

(** ** Options *)

(* @src src/src/runtime/core/executor/asio_thread_executor.h:23-30 AsioThreadExecutor::Options *)
Record AsioOptions := mkAsioOptions {
  ao_thread_num : Z;
  ao_thread_sched_policy : string;
  ao_thread_bind_cpu : list Z;
  ao_timeout_alarm_threshold_us : Z;    (* in nanoseconds *)
  ao_use_system_clock : bool;
  ao_timeout_alarm_interval_ms : Z
}.

Definition asio_default : AsioOptions := mkAsioOptions 1 "" [] 1000000000 false 1000.

(* @src src/src/runtime/core/executor/asio_strand_executor.h:17-22 AsioStrandExecutor::Options *)
Record StrandOptions := mkStrandOptions {
  sr_bind_asio_thread_executor_name : string;
  sr_timeout_alarm_threshold_us : Z;
  sr_use_system_clock : bool;
  sr_timeout_alarm_interval_ms : Z
}.

Definition strand_default : StrandOptions := mkStrandOptions "" 1000000000 false 1000.

(** Microseconds as a 64-bit number of nanoseconds. *)
Definition of_us (us : Z) : res Z :=
  let ns := signed 64 us * 1000 in if decide (in_int64 ns) then Ok ns else Undef.

Section Decode.
Context `{YamlOps node}.

(* @src src/src/runtime/core/executor/asio_thread_executor.cc:28-46 convert<AsioThreadExecutor::Options>::decode *)
Definition asio_decode (n : node) (rhs : AsioOptions) : res (option AsioOptions) :=
  if negb (IsMap n) then Ok None else
  num ← set_if n "thread_num" as_uint32 (ao_thread_num rhs);
  pol ← set_if n "thread_sched_policy" as_string (ao_thread_sched_policy rhs);
  cpu ← set_if n "thread_bind_cpu" as_uint32s (ao_thread_bind_cpu rhs);
  thr ← set_if n "timeout_alarm_threshold_us" (λ c, us ← as_uint64 c; of_us us) (ao_timeout_alarm_threshold_us rhs);
  sys ← set_if n "use_system_clock" as_bool (ao_use_system_clock rhs);
  ms ← set_if n "timeout_alarm_interval_ms" as_int32 (ao_timeout_alarm_interval_ms rhs);
  Ok (Some (mkAsioOptions num pol cpu thr sys ms)).

(* @src src/src/runtime/core/executor/asio_strand_executor.cc:25-41 convert<AsioStrandExecutor::Options>::decode *)
Definition strand_decode (n : node) (rhs : StrandOptions) : res (option StrandOptions) :=
  if negb (IsMap n) then Ok None else
  nm ← set_if n "bind_asio_thread_executor_name" as_string (sr_bind_asio_thread_executor_name rhs);
  thr ← set_if n "timeout_alarm_threshold_us" (λ c, us ← as_uint64 c; of_us us) (sr_timeout_alarm_threshold_us rhs);
  sys ← set_if n "use_system_clock" as_bool (sr_use_system_clock rhs);
  ms ← set_if n "timeout_alarm_interval_ms" as_int32 (sr_timeout_alarm_interval_ms rhs);
  Ok (Some (mkStrandOptions nm thr sys ms)).
End Decode.

(** ** Clocks *)

(** The system clock and the steady clock. *)
Record Clocks := mkClocks { ck_sys : Z; ck_std : Z }.

(** An executor's clock: the system clock, or the steady one counted from the
    time at which the executor was initialized. *)
Record ExClock := mkExClock {
  ec_use_system_clock : bool;
  ec_start_sys_tp : Z;
  ec_start_std_tp : Z
}.

(* @src src/src/runtime/core/executor/asio_thread_executor.cc:148-156 AsioThreadExecutor::Now *)
Definition Asio_Now (c : ExClock) (k : Clocks) : Z :=
  if negb (ec_use_system_clock c) then ec_start_sys_tp c + (ck_std k - ec_start_std_tp c) else ck_sys k.

(* @src src/src/runtime/core/executor/asio_strand_executor.cc:103-111 AsioStrandExecutor::Now *)
Definition Strand_Now : ExClock → Clocks → Z := Asio_Now.

(** When the timer of a task expires, and on which clock. *)
Inductive Expiry := Posted | OnSteady (tp : Z) | OnSystem (tp : Z).

Definition expired (e : Expiry) (k : Clocks) : bool :=
  match e with Posted => true | OnSteady tp => tp <=? ck_std k | OnSystem tp => tp <=? ck_sys k end.

(** [tp - Now()] *)
Definition wait_for (tp now : Z) : res Z := if decide (in_int64 (tp - now)) then Ok (tp - now) else Undef.

(** ** The executors *)

(** A thread: not begun, inside [run()] with nothing to run, running the
    handler [h], ended. *)
Inductive athread (H : Type) := AStart | AIdle | ARun (h : H) | AEnd.
Arguments AStart {H}.
Arguments AIdle {H}.
Arguments ARun {H} h.
Arguments AEnd {H}.

(** A task that the context was given: from the thread executor or a strand,
    the time it was asked for with the clock of its executor, its timer. *)
Record Handler (Task : Type) := mkHandler {
  h_strand : option nat;
  h_at : option (ExClock * Z);
  h_expiry : Expiry;
  h_task : Task
}.
Arguments mkHandler {Task}.
Arguments h_strand {Task}.
Arguments h_at {Task}.
Arguments h_expiry {Task}.
Arguments h_task {Task}.

Section AsioExecutor.
Context {Task : Type}.

(* @src src/src/runtime/core/executor/asio_thread_executor.h:68-82 AsioThreadExecutor *)
Record AsioThreadExecutor := mkAsio {
  ax_name : string;
  ax_options : AsioOptions;
  ax_state : State;
  ax_clock : ExClock;
  ax_work_guard : bool;              (* work_guard_ptr_ holds the context *)
  ax_ids : list (option Z);          (* thread_id_vec_ *)
  ax_threads : list (athread (Handler Task))
}.

(* @src src/src/runtime/core/executor/asio_strand_executor.h:62-73 AsioStrandExecutor *)
Record AsioStrandExecutor := mkStrand {
  sx_name : string;
  sx_options : StrandOptions;
  sx_state : State;
  sx_clock : ExClock;
  sx_get_asio_handle : option (string → bool);    (* whether the executor has a context *)
  sx_strand : option string                (* strand_ptr_: on the context of this executor *)
}.

Definition AsioThreadExecutor_new : AsioThreadExecutor :=
  mkAsio "" asio_default kPreInit (mkExClock false 0 0) false [] [].
Definition AsioStrandExecutor_new : AsioStrandExecutor :=
  mkStrand "" strand_default kPreInit (mkExClock false 0 0) None None.

Definition ax_set_state x e := mkAsio (ax_name e) (ax_options e) x (ax_clock e) (ax_work_guard e) (ax_ids e) (ax_threads e).
Definition ax_set_threads ids ths e := mkAsio (ax_name e) (ax_options e) (ax_state e) (ax_clock e) (ax_work_guard e) ids ths.
Definition sx_set_state x e := mkStrand (sx_name e) (sx_options e) x (sx_clock e) (sx_get_asio_handle e) (sx_strand e).

(** At the time [k]. *)
(* @src src/src/runtime/core/executor/asio_thread_executor.cc:51-105 AsioThreadExecutor::Initialize *)
Definition Asio_Initialize `{YamlOps node} (k : Clocks) (name : string) (options_node : option node)
    : M AsioThreadExecutor unit :=
  s ← get;
  modify (ax_set_state kInit);;
  check_throw (state_eqb (ax_state s) kPreInit) "AsioThreadExecutor can only be initialized once.";;
  modify (λ e, mkAsio name (ax_options e) (ax_state e) (ax_clock e) (ax_work_guard e) (ax_ids e) (ax_threads e));;
  o ← lift (read_options asio_decode asio_default options_node);
  let o := default asio_default o in
  let c := mkExClock (ao_use_system_clock o) (ck_sys k) (ck_std k) in
  modify (λ e, mkAsio (ax_name e) o (ax_state e) c (ax_work_guard e) (ax_ids e) (ax_threads e));;
  check_throw (0 <? ao_thread_num o) "Invalide asio thread executor options, thread num is zero.";;
  let n := Z.to_nat (ao_thread_num o) in
  modify (λ e, mkAsio (ax_name e) (ax_options e) (ax_state e) (ax_clock e) true (replicate n None) (replicate n AStart)).

(* @src src/src/runtime/core/executor/asio_thread_executor.cc:107-111 AsioThreadExecutor::Start *)
Definition Asio_Start : M AsioThreadExecutor unit :=
  s ← get;
  modify (ax_set_state kStart);;
  check_throw (state_eqb (ax_state s) kInit) "Method can only be called when state is 'Init'.".

(** The call then waits for the threads. *)
(* @src src/src/runtime/core/executor/asio_thread_executor.cc:113-117 AsioThreadExecutor::Shutdown *)
Definition Asio_Shutdown : M AsioThreadExecutor unit :=
  s ← get;
  modify (ax_set_state kShutdown);;
  if state_eqb (ax_state s) kShutdown then mret tt
  else modify (λ e, mkAsio (ax_name e) (ax_options e) (ax_state e) (ax_clock e) false (ax_ids e) (ax_threads e)).

(* @src src/src/runtime/core/executor/asio_thread_executor.cc:125-133 AsioThreadExecutor::IsInCurrentExecutor *)
Definition Asio_IsInCurrentExecutor (this : Z) (e : AsioThreadExecutor) : bool := bool_decide (Some this ∈ ax_ids e).

(* @src src/src/runtime/core/executor/asio_thread_executor.h:51-51 AsioThreadExecutor::ThreadSafe *)
Definition Asio_ThreadSafe (e : AsioThreadExecutor) : bool := ao_thread_num (ax_options e) =? 1.

(* @src src/src/runtime/core/executor/asio_strand_executor.cc:174-180 AsioStrandExecutor::RegisterGetAsioHandle *)
Definition RegisterGetAsioHandle (handle : string → bool) : M AsioStrandExecutor unit :=
  s ← get;
  check_throw (state_eqb (sx_state s) kPreInit) "Method can only be called when state is 'PreInit'.";;
  put (mkStrand (sx_name s) (sx_options s) (sx_state s) (sx_clock s) (Some handle) (sx_strand s)).

(* @src src/src/runtime/core/executor/asio_strand_executor.cc:46-76 AsioStrandExecutor::Initialize *)
Definition Strand_Initialize `{YamlOps node} (k : Clocks) (name : string) (options_node : option node)
    : M AsioStrandExecutor unit :=
  s ← get;
  match sx_get_asio_handle s with
  | None => throw (AimRTException "Get asio handle is not set before initialize.")
  | Some handle =>
      modify (sx_set_state kInit);;
      check_throw (state_eqb (sx_state s) kPreInit) "AsioStrandExecutor can only be initialized once.";;
      modify (λ e, mkStrand name (sx_options e) (sx_state e) (sx_clock e) (sx_get_asio_handle e) (sx_strand e));;
      o ← lift (read_options strand_decode strand_default options_node);
      let o := default strand_default o in
      let c := mkExClock (sr_use_system_clock o) (ck_sys k) (ck_std k) in
      modify (λ e, mkStrand (sx_name e) o (sx_state e) c (sx_get_asio_handle e) (sx_strand e));;
      let bind := sr_bind_asio_thread_executor_name o in
      check_throw (negb (String.eqb bind "")) "Invalide bind asio thread executor name, name is empty.";;
      check_throw (handle bind) "Invalide bind asio thread executor name, can not get asio io context.";;
      modify (λ e, mkStrand (sx_name e) (sx_options e) (sx_state e) (sx_clock e) (sx_get_asio_handle e) (Some bind))
  end.

(* @src src/src/runtime/core/executor/asio_strand_executor.cc:78-82 AsioStrandExecutor::Start *)
Definition Strand_Start : M AsioStrandExecutor unit :=
  s ← get;
  modify (sx_set_state kStart);;
  check_throw (state_eqb (sx_state s) kInit) "Method can only be called when state is 'Init'.".

(* @src src/src/runtime/core/executor/asio_strand_executor.cc:84-87 AsioStrandExecutor::Shutdown *)
Definition Strand_Shutdown : M AsioStrandExecutor unit := modify (sx_set_state kShutdown).

Definition open_state (st : State) : bool := state_eqb st kInit || state_eqb st kStart.

(** ** The executors of a context *)

(** A call in progress of the thread executor or of a strand: the state has
    been found open; for a steady timer, [Now()] has been read. *)
Inductive acall := ACall (k : option nat) (tp : option Z) (t : Task) | ARead (k : option nat) (tp : Z) (t : Task) (now : Z).

Record System := mkSystem {
  as_ex : AsioThreadExecutor;
  as_strands : list AsioStrandExecutor;   (* those on its context *)
  as_clocks : Clocks;
  as_calls : list acall;
  as_pending : list (Handler Task);  (* what the context has to run *)
  as_stopped : bool;                 (* the context has stopped *)
  as_given : list (Handler Task);    (* ghost: what the context was given *)
  as_late : list (Handler Task);     (* ghost: what it was given once it had stopped *)
  as_started : list (Handler Task * Clocks);   (* ghost: what was started when *)
  as_done : list (Handler Task);     (* ghost: what has returned or thrown *)
  as_threw : list (Handler Task)     (* ghost: what has thrown *)
}.

Implicit Types s : System.

Definition as_set_ex x s := mkSystem x (as_strands s) (as_clocks s) (as_calls s) (as_pending s) (as_stopped s)
  (as_given s) (as_late s) (as_started s) (as_done s) (as_threw s).
Definition as_set_strands x s := mkSystem (as_ex s) x (as_clocks s) (as_calls s) (as_pending s) (as_stopped s)
  (as_given s) (as_late s) (as_started s) (as_done s) (as_threw s).
Definition as_set_clocks x s := mkSystem (as_ex s) (as_strands s) x (as_calls s) (as_pending s) (as_stopped s)
  (as_given s) (as_late s) (as_started s) (as_done s) (as_threw s).
Definition as_set_calls x s := mkSystem (as_ex s) (as_strands s) (as_clocks s) x (as_pending s) (as_stopped s)
  (as_given s) (as_late s) (as_started s) (as_done s) (as_threw s).
Definition as_set_pending x s := mkSystem (as_ex s) (as_strands s) (as_clocks s) (as_calls s) x (as_stopped s)
  (as_given s) (as_late s) (as_started s) (as_done s) (as_threw s).
Definition as_set_stopped x s := mkSystem (as_ex s) (as_strands s) (as_clocks s) (as_calls s) (as_pending s) x
  (as_given s) (as_late s) (as_started s) (as_done s) (as_threw s).
Definition as_set_given x s := mkSystem (as_ex s) (as_strands s) (as_clocks s) (as_calls s) (as_pending s)
  (as_stopped s) x (as_late s) (as_started s) (as_done s) (as_threw s).
Definition as_set_late x s := mkSystem (as_ex s) (as_strands s) (as_clocks s) (as_calls s) (as_pending s)
  (as_stopped s) (as_given s) x (as_started s) (as_done s) (as_threw s).
Definition as_set_started x s := mkSystem (as_ex s) (as_strands s) (as_clocks s) (as_calls s) (as_pending s)
  (as_stopped s) (as_given s) (as_late s) x (as_done s) (as_threw s).
Definition as_set_done x s := mkSystem (as_ex s) (as_strands s) (as_clocks s) (as_calls s) (as_pending s)
  (as_stopped s) (as_given s) (as_late s) (as_started s) x (as_threw s).
Definition as_set_threw x s := mkSystem (as_ex s) (as_strands s) (as_clocks s) (as_calls s) (as_pending s)
  (as_stopped s) (as_given s) (as_late s) (as_started s) (as_done s) x.

Definition acall_executor (a : acall) : option nat := match a with ACall k _ _ => k | ARead k _ _ _ => k end.

Definition clock_of (k : option nat) s : option ExClock :=
  match k with None => Some (ax_clock (as_ex s)) | Some i => sx_clock <$> as_strands s !! i end.

(** The test at the beginning of [Execute] and [ExecuteAt]. *)
(* @src src/src/runtime/core/executor/asio_strand_executor.cc:89-94 AsioStrandExecutor::Execute (state) *)
Definition strand_accepts (x : AsioStrandExecutor) : bool := open_state (sx_state x).

(* @src src/src/runtime/core/executor/asio_thread_executor.cc:135-139 AsioThreadExecutor::Execute (state) *)
Definition accepts (k : option nat) s : bool :=
  match k with
  | None => open_state (ax_state (as_ex s))
  | Some i => match as_strands s !! i with Some x => strand_accepts x | None => false end
  end.

(** The next action of a call: the context is given a handler, or the call
    goes on. *)
(* @src src/src/runtime/core/executor/asio_thread_executor.cc:167-217 AsioThreadExecutor::ExecuteAt *)
Definition advance (a : acall) (c : ExClock) (now : Clocks) : res (acall + Handler Task) :=
  match a with
  | ACall k None t => Ok (inr (mkHandler k None Posted t))
  | ACall k (Some tp) t =>
      if negb (ec_use_system_clock c) then Ok (inl (ARead k tp t (Asio_Now c now)))
      else Ok (inr (mkHandler k (Some (c, tp)) (OnSystem tp) t))
  | ARead k tp t read =>
      d ← wait_for tp read;
      Ok (inr (mkHandler k (Some (c, tp)) (OnSteady (ck_std now + d)) t))
  end.

(* @src src/src/runtime/core/executor/asio_strand_executor.cc:121-170 AsioStrandExecutor::ExecuteAt *)
Definition strand_advance : acall → ExClock → Clocks → res (acall + Handler Task) := advance.

(* @src src/src/runtime/core/executor/asio_thread_executor.cc:141-146 AsioThreadExecutor::Execute (post) *)
Definition give (h : Handler Task) s : System :=
  let s := as_set_pending (as_pending s ++ [h]) (as_set_given (as_given s ++ [h]) s) in
  if as_stopped s then as_set_late (as_late s ++ [h]) s else s.

Definition set_thread (i : nat) (id : option Z) (x : athread (Handler Task)) s : System :=
  as_set_ex (ax_set_threads (<[i:=id]> (ax_ids (as_ex s))) (<[i:=x]> (ax_threads (as_ex s))) (as_ex s)) s.

Definition handler_of (x : athread (Handler Task)) : list (Handler Task) := match x with ARun h => [h] | _ => [] end.
Definition as_running s : list (Handler Task) := concat (map handler_of (ax_threads (as_ex s))).

(** The strand of a handler runs nothing else. *)
Definition strand_free (h : Handler Task) s : Prop :=
  ∀ k, h_strand h = Some k → Forall (λ h', h_strand h' ≠ Some k) (as_running s).

(** A thread of the executor. *)
(* @src src/src/runtime/core/executor/asio_thread_executor.cc:76-101 AsioThreadExecutor::Initialize (thread) *)
Inductive athread_step (i : nat) s : System → Prop :=
| athread_begin id old :
    ax_threads (as_ex s) !! i = Some AStart → ax_ids (as_ex s) !! i = Some old →
    athread_step i s (set_thread i (Some id) AIdle s)
| athread_start id h p1 p2 :
    ax_threads (as_ex s) !! i = Some AIdle → ax_ids (as_ex s) !! i = Some id → as_stopped s = false →
    as_pending s = p1 ++ h :: p2 → expired (h_expiry h) (as_clocks s) = true → strand_free h s →
    athread_step i s (set_thread i id (ARun h)
      (as_set_started (as_started s ++ [(h, as_clocks s)]) (as_set_pending (p1 ++ p2) s)))
| athread_return id h :
    ax_threads (as_ex s) !! i = Some (ARun h) → ax_ids (as_ex s) !! i = Some id →
    athread_step i s (set_thread i id AIdle (as_set_done (as_done s ++ [h]) s))
| athread_throw h :
    ax_threads (as_ex s) !! i = Some (ARun h) →
    athread_step i s (set_thread i None AEnd (as_set_threw (as_threw s ++ [h]) (as_set_done (as_done s ++ [h]) s)))
| athread_leave :
    ax_threads (as_ex s) !! i = Some AIdle →
    as_stopped s = true ∨ (ax_work_guard (as_ex s) = false ∧ as_pending s = [] ∧ as_running s = []) →
    athread_step i s (set_thread i None AEnd (as_set_stopped true s)).

Definition strands_step (i : nat) (x : AsioStrandExecutor) s : System := as_set_strands (<[i:=x]> (as_strands s)) s.

Inductive asio_step s : System → Prop :=
| as_clock k : ck_std (as_clocks s) ≤ ck_std k → asio_step s (as_set_clocks k s)
| as_enter k tp t : accepts k s = true → asio_step s (as_set_calls (ACall k tp t :: as_calls s) s)
| as_on c1 a c2 c a' :
    as_calls s = c1 ++ a :: c2 → clock_of (acall_executor a) s = Some c → advance a c (as_clocks s) = Ok (inl a') →
    asio_step s (as_set_calls (c1 ++ a' :: c2) s)
| as_give c1 a c2 c h :
    as_calls s = c1 ++ a :: c2 → clock_of (acall_executor a) s = Some c → advance a c (as_clocks s) = Ok (inr h) →
    asio_step s (give h (as_set_calls (c1 ++ c2) s))
| as_refused c1 a c2 : as_calls s = c1 ++ a :: c2 → asio_step s (as_set_calls (c1 ++ c2) s)   (* asio threw *)
| as_thread i s' : athread_step i s s' → asio_step s s'
| as_start e : Asio_Start (as_ex s) = (Ok tt, e) → asio_step s (as_set_ex e s)
| as_shutdown e : Asio_Shutdown (as_ex s) = (Ok tt, e) → asio_step s (as_set_ex e s)
| as_strand_start i x y : as_strands s !! i = Some x → Strand_Start x = (Ok tt, y) → asio_step s (strands_step i y s)
| as_strand_shutdown i x y : as_strands s !! i = Some x → Strand_Shutdown x = (Ok tt, y) → asio_step s (strands_step i y s).

(** What [Initialize] makes of a thread executor, and strands on its context. *)
Definition asio_made (name : string) (o : AsioOptions) (k : Clocks) : AsioThreadExecutor :=
  let n := Z.to_nat (ao_thread_num o) in
  mkAsio name o kInit (mkExClock (ao_use_system_clock o) (ck_sys k) (ck_std k)) true (replicate n None) (replicate n AStart).

Definition system_made (e : AsioThreadExecutor) (strands : list AsioStrandExecutor) (k : Clocks) : System :=
  mkSystem e strands k [] [] false [] [] [] [] [].

Definition asio_reachable name o k0 strands k s : Prop := rtc asio_step (system_made (asio_made name o k0) strands k) s.

Lemma Asio_Initialize_makes `{YamlOps node} k name (options_node : option node) o :
  read_options asio_decode asio_default options_node = Ok o → 0 < ao_thread_num (default asio_default o) →
  Asio_Initialize k name options_node AsioThreadExecutor_new = (Ok tt, asio_made name (default asio_default o) k).
Proof.
  intros Ho Hn. unfold Asio_Initialize. unfold_monad. cbn -[Z.ltb]. rewrite Ho. cbn -[Z.ltb].
  apply Z.ltb_lt in Hn. by rewrite Hn.
Qed.

(** ** The invariant *)

(** The timer of a handler does not expire before its time on the clock of its
    executor. *)
Definition on_time (h : Handler Task) : Prop :=
  match h_at h, h_expiry h with
  | None, _ => True
  | Some (c, tp), OnSystem e => ec_use_system_clock c = true ∧ tp ≤ e
  | Some (c, tp), OnSteady e => ec_use_system_clock c = false ∧ tp ≤ ec_start_sys_tp c + (e - ec_start_std_tp c)
  | Some _, Posted => False
  end.

Definition not_early (p : Handler Task * Clocks) : Prop :=
  match h_at p.1 with Some (c, tp) => tp ≤ Asio_Now c p.2 | None => True end.

Lemma on_time_not_early h k : on_time h → expired (h_expiry h) k = true → not_early (h, k).
Proof.
  unfold on_time, not_early, Asio_Now. cbn. destruct (h_at h) as [[c tp]|]; [|done].
  destruct (h_expiry h) as [|e|e]; cbn; [done| |]; intros [-> Htp] He; cbn; lia.
Qed.

(** The clock that a call has read was not ahead. *)
Definition read_ok s (a : acall) : Prop :=
  match a with
  | ACall _ _ _ => True
  | ARead k tp t now => ∀ c, clock_of k s = Some c → ec_use_system_clock c = false ∧ now ≤ Asio_Now c (as_clocks s)
  end.

Definition running_thread (x : athread (Handler Task)) : bool := match x with AStart | AEnd => false | _ => true end.
Definition id_ok (x : athread (Handler Task)) (id : option Z) : Prop := running_thread x = true ↔ is_Some id.
Definition ended (x : athread (Handler Task)) : nat := match x with AEnd => 1 | _ => 0 end.
Definition ended_num s : nat := sum_list_with ended (ax_threads (as_ex s)).

Record asio_inv (n : nat) s : Prop := {
  ai_given : as_given s ≡ₚ as_done s ++ as_running s ++ as_pending s;
  ai_threads : length (ax_threads (as_ex s)) = n;
  ai_ids : Forall2 id_ok (ax_threads (as_ex s)) (ax_ids (as_ex s));
  ai_pending : Forall on_time (as_pending s);
  ai_calls : Forall (read_ok s) (as_calls s);
  ai_started : Forall not_early (as_started s);
  ai_stopped : if as_stopped s then as_running s = [] ∧ as_pending s = as_late s
               else as_late s = [] ∧ ended_num s = length (as_threw s);
  ai_threw : (length (as_threw s) ≤ ended_num s)%nat;
  ai_guard : ax_work_guard (as_ex s) = true → as_stopped s = false
}.

Lemma system_made_inv name o k0 strands k : asio_inv (Z.to_nat (ao_thread_num o)) (system_made (asio_made name o k0) strands k).
Proof.
  set (n := Z.to_nat (ao_thread_num o)).
  assert (as_running (system_made (asio_made name o k0) strands k) = []) as Hr.
  { unfold as_running. cbn. fold n. clear. by induction n. }
  assert (ended_num (system_made (asio_made name o k0) strands k) = 0%nat) as He.
  { unfold ended_num. cbn. fold n. clear. by induction n. }
  split; rewrite ?Hr, ?He; cbn; rewrite ?length_replicate; try done.
  apply Forall2_replicate. split; [done|]. by intros [].
Qed.

(** Handlers and threads depend on the threads only. *)
Lemma as_running_set i id x y s s2 : as_ex s2 = as_ex s → ax_threads (as_ex s) !! i = Some x →
  handler_of x ++ as_running (set_thread i id y s2) ≡ₚ handler_of y ++ as_running s.
Proof. intros He Hi. unfold as_running. cbn. rewrite He. by apply concat_insert. Qed.

Lemma ended_num_set i id x y s s2 : as_ex s2 = as_ex s → ax_threads (as_ex s) !! i = Some x →
  (ended x + ended_num (set_thread i id y s2) = ended y + ended_num s)%nat.
Proof. intros He Hi. unfold ended_num. cbn. rewrite He. by apply sum_insert. Qed.

(** A thread changes: what has to be shown of it. *)
Lemma thread_inv n i id x y s s2 :
  asio_inv n s → ax_threads (as_ex s) !! i = Some x → id_ok y id → as_ex s2 = as_ex s → as_clocks s2 = as_clocks s →
  as_strands s2 = as_strands s → as_calls s2 = as_calls s → as_given s2 = as_given s →
  let s' := set_thread i id y s2 in
  as_given s ≡ₚ as_done s' ++ as_running s' ++ as_pending s' →
  Forall on_time (as_pending s') → Forall not_early (as_started s') →
  (if as_stopped s' then as_running s' = [] ∧ as_pending s' = as_late s'
   else as_late s' = [] ∧ ended_num s' = length (as_threw s')) →
  (length (as_threw s') ≤ ended_num s')%nat → (ax_work_guard (as_ex s) = true → as_stopped s' = false) →
  asio_inv n s'.
Proof.
  intros [Hg Hl Hids Hp Hc Hst Hstop Ht Hw] Hi Hid Hex Hk Hstr Hcalls Hgv s' H1 H2 H3 H4 H5 H6.
  split; [| | |done| |done|done|done|].
  - subst s'. cbn. rewrite Hgv. exact H1.
  - subst s'. cbn. by rewrite Hex, length_insert.
  - subst s'. cbn. rewrite Hex. by apply Forall2_insert.
  - subst s'. cbn. rewrite Hcalls. eapply Forall_impl; [exact Hc|].
    intros [k tp t|k tp t now]; [done|]. unfold read_ok, clock_of. cbn. by rewrite Hex, Hstr, Hk.
  - subst s'. cbn in *. rewrite Hex. exact H6.
Qed.

(** A handler that runs: the context has not stopped. *)
Lemma running_not_stopped n i h s : asio_inv n s → ax_threads (as_ex s) !! i = Some (ARun h) → as_stopped s = false.
Proof.
  intros Hinv Hi. pose proof (ai_stopped _ _ Hinv) as Hs. destruct (as_stopped s); [|done].
  pose proof (as_running_set i None _ AIdle s s eq_refl Hi) as Hr. rewrite (proj1 Hs) in Hr.
  apply Permutation_length in Hr. cbn in Hr. lia.
Qed.

Lemma athread_step_inv n i s s' : athread_step i s s' → asio_inv n s → asio_inv n s'.
Proof.
  intros Hs Hinv. pose proof Hinv as [Hg Hl Hids Hp _ Hst Hstop Ht Hw].
  assert (∀ x y id, ax_threads (as_ex s) !! i = Some x → ax_ids (as_ex s) !! i = Some id →
            running_thread x = running_thread y → id_ok y id) as Hid.
  { intros x y id Hi Hii Hxy. destruct (Forall2_lookup_lr _ _ _ _ _ _ Hids Hi Hii) as [H1 H2].
    unfold id_ok. by rewrite <-Hxy. }
  destruct Hs as [id old Hi Hii|id h p1 p2 Hi Hii Hns Hpend He Hfree|id h Hi Hii|h Hi|Hi Hor].
  - pose proof (as_running_set i (Some id) _ AIdle s s eq_refl Hi) as Hr. cbn [handler_of app] in Hr.
    pose proof (ended_num_set i (Some id) _ AIdle s s eq_refl Hi) as Hn. cbn [ended] in Hn.
    eapply thread_inv; [done|exact Hi|by cbn|done..| | |done| | |done].
    + cbn. by rewrite Hr.
    + exact Hp.
    + change (as_stopped (set_thread i (Some id) AIdle s)) with (as_stopped s). destruct (as_stopped s).
      * destruct Hstop as [Hrun Hpl]. rewrite Hrun in Hr. by apply Permutation_nil_r in Hr.
      * destruct Hstop as [Hlate Hnum]. cbn. split; [done|]. cbn in Hn. lia.
    + cbn in *. lia.
  - set (s2 := as_set_started (as_started s ++ [(h, as_clocks s)]) (as_set_pending (p1 ++ p2) s)).
    pose proof (as_running_set i id _ (ARun h) s s2 eq_refl Hi) as Hr. cbn [handler_of app] in Hr.
    pose proof (ended_num_set i id _ (ARun h) s s2 eq_refl Hi) as Hn. cbn [ended] in Hn.
    rewrite Hpend in Hp. apply Forall_app in Hp as [Hp1 [Hph Hp2]%Forall_cons].
    rewrite Hns in Hstop. destruct Hstop as [Hlate Hnum].
    eapply (thread_inv _ i id _ _ s s2); [done|exact Hi|by apply (Hid AIdle)|done..| | | | | |].
    + change (as_done (set_thread i id (ARun h) s2)) with (as_done s). change (as_pending (set_thread i id (ARun h) s2)) with (p1 ++ p2).
      rewrite Hg, Hr, Hpend. apply Permutation_app_head. rewrite <-Permutation_middle, <-Permutation_middle. done.
    + by apply Forall_app.
    + apply Forall_app. split; [exact Hst|]. constructor; [by apply on_time_not_early|done].
    + change (as_stopped (set_thread i id (ARun h) s2)) with (as_stopped s). rewrite Hns. split; [exact Hlate|]. 
      change (as_threw (set_thread i id (ARun h) s2)) with (as_threw s). lia.
    + change (as_threw (set_thread i id (ARun h) s2)) with (as_threw s). lia.
    + exact Hw.
  - pose proof (running_not_stopped _ _ _ _ Hinv Hi) as Hns. set (s2 := as_set_done (as_done s ++ [h]) s).
    pose proof (as_running_set i id _ AIdle s s2 eq_refl Hi) as Hr. cbn [handler_of app] in Hr.
    pose proof (ended_num_set i id _ AIdle s s2 eq_refl Hi) as Hn. cbn [ended] in Hn.
    rewrite Hns in Hstop. destruct Hstop as [Hlate Hnum].
    eapply (thread_inv _ i id _ _ s s2); [done|exact Hi|by apply (Hid (ARun h))|done..| |exact Hp|exact Hst| | |exact Hw].
    + change (as_done (set_thread i id AIdle s2)) with (as_done s ++ [h]). change (as_pending (set_thread i id AIdle s2)) with (as_pending s).
      by rewrite Hg, <-Hr, <-app_assoc.
    + change (as_stopped (set_thread i id AIdle s2)) with (as_stopped s). rewrite Hns. split; [exact Hlate|].
      change (as_threw (set_thread i id AIdle s2)) with (as_threw s). lia.
    + change (as_threw (set_thread i id AIdle s2)) with (as_threw s). lia.
  - pose proof (running_not_stopped _ _ _ _ Hinv Hi) as Hns.
    set (s2 := as_set_threw (as_threw s ++ [h]) (as_set_done (as_done s ++ [h]) s)).
    pose proof (as_running_set i None _ AEnd s s2 eq_refl Hi) as Hr. cbn [handler_of app] in Hr.
    pose proof (ended_num_set i None _ AEnd s s2 eq_refl Hi) as Hn. cbn [ended] in Hn.
    rewrite Hns in Hstop. destruct Hstop as [Hlate Hnum].
    eapply (thread_inv _ i None _ _ s s2); [done|exact Hi|split; [done|by intros []]|done..| |exact Hp|exact Hst| | |exact Hw].
    + change (as_done (set_thread i None AEnd s2)) with (as_done s ++ [h]). change (as_pending (set_thread i None AEnd s2)) with (as_pending s).
      by rewrite Hg, <-Hr, <-app_assoc.
    + change (as_stopped (set_thread i None AEnd s2)) with (as_stopped s). rewrite Hns. split; [exact Hlate|].
      change (as_threw (set_thread i None AEnd s2)) with (as_threw s ++ [h]). rewrite length_app. cbn [length]. lia.
    + change (as_threw (set_thread i None AEnd s2)) with (as_threw s ++ [h]). rewrite length_app. cbn [length]. lia.
  - set (s2 := as_set_stopped true s).
    pose proof (as_running_set i None _ AEnd s s2 eq_refl Hi) as Hr. cbn [handler_of app] in Hr.
    pose proof (ended_num_set i None _ AEnd s s2 eq_refl Hi) as Hn. cbn [ended] in Hn.
    assert (as_running s = [] ∧ as_pending s = as_late s) as [Hrun Hpl].
    { destruct (as_stopped s); [done|]. destruct Hor as [|(_ & H1 & H2)]; [done|]. by rewrite H1, (proj1 Hstop). }
    eapply (thread_inv _ i None _ _ s s2); [done|exact Hi|split; [done|by intros []]|done..| |exact Hp|exact Hst| | |].
    + change (as_done (set_thread i None AEnd s2)) with (as_done s). change (as_pending (set_thread i None AEnd s2)) with (as_pending s).
      by rewrite Hg, Hr.
    + change (as_stopped (set_thread i None AEnd s2)) with true. rewrite Hrun in Hr. apply Permutation_nil_r in Hr. by split.
    + change (as_threw (set_thread i None AEnd s2)) with (as_threw s). lia.
    + intros Hg2. destruct Hor as [Hor|[Hor _]]; [rewrite Hw in Hor|rewrite Hor in Hg2]; done.
Qed.

Lemma advance_call s a c a' : clock_of (acall_executor a) s = Some c → advance a c (as_clocks s) = Ok (inl a') → read_ok s a'.
Proof.
  intros Hc. destruct a as [k [tp|] t|k tp t now]; cbn; [|done|by destruct (wait_for tp now)].
  destruct (ec_use_system_clock c) eqn:Hu; [done|]. intros [= <-] c' Hc'. cbn in Hc. rewrite Hc in Hc'. injection Hc' as <-.
  by split.
Qed.

Lemma advance_on_time s a c h :
  clock_of (acall_executor a) s = Some c → read_ok s a → advance a c (as_clocks s) = Ok (inr h) → on_time h.
Proof.
  intros Hc Hok. destruct a as [k [tp|] t|k tp t now]; cbn.
  - destruct (ec_use_system_clock c) eqn:Hu; [|done]. intros [= <-]. cbn. by split.
  - by intros [= <-].
  - unfold wait_for. destruct (decide _); [|done]. intros [= <-]. cbn.
    destruct (Hok c Hc) as [Hu Hle]. unfold Asio_Now in Hle. rewrite Hu in Hle. cbn in Hle. split; [done|lia].
Qed.

(** What the life cycles leave as it is. *)
Lemma Asio_Start_ok e e' : Asio_Start e = (Ok tt, e') → ax_state e = kInit ∧ e' = ax_set_state kStart e.
Proof.
  unfold Asio_Start. unfold_monad. destruct (state_eqb _ _) eqn:E0; [|done]. intros [= <-].
  by apply bool_decide_eq_true in E0.
Qed.
Lemma Strand_Start_ok x y : Strand_Start x = (Ok tt, y) → sx_state x = kInit ∧ y = sx_set_state kStart x.
Proof.
  unfold Strand_Start. unfold_monad. destruct (state_eqb _ _) eqn:E0; [|done]. intros [= <-].
  by apply bool_decide_eq_true in E0.
Qed.
Lemma Asio_Shutdown_ok e e' : Asio_Shutdown e = (Ok tt, e') →
  ax_state e' = kShutdown ∧ ax_threads e' = ax_threads e ∧ ax_ids e' = ax_ids e ∧ ax_clock e' = ax_clock e ∧
  (ax_state e ≠ kShutdown → ax_work_guard e' = false) ∧ (ax_work_guard e' = true → ax_work_guard e = true).
Proof.
  unfold Asio_Shutdown. unfold_monad. destruct (state_eqb _ _) eqn:E0; intros [= <-]; [|done].
  apply bool_decide_eq_true in E0. done.
Qed.

Lemma read_ok_same s s' a : as_clocks s' = as_clocks s → (∀ k, clock_of k s' = clock_of k s) → read_ok s a → read_ok s' a.
Proof. intros Hk Hc. destruct a; [done|]. cbn. by rewrite Hk, Hc. Qed.

(** Only the executors change, and keep their clocks. *)
Lemma life_inv n e xs s :
  let s' := as_set_ex e (as_set_strands xs s) in
  ax_threads e = ax_threads (as_ex s) → ax_ids e = ax_ids (as_ex s) →
  (ax_work_guard e = true → ax_work_guard (as_ex s) = true) → (∀ k, clock_of k s' = clock_of k s) →
  asio_inv n s → asio_inv n s'.
Proof.
  intros s' Hth Hid Hgd Hclk Hinv.
  assert (as_running s' = as_running s) as Hr by (unfold as_running; cbn; by rewrite Hth).
  assert (ended_num s' = ended_num s) as He by (unfold ended_num; cbn; by rewrite Hth).
  destruct Hinv as [Hg Hl Hids Hp Hcalls Hst Hstop Ht Hw]. split; rewrite ?Hr, ?He; try done; cbn.
  - by rewrite Hth.
  - by rewrite Hth, Hid.
  - eapply Forall_impl; [exact Hcalls|]. intros a. by apply read_ok_same.
  - auto.
Qed.

Lemma same_strands s : as_set_strands (as_strands s) s = s.
Proof. by destruct s. Qed.
Lemma same_ex s : as_set_ex (as_ex s) s = s.
Proof. by destruct s. Qed.

Lemma strand_life_inv n i x y s :
  as_strands s !! i = Some x → sx_clock y = sx_clock x → asio_inv n s → asio_inv n (strands_step i y s).
Proof.
  intros Hi Hc Hinv. change (strands_step i y s) with (as_set_ex (as_ex s) (as_set_strands (<[i:=y]> (as_strands s)) s)).
  apply life_inv; [done..| |done]. intros [j|]; [|done]. cbn. destruct (decide (i = j)) as [->|Hne].
  - rewrite list_lookup_insert_eq by (by eapply lookup_lt_Some). rewrite Hi. cbn. by rewrite Hc.
  - by rewrite list_lookup_insert_ne.
Qed.

(** A call is gone, or another; and the context may have been given [h]. *)
Lemma calls_inv n calls s : Forall (read_ok s) calls → asio_inv n s → asio_inv n (as_set_calls calls s).
Proof. intros Hc [Hg Hl Hids Hp _ Hst Hstop Ht Hw]. by split. Qed.

Lemma give_inv n h s : on_time h → asio_inv n s → asio_inv n (give h s).
Proof.
  intros Hh [Hg Hl Hids Hp Hcalls Hst Hstop Ht Hw].
  assert (as_given s ++ [h] ≡ₚ as_done s ++ as_running s ++ as_pending s ++ [h]) as Hg' by (by rewrite Hg, <-!app_assoc).
  assert (Forall on_time (as_pending s ++ [h])) as Hp' by (apply Forall_app; split; [done|by constructor]).
  unfold give. cbn [as_stopped as_set_pending as_set_given]. destruct (as_stopped s) eqn:Hs.
  - destruct Hstop as [Hrun Hpl]. split; cbn; try done; rewrite ?Hs; [|done].
    split; [done|]. by rewrite Hpl.
  - split; cbn; try done; by rewrite ?Hs.
Qed.

Lemma calls_split n s c1 a c2 : asio_inv n s → as_calls s = c1 ++ a :: c2 →
  Forall (read_ok s) (c1 ++ c2) ∧ read_ok s a ∧ ∀ a', read_ok s a' → Forall (read_ok s) (c1 ++ a' :: c2).
Proof.
  intros Hinv Hcs. pose proof (ai_calls _ _ Hinv) as Hc. rewrite Hcs in Hc.
  apply Forall_app in Hc as [H1 [Ha H2]%Forall_cons]. split; [by apply Forall_app|]. split; [done|].
  intros a' Ha'. apply Forall_app. split; [done|]. by constructor.
Qed.

Lemma asio_step_inv n s s' : asio_step s s' → asio_inv n s → asio_inv n s'.
Proof.
  intros Hs Hinv. destruct Hs as [k Hk|k tp t Ha|c1 a c2 c a' Hcs Hc Hadv|c1 a c2 c h Hcs Hc Hadv|c1 a c2 Hcs|i s' Hs
    |e Hs|e Hs|i x y Hi Hs|i x y Hi Hs].
  - destruct Hinv as [Hg Hl Hids Hp Hcalls Hst Hstop Ht Hw]. split; try done.
    eapply Forall_impl; [exact Hcalls|]. intros [w tp t|w tp t now]; [done|]. cbn. intros Hr c Hc.
    destruct (Hr c Hc) as [Hu Hle]. split; [done|]. unfold Asio_Now in *. rewrite Hu in *. cbn in *. lia.
  - apply calls_inv; [|done]. constructor; [done|]. exact (ai_calls _ _ Hinv).
  - destruct (calls_split _ _ _ _ _ Hinv Hcs) as (_ & _ & Hnew). apply calls_inv; [|done]. by eapply Hnew, advance_call.
  - destruct (calls_split _ _ _ _ _ Hinv Hcs) as (Hrest & Hok & _). apply give_inv; [by eapply advance_on_time|].
    by apply calls_inv.
  - destruct (calls_split _ _ _ _ _ Hinv Hcs) as (Hrest & _). by apply calls_inv.
  - by eapply athread_step_inv.
  - apply Asio_Start_ok in Hs as [_ ->]. rewrite <-(same_strands s) at 1. by apply life_inv.
  - apply Asio_Shutdown_ok in Hs as (_ & H1 & H2 & H3 & _ & H4). rewrite <-(same_strands s) at 1. apply life_inv; try done.
    intros [j|]; [done|]. cbn. by rewrite H3.
  - eapply strand_life_inv; [done| |done]. by apply Strand_Start_ok in Hs as [_ ->].
  - eapply strand_life_inv; [done| |done]. by injection Hs as <-.
Qed.

Lemma asio_reachable_inv name o k0 strands k s :
  asio_reachable name o k0 strands k s → asio_inv (Z.to_nat (ao_thread_num o)) s.
Proof.
  intros Hs. pose proof (system_made_inv name o k0 strands k) as H0. unfold asio_reachable in Hs. revert H0.
  induction Hs as [|s1 s2 s3 H12 _ IH]; [done|]. intros H1. by eapply IH, asio_step_inv.
Qed.

(** ** Nothing is lost, nothing is early *)

(** C20: Whatever the callers, the threads and the clocks do, every task that the
    context of an asio executor was given is exactly once among those that have
    run, run now or wait; no task given a time, through the thread executor or a
    strand, on the system clock or the steady one, is started while its executor
    says that the time has not come; and a thread that runs a task is found by
    [IsInCurrentExecutor]. *)
Theorem asio_executor_safe name o k0 strands k s :
  asio_reachable name o k0 strands k s →
  as_given s ≡ₚ as_done s ++ as_running s ++ as_pending s ∧
  (∀ h now c tp, (h, now) ∈ as_started s → h_at h = Some (c, tp) → tp ≤ Asio_Now c now) ∧
  (∀ i h, ax_threads (as_ex s) !! i = Some (ARun h) →
     ∃ id, ax_ids (as_ex s) !! i = Some (Some id) ∧ Asio_IsInCurrentExecutor id (as_ex s) = true).
Proof.
  intros [Hg Hl Hids Hp _ Hst Hstop Ht Hw]%asio_reachable_inv. split; [done|]. split.
  - intros h now c tp Hin Hat. eapply Forall_forall in Hst; [|exact Hin]. unfold not_early in Hst. cbn in Hst. by rewrite Hat in Hst.
  - intros i h Hi. destruct (Forall2_lookup_l _ _ _ _ _ Hids Hi) as (id & Hid & Hok).
    destruct (proj1 Hok eq_refl) as [id' ->]. exists id'. split; [done|].
    apply bool_decide_eq_true. by apply list_elem_of_lookup_2 in Hid.
Qed.

(** ** Shutdown *)

Definition all_ended s : Prop := Forall (λ x, x = AEnd) (ax_threads (as_ex s)).

Lemma ended_num_spec s :
  (ended_num s ≤ length (ax_threads (as_ex s)))%nat ∧
  (all_ended s ↔ ended_num s = length (ax_threads (as_ex s))) ∧ (ended_num s = 0%nat ↔ AEnd ∉ ax_threads (as_ex s)).
Proof.
  unfold all_ended, ended_num. induction (ax_threads (as_ex s)) as [|x l (IH1 & IH2 & IH3)].
  - split; [done|]. split; [|split; [by intros _ ?%elem_of_nil|done]]. split; [done|by constructor].
  - rewrite Forall_cons, not_elem_of_cons. cbn [sum_list_with length].
    assert (ended x = 1%nat ∧ x = AEnd ∨ ended x = 0%nat ∧ x ≠ AEnd) as Hx by (destruct x; cbn; auto).
    destruct Hx as [[-> Hx]|[-> Hx]]; (split; [lia|]); split.
    + rewrite IH2. split; [intros [_ ?]; lia|intros ?; split; [done|lia]].
    + split; [lia|]. intros [Hne _]. by destruct Hne.
    + split; [by intros [? _]|lia].
    + rewrite Nat.add_0_l, IH3. split; [intros ?; split; [congruence|done]|by intros [_ ?]].
Qed.

(** No call can begin. *)
Definition closed s : Prop :=
  as_calls s = [] ∧ ax_state (as_ex s) = kShutdown ∧ Forall (λ x, open_state (sx_state x) = false) (as_strands s).

Lemma accepts_closed w s : closed s → accepts w s = false.
Proof.
  intros (_ & Hst & Hall). destruct w as [i|]; cbn.
  - destruct (as_strands s !! i) eqn:Hi; [|done]. by eapply Forall_lookup in Hall.
  - by rewrite Hst.
Qed.

Lemma closed_step s s' : closed s → asio_step s s' → closed s' ∧ as_given s' = as_given s ∧ as_late s' = as_late s.
Proof.
  intros Hcl Hs. pose proof Hcl as (Hcs & Hst & Hall).
  destruct Hs as [k Hk|w tp t Ha|c1 a c2 c a' Hcs'|c1 a c2 c h Hcs'|c1 a c2 Hcs'|i s' Hs|e Hs|e Hs|i x y Hi Hs|i x y Hi Hs].
  - done.
  - by rewrite accepts_closed in Ha.
  - by destruct c1; rewrite Hcs in Hcs'.
  - by destruct c1; rewrite Hcs in Hcs'.
  - by destruct c1; rewrite Hcs in Hcs'.
  - by destruct Hs.
  - apply Asio_Start_ok in Hs as [Hs _]. congruence.
  - apply Asio_Shutdown_ok in Hs as (H1 & _). done.
  - apply Strand_Start_ok in Hs as [Hs _]. eapply Forall_lookup in Hall; [|exact Hi]. cbn in Hall. by rewrite Hs in Hall.
  - injection Hs as <-. split; [|done]. split; [done|]. split; [done|]. by apply Forall_insert.
Qed.

(** C21: Shutdown runs everything.  When the strands have been shut down and no
    call is in progress, and then the thread executor is shut down and its
    threads have ended, every task that the context was given has run - timers
    included - unless a task has thrown. *)
Theorem asio_shutdown_drains name o k0 strands k s e s' :
  0 < ao_thread_num o → asio_reachable name o k0 strands k s →
  as_calls s = [] → Forall (λ x, open_state (sx_state x) = false) (as_strands s) → ax_work_guard (as_ex s) = true →
  Asio_Shutdown (as_ex s) = (Ok tt, e) → rtc asio_step (as_set_ex e s) s' → all_ended s' → as_threw s' = [] →
  as_done s' ≡ₚ as_given s.
Proof.
  intros Hn Hr Hcalls Hstr Hgd He Hs Hend Hthrew. pose proof (asio_reachable_inv _ _ _ _ _ _ Hr) as Hinv.
  pose proof (ai_guard _ _ Hinv Hgd) as Hns. pose proof (ai_stopped _ _ Hinv) as Hlate. rewrite Hns in Hlate.
  destruct Hlate as [Hlate _].
  assert (asio_inv (Z.to_nat (ao_thread_num o)) s') as Hinv'.
  { eapply asio_reachable_inv. unfold asio_reachable in *. transitivity s; [exact Hr|]. eapply rtc_l; [by apply as_shutdown|exact Hs]. }
  assert (as_given s' = as_given s ∧ as_late s' = []) as [Hg Hl].
  { assert (closed (as_set_ex e s)) as Hcl by (apply Asio_Shutdown_ok in He as (H1 & _); split; [done|by split]).
    change (as_given s) with (as_given (as_set_ex e s)). change (as_late s) with (as_late (as_set_ex e s)) in Hlate.
    clear -Hs Hcl Hlate. induction Hs as [|s1 s2 s3 H12 _ IH]; [done|].
    destruct (closed_step _ _ Hcl H12) as (Hcl2 & <- & Hl2). apply IH; [by rewrite Hl2|done]. }
  destruct (ended_num_spec s') as (_ & Hall & _). apply Hall in Hend. rewrite (ai_threads _ _ Hinv') in Hend.
  pose proof (ai_stopped _ _ Hinv') as Hstop. destruct (as_stopped s').
  - destruct Hstop as [H1 H2]. pose proof (ai_given _ _ Hinv') as H3. rewrite H1, H2, Hl, Hg in H3.
    cbn in H3. by rewrite app_nil_r in H3.
  - destruct Hstop as [_ H2]. rewrite Hthrew in H2. cbn in H2. lia.
Qed.

Lemma clock_step s s' : asio_step s s' → ck_std (as_clocks s) ≤ ck_std (as_clocks s').
Proof.
  intros [k Hk|w tp t Ha|c1 a c2 c a' _|c1 a c2 c h _|c1 a c2 _|i s2 []|e Hs|e Hs|i x y Hi Hs|i x y Hi Hs]; cbn; try done.
  unfold give. by destruct (as_stopped _).
Qed.

Lemma waiting_step s s' h e :
  asio_step s s' → h ∈ as_pending s → as_stopped s = false → h_expiry h = OnSteady e → ck_std (as_clocks s) < e →
  h ∈ as_pending s' ∧ as_stopped s' = false.
Proof.
  intros Hs Hin Hns Hexp Hlt.
  destruct Hs as [k Hk|w tp t Ha|c1 a c2 c a' _|c1 a c2 c h' _ _ _|c1 a c2 _|i s' Hs|e' Hs|e' Hs|i x y Hi Hs|i x y Hi Hs]; try done.
  - unfold give. cbn. rewrite Hns. cbn. split; [|done]. apply elem_of_app. by left.
  - destruct Hs as [id old Hi Hii|id h' p1 p2 Hi Hii _ Hpend He Hfree|id h' Hi Hii|h' Hi|Hi Hor]; try done.
    + cbn. split; [|done]. rewrite Hpend in Hin. apply elem_of_app in Hin. apply elem_of_app.
      destruct Hin as [?|Hin]; [by left|]. apply elem_of_cons in Hin as [->|?]; [|by right].
      rewrite Hexp in He. cbn in He. lia.
    + destruct Hor as [Hor|(_ & Hor & _)]; [congruence|]. rewrite Hor in Hin. by apply elem_of_nil in Hin.
Qed.

(** Shutdown waits for the timers: while the context has a task for a later
    time of the steady clock and none has thrown, no thread ends, and [Shutdown]
    does not return. *)
Theorem asio_shutdown_waits_for_timers name o k0 strands k s s' h e :
  asio_reachable name o k0 strands k s → as_stopped s = false → h ∈ as_pending s → h_expiry h = OnSteady e →
  rtc asio_step s s' → ck_std (as_clocks s') < e → as_threw s' = [] →
  h ∈ as_pending s' ∧ AEnd ∉ ax_threads (as_ex s').
Proof.
  intros Hr Hns Hin Hexp Hs Hlt Hthrew.
  assert (asio_inv (Z.to_nat (ao_thread_num o)) s') as Hinv'.
  { eapply asio_reachable_inv. unfold asio_reachable in *. by transitivity s. }
  assert (h ∈ as_pending s' ∧ as_stopped s' = false) as [Hin' Hns'].
  { clear Hr Hinv' Hthrew. revert Hns Hin. induction Hs as [|s1 s2 s3 H12 H23 IH]; [done|]. intros Hns Hin.
    assert (ck_std (as_clocks s1) ≤ ck_std (as_clocks s3)) as Hle.
    { assert (rtc asio_step s1 s3) as H13 by (by eapply rtc_l). clear -H13.
      induction H13 as [|x y z Hxy _ IHc]; [done|]. apply clock_step in Hxy. lia. }
    destruct (waiting_step _ _ _ _ H12 Hin Hns Hexp ltac:(lia)) as [Hin2 Hns2]. by apply IH. }
  split; [done|]. pose proof (ai_stopped _ _ Hinv') as Hstop. rewrite Hns' in Hstop. destruct Hstop as [_ Hnum].
  rewrite Hthrew in Hnum. by apply ended_num_spec.
Qed.

(** ** Tasks that throw *)

Lemma all_ended_step s s' : all_ended s → asio_step s s' → all_ended s' ∧ as_started s' = as_started s.
Proof.
  unfold all_ended. intros Hall [k Hk|w tp t Ha|c1 a c2 c a' _|c1 a c2 c h _|c1 a c2 _|i s2 Hs|e Hs|e Hs|i x y Hi Hs|i x y Hi Hs]; try done.
  - unfold give. by destruct (as_stopped _).
  - destruct Hs as [id old Hi|id h p1 p2 Hi|id h Hi|h Hi|Hi]; by eapply Forall_lookup in Hall; [|exact Hi].
  - apply Asio_Start_ok in Hs as [_ ->]. done.
  - apply Asio_Shutdown_ok in Hs as (_ & H1 & _). cbn. by rewrite H1.
Qed.

(** A task that throws ends the thread that runs it, and nothing starts it
    again: when as many tasks have thrown as the executor has threads, it
    never runs a task again, though it accepts them until it is shut down. *)
Theorem throwing_tasks_end_the_executor name o k0 strands k s s' :
  asio_reachable name o k0 strands k s → length (as_threw s) = Z.to_nat (ao_thread_num o) → rtc asio_step s s' →
  all_ended s' ∧ as_started s' = as_started s.
Proof.
  intros Hr%asio_reachable_inv Hthrew Hs.
  assert (all_ended s) as Hall.
  { apply ended_num_spec. pose proof (proj1 (ended_num_spec s)). pose proof (ai_threw _ _ Hr). pose proof (ai_threads _ _ Hr). lia. }
  clear Hr Hthrew. revert Hall. induction Hs as [|s1 s2 s3 H12 _ IH]; [done|]. intros Hall.
  destruct (all_ended_step _ _ Hall H12) as [Hall2 <-]. by apply IH.
Qed.
End AsioExecutor.

(** ** The interface of executors *)

Section Pool.
Context {Task Q node : Type} `{BoundedQueue Task Q} `{YamlOps node}.
(** The time at which the executor of a name is initialized. *)
Context (init_time : string → Clocks).

Inductive PoolExecutor :=
| PAsio (e : @AsioThreadExecutor Task)
| PStrand (e : AsioStrandExecutor)
| PTbb (e : @TBBThreadExecutor Task Q).

(* @src src/src/runtime/core/executor/asio_strand_executor.h:42-47 AsioStrandExecutor::Type, Name, ThreadSafe, SupportTimerSchedule *)
#[export] Instance pool_base : ExecutorBase node PoolExecutor := {
  eb_Initialize name o e := match e with
    | PAsio a => under PAsio (Asio_Initialize (init_time name) name o) a
    | PStrand a => under PStrand (Strand_Initialize (init_time name) name o) a
    | PTbb a => under PTbb (Tbb_Initialize name o) a
    end;
  eb_Start now e := match e with
    | PAsio a => under PAsio Asio_Start a
    | PStrand a => under PStrand Strand_Start a
    | PTbb a => under PTbb Tbb_Start a
    end;
  eb_Shutdown e := match e with
    | PAsio a => under PAsio Asio_Shutdown a
    | PStrand a => under PStrand Strand_Shutdown a
    | PTbb a => under PTbb (modify Tbb_Shutdown) a
    end;
  eb_Report e := [];
  eb_Type e := match e with PAsio _ => "asio_thread" | PStrand _ => "asio_strand" | PTbb _ => "tbb_thread" end;
  eb_Name e := match e with PAsio a => ax_name a | PStrand a => sx_name a | PTbb a => te_name a end;
  eb_ThreadSafe e := match e with PAsio a => Asio_ThreadSafe a | PStrand _ => true | PTbb a => Tbb_ThreadSafe a end;
  eb_SupportTimerSchedule e := match e with PTbb _ => false | _ => true end
}.

(** What the manager makes them with. *)
Definition pool_asio : PoolExecutor := PAsio AsioThreadExecutor_new.
Definition pool_tbb : PoolExecutor := PTbb TBBThreadExecutor_new.
(* @src src/src/runtime/core/executor/executor_manager.cc:178-199 ExecutorManager::RegisterAsioExecutorGenFunc (asio_strand) *)
Definition pool_strand (get : string → option PoolExecutor) : PoolExecutor :=
  PStrand (RegisterGetAsioHandle (λ name, match get name with Some (PAsio _) => true | _ => false end) AsioStrandExecutor_new).2.

Lemma check_run {S A} (c : bool) what (f : unit → M S A) s a s' :
  (check_throw c what ≫= f) s = (Ok a, s') → c = true ∧ f tt s = (Ok a, s').
Proof. by destruct c. Qed.

Lemma Asio_Initialize_name k name (o : option node) (e e' : @AsioThreadExecutor Task) :
  Asio_Initialize k name o e = (Ok tt, e') → ax_name e' = name.
Proof.
  unfold Asio_Initialize. rewrite get_bind. intros Hrun. run_step Hrun E1. injection E1 as <- <-.
  apply check_run in Hrun as [_ Hrun]. run_step Hrun E2. injection E2 as <- <-. run_step Hrun E3. injection E3 as E3 <-.
  run_step Hrun E4. injection E4 as <- <-. apply check_run in Hrun as [_ Hrun]. by injection Hrun as <-.
Qed.

Lemma Strand_Initialize_name k name (o : option node) e e' :
  Strand_Initialize k name o e = (Ok tt, e') → sx_name e' = name.
Proof.
  unfold Strand_Initialize. rewrite get_bind. destruct (sx_get_asio_handle e); [|done]. intros Hrun.
  run_step Hrun E1. injection E1 as <- <-.
  apply check_run in Hrun as [_ Hrun]. run_step Hrun E2. injection E2 as <- <-. run_step Hrun E3. injection E3 as E3 <-.
  run_step Hrun E4. injection E4 as <- <-. apply check_run in Hrun as [_ Hrun]. apply check_run in Hrun as [_ Hrun].
  by injection Hrun as <-.
Qed.

#[export] Instance pool_laws : ExecutorLaws node PoolExecutor.
Proof.
  split.
  - intros name o [a|a|a]; unfold eb_Initialize; cbn; unfold under;
      [by destruct (Asio_Initialize _ _ _ a)|by destruct (Strand_Initialize _ _ _ a)|by destruct (Tbb_Initialize _ _ a)].
  - intros name o [a|a|a] e' Hrun; apply under_ok in Hrun as (a' & Hrun & ->).
    + by eapply Asio_Initialize_name.
    + by eapply Strand_Initialize_name.
    + exact (eb_Initialize_name (node := node) (E := @TBBThreadExecutor Task Q) name o a a' Hrun).
  - intros now [a|a|a]; cbn; unfold under, Asio_Start, Strand_Start, Tbb_Start; unfold_monad; by destruct (state_eqb _ _).
Qed.
End Pool.

(** ** At a concrete input *)

Module AsioDemo.
Definition k0 : Clocks := mkClocks 1000 50.
Definition o1 : AsioOptions := mkAsioOptions 1 "" [] 1000000000 false 1000.
Definition strand1 : AsioStrandExecutor :=
  mkStrand "strand" (mkStrandOptions "pool" 1000000000 true 1000) kShutdown (mkExClock true 1000 50) (Some (λ _, true)) (Some "pool").
Definition e1 ids ths : @AsioThreadExecutor nat := mkAsio "pool" o1 kInit (mkExClock false 1000 50) true ids ths.

(** The task 5 was asked for at 1020: 20 after the start, and 70 on the steady
    clock. *)
Definition timed : Handler nat := mkHandler None (Some (mkExClock false 1000 50, 1020)) (OnSteady 70) 5%nat.
Definition given : System :=
  mkSystem (e1 [Some 7] [AIdle]) [strand1] k0 [] [timed] false [timed] [] [] [] [].
Definition k1 : Clocks := mkClocks 0 70.
Definition started : System :=
  mkSystem (e1 [Some 7] [ARun timed]) [strand1] k1 [] [] false [timed] [] [(timed, k1)] [] [].
Definition thrown : System :=
  mkSystem (e1 [None] [AEnd]) [strand1] k1 [] [] false [timed] [] [(timed, k1)] [timed] [timed].

Lemma given_reachable : asio_reachable "pool" o1 k0 [strand1] k0 given.
Proof.
  unfold asio_reachable.
  eapply rtc_l; [eapply as_thread; by apply (athread_begin 0%nat _ 7 None)|].
  eapply rtc_l; [apply (as_enter _ None (Some 1020) 5%nat); done|].
  eapply rtc_l; [apply (as_on _ [] (ACall None (Some 1020) 5%nat) [] (mkExClock false 1000 50) (ARead None 1020 5%nat 1000)); done|].
  eapply rtc_l; [apply (as_give _ [] (ARead None 1020 5%nat 1000) [] (mkExClock false 1000 50) timed); done|]. apply rtc_refl.
Qed.

Lemma given_started : rtc asio_step given started.
Proof.
  eapply rtc_l; [apply (as_clock _ k1); cbn; lia|].
  eapply rtc_l; [eapply as_thread; apply (athread_start 0%nat _ (Some 7) timed [] []); done|]. apply rtc_refl.
Qed.

Lemma started_reachable : asio_reachable "pool" o1 k0 [strand1] k0 started.
Proof. unfold asio_reachable. transitivity given; [exact given_reachable|exact given_started]. Qed.

Lemma thrown_reachable : asio_reachable "pool" o1 k0 [strand1] k0 thrown.
Proof.
  eapply rtc_r; [exact started_reachable|]. eapply as_thread. by apply (athread_throw 0%nat started timed).
Qed.

(** Another task is accepted, and not run. *)
Definition untimed : Handler nat := mkHandler None None Posted 6%nat.
Definition stuck : System :=
  mkSystem (e1 [None] [AEnd]) [strand1] k1 [] [untimed] false [timed; untimed] [] [(timed, k1)] [timed] [timed].
Lemma thrown_stuck : rtc asio_step thrown stuck.
Proof.
  eapply rtc_l; [apply (as_enter _ None None 6%nat); done|].
  eapply rtc_l; [apply (as_give _ [] (ACall None None 6%nat) [] (mkExClock false 1000 50) untimed); done|]. apply rtc_refl.
Qed.

(** Shut down with the timer waiting; and what is left at the end. *)
Definition e2 ids ths : @AsioThreadExecutor nat := mkAsio "pool" o1 kShutdown (mkExClock false 1000 50) false ids ths.
Definition drained : System :=
  mkSystem (e2 [None] [AEnd]) [strand1] k1 [] [] true [timed] [] [(timed, k1)] [timed] [].
Lemma shut_drained : rtc asio_step (as_set_ex (e2 [Some 7] [AIdle]) given) drained.
Proof.
  eapply rtc_l; [apply (as_clock _ k1); cbn; lia|].
  eapply rtc_l; [eapply as_thread; apply (athread_start 0%nat _ (Some 7) timed [] []); done|].
  eapply rtc_l; [eapply as_thread; by apply (athread_return 0%nat _ (Some 7) timed)|].
  eapply rtc_l; [eapply as_thread; apply (athread_leave 0%nat); [done|by right]|]. apply rtc_refl.
Qed.
End AsioDemo.
Import AsioDemo.

Lemma asio_executor_safe_witness :
  1020 ≤ Asio_Now (mkExClock false 1000 50) k1 ∧ ∃ id, Asio_IsInCurrentExecutor id (as_ex started) = true.
Proof.
  destruct (asio_executor_safe "pool" o1 k0 [strand1] k0 started started_reachable) as (_ & H2 & H3).
  split; [exact (H2 timed k1 (mkExClock false 1000 50) 1020 ltac:(left) eq_refl)|].
  destruct (H3 0%nat timed eq_refl) as (id & _ & Hid). exists id. exact Hid.
Defined.

Lemma asio_shutdown_drains_witness : as_done drained ≡ₚ as_given given.
Proof.
  exact (asio_shutdown_drains "pool" o1 k0 [strand1] k0 given (e2 [Some 7] [AIdle]) drained ltac:(zdec) given_reachable eq_refl
    ltac:(by repeat constructor) eq_refl eq_refl shut_drained ltac:(by repeat constructor) eq_refl).
Defined.

Lemma asio_shutdown_waits_for_timers_witness : timed ∈ as_pending given ∧ AEnd ∉ ax_threads (as_ex given).
Proof.
  exact (asio_shutdown_waits_for_timers "pool" o1 k0 [strand1] k0 given given timed 70 given_reachable eq_refl ltac:(left)
    eq_refl (rtc_refl _ _) ltac:(zdec) eq_refl).
Defined.

Lemma throwing_tasks_end_the_executor_witness : accepts None thrown = true ∧ stuck ≠ thrown ∧ as_started stuck = [(timed, k1)].
Proof.
  split; [reflexivity|]. split; [discriminate|].
  exact (proj2 (throwing_tasks_end_the_executor "pool" o1 k0 [strand1] k0 thrown stuck thrown_reachable eq_refl thrown_stuck)).
Defined.
