(* ===== verification/LogFormatter.v ===== *)
(** * Formatting of log records: [src/runtime/core/logger/formatter.h],
    [log_level_tool.h] and [log_data_wrapper.h]

    A pattern such as ["[%c.%f][%l]%v"] is cut into handlers, closures in the
    source and values of [FormatItem] here; formatting runs them in order.
    [localtime_r] is a parameter, the separator of folders is that of Linux.

    Theorems: the loop over the positions of a pattern finds the pieces of a
    recursive definition; any text can be printed by doubling its percent
    signs; levels are read back from their names, in either case. *)

From S2P Require Import Prelude StringUtil Decimal TimeUtil.

(** ** Levels *)

Inductive log_level :=
| AIMRT_LOG_LEVEL_TRACE | AIMRT_LOG_LEVEL_DEBUG | AIMRT_LOG_LEVEL_INFO | AIMRT_LOG_LEVEL_WARN
| AIMRT_LOG_LEVEL_ERROR | AIMRT_LOG_LEVEL_FATAL | AIMRT_LOG_LEVEL_OFF.

#[export] Instance log_level_eq_dec : EqDecision log_level.
Proof. solve_decision. Defined.

Definition level_number (l : log_level) : nat :=
  match l with
  | AIMRT_LOG_LEVEL_TRACE => 0 | AIMRT_LOG_LEVEL_DEBUG => 1 | AIMRT_LOG_LEVEL_INFO => 2
  | AIMRT_LOG_LEVEL_WARN => 3 | AIMRT_LOG_LEVEL_ERROR => 4 | AIMRT_LOG_LEVEL_FATAL => 5
  | AIMRT_LOG_LEVEL_OFF => 6
  end.

Definition all_levels : list log_level :=
  [AIMRT_LOG_LEVEL_TRACE; AIMRT_LOG_LEVEL_DEBUG; AIMRT_LOG_LEVEL_INFO; AIMRT_LOG_LEVEL_WARN;
   AIMRT_LOG_LEVEL_ERROR; AIMRT_LOG_LEVEL_FATAL; AIMRT_LOG_LEVEL_OFF].

(* @src src/src/runtime/core/logger/log_level_tool.h:15-17 LogLevelTool::GetLogLevelName *)
Definition GetLogLevelName (l : log_level) : bytes :=
  lit match l with
      | AIMRT_LOG_LEVEL_TRACE => "Trace" | AIMRT_LOG_LEVEL_DEBUG => "Debug" | AIMRT_LOG_LEVEL_INFO => "Info"
      | AIMRT_LOG_LEVEL_WARN => "Warn" | AIMRT_LOG_LEVEL_ERROR => "Error" | AIMRT_LOG_LEVEL_FATAL => "Fatal"
      | AIMRT_LOG_LEVEL_OFF => "Off"
      end.

(** [strncasecmp] of two texts of one length. *)
Definition same_ignoring_case (s s' : bytes) : bool := bool_decide (map CharToLower s = map CharToLower s').

Fixpoint find_level (name : bytes) (levels : list log_level) : log_level :=
  match levels with
  | [] => AIMRT_LOG_LEVEL_OFF
  | l :: levels' =>
      if negb (length name =? length (GetLogLevelName l)) then find_level name levels'
      else if same_ignoring_case name (GetLogLevelName l) then l else find_level name levels'
  end.

(* @src src/src/runtime/core/logger/log_level_tool.h:19-33 LogLevelTool::GetLogLevelFromName *)
Definition GetLogLevelFromName (lvl_name : bytes) : log_level := find_level lvl_name all_levels.

(** ** Records *)

(* @src src/src/runtime/core/logger/log_data_wrapper.h:13-23 LogDataWrapper *)
Record LogDataWrapper := mkLogData {
  ld_module_name : bytes;
  ld_thread_id : Z;
  ld_t : Z;
  ld_lvl : log_level;
  ld_line : Z;
  ld_file_name : bytes;
  ld_function_name : bytes;
  ld_log_data : bytes
}.

(** ** Handlers *)

Inductive FormatItem :=
| Text (text : bytes)
| FormatTime | FormatYear | FormatMonth | FormatDay | FormatHour | FormatMinute | FormatSecond
| FormatDate | FormatClock | FormatMicroseconds | FormatWeekday | FormatWeekdayShort
| FormatLevel | FormatThreadId | FormatModule | FormatFileShort | FormatFile | FormatLine
| FormatFunction | FormatMessage
| PushChar (c : ascii).

(** [strrchr(s, '/')]: what is after the last separator. *)
Fixpoint after_last (sep : ascii) (s : bytes) : option bytes :=
  match s with
  | [] => None
  | c :: s' =>
      match after_last sep s' with
      | Some r => Some r
      | None => if Ascii.eqb c sep then Some s' else None
      end
  end.

Section Handlers.
Context (localtime : Z → tm).

(** [system_clock::to_time_t] *)
Definition to_time_t (t : Z) : Z := (t ÷ ns_per_sec)%Z.

(* @src src/src/runtime/core/logger/formatter.h:162-276 LogFormatter::FormatTime *)
Definition run_item (data : LogDataWrapper) (i : FormatItem) : res bytes :=
  let t := to_time_t (ld_t data) in
  match i with
  | Text text => Ok text
  | FormatTime => Ok (GetTimeStr localtime t)
  | FormatYear => Ok (GetYearStr localtime t)
  | FormatMonth => Ok (GetMonthStr localtime t)
  | FormatDay => Ok (GetDayStr localtime t)
  | FormatHour => Ok (GetHourStr localtime t)
  | FormatMinute => Ok (GetMinuteStr localtime t)
  | FormatSecond => Ok (GetSecondStr localtime t)
  | FormatDate => Ok (GetDateStr localtime t)
  | FormatClock => Ok (GetClockStr localtime t)
  | FormatMicroseconds => Ok (take 6 (zero_pad 6 (GetTimestampUs (ld_t data) mod 1000000)))
  | FormatWeekday => GetWeekDayStr localtime t
  | FormatWeekdayShort => GetWeekDayStrShort localtime t
  | FormatLevel => Ok (GetLogLevelName (ld_lvl data))
  | FormatThreadId => Ok (lit (to_string (ld_thread_id data)))
  | FormatModule => Ok (ld_module_name data)
  | FormatFileShort => Ok (default (ld_file_name data) (after_last "/" (ld_file_name data)))
  | FormatFile => Ok (ld_file_name data)
  | FormatLine => Ok (lit (to_string (ld_line data)))
  | FormatFunction => Ok (ld_function_name data)
  | FormatMessage => Ok (ld_log_data data)
  | PushChar c => Ok [c]
  end.

(* @src src/src/runtime/core/logger/formatter.h:279-282 LogFormatter *)
Record LogFormatter := mkFormatter { format_handlers : list FormatItem; estimated_size : Z }.

Definition LogFormatter_new : LogFormatter := mkFormatter [] 0.

(** The handlers append to one buffer. *)
Fixpoint run_items (data : LogDataWrapper) (items : list FormatItem) : res bytes :=
  match items with
  | [] => Ok []
  | i :: items' => s ← run_item data i; s' ← run_items data items'; Ok (s ++ s')
  end.

(* @src src/src/runtime/core/logger/formatter.h:20-27 LogFormatter::Format *)
Definition Format (f : LogFormatter) (data : LogDataWrapper) : res bytes := run_items data (format_handlers f).
End Handlers.

(** With days of the week in range, as those of [localtime_r] are, every record
    can be formatted. *)
Lemma table_at_ok (table : list string) (i : Z) :
  (0 ≤ i < Z.of_nat (length table))%Z → ∃ s, table_at table i = Ok s.
Proof.
  intros Hi. unfold table_at. rewrite (proj2 (Z.leb_le _ _)) by lia.
  destruct (lookup_lt_is_Some_2 table (Z.to_nat i)) as [s ->]; [lia|]. by eexists.
Qed.

Lemma Format_ok (localtime : Z → tm) (f : LogFormatter) (data : LogDataWrapper) :
  (∀ t, (0 ≤ tm_wday (localtime t) < 7)%Z) → ∃ line, Format localtime f data = Ok line.
Proof.
  intros Hday. unfold Format. induction (format_handlers f) as [|i items [s IH]]; cbn; [by eexists|].
  assert (∃ x, run_item localtime data i = Ok x) as [x ->].
  { destruct i; cbn; try (by eexists); apply table_at_ok, Hday. }
  cbn. rewrite IH. by eexists.
Qed.

(** ** Patterns *)

(** The handler of a character after a percent sign. *)
(* @src src/src/runtime/core/logger/formatter.h:53-139 LogFormatter::SetPattern (specifiers) *)
Definition specifier (c : ascii) : FormatItem :=
  match c with
  | "c" => FormatTime | "Y" => FormatYear | "m" => FormatMonth | "d" => FormatDay
  | "H" => FormatHour | "M" => FormatMinute | "S" => FormatSecond | "D" => FormatDate
  | "T" => FormatClock | "f" => FormatMicroseconds | "A" => FormatWeekday | "a" => FormatWeekdayShort
  | "l" => FormatLevel | "t" => FormatThreadId | "n" => FormatModule | "G" => FormatFileShort
  | "g" => FormatFile | "R" => FormatLine | "F" => FormatFunction | "v" => FormatMessage
  | _ => PushChar c
  end%char.

(** How much a handler adds to the estimate. *)
Definition estimate (i : FormatItem) : Z :=
  match i with
  | Text text => Z.of_nat (length text)
  | FormatTime => 19 | FormatYear => 4 | FormatMonth => 2 | FormatDay => 2 | FormatHour => 2
  | FormatMinute => 2 | FormatSecond => 2 | FormatDate => 10 | FormatClock => 8 | FormatMicroseconds => 6
  | FormatWeekday => 9 | FormatWeekdayShort => 3 | FormatLevel => 5 | FormatThreadId => 10
  | FormatModule => 32 | FormatFileShort => 32 | FormatFile => 256 | FormatLine => 8 | FormatFunction => 32
  | FormatMessage => 0 | PushChar _ => 0
  end.

Definition is_percent (pattern : bytes) (pos : nat) : bool := bool_decide (pattern !! pos = Some "%"%char).

Definition emplace_text (text : bytes) (items : list FormatItem) : list FormatItem :=
  match text with [] => items | _ => items ++ [Text text] end.

(** The [while] loop: the handlers, and where the last text begins.  Each round
    moves on, so there are at most as many as the pattern is long. *)
(* @src src/src/runtime/core/logger/formatter.h:35-145 LogFormatter::SetPattern (loop) *)
Fixpoint pattern_loop (fuel : nat) (pattern : bytes) (pos last_text_pos : nat) (items : list FormatItem)
    : option (list FormatItem * nat) :=
  if pos <? length pattern then
    match fuel with
    | O => None
    | S fuel =>
        match pattern !! (pos + 1) with
        | Some c =>
            if is_percent pattern pos then
              let items :=
                if (0 <? pos) && negb (is_percent pattern (pos - 1))
                then emplace_text (take (pos - last_text_pos) (drop last_text_pos pattern)) items
                else items in
              pattern_loop fuel pattern (pos + 2) (pos + 2) (items ++ [specifier c])
            else pattern_loop fuel pattern (pos + 1) last_text_pos items
        | None => pattern_loop fuel pattern (pos + 1) last_text_pos items
        end
    end
  else Some (items, last_text_pos).

(* @src src/src/runtime/core/logger/formatter.h:29-159 LogFormatter::SetPattern *)
Definition SetPattern (pattern : bytes) : M LogFormatter unit :=
  check_throw (negb (bool_decide (pattern = []))) "Invalid argument: Logger's pattern cannot be empty";;
  match pattern_loop (length pattern) pattern 0 0 [] with
  | None => undef
  | Some (items, last_text_pos) =>
      let items := if last_text_pos <? length pattern then items ++ [Text (drop last_text_pos pattern)] else items in
      modify (λ f, mkFormatter items (wrap64 (estimated_size f + foldr Z.add 0%Z (map estimate items))))
  end.

(** * Theorems *)

(** Names of levels.  A level is read back from its name, whatever the case
    of its letters; a name that is no level's means that nothing is logged. *)
Theorem level_names_roundtrip l name :
  (map CharToLower name = map CharToLower (GetLogLevelName l) → GetLogLevelFromName name = l) ∧
  ((∀ l', map CharToLower name ≠ map CharToLower (GetLogLevelName l')) →
   GetLogLevelFromName name = AIMRT_LOG_LEVEL_OFF).
Proof.
  split.
  - intros Hn. assert (length name = length (GetLogLevelName l)) as Hlen.
    { rewrite <-(length_map CharToLower name), Hn. apply length_map. }
    unfold GetLogLevelFromName, all_levels, find_level, same_ignoring_case. rewrite Hn, Hlen.
    destruct l; vm_compute; reflexivity.
  - intros Hn. unfold GetLogLevelFromName. induction all_levels as [|l' ls IH]; [done|]. cbn.
    destruct (negb _); [done|]. unfold same_ignoring_case. by rewrite bool_decide_eq_false_2 by apply Hn.
Qed.

(** What a pattern means: texts between specifiers; a percent sign at the end
    is text. *)
Fixpoint parse (pattern text : bytes) : list FormatItem :=
  match pattern with
  | [] => emplace_text text []
  | c :: pattern' =>
      match pattern' with
      | s :: pattern'' =>
          if Ascii.eqb c "%" then emplace_text text [] ++ specifier s :: parse pattern'' []
          else parse pattern' (text ++ [c])
      | [] => emplace_text (text ++ [c]) []
      end
  end.

Lemma emplace_text_app text items : emplace_text text items = items ++ emplace_text text [].
Proof. destruct text; cbn; [by rewrite app_nil_r|done]. Qed.

Lemma is_percent_spec pattern pos c : pattern !! pos = Some c → is_percent pattern pos = Ascii.eqb c "%".
Proof.
  intros Hc. unfold is_percent. rewrite Hc. destruct (Ascii.eqb_spec c "%") as [->|Hne].
  - by apply bool_decide_eq_true_2.
  - apply bool_decide_eq_false_2. congruence.
Qed.

Lemma last_text pattern last items :
  last ≤ length pattern →
  (if last <? length pattern then items ++ [Text (drop last pattern)] else items) =
  items ++ parse (drop (length pattern) pattern) (take (length pattern - last) (drop last pattern)).
Proof.
  intros Hle. rewrite (drop_ge pattern (length pattern)) by lia. cbn [parse].
  rewrite (take_ge (drop last pattern)) by (rewrite length_drop; lia).
  pose proof (length_drop pattern last) as Hd. destruct (Nat.ltb_spec last (length pattern)).
  - destruct (drop last pattern); cbn in *; [lia|done].
  - destruct (drop last pattern); cbn in *; [by rewrite app_nil_r|lia].
Qed.

(** The test of the character before is redundant: a text never ends in a
    percent sign that something follows. *)
Lemma pattern_loop_parse pattern : ∀ fuel pos last items,
  length pattern - pos ≤ fuel → last ≤ pos → pos ≤ length pattern →
  (∀ j, last ≤ j → j < pos → j + 1 < length pattern → is_percent pattern j = false) →
  ∃ items' last', pattern_loop fuel pattern pos last items = Some (items', last') ∧
    (if last' <? length pattern then items' ++ [Text (drop last' pattern)] else items') =
    items ++ parse (drop pos pattern) (take (pos - last) (drop last pattern)).
Proof.
  intros fuel. induction fuel as [|fuel IH]; intros pos last items Hfuel Hle Hlen Htext; cbn [pattern_loop];
    (destruct (Nat.ltb_spec pos (length pattern)) as [Hpos|Hpos];
     [|assert (pos = length pattern) as -> by lia; exists items, last; split; [done|by apply last_text]]); [lia|].
  destruct (lookup_lt_is_Some_2 pattern pos Hpos) as [c Hc].
  rewrite (drop_S pattern c pos Hc). set (text := take (pos - last) (drop last pattern)).
  assert (take (pos + 1 - last) (drop last pattern) = text ++ [c]) as Htake.
  { replace (pos + 1 - last) with (S (pos - last)) by lia. apply take_S_r. rewrite lookup_drop.
    by replace (last + (pos - last)) with pos by lia. }
  destruct (pattern !! (pos + 1)) as [s|] eqn:Hs.
  - pose proof (lookup_lt_Some _ _ _ Hs) as Hpos'. rewrite (is_percent_spec pattern pos c Hc).
    replace (pos + 1) with (S pos) in Hs by lia. rewrite (drop_S pattern s (S pos) Hs). cbn [parse].
    destruct (Ascii.eqb c "%") eqn:Hpc.
    + destruct (IH (pos + 2) (pos + 2)
        ((if (0 <? pos) && negb (is_percent pattern (pos - 1)) then emplace_text text items else items) ++ [specifier s]))
        as (items' & last' & Hrun & Hres); try lia.
      exists items', last'. split; [exact Hrun|]. rewrite Hres. replace (pos + 2) with (S (S pos)) by lia.
      rewrite Nat.sub_diag. cbn [take]. rewrite <-app_assoc. cbn [app]. rewrite (app_assoc items).
      f_equal. rewrite <-emplace_text_app.
      destruct ((0 <? pos) && negb (is_percent pattern (pos - 1))) eqn:Hprev; [done|].
      assert (text = []) as ->; [|done].
      unfold text. destruct (decide (last = pos)) as [->|]; [by rewrite Nat.sub_diag|].
      rewrite (Htext (pos - 1)) in Hprev by lia. by rewrite (proj2 (Nat.ltb_lt 0 pos)) in Hprev by lia.
    + destruct (IH (pos + 1) last items) as (items' & last' & Hrun & Hres); try lia.
      { intros j Hj1 Hj2 Hj3. destruct (decide (j = pos)) as [->|]; [|apply Htext; lia].
        by rewrite (is_percent_spec pattern pos c Hc). }
      exists items', last'. split; [exact Hrun|]. rewrite Hres, Htake. replace (pos + 1) with (S pos) by lia.
      by rewrite (drop_S pattern s (S pos) Hs).
  - apply lookup_ge_None_1 in Hs. rewrite (drop_ge pattern (S pos)) by lia. cbn [parse].
    destruct (IH (pos + 1) last items) as (items' & last' & Hrun & Hres); try lia.
    { intros j Hj1 Hj2 Hj3. apply Htext; lia. }
    exists items', last'. split; [exact Hrun|]. rewrite Hres, Htake. by rewrite (drop_ge pattern (pos + 1)) by lia.
Qed.

Lemma SetPattern_eq pattern f :
  pattern ≠ [] →
  SetPattern pattern f = (Ok tt, mkFormatter (parse pattern [])
    (wrap64 (estimated_size f + foldr Z.add 0%Z (map estimate (parse pattern []))))).
Proof.
  intros Hne. unfold SetPattern. unfold_monad. rewrite bool_decide_eq_false_2 by done. cbn [negb]. unfold_monad.
  destruct (pattern_loop_parse pattern (length pattern) 0 0 []) as (items & last & -> & Hres); try lia.
  rewrite Hres. done.
Qed.

(** Patterns.  The loop of [SetPattern] over positions ends and finds the
    handlers that the recursive definition [parse] gives, whatever the pattern;
    an empty pattern is refused, and the handlers there are stay. *)
Theorem SetPattern_parses pattern f :
  SetPattern pattern f =
    match pattern with
    | [] => (Throw (AimRTException "Invalid argument: Logger's pattern cannot be empty"), f)
    | _ => (Ok tt, mkFormatter (parse pattern [])
             (wrap64 (estimated_size f + foldr Z.add 0%Z (map estimate (parse pattern [])))))
    end.
Proof. destruct pattern; [done|]. by apply SetPattern_eq. Qed.

(** Double the percent signs. *)
Fixpoint escape (s : bytes) : bytes :=
  match s with
  | [] => []
  | c :: s' => (if Ascii.eqb c "%" then ["%"%char; "%"%char] else [c]) ++ escape s'
  end.

Lemma run_items_app localtime data items items' :
  run_items localtime data (items ++ items') =
  (s ← run_items localtime data items; s' ← run_items localtime data items'; Ok (s ++ s')).
Proof.
  induction items as [|i items IH]; cbn; [by destruct (run_items _ _ items')|].
  rewrite IH. destruct (run_item _ _ i); cbn; [|done..].
  destruct (run_items _ _ items); cbn; [|done..]. destruct (run_items _ _ items'); cbn; [|done..]. by rewrite app_assoc.
Qed.

Lemma run_emplace_text localtime data text : run_items localtime data (emplace_text text []) = Ok text.
Proof. destruct text; cbn; [done|]. by rewrite app_nil_r. Qed.

Lemma run_parse_escape localtime data s : ∀ text,
  run_items localtime data (parse (escape s) text) = Ok (text ++ s).
Proof.
  induction s as [|c s IH]; intros text; cbn [escape]; [cbn [parse]; by rewrite run_emplace_text, app_nil_r|].
  destruct (Ascii.eqb_spec c "%") as [->|Hne].
  - cbn [app parse]. change (Ascii.eqb "%" "%") with true. cbv iota.
    rewrite run_items_app, run_emplace_text. cbn. by rewrite IH.
  - cbn [app parse]. destruct (escape s) as [|c' s'] eqn:Hes.
    + destruct s as [|c'' s]; [by rewrite run_emplace_text|]. cbn in Hes. by destruct (Ascii.eqb c'' "%").
    + rewrite (proj2 (Ascii.eqb_neq c "%")) by done. rewrite IH, <-app_assoc. done.
Qed.

(** Literal text.  Every text, percent signs, specifier letters and all, is
    printed as it is when its percent signs are doubled. *)
Theorem escaped_text_is_printed localtime data s f :
  s ≠ [] → ∃ f', SetPattern (escape s) f = (Ok tt, f') ∧ Format localtime f' data = Ok s.
Proof.
  intros Hs. rewrite SetPattern_eq.
  - eexists. split; [reflexivity|]. apply (run_parse_escape localtime data s []).
  - destruct s as [|c s]; [done|]. cbn. by destruct (Ascii.eqb c "%").
Qed.

(** ** A record, formatted: the pattern and the record of the unit test *)

Module FormatterDemo.
Definition october (t : Z) : tm := mkTm 10 10 10 1 9 124 2.
Definition record : LogDataWrapper :=
  mkLogData (lit "test_module") 1234 1727777410012345000 AIMRT_LOG_LEVEL_INFO 20 (lit "XX/YY/ZZ/test_file.cpp")
    (lit "test_function") (lit "test log message").
Definition formatted (pattern : string) : res string :=
  str <$> Format october (SetPattern (lit pattern) LogFormatter_new).2 record.
End FormatterDemo.

Example default_pattern :
  FormatterDemo.formatted "[%c.%f][%l][%t][%n][%g:%R @%F]%v" =
  Ok "[2024-10-01 10:10:10.012345][Info][1234][test_module][XX/YY/ZZ/test_file.cpp:20 @test_function]test log message".
Proof. vm_compute. reflexivity. Qed.

Example custom_pattern :
  FormatterDemo.formatted "%%123456%%%q!@#$%^&*()+-*/12345678%%" = Ok "%123456%q!@#$^&*()+-*/12345678%".
Proof. vm_compute. reflexivity. Qed.

Lemma level_names_roundtrip_witness :
  GetLogLevelFromName (lit "wArN") = AIMRT_LOG_LEVEL_WARN ∧
  map CharToLower (lit "wArN") = map CharToLower (GetLogLevelName AIMRT_LOG_LEVEL_WARN).
Proof.
  assert (map CharToLower (lit "wArN") = map CharToLower (GetLogLevelName AIMRT_LOG_LEVEL_WARN)) as H
    by (vm_compute; reflexivity).
  split; [exact (proj1 (level_names_roundtrip AIMRT_LOG_LEVEL_WARN (lit "wArN")) H)|exact H].
Defined.

Lemma escaped_text_is_printed_witness :
  ∃ f', SetPattern (lit "100%% of %%v") LogFormatter_new = (Ok tt, f') ∧
    Format FormatterDemo.october f' FormatterDemo.record = Ok (lit "100% of %v").
Proof. apply (escaped_text_is_printed FormatterDemo.october FormatterDemo.record (lit "100% of %v")). discriminate. Defined.
