(* ===== verification/LogFilter.v ===== *)
(** * Filtering of log records by module

    The console and the file backend each keep the answers of their filter, a
    regular expression on the names of modules; [std::regex_match] is a
    parameter.  An expression that throws lets nothing pass.  What passes is
    formatted; what cannot be formatted is dropped, with a message. *)

From S2P Require Import Prelude LogFormatter TimeUtil.

Section LogFilter.
Context (regex_match : string → string → res bool).

(** Whether a filter lets a module pass. *)
Definition passes (filter module_name : string) : bool :=
  match regex_match filter module_name with Ok b => b | _ => false end.

(** The answers that are kept. *)
Definition check_log (filter module_name : string) : M (gmap string bool) bool :=
  cache ← get;
  match cache !! module_name with
  | Some if_log => mret if_log
  | None => put (<[module_name := passes filter module_name]> cache);; mret (passes filter module_name)
  end.

(** They are those of the filter. *)
Definition filter_cached (filter : string) (cache : gmap string bool) : Prop :=
  ∀ m b, cache !! m = Some b → b = passes filter m.

Lemma filter_cached_empty (filter : string) : filter_cached filter ∅.
Proof. intros m b. by rewrite lookup_empty. Qed.

Lemma check_log_run (filter m : string) (cache : gmap string bool) :
  filter_cached filter cache →
  ∃ cache', check_log filter m cache = (Ok (passes filter m), cache') ∧ filter_cached filter cache'.
Proof.
  intros Hs. unfold check_log. unfold_monad. destruct (cache !! m) as [b|] eqn:Hm.
  - exists cache. split; [by rewrite (Hs m b Hm)|done].
  - exists (<[m := passes filter m]> cache). split; [done|].
    intros m' b. destruct (decide (m' = m)) as [->|Hne].
    + rewrite lookup_insert_eq. by intros [= <-].
    + rewrite lookup_insert_ne by done. apply Hs.
Qed.

(** The lines a backend hands to its executor for a record: one or none. *)
Definition lines_of (localtime : Z → tm) (running : bool) (filter : string) (f : LogFormatter) (data : LogDataWrapper)
    : list bytes :=
  if running && passes filter (str (ld_module_name data)) then
    match Format localtime f data with Ok line => [line] | _ => [] end
  else [].
End LogFilter.
