(* ===== verification/RotateFile.v ===== *)
(** * Log files: [src/runtime/core/logger/rotate_file_logger_backend.*]

    The backend appends log records to a file; when it has grown past a limit
    the file is renamed to [base_index] or [base_index_date_clock], perhaps
    compressed, and a new one is begun; of the old files only the youngest are
    kept.

    The directory is a map from the paths its iterator yields to contents;
    opening a file may fail, the other operations on it are taken to succeed.
    The order of the iterator, the compression libraries, the local time and
    which executors there are, are parameters.  A record is written by a task
    of the guard executor: tasks wait in [ro_pending], in order.  [ofs_] and
    [file_], of which [enable_sync] decides which is used, are one field: the
    position of the open stream.  The options written back to the
    configuration node are not modelled.

    Theorems: the names of old files are read back; a rename never overwrites a
    file; writing refines a log of chunks, from which only whole oldest chunks
    are dropped; limits of 4 GiB and more wrap around; which modules are logged;
    destroying a backend that has never written. *)

From stdpp Require Import sorting.
From S2P Require Import Prelude Yaml StringUtil Decimal TimeUtil LogFormatter LogFilter Filters.

Inductive CompressionMode := kNone | kGzip | kZstd.
Inductive CompressionLevel := kFast | kDefault | kSlow.

#[export] Instance CompressionMode_eq_dec : EqDecision CompressionMode.
Proof. solve_decision. Defined.

(** ** Options *)

(* @src src/src/runtime/core/logger/rotate_file_logger_backend.h:32-45 RotateFileLoggerBackend::Options *)
Record RotateOptions := mkRotateOptions {
  op_path : string;
  op_filename : string;
  max_file_size_m : Z;
  max_file_num : Z;
  op_module_filter : string;
  op_pattern : string;
  enable_sync : bool;
  sync_interval_ms : Z;
  sync_executor_name : string;
  suffix_with_timestamp : bool;
  op_compression_mode : string;
  op_compression_level : string
}.

Definition rotate_default : RotateOptions :=
  mkRotateOptions "./log" "aimrt.log" 16 100 "(.*)" "" false 30000 "" true "none" "default".

(* @src src/src/runtime/core/logger/rotate_file_logger_backend.cc:40-67 convert<RotateFileLoggerBackend::Options>::decode *)
Definition rotate_decode `{YamlOps node} (n : node) (rhs : RotateOptions) : res (option RotateOptions) :=
  if negb (IsMap n) then Ok None
  else
    path ← set_if n "path" as_string (op_path rhs);
    filename ← set_if n "filename" as_string (op_filename rhs);
    size ← set_if n "max_file_size_m" as_uint32 (max_file_size_m rhs);
    num ← set_if n "max_file_num" as_uint32 (max_file_num rhs);
    filter ← set_if n "module_filter" as_string (op_module_filter rhs);
    pattern ← set_if n "pattern" as_string (op_pattern rhs);
    interval ← set_if n "sync_interval_ms" as_uint32 (sync_interval_ms rhs);
    executor ← set_if n "sync_executor_name" as_string (sync_executor_name rhs);
    sync ← set_if n "enable_sync" as_bool (enable_sync rhs);
    suffix ← set_if n "suffix_with_timestamp" as_bool (suffix_with_timestamp rhs);
    mode ← set_if n "compression_mode" as_string (op_compression_mode rhs);
    level ← set_if n "compression_level" as_string (op_compression_level rhs);
    Ok (Some (mkRotateOptions path filename size num filter pattern sync interval executor suffix mode level)).

(** [options_.max_file_size_m * 1024 * 1024], in 32 bits. *)
Definition size_limit (o : RotateOptions) : Z := wrap32 (wrap32 (max_file_size_m o * 1024) * 1024).

(** ** Names of files *)

Definition kGzipFileExtension : bytes := lit ".gz".
Definition kZstdFileExtension : bytes := lit ".zst".

(* @src src/src/runtime/core/logger/rotate_file_logger_backend.cc:83-85 GetCompressedFileExtension *)
Definition GetCompressedFileExtension (mode : CompressionMode) : bytes :=
  match mode with kGzip => kGzipFileExtension | _ => kZstdFileExtension end.

(* @src src/src/runtime/core/logger/rotate_file_logger_backend.cc:90-99 GetGzipLevel *)
Definition GetGzipLevel (level : CompressionLevel) : Z :=
  match level with kFast => 1 | kSlow => 9 | kDefault => 6 end.

Definition starts_with (s prefix : bytes) : bool := bool_decide (take (length prefix) s = prefix).
Definition ends_with (s suffix : bytes) : bool :=
  (length suffix <=? length s) && bool_decide (drop (length s - length suffix) s = suffix).

(** [s.substr(0, s.find(c))], and [s] if [c] does not occur. *)
Fixpoint before_char (c : ascii) (s : bytes) : bytes :=
  match s with
  | [] => []
  | c' :: s' => if Ascii.eqb c' c then [] else c' :: before_char c s'
  end.

(** Compressed files only add an extension to their name. *)
Definition remove_extension (file_name : bytes) : bytes :=
  if ends_with file_name kGzipFileExtension then take (length file_name - length kGzipFileExtension) file_name
  else if ends_with file_name kZstdFileExtension then take (length file_name - length kZstdFileExtension) file_name
  else file_name.

(* @src src/src/runtime/core/logger/rotate_file_logger_backend.cc:115-139 ParseRotatedFileIndex *)
Definition ParseRotatedFileIndex (file_name base_file_name : bytes) : option Z :=
  if length file_name <=? length base_file_name + 1 then None
  else if negb (starts_with file_name base_file_name) then None
  else if negb (bool_decide (file_name !! length base_file_name = Some "_"%char)) then None
  else
    let file_name := remove_extension file_name in
    let suffix := before_char "_" (drop (length base_file_name + 1) file_name) in
    if negb (IsDigitStr suffix) then None
    else fst <$> from_chars_u32 suffix.

(** [log_path / filename] *)
Definition path_join (p f : bytes) : bytes :=
  match f with
  | "/"%char :: _ => f
  | _ => match last p with
         | None => f
         | Some "/"%char => p ++ f
         | _ => p ++ lit "/" ++ f
         end
  end.

(** ** The backend *)

Section RotateFile.
Abbreviation FS := (gmap bytes bytes).
(** The order in which the iterator yields the paths of a directory. *)
Context (dir_order : FS → list bytes).
(** Whether a file can be opened for appending; the compression libraries,
    which may fail, with [ZSTD_CLEVEL_DEFAULT]. *)
Context (can_open : bytes → bool).
Context (gzip zstd : Z → bytes → option bytes) (zstd_level_default : Z).
(** [localtime_r], and [std::regex_match] of the filter and a module. *)
Context (localtime : Z → tm) (regex_match : string → string → res bool).
(** [get_executor_func_], which may not be set: whether there is an executor of
    that name, and whether it supports timers. *)
Context (get_executor_func : option (string → option bool)).

(** The timer: not made, made, cancelled. *)
Inductive SyncTimer := NoTimer | Ticking | Cancelled.

(* @src src/src/runtime/core/logger/rotate_file_logger_backend.h:85-107 RotateFileLoggerBackend *)
Record RotateFile := mkRotate {
  ro_options : RotateOptions;
  compression_mode : CompressionMode;
  compression_level : CompressionLevel;
  base_file_name : bytes;
  ro_stream : option Z;
  ro_run_flag : bool;
  ro_module_filter_map : gmap string bool;
  ro_formatter : LogFormatter;
  ro_pattern : bytes;
  sync_timer : SyncTimer;
  ro_pending : list bytes
}.

Definition RotateFile_new : RotateFile :=
  mkRotate rotate_default kNone kDefault [] None false ∅ LogFormatter_new (lit "[%c.%f][%l][%t][%n][%g:%R @%F]%v")
    NoTimer [].

Definition set_ro_stream x (s : RotateFile) : RotateFile :=
  mkRotate (ro_options s) (compression_mode s) (compression_level s) (base_file_name s) x (ro_run_flag s)
    (ro_module_filter_map s) (ro_formatter s) (ro_pattern s) (sync_timer s) (ro_pending s).
Definition set_ro_module_filter_map x (s : RotateFile) : RotateFile :=
  mkRotate (ro_options s) (compression_mode s) (compression_level s) (base_file_name s) (ro_stream s) (ro_run_flag s)
    x (ro_formatter s) (ro_pattern s) (sync_timer s) (ro_pending s).
Definition set_ro_pending x (s : RotateFile) : RotateFile :=
  mkRotate (ro_options s) (compression_mode s) (compression_level s) (base_file_name s) (ro_stream s) (ro_run_flag s)
    (ro_module_filter_map s) (ro_formatter s) (ro_pattern s) (sync_timer s) x.

(* @src src/src/runtime/core/logger/rotate_file_logger_backend.cc:102-111 GetZstdLevel *)
Definition GetZstdLevel (level : CompressionLevel) : Z :=
  match level with kFast => 1 | kSlow => 19 | kDefault => zstd_level_default end.

(** Calls on the backend and the directory. *)
Abbreviation Sys := (RotateFile * FS)%type.
Definition on_ro {A} (m : M RotateFile A) : M Sys A := zoom fst (λ c y, (c, y.2)) m.
Definition on_fs {A} (m : M FS A) : M Sys A := zoom snd (λ s y, (y.1, s)) m.

(** The indices of old files, with their paths, as the iterator yields them. *)
Definition rotated_files (base : bytes) (fs : FS) : list (Z * bytes) :=
  omap (λ path, (λ idx, (idx, path)) <$> ParseRotatedFileIndex path base) (dir_order fs).

(* @src src/src/runtime/core/logger/rotate_file_logger_backend.cc:485-502 RotateFileLoggerBackend::GetNextIndex *)
Definition GetNextIndex (base : bytes) (fs : FS) : Z :=
  fold_left (λ idx f, if (idx <=? f.1)%Z then wrap32 (f.1 + 1) else idx) (rotated_files base fs) 1%Z.

(** [std::map::emplace]: in ascending order, the first of an index stays. *)
Fixpoint emplace_index (f : Z * bytes) (files : list (Z * bytes)) : list (Z * bytes) :=
  match files with
  | [] => [f]
  | g :: files' =>
      if (f.1 <? g.1)%Z then f :: files
      else if (g.1 <? f.1)%Z then g :: emplace_index f files'
      else files
  end.

(* @src src/src/runtime/core/logger/rotate_file_logger_backend.cc:458-483 RotateFileLoggerBackend::CleanLogFile *)
Definition CleanLogFile (max_num : Z) (base : bytes) (fs : FS) : FS :=
  if (max_num =? 0)%Z then fs
  else
    let log_files := fold_left (λ files f, emplace_index f files) (rotated_files base fs) [] in
    if (Z.of_nat (length log_files) <=? max_num)%Z then fs
    else
      let del_num := wrap32 (Z.of_nat (length log_files) - max_num) in
      fold_left (λ fs f, delete f.2 fs) (take (Z.to_nat del_num) log_files) fs.

(** The compressed file, or [None] when it cannot be made. *)
(* @src src/src/runtime/core/logger/rotate_file_logger_backend.cc:342-346 RotateFileLoggerBackend::CompressFile (library) *)
Definition compress_content (mode : CompressionMode) (level : CompressionLevel) (content : bytes) : option bytes :=
  match mode with
  | kGzip => gzip (GetGzipLevel level) content
  | _ => zstd (GetZstdLevel level) content
  end.

(** On failure the incomplete file is removed and the original is kept. *)
(* @src src/src/runtime/core/logger/rotate_file_logger_backend.cc:338-364 RotateFileLoggerBackend::CompressFile *)
Definition CompressFile (mode : CompressionMode) (level : CompressionLevel) (src : bytes) (fs : FS) : FS :=
  let dst := src ++ GetCompressedFileExtension mode in
  match fs !! src ≫= compress_content mode level with
  | Some content => delete src (<[dst := content]> fs)
  | None => delete dst fs
  end.

(** What [snprintf] writes for the time: sixteen characters. *)
Definition time_suffix (t : tm) : bytes :=
  snprintf 17 (lit "_" ++ d4 (tm_year t + 1900) ++ d2 (tm_mon t + 1) ++ d2 (tm_mday t) ++
               lit "_" ++ d2 (tm_hour t) ++ d2 (tm_min t) ++ d2 (tm_sec t)).

Definition rotated_name (s : RotateFile) (now : Z) (idx : Z) : bytes :=
  base_file_name s ++ lit "_" ++ lit (to_string idx) ++
    (if suffix_with_timestamp (ro_options s) then take 16 (time_suffix (localtime now)) else []).

(** The base file is there: [OpenNewFile] has tested that.  A file of the new
    name would be overwritten. *)
(* @src src/src/runtime/core/logger/rotate_file_logger_backend.cc:317-336 RotateFileLoggerBackend::Rename *)
Definition Rename (now : Z) (s : RotateFile) (fs : FS) : FS :=
  let name := rotated_name s now (GetNextIndex (base_file_name s) fs) in
  match fs !! base_file_name s with
  | None => fs
  | Some content =>
      let fs := <[name := content]> (delete (base_file_name s) fs) in
      match compression_mode s with
      | kNone => fs
      | mode => CompressFile mode (compression_level s) name fs
      end
  end.

(** Where the open stream is; [OpenNewFile] first moves a [FILE] to its end. *)
Definition stream_position (s : RotateFile) (fs : FS) (pos : Z) : Z :=
  if enable_sync (ro_options s) then Z.of_nat (length (default [] (fs !! base_file_name s))) else pos.

(* @src src/src/runtime/core/logger/rotate_file_logger_backend.cc:264-315 RotateFileLoggerBackend::OpenNewFile *)
Definition OpenNewFile (now : Z) : M Sys bool :=
  s ← on_ro get;
  fs ← on_fs get;
  let rename_flag := match ro_stream s with
                     | Some pos => (size_limit (ro_options s) <? stream_position s fs pos)%Z
                     | None => false
                     end in
  on_ro (modify (set_ro_stream None));;
  (if rename_flag && bool_decide (is_Some (fs !! base_file_name s))
   then on_fs (modify (Rename now s)) else mret tt);;
  if negb (can_open (base_file_name s)) then mret false
  else
    on_fs (modify (λ fs, <[base_file_name s := default [] (fs !! base_file_name s)]> fs));;
    on_ro (modify (set_ro_stream (Some 0%Z)));;
    on_fs (modify (CleanLogFile (max_file_num (ro_options s)) (base_file_name s)));;
    mret true.

(** The task of [Log]: a line is appended, after which the position is the end. *)
(* @src src/src/runtime/core/logger/rotate_file_logger_backend.cc:237-258 RotateFileLoggerBackend::Log (log_work) *)
Definition log_work (now : Z) (log_data_str : bytes) : M Sys unit :=
  s ← on_ro get;
  let fits := match ro_stream s with
              | Some pos => negb (size_limit (ro_options s) <? pos)%Z
              | None => false
              end in
  opened ← (if fits then mret true else OpenNewFile now);
  if negb opened then mret tt
  else
    on_fs (modify (λ fs, <[base_file_name s := default [] (fs !! base_file_name s) ++ log_data_str ++ ["010"%char]]> fs));;
    fs ← on_fs get;
    on_ro (modify (set_ro_stream (Some (Z.of_nat (length (default [] (fs !! base_file_name s))))))).

(** A regular expression that throws lets nothing pass. *)
(* @src src/src/runtime/core/logger/rotate_file_logger_backend.cc:504-531 RotateFileLoggerBackend::CheckLog *)
Definition CheckLog (module_name : string) : M RotateFile bool :=
  s ← get;
  zoom ro_module_filter_map set_ro_module_filter_map (check_log regex_match (op_module_filter (ro_options s)) module_name).

(* @src src/src/runtime/core/logger/rotate_file_logger_backend.cc:227-262 RotateFileLoggerBackend::Log *)
Definition rotate_Log (data : LogDataWrapper) : M RotateFile unit :=
  s ← get;
  if negb (ro_run_flag s) then mret tt
  else
    if_log ← CheckLog (str (ld_module_name data));
    if negb if_log then mret tt
    else
      try_catch
        (log_data_str ← lift (Format localtime (ro_formatter s) data);
         modify (λ s, set_ro_pending (ro_pending s ++ [log_data_str]) s))
        (λ _, mret tt).

(** The guard executor runs the first task. *)
Definition run_pending (now : Z) : M Sys unit :=
  s ← on_ro get;
  match ro_pending s with
  | [] => mret tt
  | w :: ws => on_ro (modify (set_ro_pending ws));; log_work now w
  end.

(** The task of the timer: [fsync] of a null [FILE] has no defined meaning. *)
(* @src src/src/runtime/core/logger/rotate_file_logger_backend.cc:208-216 RotateFileLoggerBackend::Initialize (sync_work) *)
Definition sync_work : M Sys unit :=
  s ← on_ro get;
  match ro_stream s with
  | Some _ => mret tt
  | None => undef
  end.

Definition find_executor (name : string) : M RotateFile (option bool) :=
  match get_executor_func with
  | Some f => mret (f name)
  | None => bad_function_call
  end.

Definition compression_mode_of (name : string) : option CompressionMode :=
  assoc name [("none", kNone); ("gzip", kGzip); ("zstd", kZstd)].
Definition compression_level_of (name : string) : option CompressionLevel :=
  assoc name [("fast", kFast); ("default", kDefault); ("slow", kSlow)].

(* @src src/src/runtime/core/logger/rotate_file_logger_backend.cc:157-225 RotateFileLoggerBackend::Initialize *)
Definition rotate_Initialize `{YamlOps node} (options_node : option node) : M RotateFile unit :=
  s ← get;
  o ← lift (read_options rotate_decode rotate_default options_node);
  let o := default (ro_options s) o in
  put (mkRotate o (compression_mode s) (compression_level s) (path_join (lit (op_path o)) (lit (op_filename o)))
         (ro_stream s) (ro_run_flag s) (ro_module_filter_map s) (ro_formatter s) (ro_pattern s) (sync_timer s)
         (ro_pending s));;
  executor ← find_executor "";
  check_throw (bool_decide (is_Some executor)) "Guard_thread_executor is invalid.";;
  s ← get;
  let pattern := if String.eqb (op_pattern o) "" then ro_pattern s else lit (op_pattern o) in
  let '(r, f) := SetPattern pattern (ro_formatter s) in
  put (mkRotate o (compression_mode s) (compression_level s) (base_file_name s) (ro_stream s) (ro_run_flag s)
         (ro_module_filter_map s) f pattern (sync_timer s) (ro_pending s));;
  lift r;;
  mode ← match compression_mode_of (op_compression_mode o) with
         | Some m => mret m
         | None => throw (AimRTException "Invalid compression mode: {}, optional values are none/gzip/zstd.")
         end;
  level ← match compression_level_of (op_compression_level o) with
          | Some l => mret l
          | None => throw (AimRTException "Invalid compression level: {}, optional values are fast/default/slow.")
          end;
  modify (λ s, mkRotate o mode level (base_file_name s) (ro_stream s) (ro_run_flag s) (ro_module_filter_map s)
                 (ro_formatter s) (ro_pattern s) (sync_timer s) (ro_pending s));;
  (if enable_sync o then
     check_throw (negb (String.eqb (sync_executor_name o) "")) "Sync executor name is empty.";;
     executor ← find_executor (sync_executor_name o);
     match executor with
     | None => throw (AimRTException "Invalid sync executor name: {}")
     | Some support => check_throw support "Sync executor {} must support timer schedule."
     end;;
     modify (λ s, mkRotate o (compression_mode s) (compression_level s) (base_file_name s) (ro_stream s) (ro_run_flag s)
                    (ro_module_filter_map s) (ro_formatter s) (ro_pattern s) Ticking (ro_pending s))
   else mret tt);;
  modify (λ s, mkRotate o (compression_mode s) (compression_level s) (base_file_name s) (ro_stream s) true
                 (ro_module_filter_map s) (ro_formatter s) (ro_pattern s) (sync_timer s) (ro_pending s)).

(* @src src/src/runtime/core/logger/rotate_file_logger_backend.h:55-61 RotateFileLoggerBackend::Shutdown *)
Definition rotate_Shutdown : M RotateFile unit :=
  modify (λ s, mkRotate (ro_options s) (compression_mode s) (compression_level s) (base_file_name s) (ro_stream s) false
                 (ro_module_filter_map s) (ro_formatter s) (ro_pattern s)
                 (match sync_timer s with Ticking => Cancelled | t => t end) (ro_pending s)).

(** [fclose] of a null [FILE] has no defined meaning. *)
(* @src src/src/runtime/core/logger/rotate_file_logger_backend.cc:143-155 RotateFileLoggerBackend::~RotateFileLoggerBackend *)
Definition rotate_destroy : M RotateFile unit :=
  s ← get;
  if enable_sync (ro_options s) then
    match ro_stream s with
    | Some _ => put (set_ro_stream None s)
    | None => undef
    end
  else put (set_ro_stream None s).
End RotateFile.

(** * Names *)

Section Names.
Implicit Types s base : bytes.

Lemma drop_app_len {A} (l k : list A) n : n = length l → drop n (l ++ k) = k.
Proof. intros ->. apply drop_app_length. Qed.

Lemma ends_with_app s suffix : ends_with (s ++ suffix) suffix = true.
Proof.
  unfold ends_with. rewrite length_app. apply andb_true_intro. split; [apply Nat.leb_le; lia|].
  apply bool_decide_eq_true. apply drop_app_len. lia.
Qed.

Lemma ends_with_last s suffix c : last suffix = Some c → ends_with s suffix = true → last s = Some c.
Proof.
  intros Hc [Hlen Hd]%andb_prop. apply bool_decide_eq_true in Hd.
  rewrite <-(take_drop (length s - length suffix) s), Hd, last_app, Hc. done.
Qed.

Lemma remove_gz s : remove_extension (s ++ kGzipFileExtension) = s.
Proof. unfold remove_extension. rewrite ends_with_app, length_app. apply take_app_length'. lia. Qed.

Lemma remove_zst s : remove_extension (s ++ kZstdFileExtension) = s.
Proof.
  unfold remove_extension. destruct (ends_with (s ++ _) kGzipFileExtension) eqn:Hgz.
  - apply (ends_with_last _ _ "z"%char) in Hgz; [|done]. by rewrite last_app in Hgz.
  - rewrite ends_with_app, length_app. apply take_app_length'. lia.
Qed.

Lemma no_extension s c :
  last s = Some c → isdigit c = true →
  ends_with s kGzipFileExtension = false ∧ ends_with s kZstdFileExtension = false.
Proof.
  intros Hl Hc. split; apply not_true_iff_false; intros He.
  - apply (ends_with_last _ _ "z"%char) in He; [|done]. rewrite Hl in He. by injection He as ->.
  - apply (ends_with_last _ _ "t"%char) in He; [|done]. rewrite Hl in He. by injection He as ->.
Qed.

Lemma before_char_all c s : c ∉ s → before_char c s = s.
Proof.
  induction s as [|c' s IH]; [done|]. intros [Hne Hs]%not_elem_of_cons. cbn.
  rewrite (proj2 (Ascii.eqb_neq c' c)) by done. by rewrite IH.
Qed.
Lemma before_char_app c s r : c ∉ s → before_char c (s ++ c :: r) = s.
Proof.
  induction s as [|c' s IH]; cbn; [by rewrite Ascii.eqb_refl|]. intros [Hne Hs]%not_elem_of_cons.
  rewrite (proj2 (Ascii.eqb_neq c' c)) by done. by rewrite IH.
Qed.

Lemma digits_no_char (c : ascii) s : isdigit c = false → forallb isdigit s = true → c ∉ s.
Proof.
  intros Hc Hs Hin%list_elem_of_In. apply (proj1 (forallb_forall _ _) Hs) in Hin. congruence.
Qed.

Lemma to_string_forall z : forallb isdigit (lit (to_string z)) = true ∧ lit (to_string z) ≠ [].
Proof.
  pose proof (to_string_digits z) as H. unfold IsDigitStr in H.
  destruct (lit (to_string z)); [done|]. by split.
Qed.

Lemma last_digit s : s ≠ [] → forallb isdigit s = true → ∃ c, last s = Some c ∧ isdigit c = true.
Proof.
  intros Hne Hs. destruct (last s) as [c|] eqn:Hl; [|by apply last_None in Hl].
  exists c. split; [done|]. apply last_Some in Hl as [l ->].
  rewrite forallb_app in Hs. apply andb_prop in Hs as [_ Hc]. cbn in Hc. by apply andb_prop in Hc as [Hc _].
Qed.

(** The part of a name after the index: nothing, or a time. *)
Definition stamp_ok (ts : bytes) : Prop :=
  ts = [] ∨ ∃ r c, ts = "_"%char :: r ∧ last ts = Some c ∧ isdigit c = true.

Lemma rotated_last base idx ts :
  stamp_ok ts → ∃ c, last (base ++ lit "_" ++ lit (to_string idx) ++ ts) = Some c ∧ isdigit c = true.
Proof.
  destruct (to_string_forall idx) as [Hd Hne].
  intros [->|(r & c & Hts & Hl & Hc)].
  - destruct (last_digit _ Hne Hd) as (c & Hl & Hc). exists c. by rewrite app_nil_r, !last_app, Hl.
  - exists c. by rewrite !last_app, Hl.
Qed.

Lemma parse_stripped base idx ts ext :
  (0 ≤ idx < 2 ^ 32)%Z → stamp_ok ts →
  remove_extension ((base ++ lit "_" ++ lit (to_string idx) ++ ts) ++ ext) = base ++ lit "_" ++ lit (to_string idx) ++ ts →
  ParseRotatedFileIndex ((base ++ lit "_" ++ lit (to_string idx) ++ ts) ++ ext) base = Some idx.
Proof.
  intros Hidx Hts Hrem. destruct (to_string_forall idx) as [Hd Hne]. set (name := base ++ _) in *.
  assert (length base + 1 < length name) as Hlen.
  { unfold name. rewrite !length_app. cbn. destruct (lit (to_string idx)); [done|]. cbn. lia. }
  unfold ParseRotatedFileIndex. rewrite length_app.
  destruct (Nat.leb_spec (length name + length ext) (length base + 1)); [lia|].
  assert (starts_with (name ++ ext) base = true) as ->.
  { apply bool_decide_eq_true. unfold name. rewrite <-app_assoc. apply take_app_length. }
  cbn [negb]. rewrite bool_decide_eq_true_2.
  2:{ unfold name. rewrite <-app_assoc, lookup_app_r, Nat.sub_diag by lia. done. }
  cbn [negb]. rewrite Hrem.
  assert (before_char "_" (drop (length base + 1) name) = lit (to_string idx)) as ->.
  { unfold name. rewrite app_assoc, drop_app_len by (rewrite length_app; cbn; lia).
    assert ("_"%char ∉ lit (to_string idx)) as Hno by (by apply digits_no_char).
    destruct Hts as [->|(r & c & -> & _)]; [rewrite app_nil_r; by apply before_char_all|by apply before_char_app]. }
  rewrite to_string_digits. cbn [negb]. rewrite <-(app_nil_r (lit (to_string idx))).
  by rewrite from_chars_to_string by done.
Qed.

Lemma parse_rotated base idx ts ext :
  (0 ≤ idx < 2 ^ 32)%Z → stamp_ok ts → ext ∈ [[]; kGzipFileExtension; kZstdFileExtension] →
  ParseRotatedFileIndex ((base ++ lit "_" ++ lit (to_string idx) ++ ts) ++ ext) base = Some idx.
Proof.
  intros Hidx Hts Hext. apply parse_stripped; [done..|].
  rewrite !elem_of_cons in Hext. destruct Hext as [->|[->|[->|[]%not_elem_of_nil]]].
  - rewrite app_nil_r. destruct (rotated_last base idx ts Hts) as (c & Hl & Hc).
    unfold remove_extension. by destruct (no_extension _ c Hl Hc) as [-> ->].
  - apply remove_gz.
  - apply remove_zst.
Qed.

Lemma parse_base base : ParseRotatedFileIndex base base = None.
Proof. unfold ParseRotatedFileIndex. by rewrite (proj2 (Nat.leb_le _ _)) by lia. Qed.

Lemma length_time_suffix t : length (time_suffix t) = 16.
Proof.
  unfold time_suffix. rewrite snprintf_fits; rewrite !length_app, !length_d2, length_d4; cbn; lia.
Qed.

Lemma pad_digits n z : forallb isdigit (zero_pad n z) = true.
Proof.
  unfold zero_pad. rewrite forallb_app. apply andb_true_intro. split; [|apply to_string_forall].
  apply forallb_forall. intros c Hc%repeat_spec. by subst.
Qed.

Lemma stamp_ok_time t : stamp_ok (take 16 (time_suffix t)).
Proof.
  rewrite take_ge by (rewrite length_time_suffix; lia). right. unfold time_suffix.
  rewrite snprintf_fits by (rewrite !length_app, !length_d2, length_d4; cbn; lia).
  destruct (last_digit (d2 (tm_sec t))) as (c & Hl & Hc).
  { intros He. pose proof (length_d2 (tm_sec t)) as H. by rewrite He in H. }
  { apply pad_digits. }
  eexists _, c. split; [reflexivity|]. split; [|done]. by rewrite !last_app, Hl.
Qed.
End Names.

Section RenameSpec.
Context (localtime : Z → tm).

Lemma parse_rotated_name s now idx ext :
  (0 ≤ idx < 2 ^ 32)%Z → ext ∈ [[]; kGzipFileExtension; kZstdFileExtension] →
  ParseRotatedFileIndex (rotated_name localtime s now idx ++ ext) (base_file_name s) = Some idx.
Proof.
  intros Hidx Hext. unfold rotated_name. apply parse_rotated; [done| |done].
  destruct (suffix_with_timestamp _); [apply stamp_ok_time|by left].
Qed.

(** Names of old files.  The index is read back from the name that an old
    file is given, with or without a time, compressed or not; the name of the
    file that is written to is not taken for that of an old one. *)
Theorem rotated_names_roundtrip s now idx ext :
  (0 ≤ idx < 2 ^ 32)%Z → ext ∈ [[]; kGzipFileExtension; kZstdFileExtension] →
  ParseRotatedFileIndex (rotated_name localtime s now idx ++ ext) (base_file_name s) = Some idx ∧
  ParseRotatedFileIndex (base_file_name s) (base_file_name s) = None.
Proof. intros Hidx Hext. split; [by apply parse_rotated_name|apply parse_base]. Qed.
End RenameSpec.

(** * Old files, in the order of their indices *)

Abbreviation FS := (gmap bytes bytes).

Definition index_lt (f g : Z * bytes) : Prop := (f.1 < g.1)%Z.

#[export] Instance index_lt_trans : Transitive index_lt.
Proof. intros f g h Hfg Hgh. unfold index_lt in *. lia. Qed.
#[export] Instance index_lt_antisymm : AntiSymm (=) index_lt.
Proof. intros f g Hfg Hgf. unfold index_lt in *. lia. Qed.

Lemma sorted_unique (es : list (Z * bytes)) f g :
  StronglySorted index_lt es → f ∈ es → g ∈ es → f.1 = g.1 → f = g.
Proof.
  induction 1 as [|e es Hs IH Hall]; [by intros ?%not_elem_of_nil|].
  rewrite Forall_forall in Hall.
  intros [->|Hf]%elem_of_cons [->|Hg]%elem_of_cons Heq; [done| | |by apply IH].
  - specialize (Hall g Hg). unfold index_lt in Hall. lia.
  - specialize (Hall f Hf). unfold index_lt in Hall. lia.
Qed.

Lemma sorted_NoDup (es : list (Z * bytes)) : StronglySorted index_lt es → NoDup es.
Proof.
  induction 1 as [|e es Hs IH Hall]; [apply NoDup_nil_2|]. apply NoDup_cons. split; [|done].
  rewrite Forall_forall in Hall. intros He%Hall. unfold index_lt in He. lia.
Qed.

(** Two sorted lists of the same files are one. *)
Lemma sorted_ext (es es' : list (Z * bytes)) :
  StronglySorted index_lt es → StronglySorted index_lt es' → (∀ f, f ∈ es ↔ f ∈ es') → es = es'.
Proof.
  intros Hs Hs' Hin. apply (StronglySorted_unique index_lt); [done..|].
  apply NoDup_Permutation; [by apply sorted_NoDup..|done].
Qed.

Lemma emplace_index_ok f (files : list (Z * bytes)) :
  StronglySorted index_lt files → (∀ g, g ∈ files → g.1 = f.1 → g = f) →
  StronglySorted index_lt (emplace_index f files) ∧ ∀ g, g ∈ emplace_index f files ↔ g = f ∨ g ∈ files.
Proof.
  induction 1 as [|e files Hs IH Hall]; intros Huniq; cbn.
  - split; [repeat constructor|]. intros g. rewrite elem_of_cons. tauto.
  - destruct (Z.ltb_spec f.1 e.1) as [Hlt|Hge].
    + split; [|intros g; by rewrite elem_of_cons]. constructor; [by constructor|].
      constructor; [done|]. eapply Forall_impl; [exact Hall|]. intros g Hg. unfold index_lt in *. lia.
    + destruct (Z.ltb_spec e.1 f.1) as [Hgt|Hle].
      * destruct IH as [IHs IHin]; [intros g Hg; apply Huniq; by right|]. split.
        -- constructor; [done|]. rewrite Forall_forall in Hall |- *. intros g [->|Hg]%IHin; [done|by apply Hall].
        -- intros g. rewrite !elem_of_cons, IHin. tauto.
      * assert (e = f) as -> by (apply Huniq; [by left|lia]). split; [by constructor|].
        intros g. rewrite elem_of_cons. tauto.
Qed.

Lemma emplace_all_ok (l files : list (Z * bytes)) :
  StronglySorted index_lt files → (∀ f g, f ∈ l ++ files → g ∈ l ++ files → f.1 = g.1 → f = g) →
  let files' := fold_left (λ files f, emplace_index f files) l files in
  StronglySorted index_lt files' ∧ ∀ g, g ∈ files' ↔ g ∈ l ++ files.
Proof.
  revert files. induction l as [|f l IH]; intros files Hs Huniq; [by split|]. cbn.
  destruct (emplace_index_ok f files Hs) as [Hs1 Hin1].
  { intros g Hg Heq. apply Huniq; [by apply elem_of_app; right|by left|done]. }
  destruct (IH (emplace_index f files) Hs1) as [Hs2 Hin2].
  { intros g h Hg Hh. rewrite elem_of_app, Hin1 in Hg, Hh. apply Huniq; rewrite elem_of_app, elem_of_cons; tauto. }
  split; [done|]. intros g. rewrite Hin2, elem_of_cons, !elem_of_app, Hin1. tauto.
Qed.

Lemma next_index_ok (fs : list (Z * bytes)) : ∀ idx,
  (∀ f, f ∈ fs → (0 ≤ f.1 < 2 ^ 32 - 1)%Z) →
  let next := fold_left (λ idx f, if (idx <=? f.1)%Z then wrap32 (f.1 + 1) else idx) fs idx in
  (idx ≤ next)%Z ∧ (∀ f, f ∈ fs → (f.1 < next)%Z) ∧ ∀ bound, (idx ≤ bound)%Z → (∀ f, f ∈ fs → (f.1 < bound)%Z) → (next ≤ bound)%Z.
Proof.
  induction fs as [|f fs IH]; intros idx Hfs; cbn.
  - split_and!; [lia| |lia]. by intros f ?%not_elem_of_nil.
  - set (idx' := if (idx <=? f.1)%Z then wrap32 (f.1 + 1) else idx).
    assert ((idx ≤ idx' ∧ f.1 < idx' ∧ (idx' = idx ∨ idx' = f.1 + 1))%Z) as (H1 & H2 & H3).
    { unfold idx'. specialize (Hfs f (list_elem_of_here _ _)). destruct (Z.leb_spec idx f.1); [|lia].
      rewrite wrap_small by (unfold in_width; lia). lia. }
    destruct (IH idx') as (H4 & H5 & H6); [intros g Hg; apply Hfs; by right|]. split_and!; [lia| |].
    + intros g [->|Hg]%elem_of_cons; [lia|by apply H5].
    + intros bound Hb Hall. apply H6; [|intros g Hg; apply Hall; by right].
      specialize (Hall f (list_elem_of_here _ _)). lia.
Qed.

(** * Refinement: a log of chunks *)

(** What the directory stands for: the texts of the old files, oldest first, and
    of the one that is written to. *)
Record RollingLog := mkRolling { chunks : list bytes; current : bytes }.

Definition rotate_log (r : RollingLog) : RollingLog := mkRolling (chunks r ++ [current r]) [].
Definition trim_log (max_num : Z) (r : RollingLog) : RollingLog :=
  if (max_num =? 0)%Z then r
  else mkRolling (drop (length (chunks r) - Z.to_nat max_num) (chunks r)) (current r).

(** A line is appended, after the file has been rotated and the log trimmed
    when the file is not open or has grown past the limit. *)
Definition append_line (o : RotateOptions) (opened : bool) (line : bytes) (r : RollingLog) : RollingLog :=
  let full := (size_limit o <? Z.of_nat (length (current r)))%Z in
  let r := if opened && negb full then r
           else trim_log (max_file_num o) (if opened then rotate_log r else r) in
  mkRolling (chunks r) (current r ++ line ++ ["010"%char]).

Definition log_text (r : RollingLog) : bytes := concat (chunks r) ++ current r.

Section Refinement.
Context (dir_order : FS → list bytes) (can_open : bytes → bool).
Context (gzip zstd : Z → bytes → option bytes) (zstd_level_default : Z) (gunzip unzstd : bytes → bytes).
Context (localtime : Z → tm).
Context (dir_order_perm : ∀ fs : FS, dir_order fs ≡ₚ (map_to_list fs).*1).
(** What is compressed can be read. *)
Context (gunzip_gzip : ∀ l s c, gzip l s = Some c → gunzip c = s).
Context (unzstd_zstd : ∀ l s c, zstd l s = Some c → unzstd c = s).

Definition read_file (path content : bytes) : bytes :=
  if ends_with path kGzipFileExtension then gunzip content
  else if ends_with path kZstdFileExtension then unzstd content else content.

(** The old files, sorted, with indices below [bound]. *)
Record old_files (base : bytes) (bound : Z) (fs : FS) (es : list (Z * bytes)) : Prop := {
  of_sorted : StronglySorted index_lt es;
  of_in i n : (i, n) ∈ es ↔ is_Some (fs !! n) ∧ ParseRotatedFileIndex n base = Some i;
  of_bound f : f ∈ es → (0 ≤ f.1 < bound)%Z
}.

Definition texts (fs : FS) (es : list (Z * bytes)) : list bytes :=
  map (λ f, read_file f.2 (default [] (fs !! f.2))) es.

Definition represents (base : bytes) (bound : Z) (fs : FS) (r : RollingLog) : Prop :=
  ∃ es, old_files base bound fs es ∧ chunks r = texts fs es ∧ current r = default [] (fs !! base).

Lemma elem_of_rotated_files (base : bytes) (fs : FS) (i : Z) (n : bytes) :
  (i, n) ∈ rotated_files dir_order base fs ↔ is_Some (fs !! n) ∧ ParseRotatedFileIndex n base = Some i.
Proof.
  unfold rotated_files. rewrite list_elem_of_omap.
  assert (∀ p, p ∈ dir_order fs ↔ is_Some (fs !! p)) as Hdir.
  { intros p. rewrite dir_order_perm, list_elem_of_fmap. split.
    - intros ([p' c] & -> & Hin%elem_of_map_to_list). by exists c.
    - intros [c Hc]. exists (p, c). by rewrite elem_of_map_to_list. }
  split.
  - intros (p & Hp & Hf). apply fmap_Some in Hf as (j & Hj & [= -> ->]). by rewrite <-Hdir.
  - intros [Hn%Hdir Hi]. exists n. by rewrite Hi.
Qed.

Lemma rotated_files_of (base : bytes) (bound : Z) (fs : FS) (es : list (Z * bytes)) (f : Z * bytes) :
  old_files base bound fs es → f ∈ rotated_files dir_order base fs ↔ f ∈ es.
Proof. destruct f as [i n]. intros Hof. by rewrite elem_of_rotated_files, (of_in _ _ _ _ Hof). Qed.

Lemma clean_files (base : bytes) (bound : Z) (fs : FS) (es : list (Z * bytes)) (max_num : Z) :
  old_files base bound fs es → (0 ≤ max_num < 2 ^ 32)%Z → (Z.of_nat (length es) < 2 ^ 32)%Z →
  let k := if (max_num =? 0)%Z then 0 else length es - Z.to_nat max_num in
  CleanLogFile dir_order max_num base fs = fold_left (λ fs f, delete f.2 fs) (take k es) fs.
Proof.
  intros Hof Hmax Hlen k. unfold CleanLogFile, k. destruct (Z.eqb_spec max_num 0); [done|].
  destruct (emplace_all_ok (rotated_files dir_order base fs) []) as [Hs Hin].
  { constructor. }
  { intros f g. rewrite app_nil_r, !(rotated_files_of base bound fs es) by done.
    apply sorted_unique. apply (of_sorted _ _ _ _ Hof). }
  rewrite (sorted_ext _ es Hs (of_sorted _ _ _ _ Hof)).
  2:{ intros f. rewrite Hin, app_nil_r. by apply (rotated_files_of base bound). }
  destruct (Z.leb_spec (Z.of_nat (length es)) max_num).
  - replace (length es - Z.to_nat max_num) with 0 by lia. done.
  - rewrite wrap_small by (unfold in_width; lia). do 2 f_equal. lia.
Qed.

Lemma delete_files_lookup (es : list (Z * bytes)) : ∀ (fs : FS) n,
  fold_left (λ fs f, delete f.2 fs) es fs !! n = if bool_decide (n ∈ map snd es) then None else fs !! n.
Proof.
  induction es as [|[i m] es IH]; intros fs n; cbn; [done|]. rewrite IH.
  destruct (decide (n = m)) as [->|Hne].
  - rewrite lookup_delete_eq, (bool_decide_eq_true_2 (m ∈ m :: _)) by apply list_elem_of_here. by case_bool_decide.
  - rewrite lookup_delete_ne by done. by rewrite (bool_decide_ext (n ∈ m :: map snd es) (n ∈ map snd es))
      by (rewrite elem_of_cons; tauto).
Qed.

Lemma sorted_length (es : list (Z * bytes)) (a b : Z) :
  StronglySorted index_lt es → (∀ f, f ∈ es → (a ≤ f.1 < b)%Z) → (a ≤ b)%Z → (Z.of_nat (length es) ≤ b - a)%Z.
Proof.
  intros Hs. revert a. induction Hs as [|e es Hs IH Hall]; intros a Hb Hab; cbn [length]; [lia|].
  pose proof (Hb e (list_elem_of_here _ _)) as He. rewrite Forall_forall in Hall.
  specialize (IH (e.1 + 1)%Z). assert (Z.of_nat (length es) ≤ b - (e.1 + 1))%Z; [|lia].
  apply IH; [|lia]. intros f Hf. pose proof (Hall f Hf) as Hlt. unfold index_lt in Hlt.
  specialize (Hb f (list_elem_of_further _ _ _ Hf)). lia.
Qed.

Lemma names_disjoint (base : bytes) (bound : Z) (fs : FS) (es : list (Z * bytes)) k f :
  old_files base bound fs es → f ∈ drop k es → f.2 ∉ map snd (take k es).
Proof.
  intros Hof Hf Hin. apply list_elem_of_fmap in Hin as (g & Heq & Hg).
  assert (f ∈ es) as Hfe by (rewrite <-(take_drop k es); apply elem_of_app; by right).
  assert (g ∈ es) as Hge by (rewrite <-(take_drop k es); apply elem_of_app; by left).
  destruct f as [i n], g as [j m]. cbn in Heq. subst m.
  apply (of_in _ _ _ _ Hof) in Hfe as [_ Hi]. apply (of_in _ _ _ _ Hof) in Hge as [_ Hj].
  rewrite Hi in Hj. injection Hj as <-.
  pose proof (sorted_NoDup es (of_sorted _ _ _ _ Hof)) as Hnd. rewrite <-(take_drop k es) in Hnd.
  apply NoDup_app in Hnd as (_ & Hdis & _). by apply (Hdis (i, n)).
Qed.

Lemma clean_represents (base : bytes) (bound max_num : Z) (fs : FS) r :
  represents base bound fs r → (0 ≤ bound < 2 ^ 32)%Z → (0 ≤ max_num < 2 ^ 32)%Z →
  represents base bound (CleanLogFile dir_order max_num base fs) (trim_log max_num r) ∧
  ∀ p, ParseRotatedFileIndex p base = None → CleanLogFile dir_order max_num base fs !! p = fs !! p.
Proof.
  intros (es & Hof & Hch & Hcur) Hb Hmax.
  assert (Z.of_nat (length es) < 2 ^ 32)%Z as Hlen.
  { pose proof (sorted_length es 0 bound (of_sorted _ _ _ _ Hof) (of_bound _ _ _ _ Hof)). lia. }
  pose proof (clean_files base bound fs es max_num Hof Hmax Hlen) as Hclean. cbn zeta in Hclean.
  set (k := if (max_num =? 0)%Z then 0 else length es - Z.to_nat max_num) in *. rewrite Hclean.
  assert (trim_log max_num r = mkRolling (drop k (chunks r)) (current r)) as ->.
  { unfold trim_log, k. assert (length (chunks r) = length es) as -> by (rewrite Hch; apply length_map).
    destruct (max_num =? 0)%Z; [by destruct r|done]. }
  assert (∀ p, ParseRotatedFileIndex p base = None → p ∉ map snd (take k es)) as Hother.
  { intros p Hp Hin. apply list_elem_of_fmap in Hin as ([i n] & -> & Hg).
    assert ((i, n) ∈ es) as Hge by (rewrite <-(take_drop k es); apply elem_of_app; by left).
    apply (of_in _ _ _ _ Hof) in Hge as [_ Hi]. cbn in Hp. congruence. }
  split.
  2:{ intros p Hp. rewrite delete_files_lookup, bool_decide_eq_false_2; [done|by apply Hother]. }
  exists (drop k es). split; [split|split].
  - pose proof (of_sorted _ _ _ _ Hof) as Hs. rewrite <-(take_drop k es) in Hs. by apply StronglySorted_app_1_r in Hs.
  - intros i n. rewrite delete_files_lookup. split.
    + intros Hin. rewrite bool_decide_eq_false_2 by by apply (names_disjoint base bound fs es k (i, n)).
      apply (of_in _ _ _ _ Hof). rewrite <-(take_drop k es). apply elem_of_app. by right.
    + case_bool_decide as Hn; [by intros [[? [=]] _]|]. intros Hin%(of_in _ _ _ _ Hof).
      rewrite <-(take_drop k es) in Hin. apply elem_of_app in Hin as [Hin|]; [|done].
      destruct Hn. apply list_elem_of_fmap. by exists (i, n).
  - intros f Hf. apply (of_bound _ _ _ _ Hof). rewrite <-(take_drop k es). apply elem_of_app. by right.
  - cbn [chunks]. rewrite Hch. unfold texts. rewrite <-!fmap_drop. apply map_ext_in. intros f Hf%list_elem_of_In.
    rewrite delete_files_lookup, bool_decide_eq_false_2; [done|]. by apply (names_disjoint base bound fs).
  - cbn [current]. rewrite delete_files_lookup, bool_decide_eq_false_2; [done|]. apply Hother, parse_base.
Qed.

Lemma represents_set_base (base : bytes) (bound : Z) (fs : FS) r x :
  represents base bound fs r → represents base bound (<[base := x]> fs) (mkRolling (chunks r) x).
Proof.
  intros (es & Hof & Hch & Hcur).
  assert (∀ i n, (i, n) ∈ es → n ≠ base) as Hne.
  { intros i n [_ Hi]%(of_in _ _ _ _ Hof) ->. by rewrite parse_base in Hi. }
  exists es. split; [split|split].
  - apply (of_sorted _ _ _ _ Hof).
  - intros i n. rewrite (of_in _ _ _ _ Hof). destruct (decide (n = base)) as [->|Hn].
    + rewrite parse_base. naive_solver.
    + by rewrite lookup_insert_ne.
  - apply (of_bound _ _ _ _ Hof).
  - cbn. rewrite Hch. apply map_ext_in. intros [i n] Hf%list_elem_of_In. cbn.
    by rewrite lookup_insert_ne by (intros <-; by apply (Hne i base)).
  - cbn. by rewrite lookup_insert_eq.
Qed.

Lemma represents_weaken (base : bytes) (bound bound' : Z) (fs : FS) r :
  (bound ≤ bound')%Z → represents base bound fs r → represents base bound' fs r.
Proof.
  intros Hle (es & [H1 H2 H3] & Hr). exists es. split; [|done]. split; [done..|].
  intros f Hf. specialize (H3 f Hf). lia.
Qed.

Abbreviation Rename := (Rename dir_order gzip zstd zstd_level_default localtime).
Abbreviation log_work := (log_work dir_order can_open gzip zstd zstd_level_default localtime).

Lemma rotated_name_ends (s : RotateFile) (now idx : Z) :
  ends_with (rotated_name localtime s now idx) kGzipFileExtension = false ∧
  ends_with (rotated_name localtime s now idx) kZstdFileExtension = false.
Proof.
  destruct (rotated_last (base_file_name s) idx
    (if suffix_with_timestamp (ro_options s) then take 16 (time_suffix (localtime now)) else [])) as (c & Hl & Hc).
  { destruct (suffix_with_timestamp _); [apply stamp_ok_time|by left]. }
  by apply (no_extension _ c).
Qed.

(** The next index is new: so is every name made of it. *)
Lemma next_index_new (s : RotateFile) (now bound : Z) (fs : FS) (es : list (Z * bytes)) (ext : bytes) :
  old_files (base_file_name s) bound fs es → (1 ≤ bound < 2 ^ 32)%Z →
  ext ∈ [[]; kGzipFileExtension; kZstdFileExtension] →
  let idx := GetNextIndex dir_order (base_file_name s) fs in
  (1 ≤ idx ≤ bound)%Z ∧ (∀ f, f ∈ es → (f.1 < idx)%Z) ∧ fs !! (rotated_name localtime s now idx ++ ext) = None.
Proof.
  intros Hof Hb Hext idx.
  destruct (next_index_ok (rotated_files dir_order (base_file_name s) fs) 1) as (H1 & H2 & H3).
  { intros f Hf%(rotated_files_of (base_file_name s) bound fs es f Hof). apply (of_bound _ _ _ _ Hof) in Hf. lia. }
  fold (GetNextIndex dir_order (base_file_name s) fs) in H1, H2, H3. fold idx in H1, H2, H3.
  assert (idx ≤ bound)%Z as Hle.
  { apply H3; [lia|]. intros f Hf%(rotated_files_of (base_file_name s) bound fs es f Hof).
    apply (of_bound _ _ _ _ Hof) in Hf. lia. }
  assert (∀ f, f ∈ es → (f.1 < idx)%Z) as Hlt by (intros f Hf%(rotated_files_of _ bound fs es f Hof); by apply H2).
  split; [lia|]. split; [done|].
  destruct (fs !! _) eqn:Hn; [|done]. exfalso.
  assert ((idx, rotated_name localtime s now idx ++ ext) ∈ es) as Hin.
  { apply (of_in _ _ _ _ Hof). split; [by rewrite Hn|]. apply parse_rotated_name; [lia|done]. }
  apply Hlt in Hin. cbn in Hin. lia.
Qed.

(** What a rename leaves in place of the file: one old file, new, that reads as
    the file did. *)
Lemma rename_final (s : RotateFile) (now bound : Z) (fs : FS) (es : list (Z * bytes)) (content : bytes) :
  old_files (base_file_name s) bound fs es → (1 ≤ bound < 2 ^ 32)%Z → fs !! base_file_name s = Some content →
  ∃ final c idx, Rename now s fs = <[final := c]> (delete (base_file_name s) fs) ∧ fs !! final = None ∧
    ParseRotatedFileIndex final (base_file_name s) = Some idx ∧ (1 ≤ idx ≤ bound)%Z ∧
    (∀ f, f ∈ es → (f.1 < idx)%Z) ∧ read_file final c = content.
Proof.
  intros Hof Hb Hc. set (idx := GetNextIndex dir_order (base_file_name s) fs).
  set (name := rotated_name localtime s now idx).
  assert (∀ ext, ext ∈ [[]; kGzipFileExtension; kZstdFileExtension] →
    ((1 ≤ idx ≤ bound)%Z ∧ (∀ f, f ∈ es → (f.1 < idx)%Z) ∧ fs !! (name ++ ext) = None) ∧
    ParseRotatedFileIndex (name ++ ext) (base_file_name s) = Some idx) as Hnew.
  { intros ext Hext. pose proof (next_index_new s now bound fs es ext Hof Hb Hext) as H. fold idx name in H.
    split; [exact H|]. destruct H as [Hr _]. apply parse_rotated_name; [lia|done]. }
  destruct (Hnew []) as [(Hidx & Hlt & Hfresh) Hparse]; [by left|]. rewrite app_nil_r in Hfresh, Hparse.
  destruct (rotated_name_ends s now idx) as [Hgz Hzst]. fold name in Hgz, Hzst.
  assert (∀ x, read_file name x = x) as Hplain by (intros x; unfold read_file; by rewrite Hgz, Hzst).
  unfold RotateFile.Rename. rewrite Hc. fold idx name.
  assert (∀ mode, mode ≠ kNone → ∃ final c,
    CompressFile gzip zstd zstd_level_default mode (compression_level s) name
      (<[name := content]> (delete (base_file_name s) fs)) = <[final := c]> (delete (base_file_name s) fs) ∧
    fs !! final = None ∧ ParseRotatedFileIndex final (base_file_name s) = Some idx ∧ read_file final c = content) as Hcompress.
  { intros mode Hmode. unfold CompressFile. rewrite lookup_insert_eq. cbn [mbind option_bind].
    set (dst := name ++ GetCompressedFileExtension mode).
    destruct (Hnew (GetCompressedFileExtension mode)) as [(_ & _ & Hdst) Hpdst].
    { destruct mode; [done|right; by left|right; right; by left]. }
    fold dst in Hdst, Hpdst.
    assert (dst ≠ name) as Hne.
    { unfold dst. intros He. apply (f_equal length) in He. rewrite length_app in He.
      destruct mode; [done|cbn in He; lia..]. }
    destruct (compress_content gzip zstd zstd_level_default mode (compression_level s) content) as [c|] eqn:Hcc.
    - exists dst, c. split; [|split_and!; [done..|]].
      + rewrite delete_insert_ne by done. f_equal. rewrite delete_insert_eq.
        apply delete_id. rewrite lookup_delete_None. by right.
      + unfold read_file, dst. destruct mode; [done| |].
        * cbn [GetCompressedFileExtension]. rewrite ends_with_app. by eapply gunzip_gzip.
        * cbn [GetCompressedFileExtension]. destruct (ends_with (name ++ kZstdFileExtension) kGzipFileExtension) eqn:He.
          { apply (ends_with_last _ _ "z"%char) in He; [|done]. by rewrite last_app in He. }
          rewrite ends_with_app. by eapply unzstd_zstd.
    - exists name, content. split; [|split_and!; [done..|apply Hplain]].
      apply delete_id. rewrite lookup_insert_ne by done. rewrite lookup_delete_None. by right. }
  destruct (compression_mode s) eqn:Hmode; [by exists name, content, idx|..].
  all: destruct (Hcompress (compression_mode s)) as (final & c & E1 & E2 & E3 & E4); [by rewrite Hmode|].
  all: rewrite Hmode in E1; by exists final, c, idx.
Qed.

Lemma rename_represents (s : RotateFile) (now bound : Z) (fs : FS) (r : RollingLog) :
  represents (base_file_name s) bound fs r → (1 ≤ bound < 2 ^ 32)%Z → is_Some (fs !! base_file_name s) →
  represents (base_file_name s) (bound + 1) (Rename now s fs) (rotate_log r) ∧
  ∀ p, p ≠ base_file_name s → ParseRotatedFileIndex p (base_file_name s) = None → Rename now s fs !! p = fs !! p.
Proof.
  intros (es & Hof & Hch & Hcur) Hb [content Hc].
  destruct (rename_final s now bound fs es content Hof Hb Hc) as (final & c & idx & -> & Hfresh & Hparse & Hidx & Hlt & Hread).
  assert (final ≠ base_file_name s) as Hne by (intros ->; by rewrite parse_base in Hparse).
  assert (∀ i n, (i, n) ∈ es → n ≠ base_file_name s ∧ n ≠ final) as Hother.
  { intros i n [[x Hx] Hi]%(of_in _ _ _ _ Hof). split; intros ->; [by rewrite parse_base in Hi|congruence]. }
  split.
  2:{ intros p Hp Hnone. rewrite lookup_insert_ne by congruence. by apply lookup_delete_ne. }
  exists (es ++ [(idx, final)]). split; [split|split].
  - apply StronglySorted_app_2; [|apply (of_sorted _ _ _ _ Hof)|repeat constructor].
    intros f g Hf ->%list_elem_of_singleton. by apply Hlt.
  - intros i n. rewrite elem_of_app, list_elem_of_singleton, (of_in _ _ _ _ Hof).
    destruct (decide (n = final)) as [->|Hn].
    + rewrite lookup_insert_eq, Hfresh, Hparse. naive_solver.
    + rewrite lookup_insert_ne by done. destruct (decide (n = base_file_name s)) as [->|Hnb].
      * rewrite parse_base. naive_solver.
      * rewrite lookup_delete_ne by done. naive_solver.
  - intros f. rewrite elem_of_app, list_elem_of_singleton. intros [Hf| ->]; cbn; [|lia].
    apply (of_bound _ _ _ _ Hof) in Hf. lia.
  - cbn. rewrite Hch, Hcur, Hc. unfold texts. rewrite map_app. cbn. rewrite lookup_insert_eq. cbn. rewrite Hread. f_equal.
    apply map_ext_in. intros [i n] Hin%list_elem_of_In. destruct (Hother i n Hin) as [Hnb Hnf]. cbn.
    by rewrite lookup_insert_ne, lookup_delete_ne.
  - cbn. by rewrite lookup_insert_ne, lookup_delete_eq.
Qed.

(** The stream, when it is open, is at the end of the file. *)
Definition stream_ok (s : RotateFile) (fs : FS) : Prop :=
  ∀ pos, ro_stream s = Some pos →
  is_Some (fs !! base_file_name s) ∧ pos = Z.of_nat (length (default [] (fs !! base_file_name s))).

Definition opened (s : RotateFile) : bool := bool_decide (is_Some (ro_stream s)).

(** Another file than those of the log. *)
Definition foreign (base p : bytes) : Prop := p ≠ base ∧ ParseRotatedFileIndex p base = None.

(** The directory when a line can be written. *)
Definition made_ready (s : RotateFile) (now : Z) (fs : FS) : FS :=
  let full := (size_limit (ro_options s) <? Z.of_nat (length (default [] (fs !! base_file_name s))))%Z in
  if opened s && negb full then fs
  else
    let fs := if opened s then Rename now s fs else fs in
    CleanLogFile dir_order (max_file_num (ro_options s)) (base_file_name s)
      (<[base_file_name s := default [] (fs !! base_file_name s)]> fs).

Lemma log_work_run (s : RotateFile) (fs : FS) (now : Z) (line : bytes) :
  stream_ok s fs → can_open (base_file_name s) = true →
  let fs' := made_ready s now fs in
  let content := default [] (fs' !! base_file_name s) ++ line ++ ["010"%char] in
  log_work now line (s, fs) =
    (Ok tt, (set_ro_stream (Some (Z.of_nat (length content))) s, <[base_file_name s := content]> fs')).
Proof.
  intros Hok Hopen. unfold RotateFile.log_work, OpenNewFile, on_ro, on_fs, made_ready, opened.
  unfold_monad. cbn [fst snd]. destruct (ro_stream s) as [pos|] eqn:Hs.
  - destruct (Hok pos Hs) as [Hbase ->]. rewrite (bool_decide_eq_true_2 (is_Some (Some _))) by done. cbn [andb].
    destruct (Z.ltb_spec (size_limit (ro_options s)) (Z.of_nat (length (default [] (fs !! base_file_name s))))) as [Hf|Hf];
      cbn [negb fst snd].
    + rewrite Hs. cbn [fst snd]. assert (stream_position s fs (Z.of_nat (length (default [] (fs !! base_file_name s)))) =
        Z.of_nat (length (default [] (fs !! base_file_name s)))) as -> by (unfold stream_position; by case_match).
      rewrite (proj2 (Z.ltb_lt _ _)) by done. rewrite (bool_decide_eq_true_2 (is_Some (fs !! _))) by done.
      cbn [andb fst snd]. rewrite Hopen. cbn [negb fst snd]. by rewrite lookup_insert_eq.
    + cbn. by rewrite lookup_insert_eq.
  - cbn [bool_decide andb negb fst snd]. rewrite Hs. cbn [andb fst snd]. rewrite Hopen. cbn [negb fst snd].
    by rewrite lookup_insert_eq.
Qed.

Lemma made_ready_represents (s : RotateFile) (fs : FS) (now bound : Z) (r : RollingLog) :
  stream_ok s fs → represents (base_file_name s) bound fs r →
  (1 ≤ bound < 2 ^ 32 - 1)%Z → (0 ≤ max_file_num (ro_options s) < 2 ^ 32)%Z →
  let full := (size_limit (ro_options s) <? Z.of_nat (length (current r)))%Z in
  represents (base_file_name s) (bound + 1) (made_ready s now fs)
    (if opened s && negb full then r
     else trim_log (max_file_num (ro_options s)) (if opened s then rotate_log r else r)) ∧
  ∀ p, foreign (base_file_name s) p → made_ready s now fs !! p = fs !! p.
Proof.
  intros Hok Hr Hb Hmax full.
  assert (current r = default [] (fs !! base_file_name s)) as Hcur by (by destruct Hr as (es & _ & _ & ->)).
  unfold made_ready. rewrite <-Hcur. fold full. destruct (opened s && negb full) eqn:Hfits.
  { split; [by apply (represents_weaken _ bound); [lia|]|done]. }
  set (fs1 := if opened s then Rename now s fs else fs). set (r1 := if opened s then rotate_log r else r).
  assert (represents (base_file_name s) (bound + 1) fs1 r1 ∧
    ∀ p, foreign (base_file_name s) p → fs1 !! p = fs !! p) as [H1 Hfr1].
  { unfold fs1, r1. destruct (opened s) eqn:Ho.
    - destruct (rename_represents s now bound fs r) as [Hn Hfr]; [done|lia| |].
      + unfold opened in Ho. apply bool_decide_eq_true in Ho as [pos Hpos]. by apply (Hok pos).
      + split; [done|]. intros p [Hp1 Hp2]. by apply Hfr.
    - split; [by apply (represents_weaken _ bound); [lia|]|done]. }
  assert (default [] (fs1 !! base_file_name s) = current r1) as -> by (by destruct H1 as (es & _ & _ & ->)).
  pose proof (represents_set_base _ _ _ _ (current r1) H1) as H2.
  assert (mkRolling (chunks r1) (current r1) = r1) as Heta by (by destruct r1). rewrite Heta in H2.
  destruct (clean_represents _ _ (max_file_num (ro_options s)) _ _ H2) as [H3 Hfr3]; [lia|done|].
  split; [done|]. intros p [Hp1 Hp2]. rewrite Hfr3, lookup_insert_ne by done. by apply Hfr1.
Qed.

Lemma log_work_refines (s : RotateFile) (fs : FS) (now bound : Z) (r : RollingLog) (line : bytes) :
  stream_ok s fs → can_open (base_file_name s) = true → represents (base_file_name s) bound fs r →
  (1 ≤ bound < 2 ^ 32 - 1)%Z → (0 ≤ max_file_num (ro_options s) < 2 ^ 32)%Z →
  ∃ pos fs', log_work now line (s, fs) = (Ok tt, (set_ro_stream (Some pos) s, fs')) ∧
    stream_ok (set_ro_stream (Some pos) s) fs' ∧
    represents (base_file_name s) (bound + 1) fs' (append_line (ro_options s) (opened s) line r) ∧
    ∀ p, foreign (base_file_name s) p → fs' !! p = fs !! p.
Proof.
  intros Hok Hopen Hr Hb Hmax. rewrite (log_work_run s fs now line Hok Hopen).
  destruct (made_ready_represents s fs now bound r Hok Hr Hb Hmax) as [H1 Hfr].
  set (r1 := if opened s && _ then _ else _) in H1. set (fs1 := made_ready s now fs) in *.
  assert (default [] (fs1 !! base_file_name s) = current r1) as -> by (by destruct H1 as (es & _ & _ & ->)).
  set (content := current r1 ++ line ++ ["010"%char]).
  exists (Z.of_nat (length content)), (<[base_file_name s := content]> fs1). split_and!; [done| | |].
  - intros pos [= <-]. cbn. rewrite lookup_insert_eq. by split.
  - apply (represents_set_base _ _ _ _ content H1).
  - intros p Hp. rewrite lookup_insert_ne; [by apply Hfr|]. destruct Hp. congruence.
Qed.

(** ** Many lines *)

Definition log_works (works : list (Z * bytes)) : M (RotateFile * FS) unit :=
  mapM_ (λ w, log_work w.1 w.2) works.

Fixpoint append_lines (o : RotateOptions) (opened : bool) (lines : list bytes) (r : RollingLog) : RollingLog :=
  match lines with
  | [] => r
  | line :: lines' => append_lines o true lines' (append_line o opened line r)
  end.

Lemma log_works_refine (works : list (Z * bytes)) : ∀ (s : RotateFile) (fs : FS) (bound : Z) (r : RollingLog),
  stream_ok s fs → can_open (base_file_name s) = true → represents (base_file_name s) bound fs r →
  (1 ≤ bound)%Z → (bound + Z.of_nat (length works) < 2 ^ 32)%Z → (0 ≤ max_file_num (ro_options s) < 2 ^ 32)%Z →
  ∃ pos fs', log_works works (s, fs) = (Ok tt, (set_ro_stream pos s, fs')) ∧
    stream_ok (set_ro_stream pos s) fs' ∧
    represents (base_file_name s) (bound + Z.of_nat (length works)) fs'
      (append_lines (ro_options s) (opened s) (map snd works) r) ∧
    ∀ p, foreign (base_file_name s) p → fs' !! p = fs !! p.
Proof.
  induction works as [|[now line] works IH]; intros s fs bound r Hok Hopen Hr Hb Hlen Hmax.
  - exists (ro_stream s), fs. rewrite Z.add_0_r. by destruct s.
  - cbn [length] in Hlen |- *. rewrite Nat2Z.inj_succ in Hlen |- *.
    destruct (log_work_refines s fs now bound r line) as (pos & fs1 & Hrun & Hok1 & Hr1 & Hfr1); [done..|lia|done|].
    destruct (IH (set_ro_stream (Some pos) s) fs1 (bound + 1)%Z (append_line (ro_options s) (opened s) line r))
      as (pos' & fs' & Hrun' & Hok' & Hr' & Hfr'); [done..|lia|lia|done|].
    exists pos', fs'. split_and!.
    + unfold log_works. cbn [mapM_]. unfold mbind at 1, M_bind at 1. cbn [fst snd]. rewrite Hrun. exact Hrun'.
    + exact Hok'.
    + replace (bound + Z.succ (Z.of_nat (length works)))%Z with (bound + 1 + Z.of_nat (length works))%Z by lia. exact Hr'.
    + intros p Hp. by rewrite Hfr', Hfr1.
Qed.
End Refinement.

(** ** What a log keeps *)

Lemma trim_log_drop (max_num : Z) (r : RollingLog) :
  ∃ lost, chunks r = lost ++ chunks (trim_log max_num r) ∧ current (trim_log max_num r) = current r ∧
    (max_num = 0%Z → lost = []) ∧
    ((0 < max_num)%Z → (Z.of_nat (length (chunks (trim_log max_num r))) ≤ max_num)%Z).
Proof.
  unfold trim_log. destruct (Z.eqb_spec max_num 0) as [->|Hne].
  - exists []. split_and!; [done..|lia].
  - exists (take (length (chunks r) - Z.to_nat max_num) (chunks r)). cbn. rewrite take_drop. split_and!; [done..|].
    rewrite length_drop. lia.
Qed.

Lemma append_line_keeps (o : RotateOptions) (b : bool) (line : bytes) (r : RollingLog) :
  ∃ news lost, chunks r ++ news = lost ++ chunks (append_line o b line r) ∧
    concat news ++ current (append_line o b line r) = current r ++ line ++ ["010"%char] ∧
    Forall (λ c, (size_limit o < Z.of_nat (length c))%Z) news ∧
    (max_file_num o = 0%Z → lost = []).
Proof.
  unfold append_line. set (full := (size_limit o <? _)%Z). destruct (b && negb full) eqn:Hfits.
  - exists [], []. rewrite app_nil_r. by repeat constructor.
  - destruct (trim_log_drop (max_file_num o) (if b then rotate_log r else r)) as (lost & Hl & Hc & H0 & _).
    exists (if b then [current r] else []), lost. cbn [chunks current]. rewrite <-Hl, Hc.
    destruct b; cbn; rewrite ?app_nil_r; split_and!; try done.
    repeat constructor. unfold full in Hfits. cbn in Hfits. by apply negb_false_iff, Z.ltb_lt in Hfits.
Qed.

Lemma append_lines_keep (o : RotateOptions) (lines : list bytes) : ∀ (b : bool) (r : RollingLog),
  let r' := append_lines o b lines r in
  ∃ news lost, chunks r ++ news = lost ++ chunks r' ∧
    concat news ++ current r' = current r ++ concat (map (λ l, l ++ ["010"%char]) lines) ∧
    Forall (λ c, (size_limit o < Z.of_nat (length c))%Z) news ∧
    (max_file_num o = 0%Z → lost = []).
Proof.
  induction lines as [|line lines IH]; intros b r; cbn.
  - exists [], []. rewrite !app_nil_r. by repeat constructor.
  - destruct (append_line_keeps o b line r) as (news & lost & H1 & H2 & H3 & H4).
    destruct (IH true (append_line o b line r)) as (news' & lost' & H1' & H2' & H3' & H4').
    exists (news ++ news'), (lost ++ lost'). split_and!.
    + by rewrite app_assoc, H1, <-!app_assoc, H1'.
    + by rewrite concat_app, <-app_assoc, H2', app_assoc, H2, <-!app_assoc.
    + by apply Forall_app.
    + intros H0. by rewrite H4, H4'.
Qed.

Lemma append_lines_number (o : RotateOptions) (lines : list bytes) : ∀ (b : bool) (r : RollingLog),
  (0 < max_file_num o)%Z → (b = true → (Z.of_nat (length (chunks r)) ≤ max_file_num o)%Z) →
  (b = true ∨ lines ≠ []) → (Z.of_nat (length (chunks (append_lines o b lines r))) ≤ max_file_num o)%Z.
Proof.
  induction lines as [|line lines IH]; intros b r H0 Hb Hor; cbn; [by destruct Hor; auto|].
  apply IH; [done| |by left]. intros _. unfold append_line. set (full := (size_limit o <? _)%Z).
  destruct (trim_log_drop (max_file_num o) (if b then rotate_log r else r)) as (_ & _ & _ & _ & Hn).
  destruct b; [destruct full|]; cbn [andb negb chunks]; auto.
Qed.

Section RotateTheorems.
Context (dir_order : FS → list bytes) (can_open : bytes → bool).
Context (gzip zstd : Z → bytes → option bytes) (zstd_level_default : Z) (gunzip unzstd : bytes → bytes).
Context (localtime : Z → tm).

(** C4: A log of files.  When the iterator lists a directory and what is
    compressed can be read, lines written after a start, by any number of
    tasks, end up in the files in order: the old files, sorted by index, and
    the base file hold what they held followed by the lines, cut into chunks,
    each longer than the limit; of these only the oldest are lost, none when
    the number of files is not limited, and otherwise no more than that number
    are left.  Other files are not touched. *)
Theorem rotation_refines_log (s : RotateFile) (fs : FS) (bound : Z) (r : RollingLog) (works : list (Z * bytes)) :
  (∀ fs : FS, dir_order fs ≡ₚ (map_to_list fs).*1) →
  (∀ l s c, gzip l s = Some c → gunzip c = s) → (∀ l s c, zstd l s = Some c → unzstd c = s) →
  can_open (base_file_name s) = true → ro_stream s = None →
  represents gunzip unzstd (base_file_name s) bound fs r →
  (1 ≤ bound)%Z → (bound + Z.of_nat (length works) < 2 ^ 32)%Z → (0 ≤ max_file_num (ro_options s) < 2 ^ 32)%Z →
  works ≠ [] →
  ∃ pos fs' r' news lost,
    log_works dir_order can_open gzip zstd zstd_level_default localtime works (s, fs) =
      (Ok tt, (set_ro_stream pos s, fs')) ∧
    represents gunzip unzstd (base_file_name s) (bound + Z.of_nat (length works)) fs' r' ∧
    chunks r ++ news = lost ++ chunks r' ∧
    concat news ++ current r' = current r ++ concat (map (λ w, w.2 ++ ["010"%char]) works) ∧
    Forall (λ c, (size_limit (ro_options s) < Z.of_nat (length c))%Z) news ∧
    (if (max_file_num (ro_options s) =? 0)%Z then lost = []
     else (Z.of_nat (length (chunks r')) ≤ max_file_num (ro_options s))%Z) ∧
    ∀ p, foreign (base_file_name s) p → fs' !! p = fs !! p.
Proof.
  intros Hdir Hgz Hzst Hopen Hs Hr Hb Hlen Hmax Hne.
  destruct (log_works_refine dir_order can_open gzip zstd zstd_level_default gunzip unzstd localtime Hdir Hgz Hzst
    works s fs bound r) as (pos & fs' & Hrun & _ & Hr' & Hfr); [|done..|].
  { intros p. by rewrite Hs. }
  destruct (append_lines_keep (ro_options s) (map snd works) (opened s) r) as (news & lost & H1 & H2 & H3 & H4).
  rewrite map_map in H2. exists pos, fs', (append_lines (ro_options s) (opened s) (map snd works) r), news, lost.
  split; [exact Hrun|]. split; [exact Hr'|]. do 3 (split; [done|]). split; [|done].
  destruct (Z.eqb_spec (max_file_num (ro_options s)) 0) as [H0|H0]; [by apply H4|].
  apply append_lines_number; [lia| |right; by destruct works].
  unfold opened. by rewrite Hs.
Qed.

(** A rename loses nothing.  Whatever the directory holds, while the
    indices of its files are below 2^32 - 1, the name that the base file is
    given, compressed or not, is that of no file, and is read back as an index
    above those of all old files. *)
Theorem rename_to_new_name (s : RotateFile) (fs : FS) (now : Z) (ext : bytes) :
  (∀ fs : FS, dir_order fs ≡ₚ (map_to_list fs).*1) →
  (∀ n i, is_Some (fs !! n) → ParseRotatedFileIndex n (base_file_name s) = Some i → (0 ≤ i < 2 ^ 32 - 1)%Z) →
  ext ∈ [[]; kGzipFileExtension; kZstdFileExtension] →
  let idx := GetNextIndex dir_order (base_file_name s) fs in
  let name := rotated_name localtime s now idx ++ ext in
  fs !! name = None ∧ ParseRotatedFileIndex name (base_file_name s) = Some idx ∧
  ∀ n i, is_Some (fs !! n) → ParseRotatedFileIndex n (base_file_name s) = Some i → (i < idx)%Z.
Proof.
  intros Hdir Hind Hext idx name.
  pose proof (elem_of_rotated_files dir_order Hdir (base_file_name s) fs) as Hin.
  destruct (next_index_ok (rotated_files dir_order (base_file_name s) fs) 1) as (H1 & H2 & H3).
  { intros [i n] [Hn Hi]%Hin. by apply (Hind n). }
  fold (GetNextIndex dir_order (base_file_name s) fs) in H1, H2, H3. fold idx in H1, H2, H3.
  assert (idx ≤ 2 ^ 32 - 1)%Z as Hidx.
  { apply H3; [lia|]. intros [i n] [Hn Hi]%Hin. cbn. by apply (Hind n). }
  assert (ParseRotatedFileIndex name (base_file_name s) = Some idx) as Hp by (apply parse_rotated_name; [lia|done]).
  assert (∀ n i, is_Some (fs !! n) → ParseRotatedFileIndex n (base_file_name s) = Some i → (i < idx)%Z) as Hlt.
  { intros n i Hn Hi. apply (H2 (i, n)). by apply Hin. }
  split_and!; [|done..]. destruct (fs !! name) eqn:Hn; [|done]. exfalso.
  assert (idx < idx)%Z; [|lia]. by apply (Hlt name); [rewrite Hn|].
Qed.
End RotateTheorems.

(** The limit of a file is computed in 32 bits: from 4096 MiB on it is not
    the configured one, and for multiples of 4096 MiB it is zero, so that of
    an open, non-empty file every further line makes an old file. *)
Theorem size_limit_wraps (o : RotateOptions) (line : bytes) (r : RollingLog) :
  (0 ≤ max_file_size_m o < 2 ^ 32)%Z →
  (size_limit o = max_file_size_m o * 2 ^ 20 ↔ max_file_size_m o < 4096)%Z ∧
  ((max_file_size_m o mod 4096 = 0)%Z → current r ≠ [] →
   append_line o true line r =
     mkRolling (chunks (trim_log (max_file_num o) (rotate_log r))) (line ++ ["010"%char])).
Proof.
  intros Ho. assert (size_limit o = (max_file_size_m o * 2 ^ 20) mod 2 ^ 32)%Z as Hlim.
  { unfold size_limit, wrap. rewrite Z.mul_mod_idemp_l by done. f_equal. lia. }
  split.
  - rewrite Hlim. split; intros H; [|apply Z.mod_small; lia].
    pose proof (Z.mod_pos_bound (max_file_size_m o * 2 ^ 20) (2 ^ 32)). lia.
  - intros Hm Hne. assert (size_limit o = 0)%Z as H0.
    { rewrite Hlim. apply Z.mod_divide in Hm as [k ->]; [|done]. apply Z.mod_divide; [done|]. exists k. lia. }
    unfold append_line. rewrite H0. destruct (trim_log_drop (max_file_num o) (rotate_log r)) as (_ & _ & Hc & _ & _).
    assert (0 <? Z.of_nat (length (current r)) = true)%Z as ->.
    { apply Z.ltb_lt. destruct (current r); [done|]. cbn [length]. lia. }
    cbn [andb negb]. by rewrite Hc.
Qed.

(** ** Which records are written; a backend that is not used *)

Section Logging.
Context (localtime : Z → tm) (regex_match : string → string → res bool) (get_executor_func : option (string → option bool)).
Context (Hday : ∀ t, (0 ≤ tm_wday (localtime t) < 7)%Z).

Definition rotate_filter_ok (s : RotateFile) : Prop :=
  filter_cached regex_match (op_module_filter (ro_options s)) (ro_module_filter_map s).

Definition rotate_lines (s : RotateFile) : LogDataWrapper → list bytes :=
  lines_of regex_match localtime (ro_run_flag s) (op_module_filter (ro_options s)) (ro_formatter s).

Lemma rotate_Log_run (s : RotateFile) (data : LogDataWrapper) :
  rotate_filter_ok s → ∃ cache,
  rotate_Log localtime regex_match data s =
    (Ok tt, set_ro_pending (ro_pending s ++ rotate_lines s data) (set_ro_module_filter_map cache s)) ∧
  filter_cached regex_match (op_module_filter (ro_options s)) cache.
Proof.
  intros Hs. unfold rotate_Log, rotate_lines, lines_of. unfold mbind, M_bind, get.
  destruct (ro_run_flag s) eqn:Hrun; cbn [negb andb].
  2:{ exists (ro_module_filter_map s). rewrite app_nil_r. by destruct s. }
  destruct (check_log_run regex_match _ (str (ld_module_name data)) _ Hs) as (cache & Hc & Hs').
  exists cache. split; [|done]. unfold CheckLog, zoom, mbind, M_bind, get. rewrite Hc.
  destruct (passes regex_match _ _); cbn [negb]; [|by rewrite app_nil_r].
  unfold try_catch, lift, modify. by destruct (Format_ok localtime (ro_formatter s) data Hday) as [line ->].
Qed.

(** What is logged.  A record is given to the executor as one line, after
    those given before, exactly when the backend runs and the filter lets its
    module pass; nothing is thrown. *)
Theorem rotate_Log_spec (s : RotateFile) (data : LogDataWrapper) :
  rotate_filter_ok s →
  let r := rotate_Log localtime regex_match data s in
  r.1 = Ok tt ∧ ro_pending r.2 = ro_pending s ++ rotate_lines s data ∧ rotate_filter_ok r.2 ∧
  ro_options r.2 = ro_options s ∧ ro_stream r.2 = ro_stream s.
Proof. intros Hs. by destruct (rotate_Log_run s data Hs) as (cache & -> & Hs'). Qed.

(** What a successful initialization leaves. *)
Lemma rotate_Initialize_inv `{YamlOps node} (options_node : option node) (s s' : RotateFile) :
  rotate_Initialize get_executor_func options_node s = (Ok tt, s') →
  ro_module_filter_map s' = ro_module_filter_map s ∧ ro_pending s' = ro_pending s ∧ ro_stream s' = ro_stream s ∧
  ro_run_flag s' = true ∧ (enable_sync (ro_options s') = true → sync_timer s' = Ticking).
Proof.
  intros Hrun. unfold rotate_Initialize in Hrun.
  run_step Hrun E1. injection E1 as <- <-. run_step Hrun E2. unfold lift in E2. injection E2 as _ <-.
  cbv zeta in Hrun. set (o := default _ _) in Hrun. run_step Hrun E3. injection E3 as _ <-.
  unfold find_executor in Hrun. destruct get_executor_func as [find_ex|]; [|discriminate].
  run_step Hrun E3. injection E3 as <- <-. run_check Hrun.
  run_step Hrun E4. injection E4 as <- <-.
  destruct (SetPattern _ _) as [r f]. run_step Hrun E5. injection E5 as _ <-.
  run_step Hrun E6. unfold lift in E6. injection E6 as _ <-.
  run_step Hrun E7. destruct (compression_mode_of _) as [m|]; [|done]. injection E7 as <- <-.
  run_step Hrun E8. destruct (compression_level_of _) as [l|]; [|done]. injection E8 as <- <-.
  run_step Hrun E9. injection E9 as _ <-.
  run_step Hrun E10. injection Hrun as <-. destruct (enable_sync o) eqn:Hsync.
  - apply bind_ok in E10 as (? & y1 & Ec & E10). unfold check_throw in Ec.
    destruct (negb _); [injection Ec as <- <-|discriminate].
    apply bind_ok in E10 as (? & y2 & Ec & E10). injection Ec as <- <-.
    apply bind_ok in E10 as (? & y3 & Ec & E10).
    destruct (find_ex (sync_executor_name o)) as [b|]; [|done].
    unfold check_throw in Ec. destruct b; [injection Ec as <- <-|discriminate]. by injection E10 as _ <-.
  - injection E10 as _ <-. cbn. rewrite Hsync. by split_and!.
Qed.

(** A backend with [enable_sync] that has written nothing has no [FILE]:
    after its initialization, its destruction, and the first tick of its
    timer, use a null one. *)
Theorem unused_sync_backend_is_undefined `{YamlOps node} (options_node : option node) (fs : FS) (s : RotateFile) :
  rotate_Initialize get_executor_func options_node RotateFile_new = (Ok tt, s) → enable_sync (ro_options s) = true →
  sync_timer s = Ticking ∧ (sync_work (s, fs)).1 = Undef ∧
  (rotate_destroy s).1 = Undef ∧ (rotate_destroy (rotate_Shutdown s).2).1 = Undef.
Proof.
  intros (_ & _ & Hstream & _ & Htimer)%rotate_Initialize_inv Hsync.
  unfold sync_work, rotate_destroy, rotate_Shutdown, on_ro. unfold_monad. cbn.
  rewrite Hsync, Hstream. split; [by apply Htimer|done].
Qed.
End Logging.

(** ** Witnesses *)

Lemma represents_start (gunzip unzstd : bytes → bytes) (base content : bytes) (bound : Z) :
  represents gunzip unzstd base bound {[base := content]} (mkRolling [] content).
Proof.
  exists []. split; [split|split].
  - constructor.
  - intros i n. split; [by intros ?%not_elem_of_nil|]. intros [[x [<- _]%lookup_singleton_Some] Hp].
    by rewrite parse_base in Hp.
  - by intros f ?%not_elem_of_nil.
  - done.
  - cbn. by rewrite lookup_singleton_eq.
Qed.

Module RotateDemo.
(** A directory as a list of its paths; compression that marks what it has
    compressed, and fails on the empty file. *)
Definition dir_order (fs : FS) : list bytes := (map_to_list fs).*1.
Definition gzip (_ : Z) (s : bytes) : option bytes := match s with [] => None | _ => Some ("z"%char :: s) end.
Definition gunzip (s : bytes) : bytes := tail s.
Definition no_time (_ : Z) : tm := mkTm 0 0 0 0 0 0 0.

Definition options (num : Z) : RotateOptions :=
  mkRotateOptions "log" "a" 4096 num "(.*)" "" true 10 "timer" false "gzip" "default".
Definition backend (num : Z) : RotateFile :=
  mkRotate (options num) kGzip kDefault (lit "log/a") None true ∅ LogFormatter_new [] NoTimer [].
Definition works : list (Z * bytes) := [(0%Z, lit "one"); (1%Z, lit "two"); (2%Z, lit "three")].
Definition run (num : Z) := log_works dir_order (λ _, true) gzip gzip 3 no_time works (backend num, {[lit "log/a" := lit "old"]}).

Lemma gunzip_gzip (l : Z) (s c : bytes) : gzip l s = Some c → gunzip c = s.
Proof. unfold gzip. destruct s; [done|]. by intros [= <-]. Qed.

Example run_all : map_to_list (run 0).2.2 ≡ₚ
  [(lit "log/a", lit "three" ++ ["010"%char]); (lit "log/a_2.gz", "z"%char :: lit "two" ++ ["010"%char]);
   (lit "log/a_1.gz", "z"%char :: lit "oldone" ++ ["010"%char])].
Proof. bdec. Qed.

(** A backend that syncs. *)
Definition node : option tree :=
  Some (TMap [("path", TStr "log"); ("enable_sync", TBool true); ("sync_executor_name", TStr "timer")]).
Definition started : RotateFile := (rotate_Initialize (Some (λ _, Some true)) node RotateFile_new).2.

Lemma started_run : rotate_Initialize (Some (λ _, Some true)) node RotateFile_new = (Ok tt, started).
Proof.
  assert ((rotate_Initialize (Some (λ _, Some true)) node RotateFile_new).1 = Ok tt) as H by by vm_compute.
  unfold started. by rewrite <-H, <-surjective_pairing.
Qed.
Lemma started_sync : enable_sync (ro_options started) = true.
Proof. by vm_compute. Qed.
End RotateDemo.

Lemma rotated_names_roundtrip_witness :
  ParseRotatedFileIndex (lit "log/a_4294967295.gz") (lit "log/a") = Some 4294967295%Z.
Proof.
  apply (rotated_names_roundtrip RotateDemo.no_time (RotateDemo.backend 0) 0 4294967295 kGzipFileExtension); [lia|].
  right. by left.
Defined.

Lemma rotation_refines_log_witness :
  ∃ pos fs', RotateDemo.run 2 = (Ok tt, (set_ro_stream pos (RotateDemo.backend 2), fs')).
Proof.
  destruct (rotation_refines_log RotateDemo.dir_order (λ _, true) RotateDemo.gzip RotateDemo.gzip 3 RotateDemo.gunzip
    RotateDemo.gunzip RotateDemo.no_time (RotateDemo.backend 2) {[lit "log/a" := lit "old"]} 1 (mkRolling [] (lit "old"))
    RotateDemo.works (λ fs, Permutation_refl _) RotateDemo.gunzip_gzip RotateDemo.gunzip_gzip eq_refl eq_refl
    (represents_start _ _ _ _ _)) as (pos & fs' & r' & news & lost & H & _).
  - lia.
  - cbn. lia.
  - cbn. lia.
  - discriminate.
  - exists pos, fs'. exact H.
Defined.

Lemma rename_to_new_name_witness :
  let fs : FS := {[lit "log/a" := lit "old"]} in
  fs !! (rotated_name RotateDemo.no_time (RotateDemo.backend 0) 0 (GetNextIndex RotateDemo.dir_order (lit "log/a") fs) ++ [])
    = None.
Proof.
  intros fs.
  apply (rename_to_new_name RotateDemo.dir_order RotateDemo.no_time (RotateDemo.backend 0) fs 0 []).
  - reflexivity.
  - intros n i [x [<- _]%lookup_singleton_Some] Hp. by rewrite parse_base in Hp.
  - by left.
Defined.

Lemma size_limit_wraps_witness :
  size_limit (RotateDemo.options 0) = 0%Z ∧
  append_line (RotateDemo.options 0) true (lit "b") (mkRolling [] (lit "a")) = mkRolling [lit "a"] (lit "b" ++ ["010"%char]).
Proof.
  split; [reflexivity|].
  apply (size_limit_wraps (RotateDemo.options 0) (lit "b") (mkRolling [] (lit "a"))); [cbn; lia|reflexivity|discriminate].
Defined.

Lemma rotate_Log_spec_witness :
  ro_pending (rotate_Log RotateDemo.no_time (λ _ _, Ok false) FormatterDemo.record (RotateDemo.backend 0)).2 = [].
Proof.
  apply (rotate_Log_spec RotateDemo.no_time (λ _ _, Ok false) ltac:(intros t; cbn; lia) (RotateDemo.backend 0) FormatterDemo.record).
  intros m b. discriminate.
Defined.

Lemma unused_sync_backend_is_undefined_witness :
  (rotate_destroy RotateDemo.started).1 = Undef.
Proof.
  exact (proj1 (proj2 (proj2 (unused_sync_backend_is_undefined (Some (λ _, Some true)) RotateDemo.node ∅ RotateDemo.started
    RotateDemo.started_run RotateDemo.started_sync)))).
Defined.
