(* ===== verification/Logger.v ===== *)
(** * Loggers: [src/runtime/core/logger]

    [logger_backend_base.h] (the interface [LoggerBackendBase] with its laws),
    [console_logger_backend.*], [logger_proxy.h] and [logger_manager.*].

    The manager makes the backends that the configuration names and hands out
    proxies, one per module, each with a level; a record that reaches the level
    of its proxy goes to every backend.  A reference to a proxy is the name it
    is kept under; the backends it refers to are those of the manager.  The
    tasks that write, run by the guard executor, wait with their backend.  The
    expression [get_executor_func_] is as in [RotateFile.v].  The handling of
    crash signals is only a flag, and the options written back to the
    configuration node are not modelled.

    Theorems: initialization makes what is configured; a record reaches exactly
    the backends that take it; levels follow an abstract table; the console
    prints every line once, in order, and indexes its colours out of bounds for
    the level "Off"; nothing is logged after the shutdown. *)

From S2P Require Import Prelude Yaml StringUtil TimeUtil LogFormatter LogFilter RotateFile Filters.

(** ** The interface of backends *)

(* @src src/src/runtime/core/logger/logger_backend_base.h:12-39 LoggerBackendBase *)
Class LoggerBackendBase (B node : Type) := {
  lb_Type : B → string;
  lb_AllowDuplicates : B → bool;
  lb_Initialize : option node → M B unit;
  lb_Start : M B unit;
  lb_Shutdown : M B unit;
  lb_GenInitializationReport : B → list (string * bytes);
  lb_Log : LogDataWrapper → M B unit
}.

(** What a backend promises: its type and whether it may occur twice never
    change; of a record it hands some lines to its executor, which depend on
    what it was initialized with, and none once it has been shut down. *)
Class LoggerBackendLaws (B node : Type) `{LoggerBackendBase B node} := {
  lb_fresh : B → Prop;
  lb_ok : B → Prop;
  lb_lines : B → LogDataWrapper → list bytes;
  lb_pending : B → list bytes;
  lb_Initialize_type n b : lb_Type (lb_Initialize n b).2 = lb_Type b;
  lb_Initialize_dup n b : lb_AllowDuplicates (lb_Initialize n b).2 = lb_AllowDuplicates b;
  lb_Initialize_ok n b : lb_fresh b → (lb_Initialize n b).1 = Ok tt →
    lb_ok (lb_Initialize n b).2 ∧ lb_pending (lb_Initialize n b).2 = [];
  lb_Start_ok b : lb_ok b → ∃ b', lb_Start b = (Ok tt, b') ∧ lb_ok b' ∧ (∀ d, lb_lines b' d = lb_lines b d) ∧
    lb_pending b' = lb_pending b;
  lb_Shutdown_ok b : lb_ok b → ∃ b', lb_Shutdown b = (Ok tt, b') ∧ lb_ok b' ∧ (∀ d, lb_lines b' d = []) ∧
    lb_pending b' = lb_pending b;
  lb_Log_ok d b : lb_ok b → ∃ b', lb_Log d b = (Ok tt, b') ∧ lb_ok b' ∧ (∀ d', lb_lines b' d' = lb_lines b d') ∧
    lb_pending b' = lb_pending b ++ lb_lines b d
}.

(** ** The console *)

(* @src src/src/runtime/core/logger/console_logger_backend.h:18-22 ConsoleLoggerBackend::Options *)
Record ConsoleOptions := mkConsoleOptions { print_color : bool; cl_filter : string; cl_op_pattern : string }.

Definition console_default : ConsoleOptions := mkConsoleOptions true "(.*)" "".

(* @src src/src/runtime/core/logger/console_logger_backend.cc:99-109 convert<ConsoleLoggerBackend::Options>::decode *)
Definition console_decode `{YamlOps node} (n : node) (rhs : ConsoleOptions) : res (option ConsoleOptions) :=
  if negb (IsMap n) then Ok None
  else
    color ← set_if n "color" as_bool (print_color rhs);
    filter ← set_if n "module_filter" as_string (cl_filter rhs);
    pattern ← set_if n "pattern" as_string (cl_op_pattern rhs);
    Ok (Some (mkConsoleOptions color filter pattern)).

(* @src src/src/runtime/core/logger/console_logger_backend.h:47-58 ConsoleLoggerBackend *)
Record ConsoleLoggerBackend := mkConsole {
  cl_options : ConsoleOptions;
  cl_run_flag : bool;
  cl_filter_map : gmap string bool;
  cl_formatter : LogFormatter;
  cl_pattern : bytes;
  cl_pending : list (log_level * bytes)
}.

Definition ConsoleLoggerBackend_new : ConsoleLoggerBackend :=
  mkConsole console_default false ∅ LogFormatter_new (lit "[%c.%f][%l][%t][%n][%g:%R @%F]%v") [].

Definition set_cl_filter_map x (s : ConsoleLoggerBackend) : ConsoleLoggerBackend :=
  mkConsole (cl_options s) (cl_run_flag s) x (cl_formatter s) (cl_pattern s) (cl_pending s).
Definition set_cl_pending x (s : ConsoleLoggerBackend) : ConsoleLoggerBackend :=
  mkConsole (cl_options s) (cl_run_flag s) (cl_filter_map s) (cl_formatter s) (cl_pattern s) x.

Definition escape (code : string) : bytes := "027"%char :: lit code.

(* @src src/src/runtime/core/logger/console_logger_backend.cc:78-82 CC_DBG *)
Definition kColorArray : list bytes :=
  [[]; escape "[0;34m"; escape "[0;32m"; escape "[1;33m"; escape "[0;35m"; escape "[0;31m"].
Definition CC_NONE : bytes := escape "[0m".

(** The task of [Log]: what is printed; the table has no entry for "Off". *)
(* @src src/src/runtime/core/logger/console_logger_backend.cc:146-178 ConsoleLoggerBackend::Log (log_work) *)
Definition console_log_work (o : ConsoleOptions) (lvl : log_level) (log_data_str : bytes) : res bytes :=
  (λ text, text ++ ["010"%char]) <$>
  if print_color o then
    match kColorArray !! level_number lvl with
    | None => Undef
    | Some [] => Ok log_data_str
    | Some color => Ok (color ++ log_data_str ++ CC_NONE)
    end
  else Ok log_data_str.

Section Console.
Context (localtime : Z → tm) (regex_match : string → string → res bool).

(* @src src/src/runtime/core/logger/console_logger_backend.cc:186-213 ConsoleLoggerBackend::CheckLog *)
Definition cl_CheckLog (module_name : string) : M ConsoleLoggerBackend bool :=
  s ← get;
  zoom cl_filter_map set_cl_filter_map (check_log regex_match (cl_filter (cl_options s)) module_name).

(* @src src/src/runtime/core/logger/console_logger_backend.cc:136-184 ConsoleLoggerBackend::Log *)
Definition console_Log (data : LogDataWrapper) : M ConsoleLoggerBackend unit :=
  s ← get;
  if negb (cl_run_flag s) then mret tt
  else
    if_log ← cl_CheckLog (str (ld_module_name data));
    if negb if_log then mret tt
    else
      try_catch
        (log_data_str ← lift (Format localtime (cl_formatter s) data);
         modify (λ s, set_cl_pending (cl_pending s ++ [(ld_lvl data, log_data_str)]) s))
        (λ _, mret tt).

(** The guard executor runs the first task. *)
Definition run_console_task : M (ConsoleLoggerBackend * bytes) unit := λ '(s, out),
  match cl_pending s with
  | [] => (Ok tt, (s, out))
  | (lvl, line) :: ws =>
      match console_log_work (cl_options s) lvl line with
      | Ok text => (Ok tt, (set_cl_pending ws s, out ++ text))
      | Throw e => (Throw e, (set_cl_pending ws s, out))
      | Undef => (Undef, (set_cl_pending ws s, out))
      end
  end.

(** The function that finds executors, which may not be set. *)
Definition executor_of (get_executor_func : option (string → option bool)) (name : string)
    : M ConsoleLoggerBackend (option bool) :=
  match get_executor_func with
  | Some f => mret (f name)
  | None => bad_function_call
  end.

(* @src src/src/runtime/core/logger/console_logger_backend.cc:115-134 ConsoleLoggerBackend::Initialize *)
Definition console_Initialize `{YamlOps node} (get_executor_func : option (string → option bool))
    (options_node : option node) : M ConsoleLoggerBackend unit :=
  s ← get;
  o ← lift (read_options console_decode console_default options_node);
  let o := default (cl_options s) o in
  put (mkConsole o (cl_run_flag s) (cl_filter_map s) (cl_formatter s) (cl_pattern s) (cl_pending s));;
  executor ← executor_of get_executor_func "";
  check_throw (bool_decide (is_Some executor)) "Guard_thread_executor is invalid.";;
  let pattern := if String.eqb (cl_op_pattern o) "" then cl_pattern s else lit (cl_op_pattern o) in
  let '(r, f) := SetPattern pattern (cl_formatter s) in
  put (mkConsole o (cl_run_flag s) (cl_filter_map s) f pattern (cl_pending s));;
  lift r;;
  put (mkConsole o true (cl_filter_map s) f pattern (cl_pending s)).

(* @src src/src/runtime/core/logger/console_logger_backend.h:32-32 ConsoleLoggerBackend::Shutdown *)
Definition console_Shutdown : M ConsoleLoggerBackend unit :=
  modify (λ s, mkConsole (cl_options s) false (cl_filter_map s) (cl_formatter s) (cl_pattern s) (cl_pending s)).
End Console.

(** ** Backends: the two that are built in, and those of users *)

Section Backends.
Context {U node : Type} `{YamlOps node, LoggerBackendBase U node}.
Context (localtime : Z → tm) (regex_match : string → string → res bool).

(** A built-in backend with its [get_executor_func_]. *)
Inductive LoggerBackend :=
| BConsole (get_executor_func : option (string → option bool)) (c : ConsoleLoggerBackend)
| BRotateFile (get_executor_func : option (string → option bool)) (r : RotateFile)
| BUser (u : U).

(** Run a call of the class on the part of it. *)
Definition through {P A} (wrap : P → LoggerBackend) (p : P) (m : M P A) : res A * LoggerBackend :=
  let '(r, p') := m p in (r, wrap p').

#[export] Instance logger_backend_base : LoggerBackendBase LoggerBackend node := {
  lb_Type b := match b with BConsole _ _ => "console" | BRotateFile _ _ => "rotate_file" | BUser u => lb_Type u end;
  lb_AllowDuplicates b :=
    match b with BConsole _ _ => false | BRotateFile _ _ => true | BUser u => lb_AllowDuplicates u end;
  lb_Initialize n := λ b,
    match b with
    | BConsole f c => through (BConsole f) c (console_Initialize f n)
    | BRotateFile f r => through (BRotateFile f) r (rotate_Initialize f n)
    | BUser u => through BUser u (lb_Initialize n)
    end;
  lb_Start := λ b, match b with BUser u => through BUser u lb_Start | _ => (Ok tt, b) end;
  lb_Shutdown := λ b,
    match b with
    | BConsole f c => through (BConsole f) c console_Shutdown
    | BRotateFile f r => through (BRotateFile f) r rotate_Shutdown
    | BUser u => through BUser u lb_Shutdown
    end;
  lb_GenInitializationReport b := match b with BUser u => lb_GenInitializationReport u | _ => [] end;
  lb_Log data := λ b,
    match b with
    | BConsole f c => through (BConsole f) c (console_Log localtime regex_match data)
    | BRotateFile f r => through (BRotateFile f) r (rotate_Log localtime regex_match data)
    | BUser u => through BUser u (lb_Log data)
    end
}.
End Backends.

Arguments LoggerBackend : clear implicits.

(** ** Proxies *)

(* @src src/src/runtime/core/logger/logger_proxy.h:98-102 LoggerProxy *)
Record LoggerProxy := mkLoggerProxy { lp_module_name : string; lp_lvl : log_level }.

(* @src src/src/runtime/core/logger/logger_proxy.h:37-39 LoggerProxy::SetLogLevel *)
Definition SetLogLevel (lvl : log_level) (p : LoggerProxy) : LoggerProxy := mkLoggerProxy (lp_module_name p) lvl.

(** The backends, one after the other. *)
Fixpoint each {B} (m : M B unit) (bs : list B) : res unit * list B :=
  match bs with
  | [] => (Ok tt, [])
  | b :: bs' =>
      match m b with
      | (Ok _, b') => let '(r, bs'') := each m bs' in (r, b' :: bs'')
      | (Throw e, b') => (Throw e, b' :: bs')
      | (Undef, b') => (Undef, b' :: bs')
      end
  end.

(** The thread and the time are those of the call. *)
(* @src src/src/runtime/core/logger/logger_proxy.h:44-72 LoggerProxy::Log *)
Definition LoggerProxy_Log `{LoggerBackendBase B node} (p : LoggerProxy) (tid now : Z) (lvl : log_level) (line : Z)
    (file_name function_name log_data : bytes) : M (list B) unit :=
  if level_number (lp_lvl p) <=? level_number lvl then
    each (lb_Log (mkLogData (lit (lp_module_name p)) tid now lvl line file_name function_name log_data))
  else mret tt.

(** ** The manager *)

(* @src src/src/runtime/core/logger/logger_manager.h:24-34 LoggerManager::Options *)
Record LoggerOptions (node : Type) := mkLoggerOptions {
  core_lvl : log_level;
  default_module_lvl : log_level;
  enable_crash_log : bool;
  logger_backends_options : list (string * node)
}.
Arguments mkLoggerOptions {node}.
Arguments core_lvl {node}.
Arguments default_module_lvl {node}.
Arguments enable_crash_log {node}.
Arguments logger_backends_options {node}.

Definition logger_default {node} : LoggerOptions node :=
  mkLoggerOptions AIMRT_LOG_LEVEL_INFO AIMRT_LOG_LEVEL_INFO false [].

Section Options.
Context {node : Type} `{YamlOps node}.

Definition as_level (n : node) : res log_level := (λ s, GetLogLevelFromName (lit s)) <$> as_string n.

Definition logger_decode_backend (n : node) : res (string * node) :=
  type ← as_of as_string (index n "type");
  Ok (type, default NullNode (index n "options")).

(* @src src/src/runtime/core/logger/logger_manager.cc:32-62 convert<LoggerManager::Options>::decode *)
Definition logger_decode (n : node) (rhs : LoggerOptions node) : res (option (LoggerOptions node)) :=
  if negb (IsMap n) then Ok None
  else
    core ← set_if n "core_lvl" as_level (core_lvl rhs);
    dflt ← set_if n "default_module_lvl" as_level (default_module_lvl rhs);
    crash ← set_if n "enable_crash_log" as_bool (enable_crash_log rhs);
    backends ← each_of n "backends" logger_decode_backend (logger_backends_options rhs);
    Ok (Some (mkLoggerOptions core dflt crash backends)).
End Options.

(* @src src/src/runtime/core/util/module_detail_info.h:12-30 ModuleDetailInfo *)
Record ModuleDetailInfo := mkModuleInfo {
  mi_name : string;
  mi_pkg_path : string;
  major_version : Z;
  minor_version : Z;
  patch_version : Z;
  build_version : Z;
  author : string;
  description : string;
  mi_log_lvl : log_level;
  use_default_log_lvl : bool;
  cfg_file_path : string
}.

Section LoggerManager.
Context {U node : Type} `{YamlOps node, LoggerBackendBase U node}.
Context (localtime : Z → tm) (regex_match : string → string → res bool).
Abbreviation B := (LoggerBackend U).

#[local] Instance backends : LoggerBackendBase B node := logger_backend_base localtime regex_match.

(** Functions of the manager's own read its [get_executor_func_] when they are
    called; a function of users may return a null pointer. *)
(* @src src/src/runtime/core/logger/logger_manager.h:43-43 LoggerManager::LoggerBackendGenFunc *)
Definition LoggerBackendGenFunc : Type := option (string → option bool) → option B.

(* @src src/src/runtime/core/logger/logger_manager.h:84-101 LoggerManager *)
Record LoggerManager := mkLM {
  lm_options : LoggerOptions node;
  lm_state : State;
  crash_signal_handling : bool;
  lm_get_executor_func : option (string → option bool);
  logger_backend_gen_func_map : gmap string LoggerBackendGenFunc;
  logger_backend_vec : list B;
  logger_proxy_map : gmap string LoggerProxy
}.

Definition LoggerManager_new : LoggerManager := mkLM logger_default kPreInit false None ∅ [] ∅.

Definition set_lm_options x (s : LoggerManager) : LoggerManager :=
  mkLM x (lm_state s) (crash_signal_handling s) (lm_get_executor_func s) (logger_backend_gen_func_map s)
    (logger_backend_vec s) (logger_proxy_map s).
Definition set_lm_state x (s : LoggerManager) : LoggerManager :=
  mkLM (lm_options s) x (crash_signal_handling s) (lm_get_executor_func s) (logger_backend_gen_func_map s)
    (logger_backend_vec s) (logger_proxy_map s).
Definition set_crash_signal_handling x (s : LoggerManager) : LoggerManager :=
  mkLM (lm_options s) (lm_state s) x (lm_get_executor_func s) (logger_backend_gen_func_map s)
    (logger_backend_vec s) (logger_proxy_map s).
Definition set_lm_get_executor_func x (s : LoggerManager) : LoggerManager :=
  mkLM (lm_options s) (lm_state s) (crash_signal_handling s) x (logger_backend_gen_func_map s)
    (logger_backend_vec s) (logger_proxy_map s).
Definition set_gen_func_map x (s : LoggerManager) : LoggerManager :=
  mkLM (lm_options s) (lm_state s) (crash_signal_handling s) (lm_get_executor_func s) x
    (logger_backend_vec s) (logger_proxy_map s).
Definition set_logger_backend_vec x (s : LoggerManager) : LoggerManager :=
  mkLM (lm_options s) (lm_state s) (crash_signal_handling s) (lm_get_executor_func s) (logger_backend_gen_func_map s)
    x (logger_proxy_map s).
Definition set_logger_proxy_map x (s : LoggerManager) : LoggerManager :=
  mkLM (lm_options s) (lm_state s) (crash_signal_handling s) (lm_get_executor_func s) (logger_backend_gen_func_map s)
    (logger_backend_vec s) x.

Abbreviation LM := (M LoggerManager).

Definition lm_when (st : State) (what : string) : LM unit :=
  s ← get; check_throw (state_eqb (lm_state s) st) what.
Definition lm_when_preinit : LM unit := lm_when kPreInit "Method can only be called when state is 'PreInit'.".
Definition lm_when_init : LM unit := lm_when kInit "Method can only be called when state is 'Init'.".
Definition lm_when_start : LM unit := lm_when kStart "Method can only be called when state is 'Start'.".

(* @src src/src/runtime/core/logger/logger_manager.cc:151-158 LoggerManager::RegisterGetExecutorFunc *)
Definition lm_RegisterGetExecutorFunc (f : option (string → option bool)) : LM unit :=
  lm_when_preinit;; modify (set_lm_get_executor_func f).

(** [emplace]: the first function of a type stays. *)
(* @src src/src/runtime/core/logger/logger_manager.cc:160-168 LoggerManager::RegisterLoggerBackendGenFunc *)
Definition RegisterLoggerBackendGenFunc (type : string) (f : LoggerBackendGenFunc) : LM unit :=
  lm_when_preinit;;
  modify (λ s, set_gen_func_map (match logger_backend_gen_func_map s !! type with
                                 | Some _ => logger_backend_gen_func_map s
                                 | None => <[type := f]> (logger_backend_gen_func_map s)
                                 end) s).

(* @src src/src/runtime/core/logger/logger_manager.cc:239-245 LoggerManager::RegisterConsoleLoggerBackendGenFunc *)
Definition RegisterConsoleLoggerBackendGenFunc : LM unit :=
  RegisterLoggerBackendGenFunc "console" (λ f, Some (BConsole f ConsoleLoggerBackend_new)).
(* @src src/src/runtime/core/logger/logger_manager.cc:247-253 LoggerManager::RegisterRotateFileLoggerBackendGenFunc *)
Definition RegisterRotateFileLoggerBackendGenFunc : LM unit :=
  RegisterLoggerBackendGenFunc "rotate_file" (λ f, Some (BRotateFile f RotateFile_new)).

Definition of_type (type : string) (b : B) : bool := String.eqb (lb_Type b) type.

(** A backend that cannot be initialized is destroyed. *)
(* @src src/src/runtime/core/logger/logger_manager.cc:80-104 LoggerManager::Initialize (backend) *)
Definition init_logger_backend (o : string * node) : LM unit :=
  s ← get;
  match logger_backend_gen_func_map s !! o.1 with
  | None => throw (AimRTException "Invalid logger backend type '{}'.")
  | Some gen =>
      match gen (lm_get_executor_func s) with
      | None => throw (AimRTException "Gen logger backend failed, logger backend type '{}'.")
      | Some b =>
          check_throw (lb_AllowDuplicates b || negb (existsb (of_type o.1) (logger_backend_vec s)))
            "Logger backend type'{}' do not allow duplicate.";;
          lift (lb_Initialize (Some o.2) b).1;;
          put (set_logger_backend_vec (logger_backend_vec s ++ [(lb_Initialize (Some o.2) b).2]) s)
      end
  end.

(* @src src/src/runtime/core/logger/logger_manager.cc:68-118 LoggerManager::Initialize *)
Definition lm_Initialize (options_node : option node) : LM unit :=
  RegisterConsoleLoggerBackendGenFunc;;
  RegisterRotateFileLoggerBackendGenFunc;;
  s ← get;
  put (set_lm_state kInit s);;
  check_throw (state_eqb (lm_state s) kPreInit) "Logger manager can only be initialized once.";;
  o ← lift (read_options logger_decode logger_default options_node);
  modify (λ s, set_lm_options (default (lm_options s) o) s);;
  s ← get;
  mapM_ init_logger_backend (logger_backends_options (lm_options s));;
  modify (λ s, set_crash_signal_handling (enable_crash_log (lm_options s)) s).

(** The backends of the manager. *)
Definition on_backends {A} (m : M (list B) A) : LM A := zoom logger_backend_vec set_logger_backend_vec m.

(* @src src/src/runtime/core/logger/logger_manager.cc:120-130 LoggerManager::Start *)
Definition lm_Start : LM unit :=
  s ← get;
  put (set_lm_state kStart s);;
  check_throw (state_eqb (lm_state s) kInit) "Method can only be called when state is 'Init'.";;
  on_backends (each lb_Start).

(* @src src/src/runtime/core/logger/logger_manager.cc:132-149 LoggerManager::Shutdown *)
Definition lm_Shutdown : LM unit :=
  s ← get;
  put (set_lm_state kShutdown s);;
  if state_eqb (lm_state s) kShutdown then mret tt
  else
    on_backends (each lb_Shutdown);;
    modify (set_gen_func_map ∅);;
    modify (set_lm_get_executor_func None).

(** A proxy, made when it is first asked for. *)
Definition emplace_proxy (name : string) (lvl : log_level) (m : gmap string LoggerProxy) : gmap string LoggerProxy :=
  match m !! name with
  | Some _ => m
  | None => <[name := mkLoggerProxy name lvl]> m
  end.

(** The level that a new proxy is made with. *)
Definition module_level (o : LoggerOptions node) (i : ModuleDetailInfo) : log_level :=
  if String.eqb (mi_name i) "" || String.eqb (mi_name i) "core" then core_lvl o
  else if use_default_log_lvl i then default_module_lvl o else mi_log_lvl i.

(** The proxy is named by its module. *)
Definition real_name (name : string) : string := if String.eqb name "" then "core" else name.

(* @src src/src/runtime/core/logger/logger_manager.cc:170-192 LoggerManager::GetLoggerProxy *)
Definition GetLoggerProxy_module (module_info : ModuleDetailInfo) : LM string :=
  lm_when_init;;
  s ← get;
  put (set_logger_proxy_map
         (emplace_proxy (real_name (mi_name module_info)) (module_level (lm_options s) module_info) (logger_proxy_map s)) s);;
  mret (real_name (mi_name module_info)).

(* @src src/src/runtime/core/logger/logger_manager.cc:194-211 LoggerManager::GetLoggerProxy *)
Definition GetLoggerProxy (logger_name : string) : LM string :=
  lm_when_init;;
  s ← get;
  put (set_logger_proxy_map (emplace_proxy (real_name logger_name) (core_lvl (lm_options s)) (logger_proxy_map s)) s);;
  mret (real_name logger_name).

(* @src src/src/runtime/core/logger/logger_manager.cc:213-223 LoggerManager::GetAllLoggerLevels *)
Definition GetAllLoggerLevels : LM (gmap string log_level) :=
  lm_when_start;; gets (λ s, lp_lvl <$> logger_proxy_map s).

(* @src src/src/runtime/core/logger/logger_manager.cc:225-237 LoggerManager::SetLoggerLevels *)
Definition SetLoggerLevels (logger_lvls : gmap string log_level) : LM unit :=
  lm_when_start;;
  modify (λ s, set_logger_proxy_map
    (foldr (λ '(name, lvl) m, alter (SetLogLevel lvl) name m) (logger_proxy_map s) (map_to_list logger_lvls)) s).

(* @src src/src/runtime/core/logger/logger_manager.cc:255-281 LoggerManager::GenInitializationReport *)
Definition lm_GenInitializationReport : LM (list (string * bytes)) :=
  lm_when_init;;
  s ← get;
  let types := map (λ b, lit (lb_Type b)) (logger_backend_vec s) in
  let list := match types with
              | [] => lit "<empty>"
              | _ => lit "[ " ++ JoinVec types (lit " , ") ++ lit " ]"
              end in
  mret (("Log Backend List", list) :: concat (map lb_GenInitializationReport (logger_backend_vec s))).

(* @src src/src/runtime/core/logger/logger_manager.cc:283-288 LoggerManager::GetUsedLoggerBackend *)
Definition GetUsedLoggerBackend : LM (list B) := lm_when_init;; gets logger_backend_vec.

(** A module logs through the proxy it has been given. *)
Definition proxy_Log (name : string) (tid now : Z) (lvl : log_level) (line : Z)
    (file_name function_name log_data : bytes) : LM unit :=
  s ← get;
  match logger_proxy_map s !! name with
  | None => undef
  | Some p => on_backends (LoggerProxy_Log p tid now lvl line file_name function_name log_data)
  end.
End LoggerManager.

(** * The built-in backends keep the promise *)

(** Days of the week are in range. *)
Class ValidLocaltime (localtime : Z → tm) : Prop := valid_weekday t : (0 ≤ tm_wday (localtime t) < 7)%Z.

Section ConsoleLaws.
Context (localtime : Z → tm) (regex_match : string → string → res bool) `{!ValidLocaltime localtime}.

Definition console_filter_ok (s : ConsoleLoggerBackend) : Prop :=
  filter_cached regex_match (cl_filter (cl_options s)) (cl_filter_map s).

Definition console_lines (s : ConsoleLoggerBackend) : LogDataWrapper → list bytes :=
  lines_of regex_match localtime (cl_run_flag s) (cl_filter (cl_options s)) (cl_formatter s).

Lemma console_Log_run (s : ConsoleLoggerBackend) (data : LogDataWrapper) :
  console_filter_ok s → ∃ cache,
  console_Log localtime regex_match data s =
    (Ok tt, set_cl_pending (cl_pending s ++ (pair (ld_lvl data) <$> console_lines s data)) (set_cl_filter_map cache s)) ∧
  filter_cached regex_match (cl_filter (cl_options s)) cache.
Proof.
  intros Hs. unfold console_Log, console_lines, lines_of. unfold mbind, M_bind, get.
  destruct (cl_run_flag s) eqn:Hrun; cbn [negb andb].
  2:{ exists (cl_filter_map s). rewrite app_nil_r. by destruct s. }
  destruct (check_log_run regex_match _ (str (ld_module_name data)) _ Hs) as (cache & Hc & Hs').
  exists cache. split; [|done]. unfold cl_CheckLog, zoom, mbind, M_bind, get. rewrite Hc.
  destruct (passes regex_match _ _); cbn [negb]; [|by rewrite app_nil_r].
  unfold try_catch, lift, modify. by destruct (Format_ok localtime (cl_formatter s) data valid_weekday) as [line ->].
Qed.

(** What a successful initialization leaves. *)
Lemma console_Initialize_inv `{YamlOps node} f (n : option node) (s s' : ConsoleLoggerBackend) :
  console_Initialize f n s = (Ok tt, s') →
  cl_filter_map s' = cl_filter_map s ∧ cl_pending s' = cl_pending s ∧ cl_run_flag s' = true.
Proof.
  intros Hrun. unfold console_Initialize in Hrun. run_step Hrun E. injection E as <- <-.
  run_step Hrun E. unfold lift in E. injection E as _ <-. cbv zeta in Hrun. run_step Hrun E. injection E as _ <-.
  unfold executor_of in Hrun. destruct f as [find_ex|]; [|discriminate].
  run_step Hrun E. injection E as <- <-. run_check Hrun.
  destruct (SetPattern _ _) as [r fm]. run_step Hrun E. injection E as _ <-.
  run_step Hrun E. unfold lift in E. injection E as _ <-. by injection Hrun as <-.
Qed.
End ConsoleLaws.

Section BackendLaws.
Context {U node : Type} `{YamlOps node, LoggerBackendBase U node, !LoggerBackendLaws U node}.
Context (localtime : Z → tm) (regex_match : string → string → res bool) `{!ValidLocaltime localtime}.
Abbreviation B := (LoggerBackend U).

#[local] Existing Instance logger_backend_base.
#[local] Instance backends' : LoggerBackendBase B node := logger_backend_base localtime regex_match.

Definition backend_fresh (b : B) : Prop :=
  match b with
  | BConsole _ c => cl_filter_map c = ∅ ∧ cl_pending c = []
  | BRotateFile _ r => ro_module_filter_map r = ∅ ∧ ro_pending r = []
  | BUser u => lb_fresh u
  end.
Definition backend_ok (b : B) : Prop :=
  match b with
  | BConsole _ c => console_filter_ok regex_match c
  | BRotateFile _ r => rotate_filter_ok regex_match r
  | BUser u => lb_ok u
  end.
Definition backend_lines (b : B) : LogDataWrapper → list bytes :=
  match b with
  | BConsole _ c => console_lines localtime regex_match c
  | BRotateFile _ r => rotate_lines localtime regex_match r
  | BUser u => lb_lines u
  end.
Definition backend_pending (b : B) : list bytes :=
  match b with
  | BConsole _ c => snd <$> cl_pending c
  | BRotateFile _ r => ro_pending r
  | BUser u => lb_pending u
  end.

#[export] Program Instance backend_laws : LoggerBackendLaws B node := {
  lb_fresh := backend_fresh; lb_ok := backend_ok; lb_lines := backend_lines; lb_pending := backend_pending
}.
Next Obligation.
  intros n [f c|f r|u]; cbn; unfold through; [by destruct (console_Initialize _ _ _)|by destruct (rotate_Initialize _ _ _)|].
  rewrite <-(lb_Initialize_type n u). by destruct (lb_Initialize n u).
Qed.
Next Obligation.
  intros n [f c|f r|u]; cbn; unfold through; [by destruct (console_Initialize _ _ _)|by destruct (rotate_Initialize _ _ _)|].
  rewrite <-(lb_Initialize_dup n u). by destruct (lb_Initialize n u).
Qed.
Next Obligation.
  intros n [f c|f r|u]; cbn; unfold through.
  - intros [Hm Hp]. destruct (console_Initialize f n c) as [x c'] eqn:Hrun. cbn. intros ->.
    apply console_Initialize_inv in Hrun as (Hm' & Hp' & _). unfold console_filter_ok. rewrite Hm', Hm, Hp', Hp.
    split; [apply filter_cached_empty|done].
  - intros [Hm Hp]. destruct (rotate_Initialize f n r) as [x r'] eqn:Hrun. cbn. intros ->.
    apply rotate_Initialize_inv in Hrun as (Hm' & Hp' & _). unfold rotate_filter_ok. rewrite Hm', Hm, Hp', Hp.
    split; [apply filter_cached_empty|done].
  - intros Hu Hr. pose proof (lb_Initialize_ok n u Hu) as Hok. destruct (lb_Initialize n u) as [x u']. cbn in *. by apply Hok.
Qed.
Next Obligation.
  intros [f c|f r|u]; cbn; unfold through; [by eexists..|]. intros (u' & -> & Hok & Hl & Hp)%lb_Start_ok. by exists (BUser u').
Qed.
Next Obligation.
  intros [f c|f r|u]; cbn; unfold through; [by eexists; split_and!..|].
  intros (u' & -> & Hok & Hl & Hp)%lb_Shutdown_ok. by exists (BUser u').
Qed.
Next Obligation.
  intros d [f c|f r|u]; cbn; unfold through.
  - intros Hc. destruct (console_Log_run localtime regex_match c d Hc) as (cache & -> & Hc').
    eexists; split_and!; [done..|]. cbn. rewrite fmap_app. f_equal. rewrite <-list_fmap_compose. apply list_fmap_id.
  - intros Hr. destruct (rotate_Log_run localtime regex_match valid_weekday r d Hr) as (cache & -> & Hr').
    by eexists; split_and!.
  - intros (u' & -> & Hok & Hl & Hp)%(lb_Log_ok d). by exists (BUser u').
Qed.
End BackendLaws.

(** * The manager *)

Section ManagerTheorems.
Context {U node : Type} `{YamlOps node, LoggerBackendBase U node, !LoggerBackendLaws U node}.
Context (localtime : Z → tm) (regex_match : string → string → res bool) `{!ValidLocaltime localtime}.
Abbreviation B := (LoggerBackend U).
Abbreviation LM := (LoggerManager (U := U) (node := node)).

#[local] Instance manager_backends : LoggerBackendBase B node := logger_backend_base localtime regex_match.
#[local] Instance manager_laws : LoggerBackendLaws B node := backend_laws localtime regex_match.

(** ** Initialization *)

(** The functions that make backends make new ones, of the type they are
    registered for. *)
Definition gens_ok (m : gmap string (LoggerBackendGenFunc (U := U))) : Prop :=
  ∀ t gen f b, m !! t = Some gen → gen f = Some b → lb_Type b = t ∧ lb_fresh b.

(** A backend of a type that may not occur twice is the first of its type. *)
Definition no_duplicates (bs : list B) : Prop :=
  ∀ i j b b', i < j → bs !! i = Some b → bs !! j = Some b' → lb_AllowDuplicates b' = false → lb_Type b ≠ lb_Type b'.

Lemma no_duplicates_snoc (bs : list B) (b' : B) :
  no_duplicates bs → lb_AllowDuplicates b' = true ∨ (∀ b, b ∈ bs → lb_Type b ≠ lb_Type b') → no_duplicates (bs ++ [b']).
Proof.
  intros Hbs Hb' i j b c Hij Hi Hj Hdup. apply lookup_app_Some in Hj as [Hj|[Hlen Hj]].
  - apply lookup_lt_Some in Hj as Hjl. rewrite lookup_app_l in Hi by lia. by apply (Hbs i j).
  - apply list_lookup_singleton_Some in Hj as [Hj <-]. rewrite lookup_app_l in Hi by lia.
    destruct Hb' as [Hb'|Hb']; [congruence|]. apply Hb'. by apply list_elem_of_lookup_2 in Hi.
Qed.

(** What the backends made so far are. *)
Record backends_made (done : list string) (bs : list B) : Prop := {
  bm_types : map lb_Type bs = done;
  bm_ready : Forall (λ b, lb_ok b ∧ lb_pending b = []) bs;
  bm_unique : no_duplicates bs
}.

Lemma init_logger_backend_ok (o : string * node) (done : list string) (s s' : LM) :
  gens_ok (logger_backend_gen_func_map s) → backends_made done (logger_backend_vec s) →
  init_logger_backend localtime regex_match o s = (Ok tt, s') →
  ∃ bs, s' = set_logger_backend_vec bs s ∧ backends_made (done ++ [o.1]) bs.
Proof.
  intros Hgens [H1 H2 H3] Hrun. unfold init_logger_backend in Hrun. run_step Hrun E. injection E as <- <-.
  destruct (_ !! o.1) as [gen|] eqn:Hgen; [|done]. destruct (gen _) as [b|] eqn:Hb; [|done].
  destruct (Hgens _ _ _ _ Hgen Hb) as [Htype Hfresh]. run_check Hrun.
  run_step Hrun E. unfold lift in E. injection E as Hinit <-. injection Hrun as <-. destruct u.
  set (b' := (lb_Initialize (Some o.2) b).2). exists (logger_backend_vec s ++ [b']). split; [done|].
  assert (lb_Type b' = o.1) as Hb' by (unfold b'; by rewrite lb_Initialize_type).
  split.
  - by rewrite map_app, H1, <-Hb'.
  - apply Forall_app. split; [done|]. constructor; [by apply lb_Initialize_ok|constructor].
  - apply no_duplicates_snoc; [done|]. unfold b' at 1. rewrite lb_Initialize_dup.
    match goal with E : _ || _ = true |- _ => apply orb_prop in E as [E|Hex]; [by left|right] end.
    intros c Hc Heq. apply negb_true_iff in Hex. apply (proj2 (not_true_iff_false _) Hex). apply existsb_exists.
    exists c. split; [by apply list_elem_of_In|]. apply String.eqb_eq. exact (eq_trans Heq Hb').
Qed.

Lemma init_logger_backends_ok (os : list (string * node)) : ∀ (done : list string) (s s' : LM),
  gens_ok (logger_backend_gen_func_map s) → backends_made done (logger_backend_vec s) →
  mapM_ (init_logger_backend localtime regex_match) os s = (Ok tt, s') →
  ∃ bs, s' = set_logger_backend_vec bs s ∧ backends_made (done ++ os.*1) bs.
Proof.
  induction os as [|o os IH]; intros done s s' Hgens Hmade Hrun; cbn [mapM_] in Hrun.
  - injection Hrun as <-. exists (logger_backend_vec s). rewrite app_nil_r. by destruct s.
  - run_step Hrun E. destruct u. apply (init_logger_backend_ok o done) in E as (bs & -> & Hbs); [|done..].
    destruct (IH (done ++ [o.1]) (set_logger_backend_vec bs s) s' Hgens Hbs Hrun) as (bs' & -> & Hbs').
    exists bs'. split; [done|]. by rewrite <-app_assoc in Hbs'.
Qed.

Lemma register_gen_ok type gen (s s' : LM) :
  RegisterLoggerBackendGenFunc type gen s = (Ok tt, s') →
  (∀ f b, gen f = Some b → lb_Type b = type ∧ lb_fresh b) → gens_ok (logger_backend_gen_func_map s) →
  lm_state s = kPreInit ∧ ∃ m, s' = set_gen_func_map m s ∧ gens_ok m.
Proof.
  intros Hrun Hgen Hs. unfold RegisterLoggerBackendGenFunc, lm_when_preinit, lm_when in Hrun.
  apply bind_ok in Hrun as (? & y & Hw & Hrun). run_step Hw E. injection E as <- <-.
  unfold check_throw in Hw. destruct (state_eqb _ _) eqn:Hst; [|done]. injection Hw as <- <-.
  apply bool_decide_eq_true in Hst. injection Hrun as <-. split; [done|]. eexists. split; [done|].
  destruct (_ !! type) eqn:Ht; [done|]. intros t g f b. destruct (decide (t = type)) as [->|Hne].
  - rewrite lookup_insert_eq. intros [= <-]. apply Hgen.
  - rewrite lookup_insert_ne by done. apply Hs.
Qed.

(** Initialization.  When a new manager is initialized without an error,
    the backends are those the configuration lists, in that order, each
    initialized, with nothing written yet; a backend that may not occur twice
    is the first of its type.  The functions registered for other types are
    assumed to make new backends of their type. *)
Theorem logger_initialize_builds (n : option node) (s s' : LM) :
  logger_backend_vec s = [] → gens_ok (logger_backend_gen_func_map s) →
  lm_Initialize localtime regex_match n s = (Ok tt, s') →
  lm_state s = kPreInit ∧ lm_state s' = kInit ∧
  (∃ o, read_options logger_decode logger_default n = Ok o ∧ lm_options s' = default (lm_options s) o) ∧
  map lb_Type (logger_backend_vec s') = (logger_backends_options (lm_options s')).*1 ∧
  Forall (λ b, lb_ok b ∧ lb_pending b = []) (logger_backend_vec s') ∧
  no_duplicates (logger_backend_vec s') ∧
  crash_signal_handling s' = enable_crash_log (lm_options s') ∧
  logger_proxy_map s' = logger_proxy_map s.
Proof.
  intros Hvec Hgens Hrun. unfold lm_Initialize in Hrun.
  run_step Hrun E. destruct u. apply register_gen_ok in E as (Hst & m & -> & Hm); [|by intros f b [= <-]|done].
  run_step Hrun E. destruct u. apply register_gen_ok in E as (_ & m' & -> & Hm'); [|by intros f b [= <-]|done].
  run_step Hrun E. injection E as <- <-. run_step Hrun E. injection E as _ <-. run_check Hrun.
  apply bind_ok in Hrun as (o & y & E & Hrun). unfold lift in E. injection E as Ho <-.
  run_step Hrun E. injection E as _ <-. run_step Hrun E. injection E as <- <-.
  apply bind_ok in Hrun as ([] & y' & E & Hrun).
  apply (init_logger_backends_ok _ []) in E as (bs & -> & [Htypes Hready Huniq]); [|done|].
  2:{ cbn. rewrite Hvec. split; [done|constructor|]. intros i j b b' _ Hi. by rewrite lookup_nil in Hi. }
  injection Hrun as <-. cbn in *. split_and!; try done. by exists o.
Qed.
(** ** Records *)

(** The run of all backends, whatever instance it is written with. *)
Ltac use_each Heach :=
  match type of Heach with _ = ?x => match goal with |- context [each ?m ?v] => replace (each m v) with x by (symmetry; exact Heach) end end.

(** What a module passes to its proxy, with the thread and the time. *)
Record LogCall := mkLogCall {
  lc_logger : string;
  lc_tid : Z;
  lc_now : Z;
  lc_lvl : log_level;
  lc_line : Z;
  lc_file : bytes;
  lc_function : bytes;
  lc_text : bytes
}.

Definition run_log_call (c : LogCall) : M LM unit :=
  proxy_Log localtime regex_match (lc_logger c) (lc_tid c) (lc_now c) (lc_lvl c) (lc_line c) (lc_file c) (lc_function c)
    (lc_text c).

(** What a backend is to write for it. *)
Definition call_data (c : LogCall) : LogDataWrapper :=
  mkLogData (lit (lc_logger c)) (lc_tid c) (lc_now c) (lc_lvl c) (lc_line c) (lc_file c) (lc_function c) (lc_text c).
Definition call_lines (levels : gmap string log_level) (b : B) (c : LogCall) : list bytes :=
  match levels !! lc_logger c with
  | Some lvl => if level_number lvl <=? level_number (lc_lvl c) then lb_lines b (call_data c) else []
  | None => []
  end.

Definition levels_of (s : LM) : gmap string log_level := lp_lvl <$> logger_proxy_map s.

(** Proxies are kept under their names. *)
Definition proxies_named (s : LM) : Prop := ∀ name p, logger_proxy_map s !! name = Some p → lp_module_name p = name.

(** A backend after it has been handed some lines. *)
Definition handed (lines : B → list bytes) (b b' : B) : Prop :=
  lb_ok b' ∧ (∀ d, lb_lines b' d = lb_lines b d) ∧ lb_pending b' = lb_pending b ++ lines b.

Lemma each_ok (m : M B unit) (P : B → B → Prop) (bs : list B) :
  (∀ b, lb_ok b → ∃ b', m b = (Ok tt, b') ∧ P b b') → Forall lb_ok bs →
  ∃ bs', each m bs = (Ok tt, bs') ∧ Forall2 P bs bs'.
Proof.
  intros Hm. induction 1 as [|b bs Hb Hbs (bs' & IH & Hall)]; cbn; [by exists []|].
  destruct (Hm b Hb) as (b' & -> & Hb'). rewrite IH. exists (b' :: bs'). by split; [|constructor].
Qed.

Lemma log_call_run (c : LogCall) (s : LM) :
  Forall lb_ok (logger_backend_vec s) → proxies_named s → is_Some (logger_proxy_map s !! lc_logger c) →
  ∃ bs, run_log_call c s = (Ok tt, set_logger_backend_vec bs s) ∧
    Forall2 (handed (λ b, call_lines (levels_of s) b c)) (logger_backend_vec s) bs.
Proof.
  intros Hok Hnamed [p Hp]. unfold run_log_call, proxy_Log, on_backends, LoggerProxy_Log.
  unfold mbind, M_bind, get, zoom. rewrite Hp. unfold call_lines, levels_of. rewrite lookup_fmap, Hp. cbn.
  destruct (level_number (lp_lvl p) <=? level_number (lc_lvl c)).
  - rewrite (Hnamed _ _ Hp). destruct (each_ok (lb_Log (call_data c)) (handed (λ b, lb_lines b (call_data c)))
      (logger_backend_vec s)) as (bs & Heach & Hall); [|done|].
    + intros b Hb. destruct (lb_Log_ok (call_data c) b Hb) as (b' & -> & Hb'). by exists b'.
    + exists bs. by use_each Heach.
  - exists (logger_backend_vec s). split; [done|]. apply Forall_Forall2_diag.
    eapply Forall_impl; [exact Hok|]. intros b Hb. unfold handed. by rewrite app_nil_r.
Qed.

Lemma call_lines_same (levels : gmap string log_level) (b b' : B) (c : LogCall) :
  (∀ d, lb_lines b' d = lb_lines b d) → call_lines levels b' c = call_lines levels b c.
Proof. intros Hl. unfold call_lines. destruct (levels !! lc_logger c); [|done]. by rewrite Hl. Qed.

Lemma log_calls_run (cs : list LogCall) : ∀ s : LM,
  Forall lb_ok (logger_backend_vec s) → proxies_named s →
  Forall (λ c, is_Some (logger_proxy_map s !! lc_logger c)) cs →
  ∃ bs, mapM_ run_log_call cs s = (Ok tt, set_logger_backend_vec bs s) ∧
    Forall2 (handed (λ b, concat (map (call_lines (levels_of s) b) cs))) (logger_backend_vec s) bs.
Proof.
  induction cs as [|c cs IH]; intros s Hok Hnamed Hcs.
  - exists (logger_backend_vec s). split; [by destruct s|]. apply Forall_Forall2_diag.
    eapply Forall_impl; [exact Hok|]. intros b Hb. unfold handed. cbn. by rewrite app_nil_r.
  - apply Forall_cons in Hcs as [Hc Hcs]. destruct (log_call_run c s Hok Hnamed Hc) as (bs & Hrun & Hall).
    assert (Forall lb_ok bs) as Hok'.
    { clear -Hall. induction Hall as [|b b' bs bs' Hb Hall IHall]; constructor; [apply Hb|done]. }
    destruct (IH (set_logger_backend_vec bs s) Hok' Hnamed Hcs) as (bs' & Hrun' & Hall').
    exists bs'. split.
    + cbn [mapM_]. unfold mbind, M_bind. by rewrite Hrun.
    + change (logger_backend_vec (set_logger_backend_vec bs s)) with bs in Hall'.
      change (levels_of (set_logger_backend_vec bs s)) with (levels_of s) in Hall'.
      eapply Forall2_trans; [|exact Hall|exact Hall']. intros b b' b'' (_ & Hl & Hp) (Hok'' & Hl' & Hp').
      split; [done|]. split; [intros d; by rewrite Hl'|].
      rewrite Hp', Hp, <-app_assoc. cbn. do 2 f_equal. f_equal. apply map_ext. intros c'. by apply call_lines_same.
Qed.

(** C28: Records reach the backends.  Modules log through the proxies they have
    been given, in any order: nothing is thrown, and every backend is handed,
    after what it had, exactly its lines for the records that reach the level
    of their proxy, in the order in which they were logged. *)
Theorem records_reach_backends (cs : list LogCall) (s : LM) :
  Forall lb_ok (logger_backend_vec s) → proxies_named s →
  Forall (λ c, is_Some (logger_proxy_map s !! lc_logger c)) cs →
  ∃ bs, mapM_ run_log_call cs s = (Ok tt, set_logger_backend_vec bs s) ∧
    Forall2 (handed (λ b, concat (map (call_lines (levels_of s) b) cs))) (logger_backend_vec s) bs.
Proof. apply log_calls_run. Qed.

(** Nothing is logged after the shutdown.  The proxies stay usable, but
    whatever is logged through them then is handed to no executor; what had
    been handed over before is still there to be written. *)
Theorem nothing_logged_after_shutdown (cs : list LogCall) (s : LM) :
  lm_state s ≠ kShutdown → Forall lb_ok (logger_backend_vec s) → proxies_named s →
  Forall (λ c, is_Some (logger_proxy_map s !! lc_logger c)) cs →
  ∃ s', (lm_Shutdown localtime regex_match;; mapM_ run_log_call cs) s = (Ok tt, s') ∧ lm_state s' = kShutdown ∧
    map lb_pending (logger_backend_vec s') = map lb_pending (logger_backend_vec s).
Proof.
  intros Hst Hok Hnamed Hcs.
  destruct (each_ok lb_Shutdown (λ b b', lb_ok b' ∧ (∀ d, lb_lines b' d = []) ∧ lb_pending b' = lb_pending b)
    (logger_backend_vec s)) as (bs & Heach & Hall); [apply lb_Shutdown_ok|done|].
  set (s1 := set_lm_get_executor_func None (set_gen_func_map ∅ (set_logger_backend_vec bs (set_lm_state kShutdown s)))).
  assert (lm_Shutdown localtime regex_match s = (Ok tt, s1)) as Hrun.
  { unfold lm_Shutdown, on_backends. unfold_monad. unfold state_eqb. rewrite bool_decide_eq_false_2 by done.
    cbn. by use_each Heach. }
  assert (Forall lb_ok bs ∧ map lb_pending bs = map lb_pending (logger_backend_vec s) ∧
    Forall (λ b, ∀ d, lb_lines b d = []) bs) as (Hok' & Hp & Hl).
  { clear -Hall. induction Hall as [|b b' bs bs' (H1 & H2 & H3) Hall (IH1 & IH2 & IH3)]; [done|].
    split_and!; [by constructor|by apply (f_equal2 cons)|by constructor]. }
  destruct (log_calls_run cs s1 Hok' Hnamed Hcs) as (bs' & Hrun' & Hall').
  exists (set_logger_backend_vec bs' s1). unfold mbind, M_bind. rewrite Hrun. split; [done|]. split; [done|].
  change (map lb_pending bs' = map lb_pending (logger_backend_vec s)). rewrite <-Hp.
  change (logger_backend_vec s1) with bs in Hall'. clear -Hl Hall'.
  revert Hl. induction Hall' as [|b b' l l' (_ & _ & H3) Hall IH]; [done|]. intros [Hb Hl]%Forall_cons.
  change (lb_pending b' :: map lb_pending l' = lb_pending b :: map lb_pending l).
  rewrite IH by done. f_equal. rewrite H3. replace (concat _) with (@nil bytes); [by rewrite app_nil_r|].
  symmetry. apply concat_nil_Forall, Forall_forall. intros x Hx%list_elem_of_In%in_map_iff.
  destruct Hx as (c & <- & _). unfold call_lines. destruct (_ !! lc_logger c); [|done]. rewrite Hb. by destruct (_ <=? _).
Qed.
(** ** Levels: an abstract table *)

Inductive level_call :=
| AskProxy (logger_name : string)
| AskModuleProxy (module_info : ModuleDetailInfo)
| CallStart
| CallSetLevels (lvls : gmap string log_level)
| CallShutdown
| CallLog (c : LogCall).

(** What it does to the manager; what it throws is caught by the caller. *)
Definition run_level_call (c : level_call) (s : LM) : LM :=
  match c with
  | AskProxy name => (GetLoggerProxy name s).2
  | AskModuleProxy i => (GetLoggerProxy_module i s).2
  | CallStart => (lm_Start localtime regex_match s).2
  | CallSetLevels lvls => (SetLoggerLevels lvls s).2
  | CallShutdown => (lm_Shutdown localtime regex_match s).2
  | CallLog c => (run_log_call c s).2
  end.

(** The table of levels, which grows while the manager is initialized and is
    changed, but does not grow, once it has been started. *)
Definition ask (name : string) (lvl : log_level) (levels : gmap string log_level) : gmap string log_level :=
  <[name := default lvl (levels !! name)]> levels.

Definition level_step (o : LoggerOptions node) (c : level_call) (t : State * gmap string log_level)
    : State * gmap string log_level :=
  let '(st, levels) := t in
  match c with
  | AskProxy name => (st, if state_eqb st kInit then ask (real_name name) (core_lvl o) levels else levels)
  | AskModuleProxy i =>
      (st, if state_eqb st kInit then ask (real_name (mi_name i)) (module_level o i) levels else levels)
  | CallStart => (kStart, levels)
  | CallSetLevels lvls => (st, if state_eqb st kStart then map_imap (λ name old, Some (default old (lvls !! name))) levels else levels)
  | CallShutdown => (kShutdown, levels)
  | CallLog _ => (st, levels)
  end.

Definition abstract_levels (s : LM) : State * gmap string log_level := (lm_state s, levels_of s).

Lemma emplace_proxy_levels (name : string) (lvl : log_level) (m : gmap string LoggerProxy) :
  lp_lvl <$> emplace_proxy name lvl m = ask name lvl (lp_lvl <$> m).
Proof.
  unfold emplace_proxy, ask. rewrite lookup_fmap. destruct (m !! name) as [p|] eqn:Hm; cbn.
  - symmetry. apply insert_id. by rewrite lookup_fmap, Hm.
  - by rewrite fmap_insert.
Qed.

Lemma set_levels_lookup (l : list (string * log_level)) (m : gmap string LoggerProxy) name :
  NoDup l.*1 →
  foldr (λ '(name, lvl) m, alter (SetLogLevel lvl) name m) m l !! name =
  (λ p, match (list_to_map l : gmap string log_level) !! name with Some lvl => SetLogLevel lvl p | None => p end) <$> m !! name.
Proof.
  induction l as [|[n lvl] l IH]; intros Hnd; cbn; [by destruct (m !! name)|].
  apply NoDup_cons in Hnd as [Hn Hnd]. destruct (decide (n = name)) as [->|Hne].
  - rewrite lookup_alter_eq, IH, lookup_insert_eq by done.
    rewrite (not_elem_of_list_to_map_1 l name Hn). by destruct (m !! name).
  - by rewrite lookup_alter_ne, lookup_insert_ne, IH by done.
Qed.

Lemma set_levels_levels (lvls : gmap string log_level) (m : gmap string LoggerProxy) :
  lp_lvl <$> foldr (λ '(name, lvl) m, alter (SetLogLevel lvl) name m) m (map_to_list lvls) =
  map_imap (λ name old, Some (default old (lvls !! name))) (lp_lvl <$> m).
Proof.
  apply map_eq. intros name. rewrite map_lookup_imap, !lookup_fmap, set_levels_lookup, list_to_map_to_list
    by apply NoDup_fst_map_to_list.
  destruct (m !! name) as [p|]; cbn; [|done]. by destruct (lvls !! name).
Qed.

Lemma lm_when_run (st : State) (what : string) (s : LM) :
  lm_when st what s = (if state_eqb (lm_state s) st then Ok tt else Throw (AimRTException what), s).
Proof. unfold lm_when. unfold_monad. by destruct (state_eqb _ _). Qed.

Lemma on_backends_frame (m : M (list B) unit) (s : LM) : ∃ r bs, on_backends m s = (r, set_logger_backend_vec bs s).
Proof. unfold on_backends, zoom. destruct (m (logger_backend_vec s)) as [r bs]. by exists r, bs. Qed.

Ltac frame_backends :=
  match goal with |- context [on_backends ?m ?s] => destruct (on_backends_frame m s) as (r & bs & ->) end.

Lemma level_call_step (c : level_call) (s : LM) :
  abstract_levels (run_level_call c s) = level_step (lm_options s) c (abstract_levels s) ∧
  lm_options (run_level_call c s) = lm_options s.
Proof.
  destruct c; cbn [run_level_call level_step abstract_levels].
  - unfold GetLoggerProxy, lm_when_init, mbind, M_bind. rewrite lm_when_run. destruct (state_eqb _ _); [|done].
    split; [|done]. unfold abstract_levels, levels_of. cbn. by rewrite emplace_proxy_levels.
  - unfold GetLoggerProxy_module, lm_when_init, mbind, M_bind. rewrite lm_when_run. destruct (state_eqb _ _); [|done].
    split; [|done]. unfold abstract_levels, levels_of. cbn. by rewrite emplace_proxy_levels.
  - unfold lm_Start, check_throw, mbind, M_bind, get, put. destruct (state_eqb _ _); [|done]. cbn.
    by frame_backends.
  - unfold SetLoggerLevels, lm_when_start, mbind, M_bind. rewrite lm_when_run. destruct (state_eqb _ _); [|done].
    split; [|done]. unfold abstract_levels, levels_of. cbn. by rewrite set_levels_levels.
  - unfold lm_Shutdown, mbind, M_bind, get, put. destruct (state_eqb (lm_state s) kShutdown); [done|].
    frame_backends. by destruct r.
  - unfold run_log_call, proxy_Log, mbind, M_bind, get. destruct (_ !! _) as [p|]; [|done].
    by frame_backends.
Qed.

(** Levels.  Through any sequence of calls, in any state and whatever they
    throw, the state of the manager and the levels of its proxies follow the
    abstract table: a proxy gets its level when it is first asked for, which is
    when the manager is initialized, that of the core, the default one or its
    module's own; later calls change the levels of the proxies they name, and
    only those, and make no proxy. *)
Theorem levels_follow_table (cs : list level_call) (s : LM) :
  abstract_levels (fold_left (λ s c, run_level_call c s) cs s) =
  fold_left (λ t c, level_step (lm_options s) c t) cs (abstract_levels s).
Proof.
  revert s. induction cs as [|c cs IH]; intros s; cbn; [done|].
  destruct (level_call_step c s) as [Hstep Hopt]. by rewrite IH, Hstep, Hopt.
Qed.
End ManagerTheorems.

(** * What the console prints *)

(** With colours, a line of a level other than "Trace" between two codes. *)
Definition painted (o : ConsoleOptions) (w : log_level * bytes) : bytes :=
  let color := default [] (kColorArray !! level_number w.1) in
  (if print_color o then match color with [] => w.2 | _ => color ++ w.2 ++ CC_NONE end else w.2) ++ ["010"%char].

Lemma console_log_work_ok (o : ConsoleOptions) (w : log_level * bytes) :
  w.1 ≠ AIMRT_LOG_LEVEL_OFF ∨ print_color o = false → console_log_work o w.1 w.2 = Ok (painted o w).
Proof.
  intros Hw. unfold console_log_work, painted. destruct (print_color o); [|done].
  destruct Hw as [Hw|]; [|done]. by destruct w as [[] line].
Qed.

(** The console.  Run one after the other, the tasks of the console print
    every line that was handed over, once, in order, between the codes of its
    level's colour; but with colours a line of the level "Off" indexes the
    table of colours out of bounds. *)
Theorem console_prints (s : ConsoleLoggerBackend) (out : bytes) :
  (Forall (λ w, w.1 ≠ AIMRT_LOG_LEVEL_OFF ∨ print_color (cl_options s) = false) (cl_pending s) →
   mapM_ (λ _, run_console_task) (cl_pending s) (s, out) =
     (Ok tt, (set_cl_pending [] s, out ++ concat (map (painted (cl_options s)) (cl_pending s))))) ∧
  ∀ line ws, cl_pending s = (AIMRT_LOG_LEVEL_OFF, line) :: ws → print_color (cl_options s) = true →
    (run_console_task (s, out)).1 = Undef.
Proof.
  split.
  - remember (cl_pending s) as ws eqn:Hws. intros Hall. revert s out Hws Hall.
    induction ws as [|[lvl line] ws IH]; intros s out Hws Hall; cbn [mapM_].
    + rewrite app_nil_r. by destruct s; cbn in *; subst.
    + apply Forall_cons in Hall as [Hw Hall]. unfold mbind, M_bind, run_console_task at 1. rewrite <-Hws.
      pose proof (console_log_work_ok _ (lvl, line) Hw) as Hwork. cbn [fst snd] in Hwork. rewrite Hwork. rewrite (IH (set_cl_pending ws s)) by done.
      by rewrite <-app_assoc.
  - intros line ws Hws Hcolor. unfold run_console_task. rewrite Hws. unfold console_log_work. by rewrite Hcolor.
Qed.

(** * Witnesses *)

Module LoggerDemo.
(** No backends of users. *)
#[global] Instance none_base : LoggerBackendBase Empty_set tree := {
  lb_Type u := match u with end;
  lb_AllowDuplicates u := match u with end;
  lb_Initialize _ := λ u, match u with end;
  lb_Start := λ u, match u with end;
  lb_Shutdown := λ u, match u with end;
  lb_GenInitializationReport u := match u with end;
  lb_Log _ := λ u, match u with end
}.
#[global] Program Instance none_laws : LoggerBackendLaws Empty_set tree := {
  lb_fresh u := True; lb_ok u := True; lb_lines u := match u with end; lb_pending u := match u with end
}.
Solve All Obligations with by intros; match goal with u : Empty_set |- _ => destruct u end.

Definition no_time (_ : Z) : tm := mkTm 0 0 0 0 0 0 0.
#[global] Instance no_time_valid : ValidLocaltime no_time.
Proof. intros t. cbn. lia. Qed.
Definition all_match (_ _ : string) : res bool := Ok true.
Definition executors (name : string) : option bool := Some true.
#[global] Instance demo_base : LoggerBackendBase (LoggerBackend Empty_set) tree := logger_backend_base no_time all_match.

Abbreviation LM := (LoggerManager (U := Empty_set) (node := tree)).

Definition config : tree :=
  TMap [("core_lvl", TStr "warn");
        ("backends", TSeq [TMap [("type", TStr "console"); ("options", TMap [("pattern", TStr "%l %v")])];
                           TMap [("type", TStr "rotate_file")]; TMap [("type", TStr "rotate_file")]])].
Definition fresh_manager : LM := set_lm_get_executor_func (Some executors) LoggerManager_new.
Definition initialized : LM := (lm_Initialize no_time all_match (Some config) fresh_manager).2.

Lemma initialized_run : lm_Initialize no_time all_match (Some config) fresh_manager = (Ok tt, initialized).
Proof.
  assert ((lm_Initialize no_time all_match (Some config) fresh_manager).1 = Ok tt) as H by by vm_compute.
  unfold initialized. by rewrite <-H, <-surjective_pairing.
Qed.

Definition console : ConsoleLoggerBackend :=
  mkConsole console_default true ∅ (SetPattern (lit "%l %v") LogFormatter_new).2 (lit "%l %v") [].
Definition manager : LM :=
  mkLM logger_default kStart false (Some executors) ∅ [BConsole (Some executors) console]
    {["m" := mkLoggerProxy "m" AIMRT_LOG_LEVEL_INFO]}.
Definition call (lvl : log_level) (text : string) : LogCall := mkLogCall "m" 1 0 lvl 7 (lit "f.cc") (lit "f") (lit text).
Definition calls : list LogCall := [call AIMRT_LOG_LEVEL_DEBUG "low"; call AIMRT_LOG_LEVEL_ERROR "high"].

Lemma manager_ok : Forall (lb_ok (LoggerBackendLaws := backend_laws no_time all_match)) (logger_backend_vec manager).
Proof. repeat constructor. apply filter_cached_empty. Qed.
Lemma manager_named : proxies_named manager.
Proof.
  intros name p. cbn [manager logger_proxy_map]. by intros [<- <-]%lookup_singleton_Some.
Qed.
Lemma calls_known : Forall (λ c, is_Some (logger_proxy_map manager !! lc_logger c)) calls.
Proof. repeat constructor; by eexists. Qed.

(** The record below the level of the proxy is not printed. *)
Example printed :
  (run_console_task (set_cl_pending [(AIMRT_LOG_LEVEL_ERROR, lit "Error high")] console, [])).2.2 =
  escape "[0;35m" ++ lit "Error high" ++ CC_NONE ++ ["010"%char].
Proof. reflexivity. Qed.
End LoggerDemo.

Lemma logger_initialize_builds_witness :
  map lb_Type (logger_backend_vec LoggerDemo.initialized) = (logger_backends_options (lm_options LoggerDemo.initialized)).*1.
Proof.
  apply (logger_initialize_builds LoggerDemo.no_time LoggerDemo.all_match (Some LoggerDemo.config) LoggerDemo.fresh_manager
    LoggerDemo.initialized); [reflexivity| |exact LoggerDemo.initialized_run].
  intros t gen f b Ht. discriminate Ht.
Defined.

Lemma records_reach_backends_witness :
  ∃ bs, mapM_ (run_log_call LoggerDemo.no_time LoggerDemo.all_match) LoggerDemo.calls LoggerDemo.manager =
    (Ok tt, set_logger_backend_vec bs LoggerDemo.manager).
Proof.
  destruct (records_reach_backends LoggerDemo.no_time LoggerDemo.all_match LoggerDemo.calls LoggerDemo.manager
    LoggerDemo.manager_ok LoggerDemo.manager_named LoggerDemo.calls_known) as (bs & H & _).
  exists bs. exact H.
Defined.

Lemma nothing_logged_after_shutdown_witness :
  ∃ s', (lm_Shutdown LoggerDemo.no_time LoggerDemo.all_match;;
         mapM_ (run_log_call LoggerDemo.no_time LoggerDemo.all_match) LoggerDemo.calls) LoggerDemo.manager = (Ok tt, s').
Proof.
  destruct (nothing_logged_after_shutdown LoggerDemo.no_time LoggerDemo.all_match LoggerDemo.calls LoggerDemo.manager
    ltac:(discriminate) LoggerDemo.manager_ok LoggerDemo.manager_named LoggerDemo.calls_known) as (s' & H & _).
  exists s'. exact H.
Defined.

Lemma console_prints_witness :
  let s := set_cl_pending [(AIMRT_LOG_LEVEL_ERROR, lit "x")] LoggerDemo.console in
  mapM_ (λ _, run_console_task) (cl_pending s) (s, []) =
    (Ok tt, (set_cl_pending [] s, concat (map (painted (cl_options s)) (cl_pending s)))).
Proof.
  intros s. apply (proj1 (console_prints s [])). apply Forall_singleton. left. discriminate.
Defined.
