(* ===== verification/Sync.v ===== *)
(** * Synchronization: [src/common/util/block_queue.h], [dynamiclatch.h] and
    [light_signal.h]

    Three objects that threads share.  What a thread does to an object in one
    atomic action, or while it holds the mutex, is a function; the steps of a
    relation interleave the actions of any number of threads.  A condition
    variable, and waiting on an atomic variable, may wake up for no reason.

    Theorems: the queue loses, duplicates and reorders nothing, and no thread
    sleeps while there is something that nobody has been woken up for; the
    latch counts exactly, closing it and waiting returns only when all that
    was added has been counted down, and no waiter sleeps for ever; a latch
    that is counted down too far is broken; a signal may be awaited in vain, or
    be reported without having been given. *)

From S2P Require Import Prelude.

(** ** Threads in a list *)

Section Sums.
Context {A : Type} (f : A → Z).

Fixpoint sumZ (l : list A) : Z := match l with [] => 0%Z | x :: l' => (f x + sumZ l')%Z end.

Lemma sumZ_insert (l : list A) i x y : l !! i = Some x → sumZ (<[i := y]> l) = (sumZ l - f x + f y)%Z.
Proof.
  revert i. induction l as [|z l IH]; intros [|i] Hi; cbn in Hi; [done|done|injection Hi as ->; cbn; lia|].
  change (f z + sumZ (<[i := y]> l) = f z + sumZ l - f x + f y)%Z. rewrite (IH i Hi). lia.
Qed.
Lemma sumZ_app (l l' : list A) : sumZ (l ++ l') = (sumZ l + sumZ l')%Z.
Proof. induction l as [|z l IH]; cbn; [lia|]. rewrite IH. lia. Qed.
Lemma sumZ_nonneg (l : list A) : (∀ x, (0 ≤ f x)%Z) → (0 ≤ sumZ l)%Z.
Proof. intros Hf. induction l as [|x l IH]; cbn; [lia|]. specialize (Hf x). lia. Qed.
Lemma sumZ_elem (l : list A) i x : (∀ x, (0 ≤ f x)%Z) → l !! i = Some x → (f x ≤ sumZ l)%Z.
Proof.
  intros Hf. revert i. induction l as [|z l IH]; intros [|i] Hi; cbn in *; [done|done| |].
  - injection Hi as ->. pose proof (sumZ_nonneg l Hf). lia.
  - specialize (IH i Hi). specialize (Hf z). lia.
Qed.
End Sums.

(** * The queue *)

Module BlockQueue.
Section BlockQueue.
Context {T : Type}.

(* @src src/src/common/util/block_queue.h:77-81 BlockQueue *)
Record BlockQueue := mkQueue { queue : list T; running_flag : bool }.
Definition BlockQueue_new : BlockQueue := mkQueue [] true.

(** What the methods do while they hold the mutex. *)
(* @src src/src/common/util/block_queue.h:28-33 BlockQueue::Enqueue *)
Definition Enqueue (item : T) : M BlockQueue unit :=
  q ← get;
  if running_flag q then put (mkQueue (queue q ++ [item]) true) else throw BlockQueueStoppedException.

(** The first item, or nothing to return yet. *)
(* @src src/src/common/util/block_queue.h:42-49 BlockQueue::Dequeue *)
Definition Dequeue : M BlockQueue (option T) :=
  q ← get;
  if running_flag q then
    match queue q with
    | [] => mret None
    | item :: items => put (mkQueue items true);; mret (Some item)
    end
  else throw BlockQueueStoppedException.

(* @src src/src/common/util/block_queue.h:51-59 BlockQueue::TryDequeue *)
Definition TryDequeue : M BlockQueue (option T) :=
  q ← get;
  match queue q with
  | item :: items => if running_flag q then put (mkQueue items true);; mret (Some item) else mret None
  | [] => mret None
  end.

(* @src src/src/common/util/block_queue.h:61-65 BlockQueue::Stop *)
Definition Stop : M BlockQueue unit := modify (λ q, mkQueue (queue q) false).

(* @src src/src/common/util/block_queue.h:67-70 BlockQueue::Size *)
Definition Size (q : BlockQueue) : Z := Z.of_nat (length (queue q)).
(* @src src/src/common/util/block_queue.h:72-75 BlockQueue::IsRunning *)
Definition IsRunning (q : BlockQueue) : bool := running_flag q.

(** ** Threads

    The threads inside [Dequeue] sleep on the condition variable or have been
    woken up and are about to test the queue again; [entered] and [taken] are
    the items put in and taken out, in order. *)
Record System := mkSystem {
  the_queue : BlockQueue;
  sleeping : nat;
  woken : nat;
  entered : list T;
  taken : list T
}.

Definition start : System := mkSystem BlockQueue_new 0 0 [] [].

(** [notify_one] wakes up a sleeping thread, if there is one. *)
Definition notify_one (s : System) : System :=
  match sleeping s with
  | 0 => s
  | S n => mkSystem (the_queue s) n (S (woken s)) (entered s) (taken s)
  end.
Definition notify_all (s : System) : System :=
  mkSystem (the_queue s) 0 (sleeping s + woken s) (entered s) (taken s).

(** The outcome of [Dequeue] or [TryDequeue]. *)
Definition take (r : res (option T)) (q : BlockQueue) (s : System) : System :=
  mkSystem q (sleeping s) (woken s) (entered s) (match r with Ok (Some item) => taken s ++ [item] | _ => taken s end).
(** A thread that finds nothing goes to sleep. *)
Definition sleep_if_none (r : res (option T)) (s : System) : System :=
  match r with
  | Ok None => mkSystem (the_queue s) (S (sleeping s)) (woken s) (entered s) (taken s)
  | _ => s
  end.
Definition one_less_woken (s : System) : System :=
  mkSystem (the_queue s) (sleeping s) (pred (woken s)) (entered s) (taken s).

Inductive qstep : System → System → Prop :=
| q_enqueue s item q :
    Enqueue item (the_queue s) = (Ok tt, q) →
    qstep s (notify_one (mkSystem q (sleeping s) (woken s) (entered s ++ [item]) (taken s)))
| q_enqueue_stopped s item e q : Enqueue item (the_queue s) = (Throw e, q) → qstep s s
| q_dequeue s r q : Dequeue (the_queue s) = (r, q) → qstep s (sleep_if_none r (take r q s))
| q_woken s r q : 0 < woken s → Dequeue (the_queue s) = (r, q) → qstep s (sleep_if_none r (take r q (one_less_woken s)))
| q_try s r q : TryDequeue (the_queue s) = (r, q) → qstep s (take r q s)
| q_stop s q : Stop (the_queue s) = (Ok tt, q) →
    qstep s (notify_all (mkSystem q (sleeping s) (woken s) (entered s) (taken s)))
| q_spurious s n : sleeping s = S n → qstep s (mkSystem (the_queue s) n (S (woken s)) (entered s) (taken s)).

Record queue_inv (s : System) : Prop := {
  qi_fifo : entered s = taken s ++ queue (the_queue s);
  qi_woken : 0 < sleeping s → running_flag (the_queue s) = true ∧ length (queue (the_queue s)) ≤ woken s
}.

Lemma qstep_inv s s' : qstep s s' → queue_inv s → queue_inv s'.
Proof.
  intros Hstep [Hf Hw]. destruct Hstep as [s item q Hq|s item e q Hq|s r q Hq|s r q Hpos Hq|s r q Hq|s q Hq|s n Hn];
    destruct s as [[items run] sl wo en ta]; cbn in *.
  - unfold Enqueue in Hq. unfold_monad. destruct run; [|done]. injection Hq as <-.
    unfold notify_one. cbn. destruct sl as [|sl]; split; cbn; rewrite ?Hf, ?app_assoc; try done; try lia.
    intros _. destruct Hw as [_ Hw]; [lia|]. rewrite length_app. cbn. split; [done|lia].
  - by split.
  - unfold Dequeue in Hq. unfold_monad. destruct run; [|by injection Hq as <- <-].
    destruct items as [|item items]; injection Hq as <- <-; split; cbn; rewrite ?Hf, <-?app_assoc; try done.
    + intros _. split; [done|lia].
    + intros Hsl. destruct (Hw Hsl) as [_ Hle]. cbn in Hle. split; [done|lia].
  - unfold Dequeue in Hq. unfold_monad. destruct run.
    + destruct items as [|item items]; injection Hq as <- <-; split; cbn; rewrite ?Hf, <-?app_assoc; try done.
      * intros _. split; [done|lia].
      * intros Hsl. destruct (Hw Hsl) as [_ Hle]. cbn in Hle. split; [done|lia].
    + injection Hq as <- <-. split; cbn; [done|]. intros Hsl. by destruct (Hw Hsl).
  - unfold TryDequeue in Hq. unfold_monad. destruct items as [|item items]; [by injection Hq as <- <-|].
    destruct run; injection Hq as <- <-; split; cbn; rewrite ?Hf, <-?app_assoc; try done.
    intros Hsl. destruct (Hw Hsl) as [_ Hle]. cbn in Hle. split; [done|lia].
  - unfold Stop in Hq. unfold_monad. injection Hq as <-. split; cbn; [done|lia].
  - split; cbn; [done|]. intros Hsl. destruct Hw as [Hr Hle]; [lia|]. split; [done|lia].
Qed.

Lemma queue_reachable s : rtc qstep start s → queue_inv s.
Proof.
  intros Hr. assert (queue_inv start) as H0 by (split; cbn; [done|lia]).
  induction Hr as [|x y z Hstep _ IH]; [done|]. apply IH. by apply (qstep_inv x).
Qed.

(** C34: The blocking queue.  Whatever producers, consumers and a thread that
    stops it do, in any interleaving and with any spurious wake-ups: the items
    taken out are the first of those put in, in order, and the rest are in the
    queue; a thread sleeps only while the queue runs and has no more items than
    there are threads that have been woken up to take them. *)
Theorem block_queue_safe s :
  rtc qstep start s →
  entered s = taken s ++ queue (the_queue s) ∧
  (0 < sleeping s → running_flag (the_queue s) = true ∧ length (queue (the_queue s)) ≤ woken s).
Proof. intros Hr. by destruct (queue_reachable s Hr). Qed.
End BlockQueue.
End BlockQueue.

(** * The latch *)

Module Latch.
Local Open Scope Z_scope.

(* @src src/src/common/util/dynamiclatch.h:114-117 DynamicLatch::CLOSED_FLAG *)
Definition CLOSED_FLAG : Z := Z.shiftl 1 63.
Definition COUNT_MASK : Z := Z.ones 63.

(* @src src/src/common/util/dynamiclatch.h:106-108 DynamicLatch::GetCount *)
Definition GetCount (state : Z) : Z := Z.land state COUNT_MASK.
(* @src src/src/common/util/dynamiclatch.h:110-112 DynamicLatch::IsClosed *)
Definition IsClosed (state : Z) : bool := negb (Z.land state CLOSED_FLAG =? 0).

(** Where a thread is in a method: which atomic action is next, with what it
    has loaded; or that it sleeps, or has returned. *)
Inductive pc :=
| TryAdd_load (delta : Z)
| TryAdd_cas (delta current_state : Z)
| CountDown_sub (delta : Z)
| Close_load
| Close_cas (current_state : Z)
| Wait_load
| Wait_on (current_state : Z)
| Asleep (current_state : Z)
| Notify
| Returned (r : res bool).

(** A weak compare-and-swap may fail for no reason; it loads what it has found. *)
(* @src src/src/common/util/dynamiclatch.h:35-50 DynamicLatch::TryAdd *)
Definition TryAdd_act (delta current_state : Z) (spurious : bool) (state : Z) : pc * Z :=
  if IsClosed current_state then (Returned (Ok false), state)
  else if (state =? current_state) && negb spurious then (Returned (Ok true), wrap64 (current_state + delta))
  else (TryAdd_cas delta state, state).

(* @src src/src/common/util/dynamiclatch.h:52-61 DynamicLatch::CountDown *)
Definition CountDown_act (delta state : Z) : pc * Z :=
  let prev_count := GetCount state in
  (if prev_count <? delta then Returned (Throw (AimRTException "DynamicLatch::CountDown underflow."))
   else if prev_count =? delta then Notify else Returned (Ok true),
   wrap64 (state - delta)).

(* @src src/src/common/util/dynamiclatch.h:63-81 DynamicLatch::Close *)
Definition Close_act (current_state : Z) (spurious : bool) (state : Z) : pc * Z :=
  if IsClosed current_state then (Returned (Ok true), state)
  else if (state =? current_state) && negb spurious then
    let new_state := Z.lor current_state CLOSED_FLAG in
    (if GetCount new_state =? 0 then Notify else Returned (Ok true), new_state)
  else (Close_cas state, state).

(** One atomic action of a thread; none when it sleeps or has returned.
    [state_.wait] goes to sleep when the state is still the one loaded, and
    looks again when it is woken up. *)
(* @src src/src/common/util/dynamiclatch.h:83-90 DynamicLatch::Wait *)
Definition act (p : pc) (spurious : bool) (state : Z) : option (pc * Z) :=
  match p with
  | TryAdd_load delta => Some (TryAdd_cas delta state, state)
  | TryAdd_cas delta current_state => Some (TryAdd_act delta current_state spurious state)
  | CountDown_sub delta => Some (CountDown_act delta state)
  | Close_load => Some (Close_cas state, state)
  | Close_cas current_state => Some (Close_act current_state spurious state)
  | Wait_load => Some (if GetCount state =? 0 then Returned (Ok true) else Wait_on state, state)
  | Wait_on current_state =>
      Some (if (state =? current_state) && negb spurious then Asleep current_state else Wait_load, state)
  | Asleep current_state => if spurious then Some (Wait_on current_state, state) else None
  | Notify => Some (Returned (Ok true), state)
  | Returned _ => None
  end.

#[export] Instance pc_eq_dec : EqDecision pc.
Proof. solve_decision. Defined.

Definition wake (p : pc) : pc := match p with Asleep current_state => Wait_on current_state | _ => p end.

(** ** Threads

    [tickets] is what has been added and is still to be counted down: a caller
    of [CountDown] hands in what it was given, which is what the latch is for. *)
Record System := mkLatch { latch_state : Z; tickets : Z; threads : list pc }.

Definition start : System := mkLatch 0 0 [].

Definition call (p : pc) (s : System) : System := mkLatch (latch_state s) (tickets s) (threads s ++ [p]).

(** What is added when an action is taken. *)
Definition gained (p p' : pc) : Z :=
  match p, p' with TryAdd_cas delta _, Returned (Ok true) => delta | _, _ => 0 end.

Inductive lstep : System → System → Prop :=
| l_call s p : p ∈ [Close_load; Wait_load] → lstep s (call p s)
| l_try_add s delta : 0 < delta → lstep s (call (TryAdd_load delta) s)
| l_count_down s delta : 0 < delta ≤ tickets s →
    lstep s (mkLatch (latch_state s) (tickets s - delta) (threads s ++ [CountDown_sub delta]))
| l_act s i p spurious p' state' :
    threads s !! i = Some p → act p spurious (latch_state s) = Some (p', state') →
    (∀ delta current_state, p = TryAdd_cas delta current_state → GetCount (latch_state s) + delta < 2 ^ 63) →
    lstep s (mkLatch state' (tickets s + gained p p')
      (let ts := <[i := p']> (threads s) in if decide (p = Notify) then wake <$> ts else ts)).

(** ** The state word *)

Lemma GetCount_mod (state : Z) : GetCount state = state mod 2 ^ 63.
Proof. unfold GetCount, COUNT_MASK. by apply Z.land_ones. Qed.

Lemma GetCount_range (state : Z) : 0 ≤ GetCount state < 2 ^ 63.
Proof. rewrite GetCount_mod. by apply Z.mod_pos_bound. Qed.

Lemma land_flag (state : Z) : Z.land state CLOSED_FLAG = Z.b2z (Z.testbit state 63) * 2 ^ 63.
Proof.
  unfold CLOSED_FLAG. rewrite Z.shiftl_1_l. apply Z.bits_inj'. intros n Hn.
  rewrite Z.land_spec, Z.pow2_bits_eqb, Z.mul_pow2_bits by lia.
  destruct (Z.eqb_spec 63 n) as [<-|Hne].
  - rewrite Z.sub_diag, andb_true_r. by destruct (Z.testbit state 63).
  - rewrite andb_false_r. destruct (Z.testbit state 63); cbn [Z.b2z].
    + symmetry. destruct (Z.ltb_spec n 63); [apply Z.testbit_neg_r; lia|].
      change 1 with (2 ^ 0). apply Z.pow2_bits_false. lia.
    + symmetry. apply Z.testbit_0_l.
Qed.

Lemma IsClosed_ge (state : Z) : in_width 64 state → IsClosed state = (2 ^ 63 <=? state).
Proof.
  intros Hs. unfold in_width in Hs. unfold IsClosed. rewrite land_flag.
  pose proof (Z.testbit_spec' state 63 ltac:(lia)) as Hbit.
  destruct (Z.leb_spec (2 ^ 63) state).
  - assert (state / 2 ^ 63 = 1) as Hq by (symmetry; apply (Z.div_unique_pos _ _ _ (state - 2 ^ 63)); lia).
    rewrite Hq in Hbit. by destruct (Z.testbit state 63).
  - rewrite Z.div_small in Hbit by lia. by destruct (Z.testbit state 63).
Qed.

(** A state in range is its count, with the flag. *)
Lemma state_parts (state : Z) :
  in_width 64 state → state = GetCount state + (if IsClosed state then 2 ^ 63 else 0).
Proof.
  intros Hs. rewrite (IsClosed_ge state Hs), GetCount_mod. unfold in_width in Hs.
  destruct (Z.leb_spec (2 ^ 63) state).
  - rewrite <-(Z_mod_plus_full (state) (-1)), Z.mod_small by lia. lia.
  - rewrite Z.mod_small by lia. lia.
Qed.

Lemma parts_state (count : Z) (closed : bool) :
  0 ≤ count < 2 ^ 63 → let state := count + (if closed then 2 ^ 63 else 0) in
  in_width 64 state ∧ GetCount state = count ∧ IsClosed state = closed.
Proof.
  intros Hc state. assert (in_width 64 state) as Hs by (unfold in_width, state; destruct closed; lia).
  split; [done|]. rewrite (IsClosed_ge state Hs), GetCount_mod. unfold state. destruct closed.
  - split; [|apply Z.leb_le; lia]. rewrite <-(Z_mod_plus_full (count + 2 ^ 63) (-1)). rewrite Z.mod_small; lia.
  - split; [rewrite Z.mod_small; lia|apply Z.leb_gt; lia].
Qed.

Lemma lor_flag (state : Z) : in_width 64 state → IsClosed state = false → Z.lor state CLOSED_FLAG = state + 2 ^ 63.
Proof.
  intros Hs Hc. pose proof (Z.add_lor_land state CLOSED_FLAG) as H. unfold IsClosed in Hc.
  apply negb_false_iff, Z.eqb_eq in Hc. rewrite Hc in H. change CLOSED_FLAG with (2 ^ 63) in *. lia.
Qed.
(** ** The invariant of all interleavings *)

(** What a thread is about to count down. *)
Definition pending (p : pc) : Z := match p with CountDown_sub delta => delta | _ => 0 end.

Definition thread_ok (p : pc) : Prop :=
  match p with
  | TryAdd_load delta | TryAdd_cas delta _ | CountDown_sub delta => 0 < delta
  | Wait_on current_state | Asleep current_state => GetCount current_state ≠ 0
  | Returned r => is_ok r = true
  | _ => True
  end.

(** What an action does. *)
Record act_effect (p p' : pc) (state state' : Z) : Prop := {
  ae_width : in_width 64 state';
  ae_thread : thread_ok p' ∧ pending p' = 0;
  ae_count : GetCount state' = GetCount state + gained p p' - pending p;
  ae_gained : 0 ≤ gained p p';
  ae_closed : IsClosed state = true → IsClosed state' = true ∧ gained p p' = 0;
  ae_asleep current_state : p' = Asleep current_state → GetCount state' ≠ 0;
  ae_notify : GetCount state' = 0 → GetCount state ≠ 0 → p' = Notify
}.

Lemma same_state_effect (p p' : pc) (state : Z) :
  in_width 64 state → thread_ok p' → pending p' = 0 → pending p = 0 → gained p p' = 0 →
  (∀ current_state, p' = Asleep current_state → GetCount state ≠ 0) → act_effect p p' state state.
Proof. intros H1 H2 H3 H4 H5 H6. split; rewrite ?H4, ?H5; auto; lia. Qed.

Lemma TryAdd_effect (delta cur : Z) (spurious : bool) (state : Z) :
  in_width 64 state → 0 < delta → GetCount state + delta < 2 ^ 63 →
  let r := TryAdd_act delta cur spurious state in act_effect (TryAdd_cas delta cur) r.1 state r.2.
Proof.
  intros Hs Hd Hov. unfold TryAdd_act. destruct (IsClosed cur) eqn:Hc; [by apply same_state_effect|].
  destruct (Z.eqb_spec state cur) as [<-|Hne]; [destruct spurious|]; cbn [andb negb fst snd]; try by apply same_state_effect.
  pose proof (state_parts state Hs) as Hparts. rewrite Hc in Hparts. pose proof (GetCount_range state) as Hr.
  destruct (parts_state (GetCount state + delta) false) as (H1 & H2 & H3); [lia|].
  assert (wrap64 (state + delta) = GetCount state + delta + 0) as -> by (rewrite wrap_small by (unfold in_width; lia); lia).
  split; cbn; try done; try lia. rewrite Hc. done.
Qed.

Lemma CountDown_effect (delta state : Z) :
  in_width 64 state → 0 < delta ≤ GetCount state →
  let r := CountDown_act delta state in act_effect (CountDown_sub delta) r.1 state r.2.
Proof.
  intros Hs Hd. unfold CountDown_act. rewrite (proj2 (Z.ltb_ge _ _)) by lia. cbn [fst snd].
  pose proof (state_parts state Hs) as Hparts. pose proof (GetCount_range state) as Hr.
  destruct (parts_state (GetCount state - delta) (IsClosed state)) as (H1 & H2 & H3); [lia|].
  assert (wrap64 (state - delta) = GetCount state - delta + (if IsClosed state then 2 ^ 63 else 0)) as ->.
  { rewrite wrap_small; [lia|]. unfold in_width in *. lia. }
  destruct (Z.eqb_spec (GetCount state) delta); split; cbn; try done; try lia; by rewrite H3.
Qed.

Lemma Close_effect (cur : Z) (spurious : bool) (state : Z) :
  in_width 64 state → let r := Close_act cur spurious state in act_effect (Close_cas cur) r.1 state r.2.
Proof.
  intros Hs. unfold Close_act. destruct (IsClosed cur) eqn:Hc; [by apply same_state_effect|].
  destruct (Z.eqb_spec state cur) as [<-|Hne]; [destruct spurious|]; cbn [andb negb fst snd]; try by apply same_state_effect.
  pose proof (state_parts state Hs) as Hparts. rewrite Hc in Hparts.
  destruct (parts_state (GetCount state) true) as (H1 & H2 & H3); [apply GetCount_range|].
  rewrite (lor_flag state Hs Hc). replace (state + 2 ^ 63) with (GetCount state + 2 ^ 63) by lia.
  rewrite H2. destruct (Z.eqb_spec (GetCount state) 0); split; cbn; try done; lia.
Qed.

Lemma act_ok (p p' : pc) (spurious : bool) (state state' : Z) :
  act p spurious state = Some (p', state') → in_width 64 state → thread_ok p → pending p ≤ GetCount state →
  (∀ delta cur, p = TryAdd_cas delta cur → GetCount state + delta < 2 ^ 63) → act_effect p p' state state'.
Proof.
  intros Hact Hs Hp Hpend Hov.
  destruct p as [delta|delta cur|delta| |cur| |cur|cur| |r]; cbn in Hact, Hp, Hpend.
  - injection Hact as <- <-. by apply same_state_effect.
  - pose proof (TryAdd_effect delta cur spurious state Hs Hp (Hov _ _ eq_refl)) as H. apply (inj Some) in Hact. by rewrite Hact in H.
  - pose proof (CountDown_effect delta state Hs ltac:(lia)) as H. apply (inj Some) in Hact. by rewrite Hact in H.
  - injection Hact as <- <-. by apply same_state_effect.
  - pose proof (Close_effect cur spurious state Hs) as H. apply (inj Some) in Hact. by rewrite Hact in H.
  - injection Hact as <- <-. destruct (Z.eqb_spec (GetCount state) 0); by apply same_state_effect.
  - injection Hact as <- <-. destruct (Z.eqb_spec state cur) as [<-|]; [|by apply same_state_effect].
    destruct spurious; by apply same_state_effect.
  - destruct spurious; [injection Hact as <- <-|discriminate]. by apply same_state_effect.
  - injection Hact as <- <-. by apply same_state_effect.
  - discriminate.
Qed.
Record latch_inv (s : System) : Prop := {
  li_width : in_width 64 (latch_state s);
  li_count : GetCount (latch_state s) = tickets s + sumZ pending (threads s);
  li_tickets : 0 ≤ tickets s;
  li_threads : Forall thread_ok (threads s);
  li_wake : GetCount (latch_state s) = 0 → ∀ i cur, threads s !! i = Some (Asleep cur) →
    ∃ j, threads s !! j = Some Notify
}.

Lemma pending_nonneg (ts : list pc) : Forall thread_ok ts → 0 ≤ sumZ pending ts.
Proof.
  induction 1 as [|p ts Hp _ IH]; cbn; [lia|]. destruct p; cbn in *; lia.
Qed.

Lemma pending_elem (ts : list pc) i p : Forall thread_ok ts → ts !! i = Some p → pending p ≤ sumZ pending ts.
Proof.
  intros Hts. revert i. induction Hts as [|q ts Hq Hts IH]; intros [|i] Hi; cbn in *; [done|done| |].
  - injection Hi as ->. pose proof (pending_nonneg ts Hts). lia.
  - specialize (IH i Hi). destruct q; cbn in *; lia.
Qed.

Lemma sumZ_wake (ts : list pc) : sumZ pending (wake <$> ts) = sumZ pending ts.
Proof. induction ts as [|p ts IH]; cbn; [done|]. rewrite IH. by destruct p. Qed.

(** A call begins. *)
Lemma call_inv (s : System) (p : pc) (t : Z) :
  latch_inv s → thread_ok p → (∀ cur, p ≠ Asleep cur) → 0 ≤ t → t + pending p = tickets s →
  latch_inv (mkLatch (latch_state s) t (threads s ++ [p])).
Proof.
  intros [H1 H2 H3 H4 H5] Hp Hna Ht Hpend. split; cbn; [done| |done| |].
  - rewrite sumZ_app. cbn. lia.
  - apply Forall_app. by repeat constructor.
  - intros H0 i cur Hi. apply lookup_app_Some in Hi as [Hi|[_ Hi]].
    + destruct (H5 H0 i cur Hi) as [j Hj]. exists j. by apply lookup_app_l_Some.
    + apply list_lookup_singleton_Some in Hi as [_ Hi]. by destruct (Hna cur).
Qed.

Lemma lstep_inv (s s' : System) : lstep s s' → latch_inv s → latch_inv s'.
Proof.
  intros Hstep Hinv. destruct Hstep as [s p Hp|s delta Hd|s delta Hd|s i p spurious p' state' Hi Hact Hov].
  - assert (p = Close_load ∨ p = Wait_load) as Hp' by (rewrite !elem_of_cons, elem_of_nil in Hp; tauto).
    apply call_inv; [done|by destruct Hp' as [->| ->]|intros cur ->; by destruct Hp'|apply (li_tickets _ Hinv)|].
    destruct Hp' as [->| ->]; cbn; lia.
  - apply call_inv; [done|done|done|apply (li_tickets _ Hinv)|cbn; lia].
  - apply call_inv; [done|cbn; lia|done|lia|cbn; lia].
  - destruct Hinv as [H1 H2 H3 H4 H5]. pose proof (pending_elem _ _ _ H4 Hi) as Hpe.
    assert (thread_ok p) as Hp by by apply (Forall_lookup_1 _ _ _ _ H4 Hi).
    destruct (act_ok p p' spurious (latch_state s) state' Hact H1 Hp ltac:(lia) Hov) as [W1 [W2 W3] W4 W5 _ W7 W8].
    assert (sumZ pending (<[i := p']> (threads s)) = sumZ pending (threads s) - pending p + pending p') as Hsum
      by by apply sumZ_insert.
    assert (Forall thread_ok (<[i := p']> (threads s))) as Hok by by apply Forall_insert.
    split; cbn; [done| |lia| |].
    + destruct (decide (p = Notify)); rewrite ?sumZ_wake; lia.
    + destruct (decide (p = Notify)); [|done]. apply Forall_fmap. eapply Forall_impl; [exact Hok|]. by intros [].
    + intros H0 k cur. destruct (decide (p = Notify)) as [->|Hn].
      * rewrite list_lookup_fmap. destruct (_ !! k) as [[]|]; cbn; intros [=].
      * intros Hk. apply list_lookup_insert_Some in Hk as [(-> & Heq & _)|[Hki Hk]]; [by destruct (W7 cur)|].
        destruct (decide (GetCount (latch_state s) = 0)) as [Hz|Hz].
        -- destruct (H5 Hz k cur Hk) as [j Hj]. exists j. rewrite list_lookup_insert_ne; [done|].
           intros <-. congruence.
        -- exists i. rewrite list_lookup_insert_eq by by apply lookup_lt_Some in Hi. by rewrite W8.
Qed.

Lemma latch_reachable (s : System) : rtc lstep start s → latch_inv s.
Proof.
  intros Hr. assert (latch_inv start) as H0.
  { split; cbn; [by unfold in_width|by rewrite GetCount_mod|lia|constructor|by intros _ i cur]. }
  induction Hr as [|x y z Hstep _ IH]; [done|]. apply IH. by apply (lstep_inv x).
Qed.

Lemma lstep_closed (s s' : System) :
  lstep s s' → latch_inv s → IsClosed (latch_state s) = true →
  IsClosed (latch_state s') = true ∧ GetCount (latch_state s') ≤ GetCount (latch_state s).
Proof.
  intros Hstep Hinv Hc. destruct Hstep as [s p Hp|s delta Hd|s delta Hd|s i p spurious p' state' Hi Hact Hov]; [done..|].
  destruct Hinv as [H1 H2 H3 H4 H5]. pose proof (pending_elem _ _ _ H4 Hi) as Hpe.
  assert (thread_ok p) as Hp by by apply (Forall_lookup_1 _ _ _ _ H4 Hi).
  destruct (act_ok p p' spurious (latch_state s) state' Hact H1 Hp ltac:(lia) Hov) as [W1 W2 W4 W5 W6 W7 W8].
  destruct (W6 Hc) as [Hc' Hg]. split; [done|]. cbn. destruct p; cbn in *; lia.
Qed.

(** The latch.  In every interleaving in which the callers count down what
    they have added and no more, and less than 2^63 is added: the count is what
    is to be counted down still, no call of [CountDown] throws, and when the
    count is zero and a waiter sleeps, some thread is about to wake it up.
    Closing is for ever: from then on the count only falls, and once it is zero
    nothing is left to be counted down, then or later. *)
Theorem latch_counts (s s' : System) :
  rtc lstep start s → rtc lstep s s' →
  GetCount (latch_state s) = tickets s + sumZ pending (threads s) ∧
  (∀ i r, threads s !! i = Some (Returned r) → is_ok r = true) ∧
  (∀ i cur, GetCount (latch_state s) = 0 → threads s !! i = Some (Asleep cur) → ∃ j, threads s !! j = Some Notify) ∧
  (IsClosed (latch_state s) = true →
     IsClosed (latch_state s') = true ∧ GetCount (latch_state s') ≤ GetCount (latch_state s) ∧
     (GetCount (latch_state s) = 0 →
        tickets s' = 0 ∧ ∀ i delta, threads s' !! i ≠ Some (CountDown_sub delta))).
Proof.
  intros Hr Hr'. destruct (latch_reachable s Hr) as [H1 H2 H3 H4 H5]. split; [done|]. split.
  { intros i r Hi. by apply (Forall_lookup_1 _ _ _ _ H4 Hi). }
  split; [intros i cur H0 Hi; by apply (H5 H0 i cur)|]. intros Hc.
  assert (IsClosed (latch_state s') = true ∧ GetCount (latch_state s') ≤ GetCount (latch_state s)) as [Hc' Hle].
  { clear H1 H2 H3 H4 H5. induction Hr' as [|x y z Hstep _ IH]; [done|].
    destruct (lstep_closed x y Hstep (latch_reachable x Hr) Hc) as [Hcy Hley].
    destruct IH as [Hcz Hlez]; [eapply rtc_r; [exact Hr|exact Hstep]|done|]. split; [done|lia]. }
  split; [done|]. split; [done|]. intros H0.
  assert (rtc lstep start s') as Hr'' by by transitivity s.
  destruct (latch_reachable s' Hr'') as [K1 K2 K3 K4 _].
  pose proof (pending_nonneg _ K4). pose proof (GetCount_range (latch_state s')). split; [lia|].
  intros i delta Hi. pose proof (pending_elem _ _ _ K4 Hi) as Hpe.
  pose proof (Forall_lookup_1 _ _ _ _ K4 Hi) as Hd. cbn in *. lia.
Qed.

(** Counting down too far.  [CountDown] subtracts before it tests: the
    exception comes too late.  The state has borrowed from the flag: a latch
    that was open is closed, one that was closed is open again, and the count
    is enormous, so that a waiter sleeps. *)
Theorem underflow_breaks_latch (delta state : Z) :
  in_width 64 state → 0 ≤ GetCount state < delta → delta < 2 ^ 63 →
  ∃ state', CountDown_act delta state =
      (Returned (Throw (AimRTException "DynamicLatch::CountDown underflow.")), state') ∧
    IsClosed state' = negb (IsClosed state) ∧ GetCount state' = GetCount state - delta + 2 ^ 63 ∧
    act Wait_load false state' = Some (Wait_on state', state').
Proof.
  intros Hs Hd Hlt. unfold CountDown_act. rewrite (proj2 (Z.ltb_lt _ _)) by lia.
  pose proof (state_parts state Hs) as Hparts.
  destruct (parts_state (GetCount state - delta + 2 ^ 63) (negb (IsClosed state))) as (H1 & H2 & H3); [lia|].
  assert (wrap64 (state - delta) = GetCount state - delta + 2 ^ 63 + (if negb (IsClosed state) then 2 ^ 63 else 0)) as ->.
  { unfold wrap. destruct (IsClosed state); cbn [negb].
    - rewrite Z.mod_small; lia.
    - rewrite <-(Z_mod_plus_full (state - delta) 1), Z.mod_small; lia. }
  eexists. split; [done|]. split; [done|]. split; [done|]. cbn. rewrite H2.
  rewrite (proj2 (Z.eqb_neq _ _)) by lia. done.
Qed.
End Latch.

(** * The signal *)

Module Signal.

(** Where a thread is: about to take the mutex, asleep on the condition
    variable, with or without a time-out, woken up and about to take the mutex
    again, or back, with what [WaitFor] returns. *)
Inductive pc :=
| Wait_call
| WaitFor_call
| Sleeping (timed : bool)
| Woken (timed_out : bool)
| Returned (r : bool).

Record System := mkSignal { flag : bool; waiters : list pc }.

Definition start : System := mkSignal false [].

(* @src src/src/common/util/light_signal.h:22-26 LightSignal::Wait *)
Definition Wait (flag : bool) : pc := if flag then Returned true else Sleeping false.
(* @src src/src/common/util/light_signal.h:28-33 LightSignal::WaitFor *)
Definition WaitFor (flag : bool) : pc := if flag then Returned true else Sleeping true.

(* @src src/src/common/util/light_signal.h:16-20 LightSignal::Notify *)
Definition Notify (s : System) : System :=
  mkSignal true ((λ p, match p with Sleeping _ => Woken false | _ => p end) <$> waiters s).
(* @src src/src/common/util/light_signal.h:35-38 LightSignal::Reset *)
Definition Reset (s : System) : System := mkSignal false (waiters s).

Definition at_waiter (i : nat) (p : pc) (s : System) : System := mkSignal (flag s) (<[i := p]> (waiters s)).

(** A step, and whether it is a call of [Notify]. *)
Inductive sstep : bool → System → System → Prop :=
| s_call s p : p ∈ [Wait_call; WaitFor_call] → sstep false s (mkSignal (flag s) (waiters s ++ [p]))
| s_notify s : sstep true s (Notify s)
| s_reset s : sstep false s (Reset s)
| s_wait s i : waiters s !! i = Some Wait_call → sstep false s (at_waiter i (Wait (flag s)) s)
| s_wait_for s i : waiters s !! i = Some WaitFor_call → sstep false s (at_waiter i (WaitFor (flag s)) s)
| s_spurious s i timed : waiters s !! i = Some (Sleeping timed) → sstep false s (at_waiter i (Woken false) s)
| s_time_out s i : waiters s !! i = Some (Sleeping true) → sstep false s (at_waiter i (Woken true) s)
| s_back s i timed_out : waiters s !! i = Some (Woken timed_out) → sstep false s (at_waiter i (Returned (negb timed_out)) s).

Definition any_step (s s' : System) : Prop := ∃ notified, sstep notified s s'.

Definition awake (s : System) : Prop := flag s = true → ∀ i timed, waiters s !! i ≠ Some (Sleeping timed).

Lemma at_waiter_awake (i : nat) (p : pc) (s : System) :
  awake s → (flag s = true → ∀ timed, p ≠ Sleeping timed) → awake (at_waiter i p s).
Proof.
  intros Hs Hp Hflag k timed Hk. cbn in *. apply list_lookup_insert_Some in Hk as [(_ & -> & _)|[_ Hk]].
  - by apply (Hp Hflag timed).
  - by apply (Hs Hflag k timed).
Qed.

Lemma sstep_awake (n : bool) (s s' : System) : sstep n s s' → awake s → awake s'.
Proof.
  intros Hstep Hs. destruct Hstep as [s p Hp|s|s|s i Hi|s i Hi|s i timed Hi|s i Hi|s i to Hi];
    try (apply at_waiter_awake; [done|]; intros Hflag timed'; unfold Wait, WaitFor; by rewrite ?Hflag).
  - intros Hflag i timed Hi. cbn in *. apply lookup_app_Some in Hi as [Hi|[_ Hi]]; [by apply (Hs Hflag i timed)|].
    apply list_lookup_singleton_Some in Hi as [_ ->]. rewrite !elem_of_cons, elem_of_nil in Hp. naive_solver.
  - intros _ i timed. cbn. rewrite list_lookup_fmap. destruct (waiters s !! i) as [[]|]; cbn; intros [=].
  - by intros [=].
Qed.

(** The signal wakes up.  In every interleaving, while the flag is set no
    thread sleeps: a waiter that comes later returns at once, and one that
    slept when the signal was given has been woken up. *)
Theorem signal_wakes (s : System) :
  rtc any_step start s → flag s = true → ∀ i timed, waiters s !! i ≠ Some (Sleeping timed).
Proof.
  intros Hr. assert (awake start) as H0 by by intros [=].
  assert (awake s) as H; [|exact H]. induction Hr as [|x y z [n Hstep] _ IH]; [done|]. apply IH. by apply (sstep_awake n x).
Qed.

(** The signal is not reliable.  The condition variable is waited for
    without a predicate: [Wait] and [WaitFor] can return, the latter with true,
    although nobody has called [Notify]; and [WaitFor] can return false
    although the flag was set when it took the mutex again. *)
Theorem signal_unreliable :
  (∃ s, rtc (sstep false) start s ∧ flag s = false ∧ waiters s = [Returned true; Returned true]) ∧
  (∃ s s', rtc any_step start s ∧ flag s = true ∧ waiters s = [Woken true] ∧ any_step s s' ∧ flag s' = true ∧
     waiters s' = [Returned false]).
Proof.
  split.
  - exists (mkSignal false [Returned true; Returned true]). split; [|done].
    eapply rtc_l; [apply (s_call (mkSignal false []) Wait_call); by left|].
    eapply rtc_l; [apply (s_call (mkSignal false [Wait_call]) WaitFor_call); right; by left|].
    eapply rtc_l; [exact (s_wait (mkSignal false [Wait_call; WaitFor_call]) 0 eq_refl)|].
    eapply rtc_l; [exact (s_wait_for (mkSignal false [Sleeping false; WaitFor_call]) 1 eq_refl)|].
    eapply rtc_l; [exact (s_spurious (mkSignal false [Sleeping false; Sleeping true]) 0 false eq_refl)|].
    eapply rtc_l; [exact (s_spurious (mkSignal false [Woken false; Sleeping true]) 1 true eq_refl)|].
    eapply rtc_l; [exact (s_back (mkSignal false [Woken false; Woken false]) 0 false eq_refl)|].
    apply rtc_once. exact (s_back (mkSignal false [Returned true; Woken false]) 1 false eq_refl).
  - exists (mkSignal true [Woken true]), (mkSignal true [Returned false]). split; [|split_and!; try done].
    + eapply rtc_l; [exists false; apply (s_call _ WaitFor_call); right; by left|].
      eapply rtc_l; [exists false; by apply (s_wait_for _ 0)|]. eapply rtc_l; [exists false; by apply (s_time_out _ 0)|].
      eapply rtc_once. exists true. apply (s_notify (mkSignal false [Woken true])).
    + exists false. exact (s_back (mkSignal true [Woken true]) 0 true eq_refl).
Qed.
End Signal.

(** * Witnesses *)

Lemma block_queue_safe_witness :
  let s := BlockQueue.mkSystem (BlockQueue.mkQueue [7] true) 0 0 [7] [] in
  BlockQueue.entered s = BlockQueue.taken s ++ BlockQueue.queue (BlockQueue.the_queue s).
Proof.
  apply (BlockQueue.block_queue_safe (BlockQueue.mkSystem (BlockQueue.mkQueue [7] true) 0 0 [7] [])).
  eapply rtc_once. by apply (BlockQueue.q_enqueue BlockQueue.start 7).
Defined.

Lemma latch_counts_witness :
  Latch.GetCount (2 ^ 63 + 1) = 1%Z ∧ Latch.IsClosed (2 ^ 63 + 1) = true.
Proof.
  set (s := Latch.mkLatch (2 ^ 63 + 1) 1 [Latch.Returned (Ok true); Latch.Returned (Ok true)]).
  assert (rtc Latch.lstep Latch.start s) as Hr.
  { apply (rtc_l _ _ (Latch.mkLatch 0 0 [Latch.TryAdd_load 1])); [exact (Latch.l_try_add Latch.start 1 eq_refl)|].
    apply (rtc_l _ _ (Latch.mkLatch 0 0 [Latch.TryAdd_cas 1 0])); [refine (Latch.l_act (Latch.mkLatch 0 0 [Latch.TryAdd_load 1]) 0 (Latch.TryAdd_load 1) false (Latch.TryAdd_cas 1 0) 0 eq_refl eq_refl _); discriminate|].
    apply (rtc_l _ _ (Latch.mkLatch 1 1 [Latch.Returned (Ok true)])); [refine (Latch.l_act (Latch.mkLatch 0 0 [Latch.TryAdd_cas 1 0]) 0 (Latch.TryAdd_cas 1 0) false (Latch.Returned (Ok true)) 1 eq_refl eq_refl _); by intros ? ? [= <- <-]|].
    apply (rtc_l _ _ (Latch.mkLatch 1 1 [Latch.Returned (Ok true); Latch.Close_load])); [refine (Latch.l_call (Latch.mkLatch 1 1 [Latch.Returned (Ok true)]) Latch.Close_load _); by left|].
    apply (rtc_l _ _ (Latch.mkLatch 1 1 [Latch.Returned (Ok true); Latch.Close_cas 1])); [refine (Latch.l_act (Latch.mkLatch 1 1 [Latch.Returned (Ok true); Latch.Close_load]) 1 Latch.Close_load false (Latch.Close_cas 1) 1 eq_refl eq_refl _); discriminate|].
    apply (rtc_l _ _ s); [refine (Latch.l_act (Latch.mkLatch 1 1 [Latch.Returned (Ok true); Latch.Close_cas 1]) 1 (Latch.Close_cas 1) false (Latch.Returned (Ok true)) (2 ^ 63 + 1) eq_refl eq_refl _); discriminate|].
    apply rtc_refl. }
  destruct (Latch.latch_counts s s Hr (rtc_refl _ _)) as (H & _). split; [exact H|reflexivity].
Defined.

Lemma underflow_breaks_latch_witness :
  ∃ state', Latch.CountDown_act 1 0 =
      (Latch.Returned (Throw (AimRTException "DynamicLatch::CountDown underflow.")), state') ∧
    Latch.IsClosed state' = true.
Proof.
  destruct (Latch.underflow_breaks_latch 1 0) as (state' & H1 & H2 & _); [by unfold in_width|by zdec|done|].
  exists state'. split; [exact H1|exact H2].
Defined.

Lemma signal_wakes_witness : ∀ i timed, Signal.waiters (Signal.mkSignal true []) !! i ≠ Some (Signal.Sleeping timed).
Proof.
  apply (Signal.signal_wakes (Signal.mkSignal true [])); [|reflexivity].
  eapply rtc_once. exists true. apply (Signal.s_notify Signal.start).
Defined.
