(* ===== verification/ModuleManager.v ===== *)
(** * Modules: [src/runtime/core/module/module_manager.*], [module_loader.*]

    A package is a dynamic library with modules; the loader creates those of
    its modules that the options enable, and the manager initializes, starts
    and shuts down the modules of all packages, and those registered directly.

    What is outside, the modules and the function that configures what they
    are given, is a parameter: its calls are events, and [answers] says what
    comes back after a history of events, which may be an exception.  A library
    is a record of what its functions return.  A reference to a module's
    details is its name.  The options written back to the configuration node
    are not modelled.

    Theorems: which modules of a package are created; modules are initialized
    as planned, started in that order and shut down in the opposite one; no
    module is shut down that has not been initialized, or twice; a second
    initialization fails, but lets the modules be started again. *)

From S2P Require Import Prelude Yaml StringUtil LogFormatter Logger Filters.

(** ** What is outside *)

(** [aimrt_module_info_t], and [aimrt_module_base_t] with its [impl]. *)
Record ModuleInfo := mkInfo {
  in_name : string;
  in_major : Z;
  in_minor : Z;
  in_patch : Z;
  in_build : Z;
  in_author : string;
  in_description : string
}.
Record ModuleBase := mkModuleBase { mb_impl : nat; mb_info : ModuleInfo }.

(** A library: where it is, the symbols that it lacks and what its functions
    return, the list of names being a null pointer or an array. *)
Record DynamicLib := mkDynamicLib {
  dl_full_path : string;
  dl_missing : list string;
  dl_module_num : nat;
  dl_module_name_list : option (list string);
  dl_create : string → option ModuleBase
}.

Inductive ModuleEvent :=
| EvDestroy (m : ModuleBase)
| EvConfigure (info : ModuleDetailInfo)
| EvInitialize (m : ModuleBase)
| EvStart (m : ModuleBase)
| EvShutdown (m : ModuleBase).

Abbreviation Trace := (list ModuleEvent).

(** ** The loader *)

Inductive Enable_or_Disable := kUseNone | kUseEnable | kUseDisable.

(* @src src/src/runtime/core/module/module_loader.h:51-70 ModuleLoader *)
Record ModuleLoader := mkLoader {
  ld_pkg_path : string;
  dynamic_lib : option DynamicLib;
  destroy_func : bool;
  module_name_vec : list string;
  loaded_module_name_vec : list string;
  module_ptr_map : gmap string ModuleBase;
  enable_or_disable : Enable_or_Disable
}.

Definition ModuleLoader_new : ModuleLoader := mkLoader "" None false [] [] ∅ kUseNone.

Section Loader.
Context `{IterOrder}.
(** [DynamicLib::Load], and the answers of what is outside. *)
Context (open_lib : string → option DynamicLib) (answers : Trace → ModuleEvent → res bool).

Abbreviation L := (M ModuleLoader).

Definition set_ld_path_lib path lib (l : ModuleLoader) : ModuleLoader :=
  mkLoader path lib (destroy_func l) (module_name_vec l) (loaded_module_name_vec l) (module_ptr_map l) (enable_or_disable l).
Definition set_destroy_func x (l : ModuleLoader) : ModuleLoader :=
  mkLoader (ld_pkg_path l) (dynamic_lib l) x (module_name_vec l) (loaded_module_name_vec l) (module_ptr_map l) (enable_or_disable l).
Definition set_module_name_vec x (l : ModuleLoader) : ModuleLoader :=
  mkLoader (ld_pkg_path l) (dynamic_lib l) (destroy_func l) x (loaded_module_name_vec l) (module_ptr_map l) (enable_or_disable l).
Definition set_loaded x y (l : ModuleLoader) : ModuleLoader :=
  mkLoader (ld_pkg_path l) (dynamic_lib l) (destroy_func l) (module_name_vec l) x y (enable_or_disable l).
Definition set_enable_or_disable x (l : ModuleLoader) : ModuleLoader :=
  mkLoader (ld_pkg_path l) (dynamic_lib l) (destroy_func l) (module_name_vec l) (loaded_module_name_vec l) (module_ptr_map l) x.

Definition has_symbol (lib : DynamicLib) (name : string) : bool := bool_decide (name ∉ dl_missing lib).

(** The module at an index of the array. *)
(* @src src/src/runtime/core/module/module_loader.cc:58-69 ModuleLoader::LoadPkg (names) *)
Definition check_module_name (names : list string) (ii : nat) : L unit :=
  match names !! ii with
  | None => undef
  | Some module_name =>
      l ← get;
      check_throw (negb (String.eqb module_name "")) "Module name index [{}] is empty in lib {}.";;
      check_throw (bool_decide (module_name ∉ module_name_vec l)) "Module name '{}' repeated in lib {}.";;
      put (set_module_name_vec (module_name_vec l ++ [module_name]) l)
  end.

(* @src src/src/runtime/core/module/module_loader.cc:75-84 ModuleLoader::LoadPkg (rule) *)
Definition enable_rule (disable_modules enable_modules : list string) : Enable_or_Disable :=
  match disable_modules, enable_modules with
  | _ :: _, _ :: _ => kUseEnable
  | _ :: _, [] => kUseDisable
  | [], _ :: _ => kUseEnable
  | [], [] => kUseNone
  end.

(* @src src/src/runtime/core/module/module_loader.cc:87-99 ModuleLoader::LoadPkg (skip) *)
Definition skip_module (rule : Enable_or_Disable) (disable_modules enable_modules : list string) (module_name : string)
    : bool :=
  match rule with
  | kUseDisable => bool_decide (module_name ∈ disable_modules)
  | kUseEnable => bool_decide (module_name ∉ enable_modules)
  | kUseNone => false
  end.

(* @src src/src/runtime/core/module/module_loader.cc:86-117 ModuleLoader::LoadPkg (modules) *)
Definition load_module (lib : DynamicLib) (disable_modules enable_modules : list string) (module_name : string) : L unit :=
  l ← get;
  if skip_module (enable_or_disable l) disable_modules enable_modules module_name then mret tt
  else
    match dl_create lib module_name with
    | None => throw (AimRTException "Cannot create module '{}' in lib {}.")
    | Some m =>
        check_throw (String.eqb (in_name (mb_info m)) module_name)
          "Require module name '{}', but get module name '{}' in lib {}.";;
        put (set_loaded (loaded_module_name_vec l ++ [module_name])
               (match module_ptr_map l !! module_name with
                | Some _ => module_ptr_map l
                | None => <[module_name := m]> (module_ptr_map l)
                end) l)
    end.

(* @src src/src/runtime/core/module/module_loader.cc:19-118 ModuleLoader::LoadPkg *)
Definition LoadPkg (pkg_path : string) (disable_modules enable_modules : list string) : L unit :=
  match open_lib pkg_path with
  | None =>
      modify (set_ld_path_lib pkg_path None);;
      throw (AimRTException "Load dynamic lib failed, lib path {}, error info {}")
  | Some lib =>
      modify (set_ld_path_lib pkg_path (Some lib));;
      check_throw (has_symbol lib "AimRTDynlibGetModuleNum") "Cannot find symbol '{}' in lib {}.";;
      check_throw (has_symbol lib "AimRTDynlibGetModuleNameList") "Cannot find symbol '{}' in lib {}.";;
      check_throw (has_symbol lib "AimRTDynlibCreateModule") "Cannot find symbol '{}' in lib {}.";;
      modify (set_destroy_func (has_symbol lib "AimRTDynlibDestroyModule"));;
      check_throw (has_symbol lib "AimRTDynlibDestroyModule") "Cannot find symbol '{}' in lib {}.";;
      check_throw (0 <? dl_module_num lib) "No module in lib {}.";;
      match dl_module_name_list lib with
      | None => throw (AimRTException "Module name list is null in lib {}.")
      | Some names =>
          mapM_ (check_module_name names) (seq 0 (dl_module_num lib));;
          modify (set_enable_or_disable (enable_rule disable_modules enable_modules));;
          l ← get;
          mapM_ (load_module lib disable_modules enable_modules) (module_name_vec l)
      end
  end.

(* @src src/src/runtime/core/module/module_loader.cc:134-141 ModuleLoader::GetModule *)
Definition GetModule (l : ModuleLoader) (module_name : string) : option ModuleBase := module_ptr_map l !! module_name.

(** A call of what is outside. *)
Definition outside (e : ModuleEvent) : M Trace bool := λ t, (answers t e, t ++ [e]).

(** It is called in a destructor: an exception would end the program. *)
(* @src src/src/runtime/core/module/module_loader.cc:143-155 ModuleLoader::DestroyModule *)
Definition DestroyModule (l : ModuleLoader) (m : ModuleBase) : M Trace unit :=
  if destroy_func l then modify (λ t, t ++ [EvDestroy m]) else mret tt.

(** The loader after it, which is about to be destroyed, is left out. *)
(* @src src/src/runtime/core/module/module_loader.cc:120-132 ModuleLoader::UnLoadPkg *)
Definition UnLoadPkg (l : ModuleLoader) : M Trace unit :=
  match dynamic_lib l with
  | None => mret tt
  | Some _ => mapM_ (λ '(_, m), DestroyModule l m) (map_order (module_ptr_map l))
  end.
End Loader.

(** ** Options *)

(* @src src/src/runtime/core/module/module_manager.h:27-31 ModuleManager::Options::PkgLoaderOptions *)
Record PkgLoaderOptions := mkPkgOptions {
  pkg_path_option : string;
  disable_modules : list string;
  enable_modules : list string
}.

(* @src src/src/runtime/core/module/module_manager.h:34-40 ModuleManager::Options::ModuleOptions *)
Record ModuleOptions := mkModuleOptions {
  mo_name : string;
  mo_enable : bool;
  mo_log_lvl : log_level;
  mo_use_default_log_lvl : bool;
  mo_cfg_file_path : string
}.

Record ManagerOptions := mkManagerOptions {
  pkgs_options : list PkgLoaderOptions;
  modules_options : list ModuleOptions
}.

Section Options.
Context {node : Type} `{YamlOps node}.

(* @src src/src/runtime/core/module/module_manager.cc:50-63 convert<ModuleManager::Options>::decode (pkg) *)
Definition decode_pkg (n : node) : res PkgLoaderOptions :=
  path ← as_of as_string (index n "path");
  disable ← set_if n "disable_modules" as_strings [];
  enable ← set_if n "enable_modules" as_strings [];
  Ok (mkPkgOptions path disable enable).

(* @src src/src/runtime/core/module/module_manager.cc:67-85 convert<ModuleManager::Options>::decode (module) *)
Definition decode_module (n : node) : res ModuleOptions :=
  name ← as_of as_string (index n "name");
  enable ← set_if n "enable" as_bool true;
  log_lvl ← set_if n "log_lvl" as_level AIMRT_LOG_LEVEL_TRACE;
  cfg ← set_if n "cfg_file_path" as_string "";
  Ok (mkModuleOptions name enable log_lvl (bool_decide (index n "log_lvl" = None)) cfg).

(* @src src/src/runtime/core/module/module_manager.cc:46-89 convert<ModuleManager::Options>::decode *)
Definition module_decode (n : node) (rhs : ManagerOptions) : res (option ManagerOptions) :=
  if negb (IsMap n) then Ok None
  else
    pkgs ← each_of n "pkgs" decode_pkg (pkgs_options rhs);
    modules ← each_of n "modules" decode_module (modules_options rhs);
    Ok (Some (mkManagerOptions pkgs modules)).
End Options.

(** ** The manager *)

(** The handle of the core that a module is given is left out. *)
(* @src src/src/runtime/core/module/module_manager.h:93-98 ModuleManager::ModuleWrapper *)
Record ModuleWrapper := mkWrapper { mw_info : ModuleDetailInfo; mw_module : option ModuleBase }.

(* @src src/src/runtime/core/module/module_manager.h:104-123 ModuleManager *)
Record ModuleManager := mkMM {
  mm_options : ManagerOptions;
  mm_state : State;
  module_proxy_configurator : bool;
  registered_module_vec : list (string * option ModuleBase);
  module_init_order : list string;
  module_loader_map : gmap string ModuleLoader;
  module_wrapper_map : gmap string ModuleWrapper;
  module_detail_info_vec : list string
}.

Definition ModuleManager_new : ModuleManager := mkMM (mkManagerOptions [] []) kPreInit false [] [] ∅ ∅ [].

Definition set_mm_options x (s : ModuleManager) : ModuleManager :=
  mkMM x (mm_state s) (module_proxy_configurator s) (registered_module_vec s) (module_init_order s) (module_loader_map s)
    (module_wrapper_map s) (module_detail_info_vec s).
Definition set_mm_state x (s : ModuleManager) : ModuleManager :=
  mkMM (mm_options s) x (module_proxy_configurator s) (registered_module_vec s) (module_init_order s) (module_loader_map s)
    (module_wrapper_map s) (module_detail_info_vec s).
Definition set_configurator x (s : ModuleManager) : ModuleManager :=
  mkMM (mm_options s) (mm_state s) x (registered_module_vec s) (module_init_order s) (module_loader_map s)
    (module_wrapper_map s) (module_detail_info_vec s).
Definition set_registered x (s : ModuleManager) : ModuleManager :=
  mkMM (mm_options s) (mm_state s) (module_proxy_configurator s) x (module_init_order s) (module_loader_map s)
    (module_wrapper_map s) (module_detail_info_vec s).
Definition set_loader_map x (s : ModuleManager) : ModuleManager :=
  mkMM (mm_options s) (mm_state s) (module_proxy_configurator s) (registered_module_vec s) (module_init_order s) x
    (module_wrapper_map s) (module_detail_info_vec s).
Definition set_modules order wrappers infos (s : ModuleManager) : ModuleManager :=
  mkMM (mm_options s) (mm_state s) (module_proxy_configurator s) (registered_module_vec s) order (module_loader_map s)
    wrappers infos.

Section ModuleManager.
Context {node : Type} `{YamlOps node, IterOrder}.
Context (open_lib : string → option DynamicLib) (answers : Trace → ModuleEvent → res bool).

Abbreviation Sys := (ModuleManager * Trace)%type.
Definition on_mm {A} (m : M ModuleManager A) : M Sys A := zoom fst (λ c y, (c, y.2)) m.
Definition on_trace {A} (m : M Trace A) : M Sys A := zoom snd (λ t y, (y.1, t)) m.

Definition mm_when (st : State) (what : string) : M Sys unit :=
  s ← on_mm get; check_throw (state_eqb (mm_state s) st) what.
Definition mm_when_init : M Sys unit := mm_when kInit "Method can only be called when state is 'Init'.".
Definition mm_when_preinit : M Sys unit := mm_when kPreInit "Method can only be called when state is 'PreInit'.".

(* @src src/src/runtime/core/module/module_manager.cc:352-363 ModuleManager::GetModuleOptions *)
Definition GetModuleOptions (o : ManagerOptions) (module_name : string) : option ModuleOptions :=
  List.find (λ m, String.eqb (mo_name m) module_name) (modules_options o).

(** The details of a module, as it describes itself. *)
Definition detail_info (pkg : string) (i : ModuleInfo) : ModuleDetailInfo :=
  mkModuleInfo (in_name i) pkg (in_major i) (in_minor i) (in_patch i) (in_build i) (in_author i) (in_description i)
    AIMRT_LOG_LEVEL_TRACE true "".

(** With what the options say about it. *)
Definition with_options (i : ModuleDetailInfo) (o : ModuleOptions) : ModuleDetailInfo :=
  mkModuleInfo (mi_name i) (mi_pkg_path i) (major_version i) (minor_version i) (patch_version i) (build_version i)
    (author i) (description i) (mo_log_lvl o) (mo_use_default_log_lvl o) (mo_cfg_file_path o).

(** The wrapper with its details completed. *)
(* @src src/src/runtime/core/module/module_manager.cc:365-394 ModuleManager::InitModule *)
Definition InitModule (w : ModuleWrapper) : M Sys ModuleWrapper :=
  s ← on_mm get;
  let name := mi_name (mw_info w) in
  info ← match GetModuleOptions (mm_options s) name with
         | Some o => mret (with_options (mw_info w) o)
         | None =>
             let i := mw_info w in
             on_mm (put (set_mm_options (mkManagerOptions (pkgs_options (mm_options s))
               (modules_options (mm_options s) ++
                [mkModuleOptions name true (mi_log_lvl i) (use_default_log_lvl i) (cfg_file_path i)])) s));;
             mret i
         end;
  (if module_proxy_configurator s then on_trace (outside answers (EvConfigure info)) else bad_function_call);;
  match mw_module w with
  | Some m => ret ← on_trace (outside answers (EvInitialize m)); check_throw ret "Init module '{}' failed."
  | None => mret tt
  end;;
  mret (mkWrapper info (mw_module w)).

(** Where a module that has been initialized is entered. *)
Definition enter_wrapper (name : string) (w : ModuleWrapper) (s : ModuleManager) : ModuleManager :=
  set_modules (module_init_order s) (<[name := w]> (module_wrapper_map s)) (module_detail_info_vec s ++ [name]) s.
Definition enter_order (name : string) (s : ModuleManager) : ModuleManager :=
  set_modules (module_init_order s ++ [name]) (module_wrapper_map s) (module_detail_info_vec s) s.

Definition module_enabled (o : ManagerOptions) (name : string) : bool :=
  match GetModuleOptions o name with Some mo => mo_enable mo | None => true end.

(** A name that is taken is refused. *)
Definition check_duplicate (name : string) : M Sys unit :=
  s ← on_mm get;
  check_throw (bool_decide (module_wrapper_map s !! name = None)) "Duplicate module '{}' in core and lib {}.".

(** An enabled module of the core or of a package is initialized. *)
Definition init_enabled (pkg name : string) (m : ModuleBase) : M Sys unit :=
  w ← InitModule (mkWrapper (detail_info pkg (mkInfo name (in_major (mb_info m)) (in_minor (mb_info m))
         (in_patch (mb_info m)) (in_build (mb_info m)) (in_author (mb_info m)) (in_description (mb_info m)))) (Some m));
  on_mm (modify (λ s, enter_wrapper name w (enter_order name s))).

(* @src src/src/runtime/core/module/module_manager.cc:124-164 ModuleManager::Initialize (registered) *)
Definition init_registered (item : string * option ModuleBase) : M Sys unit :=
  match item.2 with
  | None => throw (AimRTException "Module point is null!")
  | Some m =>
      s ← on_mm get;
      let name := in_name (mb_info m) in
      if negb (module_enabled (mm_options s) name) then mret tt
      else check_duplicate name;; init_enabled item.1 name m
  end.

(* @src src/src/runtime/core/module/module_manager.cc:172-212 ModuleManager::Initialize (loaded) *)
Definition init_loaded (pkg_path : string) (l : ModuleLoader) (name : string) : M Sys unit :=
  s ← on_mm get;
  if negb (module_enabled (mm_options s) name) then mret tt
  else
    check_duplicate name;;
    match GetModule l name with
    | None => throw (AimRTException "Module point is null!")
    | Some m => init_enabled pkg_path name m
    end.

(** A loader that throws is destroyed, and one whose path is known already. *)
(* @src src/src/runtime/core/module/module_manager.cc:108-121 ModuleManager::Initialize (package) *)
Definition load_package (ii : nat) : M Sys unit :=
  s ← on_mm get;
  match pkgs_options (mm_options s) !! ii with
  | None => undef
  | Some o =>
      let '(r, l) := LoadPkg open_lib (pkg_path_option o) (disable_modules o) (enable_modules o) ModuleLoader_new in
      match r with
      | Ok _ =>
          let path := match dynamic_lib l with Some lib => dl_full_path lib | None => "" end in
          on_mm (modify (λ s, set_mm_options (mkManagerOptions
            (<[ii := mkPkgOptions path (disable_modules o) (enable_modules o)]> (pkgs_options (mm_options s)))
            (modules_options (mm_options s))) s));;
          match module_loader_map s !! path with
          | Some _ => on_trace (UnLoadPkg l)
          | None => on_mm (modify (λ s, set_loader_map (<[path := l]> (module_loader_map s)) s))
          end
      | _ => on_trace (UnLoadPkg l);; lift r
      end
  end.

(* @src src/src/runtime/core/module/module_manager.cc:95-218 ModuleManager::Initialize *)
Definition mm_Initialize (options_node : option node) : M Sys unit :=
  s ← on_mm get;
  check_throw (module_proxy_configurator s) "Module proxy configurator is not set before initialize.";;
  on_mm (put (set_mm_state kInit s));;
  check_throw (state_eqb (mm_state s) kPreInit) "Module manager can only be initialized once.";;
  o ← lift (read_options module_decode (mkManagerOptions [] []) options_node);
  on_mm (modify (λ s, set_mm_options (default (mm_options s) o) s));;
  s ← on_mm get;
  mapM_ load_package (seq 0 (length (pkgs_options (mm_options s))));;
  s ← on_mm get;
  mapM_ init_registered (registered_module_vec s);;
  mapM_ (λ '(pkg_path, l), mapM_ (init_loaded pkg_path l) (loaded_module_name_vec l)) (map_order (module_loader_map s)).

(** A module that was created by hand has no functions to call. *)
(* @src src/src/runtime/core/module/module_manager.cc:225-237 ModuleManager::Start (module) *)
Definition start_module (name : string) : M Sys unit :=
  s ← on_mm get;
  match module_wrapper_map s !! name with
  | None => throw (AimRTException "Can not find module '{}'.")
  | Some w =>
      match mw_module w with
      | None => undef
      | Some m => start_ret ← on_trace (outside answers (EvStart m)); check_throw start_ret "Start module '{}' failed."
      end
  end.

(* @src src/src/runtime/core/module/module_manager.cc:220-240 ModuleManager::Start *)
Definition mm_Start : M Sys unit :=
  s ← on_mm get;
  on_mm (put (set_mm_state kStart s));;
  check_throw (state_eqb (mm_state s) kInit) "Method can only be called when state is 'Init'.";;
  mapM_ start_module (module_init_order s).

(* @src src/src/runtime/core/module/module_manager.cc:249-261 ModuleManager::Shutdown (module) *)
Definition shutdown_module (name : string) : M Sys unit :=
  s ← on_mm get;
  match module_wrapper_map s !! name with
  | None => mret tt
  | Some w =>
      match mw_module w with
      | None => undef
      | Some m => on_trace (outside answers (EvShutdown m));; mret tt
      end
  end.

(* @src src/src/runtime/core/module/module_manager.cc:242-272 ModuleManager::Shutdown *)
Definition mm_Shutdown : M Sys unit :=
  s ← on_mm get;
  on_mm (put (set_mm_state kShutdown s));;
  if state_eqb (mm_state s) kShutdown then mret tt
  else
    mapM_ shutdown_module (reverse (module_init_order s));;
    on_mm (modify (λ s, set_configurator false (set_registered [] (set_modules [] ∅ (module_detail_info_vec s) s)))).

(* @src src/src/runtime/core/module/module_manager.cc:274-283 ModuleManager::RegisterModule *)
Definition RegisterModule (pkg : string) (m : option ModuleBase) : M Sys unit :=
  mm_when_preinit;;
  check_throw (bool_decide (is_Some m)) "Register invalid module";;
  on_mm (modify (λ s, set_registered (registered_module_vec s ++ [(pkg, m)]) s)).

(** The name stands for the handle. *)
(* @src src/src/runtime/core/module/module_manager.cc:285-325 ModuleManager::CreateModule *)
Definition CreateModule (pkg : string) (i : ModuleInfo) : M Sys string :=
  mm_when_init;;
  check_duplicate (in_name i);;
  w ← InitModule (mkWrapper (detail_info pkg i) None);
  on_mm (modify (enter_wrapper (in_name i) w));;
  mret (in_name i).

(* @src src/src/runtime/core/module/module_manager.cc:327-334 ModuleManager::RegisterCoreProxyConfigurator *)
Definition RegisterCoreProxyConfigurator (is_set : bool) : M Sys unit :=
  mm_when_preinit;; on_mm (modify (set_configurator is_set)).

(* @src src/src/runtime/core/module/module_manager.cc:336-342 ModuleManager::GetModuleNameList *)
Definition GetModuleNameList : M Sys (list string) := mm_when_init;; on_mm (gets module_init_order).
(* @src src/src/runtime/core/module/module_manager.cc:344-350 ModuleManager::GetModuleDetailInfoList *)
Definition GetModuleDetailInfoList : M Sys (list string) := mm_when_init;; on_mm (gets module_detail_info_vec).

Definition version_text (i : ModuleDetailInfo) : bytes :=
  JoinVec [lit (to_string (major_version i)); lit (to_string (minor_version i)); lit (to_string (patch_version i));
           lit (to_string (build_version i))] (lit ".").

(** The details behind the references; [None] when one has lost its module. *)
Definition details (s : ModuleManager) : option (list ModuleDetailInfo) :=
  mapM (λ name, mw_info <$> module_wrapper_map s !! name) (module_detail_info_vec s).

(* @src src/src/runtime/core/module/module_manager.cc:396-443 ModuleManager::GenInitializationReport *)
Definition mm_GenInitializationReport : M Sys (list (string * bytes)) :=
  mm_when_init;;
  s ← on_mm get;
  match details s with
  | None => undef
  | Some infos =>
      let rows := map (λ i, [lit (mi_name i); lit (mi_pkg_path i); version_text i]) infos in
      let unused := filter (λ n, n ∉ map mi_name infos) (map mo_name (modules_options (mm_options s))) in
      mret (("Module Info List", DrawTable ([lit "name"; lit "pkg"; lit "version"] :: rows) true) ::
            match unused with
            | [] => []
            | _ => [("Unused Module Options Warning", lit "[ " ++ JoinVec (map lit unused) (lit " , ") ++ lit " ]")]
            end)
  end.
End ModuleManager.

(** * Which modules of a package are created *)

Section LoaderTheorems.
Context (open_lib : string → option DynamicLib).

(** What the options ask for. *)
Definition wanted (disable enable : list string) (name : string) : bool :=
  match enable with
  | [] => bool_decide (name ∉ disable)
  | _ => bool_decide (name ∈ enable)
  end.

Lemma skip_wanted disable enable name : skip_module (enable_rule disable enable) disable enable name = negb (wanted disable enable name).
Proof.
  unfold wanted, enable_rule. destruct disable as [|d disable], enable as [|e enable]; cbn [skip_module].
  - by rewrite bool_decide_eq_true_2 by apply not_elem_of_nil.
  - by rewrite bool_decide_not.
  - by rewrite bool_decide_not, negb_involutive.
  - by rewrite bool_decide_not.
Qed.

Lemma check_module_names_ok names (ns : list nat) : ∀ l l',
  mapM_ (check_module_name names) ns l = (Ok tt, l') →
  ∃ found, l' = set_module_name_vec (module_name_vec l ++ found) l ∧
    Forall2 (λ ii name, names !! ii = Some name ∧ name ≠ "") ns found ∧
    (NoDup (module_name_vec l) → NoDup (module_name_vec l ++ found)).
Proof.
  induction ns as [|ii ns IH]; intros l l' Hrun; cbn [mapM_] in Hrun.
  - injection Hrun as <-. exists []. rewrite app_nil_r. split; [by destruct l|]. by split; [constructor|].
  - run_step Hrun E. destruct u. unfold check_module_name in E. destruct (names !! ii) as [name|] eqn:Hname; [|done].
    run_step E E'. injection E' as <- <-. run_check E. run_check E. injection E as <-.
    apply IH in Hrun as (found & -> & Hall & Hnd). cbn in Hnd |- *. exists (name :: found).
    assert (name ≠ "") as Hne.
    { intros ->. discriminate. }
    match goal with E : bool_decide (name ∉ _) = true |- _ => apply bool_decide_eq_true in E; rename E into Hnew end.
    split; [unfold set_module_name_vec; cbn; by rewrite <-app_assoc|]. split; [by constructor|]. intros Hl. rewrite cons_middle, app_assoc. apply Hnd.
    apply NoDup_app. split; [done|]. split; [|apply NoDup_singleton]. intros x Hx ->%list_elem_of_singleton. done.
Qed.

(** The modules created are found under their names. *)
Definition loader_ok (lib : DynamicLib) (l : ModuleLoader) : Prop :=
  ∀ name m, module_ptr_map l !! name = Some m ↔
    name ∈ loaded_module_name_vec l ∧ dl_create lib name = Some m.

Lemma load_modules_ok lib disable enable (names : list string) : ∀ l l',
  enable_or_disable l = enable_rule disable enable → loader_ok lib l →
  mapM_ (load_module lib disable enable) names l = (Ok tt, l') →
  loaded_module_name_vec l' = loaded_module_name_vec l ++ List.filter (wanted disable enable) names ∧
  dynamic_lib l' = dynamic_lib l ∧ module_name_vec l' = module_name_vec l ∧ loader_ok lib l' ∧
  Forall (λ name, wanted disable enable name = true → ∃ m, dl_create lib name = Some m ∧ in_name (mb_info m) = name) names.
Proof.
  induction names as [|name names IH]; intros l l' Hrule Hok Hrun; cbn [mapM_] in Hrun.
  - injection Hrun as <-. rewrite app_nil_r. by split_and!.
  - run_step Hrun E. destruct u. unfold load_module in E. run_step E E'. injection E' as <- <-.
    rewrite Hrule, skip_wanted in E. cbn [List.filter]. destruct (wanted disable enable name) eqn:Hw; cbn [negb] in E.
    2:{ injection E as <-. destruct (IH _ _ Hrule Hok Hrun) as (H1 & H2 & H3 & H4 & H5). split_and!; try done.
        constructor; [congruence|done]. }
    destruct (dl_create lib name) as [m|] eqn:Hm; [|done]. run_check E. injection E as <-.
    match goal with E : String.eqb _ _ = true |- _ => apply String.eqb_eq in E; rename E into Hin end.
    apply IH in Hrun as (H1 & H2 & H3 & H4 & H5); [|done|].
    + split_and!; [rewrite H1; cbn; by rewrite <-app_assoc|done..|]. constructor; [|done]. intros _. by exists m.
    + intros n m'. cbn. rewrite elem_of_app, list_elem_of_singleton.
      destruct (module_ptr_map l !! name) as [m0|] eqn:Hold.
      * apply Hok in Hold as [Hel _]. rewrite (Hok n m'). naive_solver.
      * destruct (decide (n = name)) as [->|Hne].
        -- rewrite lookup_insert_eq, Hm. naive_solver.
        -- rewrite lookup_insert_ne, (Hok n m') by done. naive_solver.
Qed.

Lemma LoadPkg_ok path disable enable l :
  LoadPkg open_lib path disable enable ModuleLoader_new = (Ok tt, l) →
  ∃ lib names, open_lib path = Some lib ∧ dl_module_name_list lib = Some names ∧ dynamic_lib l = Some lib ∧
    module_name_vec l = take (dl_module_num lib) names ∧ dl_module_num lib ≤ length names ∧
    NoDup (module_name_vec l) ∧ "" ∉ module_name_vec l ∧ 0 < dl_module_num lib ∧
    loaded_module_name_vec l = List.filter (wanted disable enable) (module_name_vec l) ∧ loader_ok lib l ∧
    ∀ name, name ∈ loaded_module_name_vec l → ∃ m, GetModule l name = Some m ∧ in_name (mb_info m) = name.
Proof.
  intros Hrun. unfold LoadPkg in Hrun. destruct (open_lib path) as [lib|] eqn:Hlib; [|done].
  run_step Hrun E. injection E as _ <-. do 3 run_check Hrun. run_step Hrun E. injection E as _ <-. do 2 run_check Hrun.
  destruct (dl_module_name_list lib) as [names|] eqn:Hnames; [|done].
  apply bind_ok in Hrun as ([] & y & E & Hrun). apply check_module_names_ok in E as (found & -> & Hfound & Hnd).
  run_step Hrun E. injection E as _ <-. run_step Hrun E. injection E as <- <-.
  apply load_modules_ok in Hrun as (H1 & H2 & H3 & H4 & H5); [|done|by intros name m; cbn; rewrite lookup_empty, elem_of_nil; naive_solver].
  cbn in H1, H2, H3, H5, Hnd. exists lib, names.
  assert (found = take (dl_module_num lib) names ∧ dl_module_num lib ≤ length names) as [Heq Hlen].
  { clear -Hfound. apply Forall2_length in Hfound as Hl. rewrite length_seq in Hl.
    assert (∀ i, i < dl_module_num lib → names !! i = found !! i) as Hi.
    { intros i Hlt. destruct (lookup_lt_is_Some_2 found i) as [x Hx]; [lia|].
      destruct (Forall2_lookup_r _ _ _ _ _ Hfound Hx) as (j & Hj & Hname & _).
      apply lookup_seq in Hj as [-> _]. by rewrite Hx. }
    split.
    - apply list_eq. intros i. destruct (decide (i < dl_module_num lib)) as [Hlt|Hge].
      + by rewrite lookup_take_lt, Hi.
      + rewrite lookup_take_ge by lia. apply lookup_ge_None_2. lia.
    - destruct (decide (dl_module_num lib = 0)) as [->|Hne]; [lia|].
      destruct (lookup_lt_is_Some_2 found (dl_module_num lib - 1)) as [x Hx]; [lia|].
      rewrite <-Hi in Hx by lia. apply lookup_lt_Some in Hx. lia. }
  match goal with E : (0 <? _) = true |- _ => apply Nat.ltb_lt in E; rename E into Hpos end.
  rewrite H3. split_and!; try done.
  - apply Hnd, NoDup_nil_2.
  - intros Hin. destruct (list_elem_of_lookup_1 _ _ Hin) as [i Hi].
    by destruct (Forall2_lookup_r _ _ _ _ _ Hfound Hi) as (j & _ & _ & Hne).
  - intros name Hname. rewrite H1 in Hname. apply list_elem_of_In, filter_In in Hname as [Hin Hw].
    rewrite Forall_forall in H5. apply list_elem_of_In in Hin as Hin'. destruct (H5 name Hin' Hw) as (m & Hm & Hmn). exists m. split; [|done].
    apply H4. split; [|done]. rewrite H1. apply list_elem_of_In, filter_In. by split.
Qed.
End LoaderTheorems.

(** * The life cycle of the modules *)

(** A module that may be initialized: its package, its name and itself. *)
Abbreviation Candidate := (string * string * ModuleBase)%type.
Abbreviation cand_name := (λ c : Candidate, c.1.2).

(** What is known of it when it is configured. *)
Definition candidate_info (o : ManagerOptions) (c : Candidate) : ModuleDetailInfo :=
  let m := c.2 in
  let i := detail_info c.1.1 (mkInfo c.1.2 (in_major (mb_info m)) (in_minor (mb_info m)) (in_patch (mb_info m))
             (in_build (mb_info m)) (in_author (mb_info m)) (in_description (mb_info m))) in
  match GetModuleOptions o c.1.2 with Some mo => with_options i mo | None => i end.

Definition init_events (o : ManagerOptions) (c : Candidate) : Trace :=
  [EvConfigure (candidate_info o c); EvInitialize c.2].

(** The modules to initialize among the candidates. *)
Definition plan (o : ManagerOptions) (cs : list Candidate) : list Candidate :=
  List.filter (λ c, module_enabled o (cand_name c)) cs.

(** The modules entered: their order, and what is found under their names. *)
Definition entered (s : ModuleManager) (ms : list Candidate) : Prop :=
  module_init_order s = map cand_name ms ∧ NoDup (map cand_name ms) ∧
  ∀ c, c ∈ ms → mw_module <$> module_wrapper_map s !! cand_name c = Some (Some c.2).

(** Options that were completed. *)
Definition extends (o o' : ManagerOptions) : Prop :=
  ∃ more, modules_options o' = modules_options o ++ more ∧ Forall (λ mo, mo_enable mo = true) more.

Section Lifecycle.
Context {node : Type} `{YamlOps node, IterOrder}.
Context (open_lib : string → option DynamicLib) (answers : Trace → ModuleEvent → res bool).

Lemma find_app_some {A} (f : A → bool) l1 l2 x : List.find f l1 = Some x → List.find f (l1 ++ l2) = Some x.
Proof. induction l1 as [|y l1 IH]; cbn; [done|]. by destruct (f y). Qed.

Lemma find_app_none {A} (f : A → bool) l1 l2 : List.find f l1 = None → List.find f (l1 ++ l2) = List.find f l2.
Proof. induction l1 as [|y l1 IH]; cbn; [done|]. by destruct (f y). Qed.

Lemma extends_refl o : extends o o.
Proof. exists []. rewrite app_nil_r. by split. Qed.

Lemma extends_trans o1 o2 o3 : extends o1 o2 → extends o2 o3 → extends o1 o3.
Proof.
  intros (m1 & H1 & F1) (m2 & H2 & F2). exists (m1 ++ m2). split; [by rewrite H2, H1, <-app_assoc|]. by apply Forall_app.
Qed.

Lemma extends_found o o' name mo : extends o o' → GetModuleOptions o name = Some mo → GetModuleOptions o' name = Some mo.
Proof. intros (more & Heq & _). unfold GetModuleOptions. rewrite Heq. by apply find_app_some. Qed.

Lemma extends_enabled o o' name : extends o o' → module_enabled o' name = module_enabled o name.
Proof.
  intros He. unfold module_enabled. destruct (GetModuleOptions o name) as [mo|] eqn:Ho; [by erewrite extends_found by done|].
  destruct He as (more & Heq & Hen). destruct (GetModuleOptions o' name) as [mo|] eqn:Ho'; [|done].
  unfold GetModuleOptions in *. rewrite Heq, find_app_none in Ho' by done. apply find_some in Ho' as [Hin _].
  rewrite Forall_forall in Hen. apply Hen. by apply list_elem_of_In.
Qed.

Lemma extends_plan o o' cs : extends o o' → plan o' cs = plan o cs.
Proof. intros He. unfold plan. apply filter_ext. intros c. by apply extends_enabled. Qed.

(** ** One module *)

Lemma GetModuleOptions_snoc o name mo :
  GetModuleOptions o name = None → mo_name mo = name →
  GetModuleOptions (mkManagerOptions (pkgs_options o) (modules_options o ++ [mo])) name = Some mo.
Proof. intros Hn Hmo. unfold GetModuleOptions in *. cbn [modules_options]. rewrite find_app_none by done. cbn. by rewrite Hmo, String.eqb_refl. Qed.

(** The options after a module has been configured. *)
Definition completed (o : ManagerOptions) (c : Candidate) : ManagerOptions :=
  match GetModuleOptions o (cand_name c) with
  | Some _ => o
  | None => mkManagerOptions (pkgs_options o)
              (modules_options o ++ [mkModuleOptions (cand_name c) true AIMRT_LOG_LEVEL_TRACE true ""])
  end.

Lemma completed_extends o c : extends o (completed o c).
Proof.
  unfold completed. destruct (GetModuleOptions o _); [apply extends_refl|].
  eexists [_]. split; [done|]. by constructor.
Qed.

Lemma completed_info o c : ∃ mo, GetModuleOptions (completed o c) (cand_name c) = Some mo.
Proof.
  unfold completed. destruct (GetModuleOptions o _) as [mo|] eqn:Ho; [by exists mo|].
  eexists. by apply GetModuleOptions_snoc.
Qed.

Lemma candidate_info_extends o o' c : extends (completed o c) o' → candidate_info o' c = candidate_info (completed o c) c.
Proof.
  intros He. destruct (completed_info o c) as [mo Hmo]. unfold candidate_info. rewrite Hmo. by erewrite extends_found by done.
Qed.

Lemma candidate_info_completed o c : candidate_info (completed o c) c = candidate_info o c.
Proof.
  unfold candidate_info, completed. destruct (GetModuleOptions o c.1.2) as [mo|] eqn:Ho; [by rewrite Ho|].
  by rewrite (GetModuleOptions_snoc _ _ _ Ho) by done.
Qed.

(** The manager once a module has been entered. *)
Definition with_candidate (c : Candidate) (s : ModuleManager) : ModuleManager :=
  enter_wrapper (cand_name c) (mkWrapper (candidate_info (mm_options s) c) (Some c.2)) (enter_order (cand_name c) s).

Definition candidate_wrapper (o : ManagerOptions) (c : Candidate) : ModuleWrapper :=
  mkWrapper (candidate_info o c) (Some c.2).

(** The wrapper that [init_enabled] makes. *)
Definition bare_wrapper (c : Candidate) : ModuleWrapper := candidate_wrapper (mkManagerOptions [] []) c.

Lemma InitModule_run c s t :
  module_proxy_configurator s = true →
  let s1 := set_mm_options (completed (mm_options s) c) s in
  ∃ r1 tail, InitModule answers (bare_wrapper c) (s, t) = (r1, (s1, t ++ tail)) ∧
    tail `prefix_of` init_events (mm_options s1) c ∧
    (r1 = Ok (candidate_wrapper (mm_options s1) c) ∧ tail = init_events (mm_options s1) c ∨ is_ok r1 = false).
Proof.
  intros Hc s1. subst s1. destruct c as [[pkg name] m]. unfold InitModule, init_events, candidate_wrapper. cbn [mm_options set_mm_options].
  rewrite candidate_info_completed. set (o' := completed _ _). set (info := candidate_info _ _).
  unfold mbind, M_bind. cbn.
  match goal with |- context [match ?a (s, t) with _ => _ end] => assert (a (s, t) = (Ok info, (set_mm_options o' s, t))) as -> end.
  { subst o' info. unfold completed, candidate_info. cbn. destruct (GetModuleOptions (mm_options s) name); [by destruct s|done]. }
  cbn [module_proxy_configurator set_mm_options]. rewrite Hc.
  unfold on_trace, zoom, outside. cbn [fst snd].
  destruct (answers t (EvConfigure info)) as [b1|e|].
  2,3: eexists _, [EvConfigure info]; split_and!; [done|by exists [EvInitialize m]|by right].
  destruct (answers (t ++ [EvConfigure info]) (EvInitialize m)) as [[]|e|]; rewrite <-app_assoc.
  all: eexists _, (init_events (mm_options s) (pkg, name, m)); (split_and!; [done|done|]). 
  - by left.
  - by right.
  - by right.
  - by right.
Qed.

Lemma init_enabled_run (c : Candidate) s t r s' t' :
  module_proxy_configurator s = true →
  init_enabled answers c.1.1 c.1.2 c.2 (s, t) = (r, (s', t')) →
  ∃ tail, t' = t ++ tail ∧ tail `prefix_of` init_events (mm_options s') c ∧ mm_options s' = completed (mm_options s) c ∧
    (r = Ok tt ∧ tail = init_events (mm_options s') c ∧ s' = with_candidate c (set_mm_options (mm_options s') s) ∨
     r ≠ Ok tt ∧ s' = set_mm_options (mm_options s') s).
Proof.
  intros Hc Hrun. destruct (InitModule_run c s t Hc) as (r1 & tail & Hinit & Hpre & Hres).
  unfold init_enabled in Hrun. unfold mbind, M_bind in Hrun.
  match type of Hrun with context [InitModule _ ?w _] => change w with (bare_wrapper c) in Hrun end.
  rewrite Hinit in Hrun. exists tail. destruct Hres as [[-> Htail]|Hbad].
  - injection Hrun as <- <- <-. cbn in *. split_and!; try done. left. by split_and!.
  - destruct r1 as [w|e|]; [done|..]; injection Hrun as <- <- <-; split_and!; try done; by right.
Qed.

(** ** All modules *)

Definition init_candidate (c : Candidate) : M (ModuleManager * Trace) unit :=
  s ← on_mm get;
  if negb (module_enabled (mm_options s) (cand_name c)) then mret tt
  else check_duplicate (cand_name c);; init_enabled answers c.1.1 c.1.2 c.2.

Lemma entered_fresh ms s name : entered s ms → module_wrapper_map s !! name = None → name ∉ map cand_name ms.
Proof.
  intros (_ & _ & Hw) Hnone (c & -> & Hin)%list_elem_of_fmap. specialize (Hw c Hin). by rewrite Hnone in Hw.
Qed.

Lemma entered_with c s ms :
  entered s ms → module_wrapper_map s !! cand_name c = None → entered (with_candidate c s) (ms ++ [c]).
Proof.
  intros He Hnone. pose proof (entered_fresh _ _ _ He Hnone) as Hfresh. destruct He as (Ho & Hnd & Hw). split_and!.
  - cbn. by rewrite Ho, map_app.
  - rewrite map_app. apply NoDup_app. split; [done|]. split; [|apply NoDup_singleton].
    intros x Hx ->%list_elem_of_singleton. done.
  - intros c' Hin. cbn [with_candidate enter_wrapper set_modules module_wrapper_map enter_order].
    apply elem_of_app in Hin as [Hin| ->%list_elem_of_singleton]; [|by rewrite lookup_insert_eq].
    rewrite lookup_insert_ne; [by apply Hw|]. intros Heq. apply Hfresh. rewrite Heq. exact (list_elem_of_fmap_2 cand_name ms c' Hin).
Qed.

Lemma entered_options o ms s : entered s ms → entered (set_mm_options o s) ms.
Proof. done. Qed.

Lemma plan_cons o c cs : plan o (c :: cs) = (if module_enabled o (cand_name c) then [c] else []) ++ plan o cs.
Proof. unfold plan. cbn [List.filter]. by destruct (module_enabled _ _). Qed.

Lemma init_candidates_run (cs : list Candidate) : ∀ ms s t r s' t',
  module_proxy_configurator s = true → entered s ms →
  mapM_ init_candidate cs (s, t) = (r, (s', t')) →
  extends (mm_options s) (mm_options s') ∧ mm_state s' = mm_state s ∧ registered_module_vec s' = registered_module_vec s ∧
  module_loader_map s' = module_loader_map s ∧
  let todo := plan (mm_options s') cs in
  ∃ k tail, k ≤ length todo ∧ entered s' (ms ++ take k todo) ∧
    t' = t ++ flat_map (init_events (mm_options s')) (take k todo) ++ tail ∧
    tail `prefix_of` default [] (init_events (mm_options s') <$> todo !! k) ∧
    (r = Ok tt → k = length todo ∧ tail = []).
Proof.
  induction cs as [|c cs IH]; intros ms s t r s' t' Hc He Hrun; cbn [mapM_] in Hrun.
  - injection Hrun as <- <- <-. split_and!; try done; [apply extends_refl|]. exists 0, []. cbn. rewrite !app_nil_r. by split_and!.
  - assert (init_candidate c (s, t) = if negb (module_enabled (mm_options s) (cand_name c)) then (Ok tt, (s, t)) else
              (check_duplicate (cand_name c);; init_enabled answers c.1.1 c.1.2 c.2) (s, t)) as Hstep.
    { unfold init_candidate. unfold_monad. cbn. by destruct (module_enabled _ _). }
    unfold mbind, M_bind in Hrun. rewrite Hstep in Hrun.
    destruct (module_enabled (mm_options s) (cand_name c)) eqn:Hen; cbn [negb] in Hrun.
    2:{ destruct (IH _ _ _ _ _ _ Hc He Hrun) as (H1 & H2 & H3 & H4 & Htodo). split_and!; try done.
        rewrite plan_cons. by rewrite (extends_enabled _ _ _ H1), Hen. }
    assert (∀ (m : M (ModuleManager * Trace) unit), (check_duplicate (cand_name c);; m) (s, t) =
      if bool_decide (module_wrapper_map s !! cand_name c = None) then m (s, t)
      else (Throw (AimRTException "Duplicate module '{}' in core and lib {}."), (s, t))) as Hdup.
    { intros m. unfold check_duplicate. unfold_monad. cbn. by destruct (bool_decide _). }
    rewrite Hdup in Hrun. destruct (bool_decide _) eqn:Hnone.
    2:{ injection Hrun as <- <- <-. split_and!; try done; [apply extends_refl|]. exists 0, []. cbn [take]. cbn. rewrite !app_nil_r.
        split_and!; [lia|done|done|apply prefix_nil|done]. }
    apply bool_decide_eq_true in Hnone.
    destruct (init_enabled answers c.1.1 c.1.2 c.2 (s, t)) as [r1 [s1 t1]] eqn:Hone.
    destruct (init_enabled_run _ _ _ _ _ _ Hc Hone) as (tail & -> & Hpre & Ho & Hres).
    assert (extends (mm_options s) (mm_options s1)) as Hext by (rewrite Ho; apply completed_extends).
    destruct Hres as [(-> & -> & Hs1)|[Hbad Hs1]].
    + destruct (IH (ms ++ [c]) s1 _ _ _ _ ltac:(by rewrite Hs1) ltac:(rewrite Hs1; by apply entered_with, Hnone) Hrun)
        as (H1 & H2 & H3 & H4 & k & tail & Hk & He' & -> & Htail & Hok).
      split_and!; [by eapply extends_trans|by rewrite H2, Hs1|by rewrite H3, Hs1|by rewrite H4, Hs1|].
      rewrite plan_cons, (extends_enabled _ _ _ H1), (extends_enabled _ _ _ Hext), Hen.
      exists (S k), tail. cbn [app take flat_map lookup list_lookup length]. split_and!; [lia| | |done|].
      * by rewrite <-app_assoc in He'.
      * unfold init_events at 1 3. rewrite (candidate_info_extends (mm_options s) (mm_options s')) by (by rewrite <-Ho).
        rewrite Ho. by rewrite <-!app_assoc.
      * intros Hr. destruct (Hok Hr) as [-> ->]. done.
    + destruct r1 as [[]|e|]; [done|..]; injection Hrun as <- <- <-.
      all: split_and!; [done|by rewrite Hs1|by rewrite Hs1|by rewrite Hs1|].
      all: rewrite plan_cons, (extends_enabled _ _ _ Hext), Hen.
      all: exists 0, tail; cbn; rewrite app_nil_r; split_and!; [lia|by rewrite Hs1|done|done|done].
Qed.

(** ** Loading *)

(** Every module that a loader has created is found. *)
Definition loaders_ok (ls : gmap string ModuleLoader) : Prop :=
  ∀ path l, ls !! path = Some l → Forall (λ name, is_Some (GetModule l name)) (loaded_module_name_vec l).

Lemma UnLoadPkg_run l t : ∃ ds, UnLoadPkg l t = (Ok tt, t ++ map EvDestroy ds).
Proof.
  unfold UnLoadPkg. destruct (dynamic_lib l); [|exists []; cbn; by rewrite app_nil_r].
  assert (∀ m t, ∃ ds, DestroyModule l m t = (Ok tt, t ++ map EvDestroy ds)) as Hone.
  { intros m t'. unfold DestroyModule. destruct (destroy_func l); [by exists [m]|]. exists []. by rewrite app_nil_r. }
  generalize (map_order (module_ptr_map l)). intros ms. revert t. induction ms as [|[name m] ms IH]; intros t.
  - exists []. cbn. by rewrite app_nil_r.
  - cbn [mapM_]. unfold mbind, M_bind. destruct (Hone m t) as [ds1 ->]. destruct (IH (t ++ map EvDestroy ds1)) as [ds2 ->].
    exists (ds1 ++ ds2). by rewrite map_app, app_assoc.
Qed.

Definition loaded_state (s s' : ModuleManager) : Prop :=
  s' = set_loader_map (module_loader_map s') (set_mm_options (mm_options s') s) ∧
  modules_options (mm_options s') = modules_options (mm_options s) ∧
  (loaders_ok (module_loader_map s) → loaders_ok (module_loader_map s')).

Lemma load_package_run ii s t r s' t' :
  load_package open_lib ii (s, t) = (r, (s', t')) → loaded_state s s' ∧ ∃ ds, t' = t ++ map EvDestroy ds.
Proof.
  unfold load_package. unfold mbind at 1, M_bind at 1. cbn [on_mm zoom get fst snd].
  destruct (pkgs_options (mm_options s) !! ii) as [o|].
  2:{ intros [= _ <- <-]. split; [by destruct s|]. exists []. by rewrite app_nil_r. }
  destruct (LoadPkg open_lib (pkg_path_option o) (disable_modules o) (enable_modules o) ModuleLoader_new) as [r1 l] eqn:Hload.
  destruct r1 as [[]|e|].
  2,3: unfold_monad; unfold on_trace, zoom; cbn [fst snd]; destruct (UnLoadPkg_run l t) as [ds ->]; intros [= _ <- <-];
    (split; [by destruct s|]); by exists ds.
  apply LoadPkg_ok in Hload as (lib & names & _ & _ & Hlib & _ & _ & _ & _ & _ & _ & _ & Hfound). rewrite Hlib.
  unfold_monad. unfold on_mm, on_trace, zoom. cbn [fst snd]. destruct (module_loader_map s !! _) as [l0|] eqn:Hold.
  - cbn [fst snd]. destruct (UnLoadPkg_run l t) as [ds ->]. intros [= _ <- <-]. split; [|by exists ds]. split_and!; [by destruct s|done|done].
  - intros [= _ <- <-]. split; [|exists []; by rewrite app_nil_r]. split_and!; [by destruct s|done|].
    intros Hall path l1. cbn. destruct (decide (path = dl_full_path lib)) as [->|Hne].
    + rewrite lookup_insert_eq. intros [= <-]. apply Forall_forall. intros name Hname.
      destruct (Hfound name Hname) as (m & Hm & _). by exists m.
    + rewrite lookup_insert_ne by done. apply Hall.
Qed.

Lemma loaded_state_trans s1 s2 s3 : loaded_state s1 s2 → loaded_state s2 s3 → loaded_state s1 s3.
Proof.
  intros (H1 & O1 & L1) (H2 & O2 & L2). split_and!; [rewrite H2, H1; by destruct s1|by rewrite O2|by intros; apply L2, L1].
Qed.

Lemma load_packages_run (iis : list nat) : ∀ s t r s' t',
  mapM_ (load_package open_lib) iis (s, t) = (r, (s', t')) → loaded_state s s' ∧ ∃ ds, t' = t ++ map EvDestroy ds.
Proof.
  induction iis as [|ii iis IH]; intros s t r s' t' Hrun; cbn [mapM_] in Hrun.
  - injection Hrun as _ <- <-. split; [by destruct s|]. exists []. by rewrite app_nil_r.
  - unfold mbind, M_bind in Hrun. destruct (load_package open_lib ii (s, t)) as [r1 [s1 t1]] eqn:Hone.
    apply load_package_run in Hone as (H1 & ds1 & ->). destruct r1 as [[]|e|].
    + apply IH in Hrun as (H2 & ds2 & ->). split; [by eapply loaded_state_trans|]. exists (ds1 ++ ds2). by rewrite map_app, app_assoc.
    + injection Hrun as _ <- <-. split; [done|]. by exists ds1.
    + injection Hrun as _ <- <-. split; [done|]. by exists ds1.
Qed.

(** ** The candidates *)

Definition registered_candidates (s : ModuleManager) : list Candidate :=
  omap (λ item, (λ m, (item.1, in_name (mb_info m), m)) <$> item.2) (registered_module_vec s).

Definition loader_candidates (p : string * ModuleLoader) : list Candidate :=
  omap (λ name, (λ m, (p.1, name, m)) <$> GetModule p.2 name) (loaded_module_name_vec p.2).

Definition candidates (s : ModuleManager) : list Candidate :=
  registered_candidates s ++ flat_map loader_candidates (map_order (module_loader_map s)).

Lemma init_registered_eq (items : list (string * option ModuleBase)) x :
  Forall (λ item, is_Some item.2) items →
  mapM_ (init_registered answers) items x =
  mapM_ init_candidate (omap (λ item, (λ m, (item.1, in_name (mb_info m), m)) <$> item.2) items) x.
Proof.
  intros Hall. revert x. induction Hall as [|[pkg om] items [m Hm] Hall IH]; intros x; [done|]. cbn in Hm. subst om.
  cbn [mapM_ omap list_omap fmap option_fmap option_map fst snd].
  assert (init_registered answers (pkg, Some m) x = init_candidate (pkg, in_name (mb_info m), m) x) as Heq by done.
  unfold mbind, M_bind. rewrite Heq. destruct (init_candidate _ x) as [[[]|e|] y]; [apply IH|done..].
Qed.

Lemma init_loaded_eq path l (names : list string) x :
  Forall (λ name, is_Some (GetModule l name)) names →
  mapM_ (init_loaded answers path l) names x =
  mapM_ init_candidate (omap (λ name, (λ m, (path, name, m)) <$> GetModule l name) names) x.
Proof.
  intros Hall. revert x. induction Hall as [|name names [m Hm] Hall IH]; intros x; [done|].
  cbn [mapM_ omap list_omap]. rewrite Hm. cbn [fmap option_fmap option_map mapM_].
  assert (init_loaded answers path l name x = init_candidate (path, name, m) x) as Heq.
  { unfold init_loaded, init_candidate. rewrite Hm. done. }
  unfold mbind, M_bind. rewrite Heq. destruct (init_candidate _ x) as [[[]|e|] y]; [apply IH|done..].
Qed.

Lemma init_loaders_eq (ls : list (string * ModuleLoader)) x :
  Forall (λ p : string * ModuleLoader, Forall (λ name, is_Some (GetModule p.2 name)) (loaded_module_name_vec p.2)) ls →
  mapM_ (λ '(path, l), mapM_ (init_loaded answers path l) (loaded_module_name_vec l)) ls x =
  mapM_ init_candidate (flat_map loader_candidates ls) x.
Proof.
  intros Hall. revert x. induction Hall as [|[path l] ls Hl Hall IH]; intros x; [done|].
  cbn [mapM_ flat_map]. rewrite mapM_app. unfold mbind, M_bind. rewrite init_loaded_eq by done.
  unfold loader_candidates at 1. cbn [fst snd]. destruct (mapM_ init_candidate _ x) as [[[]|e|] y]; [apply IH|done..].
Qed.

(** ** Initialize, start, shut down *)

(** A manager that has been constructed, with modules registered. *)
Definition fresh (s : ModuleManager) : Prop :=
  mm_state s = kPreInit ∧ module_proxy_configurator s = true ∧ module_init_order s = [] ∧ module_wrapper_map s = ∅ ∧
  module_loader_map s = ∅ ∧ Forall (λ item, is_Some item.2) (registered_module_vec s).

Lemma candidates_run s t r s' t' :
  loaders_ok (module_loader_map s) → Forall (λ item, is_Some item.2) (registered_module_vec s) →
  (mapM_ (init_registered answers) (registered_module_vec s);;
   mapM_ (λ '(pkg_path, l), mapM_ (init_loaded answers pkg_path l) (loaded_module_name_vec l)) (map_order (module_loader_map s)))
   (s, t) = (r, (s', t')) →
  mapM_ init_candidate (candidates s) (s, t) = (r, (s', t')).
Proof.
  intros Hls Hreg Hrun. unfold candidates. rewrite mapM_app. unfold mbind, M_bind in *. rewrite init_registered_eq in Hrun by done.
  unfold registered_candidates. destruct (mapM_ init_candidate _ (s, t)) as [[[]|e|] y]; [|done..].
  rewrite init_loaders_eq in Hrun; [done|]. apply Forall_forall. intros [path l] Hin.
  apply elem_of_map_order in Hin. by apply (Hls path).
Qed.

Lemma mm_Initialize_run n s t r s' t' :
  fresh s → mm_Initialize open_lib answers n (s, t) = (r, (s', t')) →
  (∀ o, read_options module_decode (mkManagerOptions [] []) n = Ok o → extends (default (mm_options s) o) (mm_options s')) ∧
  mm_state s' = kInit ∧
  let todo := plan (mm_options s') (candidates s') in
  ∃ ds k tail, k ≤ length todo ∧ entered s' (take k todo) ∧
    t' = t ++ map EvDestroy ds ++ flat_map (init_events (mm_options s')) (take k todo) ++ tail ∧
    tail `prefix_of` default [] (init_events (mm_options s') <$> todo !! k) ∧
    (r = Ok tt → k = length todo ∧ tail = []).
Proof.
  intros (Hst & Hc & Hord & Hw & Hl & Hreg) Hrun. unfold mm_Initialize in Hrun.
  assert (∀ s1, module_init_order s1 = [] → entered s1 []) as Hempty.
  { intros s1 Ho. split_and!; [done|constructor|]. intros c Hin. by apply not_elem_of_nil in Hin. }
  unfold mbind, M_bind in Hrun. cbn [on_mm zoom get put fst snd check_throw] in Hrun. rewrite Hc, Hst in Hrun.
  change (state_eqb kPreInit kPreInit) with true in Hrun. cbn in Hrun.
  unfold lift in Hrun. destruct (read_options module_decode _ n) as [o|e|] eqn:Ho.
  2,3: injection Hrun as <- <- <-; split_and!; [done|done|]; exists [], 0, []; cbn; rewrite app_nil_r;
    split_and!; [lia|by apply Hempty|done|apply prefix_nil|done].
  cbn in Hrun. match type of Hrun with context [mapM_ _ _ (?x, t)] => set (s0 := x) in * end.
  destruct (mapM_ (load_package open_lib) _ (s0, t)) as [r1 [s1 t1]] eqn:Hload.
  apply load_packages_run in Hload as ((Hs1 & Hmo & Hls) & ds & ->).
  assert (loaders_ok (module_loader_map s1)) as Hls1.
  { apply Hls. intros path l. cbn. by rewrite Hl, lookup_empty. }
  assert (module_init_order s1 = []) as Hord1 by (rewrite Hs1; exact Hord).
  assert (mm_state s1 = kInit) as Hst1 by (rewrite Hs1; reflexivity).
  assert (∀ o', Ok o = Ok o' → extends (default (mm_options s) o') (mm_options s1)) as Hext.
  { intros o' [= <-]. exists []. rewrite app_nil_r. split; [exact Hmo|constructor]. }
  destruct r1 as [[]|e|].
  2,3: injection Hrun as <- <- <-; split_and!; [done|done|]; exists ds, 0, []; cbn; rewrite app_nil_r;
    split_and!; [lia|by apply Hempty|done|apply prefix_nil|done].
  apply candidates_run in Hrun; [|done|rewrite Hs1; exact Hreg].
  apply (init_candidates_run _ []) in Hrun as (H1 & H2 & H3 & H4 & k & tail & Hk & He & -> & Htail & Hok).
  2:{ rewrite Hs1. exact Hc. } 2:{ by apply Hempty. }
  assert (candidates s' = candidates s1) as -> by (unfold candidates, registered_candidates; by rewrite H3, H4).
  split_and!; [intros o' Ho'; eapply extends_trans; [by apply Hext|done]|by rewrite H2|].
  exists ds, k, tail. split_and!; [done|done|cbn; by rewrite <-app_assoc|done|done].
Qed.

Lemma start_modules_run s (ms : list Candidate) : ∀ t,
  (∀ c, c ∈ ms → mw_module <$> module_wrapper_map s !! cand_name c = Some (Some c.2)) →
  ∃ r k, mapM_ (start_module answers) (map cand_name ms) (s, t) = (r, (s, t ++ map EvStart (take k (map snd ms)))) ∧
    k ≤ length ms ∧ (r = Ok tt → k = length ms) ∧ ((∀ t m, answers t (EvStart m) = Ok true) → r = Ok tt).
Proof.
  induction ms as [|c ms IH]; intros t Hw.
  - exists (Ok tt), 0. cbn. by rewrite app_nil_r.
  - assert (start_module answers (cand_name c) (s, t) =
      (match answers t (EvStart c.2) with
       | Ok true => Ok tt
       | Ok false => Throw (AimRTException "Start module '{}' failed.")
       | Throw e => Throw e
       | Undef => Undef
       end, (s, t ++ [EvStart c.2]))) as Hone.
    { specialize (Hw c (list_elem_of_here _ _)). apply fmap_Some in Hw as (w & Hw & Hm).
      unfold start_module. unfold_monad. unfold on_mm, on_trace, zoom, outside. cbn. rewrite Hw, <-Hm. cbn.
      by destruct (answers t _) as [[]|e|]. }
    cbn [map mapM_]. unfold mbind, M_bind. rewrite Hone. destruct (answers t _) as [[]|e|] eqn:Ha.
    2-4: eexists _, 1; cbn; rewrite take_0; split_and!; [done|lia|done|intros Hall; specialize (Hall t c.2); congruence].
    destruct (IH (t ++ [EvStart c.2])) as (r & k & -> & Hk & Hok & Hall).
    { intros c' Hc'. apply Hw. by right. }
    exists r, (S k). cbn. rewrite <-app_assoc. split_and!; [done|lia| |done]. intros Hr. by rewrite Hok.
Qed.

Lemma shutdown_modules_run s (ms : list Candidate) : ∀ t,
  (∀ c, c ∈ ms → mw_module <$> module_wrapper_map s !! cand_name c = Some (Some c.2)) →
  (∀ t m, is_ok (answers t (EvShutdown m)) = true) →
  mapM_ (shutdown_module answers) (map cand_name ms) (s, t) = (Ok tt, (s, t ++ map EvShutdown (map snd ms))).
Proof.
  induction ms as [|c ms IH]; intros t Hw Hans; [cbn; by rewrite app_nil_r|].
  assert (shutdown_module answers (cand_name c) (s, t) = (Ok tt, (s, t ++ [EvShutdown c.2]))) as Hone.
  { specialize (Hw c (list_elem_of_here _ _)). apply fmap_Some in Hw as (w & Hw & Hm).
    unfold shutdown_module. unfold_monad. unfold on_mm, on_trace, zoom, outside. cbn. rewrite Hw, <-Hm. cbn.
    specialize (Hans t c.2). by destruct (answers t _). }
  cbn [map mapM_]. unfold mbind, M_bind. rewrite Hone, IH; [by rewrite <-app_assoc| |done]. intros c' Hc'. apply Hw. by right.
Qed.

Lemma map_reverse {A B} (f : A → B) (l : list A) : map f (reverse l) = reverse (map f l).
Proof. exact (fmap_reverse f l). Qed.

Lemma mm_Shutdown_run s t ms :
  entered s ms → mm_state s ≠ kShutdown → (∀ t m, is_ok (answers t (EvShutdown m)) = true) →
  ∃ s', mm_Shutdown answers (s, t) = (Ok tt, (s', t ++ map EvShutdown (reverse (map snd ms)))) ∧
    mm_state s' = kShutdown ∧ module_wrapper_map s' = ∅ ∧ module_init_order s' = [].
Proof.
  intros (Ho & _ & Hw) Hst Hans. unfold mm_Shutdown. unfold mbind, M_bind. cbn [on_mm zoom get put fst snd].
  unfold state_eqb. rewrite bool_decide_eq_false_2 by done. rewrite Ho, <-map_reverse.
  rewrite (shutdown_modules_run (set_mm_state kShutdown s) (reverse ms)); [|intros c Hc; rewrite elem_of_reverse in Hc; exact (Hw c Hc)|done].
  eexists. split; [cbn; by rewrite map_reverse|done].
Qed.
End Lifecycle.

(** * What a package's options select *)

(** loading a package succeeds only when all names of the library are there,
    distinct and not empty; it creates exactly the modules that the options
    ask for, in the library's order (the enabled ones, or, when none is named,
    all but the disabled ones), each found under its name and of that name. *)
Theorem load_selects_modules open_lib path disable enable l :
  LoadPkg open_lib path disable enable ModuleLoader_new = (Ok tt, l) →
  ∃ lib names, open_lib path = Some lib ∧ dl_module_name_list lib = Some names ∧
    let all := take (dl_module_num lib) names in
    dl_module_num lib ≤ length names ∧ 0 < dl_module_num lib ∧ NoDup all ∧ "" ∉ all ∧
    loaded_module_name_vec l = List.filter (wanted disable enable) all ∧
    (∀ name m, GetModule l name = Some m ↔ name ∈ loaded_module_name_vec l ∧ dl_create lib name = Some m) ∧
    ∀ name, name ∈ loaded_module_name_vec l → ∃ m, GetModule l name = Some m ∧ in_name (mb_info m) = name.
Proof.
  intros (lib & names & Hlib & Hnames & _ & Hall & Hlen & Hnd & Hne & Hpos & Hloaded & Hok & Hfound)%LoadPkg_ok.
  exists lib, names. rewrite <-Hall. by split_and!.
Qed.

(** * The life of the modules *)


(** initializing again fails, and yet leaves the manager in the state of one
    just initialized, so that the next start runs every module's start again. *)
Theorem failed_initialize_reopens `{YamlOps node, IterOrder} open_lib answers (n : option node) s t :
  module_proxy_configurator s = true → mm_state s ≠ kPreInit →
  mm_Initialize open_lib answers n (s, t) =
    (Throw (AimRTException "Module manager can only be initialized once."), (set_mm_state kInit s, t)) ∧
  ∀ ms, entered s ms → (∀ t m, answers t (EvStart m) = Ok true) →
    mm_Start answers (set_mm_state kInit s, t) = (Ok tt, (set_mm_state kStart s, t ++ map EvStart (map snd ms))).
Proof.
  intros Hc Hst. split.
  - unfold mm_Initialize. unfold mbind, M_bind. cbn [on_mm zoom get put fst snd]. rewrite Hc. cbn.
    unfold state_eqb. by rewrite bool_decide_eq_false_2.
  - intros ms (Ho & _ & Hw) Hans. unfold mm_Start. unfold mbind, M_bind. cbn [on_mm zoom get put fst snd]. cbn. rewrite Ho.
    destruct (start_modules_run answers (set_mm_state kStart s) ms t Hw) as (r & k & Hrun & _ & Hk & Hok).
    rewrite (Hok Hans) in Hrun, Hk. rewrite (Hk eq_refl), take_ge in Hrun by (by rewrite length_map). exact Hrun.
Qed.

(** * The theorems at concrete inputs *)

Module ModuleDemo.
#[local] Existing Instance plain_order.

Definition info (name : string) : ModuleInfo := mkInfo name 1 0 0 0 "" "".
Definition module_of (k : nat) (name : string) : ModuleBase := mkModuleBase k (info name).

(** A package of three modules. *)
Definition lib : DynamicLib :=
  mkDynamicLib "/lib/pkg.so" [] 3 (Some ["a"; "b"; "c"]) (λ name, Some (module_of (String.length name) name)).
Definition open_lib (path : string) : option DynamicLib := if String.eqb path "pkg.so" then Some lib else None.

(** The module [b] does not start. *)
Definition answers (_ : Trace) (e : ModuleEvent) : res bool :=
  match e with EvStart m => Ok (negb (String.eqb (in_name (mb_info m)) "b")) | _ => Ok true end.

Definition config : tree :=
  TMap [("pkgs", TSeq [TMap [("path", TStr "pkg.so"); ("disable_modules", TSeq [TStr "c"])]]);
        ("modules", TSeq [TMap [("name", TStr "a"); ("log_lvl", TStr "warn")]])].

Definition fresh_manager : ModuleManager :=
  set_registered [("core", Some (module_of 0 "r"))] (set_configurator true ModuleManager_new).

Lemma manager_fresh : fresh fresh_manager.
Proof. split_and!; try done. repeat constructor; by eexists. Qed.

Definition loaded : ModuleLoader := (LoadPkg open_lib "pkg.so" ["c"] [] ModuleLoader_new).2.
Lemma loaded_run : LoadPkg open_lib "pkg.so" ["c"] [] ModuleLoader_new = (Ok tt, loaded).
Proof.
  assert ((LoadPkg open_lib "pkg.so" ["c"] [] ModuleLoader_new).1 = Ok tt) as H by by vm_compute.
  unfold loaded. by rewrite <-H, <-surjective_pairing.
Qed.

(** What happens in the whole life of this manager. *)
Definition name_of (e : ModuleEvent) : string :=
  match e with
  | EvDestroy m => "destroy " +:+ in_name (mb_info m)
  | EvConfigure i => "configure " +:+ mi_name i
  | EvInitialize m => "init " +:+ in_name (mb_info m)
  | EvStart m => "start " +:+ in_name (mb_info m)
  | EvShutdown m => "shutdown " +:+ in_name (mb_info m)
  end.

Definition life : ModuleManager * Trace :=
  (mm_Shutdown answers (mm_Start answers (mm_Initialize open_lib answers (Some config) (fresh_manager, [])).2).2).2.

Example life_events : map name_of life.2 =
  ["configure r"; "init r"; "configure a"; "init a"; "configure b"; "init b"; "start r"; "start a"; "start b";
   "shutdown b"; "shutdown a"; "shutdown r"].
Proof. vm_compute. reflexivity. Qed.

(** A manager that was started, with a module. *)
Definition module_r : Candidate := ("core", "r", module_of 0 "r").
Definition started : ModuleManager := with_candidate module_r (set_mm_state kStart fresh_manager).
Lemma started_entered : entered started [module_r].
Proof. split_and!; [done|repeat constructor; set_solver|]. by intros c ->%list_elem_of_singleton. Qed.
End ModuleDemo.

Lemma load_selects_modules_witness :
  ∃ lib names, ModuleDemo.open_lib "pkg.so" = Some lib ∧ dl_module_name_list lib = Some names ∧
    loaded_module_name_vec ModuleDemo.loaded = ["a"; "b"].
Proof.
  destruct (load_selects_modules ModuleDemo.open_lib "pkg.so" ["c"] [] ModuleDemo.loaded ModuleDemo.loaded_run)
    as (lib & names & Hlib & Hnames & _).
  exists lib, names. split; [exact Hlib|]. split; [exact Hnames|reflexivity].
Defined.


Lemma failed_initialize_reopens_witness :
  let again := @mm_Initialize tree tree_ops plain_order ModuleDemo.open_lib (λ _ _, Ok true) None (ModuleDemo.started, []) in
  again.1 = Throw (AimRTException "Module manager can only be initialized once.") ∧
  (mm_Start (λ _ _, Ok true) again.2).2.2 = [EvStart (ModuleDemo.module_of 0 "r")].
Proof.
  intros again.
  destruct (@failed_initialize_reopens tree tree_ops plain_order ModuleDemo.open_lib (λ _ _, Ok true) None
    ModuleDemo.started [] eq_refl ltac:(discriminate)) as [H1 H2].
  unfold again. rewrite H1. split; [reflexivity|].
  cbn [snd]. rewrite (H2 [ModuleDemo.module_r] ModuleDemo.started_entered (λ _ _, eq_refl)). reflexivity.
Defined.
