(* ===== verification/YamlTools.v ===== *)
(** * Checking a configuration: [src/runtime/core/util/yaml_tools.cc]

    The core compares the options that were used with those the user wrote and
    warns about what is never read, suggesting the key closest to a misspelt
    one.  The matrix of [LevenshteinDistance] is a list of rows, indexed with
    bounds checks; [level], which is at most 20, is counted down.  How a node
    is printed and what its pairs are belongs to the YAML library: parameters.

    Theorems: the distance is the least number of edits of one character; a
    suggestion is the closest key; the message is empty exactly when
    everything the user wrote is in the options used. *)

From S2P Require Import Prelude Yaml StringUtil.

(** ** The distance *)

Section Distance.
Context (s1 s2 : bytes).

Abbreviation Dp := (M (list (list nat))).

Definition dp_at (i j : nat) : Dp nat :=
  dp ← get; match dp !! i ≫= (.!! j) with Some v => mret v | None => undef end.

Definition dp_set (i j v : nat) : Dp unit :=
  dp ← get;
  match dp !! i with
  | Some row => if j <? length row then put (<[i := <[j := v]> row]> dp) else undef
  | None => undef
  end.

(* @src src/src/runtime/core/util/yaml_tools.cc:18-22 LevenshteinDistance (cell) *)
Definition lev_cell (i j : nat) : Dp unit :=
  match s1 !! (i - 1), s2 !! (j - 1) with
  | Some c1, Some c2 =>
      if (c1 =? c2)%char then (v ← dp_at (i - 1) (j - 1); dp_set i j v)
      else (a ← dp_at (i - 1) j; b ← dp_at i (j - 1); c ← dp_at (i - 1) (j - 1);
            dp_set i j (Nat.min (Nat.min a b) c + 1))
  | _, _ => undef
  end.

(* @src src/src/runtime/core/util/yaml_tools.cc:8-26 LevenshteinDistance *)
Definition LevenshteinDistance_loops : Dp nat :=
  let len1 := length s1 in let len2 := length s2 in
  put (replicate (len1 + 1) (replicate (len2 + 1) 0));;
  mapM_ (λ i, dp_set i 0 i) (seq 0 (len1 + 1));;
  mapM_ (λ j, dp_set 0 j j) (seq 0 (len2 + 1));;
  mapM_ (λ i, mapM_ (lev_cell i) (seq 1 len2)) (seq 1 len1);;
  dp_at len1 len2.
End Distance.

Definition LevenshteinDistance (s1 s2 : bytes) : res nat := (LevenshteinDistance_loops s1 s2 []).1.

(** ** The check *)

Class YamlWalk (node : Type) `{YamlOps node} := {
  (** The pairs of a map, in order, with keys that are strings. *)
  pairs_of : node → list (string * node);
  (** [stream << node]. *)
  dump : node → bytes
}.

Section Check.
Context {node : Type} `{YamlWalk node}.

(* @src src/src/runtime/core/util/yaml_tools.cc:28-41 FindClosestMatch *)
Definition FindClosestMatch (n : node) (target : string) : res string :=
  fst <$> foldl (λ (acc : res (string * nat)) (it : string * node),
    best ← acc;
    distance ← LevenshteinDistance (lit it.1) (lit target);
    Ok (if distance <? best.2 then (it.1, distance) else best)) (Ok ("", 4)) (pairs_of n).

Definition endl : bytes := ["010"%char].

(** The messages of the items of a sequence, or of the pairs of a map. *)
Fixpoint collect {A} (f : A → res bytes) (l : list A) : res bytes :=
  match l with [] => Ok [] | a :: l' => m ← f a; ms ← collect f l'; Ok (m ++ ms) end.

(** What is missing below one key. *)
(* @src src/src/runtime/core/util/yaml_tools.cc:80-92 CheckYamlNodes (key) *)
Definition check_key (check : option node → option node → bytes → res bytes) (standard_node checked_node : node)
    (path : bytes) (key : string) : res bytes :=
  match index standard_node key with
  | None =>
      closest_match ← FindClosestMatch standard_node key;
      Ok (lit "- Unused options: '" ++ path ++ lit "." ++ lit key ++ lit "'!" ++
          (if String.eqb closest_match "" then endl
           else lit " Did you mean: '" ++ path ++ lit "." ++ lit closest_match ++ lit "'?" ++ endl))
  | Some s => check (Some s) (index checked_node key) (path ++ lit "." ++ lit key)
  end.

(** [room] is 20 less the level. *)
(* @src src/src/runtime/core/util/yaml_tools.cc:43-101 CheckYamlNodes *)
Fixpoint CheckYamlNodes_level (room : nat) (standard_node checked_node : option node) (path : bytes) : res bytes :=
  match checked_node with
  | None => Ok []
  | Some c =>
      match standard_node with
      | None => Ok (lit "- Unused options: '" ++ path ++ lit "'" ++ endl)
      | Some s =>
          match room with
          | O => Ok []
          | S room' =>
              if IsSequence c then
                if negb (IsSequence s) then Ok (lit "- Unused options: '" ++ path ++ lit "'" ++ endl)
                else collect (λ i,
                  match elements_of c !! i with
                  | None => Undef
                  | Some ci =>
                      if length (elements_of s) <=? i then
                        Ok (lit "- Unused options: '" ++ path ++ lit "[" ++ dump ci ++ lit "]'" ++ endl)
                      else CheckYamlNodes_level room' (elements_of s !! i) (Some ci)
                             (path ++ lit "[" ++ lit (to_string (Z.of_nat i)) ++ lit "]")
                  end) (seq 0 (length (elements_of c)))
              else if IsMap c then
                if negb (IsMap s) then Ok (lit "ConfigurationName Warning: '" ++ path ++ lit "'" ++ endl)
                else collect (λ '(key, _), check_key (CheckYamlNodes_level room') s c path key) (pairs_of c)
              else Ok []
          end
      end
  end.

Definition CheckYamlNodes (standard_node checked_node : option node) (path : bytes) (level : nat) : res bytes :=
  CheckYamlNodes_level (20 - level) standard_node checked_node path.
End Check.

(** * The distance counts edits *)

(** One character deleted, inserted or replaced. *)
Inductive edit : bytes → bytes → Prop :=
| edit_delete l x r : edit (l ++ x :: r) (l ++ r)
| edit_insert l x r : edit (l ++ r) (l ++ x :: r)
| edit_replace l x y r : edit (l ++ x :: r) (l ++ y :: r).

(** The recurrence that the matrix follows, from the first characters. *)
Fixpoint lev (a : bytes) : bytes → nat :=
  fix lev_a (b : bytes) : nat :=
    match a, b with
    | [], _ => length b
    | _, [] => length a
    | x :: a', y :: b' => if (x =? y)%char then lev a' b' else Nat.min (Nat.min (lev a' b) (lev_a b')) (lev a' b') + 1
    end.

(** Alignments of two strings and what they cost. *)
Inductive align : nat → bytes → bytes → Prop :=
| al_nil : align 0 [] []
| al_keep n c a b : align n a b → align n (c :: a) (c :: b)
| al_del n x a b : align n a b → align (S n) (x :: a) b
| al_ins n y a b : align n a b → align (S n) a (y :: b)
| al_sub n x y a b : align n a b → align (S n) (x :: a) (y :: b).

Lemma lev_nil_l b : lev [] b = length b.
Proof. by destruct b. Qed.
Lemma lev_nil_r a : lev a [] = length a.
Proof. by destruct a. Qed.
Lemma lev_cons x a y b :
  lev (x :: a) (y :: b) = if (x =? y)%char then lev a b else Nat.min (Nat.min (lev a (y :: b)) (lev (x :: a) b)) (lev a b) + 1.
Proof. done. Qed.

Lemma lev_align a : ∀ b, align (lev a b) a b.
Proof.
  induction a as [|x a IHa].
  - intros b. rewrite lev_nil_l. induction b; cbn; by constructor.
  - induction b as [|y b IHb].
    + rewrite lev_nil_r. clear IHa. generalize (x :: a). clear. intros a. induction a; cbn; by constructor.
    + rewrite lev_cons. destruct (Ascii.eqb_spec x y) as [->|Hne]; [by constructor|]. rewrite Nat.add_1_r.
      destruct (Nat.min_spec (Nat.min (lev a (y :: b)) (lev (x :: a) b)) (lev a b)) as [[_ ->]|[_ ->]]; [|by constructor].
      destruct (Nat.min_spec (lev a (y :: b)) (lev (x :: a) b)) as [[_ ->]|[_ ->]]; by constructor.
Qed.

Lemma align_sym n a b : align n a b → align n b a.
Proof. induction 1; by constructor. Qed.

Lemma align_refl a : align 0 a a.
Proof. induction a; by constructor. Qed.

(** Edits that come before an alignment make it at most one longer. *)
Lemma align_drop n x a b : align n (x :: a) b → ∃ k, k ≤ S n ∧ align k a b.
Proof.
  remember (x :: a) as xa eqn:Hxa. intros Hal. revert x a Hxa.
  induction Hal as [|n c a' b Hal _|n x' a' b Hal _|n y a' b Hal IH|n x' y a' b Hal _]; intros x a Hxa.
  - done.
  - injection Hxa as <- <-. exists (S n). split; [lia|]. by constructor.
  - injection Hxa as <- <-. exists n. split; [lia|done].
  - destruct (IH _ _ Hxa) as (k & Hk & Hal'). exists (S k). split; [lia|]. by constructor.
  - injection Hxa as <- <-. exists (S n). split; [lia|]. by constructor.
Qed.

Lemma align_add n x a b : align n a b → ∃ k, k ≤ S n ∧ align k (x :: a) b.
Proof. intros Hal. exists (S n). split; [done|]. by constructor. Qed.

Lemma align_change n x y a b : align n (x :: a) b → ∃ k, k ≤ S n ∧ align k (y :: a) b.
Proof.
  remember (x :: a) as xa eqn:Hxa. intros Hal. revert x a Hxa.
  induction Hal as [|n c a' b Hal _|n x' a' b Hal _|n z a' b Hal IH|n x' z a' b Hal _]; intros x a Hxa.
  - done.
  - injection Hxa as <- <-. exists (S n). split; [lia|]. by constructor.
  - injection Hxa as <- <-. exists (S n). split; [lia|]. by constructor.
  - destruct (IH _ _ Hxa) as (k & Hk & Hal'). exists (S k). split; [lia|]. by constructor.
  - injection Hxa as <- <-. exists (S n). split; [lia|]. by constructor.
Qed.

(** Whatever can be done to the rest of a string can be done behind a prefix. *)
Lemma align_behind l (r r' : bytes) :
  (∀ n b, align n r b → ∃ k, k ≤ S n ∧ align k r' b) → ∀ n b, align n (l ++ r) b → ∃ k, k ≤ S n ∧ align k (l ++ r') b.
Proof.
  intros Hr. induction l as [|c l IH]; cbn; [done|]. intros n b. remember (c :: l ++ r) as a eqn:Ha. intros Hal.
  induction Hal as [|n c' a' b Hal _|n x a' b Hal _|n y a' b Hal IHb|n x y a' b Hal _].
  - done.
  - injection Ha as -> ->. destruct (IH _ _ Hal) as (k & Hk & Hal'). exists k. split; [lia|]. by constructor.
  - injection Ha as -> ->. destruct (IH _ _ Hal) as (k & Hk & Hal'). exists (S k). split; [lia|]. by constructor.
  - destruct (IHb Ha) as (k & Hk & Hal'). exists (S k). split; [lia|]. by constructor.
  - injection Ha as -> ->. destruct (IH _ _ Hal) as (k & Hk & Hal'). exists (S k). split; [lia|]. by constructor.
Qed.

Lemma edit_align a a' n b : edit a a' → align n a' b → ∃ k, k ≤ S n ∧ align k a b.
Proof.
  intros [l x r|l x r|l x y r]; apply align_behind; intros m c; [apply align_add|apply align_drop|apply align_change].
Qed.

Lemma edits_align n : ∀ a b, nsteps edit n a b → ∃ k, k ≤ n ∧ align k a b.
Proof.
  induction n as [|n IH]; intros a b Hs; inversion Hs as [|? ? a' ? He Hs']; subst.
  - exists 0. split; [done|apply align_refl].
  - apply IH in Hs' as (k & Hk & Hal). destruct (edit_align _ _ _ _ He Hal) as (k' & Hk' & Hal'). exists k'. split; [lia|done].
Qed.

Lemma align_keep_less n c a b : align n (c :: a) (c :: b) → ∃ k, k ≤ n ∧ align k a b.
Proof.
  inversion 1 as [|? ? ? ? Hal|m ? ? ? Hal|m ? ? ? Hal|m ? ? ? ? Hal]; subst.
  - by exists n.
  - apply align_sym, align_drop in Hal as (k & Hk & Hal). exists k. split; [done|by apply align_sym].
  - by apply align_drop in Hal.
  - exists m. split; [lia|done].
Qed.

Lemma align_length n a b : align n a b → length a ≤ n + length b ∧ length b ≤ n + length a.
Proof. induction 1; cbn; lia. Qed.

Lemma lev_least a : ∀ n b, align n a b → lev a b ≤ n.
Proof.
  assert (∀ k a b n, length a + length b ≤ k → align n a b → lev a b ≤ n) as Hmain.
  { clear. induction k as [|k IH]; intros a b n Hlen Hal.
    { destruct a, b; cbn in *; lia. }
    destruct a as [|x a]; [rewrite lev_nil_l; apply align_length in Hal; cbn in *; lia|].
    destruct b as [|y b]; [rewrite lev_nil_r; apply align_length in Hal; cbn in *; lia|].
    rewrite lev_cons. cbn [length] in Hlen. destruct (Ascii.eqb_spec x y) as [->|Hne].
    { apply align_keep_less in Hal as (m & Hm & Hal). etransitivity; [|exact Hm]. apply IH; [lia|done]. }
    inversion Hal as [|? ? ? ? Hal'|m ? ? ? Hal'|m ? ? ? Hal'|m ? ? ? ? Hal']; subst; [done|..].
    all: apply IH in Hal'; [|cbn [length]; lia]; lia. }
  intros n b. apply (Hmain (length a + length b)). done.
Qed.

Lemma edit_behind c a b : edit a b → edit (c :: a) (c :: b).
Proof.
  intros [l x r|l x r|l x y r]; [apply (edit_delete (c :: l))|apply (edit_insert (c :: l))|apply (edit_replace (c :: l))].
Qed.

Lemma align_edits n a b : align n a b → nsteps edit n a b.
Proof.
  assert (∀ m a b, nsteps edit m a b → ∀ c, nsteps edit m (c :: a) (c :: b)) as Hb.
  { induction 1 as [|m a0 b0 c0 He Hs IH]; intros c; [constructor|]. econstructor; [by apply edit_behind|apply IH]. }
  induction 1 as [|n c a b Hal IH|n x a b Hal IH|n y a b Hal IH|n x y a b Hal IH].
  - constructor.
  - by apply Hb.
  - econstructor; [apply (edit_delete [] x a)|done].
  - eapply nsteps_r; [done|]. apply (edit_insert [] y b).
  - econstructor; [apply (edit_replace [] x y a)|by apply Hb].
Qed.

(** The recurrence is the least number of edits. *)
Lemma lev_spec a b : nsteps edit (lev a b) a b ∧ ∀ n, nsteps edit n a b → lev a b ≤ n.
Proof.
  split; [apply align_edits, lev_align|]. intros n (k & Hk & Hal)%edits_align. apply lev_least in Hal. lia.
Qed.

Lemma edit_reverse a b : edit a b → edit (reverse a) (reverse b).
Proof.
  intros [l x r|l x r|l x y r]; rewrite !reverse_app, ?reverse_cons, <-?app_assoc; by constructor.
Qed.

Lemma edits_reverse n a b : nsteps edit n a b → nsteps edit n (reverse a) (reverse b).
Proof. induction 1; [constructor|]. econstructor; [by apply edit_reverse|done]. Qed.

Lemma lev_reverse a b : lev (reverse a) (reverse b) = lev a b.
Proof.
  destruct (lev_spec a b) as [H1 H2], (lev_spec (reverse a) (reverse b)) as [H3 H4].
  apply edits_reverse in H1. apply edits_reverse in H3. rewrite !reverse_involutive in H3.
  apply H4 in H1. apply H2 in H3. lia.
Qed.

(** ** The matrix *)

Section Matrix.
Context (s1 s2 : bytes).

Abbreviation len1 := (length s1).
Abbreviation len2 := (length s2).
Abbreviation cell dp i j := ((dp : list (list nat)) !! i ≫= (.!! j)).

Definition shaped (dp : list (list nat)) : Prop := ∀ i j, is_Some (cell dp i j) ↔ i ≤ len1 ∧ j ≤ len2.

(** The distance of two prefixes. *)
Definition prefix_lev (i j : nat) : nat := lev (reverse (take i s1)) (reverse (take j s2)).

(** The cells of a set hold the distances of their prefixes. *)
Definition filled (P : nat → nat → Prop) (dp : list (list nat)) : Prop :=
  shaped dp ∧ ∀ i j, i ≤ len1 → j ≤ len2 → P i j → cell dp i j = Some (prefix_lev i j).

Lemma dp_at_run P i j dp : filled P dp → i ≤ len1 → j ≤ len2 → P i j → dp_at i j dp = (Ok (prefix_lev i j), dp).
Proof. intros [_ Hf] Hi Hj Hp. unfold dp_at. unfold_monad. by rewrite Hf. Qed.

Lemma dp_set_run P i j dp (Q : nat → nat → Prop) :
  filled P dp → i ≤ len1 → j ≤ len2 → (∀ i' j', Q i' j' → P i' j' ∨ i' = i ∧ j' = j) →
  ∃ dp', dp_set i j (prefix_lev i j) dp = (Ok tt, dp') ∧ filled Q dp'.
Proof.
  intros [Hs Hf] Hi Hj Hq. destruct (proj2 (Hs i j) (conj Hi Hj)) as [v Hv]. unfold dp_set. unfold_monad.
  destruct (dp !! i) as [row|] eqn:Hrow; [|done]. cbn in Hv. apply lookup_lt_Some in Hv as Hlt.
  rewrite (proj2 (Nat.ltb_lt _ _) Hlt). eexists. split; [done|].
  assert (∀ i' j', cell (<[i:=<[j:=prefix_lev i j]> row]> dp) i' j' =
    if decide (i' = i ∧ j' = j) then Some (prefix_lev i j) else cell dp i' j') as Hcell.
  { intros i' j'. apply lookup_lt_Some in Hrow as Hlt'. destruct (decide (i' = i)) as [->|Hne].
    - rewrite list_lookup_insert_eq, Hrow by done. cbn. destruct (decide (j' = j)) as [->|Hnj].
      + rewrite list_lookup_insert_eq by done. by rewrite decide_True.
      + rewrite list_lookup_insert_ne by done. rewrite decide_False by naive_solver. done.
    - rewrite list_lookup_insert_ne by done. rewrite decide_False by naive_solver. done. }
  split.
  - intros i' j'. rewrite Hcell. destruct (decide _) as [[-> ->]|_]; [|apply Hs]. split; [done|by eexists].
  - intros i' j' Hi' Hj' [Hp|[-> ->]]%Hq; rewrite Hcell; [|by rewrite decide_True].
    destruct (decide _) as [[-> ->]|_]; [done|by apply Hf].
Qed.

Lemma prefix_lev_0_r i : i ≤ len1 → prefix_lev i 0 = i.
Proof. intros Hi. unfold prefix_lev. rewrite take_0, lev_nil_r, length_reverse, length_take. lia. Qed.
Lemma prefix_lev_0_l j : j ≤ len2 → prefix_lev 0 j = j.
Proof. intros Hj. unfold prefix_lev. rewrite take_0, lev_nil_l, length_reverse, length_take. lia. Qed.

Lemma prefix_lev_step i j c1 c2 :
  0 < i → 0 < j → s1 !! (i - 1) = Some c1 → s2 !! (j - 1) = Some c2 →
  prefix_lev i j =
    if (c1 =? c2)%char then prefix_lev (i - 1) (j - 1)
    else Nat.min (Nat.min (prefix_lev (i - 1) j) (prefix_lev i (j - 1))) (prefix_lev (i - 1) (j - 1)) + 1.
Proof.
  intros Hi Hj H1 H2. unfold prefix_lev. apply take_S_r in H1 as H1'. apply take_S_r in H2 as H2'.
  replace (S (i - 1)) with i in H1' by lia. replace (S (j - 1)) with j in H2' by lia.
  rewrite H1', H2', !reverse_app. cbn [app reverse rev_append]. by rewrite lev_cons.
Qed.

Lemma lev_cell_run P i j dp (Q : nat → nat → Prop) :
  filled P dp → 0 < i ≤ len1 → 0 < j ≤ len2 → P (i - 1) j → P i (j - 1) → P (i - 1) (j - 1) →
  (∀ i' j', Q i' j' → P i' j' ∨ i' = i ∧ j' = j) → ∃ dp', lev_cell s1 s2 i j dp = (Ok tt, dp') ∧ filled Q dp'.
Proof.
  intros Hf Hi Hj Pa Pb Pc Hq. destruct (lookup_lt_is_Some_2 s1 (i - 1)) as [c1 H1]; [lia|].
  destruct (lookup_lt_is_Some_2 s2 (j - 1)) as [c2 H2]; [lia|].
  destruct (dp_set_run P i j dp Q Hf ltac:(lia) ltac:(lia) Hq) as (dp' & Hset & Hf'). exists dp'. split; [|done].
  rewrite (prefix_lev_step i j c1 c2) in Hset by (done || lia). unfold lev_cell. rewrite H1, H2.
  destruct (c1 =? c2)%char; unfold mbind, M_bind; by rewrite !(dp_at_run P) by (done || lia).
Qed.

Lemma shaped_new : shaped (replicate (len1 + 1) (replicate (len2 + 1) 0)).
Proof.
  intros i j. split.
  - intros [v Hv]. destruct (replicate (len1 + 1) _ !! i) as [row|] eqn:Hrow; [|done].
    apply lookup_replicate in Hrow as [-> Hi]. cbn in Hv. apply lookup_replicate in Hv as [_ Hj]. lia.
  - intros [Hi Hj]. rewrite lookup_replicate_2 by lia. cbn. rewrite lookup_replicate_2 by lia. by eexists.
Qed.

Lemma LevenshteinDistance_lev : LevenshteinDistance s1 s2 = Ok (lev s1 s2).
Proof.
  unfold LevenshteinDistance, LevenshteinDistance_loops. unfold mbind, M_bind. cbn [put].
  destruct (mapM_seq_inv (λ i, dp_set i 0 i) (λ k, filled (λ i j, j = 0 ∧ i < k)) 0 (len1 + 1)
    (replicate (len1 + 1) (replicate (len2 + 1) 0))) as (dp1 & -> & H1).
  { intros k dp Hk Hf. destruct (dp_set_run _ k 0 dp (λ i j, j = 0 ∧ i < k + 1) Hf) as (dp' & Hset & Hf'); [lia..|].
    rewrite prefix_lev_0_r in Hset by lia. by exists dp'. }
  { split; [apply shaped_new|]. lia. }
  destruct (mapM_seq_inv (λ j, dp_set 0 j j) (λ k, filled (λ i j, j = 0 ∨ i = 0 ∧ j < k)) 0 (len2 + 1) dp1) as (dp2 & -> & H2).
  { intros k dp Hk Hf. destruct (dp_set_run _ 0 k dp (λ i j, j = 0 ∨ i = 0 ∧ j < k + 1) Hf) as (dp' & Hset & Hf'); [lia..|].
    rewrite prefix_lev_0_l in Hset by lia. by exists dp'. }
  { split; [apply H1|]. intros i j Hi Hj Hc. apply H1; [lia..|]. lia. }
  destruct (mapM_seq_inv (λ i, mapM_ (lev_cell s1 s2 i) (seq 1 len2)) (λ k, filled (λ i j, j = 0 ∨ i < k)) 1 len1 dp2)
    as (dp3 & -> & H3).
  { intros k dp Hk Hf.
    destruct (mapM_seq_inv (lev_cell s1 s2 k) (λ j', filled (λ i j, j = 0 ∨ i < k ∨ i = k ∧ j < j')) 1 len2 dp) as (dp' & -> & H').
    - intros j dp' Hj Hf'. eapply lev_cell_run; [exact Hf'|cbn; lia..].
    - split; [apply Hf|]. intros i j Hi Hj Hc. apply Hf; [lia..|]. lia.
    - exists dp'. split; [done|]. split; [apply H'|]. intros i j Hi Hj Hc. apply H'; [lia..|]. lia. }
  { split; [apply H2|]. intros i j Hi Hj Hc. apply H2; [lia..|]. lia. }
  rewrite (dp_at_run _ _ _ _ H3) by lia. cbn [fst]. unfold prefix_lev. by rewrite !take_ge, lev_reverse by done.
Qed.
End Matrix.

(** The distance.  The loops over the matrix stay inside it and compute the
    least number of single characters that have to be deleted, inserted or
    replaced to make one string of the other. *)
Theorem distance_counts_edits (s1 s2 : bytes) :
  ∃ d, LevenshteinDistance s1 s2 = Ok d ∧ nsteps edit d s1 s2 ∧ ∀ n, nsteps edit n s1 s2 → d ≤ n.
Proof. exists (lev s1 s2). split; [apply LevenshteinDistance_lev|apply lev_spec]. Qed.

(** * Suggestions *)

(** The first of the closest keys, when it is close enough. *)
Definition suggestion (d : string → nat) (keys : list string) (k : string) : Prop :=
  (∃ pre post, keys = pre ++ k :: post ∧ d k < 4 ∧ Forall (λ x, d k < d x) pre ∧ Forall (λ x, d k ≤ d x) post) ∨
  k = "" ∧ Forall (λ x, 4 ≤ d x) keys.

(** The same with the least distance, or four. *)
Definition best_so_far (d : string → nat) (keys : list string) (best : string * nat) : Prop :=
  (∃ pre post, keys = pre ++ best.1 :: post ∧ best.2 = d best.1 ∧ d best.1 < 4 ∧
     Forall (λ x, best.2 < d x) pre ∧ Forall (λ x, best.2 ≤ d x) post) ∨
  best = ("", 4) ∧ Forall (λ x, 4 ≤ d x) keys.

Lemma best_least d keys best : best_so_far d keys best → best.2 ≤ 4 ∧ Forall (λ x, best.2 ≤ d x) keys.
Proof.
  intros [(pre & post & -> & Hd & Hk & Hpre & Hpost)|[-> Hall]]; [|done]. split; [lia|].
  apply Forall_app. split; [|constructor; [lia|done]]. eapply Forall_impl; [exact Hpre|]. cbn. lia.
Qed.

Lemma best_step d keys best key :
  best_so_far d keys best → best_so_far d (keys ++ [key]) (if d key <? best.2 then (key, d key) else best).
Proof.
  intros Hb. pose proof (best_least _ _ _ Hb) as [H4 Hmin]. destruct (Nat.ltb_spec (d key) best.2) as [Hlt|Hge].
  - left. exists keys, []. cbn. split_and!; [done|done|lia| |done]. eapply Forall_impl; [exact Hmin|]. cbn. lia.
  - destruct Hb as [(pre & post & -> & Hd & Hk & Hpre & Hpost)|[-> Hall]].
    + left. exists pre, (post ++ [key]). rewrite <-app_assoc. split_and!; try done.
      apply Forall_app. split; [done|]. by constructor.
    + right. split; [done|]. apply Forall_app. split; [done|]. by constructor.
Qed.

(** How far a key is from the target. *)
Definition distance_to (target key : string) : nat := lev (lit key) (lit target).

Section Theorems.
Context {node : Type} `{YamlWalk node}.

Lemma FindClosestMatch_loop target (ps : list (string * node)) : ∀ keys best,
  best_so_far (distance_to target) keys best →
  ∃ best', foldl (λ (acc : res (string * nat)) (it : string * node),
      best ← acc;
      distance ← LevenshteinDistance (lit it.1) (lit target);
      Ok (if distance <? best.2 then (it.1, distance) else best)) (Ok best) ps = Ok best' ∧
    best_so_far (distance_to target) (keys ++ map fst ps) best'.
Proof.
  induction ps as [|[key n] ps IH]; intros keys best Hb; cbn [foldl map].
  - exists best. by rewrite app_nil_r.
  - cbn [mbind res_bind]. rewrite LevenshteinDistance_lev. cbn [fst].
    destruct (IH _ _ (best_step _ _ _ key Hb)) as (best' & Hrun & Hb'). exists best'. split; [exact Hrun|].
    by rewrite <-app_assoc in Hb'.
Qed.

(** The suggestion for a misspelt key is the first of the keys at the least
    distance, when that is less than four, and otherwise the empty string. *)
Theorem closest_key_is_suggested (n : node) (target : string) :
  ∃ k, FindClosestMatch n target = Ok k ∧ suggestion (distance_to target) (map fst (pairs_of n)) k.
Proof.
  destruct (FindClosestMatch_loop target (pairs_of n) [] ("", 4)) as (best & Hrun & Hb); [by right|].
  exists best.1. split; [unfold FindClosestMatch; by rewrite Hrun|].
  destruct Hb as [(pre & post & Hkeys & Hd & Hk & Hpre & Hpost)|[-> Hall]]; [|by right].
  left. exists pre, post. rewrite Hd in Hpre, Hpost. done.
Qed.
End Theorems.

(** * When nothing is reported *)

(** What the check relies on: a node is not both a map and a sequence, and a
    look-up finds the first pair with its key. *)
Class YamlWalkLaws (node : Type) `{YamlWalk node} := {
  map_not_sequence n : IsMap n = true → IsSequence n = false;
  index_pairs n k : IsMap n = true → index n k = assoc k (pairs_of n)
}.

Inductive step := Key (k : string) | Item (i : nat).

Section Paths.
Context {node : Type} `{YamlWalkLaws node}.

Definition go (n : node) (s : step) : option node :=
  match s with
  | Key k => if IsMap n then index n k else None
  | Item i => if IsSequence n then elements_of n !! i else None
  end.

Fixpoint find (n : node) (p : list step) : option node :=
  match p with [] => Some n | s :: p' => go n s ≫= λ c, find c p' end.

(** Everything in the checked node, down to a depth, is in the standard one,
    where maps are maps and sequences are sequences. *)
Definition covered (depth : nat) (std chk : node) : Prop :=
  ∀ p c, length p ≤ depth → find chk p = Some c →
    ∃ s, find std p = Some s ∧
      (length p < depth → (IsSequence c = true → IsSequence s = true) ∧ (IsMap c = true → IsMap s = true)).

Lemma covered_step depth std chk :
  covered (S depth) std chk ↔
  (IsSequence chk = true → IsSequence std = true) ∧ (IsMap chk = true → IsMap std = true) ∧
  ∀ st c, go chk st = Some c → ∃ s, go std st = Some s ∧ covered depth s c.
Proof.
  split.
  - intros Hc. split_and!.
    + destruct (Hc [] chk) as (s & [= <-] & Hk); [cbn; lia|done|]. apply Hk. cbn. lia.
    + destruct (Hc [] chk) as (s & [= <-] & Hk); [cbn; lia|done|]. apply Hk. cbn. lia.
    + intros st c Hgo. destruct (Hc [st] c) as (s & Hs & _); [cbn; lia|cbn; by rewrite Hgo|].
      cbn in Hs. destruct (go std st) as [s'|] eqn:Hgo'; [|done]. exists s'. split; [done|].
      intros p c' Hp Hf. destruct (Hc (st :: p) c') as (s'' & Hs'' & Hk); [cbn; lia|cbn; by rewrite Hgo|].
      cbn in Hs''. rewrite Hgo' in Hs''. exists s''. split; [done|]. intros Hlt. apply Hk. cbn. lia.
  - intros (Hseq & Hmap & Hgo) p c Hp Hf. destruct p as [|st p].
    + injection Hf as <-. exists std. split; [done|]. done.
    + cbn in Hf. destruct (go chk st) as [c'|] eqn:Hc'; [|done]. destruct (Hgo st c' Hc') as (s' & Hs' & Hcov).
      destruct (Hcov p c) as (s & Hs & Hk); [cbn in Hp; lia|done|]. exists s. cbn. rewrite Hs'. split; [done|].
      intros Hlt. apply Hk. cbn in Hlt. lia.
Qed.

Lemma covered_0 std chk : covered 0 std chk.
Proof. intros [|st p] c Hp; cbn in Hp; [|lia]. intros [= <-]. exists std. split; [done|]. cbn. lia. Qed.

Lemma collect_nil {A} (f : A → res bytes) l : collect f l = Ok [] ↔ Forall (λ a, f a = Ok []) l.
Proof.
  induction l as [|a l IH]; cbn; [done|]. rewrite Forall_cons. split.
  - destruct (f a) as [m| |]; cbn; [|done..]. destruct (collect f l) as [ms| |]; cbn; [|done..].
    intros [= [-> ->]%app_eq_nil]. by rewrite <-IH.
  - intros [-> ->%IH]. done.
Qed.

Lemma assoc_elem {A} (l : list (string * A)) k : is_Some (assoc k l) ↔ k ∈ map fst l.
Proof.
  induction l as [|[k' a] l IH]; cbn; [split; [by intros [? ?]|by intros ?%not_elem_of_nil]|].
  rewrite elem_of_cons, <-IH. destruct (String.eqb_spec k k') as [->|Hne]; [split; [by left|by eexists]|naive_solver].
Qed.

Lemma no_message std chk : ∀ room path, CheckYamlNodes_level room (Some std) (Some chk) path = Ok [] ↔ covered room std chk.
Proof.
  intros room. revert std chk. induction room as [|room IH]; intros std chk path.
  { split; [intros _; apply covered_0|done]. }
  rewrite covered_step. cbn [CheckYamlNodes_level]. destruct (IsSequence chk) eqn:Hseq.
  - assert (IsMap chk = false) as Hmap.
    { destruct (IsMap chk) eqn:Hm; [|done]. apply map_not_sequence in Hm. congruence. }
    destruct (IsSequence std) eqn:Hstd; cbn [negb]; [|split; [done|intros (Hs & _); by specialize (Hs eq_refl)]].
    rewrite collect_nil, Forall_forall. split.
    + intros Hall. split_and!; [done|by rewrite Hmap|]. intros [k|i] c; cbn; [by rewrite Hmap|]. rewrite Hseq, Hstd. intros Hi.
      specialize (Hall i). rewrite Hi in Hall. apply lookup_lt_Some in Hi as Hlt.
      specialize (Hall ltac:(apply elem_of_seq; lia)).
      destruct (elements_of std !! i) as [s|] eqn:Hs.
      * exists s. split; [done|]. apply lookup_lt_Some in Hs. rewrite (proj2 (Nat.leb_gt _ _)) in Hall by done. by eapply IH.
      * apply lookup_ge_None in Hs. rewrite (proj2 (Nat.leb_le _ _)) in Hall by done. done.
    + intros (_ & _ & Hgo) i Hi. apply elem_of_seq in Hi. destruct (lookup_lt_is_Some_2 (elements_of chk) i) as [c Hc]; [lia|].
      rewrite Hc. destruct (Hgo (Item i) c) as (s & Hs & Hcov); [cbn; by rewrite Hseq|]. cbn in Hs. rewrite Hstd in Hs.
      rewrite (proj2 (Nat.leb_gt _ _)), Hs by (by eapply lookup_lt_Some). by apply IH.
  - destruct (IsMap chk) eqn:Hmap.
    2:{ split; [|done]. intros _. split_and!; [done|done|]. intros [k|i] c; cbn; [by rewrite Hmap|by rewrite Hseq]. }
    destruct (IsMap std) eqn:Hstd; cbn [negb]; [|split; [done|intros (_ & Hm & _); by specialize (Hm eq_refl)]].
    rewrite collect_nil, Forall_forall. split.
    + intros Hall. split_and!; [done..|]. intros [k|i] c; cbn; [|by rewrite Hseq]. rewrite Hmap, Hstd. intros Hk.
      pose proof Hk as Hk'. rewrite index_pairs in Hk' by done.
      assert (k ∈ map fst (pairs_of chk)) as ([k' c'] & Heq & Hin)%list_elem_of_fmap by (apply assoc_elem; by eexists). cbn in Heq. subst k'.
      specialize (Hall _ Hin). cbn in Hall. unfold check_key in Hall. destruct (index std k) as [s|] eqn:Hs.
      * exists s. split; [done|]. rewrite Hk in Hall. by eapply IH.
      * destruct (FindClosestMatch std k) as [cm| |]; cbn in Hall; [|done..]. done.
    + intros (_ & _ & Hgo) [k c'] Hin. unfold check_key.
      destruct (proj2 (assoc_elem (pairs_of chk) k)) as [c Hc]; [apply list_elem_of_fmap; by exists (k, c')|].
      rewrite <-index_pairs in Hc by done. destruct (Hgo (Key k) c) as (s & Hs & Hcov); [cbn; by rewrite Hmap|].
      cbn in Hs. rewrite Hstd in Hs. rewrite Hs, Hc. by apply IH.
Qed.

(** C33: The check is silent exactly when, as far as the twenty levels go, every
    option that the user wrote, by whatever path of keys and positions, exists
    in the options used, maps being maps there and sequences sequences. *)
Theorem silent_check_covers std chk path level :
  CheckYamlNodes (Some std) (Some chk) path level = Ok [] ↔ covered (20 - level) std chk.
Proof. apply no_message. Qed.
End Paths.

(** * At a concrete input *)

Module YamlToolsDemo.
#[export] Instance tree_walk : YamlWalk tree.
Proof. split; [exact (λ t, match t with TMap l => l | _ => [] end)|exact (λ _, [])]. Defined.
#[export] Instance tree_walk_laws : YamlWalkLaws tree.
Proof. split; [by intros []|by intros []]. Qed.

Definition used : tree := TMap [("log", TMap [("core_lvl", TStr "info"); ("backends", TSeq [TStr "console"])])].
Definition written : tree := TMap [("log", TMap [("core_lv", TStr "warn")])].

Example misspelt : CheckYamlNodes (Some used) (Some written) (lit "aimrt") 0 =
  Ok (lit "- Unused options: 'aimrt.log.core_lv'! Did you mean: 'aimrt.log.core_lvl'?" ++ endl).
Proof. vm_compute. reflexivity. Qed.
End YamlToolsDemo.
Import YamlToolsDemo.

Lemma silent_check_covers_witness :
  let n := TMap [("log", TMap [("core_lvl", TStr "warn")])] in
  CheckYamlNodes (Some used) (Some n) [] 0 = Ok [] ∧ covered (20 - 0) used n ∧
  ¬ covered (20 - 0) used written.
Proof.
  intros n.
  assert (CheckYamlNodes (Some used) (Some n) [] 0 = Ok []) as H by (by vm_compute).
  split; [exact H|]. split; [exact (proj1 (silent_check_covers used n [] 0) H)|].
  intros Hc. apply (silent_check_covers used written [] 0) in Hc.
  assert (is_ok (CheckYamlNodes (Some used) (Some written) [] 0) = true) as _ by (by vm_compute).
  vm_compute in Hc. discriminate Hc.
Defined.
