(* ===== verification/PluginManager.v ===== *)
(** * Plugins: [src/runtime/core/plugin/plugin_manager.*], [plugin_loader.*]

    The manager loads the plugins that the options name, from libraries or
    from those registered directly, initializes them in order and shuts them
    down.

    A library is a record of what it holds.  What a plugin does when it is
    initialized is a parameter: the options of plugins it replaces (by
    [UpdatePluginOptionsNode], the only thing a plugin can change in the
    manager) after it has read the options, and what it returns or throws; the
    calls of plugins are events.  The options written back are not modelled.

    Theorems: the plugins used are those configured, in that order; which are
    initialized, and which of them are shut down. *)

From S2P Require Import Prelude Yaml StringUtil Filters.

(** A plugin: which one it is, and its name. *)
Record Plugin := mkPlugin { pl_id : nat; pl_Name : string }.

Record PluginLib := mkPluginLib {
  pl_full_path : string;
  pl_missing : list string;
  pl_create : option Plugin
}.

Inductive PluginEvent := EvInitialize (p : Plugin) | EvShutdown (p : Plugin) | EvDestroy (p : Plugin).
Abbreviation Trace := (list PluginEvent).

(* @src src/src/runtime/core/plugin/plugin_loader.h:35-42 PluginLoader *)
Record PluginLoader := mkPluginLoader {
  plugin_path : string;
  dynamic_lib : option PluginLib;
  destroy_func : bool;
  plugin_ptr : option Plugin
}.

Definition PluginLoader_new : PluginLoader := mkPluginLoader "" None false None.

Section Loader.
Context (open_lib : string → option PluginLib).

Definition has_symbol (lib : PluginLib) (name : string) : bool := bool_decide (name ∉ pl_missing lib).

(* @src src/src/runtime/core/plugin/plugin_loader.cc:14-36 PluginLoader::LoadPlugin *)
Definition LoadPlugin (path : string) : M PluginLoader unit :=
  l ← get;
  put (mkPluginLoader path (open_lib path) (destroy_func l) (plugin_ptr l));;
  match open_lib path with
  | None => throw (AimRTException "Load dynamic lib failed, lib path {}, error info {}")
  | Some lib =>
      check_throw (has_symbol lib "AimRTDynlibCreateCorePluginHandle") "Cannot find symbol '{}' in lib {}.";;
      let destroy := has_symbol lib "AimRTDynlibDestroyCorePluginHandle" in
      put (mkPluginLoader path (Some lib) destroy (plugin_ptr l));;
      check_throw destroy "Cannot find symbol '{}' in lib {}.";;
      put (mkPluginLoader path (Some lib) destroy (pl_create lib));;
      check_throw (bool_decide (is_Some (pl_create lib))) "Cannot create plugin in lib {}."
  end.

(** What unloading it, which is destroying it, does outside. *)
(* @src src/src/runtime/core/plugin/plugin_loader.cc:38-51 PluginLoader::UnLoadPlugin *)
Definition UnLoadPlugin (l : PluginLoader) : M Trace unit :=
  match dynamic_lib l, plugin_ptr l with
  | Some _, Some p => if destroy_func l then modify (λ t, t ++ [EvDestroy p]) else mret tt
  | _, _ => mret tt
  end.
End Loader.

Section Manager.
Context {node : Type} `{YamlOps node}.
Context (open_lib : string → option PluginLib).

(* @src src/src/runtime/core/plugin/plugin_manager.h:20-24 PluginManager::Options::PluginOptions *)
Record PluginOptions := mkPluginOptions { po_name : string; po_path : string; po_options : node }.

(* @src src/src/runtime/core/plugin/plugin_manager.cc:32-43 convert<PluginManager::Options>::decode (plugin) *)
Definition decode_plugin (n : node) : res PluginOptions :=
  name ← as_of as_string (index n "name");
  path ← as_of as_string (index n "path");
  Ok (mkPluginOptions name path (default NullNode (index n "options"))).

(* @src src/src/runtime/core/plugin/plugin_manager.cc:28-46 convert<PluginManager::Options>::decode *)
Definition plugin_decode (n : node) (rhs : list PluginOptions) : res (option (list PluginOptions)) :=
  if negb (IsMap n) then Ok None
  else l ← each_of n "plugins" decode_plugin rhs; Ok (Some l).

(* @src src/src/runtime/core/plugin/plugin_manager.h:67-79 PluginManager *)
Record PluginManager := mkPM {
  plugins_options : list PluginOptions;
  pm_state : State;
  core_ptr : bool;
  registered_plugin_vec : list Plugin;
  plugin_loader_vec : list PluginLoader;
  used_plugin_vec : list Plugin
}.

Definition PluginManager_new : PluginManager := mkPM [] kPreInit false [] [] [].

Definition set_plugins_options x (s : PluginManager) : PluginManager :=
  mkPM x (pm_state s) (core_ptr s) (registered_plugin_vec s) (plugin_loader_vec s) (used_plugin_vec s).
Definition set_pm_state x (s : PluginManager) : PluginManager :=
  mkPM (plugins_options s) x (core_ptr s) (registered_plugin_vec s) (plugin_loader_vec s) (used_plugin_vec s).
Definition set_core_ptr x (s : PluginManager) : PluginManager :=
  mkPM (plugins_options s) (pm_state s) x (registered_plugin_vec s) (plugin_loader_vec s) (used_plugin_vec s).
Definition set_registered_plugins x (s : PluginManager) : PluginManager :=
  mkPM (plugins_options s) (pm_state s) (core_ptr s) x (plugin_loader_vec s) (used_plugin_vec s).
Definition set_loaders x (s : PluginManager) : PluginManager :=
  mkPM (plugins_options s) (pm_state s) (core_ptr s) (registered_plugin_vec s) x (used_plugin_vec s).
Definition set_used x (s : PluginManager) : PluginManager :=
  mkPM (plugins_options s) (pm_state s) (core_ptr s) (registered_plugin_vec s) (plugin_loader_vec s) x.

(** What a plugin does in [Initialize], given what [GetPluginOptionsNode]
    answers: the options it replaces, and what comes of it. *)
Context (plugin_Initialize : Plugin → (string → option node) → list (string * node) * res bool).

Abbreviation Sys := (PluginManager * Trace)%type.
Definition on_pm {A} (m : M PluginManager A) : M Sys A := zoom fst (λ c y, (c, y.2)) m.
Definition on_trace {A} (m : M Trace A) : M Sys A := zoom snd (λ t y, (y.1, t)) m.

Definition pm_when (st : State) (what : string) : M PluginManager unit :=
  s ← get; check_throw (state_eqb (pm_state s) st) what.
Definition pm_when_init : M PluginManager unit := pm_when kInit "Method can only be called when state is 'Init'.".
Definition pm_when_preinit : M PluginManager unit := pm_when kPreInit "Method can only be called when state is 'PreInit'.".

Definition options_of (os : list PluginOptions) (name : string) : option node :=
  po_options <$> List.find (λ o, String.eqb name (po_name o)) os.

(* @src src/src/runtime/core/plugin/plugin_manager.cc:180-194 PluginManager::GetPluginOptionsNode *)
Definition GetPluginOptionsNode (name : string) : M PluginManager (option node) :=
  pm_when_init;; s ← get; mret (options_of (plugins_options s) name).

(** The first plugin of the name gets the options. *)
Fixpoint update_first (name : string) (n : node) (os : list PluginOptions) : list PluginOptions :=
  match os with
  | [] => []
  | o :: os' =>
      if String.eqb name (po_name o) then mkPluginOptions (po_name o) (po_path o) n :: os'
      else o :: update_first name n os'
  end.

(* @src src/src/runtime/core/plugin/plugin_manager.cc:196-208 PluginManager::UpdatePluginOptionsNode *)
Definition UpdatePluginOptionsNode (name : string) (n : node) : M PluginManager unit :=
  pm_when_init;; modify (λ s, set_plugins_options (update_first name n (plugins_options s)) s).

(** [plugin_ptr->Initialize(core_ptr_)]. *)
Definition call_Initialize (p : Plugin) : M Sys bool :=
  s ← on_pm get;
  on_trace (modify (λ t, t ++ [EvInitialize p]));;
  let '(updates, r) := plugin_Initialize p (options_of (plugins_options s)) in
  mapM_ (λ '(name, n), on_pm (UpdatePluginOptionsNode name n)) updates;;
  lift r.

(** Another plugin of the same name. *)
Definition duplicated (os : list PluginOptions) (ii : nat) (name : string) : bool :=
  existsb (λ '(jj, other), negb (jj =? ii) && String.eqb other name) (zip (seq 0 (length os)) (map po_name os)).

(** A plugin from a library; its loader is kept once the name has been checked
    and destroyed when something fails before. *)
(* @src src/src/runtime/core/plugin/plugin_manager.cc:80-98 PluginManager::Initialize (load) *)
Definition load_plugin (ii : nat) (o : PluginOptions) : M Sys Plugin :=
  let '(r, l) := LoadPlugin open_lib (po_path o) PluginLoader_new in
  match r, plugin_ptr l, dynamic_lib l with
  | Ok _, Some p, Some lib =>
      if String.eqb (pl_Name p) (po_name o) then
        on_pm (modify (λ s, set_loaders (plugin_loader_vec s ++ [l])
          (set_plugins_options (<[ii := mkPluginOptions (po_name o) (pl_full_path lib) (po_options o)]> (plugins_options s)) s)));;
        mret p
      else on_trace (UnLoadPlugin l);; throw (AimRTException "Require plugin name '{}', but get plugin name '{}' in lib {}.")
  | Ok _, _, _ => undef
  | Throw e, _, _ => on_trace (UnLoadPlugin l);; throw e
  | Undef, _, _ => undef
  end.

(** The first registered plugin of a name, and the others. *)
Fixpoint take_plugin (name : string) (ps : list Plugin) : option (Plugin * list Plugin) :=
  match ps with
  | [] => None
  | p :: ps' =>
      if String.eqb (pl_Name p) name then Some (p, ps')
      else '(q, qs) ← take_plugin name ps'; Some (q, p :: qs)
  end.

(** One plugin of the options; [tmp] are the registered ones not yet used. *)
(* @src src/src/runtime/core/plugin/plugin_manager.cc:67-122 PluginManager::Initialize (plugin) *)
Definition init_plugin (ii : nat) (tmp : list Plugin) : M Sys (list Plugin) :=
  s ← on_pm get;
  match plugins_options s !! ii with
  | None => undef
  | Some o =>
      check_throw (negb (duplicated (plugins_options s) ii (po_name o))) "Duplicate plugin name {}";;
      found ← (if negb (String.eqb (po_path o) "") then p ← load_plugin ii o; mret (p, tmp)
               else match take_plugin (po_name o) tmp with
                    | Some (p, tmp') => mret (p, tmp')
                    | None => throw (AimRTException "Can not find plugin {}")
                    end);
      ret ← call_Initialize found.1;
      check_throw ret "Init plugin '{}' failed.";;
      on_pm (modify (λ s, set_used (used_plugin_vec s ++ [found.1]) s));;
      mret found.2
  end.

Fixpoint init_plugins (iis : list nat) (tmp : list Plugin) : M Sys (list Plugin) :=
  match iis with [] => mret tmp | ii :: iis' => tmp' ← init_plugin ii tmp; init_plugins iis' tmp' end.

(* @src src/src/runtime/core/plugin/plugin_manager.cc:52-136 PluginManager::Initialize *)
Definition pm_Initialize (options_node : option node) : M Sys unit :=
  s ← on_pm get;
  check_throw (core_ptr s) "AimRT core point is not set before PluginManager initialize.";;
  on_pm (put (set_pm_state kInit s));;
  check_throw (state_eqb (pm_state s) kPreInit) "Plugin manager can only be initialized once.";;
  o ← lift (read_options plugin_decode [] options_node);
  on_pm (modify (λ s, set_plugins_options (default (plugins_options s) o) s));;
  s ← on_pm get;
  tmp ← init_plugins (seq 0 (length (plugins_options s))) (registered_plugin_vec s);
  match tmp with
  | [] => mret tt
  | _ => throw (AimRTException "Some plugins are not configured, {}")
  end.

(* @src src/src/runtime/core/plugin/plugin_manager.cc:138-144 PluginManager::Start *)
Definition pm_Start : M Sys unit :=
  s ← on_pm get;
  on_pm (put (set_pm_state kStart s));;
  check_throw (state_eqb (pm_state s) kInit) "Method can only be called when state is 'Init'.".

(** [GetPlugin()->Shutdown()] of a loader; plugins throw nothing there. *)
Definition shutdown_loader (l : PluginLoader) : M Sys unit :=
  match plugin_ptr l with Some p => on_trace (modify (λ t, t ++ [EvShutdown p])) | None => undef end.

(* @src src/src/runtime/core/plugin/plugin_manager.cc:146-160 PluginManager::Shutdown *)
Definition pm_Shutdown : M Sys unit :=
  s ← on_pm get;
  on_pm (put (set_pm_state kShutdown s));;
  if state_eqb (pm_state s) kShutdown then mret tt
  else
    mapM_ shutdown_loader (reverse (plugin_loader_vec s));;
    on_pm (modify (set_core_ptr false)).

(* @src src/src/runtime/core/plugin/plugin_manager.cc:162-170 PluginManager::RegisterPlugin *)
Definition RegisterPlugin (p : option Plugin) : M PluginManager unit :=
  pm_when_preinit;;
  match p with
  | None => throw (AimRTException "Register invalid plugin")
  | Some p => modify (λ s, set_registered_plugins (registered_plugin_vec s ++ [p]) s)
  end.

(* @src src/src/runtime/core/plugin/plugin_manager.cc:172-178 PluginManager::RegisterCorePtr *)
Definition RegisterCorePtr (is_set : bool) : M PluginManager unit := pm_when_preinit;; modify (set_core_ptr is_set).

(** The plugins' own reports, which follow, are parameters. *)
(* @src src/src/runtime/core/plugin/plugin_manager.cc:210-233 PluginManager::GenInitializationReport *)
Definition pm_GenInitializationReport (report_of : Plugin → list (string * bytes)) : M PluginManager (list (string * bytes)) :=
  pm_when_init;;
  s ← get;
  mret (("Plugin List", DrawTable ([lit "name"; lit "path"] :: map (λ o, [lit (po_name o); lit (po_path o)]) (plugins_options s)) true) ::
        concat (map report_of (used_plugin_vec s))).

(* @src src/src/runtime/core/plugin/plugin_manager.cc:235-240 PluginManager::GetUsedPlugin *)
Definition GetUsedPlugin : M PluginManager (list Plugin) := pm_when_init;; gets used_plugin_vec.
End Manager.

(** * Which plugins are used *)

(** A plugin that was initialized, and whether it came from a library. *)
Abbreviation Origin := (bool * Plugin)%type.

Section Theorems.
Context {node : Type} `{YamlOps node}.
Context (open_lib : string → option PluginLib)
  (plugin_Initialize : Plugin → (string → option node) → list (string * node) * res bool).

Abbreviation PM := (PluginManager (node := node)).

(** Names and paths of the options. *)
Definition po_place (o : PluginOptions (node := node)) : string * string := (po_name o, po_path o).

Lemma update_first_places name n (os : list (PluginOptions (node := node))) :
  map po_place (update_first name n os) = map po_place os.
Proof. induction os as [|o os IH]; cbn; [done|]. destruct (String.eqb _ _); cbn; [done|]. by rewrite IH. Qed.

Lemma updates_run (us : list (string * node)) : ∀ (s : PM) (t : Trace),
  pm_state s = kInit →
  ∃ os, mapM_ (λ '(name, n), on_pm (UpdatePluginOptionsNode name n)) us (s, t) = (Ok tt, (set_plugins_options os s, t)) ∧
    map po_place os = map po_place (plugins_options s).
Proof.
  induction us as [|[name n] us IH]; intros s t Hst.
  - exists (plugins_options s). by destruct s.
  - destruct (IH (set_plugins_options (update_first name n (plugins_options s)) s) t Hst) as (os & Hrun & Hos).
    exists os. split; [|by rewrite Hos; apply update_first_places].
    cbn [mapM_]. unfold mbind, M_bind.
    assert (on_pm (UpdatePluginOptionsNode name n) (s, t) =
      (Ok tt, (set_plugins_options (update_first name n (plugins_options s)) s, t))) as ->.
    { unfold UpdatePluginOptionsNode, pm_when_init, pm_when. unfold_monad. unfold on_pm, zoom. cbn. rewrite Hst. done. }
    exact Hrun.
Qed.

Lemma call_Initialize_run p (s : PM) t :
  pm_state s = kInit →
  ∃ os r, call_Initialize plugin_Initialize p (s, t) = (r, (set_plugins_options os s, t ++ [EvInitialize p])) ∧
    map po_place os = map po_place (plugins_options s).
Proof.
  intros Hst. unfold call_Initialize. unfold mbind at 1, M_bind at 1. cbn [on_pm zoom get fst snd].
  destruct (plugin_Initialize p _) as [us r] eqn:Hp. unfold mbind, M_bind. cbn [on_trace zoom modify fst snd].
  destruct (updates_run us s (t ++ [EvInitialize p]) Hst) as (os & -> & Hos). by exists os, r.
Qed.

Lemma take_plugin_perm name ps p ps' : take_plugin name ps = Some (p, ps') → pl_Name p = name ∧ ps ≡ₚ p :: ps'.
Proof.
  revert ps'. induction ps as [|q ps IH]; intros ps'; cbn; [done|].
  destruct (String.eqb_spec (pl_Name q) name) as [Hq|Hq]; [intros [= <- <-]; done|].
  destruct (take_plugin name ps) as [[q' qs]|]; cbn; [|done]. intros [= <- <-].
  destruct (IH _ eq_refl) as [Hname Hperm]. split; [done|]. rewrite Hperm. by apply perm_swap.
Qed.

(** What initializing some plugins does. *)
Record inits_spec (iis : list nat) (tmp : list Plugin) (s : PM) (t : Trace) (r : res (list Plugin)) (s' : PM) (t' : Trace) : Prop := {
  is_state : pm_state s' = pm_state s ∧ core_ptr s' = core_ptr s ∧ registered_plugin_vec s' = registered_plugin_vec s;
  is_names : map po_name (plugins_options s') = map po_name (plugins_options s);
  is_run : ∃ (ps : list Origin) ds,
    t' = t ++ map (λ o, EvInitialize o.2) ps ++ map EvDestroy ds ∧
    map plugin_ptr (plugin_loader_vec s') = map plugin_ptr (plugin_loader_vec s) ++ map (λ o, Some o.2) (List.filter fst ps) ∧
    (∀ p, p ∈ map snd (List.filter (negb ∘ fst) ps) → p ∈ tmp) ∧
    ∀ tmp', r = Ok tmp' →
      ds = [] ∧ used_plugin_vec s' = used_plugin_vec s ++ map snd ps ∧
      Forall2 (λ ii (o : Origin), plugins_options s' !! ii ≫= (λ po, Some (po_name po)) = Some (pl_Name o.2)) iis ps ∧
      Forall (λ ii, ∀ po, plugins_options s !! ii = Some po → duplicated (plugins_options s) ii (po_name po) = false) iis ∧
      tmp ≡ₚ map snd (List.filter (negb ∘ fst) ps) ++ tmp'
}.

Lemma duplicated_names (os os' : list (PluginOptions (node := node))) ii name :
  map po_name os = map po_name os' → duplicated os ii name = duplicated os' ii name.
Proof.
  unfold duplicated. intros Hn. pose proof (f_equal length Hn) as Hlen. rewrite !length_map in Hlen. by rewrite Hn, Hlen.
Qed.

Lemma duplicated_spec (os : list (PluginOptions (node := node))) ii name :
  duplicated os ii name = true ↔ ∃ jj o, jj ≠ ii ∧ os !! jj = Some o ∧ po_name o = name.
Proof.
  unfold duplicated. rewrite existsb_exists. split.
  - intros ([jj other] & Hin%list_elem_of_In & [Hj Hname]%andb_true_iff). apply negb_true_iff, Nat.eqb_neq in Hj.
    apply String.eqb_eq in Hname as ->. apply list_elem_of_lookup in Hin as [k Hk].
    apply lookup_zip_Some in Hk as [Hs Ho]. apply lookup_seq in Hs as [-> _].
    apply list_lookup_fmap_Some in Ho as (o & Hname & Ho). by exists k, o.
  - intros (jj & o & Hj & Ho & <-). exists (jj, po_name o). split.
    + apply list_elem_of_In, list_elem_of_lookup. exists jj. apply lookup_zip_Some. split.
      * apply lookup_seq. split; [done|]. by eapply lookup_lt_Some.
      * by rewrite list_lookup_fmap, Ho.
    + apply andb_true_iff. split; [by apply negb_true_iff, Nat.eqb_neq|apply String.eqb_refl].
Qed.

Lemma UnLoadPlugin_run l t : ∃ ds, UnLoadPlugin l t = (Ok tt, t ++ map EvDestroy ds).
Proof.
  unfold UnLoadPlugin. destruct (dynamic_lib l) as [lib|]; [destruct (plugin_ptr l) as [p|]; [destruct (destroy_func l)|]|].
  1: by exists [p]. all: exists []; by rewrite app_nil_r.
Qed.

Lemma inits_none ii tmp (s : PM) t r ds : is_ok r = false → inits_spec [ii] tmp s t r s (t ++ map EvDestroy ds).
Proof.
  intros Hr. constructor; [done|done|]. exists [], ds. cbn. rewrite app_nil_r. split_and!; [done|done| |].
  - by intros p ?%not_elem_of_nil.
  - intros tmp' ->. done.
Qed.

Lemma inits_one (ii : nat) (tmp tmp' : list Plugin) (s s1 : PM) t (o : PluginOptions) (org : Origin) :
  pm_state s = kInit → plugins_options s !! ii = Some o → duplicated (plugins_options s) ii (po_name o) = false →
  pl_Name org.2 = po_name o → map po_name (plugins_options s1) = map po_name (plugins_options s) →
  pm_state s1 = pm_state s → core_ptr s1 = core_ptr s → registered_plugin_vec s1 = registered_plugin_vec s →
  used_plugin_vec s1 = used_plugin_vec s →
  map plugin_ptr (plugin_loader_vec s1) = map plugin_ptr (plugin_loader_vec s) ++ map (λ o, Some o.2) (List.filter fst [org]) →
  tmp ≡ₚ map snd (List.filter (negb ∘ fst) [org]) ++ tmp' →
  ∀ r s' t',
  (ret ← call_Initialize plugin_Initialize org.2;
   check_throw ret "Init plugin '{}' failed.";;
   on_pm (modify (λ s, set_used (used_plugin_vec s ++ [org.2]) s));; mret tmp') (s1, t) = (r, (s', t')) →
  inits_spec [ii] tmp s t r s' t'.
Proof.
  intros Hst Ho Hdup Hname Hnames Hst1 Hc1 Hr1 Hu1 Hl1 Htmp r s' t' Hrun.
  destruct (call_Initialize_run org.2 s1 t) as (os & r1 & Hcall & Hos); [by rewrite Hst1|].
  assert (map po_name os = map po_name (plugins_options s)) as Hnames'.
  { rewrite <-Hnames. apply (f_equal (map fst)) in Hos. by rewrite !map_map in Hos. }
  unfold mbind, M_bind in Hrun. rewrite Hcall in Hrun.
  destruct r1 as [[]|e|]; injection Hrun as <- <- <-; (constructor; [done|done|]); exists [org], []; cbn [map app];
    rewrite ?app_nil_r.
  all: split_and!; [done|exact Hl1|intros p Hp; rewrite Htmp; apply elem_of_app; by left|done || idtac].
  intros tmp'' [= <-]. split_and!; [done|cbn; by rewrite Hu1| | |done].
  - constructor; [|done]. cbn. apply (f_equal (.!! ii)) in Hnames'. rewrite !list_lookup_fmap, Ho in Hnames'.
    destruct (os !! ii); cbn in *; congruence.
  - constructor; [|done]. intros po Hpo. by simplify_eq.
Qed.

Lemma init_plugin_run ii tmp (s : PM) t r s' t' :
  pm_state s = kInit → init_plugin open_lib plugin_Initialize ii tmp (s, t) = (r, (s', t')) → inits_spec [ii] tmp s t r s' t'.
Proof.
  intros Hst Hrun. unfold init_plugin in Hrun. unfold mbind at 1, M_bind at 1 in Hrun. cbn [on_pm zoom get fst snd] in Hrun.
  pose proof (λ r, inits_none ii tmp s t r []) as Hnone. cbn [map] in Hnone. rewrite app_nil_r in Hnone.
  destruct (plugins_options s !! ii) as [o|] eqn:Ho; [|injection Hrun as <- <- <-; by apply Hnone].
  destruct (duplicated (plugins_options s) ii (po_name o)) eqn:Hdup; [injection Hrun as <- <- <-; by apply Hnone|].
  unfold mbind at 1, M_bind at 1 in Hrun. cbn [negb check_throw mret M_ret] in Hrun.
  destruct (String.eqb (po_path o) "") eqn:Hpath; cbn [negb] in Hrun.
  - destruct (take_plugin (po_name o) tmp) as [[p tmp']|] eqn:Htake.
    2:{ injection Hrun as <- <- <-. by apply Hnone. }
    apply take_plugin_perm in Htake as [Hname Hperm]. unfold mbind at 1, M_bind at 1 in Hrun. cbn [mret M_ret fst snd] in Hrun.
    refine (inits_one ii tmp tmp' s s t o (false, p) Hst Ho Hdup Hname eq_refl eq_refl eq_refl eq_refl eq_refl _ Hperm r s' t' Hrun).
    by rewrite app_nil_r.
  - unfold load_plugin in Hrun. destruct (LoadPlugin open_lib (po_path o) PluginLoader_new) as [r1 l].
    assert (∀ (e : exn) (k : Plugin * list Plugin → M (PM * Trace) (list Plugin)),
      ((p ← (on_trace (UnLoadPlugin l);; throw e); mret (p, tmp)) ≫= k) (s, t) = (r, (s', t')) → inits_spec [ii] tmp s t r s' t') as Hthrow.
    { intros e k. unfold mbind, M_bind, on_trace, zoom, throw. cbn [fst snd]. destruct (UnLoadPlugin_run l t) as [ds ->].
      intros [= <- <- <-]. by apply inits_none. }
    destruct r1 as [[]|e|]; [|by eapply Hthrow|injection Hrun as <- <- <-; by apply Hnone].
    destruct (plugin_ptr l) as [p|] eqn:Hp; [|injection Hrun as <- <- <-; by apply Hnone].
    destruct (dynamic_lib l) as [lib|]; [|injection Hrun as <- <- <-; by apply Hnone].
    destruct (String.eqb_spec (pl_Name p) (po_name o)) as [Hname|Hne]; [|by eapply Hthrow].
    unfold mbind at 1 2 3, M_bind at 1 2 3 in Hrun. cbn [on_pm zoom modify mret M_ret fst snd] in Hrun.
    refine (inits_one ii tmp tmp s _ t o (true, p) Hst Ho Hdup Hname _ _ _ _ _ _ _ r s' t' Hrun); try done.
    + cbn. rewrite list_fmap_insert. apply list_insert_id. by rewrite list_lookup_fmap, Ho.
    + cbn. rewrite map_app; cbn; by rewrite Hp.
Qed.

Lemma inits_stop ii iis tmp (s : PM) t r s' t' : is_ok r = false → inits_spec [ii] tmp s t r s' t' → inits_spec (ii :: iis) tmp s t r s' t'.
Proof.
  intros Hr [H1 H2 (ps & ds & Ht & Hl & Hreg & _)]. constructor; [done|done|]. exists ps, ds. split_and!; [done..|]. by intros tmp' ->.
Qed.

Lemma inits_more ii iis tmp tmp1 (s s1 s2 : PM) t t1 t2 r :
  inits_spec [ii] tmp s t (Ok tmp1) s1 t1 → inits_spec iis tmp1 s1 t1 r s2 t2 → inits_spec (ii :: iis) tmp s t r s2 t2.
Proof.
  intros [(Hst & Hc & Hr) Hn (ps & ds & -> & Hl & Hreg & Hok)] [(Hst' & Hc' & Hr') Hn' (ps' & ds' & -> & Hl' & Hreg' & Hok')].
  destruct (Hok _ eq_refl) as (-> & Hu & Hps & Hdup & Hperm). constructor; [split_and!; congruence|congruence|].
  exists (ps ++ ps'), ds'. cbn [map]. rewrite app_nil_r, !map_app, !List.filter_app, !map_app.
  split_and!; [by rewrite <-!app_assoc|by rewrite Hl', Hl, <-app_assoc| |].
  - intros p Hp. rewrite Hperm. apply elem_of_app in Hp as [Hp|Hp%Hreg']; apply elem_of_app; [by left|by right].
  - intros tmp2 Hr2. destruct (Hok' _ Hr2) as (-> & Hu' & Hps' & Hdup' & Hperm'). split_and!; [done| | | |].
    + by rewrite Hu', Hu, <-app_assoc.
    + refine (Forall2_app (l1 := [ii]) _ Hps'). eapply Forall2_impl; [exact Hps|]. cbn. intros jj o Hjj.
      apply (f_equal (.!! jj)) in Hn'. rewrite !list_lookup_fmap in Hn'.
      destruct (plugins_options s1 !! jj), (plugins_options s2 !! jj); cbn in *; congruence.
    + apply Forall_cons. split; [exact (proj1 (Forall_singleton _ _) Hdup)|]. eapply Forall_impl; [exact Hdup'|]. cbn. intros jj Hjj po Hpo.
      apply (f_equal (.!! jj)) in Hn as Hnj. rewrite !list_lookup_fmap, Hpo in Hnj.
      destruct (plugins_options s1 !! jj) as [po1|] eqn:Hpo1; [|done]. cbn in Hnj. injection Hnj as Hnj.
      rewrite (duplicated_names _ _ _ _ (eq_sym Hn)), <-Hnj. by apply Hjj.
    + rewrite Hperm, Hperm', <-app_assoc. done.
Qed.

Lemma init_plugins_run iis : ∀ tmp (s : PM) t r s' t',
  pm_state s = kInit → init_plugins open_lib plugin_Initialize iis tmp (s, t) = (r, (s', t')) → inits_spec iis tmp s t r s' t'.
Proof.
  induction iis as [|ii iis IH]; intros tmp s t r s' t' Hst Hrun; cbn [init_plugins] in Hrun.
  - injection Hrun as <- <- <-. constructor; [done|done|]. exists [], []. cbn. rewrite !app_nil_r.
    split_and!; [done|done|by intros p ?%not_elem_of_nil|]. intros tmp' [= <-]. split_and!; done.
  - unfold mbind, M_bind in Hrun. destruct (init_plugin open_lib plugin_Initialize ii tmp (s, t)) as [r1 [s1 t1]] eqn:Hone.
    apply init_plugin_run in Hone; [|done]. destruct r1 as [tmp1|e|].
    + eapply inits_more; [exact Hone|]. apply IH; [|done]. by rewrite (proj1 (is_state _ _ _ _ _ _ _ Hone)).
    + injection Hrun as <- <- <-. by apply inits_stop.
    + injection Hrun as <- <- <-. by apply inits_stop.
Qed.

Definition fresh_plugins (s : PM) : Prop :=
  pm_state s = kPreInit ∧ core_ptr s = true ∧ plugin_loader_vec s = [] ∧ used_plugin_vec s = [].

Lemma distinct_names (os : list (PluginOptions (node := node))) :
  Forall (λ ii, ∀ po, os !! ii = Some po → duplicated os ii (po_name po) = false) (seq 0 (length os)) → NoDup (map po_name os).
Proof.
  rewrite Forall_forall. intros Hall. apply NoDup_alt. intros i j name Hi Hj.
  apply list_lookup_fmap_Some in Hi as (oi & -> & Hoi). apply list_lookup_fmap_Some in Hj as (oj & Hname & Hoj).
  destruct (decide (j = i)) as [->|Hne]; [done|]. apply lookup_lt_Some in Hoi as Hlt.
  specialize (Hall i ltac:(apply elem_of_seq; lia) oi Hoi).
  assert (duplicated os i (po_name oi) = true) as Hd; [|congruence]. apply duplicated_spec. by exists j, oj.
Qed.

Lemma names_at (os : list (PluginOptions (node := node))) (ps : list Origin) :
  Forall2 (λ ii (o : Origin), os !! ii ≫= (λ po, Some (po_name po)) = Some (pl_Name o.2)) (seq 0 (length os)) ps →
  map pl_Name (map snd ps) = map po_name os.
Proof.
  intros Hall. apply Forall2_length in Hall as Hlen. rewrite length_seq in Hlen. apply list_eq. intros i.
  rewrite !list_lookup_fmap. destruct (os !! i) as [po|] eqn:Hpo.
  - apply lookup_lt_Some in Hpo as Hlt. destruct (lookup_lt_is_Some_2 ps i) as [o Ho]; [lia|].
    destruct (Forall2_lookup_r _ _ _ _ _ Hall Ho) as (ii & Hii & Heq). apply lookup_seq in Hii as [-> _].
    cbn [Nat.add] in Heq; rewrite Hpo in Heq. rewrite Ho. cbn in *. congruence.
  - apply lookup_ge_None in Hpo. by rewrite (proj2 (lookup_ge_None _ _)) by lia.
Qed.

Lemma pm_Initialize_run n (s : PM) t r s' t' :
  fresh_plugins s → pm_Initialize open_lib plugin_Initialize n (s, t) = (r, (s', t')) →
  pm_state s' = kInit ∧
  (∀ o, read_options plugin_decode [] n = Ok o → map po_name (plugins_options s') = map po_name (default (plugins_options s) o)) ∧
  ∃ (ps : list Origin) ds,
    t' = t ++ map (λ o, EvInitialize o.2) ps ++ map EvDestroy ds ∧
    map plugin_ptr (plugin_loader_vec s') = map (λ o, Some o.2) (List.filter fst ps) ∧
    (∀ p, p ∈ map snd (List.filter (negb ∘ fst) ps) → p ∈ registered_plugin_vec s) ∧
    (r = Ok tt → ds = [] ∧ NoDup (map po_name (plugins_options s')) ∧ used_plugin_vec s' = map snd ps ∧
       map pl_Name (map snd ps) = map po_name (plugins_options s') ∧
       registered_plugin_vec s ≡ₚ map snd (List.filter (negb ∘ fst) ps)).
Proof.
  intros (Hst & Hc & Hl & Hu) Hrun. unfold pm_Initialize in Hrun. unfold mbind, M_bind in Hrun.
  cbn [on_pm zoom get put fst snd check_throw] in Hrun. rewrite Hc, Hst in Hrun.
  change (state_eqb kPreInit kPreInit) with true in Hrun. cbn in Hrun. unfold lift in Hrun.
  destruct (read_options plugin_decode [] n) as [o|e|] eqn:Ho.
  2,3: injection Hrun as <- <- <-; split_and!; [done|done|]; exists [], []; cbn; rewrite app_nil_r, Hl;
    split_and!; [done|done|by intros p ?%not_elem_of_nil|done].
  cbn in Hrun. match type of Hrun with context [init_plugins _ _ _ _ (?x, t)] => set (s0 := x) in * end.
  destruct (init_plugins open_lib plugin_Initialize _ (registered_plugin_vec s) (s0, t)) as [r1 [s1 t1]] eqn:Hone.
  apply init_plugins_run in Hone as [(Hst1 & Hc1 & Hr1) Hn (ps & ds & -> & Hl1 & Hreg & Hok)]; [|done].
  cbn [plugin_loader_vec s0] in Hl1. replace (plugin_loader_vec s0) with (@nil PluginLoader) in Hl1 by (by subst s0).
  assert (s' = s1 ∧ t' = t ++ map (λ o, EvInitialize o.2) ps ++ map EvDestroy ds ∧ (r = Ok tt → r1 = Ok [])) as (-> & -> & Hr).
  { destruct r1 as [[|p tmp]|e|]; injection Hrun as <- <- <-; done. }
  split_and!; [done|intros o' [= <-]; exact Hn|]. exists ps, ds. split_and!; [done|exact Hl1|exact Hreg|].
  intros ->. destruct (Hok [] (Hr eq_refl)) as (-> & Hu1 & Hps & Hdup & Hperm).
  assert (length (plugins_options s0) = length (plugins_options s1)) as Hlen.
  { apply (f_equal length) in Hn. by rewrite !length_map in Hn. }
  split_and!; [done| | | |].
  - rewrite Hn. by apply distinct_names.
  - rewrite Hu1. by change (used_plugin_vec s0) with (used_plugin_vec s); rewrite Hu.
  - apply names_at. change (length (default (plugins_options s) o)) with (length (plugins_options s0)) in Hps.
    by rewrite Hlen in Hps.
  - by rewrite app_nil_r in Hperm.
Qed.

Lemma shutdown_loaders_run (ls : list PluginLoader) : ∀ (ps : list Plugin) (s : PM) t,
  map plugin_ptr ls = map Some ps → mapM_ shutdown_loader ls (s, t) = (Ok tt, (s, t ++ map EvShutdown ps)).
Proof.
  induction ls as [|l ls IH]; intros [|p ps] s t Hls; cbn in Hls; [cbn; by rewrite app_nil_r|done..|].
  injection Hls as Hp Hls. cbn [mapM_]. unfold mbind, M_bind.
  assert (shutdown_loader l (s, t) = (Ok tt, (s, t ++ [EvShutdown p]))) as -> by (unfold shutdown_loader; by rewrite Hp).
  rewrite (IH ps) by done. by rewrite <-app_assoc.
Qed.

(** From a fresh manager, whatever the plugins do: plugins are initialized
    in the order of the options, up to the first failure; if all goes well their
    names are distinct and are those of the options, and all registered plugins
    are among them.  At shutdown exactly the plugins loaded from libraries are
    shut down, in the opposite order, also one whose initialization has failed;
    those registered directly, although initialized, are not. *)
Theorem plugin_life_cycle n (s : PM) t :
  fresh_plugins s →
  let '(r1, (s1, t1)) := pm_Initialize open_lib plugin_Initialize n (s, t) in
  let '(r2, (s2, t2)) := pm_Start (s1, t1) in
  let '(r3, (s3, t3)) := pm_Shutdown (s2, t2) in
  (∀ o, read_options plugin_decode [] n = Ok o → map po_name (plugins_options s1) = map po_name (default (plugins_options s) o)) ∧
  ∃ (ps : list Origin) destroyed,
    map plugin_ptr (plugin_loader_vec s1) = map (λ o, Some o.2) (List.filter fst ps) ∧
    (∀ p, p ∈ map snd (List.filter (negb ∘ fst) ps) → p ∈ registered_plugin_vec s) ∧
    (r1 = Ok tt → destroyed = [] ∧ NoDup (map po_name (plugins_options s1)) ∧ used_plugin_vec s1 = map snd ps ∧
       map pl_Name (map snd ps) = map po_name (plugins_options s1) ∧
       registered_plugin_vec s ≡ₚ map snd (List.filter (negb ∘ fst) ps)) ∧
    r2 = Ok tt ∧ r3 = Ok tt ∧
    t3 = t ++ map (λ o, EvInitialize o.2) ps ++ map EvDestroy destroyed ++
         map EvShutdown (reverse (map snd (List.filter fst ps))).
Proof.
  intros Hfresh. destruct (pm_Initialize _ _ _ _) as [r1 [s1 t1]] eqn:Hinit.
  apply pm_Initialize_run in Hinit as (Hst & Hopt & ps & ds & -> & Hl & Hreg & Hok); [|done].
  assert (∀ t, pm_Start (s1, t) = (Ok tt, (set_pm_state kStart s1, t))) as ->.
  { intros t'. unfold pm_Start, mbind, M_bind. cbn [on_pm zoom get put fst snd]. by rewrite Hst. }
  assert (∀ t, pm_Shutdown (set_pm_state kStart s1, t) =
    (Ok tt, (set_core_ptr false (set_pm_state kShutdown s1), t ++ map EvShutdown (reverse (map snd (List.filter fst ps)))))) as ->.
  { intros t'. unfold pm_Shutdown. unfold mbind, M_bind. cbn [on_pm zoom get put fst snd].
    change (state_eqb (pm_state (set_pm_state kStart s1)) kShutdown) with false. cbn iota. cbn [plugin_loader_vec set_pm_state].
    rewrite (shutdown_loaders_run _ (reverse (map snd (List.filter fst ps)))); [done|].
    transitivity (reverse (map plugin_ptr (plugin_loader_vec s1))); [exact (fmap_reverse _ _)|].
    rewrite Hl. transitivity (reverse (map Some (map snd (List.filter fst ps)))); [by rewrite map_map|]. symmetry. exact (fmap_reverse _ _). }
  split; [done|]. exists ps, ds. split_and!; try done. by rewrite <-!app_assoc.
Qed.
End Theorems.

(** * At a concrete input *)

Module PluginDemo.
Definition lib (name : string) : PluginLib := mkPluginLib ("/lib/" +:+ name) [] (Some (mkPlugin (String.length name) name)).
Definition open_lib (path : string) : option PluginLib := if String.eqb path "" then None else Some (lib path).

(** Every plugin writes its options back. *)
Definition initialize (p : Plugin) (options : string → option tree) : list (string * tree) * res bool :=
  ([(pl_Name p, TMap [("read", default TNull (options (pl_Name p)))])], Ok true).

Definition config : tree :=
  TMap [("plugins", TSeq [TMap [("name", TStr "net"); ("path", TStr "net")]; TMap [("name", TStr "own"); ("path", TStr "")];
                          TMap [("name", TStr "grpc"); ("path", TStr "grpc")]])].

Definition fresh_manager : PluginManager (node := tree) :=
  set_core_ptr true (set_registered_plugins [mkPlugin 0 "own"] PluginManager_new).

Definition initialized : res unit * (PluginManager (node := tree) * Trace) :=
  pm_Initialize open_lib initialize (Some config) (fresh_manager, []).
Definition life : Trace := (pm_Shutdown (pm_Start initialized.2).2).2.2.

Example plugin_events : initialized.1 = Ok tt ∧
  life = [EvInitialize (mkPlugin 3 "net"); EvInitialize (mkPlugin 0 "own"); EvInitialize (mkPlugin 4 "grpc");
          EvShutdown (mkPlugin 4 "grpc"); EvShutdown (mkPlugin 3 "net")].
Proof. vm_compute. done. Qed.
End PluginDemo.

Lemma plugin_life_cycle_witness :
  ∃ (ps : list (bool * Plugin)) destroyed,
    PluginDemo.life = map (λ o, EvInitialize o.2) ps ++ map EvDestroy destroyed ++
      map EvShutdown (reverse (map snd (List.filter fst ps))).
Proof.
  pose proof (plugin_life_cycle PluginDemo.open_lib PluginDemo.initialize (Some PluginDemo.config) PluginDemo.fresh_manager []
    (conj eq_refl (conj eq_refl (conj eq_refl eq_refl)))) as H.
  unfold PluginDemo.life, PluginDemo.initialized.
  destruct (pm_Initialize _ _ _ _) as [r1 [s1 t1]]. cbn [snd] in *. destruct (pm_Start _) as [r2 [s2 t2]]. cbn [snd] in *.
  destruct (pm_Shutdown _) as [r3 [s3 t3]]. destruct H as (_ & ps & ds & _ & _ & _ & _ & _ & Ht). exists ps, ds. exact Ht.
Defined.
