(* ===== verification/Parameter.v ===== *)
(** * Parameters: [src/runtime/core/parameter], [src/plugins/parameter_plugin/service.cc]

    Each module has a table of parameters, which it reads and writes through
    its handle and which the service of the parameter plugin reads and writes
    from outside.

    A value is a shared pointer: [None] is the null one.  The mutex of a handle
    makes its methods atomic.  A value read through the C interface comes with
    a callback that has to be called to release it; the state counts those not
    yet called.  Maps of protobuf messages are [gmap]s, iterated in the order
    of [map_order].

    Theorems: reading after writing; a dump can be loaded again; what becomes
    of empty values; callbacks that are never released. *)

From S2P Require Import Prelude Yaml Logger.

(** ** The handle *)

Abbreviation ParameterHandle := (gmap string (option string)).

(* @src src/src/runtime/core/parameter/parameter_handle.cc:8-20 ParameterHandle::GetParameter *)
Definition GetParameter (key : string) : M ParameterHandle (option string) :=
  parameter_map ← get;
  match parameter_map !! key with
  | Some value_ptr => mret value_ptr
  | None => mret None
  end.

(* @src src/src/runtime/core/parameter/parameter_handle.cc:22-42 ParameterHandle::SetParameter *)
Definition SetParameter (key : string) (value_ptr : option string) : M ParameterHandle unit :=
  parameter_map ← get;
  match parameter_map !! key with
  | Some _ =>
      match value_ptr with
      | None | Some EmptyString => put (delete key parameter_map)
      | Some value => put (<[key := Some value]> parameter_map)
      end
  | None => put (<[key := value_ptr]> parameter_map)
  end.

(** The map of a protobuf message. *)
Abbreviation ParameterMap := (gmap string string).

Section Service.
Context `{IterOrder}.

(* @src src/src/runtime/core/parameter/parameter_handle.cc:44-55 ParameterHandle::ListParameter *)
Definition ListParameter : M ParameterHandle (list string) :=
  parameter_map ← get; mret (map fst (map_order parameter_map)).

(** ** The C interface and the reference on top of it *)

(** The handle and the callbacks not yet released. *)
Record HandleProxy := mkHandleProxy { hp_handle : ParameterHandle; hp_unreleased : nat }.

(** The text of the view, and whether it comes with a callback. *)
(* @src src/src/runtime/core/parameter/parameter_handle_proxy.h:27-41 ParameterHandleProxy::GenBase (get) *)
Definition get_parameter (key : string) : M HandleProxy (string * bool) :=
  value ← zoom hp_handle (λ h p, mkHandleProxy h (hp_unreleased p)) (GetParameter key);
  match value with
  | None => mret ("", false)
  | Some text => modify (λ p, mkHandleProxy (hp_handle p) (hp_unreleased p + 1));; mret (text, true)
  end.

(* @src src/src/runtime/core/parameter/parameter_handle_proxy.h:42-45 ParameterHandleProxy::GenBase (set) *)
Definition set_parameter (key val : string) : M HandleProxy unit :=
  zoom hp_handle (λ h p, mkHandleProxy h (hp_unreleased p)) (SetParameter key (Some val)).

Definition release (callback : bool) : M HandleProxy unit :=
  if callback then modify (λ p, mkHandleProxy (hp_handle p) (hp_unreleased p - 1)) else undef.

(* @src src/src/interface/aimrt_module_cpp_interface/parameter/parameter_handle.h:28-38 ParameterHandleRef::GetParameter *)
Definition Ref_GetParameter (key : string) : M HandleProxy string :=
  view ← get_parameter key;
  if negb (String.length view.1 =? 0) then release view.2;; mret view.1 else mret "".

(* @src src/src/interface/aimrt_module_cpp_interface/parameter/parameter_handle.h:40-43 ParameterHandleRef::SetParameter *)
Definition Ref_SetParameter (key val : string) : M HandleProxy unit := set_parameter key val.

(** ** The manager *)

Context {node : Type} `{YamlOps node}.

(* @src src/src/runtime/core/parameter/parameter_manager.h:56-75 ParameterManager *)
Record ParameterManager := mkParM { par_state : State; parameter_handle_proxy_wrap_map : gmap string ParameterHandle }.

Definition ParameterManager_new : ParameterManager := mkParM kPreInit ∅.
Definition set_par_state x (s : ParameterManager) : ParameterManager := mkParM x (parameter_handle_proxy_wrap_map s).
Definition set_handles x (s : ParameterManager) : ParameterManager := mkParM (par_state s) x.

Abbreviation P := (M ParameterManager).

Definition par_when (st : State) (what : string) : P unit := s ← get; check_throw (state_eqb (par_state s) st) what.

(* @src src/src/runtime/core/parameter/parameter_manager.cc:17-21 convert<ParameterManager::Options>::decode *)
Definition parameter_decode (n : node) (rhs : unit) : res (option unit) := if negb (IsMap n) then Ok None else Ok (Some tt).

(* @src src/src/runtime/core/parameter/parameter_manager.cc:27-38 ParameterManager::Initialize *)
Definition par_Initialize (options_node : option node) : P unit :=
  s ← get;
  put (set_par_state kInit s);;
  check_throw (state_eqb (par_state s) kPreInit) "ParameterManager manager can only be initialized once.";;
  lift (read_options parameter_decode tt options_node);; mret tt.

(* @src src/src/runtime/core/parameter/parameter_manager.cc:40-46 ParameterManager::Start *)
Definition par_Start : P unit :=
  s ← get;
  put (set_par_state kStart s);;
  check_throw (state_eqb (par_state s) kInit) "Method can only be called when state is 'Init'.".

(* @src src/src/runtime/core/parameter/parameter_manager.cc:48-55 ParameterManager::Shutdown *)
Definition par_Shutdown : P unit :=
  s ← get;
  put (set_par_state kShutdown s);;
  if state_eqb (par_state s) kShutdown then mret tt else modify (set_handles ∅).

(** The name stands for the proxy. *)
(* @src src/src/runtime/core/parameter/parameter_manager.cc:57-74 ParameterManager::GetParameterHandleProxy *)
Definition GetParameterHandleProxy (module_info : ModuleDetailInfo) : P string :=
  par_when kInit "Method can only be called when state is 'Init'.";;
  s ← get;
  match parameter_handle_proxy_wrap_map s !! mi_name module_info with
  | Some _ => mret (mi_name module_info)
  | None => put (set_handles (<[mi_name module_info := ∅]> (parameter_handle_proxy_wrap_map s)) s);; mret (mi_name module_info)
  end.

(** Whether there is a handle of the name. *)
(* @src src/src/runtime/core/parameter/parameter_manager.cc:76-85 ParameterManager::GetParameterHandle *)
Definition GetParameterHandle (module_name : string) : P bool :=
  par_when kStart "Method can only be called when state is 'Start'.";;
  s ← get; mret (bool_decide (is_Some (parameter_handle_proxy_wrap_map s !! module_name))).

(** A call on the handle of a name. *)
Definition on_handle {A} (module_name : string) (m : M ParameterHandle A) : P A :=
  s ← get;
  match parameter_handle_proxy_wrap_map s !! module_name with
  | None => undef
  | Some h => let '(r, h') := m h in put (set_handles (<[module_name := h']> (parameter_handle_proxy_wrap_map s)) s);; lift r
  end.

(** ** The service *)

Inductive ErrorCode := kSuc | kInvalidModuleName.

(** A service answers with the code; the rest of a response is only there when
    it has been filled in. *)
(* @src src/src/plugins/parameter_plugin/service.cc:11-24 ParameterServiceImpl::Set *)
Definition Service_Set (module_name key value : string) : P ErrorCode :=
  known ← GetParameterHandle module_name;
  if negb known then mret kInvalidModuleName
  else on_handle module_name (SetParameter key (Some value));; mret kSuc.

(* @src src/src/plugins/parameter_plugin/service.cc:26-43 ParameterServiceImpl::Get *)
Definition Service_Get (module_name key : string) : P (ErrorCode * string) :=
  known ← GetParameterHandle module_name;
  if negb known then mret (kInvalidModuleName, "")
  else value ← on_handle module_name (GetParameter key); mret (kSuc, default "" value).

(* @src src/src/plugins/parameter_plugin/service.cc:45-59 ParameterServiceImpl::List *)
Definition Service_List (module_name : string) : P (ErrorCode * list string) :=
  known ← GetParameterHandle module_name;
  if negb known then mret (kInvalidModuleName, [])
  else keys ← on_handle module_name ListParameter; mret (kSuc, keys).

(* @src src/src/plugins/parameter_plugin/service.cc:79-86 ParameterServiceImpl::Dump (parameters) *)
Fixpoint dump_parameters (module_name : string) (names : list string) (pb : ParameterMap) : P ParameterMap :=
  match names with
  | [] => mret pb
  | name :: names' =>
      value ← on_handle module_name (GetParameter name);
      match value with
      | None => dump_parameters module_name names' pb
      | Some v => dump_parameters module_name names' (match pb !! name with Some _ => pb | None => <[name := v]> pb end)
      end
  end.

(* @src src/src/plugins/parameter_plugin/service.cc:61-90 ParameterServiceImpl::Dump *)
Fixpoint Service_Dump (module_names : list string) (rsp : gmap string ParameterMap) : P (ErrorCode * gmap string ParameterMap) :=
  match module_names with
  | [] => mret (kSuc, rsp)
  | module_name :: module_names' =>
      known ← GetParameterHandle module_name;
      if negb known then mret (kInvalidModuleName, rsp)
      else
        names ← on_handle module_name ListParameter;
        pb ← dump_parameters module_name names (default ∅ (rsp !! module_name));
        Service_Dump module_names' (<[module_name := pb]> rsp)
  end.

(* @src src/src/plugins/parameter_plugin/service.cc:92-117 ParameterServiceImpl::Load *)
Fixpoint Service_Load (req : list (string * ParameterMap)) : P ErrorCode :=
  match req with
  | [] => mret kSuc
  | (module_name, pb) :: req' =>
      known ← GetParameterHandle module_name;
      if negb known then mret kInvalidModuleName
      else
        mapM_ (λ '(key, value), on_handle module_name (SetParameter key (Some value))) (map_order pb);;
        Service_Load req'
  end.
End Service.

(** * Reading after writing *)

(** After a parameter has been set it has that value; setting it to the
    empty value (or a null pointer) removes it when there was one, but stores
    it when there was none.  No other parameter changes. *)
Theorem parameter_get_after_set key value (h : ParameterHandle) :
  let h' := (SetParameter key value h).2 in
  (SetParameter key value h).1 = Ok tt ∧
  (GetParameter key h').1 = Ok (if decide (value = None ∨ value = Some "") then
                                  match h !! key with Some _ => None | None => value end
                                else value) ∧
  (is_Some (h' !! key) ↔ (value ≠ None ∧ value ≠ Some "") ∨ h !! key = None) ∧
  ∀ k, k ≠ key → h' !! k = h !! k.
Proof.
  unfold SetParameter, GetParameter. unfold_monad. destruct (h !! key) as [old|] eqn:Hold.
  - destruct value as [[|c text]|]; cbn; rewrite ?lookup_delete_eq, ?lookup_insert_eq.
    + rewrite decide_True by by right. split_and!; [done|done| |intros k Hk; by rewrite lookup_delete_ne].
      split; [by intros [? ?]|naive_solver].
    + rewrite decide_False by naive_solver. split_and!; [done|done| |intros k Hk; by rewrite lookup_insert_ne].
      split; [intros _; by left|by eexists].
    + rewrite decide_True by by left. split_and!; [done|done| |intros k Hk; by rewrite lookup_delete_ne].
      split; [by intros [? ?]|naive_solver].
  - cbn. rewrite lookup_insert_eq. split_and!; [done| | |intros k Hk; by rewrite lookup_insert_ne].
    + by destruct (decide _).
    + split; [by right|by eexists].
Qed.

Lemma GetParameter_pure key (h : ParameterHandle) : GetParameter key h = ((GetParameter key h).1, h).
Proof. unfold GetParameter. unfold_monad. by destruct (h !! key). Qed.

(** Through the reference on the C interface a text that was set is read
    back, and the callback that comes with it is released; but the empty text,
    set where there was no parameter, is stored, and from then on every read
    leaves a callback that nobody releases. *)
Theorem reference_reads_back key text (p : HandleProxy) n :
  let p' := (Ref_SetParameter key text p).2 in
  let read := mapM_ (λ _, Ref_GetParameter key;; mret tt) (seq 0 n) p' in
  read.1 = Ok tt ∧ (Ref_GetParameter key p').1 = Ok text ∧
  hp_handle read.2 = hp_handle p' ∧
  hp_unreleased read.2 =
    if decide (text = "" ∧ hp_handle p !! key = None) then hp_unreleased p + n else hp_unreleased p.
Proof.
  intros p' read.
  assert (hp_unreleased p' = hp_unreleased p) as Hu.
  { subst p'. unfold Ref_SetParameter, set_parameter, zoom. by destruct (SetParameter _ _ _). }
  pose proof (parameter_get_after_set key (Some text) (hp_handle p)) as (_ & Hget & _ & _).
  assert (hp_handle p' = (SetParameter key (Some text) (hp_handle p)).2) as Hh.
  { subst p'. unfold Ref_SetParameter, set_parameter, zoom. by destruct (SetParameter _ _ _). }
  set (leaks := bool_decide (text = "" ∧ hp_handle p !! key = None)).
  assert (∀ m, hp_handle m = hp_handle p' →
    Ref_GetParameter key m = (Ok text, mkHandleProxy (hp_handle m) (hp_unreleased m + (if leaks then 1 else 0)))) as Hread.
  { intros m Hm. unfold Ref_GetParameter, get_parameter, zoom. unfold mbind, M_bind.
    assert (GetParameter key (hp_handle m) = (Ok (if decide (Some text = None ∨ Some text = Some "") then
      match hp_handle p !! key with Some _ => None | None => Some text end else Some text), hp_handle m)) as ->.
    { rewrite GetParameter_pure, Hm, Hh, Hget. done. }
    subst leaks. destruct text as [|c text].
    - rewrite decide_True by by right. destruct (hp_handle p !! key); cbn.
      + rewrite bool_decide_eq_false_2 by naive_solver. rewrite Nat.add_0_r. by destruct m.
      + by rewrite bool_decide_eq_true_2 by done.
    - rewrite decide_False by naive_solver. cbn. rewrite bool_decide_eq_false_2 by naive_solver. do 2 f_equal. lia. }
  assert (∀ k m, hp_handle m = hp_handle p' →
    mapM_ (λ _, Ref_GetParameter key;; mret tt) (seq k n) m =
      (Ok tt, mkHandleProxy (hp_handle m) (hp_unreleased m + (if leaks then n else 0)))) as Hall.
  { clear read. induction n as [|n IH]; intros k m Hm; cbn [seq mapM_].
    - destruct leaks; rewrite Nat.add_0_r; by destruct m.
    - unfold mbind, M_bind. rewrite Hread by done. cbn [mret M_ret]. rewrite IH by done. cbn. do 2 f_equal. destruct leaks; lia. }
  subst read. rewrite Hall by done. rewrite Hread by done. split_and!; [done..|]. cbn. rewrite Hu. subst leaks.
  destruct (decide (text = "" ∧ hp_handle p !! key = None)) as [Hd|Hd]; [rewrite bool_decide_eq_true_2 by exact Hd|rewrite bool_decide_eq_false_2 by exact Hd]; lia.
Qed.

(** * Dumping and loading *)

Section DumpLoad.
Context `{IterOrder}.

Definition set_handle name h (m : ParameterManager) : ParameterManager :=
  set_handles (<[name := h]> (parameter_handle_proxy_wrap_map m)) m.

Lemma set_handle_same name h (m : ParameterManager) :
  parameter_handle_proxy_wrap_map m !! name = Some h → set_handle name h m = m.
Proof. intros Hh. unfold set_handle, set_handles. rewrite insert_id by done. by destruct m. Qed.

Lemma set_handle_twice name h h' (m : ParameterManager) : set_handle name h (set_handle name h' m) = set_handle name h m.
Proof. unfold set_handle, set_handles. cbn. by rewrite insert_insert_eq. Qed.

Lemma on_handle_run {A} name (f : M ParameterHandle A) (m : ParameterManager) h :
  parameter_handle_proxy_wrap_map m !! name = Some h → on_handle name f m = ((f h).1, set_handle name (f h).2 m).
Proof. intros Hh. unfold on_handle. unfold_monad. rewrite Hh. by destruct (f h). Qed.

Lemma GetParameterHandle_run name (m : ParameterManager) :
  par_state m = kStart → GetParameterHandle name m = (Ok (bool_decide (is_Some (parameter_handle_proxy_wrap_map m !! name))), m).
Proof. intros Hst. unfold GetParameterHandle, par_when. unfold_monad. rewrite Hst. reflexivity. Qed.

Lemma on_handle_get name key (m : ParameterManager) (h : ParameterHandle) :
  parameter_handle_proxy_wrap_map m !! name = Some h → on_handle name (GetParameter key) m = (Ok (mjoin (h !! key)), m).
Proof.
  intros Hh. rewrite (on_handle_run _ _ _ h) by done. unfold GetParameter. unfold_monad.
  destruct (h !! key); cbn; by rewrite (set_handle_same _ _ _ Hh).
Qed.

(** The texts of a handle. *)
Definition texts (h : ParameterHandle) : ParameterMap := omap (λ v, v) h.

Lemma dump_parameters_run name (m : ParameterManager) h (names : list string) : ∀ pb : ParameterMap,
  parameter_handle_proxy_wrap_map m !! name = Some h →
  ∃ pb' : ParameterMap, dump_parameters name names pb m = (Ok pb', m) ∧
    ∀ k, pb' !! k = match pb !! k with Some v => Some v | None => if decide (k ∈ names) then texts h !! k else None end.
Proof.
  induction names as [|n names IH]; intros pb Hh; cbn [dump_parameters].
  - exists pb. split; [done|]. intros k. destruct (pb !! k); [done|]. by rewrite decide_False by apply not_elem_of_nil.
  - unfold mbind, M_bind. rewrite (on_handle_get _ _ _ h) by done.
    assert (mjoin (h !! n) = texts h !! n) as ->.
    { unfold texts. rewrite lookup_omap. by destruct (h !! n). }
    destruct (texts h !! n) as [v|] eqn:Hv.
    + destruct (IH (match pb !! n with Some _ => pb | None => <[n := v]> pb end) Hh) as (pb' & Hrun & Hpb').
      exists pb'. split; [exact Hrun|]. intros k. rewrite Hpb'. destruct (decide (k = n)) as [->|Hne].
      * rewrite (decide_True (P := n ∈ n :: names)) by by left. destruct (pb !! n) eqn:Hpn; [by rewrite Hpn|by rewrite lookup_insert_eq].
      * assert ((match pb !! n with Some _ => pb | None => <[n:=v]> pb end) !! k = pb !! k) as ->.
        { destruct (pb !! n); [done|]. by rewrite lookup_insert_ne. }
        destruct (pb !! k); [done|]. destruct (decide (k ∈ names)).
        -- by rewrite decide_True by by right.
        -- rewrite decide_False; [done|]. by intros [->|?]%elem_of_cons.
    + destruct (IH pb Hh) as (pb' & Hrun & Hpb'). exists pb'. split; [exact Hrun|]. intros k. rewrite Hpb'.
      destruct (pb !! k); [done|]. destruct (decide (k = n)) as [->|Hne].
      * rewrite Hv. by destruct (decide _), (decide _).
      * destruct (decide (k ∈ names)); [by rewrite decide_True by by right|]. rewrite decide_False; [done|].
        by intros [->|?]%elem_of_cons.
Qed.

Lemma dump_handle_run name (m : ParameterManager) h (pb : ParameterMap) :
  parameter_handle_proxy_wrap_map m !! name = Some h → pb ⊆ texts h →
  (names ← on_handle name ListParameter; dump_parameters name names pb) m = (Ok (texts h), m).
Proof.
  intros Hh Hsub. unfold mbind, M_bind. rewrite (on_handle_run _ _ _ h) by done.
  change (ListParameter h) with (Ok (map fst (map_order h)), h). cbn [fst snd]. rewrite (set_handle_same _ _ _ Hh).
  destruct (dump_parameters_run name m h (map fst (map_order h)) pb Hh) as (pb' & -> & Hpb).
  do 2 f_equal. apply map_eq. intros k. rewrite Hpb. destruct (pb !! k) as [v|] eqn:Hk.
  { symmetry. by eapply lookup_weaken. }
  destruct (decide _) as [_|Hn]; [done|].
  unfold texts. rewrite lookup_omap. destruct (h !! k) as [v|] eqn:Hv; [|done]. destruct Hn.
  apply (list_elem_of_fmap_2' fst _ (k, v)); [by apply elem_of_map_order|done].
Qed.

Lemma Service_Dump_run (m : ParameterManager) (names : list string) : ∀ rsp : gmap string ParameterMap,
  par_state m = kStart → (∀ name, name ∈ names → is_Some (parameter_handle_proxy_wrap_map m !! name)) →
  (∀ name pb, rsp !! name = Some pb → texts <$> parameter_handle_proxy_wrap_map m !! name = Some pb) →
  ∃ d, Service_Dump names rsp m = (Ok (kSuc, d), m) ∧
    ∀ name, d !! name = if decide (name ∈ names) then texts <$> parameter_handle_proxy_wrap_map m !! name else rsp !! name.
Proof.
  induction names as [|n names IH]; intros rsp Hst Hknown Hrsp; cbn [Service_Dump].
  { exists rsp. split; [done|]. intros name. by rewrite decide_False by apply not_elem_of_nil. }
  destruct (Hknown n) as [h Hh]; [by left|].
  unfold mbind at 1, M_bind at 1. rewrite GetParameterHandle_run by done. rewrite bool_decide_eq_true_2 by (rewrite Hh; by eexists).
  cbn [negb]. assert (default ∅ (rsp !! n) ⊆ texts h) as Hsub.
  { destruct (rsp !! n) as [pb|] eqn:Hn; [|apply map_empty_subseteq]. apply Hrsp in Hn. rewrite Hh in Hn. by injection Hn as <-. }
  pose proof (dump_handle_run n m h _ Hh Hsub) as Hdump. unfold mbind, M_bind in *.
  destruct (on_handle n ListParameter m) as [[ns|e|] m1]; [|done..]. rewrite Hdump.
  destruct (IH (<[n := texts h]> rsp) Hst) as (d & Hrun & Hd).
  - intros name Hn. apply Hknown. by right.
  - intros name pb. destruct (decide (name = n)) as [->|Hne].
    + rewrite lookup_insert_eq, Hh. by intros [= <-].
    + rewrite lookup_insert_ne by done. apply Hrsp.
  - exists d. split; [exact Hrun|]. intros name. rewrite Hd. destruct (decide (name = n)) as [->|Hne].
    + rewrite lookup_insert_eq, Hh. rewrite (decide_True (P := n ∈ n :: names)) by by left. by destruct (decide _).
    + rewrite lookup_insert_ne by done. destruct (decide (name ∈ names)); [by rewrite decide_True by by right|].
      rewrite decide_False; [done|]. by intros [->|?]%elem_of_cons.
Qed.

Lemma load_parameters_run name (ps : list (string * string)) : ∀ (m : ParameterManager) (h : ParameterHandle),
  NoDup (map fst ps) → parameter_handle_proxy_wrap_map m !! name = Some h → (∀ k v, (k, v) ∈ ps → h !! k = None) →
  mapM_ (λ '(key, value), on_handle name (SetParameter key (Some value))) ps m =
    (Ok tt, set_handle name (list_to_map (map (λ p, (p.1, Some p.2)) ps) ∪ h) m).
Proof.
  induction ps as [|[k v] ps IH]; intros m h Hnd Hh Hnone; cbn [mapM_ map].
  - cbn. rewrite (left_id_L ∅ (∪)). by rewrite (set_handle_same _ _ _ Hh).
  - apply NoDup_cons in Hnd as [Hk Hnd]. unfold mbind, M_bind. rewrite (on_handle_run _ _ _ h) by done.
    assert (SetParameter k (Some v) h = (Ok tt, <[k := Some v]> h)) as ->.
    { unfold SetParameter. unfold_monad. by rewrite (Hnone k v) by by left. }
    cbn [fst snd]. rewrite (IH _ (<[k := Some v]> h)); [|done|by apply lookup_insert_eq|].
    + rewrite set_handle_twice. cbn [fst snd list_to_map foldr uncurry]. rewrite <-insert_union_l, insert_union_r; [done|].
      apply not_elem_of_list_to_map_1. intros Hin. apply Hk.
      apply list_elem_of_fmap in Hin as (q & Hq & Hin). apply list_elem_of_fmap in Hin as (q' & -> & Hin). cbn in Hq. subst k.
      exact (list_elem_of_fmap_2 fst ps q' Hin).
    + intros k' v' Hin. rewrite lookup_insert_ne; [apply (Hnone k' v'); by right|]. intros <-. apply Hk.
      apply (list_elem_of_fmap_2' fst _ (k, v')); done.
Qed.

Lemma Service_Load_run (req : list (string * ParameterMap)) : ∀ m : ParameterManager,
  par_state m = kStart → NoDup (map fst req) →
  (∀ name pb, (name, pb) ∈ req → parameter_handle_proxy_wrap_map m !! name = Some ∅) →
  ∃ m', Service_Load req m = (Ok kSuc, m') ∧ par_state m' = kStart ∧
    (∀ name pb, (name, pb) ∈ req → parameter_handle_proxy_wrap_map m' !! name = Some (Some <$> pb)) ∧
    ∀ name, name ∉ map fst req → parameter_handle_proxy_wrap_map m' !! name = parameter_handle_proxy_wrap_map m !! name.
Proof.
  induction req as [|[n pb] req IH]; intros m Hst Hnd Hempty; cbn [Service_Load].
  { exists m. split_and!; [done..| |done]. by intros name pb ?%not_elem_of_nil. }
  apply NoDup_cons in Hnd as [Hn Hnd]. pose proof (Hempty n pb ltac:(by left)) as Hh.
  unfold mbind at 1, M_bind at 1. rewrite GetParameterHandle_run by done. rewrite bool_decide_eq_true_2 by (rewrite Hh; by eexists).
  cbn [negb]. unfold mbind, M_bind.
  rewrite (load_parameters_run n (map_order pb) m ∅); [|apply NoDup_map_order|done|intros; apply lookup_empty].
  set (h := list_to_map _ ∪ ∅).
  assert (h = Some <$> pb) as Hpb.
  { subst h. rewrite (right_id_L ∅ (∪)). apply map_eq. intros k. rewrite lookup_fmap. destruct (pb !! k) as [v|] eqn:Hv.
    - apply elem_of_list_to_map_1; [rewrite <-list_fmap_compose; apply NoDup_map_order|].
      apply (list_elem_of_fmap_2' _ _ (k, v)); [by apply elem_of_map_order|done].
    - apply not_elem_of_list_to_map_1. intros (q & -> & Hin)%list_elem_of_fmap.
      apply list_elem_of_fmap in Hin as ([k' v'] & -> & Hin). apply elem_of_map_order in Hin. cbn in Hv. congruence. }
  destruct (IH (set_handle n h m)) as (m' & Hrun & Hst' & Hin & Hout).
  - done.
  - done.
  - intros name pb' Hin. cbn. rewrite lookup_insert_ne; [apply (Hempty name pb'); by right|]. intros <-. apply Hn.
    apply (list_elem_of_fmap_2' fst _ (n, pb')); done.
  - exists m'. split_and!; [exact Hrun|done| |].
    + intros name pb' [[= -> ->]|Hin']%elem_of_cons; [|by apply Hin]. rewrite Hout by done. cbn. by rewrite lookup_insert_eq, Hpb.
    + intros name Hname. cbn in Hname. apply not_elem_of_cons in Hname as [Hne Hname]. rewrite Hout by done. cbn.
      by rewrite lookup_insert_ne.
Qed.

(** C29: A dump of some modules, loaded by a runtime in which these modules have
    no parameters yet, gives them all the parameters that were dumped, the
    empty ones too, and leaves the other modules alone; dumping changes
    nothing. *)
Theorem dump_load_roundtrip (m m' : ParameterManager) (names : list string) :
  par_state m = kStart → par_state m' = kStart →
  (∀ name, name ∈ names → parameter_handle_proxy_wrap_map m' !! name = Some ∅ ∧
     ∃ h, parameter_handle_proxy_wrap_map m !! name = Some h ∧ ∀ k, h !! k ≠ Some None) →
  ∃ d, Service_Dump names ∅ m = (Ok (kSuc, d), m) ∧
  ∃ m'', Service_Load (map_order d) m' = (Ok kSuc, m'') ∧
    ∀ name, parameter_handle_proxy_wrap_map m'' !! name =
      if decide (name ∈ names) then parameter_handle_proxy_wrap_map m !! name else parameter_handle_proxy_wrap_map m' !! name.
Proof.
  intros Hst Hst' Hnames. destruct (Service_Dump_run m names ∅ Hst) as (d & Hdump & Hd).
  { intros name Hn. destruct (Hnames name Hn) as (_ & h & -> & _). by eexists. }
  { by intros name pb. }
  exists d. split; [done|].
  assert (∀ name pb, d !! name = Some pb → name ∈ names ∧
    ∃ h, parameter_handle_proxy_wrap_map m !! name = Some h ∧ pb = texts h ∧ ∀ k, h !! k ≠ Some None) as Hsome.
  { intros name pb Hpb. rewrite Hd in Hpb. destruct (decide (name ∈ names)) as [Hn|]; [|done]. split; [done|].
    destruct (Hnames name Hn) as (_ & h & Hh & Hnn). rewrite Hh in Hpb. injection Hpb as <-. by exists h. }
  destruct (Service_Load_run (map_order d) m' Hst' (NoDup_map_order d)) as (m'' & Hload & _ & Hin & Hout).
  { intros name pb Hpb%elem_of_map_order. apply Hsome in Hpb as [Hn _]. by apply Hnames. }
  exists m''. split; [done|]. intros name. destruct (decide (name ∈ names)) as [Hn|Hn].
  - destruct (Hnames name Hn) as (_ & h & Hh & Hnn). rewrite (Hin name (texts h)).
    + rewrite Hh. f_equal. apply map_eq. intros k. unfold texts. rewrite lookup_fmap, lookup_omap.
      specialize (Hnn k). by destruct (h !! k) as [[v|]|].
    + apply elem_of_map_order. rewrite Hd, Hh. by rewrite decide_True.
  - apply Hout. intros ([name' pb] & -> & Hp)%list_elem_of_fmap. apply elem_of_map_order, Hsome in Hp as [Hp _]. done.
Qed.
End DumpLoad.

(** * At concrete inputs *)

Module ParameterDemo.
Definition manager (h : ParameterHandle) : ParameterManager := mkParM kStart {["m" := h]}.
Definition handle : ParameterHandle := {["speed" := Some "7"; "note" := Some ""]}.
End ParameterDemo.

Lemma dump_load_roundtrip_witness :
  ∃ d, @Service_Dump plain_order ["m"] ∅ (ParameterDemo.manager ParameterDemo.handle) =
    (Ok (kSuc, d), ParameterDemo.manager ParameterDemo.handle).
Proof.
  destruct (@dump_load_roundtrip plain_order (ParameterDemo.manager ParameterDemo.handle) (ParameterDemo.manager ∅) ["m"]
    eq_refl eq_refl) as (d & Hd & _).
  - intros name ->%list_elem_of_singleton. split; [reflexivity|]. exists ParameterDemo.handle. split; [reflexivity|].
    intros k Hk. unfold ParameterDemo.handle in Hk. apply lookup_insert_Some in Hk as [[_ Hk]|[_ Hk]]; [discriminate Hk|].
    apply lookup_singleton_Some in Hk as [_ Hk]. discriminate Hk.
  - exists d. exact Hd.
Defined.
