(* ===== verification/Timer.v ===== *)
(** * The timer of modules: [src/interface/aimrt_module_cpp_interface/executor/timer.h]

    A timer calls its task every period on an executor: each call schedules the
    next one for a planned time, and a scheduled call does nothing when the
    timer has been cancelled or has another time by then.  The calls that the
    executor has not run yet are a list of planned times, of which it may run
    any that has come.  The task is what it does to the timer: it may reset or
    cancel it.  Times are nanoseconds in 64 bits; going beyond is undefined.

    Theorems: the time of the next call, with the periods skipped; whatever
    happens, calls are never early nor less than a period apart, and a timer
    that is not cancelled has its next call scheduled; a reset by the task
    itself. *)

From S2P Require Import Prelude TimeUtil.
From stdpp Require Import sorting.
Local Open Scope Z_scope.

(* @src src/src/interface/aimrt_module_cpp_interface/executor/timer.h:44-49 TimerBase *)
Record Timer := mkTimer {
  period_ : Z;
  next_call_time_ : Z;
  cancelled_ : bool;
  tr_scheduled : list Z;       (* the planned times of the calls on the executor *)
  tr_called : list Z           (* and those for which the task was called *)
}.

(** What the task does to the timer, and when. *)
Inductive TimerCall := CallReset (now : Z) | CallCancel.

Section Timer.
Implicit Types t : Timer.
Abbreviation T := (M Timer).

Definition tr_set_next x t := mkTimer (period_ t) x (cancelled_ t) (tr_scheduled t) (tr_called t).
Definition tr_set_cancelled x t := mkTimer (period_ t) (next_call_time_ t) x (tr_scheduled t) (tr_called t).
Definition tr_set_scheduled x t := mkTimer (period_ t) (next_call_time_ t) (cancelled_ t) x (tr_called t).
Definition tr_set_called x t := mkTimer (period_ t) (next_call_time_ t) (cancelled_ t) (tr_scheduled t) x.

(** A duration or a time in nanoseconds. *)
Definition ns (z : Z) : T Z := if decide (in_int64 z) then mret z else undef.

(* @src src/src/interface/aimrt_module_cpp_interface/executor/timer.h:28-28 TimerBase::Cancel *)
Definition Cancel : T unit := modify (tr_set_cancelled true).

(* @src src/src/interface/aimrt_module_cpp_interface/executor/timer.h:30-36 TimerBase (getters) *)
Definition timer_state t : bool * Z * Z := (cancelled_ t, period_ t, next_call_time_ t).

(* @src src/src/interface/aimrt_module_cpp_interface/executor/timer.h:38-40 TimerBase::TimeUntilNextCall *)
Definition TimeUntilNextCall (now : Z) : T Z := t ← get; ns (next_call_time_ t - now).

(** A call is scheduled for the next time. *)
(* @src src/src/interface/aimrt_module_cpp_interface/executor/timer.h:83-85 Timer::ExecuteLoop (schedule) *)
Definition ExecuteLoop : T unit := modify (λ t, tr_set_scheduled (tr_scheduled t ++ [next_call_time_ t]) t).

(* @src src/src/interface/aimrt_module_cpp_interface/executor/timer.h:65-70 Timer::Reset *)
Definition timer_Reset (now : Z) : T unit :=
  modify (tr_set_cancelled false);;
  t ← get;
  next ← ns (now + period_ t);
  modify (tr_set_next next);;
  ExecuteLoop.

(** The task was called for [planned]. *)
(* @src src/src/interface/aimrt_module_cpp_interface/executor/timer.h:72-78 Timer::ExecuteTask *)
Definition ExecuteTask (planned : Z) (calls : list TimerCall) : T unit :=
  modify (λ t, tr_set_called (tr_called t ++ [planned]) t);;
  mapM_ (λ c, match c with CallReset now => timer_Reset now | CallCancel => Cancel end) calls.

(** The periods that have passed are skipped. *)
(* @src src/src/interface/aimrt_module_cpp_interface/executor/timer.h:97-111 Timer::ExecuteLoop (next time) *)
Definition next_time (now : Z) : T unit :=
  t ← get;
  next ← ns (next_call_time_ t + period_ t);
  modify (tr_set_next next);;
  if next <? now then
    if period_ t =? 0 then modify (tr_set_next now)
    else
      now_ahead ← ns (now - next);
      skip ← ns (1 + (now_ahead - 1) `quot` period_ t);
      skipped ← ns (skip * period_ t);
      next ← ns (next + skipped);
      modify (tr_set_next next)
  else mret tt.

(** The call for [planned]; the task has returned at [now]. *)
(* @src src/src/interface/aimrt_module_cpp_interface/executor/timer.h:85-114 Timer::ExecuteLoop (call) *)
Definition loop_call (planned : Z) (calls : list TimerCall) (now : Z) : T unit :=
  t ← get;
  if cancelled_ t then mret tt
  else if negb (planned =? next_call_time_ t) then mret tt
  else ExecuteTask planned calls;; next_time now;; ExecuteLoop.

(** The executor runs the [i]th call it was given. *)
Definition run_call (i : nat) (calls : list TimerCall) (now : Z) : T unit :=
  t ← get;
  match tr_scheduled t !! i with
  | None => mret tt
  | Some planned =>
      modify (tr_set_scheduled (take i (tr_scheduled t) ++ drop (i + 1) (tr_scheduled t)));;
      loop_call planned calls now
  end.

(** The executor, unless it is null: whether it supports timers. *)
(* @src src/src/interface/aimrt_module_cpp_interface/executor/timer.h:121-132 CreateTimer *)
Definition CreateTimer (executor : option bool) (period : Z) (auto_start : bool) (now : Z) : res Timer :=
  match executor with
  | None => Throw (AimRTException "Executor is null.")
  | Some timers =>
      if negb timers then Throw (AimRTException "Executor does not support timer scheduling.")
      else if period <? 0 then Throw (AimRTException "Timer period must not be negative.")
      else
        let t := mkTimer period 0 true [] [] in
        if auto_start then let '(r, t) := timer_Reset now t in (_ ← r; Ok t) else Ok t
  end.

(** ** The time of the next call *)

Lemma ns_run z t : in_int64 z → ns z t = (Ok z, t).
Proof. intros Hz. unfold ns. by rewrite decide_True. Qed.

(** The next time is that of the first period after this call that has not
    passed when the task returns. *)
Theorem next_time_skips now t :
  0 < period_ t → 0 ≤ next_call_time_ t → 0 ≤ now → next_call_time_ t + period_ t < 2 ^ 63 → now + period_ t < 2 ^ 63 →
  ∃ k, 1 ≤ k ∧ next_time now t = (Ok tt, tr_set_next (next_call_time_ t + k * period_ t) t) ∧
    now ≤ next_call_time_ t + k * period_ t ∧ (k = 1 ∨ next_call_time_ t + (k - 1) * period_ t < now).
Proof.
  intros Hp Hn0 Hnow Hn Hnp. set (p := period_ t) in *. set (n := next_call_time_ t) in *. unfold next_time.
  rewrite get_bind, (bind_run _ _ t (n + p) t) by (apply ns_run; unfold in_int64; lia).
  rewrite (bind_run _ _ t tt (tr_set_next (n + p) t)) by done. fold p.
  destruct (Z.ltb_spec (n + p) now) as [Hlt|Hge].
  - rewrite (proj2 (Z.eqb_neq p 0)) by lia. set (d := now - (n + p)).
    pose proof (Z.quot_div_nonneg (d - 1) p ltac:(lia) Hp) as Hq. rewrite (bind_run _ _ _ d _) by (apply ns_run; unfold in_int64; lia).
    pose proof (Z.div_mod (d - 1) p ltac:(lia)) as Hdm. pose proof (Z.mod_pos_bound (d - 1) p Hp) as Hm.
    set (q := (d - 1) / p) in *. rewrite Hq.
    assert (0 ≤ q) by (apply Z.div_pos; lia). assert (q ≤ d - 1) by nia.
    rewrite (bind_run _ _ _ (1 + q) _) by (apply ns_run; unfold in_int64; lia).
    rewrite (bind_run _ _ _ ((1 + q) * p) _) by (apply ns_run; unfold in_int64; nia).
    rewrite (bind_run _ _ _ (n + p + (1 + q) * p) _) by (apply ns_run; unfold in_int64; nia).
    exists (q + 2). split; [lia|]. split; [|split; [nia|right; nia]].
    unfold modify, tr_set_next. cbn. do 2 f_equal. lia.
  - exists 1. split; [lia|]. split; [by rewrite Z.mul_1_l|]. split; [lia|by left].
Qed.

(** ** Whatever happens *)

(** Calls of the task while the clock goes from [now] to [now']. *)
Inductive during (now' : Z) : Z → list TimerCall → Prop :=
| during_nil now : now ≤ now' → during now' now []
| during_reset now at_ calls : now ≤ at_ → during now' at_ calls → during now' now (CallReset at_ :: calls)
| during_cancel now calls : during now' now calls → during now' now (CallCancel :: calls).

(** A timer and the clock: the clock goes on, the timer is reset or cancelled,
    or the executor runs a call whose time has come. *)
Inductive timer_step : Timer * Z → Timer * Z → Prop :=
| step_clock t now now' : now ≤ now' → timer_step (t, now) (t, now')
| step_reset t t' now : timer_Reset now t = (Ok tt, t') → timer_step (t, now) (t', now)
| step_cancel t t' now : Cancel t = (Ok tt, t') → timer_step (t, now) (t', now)
| step_call t t' now i planned calls now' :
    tr_scheduled t !! i = Some planned → planned ≤ now → during now' now calls →
    run_call i calls now' t = (Ok tt, t') → timer_step (t, now) (t', now').

(** The calls of the task were not early and a period apart, and so will the
    next one be; a timer that goes on has its next call scheduled. *)
Record timer_ok (p : Z) (s : Timer * Z) : Prop := {
  to_period : period_ s.1 = p;
  to_apart : StronglySorted (λ x y, x + p ≤ y) (tr_called s.1);
  to_early : Forall (λ x, x ≤ s.2) (tr_called s.1);
  to_next : cancelled_ s.1 = false → Forall (λ x, x + p ≤ next_call_time_ s.1) (tr_called s.1);
  to_scheduled : cancelled_ s.1 = false → next_call_time_ s.1 ∈ tr_scheduled s.1
}.

Definition same_calls t t' : Prop := period_ t' = period_ t ∧ tr_called t' = tr_called t.

Lemma reset_run now t t' : timer_Reset now t = (Ok tt, t') →
  t' = mkTimer (period_ t) (now + period_ t) false (tr_scheduled t ++ [now + period_ t]) (tr_called t).
Proof.
  unfold timer_Reset, ns. unfold_monad. destruct (decide _); [|done]. by intros [= <-].
Qed.

(** While the task runs it has been called for no later time than the next. *)
Definition in_task (p now : Z) t : Prop :=
  period_ t = p ∧ StronglySorted (λ x y, x + p ≤ y) (tr_called t) ∧ Forall (λ x, x ≤ now) (tr_called t) ∧
  (cancelled_ t = false → Forall (λ x, x ≤ next_call_time_ t) (tr_called t)).

Lemma in_task_calls p now now' calls t t' : 0 ≤ p → during now' now calls → in_task p now t →
  mapM_ (λ c, match c with CallReset now => timer_Reset now | CallCancel => Cancel end) calls t = (Ok tt, t') →
  in_task p now' t'.
Proof.
  intros Hp Hd. revert t. induction Hd as [now Hle|now at_ calls Hle Hd IH|now calls Hd IH]; intros t (Hper & Hs & Hnow & Hnext) Hrun.
  - injection Hrun as <-. split; [done|]. split; [done|]. split; [|done]. eapply Forall_impl; [exact Hnow|]. cbn. lia.
  - cbn [mapM_] in Hrun. run_step Hrun E. destruct u. apply reset_run in E. apply (IH y); [|done]. subst y.
    assert (Forall (λ x, x ≤ at_) (tr_called t)) by (eapply Forall_impl; [exact Hnow|]; cbn; lia).
    split; [done|]. split; [done|]. split; [done|]. intros _. eapply Forall_impl; [eassumption|]. cbn. lia.
  - cbn [mapM_] in Hrun. run_step Hrun E. destruct u. injection E as <-. apply (IH (tr_set_cancelled true t)); [|done].
    by split.
Qed.

(** The next time is a period later, at least. *)
Lemma next_time_later now t t' : 0 ≤ period_ t → next_time now t = (Ok tt, t') →
  ∃ n, next_call_time_ t + period_ t ≤ n ∧ t' = tr_set_next n t.
Proof.
  intros Hp. unfold next_time, ns. rewrite get_bind. intros Hrun. run_step Hrun E.
  destruct (decide _); [|done]. injection E as <- <-. rewrite (bind_run _ _ t tt (tr_set_next (next_call_time_ t + period_ t) t)) in Hrun by done.
  destruct (Z.ltb_spec (next_call_time_ t + period_ t) now) as [Hlt|Hge].
  2: { injection Hrun as <-. exists (next_call_time_ t + period_ t). by split; [lia|]. }
  destruct (Z.eqb_spec (period_ t) 0) as [Hz|Hz].
  { injection Hrun as <-. exists now. split; [lia|done]. }
  run_step Hrun E1. destruct (decide _) in E1; [|done]. injection E1 as <- <-.
  run_step Hrun E2. destruct (decide _) in E2; [|done]. injection E2 as <- <-.
  run_step Hrun E3. destruct (decide _) in E3; [|done]. injection E3 as <- <-.
  run_step Hrun E4. destruct (decide _) in E4; [|done]. injection E4 as <- <-.
  injection Hrun as <-. eexists. split; [|done].
  pose proof (Z.quot_pos (now - (next_call_time_ t + period_ t) - 1) (period_ t) ltac:(lia) ltac:(lia)). nia.
Qed.

Lemma loop_call_ok p now now' planned calls t t' : 0 ≤ p →
  timer_ok p (tr_set_scheduled (planned :: tr_scheduled t) t, now) → planned ≤ now → during now' now calls →
  now ≤ now' → (cancelled_ t = false → planned ≠ next_call_time_ t → next_call_time_ t ∈ tr_scheduled t) →
  loop_call planned calls now' t = (Ok tt, t') → timer_ok p (t', now').
Proof.
  intros Hp [Hper Hs Hearly Hnext _] Hpl Hd Hle Hother Hrun. cbn in *.
  assert (Forall (λ x, x ≤ now') (tr_called t)) as Hearly' by (eapply Forall_impl; [exact Hearly|]; cbn; lia).
  unfold loop_call in Hrun. rewrite get_bind in Hrun. destruct (cancelled_ t) eqn:Hc.
  { injection Hrun as <-. by split; cbn; rewrite ?Hc. }
  destruct (Z.eqb_spec planned (next_call_time_ t)) as [Heq|Hne]; cbn [negb] in Hrun.
  2: { injection Hrun as <-. split; cbn; rewrite ?Hc; auto. }
  run_step Hrun E1. destruct u. unfold ExecuteTask in E1.
  rewrite (bind_run _ _ t tt (tr_set_called (tr_called t ++ [planned]) t)) in E1 by done.
  apply (in_task_calls p now now') in E1; [|done..|].
  2: { split; [done|]. cbn. specialize (Hnext eq_refl). split; [|split].
       - apply StronglySorted_app_2; [|done|repeat constructor].
         intros x z Hx ->%list_elem_of_singleton. rewrite Heq. by eapply Forall_forall in Hnext.
       - apply Forall_app. split; [done|]. by constructor.
       - intros _. apply Forall_app. split; [eapply Forall_impl; [exact Hnext|]; cbn; lia|]. constructor; [lia|done]. }
  destruct E1 as (Hper1 & Hs1 & Hnow1 & Hnext1).
  run_step Hrun E2. destruct u. apply next_time_later in E2 as (n & Hn & ->); [|lia]. injection Hrun as <-.
  split; cbn; [done..| |].
  - intros Hc1. eapply Forall_impl; [by apply Hnext1|]. cbn. lia.
  - intros _. apply elem_of_app. right. left.
Qed.

Lemma timer_step_ok p s s' : 0 ≤ p → timer_step s s' → timer_ok p s → timer_ok p s'.
Proof.
  intros Hp [t now now' Hle|t t' now Hrun|t t' now Hrun|t t' now i planned calls now' Hi Hpl Hd Hrun] Hok; destruct Hok as [Hper Hs Hearly Hnext Hsch]; cbn in *.
  - split; cbn; [done|done| |done|done]. eapply Forall_impl; [exact Hearly|]. cbn. lia.
  - apply reset_run in Hrun as ->. split; cbn; [done|done|done| |].
    + intros _. eapply Forall_impl; [exact Hearly|]. cbn. lia.
    + intros _. apply elem_of_app. right. left.
  - injection Hrun as <-. by split.
  - unfold run_call in Hrun. rewrite get_bind, Hi in Hrun.
    set (left := take i (tr_scheduled t) ++ drop (i + 1) (tr_scheduled t)) in *.
    assert (tr_scheduled t ≡ₚ planned :: left) as Hperm.
    { subst left. rewrite <-(take_drop_middle _ i planned Hi) at 1. rewrite Nat.add_1_r. symmetry. apply Permutation_middle. }
    rewrite (bind_run _ _ t tt (tr_set_scheduled left t)) in Hrun by done.
    assert (now ≤ now') as Hle by (clear -Hd; induction Hd; lia).
    apply (loop_call_ok p now now' planned calls (tr_set_scheduled left t)); [done| |done..| |done].
    + split; cbn; [done..|]. intros Hc. rewrite <-Hperm. auto.
    + cbn. intros Hc Hne. specialize (Hsch Hc). rewrite Hperm in Hsch. by apply elem_of_cons in Hsch as [?|?]; [congruence|].
Qed.

(** C24: Whatever happens to a timer - resets and cancellations by anyone and by
    its task, calls that come late and in any order - its task is called for
    times that have come and are at least a period apart, and a timer that has
    not been cancelled always has its next call scheduled, for a period after
    the last one at least. *)
Theorem calls_are_a_period_apart period executor auto_start now t0 t now' :
  CreateTimer executor period auto_start now = Ok t0 → rtc timer_step (t0, now) (t, now') →
  StronglySorted (λ x y, x + period ≤ y) (tr_called t) ∧ Forall (λ x, x ≤ now') (tr_called t) ∧
  (cancelled_ t = false → next_call_time_ t ∈ tr_scheduled t ∧ Forall (λ x, x + period ≤ next_call_time_ t) (tr_called t)).
Proof.
  intros Hmake Hsteps. unfold CreateTimer in Hmake. destruct executor as [[]|]; cbn [negb] in Hmake; [|done..].
  destruct (Z.ltb_spec period 0) as [|Hp]; [done|].
  assert (timer_ok period (t0, now)) as H0.
  { destruct auto_start; [|injection Hmake as <-; by repeat constructor].
    destruct (timer_Reset now _) as [[[]| |] t1] eqn:Hr; [|done..]. injection Hmake as <-.
    apply reset_run in Hr as ->. cbn. split; cbn; [done|constructor|constructor|by intros|by left]. }
  assert (timer_ok period (t, now')) as [_ H1 H2 H3 H4].
  { revert H0. induction Hsteps as [|x y z Hstep _ IH]; [done|]. intros Hx. apply IH. by eapply timer_step_ok. }
  do 2 (split; [done|]). intros Hc. split; [by apply H4|by apply H3].
Qed.

(** The task resets the timer at [at_], between its call and its end: the next
    call is not a period but two after the reset. *)
Theorem reset_in_task_waits_two_periods planned at_ now t :
  cancelled_ t = false → next_call_time_ t = planned → 0 < period_ t → 0 ≤ at_ ≤ now → now ≤ at_ + period_ t →
  at_ + 2 * period_ t < 2 ^ 63 →
  ∃ t', loop_call planned [CallReset at_] now t = (Ok tt, t') ∧ next_call_time_ t' = at_ + 2 * period_ t.
Proof.
  intros Hc Hn Hp Hat Hnow Hmax. unfold loop_call. rewrite get_bind, Hc, (proj2 (Z.eqb_eq _ _)) by done. cbn [negb].
  set (t1 := mkTimer (period_ t) (at_ + period_ t) false (tr_scheduled t ++ [at_ + period_ t]) (tr_called t ++ [planned])).
  assert (ExecuteTask planned [CallReset at_] t = (Ok tt, t1)) as E1.
  { unfold ExecuteTask. rewrite (bind_run _ _ t tt (tr_set_called (tr_called t ++ [planned]) t)) by done. cbn [mapM_].
    unfold timer_Reset. rewrite bind_assoc, (bind_run _ _ _ tt _), bind_assoc, get_bind by done.
    by rewrite bind_assoc, (bind_run _ _ _ (at_ + period_ t) _) by (apply ns_run; unfold in_int64; lia). }
  rewrite (bind_run _ _ _ _ _ E1).
  destruct (next_time_skips now t1) as (k & Hk & E2 & Hlo & Hhi); cbn [period_ next_call_time_ t1] in *; [lia..|].
  rewrite (bind_run _ _ _ _ _ E2). eexists. split; [done|]. cbn. destruct Hhi as [->|Hhi]; [lia|nia].
Qed.
End Timer.

(** ** At a concrete input *)

Module TimerDemo.
Definition demo_timer : Timer := mkTimer 10 10 false [10] [].
Definition late_timer : Timer := mkTimer 10 40 false [40] [10].

(** The call for 10 is run at 12 and takes until 31. *)
Lemma late_steps : rtc timer_step (demo_timer, 0) (late_timer, 31).
Proof.
  apply (rtc_l _ _ (demo_timer, 12)); [by apply step_clock|].
  apply (rtc_l _ _ (late_timer, 31)); [|apply rtc_refl].
  apply (step_call _ _ _ 0 10 []); [done|done|by apply during_nil|by vm_compute].
Qed.
End TimerDemo.
Import TimerDemo.

Lemma next_time_skips_witness : ∃ k, next_time 31 demo_timer = (Ok tt, tr_set_next (10 + k * 10) demo_timer) ∧ 31 ≤ 10 + k * 10.
Proof.
  destruct (next_time_skips 31 demo_timer ltac:(zdec) ltac:(zdec) ltac:(zdec) ltac:(zdec) ltac:(zdec)) as (k & _ & H1 & H2 & _).
  exists k. split; [exact H1|exact H2].
Defined.

Lemma calls_are_a_period_apart_witness : 40 ∈ [40] ∧ Forall (λ x, x + 10 ≤ 40) [10].
Proof.
  exact (proj2 (proj2 (calls_are_a_period_apart 10 (Some true) true 0 demo_timer late_timer 31 eq_refl late_steps)) eq_refl).
Defined.

Lemma reset_in_task_waits_two_periods_witness : ∃ t', loop_call 10 [CallReset 11] 12 demo_timer = (Ok tt, t') ∧ next_call_time_ t' = 31.
Proof.
  exact (reset_in_task_waits_two_periods 10 11 12 demo_timer eq_refl eq_refl ltac:(zdec) ltac:(zdec) ltac:(zdec) ltac:(zdec)).
Defined.
