(* ===== verification/Double.v ===== *)
(** * Doubles

    IEEE binary64 as the [spec_float] of the Standard Library, with the
    conversions and operations that the plugins use, rounded to nearest even. *)

From Stdlib Require Export SpecFloat.
From S2P Require Import Prelude.
Local Open Scope Z_scope.

Abbreviation double := spec_float.
Definition double_div (x y : double) : double := SFdiv 53 1024 x y.

Definition one : double := S754_finite false 4503599627370496 (-52).
(** [1e-15]. *)
Definition tiny : double := S754_finite false 5070602400912918 (-102).

Definition uint32_max : Z := 4294967295.

(** [static_cast<double>] of an unsigned 32-bit integer, which is exact. *)
Definition double_of (n : Z) : double :=
  match n with
  | Zpos p => let k := 53 - Z.log2 n - 1 in S754_finite false (Z.to_pos (Z.shiftl n k)) (- k)
  | _ => S754_zero false
  end.

(** [static_cast<uint32_t>]: undefined when the integral part does not fit. *)
Definition to_uint32 (x : double) : res Z :=
  match x with
  | S754_zero _ => Ok 0
  | S754_finite s m e =>
      let v := Z.shiftl (Zpos m) e in
      if v =? 0 then Ok 0 else if s then Undef else if v <=? uint32_max then Ok v else Undef
  | _ => Undef
  end.

(** [static_cast<uint64_t>] *)
Definition to_uint64 (x : double) : res Z :=
  match x with
  | S754_zero _ => Ok 0
  | S754_finite s m e =>
      let v := Z.shiftl (Zpos m) e in
      if v =? 0 then Ok 0 else if s then Undef else if v <? 2 ^ 64 then Ok v else Undef
  | _ => Undef
  end.

(** [static_cast<double>] of a [size_t], which is rounded. *)
Definition double_of_size (n : Z) : double := binary_normalize 53 1024 n 0 false.

Definition double_mul (x y : double) : double := SFmul 53 1024 x y.
