(* ===== verification/TimeManipulator.v ===== *)
(** * The time manipulator: [src/plugins/time_manipulator_plugin]

    An executor with a time of its own, which a ratio lets run faster (several
    ticks of the wheel per [dt]), slower (one tick per several [dt]) or not at
    all.  It hands its tasks to another executor.

    The wheels are those of [TimeWheel.v], with what this class does in
    another way: [tm_distribute] reduces ticks modulo the scale of a level
    instead of its size, and [tm_insert_at] adds quotients instead of dividing
    the sum.  Ratios are IEEE doubles ([spec_float] with 53 bits).  The steps of
    an iteration of the timer are run without interleaving.

    Theorems: what an iteration hands over and how long it sleeps, for each
    ratio; which tasks are scheduled rightly; which ratios are read back.
    What goes wrong: a task beyond the next turn of the first wheel can come a
    turn early, one beyond the wheels makes the timer write out of bounds, and
    ratios that are read back otherwise than they were set. *)

From Stdlib Require Import SpecFloat Sorted.
From S2P Require Import Prelude Yaml Double TimeWheel.
Local Open Scope Z_scope.

(** ** Options *)

(* @src src/src/plugins/time_manipulator_plugin/time_manipulator_executor.h:20-28 TimeManipulatorExecutor::Options *)
Record TmOptions := mkTmOptions { base_options : Options; init_ratio : double }.

Definition tm_default : TmOptions := mkTmOptions default_options one.

Section Manipulator.
Context {node : Type} `{YamlOps node} (as_double : node → res double).

(* @src src/src/plugins/time_manipulator_plugin/time_manipulator_executor.cc:29-49 convert<TimeManipulatorExecutor::Options>::decode *)
Definition tm_decode (n : node) (rhs : TmOptions) : res (option TmOptions) :=
  if negb (IsMap n) then Ok None else
  let o := base_options rhs in
  be ← as_of as_string (index n "bind_executor");
  d ← set_if n "dt_us" (λ c, us_to_ns <$> as_uint64 c) (dt o);
  ratio ← set_if n "init_ratio" as_double (init_ratio rhs);
  ws ← set_if n "wheel_size" as_sizes (wheel_size o);
  pol ← set_if n "thread_sched_policy" as_string (thread_sched_policy o);
  cpu ← set_if n "thread_bind_cpu" as_uint32s (thread_bind_cpu o);
  sc ← set_if n "use_system_clock" as_bool (use_system_clock o);
  Ok (Some (mkTmOptions (mkOptions be d ws pol cpu sc) ratio)).

Context {Task : Type}.
Abbreviation TaskList := (list (TaskWithTimestamp (Task := Task))).
Abbreviation Wheel := (TimingWheelTool (Task := Task)).
Abbreviation Tasks := (TaskMap (Task := Task)).

(** ** The wheels *)

(* @src src/src/plugins/time_manipulator_plugin/time_manipulator_executor.cc:106-110 TimeManipulatorExecutor::Initialize (borrow_func, distribution) *)
Fixpoint tm_distribute (task_list : TaskList) (scale : Z) (wh : list TaskList) : res (list TaskList) :=
  match task_list with
  | [] => Ok wh
  | t :: rest =>
      if scale =? 0 then Undef
      else if tick_count t mod scale <? Z.of_nat (length wh)
           then tm_distribute rest scale (slot_append t (tick_count t mod scale) wh)
           else Undef
  end.

(* @src src/src/plugins/time_manipulator_plugin/time_manipulator_executor.cc:98-103 TimeManipulatorExecutor::Initialize (borrow_func, task map) *)
Definition tm_borrow_map (m : Tasks) : TaskList * Tasks :=
  let p := task_map_pos m in
  (default [] (task_map m !! p), mkTaskMap (wrap64 (p + 1)) (delete p (task_map m))).

(* @src src/src/plugins/time_manipulator_plugin/time_manipulator_executor.h:81-92 TimingWheelTool::Tick *)
Fixpoint tm_Tick (ws : list Wheel) (m : Tasks) : res (TaskList * (list Wheel * Tasks)) :=
  match ws with
  | [] => let '(l, m') := tm_borrow_map m in Ok (l, ([], m'))
  | w :: ws' =>
      match wheel w !! Z.to_nat (current_pos w) with
      | None => Undef
      | Some task_list =>
          let wh := <[Z.to_nat (current_pos w) := []]> (wheel w) in
          let pos := wrap64 (current_pos w + 1) in
          if pos =? Z.of_nat (length wh) then
            r ← tm_Tick ws' m;
            wh' ← tm_distribute r.1 (scale w) wh;
            Ok (task_list, (mkWheel 0 (scale w) wh' :: r.2.1, r.2.2))
          else Ok (task_list, (mkWheel pos (scale w) wh :: ws', m))
      end
  end.

(** ** The executor *)

(* @src src/src/plugins/time_manipulator_plugin/time_manipulator_executor.h:95-120 TimeManipulatorExecutor *)
Record TimeManipulatorExecutor := mkTM {
  tm_name : string;
  tm_options : TmOptions;
  tm_state : State;
  tm_get_executor_func : option (string → option ExecutorRef);
  tm_bind_executor_ref : option ExecutorRef;
  tm_thread_safe : bool;
  tm_dt_count : Z;
  ratio_direction : bool;
  real_ratio : Z;
  tm_start_time_point : Z;
  tm_start_flag : bool;
  tm_current_tick_count : Z;
  tm_timing_wheel_vec : list Wheel;
  tm_task_map : Tasks;
  tm_trace : list Task   (* ghost: what was handed to the bound executor *)
}.

Definition TimeManipulatorExecutor_new : TimeManipulatorExecutor :=
  mkTM "" tm_default kPreInit None None true 0 true 1 0 false 0 [] (mkTaskMap 0 ∅) [].

Implicit Types s : TimeManipulatorExecutor.
Abbreviation T := (M TimeManipulatorExecutor).

Definition tm_set_state st s :=
  mkTM (tm_name s) (tm_options s) st (tm_get_executor_func s) (tm_bind_executor_ref s) (tm_thread_safe s) (tm_dt_count s)
    (ratio_direction s) (real_ratio s) (tm_start_time_point s) (tm_start_flag s) (tm_current_tick_count s)
    (tm_timing_wheel_vec s) (tm_task_map s) (tm_trace s).
Definition tm_set_config name o s :=
  mkTM name o (tm_state s) (tm_get_executor_func s) (tm_bind_executor_ref s) (tm_thread_safe s) (tm_dt_count s)
    (ratio_direction s) (real_ratio s) (tm_start_time_point s) (tm_start_flag s) (tm_current_tick_count s)
    (tm_timing_wheel_vec s) (tm_task_map s) (tm_trace s).
Definition tm_set_get_executor f s :=
  mkTM (tm_name s) (tm_options s) (tm_state s) f (tm_bind_executor_ref s) (tm_thread_safe s) (tm_dt_count s)
    (ratio_direction s) (real_ratio s) (tm_start_time_point s) (tm_start_flag s) (tm_current_tick_count s)
    (tm_timing_wheel_vec s) (tm_task_map s) (tm_trace s).
Definition tm_set_bind r safe s :=
  mkTM (tm_name s) (tm_options s) (tm_state s) (tm_get_executor_func s) r safe (tm_dt_count s)
    (ratio_direction s) (real_ratio s) (tm_start_time_point s) (tm_start_flag s) (tm_current_tick_count s)
    (tm_timing_wheel_vec s) (tm_task_map s) (tm_trace s).
Definition tm_set_ratio dir r s :=
  mkTM (tm_name s) (tm_options s) (tm_state s) (tm_get_executor_func s) (tm_bind_executor_ref s) (tm_thread_safe s) (tm_dt_count s)
    dir r (tm_start_time_point s) (tm_start_flag s) (tm_current_tick_count s)
    (tm_timing_wheel_vec s) (tm_task_map s) (tm_trace s).
Definition tm_set_wheels d ws m s :=
  mkTM (tm_name s) (tm_options s) (tm_state s) (tm_get_executor_func s) (tm_bind_executor_ref s) (tm_thread_safe s) d
    (ratio_direction s) (real_ratio s) (tm_start_time_point s) (tm_start_flag s) (tm_current_tick_count s)
    ws m (tm_trace s).
Definition tm_set_started tp s :=
  mkTM (tm_name s) (tm_options s) (tm_state s) (tm_get_executor_func s) (tm_bind_executor_ref s) (tm_thread_safe s) (tm_dt_count s)
    (ratio_direction s) (real_ratio s) tp true (tm_current_tick_count s)
    (tm_timing_wheel_vec s) (tm_task_map s) (tm_trace s).
Definition tm_set_tick c tr s :=
  mkTM (tm_name s) (tm_options s) (tm_state s) (tm_get_executor_func s) (tm_bind_executor_ref s) (tm_thread_safe s) (tm_dt_count s)
    (ratio_direction s) (real_ratio s) (tm_start_time_point s) (tm_start_flag s) c
    (tm_timing_wheel_vec s) (tm_task_map s) tr.

(* @src src/src/plugins/time_manipulator_plugin/time_manipulator_executor.cc:204-210 TimeManipulatorExecutor::RegisterGetExecutorFunc *)
Definition tm_RegisterGetExecutorFunc (f : string → option ExecutorRef) : T unit :=
  s ← get;
  check_throw (state_eqb (tm_state s) kPreInit) "Method can only be called when state is 'PreInit'.";;
  modify (tm_set_get_executor (Some f)).

(* @src src/src/plugins/time_manipulator_plugin/time_manipulator_executor.cc:212-233 TimeManipulatorExecutor::SetTimeRatio *)
Definition SetTimeRatio (ratio : double) : T unit :=
  if SFleb one ratio then
    modify (λ s, tm_set_ratio true (real_ratio s) s);;
    r ← lift (to_uint32 ratio); modify (tm_set_ratio true r)
  else
    modify (λ s, tm_set_ratio false (real_ratio s) s);;
    if SFltb tiny ratio && SFltb ratio one && SFltb (double_div one ratio) (double_of uint32_max) then
      r ← lift (to_uint32 (double_div one ratio)); modify (tm_set_ratio false r)
    else modify (tm_set_ratio false uint32_max).

(* @src src/src/plugins/time_manipulator_plugin/time_manipulator_executor.cc:235-245 TimeManipulatorExecutor::GetTimeRatio *)
Definition GetTimeRatio (s : TimeManipulatorExecutor) : double :=
  if ratio_direction s then double_of (real_ratio s)
  else if real_ratio s =? uint32_max then S754_zero false
  else double_div one (double_of (real_ratio s)).

(* @src src/src/plugins/time_manipulator_plugin/time_manipulator_executor.cc:86-92 TimeManipulatorExecutor::Initialize (wheels) *)
Fixpoint tm_make_wheels (ii : nat) (cur_scale : Z) (sizes : list Z) : list Wheel :=
  match sizes with
  | [] => []
  | w :: sizes' =>
      let start_pos := if (ii =? 0)%nat then 0 else 1 in
      let sc := wrap64 (cur_scale * w) in
      mkWheel start_pos sc (replicate (Z.to_nat w) []) :: tm_make_wheels (S ii) sc sizes'
  end.

(* @src src/src/plugins/time_manipulator_plugin/time_manipulator_executor.cc:54-117 TimeManipulatorExecutor::Initialize *)
Definition tm_Initialize (name : string) (options_node : option node) : T unit :=
  s ← get;
  check_throw (bool_decide (is_Some (tm_get_executor_func s))) "Get executor function is not set before initialize.";;
  modify (tm_set_state kInit);;
  check_throw (state_eqb (tm_state s) kPreInit) "TimeManipulatorExecutor can only be initialized once.";;
  modify (λ s, tm_set_config name (tm_options s) s);;
  o ← lift (read_options tm_decode tm_default options_node);
  modify (λ s, tm_set_config name (default (tm_options s) o) s);;
  s ← get;
  let bind := bind_executor (base_options (tm_options s)) in
  check_throw (negb (String.eqb bind "")) "Invalide bind executor name, name is empty.";;
  let ref := match tm_get_executor_func s with Some f => f bind | None => None end in
  modify (tm_set_bind ref (tm_thread_safe s));;
  match ref with
  | None => throw (AimRTException "Can not get executor {}.")
  | Some r =>
      modify (tm_set_bind (Some r) (er_thread_safe r));;
      SetTimeRatio (init_ratio (tm_options s));;
      let o := base_options (tm_options s) in
      modify (λ s, tm_set_wheels (wrap64 (dt o)) (tm_timing_wheel_vec s ++ tm_make_wheels 0 1 (wheel_size o))
                     (mkTaskMap 1 (task_map (tm_task_map s))) s)
  end.

(* @src src/src/plugins/time_manipulator_plugin/time_manipulator_executor.cc:119-127 TimeManipulatorExecutor::Start *)
Definition tm_Start (now : Z) : T unit :=
  s ← get;
  modify (tm_set_state kStart);;
  check_throw (state_eqb (tm_state s) kInit) "Method can only be called when state is 'Init'.";;
  modify (tm_set_started now).

(* @src src/src/plugins/time_manipulator_plugin/time_manipulator_executor.cc:129-140 TimeManipulatorExecutor::Shutdown *)
Definition tm_Shutdown : T unit :=
  s ← get;
  modify (tm_set_state kShutdown);;
  if state_eqb (tm_state s) kShutdown then mret tt
  else
    modify (λ s, tm_set_wheels (tm_dt_count s) [] (mkTaskMap (task_map_pos (tm_task_map s)) ∅) s);;
    modify (tm_set_get_executor None).

(** A call through the empty reference throws, which is caught. *)
(* @src src/src/plugins/time_manipulator_plugin/time_manipulator_executor.cc:151-157 TimeManipulatorExecutor::Execute *)
Definition tm_Execute (t : Task) : T unit :=
  modify (λ s, match tm_bind_executor_ref s with
               | Some _ => tm_set_tick (tm_current_tick_count s) (tm_trace s ++ [t]) s
               | None => s
               end).

(* @src src/src/plugins/time_manipulator_plugin/time_manipulator_executor.cc:159-164 TimeManipulatorExecutor::Now *)
Definition tm_Now (s : TimeManipulatorExecutor) : Z :=
  wrap64 (tm_current_tick_count s * tm_dt_count s + tm_start_time_point s).

(* @src src/src/plugins/time_manipulator_plugin/time_manipulator_executor.cc:183-198 TimeManipulatorExecutor::ExecuteAt (insertion) *)
Fixpoint tm_insert_at (t : TaskWithTimestamp) (sizes : list Z) (ws : list Wheel) (m : Tasks)
    (diff_tick_count temp_current_tick_count : Z) : res (list Wheel * Tasks) :=
  match sizes, ws with
  | [], _ =>
      let key := wrap64 (diff_tick_count + temp_current_tick_count) in
      Ok (ws, mkTaskMap (task_map_pos m) (<[key := default [] (task_map m !! key) ++ [t]]> (task_map m)))
  | size :: sizes', w :: ws' =>
      if diff_tick_count <? size then
        Ok (mkWheel (current_pos w) (scale w)
                    (slot_append t (wrap64 (diff_tick_count + temp_current_tick_count) mod size) (wheel w)) :: ws', m)
      else if size =? 0 then Undef
      else
        r ← tm_insert_at t sizes' ws' m (diff_tick_count / size) (temp_current_tick_count / size);
        Ok (w :: r.1, r.2)
  | _ :: _, [] => Undef
  end.

(* @src src/src/plugins/time_manipulator_plugin/time_manipulator_executor.cc:166-202 TimeManipulatorExecutor::ExecuteAt *)
Definition tm_ExecuteAt (tp : Z) (t : Task) : T unit :=
  s ← get;
  let virtual_tp := wrap64 (tp - tm_start_time_point s) in
  if virtual_tp <? wrap64 (tm_current_tick_count s * tm_dt_count s) then tm_Execute t
  else if tm_dt_count s =? 0 then undef
  else
    let tick := virtual_tp / tm_dt_count s in
    r ← lift (tm_insert_at (mkTask tick t) (wheel_size (base_options (tm_options s))) (tm_timing_wheel_vec s) (tm_task_map s)
                (wrap64 (tick - tm_current_tick_count s)) (tm_current_tick_count s));
    modify (tm_set_wheels (tm_dt_count s) r.1 r.2).

(** ** The timer *)

(** The chunks slept, while the state is not [kShutdown]; the loop is that of
    [TimeWheel.sleep_loop]. *)
(* @src src/src/plugins/time_manipulator_plugin/time_manipulator_executor.cc:293-317 TimeManipulatorExecutor::TimerLoop (sleep) *)
Definition tm_sleep (options_dt real_dt : Z) : option (list Z) := sleep_loop (S (Z.to_nat real_dt)) options_dt real_dt.

(** One tick: its tasks are handed over with the mutex released. *)
(* @src src/src/plugins/time_manipulator_plugin/time_manipulator_executor.cc:327-342 TimeManipulatorExecutor::TimerLoop (tick) *)
Definition tm_tick : T unit :=
  s ← get;
  match tm_timing_wheel_vec s with
  | [] => undef
  | ws =>
      r ← lift (tm_Tick ws (tm_task_map s));
      modify (tm_set_wheels (tm_dt_count s) r.2.1 r.2.2);;
      mapM_ (λ t, tm_Execute (task t)) r.1;;
      modify (λ s, tm_set_tick (wrap64 (tm_current_tick_count s + 1)) (tm_trace s) s)
  end.

(** [do { ... } while (--diff_tick_count)] with a positive count. *)
Fixpoint tm_ticks (diff_tick_count : nat) : T unit :=
  match diff_tick_count with
  | O => mret tt
  | S n => tm_tick;; tm_ticks n
  end.

(** What an iteration sleeps; [dt * real_ratio] is computed in signed 64 bits. *)
(* @src src/src/plugins/time_manipulator_plugin/time_manipulator_executor.cc:271-350 TimeManipulatorExecutor::TimerLoop (iteration) *)
Definition tm_iteration : T (list Z) :=
  s ← get;
  let o_dt := dt (base_options (tm_options s)) in
  if real_ratio s =? uint32_max then mret [1000000000]
  else
    let real_dt := if ratio_direction s then o_dt else o_dt * real_ratio s in
    if 2 ^ 63 <=? real_dt then undef
    else
      match tm_sleep o_dt real_dt with
      | None => undef
      | Some chunks =>
          tm_ticks (if ratio_direction s then (if real_ratio s =? 0 then Z.to_nat (2 ^ 64) else Z.to_nat (real_ratio s)) else 1);;
          mret chunks
      end.

(** ** The service *)

Inductive TmErrorCode := kTmSuc | kInvalidExecutorName.

Abbreviation Executors := (gmap string TimeManipulatorExecutor).

(** A call on the executor of a name, with the ratio that it has then. *)
Definition on_executor (name : string) (f : T unit) : M Executors (TmErrorCode * option double) :=
  es ← get;
  match es !! name with
  | None => mret (kInvalidExecutorName, None)
  | Some s =>
      let '(r, s') := f s in
      put (<[name := s']> es);; lift r;; mret (kTmSuc, Some (GetTimeRatio s'))
  end.

(* @src src/src/plugins/time_manipulator_plugin/service.cc:10-24 TimeManipulatorServiceImpl::SetTimeRatio *)
Definition Service_SetTimeRatio (name : string) (ratio : double) : M Executors (TmErrorCode * option double) :=
  on_executor name (SetTimeRatio ratio).
(* @src src/src/plugins/time_manipulator_plugin/service.cc:26-40 TimeManipulatorServiceImpl::Pause *)
Definition Service_Pause (name : string) : M Executors (TmErrorCode * option double) :=
  on_executor name (SetTimeRatio (S754_zero false)).
(* @src src/src/plugins/time_manipulator_plugin/service.cc:42-55 TimeManipulatorServiceImpl::GetTimeRatio *)
Definition Service_GetTimeRatio (name : string) : M Executors (TmErrorCode * option double) := on_executor name (mret tt).
(* @src src/src/plugins/time_manipulator_plugin/service.h:19-21 TimeManipulatorServiceImpl::RegisterTimeManipulatorExecutor *)
Definition Service_RegisterExecutor (s : TimeManipulatorExecutor) : M Executors unit :=
  modify (λ es, match es !! tm_name s with Some _ => es | None => <[tm_name s := s]> es end).

(** ** The wheels are those of the time wheel executor *)

Lemma tm_distribute_same (l : TaskList) (sc : Z) (wh : list TaskList) :
  sc = Z.of_nat (length wh) → tm_distribute l sc wh = distribute l wh.
Proof.
  revert wh. induction l as [|t l IH]; intros wh ->; cbn [tm_distribute distribute]; [done|].
  destruct (Z.eqb_spec (Z.of_nat (length wh)) 0); [done|].
  pose proof (Z.mod_pos_bound (tick_count t) (Z.of_nat (length wh)) ltac:(lia)).
  destruct (Z.ltb_spec (tick_count t mod Z.of_nat (length wh)) (Z.of_nat (length wh))); [|lia].
  apply IH. by rewrite length_slot_append.
Qed.

(** Two levels with nothing beyond them: the scale of the first level is its
    size, and the second has nothing to distribute. *)
Lemma tm_Tick_same (a b : Wheel) (mp : Z) :
  scale a = Z.of_nat (length (wheel a)) →
  tm_Tick [a; b] (mkTaskMap mp ∅) = Tick [a; b] (mkTaskMap mp ∅).
Proof.
  intros Ha. cbn [tm_Tick Tick]. destruct (wheel a !! Z.to_nat (current_pos a)) as [l|]; [|done].
  rewrite length_insert. destruct (_ =? _); [|done].
  destruct (wheel b !! Z.to_nat (current_pos b)) as [l'|]; [|done].
  rewrite length_insert. destruct (_ =? _); unfold mbind, res_bind; cbn;
    rewrite ?lookup_empty, ?delete_empty; cbn; rewrite tm_distribute_same by (by rewrite length_insert); done.
Qed.

Definition first_scale (n : Z) (ws : list Wheel) : Prop :=
  match ws with [] => False | w :: _ => scale w = n end.

Lemma Tick_first_scale n ws m l ws' m' :
  first_scale n ws → Tick ws m = Ok (l, (ws', m')) → first_scale n ws'.
Proof.
  destruct ws as [|a ws]; [done|]. cbn [first_scale Tick]. intros Ha.
  destruct (wheel a !! Z.to_nat (current_pos a)) as [l0|]; [|done].
  destruct (_ =? _); [|by intros [= _ <- _]].
  unfold mbind, res_bind. destruct (Tick ws m) as [r| |]; [|done..].
  destruct (distribute _ _); [|done..]. by intros [= _ <- _].
Qed.

(** ** Sleeping *)

(** The chunk loop ends for any time to sleep, longer than [dt] too. *)
Lemma long_sleep_chunks (fuel : nat) (options_dt real_dt : Z) :
  0 < options_dt → 0 < real_dt → real_dt ≤ Z.of_nat fuel * kMaxSleepDt →
  ∃ chunks, sleep_loop fuel options_dt real_dt = Some chunks ∧
    foldr Z.add 0 chunks = real_dt ∧ Forall (λ c, 0 < c < 2 * kMaxSleepDt) chunks.
Proof.
  revert real_dt. induction fuel as [|fuel IH]; intros r Ho Hr Hf; [lia|].
  cbn [sleep_loop]. cbn zeta. unfold kMaxSleepDt in *.
  destruct (Z.ltb_spec 1000000000 r) as [Hlt|Hge].
  - destruct (Z.eqb_spec (r - 1000000000) 0); [lia|]. cbn [negb andb].
    destruct (Z.ltb_spec options_dt 1000000000); cbn [andb];
      [destruct (Z.leb_spec (r - 1000000000) options_dt)|]; cbn [andb].
    1: { rewrite Z.eqb_refl. eexists; split; [done|]. cbn. split; [lia|]. constructor; [lia|done]. }
    all: destruct (Z.eqb_spec (r - 1000000000) 0); [lia|];
      (destruct (IH (r - 1000000000)) as (ch & -> & Hs & Hc); [lia..|]);
      exists (1000000000 :: ch); cbn; split; [done|]; split; [lia|]; constructor; [lia|done].
  - rewrite Z.sub_diag. cbn. exists [r]. cbn. split; [done|]. split; [lia|]. constructor; [lia|done].
Qed.

Lemma tm_sleep_chunks (options_dt real_dt : Z) :
  0 < options_dt → 0 < real_dt →
  ∃ chunks, tm_sleep options_dt real_dt = Some chunks ∧
    foldr Z.add 0 chunks = real_dt ∧ Forall (λ c, 0 < c < 2 * kMaxSleepDt) chunks.
Proof. intros Ho Hr. apply long_sleep_chunks; [done..|]. unfold kMaxSleepDt. lia. Qed.

(** ** The timer between two iterations *)

Section TwoLevels.
Context (w0 w1 : Z).
Context (Hw0 : 1 ≤ w0) (Hw1 : 2 ≤ w1) (Hw : w0 * w1 < 2 ^ 64).

Record tm_ready (s : TimeManipulatorExecutor) : Prop := {
  tm_ready_sizes : wheel_size (base_options (tm_options s)) = [w0; w1];
  tm_ready_dt : 1 ≤ tm_dt_count s;
  tm_ready_tick : 0 ≤ tm_current_tick_count s;
  tm_ready_bound : is_Some (tm_bind_executor_ref s);
  tm_ready_scale : first_scale w0 (tm_timing_wheel_vec s);
  tm_ready_wheels : two_level w0 w1 (tm_current_tick_count s) (tm_timing_wheel_vec s) (tm_task_map s)
}.

Definition tm_pending s : TaskList := held (tm_timing_wheel_vec s).

Lemma tm_Execute_all l s :
  is_Some (tm_bind_executor_ref s) →
  mapM_ (λ t, tm_Execute (task t)) l s = (Ok tt, tm_set_tick (tm_current_tick_count s) (tm_trace s ++ map task l) s).
Proof.
  revert s. induction l as [|t l IH]; intros s [r Hr]; cbn.
  - unfold mret, M_ret, tm_set_tick. rewrite app_nil_r. by destruct s.
  - unfold mbind, M_bind, tm_Execute, modify. cbn. rewrite Hr. rewrite IH by (by exists r).
    unfold tm_set_tick; cbn. by rewrite <-app_assoc.
Qed.

Lemma tm_tick_ready s :
  tm_ready s → tm_current_tick_count s + 1 < 2 ^ 64 →
  ∃ l s', tm_tick s = (Ok tt, s') ∧ tm_ready s' ∧
    tm_current_tick_count s' = tm_current_tick_count s + 1 ∧ tm_options s' = tm_options s ∧
    tm_trace s' = tm_trace s ++ map task l ∧ tm_pending s ≡ₚ l ++ tm_pending s' ∧
    Forall (λ t, tick_count t = tm_current_tick_count s) l.
Proof using Hw0 Hw1 Hw.
  intros [Hsz Hdt Hc Hb Hsc Htw] Hov.
  destruct (Tick_two_level _ _ Hw0 Hw1 Hw _ _ _ Hc Htw) as (l & ws' & m' & Htick & Htw' & Hp & Hl).
  pose proof (Tick_first_scale _ _ _ _ _ _ Hsc Htick) as Hsc'.
  assert (tm_Tick (tm_timing_wheel_vec s) (tm_task_map s) = Ok (l, (ws', m'))) as Ht.
  { rewrite <-Htick. destruct Htw as [sc0 sc1 wh0 wh1 mp H0 H1 ? ?]. apply tm_Tick_same.
    cbn in *. lia. }
  exists l. unfold tm_tick. unfold_monad.
  destruct (tm_timing_wheel_vec s) as [|a ws] eqn:Hws; [done|]. cbn -[tm_Tick]. rewrite Ht. cbn.
  rewrite tm_Execute_all by done. cbn. rewrite (wrap_small 64 (_ + 1)) by (unfold in_width; lia).
  eexists. split; [reflexivity|]. split; [split; cbn; (done || lia)|].
  unfold tm_pending; cbn. rewrite Hws. done.
Qed.

(** Tick order of what is handed over. *)
Abbreviation in_tick_order := (StronglySorted (λ t u : TaskWithTimestamp (Task := Task), tick_count t ≤ tick_count u)).

Lemma in_tick_order_app l l' c :
  Forall (λ t, tick_count t = c) l → Forall (λ t, c ≤ tick_count t) l' → in_tick_order l' → in_tick_order (l ++ l').
Proof.
  intros Hl Hl' Hs. induction Hl as [|t l Ht Hl IH]; [done|]. cbn. constructor; [done|].
  apply Forall_app. split.
  - eapply Forall_impl; [exact Hl|]. cbn; lia.
  - eapply Forall_impl; [exact Hl'|]. cbn; lia.
Qed.

Lemma tm_ticks_ready (n : nat) s :
  tm_ready s → tm_current_tick_count s + Z.of_nat n < 2 ^ 64 →
  ∃ s' run, tm_ticks n s = (Ok tt, s') ∧ tm_ready s' ∧
    tm_current_tick_count s' = tm_current_tick_count s + Z.of_nat n ∧ tm_options s' = tm_options s ∧
    tm_trace s' = tm_trace s ++ map task run ∧ tm_pending s ≡ₚ run ++ tm_pending s' ∧ in_tick_order run ∧
    Forall (λ t, tm_current_tick_count s ≤ tick_count t < tm_current_tick_count s + Z.of_nat n) run ∧
    Forall (λ t, tm_current_tick_count s + Z.of_nat n ≤ tick_count t) (tm_pending s').
Proof using Hw0 Hw1 Hw.
  revert s; induction n as [|n IH]; intros s Hr Hov.
  - exists s, []. rewrite Z.add_0_r. cbn. rewrite app_nil_r. split_and!; try done.
    { constructor. }
    apply Forall_forall. intros t Ht. destruct Hr as [_ _ Hc _ _ Htw].
    exact (two_level_future _ _ Hw0 _ _ _ _ Hc Htw Ht).
  - destruct (tm_tick_ready s Hr ltac:(lia)) as (l & s1 & Hit & Hr1 & Hc1 & Ho1 & Htr1 & Hp1 & Hl).
    destruct (IH s1 Hr1 ltac:(lia)) as (s' & run & Hit' & Hr' & Hc' & Ho' & Htr' & Hp & Hso & Hrun & Hrest).
    exists s', (l ++ run). split_and!; [|done|lia|by rewrite Ho'|..].
    + cbn. unfold mbind, M_bind. by rewrite Hit.
    + rewrite Htr', Htr1, map_app. by rewrite app_assoc.
    + by rewrite Hp1, Hp, app_assoc.
    + eapply in_tick_order_app; [done| |done]. eapply Forall_impl; [exact Hrun|]. cbn; lia.
    + apply Forall_app. split; (eapply Forall_impl; [done|]); cbn; lia.
    + eapply Forall_impl; [done|]. cbn; lia.
Qed.

(** The ticks an iteration makes, and how long it sleeps before. *)
Definition pace s : Z :=
  if real_ratio s =? uint32_max then 0 else if ratio_direction s then real_ratio s else 1.
Definition slept s : Z :=
  if real_ratio s =? uint32_max then kMaxSleepDt
  else if ratio_direction s then dt (base_options (tm_options s))
       else dt (base_options (tm_options s)) * real_ratio s.


(** ** Scheduling *)

(** Within the first turn, or within the second level when the quotients
    add up, the insertion is that of the time wheel executor. *)
Lemma tm_insert_same cur ws m t :
  1 ≤ w0 → 0 ≤ cur → two_level w0 w1 cur ws m → cur ≤ tick_count t < cur + w0 * w1 → tick_count t < 2 ^ 64 →
  tick_count t - cur < w0 ∨ cur mod w0 + (tick_count t - cur) mod w0 < w0 →
  tm_insert_at t [w0; w1] ws m (tick_count t - cur) cur = insert_at t [w0; w1] ws m (tick_count t - cur) (tick_count t).
Proof using Hw0 Hw1 Hw.
  intros _ Hc [sc0 sc1 wh0 wh1 mp H0 H1 Hok0 Hok1] Ht Hov Hcarry. cbn [tm_insert_at insert_at].
  rewrite (wrap_small 64 (tick_count t - cur + cur)) by (unfold in_width; lia).
  replace (tick_count t - cur + cur) with (tick_count t) by lia.
  destruct (Z.ltb_spec (tick_count t - cur) w0) as [|Hge]; [done|].
  destruct (Z.eqb_spec w0 0); [done|].
  assert ((tick_count t - cur) / w0 < w1) as Hd by (apply Z.div_lt_upper_bound; lia).
  destruct (Z.ltb_spec ((tick_count t - cur) / w0) w1); [|lia].
  assert ((tick_count t - cur) / w0 + cur / w0 = tick_count t / w0) as Hq.
  { destruct Hcarry as [|Hcarry]; [lia|].
    pose proof (Z.div_mod (tick_count t) w0). pose proof (Z.div_mod cur w0).
    pose proof (Z.div_mod (tick_count t - cur) w0). pose proof (Z.mod_pos_bound (tick_count t) w0).
    pose proof (Z.mod_pos_bound cur w0). pose proof (Z.mod_pos_bound (tick_count t - cur) w0). nia. }
  rewrite Hq, wrap_small; [done|]. unfold in_width.
  pose proof (Z.div_le_upper_bound (tick_count t) w0 (tick_count t) ltac:(lia) ltac:(nia)).
  pose proof (Z.div_pos (tick_count t) w0). lia.
Qed.

Lemma tm_insert_at_scale t sizes ws m d c n ws' m' :
  first_scale n ws → tm_insert_at t sizes ws m d c = Ok (ws', m') → first_scale n ws'.
Proof.
  destruct sizes as [|z sizes]; cbn [tm_insert_at]; [by intros ? [= <- _]|].
  destruct ws as [|w ws]; [done|]. cbn [first_scale]. intros Hs.
  destruct (_ <? _); [by intros [= <- _]|]. destruct (_ =? _); [done|].
  unfold mbind, res_bind. destruct (tm_insert_at _ _ _ _ _ _); [|done..]. by intros [= <- _].
Qed.

(** Scheduling.  Between two iterations, a task whose time has passed is
    handed to the bound executor at once.  One due within the next turn of the
    first level, or within the second level when the remainders of the current
    tick and of the distance add up to less than a turn, is added to the pending
    tasks with its tick, and the timer's invariant is kept. *)
Theorem manipulated_ExecuteAt_schedules s (tp : Z) (t : Task) :
  tm_ready s → tm_start_time_point s ≤ tp < tm_start_time_point s + 2 ^ 64 →
  tm_current_tick_count s * tm_dt_count s < 2 ^ 64 →
  let v := tp - tm_start_time_point s in
  let cur := tm_current_tick_count s in
  let tick := v / tm_dt_count s in
  (v < cur * tm_dt_count s → tm_ExecuteAt tp t s = (Ok tt, tm_set_tick cur (tm_trace s ++ [t]) s)) ∧
  (cur * tm_dt_count s ≤ v → tick < cur + w0 * w1 →
   tick - cur < w0 ∨ cur mod w0 + (tick - cur) mod w0 < w0 →
   ∃ s', tm_ExecuteAt tp t s = (Ok tt, s') ∧ tm_ready s' ∧ tm_pending s' ≡ₚ mkTask tick t :: tm_pending s ∧
     tm_trace s' = tm_trace s).
Proof using Hw0 Hw1 Hw.
  intros [Hsz Hdt Hc [r Hb] Hsc Htw] Htp Hmul v cur tick. unfold tm_ExecuteAt. unfold_monad. cbn -[tm_insert_at].
  rewrite (wrap_small 64 (tp - _)), (wrap_small 64 (_ * _)) by (unfold in_width; nia).
  fold v cur. split; intros Hv.
  - rewrite (proj2 (Z.ltb_lt _ _) Hv). unfold tm_Execute. unfold_monad. cbn. by rewrite Hb.
  - intros Hlt Hcarry. destruct (Z.ltb_spec v (cur * tm_dt_count s)); [lia|].
    destruct (Z.eqb_spec (tm_dt_count s) 0); [lia|].
    pose proof (Z.div_mod v (tm_dt_count s) ltac:(lia)) as Hdm.
    pose proof (Z.mod_pos_bound v (tm_dt_count s) ltac:(lia)) as Hmb. fold tick in Hdm |- *.
    assert (cur ≤ tick) by (apply Z.div_le_lower_bound; lia). assert (tick < 2 ^ 64) by nia.
    rewrite (wrap_small 64 (tick - _)) by (unfold in_width; lia). rewrite Hsz.
    destruct (insert_two_level w0 w1 Hw0 Hw1 cur _ _ (mkTask tick t) Hc Htw) as (ws' & Hi & Htw' & Hp); [cbn; lia|].
    rewrite <-(tm_insert_same cur _ _ (mkTask tick t) Hw0 Hc Htw) in Hi by (cbn; lia). cbn [tick_count] in Hi.
    pose proof (tm_insert_at_scale _ _ _ _ _ _ _ _ _ Hsc Hi) as Hsc'. rewrite Hi. cbn.
    eexists. split; [reflexivity|]. split; [|done]. split; cbn; done || by exists r.
Qed.
End TwoLevels.

(** ** Ratios *)

Lemma log2_uint32 n : 1 ≤ n ≤ uint32_max → 0 ≤ Z.log2 n ≤ 31 ∧ 2 ^ Z.log2 n ≤ n.
Proof.
  intros Hn. unfold uint32_max in Hn. pose proof (Z.log2_spec n ltac:(lia)). split; [|lia]. split; [apply Z.log2_nonneg|].
  assert (Z.log2 n < 32); [|lia]. apply Z.log2_lt_pow2; lia.
Qed.

Lemma to_uint32_double_of n : 1 ≤ n ≤ uint32_max → to_uint32 (double_of n) = Ok n.
Proof.
  intros Hn. destruct (log2_uint32 n Hn) as [Hl _]. destruct n as [|p|p]; [lia| |lia].
  unfold double_of, to_uint32. set (k := 53 - Z.log2 (Zpos p) - 1).
  assert (0 ≤ k) by lia. pose proof (Z.pow_pos_nonneg 2 k ltac:(lia) ltac:(lia)).
  rewrite Z2Pos.id by (rewrite Z.shiftl_mul_pow2 by lia; nia).
  rewrite Z.shiftl_shiftl, Z.add_opp_diag_r, Z.shiftl_0_r by lia.
  destruct (Z.eqb_spec (Zpos p) 0); [lia|]. destruct (Z.leb_spec (Zpos p) uint32_max); [done|lia].
Qed.

Lemma one_le_double_of n : 1 ≤ n ≤ uint32_max → SFleb one (double_of n) = true.
Proof.
  intros Hn. destruct (log2_uint32 n Hn) as [Hl Hp]. destruct n as [|p|p]; [lia| |lia].
  unfold double_of, one, SFleb, SFcompare. cbv zeta.
  destruct (Z.compare_spec (-52) (- (53 - Z.log2 (Zpos p) - 1))) as [He|He|He]; [|done|lia].
  assert (Z.log2 (Zpos p) = 0) as Hz by lia. rewrite Hz.
  assert (Zpos p = 1) as -> by (apply Z.log2_null in Hz; lia). done.
Qed.

(** An integral ratio is read back.  For every [n] from 1 to the largest
    unsigned 32-bit integer, [SetTimeRatio n] succeeds in any state, and
    [GetTimeRatio] then returns [n]; a ratio of zero pauses time and is read back
    as zero. *)
Theorem time_ratio_reads_back (s : TimeManipulatorExecutor) (n : Z) :
  1 ≤ n ≤ uint32_max →
  ∃ s', SetTimeRatio (double_of n) s = (Ok tt, s') ∧ GetTimeRatio s' = double_of n ∧ ratio_direction s' = true ∧
    ∃ s0, SetTimeRatio (S754_zero false) s = (Ok tt, s0) ∧ GetTimeRatio s0 = S754_zero false ∧ pace s0 = 0.
Proof.
  intros Hn. unfold SetTimeRatio. rewrite one_le_double_of by done. rewrite to_uint32_double_of by done.
  unfold_monad. cbn -[double_of]. eexists; split; [reflexivity|]. split; [done|]. split; [done|].
  eexists; split; [reflexivity|]. done.
Qed.
End Manipulator.

(** ** Small executors, with ticks of one microsecond *)

Module ManipulatorDemo.
Abbreviation Executor := (TimeManipulatorExecutor (Task := nat)).
Definition tree_as_double (n : tree) : res double := double_of <$> as_uint64 n.
Definition bound : ExecutorRef := mkExecutorRef "work" true.
Definition config (sizes : list Z) : tree :=
  TMap [("bind_executor", TStr "work"); ("dt_us", TNum 1); ("wheel_size", TSeq (map TNum sizes))].
Definition started (sizes : list Z) : Executor :=
  ((tm_RegisterGetExecutorFunc (λ _, Some bound);; tm_Initialize tree_as_double "manipulated" (Some (config sizes));;
    tm_Start 0) TimeManipulatorExecutor_new).2.
(** [n] ticks, a task [7] scheduled for the tick [k], [m] ticks. *)
Definition schedule_between (sizes : list Z) (n : nat) (k : Z) (m : nat) : res unit * list nat :=
  let '(r, s) := (tm_ticks n;; tm_ExecuteAt (k * 1000) 7%nat;; tm_ticks m) (started sizes) in (r, tm_trace s).
(** [1 / n] set as the ratio, then read. *)
Definition reads_back (n : Z) : bool :=
  let '(_, s) := SetTimeRatio (double_div one (double_of n)) (started [100; 360]) in
  match SFcompare (GetTimeRatio s) (double_div one (double_of n)) with Some Eq => true | _ => false end.

Lemma tm_started_ready : tm_ready 4 3 (started [4; 3]).
Proof.
  destruct (make_wheels_two_level (Task := nat) 4 3 ltac:(lia) ltac:(lia)) as [H _].
  split; [done|by apply Z.leb_le|by apply Z.leb_le|by eexists|done|exact H].
Qed.

(** A task for tick 2, time made to run three times as fast. *)
Definition fast : Executor := ((tm_ExecuteAt 2000 7%nat;; SetTimeRatio (double_of 3)) (started [4; 3])).2.

Lemma fast_ready : tm_ready 4 3 fast.
Proof.
  destruct (insert_two_level 4 3 ltac:(lia) ltac:(lia) 0 (make_wheels 0 1 [4; 3]) (mkTaskMap 1 ∅)
    (mkTask 2 7%nat) ltac:(lia) (proj1 (make_wheels_two_level (Task := nat) 4 3 ltac:(lia) ltac:(lia))) ltac:(zdec)) as (ws' & Hins & Htl & _).
  vm_compute in Hins. injection Hins as <-.
  let f := eval vm_compute in fast in assert (fast = f) as -> by by vm_compute.
  split; [done|by apply Z.leb_le|by apply Z.leb_le|by eexists|done|exact Htl].
Qed.
End ManipulatorDemo.
Import ManipulatorDemo.

(** A task can come a turn early.  The insertion adds the quotients of the
    current tick and of the distance by the size of the first level instead of
    dividing their sum, so that the carry of the remainders is lost: with the
    default sizes, the task that is scheduled at tick 50 for tick 200 is handed
    over in tick 100. *)
Theorem task_comes_a_turn_early :
  schedule_between [100; 360] 50 200 50 = (Ok tt, []) ∧ schedule_between [100; 360] 50 200 51 = (Ok tt, [7%nat]).
Proof. by vm_compute. Qed.

(** A task beyond the wheels breaks the timer.  What the task map gives to
    the last level is put into the slot of its tick modulo the scale of that
    level, the number of ticks of a whole turn of it, and not modulo its size:
    with levels of two and three slots a task for tick 10 makes the fourth tick
    index past the end of the second level. *)
Theorem task_beyond_wheels_out_of_bounds :
  schedule_between [2; 3] 0 10 3 = (Ok tt, []) ∧ schedule_between [2; 3] 0 10 4 = (Undef, []).
Proof. by vm_compute. Qed.

(** Some slow ratios are not what was set.  The inverse of the ratio is
    truncated and not rounded: of the ratios [1 / n] with [n] up to 200, all but
    these are read back as they were set. *)
Theorem slow_ratios_truncated :
  filter (λ n, negb (reads_back n)) (seqZ 1 200) = [93; 99; 105; 117; 123; 186; 198].
Proof. by vm_compute. Qed.

(** ** Witnesses *)


Lemma manipulated_ExecuteAt_schedules_witness :
  ∃ s', tm_ExecuteAt 6000 7%nat (started [4; 3]) = (Ok tt, s') ∧ tm_pending s' ≡ₚ [mkTask 6 7%nat].
Proof.
  destruct (manipulated_ExecuteAt_schedules 4 3 ltac:(lia) ltac:(lia) ltac:(lia) (started [4; 3]) 6000 7%nat
    tm_started_ready ltac:(zdec) ltac:(zdec)) as [_ H].
  destruct (H ltac:(zdec) ltac:(zdec) ltac:(right; zdec)) as (s' & He & _ & Hp & _).
  exists s'. split; [exact He|exact Hp].
Defined.

Lemma time_ratio_reads_back_witness :
  ∃ s', SetTimeRatio (double_of 5) (started [4; 3]) = (Ok tt, s') ∧ GetTimeRatio s' = double_of 5.
Proof.
  destruct (time_ratio_reads_back (started [4; 3]) 5 ltac:(zdec)) as (s' & H & Hg & _).
  by exists s'.
Defined.
