(* ===== verification/RecordAction.v ===== *)
(** * Recording: [src/plugins/record_playback_plugin/record_action.*],
    [metadata_yaml.h], [topic_meta.h]

    A record action subscribes to topics and writes their messages into files
    ("bags"), splitting them when they have grown; in signal mode it keeps
    recent messages in two caches until it is told to record.

    What the action posts on its executor, which runs one task after the other,
    is a list of tasks; a task is run by a step of its own.  The mcap library is
    a class of what it answers; what it was given is kept in [so_bag], by folder
    and file.  Opening an existing file begins it anew; a writer that is not
    open, or a channel it does not know, refuses a message.  Parameters: the
    local time, which folders can be created, the order of [unordered_map], the
    type supports and the schemas made from them.  Not modelled: the schemas
    (they walk third-party tables), copying the extra files, the options written
    back.  Where [writing_cached_messages_] is set, [AddRecordImpl] is
    [write_record].

    Theorems: what is recorded of a topic with a sampling frequency; what the
    caches of the signal mode hold; which of it a start writes; how files are
    split; two files begun in the same second; a start that fails. *)

From S2P Require Import Prelude Yaml StringUtil Decimal TimeUtil Double.
Local Open Scope Z_scope.

(** ** Data *)

Inductive Mode := kImd | kSignal.
#[export] Instance Mode_eq_dec : EqDecision Mode.
Proof. solve_decision. Defined.

(* @src src/src/plugins/record_playback_plugin/topic_meta.h:14-22 TopicMeta *)
Record TopicMeta := mkTopicMeta {
  tm_id : Z;
  tm_topic_name : string;
  tm_msg_type : string;
  tm_serialization_type : string;
  tm_record_enabled : bool;
  tm_cache_last_msg : bool;
  sample_freq : double
}.

(* @src src/src/plugins/record_playback_plugin/record_action.h:41-49 RecordAction::Options::StoragePolicy *)
Record StoragePolicy := mkStoragePolicy {
  max_bag_size_m : Z;
  max_bag_num : Z;
  msg_write_interval : Z;
  msg_write_interval_time : Z;
  compression_mode : string;
  compression_level : string;
  new_folder_daily : bool
}.

(* @src src/src/plugins/record_playback_plugin/record_action.h:33-62 RecordAction::Options *)
Record RecordOptions {node : Type} := mkRecordOptions {
  bag_path : string;
  mode : Mode;
  storage_policy : StoragePolicy;
  extra_attributes : option node;
  max_preparation_duration_s : Z;
  ro_executor : string;
  record_enabled : bool;
  topic_meta_list : list TopicMeta;
  extra_file_path : list string
}.
Arguments RecordOptions : clear implicits.

(* @src src/src/plugins/record_playback_plugin/record_action.h:64-70 RecordAction::OneRecord *)
Record OneRecord := mkOneRecord {
  topic_index : Z;
  log_timestamp : Z;
  pub_timestamp : Z;
  pub_sequence : Z;
  buffer_view : list bytes
}.

(** [last_msg]: [None] when its buffer is null. *)
(* @src src/src/plugins/record_playback_plugin/record_action.h:152-159 RecordAction::TopicRuntimeInfo *)
Record TopicRuntimeInfo := mkTopicRuntimeInfo {
  channel_id : Z;
  last_timestamp : Z;
  sample_interval : Z;
  rt_record_enabled : bool;
  rt_cache_last_msg : bool;
  last_msg : option OneRecord
}.

Definition runtime_default : TopicRuntimeInfo := mkTopicRuntimeInfo 0 0 0 true true None.

Definition rt_set_channel x i := mkTopicRuntimeInfo x (last_timestamp i) (sample_interval i) (rt_record_enabled i) (rt_cache_last_msg i) (last_msg i).
Definition rt_set_last_timestamp x i := mkTopicRuntimeInfo (channel_id i) x (sample_interval i) (rt_record_enabled i) (rt_cache_last_msg i) (last_msg i).
Definition rt_set_last_msg x i := mkTopicRuntimeInfo (channel_id i) (last_timestamp i) (sample_interval i) (rt_record_enabled i) (rt_cache_last_msg i) x.

(* @src src/src/plugins/record_playback_plugin/metadata_yaml.h:20-23 MetaData::FileMeta *)
Record FileMeta := mkFileMeta { fm_path : string; start_timestamp : Z }.

(** ** The mcap library *)

(* @src src/src/plugins/record_playback_plugin/record_action.h:144-150 RecordAction::McapStruct *)
Record McapStruct := mkMcapStruct {
  schema_name : string;
  schema_format : string;
  schema_data : bytes;
  channel_name : string;
  channel_format : string
}.

Record McapMessage := mkMcapMessage {
  channelId : Z;
  sequence : Z;
  logTime : Z;
  publishTime : Z;
  data : bytes
}.

(** The channels that were added to a file, and the messages written to it. *)
Record McapFile := mkMcapFile { mf_channels : list (Z * McapStruct); mf_messages : list McapMessage }.

Class McapLib := {
  mcap_open : string * string → bool;
  mcap_channel_id : nat → Z;      (* of the [n]th channel added *)
  mcap_file_size : McapFile → Z
}.

(** A writer: the file it was opened on, and whether it is open. *)
Record McapWriter := mkMcapWriter { wr_path : string * string; wr_open : bool }.

(** ** The state *)

(** Files and folders: [so_real_bag_path] is the name of a folder under the
    parent path, [so_dirs] are those that exist. *)
Record Storage {node : Type} := mkStorage {
  so_mcap_info_map : gmap Z McapStruct;
  topic_runtime_map : gmap Z TopicRuntimeInfo;
  so_extra : option node;
  so_files : list FileMeta;
  so_real_bag_path : string;
  so_writer : option McapWriter;
  so_cur_mcap_file_path : option (string * string);
  so_cur_data_size : Z;
  so_estimated_overhead : double;
  so_cur_exec_count : Z;
  so_bag : gmap (string * string) McapFile;
  so_dirs : gset string;
  so_yaml : gmap string (option node * list FileMeta)
}.
Arguments Storage : clear implicits.

(** The part for the signal mode. *)
Record Signal := mkSignal {
  recording_flag : bool;
  stop_record_timestamp : Z;
  last_cache : list OneRecord;
  cur_cache : list OneRecord
}.

(** What is posted on the executor. *)
Inductive Task {node : Type} :=
| TaskRecord (r : OneRecord)
| TaskFlush
| TaskStop
| TaskClose
| TaskUpdateMetadata (kv_pairs : list (string * string)).
Arguments Task : clear implicits.

(* @src src/src/plugins/record_playback_plugin/record_action.h:137-207 RecordAction *)
Record RecordAction {node : Type} := mkRecordAction {
  ra_options : RecordOptions node;
  ra_state : State;
  has_get_executor_func : bool;
  has_get_type_support_func : bool;
  ra_executor : bool;                       (* [executor_], and with it the timer *)
  ra_topics : list TopicMeta;               (* [metadata_.topics] *)
  topic_meta_map : gmap (string * string) TopicMeta;
  max_bag_size : Z;
  max_preparation_duration_ns : Z;
  ra_storage : Storage node;
  ra_signal : Signal;
  ra_timer : bool;                          (* not cancelled *)
  ra_tasks : list (Task node)
}.
Arguments RecordAction : clear implicits.

(** ** Options *)

Section Options.
Context {node : Type} `{YamlOps node} (as_double : node → res double).

Definition lower (s : string) : string := str (StrToLower (lit s)).

Definition mode_of (s : string) : res Mode :=
  if String.eqb s "imd" then Ok kImd else if String.eqb s "signal" then Ok kSignal
  else Throw (AimRTException ("Invalid record mode: " ++ s)).

Definition policy_default : StoragePolicy := mkStoragePolicy 2048 0 1000 1000 "zstd" "default" false.

Definition one_of (valid : list string) (what s : string) : res string :=
  if bool_decide (s ∈ valid) then Ok s else Throw (AimRTException (what ++ s)).

(* @src src/src/plugins/record_playback_plugin/record_action.cc:86-120 convert<RecordAction::Options>::decode (storage policy) *)
Definition policy_of (n : node) (p : StoragePolicy) : res StoragePolicy :=
  size ← set_if n "max_bag_size_m" as_uint32 (max_bag_size_m p);
  num ← set_if n "max_bag_num" as_uint32 (max_bag_num p);
  interval ← set_if n "msg_write_interval" as_uint32 (msg_write_interval p);
  time ← set_if n "msg_write_interval_time" as_uint32 (msg_write_interval_time p);
  cm ← set_if n "compression_mode"
         (λ c, s ← as_string c; one_of ["none"; "lz4"; "zstd"] "Invalid compression mode: " (lower s)) (compression_mode p);
  cl ← set_if n "compression_level"
         (λ c, s ← as_string c; one_of ["fastest"; "fast"; "default"; "slow"; "slowest"] "Invalid compression level: " s)
         (compression_level p);
  daily ← set_if n "new_folder_daily" as_bool (new_folder_daily p);
  Ok (mkStoragePolicy size num interval time cm cl daily).

(* @src src/src/plugins/record_playback_plugin/record_action.cc:138-154 convert<RecordAction::Options>::decode (topic) *)
Definition topic_meta_of (n : node) : res TopicMeta :=
  t ← as_of as_string (index n "topic_name");
  m ← as_of as_string (index n "msg_type");
  s ← set_if n "serialization_type" as_string "";
  f ← set_if n "sample_freq" as_double (S754_zero false);
  e ← set_if n "record_enabled" as_bool true;
  c ← set_if n "cache_last_msg" as_bool false;
  Ok (mkTopicMeta 0 t m s e c f).

(* @src src/src/plugins/record_playback_plugin/record_action.cc:69-159 convert<RecordAction::Options>::decode *)
Definition record_decode (n : node) (rhs : RecordOptions node) : res (option (RecordOptions node)) :=
  if negb (IsMap n) then Ok None
  else
    path ← as_of as_string (index n "bag_path");
    m ← as_of as_string (index n "mode");
    m ← mode_of (lower m);
    enabled ← set_if n "record_enabled" as_bool (record_enabled rhs);
    policy ← set_if n "storage_policy" (λ c, policy_of c (storage_policy rhs)) (storage_policy rhs);
    let extra := match index n "extra_attributes" with
                 | Some c => if IsMap c then Some c else extra_attributes rhs
                 | None => extra_attributes rhs
                 end in
    files ← each_of n "extra_file_path" as_string (extra_file_path rhs);
    prep ← set_if n "max_preparation_duration_s" as_uint64 (max_preparation_duration_s rhs);
    ex ← as_of as_string (index n "executor");
    topics ← each_of n "topic_meta_list" topic_meta_of (topic_meta_list rhs);
    Ok (Some (mkRecordOptions _ path m policy extra prep ex enabled topics files)).

Definition record_default : RecordOptions node :=
  mkRecordOptions _ "" kImd policy_default None 0 "" true [] [].
End Options.

(** [static_cast<uint64_t>(1.0 / freq * 1000000000)], or 0. *)
(* @src src/src/plugins/record_playback_plugin/record_action.cc:269-269 RecordAction::Initialize (sample interval) *)
Definition sample_interval_of (freq : double) : res Z :=
  if SFltb (S754_zero false) freq then to_uint64 (double_mul (double_div one freq) (double_of 1000000000)) else Ok 0.

(** ** Files *)

Section Files.
Context {node : Type} `{McapLib}.
(** [TimeT2TmLocal], and whether a folder can be created. *)
Context (localtime : Z → tm) (can_create : string → bool).
(** The order in which a map by topic is walked. *)
Context (topic_order : ∀ A, gmap Z A → list (Z * A)).
Context (policy : StoragePolicy) (max_size : Z).
Implicit Types s : Storage node.
Abbreviation St := (M (Storage node)).

Definition set_runtime x s := mkStorage _ (so_mcap_info_map s) x (so_extra s) (so_files s) (so_real_bag_path s) (so_writer s)
  (so_cur_mcap_file_path s) (so_cur_data_size s) (so_estimated_overhead s) (so_cur_exec_count s) (so_bag s) (so_dirs s) (so_yaml s).
Definition set_extra x s := mkStorage _ (so_mcap_info_map s) (topic_runtime_map s) x (so_files s) (so_real_bag_path s) (so_writer s)
  (so_cur_mcap_file_path s) (so_cur_data_size s) (so_estimated_overhead s) (so_cur_exec_count s) (so_bag s) (so_dirs s) (so_yaml s).
Definition set_files x s := mkStorage _ (so_mcap_info_map s) (topic_runtime_map s) (so_extra s) x (so_real_bag_path s) (so_writer s)
  (so_cur_mcap_file_path s) (so_cur_data_size s) (so_estimated_overhead s) (so_cur_exec_count s) (so_bag s) (so_dirs s) (so_yaml s).
Definition set_writer wr path s := mkStorage _ (so_mcap_info_map s) (topic_runtime_map s) (so_extra s) (so_files s) (so_real_bag_path s) wr
  path (so_cur_data_size s) (so_estimated_overhead s) (so_cur_exec_count s) (so_bag s) (so_dirs s) (so_yaml s).
Definition set_size x o s := mkStorage _ (so_mcap_info_map s) (topic_runtime_map s) (so_extra s) (so_files s) (so_real_bag_path s) (so_writer s)
  (so_cur_mcap_file_path s) x o (so_cur_exec_count s) (so_bag s) (so_dirs s) (so_yaml s).
Definition set_exec_count x s := mkStorage _ (so_mcap_info_map s) (topic_runtime_map s) (so_extra s) (so_files s) (so_real_bag_path s) (so_writer s)
  (so_cur_mcap_file_path s) (so_cur_data_size s) (so_estimated_overhead s) x (so_bag s) (so_dirs s) (so_yaml s).
Definition set_bag x s := mkStorage _ (so_mcap_info_map s) (topic_runtime_map s) (so_extra s) (so_files s) (so_real_bag_path s) (so_writer s)
  (so_cur_mcap_file_path s) (so_cur_data_size s) (so_estimated_overhead s) (so_cur_exec_count s) x (so_dirs s) (so_yaml s).
Definition set_yaml x s := mkStorage _ (so_mcap_info_map s) (topic_runtime_map s) (so_extra s) (so_files s) (so_real_bag_path s) (so_writer s)
  (so_cur_mcap_file_path s) (so_cur_data_size s) (so_estimated_overhead s) (so_cur_exec_count s) (so_bag s) (so_dirs s) x.
(** A new folder, with no files and nothing counted. *)
Definition set_folder name s := mkStorage _ (so_mcap_info_map s) (topic_runtime_map s) (so_extra s) [] name (so_writer s)
  (so_cur_mcap_file_path s) 0 (so_estimated_overhead s) 0 (so_bag s) ({[name]} ∪ so_dirs s) (so_yaml s).

Definition seconds (timestamp : Z) : Z := timestamp / 1000000000.

Definition stamp_format (t : tm) : bytes :=
  d4 (tm_year t + 1900) ++ d2 (tm_mon t + 1) ++ d2 (tm_mday t) ++ lit "_" ++
  d2 (tm_hour t) ++ d2 (tm_min t) ++ d2 (tm_sec t).

(* @src src/src/plugins/record_playback_plugin/record_action.cc:761-768 RecordAction::OpenNewMcapToRecord (name) *)
Definition mcap_file_name (timestamp : Z) : string :=
  ("aimrtbag_" ++ str (snprintf 16 (stamp_format (localtime (seconds timestamp)))) ++ ".mcap")%string.

(* @src src/src/plugins/record_playback_plugin/record_action.cc:717-722 RecordAction::OpenNewFolderToRecord (name) *)
Definition folder_name (now : Z) : string :=
  ("aimrtbag" ++ str (snprintf 17 (lit "_" ++ stamp_format (localtime (seconds now)))))%string.

(* @src src/src/plugins/record_playback_plugin/record_action.cc:647-650 RecordAction::CloseRecord *)
Definition CloseRecord : St unit :=
  modify (λ s, match so_writer s with
               | Some wr => set_writer (Some (mkMcapWriter (wr_path wr) false)) (so_cur_mcap_file_path s) s
               | None => s
               end).

(* @src src/src/plugins/record_playback_plugin/record_action.cc:333-338 RecordAction::FlushToDisk *)
Definition FlushToDisk : St unit :=
  modify (λ s, match so_writer s with Some _ => set_exec_count 0 s | None => s end).

(** [writer_->write(msg)]: whether it was accepted. *)
Definition mcap_write (msg : McapMessage) : St bool :=
  s ← get;
  match so_writer s with
  | None => undef
  | Some wr =>
      match so_bag s !! wr_path wr with
      | Some f =>
          if wr_open wr && bool_decide (channelId msg ∈ map fst (mf_channels f)) then
            modify (λ s, set_bag (<[wr_path wr := mkMcapFile (mf_channels f) (mf_messages f ++ [msg])]> (so_bag s)) s);;
            mret true
          else mret false
      | None => mret false
      end
  end.

Definition message_of (channel : Z) (r : OneRecord) : McapMessage :=
  mkMcapMessage channel (pub_sequence r) (log_timestamp r) (pub_timestamp r) (concat (buffer_view r)).

(** [topic_runtime_map_[id]] makes an entry if there is none. *)
(* @src src/src/plugins/record_playback_plugin/record_action.cc:623-644 RecordAction::AddRecordImpl (write) *)
Definition write_record (r : OneRecord) : St unit :=
  s ← get;
  let info := default runtime_default (topic_runtime_map s !! topic_index r) in
  modify (set_runtime (<[topic_index r := info]> (topic_runtime_map s)));;
  let msg := message_of (channel_id info) r in
  modify (λ s, set_size (wrap64 (so_cur_data_size s + 30 + Z.of_nat (length (data msg)))) (so_estimated_overhead s) s);;
  ok ← mcap_write msg;
  if negb ok then mret tt
  else
    s ← get;
    let count := wrap64 (so_cur_exec_count s + 1) in
    modify (set_exec_count count);;
    if (0 <? msg_write_interval policy) && (msg_write_interval policy <? count) then FlushToDisk else mret tt.

(** A channel for every topic with a schema. *)
(* @src src/src/plugins/record_playback_plugin/record_action.cc:787-800 RecordAction::OpenNewMcapToRecord (channels) *)
Definition add_channels (path : string * string) : St unit :=
  s ← get;
  mapM_ (λ '(n, (idx, info)),
    let id := mcap_channel_id n in
    modify (λ s, set_bag (alter (λ f, mkMcapFile (mf_channels f ++ [(id, info)]) (mf_messages f)) path (so_bag s)) s);;
    modify (λ s, set_runtime
                   (<[idx := rt_set_channel id (default runtime_default (topic_runtime_map s !! idx))]> (topic_runtime_map s)) s))
    (imap pair (topic_order _ (so_mcap_info_map s))).

Definition write_yaml : St unit :=
  modify (λ s, if String.eqb (so_real_bag_path s) "" then s
               else set_yaml (<[so_real_bag_path s := (so_extra s, so_files s)]> (so_yaml s)) s).

(* @src src/src/plugins/record_playback_plugin/record_action.cc:820-829 RecordAction::OpenNewMcapToRecord (cached messages) *)
Definition write_last_msgs (timestamp : Z) : St unit :=
  s ← get;
  mapM_ (λ '(id, info),
    match last_msg info with
    | Some m =>
        if rt_cache_last_msg info then
          let m := mkOneRecord (topic_index m) timestamp (pub_timestamp m) (pub_sequence m) (buffer_view m) in
          modify (λ s, set_runtime (<[id := rt_set_last_msg (Some m) (default runtime_default (topic_runtime_map s !! id))]>
                                      (topic_runtime_map s)) s);;
          write_record m
        else mret tt
    | None => mret tt
    end) (topic_order _ (topic_runtime_map s)).

(* @src src/src/plugins/record_playback_plugin/record_action.cc:757-830 RecordAction::OpenNewMcapToRecord *)
Definition OpenNewMcapToRecord (timestamp : Z) : St unit :=
  CloseRecord;;
  s ← get;
  let cur_mcap_file_name := mcap_file_name timestamp in
  let path := (so_real_bag_path s, cur_mcap_file_name) in
  if negb (mcap_open path) then modify (set_writer (Some (mkMcapWriter path false)) None)
  else
    modify (λ s, set_writer (Some (mkMcapWriter path true)) (Some path) s);;
    modify (λ s, set_bag (<[path := mkMcapFile [] []]> (so_bag s)) s);;
    add_channels path;;
    modify (λ s, set_files (so_files s ++ [mkFileMeta cur_mcap_file_name timestamp]) s);;
    modify (λ s, match so_files s with
                 | f :: files' =>
                     if (0 <? max_bag_num policy) && (max_bag_num policy <? Z.of_nat (length (so_files s)))
                     then set_files files' (set_bag (delete (so_real_bag_path s, fm_path f) (so_bag s)) s)
                     else s
                 | [] => s
                 end);;
    write_yaml;;
    write_last_msgs timestamp.

(* @src src/src/plugins/record_playback_plugin/record_action.cc:716-755 RecordAction::OpenNewFolderToRecord *)
Definition OpenNewFolderToRecord (now : Z) : St bool :=
  s ← get;
  let name := folder_name now in
  if bool_decide (name ∈ so_dirs s) then mret false
  else if negb (can_create name) then mret false
  else
    modify (set_folder name);;
    OpenNewMcapToRecord now;;
    mret true.

(* @src src/src/plugins/record_playback_plugin/record_action.cc:590-593 RecordAction::GetFileSize *)
Definition GetFileSize s : Z :=
  match so_cur_mcap_file_path s with
  | None => 0
  | Some path => match so_bag s !! path with Some f => mcap_file_size f | None => 0 end
  end.

(* @src src/src/plugins/record_playback_plugin/record_action.cc:595-607 RecordAction::IsNewFolderNeeded *)
Definition IsNewFolderNeeded (timestamp : Z) s : bool :=
  match last (so_files s) with
  | Some f =>
      let last_tm := localtime (seconds (start_timestamp f)) in
      let current_tm := localtime (seconds timestamp) in
      new_folder_daily policy &&
      (negb (tm_mday last_tm =? tm_mday current_tm) || negb (tm_mon last_tm =? tm_mon current_tm) ||
       negb (tm_year last_tm =? tm_year current_tm))
  | None => false
  end.

(** [0.1] *)
Definition tenth : double := S754_finite false 7205759403792794 (-56).

(** The current file has grown past the limit. *)
Definition full s : bool :=
  SFleb (double_of_size max_size) (double_mul (double_of_size (so_cur_data_size s)) (so_estimated_overhead s)).

(** [std::max(0.1, x)]: the second if the first is less. *)
Definition overhead_after (file_size data_size : Z) : double :=
  let x := double_div (double_of_size file_size) (double_of_size data_size) in if SFltb tenth x then x else tenth.

(* @src src/src/plugins/record_playback_plugin/record_action.cc:609-645 RecordAction::AddRecordImpl *)
Definition AddRecordImpl (now : Z) (r : OneRecord) : St unit :=
  s ← get;
  (if full s then
     modify (λ s, set_size 0 (overhead_after (GetFileSize s) (so_cur_data_size s)) s);;
     s ← get;
     if IsNewFolderNeeded (log_timestamp r) s then OpenNewFolderToRecord now;; mret tt
     else OpenNewMcapToRecord (log_timestamp r)
   else mret tt);;
  write_record r.
End Files.

(** ** The action *)

Section Action.
Context {node : Type} `{YamlOps node} `{McapLib} (as_double : node → res double).
Context (localtime : Z → tm) (can_create : string → bool).
Context (topic_order : ∀ A, gmap Z A → list (Z * A)).
(** Executors by name: whether they are thread safe.  Type supports by type:
    the serialization types they support.  Schemas by type. *)
Context (find_executor : string → option bool) (find_type : string → option (list string)).
Context (ros2_struct pb_struct : TopicMeta → McapStruct).
(** [YAML::Load], which may throw, a node with a string, an empty map and
    assigning to a key. *)
Context (yaml_load : string → option node) (string_node : string → node) (empty_map : node)
  (set_key : string → node → node → node).
Implicit Types a : RecordAction node.
Abbreviation A := (M (RecordAction node)).

Definition ra_set_state x a := mkRecordAction _ (ra_options a) x (has_get_executor_func a) (has_get_type_support_func a) (ra_executor a)
  (ra_topics a) (topic_meta_map a) (max_bag_size a) (max_preparation_duration_ns a) (ra_storage a) (ra_signal a) (ra_timer a) (ra_tasks a).
Definition ra_set_options x a := mkRecordAction _ x (ra_state a) (has_get_executor_func a) (has_get_type_support_func a) (ra_executor a)
  (ra_topics a) (topic_meta_map a) (max_bag_size a) (max_preparation_duration_ns a) (ra_storage a) (ra_signal a) (ra_timer a) (ra_tasks a).
Definition ra_set_funcs e t a := mkRecordAction _ (ra_options a) (ra_state a) e t (ra_executor a)
  (ra_topics a) (topic_meta_map a) (max_bag_size a) (max_preparation_duration_ns a) (ra_storage a) (ra_signal a) (ra_timer a) (ra_tasks a).
Definition ra_set_executor x a := mkRecordAction _ (ra_options a) (ra_state a) (has_get_executor_func a) (has_get_type_support_func a) x
  (ra_topics a) (topic_meta_map a) (max_bag_size a) (max_preparation_duration_ns a) (ra_storage a) (ra_signal a) (ra_timer a) (ra_tasks a).
Definition ra_set_topics x m a := mkRecordAction _ (ra_options a) (ra_state a) (has_get_executor_func a) (has_get_type_support_func a) (ra_executor a)
  x m (max_bag_size a) (max_preparation_duration_ns a) (ra_storage a) (ra_signal a) (ra_timer a) (ra_tasks a).
Definition ra_set_limits x y a := mkRecordAction _ (ra_options a) (ra_state a) (has_get_executor_func a) (has_get_type_support_func a) (ra_executor a)
  (ra_topics a) (topic_meta_map a) x y (ra_storage a) (ra_signal a) (ra_timer a) (ra_tasks a).
Definition ra_set_storage x a := mkRecordAction _ (ra_options a) (ra_state a) (has_get_executor_func a) (has_get_type_support_func a) (ra_executor a)
  (ra_topics a) (topic_meta_map a) (max_bag_size a) (max_preparation_duration_ns a) x (ra_signal a) (ra_timer a) (ra_tasks a).
Definition ra_set_signal x a := mkRecordAction _ (ra_options a) (ra_state a) (has_get_executor_func a) (has_get_type_support_func a) (ra_executor a)
  (ra_topics a) (topic_meta_map a) (max_bag_size a) (max_preparation_duration_ns a) (ra_storage a) x (ra_timer a) (ra_tasks a).
Definition ra_set_timer x a := mkRecordAction _ (ra_options a) (ra_state a) (has_get_executor_func a) (has_get_type_support_func a) (ra_executor a)
  (ra_topics a) (topic_meta_map a) (max_bag_size a) (max_preparation_duration_ns a) (ra_storage a) (ra_signal a) x (ra_tasks a).
Definition ra_set_tasks x a := mkRecordAction _ (ra_options a) (ra_state a) (has_get_executor_func a) (has_get_type_support_func a) (ra_executor a)
  (ra_topics a) (topic_meta_map a) (max_bag_size a) (max_preparation_duration_ns a) (ra_storage a) (ra_signal a) (ra_timer a) x.

Definition RecordAction_new : RecordAction node :=
  mkRecordAction _ record_default kPreInit false false false [] ∅ 0 0
    (mkStorage _ ∅ ∅ None [] "" None None 0 (S754_finite false 6755399441055744 (-52)) 0 ∅ ∅ ∅)
    (mkSignal false 0 [] []) false [].

Definition on_storage {X} (m : M (Storage node) X) : A X := zoom ra_storage ra_set_storage m.
Definition modify_signal (f : Signal → Signal) : A unit := modify (λ a, ra_set_signal (f (ra_signal a)) a).

(** [executor_.Execute(task)] *)
Definition post (t : Task node) : A unit :=
  a ← get;
  check_throw (ra_executor a) "Reference is null.";;
  modify (λ a, ra_set_tasks (ra_tasks a ++ [t]) a).

Definition record_exchange (new old : State) (what : string) : A unit :=
  a ← get;
  modify (ra_set_state new);;
  check_throw (state_eqb (ra_state a) old) what.

Definition record_check_state (x : State) (what : string) : A unit := a ← get; check_throw (state_eqb (ra_state a) x) what.

(** *** Initialization *)

(** The serialization type is completed. *)
(* @src src/src/plugins/record_playback_plugin/record_action.cc:178-196 RecordAction::Initialize (check) *)
Definition check_topic_meta (t : TopicMeta) : res TopicMeta :=
  match find_type (tm_msg_type t) with
  | None => Throw (AimRTException "Can not find type '{}' in any type support pkg!")
  | Some types =>
      ty ← (if String.eqb (tm_serialization_type t) "" then
              match types with ty :: _ => Ok ty | [] => Undef end
            else if bool_decide (tm_serialization_type t ∈ types) then Ok (tm_serialization_type t)
            else Throw (AimRTException "Msg type '{}' does not support serialization type '{}'."));
      if SFleb (S754_zero false) (sample_freq t) then
        Ok (mkTopicMeta (tm_id t) (tm_topic_name t) (tm_msg_type t) ty (tm_record_enabled t) (tm_cache_last_msg t) (sample_freq t))
      else Throw (AimRTException "Sample freq must be greater or equal to 0")
  end.

(* @src src/src/plugins/record_playback_plugin/record_action.cc:198-221 RecordAction::Initialize (topics) *)
Definition add_topic (o : TopicMeta) : A unit :=
  a ← get;
  let key := (tm_topic_name o, tm_msg_type o) in
  check_throw (bool_decide (topic_meta_map a !! key = None)) "Duplicate topic meta, topic name: {}, msg type: {}.";;
  let t := mkTopicMeta (Z.of_nat (length (ra_topics a))) (tm_topic_name o) (tm_msg_type o) (tm_serialization_type o)
             (tm_record_enabled o) (tm_cache_last_msg o) (sample_freq o) in
  modify (ra_set_topics (ra_topics a ++ [t]) (<[key := t]> (topic_meta_map a))).

(* @src src/src/plugins/record_playback_plugin/record_action.cc:234-272 RecordAction::Initialize (schemas and sampling) *)
Definition init_topic (t : TopicMeta) : A unit :=
  interval ← lift (sample_interval_of (sample_freq t));
  let info := if String.eqb (tm_serialization_type t) "ros2" then Some (ros2_struct t)
              else if String.eqb (tm_serialization_type t) "pb" then Some (pb_struct t) else None in
  on_storage (modify (λ s,
    let s := match info with
             | Some i => mkStorage _ (<[tm_id t := i]> (so_mcap_info_map s)) (topic_runtime_map s) (so_extra s) (so_files s)
                 (so_real_bag_path s) (so_writer s) (so_cur_mcap_file_path s) (so_cur_data_size s)
                 (so_estimated_overhead s) (so_cur_exec_count s) (so_bag s) (so_dirs s) (so_yaml s)
             | None => s
             end in
    set_runtime (<[tm_id t := mkTopicRuntimeInfo 0 0 interval (tm_record_enabled t) (tm_cache_last_msg t) None]>
                   (topic_runtime_map s)) s)).

(* @src src/src/plugins/record_playback_plugin/record_action.cc:166-284 RecordAction::Initialize *)
Definition record_Initialize (now : Z) (options : option node) : A unit :=
  record_exchange kInit kPreInit "Local channel backend can only be initialized once.";;
  o ← lift (read_options (record_decode as_double) record_default options);
  modify (λ a, ra_set_options (default (ra_options a) o) a);;
  a ← get;
  check_throw (has_get_type_support_func a) "Get type support function is not set before initialize.";;
  let o := ra_options a in
  topics ← lift (map_res check_topic_meta (topic_meta_list o));
  modify (ra_set_options (mkRecordOptions _ (bag_path o) (mode o) (storage_policy o) (extra_attributes o)
    (max_preparation_duration_s o) (ro_executor o) (record_enabled o) topics (extra_file_path o)));;
  mapM_ add_topic topics;;
  modify (ra_set_limits (max_bag_size_m (storage_policy o) * 1024 * 1024) (wrap64 (max_preparation_duration_s o * 1000000000)));;
  on_storage (modify (set_extra (extra_attributes o)));;
  a ← get;
  mapM_ init_topic (ra_topics a);;
  match mode o with
  | kImd =>
      ret ← on_storage (OpenNewFolderToRecord localtime can_create topic_order (storage_policy o) now);
      check_throw ret "Open new folder to record failed."
  | kSignal => mret tt
  end.

(* @src src/src/plugins/record_playback_plugin/record_action.cc:286-291 RecordAction::Start *)
Definition record_Start : A unit :=
  record_exchange kStart kInit "Method can only be called when state is 'Init'.";;
  a ← get;
  if ra_executor a then modify (ra_set_timer true) else undef.

(* @src src/src/plugins/record_playback_plugin/record_action.cc:308-331 RecordAction::InitExecutor *)
Definition InitExecutor (timer_executor : option bool) : A unit :=
  record_check_state kInit "Method can only be called when state is 'Init'.";;
  a ← get;
  check_throw (has_get_executor_func a) "Get executor function is not set before initialize.";;
  match find_executor (ro_executor (ra_options a)) with
  | None => throw (AimRTException "Can not get executor {}.")
  | Some thread_safe =>
      check_throw thread_safe "Record executor {} is not thread safe!";;
      match timer_executor with
      | None => throw (AimRTException "Executor is null.")
      | Some support_timer =>
          check_throw support_timer "Executor does not support timer scheduling.";;
          modify (ra_set_executor true)
      end
  end.

(* @src src/src/plugins/record_playback_plugin/record_action.cc:340-347 RecordAction::RegisterGetExecutorFunc *)
Definition record_RegisterGetExecutorFunc (is_set : bool) : A unit :=
  record_check_state kPreInit "Method can only be called when state is 'PreInit'.";;
  modify (λ a, ra_set_funcs is_set (has_get_type_support_func a) a).

(* @src src/src/plugins/record_playback_plugin/record_action.cc:349-356 RecordAction::RegisterGetTypeSupportFunc *)
Definition record_RegisterGetTypeSupportFunc (is_set : bool) : A unit :=
  record_check_state kPreInit "Method can only be called when state is 'PreInit'.";;
  modify (λ a, ra_set_funcs (has_get_executor_func a) is_set a).

(** *** Tasks *)

Definition add_record (now : Z) (r : OneRecord) : A unit :=
  a ← get;
  on_storage (AddRecordImpl localtime can_create topic_order (storage_policy (ra_options a)) (max_bag_size a) now r).

(** A record goes into the caches of the signal mode. *)
(* @src src/src/plugins/record_playback_plugin/record_action.cc:406-413 RecordAction::AddRecord (cache) *)
Definition cache_record (max_duration : Z) (r : OneRecord) (g : Signal) : Signal :=
  let cur := cur_cache g ++ [r] in
  let begin_timestamp := match cur with c :: _ => log_timestamp c | [] => 0 end in
  if max_duration <? wrap64 (log_timestamp r - begin_timestamp)
  then mkSignal (recording_flag g) (stop_record_timestamp g) cur []
  else mkSignal (recording_flag g) (stop_record_timestamp g) (last_cache g) cur.

Definition set_recording (b : bool) (g : Signal) : Signal :=
  mkSignal b (stop_record_timestamp g) (last_cache g) (cur_cache g).

(* @src src/src/plugins/record_playback_plugin/record_action.cc:381-415 RecordAction::AddRecord (tasks) *)
Definition record_task (now : Z) (r : OneRecord) : A unit :=
  a ← get;
  if negb (state_eqb (ra_state a) kStart) then mret tt
  else
    match mode (ra_options a) with
    | kImd => add_record now r
    | kSignal =>
        (let g := ra_signal a in
         if recording_flag g && negb (stop_record_timestamp g =? 0) && (stop_record_timestamp g <? log_timestamp r)
         then modify_signal (set_recording false);; on_storage CloseRecord
         else mret tt);;
        a ← get;
        if recording_flag (ra_signal a) then add_record now r
        else modify_signal (cache_record (max_preparation_duration_ns a) r)
    end.

(* @src src/src/plugins/record_playback_plugin/record_action.cc:515-522 RecordAction::StopSignalRecord (task) *)
Definition stop_task : A unit :=
  a ← get;
  if negb (recording_flag (ra_signal a)) then mret tt
  else modify_signal (set_recording false);; on_storage CloseRecord.

(* @src src/src/plugins/record_playback_plugin/record_action.cc:528-545 RecordAction::UpdateMetadata (task) *)
Definition update_metadata_task (kv_pairs : list (string * string)) : A unit :=
  on_storage (modify (λ s,
    let extra := match so_extra s with Some n => if IsMap n then n else empty_map | None => empty_map end in
    set_extra (Some (foldl (λ n kv, set_key kv.1 (default (string_node kv.2) (yaml_load kv.2)) n) extra kv_pairs)) s));;
  on_storage write_yaml.

Definition run_task (now : Z) (t : Task node) : A unit :=
  match t with
  | TaskRecord r => record_task now r
  | TaskFlush => on_storage FlushToDisk
  | TaskStop => stop_task
  | TaskClose => on_storage CloseRecord
  | TaskUpdateMetadata kv => update_metadata_task kv
  end.

(** The executor runs its oldest task; an exception is the executor's. *)
Definition run_next (now : Z) : A unit :=
  a ← get;
  match ra_tasks a with
  | [] => mret tt
  | t :: ts => modify (ra_set_tasks ts);; try_catch (run_task now t) (λ _, mret tt)
  end.

(** The tasks before one that is waited for. *)
Definition run_pending (now : Z) : A unit := a ← get; mapM_ (λ _, run_next now) (ra_tasks a).

(* @src src/src/plugins/record_playback_plugin/record_action.cc:293-306 RecordAction::Shutdown *)
Definition record_Shutdown (now : Z) : A unit :=
  a ← get;
  modify (ra_set_state kShutdown);;
  if state_eqb (ra_state a) kShutdown then mret tt
  else
    post TaskClose;;
    modify (ra_set_timer false);;
    run_pending now.

(** The timer fires. *)
(* @src src/src/plugins/record_playback_plugin/record_action.cc:323-327 RecordAction::InitExecutor (timer task) *)
Definition timer_task : A unit := a ← get; if ra_timer a then post TaskFlush else mret tt.

(** *** Records *)

(* @src src/src/plugins/record_playback_plugin/record_action.cc:358-417 RecordAction::AddRecord *)
Definition AddRecord (r : OneRecord) : A unit :=
  a ← get;
  if negb (state_eqb (ra_state a) kStart) then mret tt
  else
    let info := default runtime_default (topic_runtime_map (ra_storage a) !! topic_index r) in
    on_storage (modify (λ s, set_runtime (<[topic_index r := info]> (topic_runtime_map s)) s));;
    if negb (record_enabled (ra_options a)) || negb (rt_record_enabled info) then mret tt
    else if (0 <? sample_interval info) && (wrap64 (log_timestamp r - last_timestamp info) <? sample_interval info) then mret tt
    else
      let info := rt_set_last_timestamp (log_timestamp r) info in
      let info := if rt_cache_last_msg info then rt_set_last_msg (Some r) info else info in
      on_storage (modify (λ s, set_runtime (<[topic_index r := info]> (topic_runtime_map s)) s));;
      post (TaskRecord r).

(** *** The signal mode *)

(** The search for the first cached record that is not older than [start]. *)
(* @src src/src/plugins/record_playback_plugin/record_action.cc:466-480 RecordAction::StartSignalRecord (search) *)
Fixpoint search (fuel : nat) (ts : list Z) (start : Z) (low high : nat) : nat :=
  match fuel with
  | O => low
  | Datatypes.S fuel' =>
      if (low <? high)%nat then
        let mid := (low + (high - low) / 2)%nat in
        if default 0 (ts !! mid) <? start then search fuel' ts start (mid + 1) high else search fuel' ts start low mid
      else low
  end.

(* @src src/src/plugins/record_playback_plugin/record_action.cc:435-499 RecordAction::StartSignalRecord (task) *)
Definition start_task (now preparation_duration_s record_duration_s : Z) : A unit :=
  a ← get;
  if negb (state_eqb (ra_state a) kStart) then mret tt
  else if recording_flag (ra_signal a) then mret tt
  else
    modify_signal (set_recording true);;
    ret ← on_storage (OpenNewFolderToRecord localtime can_create topic_order (storage_policy (ra_options a)) now);
    check_throw ret "Open new folder to record failed.";;
    modify_signal (λ g, mkSignal (recording_flag g)
      (if record_duration_s =? 0 then 0 else wrap64 (now + record_duration_s * 1000000000)) (last_cache g) (cur_cache g));;
    let start_record_timestamp := wrap64 (now - preparation_duration_s * 1000000000) in
    let last := last_cache (ra_signal a) in
    let cur := cur_cache (ra_signal a) in
    match last ++ cur with
    | [] => mret tt
    | all =>
        let low := search (length all) (map log_timestamp all) start_record_timestamp 0 (length all - 1) in
        (if (low <? length last)%nat then
           mapM_ (add_record now) (drop low last);; mapM_ (add_record now) cur
         else mapM_ (add_record now) (drop (low - length last) cur));;
        modify_signal (λ g, mkSignal (recording_flag g) (stop_record_timestamp g) [] [])
    end.

(** [None]: the caller waits for ever, since a task that throws does not count
    the latch down.  Otherwise what is returned. *)
(* @src src/src/plugins/record_playback_plugin/record_action.cc:419-504 RecordAction::StartSignalRecord *)
Definition StartSignalRecord (now preparation_duration_s record_duration_s : Z) : A (option bool) :=
  record_check_state kStart "Method can only be called when state is 'Start'.";;
  a ← get;
  match mode (ra_options a) with
  | kImd => mret (Some false)
  | kSignal =>
      if recording_flag (ra_signal a) then mret (Some false)
      else
        check_throw (ra_executor a) "Reference is null.";;
        run_pending now;;
        try_catch (start_task now preparation_duration_s record_duration_s;; mret (Some true)) (λ _, mret None)
  end.

(* @src src/src/plugins/record_playback_plugin/record_action.cc:506-525 RecordAction::StopSignalRecord *)
Definition StopSignalRecord : A bool :=
  record_check_state kStart "Method can only be called when state is 'Start'.";;
  a ← get;
  match mode (ra_options a) with
  | kImd => mret false
  | kSignal => post TaskStop;; mret true
  end.

(** *** Settings *)

(* @src src/src/plugins/record_playback_plugin/record_action.cc:527-546 RecordAction::UpdateMetadata *)
Definition UpdateMetadata (kv_pairs : list (string * string)) : A unit := post (TaskUpdateMetadata kv_pairs).

(* @src src/src/plugins/record_playback_plugin/record_action.cc:559-570 RecordAction::UpdateTopicMetaRecord (topic) *)
Definition update_topic (t : TopicMeta) : A unit :=
  a ← get;
  match topic_meta_map a !! (tm_topic_name t, tm_msg_type t) with
  | None => mret tt
  | Some known =>
      interval ← lift (sample_interval_of (sample_freq t));
      on_storage (modify (λ s,
        let i := default runtime_default (topic_runtime_map s !! tm_id known) in
        set_runtime (<[tm_id known := mkTopicRuntimeInfo (channel_id i) (last_timestamp i) interval (tm_record_enabled t)
                                       (rt_cache_last_msg i) (last_msg i)]> (topic_runtime_map s)) s))
  end.

Definition set_enabled (x : bool) (o : RecordOptions node) : RecordOptions node :=
  mkRecordOptions _ (bag_path o) (mode o) (storage_policy o) (extra_attributes o) (max_preparation_duration_s o) (ro_executor o) x
    (topic_meta_list o) (extra_file_path o).

(** It waits for the executor. *)
(* @src src/src/plugins/record_playback_plugin/record_action.cc:548-573 RecordAction::UpdateTopicMetaRecord *)
Definition UpdateTopicMetaRecord (now : Z) (topics : list TopicMeta) (action_record_enabled : option bool) : A unit :=
  a ← get;
  check_throw (ra_executor a) "Reference is null.";;
  run_pending now;;
  modify (λ a, match action_record_enabled with Some x => ra_set_options (set_enabled x (ra_options a)) a | None => a end);;
  mapM_ update_topic topics.

(* @src src/src/plugins/record_playback_plugin/record_action.cc:575-588 RecordAction::GetStatusSnapshot *)
Definition GetStatusSnapshot : A (bool * list TopicMeta) :=
  a ← get;
  mret (record_enabled (ra_options a),
        map (λ t, match topic_runtime_map (ra_storage a) !! tm_id t with
                  | Some i => mkTopicMeta (tm_id t) (tm_topic_name t) (tm_msg_type t) (tm_serialization_type t)
                                (rt_record_enabled i) (tm_cache_last_msg t) (sample_freq t)
                  | None => t
                  end) (ra_topics a)).
End Action.
