(* ===== verification/RecordTheory.v ===== *)
(** * Theorems about recording

    [Cache]: what the caches of the signal mode hold, and what a start writes
    of them.  [Sampling]: what is recorded of a topic with a frequency.
    [Splitting]: how a file is replaced by the next one, and the starts that
    fail. *)

From S2P Require Import Prelude Yaml StringUtil Decimal TimeUtil Double RecordAction.
From stdpp Require Import sorting.
Local Open Scope Z_scope.

Abbreviation not_later := (λ r r', log_timestamp r ≤ log_timestamp r').

(** Records in the order of their times, which are in range. *)
Definition in_order (rs : list OneRecord) : Prop :=
  StronglySorted not_later rs ∧
  Forall (λ r, in_width 64 (log_timestamp r)) rs.

Lemma in_order_app_inv rs rs' : in_order (rs ++ rs') →
  in_order rs ∧ in_order rs' ∧ ∀ r r', r ∈ rs → r' ∈ rs' → log_timestamp r ≤ log_timestamp r'.
Proof.
  intros [Hs Hw]. apply Forall_app in Hw as [Hw Hw']. apply StronglySorted_app in Hs as (Hle & Hs & Hs').
  by split; [split|split; [split|]].
Qed.

Lemma in_order_filter (P : OneRecord → Prop) `{∀ r, Decision (P r)} rs : in_order rs → in_order (filter P rs).
Proof.
  intros [Hs Hw]. split.
  - clear Hw. induction Hs as [|r rs Hs IH Hr]; [constructor|]. rewrite filter_cons. case_decide; [|done].
    constructor; [done|]. apply Forall_forall. intros x [_ Hx]%list_elem_of_filter. by eapply Forall_forall in Hr.
  - apply Forall_forall. intros x [_ Hx]%list_elem_of_filter. by eapply Forall_forall in Hw.
Qed.

(** ** The signal mode *)

Section Cache.
Context (max_duration : Z) (Hmax : in_width 64 max_duration).

(** The caches are the end of what was seen; what was dropped is older than
    the newest by more than the duration, what is in the second cache is not. *)
Definition cache_ok (seen : list OneRecord) (g : Signal) : Prop :=
  ∃ dropped, seen = dropped ++ last_cache g ++ cur_cache g ∧
    ∀ newest, last seen = Some newest →
      (∀ d, d ∈ dropped → log_timestamp d + max_duration < log_timestamp newest) ∧
      (∀ r, r ∈ cur_cache g → log_timestamp newest - log_timestamp r ≤ max_duration).

Lemma cache_record_ok seen r g :
  in_order (seen ++ [r]) → cache_ok seen g → cache_ok (seen ++ [r]) (cache_record max_duration r g).
Proof.
  intros Hord (dropped & Hseen & Hok). destruct (in_order_app_inv _ _ Hord) as ([_ Hw] & [_ Hwr] & Hle).
  apply Forall_inv in Hwr.
  assert (∀ d, d ∈ dropped → log_timestamp d + max_duration < log_timestamp r) as Hdropped.
  { intros d Hd. assert (d ∈ seen) as Hds by (rewrite Hseen; apply elem_of_app; by left).
    destruct (last seen) as [n|] eqn:Hn; [|apply last_None in Hn; rewrite Hn in Hds; by inversion Hds].
    pose proof (proj1 (Hok n eq_refl) d Hd). pose proof (Hle n r (last_Some_elem_of _ _ Hn) ltac:(left)). lia. }
  unfold cache_record.
  destruct (cur_cache g) as [|c cur] eqn:Hcur; cbn [app].
  - replace (log_timestamp r - log_timestamp r) with 0 by lia. rewrite wrap_small by (split; lia).
    replace (max_duration <? 0) with false by (symmetry; apply Z.ltb_ge; apply Hmax).
    exists dropped. cbn. rewrite Hseen, app_nil_r, last_snoc, <-app_assoc. split; [done|].
    intros n [= <-]. split; [done|]. intros x Hx. apply list_elem_of_singleton in Hx as ->. destruct Hmax. lia.
  - assert (log_timestamp c ≤ log_timestamp r) as Hcr.
    { apply Hle; [|left]. rewrite Hseen. apply elem_of_app; right. apply elem_of_app; right. left. }
    assert (in_width 64 (log_timestamp c)) as Hwc.
    { rewrite Forall_forall in Hw. apply Hw. rewrite Hseen. apply elem_of_app; right. apply elem_of_app; right. left. }
    rewrite wrap_small by (unfold in_width in *; lia).
    destruct (Z.ltb_spec max_duration (log_timestamp r - log_timestamp c)) as [Hlt|Hge].
    + exists (dropped ++ last_cache g). cbn. rewrite Hseen, last_snoc, app_nil_r, <-!app_assoc. split; [done|].
      intros n [= <-]. split; [|by intros x Hx; inversion Hx].
      intros d Hd. apply elem_of_app in Hd as [Hd|Hd]; [by apply Hdropped|].
      destruct Hord as [Hs _]. rewrite Hseen, <-!app_assoc in Hs.
      assert (log_timestamp d ≤ log_timestamp c); [|lia]. apply StronglySorted_app_1_r in Hs.
      apply (StronglySorted_app_1_elem_of not_later _ _ d c Hs Hd). left.
    + exists dropped. cbn. rewrite Hseen, last_snoc, <-!app_assoc. split; [done|].
      intros n [= <-]. split; [done|]. intros x Hx.
      assert (log_timestamp c ≤ log_timestamp x); [|lia].
      destruct Hord as [Hs _]. rewrite Hseen, <-!app_assoc in Hs. do 2 apply StronglySorted_app_1_r in Hs.
      inversion Hs as [|? ? _ Hall]; subst. rewrite Forall_forall in Hall.
      apply elem_of_cons in Hx as [->|Hx]; [lia|]. by apply Hall.
Qed.

Lemma cache_records_ok rs seen g :
  in_order (seen ++ rs) → cache_ok seen g → cache_ok (seen ++ rs) (foldl (λ g r, cache_record max_duration r g) g rs).
Proof.
  revert seen g. induction rs as [|r rs IH]; intros seen g Hord Hok; [by rewrite app_nil_r|].
  cbn [foldl]. rewrite cons_middle, app_assoc in *. apply IH; [done|].
  apply cache_record_ok; [|done]. by destruct (in_order_app_inv _ _ Hord).
Qed.
End Cache.

(** The search of a start: the first index that is not before [start], and the
    last index if there is none. *)
Lemma search_spec ts start fuel low high :
  (∀ i j x y, (i ≤ j)%nat → ts !! i = Some x → ts !! j = Some y → x ≤ y) →
  (low ≤ high < length ts)%nat → (high - low < fuel)%nat →
  let k := search fuel ts start low high in
  (low ≤ k ≤ high)%nat ∧
  (∀ i x, (low ≤ i < k)%nat → ts !! i = Some x → x < start) ∧
  (∀ x, (k < high)%nat → ts !! k = Some x → start ≤ x).
Proof.
  intros Hsort. revert low high. induction fuel as [|fuel IH]; intros low high Hlen Hf; [lia|]. cbn [search].
  destruct (Nat.ltb_spec low high) as [Hlt|Hge]; [|repeat split; lia].
  assert (low ≤ low + (high - low) / 2 < high)%nat as Hmid.
  { split; [lia|]. assert ((high - low) / 2 < high - low)%nat; [apply Nat.div_lt; lia|lia]. }
  generalize dependent (low + (high - low) / 2)%nat. intros mid Hmid.
  destruct (lookup_lt_is_Some_2 ts mid ltac:(lia)) as [v Hv]. rewrite Hv. unfold default, id.
  destruct (Z.ltb_spec v start) as [Hvs|Hvs].
  - destruct (IH (mid + 1)%nat high ltac:(lia) ltac:(lia)) as (Hk & Hlow & Hhigh).
    split; [lia|].
    split; [|done]. intros i x Hi Hx. destruct (decide (mid + 1 ≤ i)%nat); [apply (Hlow i x); [lia|done]|].
    pose proof (Hsort i mid x v ltac:(lia) Hx Hv). lia.
  - destruct (IH low mid ltac:(lia) ltac:(lia)) as (Hk & Hlow & Hhigh). split; [lia|]. split; [done|].
    intros x Hx Hl. destruct (decide (search fuel ts start low mid < mid)%nat) as [|Hm]; [by apply Hhigh|].
    replace (search fuel ts start low mid) with mid in Hl by lia. rewrite Hv in Hl. by injection Hl as <-.
Qed.

(** What a start writes: the records from the time on; if there is none, the
    newest record all the same. *)
Definition to_write (start : Z) (rs : list OneRecord) : list OneRecord :=
  match filter (λ r, start ≤ log_timestamp r) rs with
  | [] => match last rs with Some r => [r] | None => [] end
  | l => l
  end.

Lemma filter_none {A} (P : A → Prop) `{∀ x, Decision (P x)} l : Forall (λ x, ¬ P x) l → filter P l = [].
Proof. induction 1; [done|]. by rewrite filter_cons_False. Qed.

Lemma filter_every {A} (P : A → Prop) `{∀ x, Decision (P x)} l : Forall P l → filter P l = l.
Proof. induction 1; [done|]. rewrite filter_cons_True by done. by f_equal. Qed.

Lemma to_write_drop start rs k :
  StronglySorted not_later rs → (k < length rs)%nat →
  (∀ i r, (i < k)%nat → rs !! i = Some r → log_timestamp r < start) →
  (∀ r, (k < length rs - 1)%nat → rs !! k = Some r → start ≤ log_timestamp r) →
  drop k rs = to_write start rs.
Proof.
  intros Hs Hk Hlow Hhigh. unfold to_write. rewrite <-(take_drop k rs) at 2.
  rewrite filter_app, (filter_none _ (take k rs)).
  2: { apply Forall_lookup_2. intros i r [Hr Hi]%lookup_take_Some. apply Hlow in Hr; lia. }
  rewrite app_nil_l. destruct (lookup_lt_is_Some_2 rs k Hk) as [r Hr]. rewrite (drop_S _ _ _ Hr).
  assert (Forall (not_later r) (drop (S k) rs)) as Hr'.
  { rewrite <-(take_drop k rs), (drop_S _ _ _ Hr) in Hs. apply StronglySorted_app_1_r in Hs. by inversion Hs. }
  destruct (decide (start ≤ log_timestamp r)) as [Hle|Hlt].
  - rewrite filter_every; [done|]. constructor; [done|]. eapply Forall_impl; [exact Hr'|]. cbn. lia.
  - assert (k = length rs - 1)%nat as ->.
    { destruct (decide (k < length rs - 1)%nat); [|lia]. exfalso. apply Hlt, Hhigh; done. }
    rewrite drop_ge by lia. rewrite filter_cons_False by done. rewrite filter_nil.
    rewrite last_lookup. replace (pred (length rs)) with (length rs - 1)%nat by lia. by rewrite Hr.
Qed.

Lemma to_write_app start dropped l :
  (∀ d, d ∈ dropped → log_timestamp d < start) → (l = [] → dropped = []) → to_write start (dropped ++ l) = to_write start l.
Proof.
  intros Hd Hl. unfold to_write. rewrite filter_app, (filter_none _ dropped).
  2: { apply Forall_forall. intros d Hd'. apply Hd in Hd'. lia. }
  cbn [app]. destruct (filter _ l); [|done]. rewrite last_app.
  destruct (last l) eqn:Hlast; [done|]. apply last_None in Hlast. by rewrite (Hl Hlast).
Qed.

Lemma search_lt fuel ts start low high n : (low ≤ high < n)%nat → (search fuel ts start low high < n)%nat.
Proof.
  revert low high. induction fuel as [|fuel IH]; intros low high Hn; cbn [search]; [lia|].
  destruct (Nat.ltb_spec low high); [|lia].
  assert ((high - low) / 2 < high - low)%nat by (apply Nat.div_lt; lia).
  destruct (_ <? start); apply IH; lia.
Qed.

Lemma search_writes start rs : StronglySorted not_later rs → rs ≠ [] →
  drop (search (length rs) (map log_timestamp rs) start 0 (length rs - 1)) rs = to_write start rs.
Proof.
  intros Hs Hne. assert (0 < length rs)%nat as Hlen by (destruct rs; [done|cbn; lia]).
  assert (∀ i j x y, (i ≤ j)%nat → map log_timestamp rs !! i = Some x → map log_timestamp rs !! j = Some y → x ≤ y) as Hsort.
  { intros i j x y Hij Hx Hy. change (map log_timestamp rs) with (log_timestamp <$> rs) in *.
    apply list_lookup_fmap_Some in Hx as (r & -> & Hr). apply list_lookup_fmap_Some in Hy as (r' & -> & Hr').
    destruct (decide (i = j)) as [->|]; [rewrite Hr in Hr'; injection Hr' as ->; lia|].
    rewrite <-(take_drop j rs) in Hs.
    apply (StronglySorted_app_1_elem_of not_later _ _ r r' Hs).
    - apply (list_elem_of_lookup_2 _ i). rewrite lookup_take_lt by lia. done.
    - apply (list_elem_of_lookup_2 _ 0%nat). by rewrite lookup_drop, Nat.add_0_r. }
  pose proof (search_spec (map log_timestamp rs) start (length rs) 0 (length rs - 1) Hsort) as Hk.
  rewrite length_map in Hk. specialize (Hk ltac:(lia) ltac:(lia)) as (Hk & Hlow & Hhigh).
  generalize dependent (search (length rs) (map log_timestamp rs) start 0 (length rs - 1)). intros k Hk Hlow Hhigh.
  apply to_write_drop; [done|lia|..].
  - intros i r Hi Hr. apply (Hlow i); [lia|]. change (map log_timestamp rs) with (log_timestamp <$> rs).
    by rewrite list_lookup_fmap, Hr.
  - intros r Hi Hr. apply Hhigh; [lia|]. change (map log_timestamp rs) with (log_timestamp <$> rs).
    by rewrite list_lookup_fmap, Hr.
Qed.

Section Start.
Context {node : Type} `{YamlOps node} `{McapLib} (localtime : Z → tm) (can_create : string → bool).
Context (topic_order : ∀ A, gmap Z A → list (Z * A)).
Implicit Types a : RecordAction node.

Abbreviation record_task := (record_task localtime can_create topic_order).
Abbreviation add_record := (add_record localtime can_create topic_order).
Abbreviation start_task := (start_task localtime can_create topic_order).

(** A start that writes [rs]. *)
Definition start_wanted (now record_duration_s : Z) (rs : list OneRecord) : M (RecordAction node) unit :=
  a ← get;
  modify_signal (set_recording true);;
  ret ← on_storage (OpenNewFolderToRecord localtime can_create topic_order (storage_policy (ra_options a)) now);
  check_throw ret "Open new folder to record failed.";;
  modify_signal (λ g, mkSignal (recording_flag g)
    (if record_duration_s =? 0 then 0 else wrap64 (now + record_duration_s * 1000000000)) (last_cache g) (cur_cache g));;
  mapM_ (add_record now) rs;;
  modify_signal (λ g, mkSignal (recording_flag g) (stop_record_timestamp g) [] []).

Lemma on_storage_signal {X} (m : M (Storage node) X) r a a' : on_storage m a = (r, a') → ra_signal a' = ra_signal a.
Proof. unfold on_storage, zoom. destruct (m (ra_storage a)) as [r' s']. by intros [= <- <-]. Qed.

(** It drops what is before the start from the two caches. *)
Lemma drop_caches now low last cur a : (low < length (last ++ cur))%nat →
  (if (low <? length last)%nat then mapM_ (add_record now) (drop low last);; mapM_ (add_record now) cur
   else mapM_ (add_record now) (drop (low - length last) cur)) a = mapM_ (add_record now) (drop low (last ++ cur)) a.
Proof.
  intros Hlow. rewrite drop_app. destruct (Nat.ltb_spec low (length last)) as [Hlt|Hge].
  - replace (low - length last)%nat with 0%nat by lia. by rewrite mapM_app.
  - by rewrite (drop_ge last) by lia.
Qed.

Lemma start_task_wanted now prep dur a :
  ra_state a = kStart → recording_flag (ra_signal a) = false →
  StronglySorted not_later (last_cache (ra_signal a) ++ cur_cache (ra_signal a)) →
  start_task now prep dur a =
  start_wanted now dur (to_write (wrap64 (now - prep * 1000000000)) (last_cache (ra_signal a) ++ cur_cache (ra_signal a))) a.
Proof.
  intros Hstate Hflag Hs. unfold RecordAction.start_task, start_wanted.
  rewrite !(get_bind). rewrite Hstate, Hflag. change (negb (state_eqb kStart kStart)) with false. cbv iota.
  apply bind_ext; intros [] a1 E1. apply bind_ext; intros ret a2 E2. apply bind_ext; intros [] a3 E3.
  apply bind_ext; intros [] a4 E4.
  assert (last_cache (ra_signal a4) = last_cache (ra_signal a) ∧ cur_cache (ra_signal a4) = cur_cache (ra_signal a)) as Hcaches.
  { injection E1 as <-. apply on_storage_signal in E2. destruct ret; [|done]. injection E3 as <-. injection E4 as <-.
    cbn in *. by rewrite E2. }
  destruct (last_cache (ra_signal a) ++ cur_cache (ra_signal a)) as [|r rs] eqn:Hall.
  - apply app_eq_nil in Hall as [Hl Hc]. rewrite Hl, Hc in Hcaches. destruct Hcaches as [Hl4 Hc4]. unfold to_write. cbn.
    unfold mbind, M_bind, modify_signal, modify, mret, M_ret. do 2 f_equal.
    destruct a4 as [? ? ? ? ? ? ? ? ? ? [] ? ?]; cbn in *; by subst.
  - rewrite <-(search_writes _ (r :: rs)) by done.
    rewrite <-Hall. apply bind_left, drop_caches. rewrite Hall.
    apply search_lt. cbn. lia.
Qed.
(** Records that arrive while the signal mode waits only go into the caches. *)
Lemma waiting_caches now rs a :
  ra_state a = kStart → mode (ra_options a) = kSignal → recording_flag (ra_signal a) = false →
  mapM_ (record_task now) rs a =
  (Ok tt, ra_set_signal (foldl (λ g r, cache_record (max_preparation_duration_ns a) r g) (ra_signal a) rs) a).
Proof.
  revert a. induction rs as [|r rs IH]; intros a Hstate Hmode Hflag; [by destruct a|]. cbn [mapM_ foldl].
  assert (record_task now r a =
          (Ok tt, ra_set_signal (cache_record (max_preparation_duration_ns a) r (ra_signal a)) a)) as Hr.
  { unfold RecordAction.record_task. rewrite get_bind, Hstate, Hmode. cbn. rewrite Hflag.
    change (negb (state_eqb kStart kStart)) with false. unfold mbind, M_bind, get. cbn. by rewrite Hflag. }
  unfold mbind at 1, M_bind at 1. rewrite Hr. rewrite IH; [done|done|done|]. cbn. unfold cache_record.
  by destruct (_ <? _).
Qed.

(** C15: In the signal mode the records that were asked for are written: when
    records have arrived in the order of their times and a start asks for no
    more time before now than the caches keep, what it writes are all those that
    are not older, in order (the newest one if there is none), wherever they
    are in the two caches; none was dropped. *)
Theorem start_writes_what_was_asked now0 now prep dur rs a :
  ra_state a = kStart → mode (ra_options a) = kSignal → recording_flag (ra_signal a) = false →
  last_cache (ra_signal a) = [] → cur_cache (ra_signal a) = [] →
  in_order rs → (∀ r, r ∈ rs → log_timestamp r ≤ now) → in_width 64 now →
  0 ≤ prep → prep * 1000000000 ≤ now → prep * 1000000000 ≤ max_preparation_duration_ns a →
  in_width 64 (max_preparation_duration_ns a) →
  ∃ a1, mapM_ (record_task now0) rs a = (Ok tt, a1) ∧ ra_storage a1 = ra_storage a ∧
    start_task now prep dur a1 = start_wanted now dur (to_write (now - prep * 1000000000) rs) a1.
Proof.
  intros Hstate Hmode Hflag Hl Hc Hord Hnow Hwnow Hp Hpnow Hpmax Hmax. eexists.
  split; [by apply waiting_caches|]. split; [done|].
  pose proof (cache_records_ok (max_preparation_duration_ns a) Hmax rs [] (ra_signal a) Hord) as Hok.
  destruct Hok as (dropped & Hseen & Hdrop).
  { exists []. rewrite Hl, Hc. split; [done|]. by intros newest [=]. }
  cbn [app] in Hseen, Hdrop. rewrite start_task_wanted.
  - cbn [ra_signal ra_set_signal]. rewrite wrap_small by (unfold in_width in *; lia).
    rewrite <-(to_write_app _ dropped); [by rewrite <-Hseen|..].
    + intros d Hd. assert (d ∈ rs) as Hdrs by (rewrite Hseen; apply elem_of_app; by left).
      destruct (last rs) as [n|] eqn:Hn; [|apply last_None in Hn; rewrite Hn in Hdrs; by inversion Hdrs].
      pose proof (proj1 (Hdrop n eq_refl) d Hd). pose proof (Hnow n (last_Some_elem_of _ _ Hn)). lia.
    + intros Hnil. destruct dropped as [|d ds] eqn:Hds; [done|]. exfalso.
      rewrite Hnil, app_nil_r in Hseen. assert (∃ n, last rs = Some n) as [n Hn].
      { destruct (last rs) eqn:Hn; [by eauto|]. apply last_None in Hn. by rewrite Hn in Hseen. }
      pose proof (proj1 (Hdrop n Hn) n) as Hlt. rewrite <-Hseen in Hlt. specialize (Hlt (last_Some_elem_of _ _ Hn)).
      destruct Hmax. lia.
  - done.
  - cbn. clear -Hflag. generalize dependent (ra_signal a). induction rs as [|r rs IH]; intros g Hg; [done|].
    cbn [foldl]. apply IH. unfold cache_record. by destruct (_ <? _).
  - rewrite Hseen in Hord. destruct Hord as [Hs _]. by apply StronglySorted_app_1_r in Hs.
Qed.
End Start.

(** ** Sampling *)

(** What is recorded of a topic whose last record was at [last]. *)
Fixpoint sampled (interval last : Z) (rs : list OneRecord) : list OneRecord :=
  match rs with
  | [] => []
  | r :: rs' =>
      if (0 <? interval) && (wrap64 (log_timestamp r - last) <? interval) then sampled interval last rs'
      else r :: sampled interval (log_timestamp r) rs'
  end.

Lemma sampled_spec interval last rs :
  0 < interval → 0 ≤ last → in_order rs → (∀ r, r ∈ rs → last ≤ log_timestamp r) →
  StronglySorted (λ r r', log_timestamp r + interval ≤ log_timestamp r') (sampled interval last rs) ∧
  (∀ r, r ∈ sampled interval last rs → last + interval ≤ log_timestamp r) ∧
  (∀ r, r ∈ rs → r ∈ sampled interval last rs ∨
     ∃ x, (x = last ∨ x ∈ map log_timestamp (sampled interval last rs)) ∧ x ≤ log_timestamp r < x + interval).
Proof.
  intros Hi. revert last. induction rs as [|r rs IH]; intros last Hlast Hord Hle; cbn [sampled].
  { repeat split; [constructor|..]; by intros r Hr%not_elem_of_nil. }
  destruct Hord as [Hs Hw]. inversion Hs as [|? ? Hs' Hr]; subst. inversion Hw as [|? ? Hwr Hw']; subst.
  rewrite Forall_forall in Hr. pose proof (Hle r ltac:(left)) as Hlr.
  rewrite (proj2 (Z.ltb_lt 0 interval) Hi), wrap_small by (unfold in_width in *; lia). cbn [andb].
  destruct (Z.ltb_spec (log_timestamp r - last) interval) as [Hlt|Hge].
  - destruct (IH last Hlast ltac:(by split) ltac:(intros x Hx; apply Hle; by right)) as (H1 & H2 & H3).
    split; [done|]. split; [done|]. intros x [->|Hx]%elem_of_cons; [|by apply H3].
    right. exists last. split; [by left|lia].
  - destruct (IH (log_timestamp r) ltac:(by destruct Hwr) ltac:(by split) Hr) as (H1 & H2 & H3).
    split; [constructor; [done|]; by apply Forall_forall|].
    split; [intros x [->|Hx]%elem_of_cons; [lia|]; pose proof (H2 x Hx); lia|].
    intros x [->|Hx]%elem_of_cons; [left; left|]. destruct (H3 x Hx) as [Hin|(y & Hy & Hyx)]; [left; by right|].
    right. exists y. split; [|done]. right. cbn [map]. apply elem_of_cons. destruct Hy as [->|Hy]; [by left|by right].
Qed.

Section Sampling.
Context {node : Type} `{YamlOps node}.
Implicit Types a : RecordAction node.

Definition info_of a (topic : Z) : TopicRuntimeInfo := default runtime_default (topic_runtime_map (ra_storage a) !! topic).
Definition enabled_of a (topic : Z) : bool := record_enabled (ra_options a) && rt_record_enabled (info_of a topic).

Lemma info_of_insert a' k i a t :
  topic_runtime_map (ra_storage a') = <[k := i]> (topic_runtime_map (ra_storage a)) →
  info_of a' t = if decide (k = t) then i else info_of a t.
Proof.
  intros Hs. unfold info_of. rewrite Hs. destruct (decide (k = t)) as [->|]; [by rewrite lookup_insert_eq|].
  by rewrite lookup_insert_ne by done.
Qed.

(** Whether a record is recorded. *)
Definition keeps a (r : OneRecord) : bool :=
  let i := info_of a (topic_index r) in
  enabled_of a (topic_index r) &&
  negb ((0 <? sample_interval i) && (wrap64 (log_timestamp r - last_timestamp i) <? sample_interval i)).

Lemma AddRecord_step r a : ra_state a = kStart → ra_executor a = true → ∃ a',
  AddRecord r a = (Ok tt, a') ∧ ra_state a' = kStart ∧ ra_executor a' = true ∧
  ra_tasks a' = ra_tasks a ++ (if keeps a r then [TaskRecord r] else []) ∧
  ∀ t, enabled_of a' t = enabled_of a t ∧ sample_interval (info_of a' t) = sample_interval (info_of a t) ∧
       last_timestamp (info_of a' t) =
         if keeps a r && bool_decide (topic_index r = t) then log_timestamp r else last_timestamp (info_of a t).
Proof.
  intros Hstate Hex. unfold AddRecord, keeps, enabled_of. rewrite get_bind, Hstate.
  change (negb (state_eqb kStart kStart)) with false. cbv iota zeta. fold (info_of a (topic_index r)).
  unfold mbind, M_bind, on_storage, zoom, modify, post, check_throw, get. cbn beta iota. rewrite <-Bool.negb_andb.
  destruct (record_enabled (ra_options a) && rt_record_enabled (info_of a (topic_index r))) eqn:Hen; cbn [negb andb].
  2: { eexists. split; [done|]. rewrite app_nil_r. do 3 (split; [done|]). intros t. erewrite (info_of_insert _ (topic_index r) _ a t) by done.
       by destruct (decide (topic_index r = t)) as [<-|]. }
  destruct ((0 <? _) && _) eqn:Hskip; cbn [negb andb].
  { eexists. split; [done|]. rewrite app_nil_r. do 3 (split; [done|]). intros t. erewrite (info_of_insert _ (topic_index r) _ a t) by done.
    by destruct (decide (topic_index r = t)) as [<-|]. }
  unfold mbind, M_bind. cbn beta iota. cbn [ra_executor ra_set_storage]. rewrite Hex. eexists. split; [done|].
  do 3 (split; [done|]). intros t. erewrite (info_of_insert _ (topic_index r) _ a t) by (cbn; apply insert_insert_eq).
  destruct (decide (topic_index r = t)) as [<-|Ht]; [rewrite bool_decide_true by done|by rewrite bool_decide_false by done].
  by destruct (rt_cache_last_msg _).
Qed.

(** What is kept of records. *)
Lemma AddRecords rs a : ra_state a = kStart → ra_executor a = true → ∃ a' kept,
  mapM_ AddRecord rs a = (Ok tt, a') ∧ ra_tasks a' = ra_tasks a ++ map TaskRecord kept ∧ kept `sublist_of` rs ∧
  ∀ t, filter (λ r, topic_index r = t) kept =
       if enabled_of a t
       then sampled (sample_interval (info_of a t)) (last_timestamp (info_of a t)) (filter (λ r, topic_index r = t) rs)
       else [].
Proof.
  revert a. induction rs as [|r rs IH]; intros a Hstate Hex; cbn [mapM_].
  { exists a, []. cbn. rewrite app_nil_r. repeat split; [done|]. intros t. by destruct (enabled_of a t). }
  destruct (AddRecord_step r a Hstate Hex) as (a1 & Hrun & Hstate1 & Hex1 & Htasks1 & Hinfo1).
  destruct (IH a1 Hstate1 Hex1) as (a' & kept & Hrun' & Htasks & Hsub & Hkept).
  exists a', (if keeps a r then r :: kept else kept). unfold mbind, M_bind. rewrite Hrun.
  split; [done|]. split; [rewrite Htasks, Htasks1; by destruct (keeps a r); rewrite <-app_assoc|].
  split; [destruct (keeps a r); by constructor|]. intros t. specialize (Hkept t).
  destruct (Hinfo1 t) as (Hen & Hint & Hlast). rewrite Hen, Hint, Hlast in Hkept. clear Hen Hint Hlast. unfold keeps in *.
  destruct (decide (topic_index r = t)) as [<-|Ht].
  - rewrite (filter_cons_True _ r rs) by done. cbn [sampled]. rewrite (bool_decide_true (topic_index r = _)) in Hkept by done.
    destruct (enabled_of a (topic_index r)); cbn [andb negb] in *; [|done].
    destruct ((0 <? _) && _); cbn [andb negb] in *; [done|]. rewrite filter_cons_True by done. by f_equal.
  - rewrite (bool_decide_false (topic_index r = t)), Bool.andb_false_r in Hkept by done.
    rewrite (filter_cons_False _ r rs) by done. destruct (enabled_of a (topic_index r) && _); [|done].
    by rewrite filter_cons_False.
Qed.

(** Without a frequency everything is kept. *)
Lemma sampled_all last rs : sampled 0 last rs = rs.
Proof. revert last. induction rs as [|r rs IH]; intros last; [done|]. cbn. by rewrite IH. Qed.

(** Of a topic with a sampling frequency the records that are posted for
    writing are at least the interval apart, and each that is not posted came
    within the interval after one that was (or after the topic's last time);
    of a topic without a frequency all are posted, of one that is not enabled
    none; and the order of the records is kept. *)
Theorem sampling_spaces_records rs a :
  ra_state a = kStart → ra_executor a = true → in_order rs →
  (∀ t, 0 ≤ last_timestamp (info_of a t)) →
  (∀ r, r ∈ rs → last_timestamp (info_of a (topic_index r)) ≤ log_timestamp r) →
  ∃ a' kept, mapM_ AddRecord rs a = (Ok tt, a') ∧ ra_tasks a' = ra_tasks a ++ map TaskRecord kept ∧ kept `sublist_of` rs ∧
    ∀ t, let of_topic := filter (λ r, topic_index r = t) in
    let interval := sample_interval (info_of a t) in
    if negb (enabled_of a t) then of_topic kept = []
    else
      (interval = 0 → of_topic kept = of_topic rs) ∧
      (0 < interval →
       StronglySorted (λ r r', log_timestamp r + interval ≤ log_timestamp r') (of_topic kept) ∧
       ∀ r, r ∈ of_topic rs → r ∈ of_topic kept ∨
         ∃ x, (x = last_timestamp (info_of a t) ∨ x ∈ map log_timestamp (of_topic kept)) ∧ x ≤ log_timestamp r < x + interval).
Proof.
  intros Hstate Hex [Hs Hw] Hlast Hle. destruct (AddRecords rs a Hstate Hex) as (a' & kept & Hrun & Htasks & Hsub & Hkept).
  exists a', kept. do 3 (split; [done|]). intros t of_topic interval. specialize (Hkept t). fold of_topic in Hkept.
  destruct (enabled_of a t); cbn [negb]; [|done]. split.
  - intros Hi. fold interval in Hkept. by rewrite Hi, sampled_all in Hkept.
  - intros Hi. fold interval in Hkept. rewrite Hkept.
    destruct (sampled_spec interval (last_timestamp (info_of a t)) (of_topic rs) Hi (Hlast t)) as (H1 & _ & H3); [|..|done].
    + by apply in_order_filter.
    + intros r [<- Hr]%list_elem_of_filter. by apply Hle.
Qed.
End Sampling.

(** ** Files *)

Section Splitting.
Context {node : Type} `{McapLib} (localtime : Z → tm) (can_create : string → bool).
Context (topic_order : ∀ A, gmap Z A → list (Z * A)).
Context (Horder : ∀ A (m : gmap Z A), topic_order A m ≡ₚ map_to_list m).
Context (policy : StoragePolicy) (max_size : Z).
Implicit Types s : Storage node.

(** The topic has a channel in the file. *)
Definition has_channel (path : string * string) (topic : Z) s : Prop :=
  ∃ i f, topic_runtime_map s !! topic = Some i ∧ so_bag s !! path = Some f ∧ channel_id i ∈ map fst (mf_channels f).

(** The writer stays on [path], other files are as they were, and what is new in
    this one has the time [ts]. *)
Record steady (ts : Z) (path : string * string) s s' : Prop := {
  steady_writer : so_writer s = Some (mkMcapWriter path true) → so_writer s' = Some (mkMcapWriter path true);
  steady_files : so_files s' = so_files s ∧ so_real_bag_path s' = so_real_bag_path s;
  steady_others q : q ≠ path → so_bag s' !! q = so_bag s !! q;
  steady_file f : so_bag s !! path = Some f →
    ∃ f' new, so_bag s' !! path = Some f' ∧ mf_messages f' = mf_messages f ++ new ∧ Forall (λ m, logTime m = ts) new;
  steady_channels topic : has_channel path topic s → has_channel path topic s'
}.

Lemma steady_refl ts path s : steady ts path s s.
Proof. split; [done|done|done| |done]. intros f Hf. exists f, []. by rewrite app_nil_r. Qed.

Lemma steady_trans ts path s1 s2 s3 : steady ts path s1 s2 → steady ts path s2 s3 → steady ts path s1 s3.
Proof.
  intros [W1 [F1 R1] O1 M1 C1] [W2 [F2 R2] O2 M2 C2]. split.
  - auto.
  - split; congruence.
  - intros q Hq. rewrite O2 by done. by apply O1.
  - intros f Hf. destruct (M1 f Hf) as (f1 & n1 & Hf1 & E1 & L1). destruct (M2 f1 Hf1) as (f2 & n2 & Hf2 & E2 & L2).
    exists f2, (n1 ++ n2). split; [done|]. split; [by rewrite E2, E1, app_assoc|]. apply Forall_app; by split.
  - auto.
Qed.

(** A call that is, with the writer open on the file. *)
Definition writes_at {A} (ts : Z) (path : string * string) s (m : M (Storage node) A) : Prop :=
  so_writer s = Some (mkMcapWriter path true) → ∃ x s', m s = (Ok x, s') ∧ steady ts path s s'.

Definition writes {A} ts path (m : M (Storage node) A) : Prop := ∀ s, writes_at ts path s m.

Lemma writes_ret {A} ts path (x : A) : writes ts path (mret x).
Proof. intros s Hs. do 2 eexists. split; [done|]. apply steady_refl. Qed.

Lemma writes_at_bind {A B} ts path s (m : M (Storage node) A) (f : A → M (Storage node) B) :
  writes_at ts path s m → (∀ x, writes ts path (f x)) → writes_at ts path s (m ≫= f).
Proof.
  intros Hm Hf Hs. destruct (Hm Hs) as (x & s1 & E1 & S1).
  destruct (Hf x s1 (steady_writer _ _ _ _ S1 Hs)) as (y & s2 & E2 & S2).
  exists y, s2. unfold mbind, M_bind. rewrite E1. split; [done|]. by eapply steady_trans.
Qed.

Lemma writes_bind {A B} ts path (m : M (Storage node) A) (f : A → M (Storage node) B) :
  writes ts path m → (∀ x, writes ts path (f x)) → writes ts path (m ≫= f).
Proof. intros Hm Hf s. by apply writes_at_bind. Qed.

Lemma writes_get {B} ts path (f : Storage node → M (Storage node) B) :
  (∀ s, writes_at ts path s (f s)) → writes ts path (get ≫= f).
Proof. intros Hf s Hs. rewrite get_bind. by apply Hf. Qed.

Lemma writes_mapM {A} ts path (f : A → M (Storage node) unit) l : (∀ x, writes ts path (f x)) → writes ts path (mapM_ f l).
Proof. intros Hf. induction l as [|x l IH]; [apply writes_ret|]. by apply writes_bind. Qed.

(** What changes neither files nor channels. *)
Definition harmless (g : Storage node → Storage node) s : Prop :=
  so_writer (g s) = so_writer s ∧ so_files (g s) = so_files s ∧ so_real_bag_path (g s) = so_real_bag_path s ∧
  so_bag (g s) = so_bag s ∧
  ∀ t i, topic_runtime_map s !! t = Some i → ∃ i', topic_runtime_map (g s) !! t = Some i' ∧ channel_id i' = channel_id i.

Lemma writes_modify ts path g s : harmless g s → writes_at ts path s (modify g).
Proof.
  intros Hg Hs. do 2 eexists. split; [done|]. destruct Hg as (HW & HF & HR & HB & HT). split.
  - by rewrite HW.
  - done.
  - by rewrite HB.
  - intros f Hf. exists f, []. by rewrite HB, app_nil_r.
  - intros t (i & f & Hi & Hf & Hin). destruct (HT t i Hi) as (i' & Hi' & Hc). exists i', f. by rewrite HB, Hc.
Qed.

(** A default entry changes nothing that can be seen. *)
Lemma keeps_channel {f : TopicRuntimeInfo → TopicRuntimeInfo} (m : gmap Z TopicRuntimeInfo) k :
  (∀ i, channel_id (f i) = channel_id i) →
  ∀ t i, m !! t = Some i → ∃ i', <[k := f (default runtime_default (m !! k))]> m !! t = Some i' ∧ channel_id i' = channel_id i.
Proof.
  intros Hf t i Hi. destruct (decide (k = t)) as [->|]; [rewrite lookup_insert_eq, Hi|rewrite lookup_insert_ne by done]; by eauto.
Qed.

Lemma writes_mcap ts path msg : logTime msg = ts → writes ts path (mcap_write msg).
Proof.
  intros Ht s Hs. unfold mcap_write. rewrite get_bind, Hs. cbn [wr_path wr_open].
  destruct (so_bag s !! path) as [f|] eqn:Hf; [|do 2 eexists; split; [done|]; apply steady_refl].
  destruct (bool_decide _) eqn:Hch; cbn [andb]; [|do 2 eexists; split; [done|]; apply steady_refl].
  do 2 eexists. split; [done|]. split; [done|done| | |].
  - intros q Hq. cbn. by rewrite lookup_insert_ne.
  - intros f0 Hf0. rewrite Hf in Hf0. injection Hf0 as <-. cbn. rewrite lookup_insert_eq. do 2 eexists.
    split; [done|]. split; [done|]. by constructor.
  - intros t (i & f0 & Hi & Hf0 & Hin). rewrite Hf in Hf0. injection Hf0 as <-.
    do 2 eexists. split; [exact Hi|]. cbn. rewrite lookup_insert_eq. by split.
Qed.

Lemma writes_write_record path r : writes (log_timestamp r) path (write_record policy r).
Proof.
  unfold write_record. apply writes_get. intros s0. apply writes_at_bind; [apply writes_modify|intros []].
  { do 4 (split; [done|]). by apply (keeps_channel (f := id)). }
  apply writes_bind; [intros s; apply writes_modify; do 4 (split; [done|]); by eauto|intros []].
  apply writes_bind; [by apply writes_mcap|]. intros [|]; cbn [negb]; [|apply writes_ret].
  apply writes_get. intros s1. apply writes_at_bind; [apply writes_modify; do 4 (split; [done|]); by eauto|intros []].
  destruct (_ && _); [|apply writes_ret]. intros s. apply writes_modify. unfold harmless.
  destruct (so_writer s) eqn:Hs; do 4 (split; [done|]); by eauto.
Qed.

Lemma writes_last_msgs path ts : writes ts path (write_last_msgs topic_order policy ts).
Proof.
  unfold write_last_msgs. apply writes_get. intros s0. apply writes_mapM. intros [id info].
  destruct (last_msg info) as [m|]; [|apply writes_ret]. destruct (rt_cache_last_msg info); [|apply writes_ret].
  apply writes_bind; [|intros []; by apply (writes_write_record path (mkOneRecord _ ts _ _ _))].
  intros s. apply writes_modify. do 4 (split; [done|]). by apply keeps_channel.
Qed.

(** Every topic with a schema gets a channel. *)
Definition add_channel (path : string * string) : nat * (Z * McapStruct) → M (Storage node) unit := λ '(n, (idx, info)),
  let id := mcap_channel_id n in
  modify (λ s, set_bag (alter (λ f, mkMcapFile (mf_channels f ++ [(id, info)]) (mf_messages f)) path (so_bag s)) s);;
  modify (λ s, set_runtime
    (<[idx := rt_set_channel id (default runtime_default (topic_runtime_map s !! idx))]> (topic_runtime_map s)) s).

Lemma add_channel_spec ts path x s f : so_bag s !! path = Some f →
  ∃ s', add_channel path x s = (Ok tt, s') ∧ steady ts path s s' ∧ has_channel path x.2.1 s'.
Proof.
  destruct x as [n [idx info]]. intros Hf. eexists. split; [done|]. cbn [snd fst]. split; [split|].
  - done.
  - done.
  - intros q Hq. cbn. by rewrite lookup_alter_ne.
  - intros f0 Hf0. cbn. rewrite lookup_alter_eq, Hf0. eexists _, []. split; [done|]. by rewrite app_nil_r.
  - intros t (i & f0 & Hi & Hf0 & Hin). destruct (decide (idx = t)) as [->|Ht].
    + eexists _, _. cbn. rewrite lookup_insert_eq, lookup_alter_eq, Hf0. split; [done|]. split; [done|].
      cbn. rewrite map_app. apply elem_of_app. right. left.
    + eexists i, _. cbn. rewrite lookup_insert_ne, lookup_alter_eq, Hf0 by done. split; [done|]. split; [done|].
      cbn. rewrite map_app. apply elem_of_app. by left.
  - eexists _, _. cbn. rewrite lookup_insert_eq, lookup_alter_eq, Hf. split; [done|]. split; [done|].
    cbn. rewrite map_app. apply elem_of_app. right. left.
Qed.

Lemma add_channels_spec ts path l s f : so_bag s !! path = Some f →
  ∃ s', mapM_ (add_channel path) l s = (Ok tt, s') ∧ steady ts path s s' ∧ ∀ x, x ∈ l → has_channel path x.2.1 s'.
Proof.
  revert s f. induction l as [|x l IH]; intros s f Hf; cbn [mapM_].
  { exists s. split; [done|]. split; [apply steady_refl|]. by intros x Hx%not_elem_of_nil. }
  destruct (add_channel_spec ts path x s f Hf) as (s1 & E1 & S1 & Hch).
  destruct (steady_file _ _ _ _ S1 f Hf) as (f1 & _ & Hf1 & _ & _).
  destruct (IH s1 f1 Hf1) as (s2 & E2 & S2 & Hchs). exists s2. unfold mbind, M_bind. rewrite E1.
  split; [done|]. split; [by eapply steady_trans|].
  intros y [->|Hy]%elem_of_cons; [by apply (steady_channels _ _ _ _ S2)|by apply Hchs].
Qed.

(** The file that is removed when there are too many with one more, and the
    files that are left. *)
Definition removed_file (path : string * string) (files : list FileMeta) : option (string * string) :=
  match files with
  | f :: _ => if (0 <? max_bag_num policy) && (max_bag_num policy <? Z.of_nat (length files)) then Some (path.1, fm_path f) else None
  | [] => None
  end.

Lemma lookup_removed {A} (b : gmap (string * string) A) removed q :
  match removed with Some p => delete p b | None => b end !! q = if decide (removed = Some q) then None else b !! q.
Proof.
  destruct removed as [p|]; [|by rewrite decide_False]. destruct (decide (Some p = Some q)) as [[= ->]|Hpq].
  - by rewrite lookup_delete_eq.
  - rewrite lookup_delete_ne; [done|]. congruence.
Qed.

(** The new file is listed, the oldest is removed and the list is written. *)
Definition list_file (name : string) (ts : Z) : M (Storage node) unit :=
  modify (λ s, set_files (so_files s ++ [mkFileMeta name ts]) s);;
  modify (λ s, match so_files s with
               | f :: files' =>
                   if (0 <? max_bag_num policy) && (max_bag_num policy <? Z.of_nat (length (so_files s)))
                   then set_files files' (set_bag (delete (so_real_bag_path s, fm_path f) (so_bag s)) s)
                   else s
               | [] => s
               end);;
  write_yaml.

Lemma list_file_spec path ts s : path.1 = so_real_bag_path s →
  let removed := removed_file path (so_files s ++ [mkFileMeta path.2 ts]) in
  ∃ s', list_file path.2 ts s = (Ok tt, s') ∧ so_writer s' = so_writer s ∧ topic_runtime_map s' = topic_runtime_map s ∧
    so_bag s' = match removed with Some p => delete p (so_bag s) | None => so_bag s end.
Proof.
  intros Hpath removed. eexists. split; [done|]. unfold removed, removed_file. rewrite Hpath.
  cbn [so_files set_files so_real_bag_path so_bag]. destruct (so_files s ++ _) as [|f files'].
  - cbn. by destruct (String.eqb _ _).
  - destruct (_ && _); cbn; by destruct (String.eqb _ _).
Qed.

Lemma CloseRecord_spec s : ∃ s', CloseRecord s = (Ok tt, s') ∧
  so_real_bag_path s' = so_real_bag_path s ∧ so_files s' = so_files s ∧ so_bag s' = so_bag s ∧
  so_mcap_info_map s' = so_mcap_info_map s.
Proof. eexists. split; [done|]. by destruct (so_writer s). Qed.

(** A file is opened: it has a channel for every topic with a schema and the
    cached messages, with its own time; other files are kept, but for the
    oldest when there are too many. *)
Lemma OpenNewMcapToRecord_spec ts s :
  let path := (so_real_bag_path s, mcap_file_name localtime ts) in
  let removed := removed_file path (so_files s ++ [mkFileMeta path.2 ts]) in
  mcap_open path = true → removed ≠ Some path →
  ∃ s' f', OpenNewMcapToRecord localtime topic_order policy ts s = (Ok tt, s') ∧
    so_writer s' = Some (mkMcapWriter path true) ∧ so_bag s' !! path = Some f' ∧
    Forall (λ m, logTime m = ts) (mf_messages f') ∧
    (∀ q, q ≠ path → so_bag s' !! q = if decide (removed = Some q) then None else so_bag s !! q) ∧
    (∀ topic info, so_mcap_info_map s !! topic = Some info → has_channel path topic s').
Proof.
  intros path removed Hopen Hremoved. unfold OpenNewMcapToRecord.
  destruct (CloseRecord_spec s) as (s0 & E0 & Hreal & Hfiles & Hbag & Hinfo).
  set (s2 := set_bag (<[path := mkMcapFile [] []]> (so_bag s0)) (set_writer (Some (mkMcapWriter path true)) (Some path) s0)).
  destruct (add_channels_spec ts path (imap pair (topic_order _ (so_mcap_info_map s))) s2 (mkMcapFile [] []))
    as (s3 & E3 & S3 & C3); [apply lookup_insert_eq|].
  destruct (steady_file _ _ _ _ S3 (mkMcapFile [] []) (lookup_insert_eq _ _ _)) as (f3 & new3 & Hf3 & Em3 & L3).
  pose proof (steady_writer _ _ _ _ S3 eq_refl) as W3. destruct (steady_files _ _ _ _ S3) as [F3 R3].
  cbn in F3, R3. rewrite Hfiles in F3. rewrite Hreal in R3.
  destruct (list_file_spec path ts s3) as (s6 & E6 & W6 & T6 & B6); [by rewrite R3|].
  rewrite F3 in B6. fold removed in B6.
  destruct (writes_last_msgs path ts s6) as ([] & s7 & E7 & S7); [by rewrite W6|].
  assert (so_bag s6 !! path = Some f3) as Hf6 by (by rewrite B6, lookup_removed, decide_False).
  destruct (steady_file _ _ _ _ S7 f3 Hf6) as (f7 & new7 & Hf7 & Em7 & L7).
  exists s7, f7. split.
  { rewrite (bind_run _ _ _ _ _ E0), get_bind. replace (so_real_bag_path s0) with (so_real_bag_path s) by done.
    fold path. rewrite Hopen. cbn [negb]. change (so_real_bag_path s, mcap_file_name localtime ts) with path.
    rewrite (bind_run _ _ s0 tt (set_writer (Some (mkMcapWriter path true)) (Some path) s0)) by done.
    rewrite (bind_run _ _ _ tt s2) by done.
    rewrite (bind_run _ _ s2 tt s3).
    - exact (eq_trans (bind_run _ (λ _, write_last_msgs topic_order policy ts) _ _ _ E6) E7).
    - rewrite <-E3, <-Hinfo. done. }
  split; [by apply (steady_writer _ _ _ _ S7); rewrite W6|]. split; [done|].
  split; [rewrite Em7, Em3; by apply Forall_app|]. split.
  - intros q Hq. rewrite (steady_others _ _ _ _ S7 q Hq), B6, lookup_removed, (steady_others _ _ _ _ S3 q Hq).
    cbn. by rewrite lookup_insert_ne, Hbag by done.
  - intros topic info Ht. apply (steady_channels _ _ _ _ S7).
    assert ((topic, info) ∈ topic_order _ (so_mcap_info_map s)) as Hin.
    { rewrite Horder. by apply elem_of_map_to_list. }
    apply list_elem_of_lookup in Hin as [n Hn].
    destruct (C3 (n, (topic, info))) as (i & f & Hi & Hf & Hch).
    { apply (list_elem_of_lookup_2 _ n). by rewrite list_lookup_imap, Hn. }
    exists i, f. rewrite T6, B6, lookup_removed, decide_False by done. done.
Qed.

Lemma mcap_write_known path msg s f :
  so_writer s = Some (mkMcapWriter path true) → so_bag s !! path = Some f → channelId msg ∈ map fst (mf_channels f) →
  mcap_write msg s = (Ok true, set_bag (<[path := mkMcapFile (mf_channels f) (mf_messages f ++ [msg])]> (so_bag s)) s).
Proof. intros Hs Hf Hch. unfold mcap_write. rewrite get_bind, Hs. cbn [wr_path wr_open]. by rewrite Hf, bool_decide_true. Qed.

(** A record whose topic has a channel is the last message of the file. *)
Lemma write_record_appends path r s :
  so_writer s = Some (mkMcapWriter path true) → has_channel path (topic_index r) s →
  ∃ s' f channel, write_record policy r s = (Ok tt, s') ∧ so_writer s' = so_writer s ∧ so_bag s !! path = Some f ∧
    so_bag s' = <[path := mkMcapFile (mf_channels f) (mf_messages f ++ [message_of channel r])]> (so_bag s).
Proof.
  intros Hs (i & f & Hi & Hf & Hch). unfold write_record. rewrite get_bind, Hi. cbn [default]. unfold id.
  rewrite (bind_run _ _ s tt _) by done. rewrite (bind_run _ _ _ tt _) by done.
  erewrite bind_run by by apply (mcap_write_known path). cbn [negb]. rewrite get_bind, (bind_run _ _ _ tt _) by done.
  destruct (_ && _); do 3 eexists; (split; [done|]); cbn; rewrite Hs; by repeat split.
Qed.

End Splitting.

(** ** A start that fails *)

Section Failing.
Context {node : Type} `{YamlOps node} `{McapLib} (localtime : Z → tm) (can_create : string → bool).
Context (topic_order : ∀ A, gmap Z A → list (Z * A)).
Context (yaml_load : string → option node) (string_node : string → node) (empty_map : node)
  (set_key : string → node → node → node).
Implicit Types a : RecordAction node.

Lemma add_record_undef now r a : so_writer (ra_storage a) = None → full (max_bag_size a) (ra_storage a) = false →
  (add_record localtime can_create topic_order now r a).1 = Undef.
Proof.
  intros Hw Hfull. unfold add_record. rewrite get_bind. unfold on_storage, zoom, AddRecordImpl. rewrite get_bind, Hfull.
  rewrite (bind_run _ _ _ tt (ra_storage a)) by done. unfold write_record. rewrite get_bind.
  rewrite (bind_run _ _ _ tt _) by done. rewrite (bind_run _ _ _ tt _) by done.
  unfold mcap_write, mbind, M_bind, get. cbn. by rewrite Hw.
Qed.

(** When the folder of a start is there already, as it is after another
    start in the same second, or cannot be created, the caller waits for ever:
    the task throws before it counts down.  The action believes from then on
    that it records: every later start is refused, and a record that arrives
    with no file open dereferences a null writer. *)
Theorem failed_start_waits_for_ever now prep dur a :
  ra_state a = kStart → mode (ra_options a) = kSignal → recording_flag (ra_signal a) = false →
  ra_executor a = true → ra_tasks a = [] →
  folder_name localtime now ∈ so_dirs (ra_storage a) ∨ can_create (folder_name localtime now) = false →
  ∃ a', StartSignalRecord localtime can_create topic_order yaml_load string_node empty_map set_key now prep dur a =
        (Ok None, a') ∧
    ra_storage a' = ra_storage a ∧
    (∀ now' prep' dur', StartSignalRecord localtime can_create topic_order yaml_load string_node empty_map set_key
       now' prep' dur' a' = (Ok (Some false), a')) ∧
    (∀ now' r, so_writer (ra_storage a) = None → stop_record_timestamp (ra_signal a) = 0 →
       full (max_bag_size a) (ra_storage a) = false →
       (record_task localtime can_create topic_order now' r a').1 = Undef).
Proof.
  intros Hstate Hmode Hflag Hex Htasks Hfolder.
  set (a' := ra_set_signal (set_recording true (ra_signal a)) a).
  assert (start_task localtime can_create topic_order now prep dur a = (Throw (AimRTException "Open new folder to record failed."), a')) as Hstart.
  { unfold start_task. rewrite get_bind, Hstate, Hflag. change (negb (state_eqb kStart kStart)) with false. cbv iota.
    rewrite (bind_run _ _ a tt a') by done.
    rewrite (bind_run _ _ a' false a').
    - done.
    - unfold on_storage, zoom, OpenNewFolderToRecord. rewrite get_bind.
      assert ((if bool_decide (folder_name localtime now ∈ so_dirs (ra_storage a')) then true
               else negb (can_create (folder_name localtime now))) = true) as Hno.
      { destruct Hfolder as [Hin| ->]; [by rewrite bool_decide_true|by destruct (bool_decide _)]. }
      destruct (bool_decide _); [by destruct a|]. rewrite Hno. by destruct a. }
  assert (record_check_state kStart "Method can only be called when state is 'Start'." a = (Ok tt, a)) as Hcheck.
  { unfold record_check_state. by rewrite get_bind, Hstate. }
  assert (record_check_state kStart "Method can only be called when state is 'Start'." a' = (Ok tt, a')) as Hcheck'.
  { unfold record_check_state. rewrite get_bind. cbn [a' ra_state ra_set_signal]. by rewrite Hstate. }
  exists a'. split; [|split; [done|split]].
  - unfold StartSignalRecord. rewrite (bind_run _ _ _ _ _ Hcheck), get_bind, Hmode, Hflag, Hex.
    rewrite (bind_run _ _ a tt a) by done. rewrite (bind_run _ _ a tt a).
    + unfold try_catch, mbind, M_bind. by rewrite Hstart.
    + unfold run_pending. by rewrite get_bind, Htasks.
  - intros now' prep' dur'. unfold StartSignalRecord. rewrite (bind_run _ _ _ _ _ Hcheck'), get_bind.
    cbn [a' ra_options ra_set_signal ra_signal]. by rewrite Hmode.
  - intros now' r Hw Hstop Hfull. unfold record_task. rewrite get_bind. cbn [a' ra_state ra_options ra_set_signal ra_signal].
    rewrite Hstate, Hmode. change (negb (state_eqb kStart kStart)) with false. cbn [recording_flag set_recording stop_record_timestamp].
    rewrite Hstop. cbn [Z.eqb negb andb]. rewrite (bind_run _ _ a' tt a') by done. rewrite get_bind.
    cbn [a' ra_signal ra_set_signal set_recording recording_flag]. by apply add_record_undef.
Qed.
End Failing.

(** * At a concrete input *)

Module RecordDemo.
#[export] Instance demo_mcap : McapLib := {
  mcap_open _ := true; mcap_channel_id n := Z.of_nat n + 1; mcap_file_size f := 50 * Z.of_nat (length (mf_messages f))
}.
Definition demo_localtime (t : Z) : tm := mkTm (t mod 60) (t / 60 mod 60) (t / 3600 mod 24) 1 0 100 0.
Definition demo_order A (m : gmap Z A) : list (Z * A) := map_to_list m.
Definition no_create (name : string) : bool := false.
Definition may_create (name : string) : bool := true.

(** A record of the topic 0 at a number of seconds. *)
Definition at_second (n : Z) : OneRecord := mkOneRecord 0 (n * 1000000000) (n * 1000000000) n [].
Definition demo_records : list OneRecord := map at_second [1; 2; 3; 4; 5; 6].

Definition demo_options (m : Mode) : RecordOptions tree := mkRecordOptions _ "bag" m policy_default None 2 "ex" true [] [].
(** The topic 0 has a schema and is sampled every two seconds. *)
Definition demo_storage : Storage tree :=
  mkStorage _ {[0 := mkMcapStruct "t" "ros2msg" [] "topic" "cdr"]} {[0 := mkTopicRuntimeInfo 0 0 2000000000 true true None]}
    None [] "" None None 0 (double_of 1) 0 ∅ ∅ ∅.
Definition demo_action : RecordAction tree :=
  ra_set_storage demo_storage (ra_set_limits 10 2000000000 (ra_set_executor true (ra_set_state kStart
    (ra_set_options (demo_options kSignal) RecordAction_new)))).
(** A file of second 1, with a message, and a limit that it has reached. *)
Definition demo_open : Storage tree :=
  (write_record policy_default (at_second 1)
     (OpenNewFolderToRecord demo_localtime may_create demo_order policy_default 1000000000 demo_storage).2).2.
Definition file_of (n : Z) : string * string := (folder_name demo_localtime 1000000000, mcap_file_name demo_localtime (n * 1000000000)).

Lemma demo_in_order : in_order demo_records.
Proof. split; repeat constructor; by vm_compute. Qed.
End RecordDemo.
Import RecordDemo.

Lemma start_writes_what_was_asked_witness : ∃ a1,
  mapM_ (RecordAction.record_task demo_localtime may_create demo_order 0) demo_records demo_action = (Ok tt, a1) ∧
  RecordAction.start_task demo_localtime may_create demo_order 6000000000 1 0 a1 =
  start_wanted demo_localtime may_create demo_order 6000000000 0 [at_second 5; at_second 6] a1.
Proof.
  destruct (start_writes_what_was_asked demo_localtime may_create demo_order 0 6000000000 1 0 demo_records demo_action
    eq_refl eq_refl eq_refl eq_refl eq_refl demo_in_order ltac:(apply Forall_forall; bdec) ltac:(zdec) ltac:(zdec)
    ltac:(zdec) ltac:(zdec) ltac:(zdec)) as (a1 & H1 & _ & H2).
  exists a1. split; [exact H1|]. exact H2.
Defined.

Lemma sampling_spaces_records_witness : ∃ a' kept,
  mapM_ AddRecord demo_records demo_action = (Ok tt, a') ∧ ra_tasks a' = map TaskRecord kept ∧ kept `sublist_of` demo_records ∧
  StronglySorted (λ r r', log_timestamp r + 2000000000 ≤ log_timestamp r') (filter (λ r, topic_index r = 0) kept).
Proof.
  destruct (sampling_spaces_records demo_records demo_action eq_refl eq_refl demo_in_order) as (a' & kept & H1 & H2 & H3 & H4).
  - intros t. unfold info_of, demo_action. cbn. destruct (decide (t = 0)) as [->|]; [done|]. by rewrite lookup_singleton_ne.
  - apply Forall_forall. bdec.
  - exists a', kept. split; [exact H1|]. split; [exact H2|]. split; [exact H3|].
    exact (proj1 (proj2 (H4 0) ltac:(zdec))).
Defined.


Lemma failed_start_waits_for_ever_witness : ∃ a',
  StartSignalRecord demo_localtime no_create demo_order (λ _, None) TStr (TMap []) (λ _ _ n, n) 6000000000 1 0 demo_action =
    (Ok None, a') ∧
  (RecordAction.record_task demo_localtime no_create demo_order 0 (at_second 7) a').1 = Undef.
Proof.
  destruct (failed_start_waits_for_ever demo_localtime no_create demo_order (λ _, None) TStr (TMap []) (λ _ _ n, n)
    6000000000 1 0 demo_action eq_refl eq_refl eq_refl eq_refl eq_refl (or_intror eq_refl))
    as (a' & H1 & _ & _ & H2).
  exists a'. split; [exact H1|]. apply H2; by vm_compute.
Defined.

(** Of a full file that began in the same second nothing is left. *)
Example same_second_file_is_lost :
  let r := mkOneRecord 0 1500000000 1500000000 2 [] in
  mf_messages <$> so_bag (AddRecordImpl demo_localtime may_create demo_order policy_default 0 0 r demo_open).2 !! file_of 1 =
  Some [message_of 1 r].
Proof. by vm_compute. Qed.

(** A start that asks for nothing before now writes the newest record all the
    same. *)
Example stale_record_is_written : to_write (7000000000 - 0 * 1000000000) demo_records = [at_second 6].
Proof. by vm_compute. Qed.
