(* ===== verification/PlaybackAction.v ===== *)
(** * Playback: [src/plugins/record_playback_plugin/playback_action.*],
    [metadata_yaml.h]

    A playback action reads the messages of a bag and publishes each on an
    executor at its time.  Two chains of tasks alternate: a batch of records is
    scheduled and the task of its last record schedules the next batch.

    [Reader] is the part that walks the files, [Play] the part that schedules;
    what the executor has not run yet is a list of tasks, of which it may run
    any.  [task_counter_ptr] is the number of its references: when the last one
    goes the action is ready to play again.  The mcap library is a class of
    what it reads: the channels of a file, and its messages from a time until
    another of the topics wanted.  Reading is one step: the mutexes are held
    for it.  Two of them are unlocked by hand and once more by their guard,
    which has no defined effect; here it has none and is counted.

    Theorems: everything in the bag is published, once, at its time; and what
    goes wrong in files without a message, and when playing again. *)

From S2P Require Import Prelude Yaml StringUtil TimeUtil Double RecordAction.
Local Open Scope Z_scope.

(** ** Data *)

(* @src src/src/plugins/record_playback_plugin/playback_action.h:25-44 PlaybackAction::Options *)
Record PlaybackOptions := mkPlaybackOptions {
  pb_bag_path : string;
  pb_mode : Mode;
  pb_executor : string;
  skip_duration_s : Z;
  play_duration_s : Z;
  pb_topic_meta_list : list (string * string)       (* topic name, message type *)
}.

(* @src src/src/plugins/record_playback_plugin/playback_action.h:46-50 PlaybackAction::OneRecord *)
Record PlayRecord := mkPlayRecord { pr_topic_index : Z; dt : Z; pr_data : bytes }.

(* @src src/src/plugins/record_playback_plugin/metadata_yaml.h:14-25 MetaData *)
Record MetaData {node : Type} := mkMetaData {
  version : Z;
  md_topics : list TopicMeta;
  md_extra_attributes : option node;
  md_files : list FileMeta
}.
Arguments MetaData : clear implicits.

Definition kVersion : Z := 1.

(** The channels of a file with their topics, and its messages with
    [start ≤ logTime < end] of the topics wanted. *)
Class McapReaderLib := {
  reader_open : string * string → bool;
  reader_channels : string * string → list (Z * string);
  read_messages : string * string → Z → Z → (string → bool) → list McapMessage
}.

Definition MaxTime : Z := 2 ^ 64 - 1.

Record Reader := mkReader {
  rd_bag_path : string;
  rd_files : list FileMeta;
  topic_name_to_topic_id_map : gmap string Z;
  channel_id_to_topic_id_map : gmap Z Z;
  msg_reader_itr : option (list McapMessage);       (* the messages from the iterator on *)
  cur_mcap_file_index : nat;
  start_playback_timestamp : Z;
  stop_playback_timestamp : Z
}.

(* @src src/src/plugins/record_playback_plugin/playback_action.h:126-130 PlaybackAction::PlayBackState *)
Inductive PlayBackState := kReadyToPlay | kPlaying | kGetStopSignal.
#[export] Instance PlayBackState_eq_dec : EqDecision PlayBackState.
Proof. solve_decision. Defined.

(** A task on the executor; the last of its batch schedules the next one. *)
Record PlayTask := mkPlayTask { pt_time : Z; pt_record : PlayRecord; pt_last : bool }.

Record Play := mkPlay {
  pl_reader : Reader;
  pl_executor : bool;
  has_pub_record_func : bool;
  start_timestamp_ : Z;
  playback_state : PlayBackState;
  task_counter : nat;
  pl_pending : list PlayTask;
  pl_published : list PlayRecord;
  double_unlocks : nat
}.

(* @src src/src/plugins/record_playback_plugin/playback_action.h:96-132 PlaybackAction *)
Record PlaybackAction := mkPlaybackAction {
  pa_options : PlaybackOptions;
  pa_state : State;
  pa_has_get_executor : bool;
  pa_has_get_type_support : bool;
  pa_topic_meta_map : gmap Z TopicMeta;
  pa_play : Play
}.

(** ** Options and metadata *)

Section Decode.
Context {node : Type} `{YamlOps node}.

(* @src src/src/plugins/record_playback_plugin/playback_action.cc:42-74 convert<PlaybackAction::Options>::decode *)
Definition playback_decode (n : node) (rhs : PlaybackOptions) : res (option PlaybackOptions) :=
  if negb (IsMap n) then Ok None
  else
    path ← as_of as_string (index n "bag_path");
    m ← as_of as_string (index n "mode");
    m ← mode_of (lower m);
    ex ← as_of as_string (index n "executor");
    skip ← set_if n "skip_duration_s" as_uint64 (skip_duration_s rhs);
    play ← set_if n "play_duration_s" as_uint64 (play_duration_s rhs);
    topics ← each_of n "topic_meta_list"
      (λ c, t ← as_of as_string (index c "topic_name"); m ← as_of as_string (index c "msg_type"); Ok (t, m))
      (pb_topic_meta_list rhs);
    Ok (Some (mkPlaybackOptions path m ex skip play topics)).

Definition playback_default : PlaybackOptions := mkPlaybackOptions "" kImd "" 0 0 [].

(* @src src/src/plugins/record_playback_plugin/metadata_yaml.h:65-99 convert<MetaData>::decode *)
Definition metadata_decode (n : node) (rhs : MetaData node) : res (option (MetaData node)) :=
  if negb (IsMap n) then Ok None
  else
    v ← as_of as_uint32 (index n "version");
    let extra := match index n "extra_attributes" with Some c => Some c | None => Some NullNode end in
    topics ← each_of n "topics"
      (λ c, id ← as_of as_uint64 (index c "id");
            t ← as_of as_string (index c "topic_name");
            m ← as_of as_string (index c "msg_type");
            s ← as_of as_string (index c "serialization_type");
            Ok (mkTopicMeta id t m s true false (S754_zero false))) (md_topics rhs);
    files ← each_of n "files"
      (λ c, p ← as_of as_string (index c "path");
            t ← as_of as_uint64 (index c "start_timestamp");
            Ok (mkFileMeta p t)) (md_files rhs);
    Ok (Some (mkMetaData _ v topics extra files)).

Definition metadata_default : MetaData node := mkMetaData _ 0 [] None [].
End Decode.

(** ** Reading *)

Section Reading.
Context `{McapReaderLib}.
Implicit Types s : Reader.

Definition rd_set_channels x s := mkReader (rd_bag_path s) (rd_files s) (topic_name_to_topic_id_map s) x (msg_reader_itr s)
  (cur_mcap_file_index s) (start_playback_timestamp s) (stop_playback_timestamp s).
Definition rd_set_itr x s := mkReader (rd_bag_path s) (rd_files s) (topic_name_to_topic_id_map s) (channel_id_to_topic_id_map s) x
  (cur_mcap_file_index s) (start_playback_timestamp s) (stop_playback_timestamp s).
Definition rd_set_index x s := mkReader (rd_bag_path s) (rd_files s) (topic_name_to_topic_id_map s) (channel_id_to_topic_id_map s)
  (msg_reader_itr s) x (start_playback_timestamp s) (stop_playback_timestamp s).
Definition rd_set_files x s := mkReader (rd_bag_path s) x (topic_name_to_topic_id_map s) (channel_id_to_topic_id_map s)
  (msg_reader_itr s) (cur_mcap_file_index s) (start_playback_timestamp s) (stop_playback_timestamp s).
Definition rd_set_times x y s := mkReader (rd_bag_path s) (rd_files s) (topic_name_to_topic_id_map s) (channel_id_to_topic_id_map s)
  (msg_reader_itr s) (cur_mcap_file_index s) x y.

(* @src src/src/plugins/record_playback_plugin/playback_action.cc:202-212 PlaybackAction::ClosePlayback *)
Definition ClosePlayback : M Reader unit := modify (rd_set_itr None).

(** The topics that are played. *)
Definition wanted s (topic : string) : bool := bool_decide (is_Some (topic_name_to_topic_id_map s !! topic)).

(* @src src/src/plugins/record_playback_plugin/playback_action.cc:368-388 PlaybackAction::OpenNewMcaptoPlayBack (options) *)
Definition messages_of s (file : FileMeta) : list McapMessage :=
  read_messages (rd_bag_path s, fm_path file) (start_playback_timestamp s)
    (if 0 <? stop_playback_timestamp s then stop_playback_timestamp s else MaxTime) (wanted s).

(* @src src/src/plugins/record_playback_plugin/playback_action.cc:362-366 PlaybackAction::OpenNewMcaptoPlayBack (channels) *)
Definition enter_channels (channels : list (Z * string)) s : gmap Z Z :=
  foldl (λ m '(id, topic), match topic_name_to_topic_id_map s !! topic with Some t => <[id := t]> m | None => m end)
    (channel_id_to_topic_id_map s) channels.

(* @src src/src/plugins/record_playback_plugin/playback_action.cc:333-391 PlaybackAction::OpenNewMcaptoPlayBack *)
Definition OpenNewMcaptoPlayBack : M Reader bool :=
  ClosePlayback;;
  s ← get;
  match rd_files s !! cur_mcap_file_index s with
  | None => mret false
  | Some file =>
      modify (rd_set_index (cur_mcap_file_index s + 1)%nat);;
      if negb (stop_playback_timestamp s =? 0) && (stop_playback_timestamp s <? start_timestamp file) then mret false
      else if negb (reader_open (rd_bag_path s, fm_path file)) then mret false
      else
        match reader_channels (rd_bag_path s, fm_path file) with
        | [] => mret false
        | channels =>
            modify (λ s, rd_set_channels (enter_channels channels s) s);;
            modify (rd_set_itr (Some (messages_of s file)));;
            mret true
        end
  end.

(** The message of the iterator, which moves on; at the end it has none. *)
(* @src src/src/plugins/record_playback_plugin/playback_action.cc:416-422 PlaybackAction::AddPlaybackTasks (message) *)
Definition take_message : M Reader (option (Z * McapMessage)) :=
  s ← get;
  match msg_reader_itr s with
  | Some (m :: rest) =>
      let topic_id := default 0 (channel_id_to_topic_id_map s !! channelId m) in
      modify (rd_set_channels (<[channelId m := topic_id]> (channel_id_to_topic_id_map s)));;
      modify (rd_set_itr (Some rest));;
      mret (Some (topic_id, m))
  | _ => undef
  end.

(** [None]: there is no more file. *)
(* @src src/src/plugins/record_playback_plugin/playback_action.cc:411-422 PlaybackAction::AddPlaybackTasks (read) *)
Definition next_message : M Reader (option (Z * McapMessage)) :=
  s ← get;
  more ← match msg_reader_itr s with Some (_ :: _) => mret true | _ => OpenNewMcaptoPlayBack end;
  if negb more then mret None else take_message.

(** How many messages are left, for the loop that reads them. *)
Definition messages_left s : nat :=
  length (default [] (msg_reader_itr s)) +
  sum_list_with (λ f, length (messages_of s f)) (drop (cur_mcap_file_index s) (rd_files s)).
End Reading.

(** ** Scheduling *)

Section Scheduling.
Context `{McapReaderLib}.
Implicit Types p : Play.

Definition pl_set_reader x p := mkPlay x (pl_executor p) (has_pub_record_func p) (start_timestamp_ p) (playback_state p)
  (task_counter p) (pl_pending p) (pl_published p) (double_unlocks p).
Definition pl_set_state x p := mkPlay (pl_reader p) (pl_executor p) (has_pub_record_func p) (start_timestamp_ p) x
  (task_counter p) (pl_pending p) (pl_published p) (double_unlocks p).
Definition pl_set_funcs e f p := mkPlay (pl_reader p) e f (start_timestamp_ p) (playback_state p)
  (task_counter p) (pl_pending p) (pl_published p) (double_unlocks p).
Definition pl_set_start x p := mkPlay (pl_reader p) (pl_executor p) (has_pub_record_func p) x (playback_state p)
  (task_counter p) (pl_pending p) (pl_published p) (double_unlocks p).
Definition pl_set_tasks c l p := mkPlay (pl_reader p) (pl_executor p) (has_pub_record_func p) (start_timestamp_ p) (playback_state p)
  c l (pl_published p) (double_unlocks p).
Definition pl_set_published x p := mkPlay (pl_reader p) (pl_executor p) (has_pub_record_func p) (start_timestamp_ p) (playback_state p)
  (task_counter p) (pl_pending p) x (double_unlocks p).
Definition pl_unlock_again p := mkPlay (pl_reader p) (pl_executor p) (has_pub_record_func p) (start_timestamp_ p) (playback_state p)
  (task_counter p) (pl_pending p) (pl_published p) (double_unlocks p + 1).

Definition on_reader {A} (m : M Reader A) : M Play A := zoom pl_reader pl_set_reader m.

(** Destructors run however a call ends. *)
Definition finally {A} (m : M Play A) (f : Play → Play) : M Play A := λ p, let '(r, p') := m p in (r, f p').

Definition kMaxRecordSize : nat := 1000.

(** Up to a second or up to 1000 records. *)
(* @src src/src/plugins/record_playback_plugin/playback_action.cc:410-451 PlaybackAction::AddPlaybackTasks (loop) *)
Fixpoint read_batch (fuel : nat) (cur_start_timestamp : Z) (records : list PlayRecord) : M Play (list PlayRecord) :=
  match fuel with
  | O => undef
  | Datatypes.S fuel' =>
      next ← on_reader next_message;
      match next with
      | None => mret records
      | Some (topic_id, message) =>
          p ← get;
          let timestamp := logTime message in
          let stop := stop_playback_timestamp (pl_reader p) in
          if (0 <? stop) && (stop <? timestamp) then modify (pl_set_state kGetStopSignal);; mret records
          else
            let records := records ++ [mkPlayRecord topic_id (wrap64 (timestamp - start_playback_timestamp (pl_reader p)))
                                         (RecordAction.data message)] in
            if cur_start_timestamp =? 0 then read_batch fuel' timestamp records
            else if (1000000000 <=? wrap64 (timestamp - cur_start_timestamp)) || (kMaxRecordSize <=? length records)%nat
            then mret records
            else read_batch fuel' cur_start_timestamp records
      end
  end.

(* @src src/src/plugins/record_playback_plugin/playback_action.cc:463-485 PlaybackAction::AddPlaybackTasks (schedule) *)
Fixpoint schedule (records : list PlayRecord) : M Play unit :=
  match records with
  | [] => mret tt
  | record :: records' =>
      p ← get;
      tp ← lift (GetTimePointFromTimestampNs (wrap64 (start_timestamp_ p + dt record)));
      check_throw (pl_executor p) "Executor is null.";;
      let is_last := match records' with [] => true | _ => false end in
      modify (λ p, pl_set_tasks (if is_last then task_counter p + 1 else task_counter p)%nat
                     (pl_pending p ++ [mkPlayTask tp record is_last]) p);;
      schedule records'
  end.

(* @src src/src/plugins/record_playback_plugin/playback_action.cc:393-486 PlaybackAction::AddPlaybackTasks *)
Definition AddPlaybackTasks : M Play unit :=
  p ← get;
  if bool_decide (playback_state p = kGetStopSignal) then mret tt
  else
    finally
      (records ← read_batch (messages_left (pl_reader p) + 1) 0 [];
       match records with
       | [] => modify (pl_set_state kGetStopSignal)
       | _ => schedule records
       end) pl_unlock_again.

(** A reference to the counter goes. *)
(* @src src/src/plugins/record_playback_plugin/playback_action.cc:322-327 PlaybackAction::StartPlaybackImpl (task counter) *)
Definition release p : Play :=
  let p' := pl_set_tasks (task_counter p - 1)%nat (pl_pending p) p in
  if (task_counter p' =? 0)%nat then pl_set_state kReadyToPlay p' else p'.

(* @src src/src/plugins/record_playback_plugin/playback_action.cc:307-331 PlaybackAction::StartPlaybackImpl *)
Definition StartPlaybackImpl (now skip_duration_s play_duration_s : Z) : M Play unit :=
  p ← get;
  match rd_files (pl_reader p) with
  | [] => undef
  | file :: _ =>
      let start := wrap64 (start_timestamp file + skip_duration_s * 1000000000) in
      on_reader (modify (rd_set_times start (if play_duration_s =? 0 then 0 else wrap64 (start + play_duration_s * 1000000000))));;
      modify (pl_set_start now);;
      modify (λ p, pl_set_tasks 1 (pl_pending p) p);;
      finally (AddPlaybackTasks;; AddPlaybackTasks) release
  end.

(** The executor runs a task. *)
(* @src src/src/plugins/record_playback_plugin/playback_action.cc:469-484 PlaybackAction::AddPlaybackTasks (task) *)
Definition fire (i : nat) : M Play unit :=
  p ← get;
  match pl_pending p !! i with
  | None => mret tt
  | Some t =>
      modify (pl_set_tasks (task_counter p) (take i (pl_pending p) ++ drop (i + 1) (pl_pending p)));;
      finally
        (check_throw (has_pub_record_func p) "bad_function_call";;
         modify (λ p, pl_set_published (pl_published p ++ [pt_record t]) p);;
         if pt_last t then AddPlaybackTasks else mret tt)
        (if pt_last t then release else id)
  end.

(** It starts when it is ready, and unlocks the mutex of the state twice. *)
(* @src src/src/plugins/record_playback_plugin/playback_action.cc:278-286 PlaybackAction::StartSignalPlayback (start) *)
Definition start_if_ready (now skip_duration_s play_duration_s : Z) : M Play bool :=
  p ← get;
  if bool_decide (playback_state p = kReadyToPlay) then
    modify (pl_set_state kPlaying);;
    finally (StartPlaybackImpl now skip_duration_s play_duration_s) pl_unlock_again;;
    mret true
  else mret false.

Definition stop_if_playing : M Play unit :=
  modify (λ p, if bool_decide (playback_state p = kPlaying) then pl_set_state kGetStopSignal p else p).
End Scheduling.

(** ** The action *)

Section PlaybackAction.
Context {node : Type} `{YamlOps node} `{McapReaderLib}.
(** [canonical(absolute(path))], which file of a folder exists, the metadata file. *)
Context (canonical : string → res string) (file_exists : string * string → bool) (load_file : string * string → res node).
(** Executors by name: whether they support timers.  Type supports by type. *)
Context (find_executor : string → option bool) (find_type : string → option (list string)).
Implicit Types a : PlaybackAction.
Abbreviation P := (M PlaybackAction).

Definition pa_set_options x a := mkPlaybackAction x (pa_state a) (pa_has_get_executor a) (pa_has_get_type_support a) (pa_topic_meta_map a) (pa_play a).
Definition pa_set_state x a := mkPlaybackAction (pa_options a) x (pa_has_get_executor a) (pa_has_get_type_support a) (pa_topic_meta_map a) (pa_play a).
Definition pa_set_funcs e t a := mkPlaybackAction (pa_options a) (pa_state a) e t (pa_topic_meta_map a) (pa_play a).
Definition pa_set_topics x a := mkPlaybackAction (pa_options a) (pa_state a) (pa_has_get_executor a) (pa_has_get_type_support a) x (pa_play a).
Definition pa_set_play x a := mkPlaybackAction (pa_options a) (pa_state a) (pa_has_get_executor a) (pa_has_get_type_support a) (pa_topic_meta_map a) x.

Definition PlaybackAction_new : PlaybackAction :=
  mkPlaybackAction playback_default kPreInit false false ∅
    (mkPlay (mkReader "" [] ∅ ∅ None 0 0 0) false false 0 kReadyToPlay 0 [] [] 0).

Definition on_play {A} (m : M Play A) : P A := zoom pa_play pa_set_play m.

Definition playback_exchange (new old : State) (what : string) : P unit :=
  a ← get;
  modify (pa_set_state new);;
  check_throw (state_eqb (pa_state a) old) what.

Definition playback_check_state (x : State) (what : string) : P unit := a ← get; check_throw (state_eqb (pa_state a) x) what.

(** The topics selected by the options, if they are fewer or more. *)
(* @src src/src/plugins/record_playback_plugin/playback_action.cc:111-131 PlaybackAction::Initialize (select) *)
Definition select_topics (wanted : list (string * string)) (topics : list TopicMeta) : list TopicMeta :=
  match wanted with
  | [] => topics
  | _ =>
      let selected := omap (λ '(name, type),
        List.find (λ t, String.eqb name (tm_topic_name t) && String.eqb type (tm_msg_type t)) topics) wanted in
      if (length topics =? length selected)%nat then topics else selected
  end.

(* @src src/src/plugins/record_playback_plugin/playback_action.cc:134-147 PlaybackAction::Initialize (check) *)
Definition check_topic (t : TopicMeta) : P unit :=
  match find_type (tm_msg_type t) with
  | None => throw (AimRTException "Can not find type '{}' in any type support pkg!")
  | Some types =>
      check_throw (bool_decide (tm_serialization_type t ∈ types)) "Msg type '{}' does not support serialization type '{}'.";;
      modify (λ a, pa_set_topics (if pa_topic_meta_map a !! tm_id t then pa_topic_meta_map a
                                  else <[tm_id t := t]> (pa_topic_meta_map a)) a)
  end.

(** The first file that begins after the start, less one. *)
(* @src src/src/plugins/record_playback_plugin/playback_action.cc:174-178 PlaybackAction::Initialize (first file) *)
Fixpoint first_file (start : Z) (later : list FileMeta) : nat :=
  match later with
  | [] => O
  | f :: later' => if start <? start_timestamp f then O else Datatypes.S (first_file start later')
  end.

(* @src src/src/plugins/record_playback_plugin/playback_action.cc:81-184 PlaybackAction::Initialize *)
Definition playback_Initialize (options_node : option node) : P unit :=
  playback_exchange kInit kPreInit "Local channel backend can only be initialized once.";;
  o ← lift (read_options playback_decode playback_default options_node);
  modify (λ a, pa_set_options (default (pa_options a) o) a);;
  a ← get;
  check_throw (pa_has_get_type_support a) "Get type support function is not set before initialize.";;
  let o := pa_options a in
  path ← lift (canonical (pb_bag_path o));
  modify (pa_set_options (mkPlaybackOptions path (pb_mode o) (pb_executor o) (skip_duration_s o) (play_duration_s o)
                            (pb_topic_meta_list o)));;
  check_throw (file_exists (path, "metadata.yaml"%string)) "Can not find 'metadata.yaml' in bag path '{}'.";;
  root ← lift (load_file (path, "metadata.yaml"%string));
  md ← lift (as_of (λ n, r ← metadata_decode n metadata_default;
                         match r with Some md => Ok md | None => Throw (YamlException "bad conversion") end)
               (index root "aimrt_bagfile_information"));
  on_play (on_reader (modify (rd_set_files (md_files md))));;
  check_throw (version md =? kVersion) "Version inconsistency, cur plugin version: {}, bag version: {}";;
  let topics := select_topics (pb_topic_meta_list o) (md_topics md) in
  mapM_ check_topic topics;;
  check_throw (negb (bool_decide (md_files md = []))) "Empty bag! bag path: {}";;
  match filter (λ f, file_exists (path, fm_path f) = true) (md_files md) with
  | [] =>
      on_play (on_reader (modify (rd_set_files [])));;
      throw (AimRTException "Can not find useful bag file in metadata.yaml.")
  | file :: later =>
      let start := wrap64 (start_timestamp file + skip_duration_s o * 1000000000) in
      on_play (on_reader (modify (λ s, mkReader path (file :: later)
        (foldl (λ m t, <[tm_topic_name t := tm_id t]> m) (topic_name_to_topic_id_map s) topics)
        (channel_id_to_topic_id_map s) (msg_reader_itr s) (first_file start later) start
        (if play_duration_s o =? 0 then 0 else wrap64 (start + play_duration_s o * 1000000000)))))
  end.

(* @src src/src/plugins/record_playback_plugin/playback_action.cc:186-200 PlaybackAction::Start *)
Definition playback_Start (now : Z) : P unit :=
  playback_exchange kStart kInit "Method can only be called when state is 'Init'.";;
  a ← get;
  match pb_mode (pa_options a) with
  | kImd => on_play (start_if_ready now (skip_duration_s (pa_options a)) (play_duration_s (pa_options a)));; mret tt
  | kSignal => mret tt
  end.

(* @src src/src/plugins/record_playback_plugin/playback_action.cc:214-223 PlaybackAction::Shutdown *)
Definition playback_Shutdown : P unit :=
  a ← get;
  modify (pa_set_state kShutdown);;
  if state_eqb (pa_state a) kShutdown then mret tt
  else on_play stop_if_playing;; on_play (on_reader ClosePlayback).

(* @src src/src/plugins/record_playback_plugin/playback_action.cc:225-240 PlaybackAction::InitExecutor *)
Definition playback_InitExecutor : P unit :=
  playback_check_state kInit "Method can only be called when state is 'Init'.";;
  a ← get;
  check_throw (pa_has_get_executor a) "Get executor function is not set before initialize.";;
  let ex := find_executor (pb_executor (pa_options a)) in
  on_play (modify (λ p, pl_set_funcs (bool_decide (is_Some ex)) (has_pub_record_func p) p));;
  match ex with
  | None => throw (AimRTException "Can not get executor {}.")
  | Some timers => check_throw timers "Record executor {} do not support time schedule!"
  end.

(* @src src/src/plugins/record_playback_plugin/playback_action.cc:242-249 PlaybackAction::RegisterGetExecutorFunc *)
Definition playback_RegisterGetExecutorFunc (is_set : bool) : P unit :=
  playback_check_state kPreInit "Method can only be called when state is 'PreInit'.";;
  modify (λ a, pa_set_funcs is_set (pa_has_get_type_support a) a).

(* @src src/src/plugins/record_playback_plugin/playback_action.cc:251-258 PlaybackAction::RegisterGetTypeSupportFunc *)
Definition playback_RegisterGetTypeSupportFunc (is_set : bool) : P unit :=
  playback_check_state kPreInit "Method can only be called when state is 'PreInit'.";;
  modify (λ a, pa_set_funcs (pa_has_get_executor a) is_set a).

(* @src src/src/plugins/record_playback_plugin/playback_action.cc:260-266 PlaybackAction::RegisterPubRecordFunc *)
Definition RegisterPubRecordFunc (is_set : bool) : P unit :=
  playback_check_state kInit "Method can only be called when state is 'Init'.";;
  on_play (modify (λ p, pl_set_funcs (pl_executor p) is_set p)).

(* @src src/src/plugins/record_playback_plugin/playback_action.cc:268-290 PlaybackAction::StartSignalPlayback *)
Definition StartSignalPlayback (now skip_duration_s play_duration_s : Z) : P bool :=
  playback_check_state kStart "Method can only be called when state is 'Start'.";;
  a ← get;
  match pb_mode (pa_options a) with
  | kImd => mret false
  | kSignal => on_play (start_if_ready now skip_duration_s play_duration_s)
  end.

(* @src src/src/plugins/record_playback_plugin/playback_action.cc:292-305 PlaybackAction::StopSignalPlayback *)
Definition StopSignalPlayback : P unit :=
  playback_check_state kStart "Method can only be called when state is 'Start'.";;
  a ← get;
  match pb_mode (pa_options a) with
  | kImd => mret tt
  | kSignal => on_play stop_if_playing
  end.
End PlaybackAction.
