(* ===== verification/PlaybackTheory.v ===== *)
(** * Theorems about playback

    What the reader will yield, what a batch takes of it, and the invariant of
    every order in which the executor runs the tasks; what goes wrong. *)

From S2P Require Import Prelude Yaml StringUtil TimeUtil Double RecordAction PlaybackAction.
Local Open Scope Z_scope.

(** What is documented of the mcap library. *)
Class McapReaderLaws `{McapReaderLib} := {
  messages_in_range path start stop wanted m : m ∈ read_messages path start stop wanted → start ≤ logTime m < stop;
  messages_have_channels path start stop wanted m : m ∈ read_messages path start stop wanted →
    ∃ topic, (channelId m, topic) ∈ reader_channels path ∧ wanted topic = true;
  channels_distinct path : NoDup (map fst (reader_channels path))
}.

Section Reading.
Context `{McapReaderLaws}.
Implicit Types s : Reader.

(** Files that can be played, and files that begin after the playback. *)
Definition good_file s (f : FileMeta) : Prop :=
  (stop_playback_timestamp s = 0 ∨ start_timestamp f ≤ stop_playback_timestamp s) ∧
  reader_open (rd_bag_path s, fm_path f) = true ∧ messages_of s f ≠ [].
Definition late_file s (f : FileMeta) : Prop :=
  stop_playback_timestamp s ≠ 0 ∧ stop_playback_timestamp s < start_timestamp f.

(** The messages of a file with the topics of their channels. *)
Definition topic_in s (f : FileMeta) (m : McapMessage) : Z :=
  match List.find (λ c, c.1 =? channelId m) (reader_channels (rd_bag_path s, fm_path f)) with
  | Some (_, topic) => default 0 (topic_name_to_topic_id_map s !! topic)
  | None => 0
  end.
Definition file_script s (f : FileMeta) : list (Z * McapMessage) := map (λ m, (topic_in s f m, m)) (messages_of s f).

(** The setup of a playback, which reading keeps. *)
Record same_setup s s' : Prop := {
  same_path : rd_bag_path s' = rd_bag_path s;
  same_files : rd_files s' = rd_files s;
  same_topics : topic_name_to_topic_id_map s' = topic_name_to_topic_id_map s;
  same_start : start_playback_timestamp s' = start_playback_timestamp s;
  same_stop : stop_playback_timestamp s' = stop_playback_timestamp s
}.

(** The reader will yield [l]. *)
Definition yields s (l : list (Z * McapMessage)) : Prop :=
  ∃ good late,
    drop (cur_mcap_file_index s) (rd_files s) = good ++ late ∧ Forall (good_file s) good ∧ Forall (late_file s) late ∧
    (0 ≤ stop_playback_timestamp s) ∧
    (∀ m, m ∈ default [] (msg_reader_itr s) →
       is_Some (channel_id_to_topic_id_map s !! channelId m) ∧
       (stop_playback_timestamp s = 0 ∨ logTime m < stop_playback_timestamp s)) ∧
    l = map (λ m, (default 0 (channel_id_to_topic_id_map s !! channelId m), m)) (default [] (msg_reader_itr s)) ++
        concat (map (file_script s) good).

Lemma find_channel (channels : list (Z * string)) c topic :
  NoDup (map fst channels) → (c, topic) ∈ channels → List.find (λ x, x.1 =? c) channels = Some (c, topic).
Proof.
  induction channels as [|[c' t'] channels IH]; intros Hnd Hin; [by apply not_elem_of_nil in Hin|].
  cbn in *. apply NoDup_cons in Hnd as [Hc Hnd]. apply elem_of_cons in Hin as [[= <- <-]|Hin].
  - by rewrite Z.eqb_refl.
  - destruct (Z.eqb_spec c' c) as [->|]; [|by apply IH]. destruct Hc. apply list_elem_of_fmap. by exists (c, topic).
Qed.

Lemma enter_channels_lookup s channels c topic i :
  NoDup (map fst channels) → (c, topic) ∈ channels → topic_name_to_topic_id_map s !! topic = Some i →
  enter_channels channels s !! c = Some i.
Proof.
  unfold enter_channels. generalize (channel_id_to_topic_id_map s).
  induction channels as [|[c' t'] channels IH]; intros m Hnd Hin Hi; [by apply not_elem_of_nil in Hin|].
  cbn in *. apply NoDup_cons in Hnd as [Hc Hnd]. apply elem_of_cons in Hin as [[= <- <-]|Hin]; [|by apply IH].
  rewrite Hi. clear IH Hi Hnd.
  assert (<[c := i]> m !! c = Some i) as Hm by apply lookup_insert_eq. revert Hm. generalize (<[c := i]> m).
  induction channels as [|[c' t'] channels IH]; intros m' Hm; [done|]. cbn in *.
  rewrite elem_of_cons in Hc. apply IH; [naive_solver|].
  destruct (topic_name_to_topic_id_map s !! t'); [|done]. rewrite lookup_insert_ne; [done|naive_solver].
Qed.

(** A channel of a message of a file is known once it is open. *)
Lemma message_topic s f m : m ∈ messages_of s f →
  enter_channels (reader_channels (rd_bag_path s, fm_path f)) s !! channelId m = Some (topic_in s f m).
Proof.
  intros Hm. apply messages_have_channels in Hm as (topic & Hin & Hw). apply bool_decide_eq_true in Hw as [i Hi].
  pose proof (channels_distinct (rd_bag_path s, fm_path f)) as Hnd. unfold topic_in.
  rewrite (find_channel _ _ _ Hnd Hin), Hi. by apply (enter_channels_lookup _ _ _ topic).
Qed.

Lemma same_setup_refl s : same_setup s s.
Proof. done. Qed.

Lemma same_setup_trans s1 s2 s3 : same_setup s1 s2 → same_setup s2 s3 → same_setup s1 s3.
Proof. intros [] []. split; congruence. Qed.

Lemma same_messages s s' f : same_setup s s' → messages_of s' f = messages_of s f.
Proof. intros Hs. destruct s, s', Hs. cbn in *. by subst. Qed.

Lemma same_script s s' f : same_setup s s' → file_script s' f = file_script s f.
Proof. intros Hs. destruct s, s', Hs. cbn in *. by subst. Qed.

Lemma same_good s s' f : same_setup s s' → good_file s f → good_file s' f.
Proof. intros Hs. destruct s, s', Hs. cbn in *. by subst. Qed.

Lemma same_late s s' f : same_setup s s' → late_file s f → late_file s' f.
Proof. intros Hs. destruct s, s', Hs. cbn in *. by subst. Qed.

(** Opening the next file: one that can be opened, or none. *)
Lemma open_file s f later :
  drop (cur_mcap_file_index s) (rd_files s) = f :: later →
  stop_playback_timestamp s = 0 ∨ start_timestamp f ≤ stop_playback_timestamp s →
  reader_open (rd_bag_path s, fm_path f) = true → reader_channels (rd_bag_path s, fm_path f) ≠ [] →
  ∃ s', OpenNewMcaptoPlayBack s = (Ok true, s') ∧ same_setup s s' ∧ drop (cur_mcap_file_index s') (rd_files s') = later ∧
    msg_reader_itr s' = Some (messages_of s f) ∧
    ∀ m, m ∈ messages_of s f → channel_id_to_topic_id_map s' !! channelId m = Some (topic_in s f m).
Proof.
  intros Hdrop Hstop Hopen Hne. unfold OpenNewMcaptoPlayBack, ClosePlayback.
  rewrite (bind_run _ _ s tt (rd_set_itr None s)) by done. rewrite get_bind. cbn [rd_files rd_set_itr cur_mcap_file_index].
  assert (rd_files s !! cur_mcap_file_index s = Some f) as ->.
  { replace (cur_mcap_file_index s) with (cur_mcap_file_index s + 0)%nat by lia. by rewrite <-lookup_drop, Hdrop. }
  rewrite (bind_run _ _ _ tt (rd_set_index (cur_mcap_file_index s + 1)%nat (rd_set_itr None s))) by done.
  cbn [stop_playback_timestamp rd_set_itr rd_bag_path].
  assert (negb (stop_playback_timestamp s =? 0) && (stop_playback_timestamp s <? start_timestamp f) = false) as ->.
  { destruct Hstop as [->|Hstop]; [done|]. apply andb_false_intro2. by apply Z.ltb_ge. }
  rewrite Hopen. cbn [negb]. destruct (reader_channels (rd_bag_path s, fm_path f)) as [|c channels] eqn:Hch; [done|].
  eexists. split; [done|]. split; [done|]. split; [cbn; by rewrite <-drop_drop, Hdrop|].
  split; [done|]. intros m Hm. by rewrite <-(message_topic s f m Hm), Hch.
Qed.

Lemma good_channels s f : good_file s f → reader_channels (rd_bag_path s, fm_path f) ≠ [].
Proof.
  intros (_ & _ & Hne) Hch. destruct (messages_of s f) as [|m ms] eqn:Hms; [done|].
  assert (m ∈ messages_of s f) as Hm by (rewrite Hms; left).
  apply messages_have_channels in Hm as (t & Hin & _). rewrite Hch in Hin. by apply not_elem_of_nil in Hin.
Qed.

Lemma open_none s late :
  drop (cur_mcap_file_index s) (rd_files s) = late → Forall (late_file s) late →
  ∃ s', OpenNewMcaptoPlayBack s = (Ok false, s') ∧ same_setup s s' ∧ msg_reader_itr s' = None ∧
    ∃ late', drop (cur_mcap_file_index s') (rd_files s') = late' ∧ Forall (late_file s) late'.
Proof.
  intros Hdrop Hlate. unfold OpenNewMcaptoPlayBack, ClosePlayback.
  rewrite (bind_run _ _ s tt (rd_set_itr None s)) by done. rewrite get_bind. cbn [rd_files rd_set_itr cur_mcap_file_index].
  destruct late as [|f late].
  - assert (rd_files s !! cur_mcap_file_index s = None) as ->.
    { replace (cur_mcap_file_index s) with (cur_mcap_file_index s + 0)%nat by lia. by rewrite <-lookup_drop, Hdrop. }
    eexists. split; [done|]. split; [done|]. split; [done|]. by eexists.
  - assert (rd_files s !! cur_mcap_file_index s = Some f) as ->.
    { replace (cur_mcap_file_index s) with (cur_mcap_file_index s + 0)%nat by lia. by rewrite <-lookup_drop, Hdrop. }
    rewrite (bind_run _ _ _ tt (rd_set_index (cur_mcap_file_index s + 1)%nat (rd_set_itr None s))) by done.
    cbn [stop_playback_timestamp rd_set_itr]. apply Forall_cons in Hlate as [[Hz Hlt] Hlate].
    rewrite (proj2 (Z.eqb_neq _ _) Hz), (proj2 (Z.ltb_lt _ _) Hlt). cbn [negb andb].
    eexists. split; [done|]. split; [done|]. split; [done|]. exists late. split; [|done].
    cbn. by rewrite <-drop_drop, Hdrop.
Qed.

(** The iterator moves to the next message, which is the first the reader yields. *)
Lemma take_message_spec s l : yields s l → default [] (msg_reader_itr s) ≠ [] →
  ∃ x l' s', l = x :: l' ∧ take_message s = (Ok (Some x), s') ∧ same_setup s s' ∧ yields s' l' ∧
    (stop_playback_timestamp s = 0 ∨ logTime x.2 < stop_playback_timestamp s).
Proof.
  intros (good & late & Hdrop & Hgood & Hlate & Hstop & Hknown & Hl) Hne. unfold take_message. rewrite get_bind.
  destruct (msg_reader_itr s) as [[|m rest]|]; [done| |done]. cbn in Hknown, Hl.
  destruct (Hknown m ltac:(left)) as [[i Hi] Hm].
  assert (<[channelId m := default 0 (Some i)]> (channel_id_to_topic_id_map s) = channel_id_to_topic_id_map s) as Hins
    by by apply insert_id.
  eexists _, _, _. split; [exact Hl|]. split; [done|]. split; [done|]. split; [|done].
  exists good, late. cbn. rewrite Hi, Hins. do 4 (split; [done|]). split; [|done].
  intros m' Hm'. apply Hknown. by right.
Qed.

(** After a good file has been opened the reader yields the same. *)
Lemma open_yields s l good late f :
  drop (cur_mcap_file_index s) (rd_files s) = f :: good ++ late → Forall (good_file s) (f :: good) → Forall (late_file s) late →
  0 ≤ stop_playback_timestamp s → l = concat (map (file_script s) (f :: good)) →
  ∃ s', OpenNewMcaptoPlayBack s = (Ok true, s') ∧ same_setup s s' ∧ yields s' l ∧ default [] (msg_reader_itr s') ≠ [].
Proof.
  intros Hdrop [Hf Hgood]%Forall_cons Hlate Hstop ->.
  pose proof (good_channels s f Hf) as Hch. destruct Hf as (Hlate' & Hopen & Hne).
  destruct (open_file s f (good ++ late) Hdrop Hlate' Hopen Hch) as (s' & Hrun & Hs & Hdrop' & Hitr & Htopic).
  exists s'. split; [done|]. split; [done|]. split; [|by rewrite Hitr].
  exists good, late. rewrite Hitr, (same_stop _ _ Hs). cbn [default from_option id]. split; [done|].
  split; [eapply Forall_impl; [exact Hgood|]; intros x; by apply same_good|].
  split; [eapply Forall_impl; [exact Hlate|]; intros x; by apply same_late|]. split; [done|]. split.
  - intros m Hm. rewrite (Htopic m Hm). split; [by eexists|]. apply messages_in_range in Hm as [_ Hm].
    destruct (Z.ltb_spec 0 (stop_playback_timestamp s)); [by right|left; lia].
  - cbn [map concat]. f_equal; [|f_equal; apply map_ext; intros x; symmetry; by apply same_script].
    unfold file_script. apply map_ext_in. intros m Hm. apply list_elem_of_In in Hm. by rewrite (Htopic m Hm).
Qed.

Lemma next_message_spec s l : yields s l →
  ∃ s', same_setup s s' ∧
  match l with
  | [] => next_message s = (Ok None, s') ∧ yields s' []
  | x :: l' => next_message s = (Ok (Some x), s') ∧ yields s' l' ∧
               (stop_playback_timestamp s = 0 ∨ logTime x.2 < stop_playback_timestamp s)
  end.
Proof.
  intros Hy. unfold next_message. rewrite get_bind. destruct (decide (default [] (msg_reader_itr s) = [])) as [Hnil|Hne].
  - assert (match msg_reader_itr s with Some (_ :: _) => mret true | _ => OpenNewMcaptoPlayBack end = OpenNewMcaptoPlayBack) as ->
      by by destruct (msg_reader_itr s) as [[|]|].
    destruct Hy as (good & late & Hdrop & Hgood & Hlate & Hstop & _ & Hl). rewrite Hnil in Hl. cbn in Hl.
    destruct good as [|f good].
    + subst l. destruct (open_none s late Hdrop Hlate) as (s' & Hrun & Hs & Hitr & late' & Hdrop' & Hlate').
      exists s'. split; [done|]. rewrite (bind_run _ _ _ _ _ Hrun). split; [done|].
      exists [], late'. rewrite Hitr, (same_stop _ _ Hs). split; [done|]. split; [done|].
      split; [eapply Forall_impl; [exact Hlate'|]; intros x; by apply same_late|]. split; [done|].
      split; [|done]. intros m Hm. by apply not_elem_of_nil in Hm.
    + destruct (open_yields s l good late f Hdrop Hgood Hlate Hstop Hl) as (s1 & Hrun & Hs1 & Hy1 & Hne1).
      destruct (take_message_spec s1 l Hy1 Hne1) as (x & l' & s2 & Hxl & Htake & Hs2 & Hy2 & Hx).
      rewrite (bind_run _ _ _ _ _ Hrun). exists s2. split; [by eapply same_setup_trans|]. rewrite Hxl.
      rewrite (same_stop _ _ Hs1) in Hx. done.
  - destruct (take_message_spec s l Hy Hne) as (x & l' & s' & -> & Htake & Hs & Hy' & Hx).
    assert (match msg_reader_itr s with Some (_ :: _) => mret true | _ => OpenNewMcaptoPlayBack end = mret true) as ->
      by by destruct (msg_reader_itr s) as [[|]|].
    exists s'. split; [done|]. rewrite (bind_run _ _ s true s) by done. done.
Qed.

(** The fuel of the loop covers what the reader yields. *)
Lemma yields_left s l : yields s l → (length l ≤ messages_left s)%nat.
Proof.
  intros (good & late & Hdrop & _ & _ & _ & _ & ->). unfold messages_left. rewrite Hdrop, length_app, length_map.
  apply Nat.add_le_mono_l. clear. unfold sum_list_with. induction good as [|f good IH]; cbn; [lia|].
  rewrite length_app. unfold file_script at 1. rewrite length_map. cbn in IH. lia.
Qed.
End Reading.

(** How many batches have their last record in a list of tasks. *)
Definition lasts (ts : list PlayTask) : nat := length (List.filter pt_last ts).
Arguments lasts : simpl never.

Section Playing.
Context `{McapReaderLaws}.
Implicit Types p : Play.

(** The record of a message, played from [start]. *)
Definition to_record (start : Z) (x : Z * McapMessage) : PlayRecord :=
  mkPlayRecord x.1 (wrap64 (logTime x.2 - start)) (RecordAction.data x.2).

Lemma read_batch_spec fuel l p cur records :
  yields (pl_reader p) l → (length l < fuel)%nat →
  ∃ b l' s', l = b ++ l' ∧
    read_batch fuel cur records p = (Ok (records ++ map (to_record (start_playback_timestamp (pl_reader p))) b), pl_set_reader s' p) ∧
    same_setup (pl_reader p) s' ∧ yields s' l' ∧ (l ≠ [] → b ≠ []).
Proof.
  revert l p cur records. induction fuel as [|fuel IH]; intros l p cur records Hy Hfuel; [lia|]. cbn [read_batch].
  destruct (next_message_spec _ _ Hy) as (s1 & Hs1 & Hnext). destruct l as [|x l].
  - destruct Hnext as [Hnext Hy1]. exists [], [], s1. split; [done|]. split; [|done].
    rewrite (bind_run _ _ p None (pl_set_reader s1 p)); [by rewrite app_nil_r|].
    unfold on_reader, zoom. by rewrite Hnext.
  - destruct Hnext as (Hnext & Hy1 & Hx).
    assert (on_reader next_message p = (Ok (Some x), pl_set_reader s1 p)) as Hrun by (unfold on_reader, zoom; by rewrite Hnext).
    rewrite (bind_run _ _ _ _ _ Hrun). destruct x as [topic m]. rewrite get_bind.
    cbn [pl_reader pl_set_reader]. rewrite (same_stop _ _ Hs1), (same_start _ _ Hs1).
    assert ((0 <? stop_playback_timestamp (pl_reader p)) && (stop_playback_timestamp (pl_reader p) <? logTime m) = false) as ->.
    { cbn in Hx. destruct Hx as [->|Hx]; [done|]. apply andb_false_intro2, Z.ltb_ge. lia. }
    set (rs := records ++ _).
    assert (rs = records ++ map (to_record (start_playback_timestamp (pl_reader p))) [(topic, m)]) as Hrs by done.
    assert (∀ cur', ∃ b l' s', (topic, m) :: l = b ++ l' ∧
      read_batch fuel cur' rs (pl_set_reader s1 p) =
        (Ok (records ++ map (to_record (start_playback_timestamp (pl_reader p))) b), pl_set_reader s' p) ∧
      same_setup (pl_reader p) s' ∧ yields s' l' ∧ ((topic, m) :: l ≠ [] → b ≠ [])) as Hmore.
    { intros cur'. destruct (IH l (pl_set_reader s1 p) cur' rs Hy1 ltac:(cbn in Hfuel; lia)) as (b & l' & s' & -> & Hb & Hs' & Hy' & _).
      exists ((topic, m) :: b), l', s'. split; [done|]. split; [|split; [by eapply same_setup_trans|done]].
      rewrite Hb. cbn [pl_reader pl_set_reader]. by rewrite (same_start _ _ Hs1), Hrs, <-app_assoc. }
    destruct (cur =? 0); [apply Hmore|]. destruct (_ || _); [|apply Hmore].
    exists [(topic, m)], l, s1. split; [done|]. by rewrite Hrs.
Qed.

(** The tasks of a batch. *)
Fixpoint tasks_of (start : Z) (rs : list PlayRecord) : list PlayTask :=
  match rs with
  | [] => []
  | r :: rs' => mkPlayTask (signed 64 (wrap64 (start + dt r))) r (match rs' with [] => true | _ => false end) :: tasks_of start rs'
  end.

Lemma lasts_app ts ts' : lasts (ts ++ ts') = (lasts ts + lasts ts')%nat.
Proof. unfold lasts. by rewrite List.filter_app, length_app. Qed.

Lemma lasts_tasks start rs : lasts (tasks_of start rs) = match rs with [] => 0%nat | _ => 1%nat end.
Proof.
  induction rs as [|r rs IH]; [done|]. cbn [tasks_of]. unfold lasts in *. cbn [List.filter pt_last].
  by destruct rs.
Qed.

Lemma map_record_tasks start rs : map pt_record (tasks_of start rs) = rs.
Proof. induction rs as [|r rs IH]; [done|]. cbn. by rewrite IH. Qed.

Lemma time_point_ns stamp : GetTimePointFromTimestampNs stamp = Ok (signed 64 stamp).
Proof.
  unfold GetTimePointFromTimestampNs, time_point. rewrite Z.mul_1_r, decide_True; [done|].
  unfold in_int64, signed. pose proof (wrap_in_width 64 stamp ltac:(lia)) as Hw. unfold in_width in Hw.
  destruct (Z.ltb_spec (wrap64 stamp) (2 ^ (64 - 1))); lia.
Qed.

Lemma pl_set_tasks_twice c l c' l' p : pl_set_tasks c l (pl_set_tasks c' l' p) = pl_set_tasks c l p.
Proof. done. Qed.

Lemma schedule_spec rs p : pl_executor p = true →
  schedule rs p = (Ok tt, pl_set_tasks (task_counter p + lasts (tasks_of (start_timestamp_ p) rs))
                            (pl_pending p ++ tasks_of (start_timestamp_ p) rs) p).
Proof.
  revert p. induction rs as [|r rs IH]; intros p Hex; cbn [schedule].
  { cbn. rewrite app_nil_r, Nat.add_0_r. by destruct p. }
  rewrite get_bind, time_point_ns, (bind_run (lift (Ok _)) _ p _ p eq_refl), Hex, (bind_run _ _ p tt p) by done.
  rewrite (bind_run _ _ p tt _) by done. rewrite IH by done. cbn [pl_pending pl_set_tasks task_counter start_timestamp_ tasks_of].
  rewrite <-app_assoc, pl_set_tasks_twice. f_equal. apply (f_equal (λ c, pl_set_tasks c _ p)).
  assert (lasts (tasks_of (start_timestamp_ p) (r :: rs)) = 1%nat) as Hl by apply lasts_tasks.
  cbn [tasks_of] in Hl. rewrite Hl, lasts_tasks. destruct rs; lia.
Qed.

(** A call takes a batch, unless a stop has been seen; at the end it makes the
    others stop. *)
Lemma AddPlaybackTasks_spec l p :
  yields (pl_reader p) l → pl_executor p = true → playback_state p ≠ kGetStopSignal →
  ∃ b l' s', l = b ++ l' ∧ same_setup (pl_reader p) s' ∧ yields s' l' ∧ (l ≠ [] → b ≠ []) ∧
    let ts := tasks_of (start_timestamp_ p) (map (to_record (start_playback_timestamp (pl_reader p))) b) in
    AddPlaybackTasks p = (Ok tt, mkPlay s' (pl_executor p) (has_pub_record_func p) (start_timestamp_ p)
      (match l with [] => kGetStopSignal | _ => playback_state p end) (task_counter p + lasts ts) (pl_pending p ++ ts)
      (pl_published p) (double_unlocks p + 1)).
Proof.
  intros Hy Hex Hstate. unfold AddPlaybackTasks. rewrite get_bind, bool_decide_false by done.
  pose proof (yields_left _ _ Hy) as Hleft.
  destruct (read_batch_spec (messages_left (pl_reader p) + 1) l p 0 [] Hy ltac:(lia)) as (b & l' & s' & Hl & Hrun & Hs & Hy' & Hb).
  exists b, l', s'. do 4 (split; [done|]). cbn zeta. unfold finally. rewrite (bind_run _ _ _ _ _ Hrun).
  cbn [app]. destruct b as [|x b].
  - destruct l as [|y l]; [|by destruct (Hb ltac:(done))]. cbn. by rewrite app_nil_r, Nat.add_0_r.
  - cbn [map]. rewrite schedule_spec by done. by subst l.
Qed.
End Playing.

(** ** Every order in which the tasks run *)

Section Orders.
Context `{McapReaderLaws}.
Implicit Types p : Play.

(** Some of [script] has been read, to be played from [begin]: every task has
    its time, what has been published and what is pending is what has been read,
    and as long as messages are left a chain is alive, the one that is about to
    read if it is [due]; [held] references to the counter are held by calls. *)
Record playing (due : bool) (held : nat) (begin start : Z) (script : list (Z * McapMessage)) p : Prop := {
  pi_setup : pl_executor p = true ∧ has_pub_record_func p = true ∧ start_timestamp_ p = begin ∧
             start_playback_timestamp (pl_reader p) = start;
  pi_read : ∃ done rest, script = done ++ rest ∧ yields (pl_reader p) rest ∧
    pl_published p ++ map pt_record (pl_pending p) ≡ₚ map (to_record start) done ∧
    (rest ≠ [] → playback_state p = kPlaying ∧ (due = true ∨ (0 < lasts (pl_pending p))%nat));
  pi_times : Forall (λ t, pt_time t = signed 64 (wrap64 (begin + dt (pt_record t)))) (pl_pending p);
  pi_counter : task_counter p = (lasts (pl_pending p) + held)%nat;
  pi_ready : playback_state p = kReadyToPlay ↔ task_counter p = 0%nat
}.

Lemma tasks_of_times begin rs : Forall (λ t, pt_time t = signed 64 (wrap64 (begin + dt (pt_record t)))) (tasks_of begin rs).
Proof. induction rs as [|r rs IH]; [constructor|]. by constructor. Qed.

Lemma remove_lookup {A} (l : list A) i x : l !! i = Some x → l ≡ₚ x :: (take i l ++ drop (i + 1) l).
Proof.
  intros Hx. rewrite <-(take_drop_middle l i x Hx) at 1. rewrite Nat.add_1_r. symmetry. apply Permutation_middle.
Qed.

Lemma lasts_perm l l' : l ≡ₚ l' → lasts l = lasts l'.
Proof.
  unfold lasts. induction 1 as [|x l l' _ IH|x y l|l1 l2 l3 _ IH1 _ IH2]; [done|..]; cbn.
  - destruct (pt_last x); cbn; by rewrite IH.
  - by destruct (pt_last x), (pt_last y).
  - by rewrite IH1.
Qed.

(** A chain goes on: it reads if there is something left. *)
Lemma add_playing due begin start script p : playing due 1 begin start script p →
  ∃ p', AddPlaybackTasks p = (Ok tt, p') ∧ playing false 1 begin start script p' ∧ pl_published p' = pl_published p.
Proof.
  intros [(Hex & Hpub & Hbegin & Hstart) (done & rest & Hscript & Hy & Hperm & Hrest) Htimes Hcount Hready].
  destruct (decide (playback_state p = kGetStopSignal)) as [Hstop|Hgo].
  - exists p. split; [unfold AddPlaybackTasks; by rewrite get_bind, bool_decide_true|]. split; [|done].
    split; [done| |done..]. exists done, rest. do 3 (split; [done|]). intros Hne. destruct (Hrest Hne) as [Hp _]. congruence.
  - destruct (AddPlaybackTasks_spec rest p Hy Hex Hgo) as (b & l' & s' & Hl & Hs & Hy' & Hb & Hrun).
    rewrite Hbegin, Hstart in Hrun. eexists. split; [exact Hrun|]. split; [|done]. split; cbn.
    + do 3 (split; [done|]). by rewrite (same_start _ _ Hs).
    + exists (done ++ b), l'. split; [by rewrite Hscript, Hl, app_assoc|]. split; [done|]. split.
      * rewrite !map_app, map_record_tasks, app_assoc. by apply Permutation_app_tail.
      * intros Hne. destruct rest as [|x rest]; [symmetry in Hl; apply app_nil in Hl as [_ ->]; done|].
        split; [by apply Hrest|]. right. rewrite lasts_app, lasts_tasks.
        destruct b as [|y b]; [by destruct Hb|]. cbn. lia.
    + apply Forall_app. split; [done|apply tasks_of_times].
    + rewrite lasts_app. lia.
    + destruct rest; [|rewrite Hready]; split; intros Hc; [done|lia|lia|lia].
Qed.

Lemma release_playing begin start script p :
  playing false 1 begin start script p → playing false 0 begin start script (release p).
Proof.
  intros [Hsetup (done & rest & Hscript & Hy & Hperm & Hrest) Htimes Hcount Hready]. unfold release.
  cbn [task_counter pl_set_tasks].
  destruct (Nat.eqb_spec (task_counter p - 1) 0) as [Hz|Hnz]; (split; [done| |done| |]); cbn.
  - exists done, rest. do 3 (split; [done|]). intros Hne. destruct (Hrest Hne) as [_ [?|?]]; [done|lia].
  - lia.
  - split; intros; [done|]. done.
  - exists done, rest. by do 3 (split; [done|]).
  - lia.
  - rewrite Hready. lia.
Qed.

(** Any pending task can run, and publishes its record. *)
Lemma fire_playing begin start script p i :
  playing false 0 begin start script p → (i < length (pl_pending p))%nat →
  ∃ p', fire i p = (Ok tt, p') ∧ playing false 0 begin start script p' ∧ length (pl_published p') = S (length (pl_published p)).
Proof.
  intros [(Hex & Hpub & Hbegin & Hstart) (done & rest & Hscript & Hy & Hperm & Hrest) Htimes Hcount Hready] Hi.
  destruct (lookup_lt_is_Some_2 _ _ Hi) as [t Ht].
  pose proof (remove_lookup _ _ _ Ht) as Hrem. set (left := take i (pl_pending p) ++ drop (i + 1) (pl_pending p)) in *.
  assert (lasts (pl_pending p) = ((if pt_last t then 1 else 0) + lasts left)%nat) as Hlasts.
  { rewrite (lasts_perm _ _ Hrem). unfold lasts. cbn. by destruct (pt_last t). }
  set (p1 := pl_set_published (pl_published p ++ [pt_record t]) (pl_set_tasks (task_counter p) left p)).
  assert (playing (pt_last t) (if pt_last t then 1 else 0) begin start script p1) as Hp1.
  { split; [done| | |cbn; lia|done].
    - exists done, rest. do 2 (split; [done|]). split.
      + cbn. rewrite <-Hperm, (Permutation_map pt_record Hrem), <-app_assoc. done.
      + intros Hne. cbn. destruct (Hrest Hne) as [Hp Hd]. split; [done|].
        destruct (pt_last t); [by left|]. right. destruct Hd; [done|lia].
    - rewrite Hrem in Htimes. by apply Forall_cons in Htimes as [_ Htimes]. }
  assert (fire i p = (let '(r, p') := (if pt_last t then AddPlaybackTasks else mret tt) p1 in
                      (r, (if pt_last t then release else id) p'))) as ->.
  { unfold fire. rewrite get_bind, Ht, (bind_run _ _ p tt (pl_set_tasks (task_counter p) left p)) by done.
    unfold finally. by rewrite Hpub. }
  destruct (pt_last t).
  - destruct (add_playing _ _ _ _ _ Hp1) as (p2 & -> & Hp2 & Hpublished).
    exists (release p2). split; [done|]. split; [by apply release_playing|].
    assert (pl_published (release p2) = pl_published p2) as -> by (unfold release; by destruct (_ =? _)%nat).
    rewrite Hpublished. cbn. rewrite length_app. cbn. lia.
  - exists p1. split; [done|]. split; [done|]. cbn. rewrite length_app. cbn. lia.
Qed.

(** When nothing is pending everything has been published. *)
Lemma playing_end begin start script p : playing false 0 begin start script p →
  pl_published p ⊆+ map (to_record start) script ∧
  Forall (λ t, pt_time t = signed 64 (wrap64 (begin + dt (pt_record t)))) (pl_pending p) ∧
  (∀ i, (i < length (pl_pending p))%nat → ∃ p', fire i p = (Ok tt, p')) ∧
  (pl_pending p = [] ↔ length (pl_published p) = length script) ∧
  (pl_pending p = [] → pl_published p ≡ₚ map (to_record start) script ∧ playback_state p = kReadyToPlay).
Proof.
  intros Hp. assert (∀ i, (i < length (pl_pending p))%nat → ∃ p', fire i p = (Ok tt, p')) as Hfire.
  { intros i Hi. destruct (fire_playing _ _ _ _ _ Hp Hi) as (p' & Hrun & _). by exists p'. }
  destruct Hp as [_ (done & rest & -> & _ & Hperm & Hrest) Htimes Hcount Hready].
  assert (pl_pending p = [] → rest = []) as Hend.
  { intros Hnil. destruct rest as [|x rest]; [done|]. destruct (Hrest ltac:(done)) as [_ [?|Hl]]; [done|].
    rewrite Hnil in Hl. unfold lasts in Hl. cbn in Hl. lia. }
  pose proof (Permutation_length Hperm) as Hlen. rewrite length_app, !length_map in Hlen. rewrite map_app.
  split; [etrans; [|apply submseteq_inserts_r]; [|done]; rewrite <-Hperm; by apply submseteq_inserts_r|].
  split; [done|]. split; [done|]. split; [split|].
  - intros Hnil. rewrite (Hend Hnil), app_nil_r. rewrite Hnil in Hlen. cbn in Hlen. lia.
  - rewrite length_app. intros Hall. destruct (pl_pending p); [done|]. cbn in Hlen. lia.
  - intros Hnil. rewrite (Hend Hnil), app_nil_r. rewrite Hnil, app_nil_r in Hperm. split; [done|].
    apply Hready. rewrite Hcount, Hnil. done.
Qed.

(** A task is run, whichever. *)
Definition fires p p' : Prop := ∃ i, (i < length (pl_pending p))%nat ∧ fire i p = (Ok tt, p').

Lemma nsteps_playing begin start script n p p' :
  nsteps fires n p p' → playing false 0 begin start script p →
  playing false 0 begin start script p' ∧ length (pl_published p') = (length (pl_published p) + n)%nat.
Proof.
  induction 1 as [p|n p1 p2 p3 [i [Hi Hfire]] _ IH]; intros Hp; [by rewrite Nat.add_0_r|].
  destruct (fire_playing _ _ _ _ _ Hp Hi) as (p' & Hrun & Hp' & Hlen). rewrite Hrun in Hfire. injection Hfire as ->.
  destruct (IH Hp') as [Hp3 Hlen3]. split; [done|]. lia.
Qed.

(** The state in which the first batch is read. *)
Definition about_to_read (now start stop : Z) p : Play :=
  pl_set_tasks 1 (pl_pending p) (pl_set_start now (pl_set_reader (rd_set_times start stop (pl_reader p)) (pl_set_state kPlaying p))).

Lemma start_playing now skip play file files script p :
  let start := wrap64 (start_timestamp file + skip * 1000000000) in
  let stop := if play =? 0 then 0 else wrap64 (start + play * 1000000000) in
  playback_state p = kReadyToPlay → rd_files (pl_reader p) = file :: files →
  playing true 1 now start script (about_to_read now start stop p) →
  ∃ p0, start_if_ready now skip play p = (Ok true, p0) ∧ playing false 0 now start script p0 ∧ pl_published p0 = pl_published p.
Proof.
  intros start stop Hstate Hfiles Hplaying. unfold start_if_ready. rewrite get_bind, bool_decide_true by done.
  rewrite (bind_run _ _ p tt (pl_set_state kPlaying p)) by done.
  destruct (add_playing _ _ _ _ _ Hplaying) as (p1 & Hrun1 & Hp1 & Hpub1).
  destruct (add_playing _ _ _ _ _ Hp1) as (p2 & Hrun2 & Hp2 & Hpub2).
  exists (pl_unlock_again (release p2)). split; [|split].
  - assert (StartPlaybackImpl now skip play (pl_set_state kPlaying p) = (Ok tt, release p2)) as Himpl.
    { unfold StartPlaybackImpl. rewrite get_bind. cbn [pl_reader pl_set_state]. rewrite Hfiles. fold start. fold stop.
      rewrite (bind_run _ _ _ tt (pl_set_reader (rd_set_times start stop (pl_reader p)) (pl_set_state kPlaying p))) by done.
      rewrite (bind_run _ _ _ tt _) by done. rewrite (bind_run _ _ _ tt (about_to_read now start stop p)) by done.
      unfold finally. by rewrite (bind_run _ _ _ _ _ Hrun1), Hrun2. }
    unfold finally, mbind, M_bind. by rewrite Himpl.
  - by destruct (release_playing _ _ _ _ Hp2).
  - rewrite <-Hpub2 in Hpub1. cbn in Hpub1. rewrite <-Hpub1. unfold release. by destruct (_ =? _)%nat.
Qed.

End Orders.

(** ** What goes wrong *)

Section Wrong.
Context `{McapReaderLaws}.
Implicit Types p : Play.

(** A later playback goes on where the last one has ended: the index of the file
    is not set back.  After the last file it says that it has started and plays
    nothing. *)
Theorem second_playback_plays_nothing now skip play p :
  playback_state p = kReadyToPlay → pl_executor p = true → pl_pending p = [] → rd_files (pl_reader p) ≠ [] →
  (length (rd_files (pl_reader p)) ≤ cur_mcap_file_index (pl_reader p))%nat → default [] (msg_reader_itr (pl_reader p)) = [] →
  ∃ p', start_if_ready now skip play p = (Ok true, p') ∧
    pl_pending p' = [] ∧ pl_published p' = pl_published p ∧ playback_state p' = kReadyToPlay.
Proof.
  intros Hstate Hex Hpending Hfiles Hindex Hitr. destruct (rd_files (pl_reader p)) as [|file files] eqn:Hf; [done|].
  set (start := wrap64 (start_timestamp file + skip * 1000000000)).
  set (stop := if play =? 0 then 0 else wrap64 (start + play * 1000000000)).
  set (q := about_to_read now start stop p).
  assert (yields (pl_reader q) []) as Hy.
  { exists [], []. cbn. rewrite Hf, drop_ge by done. do 3 (split; [done|]). split.
    - unfold stop. destruct (play =? 0); [lia|]. apply wrap_in_width. lia.
    - rewrite Hitr. split; [|done]. intros m Hm. by apply not_elem_of_nil in Hm. }
  destruct (AddPlaybackTasks_spec [] q Hy Hex ltac:(done)) as (b & l' & s' & Hb & _ & _ & _ & Hrun).
  symmetry in Hb. apply app_nil in Hb as [-> ->]. cbn in Hrun. rewrite Hpending in Hrun. cbn in Hrun.
  unfold start_if_ready. rewrite get_bind, bool_decide_true, (bind_run _ _ p tt (pl_set_state kPlaying p)) by done.
  eexists. split.
  { unfold finally, mbind, M_bind. unfold StartPlaybackImpl at 1. rewrite get_bind. cbn [pl_reader pl_set_state].
    rewrite Hf. fold start. fold stop.
    rewrite (bind_run _ _ _ tt (pl_set_reader (rd_set_times start stop (pl_reader p)) (pl_set_state kPlaying p))) by done.
    rewrite (bind_run _ _ _ tt _) by done. rewrite (bind_run _ _ _ tt q) by done.
    unfold finally. rewrite (bind_run _ _ _ _ _ Hrun). done. }
  done.
Qed.

(** A file without a message to play is opened, and the end of its messages
    dereferenced. *)
Theorem file_without_messages_is_undefined now skip play file files f later p :
  let start := wrap64 (start_timestamp file + skip * 1000000000) in
  let s0 := rd_set_times start (if play =? 0 then 0 else wrap64 (start + play * 1000000000)) (pl_reader p) in
  playback_state p = kReadyToPlay → rd_files (pl_reader p) = file :: files → default [] (msg_reader_itr (pl_reader p)) = [] →
  drop (cur_mcap_file_index s0) (rd_files s0) = f :: later → ¬ late_file s0 f →
  reader_open (rd_bag_path s0, fm_path f) = true → reader_channels (rd_bag_path s0, fm_path f) ≠ [] → messages_of s0 f = [] →
  (start_if_ready now skip play p).1 = Undef.
Proof.
  intros start s0 Hstate Hfiles Hitr Hdrop Hlate Hopen Hch Hnone.
  assert ((next_message s0).1 = Undef) as Hnext.
  { unfold next_message. rewrite get_bind.
    assert (match msg_reader_itr s0 with Some (_ :: _) => mret true | _ => OpenNewMcaptoPlayBack end = OpenNewMcaptoPlayBack) as ->
      by by cbn; destruct (msg_reader_itr (pl_reader p)) as [[|]|].
    destruct (open_file s0 f later Hdrop) as (s1 & Hrun & _ & _ & Hitr1 & _); [|done..|].
    - unfold late_file in Hlate. destruct (decide (stop_playback_timestamp s0 = 0)); [by left|right; lia].
    - rewrite (bind_run _ _ _ _ _ Hrun). unfold take_message. cbn [negb]. by rewrite get_bind, Hitr1, Hnone. }
  unfold start_if_ready. rewrite get_bind, bool_decide_true, (bind_run _ _ p tt (pl_set_state kPlaying p)) by done.
  set (q := about_to_read now start (stop_playback_timestamp s0) p).
  assert ((AddPlaybackTasks q).1 = Undef) as Hadd.
  { unfold AddPlaybackTasks. rewrite get_bind, bool_decide_false by done. unfold finally. rewrite Nat.add_1_r. cbn [read_batch].
    unfold on_reader, zoom, mbind, M_bind. change (pl_reader q) with s0. by destruct (next_message s0) as [[| |] s']. }
  unfold StartPlaybackImpl. unfold finally at 1. unfold mbind at 1, M_bind at 1. rewrite get_bind. cbn [pl_reader pl_set_state].
  rewrite Hfiles. fold start.
  rewrite (bind_run _ _ _ tt (pl_set_reader s0 (pl_set_state kPlaying p))) by done.
  rewrite (bind_run _ _ _ tt _) by done. rewrite (bind_run _ _ _ tt q) by done.
  unfold finally, mbind, M_bind. by destruct (AddPlaybackTasks q) as [[| |] q'].
Qed.
End Wrong.

(** * At a concrete input *)

Module PlaybackDemo.
Definition demo_message (n : Z) : McapMessage := mkMcapMessage 1 n (n * 1000000000) (n * 1000000000) [].
(** Two files with one channel; the first has two messages, the second one. *)
Definition demo_channels (path : string * string) : list (Z * string) := [(1, "topic"%string)].
Definition demo_messages (path : string * string) : list McapMessage :=
  if String.eqb path.2 "a" then [demo_message 1; demo_message 3]
  else if String.eqb path.2 "b" then [demo_message 4] else [].
#[export] Instance demo_reader : McapReaderLib := {
  reader_open _ := true; reader_channels := demo_channels;
  read_messages path start stop wanted := filter (λ m, start ≤ logTime m < stop ∧ wanted "topic"%string = true) (demo_messages path)
}.
#[export] Instance demo_laws : McapReaderLaws.
Proof.
  split; cbn.
  - by intros path start stop wanted m [[Hm _] _]%list_elem_of_filter.
  - intros path start stop wanted m [[_ Hw] Hm]%list_elem_of_filter. exists "topic"%string. split; [|done].
    unfold demo_messages in Hm. assert (channelId m = 1) as ->.
    { repeat (destruct (String.eqb _ _)); set_unfold; naive_solver. }
    left.
  - intros path. apply NoDup_singleton.
Qed.

Definition demo_files : list FileMeta := [mkFileMeta "a" 1000000000; mkFileMeta "b" 4000000000].
Definition demo_play (files : list FileMeta) (index : nat) : Play :=
  mkPlay (mkReader "bag" files {["topic"%string := 7]} ∅ None index 0 0) true true 0 kReadyToPlay 0 [] [] 0.
Definition demo_played : list PlayRecord :=
  map (to_record 1000000000) [(7, demo_message 1); (7, demo_message 3); (7, demo_message 4)].

(** The tasks in the order in which they were scheduled. *)
Definition run_tasks (n : nat) (p : Play) : Play := Nat.iter n (λ p, (fire 0 p).2) p.
Definition demo_started : Play := (start_if_ready 100 0 0 (demo_play demo_files 0)).2.

Lemma demo_fires : nsteps fires 3 demo_started (run_tasks 3 demo_started).
Proof.
  apply (nsteps_l _ _ _ (run_tasks 1 demo_started)); [exists 0%nat; split; [by vm_compute; lia|by vm_compute]|].
  apply (nsteps_l _ _ _ (run_tasks 2 demo_started)); [exists 0%nat; split; [by vm_compute; lia|by vm_compute]|].
  apply (nsteps_l _ _ _ (run_tasks 3 demo_started)); [exists 0%nat; split; [by vm_compute; lia|by vm_compute]|].
  apply nsteps_O.
Qed.
End PlaybackDemo.
Import PlaybackDemo.


(** The files have been played. *)
Lemma second_playback_plays_nothing_witness : ∃ p',
  start_if_ready 200 0 0 (demo_play demo_files 2) = (Ok true, p') ∧ pl_published p' = [] ∧ playback_state p' = kReadyToPlay.
Proof.
  destruct (second_playback_plays_nothing 200 0 0 (demo_play demo_files 2) eq_refl eq_refl eq_refl ltac:(done) ltac:(by vm_compute; lia)
    eq_refl) as (p' & H1 & _ & H2 & H3).
  by exists p'.
Defined.

(** A file that has no message of the topic. *)
Lemma file_without_messages_is_undefined_witness :
  (start_if_ready 100 0 0 (demo_play [mkFileMeta "c" 1000000000] 0)).1 = Undef.
Proof.
  apply (file_without_messages_is_undefined 100 0 0 (mkFileMeta "c" 1000000000) [] (mkFileMeta "c" 1000000000) []
    (demo_play [mkFileMeta "c" 1000000000] 0)); try done; try by vm_compute.
  by intros [? ?].
Defined.

(** The start unlocks the mutex of the state again, each reading that of the
    reader. *)
Example mutexes_unlocked_twice : double_unlocks demo_started = 3%nat.
Proof. by vm_compute. Qed.

(** A selection that repeats a topic, as long as the list of the bag, is not
    taken. *)
Example repeated_selection_is_ignored :
  let topic name := mkTopicMeta 0 name "type" "pb" true false (S754_zero false) in
  select_topics [("a", "type"); ("a", "type")]%string [topic "a"%string; topic "b"%string] = [topic "a"%string; topic "b"%string].
Proof. by vm_compute. Qed.
