(* ===== verification/MqttWire.v ===== *)
(** * The packages of the mqtt plugin: what [src/plugins/mqtt_plugin/mqtt_rpc_backend.cc]
    and [mqtt_channel_backend.cc] write into a payload and read from it

    A payload is written by a [BufferOperator] into a vector of exactly the
    size computed before, and read by a [ConstBufferOperator].  The metadata of a
    context goes as a number of pairs in one byte, then the keys and the values.
    The address of a vector or a payload is given by a parameter.

    Theorems: a request and a channel message are read back as they were
    written, on a host of either byte order; the size is right, so that the only
    thing that makes the writing fail is a metadata key or value of more than
    65535 bytes. *)

From S2P Require Import Prelude BufferUtil.
Local Open Scope Z_scope.

(** Keys and values of a context, in the order they are iterated over. *)
Abbreviation KeyVals := (list (string * string)).

Section Write.
Context (little : bool).

(** [msg_buf_vec(size)], then the calls on its [BufferOperator]. *)
Definition fill (ptr size : Z) (calls : list field) : res bytes :=
  let '(r, s) := put_fields little calls (BufferOperator_new ptr (replicate (Z.to_nat size) zero)) in
  match r with Ok _ => Ok (bo_mem s) | Throw e => Throw e | Undef => Undef end.

(** The loops over the metadata and over the buffers of a message. *)
Definition meta_calls (kvs : KeyVals) : list field :=
  FU8 (wrap8 (Z.of_nat (length kvs)))
    :: concat (map (λ kv, [FStr kUInt16 (lit kv.1); FStr kUInt16 (lit kv.2)]) kvs).
Definition data_calls (data : list bytes) : list field := map FBuf data.

Definition str_size (s : string) : Z := Z.of_nat (length (lit s)).
Definition BufferSize (data : list bytes) : Z := Z.of_nat (length (concat data)).

(* @src src/src/plugins/mqtt_plugin/mqtt_rpc_backend.cc:549-552 MqttRpcBackend::Invoke (context size) *)
Definition context_meta_kv_size (kvs : KeyVals) : Z :=
  foldr (λ kv n, n + (2 + str_size kv.1) + (2 + str_size kv.2)) 1 kvs.

(* @src src/src/plugins/mqtt_plugin/mqtt_rpc_backend.cc:554-559 MqttRpcBackend::Invoke (package size) *)
Definition req_pkg_size (ty topic : string) (kvs : KeyVals) (data : list bytes) : Z :=
  1 + str_size ty + 1 + str_size topic + 4 + context_meta_kv_size kvs + BufferSize data.

(* @src src/src/plugins/mqtt_plugin/mqtt_rpc_backend.cc:581-599 MqttRpcBackend::Invoke (package) *)
Definition pack_req (ptr : Z) (ty topic : string) (req_id : Z) (kvs : KeyVals) (data : list bytes) : res bytes :=
  fill ptr (req_pkg_size ty topic kvs data)
    (FStr kUInt8 (lit ty) :: FStr kUInt8 (lit topic) :: FU32 req_id :: meta_calls kvs ++ data_calls data).

(* @src src/src/plugins/mqtt_plugin/mqtt_rpc_backend.cc:276-280 MqttRpcBackend::RegisterServiceFunc (response size) *)
Definition rsp_pkg_size (ty : string) (data : list bytes) : Z := 1 + str_size ty + 4 + 4 + BufferSize data.

(** The response of a service, and that of [ReturnRspWithStatusCode]. *)
(* @src src/src/plugins/mqtt_plugin/mqtt_rpc_backend.cc:291-302 MqttRpcBackend::RegisterServiceFunc (response) *)
Definition pack_rsp (ptr : Z) (ty : string) (req_id_buf : bytes) (code : Z) (data : list bytes) : res bytes :=
  fill ptr (rsp_pkg_size ty data) (FStr kUInt8 (lit ty) :: FBuf req_id_buf :: FU32 code :: data_calls data).

(* @src src/src/plugins/mqtt_plugin/mqtt_channel_backend.cc:282-287 MqttChannelBackend::Publish (package size) *)
Definition msg_pkg_size (ty : string) (kvs : KeyVals) (data : list bytes) : Z :=
  1 + str_size ty + context_meta_kv_size kvs + BufferSize data.

(* @src src/src/plugins/mqtt_plugin/mqtt_channel_backend.cc:293-309 MqttChannelBackend::Publish (package) *)
Definition pack_msg (ptr : Z) (ty : string) (kvs : KeyVals) (data : list bytes) : res bytes :=
  fill ptr (msg_pkg_size ty kvs data) (FStr kUInt8 (lit ty) :: meta_calls kvs ++ data_calls data).
End Write.

Section Read.
Context (little : bool).
Abbreviation R := (M ConstBufferOperator).

(** A string constructed from the view. *)
Definition get_str (lt : BufferLenType) : R bytes :=
  v ← GetString little lt;
  s ← get;
  lift (view_bytes s v).

(** The [for] loop over the pairs. *)
(* @src src/src/plugins/mqtt_plugin/mqtt_rpc_backend.cc:208-214 MqttRpcBackend::RegisterServiceFunc (context) *)
Fixpoint get_pairs (ctx_num : nat) : R KeyVals :=
  match ctx_num with
  | O => mret []
  | S n =>
      key ← get_str kUInt16;
      val ← get_str kUInt16;
      kvs ← get_pairs n;
      mret ((str key, str val) :: kvs)
  end.

Definition get_metas : R KeyVals := n ← GetUint8; get_pairs (Z.to_nat n).

Definition get_rest : R bytes :=
  v ← GetRemainingBuffer;
  s ← get;
  lift (view_bytes s v).

(* @src src/src/plugins/mqtt_plugin/mqtt_rpc_backend.cc:197-220 MqttRpcBackend::RegisterServiceFunc (fields) *)
Definition parse_req : R (string * string * bytes * KeyVals * bytes) :=
  serialization_type ← get_str kUInt8;
  mqtt_pub_topic ← get_str kUInt8;
  req_id_buf ← GetBuffer_copy 4;
  kvs ← get_metas;
  remaining_buf ← get_rest;
  mret (str serialization_type, str mqtt_pub_topic, req_id_buf, kvs, remaining_buf).

(** The rest is read later, when the code is zero. *)
(* @src src/src/plugins/mqtt_plugin/mqtt_rpc_backend.cc:409-413 MqttRpcBackend::RegisterClientFunc (fields) *)
Definition parse_rsp_head : R (string * Z * Z) :=
  serialization_type ← get_str kUInt8;
  req_id ← GetUint32 little;
  code ← GetUint32 little;
  mret (str serialization_type, req_id, code).

(* @src src/src/plugins/mqtt_plugin/mqtt_channel_backend.cc:205-222 MqttChannelBackend::Subscribe (fields) *)
Definition parse_msg : R (string * KeyVals * bytes) :=
  serialization_type ← get_str kUInt8;
  kvs ← get_metas;
  remaining_buf ← get_rest;
  mret (str serialization_type, kvs, remaining_buf).

(** A reader of the payload at [ptr]. *)
Definition read {A} (ptr : Z) (payload : bytes) (m : R A) : res A := (m (ConstBufferOperator_new ptr payload)).1.
End Read.

(** ** Sizes *)

(** The metadata that can be written. *)
Definition kv_ok (kv : string * string) : Prop := str_size kv.1 < 2 ^ 16 ∧ str_size kv.2 < 2 ^ 16.

#[export] Instance kv_ok_dec kv : Decision (kv_ok kv).
Proof. unfold kv_ok. apply _. Defined.

(** An allocation that fits the address space. *)
Definition at_address (ptr size : Z) : Prop := 0 ≤ ptr ∧ ptr + size < 2 ^ 64.

Lemma encode_all_cons f fs : encode_all (f :: fs) = encode f ++ encode_all fs.
Proof. done. Qed.
Lemma encode_all_app fs gs : encode_all (fs ++ gs) = encode_all fs ++ encode_all gs.
Proof. unfold encode_all. by rewrite map_app, concat_app. Qed.
Lemma encode_data data : encode_all (data_calls data) = concat data.
Proof. unfold encode_all, data_calls. rewrite map_map. f_equal. apply map_id. Qed.

Definition pairs_calls (kvs : KeyVals) : list field :=
  concat (map (λ kv, [FStr kUInt16 (lit kv.1); FStr kUInt16 (lit kv.2)]) kvs).

Lemma pairs_calls_cons kv kvs :
  pairs_calls (kv :: kvs) = FStr kUInt16 (lit kv.1) :: FStr kUInt16 (lit kv.2) :: pairs_calls kvs.
Proof. done. Qed.

Lemma length_encode_str lt k s :
  prefix_bytes lt = Some k → Z.of_nat (length (encode (FStr lt (lit s)))) = Z.of_nat k + str_size s.
Proof. intros Hk. cbn [encode]. rewrite Hk, length_app, length_le_bytes, Nat2Z.inj_add. done. Qed.

Lemma length_encode_metas kvs : Z.of_nat (length (encode_all (meta_calls kvs))) = context_meta_kv_size kvs.
Proof.
  unfold meta_calls. fold (pairs_calls kvs). rewrite encode_all_cons, length_app. cbn [encode].
  rewrite length_le_bytes. induction kvs as [|kv kvs IH]; [done|].
  rewrite pairs_calls_cons, !encode_all_cons, !length_app. cbn [context_meta_kv_size foldr].
  fold (context_meta_kv_size kvs). rewrite <-IH.
  pose proof (length_encode_str kUInt16 2 kv.1 eq_refl). pose proof (length_encode_str kUInt16 2 kv.2 eq_refl). lia.
Qed.

Lemma pairs_calls_ok kvs : Forall kv_ok kvs → Forall field_ok (pairs_calls kvs).
Proof.
  induction 1 as [|kv kvs [Hk Hv] _ IH]; [constructor|]. rewrite pairs_calls_cons. unfold str_size in *.
  constructor; [|constructor; [|done]]; cbn [field_ok prefix_bytes]; (change (256 ^ Z.of_nat 2) with (2 ^ 16)); done.
Qed.

Lemma data_calls_ok data : Forall field_ok (data_calls data).
Proof. induction data as [|b data IH]; [constructor|]. by constructor. Qed.

Lemma metas_data_ok kvs data :
  Z.of_nat (length kvs) ≤ 255 → Forall kv_ok kvs → Forall field_ok (meta_calls kvs ++ data_calls data).
Proof.
  intros Hn Hk. apply Forall_app. split; [|apply data_calls_ok]. constructor; [|by apply pairs_calls_ok].
  apply wrap_in_width. lia.
Qed.

Lemma str8_ok s : str_size s ≤ 255 → field_ok (FStr kUInt8 (lit s)).
Proof. unfold str_size. cbn [field_ok prefix_bytes]. change (256 ^ Z.of_nat 1) with 256. lia. Qed.

(** A vector of exactly the size of what is written is filled with it. *)
Lemma fill_exact little ptr size fs :
  Forall field_ok fs → Z.of_nat (length (encode_all fs)) = size → at_address ptr size →
  fill little ptr size fs = Ok (encode_all fs).
Proof.
  intros Hok Hs [Hp Ht]. unfold fill.
  assert (length (replicate (Z.to_nat size) zero) = length (encode_all fs)) as Hl by (rewrite length_replicate; lia).
  pose proof (BufferOperator_new_wf ptr (replicate (Z.to_nat size) zero) Hp ltac:(rewrite Hl; lia)) as Hw.
  rewrite put_fields_ok; [|done..|].
  - cbn. rewrite Z.sub_diag. change (Z.to_nat 0) with 0%nat. unfold splice. cbn [take Nat.add].
    rewrite drop_ge by lia. by rewrite app_nil_r.
  - destruct Hw. unfold bo_fits. cbn in *. lia.
Qed.

(** What a request, a response and a channel message are on the wire. *)
Definition req_fields ty topic req_id kvs data : list field :=
  FStr kUInt8 (lit ty) :: FStr kUInt8 (lit topic) :: FU32 req_id :: meta_calls kvs ++ data_calls data.
Definition rsp_fields ty req_id_buf code data : list field :=
  FStr kUInt8 (lit ty) :: FBuf req_id_buf :: FU32 code :: data_calls data.
Definition msg_fields ty kvs data : list field := FStr kUInt8 (lit ty) :: meta_calls kvs ++ data_calls data.

Lemma pack_req_eq little ptr ty topic req_id kvs data :
  str_size ty ≤ 255 → str_size topic ≤ 255 → in_width 32 req_id → Z.of_nat (length kvs) ≤ 255 →
  Forall kv_ok kvs → at_address ptr (req_pkg_size ty topic kvs data) →
  pack_req little ptr ty topic req_id kvs data = Ok (encode_all (req_fields ty topic req_id kvs data)).
Proof.
  intros Hty Hto Hid Hn Hk Hp. apply fill_exact; [|unfold req_pkg_size|done].
  - constructor; [by apply str8_ok|]. constructor; [by apply str8_ok|]. constructor; [done|]. by apply metas_data_ok.
  - unfold req_fields. rewrite !encode_all_cons, encode_all_app, !length_app, encode_data.
    pose proof (length_encode_str kUInt8 1 ty eq_refl). pose proof (length_encode_str kUInt8 1 topic eq_refl).
    pose proof (length_encode_metas kvs). unfold BufferSize.
    assert (length (encode (FU32 req_id)) = 4%nat) as -> by done. lia.
Qed.

Lemma pack_rsp_eq little ptr ty req_id_buf code data :
  str_size ty ≤ 255 → length req_id_buf = 4%nat → in_width 32 code → at_address ptr (rsp_pkg_size ty data) →
  pack_rsp little ptr ty req_id_buf code data = Ok (encode_all (rsp_fields ty req_id_buf code data)).
Proof.
  intros Hty Hid Hc Hp. apply fill_exact; [|unfold rsp_pkg_size|done].
  - constructor; [by apply str8_ok|]. constructor; [done|]. constructor; [done|]. apply data_calls_ok.
  - unfold rsp_fields. rewrite !encode_all_cons, !length_app, encode_data. pose proof (length_encode_str kUInt8 1 ty eq_refl).
    unfold BufferSize. assert (length (encode (FU32 code)) = 4%nat) as -> by done.
    cbn [encode] in *. lia.
Qed.

Lemma pack_msg_eq little ptr ty kvs data :
  str_size ty ≤ 255 → Z.of_nat (length kvs) ≤ 255 → Forall kv_ok kvs → at_address ptr (msg_pkg_size ty kvs data) →
  pack_msg little ptr ty kvs data = Ok (encode_all (msg_fields ty kvs data)).
Proof.
  intros Hty Hn Hk Hp. apply fill_exact; [|unfold msg_pkg_size|done].
  - constructor; [by apply str8_ok|]. by apply metas_data_ok.
  - unfold msg_fields. rewrite !encode_all_cons, encode_all_app, !length_app, encode_data.
    pose proof (length_encode_str kUInt8 1 ty eq_refl). pose proof (length_encode_metas kvs). unfold BufferSize. lia.
Qed.

(** ** Reading back *)

Section ReadBack.
Context (little : bool).
Implicit Types s : ConstBufferOperator.

Lemma get_str_ok lt x s rest :
  field_ok (FStr lt x) → cb_wf s → cb_rest s = encode (FStr lt x) ++ rest →
  get_str little lt s = (Ok x, cb_past s (length (encode (FStr lt x)))).
Proof.
  intros Hok Hwf Hr. pose proof (get_field_ok little (FStr lt x) s rest Hok Hwf Hr) as H.
  cbn [get_field shape_of] in H. unfold get_str. revert H. unfold_monad.
  destruct (GetString little lt s) as [[v|e|] s1]; [|done..]. destruct (view_bytes s1 v) as [b|e|]; [|done..].
  by intros [= -> ->].
Qed.

(** The reader past a field, for the next one. *)
Lemma past_field f s rest :
  cb_wf s → cb_rest s = encode f ++ rest →
  cb_wf (cb_past s (length (encode f))) ∧ cb_rest (cb_past s (length (encode f))) = rest.
Proof. intros Hwf Hr. split; [by eapply cb_past_wf|by eapply cb_past_rest]. Qed.

Lemma cb_past_past s m n : cb_past (cb_past s m) n = cb_past s (m + n).
Proof. unfold cb_past; cbn. f_equal. lia. Qed.

(** The fields read so far and those left. *)
Lemma past_fields fs rest s :
  cb_wf s → cb_rest s = encode_all fs ++ rest →
  cb_wf (cb_past s (length (encode_all fs))) ∧ cb_rest (cb_past s (length (encode_all fs))) = rest.
Proof. intros Hwf Hr. split; [by eapply cb_past_wf|by eapply cb_past_rest]. Qed.

Lemma get_pairs_ok kvs s rest :
  Forall kv_ok kvs → cb_wf s → cb_rest s = encode_all (pairs_calls kvs) ++ rest →
  get_pairs little (length kvs) s = (Ok kvs, cb_past s (length (encode_all (pairs_calls kvs)))).
Proof.
  intros Hk. revert s. induction kvs as [|[k v] kvs IH]; intros s Hwf Hr.
  - cbn. unfold mret, M_ret, cb_past; cbn. rewrite Z.add_0_r. by destruct s.
  - pose proof (pairs_calls_ok _ Hk) as Hok. apply Forall_cons in Hk as [_ Hk]. specialize (IH Hk).
    rewrite pairs_calls_cons, !encode_all_cons in *. cbn [fst snd] in *. rewrite <-!app_assoc in Hr.
    apply Forall_cons in Hok as [Hok1 Hok]. apply Forall_cons in Hok as [Hok2 _].
    cbn [length get_pairs]. unfold mbind, M_bind. rewrite (get_str_ok _ _ _ _ Hok1 Hwf Hr).
    destruct (past_field _ _ _ Hwf Hr) as [Hwf1 Hr1]. rewrite (get_str_ok _ _ _ _ Hok2 Hwf1 Hr1).
    destruct (past_field _ _ _ Hwf1 Hr1) as [Hwf2 Hr2]. rewrite (IH _ Hwf2 Hr2).
    unfold mret, M_ret. rewrite !str_lit, !cb_past_past, !length_app. do 2 f_equal; lia.
Qed.

Lemma get_metas_ok kvs s rest :
  Z.of_nat (length kvs) ≤ 255 → Forall kv_ok kvs → cb_wf s → cb_rest s = encode_all (meta_calls kvs) ++ rest →
  get_metas little s = (Ok kvs, cb_past s (length (encode_all (meta_calls kvs)))).
Proof.
  intros Hn Hk Hwf Hr. unfold meta_calls in *. fold (pairs_calls kvs) in *. rewrite encode_all_cons in *.
  rewrite <-app_assoc in Hr. unfold get_metas, mbind, M_bind.
  rewrite (GetUint8_le (wrap8 (Z.of_nat (length kvs))) s _ (wrap_in_width 8 _ ltac:(lia)) Hwf Hr).
  destruct (past_field _ _ _ Hwf Hr) as [Hwf1 Hr1]. cbn [encode] in Hwf1, Hr1. rewrite length_le_bytes in Hwf1, Hr1.
  rewrite wrap_small, Nat2Z.id by (unfold in_width; lia). rewrite (get_pairs_ok _ _ _ Hk Hwf1 Hr1).
  rewrite cb_past_past, length_app. by cbn [encode]; rewrite length_le_bytes.
Qed.

Lemma get_rest_ok s b : cb_wf s → cb_rest s = b → get_rest s = (Ok b, cb_past s (length b)).
Proof.
  intros Hwf Hr. assert (cb_rest s = b ++ []) as Hr' by (by rewrite app_nil_r).
  unfold get_rest, GetRemainingBuffer, ConstBufferOperator_GetRemainingSize, GetBuffer. unfold_monad.
  assert (wrap64 (cb_end s - cb_cur s) = Z.of_nat (length b)) as ->.
  { destruct Hwf. rewrite wrap64_small by lia. rewrite <-Hr. unfold cb_rest. rewrite length_drop. lia. }
  rewrite (cb_check_ok _ _ _ Hwf Hr'), (cb_advance_ok _ _ _ Hwf Hr').
  pose proof (view_bytes_here _ _ _ Hwf Hr') as Hv. unfold view_bytes, view_in_bounds in Hv |- *; cbn in Hv |- *.
  by rewrite Hv.
Qed.

Lemma parse_req_ok ty topic req_id kvs data s :
  str_size ty ≤ 255 → str_size topic ≤ 255 → Z.of_nat (length kvs) ≤ 255 → Forall kv_ok kvs →
  cb_wf s → cb_rest s = encode_all (req_fields ty topic req_id kvs data) →
  (parse_req little s).1 = Ok (ty, topic, le_bytes 4 req_id, kvs, concat data).
Proof.
  intros Hty Hto Hn Hk Hwf Hr. unfold req_fields in Hr. rewrite !encode_all_cons, encode_all_app, encode_data in Hr.
  unfold parse_req, mbind, M_bind.
  rewrite (get_str_ok _ _ _ _ (str8_ok _ Hty) Hwf Hr). destruct (past_field _ _ _ Hwf Hr) as [Hwf1 Hr1].
  rewrite (get_str_ok _ _ _ _ (str8_ok _ Hto) Hwf1 Hr1). destruct (past_field _ _ _ Hwf1 Hr1) as [Hwf2 Hr2].
  cbn [encode] in Hr2. unfold GetBuffer_copy. unfold_monad.
  rewrite (cb_check_ok _ (le_bytes 4 req_id) _ Hwf2 Hr2 : cb_check 4 _ = _).
  rewrite (cb_load_ok _ (le_bytes 4 req_id) _ Hwf2 Hr2 : cb_load 4 _ = _).
  rewrite (cb_advance_ok _ (le_bytes 4 req_id) _ Hwf2 Hr2 : cb_advance 4 _ = _).
  destruct (past_field (FBuf (le_bytes 4 req_id)) _ _ Hwf2 Hr2) as [Hwf3 Hr3].
  change (length (encode (FBuf (le_bytes 4 req_id)))) with 4%nat in Hwf3, Hr3.
  change (length (le_bytes 4 req_id)) with 4%nat.
  rewrite (get_metas_ok _ _ _ Hn Hk Hwf3 Hr3). destruct (past_fields _ _ _ Hwf3 Hr3) as [Hwf4 Hr4].
  rewrite (get_rest_ok _ _ Hwf4 Hr4). cbn [fst]. by rewrite !str_lit.
Qed.

Lemma parse_rsp_ok ty req_id code data s :
  str_size ty ≤ 255 → in_width 32 req_id → in_width 32 code →
  cb_wf s → cb_rest s = encode_all (rsp_fields ty (le_bytes 4 req_id) code data) →
  ∃ s', parse_rsp_head little s = (Ok (ty, req_id, code), s') ∧ (get_rest s').1 = Ok (concat data).
Proof.
  intros Hty Hi Hc Hwf Hr. unfold rsp_fields in Hr. rewrite !encode_all_cons, encode_data in Hr.
  unfold parse_rsp_head, mbind, M_bind.
  rewrite (get_str_ok _ _ _ _ (str8_ok _ Hty) Hwf Hr). destruct (past_field _ _ _ Hwf Hr) as [Hwf1 Hr1].
  rewrite (GetUint32_le little req_id _ _ Hi Hwf1 Hr1). destruct (past_field (FU32 req_id) _ _ Hwf1 Hr1) as [Hwf2 Hr2].
  change (length (encode (FU32 req_id))) with 4%nat in Hwf2, Hr2.
  rewrite (GetUint32_le little code _ _ Hc Hwf2 Hr2). destruct (past_field (FU32 code) _ _ Hwf2 Hr2) as [Hwf3 Hr3].
  change (length (encode (FU32 code))) with 4%nat in Hwf3, Hr3.
  eexists. unfold mret, M_ret. rewrite str_lit. split; [reflexivity|]. by rewrite (get_rest_ok _ _ Hwf3 Hr3).
Qed.

Lemma parse_msg_ok ty kvs data s :
  str_size ty ≤ 255 → Z.of_nat (length kvs) ≤ 255 → Forall kv_ok kvs →
  cb_wf s → cb_rest s = encode_all (msg_fields ty kvs data) →
  (parse_msg little s).1 = Ok (ty, kvs, concat data).
Proof.
  intros Hty Hn Hk Hwf Hr. unfold msg_fields in Hr. rewrite !encode_all_cons, encode_all_app, encode_data in Hr.
  unfold parse_msg, mbind, M_bind.
  rewrite (get_str_ok _ _ _ _ (str8_ok _ Hty) Hwf Hr). destruct (past_field _ _ _ Hwf Hr) as [Hwf1 Hr1].
  rewrite (get_metas_ok _ _ _ Hn Hk Hwf1 Hr1). destruct (past_fields _ _ _ Hwf1 Hr1) as [Hwf2 Hr2].
  rewrite (get_rest_ok _ _ Hwf2 Hr2). cbn [fst]. by rewrite str_lit.
Qed.
End ReadBack.

(** ** What cannot be written *)

Definition rooms (fs : list field) : Z := foldr (λ f n, field_room f + n) 0 fs.

Lemma rooms_app fs gs : rooms (fs ++ gs) = rooms fs + rooms gs.
Proof. unfold rooms. induction fs as [|f fs IH]; cbn; [done|]. cbn in IH. lia. Qed.

Lemma rooms_data data : rooms (data_calls data) = BufferSize data.
Proof.
  unfold rooms, data_calls, BufferSize. induction data as [|b data IH]; [done|].
  cbn [map foldr concat]. rewrite IH, length_app. cbn [field_room encode]. lia.
Qed.

Lemma rooms_metas kvs : rooms (meta_calls kvs) = context_meta_kv_size kvs.
Proof.
  unfold meta_calls. fold (pairs_calls kvs). unfold rooms. cbn [foldr]. fold (rooms (pairs_calls kvs)).
  change (field_room (FU8 (wrap8 (Z.of_nat (length kvs))))) with 1.
  induction kvs as [|kv kvs IH]; [done|]. rewrite pairs_calls_cons. cbn [context_meta_kv_size foldr].
  fold (context_meta_kv_size kvs). unfold rooms in *. cbn [foldr field_room len_type_size].
  fold (str_size kv.1) (str_size kv.2). lia.
Qed.

Lemma rooms_nonneg fs : Forall field_arg fs → 0 ≤ rooms fs.
Proof.
  unfold rooms. induction 1 as [|f fs Hf _ IH]; cbn; [done|].
  destruct f as [n|n|n|n|b|lt x]; cbn [field_room field_arg] in *; lia.
Qed.

(** Whatever is written before it, a field that cannot be represented makes
    the writing throw when there is room for all. *)
Lemma put_fields_unrepresentable little fs s :
  bo_wf s → Forall field_arg fs → bo_fits s (rooms fs) → ¬ Forall field_ok fs →
  ∃ what s', put_fields little fs s = (Throw (RuntimeError what), s').
Proof.
  revert s. induction fs as [|f fs IH]; intros s Hwf Ha Hf Hno; [exfalso; by apply Hno|].
  apply Forall_cons in Ha as [Hfa Ha]. pose proof (rooms_nonneg _ Ha).
  unfold bo_fits in Hf. unfold rooms in Hf. cbn [foldr] in Hf. fold (rooms fs) in Hf.
  cbn [put_fields mapM_]. fold (put_fields little fs). unfold mbind, M_bind.
  destruct (decide (field_ok f)) as [Hok|Hbad].
  - pose proof (field_room_ok f Hok). rewrite put_field_ok by (done || unfold bo_fits; lia).
    apply IH; [apply bo_after_wf; [done|unfold bo_fits; lia]|done|unfold bo_fits; cbn; lia|].
    intros Hall. apply Hno. by constructor.
  - destruct (put_field_unrepresentable little s f Hwf Hfa) as [what ->]; [unfold bo_fits; lia|done|].
    by eexists _, _.
Qed.

Lemma encode_rooms fs : Forall field_ok fs → Z.of_nat (length (encode_all fs)) = rooms fs.
Proof.
  induction 1 as [|f fs Hf _ IH]; [done|]. rewrite encode_all_cons, length_app. unfold rooms in *. cbn [foldr].
  rewrite field_room_ok by done. lia.
Qed.

Lemma metas_data_arg kvs data : Forall field_arg (meta_calls kvs ++ data_calls data).
Proof.
  apply Forall_app. split; [|apply Forall_forall; by intros f (b & -> & _)%list_elem_of_fmap].
  constructor; [apply wrap_in_width; lia|]. fold (pairs_calls kvs).
  induction kvs as [|kv kvs IH]; [constructor|]. rewrite pairs_calls_cons. by repeat constructor.
Qed.

Lemma metas_data_ok_inv kvs data : Forall field_ok (meta_calls kvs ++ data_calls data) → Forall kv_ok kvs.
Proof.
  intros [Hall _]%Forall_app. apply Forall_cons in Hall as [_ Hall]. fold (pairs_calls kvs) in Hall.
  induction kvs as [|kv kvs IH]; [constructor|]. rewrite pairs_calls_cons in Hall.
  apply Forall_cons in Hall as [H1 Hall]. apply Forall_cons in Hall as [H2 Hall]. constructor; [|by apply IH].
  split; unfold str_size; by apply H1 || by apply H2.
Qed.

Lemma req_rooms ty topic req_id kvs data : rooms (req_fields ty topic req_id kvs data) = req_pkg_size ty topic kvs data.
Proof.
  unfold req_fields, req_pkg_size. unfold rooms. cbn [foldr field_room len_type_size].
  fold (rooms (meta_calls kvs ++ data_calls data)). rewrite rooms_app, rooms_metas, rooms_data.
  fold (str_size ty) (str_size topic). change (Z.of_nat (length (encode (FU32 req_id)))) with 4. lia.
Qed.

Lemma fill_throws little ptr size fs :
  Forall field_arg fs → rooms fs = size → at_address ptr size → ¬ Forall field_ok fs →
  ∃ what, fill little ptr size fs = Throw (RuntimeError what).
Proof.
  intros Ha Hs [Hp0 Hp1] Hno. pose proof (rooms_nonneg _ Ha). unfold fill.
  assert (Z.of_nat (length (replicate (Z.to_nat size) zero)) = size) as Hl by (rewrite length_replicate; lia).
  pose proof (BufferOperator_new_wf ptr _ Hp0 (eq_ind_r (λ z, ptr + z < 2 ^ 64) Hp1 Hl)) as Hw.
  destruct (put_fields_unrepresentable little fs _ Hw Ha) as (what & s' & ->); [|done|by exists what].
  destruct Hw. unfold bo_fits. cbn in *. lia.
Qed.

Lemma pack_req_throws little ptr ty topic req_id kvs data :
  in_width 32 req_id → at_address ptr (req_pkg_size ty topic kvs data) → ¬ Forall kv_ok kvs →
  ∃ what, pack_req little ptr ty topic req_id kvs data = Throw (RuntimeError what).
Proof.
  intros Hid Hp Hk. apply (fill_throws _ _ _ (req_fields ty topic req_id kvs data)); [|apply req_rooms|done|].
  - constructor; [done|]. constructor; [done|]. constructor; [done|]. apply metas_data_arg.
  - intros Hall. apply Hk. do 3 (apply Forall_cons in Hall as [_ Hall]). by eapply metas_data_ok_inv.
Qed.

Lemma pack_msg_throws little ptr ty kvs data :
  at_address ptr (msg_pkg_size ty kvs data) → ¬ Forall kv_ok kvs →
  ∃ what, pack_msg little ptr ty kvs data = Throw (RuntimeError what).
Proof.
  intros Hp Hk. apply (fill_throws _ _ _ (msg_fields ty kvs data)); [| |done|].
  - constructor; [done|]. apply metas_data_arg.
  - unfold msg_fields, msg_pkg_size, rooms. cbn [foldr field_room len_type_size].
    fold (rooms (meta_calls kvs ++ data_calls data)). rewrite rooms_app, rooms_metas, rooms_data.
    fold (str_size ty). lia.
  - intros Hall. apply Hk. apply Forall_cons in Hall as [_ Hall]. by eapply metas_data_ok_inv.
Qed.

(** A reader of a payload, at the start. *)
Lemma reader_start ptr payload :
  at_address ptr (Z.of_nat (length payload)) →
  cb_wf (ConstBufferOperator_new ptr payload) ∧ cb_rest (ConstBufferOperator_new ptr payload) = payload.
Proof.
  intros [Hp0 Hp1]. split; [apply ConstBufferOperator_new_wf; lia|]. unfold cb_rest; cbn. by rewrite Z.sub_diag.
Qed.

(** A request is read back as it was written.  For a serialization type
    and a reply topic of at most 255 characters and at most 255 pairs of metadata,
    the vector that [Invoke] allocates has exactly the size of the package, at
    whatever address.  If every key and value has less than 65536 bytes, writing
    succeeds, and reading the payload at any address, on a host of either byte
    order, gives the type, the topic, the bytes of the number of the request, the
    metadata and the message; otherwise writing throws. *)
Theorem mqtt_request_roundtrip (writer_little reader_little : bool) (ptr ptr' : Z) (ty topic : string) (req_id : Z)
    (kvs : KeyVals) (data : list bytes) :
  str_size ty ≤ 255 → str_size topic ≤ 255 → in_width 32 req_id → Z.of_nat (length kvs) ≤ 255 →
  at_address ptr (req_pkg_size ty topic kvs data) → at_address ptr' (req_pkg_size ty topic kvs data) →
  if decide (Forall kv_ok kvs) then
    ∃ payload, pack_req writer_little ptr ty topic req_id kvs data = Ok payload ∧
      Z.of_nat (length payload) = req_pkg_size ty topic kvs data ∧
      read ptr' payload (parse_req reader_little) = Ok (ty, topic, le_bytes 4 req_id, kvs, concat data)
  else ∃ what, pack_req writer_little ptr ty topic req_id kvs data = Throw (RuntimeError what).
Proof.
  intros Hty Hto Hid Hn Hp Hp'. destruct (decide (Forall kv_ok kvs)) as [Hk|Hk]; [|by apply pack_req_throws].
  exists (encode_all (req_fields ty topic req_id kvs data)).
  assert (Z.of_nat (length (encode_all (req_fields ty topic req_id kvs data))) = req_pkg_size ty topic kvs data) as Hl.
  { rewrite <-req_rooms with (req_id := req_id). apply encode_rooms.
    constructor; [by apply str8_ok|]. constructor; [by apply str8_ok|]. constructor; [done|]. by apply metas_data_ok. }
  split; [by apply pack_req_eq|]. split; [done|]. rewrite <-Hl in Hp'. apply reader_start in Hp' as [Hwf Hr].
  by apply parse_req_ok.
Qed.

(** ** Witnesses *)

Lemma mqtt_request_roundtrip_witness :
  ∃ payload, pack_req true 4096 "pb" "r" 258 [("a", "bc")] [lit "xy"; lit "z"] = Ok payload ∧
    read 8192 payload (parse_req false) = Ok ("pb", "r", le_bytes 4 258, [("a", "bc")], lit "xyz").
Proof.
  pose proof (mqtt_request_roundtrip true false 4096 8192 "pb" "r" 258 [("a", "bc")] [lit "xy"; lit "z"]
    ltac:(zdec) ltac:(zdec) ltac:(zdec) ltac:(zdec) ltac:(zdec) ltac:(zdec)) as H.
  destruct (decide _) as [_|[]].
  - destruct H as (payload & H1 & _ & H2). exists payload. split; [exact H1|exact H2].
  - repeat constructor; zdec.
Defined.
