(* ===== verification/ZenohShm.v ===== *)
(** * Serializing into shared memory:
    [src/plugins/zenoh_plugin/zenoh_buffer_array_allocator.h], [zenoh_plugin/util.h]

    The zenoh backends let the type support of a message serialize it into a
    piece of shared memory: an allocator hands out the memory from the front,
    and refuses and remembers it when there is not enough.  A type support is a
    parameter - its serialized form and the sizes it asks the allocator for; the
    memory is a list of bytes at an address.

    Theorems: a form whose buffers fill what was asked for, but the last, is in
    the memory as it is when the memory is large enough, and the allocator says
    so when it is not; the stream of the protobuf library asks in that way;
    a buffer that is not filled leaves a gap. *)

From S2P Require Import Prelude BufferUtil MqttWire ZeroCopy.
Local Open Scope Z_scope.

(* @src src/src/plugins/zenoh_plugin/zenoh_buffer_array_allocator.h:86-93 ZenohBufferArrayAllocator *)
Record ZAllocator := mkZAllocator { z_shm_capacity : Z; z_shm_used_size : Z; z_shm_cur_ptr : Z; z_is_shm_enough : bool }.

(* @src src/src/plugins/zenoh_plugin/zenoh_buffer_array_allocator.h:16-19 ZenohBufferArrayAllocator::ZenohBufferArrayAllocator *)
Definition ZAllocator_new (capacity head_ptr : Z) : ZAllocator := mkZAllocator capacity 0 head_ptr true.

(** The buffers - address and length - and the capacity of the array. *)
(* @src src/src/interface/aimrt_module_c_interface/util/buffer_base.h:52-62 aimrt_buffer_array_t *)
Record ZArray := mkZArray { zr_data : list (Z * Z); zr_capacity : Z }.

(** What is serialized into: the allocator, the array, and the memory. *)
Record ZShm := mkZShm { zs_alloc : ZAllocator; zs_array : ZArray; zs_base : Z; zs_mem : bytes }.

Definition zs_set_alloc a s := mkZShm a (zs_array s) (zs_base s) (zs_mem s).
Definition zs_set_array a s := mkZShm (zs_alloc s) a (zs_base s) (zs_mem s).
Definition zs_set_mem m s := mkZShm (zs_alloc s) (zs_array s) (zs_base s) m.

(** The buffers are copied to the new array. *)
(* @src src/src/plugins/zenoh_plugin/zenoh_buffer_array_allocator.h:26-38 ZenohBufferArrayAllocator::Reserve *)
Definition z_Reserve (new_cap : Z) : M ZShm bool :=
  modify (λ s, zs_set_array (mkZArray (zr_data (zs_array s)) new_cap) s);; mret true.

Definition z_push (data size : Z) : M ZShm (option Z) :=
  modify (λ s, zs_set_array (mkZArray (zr_data (zs_array s) ++ [(data, size)]) (zr_capacity (zs_array s))) s);;
  mret (Some data).

(** [None] is the null pointer. *)
(* @src src/src/plugins/zenoh_plugin/zenoh_buffer_array_allocator.h:40-65 ZenohBufferArrayAllocator::Allocate *)
Definition z_Allocate (size : Z) : M ZShm (option Z) :=
  s ← get;
  let a := zs_alloc s in
  let data := z_shm_cur_ptr a in
  let used := wrap64 (z_shm_used_size a + size) in
  let cur := wrap64 (data + size) in
  if z_shm_capacity a <? used then
    put (zs_set_alloc (mkZAllocator (z_shm_capacity a) used cur false) s);; mret None
  else
    modify (zs_set_alloc (mkZAllocator (z_shm_capacity a) used cur (z_is_shm_enough a)));;
    if data =? 0 then mret None
    else
      let arr := zs_array s in
      if Z.of_nat (length (zr_data arr)) <? zr_capacity arr then z_push data size
      else
        _ ← z_Reserve (if zr_capacity arr <? 2 then 2 else wrap64 (Z.shiftl (zr_capacity arr) 1));
        z_push data size.

(** The type support writes into a buffer, and sets the length of it. *)
Definition z_store (p : Z) (b : bytes) : M ZShm unit :=
  s ← get;
  let off := p - zs_base s in
  if (0 <=? off) && (off + buf_len b <=? Z.of_nat (length (zs_mem s)))
  then put (zs_set_mem (splice (Z.to_nat off) b (zs_mem s)) s) else undef.

Definition z_commit (len : Z) : M ZShm unit :=
  modify (λ s, let d := zr_data (zs_array s) in
    zs_set_array (mkZArray (alter (λ x, (x.1, len)) (length d - 1)%nat d) (zr_capacity (zs_array s))) s).

(** A type support asks for a size and writes a buffer, until it is refused. *)
Definition z_put (n : Z) (b : bytes) : M ZShm bool :=
  p ← z_Allocate n;
  match p with
  | None => mret false
  | Some p => z_store p b;; z_commit (buf_len b);; mret true
  end.

Fixpoint serialize_into (l : list (Z * bytes)) : M ZShm bool :=
  match l with
  | [] => mret true
  | (n, b) :: l => ok ← z_put n b; if ok : bool then serialize_into l else mret false
  end.

(** One that cannot serialize a message says so in the end. *)
Definition SerializeTo (reqs : list Z) (form : option (list bytes)) : M ZShm bool :=
  match form with
  | Some bs => serialize_into (zip reqs bs)
  | None => serialize_into (map (λ n, (n, [])) reqs);; mret false
  end.

(** [BufferSize] of the array. *)
Definition z_BufferSize (s : ZShm) : Z := foldr (λ x n, x.2 + n) 0 (zr_data (zs_array s)).

(** ** Where the form is *)

(** Every buffer fills what was asked for, but for the last. *)
Inductive contiguous : list Z → list bytes → Prop :=
| contiguous_nil : contiguous [] []
| contiguous_last n b : buf_len b ≤ n → contiguous [n] [b]
| contiguous_cons n b reqs bs : n = buf_len b → contiguous reqs bs → contiguous (n :: reqs) (b :: bs).

Definition total (reqs : list Z) : Z := foldr Z.add 0 reqs.

Lemma buf_len_nonneg b : 0 ≤ buf_len b.
Proof. unfold buf_len. lia. Qed.
Lemma buf_len_app b b' : buf_len (b ++ b') = buf_len b + buf_len b'.
Proof. unfold buf_len. rewrite length_app. lia. Qed.

Lemma contiguous_total reqs bs : contiguous reqs bs → buf_len (concat bs) ≤ total reqs.
Proof. induction 1 as [|n b Hn|n b reqs bs -> _ IH]; unfold total in *; cbn [concat foldr]; [done|rewrite app_nil_r; lia|].
  rewrite buf_len_app. lia. Qed.

Lemma contiguous_nonneg reqs bs : contiguous reqs bs → Forall (λ n, 0 ≤ n) reqs.
Proof.
  induction 1 as [|n b Hn|n b reqs bs -> _ IH]; constructor; [|done|apply buf_len_nonneg|done].
  pose proof (buf_len_nonneg b). lia.
Qed.

Lemma total_nonneg reqs : Forall (λ n, 0 ≤ n) reqs → 0 ≤ total reqs.
Proof. induction 1 as [|n reqs Hn _ IH]; unfold total in *; cbn [foldr]; lia. Qed.

(** The memory at the cursor is what the allocator has left. *)
Record shm_ok (s : ZShm) : Prop := {
  so_base : 0 < zs_base s;
  so_top : zs_base s + buf_len (zs_mem s) < 2 ^ 64;
  so_cur : zs_base s ≤ z_shm_cur_ptr (zs_alloc s);
  so_used : 0 ≤ z_shm_used_size (zs_alloc s) ≤ z_shm_capacity (zs_alloc s);
  so_room : z_shm_cur_ptr (zs_alloc s) + (z_shm_capacity (zs_alloc s) - z_shm_used_size (zs_alloc s)) ≤
            zs_base s + buf_len (zs_mem s);
  so_capacity : z_shm_capacity (zs_alloc s) < 2 ^ 63
}.

Definition room (s : ZShm) : Z := z_shm_capacity (zs_alloc s) - z_shm_used_size (zs_alloc s).
Definition cursor (s : ZShm) : nat := Z.to_nat (z_shm_cur_ptr (zs_alloc s) - zs_base s).

Lemma sum_app (d : list (Z * Z)) x : foldr (λ x n, x.2 + n) 0 (d ++ [x]) = foldr (λ x n, x.2 + n) 0 d + x.2.
Proof. induction d as [|y d IH]; cbn; [lia|]. cbn in IH. rewrite IH. lia. Qed.

(** A size that there is room for. *)
Lemma z_Allocate_ok s n :
  shm_ok s → 0 ≤ n ≤ room s →
  ∃ arr, z_Allocate n s = (Ok (Some (z_shm_cur_ptr (zs_alloc s))),
    mkZShm (mkZAllocator (z_shm_capacity (zs_alloc s)) (z_shm_used_size (zs_alloc s) + n) (z_shm_cur_ptr (zs_alloc s) + n)
              (z_is_shm_enough (zs_alloc s))) arr (zs_base s) (zs_mem s)) ∧
    zr_data arr = zr_data (zs_array s) ++ [(z_shm_cur_ptr (zs_alloc s), n)].
Proof.
  intros [Hb Ht Hc Hu Hr Hcap] Hn. unfold room in *. pose proof (buf_len_nonneg (zs_mem s)). unfold z_Allocate, z_Reserve, z_push. unfold_monad.
  rewrite !(wrap_small 64 (_ + n)) by (unfold in_width; lia). rewrite (proj2 (Z.ltb_ge _ _)) by lia.
  rewrite (proj2 (Z.eqb_neq _ 0)) by lia. destruct (_ <? zr_capacity _); (eexists; split; [reflexivity|done]).
Qed.

Lemma z_put_ok s n b :
  shm_ok s → buf_len b ≤ n ≤ room s →
  ∃ s', z_put n b s = (Ok true, s') ∧ shm_ok s' ∧ room s' = room s - n ∧ zs_mem s' = splice (cursor s) b (zs_mem s) ∧
    zs_base s' = zs_base s ∧ z_shm_cur_ptr (zs_alloc s') = z_shm_cur_ptr (zs_alloc s) + n ∧
    z_is_shm_enough (zs_alloc s') = z_is_shm_enough (zs_alloc s) ∧ z_BufferSize s' = z_BufferSize s + buf_len b.
Proof.
  intros Hok Hn. pose proof (buf_len_nonneg b). destruct (z_Allocate_ok s n Hok ltac:(lia)) as (arr & Halloc & Harr).
  destruct Hok as [Hb Ht Hc Hu Hr Hcap]. unfold room in *. unfold z_put, mbind, M_bind. rewrite Halloc. unfold z_store, z_commit. unfold_monad. cbn.
  rewrite (proj2 (Z.leb_le 0 _)) by lia. unfold buf_len in Hr. rewrite (proj2 (Z.leb_le (_ + buf_len b) _)) by lia. cbn.
  eexists. split; [reflexivity|].
  assert (buf_len (splice (cursor s) b (zs_mem s)) = buf_len (zs_mem s)) as Hlen.
  { unfold buf_len, cursor in *. rewrite length_splice; lia. }
  fold (cursor s). split_and!; cbn; try done.
  - split; cbn; rewrite ?Hlen; unfold buf_len in *; try lia.
  - unfold room; cbn. lia.
  - unfold z_BufferSize; cbn. rewrite Harr, length_app, Nat.add_sub.
    rewrite <-(Nat.add_0_r (length (zr_data _))), alter_app_r. cbn. by rewrite sum_app.
Qed.

(** One that there is no room for. *)
Lemma z_put_refused s n b :
  shm_ok s → room s < n < 2 ^ 63 → ∃ s', z_put n b s = (Ok false, s') ∧ z_is_shm_enough (zs_alloc s') = false.
Proof.
  intros [Hb Ht Hc Hu Hr Hcap] Hn. unfold room in *. unfold z_put, z_Allocate. unfold_monad.
  rewrite (wrap_small 64 (z_shm_used_size _ + n)) by (unfold in_width; lia). rewrite (proj2 (Z.ltb_lt _ _)) by lia.
  eexists. split; [reflexivity|done].
Qed.

(** The form is in the memory, one buffer after the other. *)
Lemma serialize_into_ok reqs bs : contiguous reqs bs → ∀ s,
  shm_ok s → total reqs ≤ room s →
  ∃ s', serialize_into (zip reqs bs) s = (Ok true, s') ∧ zs_mem s' = splice (cursor s) (concat bs) (zs_mem s) ∧
    z_is_shm_enough (zs_alloc s') = z_is_shm_enough (zs_alloc s) ∧ z_BufferSize s' = z_BufferSize s + buf_len (concat bs).
Proof.
  induction 1 as [|n b Hn|n b reqs bs -> Hcont IH]; intros s Hok Ht; cbn [zip zip_with serialize_into concat].
  - exists s. split; [done|]. unfold splice. cbn. rewrite Nat.add_0_r, take_drop. split; [done|]. split; [done|]. unfold buf_len; cbn; lia.
  - unfold total in *; cbn [foldr] in *. destruct (z_put_ok s n b Hok ltac:(lia)) as (s' & Hrun & _ & _ & Hm & _ & _ & He & Hsz). exists s'.
    unfold mbind, M_bind. rewrite Hrun, app_nil_r. done.
  - pose proof (total_nonneg _ (contiguous_nonneg _ _ Hcont)). unfold total in *; cbn [foldr] in *.
    destruct (z_put_ok s (buf_len b) b Hok ltac:(lia)) as (s1 & Hrun & Hok1 & Hroom & Hm & Hbase & Hcur & He & Hsz).
    destruct (IH s1 Hok1 ltac:(lia)) as (s' & Hrun' & Hm' & He' & Hsz'). exists s'. unfold mbind, M_bind. rewrite Hrun, Hrun'.
    split; [done|]. rewrite buf_len_app. split_and!; [|congruence|lia].
    assert (cursor s1 = (cursor s + length b)%nat) as Hcs.
    { unfold cursor. rewrite Hbase, Hcur. destruct Hok. unfold buf_len. lia. }
    rewrite Hm', Hm, Hcs. apply splice_splice. pose proof (contiguous_total _ _ Hcont). destruct Hok. unfold total, cursor, room, buf_len in *. rewrite ?length_app in *. lia.
Qed.

(** When there is not room for all of it, the allocator knows. *)
Lemma serialize_into_refused reqs bs : contiguous reqs bs → ∀ s,
  shm_ok s → room s < total reqs < 2 ^ 63 →
  ∃ s', serialize_into (zip reqs bs) s = (Ok false, s') ∧ z_is_shm_enough (zs_alloc s') = false.
Proof.
  induction 1 as [|n b Hn|n b reqs bs -> Hcont IH]; intros s Hok Ht; cbn [zip zip_with serialize_into].
  - unfold total in *; cbn [foldr] in *. destruct Hok. unfold room in Ht. lia.
  - unfold total in *; cbn [foldr] in *. destruct (z_put_refused s n b Hok ltac:(lia)) as (s' & Hrun & He). exists s'. unfold mbind, M_bind. by rewrite Hrun.
  - pose proof (total_nonneg _ (contiguous_nonneg _ _ Hcont)). pose proof (buf_len_nonneg b). unfold total in *; cbn [foldr] in *.
    destruct (Z.lt_ge_cases (room s) (buf_len b)).
    + destruct (z_put_refused s (buf_len b) b Hok ltac:(lia)) as (s' & Hrun & He). exists s'. unfold mbind, M_bind. by rewrite Hrun.
    + destruct (z_put_ok s (buf_len b) b Hok ltac:(lia)) as (s1 & Hrun & Hok1 & Hroom & _).
      destruct (IH s1 Hok1 ltac:(lia)) as (s' & Hrun' & He). exists s'. unfold mbind, M_bind. by rewrite Hrun.
Qed.

(** The stream of the protobuf library asks for blocks, and fills them. *)
Lemma blocks_contiguous bufs k :
  (∀ i b, bufs !! i = Some b → buf_len b ≤ block_of (k + S i) ∧ ((S i < length bufs)%nat → buf_len b = block_of (k + S i))) →
  contiguous (map block_of (seq (k + 1) (length bufs))) bufs.
Proof.
  revert k. induction bufs as [|b bufs IH]; intros k Hb; [constructor|].
  destruct (Hb 0%nat b eq_refl) as [Hle Heq]. destruct bufs as [|b' bufs]; [by constructor|].
  cbn [length seq map]. constructor; [symmetry; apply Heq; cbn; lia|]. replace (S (k + 1)) with (S k + 1)%nat by lia. apply IH.
  intros i x Hx. destruct (Hb (S i) x Hx) as [H1 H2]. rewrite Nat.add_succ_r in H1, H2. cbn [length] in *. split; [done|].
  intros Hi. apply H2. lia.
Qed.

Lemma protobuf_is_contiguous bufs : blocks bufs → contiguous (map block_of (seq 1 (length bufs))) bufs.
Proof. intros Hb. apply (blocks_contiguous bufs 0). exact Hb. Qed.

(** A buffer that is replaced by another, as [reallocate] of
    [ros2_rcl_serialized_message_adapter.h] does, leaves a gap: what lies where
    the message should be is what was in the memory before. *)
Theorem a_replaced_buffer_leaves_a_gap s n b :
  shm_ok s → z_BufferSize s = 0 → buf_len b ≤ n → n + buf_len b ≤ room s →
  ∃ s', serialize_into [(n, []); (buf_len b, b)] s = (Ok true, s') ∧ z_BufferSize s' = buf_len b ∧
    take (length b) (drop (cursor s) (zs_mem s')) = take (length b) (drop (cursor s) (zs_mem s)).
Proof.
  intros Hok Hz Hn Hroom. pose proof (buf_len_nonneg b).
  destruct (z_put_ok s n [] Hok ltac:(change (buf_len []) with 0; lia)) as (s1 & Hrun & Hok1 & Hr1 & Hm & Hbase & Hcur & _ & Hsz).
  destruct (z_put_ok s1 (buf_len b) b Hok1 ltac:(lia)) as (s' & Hrun' & _ & _ & Hm' & _ & _ & _ & Hsz').
  exists s'. cbn [serialize_into]. unfold mbind, M_bind. rewrite Hrun, Hrun'. split; [done|]. rewrite Hsz', Hsz, Hz. split; [unfold buf_len; cbn; lia|].
  assert (cursor s1 = (cursor s + Z.to_nat n)%nat) as Hcs.
  { unfold cursor. rewrite Hbase, Hcur. destruct Hok. lia. }
  assert (zs_mem s1 = zs_mem s) as Hm1 by (rewrite Hm; unfold splice; cbn; by rewrite Nat.add_0_r, take_drop).
  rewrite Hm', Hm1, Hcs. unfold splice.
  assert (cursor s + Z.to_nat n ≤ length (zs_mem s))%nat.
  { destruct Hok. unfold cursor, room, buf_len in *. lia. }
  rewrite drop_app_le by (rewrite length_take; lia). rewrite take_app_le by (rewrite length_drop, length_take; unfold buf_len in *; lia).
  rewrite <-firstn_skipn_comm, take_take. f_equal. unfold buf_len in *. lia.
Qed.

(** * Examples *)

Module ZenohShmDemo.
Definition demo_shm : ZShm := mkZShm (ZAllocator_new 8 4096) (mkZArray [] 0) 4096 (lit "........").
Lemma demo_shm_ok : shm_ok demo_shm.
Proof. split; unfold buf_len; cbn; lia. Qed.
End ZenohShmDemo.
Import ZenohShmDemo.

Lemma a_replaced_buffer_leaves_a_gap_witness :
  ∃ s', serialize_into [(3, []); (3, lit "msg")] demo_shm = (Ok true, s') ∧ z_BufferSize s' = 3 ∧
    take 3 (drop 0 (zs_mem s')) = lit "...".
Proof. exact (a_replaced_buffer_leaves_a_gap demo_shm 3 (lit "msg") demo_shm_ok eq_refl ltac:(by vm_compute) ltac:(by vm_compute)). Defined.

(** Two buffers in eight bytes, and in fewer than they need. *)
Example demo_serialized :
  let '(r, s) := serialize_into [(2, lit "ab"); (5, lit "cde")] demo_shm in
  r = Ok true ∧ zs_mem s = lit "abcde..." ∧ z_BufferSize s = 5.
Proof. vm_compute. done. Qed.
Example demo_refused :
  let '(r, s) := serialize_into [(2, lit "ab"); (7, lit "cde")] demo_shm in
  r = Ok false ∧ z_is_shm_enough (zs_alloc s) = false.
Proof. vm_compute. done. Qed.
