(* ===== verification/ZenohManager.v ===== *)
(** * What talks to zenoh: [src/plugins/zenoh_plugin/zenoh_manager.*]

    The publishers and the subscribers that the backends declare.  A sample of a
    key goes to each of its subscribers.  Parameters: what zenoh says to a
    declaration.  Not modelled: the session and its configuration. *)

From S2P Require Import Prelude.

(** The publishers, with or without shared memory; the subscribers that zenoh
    has, with what handles their samples. *)
(* @src src/src/plugins/zenoh_plugin/zenoh_manager.h:64-76 ZenohManager *)
Record ZenohManager (H : Type) := mkZenohManager {
  z_pub_registry : gmap string bool;
  z_sub_registry : list (string * H);
  shm_initialized : bool
}.

Arguments mkZenohManager {H}.
Arguments z_pub_registry {H}.
Arguments z_sub_registry {H}.
Arguments shm_initialized {H}.

Definition ZenohManager_new {H} : ZenohManager H := mkZenohManager ∅ [] false.

Section Manager.
Context {H : Type}.
(** Zenoh can declare a publisher, a subscriber. *)
Context (declare_publisher declare_subscriber : string → bool).

(* @src src/src/plugins/zenoh_plugin/zenoh_manager.cc:48-71 ZenohManager::RegisterPublisher *)
Definition zm_RegisterPublisher (keyexpr : string) (shm_enabled : bool) (z : ZenohManager H) : ZenohManager H :=
  if negb (declare_publisher keyexpr) then z
  else
    mkZenohManager
      (match z_pub_registry z !! keyexpr with
       | Some _ => z_pub_registry z
       | None => <[keyexpr := shm_enabled]> (z_pub_registry z)
       end)
      (z_sub_registry z) (shm_initialized z || shm_enabled).

(* @src src/src/plugins/zenoh_plugin/zenoh_manager.cc:73-99 ZenohManager::RegisterSubscriber *)
Definition zm_RegisterSubscriber (keyexpr : string) (handle : H) (z : ZenohManager H) : ZenohManager H :=
  if negb (declare_subscriber keyexpr) then z
  else mkZenohManager (z_pub_registry z) (z_sub_registry z ++ [(keyexpr, handle)]) (shm_initialized z).

(* @src src/src/plugins/zenoh_plugin/zenoh_manager.cc:101-119 ZenohManager::RegisterRpcNode *)
Definition zm_RegisterRpcNode (keyexpr : string) (handle : H) (role : string) (shm_enabled : bool) (z : ZenohManager H) : ZenohManager H :=
  if bool_decide (role = "client") then
    zm_RegisterSubscriber ("rsp/" ++ keyexpr) handle (zm_RegisterPublisher ("req/" ++ keyexpr) shm_enabled z)
  else if bool_decide (role = "server") then
    zm_RegisterSubscriber ("req/" ++ keyexpr) handle (zm_RegisterPublisher ("rsp/" ++ keyexpr) shm_enabled z)
  else z.

(* @src src/src/plugins/zenoh_plugin/zenoh_manager.cc:29-46 ZenohManager::Shutdown *)
Definition zm_Shutdown (z : ZenohManager H) : ZenohManager H := mkZenohManager ∅ [] (shm_initialized z).
End Manager.

(** The handlers that zenoh gives a sample of a key to: the keys of the backends
    have no wildcards. *)
Definition handlers_of {H} (key : string) (z : ZenohManager H) : list H :=
  map snd (filter (λ kh, kh.1 = key) (z_sub_registry z)).
