(* ===== verification/ZenohLoop.v ===== *)
(** * Finding a size of shared memory: the loop of
    [src/plugins/zenoh_plugin/zenoh_channel_backend.cc] and [zenoh_rpc_backend.cc]

    The zenoh backends send a package - a header and a serialized message - in a
    piece of shared memory, behind the length of the package.  The size to ask
    for is remembered for the key that is published; when the message does not
    fit it is doubled, and when the pool has no memory the package goes as a
    vector.  The backends have the same code for it, over other headers, messages
    and widths of integers, which are parameters here.

    Parameters: the pool - what it gives for the [n]th request of a size: an
    address and what is there - and the serialized form of the message with the
    sizes that its type support asks for.  The loop need not end: it has fuel.

    Theorems: whatever the pool gives, the loop ends for a message that is not
    cached, with the message behind its header or without memory; for one that is
    cached and does not fit it goes on as long as the pool gives memory; a header
    that does not fit throws. *)

From S2P Require Import Prelude Channel BufferUtil MqttWire ZeroCopy ZenohShm.
Local Open Scope Z_scope.

(** The sizes by key, and how often the pool has been asked. *)
(* @src src/src/plugins/zenoh_plugin/zenoh_channel_backend.h:75-75 ZenohChannelBackend::z_pub_shm_size_map_ *)
Record ShmSizes := mkShmSizes { shm_size_map : gmap string Z; shm_loans : nat }.

Definition ShmSizes_new : ShmSizes := mkShmSizes ∅ 0.

Definition set_size (key : string) (n : Z) (z : ShmSizes) : ShmSizes := mkShmSizes (<[key := n]> (shm_size_map z)) (shm_loans z).

(** The form of a message that is cached; else it is serialized, which needs
    the object: the sizes that are asked for, and the form. *)
(* @src src/src/plugins/zenoh_plugin/util.h:16-28 SerializeMsgSupportedZenoh (serialize) *)
Definition serialize_supported (cached : option BufferArrayView) (obj : option (list Z * option (list bytes)))
    : M ZShm (option BufferArrayView * Z) :=
  match cached with
  | Some c => mret (Some c, BufferSize c)
  | None =>
      match obj with
      | None => undef
      | Some (reqs, form) =>
          ok ← SerializeTo reqs form;
          check_throw ok "Serialize failed.";;
          gets (λ s, (None, z_BufferSize s))
      end
  end.

(** How a round of the loop ends: another round, with what is cached; the memory
    with the header and the message in it, or what is cached of it, and its size;
    no memory; an error that is logged. *)
Inductive ShmRound :=
| SAgain (cache : option BufferArrayView) (msg_size : Z)
| SLoaned (mem : bytes) (cache : option BufferArrayView) (msg_size : Z)
| SNoPool
| SFailed.

Section Loop.
Context (little : bool) (shm_alloc : nat → Z → option (Z * bytes)).
(** The width of the integer for the size of a message. *)
Context (width : Z).
Context (key : string) (header : list field) (header_len : Z).
Context (serialize : M ZShm (option BufferArrayView * Z)).

(** The header goes behind the length; the rest of the memory has a size. *)
(* @src src/src/plugins/zenoh_plugin/zenoh_channel_backend.cc:269-279 ZenohChannelBackend::Publish (header) *)
Definition write_header (ptr : Z) (mem : bytes) (loan_size : Z) : res (bytes * Z) :=
  let start := wrap64 (ptr + 4) in
  let '(r, s) := put_fields little header
                   (mkBufferOperator start (wrap64 (start + wrap64 (loan_size - 4))) start (drop 4 mem)) in
  match r with
  | Ok _ => Ok (take 4 mem ++ bo_mem s, wrap64 (bo_end s - bo_cur s))
  | Throw e => Throw e
  | Undef => Undef
  end.

(* @src src/src/plugins/zenoh_plugin/zenoh_channel_backend.cc:243-322 ZenohChannelBackend::Publish (loop body) *)
Definition shm_round (cache : option BufferArrayView) (msg_size : Z) : M ShmSizes ShmRound :=
  z ← get;
  let loan_size := default 0 (shm_size_map z !! key) in
  put (mkShmSizes (<[key := loan_size]> (shm_size_map z)) (S (shm_loans z)));;
  match shm_alloc (shm_loans z) loan_size with
  | None => mret SNoPool
  | Some (ptr, mem) =>
      h ← lift (write_header ptr mem loan_size);
      let '(mem, remaining) := h in
      match cache with
      | Some c => mret (SAgain (Some c) msg_size)
      | None =>
          let '(r, s) := serialize
            (mkZShm (ZAllocator_new remaining (wrap64 (ptr + header_len + 4))) (mkZArray [] 0) ptr mem) in
          match r with
          | Ok (None, size) => mret (SLoaned (zs_mem s) None (wrap width size))
          | Ok (Some c, size) =>
              let msg_size := wrap width size in
              if remaining <? msg_size then
                modify (set_size key (wrap width (msg_size + header_len + 4)));;
                mret (SAgain (Some c) msg_size)
              else mret (SLoaned (zs_mem s) (Some c) msg_size)
          | Throw _ =>
              if z_is_shm_enough (zs_alloc s) then mret SFailed
              else modify (set_size key (wrap64 (Z.shiftl loan_size 1)));; mret (SAgain None msg_size)
          | Undef => undef
          end
      end
  end.

(** [None]: the rounds are not over. *)
(* @src src/src/plugins/zenoh_plugin/zenoh_channel_backend.cc:243-323 ZenohChannelBackend::Publish (loop) *)
Fixpoint shm_loop (fuel : nat) (cache : option BufferArrayView) (msg_size : Z) : M ShmSizes (option ShmRound) :=
  match fuel with
  | O => mret None
  | S fuel =>
      r ← shm_round cache msg_size;
      match r with
      | SAgain cache msg_size => shm_loop fuel cache msg_size
      | r => mret (Some r)
      end
  end.

(** A store at an offset of the memory. *)
Definition store_at (off : Z) (b mem : bytes) : res bytes :=
  if (0 <=? off) && (off + buf_len b <=? buf_len mem) then Ok (splice (Z.to_nat off) b mem) else Undef.

(** The buffers of the cache are read at [get()[ii]], which is inside the one
    view only for the first. *)
(* @src src/src/plugins/zenoh_plugin/zenoh_channel_backend.cc:327-334 ZenohChannelBackend::Publish (cache) *)
Definition copy_cache (off : Z) (cache : BufferArrayView) (mem : bytes) : res bytes :=
  match cache with
  | [] => Ok mem
  | [b] => store_at off b mem
  | _ => Undef
  end.

(** What is sent of the memory: what is cached is copied behind the header, and
    a length is written in front. *)
(* @src src/src/plugins/zenoh_plugin/zenoh_channel_backend.cc:325-338 ZenohChannelBackend::Publish (finish) *)
Definition shm_finish (mem : bytes) (cache : option BufferArrayView) (len : Z) : res bytes :=
  mem ← match cache with Some c => copy_cache (4 + header_len) c mem | None => Ok mem end;
  store_at 0 (SetBufFromUint32 little (wrap32 len)) mem.
End Loop.

(** ** Writing the header *)

(** A field that does not fit makes the writing throw, whatever is written
    before it. *)
Lemma put_fields_no_room little fs s :
  bo_wf s → Forall field_arg fs → Forall field_ok fs → ¬ bo_fits s (rooms fs) → bo_cur s + rooms fs < 2 ^ 64 →
  ∃ e s', put_fields little fs s = (Throw e, s').
Proof.
  revert s. induction fs as [|f fs IH]; intros s Hwf Ha Hok Hno Htop.
  { exfalso. apply Hno. destruct Hwf. unfold bo_fits; cbn. lia. }
  apply Forall_cons in Ha as [Hfa Ha]. apply Forall_cons in Hok as [Hfo Hok]. pose proof (rooms_nonneg _ Ha).
  unfold rooms in Hno, Htop. cbn [foldr] in Hno, Htop. fold (rooms fs) in Hno, Htop.
  cbn [put_fields mapM_]. fold (put_fields little fs). unfold mbind, M_bind.
  assert (bo_cur s + field_room f < 2 ^ 64) as Hf by lia. pose proof (field_room_ok f Hfo) as Hroom.
  destruct (decide (bo_fits s (field_room f))) as [Hfit|Hfit].
  - rewrite put_field_ok by (done || by rewrite <-Hroom).
    apply IH; [apply bo_after_wf; [done|by rewrite <-Hroom]|done|done| |]; unfold bo_fits in *; cbn; lia.
  - rewrite put_field_oob by done. by eexists _, _.
Qed.

(** A piece of shared memory. *)
Record loan_ok (ptr : Z) (mem : bytes) (loan_size : Z) : Prop := {
  lo_ptr : 0 < ptr; lo_len : buf_len mem = loan_size; lo_top : ptr + loan_size < 2 ^ 63
}.

Section Header.
Context (little : bool) (header : list field).
Context (Hok : Forall field_ok header).
Abbreviation header_len := (buf_len (encode_all header)).
Abbreviation write_header := (write_header little header).

Lemma write_header_ok ptr mem loan :
  loan_ok ptr mem loan → header_len + 4 ≤ loan →
  write_header ptr mem loan = Ok (splice 4 (encode_all header) mem, loan - 4 - header_len).
Proof using Hok.
  intros [Hp Hl Ht] Hroom. pose proof (buf_len_nonneg (encode_all header)).
  unfold ZenohLoop.write_header. rewrite (wrap_small 64 (loan - 4)), (wrap_small 64 (ptr + 4)) by (unfold in_width; lia).
  rewrite (wrap_small 64 (ptr + 4 + (loan - 4))) by (unfold in_width; lia).
  rewrite put_fields_ok; [|split; cbn|done|].
  - set (e := encode_all _) in *. clearbody e. cbn. rewrite Z.sub_diag. unfold splice. change (Z.to_nat 0) with 0%nat. cbn [take app Nat.add].
    rewrite drop_drop. do 2 f_equal. unfold buf_len in *. rewrite !(wrap_small 64) by (unfold in_width; lia). lia.
  - lia.
  - rewrite length_drop. unfold buf_len in *. lia.
  - lia.
  - lia.
  - unfold bo_fits; cbn [bo_cur bo_end]. unfold buf_len in *. lia.
Qed.

Lemma write_header_throws ptr mem loan :
  loan_ok ptr mem loan → Forall field_arg header → 4 ≤ loan < header_len + 4 → header_len < 2 ^ 62 →
  ∃ e, write_header ptr mem loan = Throw e.
Proof using Hok.
  intros [Hp Hl Ht] Ha Hsz Hmax. unfold ZenohLoop.write_header.
  rewrite (wrap_small 64 (loan - 4)), (wrap_small 64 (ptr + 4)) by (unfold in_width; lia).
  rewrite (wrap_small 64 (ptr + 4 + (loan - 4))) by (unfold in_width; lia).
  pose proof (encode_rooms _ Hok) as Hrooms. unfold buf_len in Hsz, Hmax. rewrite Hrooms in Hsz, Hmax. set (s0 := mkBufferOperator _ _ _ _).
  destruct (put_fields_no_room little header s0) as (e & s' & ->); [|done|done|..|by eexists].
  - split; cbn [s0 bo_start bo_end bo_cur bo_mem]; [lia| |lia|lia]. rewrite length_drop. unfold buf_len in Hl. lia.
  - unfold bo_fits; cbn [s0 bo_cur bo_end]. lia.
  - cbn [s0 bo_cur]. lia.
Qed.
End Header.

(** ** Opening a package *)

(** The length is read from the first four bytes, and the package has as many
    bytes as it says, of those that there are. *)
(* @src src/src/plugins/zenoh_plugin/zenoh_channel_backend.cc:142-155 ZenohChannelBackend::Subscribe (package) *)
Definition open_package (little : bool) (ptr : Z) (serialized_data : bytes) : res ConstBufferOperator :=
  n ← (GetUint32 little (mkConstBufferOperator ptr (wrap64 (ptr + 4)) ptr (take 4 serialized_data))).1;
  let start := wrap64 (ptr + 4) in
  Ok (mkConstBufferOperator start (wrap64 (start + n)) start (take (Z.to_nat n) (drop 4 serialized_data))).

(** The length, and what is behind it. *)
Definition payload_of (len : Z) (p : bytes) : bytes := le_bytes 4 len ++ p.

Lemma payload_of_len len p : buf_len (payload_of len p) = 4 + buf_len p.
Proof. unfold payload_of. rewrite buf_len_app. unfold buf_len at 1. by rewrite length_le_bytes. Qed.

(** Of what is sent, the length in front says how much is read. *)
Lemma open_package_ok little ptr p rest :
  buf_len p < 2 ^ 32 → at_address ptr (buf_len (payload_of (buf_len p) (p ++ rest))) →
  ∃ s, open_package little ptr (payload_of (buf_len p) (p ++ rest)) = Ok s ∧ cb_wf s ∧ cb_rest s = p.
Proof.
  intros Hsz [Hp0 Hp1]. rewrite payload_of_len, buf_len_app in Hp1. pose proof (buf_len_nonneg p). pose proof (buf_len_nonneg rest).
  unfold open_package, payload_of.
  assert (length (le_bytes 4 (buf_len p)) = 4%nat) as Hl by apply length_le_bytes.
  rewrite take_app_length', drop_app_length', (wrap_small 64) by (done || unfold in_width; lia).
  rewrite (GetUint32_le little (buf_len p) _ []); [|unfold in_width; lia| |].
  - cbn [fst mbind res_bind]. rewrite (wrap_small 64) by (unfold in_width; lia).
    rewrite take_app_length' by (unfold buf_len; lia). eexists. split; [done|]. split.
    + split; cbn [cb_start cb_end cb_cur cb_mem]; unfold buf_len in *; lia.
    + unfold cb_rest; cbn [cb_cur cb_start cb_mem]. by rewrite Z.sub_diag.
  - split; cbn [cb_start cb_end cb_cur cb_mem]; unfold buf_len in *; lia.
  - unfold cb_rest; cbn [cb_cur cb_start cb_mem]. by rewrite Z.sub_diag, app_nil_r.
Qed.

(** Less than four bytes are read beyond their end. *)
Lemma open_package_short little ptr b : buf_len b < 4 → 0 ≤ ptr < 2 ^ 63 → open_package little ptr b = Undef.
Proof.
  intros Hlen Hp. unfold open_package. rewrite (wrap_small 64 (ptr + 4)) by (unfold in_width; lia).
  set (x := mkConstBufferOperator _ _ _ (take 4 _)).
  assert (cb_check 4 x = (Ok tt, x)) as Hcheck.
  { unfold cb_check. unfold_monad. cbn [x cb_cur cb_end]. rewrite (wrap_small 64) by (unfold in_width; lia). by rewrite Z.ltb_irrefl. }
  assert (cb_load 4 x = (Undef, x)) as Hload.
  { unfold cb_load, view_bytes, view_in_bounds. unfold_monad. cbn [x cb_cur cb_start cb_mem v_ptr v_len].
    rewrite length_take. unfold buf_len in Hlen. rewrite (proj2 (Z.leb_gt (ptr + 4) _)) by lia. by rewrite andb_false_r. }
  unfold GetUint32, mbind, M_bind. by rewrite Hcheck, Hload.
Qed.

(** A buffer is stored behind another. *)
Lemma store_behind e x mem :
  4 + buf_len e + buf_len x ≤ buf_len mem → store_at (4 + buf_len e) x (splice 4 e mem) = Ok (splice 4 (e ++ x) mem).
Proof.
  intros Hfit. unfold store_at, buf_len in *. rewrite length_splice by lia.
  rewrite (proj2 (Z.leb_le 0 _)), (proj2 (Z.leb_le (_ + Z.of_nat (length x)) _)) by lia. cbn [andb].
  replace (Z.to_nat _) with (4 + length e)%nat by lia. by rewrite splice_splice by lia.
Qed.

(** What is in the memory once the length is in front. *)
Lemma shm_payload little ptr mem sz p len :
  loan_ok ptr mem sz → 4 + buf_len p ≤ sz → 0 ≤ len < 2 ^ 32 →
  store_at 0 (SetBufFromUint32 little (wrap32 len)) (splice 4 p mem) = Ok (payload_of len (p ++ drop (4 + length p) mem)) ∧
  buf_len (payload_of len (p ++ drop (4 + length p) mem)) < 2 ^ 63.
Proof.
  intros [Hp Hl Ht] Hsz H32. pose proof (buf_len_nonneg p).
  rewrite SetBufFromUint32_le, (wrap_small 32) by (unfold in_width; lia).
  unfold store_at, payload_of. set (n := le_bytes 4 _).
  assert (length n = 4%nat) as Hn by apply length_le_bytes. clearbody n. unfold buf_len in *. split.
  - rewrite length_splice by lia. rewrite (proj2 (Z.leb_le _ (Z.of_nat (length mem)))) by lia.
    cbn [Z.leb Z.compare andb]. change (Z.to_nat 0) with 0%nat. unfold splice. rewrite Hn, take_0. cbn [app Nat.add].
    rewrite drop_app_length' by (rewrite length_take; lia). done.
  - rewrite !length_app, length_drop. lia.
Qed.

(** ** The rounds *)

Section Rounds.
Context (little : bool) (shm_alloc : nat → Z → option (Z * bytes)).
(** What the pool gives is as large as what was asked for. *)
Context (Hpool : ∀ n sz ptr mem, shm_alloc n sz = Some (ptr, mem) → loan_ok ptr mem sz).
Context (width : Z) (key : string) (header : list field) (hl : Z).
Context (Hok : Forall field_ok header) (Hhl : buf_len (encode_all header) = hl) (Hwidth : 0 ≤ width).

Abbreviation shm_round := (shm_round little shm_alloc width key header hl).
Abbreviation shm_loop := (shm_loop little shm_alloc width key header hl).
Implicit Types z : ShmSizes.

Definition size_of z : Z := default 0 (shm_size_map z !! key).

(** After a request. *)
Definition loaned z : ShmSizes := mkShmSizes (<[key := size_of z]> (shm_size_map z)) (S (shm_loans z)).

Lemma size_of_loaned z : size_of (loaned z) = size_of z.
Proof using. unfold size_of, loaned; cbn. by rewrite lookup_insert_eq. Qed.
Lemma size_of_set n z : size_of (set_size key n z) = n.
Proof using. unfold size_of, set_size; cbn. by rewrite lookup_insert_eq. Qed.

Lemma round_no_pool serialize cache n z :
  shm_alloc (shm_loans z) (size_of z) = None → shm_round serialize cache n z = (Ok SNoPool, loaned z).
Proof using. intros Ha. unfold ZenohLoop.shm_round. rewrite get_bind. fold (size_of z). rewrite Ha. reflexivity. Qed.

(** The header throws: so does the round. *)
Lemma round_header_throws serialize cache n z ptr mem e :
  shm_alloc (shm_loans z) (size_of z) = Some (ptr, mem) → write_header little header ptr mem (size_of z) = Throw e →
  shm_round serialize cache n z = (Throw e, loaned z).
Proof using. intros Ha He. unfold ZenohLoop.shm_round. rewrite get_bind. fold (size_of z). rewrite Ha. unfold put, lift, mbind, M_bind. by rewrite He. Qed.

(** The memory behind the header. *)
Lemma round_with_pool serialize cache n z ptr mem :
  shm_alloc (shm_loans z) (size_of z) = Some (ptr, mem) → hl + 4 ≤ size_of z →
  let remaining := size_of z - 4 - hl in
  shm_round serialize cache n z =
    match cache with
    | Some c => (Ok (SAgain (Some c) n), loaned z)
    | None =>
        let '(r, s) := serialize
          (mkZShm (ZAllocator_new remaining (ptr + hl + 4)) (mkZArray [] 0) ptr (splice 4 (encode_all header) mem)) in
        match r with
        | Ok (None, size) => (Ok (SLoaned (zs_mem s) None (wrap width size)), loaned z)
        | Ok (Some c, size) =>
            if remaining <? wrap width size then
              (Ok (SAgain (Some c) (wrap width size)), set_size key (wrap width (wrap width size + hl + 4)) (loaned z))
            else (Ok (SLoaned (zs_mem s) (Some c) (wrap width size)), loaned z)
        | Throw _ =>
            if z_is_shm_enough (zs_alloc s) then (Ok SFailed, loaned z)
            else (Ok (SAgain None n), set_size key (wrap64 (Z.shiftl (size_of z) 1)) (loaned z))
        | Undef => (Undef, loaned z)
        end
    end.
Proof using Hpool Hok Hhl.
  intros Ha Hroom remaining. unfold ZenohLoop.shm_round. rewrite get_bind. fold (size_of z). rewrite Ha.
  pose proof (Hpool _ _ _ _ Ha) as Hl. pose proof (buf_len_nonneg (encode_all header)).
  unfold put, lift, mbind, M_bind. rewrite write_header_ok by (done || lia). rewrite Hhl. fold remaining.
  destruct cache as [c|]; [done|]. destruct Hl. rewrite (wrap_small 64 (ptr + _ + 4)) by (unfold in_width; lia).
  destruct (serialize _) as [[[[c|] size]|e|] s]; [|done|..|done].
  - by destruct (_ <? _).
  - by destruct (z_is_shm_enough _).
Qed.

(** *** A message that is not cached *)

Section NotCached.
Context (reqs : list Z) (bs : list bytes) (Hcont : contiguous reqs bs) (Hbs : in_width width (BufferSize bs)).
Abbreviation serialize := (serialize_supported None (Some (reqs, Some bs))).

(** The memory that the package needs. *)
Definition needed : Z := 4 + hl + total reqs.

Lemma first_shm_ok ptr mem sz :
  loan_ok ptr mem sz → hl + 4 ≤ sz →
  shm_ok (mkZShm (ZAllocator_new (sz - 4 - hl) (ptr + hl + 4)) (mkZArray [] 0) ptr (splice 4 (encode_all header) mem)).
Proof using Hhl.
  intros [Hp Hl Ht] Hsz. pose proof (buf_len_nonneg (encode_all header)).
  assert (buf_len (splice 4 (encode_all header) mem) = sz) as Hlen.
  { unfold buf_len in *. rewrite length_splice; lia. }
  split; cbn [zs_base zs_mem zs_alloc ZAllocator_new z_shm_capacity z_shm_used_size z_shm_cur_ptr]; rewrite ?Hlen; lia.
Qed.

Lemma round_fits n z ptr mem :
  shm_alloc (shm_loans z) (size_of z) = Some (ptr, mem) → needed ≤ size_of z →
  shm_round serialize None n z = (Ok (SLoaned (splice 4 (encode_all header ++ concat bs) mem) None (BufferSize bs)), loaned z).
Proof using All.
  intros Ha Hn. unfold needed in Hn. pose proof (total_nonneg _ (contiguous_nonneg _ _ Hcont)).
  rewrite (round_with_pool _ None n z ptr mem Ha) by lia. cbn zeta. pose proof (Hpool _ _ _ _ Ha) as Hl.
  unfold serialize_supported, SerializeTo. unfold mbind, M_bind.
  pose proof (first_shm_ok ptr mem _ Hl ltac:(lia)) as Hs.
  destruct (serialize_into_ok reqs bs Hcont _ Hs) as (s' & -> & Hm & _ & Hsz); [unfold room; cbn; lia|].
  unfold check_throw, gets, mret, M_ret. cbv beta iota. rewrite Hm, Hsz. change (z_BufferSize _) with 0.
  change (0 + buf_len (concat bs)) with (BufferSize bs). rewrite (wrap_small width) by done.
  do 3 f_equal. cbn [zs_mem]. unfold cursor; cbn [zs_alloc zs_base z_shm_cur_ptr ZAllocator_new].
  pose proof (buf_len_nonneg (encode_all header)). destruct Hl. pose proof (contiguous_total _ _ Hcont). unfold buf_len in *.
  replace (Z.to_nat _) with (4 + length (encode_all header))%nat by lia.
  rewrite splice_splice; [done|]. lia.
Qed.

Lemma round_doubles n z ptr mem :
  shm_alloc (shm_loans z) (size_of z) = Some (ptr, mem) → hl + 4 ≤ size_of z < needed → needed ≤ 2 ^ 62 →
  shm_round serialize None n z = (Ok (SAgain None n), set_size key (2 * size_of z) (loaned z)).
Proof using All.
  intros Ha Hn Hmax. unfold needed in *. pose proof (buf_len_nonneg (encode_all header)).
  rewrite (round_with_pool _ None n z ptr mem Ha) by lia. cbn zeta. pose proof (Hpool _ _ _ _ Ha) as Hl.
  unfold serialize_supported, SerializeTo. unfold mbind, M_bind.
  pose proof (first_shm_ok ptr mem _ Hl ltac:(lia)) as Hs.
  destruct (serialize_into_refused reqs bs Hcont _ Hs) as (s' & -> & He); [unfold room; cbn; lia|].
  unfold check_throw, throw. cbv beta iota. rewrite He. do 2 f_equal.
  rewrite Z.shiftl_mul_pow2, (wrap_small 64) by (unfold in_width; lia). by rewrite Z.mul_comm.
Qed.

(** Whatever the pool gives, the loop ends: with the message in the memory, or
    without memory. *)
Lemma loop_ends k : ∀ fuel n z,
  hl + 4 ≤ size_of z → needed ≤ 2 ^ 62 → needed ≤ size_of z * 2 ^ Z.of_nat k → (k < fuel)%nat →
  ∃ z', (∃ ptr mem sz, loan_ok ptr mem sz ∧ needed ≤ sz ∧
           shm_loop serialize fuel None n z =
             (Ok (Some (SLoaned (splice 4 (encode_all header ++ concat bs) mem) None (BufferSize bs))), z')) ∨
        shm_loop serialize fuel None n z = (Ok (Some SNoPool), z').
Proof using All.
  induction k as [|k IH]; intros [|fuel] n z Hsz Hmax Hk Hfuel; [lia| |lia|]; cbn [ZenohLoop.shm_loop]; unfold mbind, M_bind;
    (destruct (shm_alloc (shm_loans z) (size_of z)) as [[ptr mem]|] eqn:Ha;
     [|rewrite round_no_pool by done; exists (loaned z); by right]).
  - rewrite (round_fits n z ptr mem Ha) by lia. exists (loaned z). left.
    exists ptr, mem, (size_of z). split; [by eapply Hpool|]. split; [lia|done].
  - destruct (Z.le_gt_cases needed (size_of z)) as [Hfit|Hno].
    + rewrite (round_fits n z ptr mem Ha) by lia. exists (loaned z). left.
      exists ptr, mem, (size_of z). split; [by eapply Hpool|]. split; [lia|done].
    + rewrite (round_doubles n z ptr mem Ha) by lia. pose proof (buf_len_nonneg (encode_all header)).
      pose proof (size_of_set (2 * size_of z) (loaned z)) as Hs.
      rewrite Nat2Z.inj_succ, Z.pow_succ_r in Hk by lia.
      apply (IH fuel n (set_size key (2 * size_of z) (loaned z))); rewrite ?Hs; lia.
Qed.
End NotCached.

(** *** A form that is cached *)

Section Cached.
Context (cs : list bytes) (obj : option (list Z * option (list bytes))) (Hcs : in_width width (BufferSize cs)).
Abbreviation serialize := (serialize_supported (Some cs) obj).

(** The first round. *)
Lemma cached_round n z ptr mem :
  shm_alloc (shm_loans z) (size_of z) = Some (ptr, mem) → hl + 4 ≤ size_of z →
  shm_round serialize None n z =
    if size_of z - 4 - hl <? BufferSize cs then
      (Ok (SAgain (Some cs) (BufferSize cs)), set_size key (wrap width (BufferSize cs + hl + 4)) (loaned z))
    else (Ok (SLoaned (splice 4 (encode_all header) mem) (Some cs) (BufferSize cs)), loaned z).
Proof using Hpool Hok Hhl Hcs.
  intros Ha Hsz. rewrite (round_with_pool _ None n z ptr mem Ha Hsz). cbn zeta. unfold serialize_supported, mret, M_ret. cbv beta iota.
  by rewrite (wrap_small width) by done.
Qed.

(** While the pool gives memory, the rounds go on. *)
Lemma cached_loop_goes_on n : ∀ fuel z,
  hl + 4 ≤ size_of z → (∀ i, (i < fuel)%nat → is_Some (shm_alloc (shm_loans z + i)%nat (size_of z))) →
  ∃ z', shm_loop serialize fuel (Some cs) n z = (Ok None, z') ∧ shm_loans z' = (shm_loans z + fuel)%nat.
Proof using Hpool Hok Hhl.
  induction fuel as [|fuel IH]; intros z Hsz Hgives; cbn [ZenohLoop.shm_loop]; [exists z; split; [done|lia]|].
  destruct (Hgives 0%nat ltac:(lia)) as [[ptr mem] Ha]. rewrite Nat.add_0_r in Ha. unfold mbind, M_bind.
  rewrite (round_with_pool _ (Some cs) n z ptr mem Ha Hsz). pose proof (size_of_loaned z) as Hs.
  destruct (IH (loaned z)) as (z' & Hrun & Hl); [by rewrite Hs| |exists z'; split; [exact Hrun|rewrite Hl; cbn; lia]].
  intros i Hi. rewrite Hs. specialize (Hgives (S i) ltac:(lia)). cbn. by rewrite Nat.add_succ_r in Hgives.
Qed.
End Cached.

(** ** What is sent *)

(** What sending over shared memory needs: a first size that the header fits in;
    a form [bs] that is not cached, contiguous in memory, or one that fits and is
    one buffer. *)
Definition shm_ready (cached : option BufferArrayView) (obj : option (list Z * option (list bytes))) (bs : list bytes) z : Prop :=
  hl + 4 ≤ size_of z ∧
  match cached with
  | Some c => c = bs ∧ (length c ≤ 1)%nat ∧ 4 + hl + BufferSize c ≤ size_of z
  | None => ∃ reqs, obj = Some (reqs, Some bs) ∧ contiguous reqs bs ∧ needed reqs ≤ 2 ^ 62
  end.

(** The loop ends, whatever the pool gives; with memory, the length and the
    package are in it. *)
Lemma shm_run_ready cached obj bs fuel z len :
  shm_ready cached obj bs z → in_width width (BufferSize bs) → 0 ≤ len < 2 ^ 32 → (64 ≤ fuel)%nat →
  ∃ z', (∃ mem cache rest,
           shm_loop (serialize_supported cached obj) fuel None 0 z = (Ok (Some (SLoaned mem cache (BufferSize bs))), z') ∧
           shm_finish little hl mem cache len = Ok (payload_of len ((encode_all header ++ concat bs) ++ rest)) ∧
           buf_len (payload_of len ((encode_all header ++ concat bs) ++ rest)) < 2 ^ 63) ∨
        shm_loop (serialize_supported cached obj) fuel None 0 z = (Ok (Some SNoPool), z').
Proof using Hpool Hok Hhl Hwidth.
  intros [Hsz Hready] Hbs Hlen Hfuel. pose proof (buf_len_nonneg (encode_all header)) as He.
  assert (buf_len (encode_all header ++ concat bs) = hl + BufferSize bs) as Hpl by (rewrite buf_len_app, Hhl; done).
  destruct cached as [c|].
  - destruct Hready as (-> & Hone & Hfit). destruct fuel as [|fuel]; [lia|]. exists (loaned z). cbn [ZenohLoop.shm_loop]. unfold mbind, M_bind.
    destruct (shm_alloc (shm_loans z) (size_of z)) as [[ptr mem]|] eqn:Ha; [|right; by rewrite round_no_pool].
    left. rewrite (cached_round bs obj Hbs 0 z ptr mem Ha Hsz), (proj2 (Z.ltb_ge _ _)) by lia.
    pose proof (Hpool _ _ _ _ Ha) as Hl. destruct (shm_payload little ptr mem _ (encode_all header ++ concat bs) len Hl ltac:(lia) Hlen) as [Hst H63].
    eexists _, _, _. split; [reflexivity|]. split; [|exact H63]. unfold shm_finish. rewrite <-Hst. destruct Hl. unfold copy_cache.
    destruct bs as [|x [|]]; [by rewrite app_nil_r| |cbn in Hone; lia]. unfold BufferSize in Hfit. cbn [concat] in *. rewrite app_nil_r in *.
    rewrite <-Hhl, store_behind; [done|]. unfold buf_len in *. lia.
  - destruct Hready as (reqs & -> & Hcont & Hmax).
    destruct (loop_ends reqs bs Hcont Hbs 62 fuel 0 z Hsz Hmax) as
      (z' & [(ptr & mem & sz & Hl & Hn & Hloop)|Hloop]); [change (Z.of_nat 62) with 62; lia|lia|..]; exists z'; [left|by right].
    pose proof (contiguous_total _ _ Hcont). unfold needed in Hn. unfold BufferSize in Hpl.
    destruct (shm_payload little ptr mem sz (encode_all header ++ concat bs) len Hl ltac:(unfold buf_len in *; lia) Hlen) as [Hst H63].
    eexists _, _, _. split; [exact Hloop|]. split; [exact Hst|exact H63].
Qed.
End Rounds.
