(* ===== verification/MqttRegistry.v ===== *)
(** * Handlers of the mqtt plugin: [src/plugins/mqtt_plugin/msg_handle_registry.h]

    Both backends of the plugin enter a handler per topic in a registry; the
    plugin hands it the messages that the mqtt client library delivers.  A
    handler is run at once or, when the options name an executor, as a task of
    it.  Handlers are a type [H] of the backend, which says how they are run.
    The tasks given to the executor and the number of messages freed are ghost
    fields; a task is run in a step of its own.

    Theorems: without an executor a message is freed once; with one, where
    every message received is, and which are never freed. *)

From S2P Require Import Prelude Url.
Local Open Scope Z_scope.

(** ** What the backends share *)

Definition check_qos (qos : Z) : res Z :=
  if (0 <=? qos) && (qos <=? 2) then Ok qos else Throw (AimRTException "Invalid Mqtt qos: {}").

Definition url_encode (s : string) : string := str (UrlEncode (lit s) true).

(** A message given to the library: topic, quality of service, payload. *)
Record MqttMsg := mkMqttMsg { mm_topic : string; mm_qos : Z; mm_payload : bytes }.

(** ** Topics

    A topic is made of encoded parts, which hold no slash. *)

Lemma lit_app (a b : string) : lit (a ++ b)%string = lit a ++ lit b.
Proof. induction a as [|c a IH]; [done|]. change (c :: lit (a ++ b)%string = c :: lit a ++ lit b). by rewrite IH. Qed.

Lemma lit_url_encode s : lit (url_encode s) = UrlEncode (lit s) true.
Proof. apply lit_str. Qed.

Definition slash : ascii := "/".

Lemma slash_not_encoded s : slash ∉ UrlEncode s true.
Proof.
  intros Hin. destruct (encode_roundtrip s true) as (_ & _ & Hs & _). rewrite Forall_forall in Hs.
  specialize (Hs _ Hin). by vm_compute in Hs.
Qed.

Lemma UrlEncode_inj a b : UrlEncode (lit a) true = UrlEncode (lit b) true → a = b.
Proof.
  intros Hab. apply lit_inj. destruct (encode_roundtrip (lit a) true) as [<- _]. rewrite Hab.
  by destruct (encode_roundtrip (lit b) true) as [-> _].
Qed.

(** The first slash splits a topic. *)
Lemma split_slash (x x' y y' : bytes) :
  slash ∉ x → slash ∉ x' → x ++ slash :: y = x' ++ slash :: y' → x = x' ∧ y = y'.
Proof.
  revert x'. induction x as [|c x IH]; intros [|c' x'] Hx Hx' Heq; cbn in Heq.
  - by injection Heq as ->.
  - injection Heq as Hc _. exfalso. apply Hx'. rewrite Hc. apply list_elem_of_here.
  - injection Heq as Hc _. exfalso. apply Hx. rewrite Hc. apply list_elem_of_here.
  - injection Heq as Hc Heq. rewrite Hc in *. destruct (IH x') as [-> ->]; [..|done|done].
    + intros Hin. apply Hx. by apply list_elem_of_further.
    + intros Hin. apply Hx'. by apply list_elem_of_further.
Qed.

(** The two parts of a topic. *)
Lemma id_topic_inj (pre : string) id f id' f' :
  (pre ++ url_encode id ++ "/" ++ url_encode f)%string = (pre ++ url_encode id' ++ "/" ++ url_encode f')%string →
  id = id' ∧ f = f'.
Proof.
  intros Heq. apply (f_equal lit) in Heq. rewrite !lit_app, !lit_url_encode in Heq. apply app_inv_head in Heq.
  apply split_slash in Heq as [Hid Hf]; [|apply slash_not_encoded..]. cbn in Hf. split; by apply UrlEncode_inj.
Qed.

(** ** Metadata read back *)

Section Metadata.
Context `{IterOrder}.

Lemma insert_all_lookup (kvs : list (string * string)) (a : gmap string string) k :
  NoDup kvs.*1 →
  foldl (λ a kv, <[kv.1 := kv.2]> a) a kvs !! k =
    match (list_to_map kvs : gmap string string) !! k with Some v => Some v | None => a !! k end.
Proof.
  revert a. induction kvs as [|[k' v] kvs IH]; intros a Hnd; cbn [foldl];
    [by rewrite list_to_map_nil, lookup_empty|].
  apply NoDup_cons in Hnd as [Hni Hnd]. rewrite (IH _ Hnd), list_to_map_cons. cbn [fst snd].
  destruct (decide (k = k')) as [->|Hne].
  - rewrite !lookup_insert_eq. by rewrite (proj1 (not_elem_of_list_to_map kvs k') Hni).
  - by rewrite !lookup_insert_ne.
Qed.

(** The metadata read one after the other are those of the context that was
    written, over what was there. *)
Lemma insert_map_order (m a : gmap string string) :
  foldl (λ a kv, <[kv.1 := kv.2]> a) a (map_order m) = m ∪ a.
Proof.
  apply map_eq. intros k. rewrite insert_all_lookup by apply NoDup_map_order.
  assert (list_to_map (map_order m) = m) as ->.
  { rewrite <-(list_to_map_to_list m) at 2. apply list_to_map_proper; [apply NoDup_map_order|apply map_order_perm]. }
  rewrite lookup_union. destruct (m !! k) as [v|], (a !! k); done.
Qed.

End Metadata.

(** ** The registry *)

(* @src src/src/plugins/mqtt_plugin/msg_handle_registry.h:95-107 MsgHandleRegistry *)
Record MsgHandleRegistry (H : Type) := mkMsgHandleRegistry {
  shutdown_flag : bool;
  msg_handle_map : gmap string H;
  has_executor : bool;
  active_tasks : Z;
  callback_tasks : list (H * bytes);
  msgs_freed : nat
}.
Arguments mkMsgHandleRegistry {H}.
Arguments shutdown_flag {H}.
Arguments msg_handle_map {H}.
Arguments has_executor {H}.
Arguments active_tasks {H}.
Arguments callback_tasks {H}.
Arguments msgs_freed {H}.

Section Registry.
Context {H : Type}.
Implicit Types r : MsgHandleRegistry H.

Definition MsgHandleRegistry_new : MsgHandleRegistry H := mkMsgHandleRegistry false ∅ false 0 [] 0.

(** [emplace]: a topic keeps the handler it has. *)
(* @src src/src/plugins/mqtt_plugin/msg_handle_registry.h:27-31 MsgHandleRegistry::RegisterMsgHandle *)
Definition RegisterMsgHandle (topic : string) (h : H) r : MsgHandleRegistry H :=
  mkMsgHandleRegistry (shutdown_flag r)
    (match msg_handle_map r !! topic with Some _ => msg_handle_map r | None => <[topic := h]> (msg_handle_map r) end)
    (has_executor r) (active_tasks r) (callback_tasks r) (msgs_freed r).

(* @src src/src/plugins/mqtt_plugin/msg_handle_registry.h:72-74 MsgHandleRegistry::Shutdown *)
Definition registry_Shutdown r : MsgHandleRegistry H :=
  mkMsgHandleRegistry true (msg_handle_map r) (has_executor r) (active_tasks r) (callback_tasks r) (msgs_freed r).

(** [found] tells whether the executor manager knows the name. *)
(* @src src/src/plugins/mqtt_plugin/msg_handle_registry.h:81-84 MsgHandleRegistry::InitExecutor *)
Definition InitExecutor (found : bool) : M (MsgHandleRegistry H) unit :=
  modify (λ r, mkMsgHandleRegistry (shutdown_flag r) (msg_handle_map r) found (active_tasks r) (callback_tasks r) (msgs_freed r));;
  check_throw found "Can not get executor {}.".

Definition set_tasks (n : Z) (tasks : list (H * bytes)) (freed : nat) r : MsgHandleRegistry H :=
  mkMsgHandleRegistry (shutdown_flag r) (msg_handle_map r) (has_executor r) n tasks freed.
End Registry.

(** [int] addition, which wraps around for an atomic. *)
Definition int_add (n d : Z) : Z := signed 32 (n + d).

Section Messages.
Context {H S : Type}.
(** The registry in the state of a process, and how a handler is run. *)
Context (reg : S → MsgHandleRegistry H) (set_reg : MsgHandleRegistry H → S → S).
Context (handler : H → bytes → M S unit).

Definition on_reg {A} (m : M (MsgHandleRegistry H) A) : M S A := zoom reg set_reg m.

(** The library delivers a message. *)
(* @src src/src/plugins/mqtt_plugin/msg_handle_registry.h:33-70 MsgHandleRegistry::HandleServerMsg *)
Definition HandleServerMsg (topic : string) (payload : bytes) : M S unit :=
  s ← get;
  if shutdown_flag (reg s) then mret tt
  else
    try_catch
      (match msg_handle_map (reg s) !! topic with
       | None => mret tt
       | Some h =>
           if has_executor (reg s) then
             on_reg (modify (λ r, set_tasks (int_add (active_tasks r) 1) (callback_tasks r ++ [(h, payload)]) (msgs_freed r) r))
           else handler h payload
       end)
      (λ _, mret tt).

(** The executor runs the [k]th of the tasks: the handler, then freeing the
    message, then the counter.  An exception is the executor's. *)
(* @src src/src/plugins/mqtt_plugin/msg_handle_registry.h:52-61 MsgHandleRegistry::HandleServerMsg (task) *)
Definition run_task (k : nat) : M S unit :=
  s ← get;
  match callback_tasks (reg s) !! k with
  | None => undef
  | Some (h, payload) =>
      on_reg (modify (λ r, set_tasks (active_tasks r) (take k (callback_tasks r) ++ drop (k + 1) (callback_tasks r)) (msgs_freed r) r));;
      handler h payload;;
      on_reg (modify (λ r, set_tasks (int_add (active_tasks r) (-1)) (callback_tasks r) (msgs_freed r + 1) r))
  end.

(* @src src/src/plugins/mqtt_plugin/mqtt_plugin.cc:270-281 MqttPlugin::OnMsgRecv *)
Definition OnMsgRecv (callback_executor_name topic : string) (payload : bytes) : M S Z :=
  HandleServerMsg topic payload;;
  (if String.eqb callback_executor_name "" then
     on_reg (modify (λ r, set_tasks (active_tasks r) (callback_tasks r) (msgs_freed r + 1) r))
   else mret tt);;
  mret 1.
End Messages.

(** * Where the messages are *)

Section Ownership.
Context {H S : Type}.
Context (reg : S → MsgHandleRegistry H) (set_reg : MsgHandleRegistry H → S → S).
Context (handler : H → bytes → M S unit).
(** The registry is a part of the state that handlers leave alone; they have
    defined behaviour. *)
Context (reg_set : ∀ r s, reg (set_reg r s) = r).
Context (handler_reg : ∀ h payload s, reg (handler h payload s).2 = reg s).
Context (handler_defined : ∀ h payload s, (handler h payload s).1 ≠ Undef).
(** The name of the executor in the options. *)
Context (name : string).
Implicit Types s : S.

(** What has happened: messages received, those among them that were not
    handled because the registry was shut down or knew no handler, and tasks
    that ended with an exception. *)
Record tally := mkTally { received : nat; dropped : nat; threw : nat }.

Definition unhandled s (topic : string) : bool :=
  shutdown_flag (reg s) || bool_decide (msg_handle_map (reg s) !! topic = None).

Inductive mstep : S * tally → S * tally → Prop :=
| step_recv topic payload s s' n d e r :
    OnMsgRecv reg set_reg handler name topic payload s = (r, s') →
    mstep (s, mkTally n d e) (s', mkTally (n + 1) (if unhandled s topic then d + 1 else d) e)
| step_task k s s' n d e r :
    is_Some (callback_tasks (reg s) !! k) → run_task reg set_reg handler k s = (r, s') →
    mstep (s, mkTally n d e) (s', mkTally n d (if is_ok r then e else e + 1))
| step_shutdown s t : mstep (s, t) (set_reg (registry_Shutdown (reg s)) s, t).

Record inline_ok (x : S * tally) : Prop := {
  io_executor : has_executor (reg x.1) = false;
  io_tasks : callback_tasks (reg x.1) = [];
  io_freed : msgs_freed (reg x.1) = received x.2
}.

Record executor_ok (x : S * tally) : Prop := {
  eo_executor : has_executor (reg x.1) = true;
  eo_messages : (received x.2 = msgs_freed (reg x.1) + length (callback_tasks (reg x.1)) + dropped x.2 + threw x.2)%nat;
  eo_active : active_tasks (reg x.1) = signed 32 (Z.of_nat (length (callback_tasks (reg x.1)) + threw x.2))
}.

Lemma on_reg_modify f s : on_reg reg set_reg (modify f) s = (Ok tt, set_reg (f (reg s)) s).
Proof. done. Qed.

Lemma int_add_signed n d m : n = signed 32 m → int_add n d = signed 32 (m + d).
Proof.
  intros ->. unfold int_add, signed. cbv zeta.
  assert (wrap 32 ((if wrap 32 m <? 2 ^ (32 - 1) then wrap 32 m else wrap 32 m - 2 ^ 32) + d) = wrap 32 (m + d)) as ->; [|done].
  unfold wrap. destruct (_ <? _).
  - by rewrite Zplus_mod_idemp_l.
  - replace (m mod 2 ^ 32 - 2 ^ 32 + d) with (m mod 2 ^ 32 + d + -1 * 2 ^ 32) by lia.
    by rewrite Z_mod_plus_full, Zplus_mod_idemp_l.
Qed.

(** What a delivery does to the registry, if there is no executor, and if
    there is one. *)
Lemma HandleServerMsg_inline topic payload s :
  has_executor (reg s) = false →
  ∃ s', HandleServerMsg reg set_reg handler topic payload s = (Ok tt, s') ∧ reg s' = reg s.
Proof.
  intros Hex. unfold HandleServerMsg. unfold mbind, M_bind, get. destruct (shutdown_flag _); [by exists s|].
  destruct (msg_handle_map _ !! topic) as [h|]; [|by exists s]. rewrite Hex. unfold try_catch.
  pose proof (handler_reg h payload s) as Hr. pose proof (handler_defined h payload s) as Hd.
  destruct (handler h payload s) as [[[]|e|] s']; [by exists s'|by exists s'|done].
Qed.

Lemma HandleServerMsg_task topic payload s :
  has_executor (reg s) = true →
  HandleServerMsg reg set_reg handler topic payload s =
    (Ok tt, if unhandled s topic then s else
       match msg_handle_map (reg s) !! topic with
       | Some h => set_reg (set_tasks (int_add (active_tasks (reg s)) 1) (callback_tasks (reg s) ++ [(h, payload)])
                              (msgs_freed (reg s)) (reg s)) s
       | None => s
       end).
Proof.
  intros Hex. unfold HandleServerMsg, unhandled. unfold mbind, M_bind, get.
  destruct (shutdown_flag _); [done|]. cbn [orb]. destruct (msg_handle_map _ !! topic) as [h|]; [|done].
  rewrite Hex. done.
Qed.

Lemma mstep_inline x x' : name = "" → inline_ok x → mstep x x' → inline_ok x'.
Proof.
  intros Hname [Hex Ht Hf] Hstep. destruct Hstep as [topic payload s s' n d e r Hrun|k s s' n d e r Hk Hrun|s t].
  - cbn in *. destruct (HandleServerMsg_inline topic payload s Hex) as (s1 & H1 & Hr1). unfold OnMsgRecv, mbind, M_bind in Hrun.
    rewrite H1, Hname in Hrun. cbn in Hrun. injection Hrun as _ <-.
    split; cbn; rewrite reg_set; cbn; rewrite Hr1; [done|done|lia].
  - cbn in *. rewrite Ht in Hk. cbn in Hk. by destruct Hk.
  - split; cbn; rewrite reg_set; by cbn in *.
Qed.

Lemma take_drop_length {A} k (l : list A) x : l !! k = Some x → (length (take k l ++ drop (k + 1) l) + 1 = length l)%nat.
Proof. intros Hk%lookup_lt_Some. rewrite length_app, length_take, length_drop. lia. Qed.

Lemma mstep_executor x x' : name ≠ "" → executor_ok x → mstep x x' → executor_ok x'.
Proof.
  intros Hname [Hex Hm Ha] Hstep. destruct Hstep as [topic payload s s' n d e r Hrun|k s s' n d e r [[h payload] Hk] Hrun|s t].
  - cbn in *. unfold OnMsgRecv, mbind, M_bind in Hrun. rewrite HandleServerMsg_task in Hrun by done.
    apply String.eqb_neq in Hname. rewrite Hname in Hrun. cbn in Hrun. injection Hrun as _ <-.
    unfold unhandled. destruct (shutdown_flag (reg s)); cbn [orb]; [by split; cbn; [|lia|]|].
    destruct (msg_handle_map (reg s) !! topic) as [h|] eqn:Hh; cbn; rewrite ?Hh.
    + split; cbn; rewrite reg_set; cbn; [done|rewrite length_app; cbn; lia|].
      rewrite length_app. cbn. rewrite (int_add_signed _ _ _ Ha). f_equal. lia.
    + by split; cbn; [|lia|].
  - cbn in *. unfold run_task in Hrun. unfold mbind, M_bind, get in Hrun. rewrite Hk, on_reg_modify in Hrun.
    set (s1 := set_reg _ s) in Hrun. pose proof (handler_reg h payload s1) as Hr1.
    pose proof (take_drop_length _ _ _ Hk) as Hlen.
    destruct (handler h payload s1) as [[[]|e'|] s2] eqn:Hh; cbn in Hr1.
    + rewrite on_reg_modify in Hrun. injection Hrun as <- <-. cbn. rewrite Hr1. unfold s1.
      split; cbn; rewrite !reg_set; cbn; [done|lia|]. rewrite (int_add_signed _ _ _ Ha). f_equal. lia.
    + injection Hrun as <- <-. split; cbn; rewrite Hr1; unfold s1; rewrite reg_set; cbn; [done|lia|].
      rewrite Ha. do 2 f_equal. lia.
    + pose proof (handler_defined h payload s1) as Hd. by rewrite Hh in Hd.
  - split; cbn; rewrite reg_set; by cbn in *.
Qed.

Lemma rtc_keeps {A} (P : A → Prop) (R : relation A) x y : (∀ x x', P x → R x x' → P x') → rtc R x y → P x → P y.
Proof. intros Hkeep Hsteps. induction Hsteps; eauto. Qed.

(** Where every message is.  Without an executor, each message received has
    been freed, once.  With one, the messages received are those freed, those of
    the tasks not yet run, those received when the registry was shut down or had
    no handler, and those whose handler threw: the last two kinds are never
    freed.  The counter of tasks in progress is that of the tasks not yet run
    and of those that threw, so that it never returns to zero once one threw. *)
Theorem messages_accounted s0 s t :
  callback_tasks (reg s0) = [] → msgs_freed (reg s0) = 0%nat → active_tasks (reg s0) = 0 →
  (name = "" ↔ has_executor (reg s0) = false) → rtc mstep (s0, mkTally 0 0 0) (s, t) →
  let r := reg s in
  if has_executor (reg s0)
  then received t = (msgs_freed r + length (callback_tasks r) + dropped t + threw t)%nat ∧
       active_tasks r = signed 32 (Z.of_nat (length (callback_tasks r) + threw t))
  else msgs_freed r = received t ∧ callback_tasks r = [].
Proof.
  intros Ht Hf Ha Hname Hsteps. destruct (has_executor (reg s0)) eqn:Hex.
  - assert (executor_ok (s, t)) as [_ Hm Hact]; [|by split].
    apply (rtc_keeps executor_ok mstep (s0, mkTally 0 0 0)); [|done|].
    + intros x x'. apply mstep_executor. intros Hn. by apply Hname in Hn.
    + split; cbn; [done|by rewrite Ht, Hf|]. by rewrite Ht, Ha.
  - assert (inline_ok (s, t)) as [_ Htasks Hfreed]; [|done].
    apply (rtc_keeps inline_ok mstep (s0, mkTally 0 0 0)); [|done|by split].
    intros x x'. apply mstep_inline. by apply Hname.
Qed.
End Ownership.

(** * At a concrete input *)

Module RegistryDemo.
(** A handler that returns and one that throws. *)
Definition demo_handler (h : bool) (payload : bytes) : M (MsgHandleRegistry bool) unit :=
  if h then mret tt else throw (UserException "handler").
Definition demo_registry : MsgHandleRegistry bool :=
  (InitExecutor true (RegisterMsgHandle "b" false (RegisterMsgHandle "a" true MsgHandleRegistry_new))).2.

Abbreviation demo_step := (mstep id (λ r _, r) demo_handler "pool").
Definition recv topic r := (OnMsgRecv id (λ r _, r) demo_handler "pool" topic [] r).2.
Definition demo_run k r := (run_task id (λ r _, r) demo_handler k r).2.
Definition demo_end : MsgHandleRegistry bool := demo_run 0%nat (demo_run 0%nat (recv "c" (recv "b" (recv "a" demo_registry)))).

Lemma demo_steps : rtc demo_step (demo_registry, mkTally 0 0 0) (demo_end, mkTally 3 1 1).
Proof.
  eapply rtc_l; [eapply (step_recv _ _ _ _ "a" []); apply surjective_pairing|].
  eapply rtc_l; [eapply (step_recv _ _ _ _ "b" []); apply surjective_pairing|].
  eapply rtc_l; [eapply (step_recv _ _ _ _ "c" []); apply surjective_pairing|].
  eapply rtc_l; [eapply (step_task _ _ _ _ 0%nat); [by eexists|apply surjective_pairing]|].
  eapply rtc_l; [eapply (step_task _ _ _ _ 0%nat); [by eexists|apply surjective_pairing]|].
  apply rtc_refl.
Qed.
End RegistryDemo.
Import RegistryDemo.

(** Three messages, of which one is freed; the counter stays at one. *)
Lemma messages_accounted_witness :
  has_executor demo_registry = true ∧ 3%nat = (msgs_freed demo_end + length (callback_tasks demo_end) + 1 + 1)%nat ∧
  msgs_freed demo_end = 1%nat ∧ active_tasks demo_end = 1.
Proof.
  pose proof (messages_accounted id (λ r _, r) demo_handler (λ _ _, eq_refl)
    ltac:(by intros [] payload s) ltac:(by intros [] payload s) "pool" demo_registry demo_end (mkTally 3 1 1)
    eq_refl eq_refl eq_refl ltac:(by split) demo_steps) as [H1 H2].
  split; [by vm_compute|]. split; [exact H1|]. split; [by vm_compute|].
  etrans; [exact H2|]. by vm_compute.
Defined.
