(* ===== verification/MqttRpc.v ===== *)
(** * The mqtt rpc backend: [src/plugins/mqtt_plugin/mqtt_rpc_backend.*] and
    [msg_handle_registry.h]

    A call is a message published on the topic of its function; the response
    comes on a topic of the client's.  Each process has one backend in its
    [World]: the client's part records calls by number, the server's part makes
    a wrapper per request, with a callback that publishes the response.  What is
    given to the mqtt client library is recorded, in order: [mq_published] the
    messages, [mq_subscribed] the subscriptions made and not cancelled.  What
    the library delivers is a step of its own, of the process that receives it,
    as are the service's answer and the timers.

    Parameters: regular expressions, executors by name, the order of
    [unordered_map], the value of a new response, the byte order and the
    addresses of buffers.  Not modelled: the connection (the plugin's
    [AsyncConnect] and its reconnections), the wait in [Start], the executor that
    may run the handlers, the options written back.

    Theorems: a call does what [mqtt_invoke_effect] says on every branch; its
    request reaches the handler of its function in any other process with all of
    its metadata and message; the response, on the topic it asks for, answers the
    call; after an exception the caller is not answered. *)

From S2P Require Import Prelude Yaml StdString Filters Channel Rpc Url RpcBackend LocalRpc BufferUtil MqttWire MqttRegistry.
Local Open Scope Z_scope.

(** ** Options *)

(* @src src/src/plugins/mqtt_plugin/mqtt_rpc_backend.h:17-21 MqttRpcBackend::Options::ClientOptions *)
Record MqttClientOptions := mkMqttClientOptions { mco_func_name : string; mco_server_mqtt_id : string; mco_qos : Z }.
(* @src src/src/plugins/mqtt_plugin/mqtt_rpc_backend.h:24-28 MqttRpcBackend::Options::ServerOptions *)
Record MqttServerOptions := mkMqttServerOptions { mso_func_name : string; mso_allow_share : bool; mso_qos : Z }.
(* @src src/src/plugins/mqtt_plugin/mqtt_rpc_backend.h:14-30 MqttRpcBackend::Options *)
Record MqttOptions := mkMqttOptions {
  mo_timeout_executor : string;
  clients_options : list MqttClientOptions;
  servers_options : list MqttServerOptions
}.

Section Options.
Context `{Y : YamlOps node}.

Definition mqtt_qos (n : node) : res Z := q ← set_if n "qos" as_int32 2; check_qos q.

Definition client_options_of (n : node) : res MqttClientOptions :=
  f ← as_of as_string (index n "func_name");
  s ← set_if n "server_mqtt_id" as_string "";
  q ← mqtt_qos n;
  Ok (mkMqttClientOptions f s q).

Definition server_options_of (n : node) : res MqttServerOptions :=
  f ← as_of as_string (index n "func_name");
  a ← set_if n "allow_share" as_bool true;
  q ← mqtt_qos n;
  Ok (mkMqttServerOptions f a q).

(* @src src/src/plugins/mqtt_plugin/mqtt_rpc_backend.cc:48-88 convert<MqttRpcBackend::Options>::decode *)
Definition mqtt_rpc_decode (n : node) (rhs : MqttOptions) : res (option MqttOptions) :=
  t ← set_if n "timeout_executor" as_string (mo_timeout_executor rhs);
  cs ← each_of n "clients_options" client_options_of (clients_options rhs);
  ss ← each_of n "servers_options" server_options_of (servers_options rhs);
  Ok (Some (mkMqttOptions t cs ss)).
End Options.

(** ** Names and topics *)

(* @src src/src/interface/aimrt_module_cpp_interface/rpc/rpc_handle.h:31-37 GetFuncNameWithoutPrefix *)
Definition GetFuncNameWithoutPrefix (func_name : string) : string :=
  match find (lit ":/") (lit func_name) 0 with
  | Some pos => str (drop (S pos) (lit func_name))
  | None => func_name
  end.

(** The topics of requests, for any server and for the server of an id, and
    that of the responses to a client. *)
Definition shared_req_topic (func : string) : string := ("aimrt_rpc_req/" ++ url_encode (GetFuncNameWithoutPrefix func))%string.
Definition own_req_topic (id func : string) : string :=
  ("aimrt_rpc_req/" ++ url_encode id ++ "/" ++ url_encode (GetFuncNameWithoutPrefix func))%string.
Definition rsp_topic (id func : string) : string :=
  ("aimrt_rpc_rsp/" ++ url_encode id ++ "/" ++ url_encode (GetFuncNameWithoutPrefix func))%string.

(** The topic a request is published on. *)
(* @src src/src/plugins/mqtt_plugin/mqtt_rpc_backend.cc:608-617 MqttRpcBackend::Invoke (topic) *)
Definition req_topic (server_mqtt_id func : string) : string :=
  if String.eqb server_mqtt_id "" then shared_req_topic func else own_req_topic server_mqtt_id func.

Section State.
Context {Msg : Type}.

(** ** The state *)

(** What the callback of a service has captured. *)
Record MqttReply := mkMqttReply {
  mr_qos : Z;
  mr_serialization_type : string;
  mr_mqtt_pub_topic : string;
  mr_req_id_buf : bytes
}.

(** The two lambdas that are registered as handlers. *)
Inductive MqttHandle :=
| ServeReq (qos : Z) (info : FuncInfo Msg)
| TakeRsp.

(* @src src/src/plugins/mqtt_plugin/mqtt_rpc_backend.h:83-110 MqttRpcBackend *)
Record MqttRpcBackend := mkMqttRpc {
  mq_options : MqttOptions;
  mq_state : State;
  mq_has_get_executor_func : bool;
  client_id : string;
  max_pkg_size : Z;
  sub_info_vec : list (string * Z);
  msg_handle_registry : MsgHandleRegistry MqttHandle;
  mq_req_id : Z;
  client_cfg_info_map : gmap string (string * Z);   (* server, quality of service *)
  mq_client_tool : option (RpcClientTool nat);
  mq_services : gmap nat (InvokeWrapper Msg MqttReply);
  mq_calls : list nat;                               (* ghost: the services called *)
  mq_published : list MqttMsg;                       (* ghost *)
  mq_subscribed : list string                        (* ghost *)
}.

(* @src src/src/plugins/mqtt_plugin/mqtt_rpc_backend.h:33-41 MqttRpcBackend::MqttRpcBackend *)
Definition MqttRpcBackend_new (id : string) (max : Z) : MqttRpcBackend :=
  mkMqttRpc (mkMqttOptions "" [] []) kPreInit false id max [] MsgHandleRegistry_new 0 ∅ None ∅ [] [] [].

Implicit Types b : MqttRpcBackend.

Definition mq_set_state x b := mkMqttRpc (mq_options b) x (mq_has_get_executor_func b) (client_id b) (max_pkg_size b)
  (sub_info_vec b) (msg_handle_registry b) (mq_req_id b) (client_cfg_info_map b) (mq_client_tool b) (mq_services b)
  (mq_calls b) (mq_published b) (mq_subscribed b).
Definition mq_set_options x b := mkMqttRpc x (mq_state b) (mq_has_get_executor_func b) (client_id b) (max_pkg_size b)
  (sub_info_vec b) (msg_handle_registry b) (mq_req_id b) (client_cfg_info_map b) (mq_client_tool b) (mq_services b)
  (mq_calls b) (mq_published b) (mq_subscribed b).
Definition mq_set_get_executor x b := mkMqttRpc (mq_options b) (mq_state b) x (client_id b) (max_pkg_size b)
  (sub_info_vec b) (msg_handle_registry b) (mq_req_id b) (client_cfg_info_map b) (mq_client_tool b) (mq_services b)
  (mq_calls b) (mq_published b) (mq_subscribed b).
Definition mq_set_registry subs r b := mkMqttRpc (mq_options b) (mq_state b) (mq_has_get_executor_func b) (client_id b)
  (max_pkg_size b) subs r (mq_req_id b) (client_cfg_info_map b) (mq_client_tool b) (mq_services b)
  (mq_calls b) (mq_published b) (mq_subscribed b).
Definition mq_set_req_id x b := mkMqttRpc (mq_options b) (mq_state b) (mq_has_get_executor_func b) (client_id b)
  (max_pkg_size b) (sub_info_vec b) (msg_handle_registry b) x (client_cfg_info_map b) (mq_client_tool b) (mq_services b)
  (mq_calls b) (mq_published b) (mq_subscribed b).
Definition mq_set_cfg x b := mkMqttRpc (mq_options b) (mq_state b) (mq_has_get_executor_func b) (client_id b)
  (max_pkg_size b) (sub_info_vec b) (msg_handle_registry b) (mq_req_id b) x (mq_client_tool b) (mq_services b)
  (mq_calls b) (mq_published b) (mq_subscribed b).
Definition mq_set_tool x b := mkMqttRpc (mq_options b) (mq_state b) (mq_has_get_executor_func b) (client_id b)
  (max_pkg_size b) (sub_info_vec b) (msg_handle_registry b) (mq_req_id b) (client_cfg_info_map b) x (mq_services b)
  (mq_calls b) (mq_published b) (mq_subscribed b).
Definition mq_set_services x calls b := mkMqttRpc (mq_options b) (mq_state b) (mq_has_get_executor_func b) (client_id b)
  (max_pkg_size b) (sub_info_vec b) (msg_handle_registry b) (mq_req_id b) (client_cfg_info_map b) (mq_client_tool b) x
  calls (mq_published b) (mq_subscribed b).
Definition mq_set_published x b := mkMqttRpc (mq_options b) (mq_state b) (mq_has_get_executor_func b) (client_id b)
  (max_pkg_size b) (sub_info_vec b) (msg_handle_registry b) (mq_req_id b) (client_cfg_info_map b) (mq_client_tool b)
  (mq_services b) (mq_calls b) x (mq_subscribed b).
Definition mq_set_subscribed x b := mkMqttRpc (mq_options b) (mq_state b) (mq_has_get_executor_func b) (client_id b)
  (max_pkg_size b) (sub_info_vec b) (msg_handle_registry b) (mq_req_id b) (client_cfg_info_map b) (mq_client_tool b)
  (mq_services b) (mq_calls b) (mq_published b) x.
End State.

Arguments MqttHandle : clear implicits.
Arguments MqttRpcBackend : clear implicits.

Class HasMqtt (Msg X : Type) := {
  mq : X → MqttRpcBackend Msg;
  set_mq : MqttRpcBackend Msg → X → X;
  mq_set_mq b x : mq (set_mq b x) = b;
  set_mq_mq x : set_mq (mq x) x = x;
  set_mq_set_mq b b' x : set_mq b (set_mq b' x) = set_mq b x
}.

(** ** Registration and life cycle *)

Section LifeCycle.
Context {Msg X : Type} `{YamlOps node}.
Context (find_executor : string → option bool).
Context (regex_match : string → string → res bool).
Abbreviation B := (M (MqttRpcBackend Msg)).

Definition mq_exchange (new old : State) (what : string) : B unit :=
  b ← get;
  modify (mq_set_state new);;
  check_throw (state_eqb (mq_state b) old) what.

Definition on_mq_tool {A} (m : M (RpcClientTool nat) A) : B A := λ b,
  match mq_client_tool b with
  | None => (Undef, b)
  | Some t => let '(r, t') := m t in (r, mq_set_tool (Some t') b)
  end.

(* @src src/src/plugins/mqtt_plugin/mqtt_rpc_backend.cc:94-129 MqttRpcBackend::Initialize *)
Definition mq_Initialize (options_node : option node) : B unit :=
  mq_exchange kInit kPreInit "Mqtt Rpc backend can only be initialized once.";;
  o ← lift (read_options mqtt_rpc_decode (mkMqttOptions "" [] []) options_node);
  modify (λ b, mq_set_tool (Some RpcClientTool_new) (mq_set_options (default (mq_options b) o) b));;
  b ← get;
  let name := mo_timeout_executor (mq_options b) in
  if String.eqb name "" then mret tt
  else
    check_throw (mq_has_get_executor_func b) "Get executor function is not set before initialize.";;
    match find_executor name with
    | None => throw (AimRTException "Get timeout executor '{}' failed.")
    | Some support_timer_schedule =>
        on_mq_tool (RegisterTimeoutExecutor support_timer_schedule);;
        on_mq_tool RegisterTimeoutHandle
    end.

(* @src src/src/plugins/mqtt_plugin/mqtt_rpc_backend.cc:131-138 MqttRpcBackend::Start *)
Definition mq_Start : B unit := mq_exchange kStart kInit "Method can only be called when state is 'Init'.".

(* @src src/src/plugins/mqtt_plugin/mqtt_rpc_backend.cc:637-645 MqttRpcBackend::SubscribeMqttTopic *)
Definition SubscribeMqttTopic : B unit :=
  modify (λ b, mq_set_subscribed (mq_subscribed b ++ map fst (sub_info_vec b)) b).

(* @src src/src/plugins/mqtt_plugin/mqtt_rpc_backend.cc:647-652 MqttRpcBackend::UnSubscribeMqttTopic *)
Definition UnSubscribeMqttTopic : B unit :=
  modify (λ b, mq_set_subscribed (filter (λ t, t ∉ map fst (sub_info_vec b)) (mq_subscribed b)) b).

(* @src src/src/plugins/mqtt_plugin/mqtt_rpc_backend.cc:139-148 MqttRpcBackend::Shutdown *)
Definition mq_Shutdown : B unit :=
  b ← get;
  modify (mq_set_state kShutdown);;
  if state_eqb (mq_state b) kShutdown then mret tt
  else
    UnSubscribeMqttTopic;;
    modify (mq_set_tool None);;
    modify (λ b, mq_set_registry (sub_info_vec b) (registry_Shutdown (msg_handle_registry b)) b).

(* @src src/src/plugins/mqtt_plugin/mqtt_rpc_backend.cc:629-635 MqttRpcBackend::RegisterGetExecutorFunc *)
Definition mq_RegisterGetExecutorFunc (is_set : bool) : B unit :=
  b ← get;
  check_throw (state_eqb (mq_state b) kPreInit) "Method can only be called when state is 'PreInit'.";;
  modify (mq_set_get_executor is_set).

(** [sub_info_vec_.emplace_back(...); RegisterMsgHandle(...);] *)
Definition add_handle (sub_topic : string) (qos : Z) (topic : string) (h : MqttHandle Msg) : B unit :=
  modify (λ b, mq_set_registry (sub_info_vec b ++ [(sub_topic, qos)]) (RegisterMsgHandle topic h (msg_handle_registry b)) b).

(** The predicate of [find_if]: a pattern matches the name or the name
    without prefix; an exception counts as no match. *)
(* @src src/src/plugins/mqtt_plugin/mqtt_rpc_backend.cc:167-179 MqttRpcBackend::RegisterServiceFunc (option) *)
Definition option_matches (pattern func : string) : bool :=
  match regex_match pattern func with
  | Ok true => true
  | Ok false => match regex_match pattern (GetFuncNameWithoutPrefix func) with Ok r => r | _ => false end
  | _ => false
  end.

(* @src src/src/plugins/mqtt_plugin/mqtt_rpc_backend.cc:150-347 MqttRpcBackend::RegisterServiceFunc *)
Definition mq_RegisterServiceFunc (info : FuncInfo Msg) : B bool :=
  b ← get;
  if negb (state_eqb (mq_state b) kInit) then mret false
  else
    let func := func_name info in
    let opt := List.find (λ o, option_matches (mso_func_name o) func) (servers_options (mq_options b)) in
    let allow_share := match opt with Some o => mso_allow_share o | None => true end in
    let qos := match opt with Some o => mso_qos o | None => 2 end in
    (if allow_share
     then add_handle ("$share/aimrt/" ++ shared_req_topic func)%string qos (shared_req_topic func) (ServeReq qos info)
     else mret tt);;
    add_handle (own_req_topic (client_id b) func) qos (own_req_topic (client_id b) func) (ServeReq qos info);;
    mret true.

(** A name too long for the reply topic is refused after its options have
    been recorded. *)
(* @src src/src/plugins/mqtt_plugin/mqtt_rpc_backend.cc:349-467 MqttRpcBackend::RegisterClientFunc *)
Definition mq_RegisterClientFunc (info : FuncInfo Msg) : B bool :=
  b ← get;
  if negb (state_eqb (mq_state b) kInit) then mret false
  else
    let func := func_name info in
    let opt := List.find (λ o, option_matches (mco_func_name o) func) (clients_options (mq_options b)) in
    let server := match opt with Some o => mco_server_mqtt_id o | None => "" end in
    let qos := match opt with Some o => mco_qos o | None => 2 end in
    modify (λ b, mq_set_cfg (match client_cfg_info_map b !! GetFuncNameWithoutPrefix func with
                             | Some _ => client_cfg_info_map b
                             | None => <[GetFuncNameWithoutPrefix func := (server, qos)]> (client_cfg_info_map b)
                             end) b);;
    let topic := rsp_topic (client_id b) func in
    if 255 <? str_size topic then mret false
    else add_handle topic qos topic TakeRsp;; mret true.
End LifeCycle.

(** ** Calls *)

Section Calls.
Context {Msg X : Type} `{HasMqtt Msg X} `{IterOrder}.
Context (user_client_hook : nat → nat → Z → M (World Msg X) unit).
Context (Create : TypeSupport Msg → Msg).
(** Little endian; the address of a vector or of a payload of a size. *)
Context (little : bool) (alloc : Z → Z).

Abbreviation W := (World Msg X).
Abbreviation InvokeCallBack := (InvokeCallBack user_client_hook).
Abbreviation call_client := (call_client user_client_hook).

Definition on_mq {A} (m : M (MqttRpcBackend Msg) A) : M W A :=
  zoom (λ w, mq (w_rest w)) (λ b w, set_w_rest (set_mq b (w_rest w)) w) m.

(** [MQTTAsync_sendMessage]; its result is only logged. *)
Definition sendMessage (topic : string) (qos : Z) (payload : bytes) : M W unit :=
  on_mq (modify (λ b, mq_set_published (mq_published b ++ [mkMqttMsg topic qos payload]) b)).

(** The server an address names, which a call without one, or with one that is
    not a url, takes from the options. *)
(* @src src/src/plugins/mqtt_plugin/mqtt_rpc_backend.cc:493-505 MqttRpcBackend::Invoke (address) *)
Definition server_of_addr (to_addr server_mqtt_id : string) : option string :=
  if String.eqb to_addr "" then Some server_mqtt_id
  else
    match ParseUrl (lit to_addr) with
    | None => Some server_mqtt_id
    | Some url => if bool_decide (protocol url = lit "mqtt") then Some (str (host url)) else None
    end.

(* @src src/src/plugins/mqtt_plugin/mqtt_rpc_backend.cc:469-627 MqttRpcBackend::Invoke *)
Definition mq_Invoke : RpcHandle Msg X := λ cw,
  try_catch
    (b ← on_mq get;
     if negb (state_eqb (mq_state b) kStart) then InvokeCallBack cw STATUS_CLI_BACKEND_INTERNAL_ERROR
     else
       i ← on_client cw get;
       let func := func_name (iw_info i) in
       let '(server_mqtt_id, qos) := default ("", 2) (client_cfg_info_map b !! GetFuncNameWithoutPrefix func) in
       c ← get_rctx (iw_ctx i);
       match server_of_addr (rc_GetMetaValue c KEY_TO_ADDR) server_mqtt_id with
       | None => InvokeCallBack cw STATUS_CLI_BACKEND_INTERNAL_ERROR
       | Some server_mqtt_id =>
           let cur_req_id := mq_req_id b in
           on_mq (modify (mq_set_req_id (wrap32 (cur_req_id + 1))));;
           let ty := rc_GetSerializationType c in
           if 255 <? str_size ty then InvokeCallBack cw STATUS_CLI_UNKNOWN
           else
             let mqtt_sub_topic := rsp_topic (client_id b) func in
             if 255 <? str_size mqtt_sub_topic then InvokeCallBack cw STATUS_CLI_UNKNOWN
             else
               buffer ← on_client cw (TrySerializeReqWithCache ty);
               match buffer with
               | None => InvokeCallBack cw STATUS_CLI_SERIALIZATION_FAILED
               | Some data =>
                   update_rctx (iw_ctx i) (rc_SetMetaValue "aimrt-from_mqtt_client" (client_id b));;
                   c ← get_rctx (iw_ctx i);
                   let kvs := map_order (rc_meta_data_map c) in
                   if 255 <? Z.of_nat (length kvs) then InvokeCallBack cw STATUS_CLI_BACKEND_INTERNAL_ERROR
                   else
                     let mqtt_pkg_size := req_pkg_size ty mqtt_sub_topic kvs data in
                     if max_pkg_size b <? mqtt_pkg_size then InvokeCallBack cw STATUS_CLI_SEND_REQ_FAILED
                     else
                       ret ← on_mq (on_mq_tool (Tool_Record cur_req_id (rc_Timeout c) cw));
                       if negb ret then InvokeCallBack cw STATUS_CLI_BACKEND_INTERNAL_ERROR
                       else
                         payload ← lift (pack_req little (alloc mqtt_pkg_size) ty mqtt_sub_topic cur_req_id kvs data);
                         sendMessage (req_topic server_mqtt_id func) qos payload
               end
       end)
    (λ _, mret tt).

(** *** The server *)

(* @src src/src/plugins/mqtt_plugin/mqtt_rpc_backend.cc:654-680 MqttRpcBackend::ReturnRspWithStatusCode *)
Definition ReturnRspWithStatusCode (r : MqttReply) (code : Z) : M W unit :=
  let ty := mr_serialization_type r in
  payload ← lift (pack_rsp little (alloc (rsp_pkg_size ty [])) ty (mr_req_id_buf r) code []);
  sendMessage (mr_mqtt_pub_topic r) (mr_qos r) payload.

(** The handler of requests, up to the call of the service, which is recorded. *)
(* @src src/src/plugins/mqtt_plugin/mqtt_rpc_backend.cc:186-323 MqttRpcBackend::RegisterServiceFunc (handle) *)
Definition serve (qos : Z) (info : FuncInfo Msg) (payload : bytes) : M W unit :=
  try_catch
    (ctx_id ← new_rctx AIMRT_RPC_SERVER_CONTEXT;
     p ← lift (read (alloc (Z.of_nat (length payload))) payload (parse_req little));
     let '(ty, topic, req_id_buf, kvs, remaining_buf) := p in
     update_rctx ctx_id (rc_SetMetaValue KEY_SERIALIZATION_TYPE ty);;
     mapM_ (λ kv, update_rctx ctx_id (rc_SetMetaValue kv.1 kv.2)) kvs;;
     update_rctx ctx_id (rc_SetFunctionName (func_name info));;
     update_rctx ctx_id (rc_SetMetaValue KEY_BACKEND "mqtt");;
     let r := mkMqttReply qos ty topic req_id_buf in
     match Deserialize (req_type_support_ref info) ty [remaining_buf] with
     | None => ReturnRspWithStatusCode r STATUS_SVR_DESERIALIZATION_FAILED
     | Some req =>
         rsp ← new_obj (Create (rsp_type_support_ref info));
         on_mq (modify (λ b,
           let sw := fresh (dom (mq_services b)) in
           mq_set_services
             (<[sw := mkInvokeWrapper info (Some req) (Some rsp) ctx_id (Some r) ∅ ∅]> (mq_services b))
             (mq_calls b ++ [sw]) b))
     end)
    (λ _, mret tt).

(** The callback of the wrapper at [sw]. *)
(* @src src/src/plugins/mqtt_plugin/mqtt_rpc_backend.cc:249-315 MqttRpcBackend::RegisterServiceFunc (callback) *)
Definition mqtt_reply (sw : nat) (status : Z) : M W unit :=
  w ← get;
  match mq_services (mq (w_rest w)) !! sw with
  | None => undef
  | Some j =>
      match iw_callback j with
      | None => bad_function_call
      | Some r =>
          if negb (status_OK status) then ReturnRspWithStatusCode r status
          else
            let ty := mr_serialization_type r in
            match TrySerializeRspWithCache (obj_at w (iw_rsp j)) ty j with
            | (Ok (Some data), j') =>
                on_mq (modify (λ b, mq_set_services (<[sw := j']> (mq_services b)) (mq_calls b) b));;
                b ← on_mq get;
                if max_pkg_size b <? rsp_pkg_size ty data then ReturnRspWithStatusCode r STATUS_SVR_UNKNOWN
                else
                  payload ← lift (pack_rsp little (alloc (rsp_pkg_size ty data)) ty (mr_req_id_buf r) 0 data);
                  sendMessage (mr_mqtt_pub_topic r) (mr_qos r) payload
            | (Ok None, _) => ReturnRspWithStatusCode r STATUS_SVR_SERIALIZATION_FAILED
            | (Throw e, _) => throw e
            | (Undef, _) => undef
            end
      end
  end.

(** *** The client's handler *)

(** Up to taking the record; what comes after is under a handler that answers
    the call. *)
(* @src src/src/plugins/mqtt_plugin/mqtt_rpc_backend.cc:405-460 MqttRpcBackend::RegisterClientFunc (handle) *)
Definition take_rsp (payload : bytes) : M W unit :=
  r ← try_catch
    (let '(head, buf_oper) := parse_rsp_head little (ConstBufferOperator_new (alloc (Z.of_nat (length payload))) payload) in
     h ← lift head;
     let '(ty, req_id, code) := h in
     msg_recorder ← on_mq (on_mq_tool (GetRecord req_id));
     mret (match msg_recorder with Some cw => Some (cw, ty, code, buf_oper) | None => None end))
    (λ _, mret None);
  match r with
  | None => mret tt
  | Some (cw, ty, code, buf_oper) =>
      try_catch
        (if negb (code =? 0) then InvokeCallBack cw code
         else
           i ← on_client cw get;
           remaining_buf ← lift (get_rest buf_oper).1;
           match Deserialize (rsp_type_support_ref (iw_info i)) ty [remaining_buf] with
           | None => InvokeCallBack cw STATUS_CLI_DESERIALIZATION_FAILED
           | Some m =>
               write_obj (iw_rsp i) m;;
               InvokeCallBack cw STATUS_OK
           end)
        (λ _, InvokeCallBack cw STATUS_CLI_BACKEND_INTERNAL_ERROR)
  end.

(** *** Deliveries *)

(** The library delivers a message to the process. *)
Definition mq_handler (h : MqttHandle Msg) (payload : bytes) : M W unit :=
  match h with
  | ServeReq qos info => serve qos info payload
  | TakeRsp => take_rsp payload
  end.

Definition mq_registry (w : W) : MsgHandleRegistry (MqttHandle Msg) := msg_handle_registry (mq (w_rest w)).
Definition set_mq_registry (r : MsgHandleRegistry (MqttHandle Msg)) (w : W) : W :=
  set_w_rest (set_mq (mq_set_registry (sub_info_vec (mq (w_rest w))) r (mq (w_rest w))) (w_rest w)) w.

Definition mq_receive : string → bytes → M W unit := HandleServerMsg mq_registry set_mq_registry mq_handler.

(** A timer of the client tool fires. *)
(* @src src/src/plugins/mqtt_plugin/mqtt_rpc_backend.cc:117-120 MqttRpcBackend::Initialize (time-out handle) *)
Definition mq_fire_timer (k : nat) : M W unit :=
  b ← on_mq get;
  match mq_client_tool b with
  | None => mret tt
  | Some t =>
      match ct_timers t !! k with
      | None => mret tt
      | Some (req_id, _) =>
          on_mq (on_mq_tool (modify (λ t, mkTool (ct_timeout_executor t) (ct_timeout_handle t)
                                         (delete k (ct_timers t)) (client_msg_recorder_map t))));;
          msg_recorder ← on_mq (on_mq_tool (GetRecord req_id));
          match msg_recorder with
          | Some cw => if ct_timeout_handle t then InvokeCallBack cw STATUS_TIMEOUT else bad_function_call
          | None => mret tt
          end
      end
  end.

(** The backend as the manager sees it. *)
(* @src src/src/plugins/mqtt_plugin/mqtt_rpc_backend.h:45-60 MqttRpcBackend *)
Definition mqtt_rpc_backend `{YamlOps node} (find_executor : string → option bool) (regex_match : string → string → res bool)
    : RpcBackend Msg X (option node) :=
  mkRpcBackend "mqtt" (λ n, on_mq (mq_Initialize find_executor n)) (on_mq mq_Start) (on_mq mq_Shutdown)
    (λ f, on_mq (mq_RegisterServiceFunc regex_match (sf_info f)))
    (λ f, on_mq (mq_RegisterClientFunc regex_match (cf_info f))) (λ _, mq_Invoke) (λ _, []).
End Calls.

(** * What the backend does *)

Section Spec.
Context {Msg X : Type} `{HasMqtt Msg X} `{IterOrder}.
Context (user_client_hook : nat → nat → Z → M (World Msg X) unit).
Context (Create : TypeSupport Msg → Msg).
Context (little : bool) (alloc : Z → Z).
(** An object of less than half of the address space is inside it. *)
Context (Halloc : ∀ n, 0 ≤ n < 2 ^ 63 → at_address (alloc n) n).
Implicit Types w v : World Msg X.

Abbreviation mq_Invoke := (mq_Invoke user_client_hook little alloc).
Abbreviation mq_receive := (mq_receive user_client_hook Create little alloc).
Abbreviation mqtt_reply := (mqtt_reply little alloc).

Definition mq_of w : MqttRpcBackend Msg := mq (w_rest w).
Definition with_mq (b : MqttRpcBackend Msg) w : World Msg X := set_w_rest (set_mq b (w_rest w)) w.

Lemma mq_of_with b w : mq_of (with_mq b w) = b.
Proof. apply mq_set_mq. Qed.

Lemma with_mq_id w : with_mq (mq_of w) w = w.
Proof. unfold with_mq, mq_of. rewrite set_mq_mq. by destruct w. Qed.

Lemma with_mq_twice b b' w : with_mq b (with_mq b' w) = with_mq b w.
Proof. unfold with_mq. cbn. by rewrite set_mq_set_mq. Qed.

Lemma on_mq_eq {A} (m : M (MqttRpcBackend Msg) A) w a b :
  m (mq_of w) = (a, b) → on_mq m w = (a, with_mq b w).
Proof. intros Hm. unfold on_mq, zoom. unfold mq_of in Hm. by rewrite Hm. Qed.

Lemma on_mq_get w : on_mq get w = (Ok (mq_of w), w).
Proof. erewrite on_mq_eq; [|reflexivity]. by rewrite with_mq_id. Qed.

Lemma on_mq_modify f w : on_mq (modify f) w = (Ok tt, with_mq (f (mq_of w)) w).
Proof. by apply on_mq_eq. Qed.

(** ** A call *)

Definition record_mq (cw : nat) (c : RpcContext) (t : RpcClientTool nat) (b : MqttRpcBackend Msg) : MqttRpcBackend Msg :=
  mq_set_tool (Some (mkTool (ct_timeout_executor t) (ct_timeout_handle t)
      (if ct_timeout_executor t then ct_timers t ++ [(mq_req_id b, rc_Timeout c)] else ct_timers t)
      (<[mq_req_id b := cw]> (client_msg_recorder_map t))))
    (mq_set_req_id (wrap32 (mq_req_id b + 1)) b).

Definition publish (topic : string) (qos : Z) (payload : bytes) (b : MqttRpcBackend Msg) : MqttRpcBackend Msg :=
  mq_set_published (mq_published b ++ [mkMqttMsg topic qos payload]) b.

(** The server and the quality of service a call is made with. *)
Definition call_cfg (b : MqttRpcBackend Msg) (func : string) : string * Z :=
  default ("", 2) (client_cfg_info_map b !! GetFuncNameWithoutPrefix func).

(** The context of a call once the client has signed it. *)
Definition signed_ctx (b : MqttRpcBackend Msg) (c : RpcContext) : RpcContext :=
  rc_SetMetaValue "aimrt-from_mqtt_client" (client_id b) c.

(** Once the request is serialized. *)
Definition sent_effect (cw : nat) (i : InvokeWrapper Msg ClientCb) (call : nat) (c : RpcContext) (t : RpcClientTool nat)
    (server : string) (qos : Z) (ty : string) (data : list bytes) (b : MqttRpcBackend Msg) w : World Msg X :=
  let func := func_name (iw_info i) in
  let topic := rsp_topic (client_id b) func in
  let i' := set_req_cache {[ty := data]} i in
  let w2 := set_ctx (iw_ctx i) (signed_ctx b c)
              (set_w_clients (<[cw := i']> (w_clients w)) (with_mq (mq_set_req_id (wrap32 (mq_req_id b + 1)) b) w)) in
  let kvs := map_order (rc_meta_data_map (signed_ctx b c)) in
  if 255 <? Z.of_nat (length kvs) then refuse cw i' call STATUS_CLI_BACKEND_INTERNAL_ERROR w2
  else if max_pkg_size b <? req_pkg_size ty topic kvs data then refuse cw i' call STATUS_CLI_SEND_REQ_FAILED w2
  else
    match client_msg_recorder_map t !! mq_req_id b with
    | Some _ => refuse cw i' call STATUS_CLI_BACKEND_INTERNAL_ERROR w2
    | None =>
        let b3 := record_mq cw c t b in
        if decide (Forall kv_ok kvs)
        then with_mq (publish (req_topic server func) qos
                        (encode_all (req_fields ty topic (mq_req_id b) kvs data)) b3) w2
        else with_mq b3 w2
    end.

(** What a call does to the world, on every branch. *)
Definition mqtt_invoke_effect (cw : nat) (i : InvokeWrapper Msg ClientCb) (call : nat) (c : RpcContext) (m : Msg)
    (t : RpcClientTool nat) w : World Msg X :=
  let b := mq_of w in
  let func := func_name (iw_info i) in
  match server_of_addr (rc_GetMetaValue c KEY_TO_ADDR) (call_cfg b func).1 with
  | None => refuse cw i call STATUS_CLI_BACKEND_INTERNAL_ERROR w
  | Some server =>
      let w1 := with_mq (mq_set_req_id (wrap32 (mq_req_id b + 1)) b) w in
      let ty := rc_GetSerializationType c in
      if (255 <? str_size ty) || (255 <? str_size (rsp_topic (client_id b) func))
      then refuse cw i call STATUS_CLI_UNKNOWN w1
      else
        match Serialize (req_type_support_ref (iw_info i)) ty m with
        | None => refuse cw i call STATUS_CLI_SERIALIZATION_FAILED w1
        | Some data => sent_effect cw i call c t server (call_cfg b func).2 ty data b w
        end
  end.

Lemma context_size_pos kvs : 1 ≤ context_meta_kv_size kvs.
Proof.
  unfold context_meta_kv_size. induction kvs as [|kv kvs IH]; cbn [foldr]; [done|]. pose proof (Nat2Z.is_nonneg (length (lit kv.1))). pose proof (Nat2Z.is_nonneg (length (lit kv.2))).
  unfold str_size in *. lia.
Qed.

Lemma req_pkg_size_pos ty topic kvs data : 0 ≤ req_pkg_size ty topic kvs data.
Proof. unfold req_pkg_size, str_size, BufferSize. pose proof (context_size_pos kvs). lia. Qed.

Section Branches.
Context (cw : nat) (i : InvokeWrapper Msg ClientCb) (call : nat) (c : RpcContext) (m : Msg) (t : RpcClientTool nat).
Context (Hcb : iw_callback i = Some (Answer call)) (Hreq : iw_req i = Some m) (Hcache : req_serialization_cache i = ∅).

Lemma mq_Invoke_eq w :
  w_clients w !! cw = Some i → w_ctxs w !! iw_ctx i = Some c →
  mq_state (mq_of w) = kStart → mq_client_tool (mq_of w) = Some t →
  in_width 32 (mq_req_id (mq_of w)) → max_pkg_size (mq_of w) < 2 ^ 63 →
  mq_Invoke cw w = (Ok tt, mqtt_invoke_effect cw i call c m t w).
Proof using Hcb Hreq Hcache Halloc.
  intros Hi Hc Hst Ht Hid Hmax. unfold MqttRpc.mq_Invoke, try_catch, mbind, M_bind.
  rewrite on_mq_get. rewrite Hst. unfold state_eqb. rewrite (bool_decide_eq_true_2 (kStart = kStart)) by done. cbn [negb].
  rewrite (on_client_get _ _ _ Hi). unfold mqtt_invoke_effect. set (b := mq_of w) in *. set (func := func_name _).
  fold (call_cfg b func). destruct (call_cfg b func) as [server0 qos]. cbn [fst snd].
  rewrite (get_rctx_eq _ _ _ Hc).
  destruct (server_of_addr _ _) as [server|]; [|by rewrite (InvokeCallBack_eq _ _ _ _ _ _ Hi Hcb)].
  rewrite on_mq_modify. fold b. set (w1 := with_mq _ w). set (ty := rc_GetSerializationType c).
  destruct (Z.ltb_spec 255 (str_size ty)) as [|Hty]; [by rewrite (InvokeCallBack_eq _ _ w1 _ _ _ Hi Hcb)|].
  destruct (Z.ltb_spec 255 (str_size (rsp_topic (client_id b) func))) as [|Hto];
    [by rewrite (InvokeCallBack_eq _ _ w1 _ _ _ Hi Hcb)|].
  cbn [orb]. rewrite (TrySerialize_req_eq cw i m Hreq Hcache ty w1 Hi).
  destruct (Serialize _ ty m) as [data|]; [|by rewrite (InvokeCallBack_eq _ _ w1 _ _ _ Hi Hcb)].
  set (i' := set_req_cache _ i). set (w1' := set_w_clients _ w1).
  rewrite (update_rctx_eq (iw_ctx i) _ w1' c Hc). fold (signed_ctx b c).
  rewrite (get_rctx_eq _ _ _ (set_ctx_lookup (iw_ctx i) (signed_ctx b c) w1')). unfold sent_effect.
  fold func i'. set (w2 := set_ctx _ _ _). set (kvs := map_order _). set (topic := rsp_topic _ func).
  assert (w_clients w2 !! cw = Some i') as Hi2 by apply lookup_insert_eq.
  assert (iw_callback i' = Some (Answer call)) as Hcb' by done.
  destruct (Z.ltb_spec 255 (Z.of_nat (length kvs))) as [|Hn]; [by rewrite (InvokeCallBack_eq _ _ w2 _ _ _ Hi2 Hcb')|].
  destruct (Z.ltb_spec (max_pkg_size b) (req_pkg_size ty topic kvs data)) as [|Hsz];
    [by rewrite (InvokeCallBack_eq _ _ w2 _ _ _ Hi2 Hcb')|].
  assert (mq_of w2 = mq_set_req_id (wrap32 (mq_req_id b + 1)) b) as Hb2 by apply mq_of_with.
  destruct (client_msg_recorder_map t !! mq_req_id b) as [cw'|] eqn:Hrec.
  - rewrite (on_mq_eq _ w2 (Ok false) (mq_of w2)).
    2: { rewrite Hb2. unfold on_mq_tool. cbn [mq_client_tool mq_set_req_id]. rewrite Ht. unfold Tool_Record. unfold_monad.
         rewrite Hrec. f_equal. destruct b; cbn in *. by rewrite Ht. }
    cbn [negb]. rewrite with_mq_id. by rewrite (InvokeCallBack_eq _ _ w2 _ _ _ Hi2 Hcb').
  - rewrite (on_mq_eq _ w2 (Ok true) (record_mq cw c t b)).
    2: { rewrite Hb2. unfold on_mq_tool. cbn [mq_client_tool mq_set_req_id]. rewrite Ht. unfold Tool_Record. unfold_monad.
         by rewrite Hrec. }
    cbn [negb]. pose proof (req_pkg_size_pos ty topic kvs data).
    pose proof (Halloc (req_pkg_size ty topic kvs data) ltac:(lia)) as Hat.
    destruct (decide (Forall kv_ok kvs)) as [Hk|Hk].
    + rewrite pack_req_eq by done. unfold lift, sendMessage. rewrite on_mq_modify, mq_of_with, with_mq_twice. done.
    + destruct (pack_req_throws little (alloc (req_pkg_size ty topic kvs data)) ty topic (mq_req_id b) kvs data Hid Hat Hk)
        as [what ->]. done.
Qed.

(** C14: A call through the mqtt backend, on every branch.  When the backend is
    started, the call returns normally and does what [mqtt_invoke_effect] says.
    It is answered at once with the status of the check that failed: another
    protocol in the address, a serialization type or a reply topic of more than
    255 characters, a request that cannot be serialized, more than 255 pairs of
    metadata, a package that is too large, a number in use.  Otherwise it is
    recorded with its time-out, and its package published on the topic of its
    function: except when a metadata key or value has more than 65535 bytes.
    Then the call is recorded, but neither published nor answered. *)
Theorem mqtt_invoke_branches w :
  w_clients w !! cw = Some i → w_ctxs w !! iw_ctx i = Some c →
  mq_state (mq_of w) = kStart → mq_client_tool (mq_of w) = Some t →
  in_width 32 (mq_req_id (mq_of w)) → max_pkg_size (mq_of w) < 2 ^ 63 →
  mq_Invoke cw w = (Ok tt, mqtt_invoke_effect cw i call c m t w).
Proof using Hcb Hreq Hcache Halloc. exact (mq_Invoke_eq w). Qed.

(** A caller can wait for ever.  When a key or a value of the metadata has
    more than 65535 bytes, and nothing else is wrong with the call, writing the
    package throws after the call has been recorded: the call returns normally,
    nothing is published, the caller is not answered, and the record stays.
    Without a time-out executor no timer is set for it. *)
Theorem long_metadata_never_answered w server data :
  let b := mq_of w in
  let func := func_name (iw_info i) in
  let ty := rc_GetSerializationType c in
  let topic := rsp_topic (client_id b) func in
  let kvs := map_order (rc_meta_data_map (signed_ctx b c)) in
  w_clients w !! cw = Some i → w_ctxs w !! iw_ctx i = Some c →
  mq_state b = kStart → mq_client_tool b = Some t → in_width 32 (mq_req_id b) → max_pkg_size b < 2 ^ 63 →
  server_of_addr (rc_GetMetaValue c KEY_TO_ADDR) (call_cfg b func).1 = Some server →
  str_size ty ≤ 255 → str_size topic ≤ 255 → Serialize (req_type_support_ref (iw_info i)) ty m = Some data →
  Z.of_nat (length kvs) ≤ 255 → req_pkg_size ty topic kvs data ≤ max_pkg_size b →
  client_msg_recorder_map t !! mq_req_id b = None → ¬ Forall kv_ok kvs →
  ∃ w', mq_Invoke cw w = (Ok tt, w') ∧ w_answers w' = w_answers w ∧
    mq_published (mq_of w') = mq_published b ∧ mq_client_tool (mq_of w') = mq_client_tool (record_mq cw c t b) ∧
    (ct_timeout_executor t = false → ct_timers <$> mq_client_tool (mq_of w') = Some (ct_timers t)).
Proof using Hcb Hreq Hcache Halloc.
  intros b func ty topic kvs Hi Hc Hst Ht Hid Hmax Hsv Hty Hto Hser Hn Hsz Hrec Hk.
  pose proof (mq_Invoke_eq w Hi Hc Hst Ht Hid Hmax) as Hinv.
  unfold mqtt_invoke_effect in Hinv. fold b func ty topic in Hinv. rewrite Hsv in Hinv.
  destruct (Z.ltb_spec 255 (str_size ty)); [lia|]. destruct (Z.ltb_spec 255 (str_size topic)); [lia|]. cbn [orb] in Hinv.
  rewrite Hser in Hinv. unfold sent_effect in Hinv. fold func topic kvs in Hinv.
  destruct (Z.ltb_spec 255 (Z.of_nat (length kvs))); [lia|].
  destruct (Z.ltb_spec (max_pkg_size b) (req_pkg_size ty topic kvs data)); [lia|]. rewrite Hrec in Hinv.
  rewrite decide_False in Hinv by done. eexists. split; [exact Hinv|]. split; [done|]. rewrite mq_of_with.
  split; [done|]. split; [done|]. intros Hex. cbn. by rewrite Hex.
Qed.
End Branches.

(** ** A request at the server *)

Lemma set_metas_run id kvs : ∀ c w, w_ctxs w !! id = Some c →
  mapM_ (λ kv, update_rctx id (rc_SetMetaValue kv.1 kv.2)) kvs w =
  (Ok tt, set_ctx id (mkRpcContext (foldl (λ a kv, <[kv.1 := kv.2]> a) (rc_meta_data_map c) kvs) (timeout_ns c)
                        (rc_used c) (rc_type c)) w).
Proof.
  induction kvs as [|[k v] kvs IH]; intros c w Hc; cbn [mapM_ foldl].
  - destruct w, c; unfold set_ctx; cbn in *. by rewrite insert_id.
  - unfold_monad. rewrite (update_rctx_eq _ _ _ _ Hc).
    rewrite (IH (rc_SetMetaValue k v c)) by apply set_ctx_lookup. by rewrite set_ctx_twice.
Qed.

Lemma new_rctx_eq ty w :
  new_rctx ty w = (Ok (fresh (dom (w_ctxs w))), set_ctx (fresh (dom (w_ctxs w))) (RpcContext_new ty) w).
Proof. done. Qed.

Lemma new_obj_eq m w :
  new_obj m w = (Ok (fresh (dom (w_objs w))), set_w_objs (<[fresh (dom (w_objs w)) := m]> (w_objs w)) w).
Proof. done. Qed.

(** The context a service is called with. *)
Definition served_ctx (func ty : string) (metas : gmap string string) : RpcContext :=
  mkRpcContext (<[KEY_BACKEND := "mqtt"]> (<[KEY_FUNCTION_NAME := func]> (metas ∪ {[KEY_SERIALIZATION_TYPE := ty]})))
    0 false AIMRT_RPC_SERVER_CONTEXT.

Definition serve_effect (qos : Z) (info : FuncInfo Msg) (ty topic : string) (req_id : Z) (metas : gmap string string)
    (req : Msg) v : World Msg X :=
  let ctx_id := fresh (dom (w_ctxs v)) in
  let rsp := fresh (dom (w_objs v)) in
  let b := mq_of v in
  let sw := fresh (dom (mq_services b)) in
  with_mq (mq_set_services
      (<[sw := mkInvokeWrapper info (Some req) (Some rsp) ctx_id (Some (mkMqttReply qos ty topic (le_bytes 4 req_id))) ∅ ∅]>
         (mq_services b)) (mq_calls b ++ [sw]) b)
    (set_w_objs (<[rsp := Create (rsp_type_support_ref info)]> (w_objs v))
      (set_ctx ctx_id (served_ctx (func_name info) ty metas) v)).

Lemma serve_eq qos info ty topic req_id (metas : gmap string string) data req v :
  let kvs := map_order metas in
  str_size ty ≤ 255 → str_size topic ≤ 255 → in_width 32 req_id → Z.of_nat (length kvs) ≤ 255 → Forall kv_ok kvs →
  req_pkg_size ty topic kvs data < 2 ^ 63 → Deserialize (req_type_support_ref info) ty [concat data] = Some req →
  serve Create little alloc qos info (encode_all (req_fields ty topic req_id kvs data)) v =
    (Ok tt, serve_effect qos info ty topic req_id metas req v).
Proof using Halloc.
  intros kvs Hty Hto Hid Hn Hk Hsz Hd.
  assert (Z.of_nat (length (encode_all (req_fields ty topic req_id kvs data))) = req_pkg_size ty topic kvs data) as Hl.
  { rewrite <-req_rooms with (req_id := req_id). apply encode_rooms.
    constructor; [by apply str8_ok|]. constructor; [by apply str8_ok|]. constructor; [done|]. by apply metas_data_ok. }
  pose proof (req_pkg_size_pos ty topic kvs data).
  set (payload := encode_all _) in *.
  pose proof (Halloc (Z.of_nat (length payload)) ltac:(lia)) as Hat.
  destruct (reader_start _ _ Hat) as [Hwf Hr].
  pose proof (parse_req_ok little ty topic req_id kvs data _ Hty Hto Hn Hk Hwf Hr) as Hp.
  unfold serve, try_catch, mbind, M_bind, lift, read. rewrite new_rctx_eq, Hp. set (ctx_id := fresh (dom (w_ctxs v))).
  rewrite (update_rctx_eq _ _ _ _ (set_ctx_lookup _ _ _)), set_ctx_twice.
  rewrite (set_metas_run _ _ _ _ (set_ctx_lookup _ _ _)), set_ctx_twice.
  do 2 (rewrite (update_rctx_eq _ _ _ _ (set_ctx_lookup _ _ _)), set_ctx_twice).
  rewrite Hd, new_obj_eq, on_mq_modify. unfold serve_effect. f_equal. cbn [rc_meta_data_map rc_SetMetaValue RpcContext_new].
  subst kvs. rewrite insert_map_order. rewrite insert_empty. done.
Qed.

(** ** A response *)

(** The serialized form of a service's response. *)
Definition mqtt_response_form (j : InvokeWrapper Msg MqttReply) (ty : string) (m : Msg) : option BufferArrayView :=
  match rsp_serialization_cache j !! ty with
  | Some b => Some b
  | None => Serialize (rsp_type_support_ref (iw_info j)) ty m
  end.

(** The status and the message that a callback called with [status] sends. *)
Definition answered_with (max : Z) (j : InvokeWrapper Msg MqttReply) (ty : string) (m : Msg) (status : Z) : Z * list bytes :=
  if negb (status_OK status) then (status, [])
  else
    match mqtt_response_form j ty m with
    | None => (STATUS_SVR_SERIALIZATION_FAILED, [])
    | Some data => if max <? rsp_pkg_size ty data then (STATUS_SVR_UNKNOWN, []) else (0, data)
    end.

Lemma ReturnRsp_eq r code v :
  str_size (mr_serialization_type r) ≤ 255 → length (mr_req_id_buf r) = 4%nat → in_width 32 code →
  ReturnRspWithStatusCode little alloc r code v =
    (Ok tt, with_mq (publish (mr_mqtt_pub_topic r) (mr_qos r)
       (encode_all (rsp_fields (mr_serialization_type r) (mr_req_id_buf r) code []))
       (mq_of v)) v).
Proof using Halloc.
  intros Hty Hb Hc. unfold ReturnRspWithStatusCode, mbind, M_bind.
  rewrite pack_rsp_eq; [|done..|].
  - unfold lift, sendMessage. by rewrite on_mq_modify.
  - apply Halloc. unfold rsp_pkg_size, BufferSize, str_size in *. cbn. lia.
Qed.

Lemma mqtt_reply_publishes sw j r m status v :
  mq_services (mq_of v) !! sw = Some j → iw_callback j = Some r → obj_at v (iw_rsp j) = Some m →
  str_size (mr_serialization_type r) ≤ 255 → length (mr_req_id_buf r) = 4%nat → in_width 32 status →
  max_pkg_size (mq_of v) < 2 ^ 63 →
  let a := answered_with (max_pkg_size (mq_of v)) j (mr_serialization_type r) m status in
  ∃ v', mqtt_reply sw status v = (Ok tt, v') ∧
    mq_published (mq_of v') = mq_published (mq_of v) ++ [mkMqttMsg (mr_mqtt_pub_topic r) (mr_qos r)
      (encode_all (rsp_fields (mr_serialization_type r) (mr_req_id_buf r) a.1 a.2))].
Proof using Halloc.
  intros Hj Hr Hm Hty Hb Hst Hmax. unfold MqttRpc.mqtt_reply, answered_with, mbind at 1, M_bind at 1, get at 1.
  unfold mq_of in Hj. rewrite Hj, Hr. destruct (status_OK status) eqn:Hok; cbn [negb].
  2: { rewrite ReturnRsp_eq by done. eexists. split; [done|]. by rewrite mq_of_with. }
  set (ty := mr_serialization_type r) in *. rewrite Hm.
  assert (∀ v1, ReturnRspWithStatusCode little alloc r STATUS_SVR_SERIALIZATION_FAILED v1 = _) as Hser
    by (intros v1; by apply ReturnRsp_eq).
  unfold TrySerializeRspWithCache, SerializeRspWithCache, mqtt_response_form. unfold_monad. fold ty in Hser.
  set (form := rsp_serialization_cache j !! ty).
  assert (∀ j' data, ∃ v',
    (on_mq (modify (λ b, mq_set_services (<[sw := j']> (mq_services b)) (mq_calls b) b));;
     b ← on_mq get;
     if max_pkg_size b <? rsp_pkg_size ty data then ReturnRspWithStatusCode little alloc r STATUS_SVR_UNKNOWN
     else
       payload ← lift (pack_rsp little (alloc (rsp_pkg_size ty data)) ty (mr_req_id_buf r) 0 data);
       sendMessage (mr_mqtt_pub_topic r) (mr_qos r) payload) v = (Ok tt, v') ∧
    let a := if max_pkg_size (mq_of v) <? rsp_pkg_size ty data then (STATUS_SVR_UNKNOWN, []) else (0, data) in
    mq_published (mq_of v') = mq_published (mq_of v) ++ [mkMqttMsg (mr_mqtt_pub_topic r) (mr_qos r)
      (encode_all (rsp_fields ty (mr_req_id_buf r) a.1 a.2))]) as Hsend.
  { intros j' data. unfold mbind, M_bind. rewrite on_mq_modify. set (v1 := with_mq _ v). rewrite on_mq_get.
    assert (max_pkg_size (mq_of v1) = max_pkg_size (mq_of v)) as -> by (unfold v1; by rewrite mq_of_with).
    assert (mq_published (mq_of v1) = mq_published (mq_of v)) as Hpub by (unfold v1; by rewrite mq_of_with).
    destruct (Z.ltb_spec (max_pkg_size (mq_of v)) (rsp_pkg_size ty data)).
    - rewrite ReturnRsp_eq by done. eexists. split; [done|]. rewrite mq_of_with. cbn. by rewrite Hpub.
    - assert (0 ≤ rsp_pkg_size ty data) by (unfold rsp_pkg_size, str_size, BufferSize; lia).
      rewrite pack_rsp_eq; [|done..|apply Halloc; lia]. unfold lift, sendMessage. rewrite on_mq_modify.
      eexists. split; [done|]. rewrite mq_of_with. cbn. by rewrite Hpub. }
  destruct form as [data|].
  - destruct (Hsend j data) as (v' & Hv' & Hp). exists v'. split; [exact Hv'|].
    cbn zeta in Hp. destruct (max_pkg_size (mq_of v) <? rsp_pkg_size ty data); exact Hp.
  - destruct (Serialize _ ty m) as [data|]; cbn.
    + destruct (Hsend (set_rsp_cache (emplace_cache ty data (rsp_serialization_cache j)) j) data) as (v' & Hv' & Hp).
      exists v'. split; [exact Hv'|].
      cbn zeta in Hp. destruct (max_pkg_size (mq_of v) <? rsp_pkg_size ty data); exact Hp.
    + rewrite ReturnRsp_eq by done. eexists. split; [done|]. by rewrite mq_of_with.
Qed.

(** What the client's handler does with a response to a recorded call. *)
Definition take_effect (cw : nat) (i : InvokeWrapper Msg ClientCb) (call a : nat) (id : Z) (t : RpcClientTool nat)
    (ty : string) (code : Z) (data : list bytes) w : World Msg X :=
  let w1 := with_mq (mq_set_tool (Some (drop_record id t)) (mq_of w)) w in
  if negb (code =? 0) then refuse cw i call code w1
  else
    match Deserialize (rsp_type_support_ref (iw_info i)) ty [concat data] with
    | None => refuse cw i call STATUS_CLI_DESERIALIZATION_FAILED w1
    | Some m' => refuse cw i call STATUS_OK (set_w_objs (<[a := m']> (w_objs w1)) w1)
    end.

Lemma length_rsp ty id_buf code data :
  str_size ty ≤ 255 → length id_buf = 4%nat → in_width 32 code →
  Z.of_nat (length (encode_all (rsp_fields ty id_buf code data))) = rsp_pkg_size ty data.
Proof.
  intros Hty Hb Hc. rewrite encode_rooms.
  - unfold rsp_fields, rsp_pkg_size, rooms. cbn [foldr field_room len_type_size]. fold (rooms (data_calls data)).
    rewrite rooms_data. fold (str_size ty). change (Z.of_nat (length (encode (FU32 code)))) with 4. cbn [encode]. lia.
  - constructor; [by apply str8_ok|]. constructor; [done|]. constructor; [done|]. apply data_calls_ok.
Qed.

Lemma take_rsp_eq cw i call a id t ty code data w :
  mq_client_tool (mq_of w) = Some t → client_msg_recorder_map t !! id = Some cw →
  w_clients w !! cw = Some i → iw_callback i = Some (Answer call) → iw_rsp i = Some a →
  str_size ty ≤ 255 → in_width 32 id → in_width 32 code → rsp_pkg_size ty data < 2 ^ 63 →
  take_rsp user_client_hook little alloc (encode_all (rsp_fields ty (le_bytes 4 id) code data)) w =
    (Ok tt, take_effect cw i call a id t ty code data w).
Proof using Halloc.
  intros Ht Hid Hi Hcb Ha Hty Hiw Hcw Hsz. pose proof (length_rsp ty (le_bytes 4 id) code data Hty eq_refl Hcw) as Hl.
  set (payload := encode_all _) in *. pose proof (Halloc (Z.of_nat (length payload)) ltac:(lia)) as Hat.
  destruct (reader_start _ _ Hat) as [Hwf Hr].
  destruct (parse_rsp_ok little ty id code data _ Hty Hiw Hcw Hwf Hr) as (s' & Hhead & Hrest).
  unfold take_rsp, mbind at 1, M_bind at 1, try_catch at 1. rewrite Hhead. unfold mbind, M_bind, lift.
  rewrite (on_mq_eq _ w (Ok (Some cw)) (mq_set_tool (Some (drop_record id t)) (mq_of w))).
  2: { unfold on_mq_tool. rewrite Ht. unfold GetRecord. unfold_monad. by rewrite Hid. }
  cbn [mret M_ret]. unfold take_effect. set (w1 := with_mq _ w). unfold mret, M_ret, try_catch.
  destruct (code =? 0); cbn [negb]; [|by rewrite (InvokeCallBack_eq _ _ w1 _ _ _ Hi Hcb)].
  rewrite (on_client_get _ w1 _ Hi), Hrest.
  destruct (Deserialize _ ty [concat data]) as [m'|]; [|by rewrite (InvokeCallBack_eq _ _ w1 _ _ _ Hi Hcb)].
  rewrite Ha. cbn [write_obj]. unfold modify. by rewrite (InvokeCallBack_eq _ _ (set_w_objs _ w1) _ _ _ Hi Hcb).
Qed.

(** C7: A request reaches the service.  Let the client's call have passed its
    checks, and let another process [v] have a handler for a service on the topic
    the call is published on, whose type support reads the serialized request as
    [req].  Then the call publishes one message and is not answered; and
    delivered to that process, the message calls the service, once, with the
    request [req], all of the metadata of the caller's context (with the function
    and the backend overwritten), and a callback that will respond to the
    caller's own topic with the caller's number and serialization type. *)
Theorem mqtt_request_reaches_service w v cw i call c m t server (qos qos' : Z) info req data :
  let b := mq_of w in
  let func := func_name (iw_info i) in
  let ty := rc_GetSerializationType c in
  let topic := rsp_topic (client_id b) func in
  let kvs := map_order (rc_meta_data_map (signed_ctx b c)) in
  w_clients w !! cw = Some i → w_ctxs w !! iw_ctx i = Some c → iw_callback i = Some (Answer call) →
  iw_req i = Some m → req_serialization_cache i = ∅ →
  mq_state b = kStart → mq_client_tool b = Some t → in_width 32 (mq_req_id b) → max_pkg_size b < 2 ^ 63 →
  server_of_addr (rc_GetMetaValue c KEY_TO_ADDR) (call_cfg b func).1 = Some server → (call_cfg b func).2 = qos →
  str_size ty ≤ 255 → str_size topic ≤ 255 → Serialize (req_type_support_ref (iw_info i)) ty m = Some data →
  Z.of_nat (length kvs) ≤ 255 → Forall kv_ok kvs → req_pkg_size ty topic kvs data ≤ max_pkg_size b →
  client_msg_recorder_map t !! mq_req_id b = None →
  shutdown_flag (msg_handle_registry (mq_of v)) = false → has_executor (msg_handle_registry (mq_of v)) = false →
  msg_handle_map (msg_handle_registry (mq_of v)) !! req_topic server func = Some (ServeReq qos' info) →
  Deserialize (req_type_support_ref info) ty [concat data] = Some req →
  ∃ w' payload v' sw rsp ctx,
    mq_Invoke cw w = (Ok tt, w') ∧ w_answers w' = w_answers w ∧
    mq_published (mq_of w') = mq_published b ++ [mkMqttMsg (req_topic server func) qos payload] ∧
    mq_receive (req_topic server func) payload v = (Ok tt, v') ∧
    mq_calls (mq_of v') = mq_calls (mq_of v) ++ [sw] ∧
    mq_services (mq_of v') !! sw =
      Some (mkInvokeWrapper info (Some req) (Some rsp) ctx (Some (mkMqttReply qos' ty topic (le_bytes 4 (mq_req_id b)))) ∅ ∅) ∧
    w_ctxs v' !! ctx = Some (served_ctx (func_name info) ty (rc_meta_data_map (signed_ctx b c))).
Proof using Halloc.
  intros b func ty topic kvs Hi Hc Hcb Hreq Hcache Hst Ht Hid Hmax Hsv <- Hty Hto Hser Hn Hk Hsz Hrec Hsh Hex Hh Hd.
  pose proof (mq_Invoke_eq cw i call c m t Hcb Hreq Hcache w Hi Hc Hst Ht Hid Hmax) as Hinv.
  unfold mqtt_invoke_effect in Hinv. fold b func ty topic in Hinv. rewrite Hsv in Hinv.
  destruct (Z.ltb_spec 255 (str_size ty)); [lia|]. destruct (Z.ltb_spec 255 (str_size topic)); [lia|]. cbn [orb] in Hinv.
  rewrite Hser in Hinv. unfold sent_effect in Hinv. fold func topic kvs in Hinv.
  destruct (Z.ltb_spec 255 (Z.of_nat (length kvs))); [lia|].
  destruct (Z.ltb_spec (max_pkg_size b) (req_pkg_size ty topic kvs data)); [lia|]. rewrite Hrec in Hinv.
  rewrite decide_True in Hinv by done. do 6 eexists. split; [exact Hinv|]. split; [done|]. rewrite mq_of_with.
  split; [reflexivity|]. unfold MqttRpc.mq_receive, HandleServerMsg, mbind at 1, M_bind at 1, get, mq_registry. unfold mq_of in Hsh, Hex, Hh. rewrite Hsh.
  assert (req_pkg_size ty topic kvs data < 2 ^ 63) as Hsz' by lia.
  pose proof (serve_eq qos' info ty topic (mq_req_id b) _ data req v Hty Hto Hid Hn Hk Hsz' Hd) as Hserve.
  cbn zeta in Hserve. fold kvs in Hserve. unfold try_catch. rewrite Hh, Hex. unfold mq_handler. rewrite Hserve.
  split; [reflexivity|]. unfold serve_effect. rewrite mq_of_with. split; [reflexivity|].
  split; [apply lookup_insert_eq|]. apply lookup_insert_eq.
Qed.

(** C8: A response answers the call.  When the service of the wrapper [sw]
    calls its callback with a status, the process publishes one message, on the
    topic the request asked for.  Delivered to the process that recorded the
    number, it answers the call, once, and the record is gone: with that status
    if it is not OK; otherwise with OK, the response being what the client's type
    support reads from the serialized response, or with the failure that
    prevented it (serialization, size, deserialization). *)
Theorem mqtt_response_answers_call w v sw j r m (status : Z) cw i call a id t :
  mq_services (mq_of v) !! sw = Some j → iw_callback j = Some r → obj_at v (iw_rsp j) = Some m →
  str_size (mr_serialization_type r) ≤ 255 → mr_req_id_buf r = le_bytes 4 id → in_width 32 id → in_width 32 status →
  max_pkg_size (mq_of v) < 2 ^ 63 →
  mq_client_tool (mq_of w) = Some t → client_msg_recorder_map t !! id = Some cw →
  w_clients w !! cw = Some i → iw_callback i = Some (Answer call) → iw_rsp i = Some a →
  shutdown_flag (msg_handle_registry (mq_of w)) = false → has_executor (msg_handle_registry (mq_of w)) = false →
  msg_handle_map (msg_handle_registry (mq_of w)) !! mr_mqtt_pub_topic r = Some TakeRsp →
  let '(code, data) := answered_with (max_pkg_size (mq_of v)) j (mr_serialization_type r) m status in
  ∃ v' payload w' final,
    mqtt_reply sw status v = (Ok tt, v') ∧
    mq_published (mq_of v') = mq_published (mq_of v) ++ [mkMqttMsg (mr_mqtt_pub_topic r) (mr_qos r) payload] ∧
    mq_receive (mr_mqtt_pub_topic r) payload w = (Ok tt, w') ∧
    w_answers w' = w_answers w ++ [(call, final)] ∧ mq_client_tool (mq_of w') = Some (drop_record id t) ∧
    match Deserialize (rsp_type_support_ref (iw_info i)) (mr_serialization_type r) [concat data] with
    | Some m' => final = code ∧ (code = STATUS_OK → w_objs w' !! a = Some m')
    | None => final = if code =? 0 then STATUS_CLI_DESERIALIZATION_FAILED else code
    end.
Proof using Halloc.
  intros Hj Hr Hm Hty Hbuf Hiw Hstw Hmax Ht Hid Hi Hcb Ha Hsh Hex Hh.
  destruct (mqtt_reply_publishes sw j r m status v Hj Hr Hm Hty ltac:(by rewrite Hbuf) Hstw Hmax) as (v' & Hv' & Hpub).
  assert (let a := answered_with (max_pkg_size (mq_of v)) j (mr_serialization_type r) m status in
    in_width 32 a.1 ∧ rsp_pkg_size (mr_serialization_type r) a.2 < 2 ^ 63) as [Hcw Hsz].
  { assert (rsp_pkg_size (mr_serialization_type r) [] < 2 ^ 63) by (unfold rsp_pkg_size, BufferSize; cbn; lia).
    unfold answered_with. destruct (negb _); [done|]. destruct (mqtt_response_form _ _ _) as [data|]; [|by split].
    destruct (Z.ltb_spec (max_pkg_size (mq_of v)) (rsp_pkg_size (mr_serialization_type r) data)); [by split|].
    split; [done|]. cbn. lia. }
  cbn zeta in Hpub. destruct (answered_with _ _ _ _ _) as [code data]. cbn [fst snd] in *. rewrite Hbuf in Hpub.
  pose proof (take_rsp_eq cw i call a id t _ code data w Ht Hid Hi Hcb Ha Hty Hiw Hcw Hsz) as Htake.
  exists v', (encode_all (rsp_fields (mr_serialization_type r) (le_bytes 4 id) code data)), (take_effect cw i call a id t (mr_serialization_type r) code data w),
    (if code =? 0 then match Deserialize (rsp_type_support_ref (iw_info i)) (mr_serialization_type r) [concat data] with
                       | Some _ => STATUS_OK | None => STATUS_CLI_DESERIALIZATION_FAILED end else code).
  split; [exact Hv'|]. split; [exact Hpub|]. split.
  { unfold MqttRpc.mq_receive, HandleServerMsg, mbind at 1, M_bind at 1, get, mq_registry. unfold mq_of in Hsh, Hex, Hh. rewrite Hsh. unfold try_catch. rewrite Hh, Hex. unfold mq_handler. by rewrite Htake. }
  unfold take_effect. destruct (Z.eqb_spec code 0) as [->|Hne]; cbn [negb].
  - destruct (Deserialize _ _ _) as [m'|].
    + split; [done|]. split; [exact (f_equal mq_client_tool (mq_of_with _ w))|]. split; [done|]. intros _. apply lookup_insert_eq.
    + split; [done|]. split; [exact (f_equal mq_client_tool (mq_of_with _ w))|]. done.
  - split; [done|]. split; [exact (f_equal mq_client_tool (mq_of_with _ w))|].
    destruct (Deserialize _ _ _) as [m'|]; [|done]. split; [done|]. by intros ->.
Qed.
End Spec.

(** * Topics *)

Lemma shared_topic_inj f f' :
  shared_req_topic f = shared_req_topic f' → GetFuncNameWithoutPrefix f = GetFuncNameWithoutPrefix f'.
Proof.
  intros Heq. apply (f_equal lit) in Heq. unfold shared_req_topic in Heq. rewrite !lit_app, !lit_url_encode in Heq.
  apply app_inv_head in Heq. by apply UrlEncode_inj.
Qed.

Lemma shared_not_own f id f' : shared_req_topic f ≠ own_req_topic id f'.
Proof.
  intros Heq. apply (f_equal lit) in Heq. unfold shared_req_topic, own_req_topic in Heq.
  rewrite !lit_app, !lit_url_encode in Heq. apply app_inv_head in Heq.
  apply (slash_not_encoded (lit (GetFuncNameWithoutPrefix f))). rewrite Heq.
  apply elem_of_app. right. apply list_elem_of_here.
Qed.

Lemma req_not_rsp server f id f' : req_topic server f ≠ rsp_topic id f'.
Proof.
  unfold req_topic, shared_req_topic, own_req_topic, rsp_topic. by destruct (String.eqb server "").
Qed.

Lemma req_topic_shared server f f' :
  req_topic server f = shared_req_topic f' → GetFuncNameWithoutPrefix f' = GetFuncNameWithoutPrefix f ∧ server = "".
Proof.
  unfold req_topic. destruct (String.eqb_spec server "") as [->|Hne]; intros Heq.
  - split; [by apply eq_sym, shared_topic_inj|done].
  - exfalso. by apply (shared_not_own f' server f).
Qed.

Lemma req_topic_own server f id f' :
  req_topic server f = own_req_topic id f' → GetFuncNameWithoutPrefix f' = GetFuncNameWithoutPrefix f ∧ server = id.
Proof.
  unfold req_topic. destruct (String.eqb_spec server "") as [->|Hne]; intros Heq.
  - exfalso. by apply (shared_not_own f id f').
  - by apply id_topic_inj in Heq as [-> ->].
Qed.

(** ** Which handler a request finds *)

Section Routing.
Context {Msg : Type} `{YamlOps node}.
Context (find_executor : string → option bool) (regex_match : string → string → res bool).
Implicit Types b : MqttRpcBackend Msg.

(** The calls that the manager and the plugin make on a backend. *)
Inductive mq_call :=
| McInitialize (n : option node)
| McStart
| McShutdown
| McRegisterGetExecutorFunc (is_set : bool)
| McRegisterServiceFunc (info : FuncInfo Msg)
| McRegisterClientFunc (info : FuncInfo Msg)
| McSubscribe.

Definition run_mq_call (c : mq_call) : M (MqttRpcBackend Msg) bool :=
  match c with
  | McInitialize n => mq_Initialize find_executor n;; mret true
  | McStart => mq_Start;; mret true
  | McShutdown => mq_Shutdown;; mret true
  | McRegisterGetExecutorFunc is_set => mq_RegisterGetExecutorFunc is_set;; mret true
  | McRegisterServiceFunc info => mq_RegisterServiceFunc regex_match info
  | McRegisterClientFunc info => mq_RegisterClientFunc regex_match info
  | McSubscribe => SubscribeMqttTopic;; mret true
  end.

Definition mq_step b b' : Prop := ∃ c r, run_mq_call c b = (r, b').

Abbreviation handles b := (msg_handle_map (msg_handle_registry b)).

Definition handles_ok b : Prop := ∀ topic h, handles b !! topic = Some h →
  match h with
  | ServeReq _ info => topic = shared_req_topic (func_name info) ∨ topic = own_req_topic (client_id b) (func_name info)
  | TakeRsp => ∃ f, topic = rsp_topic (client_id b) f
  end.

(** What a call keeps: the id, and the handlers there are. *)
Record mq_keeps b b' : Prop := {
  mk_id : client_id b' = client_id b;
  mk_handles topic h : handles b !! topic = Some h → handles b' !! topic = Some h;
  mk_ok : handles_ok b → handles_ok b'
}.

Lemma mq_keeps_refl b : mq_keeps b b.
Proof. done. Qed.

Lemma mq_keeps_trans b1 b2 b3 : mq_keeps b1 b2 → mq_keeps b2 b3 → mq_keeps b1 b3.
Proof. intros [I1 H1 O1] [I2 H2 O2]. split; [congruence|eauto|eauto]. Qed.

(** Whatever leaves the id and the registry's map alone. *)
Lemma mq_keeps_frame b b' : client_id b' = client_id b → handles b' = handles b → mq_keeps b b'.
Proof. intros Hid Hh. split; [done|by rewrite Hh|]. unfold handles_ok. by rewrite Hid, Hh. Qed.

Lemma add_handle_keeps sub qos topic h b :
  match h with
  | ServeReq _ info => topic = shared_req_topic (func_name info) ∨ topic = own_req_topic (client_id b) (func_name info)
  | TakeRsp => ∃ f, topic = rsp_topic (client_id b) f
  end →
  mq_keeps b (add_handle sub qos topic h b).2 ∧ is_Some (handles (add_handle sub qos topic h b).2 !! topic).
Proof.
  intros Hh. unfold add_handle, modify. cbn.
  destruct (handles b !! topic) as [h0|] eqn:Ht; [split; [apply mq_keeps_frame; [done|cbn; by rewrite Ht]|by exists h0]|].
  split; [|rewrite lookup_insert_eq; by eexists]. split; [done| |].
  - cbn. rewrite Ht. intros topic' h' Ht'. rewrite lookup_insert_ne; [done|]. congruence.
  - intros Hok topic' h'. cbn. rewrite Ht. destruct (decide (topic = topic')) as [<-|Hne].
    + rewrite lookup_insert_eq. by intros [= <-].
    + rewrite lookup_insert_ne by done. apply Hok.
Qed.

Lemma register_service_keeps info b r b' :
  mq_RegisterServiceFunc regex_match info b = (r, b') →
  mq_keeps b b' ∧ (r = Ok true → is_Some (handles b' !! own_req_topic (client_id b') (func_name info))).
Proof.
  unfold mq_RegisterServiceFunc, mbind at 1, M_bind at 1, get. destruct (negb _); [by intros [= <- <-]|]. cbn zeta.
  set (allow := match _ with Some o => mso_allow_share o | None => true end).
  set (qos := match _ with Some o => mso_qos o | None => 2 end). clearbody allow qos.
  set (b1 := if allow then (add_handle ("$share/aimrt/" ++ shared_req_topic (func_name info))%string qos
                              (shared_req_topic (func_name info)) (ServeReq qos info) b).2 else b).
  assert (mq_keeps b b1) as Hk1.
  { unfold b1. destruct allow; [|apply mq_keeps_refl]. apply add_handle_keeps. by left. }
  pose proof (mk_id _ _ Hk1) as Hid.
  destruct (add_handle_keeps (own_req_topic (client_id b) (func_name info)) qos
    (own_req_topic (client_id b) (func_name info)) (ServeReq qos info) b1) as [Hk2 Hsome];
    [rewrite Hid; by right|].
  intros Hrun. assert (r = Ok true ∧ b' = (add_handle (own_req_topic (client_id b) (func_name info)) qos
    (own_req_topic (client_id b) (func_name info)) (ServeReq qos info) b1).2) as [-> ->].
  { unfold b1. by destruct allow; injection Hrun as <- <-. }
  split; [by eapply mq_keeps_trans|]. intros _. by rewrite (mk_id _ _ Hk2), Hid.
Qed.

Lemma register_client_keeps info b r b' :
  mq_RegisterClientFunc regex_match info b = (r, b') → mq_keeps b b'.
Proof.
  unfold mq_RegisterClientFunc, mbind at 1, M_bind at 1, get. destruct (negb _); [by intros [= <- <-]|]. cbn zeta.
  set (qos := match _ with Some o => mco_qos o | None => 2 end).
  set (server := match _ with Some o => mco_server_mqtt_id o | None => "" end). clearbody qos server.
  unfold mbind at 1, M_bind at 1, modify at 1. set (b1 := mq_set_cfg _ b).
  destruct (255 <? _).
  - intros [= <- <-]. by apply mq_keeps_frame.
  - destruct (add_handle_keeps (rsp_topic (client_id b) (func_name info)) qos (rsp_topic (client_id b) (func_name info))
      TakeRsp b1) as [Hk _]; [by eexists|]. intros [= <- <-].
    eapply mq_keeps_trans; [|exact Hk]. by apply mq_keeps_frame.
Qed.

(** What leaves alone the id and the map, by the runs of a call's parts. *)
Definition framed {A} (m : M (MqttRpcBackend Msg) A) : Prop :=
  ∀ b r b', m b = (r, b') → client_id b' = client_id b ∧ handles b' = handles b.

Lemma framed_bind {A B} (m : M (MqttRpcBackend Msg) A) (f : A → M (MqttRpcBackend Msg) B) :
  framed m → (∀ a, framed (f a)) → framed (m ≫= f).
Proof.
  intros Hm Hf b r b' Hrun. unfold mbind, M_bind in Hrun. destruct (m b) as [[a|e|] b1] eqn:Hb; apply Hm in Hb as [I1 H1].
  - apply Hf in Hrun as [I2 H2]. split; congruence.
  - by injection Hrun as _ <-.
  - by injection Hrun as _ <-.
Qed.

Lemma framed_simple {A} (m : M (MqttRpcBackend Msg) A) :
  (∀ b, client_id (m b).2 = client_id b ∧ handles (m b).2 = handles b) → framed m.
Proof. intros Hm b r b' Hrun. specialize (Hm b). by rewrite Hrun in Hm. Qed.

Ltac framed_tac := apply framed_simple; intros ?; first [done | by split].

Lemma run_mq_call_keeps c b r b' : run_mq_call c b = (r, b') → mq_keeps b b'.
Proof.
  assert (∀ new old what, framed (mq_exchange new old what)) as Hex.
  { intros new old what. apply framed_simple. intros b0. unfold mq_exchange, check_throw. unfold_monad.
    by destruct (state_eqb _ _). }
  assert (∀ A (m : M (RpcClientTool nat) A), framed (on_mq_tool m)) as Htool.
  { intros A m. apply framed_simple. intros b0. unfold on_mq_tool. destruct (mq_client_tool b0) as [t|]; [|done].
    by destruct (m t). }
  assert (framed (run_mq_call c) → run_mq_call c b = (r, b') → mq_keeps b b') as Hframe.
  { intros Hf Hrun. apply Hf in Hrun as [Hid Hh]. by apply mq_keeps_frame. }
  destruct c as [n| | |is_set|info|info|]; intros Hrun; [|apply Hframe; [|done]..| | |apply Hframe; [|done]].
  - apply Hframe; [|done]. apply framed_bind; [|intros; framed_tac].
    apply framed_bind; [apply Hex|intros _]. apply framed_bind; [intros; framed_tac|intros o].
    apply framed_bind; [intros; framed_tac|intros _]. apply framed_bind; [intros; framed_tac|intros b0].
    cbn zeta. destruct (String.eqb _ _); [intros; framed_tac|].
    apply framed_bind; [apply framed_simple; intros; unfold check_throw; by destruct (mq_has_get_executor_func b0)|intros _].
    destruct (find_executor _); [|framed_tac]. apply framed_bind; [apply Htool|intros _; apply Htool].
  - apply framed_bind; [apply Hex|intros; framed_tac].
  - apply framed_bind; [|intros; framed_tac]. unfold mq_Shutdown.
    apply framed_bind; [framed_tac|intros b0]. apply framed_bind; [framed_tac|intros _].
    destruct (state_eqb _ _); framed_tac.
  - apply framed_bind; [|intros; framed_tac]. unfold mq_RegisterGetExecutorFunc.
    apply framed_bind; [framed_tac|intros b0]. apply framed_bind; [|intros; framed_tac].
    apply framed_simple. intros b1. unfold check_throw. by destruct (state_eqb _ _).
  - by eapply register_service_keeps.
  - by eapply register_client_keeps.
  - framed_tac.
Qed.

Lemma mq_steps_keep b b' : rtc mq_step b b' → mq_keeps b b'.
Proof.
  induction 1 as [b|b b1 b' (c & r & Hrun) _ IH]; [apply mq_keeps_refl|].
  eapply mq_keeps_trans; [|exact IH]. by eapply run_mq_call_keeps.
Qed.

(** A request finds a handler of its function, and no other.  In every
    state that calls on a new backend lead to: the handler found on the topic of
    a request is that of a service whose name, without prefix, is the request's;
    and if the request is for a server id, it is this one.  A service that was
    registered with success has a handler on the topic of its own server from
    then on. *)
Theorem requests_find_their_service id max b :
  rtc mq_step (MqttRpcBackend_new id max) b →
  (∀ server func h, handles b !! req_topic server func = Some h →
     ∃ qos info, h = ServeReq qos info ∧
       GetFuncNameWithoutPrefix (func_name info) = GetFuncNameWithoutPrefix func ∧ (server = "" ∨ server = id)) ∧
  (∀ info b1 b2, rtc mq_step (MqttRpcBackend_new id max) b1 → run_mq_call (McRegisterServiceFunc info) b1 = (Ok true, b2) →
     rtc mq_step b2 b → is_Some (handles b !! own_req_topic id (func_name info))).
Proof.
  intros Hb. pose proof (mq_steps_keep _ _ Hb) as [Hid _ Hok]. cbn in Hid. split.
  - intros server func h Hh. specialize (Hok ltac:(intros topic h' Hlook; cbn in Hlook; by rewrite lookup_empty in Hlook) _ _ Hh).
    destruct h as [qos info|].
    + exists qos, info. split; [done|]. rewrite Hid in Hok.
      destruct Hok as [[-> ->]%req_topic_shared|[-> ->]%req_topic_own]; auto.
    + destruct Hok as [f Hf]. by apply req_not_rsp in Hf.
  - intros info b1 b2 Hb1 Hrun Hb2. destruct (register_service_keeps _ _ _ _ Hrun) as [_ Hsome].
    specialize (Hsome eq_refl) as [h Hh]. pose proof (mq_steps_keep _ _ Hb2) as [Hid2 Hkeep _].
    rewrite <-Hid, Hid2. exists h. by apply Hkeep.
Qed.
End Routing.

(** ** Two processes *)

Module MqttDemo.
Import ChannelDemo.

#[export] Instance demo_has : HasMqtt bytes (MqttRpcBackend bytes) := {
  mq b := b; set_mq b _ := b;
  mq_set_mq _ _ := eq_refl; set_mq_mq _ := eq_refl; set_mq_set_mq _ _ _ := eq_refl
}.
#[export] Existing Instance plain_order.

Abbreviation Wd := (World bytes (MqttRpcBackend bytes)).
Definition alloc (n : Z) : Z := 4096.
Lemma alloc_ok n : 0 ≤ n < 2 ^ 63 → at_address (alloc n) n.
Proof. unfold at_address, alloc. lia. Qed.

Definition hook : nat → nat → Z → M Wd unit := λ _ _ _, mret tt.
Definition create : TypeSupport bytes → bytes := λ _, lit "reply".
Definition no_regex (pattern func : string) : res bool := Ok (String.eqb pattern func).
Definition no_executor (name : string) : option bool := None.

Definition service_info : FuncInfo bytes := mkFuncInfo "pb:/pkg.Svc/Get" "srv" "mod" 1 demo_ts demo_ts.
Definition client_info : FuncInfo bytes := mkFuncInfo "pb:/pkg.Svc/Get" "cli" "mod" 1 demo_ts demo_ts.

Abbreviation call_of := (mq_call (Msg := bytes) (node := tree)).
Fixpoint run_all (cs : list call_of) (b : MqttRpcBackend bytes) : MqttRpcBackend bytes :=
  match cs with [] => b | c :: cs' => run_all cs' (run_mq_call no_executor no_regex c b).2 end.

Lemma run_all_steps cs b : rtc (mq_step (node := tree) no_executor no_regex) b (run_all cs b).
Proof.
  revert b; induction cs as [|c cs IH]; intros b; [apply rtc_refl|].
  eapply rtc_l, IH. exists c, (run_mq_call no_executor no_regex c b).1. apply surjective_pairing.
Qed.

Definition client_backend : MqttRpcBackend bytes :=
  run_all [McInitialize None; McRegisterClientFunc client_info; McStart; McSubscribe] (MqttRpcBackend_new "a/b" 4096).
Definition initialized : MqttRpcBackend bytes := run_all [McInitialize None] (MqttRpcBackend_new "server" 4096).
Definition registered : MqttRpcBackend bytes := run_all [McRegisterServiceFunc service_info] initialized.
Definition server_backend : MqttRpcBackend bytes := run_all [McStart; McSubscribe] registered.

Definition ctx : RpcContext :=
  rc_SetMetaValue "k" "v" (rc_SetSerializationType "rev" (RpcContext_new AIMRT_RPC_CLIENT_CONTEXT)).
Definition call : InvokeWrapper bytes ClientCb := mkInvokeWrapper client_info (Some demo_msg) (Some 0%nat) 0 (Some (Answer 7)) ∅ ∅.
Definition client : Wd := mkWorld {[0%nat := ctx]} {[0%nat := []]} {[0%nat := call]} ∅ [] [] client_backend.
Definition server : Wd := mkWorld ∅ ∅ ∅ ∅ [] [] server_backend.

Definition called : Wd := (mq_Invoke hook true alloc 0%nat client).2.
Definition request : bytes := default [] (mm_payload <$> last (mq_published (w_rest called))).
Definition topic : string := shared_req_topic "pb:/pkg.Svc/Get".
Definition served : Wd := (mq_receive hook create true alloc topic request server).2.

(** The metadata has a value of 70000 bytes. *)
Definition long_value : string := str (replicate 70000 "x"%char).
Definition long_ctx : RpcContext := rc_SetMetaValue "k" long_value (rc_SetSerializationType "rev" (RpcContext_new AIMRT_RPC_CLIENT_CONTEXT)).
Definition big_client : Wd :=
  mkWorld {[0%nat := long_ctx]} {[0%nat := []]} {[0%nat := call]} ∅ [] [] 
    (run_all [McInitialize None; McRegisterClientFunc client_info; McStart; McSubscribe] (MqttRpcBackend_new "a/b" 1048576)).
End MqttDemo.
Import MqttDemo.

(** ** Witnesses *)

Lemma mqtt_invoke_branches_witness :
  mq_Invoke hook true alloc 0%nat client =
    (Ok tt, mqtt_invoke_effect 0 call 7 ctx ChannelDemo.demo_msg RpcClientTool_new client) ∧
  client_msg_recorder_map <$> mq_client_tool (mq_of (mq_Invoke hook true alloc 0%nat client).2) = Some {[0 := 0%nat]}.
Proof.
  split; [|by vm_compute].
  apply (mqtt_invoke_branches hook true alloc alloc_ok 0 call 7 ctx ChannelDemo.demo_msg RpcClientTool_new eq_refl
    eq_refl eq_refl client); try (by vm_compute); zdec.
Defined.

Lemma long_metadata_never_answered_witness :
  ∃ w', mq_Invoke hook true alloc 0%nat big_client = (Ok tt, w') ∧ w_answers w' = [] ∧ mq_published (mq_of w') = [].
Proof.
  destruct (long_metadata_never_answered hook true alloc alloc_ok 0 call 7 long_ctx ChannelDemo.demo_msg RpcClientTool_new
    eq_refl eq_refl eq_refl big_client "" [lit "olleh"] eq_refl eq_refl ltac:(by vm_compute) ltac:(by vm_compute)
    ltac:(zdec) ltac:(zdec) ltac:(by vm_compute) ltac:(zdec) ltac:(zdec) ltac:(by vm_compute) ltac:(zdec) ltac:(zdec)
    ltac:(by vm_compute)) as (w' & H1 & H2 & H3 & _).
  - intros Hall. rewrite Forall_forall in Hall.
    assert (Exists (λ kv, 2 ^ 16 ≤ str_size kv.2)
      (map_order (rc_meta_data_map (signed_ctx (mq_of big_client) long_ctx)))) as Hex by bdec.
    apply Exists_exists in Hex as (kv & Hin & Hlong). destruct (Hall _ Hin). lia.
  - exists w'. split; [exact H1|]. split; [exact H2|exact H3].
Defined.

Lemma mqtt_request_reaches_service_witness :
  ∃ w' payload v' sw rsp ctx', mq_Invoke hook true alloc 0%nat client = (Ok tt, w') ∧
    mq_published (mq_of w') = [mkMqttMsg topic 2 payload] ∧
    mq_receive hook create true alloc topic payload server = (Ok tt, v') ∧
    mq_calls (mq_of v') = [sw] ∧
    mq_services (mq_of v') !! sw = Some (mkInvokeWrapper service_info (Some ChannelDemo.demo_msg) (Some rsp) ctx'
      (Some (mkMqttReply 2 "rev" "aimrt_rpc_rsp/a%2Fb/%2Fpkg.Svc%2FGet" (le_bytes 4 0))) ∅ ∅).
Proof.
  destruct (mqtt_request_reaches_service hook create true alloc alloc_ok client server 0 call 7 ctx ChannelDemo.demo_msg
    RpcClientTool_new "" 2 2 service_info ChannelDemo.demo_msg [lit "olleh"] eq_refl eq_refl eq_refl eq_refl eq_refl
    ltac:(by vm_compute) ltac:(by vm_compute) ltac:(zdec) ltac:(zdec) ltac:(by vm_compute) ltac:(by vm_compute)
    ltac:(zdec) ltac:(zdec) ltac:(by vm_compute) ltac:(zdec) ltac:(bdec) ltac:(zdec)
    ltac:(by vm_compute) ltac:(by vm_compute) ltac:(by vm_compute) ltac:(by vm_compute) ltac:(by vm_compute))
    as (w' & payload & v' & sw & rsp & ctx' & H1 & _ & H2 & H3 & H4 & H5 & _).
  exists w', payload, v', sw, rsp, ctx'. split; [exact H1|]. split; [exact H2|]. split; [exact H3|].
  split; [exact H4|exact H5].
Defined.

Lemma mqtt_response_answers_call_witness :
  ∃ v' payload w', mqtt_reply true alloc 0%nat 0 served = (Ok tt, v') ∧
    mq_published (mq_of v') = [mkMqttMsg "aimrt_rpc_rsp/a%2Fb/%2Fpkg.Svc%2FGet" 2 payload] ∧
    mq_receive hook create true alloc "aimrt_rpc_rsp/a%2Fb/%2Fpkg.Svc%2FGet" payload called = (Ok tt, w') ∧
    w_answers w' = [(7%nat, 0)] ∧ w_objs w' !! 0%nat = Some (lit "reply").
Proof.
  pose proof (mqtt_response_answers_call hook create true alloc alloc_ok called served 0
    (mkInvokeWrapper service_info (Some ChannelDemo.demo_msg) (Some 0%nat) 0
       (Some (mkMqttReply 2 "rev" "aimrt_rpc_rsp/a%2Fb/%2Fpkg.Svc%2FGet" (le_bytes 4 0))) ∅ ∅)
    (mkMqttReply 2 "rev" "aimrt_rpc_rsp/a%2Fb/%2Fpkg.Svc%2FGet" (le_bytes 4 0)) (lit "reply") 0 0
    (set_req_cache {["rev" := [lit "olleh"]]} call) 7 0 0 (mkTool false false [] {[0 := 0%nat]})
    ltac:(by vm_compute) eq_refl ltac:(by vm_compute) ltac:(zdec) eq_refl ltac:(zdec) ltac:(zdec) ltac:(zdec)
    ltac:(by vm_compute) ltac:(by vm_compute) ltac:(by vm_compute) eq_refl eq_refl ltac:(by vm_compute)
    ltac:(by vm_compute) ltac:(by vm_compute)) as H.
  assert (w_answers called = []) as Hans by by vm_compute.
  rewrite Hans in H. clear Hans.
  match type of H with context [answered_with ?x ?j ?ty ?m ?st] =>
    assert (answered_with x j ty m st = (0, [lit "ylper"])) as Ha by (by vm_compute); rewrite Ha in H; clear Ha end.
  match type of H with context [Deserialize ?ts ?ty ?d] =>
    assert (Deserialize ts ty d = Some (lit "reply")) as Hd by (by vm_compute); rewrite Hd in H; clear Hd end.
  destruct H as (v' & payload & w' & final & H1 & H2 & H3 & H4 & _ & H5 & H6). subst final.
  exists v', payload, w'. split; [exact H1|]. split; [exact H2|]. split; [exact H3|].
  split; [exact H4|exact (H6 eq_refl)].
Defined.

Lemma requests_find_their_service_witness :
  GetFuncNameWithoutPrefix (func_name service_info) = GetFuncNameWithoutPrefix "pb:/pkg.Svc/Get" ∧
  is_Some (msg_handle_map (msg_handle_registry server_backend) !! own_req_topic "server" "pb:/pkg.Svc/Get").
Proof.
  pose proof (run_all_steps [McInitialize None] (MqttRpcBackend_new "server" 4096)) as Hi. fold initialized in Hi.
  pose proof (run_all_steps [McStart; McSubscribe] registered) as Hs. fold server_backend in Hs.
  pose proof (run_all_steps [McRegisterServiceFunc service_info] initialized) as Hr. fold registered in Hr.
  pose proof (requests_find_their_service no_executor no_regex "server" 4096 server_backend
    ltac:(etrans; [exact Hi|]; etrans; [exact Hr|exact Hs])) as [H1 H2]. split.
  - destruct (H1 "" "pb:/pkg.Svc/Get" (ServeReq 2 service_info) ltac:(by vm_compute)) as (q & info & He & Hn & _).
    injection He as _ ->. exact Hn.
  - exact (H2 service_info initialized registered Hi ltac:(by vm_compute) Hs).
Defined.
