(* ===== verification/MqttChannel.v ===== *)
(** * The mqtt channel backend: [src/plugins/mqtt_plugin/mqtt_channel_backend.*]

    A message is published on a topic of the library made of its topic and its
    type; a process that subscribes gives it to all of its subscribers of both.
    The backend is a part of the state [S] of a process (class
    [HasMqttChannel]).  The handler of a topic points to a [SubscribeTool],
    which points to wrappers in the channel registry: here the handler is the
    topic, the tool is the list of the wrappers' keys, and the registry is an
    argument of what looks them up.  The registry of handlers, which the source
    shares with the rpc backend (whose topics are others), is a field.

    Parameters: regular expressions, the order of [unordered_map], the byte
    order, the addresses of buffers, the callbacks of the subscribers.  What is
    given to the mqtt client library is recorded in ghost fields.  Not modelled:
    the wait in [Start], the options written back.

    Theorems: what is published, on every branch; a message published and
    delivered reaches every subscriber of its topic and type once, with all of
    its metadata; in every reachable state a topic's subscribers are those that
    subscribed to it. *)

From S2P Require Import Prelude Yaml Filters Channel ChannelBackend LocalChannel BufferUtil MqttWire MqttRegistry.
Local Open Scope Z_scope.

(** ** Options *)

(* @src src/src/plugins/mqtt_plugin/mqtt_channel_backend.h:17-20 MqttChannelBackend::Options::PubTopicOptions *)
Record MqttTopicOptions := mkMqttTopicOptions { mto_topic_name : string; mto_qos : Z }.

(* @src src/src/plugins/mqtt_plugin/mqtt_channel_backend.h:16-30 MqttChannelBackend::Options *)
Record MqttChannelOptions := mkMqttChannelOptions {
  mco_pub_topics_options : list MqttTopicOptions;
  mco_sub_topics_options : list MqttTopicOptions
}.

Section Options.
Context `{Y : YamlOps node}.

(* @src src/src/plugins/mqtt_plugin/mqtt_channel_backend.cc:43-53 convert<MqttChannelBackend::Options>::decode (topic) *)
Definition mqtt_topic_options_of (n : node) : res MqttTopicOptions :=
  qos ← set_if n "qos" as_int32 2;
  qos ← check_qos qos;
  t ← as_of as_string (index n "topic_name");
  Ok (mkMqttTopicOptions t qos).

(* @src src/src/plugins/mqtt_plugin/mqtt_channel_backend.cc:40-72 convert<MqttChannelBackend::Options>::decode *)
Definition mqtt_channel_decode (n : node) (rhs : MqttChannelOptions) : res (option MqttChannelOptions) :=
  ps ← each_of n "pub_topics_options" mqtt_topic_options_of (mco_pub_topics_options rhs);
  ss ← each_of n "sub_topics_options" mqtt_topic_options_of (mco_sub_topics_options rhs);
  Ok (Some (mkMqttChannelOptions ps ss)).
End Options.

(** The topic of the library for a topic and a type. *)
(* @src src/src/plugins/mqtt_plugin/mqtt_channel_backend.cc:184-186 MqttChannelBackend::Subscribe (pattern) *)
Definition channel_pattern (topic_name msg_type : string) : string :=
  ("/channel/" ++ url_encode topic_name ++ "/" ++ url_encode msg_type)%string.

(** ** The state *)

(* @src src/src/plugins/mqtt_plugin/mqtt_channel_backend.h:61-92 MqttChannelBackend *)
Record MqttChannelBackend := mkMqttChannel {
  mc_options : MqttChannelOptions;
  mc_state : State;
  mc_max_pkg_size : Z;
  mc_registry : MsgHandleRegistry string;
  mc_sub_info_vec : list (string * Z);
  mc_subscribe_wrapper_map : gmap string (list Key);
  pub_cfg_info_map : gmap string Z;
  mc_published : list MqttMsg;
  mc_subscribed : list string
}.

(* @src src/src/plugins/mqtt_plugin/mqtt_channel_backend.h:34-39 MqttChannelBackend::MqttChannelBackend *)
Definition MqttChannelBackend_new (max : Z) : MqttChannelBackend :=
  mkMqttChannel (mkMqttChannelOptions [] []) kPreInit max MsgHandleRegistry_new [] ∅ ∅ [] [].

Definition mc_set_state x b := mkMqttChannel (mc_options b) x (mc_max_pkg_size b) (mc_registry b) (mc_sub_info_vec b)
  (mc_subscribe_wrapper_map b) (pub_cfg_info_map b) (mc_published b) (mc_subscribed b).
Definition mc_set_options x b := mkMqttChannel x (mc_state b) (mc_max_pkg_size b) (mc_registry b) (mc_sub_info_vec b)
  (mc_subscribe_wrapper_map b) (pub_cfg_info_map b) (mc_published b) (mc_subscribed b).
Definition mc_set_registry x b := mkMqttChannel (mc_options b) (mc_state b) (mc_max_pkg_size b) x (mc_sub_info_vec b)
  (mc_subscribe_wrapper_map b) (pub_cfg_info_map b) (mc_published b) (mc_subscribed b).
Definition mc_set_subs subs info b := mkMqttChannel (mc_options b) (mc_state b) (mc_max_pkg_size b) (mc_registry b) info
  subs (pub_cfg_info_map b) (mc_published b) (mc_subscribed b).
Definition mc_set_pub_cfg x b := mkMqttChannel (mc_options b) (mc_state b) (mc_max_pkg_size b) (mc_registry b)
  (mc_sub_info_vec b) (mc_subscribe_wrapper_map b) x (mc_published b) (mc_subscribed b).
Definition mc_set_published x b := mkMqttChannel (mc_options b) (mc_state b) (mc_max_pkg_size b) (mc_registry b)
  (mc_sub_info_vec b) (mc_subscribe_wrapper_map b) (pub_cfg_info_map b) x (mc_subscribed b).
Definition mc_set_subscribed x b := mkMqttChannel (mc_options b) (mc_state b) (mc_max_pkg_size b) (mc_registry b)
  (mc_sub_info_vec b) (mc_subscribe_wrapper_map b) (pub_cfg_info_map b) (mc_published b) x.

Class HasMqttChannel (S : Type) `{HasContexts S} := {
  mc : S → MqttChannelBackend;
  set_mc : MqttChannelBackend → S → S;
  mc_set_mc b s : mc (set_mc b s) = b;
  mc_set_ctxs m s : mc (set_ctxs m s) = mc s;
  ctxs_set_mc b s : ctxs (set_mc b s) = ctxs s
}.

(** ** Life cycle and registration *)

Section LifeCycle.
Context {Msg S : Type} `{YamlOps node}.
Context (regex_match : string → string → res bool).
Abbreviation B := (M MqttChannelBackend).

Definition mc_exchange (new old : State) (what : string) : B unit :=
  b ← get;
  modify (mc_set_state new);;
  check_throw (state_eqb (mc_state b) old) what.

(* @src src/src/plugins/mqtt_plugin/mqtt_channel_backend.cc:78-87 MqttChannelBackend::Initialize *)
Definition mc_Initialize (options_node : option node) : B unit :=
  mc_exchange kInit kPreInit "Mqtt channel backend can only be initialized once.";;
  o ← lift (read_options mqtt_channel_decode (mkMqttChannelOptions [] []) options_node);
  modify (λ b, mc_set_options (default (mc_options b) o) b).

(* @src src/src/plugins/mqtt_plugin/mqtt_channel_backend.cc:89-96 MqttChannelBackend::Start *)
Definition mc_Start : B unit := mc_exchange kStart kInit "Method can only be called when state is 'Init'.".

(* @src src/src/plugins/mqtt_plugin/mqtt_channel_backend.cc:333-341 MqttChannelBackend::SubscribeMqttTopic *)
Definition mc_SubscribeMqttTopic : B unit :=
  modify (λ b, mc_set_subscribed (mc_subscribed b ++ map fst (mc_sub_info_vec b)) b).

(* @src src/src/plugins/mqtt_plugin/mqtt_channel_backend.cc:343-348 MqttChannelBackend::UnSubscribeMqttTopic *)
Definition mc_UnSubscribeMqttTopic : B unit :=
  modify (λ b, mc_set_subscribed (filter (λ t, t ∉ map fst (mc_sub_info_vec b)) (mc_subscribed b)) b).

(* @src src/src/plugins/mqtt_plugin/mqtt_channel_backend.cc:98-105 MqttChannelBackend::Shutdown *)
Definition mc_Shutdown : B unit :=
  b ← get;
  modify (mc_set_state kShutdown);;
  if state_eqb (mc_state b) kShutdown then mret tt
  else
    mc_UnSubscribeMqttTopic;;
    modify (λ b, mc_set_registry (registry_Shutdown (mc_registry b)) b).

(** The first options whose expression matches the topic; an expression that
    throws does not match. *)
(* @src src/src/plugins/mqtt_plugin/mqtt_channel_backend.cc:117-133 MqttChannelBackend::RegisterPublishType (qos) *)
Definition topic_qos (os : list MqttTopicOptions) (topic_name : string) : Z :=
  match List.find (λ o, match regex_match (mto_topic_name o) topic_name with Ok x => x | _ => false end) os with
  | Some o => mto_qos o
  | None => 2
  end.

(** The quality of service is kept before the length is checked. *)
(* @src src/src/plugins/mqtt_plugin/mqtt_channel_backend.cc:107-154 MqttChannelBackend::RegisterPublishType *)
Definition mc_RegisterPublishType (w : PublishTypeWrapper Msg) : B bool :=
  try_catch
    (b ← get;
     check_throw (state_eqb (mc_state b) kInit) "Method can only be called when state is 'Init'.";;
     let info := pw_info w in
     let qos := topic_qos (mco_pub_topics_options (mc_options b)) (topic_name info) in
     modify (λ b, mc_set_pub_cfg (match pub_cfg_info_map b !! topic_name info with
                                  | Some _ => pub_cfg_info_map b
                                  | None => <[topic_name info := qos]> (pub_cfg_info_map b)
                                  end) b);;
     let pattern := channel_pattern (topic_name info) (msg_type info) in
     check_throw (str_size pattern <=? 255) "Too long uri: {}";;
     mret true)
    (λ _, mret false).

(** A new topic gets a tool, a handler and a subscription. *)
(* @src src/src/plugins/mqtt_plugin/mqtt_channel_backend.cc:156-239 MqttChannelBackend::Subscribe *)
Definition mc_Subscribe (w : SubscribeWrapper Msg S) : B bool :=
  try_catch
    (b ← get;
     check_throw (state_eqb (mc_state b) kInit) "Method can only be called when state is 'Init'.";;
     let info := sw_info w in
     let qos := topic_qos (mco_sub_topics_options (mc_options b)) (topic_name info) in
     let pattern := channel_pattern (topic_name info) (msg_type info) in
     match mc_subscribe_wrapper_map b !! pattern with
     | Some ks =>
         modify (λ b, mc_set_subs (<[pattern := ks ++ [key_of info]]> (mc_subscribe_wrapper_map b)) (mc_sub_info_vec b) b);;
         mret true
     | None =>
         modify (λ b, mc_set_subs (<[pattern := [key_of info]]> (mc_subscribe_wrapper_map b))
                        (mc_sub_info_vec b ++ [(pattern, qos)]) b);;
         modify (λ b, mc_set_registry (RegisterMsgHandle pattern pattern (mc_registry b)) b);;
         mret true
     end)
    (λ _, mret false).
End LifeCycle.

(** ** Messages *)

Section Messages.
Context {Msg S : Type} `{HasMqttChannel S} `{IterOrder}.
(** Little endian; the address of a vector or of a payload of a size. *)
Context (little : bool) (alloc : Z → Z).

Definition on_mc {A} (m : M MqttChannelBackend A) : M S A := zoom mc set_mc m.

(* @src src/src/plugins/mqtt_plugin/mqtt_channel_backend.cc:241-331 MqttChannelBackend::Publish *)
Definition mc_Publish : Handle Msg S :=
  try_catch
    (s ← on_state get;
     check_throw (state_eqb (mc_state (mc s)) kStart) "Method can only be called when state is 'Start'.";;
     w ← on_msg get;
     let info := mw_info w in
     let qos := default 2 (pub_cfg_info_map (mc s) !! topic_name info) in
     c ← on_state (get_ctx (ctx_ref w));
     serialization_type ← lift (choose_serialization_type c (msg_type_support_ref info));
     data ← on_msg (SerializeMsgWithCache serialization_type);
     let kvs := map_order (meta_data_map c) in
     check_throw (Z.of_nat (length kvs) <=? 255) "Too much context meta, require less than 255, but actually {}.";;
     let mqtt_pkg_size := msg_pkg_size serialization_type kvs data in
     check_throw (mqtt_pkg_size <=? mc_max_pkg_size (mc s))
       "Mqtt publish failed, pkg is too large, limit {} bytes, actual {} bytes";;
     payload ← lift (pack_msg little (alloc mqtt_pkg_size) serialization_type kvs data);
     on_state (on_mc (modify (λ b,
       mc_set_published
         (mc_published b ++ [mkMqttMsg (channel_pattern (topic_name info) (msg_type info)) qos payload]) b))))
    (λ _, mret tt).

(** The tool of a topic; [None] if a pointer dangles. *)
Definition tool_of (r : ChannelRegistry Msg S) (ks : list Key) : option (SubscribeTool Msg S) :=
  vs ← mapM (GetSubscribeWrapperPtr r) ks;
  Some (foldl (λ t v, AddSubscribeWrapper v t) (mkSubscribeTool [] ∅) vs).

(** What the backend [name] does with the parts of a package: a new context for
    the subscribers, and their callbacks. *)
(* @src src/src/plugins/mqtt_plugin/mqtt_channel_backend.cc:203-226 MqttChannelBackend::Subscribe (deliver) *)
Definition deliver_parsed (name : string) (tool : S → option (SubscribeTool Msg S)) (parsed : res (string * KeyVals * bytes))
    : M S unit :=
  ctx ← new_ctx AIMRT_CHANNEL_SUBSCRIBER_CONTEXT;
  p ← lift parsed;
  let '(serialization_type, kvs, remaining_buf) := p in
  update_ctx ctx (SetMetaValue KEY_SERIALIZATION_TYPE serialization_type);;
  mapM_ (λ kv, update_ctx ctx (SetMetaValue kv.1 kv.2)) kvs;;
  update_ctx ctx (SetMetaValue KEY_BACKEND name);;
  s ← get;
  match tool s with
  | None => undef
  | Some t => DoSubscribeCallback_data t ctx serialization_type remaining_buf
  end.

(** The handler of a topic. *)
(* @src src/src/plugins/mqtt_plugin/mqtt_channel_backend.cc:201-226 MqttChannelBackend::Subscribe (handle) *)
Definition mc_handler (r : ChannelRegistry Msg S) (pattern : string) (payload : bytes) : M S unit :=
  deliver_parsed "mqtt" (λ s, mc_subscribe_wrapper_map (mc s) !! pattern ≫= tool_of r)
    (read (alloc (Z.of_nat (length payload))) payload (parse_msg little)).

Definition mc_receive (r : ChannelRegistry Msg S) : string → bytes → M S unit :=
  HandleServerMsg (λ s, mc_registry (mc s)) (λ x s, set_mc (mc_set_registry x (mc s)) s) (mc_handler r).

(** The backend as the manager sees it. *)
(* @src src/src/plugins/mqtt_plugin/mqtt_channel_backend.h:43-59 MqttChannelBackend *)
Definition mqtt_channel_backend `{YamlOps node} (regex_match : string → string → res bool)
    : Backend Msg S (option node) :=
  mkBackend "mqtt" (λ n, on_mc (mc_Initialize n)) (on_mc mc_Start) (on_mc mc_Shutdown)
    (λ w, on_mc (mc_RegisterPublishType regex_match w)) (λ w, on_mc (mc_Subscribe regex_match w))
    (λ _, mc_Publish) (λ _, []).
End Messages.

(** * From a publisher to the subscribers *)

Section Delivery.
Context {Msg S : Type} `{HasMqttChannel S} `{IterOrder}.
Context (little : bool) (alloc : Z → Z).
(** An object of less than half of the address space is inside it. *)
Context (Halloc : ∀ n, 0 ≤ n < 2 ^ 63 → at_address (alloc n) n).
Context (m : Msg).
Implicit Types (w : MsgWrapper Msg) (s : S).

Abbreviation mc_Publish := (mc_Publish (Msg := Msg) little alloc).
Abbreviation mc_receive := (mc_receive little alloc).

(** The serialized form of the message in a wrapper: the one it holds, or that
    of the type support. *)
Definition form_of w (ty : string) : option (list bytes) :=
  match serialization_cache w !! ty with
  | Some b => Some b
  | None => Serialize (msg_type_support_ref (mw_info w)) ty m
  end.

Lemma SerializeMsgWithCache_form w ty b :
  carries m w → form_of w ty = Some b → ∃ w', SerializeMsgWithCache ty w = (Ok b, w').
Proof.
  intros Hw Hf. unfold form_of in Hf. unfold SerializeMsgWithCache. unfold_monad.
  destruct (serialization_cache w !! ty); [injection Hf as ->; by eexists|].
  rewrite (CheckMsg_spec m w Hw). cbn. rewrite Hf. by eexists.
Qed.

Lemma SerializeMsgWithCache_no_form w ty :
  carries m w → form_of w ty = None → ∃ e w', SerializeMsgWithCache ty w = (Throw e, w').
Proof.
  intros Hw Hf. unfold form_of in Hf. unfold SerializeMsgWithCache. unfold_monad.
  destruct (serialization_cache w !! ty); [done|]. rewrite (CheckMsg_spec m w Hw). cbn. rewrite Hf. by eexists _, _.
Qed.

(** What can be sent: the reasons for which a message is not. *)
Definition sendable (max : Z) (ty : string) (c : Context) (b : list bytes) : Prop :=
  Z.of_nat (length (map_order (meta_data_map c))) ≤ 255 ∧ msg_pkg_size ty (map_order (meta_data_map c)) b ≤ max ∧
  str_size ty ≤ 255 ∧ Forall kv_ok (map_order (meta_data_map c)).

#[export] Instance sendable_dec max ty c b : Decision (sendable max ty c b).
Proof. unfold sendable. apply _. Defined.

Lemma pack_msg_too_long ptr ty kvs data :
  at_address ptr (msg_pkg_size ty kvs data) → 255 < str_size ty →
  ∃ what, pack_msg little ptr ty kvs data = Throw (RuntimeError what).
Proof.
  intros Hp Hty. apply (fill_throws _ _ _ (msg_fields ty kvs data)); [| |done|].
  - constructor; [done|]. apply metas_data_arg.
  - unfold msg_fields, msg_pkg_size, rooms. cbn [foldr field_room len_type_size].
    fold (rooms (meta_calls kvs ++ data_calls data)). rewrite rooms_app, rooms_metas, rooms_data.
    fold (str_size ty). lia.
  - intros Hall. apply Forall_cons in Hall as [Hall _]. cbn in Hall. unfold str_size in Hty. lia.
Qed.

Lemma msg_pkg_size_pos ty kvs data : 0 ≤ msg_pkg_size ty kvs data.
Proof.
  assert (0 ≤ context_meta_kv_size kvs).
  { unfold context_meta_kv_size. induction kvs as [|kv kvs IH]; cbn [foldr]; unfold str_size in *; lia. }
  unfold msg_pkg_size, str_size, BufferSize. lia.
Qed.

Definition published_msg w (b : MqttChannelBackend) (ty : string) (c : Context) (data : list bytes) : MqttMsg :=
  let info := mw_info w in
  mkMqttMsg (channel_pattern (topic_name info) (msg_type info)) (default 2 (pub_cfg_info_map b !! topic_name info))
    (encode_all (msg_fields ty (map_order (meta_data_map c)) data)).

Definition send (x : MqttMsg) s : S := set_mc (mc_set_published (mc_published (mc s) ++ [x]) (mc s)) s.

Lemma check_passes what (x : Flow Msg S) : check_throw true what x = (Ok tt, x).
Proof. done. Qed.

Lemma on_state_run {A} (x : M S A) w s a s' : x s = (a, s') → on_state x (w, s) = (a, (w, s')).
Proof. intros Hx. unfold on_state, zoom. cbn. by rewrite Hx. Qed.

Lemma on_msg_run {A} (x : M (MsgWrapper Msg) A) w s a w' : x w = (a, w') → on_msg x (w, s) = (a, (w', s)).
Proof. intros Hx. unfold on_msg, zoom. cbn. by rewrite Hx. Qed.

Lemma get_ctx_run i s c : ctxs s !! i = Some c → get_ctx i s = (Ok c, s).
Proof. intros Hc. unfold get_ctx. unfold_monad. by rewrite Hc. Qed.

Lemma mc_Publish_run w s c ty :
  carries m w → ctxs s !! ctx_ref w = Some c → mc_state (mc s) = kStart → mc_max_pkg_size (mc s) < 2 ^ 63 →
  choose_serialization_type c (msg_type_support_ref (mw_info w)) = Ok ty →
  ∃ w', mc_Publish (w, s) =
    (Ok tt, (w', match form_of w ty with
                 | Some b => if decide (sendable (mc_max_pkg_size (mc s)) ty c b)
                             then send (published_msg w (mc s) ty c b) s else s
                 | None => s
                 end)).
Proof using Halloc.
  intros Hw Hc Hst Hmax Hty. unfold MqttChannel.mc_Publish, try_catch, mbind, M_bind.
  rewrite (on_state_run get w s (Ok s) s) by done. rewrite Hst.
  change (state_eqb kStart kStart) with true. rewrite check_passes.
  rewrite (on_msg_run get w s (Ok w) w) by done. rewrite (on_state_run _ w s _ _ (get_ctx_run _ _ _ Hc)), Hty.
  cbn beta iota. unfold lift at 1. cbn beta iota. fold (form_of w ty).
  destruct (form_of w ty) as [b|] eqn:Hf.
  - destruct (SerializeMsgWithCache_form w ty b Hw Hf) as [w' Hser]. exists w'.
    rewrite (on_msg_run _ w s _ _ Hser). cbn beta iota. set (kvs := map_order (meta_data_map c)).
    destruct (decide (sendable _ ty c b)) as [(Hn & Hsz & Hlen & Hk)|Hno].
    + fold kvs in Hn, Hsz, Hk. apply Z.leb_le in Hn, Hsz. rewrite Hn, Hsz. unfold check_throw, mret, M_ret.
      rewrite pack_msg_eq; [done|done|by apply Z.leb_le|done|].
      apply Halloc. apply Z.leb_le in Hsz. pose proof (msg_pkg_size_pos ty kvs b). lia.
    + unfold check_throw. destruct (Z.leb_spec (Z.of_nat (length kvs)) 255) as [Hn|]; [|done].
      destruct (Z.leb_spec (msg_pkg_size ty kvs b) (mc_max_pkg_size (mc s))) as [Hsz|]; [|done].
      unfold mret, M_ret. assert (at_address (alloc (msg_pkg_size ty kvs b)) (msg_pkg_size ty kvs b)) as Hat.
      { apply Halloc. pose proof (msg_pkg_size_pos ty kvs b). lia. }
      assert (∃ what, pack_msg little (alloc (msg_pkg_size ty kvs b)) ty kvs b = Throw (RuntimeError what)) as [what ->].
      { destruct (Z.le_gt_cases (str_size ty) 255); [|by apply pack_msg_too_long; [|lia]].
        apply pack_msg_throws; [done|]. intros Hk. by apply Hno. }
      done.
  - destruct (SerializeMsgWithCache_no_form w ty Hw Hf) as (e & w' & Hser). exists w'.
    by rewrite (on_msg_run _ w s _ _ Hser).
Qed.

(** ** At the subscribers *)

(** What the subscribers are seen to receive; one that checks its message, notes
    it with the context, and goes on. *)
Context (log : S → list (Key * Msg * Context)) (log_set_ctxs : ∀ x s, log (set_ctxs x s) = log s).

Definition notes (v : SubscribeWrapper Msg S) : Prop :=
  ∀ w w' s c mm,
    CheckMsg w = (Ok tt, w') → msg_ptr w' = Some mm → ctxs s !! ctx_ref w = Some c →
    ∃ w'' s', sw_callback v (w, s) = (Ok tt, (w'', s')) ∧
      log s' = log s ++ [(key_of (sw_info v), mm, c)] ∧ ctxs s ⊆ ctxs s'.

(** A subscriber that reads the form as the message. *)
Definition takes (ty : string) (data : bytes) (v : SubscribeWrapper Msg S) : Prop :=
  notes v ∧ Deserialize (msg_type_support_ref (sw_info v)) ty [data] = Some m.

Lemma tool_of_vec (r : ChannelRegistry Msg S) ks vs t :
  mapM (GetSubscribeWrapperPtr r) ks = Some vs → tool_of r ks = Some t → sub_wrapper_vec t = vs.
Proof.
  intros Hvs. unfold tool_of. rewrite Hvs. cbn. intros [= <-].
  assert (∀ t0 : SubscribeTool Msg S, sub_wrapper_vec (foldl (λ t v, AddSubscribeWrapper v t) t0 vs) = sub_wrapper_vec t0 ++ vs) as Hfold; [|by rewrite Hfold].
  clear Hvs. induction vs as [|v vs IH]; intros t0; cbn [foldl]; [by rewrite app_nil_r|].
  rewrite IH. cbn. by rewrite <-app_assoc.
Qed.

Lemma deliver_run x v s c :
  notes v → carries m x → ctxs s !! ctx_ref x = Some c →
  ∃ s', call_with x (sw_callback v) s = (Ok tt, s') ∧
    log s' = log s ++ [(key_of (sw_info v), m, c)] ∧ ctxs s ⊆ ctxs s'.
Proof.
  intros Hv Hx Hc. destruct (Hv x (set_msg m x) s c m (CheckMsg_spec m x Hx) eq_refl Hc) as (w'' & s' & Hrun & Hlog & Hsub).
  exists s'. split; [|done]. unfold call_with. by rewrite Hrun.
Qed.

Lemma deliver_all (f : SubscribeWrapper Msg S → M S unit) vs id c : ∀ s,
  (∀ v s, v ∈ vs → ctxs s !! id = Some c → ∃ s', f v s = (Ok tt, s') ∧
     log s' = log s ++ [(key_of (sw_info v), m, c)] ∧ ctxs s ⊆ ctxs s') →
  ctxs s !! id = Some c →
  ∃ s', mapM_ f vs s = (Ok tt, s') ∧ log s' = log s ++ map (λ v, (key_of (sw_info v), m, c)) vs.
Proof.
  induction vs as [|v vs IH]; intros s Hf Hid; cbn [mapM_ map]; [exists s; by rewrite app_nil_r|].
  destruct (Hf v s (list_elem_of_here _ _) Hid) as (s1 & Hrun & Hlog & Hsub). unfold mbind, M_bind. rewrite Hrun.
  destruct (IH s1) as (s2 & Hrun2 & Hlog2).
  { intros v' s' Hin. by apply Hf, list_elem_of_further. }
  { by apply (lookup_weaken _ _ _ _ Hid). }
  exists s2. split; [exact Hrun2|]. by rewrite Hlog2, Hlog, <-app_assoc.
Qed.

Lemma DoSubscribeCallback_run (t : SubscribeTool Msg S) id ty data c s :
  Forall (takes ty data) (sub_wrapper_vec t) → ctxs s !! id = Some c →
  ∃ s', DoSubscribeCallback_data t id ty data s = (Ok tt, s') ∧
    log s' = log s ++ map (λ v, (key_of (sw_info v), m, c)) (sub_wrapper_vec t).
Proof.
  intros Hall Hid. rewrite Forall_forall in Hall. unfold DoSubscribeCallback_data. case_bool_decide.
  - apply (deliver_all _ _ id c); [|done]. intros v s' Hin Hid'. destruct (Hall v Hin) as [Hn Hd].
    apply deliver_run; [done| |done]. split.
    + right. split; [done|]. left. cbn. by rewrite map_size_singleton.
    + cbn. intros ty' b [<- <-]%lookup_singleton_Some. done.
  - apply (deliver_all _ _ id c); [|done]. intros v s' Hin Hid'. destruct (Hall v Hin) as [Hn Hd]. rewrite Hd.
    apply deliver_run; [done| |done]. split; [by left|]. cbn. intros ty' b. by rewrite lookup_empty.
Qed.

(** The context that the subscribers get from the backend [name]. *)
Definition received_by (name ty : string) (metas : gmap string string) : Context :=
  mkContext (<[KEY_BACKEND := name]> (metas ∪ {[KEY_SERIALIZATION_TYPE := ty]})) false AIMRT_CHANNEL_SUBSCRIBER_CONTEXT.
Definition received_ctx : string → gmap string string → Context := received_by "mqtt".

Lemma set_metas_ctx id kvs acc s :
  mapM_ (λ kv, update_ctx id (SetMetaValue kv.1 kv.2)) kvs (set_ctxs (<[id := with_meta acc]> (ctxs s)) s) =
  (Ok tt, set_ctxs (<[id := with_meta (foldl (λ a kv, <[kv.1 := kv.2]> a) acc kvs)]> (ctxs s)) s).
Proof.
  revert acc; induction kvs as [|[k v] kvs IH]; intros acc; [done|]. cbn [mapM_ foldl]. unfold_monad.
  erewrite update_ctx_eq by (rewrite ctxs_set_ctxs; apply lookup_insert_eq).
  rewrite ctxs_set_ctxs, set_ctxs_set_ctxs, insert_insert_eq. apply IH.
Qed.

Lemma deliver_parsed_run name (tool : S → option (SubscribeTool Msg S)) t ty (metas : gmap string string) rest s :
  (∀ x, tool (set_ctxs x s) = Some t) → Forall (takes ty rest) (sub_wrapper_vec t) →
  ∃ s', deliver_parsed name tool (Ok (ty, map_order metas, rest)) s = (Ok tt, s') ∧
    log s' = log s ++ map (λ v, (key_of (sw_info v), m, received_by name ty metas)) (sub_wrapper_vec t).
Proof using log_set_ctxs.
  intros Ht Htake. unfold deliver_parsed, new_ctx. unfold_monad. set (id := fresh (dom (ctxs s))).
  erewrite update_ctx_eq by (rewrite ctxs_set_ctxs; apply lookup_insert_eq).
  rewrite ctxs_set_ctxs, set_ctxs_set_ctxs, insert_insert_eq.
  change (SetMetaValue KEY_SERIALIZATION_TYPE ty (Context_new AIMRT_CHANNEL_SUBSCRIBER_CONTEXT))
    with (with_meta {[KEY_SERIALIZATION_TYPE := ty]}).
  rewrite set_metas_ctx, insert_map_order.
  erewrite update_ctx_eq by (rewrite ctxs_set_ctxs; apply lookup_insert_eq).
  rewrite ctxs_set_ctxs, set_ctxs_set_ctxs, insert_insert_eq, Ht.
  destruct (DoSubscribeCallback_run t id ty rest (received_by name ty metas)
    (set_ctxs (<[id := received_by name ty metas]> (ctxs s)) s)) as (s' & Hrun & Hlog).
  - done.
  - rewrite ctxs_set_ctxs. apply lookup_insert_eq.
  - exists s'. split; [exact Hrun|]. by rewrite Hlog, log_set_ctxs.
Qed.

Lemma mc_handler_run (r : ChannelRegistry Msg S) pattern ks vs ty (metas : gmap string string) data s :
  let payload := encode_all (msg_fields ty (map_order metas) data) in
  str_size ty ≤ 255 → Z.of_nat (length (map_order metas)) ≤ 255 → Forall kv_ok (map_order metas) →
  msg_pkg_size ty (map_order metas) data < 2 ^ 63 →
  mc_subscribe_wrapper_map (mc s) !! pattern = Some ks → mapM (GetSubscribeWrapperPtr r) ks = Some vs →
  Forall (takes ty (concat data)) vs →
  ∃ s', mc_handler little alloc r pattern payload s = (Ok tt, s') ∧
    log s' = log s ++ map (λ v, (key_of (sw_info v), m, received_ctx ty metas)) vs.
Proof using Halloc log_set_ctxs.
  intros payload Hty Hn Hk Hsz Hks Hvs Htake.
  assert (Z.of_nat (length payload) = msg_pkg_size ty (map_order metas) data) as Hlen.
  { unfold payload, msg_fields. rewrite !encode_all_cons, encode_all_app, !length_app, encode_data. unfold msg_pkg_size.
    pose proof (length_encode_str kUInt8 1 ty eq_refl). pose proof (length_encode_metas (map_order metas)). unfold BufferSize. lia. }
  destruct (reader_start (alloc (Z.of_nat (length payload))) payload) as [Hwf Hrest].
  { apply Halloc. pose proof (msg_pkg_size_pos ty (map_order metas) data). lia. }
  pose proof (parse_msg_ok little ty (map_order metas) data _ Hty Hn Hk Hwf Hrest) as Hparse.
  unfold mc_handler, read. rewrite Hparse.
  destruct (tool_of r ks) as [t|] eqn:Ht; [|unfold tool_of in Ht; by rewrite Hvs in Ht].
  rewrite <-(tool_of_vec r ks vs t Hvs Ht) in Htake |- *. apply deliver_parsed_run; [|done].
  intros x. rewrite mc_set_ctxs, Hks. exact Ht.
Qed.

(** What is published.  On a started backend [Publish] returns normally.  It
    gives the library one message, on the topic of the message's topic and type,
    when the message can be serialized and sent: at most 255 pairs of metadata, no
    key or value of more than 65535 bytes, a type of at most 255 characters, a
    package within the limit.  Otherwise it has no effect on the process. *)
Theorem mqtt_publish_branches w s c ty :
  carries m w → ctxs s !! ctx_ref w = Some c → mc_state (mc s) = kStart → mc_max_pkg_size (mc s) < 2 ^ 63 →
  choose_serialization_type c (msg_type_support_ref (mw_info w)) = Ok ty →
  ∃ w', mc_Publish (w, s) =
    (Ok tt, (w', match form_of w ty with
                 | Some b => if decide (sendable (mc_max_pkg_size (mc s)) ty c b)
                             then send (published_msg w (mc s) ty c b) s else s
                 | None => s
                 end)).
Proof using Halloc. apply mc_Publish_run. Qed.

(** C10: A message reaches its subscribers.  Let a message that can be sent be
    published by a started backend, and let another process [v] have subscribers
    [vs] under its topic, which read its serialized form as the message.  Then
    one message is published on that topic, and delivered to [v] it reaches each
    of them once, in order, with a context that carries all of the publisher's
    metadata, the serialization type and the name of the backend. *)
Theorem mqtt_message_reaches_subscribers w s c ty b (v : S) (r : ChannelRegistry Msg S) ks vs :
  let topic := channel_pattern (topic_name (mw_info w)) (msg_type (mw_info w)) in
  carries m w → ctxs s !! ctx_ref w = Some c → mc_state (mc s) = kStart → mc_max_pkg_size (mc s) < 2 ^ 63 →
  choose_serialization_type c (msg_type_support_ref (mw_info w)) = Ok ty →
  form_of w ty = Some b → sendable (mc_max_pkg_size (mc s)) ty c b →
  shutdown_flag (mc_registry (mc v)) = false → has_executor (mc_registry (mc v)) = false →
  msg_handle_map (mc_registry (mc v)) !! topic = Some topic →
  mc_subscribe_wrapper_map (mc v) !! topic = Some ks → mapM (GetSubscribeWrapperPtr r) ks = Some vs →
  Forall (takes ty (concat b)) vs →
  ∃ w' s' qos payload v',
    mc_Publish (w, s) = (Ok tt, (w', s')) ∧ mc_published (mc s') = mc_published (mc s) ++ [mkMqttMsg topic qos payload] ∧
    mc_receive r topic payload v = (Ok tt, v') ∧
    log v' = log v ++ map (λ u, (key_of (sw_info u), m, received_ctx ty (meta_data_map c))) vs.
Proof using Halloc log_set_ctxs.
  intros topic Hw Hc Hst Hmax Hty Hf Hs Hsh Hex Hh Hks Hvs Htake.
  destruct (mc_Publish_run w s c ty Hw Hc Hst Hmax Hty) as [w' Hrun]. rewrite Hf, decide_True in Hrun by done.
  destruct Hs as (Hn & Hsz & Hlen & Hk).
  destruct (mc_handler_run r topic ks vs ty (meta_data_map c) b v Hlen Hn Hk ltac:(lia) Hks Hvs Htake) as (v' & Hrecv & Hlog).
  eexists w', _, _, _, v'. split; [exact Hrun|]. split; [unfold send; by rewrite mc_set_mc|]. split; [|exact Hlog].
  unfold MqttChannel.mc_receive, HandleServerMsg. unfold mbind at 1, M_bind at 1, get. rewrite Hsh, Hh, Hex. unfold try_catch.
  by rewrite Hrecv.
Qed.
End Delivery.

(** * Whose handler a topic has *)

Section Routing.
Context {Msg S : Type} `{YamlOps node}.
Context (regex_match : string → string → res bool).
Implicit Types b : MqttChannelBackend.

(** The calls that the manager and the plugin make on a backend. *)
Inductive mc_call :=
| CcInitialize (n : option node)
| CcStart
| CcShutdown
| CcRegisterPublishType (w : PublishTypeWrapper Msg)
| CcSubscribe (w : SubscribeWrapper Msg S)
| CcSubscribeMqttTopic.

Definition run_mc_call (c : mc_call) : M MqttChannelBackend bool :=
  match c with
  | CcInitialize n => mc_Initialize n;; mret true
  | CcStart => mc_Start;; mret true
  | CcShutdown => mc_Shutdown;; mret true
  | CcRegisterPublishType w => mc_RegisterPublishType regex_match w
  | CcSubscribe w => mc_Subscribe regex_match w
  | CcSubscribeMqttTopic => mc_SubscribeMqttTopic;; mret true
  end.

(** The keys of the subscribers that have been accepted, in order. *)
Definition accepted (c : mc_call) (r : res bool) : list Key :=
  match c, r with CcSubscribe w, Ok true => [key_of (sw_info w)] | _, _ => [] end.

Fixpoint run_mc_calls (cs : list mc_call) (x : MqttChannelBackend * list Key) : MqttChannelBackend * list Key :=
  match cs with
  | [] => x
  | c :: cs' => let '(r, b) := run_mc_call c x.1 in run_mc_calls cs' (b, x.2 ++ accepted c r)
  end.

Definition of_topic (t ty : string) (k : Key) : Prop := k_topic_name k = t ∧ k_msg_type k = ty.
#[export] Instance of_topic_dec t ty k : Decision (of_topic t ty k).
Proof. unfold of_topic. apply _. Defined.

(** What a topic of the library has, when [ks] have subscribed to it. *)
Definition entry_ok b (p : string) (ks : list Key) : Prop :=
  mc_subscribe_wrapper_map b !! p = match ks with [] => None | _ => Some ks end ∧
  msg_handle_map (mc_registry b) !! p = match ks with [] => None | _ => Some p end ∧
  (p ∈ map fst (mc_sub_info_vec b) ↔ ks ≠ []).

Definition topics_ok (x : MqttChannelBackend * list Key) : Prop :=
  ∀ t ty, entry_ok x.1 (channel_pattern t ty) (filter (of_topic t ty) x.2).

Lemma pattern_inj t ty t' ty' : channel_pattern t ty = channel_pattern t' ty' → t = t' ∧ ty = ty'.
Proof. apply id_topic_inj. Qed.

(** Whatever leaves these parts alone. *)
Definition same_topics b b' : Prop :=
  mc_subscribe_wrapper_map b' = mc_subscribe_wrapper_map b ∧
  msg_handle_map (mc_registry b') = msg_handle_map (mc_registry b) ∧ mc_sub_info_vec b' = mc_sub_info_vec b.

Lemma topics_ok_same b b' ks : same_topics b b' → topics_ok (b, ks) → topics_ok (b', ks).
Proof. intros (Hm & Hh & Hi) Hok t ty. destruct (Hok t ty) as (H1 & H2 & H3). unfold entry_ok; cbn in *. by rewrite Hm, Hh, Hi. Qed.

Lemma subscribe_topics w b ks r b' :
  mc_Subscribe regex_match w b = (r, b') → topics_ok (b, ks) → topics_ok (b', ks ++ accepted (CcSubscribe w) r).
Proof.
  unfold mc_Subscribe. unfold_monad. destruct (state_eqb (mc_state b) kInit); cbn; [|intros [= <- <-]; by rewrite app_nil_r].
  set (info := sw_info w). set (p := channel_pattern _ _). set (qos := topic_qos _ _ _). clearbody qos. intros Hrun Hok.
  pose proof (Hok (topic_name info) (msg_type info)) as Hent. fold p in Hent. cbn [fst snd] in Hent.
  set (own := filter (of_topic (topic_name info) (msg_type info)) ks) in Hent.
  assert (∀ t ty, filter (of_topic t ty) (ks ++ [key_of info]) =
    if decide (t = topic_name info ∧ ty = msg_type info) then own ++ [key_of info] else filter (of_topic t ty) ks) as Hfilter.
  { intros t ty. rewrite filter_app, filter_cons, filter_nil. unfold of_topic at 2; cbn.
    destruct (decide (t = topic_name info ∧ ty = msg_type info)) as [[-> ->]|Hne]; [by rewrite decide_True|].
    rewrite decide_False by (intros [<- <-]; by apply Hne). by rewrite app_nil_r. }
  assert (∀ t ty, ¬ (t = topic_name info ∧ ty = msg_type info) → p ≠ channel_pattern t ty) as Hother.
  { intros t ty Hne Heq. apply pattern_inj in Heq as [<- <-]. by apply Hne. }
  clearbody own. destruct Hent as (Hm & Hh & Hi). cbn in Hm, Hh, Hi. rewrite Hm in Hrun.
  destruct own as [|k0 own']; cbn in Hrun; injection Hrun as <- <-; intros t ty; cbn [snd]; unfold accepted; rewrite Hfilter;
    (destruct (decide _) as [[-> ->]|Hne]; [fold p|specialize (Hother t ty Hne); destruct (Hok t ty) as (Hm' & Hh' & Hi'); cbn in Hm', Hh', Hi']);
    unfold entry_ok; cbn.
  - rewrite Hh, !lookup_insert_eq. split_and!; [done|done|]. rewrite map_app, elem_of_app. cbn. split; [done|intros _; right; apply list_elem_of_here].
  - rewrite Hh, !lookup_insert_ne by done. split_and!; [done|done|]. rewrite map_app, elem_of_app. cbn. rewrite <-Hi'.
    split; [|by left]. intros [|Hin]; [done|]. apply list_elem_of_singleton in Hin. by destruct Hother.
  - rewrite lookup_insert_eq. split_and!; [done|done|]. by rewrite Hi.
  - rewrite lookup_insert_ne by done. by split_and!.
Qed.

Lemma run_mc_call_topics c b ks r b' :
  run_mc_call c b = (r, b') → topics_ok (b, ks) → topics_ok (b', ks ++ accepted c r).
Proof.
  destruct c as [n| | |w|w|]; [..|apply subscribe_topics|]; intros Hrun; cbn [accepted]; rewrite app_nil_r; apply topics_ok_same;
    revert Hrun; cbn [run_mc_call].
  - unfold mc_Initialize, mc_exchange. unfold_monad. destruct (state_eqb _ _); cbn; [|by intros [= <- <-]].
    destruct (read_options _ _ _); by intros [= <- <-].
  - unfold mc_Start, mc_exchange. unfold_monad. by destruct (state_eqb _ _); intros [= <- <-].
  - unfold mc_Shutdown. unfold_monad. by destruct (state_eqb _ _); intros [= <- <-].
  - unfold mc_RegisterPublishType. unfold_monad. destruct (state_eqb _ _); cbn; [|by intros [= <- <-]].
    by destruct (_ <=? _); intros [= <- <-].
  - unfold mc_SubscribeMqttTopic. unfold_monad. by intros [= <- <-].
Qed.

(** A topic has its subscribers.  Whatever is called on a new backend: the
    tool under the topic of the library for a topic and a type holds exactly the
    subscribers of that topic and type that were accepted, in order; the topic has
    a handler, which is its own, and is among those that are subscribed, exactly
    when there are any. *)
Theorem topics_have_their_subscribers max cs :
  let '(b, subs) := run_mc_calls cs (MqttChannelBackend_new max, []) in
  ∀ t ty, let ks := filter (of_topic t ty) subs in let p := channel_pattern t ty in
    mc_subscribe_wrapper_map b !! p = match ks with [] => None | _ => Some ks end ∧
    msg_handle_map (mc_registry b) !! p = match ks with [] => None | _ => Some p end ∧
    (p ∈ map fst (mc_sub_info_vec b) ↔ ks ≠ []).
Proof.
  assert (∀ cs x, topics_ok x → topics_ok (run_mc_calls cs x)) as Hruns.
  { clear. induction cs as [|c cs IH]; intros [b ks] Hok; [done|]. cbn [run_mc_calls].
    destruct (run_mc_call c _) as [r b'] eqn:Hrun. apply IH. by eapply run_mc_call_topics. }
  assert (topics_ok (MqttChannelBackend_new max, [])) as Hnew.
  { intros t ty. split_and!; cbn; [by rewrite lookup_empty..|]. split; [by intros ?%not_elem_of_nil|done]. }
  specialize (Hruns cs _ Hnew). destruct (run_mc_calls cs _) as [b subs]. exact Hruns.
Qed.
End Routing.

(** * Two processes *)

Module MqttChannelDemo.
Import ChannelDemo.
#[export] Existing Instance plain_order.

Record St := mkSt { st_ctxs : gmap nat Context; st_mc : MqttChannelBackend; st_log : list (Key * bytes * Context) }.

#[export] Instance st_contexts : HasContexts St.
Proof. by exists st_ctxs (λ m s, mkSt m (st_mc s) (st_log s)). Defined.
#[export] Instance st_mqtt : HasMqttChannel St.
Proof. by exists st_mc (λ b s, mkSt (st_ctxs s) b (st_log s)). Defined.

Lemma mqtt_log_ctxs (x : gmap nat Context) (s : St) : st_log (set_ctxs x s) = st_log s.
Proof. done. Qed.

Definition alloc (n : Z) : Z := 4096.
Lemma mc_alloc_ok n : 0 ≤ n < 2 ^ 63 → at_address (alloc n) n.
Proof. unfold at_address, alloc. lia. Qed.

(** A subscriber that notes what it gets. *)
Definition note_callback (i : TopicInfo bytes) : Handle bytes St := λ f,
  match CheckMsg f.1 with
  | (Ok _, w') =>
      match msg_ptr w', st_ctxs f.2 !! ctx_ref f.1 with
      | Some mm, Some c => (Ok tt, (w', mkSt (st_ctxs f.2) (st_mc f.2) (st_log f.2 ++ [(key_of i, mm, c)])))
      | _, _ => (Ok tt, f)
      end
  | _ => (Ok tt, f)
  end.

Definition info_of (mo : string) : TopicInfo bytes := mkTopicInfo "demo/Msg" "topic" "pkg" mo 0 demo_ts.
Definition sub_of (mo : string) (cached : gset string) : SubscribeWrapper bytes St :=
  mkSubscribeWrapper (info_of mo) cached (note_callback (info_of mo)).

Lemma sub_takes mo cached ty data :
  Deserialize demo_ts ty [data] = Some demo_msg → takes demo_msg st_log ty data (sub_of mo cached).
Proof.
  intros Hd. split; [|exact Hd]. intros w w' s c mm Hw Hm Hc. cbn [sw_callback sub_of]. unfold note_callback. cbn [fst snd].
  rewrite Hw, Hm. change (st_ctxs s !! ctx_ref w = Some c) in Hc. rewrite Hc.
  eexists _, _. split; [reflexivity|]. by cbn.
Qed.

(** One of the two subscribers needs the serialized form kept. *)
Definition near : SubscribeWrapper bytes St := sub_of "near" {["rev"]}.
Definition far : SubscribeWrapper bytes St := sub_of "far" ∅.

Definition demo_registry : ChannelRegistry bytes St := (Registry_Subscribe far (Registry_Subscribe near ChannelRegistry_new).2).2.

Definition no_regex (pattern topic : string) : res bool := Ok (String.eqb pattern topic).
Abbreviation calls := (list (mc_call (Msg := bytes) (S := St) (node := tree))).
Definition sub_calls : calls := [CcInitialize None; CcSubscribe near; CcSubscribe far; CcStart; CcSubscribeMqttTopic].
Definition pub_calls : calls :=
  [CcInitialize None; CcRegisterPublishType (mkPublishTypeWrapper (info_of "pub") ∅); CcStart].

Definition demo_ctx : Context :=
  SetMetaValue "k" "v" (SetMetaValue KEY_SERIALIZATION_TYPE "rev" (Context_new AIMRT_CHANNEL_PUBLISHER_CONTEXT)).
Definition publisher : St := mkSt {[0%nat := demo_ctx]} (run_mc_calls no_regex pub_calls (MqttChannelBackend_new 4096, [])).1 [].
Definition subscriber : St := mkSt ∅ (run_mc_calls no_regex sub_calls (MqttChannelBackend_new 4096, [])).1 [].

Definition demo_msg_wrapper : MsgWrapper bytes := mkMsgWrapper (info_of "pub") (Some demo_msg) 0 ∅.
Lemma demo_msg_carries : carries demo_msg demo_msg_wrapper.
Proof. split; [by left|]. intros ty b Hl. cbn in Hl. by rewrite lookup_empty in Hl. Qed.
End MqttChannelDemo.
Import MqttChannelDemo.

Lemma mqtt_publish_branches_witness :
  ∃ w', mc_Publish true alloc (demo_msg_wrapper, publisher) =
    (Ok tt, (w', send (published_msg demo_msg_wrapper (st_mc publisher) "rev" demo_ctx [lit "olleh"]) publisher)).
Proof.
  destruct (mqtt_publish_branches true alloc mc_alloc_ok ChannelDemo.demo_msg demo_msg_wrapper publisher demo_ctx "rev"
    demo_msg_carries ltac:(by vm_compute) ltac:(by vm_compute) ltac:(zdec) ltac:(by vm_compute)) as [w' Hrun].
  exists w'. etrans; [exact Hrun|].
  assert (form_of ChannelDemo.demo_msg demo_msg_wrapper "rev" = Some [lit "olleh"]) as -> by (by vm_compute).
  rewrite decide_True by bdec. reflexivity.
Defined.

Lemma mqtt_message_reaches_subscribers_witness :
  ∃ w' s' qos payload v',
    mc_Publish true alloc (demo_msg_wrapper, publisher) = (Ok tt, (w', s')) ∧
    mc_published (mc s') = [mkMqttMsg "/channel/topic/demo%2FMsg" qos payload] ∧
    mc_receive true alloc demo_registry "/channel/topic/demo%2FMsg" payload subscriber = (Ok tt, v') ∧
    st_log v' = map (λ k, (k, ChannelDemo.demo_msg, received_ctx "rev" (meta_data_map demo_ctx)))
                  [key_of (sw_info near); key_of (sw_info far)].
Proof.
  destruct (mqtt_message_reaches_subscribers true alloc mc_alloc_ok ChannelDemo.demo_msg st_log mqtt_log_ctxs
    demo_msg_wrapper publisher demo_ctx "rev" [lit "olleh"] subscriber demo_registry
    [key_of (sw_info near); key_of (sw_info far)] [near; far]
    demo_msg_carries ltac:(by vm_compute) ltac:(by vm_compute) ltac:(zdec) ltac:(by vm_compute) ltac:(by vm_compute) ltac:(bdec)
    ltac:(by vm_compute) ltac:(by vm_compute) ltac:(by vm_compute) ltac:(by vm_compute) ltac:(by vm_compute)
    ltac:(apply Forall_cons; split; [apply sub_takes; by vm_compute|apply Forall_cons; split; [apply sub_takes; by vm_compute|by apply Forall_nil]]))
    as (w' & s' & qos & payload & v' & H1 & H2 & H3 & H4).
  exists w', s', qos, payload, v'. split; [exact H1|]. split; [exact H2|]. split; [exact H3|]. exact H4.
Defined.
