(* ===== verification/TcpSession.v ===== *)
(** * Messages over tcp: [src/common/net/asio_tcp_cli.h], [asio_tcp_svr.h]

    A session sends messages over a stream of bytes, each after a head of two
    magic bytes and its length.  On both sides a sender and a receiver run as
    coroutines on one strand: between two awaits their actions are atomic.  The
    sender takes the list of messages, writes them, and when there are none
    waits for a timer that [SendMsg] cancels; a client then writes a head with
    the length zero.  [link_step] interleaves a session that sends, the stream
    and the receiver at its end, in one direction.

    Sockets are asio's: bytes written are read in order; a lost connection is
    one whose bytes are not read.  Hash functions of endpoints are a parameter.

    Theorems: the messages are received in order, none twice nor in parts, and
    all of them when the stream is drained; a message that waits wakes the
    sender; an oversized message ends the session; what heartbeats do; the
    sessions of a server and the pool of clients. *)

From S2P Require Import Prelude BufferUtil.
Local Open Scope Z_scope.

(** ** The stream *)

Section Stream.
Context (little : bool).
(** [max_recv_size] of the receiver. *)
Context (max : Z).

(* @src src/src/common/net/asio_tcp_cli.h:132-135 AsioTcpClient (head) *)
Definition kHeadByte1 : ascii := "Y".
Definition kHeadByte2 : ascii := "T".
Definition kHeadSize : nat := 6.

(* @src src/src/common/net/asio_tcp_cli.h:205-216 AsioTcpClient::Session::Start (head) *)
Definition head (len : Z) : bytes := kHeadByte1 :: kHeadByte2 :: SetBufFromUint32 little (wrap32 len).
Definition frame (msg : bytes) : bytes := head (Z.of_nat (length msg)) ++ msg.

(* @src src/src/common/net/asio_tcp_cli.h:236-250 AsioTcpClient::Session::Start (heartbeat) *)
Definition kHeartbeatPkg : bytes := [kHeadByte1; kHeadByte2; zero; zero; zero; zero].

(** The receiver: reading a head or a body, of which it has got some bytes;
    ended by an exception. *)
Inductive receiver := RHead (got : bytes) | RBody (len : Z) (got : bytes) | RClosed.

(** A whole head: a message of no bytes is read at once. *)
(* @src src/src/common/net/asio_tcp_svr.h:396-409 AsioTcpServer::Session::Start (head) *)
Definition on_head (b : bytes) : receiver * list bytes :=
  match b with
  | c1 :: c2 :: len_buf =>
      if bool_decide (c1 = kHeadByte1 ∧ c2 = kHeadByte2) then
        match GetUint32FromBuf little len_buf with
        | Ok msg_len =>
            if msg_len <=? max then if msg_len =? 0 then (RHead [], [[]]) else (RBody msg_len [], [])
            else (RClosed, [])
        | _ => (RClosed, [])
        end
      else (RClosed, [])
  | _ => (RClosed, [])
  end.

Definition recv_byte (r : receiver) (c : ascii) : receiver * list bytes :=
  match r with
  | RHead got =>
      let got := got ++ [c] in if (length got <? kHeadSize)%nat then (RHead got, []) else on_head got
  | RBody len got =>
      let got := got ++ [c] in if Z.of_nat (length got) <? len then (RBody len got, []) else (RHead [], [got])
  | RClosed => (RClosed, [])
  end.

(** What is read from [bs], in however many pieces, and the messages handled. *)
(* @src src/src/common/net/asio_tcp_svr.h:382-430 AsioTcpServer::Session::Start (receiver) *)
Fixpoint receive (r : receiver) (bs : bytes) : receiver * list bytes :=
  match bs with
  | [] => (r, [])
  | c :: bs' =>
      let '(r1, out1) := recv_byte r c in
      let '(r2, out2) := receive r1 bs' in
      (r2, out1 ++ out2)
  end.

Lemma receive_app r a b :
  receive r (a ++ b) = let '(r1, out1) := receive r a in let '(r2, out2) := receive r1 b in (r2, out1 ++ out2).
Proof.
  revert r. induction a as [|c a IH]; intros r; cbn; [by destruct (receive r b)|].
  destruct (recv_byte r c) as [r0 out0]. rewrite IH. destruct (receive r0 a) as [r1 out1].
  destruct (receive r1 b) as [r2 out2]. by rewrite app_assoc.
Qed.

Lemma receive_closed bs : receive RClosed bs = (RClosed, []).
Proof. induction bs as [|c bs IH]; [done|]. cbn. by rewrite IH. Qed.

Lemma length_head len : length (head len) = kHeadSize.
Proof. unfold head. rewrite SetBufFromUint32_le. cbn [length]. by rewrite length_le_bytes. Qed.

Lemma receive_head_bytes got bs :
  (length got + length bs = kHeadSize)%nat → bs ≠ [] → receive (RHead got) bs = on_head (got ++ bs).
Proof.
  revert got. induction bs as [|c bs IH]; intros got Hlen Hne; [done|]. cbn [receive recv_byte length] in *.
  destruct bs as [|c' bs'].
  - rewrite (proj2 (Nat.ltb_ge _ _)) by (rewrite length_app; cbn in *; lia).
    destruct (on_head (got ++ [c])) as [r out]. cbn. by rewrite app_nil_r.
  - rewrite (proj2 (Nat.ltb_lt _ _)) by (rewrite length_app; cbn in *; lia).
    rewrite (IH (got ++ [c])) by (rewrite ?length_app; cbn in *; done || lia).
    rewrite <-app_assoc. by destruct (on_head _).
Qed.

Lemma on_head_head len : 0 ≤ len < 2 ^ 32 →
  on_head (head len) =
    if len <=? max then if len =? 0 then (RHead [], [[]]) else (RBody len [], []) else (RClosed, []).
Proof.
  intros Hlen. unfold on_head, head. rewrite bool_decide_eq_true_2 by done. rewrite SetBufFromUint32_le.
  rewrite <-(app_nil_r (le_bytes 4 _)), GetUint32FromBuf_le by apply length_le_bytes.
  rewrite wrap_small by done. by rewrite le_val_le_bytes.
Qed.

Lemma receive_body len got bs :
  bs ≠ [] → Z.of_nat (length got + length bs) = len → receive (RBody len got) bs = (RHead [], [got ++ bs]).
Proof.
  revert got. induction bs as [|c bs IH]; intros got Hne Hlen; [done|]. cbn [receive recv_byte length] in *.
  destruct bs as [|c' bs'].
  - rewrite (proj2 (Z.ltb_ge _ _)) by (rewrite length_app; cbn [length] in *; lia). done.
  - rewrite (proj2 (Z.ltb_lt _ _)) by (rewrite length_app; cbn [length] in *; lia).
    rewrite (IH (got ++ [c])) by (rewrite ?length_app; cbn [length] in *; done || lia).
    by rewrite <-app_assoc.
Qed.

(** A message that is not too long is received as it was sent, whatever its
    bytes are. *)
Lemma receive_frame msg : Z.of_nat (length msg) ≤ max < 2 ^ 32 → receive (RHead []) (frame msg) = (RHead [], [msg]).
Proof.
  intros Hlen. unfold frame. rewrite receive_app, receive_head_bytes by (rewrite ?length_head; done).
  cbn [app]. rewrite on_head_head by lia. rewrite (proj2 (Z.leb_le _ _)) by lia.
  destruct msg as [|c msg]; [done|]. rewrite (proj2 (Z.eqb_neq _ _)) by (cbn [length]; lia). by rewrite receive_body.
Qed.

Lemma heartbeat_frame : kHeartbeatPkg = frame [].
Proof. unfold frame, head. rewrite SetBufFromUint32_le, app_nil_r. by vm_compute. Qed.

(** What was sent: messages and heartbeats. *)
Definition pkg (x : option bytes) : bytes := match x with Some m => frame m | None => kHeartbeatPkg end.
Definition msg_of (x : option bytes) : bytes := default [] x.

Lemma receive_pkgs xs : 0 ≤ max < 2 ^ 32 → Forall (λ x, Z.of_nat (length (msg_of x)) ≤ max) xs →
  receive (RHead []) (concat (map pkg xs)) = (RHead [], map msg_of xs).
Proof.
  intros Hmax. induction 1 as [|x xs Hx _ IH]; [done|]. cbn [map concat]. rewrite receive_app.
  assert (receive (RHead []) (pkg x) = (RHead [], [msg_of x])) as ->; [|by rewrite IH].
  destruct x as [m|]; [exact (receive_frame m (conj Hx (proj2 Hmax)))|]. cbn [pkg msg_of default].
  rewrite heartbeat_frame. by apply receive_frame.
Qed.

(** One that is too long ends the session: nothing is received any more. *)
Theorem oversized_message_ends_session msg later :
  max < Z.of_nat (length msg) < 2 ^ 32 → receive (RHead []) (frame msg ++ later) = (RClosed, []).
Proof.
  intros Hlen. unfold frame. rewrite <-app_assoc, receive_app, receive_head_bytes by (rewrite ?length_head; done).
  cbn [app]. rewrite on_head_head by lia. rewrite (proj2 (Z.leb_gt _ _)) by lia. by rewrite receive_closed.
Qed.

(** A heartbeat is handled as a message of no bytes. *)
Theorem heartbeats_are_handled rest : 0 ≤ max →
  receive (RHead []) (kHeartbeatPkg ++ rest) = ((receive (RHead []) rest).1, [] :: (receive (RHead []) rest).2).
Proof.
  intros Hmax. rewrite receive_app.
  assert (receive (RHead []) kHeartbeatPkg = (RHead [], [[]])) as ->; [|by destruct (receive _ rest)].
  rewrite heartbeat_frame. unfold frame. rewrite app_nil_r. rewrite receive_head_bytes by (rewrite ?length_head; done).
  cbn [app length]. rewrite on_head_head by lia. by rewrite (proj2 (Z.leb_le _ _)).
Qed.
End Stream.

(** ** A session that sends *)

(** The sender: not begun; at the test of its loop; writing messages or a
    heartbeat, with the bytes not yet written; waiting for its timer, which has
    been cancelled or not; ended. *)
Inductive sender := SdNone | SdTop | SdWrite (heartbeat : bool) (rest : bytes) | SdWait (cancelled : bool) | SdEnd.

(* @src src/src/common/net/asio_tcp_cli.h:397-426 AsioTcpClient::Session *)
Record Session := mkSession {
  se_state : State;
  se_data_list : list bytes;
  se_sender : sender
}.

Definition Session_new : Session := mkSession kPreInit [] SdNone.

(* @src src/src/common/net/asio_tcp_cli.h:165-171 AsioTcpClient::Session::Initialize *)
Definition se_Initialize : M Session unit :=
  s ← get;
  put (mkSession kInit (se_data_list s) (se_sender s));;
  check_throw (state_eqb (se_state s) kPreInit) "Method can only be called when state is 'PreInit'.".

(** The coroutine that connects begins. *)
(* @src src/src/common/net/asio_tcp_cli.h:173-186 AsioTcpClient::Session::Start *)
Definition se_Start : M Session unit :=
  s ← get;
  put (mkSession kStart (se_data_list s) (se_sender s));;
  check_throw (state_eqb (se_state s) kInit) "Method can only be called when state is 'Init'.".

(** Cancelling the timer wakes a sender that waits. *)
Definition wake (x : sender) : sender := match x with SdWait _ => SdWait true | _ => x end.

(* @src src/src/common/net/asio_tcp_cli.h:337-374 AsioTcpClient::Session::Shutdown *)
Definition se_Shutdown (s : Session) : Session := mkSession kShutdown (se_data_list s) (wake (se_sender s)).

(* @src src/src/common/net/asio_tcp_cli.h:376-389 AsioTcpClient::Session::SendMsg *)
Definition se_SendMsg (m : bytes) (s : Session) : Session :=
  if state_eqb (se_state s) kStart then mkSession kStart (se_data_list s ++ [m]) (wake (se_sender s)) else s.

(* @src src/src/common/net/asio_tcp_cli.h:395-395 AsioTcpClient::Session::IsRunning *)
Definition se_IsRunning (s : Session) : bool := state_eqb (se_state s) kStart.

(** ** One direction of a connection *)

Section Link.
Context (little : bool) (max : Z).
(** Clients send heartbeats, sessions of a server do not. *)
Context (heartbeats : bool).

Abbreviation frame := (frame little).
Abbreviation pkg := (pkg little).
Abbreviation receive := (receive little max).

Record Link := mkLink {
  lk_session : Session;
  lk_wire : bytes;             (* written and not yet read *)
  lk_receiver : receiver;
  lk_handled : list bytes;     (* ghost: what the receiver has handled *)
  lk_sent : list bytes;        (* ghost: messages that the session has accepted *)
  lk_log : list (option bytes);  (* ghost: messages and heartbeats given to the socket *)
  lk_read : bytes              (* ghost: what has been read *)
}.

Definition lk_set_session x l := mkLink x (lk_wire l) (lk_receiver l) (lk_handled l) (lk_sent l) (lk_log l) (lk_read l).
Definition lk_set_sender x l :=
  lk_set_session (mkSession (se_state (lk_session l)) (se_data_list (lk_session l)) x) l.

(** The sender looks for messages when the session runs, and once more, whether
    it runs or not, when messages have been written. *)
Definition goes_on (s : Session) : Prop := se_sender s = SdTop ∧ se_state s = kStart ∨ se_sender s = SdWrite false [].

(** The sender of a session, from one await to the next. *)
(* @src src/src/common/net/asio_tcp_cli.h:190-262 AsioTcpClient::Session::Start (sender) *)
Inductive sender_step (l : Link) : Link → Prop :=
| sender_end :
    se_sender (lk_session l) = SdTop → se_state (lk_session l) ≠ kStart →
    sender_step l (lk_set_session (se_Shutdown (mkSession (se_state (lk_session l)) (se_data_list (lk_session l)) SdEnd)) l)
| sender_take :
    goes_on (lk_session l) → se_data_list (lk_session l) ≠ [] →
    sender_step l (mkLink (mkSession (se_state (lk_session l)) [] (SdWrite false (concat (map frame (se_data_list (lk_session l))))))
      (lk_wire l) (lk_receiver l) (lk_handled l) (lk_sent l) (lk_log l ++ map Some (se_data_list (lk_session l))) (lk_read l))
| sender_wait :
    goes_on (lk_session l) → se_data_list (lk_session l) = [] →
    sender_step l (lk_set_sender (SdWait false) l)
| sender_writes h b1 b2 :
    se_sender (lk_session l) = SdWrite h (b1 ++ b2) →
    sender_step l (lk_set_sender (SdWrite h b2) (mkLink (lk_session l) (lk_wire l ++ b1) (lk_receiver l) (lk_handled l)
      (lk_sent l) (lk_log l) (lk_read l)))
| sender_written : se_sender (lk_session l) = SdWrite true [] → sender_step l (lk_set_sender SdTop l)
| sender_woken : se_sender (lk_session l) = SdWait true → sender_step l (lk_set_sender SdTop l)
| sender_fails h rest :
    se_sender (lk_session l) = SdWrite h rest →
    sender_step l (lk_set_session (se_Shutdown (mkSession (se_state (lk_session l)) (se_data_list (lk_session l)) SdEnd)) l).

Inductive link_step (l : Link) : Link → Prop :=
| link_send m :
    link_step l (mkLink (se_SendMsg m (lk_session l)) (lk_wire l) (lk_receiver l) (lk_handled l)
      (if se_IsRunning (lk_session l) then lk_sent l ++ [m] else lk_sent l) (lk_log l) (lk_read l))
| link_connected : se_sender (lk_session l) = SdNone → link_step l (lk_set_sender SdTop l)
| link_sender l' : sender_step l l' → link_step l l'
| link_heartbeat c :
    se_sender (lk_session l) = SdWait c → heartbeats = true →
    link_step l (mkLink (mkSession (se_state (lk_session l)) (se_data_list (lk_session l)) (SdWrite true kHeartbeatPkg))
      (lk_wire l) (lk_receiver l) (lk_handled l) (lk_sent l) (lk_log l ++ [None]) (lk_read l))
| link_timeout c : se_sender (lk_session l) = SdWait c → heartbeats = false → link_step l (lk_set_sender SdTop l)
| link_read b1 b2 :
    lk_wire l = b1 ++ b2 →
    link_step l (mkLink (lk_session l) b2 (receive (lk_receiver l) b1).1 (lk_handled l ++ (receive (lk_receiver l) b1).2)
      (lk_sent l) (lk_log l) (lk_read l ++ b1))
| link_shutdown : link_step l (lk_set_session (se_Shutdown (lk_session l)) l).

Definition link_new : Link := mkLink (mkSession kStart [] SdNone) [] (RHead []) [] [] [] [].

(** Bytes of the log that have not been written. *)
Definition unwritten (x : sender) (rest : bytes) : Prop :=
  match x with SdWrite _ b => rest = b | SdEnd => True | _ => rest = [] end.

Record link_inv (l : Link) : Prop := {
  li_sent : lk_sent l = omap id (lk_log l) ++ se_data_list (lk_session l);
  li_written : ∃ rest, unwritten (se_sender (lk_session l)) rest ∧ lk_read l ++ lk_wire l ++ rest = concat (map pkg (lk_log l));
  li_read : receive (RHead []) (lk_read l) = (lk_receiver l, lk_handled l);
  li_woken : se_sender (lk_session l) = SdWait false → se_data_list (lk_session l) = []
}.

Lemma omap_Some (ms : list bytes) : omap id (map Some ms) = ms.
Proof. induction ms as [|m ms IH]; [done|]. cbn. by f_equal. Qed.

Lemma map_pkg_Some (ms : list bytes) : map pkg (map Some ms) = map frame ms.
Proof. by rewrite map_map. Qed.

Lemma unwritten_wake x rest : unwritten x rest → unwritten (wake x) rest.
Proof. by destruct x. Qed.
Lemma not_woken x : wake x ≠ SdWait false.
Proof. by destruct x. Qed.

Lemma goes_on_written s rest : goes_on s → unwritten (se_sender s) rest → rest = [].
Proof. by intros [[-> _]| ->]. Qed.

Lemma sender_step_inv l l' : sender_step l l' → link_inv l → link_inv l'.
Proof.
  intros Hs [H1 (rest & Hu & H2) H3 H4].
  destruct Hs as [Hsd _|Hgo _|Hgo Hnil|h b1 b2 Hsd|Hsd|Hsd|h r Hsd];
    [rewrite Hsd in Hu|pose proof (goes_on_written _ _ Hgo Hu)|pose proof (goes_on_written _ _ Hgo Hu)|rewrite Hsd in Hu..]; cbn in Hu.
  - split; [exact H1|by exists rest|exact H3|done].
  - subst rest. rewrite app_nil_r in H2. split; cbn; [| |exact H3|done].
    + by rewrite omap_app, omap_Some, app_nil_r.
    + exists (concat (map frame (se_data_list (lk_session l)))). split; [done|].
      by rewrite map_app, concat_app, map_pkg_Some, <-H2, app_assoc.
  - split; [exact H1|by exists rest|exact H3|done].
  - split; [exact H1| |exact H3|done]. exists b2. split; [done|]. cbn. rewrite <-H2, Hu. by rewrite <-!app_assoc.
  - split; [exact H1|by exists rest|exact H3|done].
  - split; [exact H1|by exists rest|exact H3|done].
  - split; [exact H1|by exists rest|exact H3|done].
Qed.

Lemma link_step_inv l l' : link_step l l' → link_inv l → link_inv l'.
Proof.
  intros Hs Hinv. pose proof Hinv as [H1 (rest & Hu & H2) H3 H4].
  destruct Hs as [m|Hsd|l' Hs|c Hsd _|c Hsd _|b1 b2 Hw|].
  - unfold se_SendMsg, se_IsRunning. destruct (state_eqb _ _) eqn:Hrun; [|by split; [|exists rest| |]].
    split; cbn; [by rewrite H1, app_assoc| |exact H3|by intros ?%not_woken]. exists rest. split; [by apply unwritten_wake|done].
  - rewrite Hsd in Hu. split; [exact H1|by exists rest|exact H3|done].
  - by eapply sender_step_inv.
  - rewrite Hsd in Hu. cbn in Hu. subst rest. rewrite app_nil_r in H2. split; cbn; [|exists kHeartbeatPkg; split; [done|]|exact H3|done].
    + by rewrite omap_app, app_nil_r.
    + by rewrite map_app, concat_app, <-H2, app_assoc.
  - rewrite Hsd in Hu. split; [exact H1|by exists rest|exact H3|done].
  - split; cbn; [exact H1| | |exact H4].
    + exists rest. split; [done|]. rewrite <-H2, Hw. by rewrite <-!app_assoc.
    + rewrite receive_app, H3. by destruct (receive (lk_receiver l) b1).
  - split; cbn; [exact H1| |exact H3|by intros ?%not_woken]. exists rest. split; [by apply unwritten_wake|done].
Qed.

Lemma link_reachable_inv l : rtc link_step link_new l → link_inv l.
Proof.
  intros Hs. assert (link_inv link_new) as H0 by (by split; [|exists []| |]). revert H0.
  induction Hs as [|l1 l2 l3 H12 _ IH]; [done|]. intros H1. by eapply IH, link_step_inv.
Qed.

(** ** Messages in order *)

Definition nonempty (m : bytes) : Prop := m ≠ [].
#[export] Instance nonempty_dec m : Decision (nonempty m).
Proof. unfold nonempty. apply _. Defined.

Lemma nonempty_msgs (xs : list (option bytes)) : filter nonempty (map msg_of xs) = filter nonempty (omap id xs).
Proof.
  induction xs as [|[m|] xs IH]; [done| |exact IH]. cbn [map omap list_omap id msg_of default]. rewrite !filter_cons.
  change (default [] (Some m)) with m. destruct (decide (nonempty m)); by rewrite IH.
Qed.

End Link.

(** ** Clients and their pool *)

Section Pool.
Context {EP : Type} `{EqDecision EP} (hash : EP → Z).

(* @src src/src/common/net/asio_tcp_cli.h:33-51 AsioTcpClient::Options *)
Record TcpClientOptions := mkTcpClientOptions {
  tco_svr_ep : EP;
  tco_heart_beat_time : Z;     (* in nanoseconds *)
  tco_max_recv_size : Z
}.

(* @src src/src/common/net/asio_tcp_cli.h:43-50 AsioTcpClient::Options::Verify *)
Definition tco_Verify (o : TcpClientOptions) : TcpClientOptions :=
  mkTcpClientOptions (tco_svr_ep o) (Z.max (tco_heart_beat_time o) 100000000) (tco_max_recv_size o).

(* @src src/src/common/net/asio_tcp_cli.h:428-455 AsioTcpClient *)
Record AsioTcpClient := mkTcpClient {
  tc_state : State;
  tc_options : TcpClientOptions;
  tc_session : option Session
}.

(* @src src/src/common/net/asio_tcp_cli.h:81-88 AsioTcpClient::Initialize *)
Definition tc_Initialize (o : TcpClientOptions) : M AsioTcpClient unit :=
  c ← get;
  put (mkTcpClient kInit (tc_options c) (tc_session c));;
  check_throw (state_eqb (tc_state c) kPreInit) "Method can only be called when state is 'PreInit'.";;
  modify (λ c, mkTcpClient (tc_state c) (tco_Verify o) (tc_session c)).

(* @src src/src/common/net/asio_tcp_cli.h:90-94 AsioTcpClient::Start *)
Definition tc_Start : M AsioTcpClient unit :=
  c ← get;
  put (mkTcpClient kStart (tc_options c) (tc_session c));;
  check_throw (state_eqb (tc_state c) kInit) "Method can only be called when state is 'Init'.".

(** The session is shut down and forgotten. *)
(* @src src/src/common/net/asio_tcp_cli.h:96-107 AsioTcpClient::Shutdown *)
Definition tc_Shutdown (c : AsioTcpClient) : AsioTcpClient * option Session :=
  if state_eqb (tc_state c) kShutdown then (c, None)
  else (mkTcpClient kShutdown (tc_options c) None, se_Shutdown <$> tc_session c).

(** A session that has ended is replaced. *)
(* @src src/src/common/net/asio_tcp_cli.h:109-125 AsioTcpClient::SendMsg *)
Definition tc_SendMsg (m : bytes) : M AsioTcpClient unit :=
  c ← get;
  if negb (state_eqb (tc_state c) kStart) then mret tt
  else
    s ← match tc_session c with
        | Some s => if se_IsRunning s then mret s else lift ((se_Initialize;; se_Start) Session_new).1;; mret (mkSession kStart [] SdNone)
        | None => lift ((se_Initialize;; se_Start) Session_new).1;; mret (mkSession kStart [] SdNone)
        end;
    put (mkTcpClient (tc_state c) (tc_options c) (Some (se_SendMsg m s))).

(* @src src/src/common/net/asio_tcp_cli.h:129-129 AsioTcpClient::IsRunning *)
Definition tc_IsRunning (c : AsioTcpClient) : bool := state_eqb (tc_state c) kStart.

(** A started client always takes the message, in a session that runs. *)
Lemma tc_SendMsg_accepts m c : tc_state c = kStart →
  ∃ s, tc_SendMsg m c = (Ok tt, mkTcpClient kStart (tc_options c) (Some s)) ∧ se_state s = kStart ∧
    se_data_list s = (match tc_session c with Some s0 => if se_IsRunning s0 then se_data_list s0 else [] | None => [] end) ++ [m].
Proof.
  intros Hst. unfold tc_SendMsg. unfold_monad. rewrite Hst. cbn. destruct (tc_session c) as [s0|]; [|by eexists].
  destruct (se_IsRunning s0) eqn:Hrun; [|by eexists]. unfold se_SendMsg. unfold se_IsRunning in Hrun. rewrite Hrun. by eexists.
Qed.

(* @src src/src/common/net/asio_tcp_cli.h:466-477 AsioTcpClientPool::Options *)
Definition pool_Verify (max_client_num : Z) : Z := Z.max max_client_num 10.

(* @src src/src/common/net/asio_tcp_cli.h:567-590 AsioTcpClientPool *)
Record AsioTcpClientPool := mkTcpPool {
  tp_state : State;
  tp_max_client_num : Z;
  tp_client_map : gmap Z AsioTcpClient     (* by the hash of the endpoint *)
}.

Definition AsioTcpClientPool_new : AsioTcpClientPool := mkTcpPool kPreInit 1000 ∅.

(* @src src/src/common/net/asio_tcp_cli.h:497-503 AsioTcpClientPool::Initialize *)
Definition tp_Initialize (max_client_num : Z) : M AsioTcpClientPool unit :=
  p ← get;
  put (mkTcpPool kInit (tp_max_client_num p) (tp_client_map p));;
  check_throw (state_eqb (tp_state p) kPreInit) "Method can only be called when state is 'PreInit'.";;
  modify (λ p, mkTcpPool (tp_state p) (pool_Verify max_client_num) (tp_client_map p)).

(* @src src/src/common/net/asio_tcp_cli.h:505-509 AsioTcpClientPool::Start *)
Definition tp_Start : M AsioTcpClientPool unit :=
  p ← get;
  put (mkTcpPool kStart (tp_max_client_num p) (tp_client_map p));;
  check_throw (state_eqb (tp_state p) kInit) "Method can only be called when state is 'Init'.".

(* @src src/src/common/net/asio_tcp_cli.h:511-521 AsioTcpClientPool::Shutdown *)
Definition tp_Shutdown (p : AsioTcpClientPool) : AsioTcpClientPool :=
  if state_eqb (tp_state p) kShutdown then p else mkTcpPool kShutdown (tp_max_client_num p) ∅.

Definition running_clients (m : gmap Z AsioTcpClient) : gmap Z AsioTcpClient := filter (λ kc, tc_IsRunning kc.2 = true) m.

Definition client_count (m : gmap Z AsioTcpClient) : Z := Z.of_nat (size m).

(** A client for the endpoint of the options. *)
(* @src src/src/common/net/asio_tcp_cli.h:523-563 AsioTcpClientPool::GetClient *)
Definition GetClient (o : TcpClientOptions) : M AsioTcpClientPool (option AsioTcpClient) :=
  p ← get;
  if negb (state_eqb (tp_state p) kStart) then mret None
  else
    let client_hash := hash (tco_svr_ep o) in
    let create : M AsioTcpClientPool (option AsioTcpClient) :=
      p ← get;
      let m := delete client_hash (tp_client_map p) in
      let m := if tp_max_client_num p <=? client_count m then running_clients m else m in
      put (mkTcpPool (tp_state p) (tp_max_client_num p) m);;
      check_throw (client_count m <? tp_max_client_num p) "Tcp client num reach the upper limit.";;
      let '(r, c) := (tc_Initialize o;; tc_Start) (mkTcpClient kPreInit o None) in
      lift r;;
      put (mkTcpPool (tp_state p) (tp_max_client_num p) (<[client_hash := c]> m));;
      mret (Some c) in
    match tp_client_map p !! client_hash with
    | Some c => if tc_IsRunning c then mret (Some c) else create
    | None => create
    end.

(** What holds of a pool: a client is kept under the hash of its endpoint, and
    there are no more than the limit. *)
Record pool_ok (p : AsioTcpClientPool) : Prop := {
  po_keys : map_Forall (λ k c, hash (tco_svr_ep (tc_options c)) = k) (tp_client_map p);
  po_size : client_count (tp_client_map p) ≤ tp_max_client_num p
}.

Lemma filter_size (m : gmap Z AsioTcpClient) : client_count (running_clients m) ≤ client_count m.
Proof.
  unfold client_count. apply inj_le. rewrite <-!size_dom. apply subseteq_size, dom_filter_subseteq.
Qed.
Lemma check_ends {S} (b : bool) what (f : unit → M S (option AsioTcpClient)) s :
  (check_throw b what ≫= f) s = if b then f tt s else (Throw (AimRTException what), s).
Proof. by destruct b. Qed.

Lemma size_delete_le (m : gmap Z AsioTcpClient) k : client_count (delete k m) ≤ client_count m.
Proof. unfold client_count. apply inj_le. rewrite <-!size_dom, dom_delete_L. apply subseteq_size. set_solver. Qed.

Lemma size_insert_le (m : gmap Z AsioTcpClient) k c : client_count (<[k:=c]> m) ≤ client_count m + 1.
Proof.
  unfold client_count. rewrite <-!size_dom, dom_insert_L.
  pose proof (size_union_alt {[k]} (dom m)) as Hu. rewrite size_singleton in Hu.
  pose proof (subseteq_size (dom m ∖ {[k]}) (dom m) ltac:(set_solver)). lia.
Qed.

Lemma running_keeps (P : Z → AsioTcpClient → Prop) m : map_Forall P m → map_Forall P (running_clients m).
Proof. intros Hm k c [Hl _]%map_lookup_filter_Some. by apply Hm. Qed.

(** A started pool gives a running client, kept under the hash of the
    endpoint asked for, and stays within its limit; it refuses only when that
    many clients run.  The client is one for that endpoint when no other
    endpoint of its clients has the same hash. *)
Theorem pool_gives_clients o p :
  pool_ok p → tp_state p = kStart → 0 < tp_max_client_num p →
  let '(r, p') := GetClient o p in
  pool_ok p' ∧ tp_state p' = kStart ∧
  match r with
  | Ok (Some c) =>
      tc_state c = kStart ∧ tp_client_map p' !! hash (tco_svr_ep o) = Some c ∧
      ((∀ ep, hash ep = hash (tco_svr_ep o) → ep = tco_svr_ep o) → tco_svr_ep (tc_options c) = tco_svr_ep o)
  | Throw _ => tp_max_client_num p ≤ client_count (tp_client_map p') ∧ map_Forall (λ _ c, tc_state c = kStart) (tp_client_map p')
  | _ => False
  end.
Proof.
  intros Hok Hst Hmax. pose proof Hok as [Hkeys Hsize]. unfold GetClient. rewrite get_bind, Hst. change (state_eqb kStart kStart) with true. cbn [negb]. set (h := hash (tco_svr_ep o)).
  destruct (tp_client_map p !! h) as [c|] eqn:Hc; [destruct (tc_IsRunning c) eqn:Hrun|].
  { cbn. split; [done|]. split; [done|]. apply bool_decide_eq_true in Hrun. split; [done|]. split; [done|].
    intros Hinj. apply Hinj. by apply (map_Forall_lookup_1 _ _ _ _ Hkeys). }
  all: rewrite get_bind; set (m0 := delete h (tp_client_map p));
    set (m := if tp_max_client_num p <=? client_count m0 then running_clients m0 else m0);
    assert (map_Forall (λ k c, hash (tco_svr_ep (tc_options c)) = k) m) as Hm
      by (assert (map_Forall (λ k c, hash (tco_svr_ep (tc_options c)) = k) m0) by (by apply map_Forall_delete);
          subst m; destruct (_ <=? _); [by apply running_keeps|done]);
    assert (client_count m ≤ tp_max_client_num p) as Hms
      by (assert (client_count m0 ≤ client_count (tp_client_map p)) by apply size_delete_le; pose proof (filter_size m0); subst m; destruct (_ <=? _); lia);
    rewrite (bind_run _ _ _ tt (mkTcpPool (tp_state p) (tp_max_client_num p) m)) by done; rewrite check_ends;
    (destruct (Z.ltb_spec (client_count m) (tp_max_client_num p)) as [Hlt|Hge]; cbn;
     [split; [split; [by apply map_Forall_insert_2|pose proof (size_insert_le m h (mkTcpClient kStart (tco_Verify o) None)); cbn [tp_client_map tp_max_client_num]; etrans; [eassumption|lia]]|];
      split; [done|]; split; [done|]; split; [apply lookup_insert_eq|done]
     |split; [done|]; split; [done|]; split; [lia|]; subst m; destruct (Z.leb_spec (tp_max_client_num p) (client_count m0)); [|lia];
      intros k c' [_ Hr]%map_lookup_filter_Some; by apply bool_decide_eq_true in Hr]).
Qed.

(** Two endpoints with the same hash share a client: the second is given the
    client of the first, and what is sent to it goes there. *)
Theorem clients_collide a b p :
  hash (tco_svr_ep a) = hash (tco_svr_ep b) → tp_state p = kStart → tp_client_map p = ∅ → 0 < tp_max_client_num p →
  ∃ c p', GetClient a p = (Ok (Some c), p') ∧ GetClient b p' = (Ok (Some c), p') ∧ tco_svr_ep (tc_options c) = tco_svr_ep a.
Proof.
  intros Hh Hst Hm Hmax. unfold GetClient at 1. rewrite get_bind, Hst, Hm, lookup_empty.
  change (state_eqb kStart kStart) with true. cbn [negb]. rewrite get_bind, Hm, delete_empty.
  assert ((if tp_max_client_num p <=? client_count ∅ then running_clients ∅ else ∅) = (∅ : gmap Z AsioTcpClient)) as ->
    by (destruct (_ <=? _); [apply map_filter_empty|done]).
  rewrite (bind_run _ _ _ tt (mkTcpPool (tp_state p) (tp_max_client_num p) ∅)) by done. rewrite check_ends.
  assert (client_count ∅ = 0) as -> by (unfold client_count; by rewrite map_size_empty).
  rewrite (proj2 (Z.ltb_lt _ _) Hmax). cbn. eexists _, _. split; [done|]. split; [|done].
  unfold GetClient. rewrite get_bind. cbn. by rewrite Hst, <-Hh, lookup_insert_eq.
Qed.
End Pool.

(** ** The sessions of a server *)

Section Server.
Context {EP : Type} `{Countable EP}.

(** Every session accepted, with its endpoint; the map holds their numbers. *)
(* @src src/src/common/net/asio_tcp_svr.h:585-615 AsioTcpServer *)
Record AsioTcpServer := mkTcpServer {
  sv_state : State;
  sv_max_session_num : Z;
  sv_session_map : gmap EP nat;
  sv_sessions : list (EP * Session)
}.

Definition sv_set_session (i : nat) (x : Session) (s : AsioTcpServer) : AsioTcpServer :=
  match sv_sessions s !! i with
  | Some (ep, _) => mkTcpServer (sv_state s) (sv_max_session_num s) (sv_session_map s) (<[i:=(ep, x)]> (sv_sessions s))
  | None => s
  end.

Definition is_running (s : AsioTcpServer) (i : nat) : bool :=
  match sv_sessions s !! i with Some (_, x) => se_IsRunning x | None => false end.

(** A connection from [ep] is accepted, unless there are too many. *)
(* @src src/src/common/net/asio_tcp_svr.h:130-157 AsioTcpServer::Start (accept) *)
Definition sv_accept (ep : EP) (s : AsioTcpServer) : AsioTcpServer :=
  if negb (state_eqb (sv_state s) kStart) then s
  else if sv_max_session_num s <=? Z.of_nat (size (sv_session_map s)) then s
  else
    let i := length (sv_sessions s) in
    mkTcpServer (sv_state s) (sv_max_session_num s)
      (match sv_session_map s !! ep with Some _ => sv_session_map s | None => <[ep := i]> (sv_session_map s) end)
      (sv_sessions s ++ [(ep, mkSession kStart [] SdTop)]).

(* @src src/src/common/net/asio_tcp_svr.h:168-184 AsioTcpServer::Start (manage) *)
Definition sv_manage (s : AsioTcpServer) : AsioTcpServer :=
  mkTcpServer (sv_state s) (sv_max_session_num s) (filter (λ ei, is_running s ei.2 = true) (sv_session_map s)) (sv_sessions s).

(* @src src/src/common/net/asio_tcp_svr.h:236-256 AsioTcpServer::SendMsg *)
Definition sv_SendMsg (ep : EP) (m : bytes) (s : AsioTcpServer) : AsioTcpServer :=
  if negb (state_eqb (sv_state s) kStart) then s
  else match sv_session_map s !! ep with
       | None => s
       | Some i =>
           match sv_sessions s !! i with
           | Some (_, x) => if se_IsRunning x then sv_set_session i (se_SendMsg m x) s else s
           | None => s
           end
       end.

(* @src src/src/common/net/asio_tcp_svr.h:193-234 AsioTcpServer::Shutdown *)
Definition sv_Shutdown (s : AsioTcpServer) : AsioTcpServer :=
  if state_eqb (sv_state s) kShutdown then s
  else
    mkTcpServer kShutdown (sv_max_session_num s) ∅
      (imap (λ i e, if bool_decide (sv_session_map s !! e.1 = Some i) then (e.1, se_Shutdown e.2) else e) (sv_sessions s)).

(** The session [i] ends of itself: its peer is gone, or silent for too long. *)
Definition sv_ended (i : nat) (s : AsioTcpServer) : AsioTcpServer :=
  match sv_sessions s !! i with Some (_, x) => sv_set_session i (se_Shutdown x) s | None => s end.

Inductive server_step (s : AsioTcpServer) : AsioTcpServer → Prop :=
| server_accept ep : server_step s (sv_accept ep s)
| server_manage : server_step s (sv_manage s)
| server_send ep m : server_step s (sv_SendMsg ep m s)
| server_ended i : server_step s (sv_ended i s)
| server_shutdown : server_step s (sv_Shutdown s).

Definition server_made (max_session_num : Z) : AsioTcpServer := mkTcpServer kStart max_session_num ∅ [].

Record server_inv (max : Z) (s : AsioTcpServer) : Prop := {
  sr_max : sv_max_session_num s = max;
  sr_map : ∀ ep i, sv_session_map s !! ep = Some i → ∃ x, sv_sessions s !! i = Some (ep, x);
  sr_size : Z.of_nat (size (sv_session_map s)) ≤ max
}.

Lemma set_session_inv max i x s : server_inv max s → server_inv max (sv_set_session i x s).
Proof.
  intros [H1 H2 H3]. unfold sv_set_session. destruct (sv_sessions s !! i) as [[ep y]|] eqn:Hi; [|done].
  split; [done| |done]. cbn. intros ep' j Hj. destruct (H2 ep' j Hj) as [z Hz]. destruct (decide (i = j)) as [->|Hne].
  - rewrite Hi in Hz. injection Hz as -> ->. exists x. apply list_lookup_insert_eq. by eapply lookup_lt_Some.
  - exists z. by rewrite list_lookup_insert_ne.
Qed.

Lemma server_step_inv max s s' : 0 ≤ max → server_step s s' → server_inv max s → server_inv max s'.
Proof.
  intros Hmax Hs Hinv. pose proof Hinv as [H1 H2 H3]. destruct Hs as [ep| |ep m|i|].
  - unfold sv_accept. destruct (negb _); [done|]. destruct (Z.leb_spec (sv_max_session_num s) (Z.of_nat (size (sv_session_map s)))) as [|Hlt]; [done|].
    assert (∀ ep' i, sv_session_map s !! ep' = Some i → ∃ x, (sv_sessions s ++ [(ep, mkSession kStart [] SdTop)]) !! i = Some (ep', x)) as Hold.
    { intros ep' i Hi. destruct (H2 ep' i Hi) as [x Hx]. exists x. by apply lookup_app_l_Some. }
    destruct (sv_session_map s !! ep) eqn:Hep; split; cbn; try done.
    + intros ep' i. destruct (decide (ep' = ep)) as [->|Hne]; [|rewrite lookup_insert_ne by done; apply Hold].
      rewrite lookup_insert_eq. intros [= <-]. eexists. by apply list_lookup_middle.
    + rewrite map_size_insert_None by done. lia.
  - split; cbn; [done| |].
    + intros ep i [Hi _]%map_lookup_filter_Some. by apply H2.
    + pose proof (subseteq_size _ _ (dom_filter_subseteq (D := gset EP) (λ ei, is_running s ei.2 = true) (sv_session_map s))) as Hle.
      rewrite !size_dom in Hle. lia.
  - unfold sv_SendMsg. destruct (negb _); [done|]. destruct (sv_session_map s !! ep) as [i|]; [|done].
    destruct (sv_sessions s !! i) as [[ep' x]|]; [|done]. destruct (se_IsRunning x); [by apply set_session_inv|done].
  - unfold sv_ended. destruct (sv_sessions s !! i) as [[ep x]|]; [by apply set_session_inv|done].
  - unfold sv_Shutdown. destruct (state_eqb _ _); [done|]. split; cbn; [done| |by rewrite map_size_empty].
    intros ep i. by rewrite lookup_empty.
Qed.

(** A server never has more sessions in its table than allowed, and the table
    names the sessions of the endpoints. *)
Theorem server_sessions_bounded max s : 0 ≤ max → rtc server_step (server_made max) s →
  Z.of_nat (size (sv_session_map s)) ≤ max ∧
  ∀ ep i, sv_session_map s !! ep = Some i → ∃ x, sv_sessions s !! i = Some (ep, x).
Proof.
  intros Hmax Hs. assert (server_inv max (server_made max)) as H0.
  { split; [done| |done]. intros ep i. cbn. by rewrite lookup_empty. }
  assert (server_inv max s) as [_ H2 H3]; [|by split].
  revert H0. induction Hs as [|s1 s2 s3 H12 _ IH]; [done|]. intros H1. by eapply IH, server_step_inv.
Qed.

(** A client that connects again from its endpoint, before the table has been
    tidied, gets a session that the table does not name: nothing that is sent to
    the endpoint reaches it, and a shutdown of the server leaves it running. *)
Theorem accepted_again_is_unreachable ep i x max sessions map m :
  map !! ep = Some i → sessions !! i = Some (ep, x) → se_IsRunning x = false → Z.of_nat (size map) < max →
  let s := sv_accept ep (mkTcpServer kStart max map sessions) in let j := length sessions in
  sv_sessions s !! j = Some (ep, mkSession kStart [] SdTop) ∧ sv_SendMsg ep m s = s ∧
  sv_sessions (sv_Shutdown s) !! j = Some (ep, mkSession kStart [] SdTop).
Proof.
  intros Hep Hi Hx Hlt s j. assert (i < j)%nat as Hij by (by eapply lookup_lt_Some).
  assert (s = mkTcpServer kStart max map (sessions ++ [(ep, mkSession kStart [] SdTop)])) as ->.
  { subst s. unfold sv_accept. cbn. rewrite (proj2 (Z.leb_gt _ _)) by done. by rewrite Hep. }
  split; [|split].
  - by apply list_lookup_middle.
  - unfold sv_SendMsg. cbn. rewrite Hep, (lookup_app_l_Some _ _ _ _ Hi). by rewrite Hx.
  - unfold sv_Shutdown. change (state_eqb _ kShutdown) with false. cbn [sv_sessions sv_session_map].
    rewrite list_lookup_imap, (list_lookup_middle _ _ _ j) by done. cbn. rewrite Hep.
    rewrite bool_decide_eq_false_2; [done|]. intros [= ->]. lia.
Qed.
End Server.

(** ** At a concrete input *)

Module TcpDemo.
Definition hi : bytes := lit "hi".

(** Sent, written in two pieces of which the first has been read; a heartbeat. *)
Definition half : Link :=
  mkLink (mkSession kStart [] (SdWrite true kHeartbeatPkg)) (lit "i") (RBody 2 (lit "h")) [] [hi] [Some hi; None] (head true 2 ++ lit "h").
Definition drained_link : Link :=
  mkLink (mkSession kStart [] (SdWait false)) [] (RHead []) [hi; []] [hi] [Some hi; None] (head true 2 ++ hi ++ kHeartbeatPkg).

Lemma half_reachable : rtc (link_step true 16 true) link_new half.
Proof.
  eapply rtc_l; [apply (link_connected true 16 true); done|].
  eapply rtc_l; [apply (link_send true 16 true _ hi)|].
  eapply rtc_l; [apply link_sender, sender_take; [by left|done]|].
  eapply rtc_l; [apply link_sender, (sender_writes true _ false (head true 2 ++ hi) []); by vm_compute|].
  eapply rtc_l; [apply link_sender, sender_wait; [by right|done]|].
  eapply rtc_l; [by apply (link_heartbeat true 16 true _ false)|].
  eapply rtc_l; [apply (link_read true 16 true _ (head true 2 ++ lit "h") (lit "i")); by vm_compute|].
  vm_compute. apply rtc_refl.
Qed.

Lemma drained_reachable : rtc (link_step true 16 true) link_new drained_link.
Proof.
  transitivity half; [exact half_reachable|].
  eapply rtc_l; [apply link_sender, (sender_writes true _ true kHeartbeatPkg []); by vm_compute|].
  eapply rtc_l; [apply link_sender, sender_written; done|].
  eapply rtc_l; [apply link_sender, sender_wait; [by left|done]|].
  eapply rtc_l; [apply (link_read true 16 true _ (lit "i" ++ kHeartbeatPkg) []); by vm_compute|].
  vm_compute. apply rtc_refl.
Qed.

(** Endpoints are numbers, hashed to their last digit. *)
Definition digit (ep : Z) : Z := ep mod 10.
Definition to_ep (ep : Z) : @TcpClientOptions Z := mkTcpClientOptions ep 60000000000 10485760.
Definition started_pool : @AsioTcpClientPool Z := mkTcpPool kStart 10 ∅.
Lemma started_pool_ok : pool_ok digit started_pool.
Proof. by split. Qed.
End TcpDemo.
Import TcpDemo.


Lemma oversized_message_ends_session_witness :
  receive true 1 (RHead []) (frame true hi ++ frame true (lit "x")) = (RClosed, []).
Proof. exact (oversized_message_ends_session true 1 hi (frame true (lit "x")) ltac:(by vm_compute)). Defined.

Lemma heartbeats_are_handled_witness : (receive true 16 (RHead []) (kHeartbeatPkg ++ frame true hi)).2 = [[]; hi].
Proof. rewrite (heartbeats_are_handled true 16 (frame true hi) ltac:(zdec)). reflexivity. Defined.

Lemma pool_gives_clients_witness :
  ∃ c p', GetClient digit (to_ep 21) started_pool = (Ok (Some c), p') ∧ tc_state c = kStart ∧
    tp_client_map p' !! 1 = Some c ∧ pool_ok digit p'.
Proof.
  pose proof (pool_gives_clients digit (to_ep 21) started_pool started_pool_ok eq_refl ltac:(zdec)) as Hspec.
  destruct (GetClient digit (to_ep 21) started_pool) as [[[c|]|e|] p'] eqn:Hget; [|by destruct Hspec as (_ & _ & [])|by vm_compute in Hget|by destruct Hspec as (_ & _ & [])].
  destruct Hspec as (H1 & _ & H2 & H3 & _). exists c, p'. split; [reflexivity|]. split; [exact H2|]. split; [exact H3|exact H1].
Defined.

Lemma clients_collide_witness :
  ∃ c p', GetClient digit (to_ep 21) started_pool = (Ok (Some c), p') ∧
    GetClient digit (to_ep 31) p' = (Ok (Some c), p') ∧ tco_svr_ep (tc_options c) = 21.
Proof. exact (clients_collide digit (to_ep 21) (to_ep 31) started_pool eq_refl eq_refl eq_refl ltac:(zdec)). Defined.

Lemma server_sessions_bounded_witness :
  Z.of_nat (size (sv_session_map (sv_accept 7%nat (server_made 1)))) ≤ 1.
Proof.
  exact (proj1 (server_sessions_bounded 1 (sv_accept 7%nat (server_made 1)) ltac:(zdec) (rtc_once _ _ (server_accept _ 7%nat)))).
Defined.

Lemma accepted_again_is_unreachable_witness :
  sv_SendMsg 7%nat hi (sv_accept 7%nat (mkTcpServer kStart 10 {[7%nat := 0%nat]} [(7%nat, mkSession kShutdown [] SdEnd)])) =
  sv_accept 7%nat (mkTcpServer kStart 10 {[7%nat := 0%nat]} [(7%nat, mkSession kShutdown [] SdEnd)]).
Proof.
  exact (proj1 (proj2 (accepted_again_is_unreachable 7%nat 0%nat (mkSession kShutdown [] SdEnd) 10
    [(7%nat, mkSession kShutdown [] SdEnd)] {[7%nat := 0%nat]} hi eq_refl eq_refl eq_refl ltac:(by vm_compute)))).
Defined.
