(* ===== verification/NetChannel.v ===== *)
(** * The tcp and udp channel backends: [src/plugins/net_plugin/tcp/tcp_channel_backend.*],
    [udp/udp_channel_backend.*], [msg_handle_registry.h]

    A message is sent as a package of its path - of its topic and its type -,
    its serialization type, its metadata and its bytes, to the servers that the
    options name for the topic or the publisher's metadata name; a process that
    listens finds the path's subscribers in a registry.  Both backends have the
    same code over different transports: [Proto] tells them apart.  What is
    given to the clients of the transport is a ghost field; [TcpSession] says
    how a message gets over a connection.

    Parameters: regular expressions, [make_address] of asio (up to the first
    NUL), the order of [unordered_map], the byte order, the addresses of buffers.

    Theorems: what is sent on every branch; a message sent, framed and received
    reaches every subscriber once with all of its metadata; heartbeats reach
    none; paths that belong to other topics. *)

From S2P Require Import Prelude Yaml Filters Channel ChannelBackend LocalChannel BufferUtil StringUtil Url.
From S2P Require Import MqttWire MqttRegistry MqttChannel TcpSession.
Local Open Scope Z_scope.

Inductive Proto := Tcp | Udp.

#[export] Instance proto_eq_dec : EqDecision Proto.
Proof. solve_decision. Defined.

Definition proto_name (p : Proto) : string := match p with Tcp => "tcp" | Udp => "udp" end.
Definition proto_prefix (p : Proto) : bytes := lit (proto_name p ++ "://").

(** ** Numbers in addresses *)

Definition isspace (c : ascii) : bool := bool_decide (c ∈ map ascii_of_nat [32; 9; 10; 11; 12; 13]%nat).
Fixpoint skip_space (s : bytes) : bytes :=
  match s with c :: s' => if isspace c then skip_space s' else s | [] => [] end.

(** A sign and digits, after spaces; [None] when there are no digits. *)
Definition scan_int (s : bytes) : option Z :=
  let s := skip_space s in
  let sign := match s with c :: _ => bool_decide (c = "-"%char) || bool_decide (c = "+"%char) | [] => false end in
  let neg := match s with c :: _ => bool_decide (c = "-"%char) | [] => false end in
  let '(v, any, _) := scan_digits (if sign then tail s else s) 0 false in
  if any then Some (if neg then - v else v) else None.

Definition is_int (z : Z) : bool := (- 2 ^ 31 <=? z) && (z <? 2 ^ 31).

(** [atoi] and [std::stoi]. *)
Definition atoi (s : bytes) : res Z :=
  match scan_int s with None => Ok 0 | Some v => if is_int v then Ok v else Undef end.
Definition stoi (s : bytes) : res Z :=
  match scan_int s with
  | None => Throw (RuntimeError "stoi")
  | Some v => if is_int v then Ok v else Throw (RuntimeError "stoi")
  end.

(** ** Options *)

(* @src src/src/plugins/net_plugin/tcp/tcp_channel_backend.h:18-25 TcpChannelBackend::Options *)
Record NetTopicOptions := mkNetTopicOptions { nto_topic_name : string; nto_server_url_list : list string }.

Section NetOptions.
Context `{Y : YamlOps node}.

Definition net_topic_options_of (n : node) : res NetTopicOptions :=
  t ← as_of as_string (index n "topic_name");
  us ← as_of as_strings (index n "server_url_list");
  Ok (mkNetTopicOptions t us).

(* @src src/src/plugins/net_plugin/tcp/tcp_channel_backend.cc:33-45 convert<TcpChannelBackend::Options>::decode *)
Definition net_decode (n : node) (rhs : list NetTopicOptions) : res (option (list NetTopicOptions)) :=
  ps ← each_of n "pub_topics_options" net_topic_options_of rhs;
  Ok (Some ps).

(* @src src/src/plugins/net_plugin/udp/udp_channel_backend.cc:32-44 convert<UdpChannelBackend::Options>::decode *)
Definition udp_decode : node → list NetTopicOptions → res (option (list NetTopicOptions)) := net_decode.
End NetOptions.

(** ** The state *)

Section NetState.
Context {Addr : Type}.

(** An address and a port. *)
Abbreviation Endpoint := (Addr * Z)%type.

(** The handlers by path, where a handler is its path; and whether the server,
    the registry and the pool of clients have been shut down. *)
(* @src src/src/plugins/net_plugin/tcp/tcp_channel_backend.h:55-82 TcpChannelBackend *)
Record NetChannelBackend := mkNet {
  nb_options : list NetTopicOptions;
  nb_state : State;
  nb_server : bool;                            (* tcp_svr_ptr_ is not null *)
  nb_handlers : gmap string string;            (* msg_handle_map_ *)
  nb_shutdown : bool;
  nb_subs : gmap string (list Key);            (* tcp_subscribe_wrapper_map_ *)
  nb_pub_cfg : gmap string (list Endpoint);    (* pub_cfg_info_map_ *)
  nb_sent : list (Endpoint * bytes)
}.

Definition NetChannelBackend_new (server : bool) : NetChannelBackend := mkNet [] kPreInit server ∅ false ∅ ∅ [].

Definition nb_set_options x b := mkNet x (nb_state b) (nb_server b) (nb_handlers b) (nb_shutdown b) (nb_subs b) (nb_pub_cfg b) (nb_sent b).
Definition nb_set_state x b := mkNet (nb_options b) x (nb_server b) (nb_handlers b) (nb_shutdown b) (nb_subs b) (nb_pub_cfg b) (nb_sent b).
Definition nb_set_subs hs x b := mkNet (nb_options b) (nb_state b) (nb_server b) hs (nb_shutdown b) x (nb_pub_cfg b) (nb_sent b).
Definition nb_set_shutdown x b := mkNet (nb_options b) (nb_state b) (nb_server b) (nb_handlers b) x (nb_subs b) (nb_pub_cfg b) (nb_sent b).
Definition nb_set_pub_cfg x b := mkNet (nb_options b) (nb_state b) (nb_server b) (nb_handlers b) (nb_shutdown b) (nb_subs b) x (nb_sent b).
Definition nb_set_sent x b := mkNet (nb_options b) (nb_state b) (nb_server b) (nb_handlers b) (nb_shutdown b) (nb_subs b) (nb_pub_cfg b) x.
End NetState.
Arguments NetChannelBackend : clear implicits.

Class HasNetChannel (Addr S : Type) `{HasContexts S} := {
  nc : S → NetChannelBackend Addr;
  set_nc : NetChannelBackend Addr → S → S;
  nc_set_nc b s : nc (set_nc b s) = b;
  nc_set_ctxs m s : nc (set_ctxs m s) = nc s;
  ctxs_set_nc b s : ctxs (set_nc b s) = ctxs s
}.

(** ** Life cycle and registration *)

Section NetLifeCycle.
Context {Addr Msg S : Type} `{YamlOps node}.
Context (proto : Proto) (regex_match : string → string → res bool) (make_address : bytes → res Addr).
Abbreviation B := (M (NetChannelBackend Addr)).

Definition net_exchange (new old : State) (what : string) : B unit :=
  b ← get;
  modify (nb_set_state new);;
  check_throw (state_eqb (nb_state b) old) what.

(* @src src/src/plugins/net_plugin/tcp/tcp_channel_backend.cc:51-60 TcpChannelBackend::Initialize *)
Definition net_Initialize (options_node : option node) : B unit :=
  net_exchange kInit kPreInit "Tcp channel backend can only be initialized once.";;
  o ← lift (read_options net_decode [] options_node);
  modify (λ b, nb_set_options (default (nb_options b) o) b).

(* @src src/src/plugins/net_plugin/tcp/tcp_channel_backend.cc:62-66 TcpChannelBackend::Start *)
Definition net_Start : B unit := net_exchange kStart kInit "Method can only be called when state is 'Init'.".

(* @src src/src/plugins/net_plugin/tcp/tcp_channel_backend.cc:68-79 TcpChannelBackend::Shutdown *)
Definition net_Shutdown : B unit :=
  b ← get;
  modify (nb_set_state kShutdown);;
  if state_eqb (nb_state b) kShutdown then mret tt else modify (nb_set_shutdown true).

(** The same for udp. *)
(* @src src/src/plugins/net_plugin/udp/udp_channel_backend.cc:50-59 UdpChannelBackend::Initialize *)
Definition udp_Initialize : option node → B unit := net_Initialize.
(* @src src/src/plugins/net_plugin/udp/udp_channel_backend.cc:61-65 UdpChannelBackend::Start *)
Definition udp_Start : B unit := net_Start.
(* @src src/src/plugins/net_plugin/udp/udp_channel_backend.cc:67-78 UdpChannelBackend::Shutdown *)
Definition udp_Shutdown : B unit := net_Shutdown.

(** [address:port]; the parts are taken without a test for their number. *)
(* @src src/src/plugins/net_plugin/tcp/tcp_channel_backend.cc:110-118 TcpChannelBackend::RegisterPublishType (url) *)
Definition parse_server (publish_add : string) : res (Addr * Z) :=
  let v := SplitToVec (lit publish_add) (lit ":") true true in
  match v !! 0%nat, v !! 1%nat with
  | Some h, Some p => a ← make_address h; n ← atoi p; Ok (a, wrap16 n)
  | _, _ => Undef
  end.

(* @src src/src/plugins/net_plugin/tcp/tcp_channel_backend.cc:91-107 TcpChannelBackend::RegisterPublishType (servers) *)
Definition server_url_list (os : list NetTopicOptions) (topic_name : string) : list string :=
  match List.find (λ o, match regex_match (nto_topic_name o) topic_name with Ok x => x | _ => false end) os with
  | Some o => nto_server_url_list o
  | None => []
  end.

(** Only tcp tests the state. *)
(* @src src/src/plugins/net_plugin/tcp/tcp_channel_backend.cc:81-136 TcpChannelBackend::RegisterPublishType *)
Definition net_RegisterPublishType (w : PublishTypeWrapper Msg) : B bool :=
  try_catch
    (b ← get;
     check_throw (negb (bool_decide (proto = Tcp)) || state_eqb (nb_state b) kInit)
       "Method can only be called when state is 'Init'.";;
     let info := pw_info w in
     eps ← lift (map_res parse_server (server_url_list (nb_options b) (topic_name info)));
     modify (λ b, nb_set_pub_cfg (match nb_pub_cfg b !! topic_name info with
                                  | Some _ => nb_pub_cfg b
                                  | None => <[topic_name info := eps]> (nb_pub_cfg b)
                                  end) b);;
     check_throw (str_size (channel_pattern (topic_name info) (msg_type info)) <=? 255) "Too long uri: {}";;
     mret true)
    (λ _, mret false).

(* @src src/src/plugins/net_plugin/udp/udp_channel_backend.cc:80-132 UdpChannelBackend::RegisterPublishType *)
Definition udp_RegisterPublishType : PublishTypeWrapper Msg → B bool := net_RegisterPublishType.

(** [emplace]: a path keeps the handler it has. *)
(* @src src/src/plugins/net_plugin/msg_handle_registry.h:35-39 MsgHandleRegistry::RegisterMsgHandle *)
Definition net_RegisterMsgHandle (uri h : string) (hs : gmap string string) : gmap string string :=
  match hs !! uri with Some _ => hs | None => <[uri := h]> hs end.

(* @src src/src/plugins/net_plugin/tcp/tcp_channel_backend.cc:138-211 TcpChannelBackend::Subscribe *)
Definition net_Subscribe (w : SubscribeWrapper Msg S) : B bool :=
  try_catch
    (b ← get;
     check_throw (state_eqb (nb_state b) kInit) "Method can only be called when state is 'Init'.";;
     if negb (nb_server b) then mret false
     else
       let info := sw_info w in
       let pattern := channel_pattern (topic_name info) (msg_type info) in
       match nb_subs b !! pattern with
       | Some ks => modify (λ b, nb_set_subs (nb_handlers b) (<[pattern := ks ++ [key_of info]]> (nb_subs b)) b);; mret true
       | None =>
           modify (λ b, nb_set_subs (nb_handlers b) (<[pattern := [key_of info]]> (nb_subs b)) b);;
           modify (λ b, nb_set_subs (net_RegisterMsgHandle pattern pattern (nb_handlers b)) (nb_subs b) b);;
           mret true
       end)
    (λ _, mret false).

(* @src src/src/plugins/net_plugin/udp/udp_channel_backend.cc:134-207 UdpChannelBackend::Subscribe *)
Definition udp_Subscribe : SubscribeWrapper Msg S → B bool := net_Subscribe.
End NetLifeCycle.

(** ** Packages *)

Section NetWire.
Context (little : bool).

(** The size is a 32-bit number. *)
(* @src src/src/plugins/net_plugin/tcp/tcp_channel_backend.cc:272-292 TcpChannelBackend::Publish (package size) *)
Definition net_pkg_size (pattern ty : string) (kvs : KeyVals) (data : list bytes) : Z :=
  1 + str_size pattern + msg_pkg_size ty kvs data.

Definition net_fields (pattern ty : string) (kvs : KeyVals) (data : list bytes) : list field :=
  FStr kUInt8 (lit pattern) :: msg_fields ty kvs data.

(* @src src/src/plugins/net_plugin/tcp/tcp_channel_backend.cc:294-311 TcpChannelBackend::Publish (package) *)
Definition pack_net (ptr : Z) (pattern ty : string) (kvs : KeyVals) (data : list bytes) : res bytes :=
  fill little ptr (wrap32 (net_pkg_size pattern ty kvs data)) (net_fields pattern ty kvs data).

(* @src src/src/plugins/net_plugin/tcp/tcp_channel_backend.cc:174-195 TcpChannelBackend::Subscribe (fields) *)
Definition parse_net : M ConstBufferOperator (string * KeyVals * bytes) :=
  _ ← get_str little kUInt8;
  parse_msg little.

Lemma net_rooms pattern ty kvs data : rooms (net_fields pattern ty kvs data) = net_pkg_size pattern ty kvs data.
Proof.
  unfold net_fields, msg_fields, net_pkg_size, msg_pkg_size. unfold rooms. cbn [foldr field_room len_type_size].
  fold (rooms (meta_calls kvs ++ data_calls data)). rewrite rooms_app, rooms_metas, rooms_data.
  fold (str_size ty) (str_size pattern). lia.
Qed.

Lemma net_fields_ok pattern ty kvs data :
  str_size pattern ≤ 255 → str_size ty ≤ 255 → Z.of_nat (length kvs) ≤ 255 → Forall kv_ok kvs →
  Forall field_ok (net_fields pattern ty kvs data).
Proof.
  intros Hp Hty Hn Hk. constructor; [by apply str8_ok|]. constructor; [by apply str8_ok|]. by apply metas_data_ok.
Qed.

Lemma net_fields_bad pattern ty kvs data :
  ¬ (str_size pattern ≤ 255 ∧ str_size ty ≤ 255 ∧ Forall kv_ok kvs) → ¬ Forall field_ok (net_fields pattern ty kvs data).
Proof.
  intros Hno Hall. apply Hno. apply Forall_cons in Hall as [H1 Hall]. apply Forall_cons in Hall as [H2 Hall].
  cbn [field_ok prefix_bytes] in H1, H2. change (256 ^ Z.of_nat 1) with 256 in H1, H2. unfold str_size.
  split; [lia|]. split; [lia|]. by eapply metas_data_ok_inv.
Qed.

Lemma net_pkg_size_pos pattern ty kvs data : 0 ≤ net_pkg_size pattern ty kvs data.
Proof. unfold net_pkg_size. pose proof (msg_pkg_size_pos ty kvs data). unfold str_size. lia. Qed.

Lemma parse_net_ok ptr pattern ty kvs data :
  let payload := encode_all (net_fields pattern ty kvs data) in
  str_size pattern ≤ 255 → str_size ty ≤ 255 → Z.of_nat (length kvs) ≤ 255 → Forall kv_ok kvs →
  at_address ptr (Z.of_nat (length payload)) →
  read ptr payload parse_net = Ok (ty, kvs, concat data).
Proof.
  intros payload Hp Hty Hn Hk Hat. destruct (reader_start ptr payload Hat) as [Hwf Hr].
  change payload with (encode (FStr kUInt8 (lit pattern)) ++ encode_all (msg_fields ty kvs data)) in Hr at 2.
  unfold read, parse_net, mbind, M_bind.
  rewrite (get_str_ok _ _ _ _ _ (str8_ok _ Hp) Hwf Hr). destruct (past_field _ _ _ Hwf Hr) as [Hwf1 Hr1].
  by apply parse_msg_ok.
Qed.
End NetWire.

(** ** Messages *)

Section NetMessages.
Context {Addr Msg S : Type} `{HasNetChannel Addr S} `{IterOrder}.
Context (little : bool) (alloc : Z → Z) (proto : Proto) (make_address : bytes → res Addr).

Definition on_nc {A} (m : M (NetChannelBackend Addr) A) : M S A := zoom nc set_nc m.

(* @src src/src/interface/aimrt_module_c_interface/channel/channel_context_base.h:25-25 AIMRT_CHANNEL_CONTEXT_KEY_TO_ADDR *)
Definition CHANNEL_KEY_TO_ADDR : string := "aimrt-to_addr".

Definition starts_with (p s : bytes) : bool := bool_decide (take (length p) s = p).

(** The endpoint that an address of the metadata names, if it is one of this
    transport. *)
(* @src src/src/plugins/net_plugin/tcp/tcp_channel_backend.cc:226-238 TcpChannelBackend::Publish (address) *)
Definition addr_target (to_addr : bytes) : res (option (Addr * Z)) :=
  if negb (starts_with (proto_prefix proto) to_addr) then Ok None
  else match ParseUrl (drop (length (proto_prefix proto)) to_addr) with
       | None => Ok None
       | Some url_op => a ← make_address (host url_op); p ← stoi (service url_op); Ok (Some (a, wrap16 p))
       end.

(** Where a message goes: the addresses of its metadata, else those of the
    options. *)
(* @src src/src/plugins/net_plugin/tcp/tcp_channel_backend.cc:222-250 TcpChannelBackend::Publish (endpoints) *)
Definition targets (b : NetChannelBackend Addr) (topic_name : string) (c : Context) : res (list (Addr * Z)) :=
  l ← map_res addr_target (SplitToVec (lit (GetMetaValue c CHANNEL_KEY_TO_ADDR)) (lit ";") true true);
  match omap id l with
  | [] => match nb_pub_cfg b !! topic_name with
          | None => Throw (AimRTException "Can not find pub cfg info for topic: {}")
          | Some [] => Throw (AimRTException "Server url list is empty for topic: {}")
          | Some eps => Ok eps
          end
  | eps => Ok eps
  end.

(* @src src/src/plugins/net_plugin/tcp/tcp_channel_backend.cc:213-338 TcpChannelBackend::Publish *)
Definition net_Publish : Handle Msg S :=
  try_catch
    (s ← on_state get;
     check_throw (state_eqb (nb_state (nc s)) kStart) "Method can only be called when state is 'Start'.";;
     w ← on_msg get;
     let info := mw_info w in
     c ← on_state (get_ctx (ctx_ref w));
     eps ← lift (targets (nc s) (topic_name info) c);
     serialization_type ← lift (choose_serialization_type c (msg_type_support_ref info));
     data ← on_msg (SerializeMsgWithCache serialization_type);
     let kvs := map_order (meta_data_map c) in
     check_throw (Z.of_nat (length kvs) <=? 255) "Too much context meta, require less than 255, but actually {}.";;
     let pattern := channel_pattern (topic_name info) (msg_type info) in
     payload ← lift (pack_net little (alloc (wrap32 (net_pkg_size pattern serialization_type kvs data)))
                       pattern serialization_type kvs data);
     on_state (on_nc (modify (λ b, nb_set_sent (nb_sent b ++ map (λ ep, (ep, payload)) eps) b))))
    (λ _, mret tt).

(* @src src/src/plugins/net_plugin/udp/udp_channel_backend.cc:209-334 UdpChannelBackend::Publish *)
Definition udp_Publish : Handle Msg S := net_Publish.

(* @src src/src/plugins/net_plugin/tcp/tcp_channel_backend.cc:170-202 TcpChannelBackend::Subscribe (handle) *)
Definition net_handler (r : ChannelRegistry Msg S) (pattern : string) (msg_buf : bytes) : M S unit :=
  deliver_parsed (proto_name proto) (λ s, nb_subs (nc s) !! pattern ≫= tool_of r)
    (read (alloc (Z.of_nat (length msg_buf))) msg_buf (parse_net little)).

(** A message from a client; one whose path has no handler is dropped. *)
(* @src src/src/plugins/net_plugin/msg_handle_registry.h:46-76 MsgHandleRegistry::HandleServerMsg *)
Definition net_receive (r : ChannelRegistry Msg S) (buf : bytes) : M S unit :=
  s ← get;
  if nb_shutdown (nc s) then mret tt
  else
    try_catch
      (check_throw (1 <? Z.of_nat (length buf)) "Invalid msg, buf size: {}";;
       let uri_size := u8_of_char (hd zero buf) in
       check_throw (uri_size + 1 <? Z.of_nat (length buf)) "Invalid msg, buf size: {}, uri size: {}";;
       match nb_handlers (nc s) !! str (take (Z.to_nat uri_size) (tail buf)) with
       | None => mret tt
       | Some pattern => net_handler r pattern buf
       end)
      (λ _, mret tt).

(** The backend as the manager sees it. *)
(* @src src/src/plugins/net_plugin/tcp/tcp_channel_backend.h:27-55 TcpChannelBackend *)
Definition net_channel_backend `{YamlOps node} (regex_match : string → string → res bool) : Backend Msg S (option node) :=
  mkBackend (proto_name proto) (λ n, on_nc (net_Initialize n)) (on_nc net_Start) (on_nc net_Shutdown)
    (λ w, on_nc (net_RegisterPublishType proto regex_match make_address w)) (λ w, on_nc (net_Subscribe w))
    (λ _, net_Publish) (λ _, []).
End NetMessages.

(** * From a publisher to the subscribers *)

Section NetDelivery.
Context {Addr Msg S : Type} `{HasNetChannel Addr S} `{IterOrder}.
Context (little : bool) (alloc : Z → Z) (proto : Proto) (make_address : bytes → res Addr).
(** An object of less than half of the address space is inside it. *)
Context (Halloc : ∀ n, 0 ≤ n < 2 ^ 63 → at_address (alloc n) n).
Context (m : Msg).
Implicit Types (w : MsgWrapper Msg) (s : S).

Abbreviation net_Publish := (net_Publish (Msg := Msg) little alloc proto make_address).
Abbreviation net_receive := (net_receive (Addr := Addr) (Msg := Msg) little alloc proto).
Abbreviation targets := (targets proto make_address).

(** What can be sent. *)
Definition net_sendable (pattern ty : string) (c : Context) : Prop :=
  Z.of_nat (length (map_order (meta_data_map c))) ≤ 255 ∧
  (str_size pattern ≤ 255 ∧ str_size ty ≤ 255 ∧ Forall kv_ok (map_order (meta_data_map c))).

#[export] Instance net_sendable_dec pattern ty c : Decision (net_sendable pattern ty c).
Proof. unfold net_sendable. apply _. Defined.

Definition send_to (eps : list (Addr * Z)) (payload : bytes) s : S :=
  set_nc (nb_set_sent (nb_sent (nc s) ++ map (λ ep, (ep, payload)) eps) (nc s)) s.

(** The path and the package of a message. *)
Definition path_of w : string := channel_pattern (topic_name (mw_info w)) (msg_type (mw_info w)).
Definition package w (ty : string) (c : Context) (data : list bytes) : bytes :=
  encode_all (net_fields (path_of w) ty (map_order (meta_data_map c)) data).

Lemma pack_net_run ptr pattern ty c data :
  let kvs := map_order (meta_data_map c) in
  Z.of_nat (length kvs) ≤ 255 → net_pkg_size pattern ty kvs data < 2 ^ 32 →
  at_address ptr (net_pkg_size pattern ty kvs data) →
  if decide (net_sendable pattern ty c) then pack_net little ptr pattern ty kvs data = Ok (encode_all (net_fields pattern ty kvs data))
  else ∃ e, pack_net little ptr pattern ty kvs data = Throw e.
Proof.
  intros kvs Hn Hsz Hat. unfold pack_net. pose proof (net_pkg_size_pos pattern ty kvs data).
  rewrite (wrap_small 32) by (unfold in_width; lia). destruct (decide _) as [[_ (Hp & Hty & Hk)]|Hno].
  - pose proof (net_fields_ok pattern ty kvs data Hp Hty Hn Hk) as Hok. apply fill_exact; [done| |done].
    by rewrite encode_rooms, net_rooms.
  - destruct (fill_throws little ptr (net_pkg_size pattern ty kvs data) (net_fields pattern ty kvs data)) as [what ->];
      [|apply net_rooms|done| |by eexists].
    + constructor; [done|]. constructor; [done|]. apply metas_data_arg.
    + apply net_fields_bad. intros Hok. by apply Hno.
Qed.

Lemma net_Publish_run w s c ty eps :
  carries m w → ctxs s !! ctx_ref w = Some c → nb_state (nc s) = kStart →
  targets (nc s) (topic_name (mw_info w)) c = Ok eps →
  choose_serialization_type c (msg_type_support_ref (mw_info w)) = Ok ty →
  (∀ b, form_of m w ty = Some b → net_pkg_size (path_of w) ty (map_order (meta_data_map c)) b < 2 ^ 32) →
  ∃ w', net_Publish (w, s) =
    (Ok tt, (w', match form_of m w ty with
                 | Some b => if decide (net_sendable (path_of w) ty c) then send_to eps (package w ty c b) s else s
                 | None => s
                 end)).
Proof using Halloc.
  intros Hw Hc Hst Heps Hty Hsz. unfold NetChannel.net_Publish, try_catch, mbind, M_bind.
  rewrite (on_state_run get w s (Ok s) s) by done. rewrite Hst.
  change (state_eqb kStart kStart) with true. rewrite check_passes.
  rewrite (on_msg_run get w s (Ok w) w) by done. rewrite (on_state_run _ w s _ _ (get_ctx_run _ _ _ Hc)), Heps, Hty.
  cbn beta iota. unfold lift at 1 2. cbn beta iota.
  destruct (form_of m w ty) as [b|] eqn:Hf.
  - destruct (SerializeMsgWithCache_form m w ty b Hw Hf) as [w' Hser]. exists w'. specialize (Hsz b eq_refl).
    rewrite (on_msg_run _ w s _ _ Hser). cbn beta iota. unfold path_of in *.
    set (pattern := channel_pattern _ _) in *. set (kvs := map_order (meta_data_map c)) in *.
    pose proof (net_pkg_size_pos pattern ty kvs b) as Hpos. rewrite (wrap_small 32) by (unfold in_width; lia).
    unfold check_throw. destruct (Z.leb_spec (Z.of_nat (length kvs)) 255) as [Hn|Hn].
    + unfold mret, M_ret. pose proof (pack_net_run (alloc (net_pkg_size pattern ty kvs b)) pattern ty c b Hn Hsz
        (Halloc (net_pkg_size pattern ty kvs b) ltac:(lia))) as Hpack. fold kvs in Hpack.
      destruct (decide (net_sendable pattern ty c)) as [Hs|Hno]; [by rewrite Hpack|]. destruct Hpack as [e ->]. done.
    + rewrite decide_False; [done|]. intros [Hle _]. fold kvs in Hle. lia.
  - destruct (SerializeMsgWithCache_no_form m w ty Hw Hf) as (e & w' & Hser). exists w'.
    by rewrite (on_msg_run _ w s _ _ Hser).
Qed.

(** What is sent.  On a started backend that knows where to, [Publish] returns
    normally; it gives every endpoint the same package, in order, when the message
    can be serialized, has at most 255 pairs of metadata with no key or value of
    more than 65535 bytes, and neither the path nor the type is longer than 255
    characters.  Otherwise nothing is sent. *)
Theorem net_publish_branches w s c ty eps :
  carries m w → ctxs s !! ctx_ref w = Some c → nb_state (nc s) = kStart →
  targets (nc s) (topic_name (mw_info w)) c = Ok eps →
  choose_serialization_type c (msg_type_support_ref (mw_info w)) = Ok ty →
  (∀ b, form_of m w ty = Some b → net_pkg_size (path_of w) ty (map_order (meta_data_map c)) b < 2 ^ 32) →
  ∃ w', net_Publish (w, s) =
    (Ok tt, (w', match form_of m w ty with
                 | Some b => if decide (net_sendable (path_of w) ty c) then send_to eps (package w ty c b) s else s
                 | None => s
                 end)).
Proof using Halloc. apply net_Publish_run. Qed.

(** ** At the subscribers *)

Context (log : S → list (Key * Msg * Context)) (log_set_ctxs : ∀ x s, log (set_ctxs x s) = log s).

(** The context that the subscribers get. *)
Definition net_received_ctx : string → gmap string string → Context := received_by (proto_name proto).

Lemma net_handler_run (r : ChannelRegistry Msg S) pattern ks vs ty (metas : gmap string string) data s :
  let payload := encode_all (net_fields pattern ty (map_order metas) data) in
  str_size pattern ≤ 255 → str_size ty ≤ 255 → Z.of_nat (length (map_order metas)) ≤ 255 → Forall kv_ok (map_order metas) →
  net_pkg_size pattern ty (map_order metas) data < 2 ^ 63 →
  nb_subs (nc s) !! pattern = Some ks → mapM (GetSubscribeWrapperPtr r) ks = Some vs →
  Forall (takes m log ty (concat data)) vs →
  ∃ s', net_handler little alloc proto r pattern payload s = (Ok tt, s') ∧
    log s' = log s ++ map (λ v, (key_of (sw_info v), m, net_received_ctx ty metas)) vs.
Proof using Halloc log_set_ctxs.
  intros payload Hp Hty Hn Hk Hsz Hks Hvs Htake.
  assert (Z.of_nat (length payload) = net_pkg_size pattern ty (map_order metas) data) as Hlen.
  { unfold payload. rewrite encode_rooms by (by apply net_fields_ok). apply net_rooms. }
  pose proof (net_pkg_size_pos pattern ty (map_order metas) data) as Hpos.
  pose proof (parse_net_ok little (alloc (Z.of_nat (length payload))) pattern ty (map_order metas) data Hp Hty Hn Hk
    (Halloc (Z.of_nat (length payload)) ltac:(lia))) as Hparse. fold payload in Hparse.
  unfold net_handler. rewrite Hparse. destruct (tool_of r ks) as [t|] eqn:Ht; [|unfold tool_of in Ht; by rewrite Hvs in Ht].
  rewrite <-(tool_of_vec r ks vs t Hvs Ht) in Htake |- *.
  apply (deliver_parsed_run m log log_set_ctxs (proto_name proto)); [|done].
  intros x. rewrite nc_set_ctxs, Hks. exact Ht.
Qed.

Lemma check_passes_any what s : check_throw true what s = (Ok tt, s).
Proof. done. Qed.

(** The registry finds the path in the package. *)
Lemma net_receive_package (r : ChannelRegistry Msg S) pattern ty kvs data s :
  str_size pattern ≤ 255 → nb_shutdown (nc s) = false → nb_handlers (nc s) !! pattern = Some pattern →
  let payload := encode_all (net_fields pattern ty kvs data) in
  net_receive r payload s = try_catch (net_handler little alloc proto r pattern payload) (λ _, mret tt) s.
Proof.
  intros Hp Hsh Hh payload. unfold NetChannel.net_receive. rewrite get_bind, Hsh. unfold try_catch.
  assert (∃ rest, payload = char_of_u8 (str_size pattern) :: lit pattern ++ rest ∧ rest ≠ []) as (rest & -> & Hrest).
  { unfold payload, net_fields. rewrite encode_all_cons. cbn [encode prefix_bytes].
    exists (encode_all (msg_fields ty kvs data)). split; [|unfold msg_fields; by rewrite encode_all_cons].
    rewrite <-app_assoc. unfold str_size. reflexivity. }
  cbn [hd tail]. rewrite u8_of_char_of_u8.
  assert (0 ≤ str_size pattern) by (unfold str_size; lia). rewrite (wrap_small 8) by (unfold in_width; lia).
  assert (str_size pattern + 1 < Z.of_nat (length (char_of_u8 (str_size pattern) :: lit pattern ++ rest))) as Hlen.
  { cbn [length]. rewrite length_app. unfold str_size. destruct rest; [done|]. cbn [length]. lia. }
  rewrite (proj2 (Z.ltb_lt 1 _)) by lia. unfold mbind, M_bind. rewrite check_passes_any, (proj2 (Z.ltb_lt _ _) Hlen), check_passes_any.
  unfold str_size at 1. rewrite Nat2Z.id, take_app_length, str_lit. by rewrite Hh.
Qed.

(** C11: A message reaches its subscribers.  Let a message that can be sent be
    published by a started backend that knows where to, and let another process
    [v] have subscribers [vs] under its path, which read its serialized form as
    the message.  Then every endpoint is given the same package, in order; over a
    tcp connection, to a receiver that allows its size, the package arrives as it
    is; and in [v] it reaches each subscriber once, in order, with a context that
    carries all of the publisher's metadata, the serialization type and the name
    of the backend. *)
Theorem net_message_reaches_subscribers w s c ty b eps max (v : S) (r : ChannelRegistry Msg S) ks vs :
  carries m w → ctxs s !! ctx_ref w = Some c → nb_state (nc s) = kStart →
  targets (nc s) (topic_name (mw_info w)) c = Ok eps →
  choose_serialization_type c (msg_type_support_ref (mw_info w)) = Ok ty →
  form_of m w ty = Some b → net_sendable (path_of w) ty c →
  net_pkg_size (path_of w) ty (map_order (meta_data_map c)) b ≤ max < 2 ^ 32 →
  nb_shutdown (nc v) = false → nb_handlers (nc v) !! path_of w = Some (path_of w) →
  nb_subs (nc v) !! path_of w = Some ks → mapM (GetSubscribeWrapperPtr r) ks = Some vs →
  Forall (takes m log ty (concat b)) vs →
  ∃ w' s' payload v',
    net_Publish (w, s) = (Ok tt, (w', s')) ∧ nb_sent (nc s') = nb_sent (nc s) ++ map (λ ep, (ep, payload)) eps ∧
    TcpSession.receive little max (RHead []) (TcpSession.frame little payload) = (RHead [], [payload]) ∧
    net_receive r payload v = (Ok tt, v') ∧
    log v' = log v ++ map (λ u, (key_of (sw_info u), m, net_received_ctx ty (meta_data_map c))) vs.
Proof using Halloc log_set_ctxs.
  intros Hw Hc Hst Heps Hty Hf Hs Hsz Hsh Hh Hks Hvs Htake.
  destruct (net_Publish_run w s c ty eps Hw Hc Hst Heps Hty) as [w' Hrun].
  { intros b' Hb'. rewrite Hf in Hb'. injection Hb' as <-. lia. }
  rewrite Hf, decide_True in Hrun by done. destruct Hs as (Hn & Hp & Hlen & Hk).
  destruct (net_handler_run r (path_of w) ks vs ty (meta_data_map c) b v Hp Hlen Hn Hk ltac:(lia) Hks Hvs Htake) as (v' & Hrecv & Hlog).
  exists w', (send_to eps (package w ty c b) s), (package w ty c b), v'.
  split; [exact Hrun|]. split; [unfold send_to; by rewrite nc_set_nc|]. split.
  - apply receive_frame. unfold package. rewrite encode_rooms by (by apply net_fields_ok). by rewrite net_rooms.
  - unfold package. rewrite net_receive_package by done. unfold try_catch. by rewrite Hrecv.
Qed.

(** What is too short to have a path - a heartbeat has no bytes - reaches no
    subscriber and changes nothing. *)
Theorem heartbeats_reach_no_subscriber (r : ChannelRegistry Msg S) buf v :
  (length buf ≤ 1)%nat → net_receive r buf v = (Ok tt, v).
Proof.
  intros Hlen. unfold NetChannel.net_receive. rewrite get_bind. destruct (nb_shutdown _); [done|]. unfold try_catch.
  rewrite (proj2 (Z.ltb_ge 1 (Z.of_nat (length buf)))) by lia. done.
Qed.
End NetDelivery.

(** ** Registration *)

Section NetRegistration.
Context {Addr Msg : Type} (regex_match : string → string → res bool) (make_address : bytes → res Addr).

(** A server of the options without a port is read beyond the end of the
    vector. *)
Theorem server_without_port_is_undefined (w : PublishTypeWrapper Msg) (b : NetChannelBackend Addr) u us :
  nb_state b = kInit → server_url_list regex_match (nb_options b) (topic_name (pw_info w)) = u :: us →
  SplitToVec (lit u) (lit ":") true true !! 1%nat = None →
  (net_RegisterPublishType Tcp regex_match make_address w b).1 = Undef.
Proof.
  intros Hst Hus Hu. unfold net_RegisterPublishType, try_catch. rewrite get_bind, Hst. cbn [negb bool_decide].
  change (negb (bool_decide (Tcp = Tcp)) || state_eqb kInit kInit) with true. rewrite Hus.
  assert (parse_server make_address u = Undef) as Hp.
  { unfold parse_server. rewrite Hu. by destruct (SplitToVec _ _ _ _ !! 0%nat). }
  cbn. by rewrite Hp.
Qed.

(** The udp backend takes a topic in any state, the tcp backend before it is
    started. *)
Theorem udp_registers_in_any_state (w : PublishTypeWrapper Msg) (b : NetChannelBackend Addr) :
  nb_state b ≠ kInit → server_url_list regex_match (nb_options b) (topic_name (pw_info w)) = [] →
  str_size (channel_pattern (topic_name (pw_info w)) (msg_type (pw_info w))) ≤ 255 →
  (net_RegisterPublishType Tcp regex_match make_address w b) = (Ok false, b) ∧
  (net_RegisterPublishType Udp regex_match make_address w b).1 = Ok true.
Proof.
  intros Hst Hus Hsz. unfold net_RegisterPublishType, try_catch. rewrite !get_bind.
  assert (state_eqb (nb_state b) kInit = false) as -> by (by apply bool_decide_eq_false).
  rewrite Hus. cbn -[str_size Z.leb]. apply Z.leb_le in Hsz. rewrite Hsz. done.
Qed.
End NetRegistration.

(** * Two processes *)

Module NetDemo.
Import ChannelDemo.
#[export] Existing Instance plain_order.

(** Addresses are what is written. *)
Record St := mkSt { st_ctxs : gmap nat Context; st_nc : NetChannelBackend bytes; st_log : list (Key * bytes * Context) }.

#[export] Instance net_contexts : HasContexts St.
Proof. by exists st_ctxs (λ m s, mkSt m (st_nc s) (st_log s)). Defined.
#[export] Instance st_net : HasNetChannel bytes St.
Proof. by exists st_nc (λ b s, mkSt (st_ctxs s) b (st_log s)). Defined.

Lemma net_log_ctxs (x : gmap nat Context) (s : St) : st_log (set_ctxs x s) = st_log s.
Proof. done. Qed.

Definition alloc (n : Z) : Z := 4096.
Lemma net_alloc_ok n : 0 ≤ n < 2 ^ 63 → at_address (alloc n) n.
Proof. unfold at_address, alloc. lia. Qed.

(** A subscriber that notes what it gets. *)
Definition note_callback (i : TopicInfo bytes) : Handle bytes St := λ f,
  match CheckMsg f.1 with
  | (Ok _, w') =>
      match msg_ptr w', st_ctxs f.2 !! ctx_ref f.1 with
      | Some mm, Some c => (Ok tt, (w', mkSt (st_ctxs f.2) (st_nc f.2) (st_log f.2 ++ [(key_of i, mm, c)])))
      | _, _ => (Ok tt, f)
      end
  | _ => (Ok tt, f)
  end.

Definition info_of (mo : string) : TopicInfo bytes := mkTopicInfo "demo/Msg" "topic" "pkg" mo 0 demo_ts.
Definition sub_of (mo : string) : SubscribeWrapper bytes St := mkSubscribeWrapper (info_of mo) ∅ (note_callback (info_of mo)).

Lemma net_sub_takes mo ty data : Deserialize demo_ts ty [data] = Some demo_msg → takes demo_msg st_log ty data (sub_of mo).
Proof.
  intros Hd. split; [|exact Hd]. intros w w' s c mm Hw Hm Hc. cbn [sw_callback sub_of]. unfold note_callback. cbn [fst snd].
  rewrite Hw, Hm. change (st_ctxs s !! ctx_ref w = Some c) in Hc. rewrite Hc.
  eexists _, _. split; [reflexivity|]. by cbn.
Qed.

Definition demo_registry : ChannelRegistry bytes St := (Registry_Subscribe (sub_of "near") ChannelRegistry_new).2.
Definition demo_path : string := channel_pattern "topic" "demo/Msg".

Definition demo_ctx : Context :=
  SetMetaValue "aimrt-to_addr" "tcp://10.0.0.1:80; udp://10.0.0.2:80; tcp://10.0.0.3:65616"
    (SetMetaValue KEY_SERIALIZATION_TYPE "rev" (Context_new AIMRT_CHANNEL_PUBLISHER_CONTEXT)).
Definition publisher : St := mkSt {[0%nat := demo_ctx]} (nb_set_state kStart (NetChannelBackend_new false)) [].
Definition subscriber : St :=
  mkSt ∅ (net_Subscribe (sub_of "near") (nb_set_state kInit (NetChannelBackend_new true))).2 [].

(** The port is one of 16 bits. *)
Definition demo_eps : list (bytes * Z) := [(lit "10.0.0.1", 80); (lit "10.0.0.3", 80)].

Definition demo_msg_wrapper : MsgWrapper bytes := mkMsgWrapper (info_of "pub") (Some demo_msg) 0 ∅.
Lemma net_demo_carries : carries demo_msg demo_msg_wrapper.
Proof. split; [by left|]. intros ty b Hl. cbn in Hl. by rewrite lookup_empty in Hl. Qed.

Lemma demo_small b : form_of demo_msg demo_msg_wrapper "rev" = Some b →
  net_pkg_size (path_of demo_msg_wrapper) "rev" (map_order (meta_data_map demo_ctx)) b < 2 ^ 32.
Proof. intros Hb. vm_compute in Hb. injection Hb as <-. by vm_compute. Qed.
End NetDemo.
Import NetDemo.

Lemma net_publish_branches_witness :
  ∃ w', net_Publish true alloc Tcp Ok (demo_msg_wrapper, publisher) =
    (Ok tt, (w', send_to demo_eps (package demo_msg_wrapper "rev" demo_ctx [lit "olleh"]) publisher)).
Proof.
  destruct (net_publish_branches true alloc Tcp Ok net_alloc_ok ChannelDemo.demo_msg demo_msg_wrapper publisher demo_ctx "rev" demo_eps
    net_demo_carries ltac:(by vm_compute) ltac:(by vm_compute) ltac:(by vm_compute) ltac:(by vm_compute) demo_small) as [w' Hrun].
  exists w'. etrans; [exact Hrun|].
  assert (form_of ChannelDemo.demo_msg demo_msg_wrapper "rev" = Some [lit "olleh"]) as -> by (by vm_compute).
  rewrite decide_True by bdec. reflexivity.
Defined.

Lemma net_message_reaches_subscribers_witness :
  ∃ w' s' payload v',
    net_Publish true alloc Tcp Ok (demo_msg_wrapper, publisher) = (Ok tt, (w', s')) ∧
    nb_sent (nc s') = map (λ ep, (ep, payload)) demo_eps ∧
    TcpSession.receive true 16777216 (RHead []) (TcpSession.frame true payload) = (RHead [], [payload]) ∧
    net_receive (Addr := bytes) true alloc Tcp demo_registry payload subscriber = (Ok tt, v') ∧
    st_log v' = [(key_of (info_of "near"), ChannelDemo.demo_msg, net_received_ctx Tcp "rev" (meta_data_map demo_ctx))].
Proof.
  destruct (net_message_reaches_subscribers true alloc Tcp Ok net_alloc_ok ChannelDemo.demo_msg st_log net_log_ctxs
    demo_msg_wrapper publisher demo_ctx "rev" [lit "olleh"] demo_eps 16777216 subscriber demo_registry
    [key_of (info_of "near")] [sub_of "near"]
    net_demo_carries ltac:(by vm_compute) ltac:(by vm_compute) ltac:(by vm_compute) ltac:(by vm_compute) ltac:(by vm_compute)
    ltac:(bdec) ltac:(by vm_compute) ltac:(by vm_compute) ltac:(by vm_compute) ltac:(by vm_compute) ltac:(by vm_compute)
    ltac:(apply Forall_singleton, net_sub_takes; by vm_compute))
    as (w' & s' & payload & v' & H1 & H2 & H3 & H4 & H5).
  exists w', s', payload, v'. split; [exact H1|]. split; [exact H2|]. split; [exact H3|]. split; [exact H4|exact H5].
Defined.

Lemma heartbeats_reach_no_subscriber_witness :
  net_receive (Addr := bytes) true alloc Tcp demo_registry [] subscriber = (Ok tt, subscriber).
Proof. exact (heartbeats_reach_no_subscriber true alloc Tcp demo_registry [] subscriber ltac:(cbn; lia)). Defined.

Lemma server_without_port_is_undefined_witness :
  (net_RegisterPublishType (Addr := bytes) Tcp (λ _ _, Ok true) Ok (mkPublishTypeWrapper (info_of "pub") ∅)
    (nb_set_options [mkNetTopicOptions ".*" ["localhost"]] (nb_set_state kInit (NetChannelBackend_new false)))).1 = Undef.
Proof. by apply (server_without_port_is_undefined (λ _ _, Ok true) Ok _ _ "localhost" []). Defined.

Lemma udp_registers_in_any_state_witness :
  (net_RegisterPublishType (Addr := bytes) Udp (λ _ _, Ok true) Ok (mkPublishTypeWrapper (info_of "pub") ∅)
    (nb_set_state kStart (NetChannelBackend_new false))).1 = Ok true.
Proof.
  exact (proj2 (udp_registers_in_any_state (λ _ _, Ok true) Ok (mkPublishTypeWrapper (info_of "pub") ∅)
    (nb_set_state kStart (NetChannelBackend_new false)) ltac:(discriminate) eq_refl ltac:(by vm_compute))).
Defined.
