(* ===== verification/ZenohChannel.v ===== *)
(** * The zenoh channel backend: [src/plugins/zenoh_plugin/zenoh_channel_backend.*],
    [zenoh_manager.*]

    A message is put under a key of its topic and its type, as the length of a
    package and the package of the mqtt backend.  A topic may use shared memory:
    the message is serialized into a piece of the pool, of a size that is
    remembered for the topic and doubled until the message fits; when the pool
    has no such piece, and without shared memory, a vector is sent.

    Parameters: regular expressions, what zenoh says to a declaration, the pool -
    what it gives for the [n]th request of a size, an address and what is there -
    the sizes that a type support asks an allocator for ([ZenohShm.v]), the order
    of [unordered_map], the byte order, the addresses of vectors.  What is given
    to zenoh is a ghost field.  [Publish] has a loop that need not end: its
    definition has fuel, and the result [None] when that is not enough.

    Theorems: a message reaches its subscribers, over shared memory or not,
    whatever the pool gives; a header that does not fit is never sent; a form
    that another backend has cached and that does not fit takes all of the pool,
    and in several buffers it is undefined; packages that are too short. *)

From S2P Require Import Prelude Yaml Filters Channel ChannelBackend LocalChannel BufferUtil MqttWire MqttRegistry MqttChannel ZeroCopy ZenohShm ZenohManager ZenohLoop.
Local Open Scope Z_scope.

(** ** Options and keys *)

(* @src src/src/plugins/zenoh_plugin/zenoh_channel_backend.h:19-25 ZenohChannelBackend::Options *)
Record ZenohTopicOptions := mkZenohTopicOptions { zto_topic_name : string; zto_shm_enabled : bool }.

Section ZenohOptions.
Context `{Y : YamlOps node}.

Definition zenoh_topic_options_of (n : node) : res ZenohTopicOptions :=
  t ← as_of as_string (index n "topic_name");
  e ← as_of as_bool (index n "shm_enabled");
  Ok (mkZenohTopicOptions t e).

(* @src src/src/plugins/zenoh_plugin/zenoh_channel_backend.cc:25-38 convert<ZenohChannelBackend::Options>::decode *)
Definition zenoh_decode (n : node) (rhs : list ZenohTopicOptions) : res (option (list ZenohTopicOptions)) :=
  ps ← each_of n "pub_topics_options" zenoh_topic_options_of rhs;
  Ok (Some ps).
End ZenohOptions.

(* @src src/src/plugins/zenoh_plugin/zenoh_channel_backend.cc:93-96 ZenohChannelBackend::RegisterPublishType (pattern) *)
Definition zenoh_key (limit_domain topic_name msg_type : string) : string :=
  ("channel/" ++ url_encode topic_name ++ "/" ++ url_encode msg_type ++ limit_domain)%string.

(** ** The state *)

(* @src src/src/plugins/zenoh_plugin/zenoh_channel_backend.h:51-77 ZenohChannelBackend *)
Record ZenohChannelBackend := mkZenoh {
  zc_options : list ZenohTopicOptions;
  zc_state : State;
  zc_limit_domain : string;
  zc_shm_init_loan_size : Z;
  zc_manager : ZenohManager string;
  zc_subs : gmap string (list Key);        (* subscribe_wrapper_map_ *)
  zc_shm : ShmSizes;                       (* z_pub_shm_size_map_ *)
  zc_put : list (string * bytes)           (* what zenoh has been given *)
}.

(* @src src/src/plugins/zenoh_plugin/zenoh_channel_backend.h:28-32 ZenohChannelBackend::ZenohChannelBackend *)
Definition ZenohChannelBackend_new (limit_domain : string) (shm_init_loan_size : Z) : ZenohChannelBackend :=
  mkZenoh [] kPreInit limit_domain shm_init_loan_size ZenohManager_new ∅ ShmSizes_new [].

Definition zc_set_options x b := mkZenoh x (zc_state b) (zc_limit_domain b) (zc_shm_init_loan_size b) (zc_manager b) (zc_subs b)
  (zc_shm b) (zc_put b).
Definition zc_set_state x b := mkZenoh (zc_options b) x (zc_limit_domain b) (zc_shm_init_loan_size b) (zc_manager b) (zc_subs b)
  (zc_shm b) (zc_put b).
Definition zc_set_manager x b := mkZenoh (zc_options b) (zc_state b) (zc_limit_domain b) (zc_shm_init_loan_size b) x (zc_subs b)
  (zc_shm b) (zc_put b).
Definition zc_set_subs x b := mkZenoh (zc_options b) (zc_state b) (zc_limit_domain b) (zc_shm_init_loan_size b) (zc_manager b) x
  (zc_shm b) (zc_put b).
Definition zc_set_shm x b := mkZenoh (zc_options b) (zc_state b) (zc_limit_domain b) (zc_shm_init_loan_size b) (zc_manager b) (zc_subs b)
  x (zc_put b).
Definition zc_set_put x b := mkZenoh (zc_options b) (zc_state b) (zc_limit_domain b) (zc_shm_init_loan_size b) (zc_manager b) (zc_subs b)
  (zc_shm b) x.

Class HasZenohChannel (S : Type) `{HasContexts S} := {
  zc : S → ZenohChannelBackend;
  set_zc : ZenohChannelBackend → S → S;
  zc_set_zc b s : zc (set_zc b s) = b;
  set_zc_zc s : set_zc (zc s) s = s;
  set_zc_set_zc b b' s : set_zc b (set_zc b' s) = set_zc b s;
  zc_set_ctxs m s : zc (set_ctxs m s) = zc s;
  ctxs_set_zc b s : ctxs (set_zc b s) = ctxs s
}.

(** ** Life cycle and registration *)

Section ZenohLifeCycle.
Context {Msg S : Type} `{YamlOps node}.
Context (regex_match : string → string → res bool) (declare_publisher declare_subscriber : string → bool).
Abbreviation B := (M ZenohChannelBackend).

Definition zc_exchange (new old : State) (what : string) : B unit :=
  b ← get;
  modify (zc_set_state new);;
  check_throw (state_eqb (zc_state b) old) what.

(* @src src/src/plugins/zenoh_plugin/zenoh_channel_backend.cc:44-53 ZenohChannelBackend::Initialize *)
Definition zc_Initialize (options_node : option node) : B unit :=
  zc_exchange kInit kPreInit "Zenoh channel backend can only be initialized once.";;
  o ← lift (read_options zenoh_decode [] options_node);
  modify (λ b, zc_set_options (default (zc_options b) o) b).

(* @src src/src/plugins/zenoh_plugin/zenoh_channel_backend.cc:55-59 ZenohChannelBackend::Start *)
Definition zc_Start : B unit := zc_exchange kStart kInit "Method can only be called when state is 'Init'.".

(* @src src/src/plugins/zenoh_plugin/zenoh_channel_backend.cc:61-64 ZenohChannelBackend::Shutdown *)
Definition zc_Shutdown : B unit := modify (zc_set_state kShutdown).

(* @src src/src/plugins/zenoh_plugin/zenoh_channel_backend.cc:74-90 ZenohChannelBackend::RegisterPublishType (shm_enabled) *)
Definition topic_shm_enabled (os : list ZenohTopicOptions) (topic_name : string) : bool :=
  match List.find (λ o, match regex_match (zto_topic_name o) topic_name with Ok x => x | _ => false end) os with
  | Some o => zto_shm_enabled o
  | None => false
  end.

(* @src src/src/plugins/zenoh_plugin/zenoh_channel_backend.cc:66-109 ZenohChannelBackend::RegisterPublishType *)
Definition zc_RegisterPublishType (w : PublishTypeWrapper Msg) : B bool :=
  try_catch
    (b ← get;
     check_throw (state_eqb (zc_state b) kInit) "Method can only be called when state is 'Init'.";;
     let info := pw_info w in
     let shm_enabled := topic_shm_enabled (zc_options b) (topic_name info) in
     let pattern := zenoh_key (zc_limit_domain b) (topic_name info) (msg_type info) in
     modify (λ b, zc_set_manager (zm_RegisterPublisher declare_publisher pattern shm_enabled (zc_manager b)) b);;
     modify (λ b, zc_set_shm (set_size pattern (zc_shm_init_loan_size b) (zc_shm b)) b);;
     mret true)
    (λ _, mret false).

(* @src src/src/plugins/zenoh_plugin/zenoh_channel_backend.cc:111-189 ZenohChannelBackend::Subscribe *)
Definition zc_Subscribe (w : SubscribeWrapper Msg S) : B bool :=
  try_catch
    (b ← get;
     check_throw (state_eqb (zc_state b) kInit) "Method can only be called when state is 'Init'.";;
     let info := sw_info w in
     let pattern := zenoh_key (zc_limit_domain b) (topic_name info) (msg_type info) in
     match zc_subs b !! pattern with
     | Some ks => modify (λ b, zc_set_subs (<[pattern := ks ++ [key_of info]]> (zc_subs b)) b);; mret true
     | None =>
         modify (λ b, zc_set_subs (<[pattern := [key_of info]]> (zc_subs b)) b);;
         modify (λ b, zc_set_manager (zm_RegisterSubscriber declare_subscriber pattern pattern (zc_manager b)) b);;
         mret true
     end)
    (λ _, mret false).
End ZenohLifeCycle.

(** ** Packages *)

Section ZenohWire.
Context (little : bool).

(** The header: the type, and the metadata of the context. *)
Definition header_fields (ty : string) (kvs : KeyVals) : list field := FStr kUInt8 (lit ty) :: meta_calls kvs.

(* @src src/src/plugins/zenoh_plugin/zenoh_channel_backend.cc:280-280 ZenohChannelBackend::Publish (type_and_ctx_len) *)
Definition type_and_ctx_len (ty : string) (kvs : KeyVals) : Z := 1 + str_size ty + context_meta_kv_size kvs.

(** The sizes of the vector are [int32_t]: a sum that does not fit is undefined,
    a negative one is too much for a vector. *)
(* @src src/src/plugins/zenoh_plugin/zenoh_channel_backend.cc:366-392 ZenohChannelBackend::Publish (package) *)
Definition pack_zenoh (alloc : Z → Z) (ty : string) (kvs : KeyVals) (data : list bytes) : res bytes :=
  let data_size := signed 32 (type_and_ctx_len ty kvs + BufferSize data) in
  let pkg_size := data_size + 4 in
  if 2 ^ 31 <=? pkg_size then Undef
  else if pkg_size <? 0 then Throw (RuntimeError "cannot create std::vector larger than max_size()")
  else fill little (alloc pkg_size) pkg_size (FU32 (wrap32 data_size) :: header_fields ty kvs ++ data_calls data).

(* @src src/src/plugins/zenoh_plugin/zenoh_channel_backend.cc:142-172 ZenohChannelBackend::Subscribe (parse) *)
Definition parse_zenoh (ptr : Z) (serialized_data : bytes) : res (string * KeyVals * bytes) :=
  s ← open_package little ptr serialized_data;
  (parse_msg little s).1.
End ZenohWire.

(** ** Messages *)

Section ZenohMessages.
Context {Msg S : Type} `{HasZenohChannel S} `{IterOrder}.
Context (little : bool) (alloc : Z → Z).
(** What the pool gives for the [n]th request of a size. *)
Context (shm_alloc : nat → Z → option (Z * bytes)).
(** The sizes that a type support asks for. *)
Context (requests : TypeSupport Msg → string → Msg → list Z).

Definition on_zc {A} (m : M ZenohChannelBackend A) : M S A := zoom zc set_zc m.

(* @src src/src/plugins/zenoh_plugin/util.h:11-29 SerializeMsgSupportedZenoh *)
Definition SerializeMsgSupportedZenoh (w : MsgWrapper Msg) (ty : string) : M ZShm (option BufferArrayView * Z) :=
  let ts := msg_type_support_ref (mw_info w) in
  serialize_supported (serialization_cache w !! ty) (m ← msg_ptr w; Some (requests ts ty m, Serialize ts ty m)).

Definition zenoh_put (key : string) (payload : bytes) : M ZenohChannelBackend unit :=
  modify (λ b, zc_set_put (zc_put b ++ [(key, payload)]) b).

(** Is it done?  Otherwise the message goes as a vector. *)
(* @src src/src/plugins/zenoh_plugin/zenoh_channel_backend.cc:234-354 ZenohChannelBackend::Publish (shared memory) *)
Definition shm_publish (fuel : nat) (key : string) (ty : string) (kvs : KeyVals) (w : MsgWrapper Msg)
    : M ZenohChannelBackend (option bool) :=
  let header_len := type_and_ctx_len ty kvs in
  r ← zoom zc_shm zc_set_shm
    (shm_loop little shm_alloc 64 key (header_fields ty kvs) header_len (SerializeMsgSupportedZenoh w ty) fuel None 0);
  match r with
  | None => mret None
  | Some (SLoaned mem cache msg_size) =>
      payload ← lift (shm_finish little header_len mem cache (header_len + msg_size));
      zenoh_put key payload;;
      mret (Some true)
  | Some SFailed => mret (Some true)
  | Some _ => mret (Some false)
  end.

(* @src src/src/plugins/zenoh_plugin/zenoh_channel_backend.cc:191-405 ZenohChannelBackend::Publish *)
Definition zc_Publish (fuel : nat) : M (Flow Msg S) (option unit) :=
  try_catch
    (s ← on_state get;
     check_throw (state_eqb (zc_state (zc s)) kStart) "Method can only be called when state is 'Start'.";;
     w ← on_msg get;
     let info := mw_info w in
     let zenoh_pub_topic := zenoh_key (zc_limit_domain (zc s)) (topic_name info) (msg_type info) in
     match z_pub_registry (zc_manager (zc s)) !! zenoh_pub_topic with
     | None => mret (Some tt)
     | Some shm_enabled =>
         c ← on_state (get_ctx (ctx_ref w));
         serialization_type ← lift (choose_serialization_type c (msg_type_support_ref info));
         let kvs := map_order (meta_data_map c) in
         check_throw (Z.of_nat (length kvs) <=? 255) "Too much context meta, require less than 255, but actually {}.";;
         sent ← (if shm_enabled : bool then on_state (on_zc (shm_publish fuel zenoh_pub_topic serialization_type kvs w))
                 else mret (Some false));
         match sent with
         | None => mret None
         | Some true => mret (Some tt)
         | Some false =>
             data ← on_msg (SerializeMsgWithCache serialization_type);
             payload ← lift (pack_zenoh little alloc serialization_type kvs data);
             on_state (on_zc (zenoh_put zenoh_pub_topic payload));;
             mret (Some tt)
         end
     end)
    (λ _, mret (Some tt)).

(** The handler of a key's samples. *)
(* @src src/src/plugins/zenoh_plugin/zenoh_channel_backend.cc:138-180 ZenohChannelBackend::Subscribe (handle) *)
Definition zc_handler (r : ChannelRegistry Msg S) (pattern : string) (payload : bytes) : M S unit :=
  try_catch
    (deliver_parsed "zenoh" (λ s, zc_subs (zc s) !! pattern ≫= tool_of r) (parse_zenoh little (alloc (buf_len payload)) payload))
    (λ _, mret tt).
End ZenohMessages.
