(* ===== verification/ZenohTheory.v ===== *)
(** * From a zenoh publisher to the subscribers

    The theorems of the backend of [ZenohChannel.v]: what is in the memory after
    a round of the loop, how many rounds there are, what is sent, and who gets it. *)

From S2P Require Import Prelude Yaml Filters Channel ChannelBackend LocalChannel BufferUtil MqttWire MqttRegistry MqttChannel ZeroCopy ZenohShm ZenohManager ZenohLoop ZenohChannel.
Local Open Scope Z_scope.

(** ** Packages in memory *)

Section ZenohPackages.
Context (little : bool).

Lemma header_msg ty kvs data : header_fields ty kvs ++ data_calls data = msg_fields ty kvs data.
Proof. done. Qed.

Lemma context_meta_kv_size_pos kvs : 1 ≤ context_meta_kv_size kvs.
Proof. unfold context_meta_kv_size. induction kvs as [|kv kvs IH]; cbn [foldr]; unfold str_size in *; lia. Qed.

Lemma type_and_ctx_len_pos ty kvs : 2 ≤ type_and_ctx_len ty kvs.
Proof. pose proof (context_meta_kv_size_pos kvs). unfold type_and_ctx_len, str_size. lia. Qed.

(** The package of a message: what is left to write after the length. *)
Definition package ty kvs data : bytes := encode_all (msg_fields ty kvs data).

Lemma package_app ty kvs data : package ty kvs data = encode_all (header_fields ty kvs) ++ concat data.
Proof. unfold package. by rewrite <-header_msg, encode_all_app, encode_data. Qed.

Lemma header_len ty kvs : buf_len (encode_all (header_fields ty kvs)) = type_and_ctx_len ty kvs.
Proof.
  unfold header_fields, type_and_ctx_len, buf_len. rewrite encode_all_cons, length_app.
  pose proof (length_encode_str kUInt8 1 ty eq_refl). pose proof (length_encode_metas kvs). lia.
Qed.

Lemma package_len ty kvs data : buf_len (package ty kvs data) = type_and_ctx_len ty kvs + BufferSize data.
Proof. rewrite package_app, buf_len_app, header_len. done. Qed.

(** What can be written. *)
Definition writable (ty : string) (kvs : KeyVals) : Prop :=
  Z.of_nat (length kvs) ≤ 255 ∧ str_size ty ≤ 255 ∧ Forall kv_ok kvs.

#[export] Instance writable_dec ty kvs : Decision (writable ty kvs).
Proof. unfold writable. apply _. Defined.

Lemma msg_fields_ok ty kvs data : writable ty kvs → Forall field_ok (msg_fields ty kvs data).
Proof. intros (Hn & Hty & Hk). constructor; [by apply str8_ok|]. by apply metas_data_ok. Qed.

Lemma header_fields_ok ty kvs : writable ty kvs → Forall field_ok (header_fields ty kvs).
Proof. intros Hw. pose proof (msg_fields_ok ty kvs [] Hw) as H. rewrite <-header_msg in H. by apply Forall_app in H as [H _]. Qed.

End ZenohPackages.

(** ** What is sent *)

Section ZenohPayload.
Context (little : bool).

(** The length, the package, and in shared memory what else was there. *)
Definition package_payload (ty : string) (kvs : KeyVals) (data : list bytes) (rest : bytes) : bytes :=
  payload_of (buf_len (package ty kvs data)) (package ty kvs data ++ rest).

Lemma pack_zenoh_ok alloc ty kvs data :
  (∀ n, 0 ≤ n < 2 ^ 63 → at_address (alloc n) n) → writable ty kvs → buf_len (package ty kvs data) < 2 ^ 31 - 4 →
  pack_zenoh little alloc ty kvs data = Ok (package_payload ty kvs data []).
Proof.
  intros Halloc Hw Hsz. pose proof (buf_len_nonneg (package ty kvs data)). unfold pack_zenoh. rewrite <-package_len.
  rewrite signed_small by lia. rewrite (proj2 (Z.leb_gt _ _)), (proj2 (Z.ltb_ge _ _)) by lia.
  rewrite (wrap_small 32) by (unfold in_width; lia). unfold package_payload. rewrite app_nil_r, header_msg.
  rewrite (fill_exact little _ _ (FU32 (buf_len (package ty kvs data)) :: msg_fields ty kvs data)).
  - by rewrite encode_all_cons.
  - constructor; [change (in_width 32 (buf_len (package ty kvs data))); unfold in_width; lia|]. by apply msg_fields_ok.
  - rewrite encode_all_cons, length_app. cbn [encode]. rewrite length_le_bytes. fold (package ty kvs data). unfold buf_len. lia.
  - apply Halloc. lia.
Qed.

(** The package is read back, whatever follows. *)
Lemma parse_zenoh_ok ptr ty kvs data rest :
  writable ty kvs → buf_len (package ty kvs data) < 2 ^ 32 →
  at_address ptr (buf_len (package_payload ty kvs data rest)) →
  parse_zenoh little ptr (package_payload ty kvs data rest) = Ok (ty, kvs, concat data).
Proof.
  intros (Hn & Hty & Hk) Hsz Hat. unfold parse_zenoh, package_payload in *.
  destruct (open_package_ok little ptr _ rest Hsz Hat) as (s & -> & Hwf & Hrest). cbn [mbind res_bind].
  by apply parse_msg_ok.
Qed.
End ZenohPayload.

(** ** From a publisher to the subscribers *)

Section ZenohDelivery.
Context {Msg S : Type} `{HasZenohChannel S} `{IterOrder}.
Context (little : bool) (alloc : Z → Z) (shm_alloc : nat → Z → option (Z * bytes)).
Context (requests : TypeSupport Msg → string → Msg → list Z).
(** An object of less than half of the address space is inside it. *)
Context (Halloc : ∀ n, 0 ≤ n < 2 ^ 63 → at_address (alloc n) n).
Context (Hpool : ∀ n sz ptr mem, shm_alloc n sz = Some (ptr, mem) → loan_ok ptr mem sz).
Context (m : Msg).
Implicit Types (w : MsgWrapper Msg) (s : S) (b : ZenohChannelBackend).

Abbreviation shm_publish := (shm_publish little shm_alloc requests).
Abbreviation zc_Publish := (zc_Publish (Msg := Msg) little alloc shm_alloc requests).

(** What sending over shared memory needs of a message. *)
Definition msg_shm_ready (key ty : string) (kvs : KeyVals) w (bs : list bytes) b : Prop :=
  let ts := msg_type_support_ref (mw_info w) in
  shm_ready key (type_and_ctx_len ty kvs) (serialization_cache w !! ty)
    (m ← msg_ptr w; Some (requests ts ty m, Serialize ts ty m)) bs (zc_shm b).

(** What publishing changes of the backend. *)
Lemma zc_set_shm_frame z b :
  zc_put (zc_set_shm z b) = zc_put b ∧ zc_shm (zc_set_shm z b) = z.
Proof. done. Qed.

Lemma shm_publish_ready fuel key ty kvs w bs b :
  writable ty kvs → buf_len (package ty kvs bs) < 2 ^ 32 → msg_shm_ready key ty kvs w bs b → (64 ≤ fuel)%nat →
  ∃ z', (∃ rest, shm_publish fuel key ty kvs w b =
             (Ok (Some true), zc_set_put (zc_put b ++ [(key, package_payload ty kvs bs rest)]) (zc_set_shm z' b)) ∧
           buf_len (package_payload ty kvs bs rest) < 2 ^ 63) ∨
        shm_publish fuel key ty kvs w b = (Ok (Some false), zc_set_shm z' b).
Proof using Hpool.
  intros Hw H32 Hready Hfuel. pose proof (package_len ty kvs bs) as Hpl. pose proof (type_and_ctx_len_pos ty kvs).
  assert (0 ≤ BufferSize bs) by (unfold BufferSize; lia). pose proof (header_fields_ok ty kvs Hw) as Hok.
  destruct (shm_run_ready little shm_alloc Hpool 64 key _ _ Hok (header_len ty kvs) ltac:(lia) _ _ bs fuel (zc_shm b)
    (buf_len (package ty kvs bs)) Hready ltac:(unfold in_width; lia) ltac:(lia) Hfuel)
    as (z' & [(mem & cache & rest & Hloop & Hfin & H63)|Hloop]); exists z'.
  - left. exists rest. rewrite <-package_app in Hfin, H63. split; [|exact H63].
    unfold ZenohChannel.shm_publish, SerializeMsgSupportedZenoh, zoom, mbind at 1, M_bind at 1. rewrite Hloop.
    unfold mbind, M_bind, lift. rewrite <-Hpl, Hfin. reflexivity.
  - right. unfold ZenohChannel.shm_publish, SerializeMsgSupportedZenoh, zoom, mbind at 1, M_bind at 1. by rewrite Hloop.
Qed.

Definition key_for w s : string := zenoh_key (zc_limit_domain (zc s)) (topic_name (mw_info w)) (msg_type (mw_info w)).

Lemma on_zc_run {A} (x : M ZenohChannelBackend A) w s a b' : x (zc s) = (a, b') → on_state (on_zc x) (w, s) = (a, (w, set_zc b' s)).
Proof. intros Hx. unfold on_state, on_zc, zoom. cbn. by rewrite Hx. Qed.

Lemma zc_Publish_run fuel w s c ty bs shm :
  let kvs := map_order (meta_data_map c) in
  carries m w → ctxs s !! ctx_ref w = Some c → zc_state (zc s) = kStart →
  choose_serialization_type c (msg_type_support_ref (mw_info w)) = Ok ty → form_of m w ty = Some bs →
  z_pub_registry (zc_manager (zc s)) !! key_for w s = Some shm →
  writable ty kvs → buf_len (package ty kvs bs) < 2 ^ 31 - 4 →
  (shm = true → msg_shm_ready (key_for w s) ty kvs w bs (zc s)) → (64 ≤ fuel)%nat →
  ∃ w' s' rest, zc_Publish fuel (w, s) = (Ok (Some tt), (w', s')) ∧
    zc_put (zc s') = zc_put (zc s) ++ [(key_for w s, package_payload ty kvs bs rest)] ∧ buf_len (package_payload ty kvs bs rest) < 2 ^ 63.
Proof using Halloc Hpool.
  intros kvs Hcar Hc Hst Hty Hform Hpub Hw Hsz Hready Hfuel. pose proof Hw as (Hn & _).
  unfold ZenohChannel.zc_Publish, try_catch, mbind, M_bind.
  rewrite (on_state_run get w s (Ok s) s) by done. rewrite Hst. change (state_eqb kStart kStart) with true.
  rewrite check_passes, (on_msg_run get w s (Ok w) w) by done. fold (key_for w s). rewrite Hpub.
  rewrite (on_state_run _ w s _ _ (get_ctx_run _ _ _ Hc)), Hty. unfold lift at 1. cbv beta iota zeta. fold kvs.
  apply Z.leb_le in Hn. rewrite Hn, check_passes.
  assert (buf_len (package_payload ty kvs bs []) < 2 ^ 63) as Hnetlen.
  { unfold package_payload. rewrite payload_of_len, app_nil_r. lia. }
  destruct (SerializeMsgWithCache_form m w ty bs Hcar Hform) as [w' Hser]. destruct shm.
  - destruct (shm_publish_ready fuel (key_for w s) ty kvs w bs (zc s) Hw ltac:(lia) (Hready eq_refl) Hfuel)
      as (z' & [(rest & Hrun & Hlen)|Hrun]); rewrite (on_zc_run _ _ _ _ _ Hrun); cbv beta iota.
    + eexists _, _, rest. split; [reflexivity|]. by rewrite zc_set_zc.
    + rewrite (on_msg_run _ w _ _ _ Hser). cbv beta iota. unfold lift at 1. rewrite (pack_zenoh_ok little alloc) by done.
      erewrite on_zc_run by reflexivity. eexists _, _, []. split; [reflexivity|]. by rewrite !zc_set_zc.
  - unfold mret at 1, M_ret at 1. cbv beta iota. rewrite (on_msg_run _ w _ _ _ Hser). cbv beta iota. unfold lift at 1.
    rewrite (pack_zenoh_ok little alloc) by done. erewrite on_zc_run by reflexivity.
    eexists _, _, []. split; [reflexivity|]. by rewrite zc_set_zc.
Qed.

(** ** At the subscribers *)

Context (log : S → list (Key * Msg * Context)) (log_set_ctxs : ∀ x s, log (set_ctxs x s) = log s).

Lemma zc_handler_run (r : ChannelRegistry Msg S) pattern ks vs ty (metas : gmap string string) data rest s :
  let payload := package_payload ty (map_order metas) data rest in
  writable ty (map_order metas) → buf_len (package ty (map_order metas) data) < 2 ^ 32 → buf_len payload < 2 ^ 63 →
  zc_subs (zc s) !! pattern = Some ks → mapM (GetSubscribeWrapperPtr r) ks = Some vs →
  Forall (takes m log ty (concat data)) vs →
  ∃ s', zc_handler little alloc r pattern payload s = (Ok tt, s') ∧
    log s' = log s ++ map (λ v, (key_of (sw_info v), m, received_by "zenoh" ty metas)) vs.
Proof using Halloc log_set_ctxs.
  intros payload Hw H32 H63 Hks Hvs Htake. unfold zc_handler, try_catch. unfold payload.
  rewrite parse_zenoh_ok; [|done|done|apply Halloc; pose proof (buf_len_nonneg payload); unfold payload in *; lia].
  destruct (tool_of r ks) as [t|] eqn:Ht; [|unfold tool_of in Ht; by rewrite Hvs in Ht].
  rewrite <-(tool_of_vec r ks vs t Hvs Ht) in Htake |- *.
  destruct (deliver_parsed_run m log log_set_ctxs "zenoh" (λ s, zc_subs (zc s) !! pattern ≫= tool_of r) t ty metas (concat data) s)
    as (s' & Hrun & Hlog); [|done|].
  - intros x. rewrite zc_set_ctxs, Hks. exact Ht.
  - exists s'. by rewrite Hrun.
Qed.

(** C12: A message reaches its subscribers, over shared memory or not.  Let a
    started backend publish a message on a topic that it has registered, whose
    type and metadata can be written, of less than two gigabytes; and if the topic
    uses shared memory, let the header fit in the size that is asked for first,
    and the form be contiguous in memory or, if it is cached, one buffer that
    fits.  Let another process [v] have subscribers [vs] under the key, which read
    the form as the message.  Then, whatever the pool gives - no memory at all or
    memory for any of the sizes - the loop ends, zenoh is given one payload, and
    delivered to [v] it reaches each subscriber once, in order, with all of the
    publisher's metadata, the serialization type and the name of the backend. *)
Theorem zenoh_message_reaches_subscribers fuel w s c ty bs shm (v : S) (r : ChannelRegistry Msg S) ks vs :
  let kvs := map_order (meta_data_map c) in
  carries m w → ctxs s !! ctx_ref w = Some c → zc_state (zc s) = kStart →
  choose_serialization_type c (msg_type_support_ref (mw_info w)) = Ok ty → form_of m w ty = Some bs →
  z_pub_registry (zc_manager (zc s)) !! key_for w s = Some shm →
  writable ty kvs → buf_len (package ty kvs bs) < 2 ^ 31 - 4 →
  (shm = true → msg_shm_ready (key_for w s) ty kvs w bs (zc s)) → (64 ≤ fuel)%nat →
  zc_subs (zc v) !! key_for w s = Some ks → mapM (GetSubscribeWrapperPtr r) ks = Some vs →
  Forall (takes m log ty (concat bs)) vs →
  ∃ w' s' payload v',
    zc_Publish fuel (w, s) = (Ok (Some tt), (w', s')) ∧ zc_put (zc s') = zc_put (zc s) ++ [(key_for w s, payload)] ∧
    zc_handler little alloc r (key_for w s) payload v = (Ok tt, v') ∧
    log v' = log v ++ map (λ u, (key_of (sw_info u), m, received_by "zenoh" ty (meta_data_map c))) vs.
Proof using Halloc Hpool log_set_ctxs.
  intros kvs Hcar Hc Hst Hty Hform Hpub Hw Hsz Hready Hfuel Hks Hvs Htake.
  destruct (zc_Publish_run fuel w s c ty bs shm Hcar Hc Hst Hty Hform Hpub Hw Hsz Hready Hfuel) as (w' & s' & rest & Hrun & Hput & Hlen).
  destruct (zc_handler_run r (key_for w s) ks vs ty (meta_data_map c) bs rest v Hw ltac:(fold kvs; lia) Hlen Hks Hvs Htake) as (v' & Hrecv & Hlog).
  exists w', s', (package_payload ty kvs bs rest), v'. done.
Qed.
End ZenohDelivery.

(** ** What shared memory does not allow *)

Section ZenohLimits.
Context {Msg S : Type} `{HasZenohChannel S} `{IterOrder}.
Context (little : bool) (alloc : Z → Z) (shm_alloc : nat → Z → option (Z * bytes)).
Context (requests : TypeSupport Msg → string → Msg → list Z).
Context (Hpool : ∀ n sz ptr mem, shm_alloc n sz = Some (ptr, mem) → loan_ok ptr mem sz).

(** A message on a topic that uses shared memory, on a started backend. *)
Context (w : MsgWrapper Msg) (s : S) (c : Context) (ty : string).
Abbreviation key := (key_for w s).
Abbreviation kvs := (map_order (meta_data_map c)).
Context (Hc : ctxs s !! ctx_ref w = Some c) (Hst : zc_state (zc s) = kStart).
Context (Hty : choose_serialization_type c (msg_type_support_ref (mw_info w)) = Ok ty).
Context (Hpub : z_pub_registry (zc_manager (zc s)) !! key = Some true) (Hw : writable ty kvs).

Abbreviation zc_Publish := (zc_Publish (Msg := Msg) little alloc shm_alloc requests).
Abbreviation hl := (type_and_ctx_len ty kvs).
Abbreviation loans := (shm_loans (zc_shm (zc s))).
Abbreviation size := (size_of key (zc_shm (zc s))).
Abbreviation gives n sz := (is_Some (shm_alloc n sz)).

Lemma zc_Publish_shm fuel x b' :
  shm_publish little shm_alloc requests fuel key ty kvs w (zc s) = (x, b') → x ≠ Ok (Some false) →
  zc_Publish fuel (w, s) =
    (match x with Ok None => Ok None | Undef => Undef | _ => Ok (Some tt) end, (w, set_zc b' s)).
Proof using Hc Hst Hty Hpub Hw.
  intros Hrun Hx. pose proof Hw as (Hn & _). unfold ZenohChannel.zc_Publish, try_catch, mbind, M_bind.
  rewrite (on_state_run get w s (Ok s) s) by done. rewrite Hst. change (state_eqb kStart kStart) with true.
  rewrite check_passes, (on_msg_run get w s (Ok w) w) by done. fold (key_for w s). rewrite Hpub.
  rewrite (on_state_run _ w s _ _ (get_ctx_run _ _ _ Hc)), Hty. unfold lift at 1. cbv beta iota zeta.
  apply Z.leb_le in Hn. rewrite Hn, check_passes, (on_zc_run _ _ _ _ _ Hrun). destruct x as [[[]|]|e|]; done.
Qed.

(** How the loop of this message ends is how its publishing does. *)
Lemma shm_publish_loop fuel x z' :
  shm_loop little shm_alloc 64 key (header_fields ty kvs) hl (SerializeMsgSupportedZenoh requests w ty) fuel None 0 (zc_shm (zc s)) = (x, z') →
  match x with Ok (Some _) => False | _ => True end →
  shm_publish little shm_alloc requests fuel key ty kvs w (zc s) =
    (match x with Ok _ => Ok None | Throw e => Throw e | Undef => Undef end, zc_set_shm z' (zc s)).
Proof using.
  intros Hrun Hx. unfold ZenohChannel.shm_publish, zoom, mbind at 1, M_bind at 1. rewrite Hrun. by destruct x as [[]| |].
Qed.

(** A header that does not fit in the first size: the message is never
    sent, and the size stays. *)
Theorem zenoh_header_that_does_not_fit fuel :
  gives loans size → 4 ≤ size < hl + 4 → hl < 2 ^ 62 →
  ∃ s', zc_Publish (Datatypes.S fuel) (w, s) = (Ok (Some tt), (w, s')) ∧ zc_put (zc s') = zc_put (zc s) ∧
    size_of key (zc_shm (zc s')) = size.
Proof using Hc Hst Hty Hpub Hw Hpool.
  intros [[ptr mem] Ha] Hsz Hmax. pose proof (metas_data_arg kvs []) as Harg. apply Forall_app in Harg as [Harg _].
  destruct (write_header_throws little (header_fields ty kvs) (header_fields_ok ty kvs Hw) ptr mem size (Hpool _ _ _ _ Ha)) as [e He];
    [by constructor|rewrite header_len; lia|rewrite header_len; lia|].
  eexists. split.
  - apply (zc_Publish_shm (Datatypes.S fuel) (Throw e) (zc_set_shm (loaned key (zc_shm (zc s))) (zc s))); [|done].
    apply (shm_publish_loop _ (Throw e)); [|done]. cbn [shm_loop]. unfold mbind, M_bind.
    by rewrite (round_header_throws _ _ 64 key _ hl _ None 0 _ ptr mem e Ha He).
  - rewrite zc_set_zc. split; [done|]. apply size_of_loaned.
Qed.

(** A cached form that does not fit takes all of the pool.  When another
    backend has left the message's form in its cache, and it does not fit in the
    size that is asked for first, the loop asks for memory in every round, and
    goes on for as many rounds as the pool gives it - nothing is sent before the
    pool is empty. *)
Theorem zenoh_cached_form_takes_the_pool fuel cs :
  serialization_cache w !! ty = Some cs → hl + 4 ≤ size < hl + 4 + BufferSize cs →
  hl + 4 + BufferSize cs < 2 ^ 63 → gives loans size →
  (∀ i, (i < fuel)%nat → gives (Datatypes.S loans + i)%nat (hl + 4 + BufferSize cs)) →
  ∃ s', zc_Publish (Datatypes.S fuel) (w, s) = (Ok None, (w, s')) ∧ shm_loans (zc_shm (zc s')) = (loans + Datatypes.S fuel)%nat.
Proof using Hc Hst Hty Hpub Hw Hpool.
  intros Hcs Hsz Hmax [[ptr mem] Ha] Hgives. pose proof (type_and_ctx_len_pos ty kvs). pose proof (header_fields_ok ty kvs Hw) as Hok.
  assert (in_width 64 (BufferSize cs)) as Hin by (unfold in_width, BufferSize in *; lia).
  set (z1 := set_size key (BufferSize cs + hl + 4) (loaned key (zc_shm (zc s)))).
  assert (size_of key z1 = hl + 4 + BufferSize cs) as Hs1 by (unfold z1; rewrite size_of_set; lia).
  destruct (cached_loop_goes_on little shm_alloc Hpool 64 key _ hl Hok (header_len ty kvs) cs
    (m ← msg_ptr w; Some (requests (msg_type_support_ref (mw_info w)) ty m, Serialize (msg_type_support_ref (mw_info w)) ty m))
    (BufferSize cs) fuel z1) as (z' & Hrun & Hl);
    [rewrite Hs1; unfold BufferSize; lia|intros i Hi; rewrite Hs1; by apply Hgives|].
  exists (set_zc (zc_set_shm z' (zc s)) s). rewrite zc_set_zc. split; [|cbn; rewrite Hl; cbn; lia].
  apply (zc_Publish_shm (Datatypes.S fuel) (Ok None)); [|done]. apply (shm_publish_loop _ (Ok None)); [|done].
  unfold SerializeMsgSupportedZenoh. rewrite Hcs. cbn [shm_loop]. unfold mbind at 1, M_bind at 1.
  rewrite (cached_round little shm_alloc Hpool 64 key _ hl Hok (header_len ty kvs) cs _ Hin 0 _ ptr mem Ha) by lia.
  rewrite (proj2 (Z.ltb_lt _ _)) by lia. rewrite (wrap_small 64) by (unfold in_width, BufferSize in *; lia). exact Hrun.
Qed.

(** A cached form of several buffers is read beyond the end of the view. *)
Theorem zenoh_cached_buffers_are_undefined fuel b1 b2 cs :
  serialization_cache w !! ty = Some (b1 :: b2 :: cs) → hl + 4 + BufferSize (b1 :: b2 :: cs) ≤ size < 2 ^ 63 →
  gives loans size → (zc_Publish (Datatypes.S fuel) (w, s)).1 = Undef.
Proof using Hc Hst Hty Hpub Hw Hpool.
  intros Hcs Hsz [[ptr mem] Ha]. pose proof (type_and_ctx_len_pos ty kvs). pose proof (header_fields_ok ty kvs Hw) as Hok.
  assert (in_width 64 (BufferSize (b1 :: b2 :: cs))) as Hin by (unfold in_width, BufferSize in *; lia).
  erewrite (zc_Publish_shm (Datatypes.S fuel) Undef); [done| |done].
  unfold ZenohChannel.shm_publish, SerializeMsgSupportedZenoh, zoom, mbind at 1, M_bind at 1. rewrite Hcs. cbn [shm_loop].
  unfold mbind at 1, M_bind at 1.
  rewrite (cached_round little shm_alloc Hpool 64 key _ hl Hok (header_len ty kvs) _ _ Hin 0 _ ptr mem Ha) by (unfold BufferSize in *; lia).
  rewrite (proj2 (Z.ltb_ge _ _)) by lia. reflexivity.
Qed.

(** A message that is held in another serialized form only, which
    [SerializeMsgWithCache] would read first, is a null pointer here. *)
Theorem zenoh_message_held_serialized_is_undefined fuel :
  serialization_cache w !! ty = None → msg_ptr w = None → hl + 4 ≤ size → gives loans size →
  (zc_Publish (Datatypes.S fuel) (w, s)).1 = Undef.
Proof using Hc Hst Hty Hpub Hw Hpool.
  intros Hcs Hm Hsz [[ptr mem] Ha]. erewrite (zc_Publish_shm (Datatypes.S fuel) Undef); [done| |done].
  apply (shm_publish_loop _ Undef); [|done]. unfold SerializeMsgSupportedZenoh. rewrite Hcs, Hm. cbn [shm_loop]. unfold mbind at 1, M_bind at 1.
  by rewrite (round_with_pool little shm_alloc Hpool 64 key _ hl (header_fields_ok ty kvs Hw) (header_len ty kvs) _ None 0 _ ptr mem Ha Hsz).
Qed.
End ZenohLimits.

(** A sample of less than four bytes is read beyond its end. *)
Theorem zenoh_short_sample_is_undefined {Msg S : Type} `{HasZenohChannel S} little alloc (r : ChannelRegistry Msg S) key payload (v : S) :
  buf_len payload < 4 → 0 ≤ alloc (buf_len payload) < 2 ^ 63 → (zc_handler little alloc r key payload v).1 = Undef.
Proof.
  intros Hlen Hp. assert (parse_zenoh little (alloc (buf_len payload)) payload = Undef) as Hparse.
  { unfold parse_zenoh. by rewrite open_package_short. }
  unfold zc_handler, try_catch. rewrite Hparse. unfold deliver_parsed, new_ctx. by unfold_monad.
Qed.

(** * Two processes *)

Module ZenohDemo.
Import ChannelDemo.
#[export] Existing Instance plain_order.

Record St := mkSt { st_ctxs : gmap nat Context; st_zc : ZenohChannelBackend; st_log : list (Key * bytes * Context) }.

#[export] Instance zenoh_contexts : HasContexts St.
Proof. by exists st_ctxs (λ m s, mkSt m (st_zc s) (st_log s)). Defined.
#[export] Instance st_zenoh : HasZenohChannel St.
Proof. exists st_zc (λ b s, mkSt (st_ctxs s) b (st_log s)); by try intros [??] || intros ?; by try intros []. Defined.

Lemma zenoh_log_ctxs (x : gmap nat Context) (s : St) : st_log (set_ctxs x s) = st_log s.
Proof. done. Qed.

Definition alloc (n : Z) : Z := 4096.
Lemma zenoh_alloc_ok n : 0 ≤ n < 2 ^ 63 → at_address (alloc n) n.
Proof. unfold at_address, alloc. lia. Qed.

(** A pool that gives up to 4096 bytes, whenever it is asked. *)
Definition pool (n : nat) (sz : Z) : option (Z * bytes) :=
  if bool_decide (0 ≤ sz ≤ 4096) then Some (65536, replicate (Z.to_nat sz) zero) else None.
Lemma pool_ok n sz ptr mem : pool n sz = Some (ptr, mem) → loan_ok ptr mem sz.
Proof.
  unfold pool. case_bool_decide; [|done]. intros [= <- <-]. split; [lia| |lia]. unfold buf_len. rewrite length_replicate. lia.
Qed.

(** The type support asks for blocks of 100 bytes. *)
Definition blocks_of_100 (ts : TypeSupport bytes) (ty : string) (m : bytes) : list Z := [100].

(** A subscriber that notes what it gets. *)
Definition note_callback (i : TopicInfo bytes) : Handle bytes St := λ f,
  match CheckMsg f.1 with
  | (Ok _, w') =>
      match msg_ptr w', st_ctxs f.2 !! ctx_ref f.1 with
      | Some mm, Some c => (Ok tt, (w', mkSt (st_ctxs f.2) (st_zc f.2) (st_log f.2 ++ [(key_of i, mm, c)])))
      | _, _ => (Ok tt, f)
      end
  | _ => (Ok tt, f)
  end.

Definition info_of (mo : string) : TopicInfo bytes := mkTopicInfo "demo/Msg" "topic" "pkg" mo 0 demo_ts.
Definition sub_of (mo : string) : SubscribeWrapper bytes St := mkSubscribeWrapper (info_of mo) ∅ (note_callback (info_of mo)).

Lemma zenoh_sub_takes mo ty data : Deserialize demo_ts ty [data] = Some demo_msg → takes demo_msg st_log ty data (sub_of mo).
Proof.
  intros Hd. split; [|exact Hd]. intros w w' s c mm Hw Hm Hc. cbn [sw_callback sub_of]. unfold note_callback. cbn [fst snd].
  rewrite Hw, Hm. change (st_ctxs s !! ctx_ref w = Some c) in Hc. rewrite Hc.
  eexists _, _. split; [reflexivity|]. by cbn.
Qed.

Definition demo_registry : ChannelRegistry bytes St := (Registry_Subscribe (sub_of "near") ChannelRegistry_new).2.
Definition demo_ctx : Context :=
  SetMetaValue "k" "v" (SetMetaValue KEY_SERIALIZATION_TYPE "rev" (Context_new AIMRT_CHANNEL_PUBLISHER_CONTEXT)).

(** A topic that uses shared memory, of which it asks for [n] bytes first. *)
Definition any (s : string) : bool := true.
Definition demo_started (n : Z) : ZenohChannelBackend :=
  zc_set_state kStart
    (zc_RegisterPublishType (λ _ _, Ok true) any (mkPublishTypeWrapper (info_of "pub") ∅)
      (zc_set_options [mkZenohTopicOptions ".*" true] (zc_set_state kInit (ZenohChannelBackend_new "" n)))).2.
Definition publisher (n : Z) : St := mkSt {[0%nat := demo_ctx]} (demo_started n) [].
Definition subscriber : St := mkSt ∅ (zc_Subscribe any (sub_of "near") (zc_set_state kInit (ZenohChannelBackend_new "" 64))).2 [].

Definition demo_msg_wrapper : MsgWrapper bytes := mkMsgWrapper (info_of "pub") (Some demo_msg) 0 ∅.
Lemma zenoh_demo_carries : carries demo_msg demo_msg_wrapper.
Proof. split; [by left|]. intros ty b Hl. cbn in Hl. by rewrite lookup_empty in Hl. Qed.

Definition cached_wrapper (cs : list bytes) : MsgWrapper bytes := mkMsgWrapper (info_of "pub") (Some demo_msg) 0 {["rev" := cs]}.
Definition demo_kvs : KeyVals := map_order (meta_data_map demo_ctx).

Lemma demo_writable : writable "rev" demo_kvs.
Proof. bdec. Qed.

Lemma demo_ready :
  msg_shm_ready blocks_of_100 (key_for demo_msg_wrapper (publisher 64)) "rev" demo_kvs demo_msg_wrapper [lit "olleh"] (demo_started 64).
Proof.
  split; [by vm_compute|]. change (serialization_cache demo_msg_wrapper !! "rev") with (@None BufferArrayView). cbv beta iota.
  exists [100]. split; [by vm_compute|]. split; [|by vm_compute]. constructor. by vm_compute.
Qed.
End ZenohDemo.
Import ZenohDemo.

(** The header does not leave room for the block of 100 bytes: the size is doubled twice. *)
Lemma zenoh_message_reaches_subscribers_witness :
  ∃ w' s' payload v',
    zc_Publish true alloc pool blocks_of_100 64 (demo_msg_wrapper, publisher 64) = (Ok (Some tt), (w', s')) ∧
    zc_put (zc s') = [("channel/topic/demo%2FMsg", payload)] ∧
    zc_handler true alloc demo_registry "channel/topic/demo%2FMsg" payload subscriber = (Ok tt, v') ∧
    st_log v' = [(key_of (info_of "near"), ChannelDemo.demo_msg, received_by "zenoh" "rev" (meta_data_map demo_ctx))].
Proof.
  destruct (zenoh_message_reaches_subscribers true alloc pool blocks_of_100 zenoh_alloc_ok pool_ok ChannelDemo.demo_msg st_log zenoh_log_ctxs
    64 demo_msg_wrapper (publisher 64) demo_ctx "rev" [lit "olleh"] true subscriber demo_registry
    [key_of (info_of "near")] [sub_of "near"]
    zenoh_demo_carries ltac:(by vm_compute) ltac:(by vm_compute) ltac:(by vm_compute) ltac:(by vm_compute) ltac:(by vm_compute)
    demo_writable ltac:(by vm_compute) (λ _, demo_ready) ltac:(lia)
    ltac:(by vm_compute) ltac:(by vm_compute) ltac:(apply Forall_singleton, zenoh_sub_takes; by vm_compute))
    as (w' & s' & payload & v' & H1 & H2 & H3 & H4).
  exists w', s', payload, v'. split; [exact H1|]. split; [exact H2|]. split; [exact H3|exact H4].
Defined.

Lemma zenoh_header_that_does_not_fit_witness :
  ∃ s', zc_Publish true alloc pool blocks_of_100 64 (demo_msg_wrapper, publisher 16) = (Ok (Some tt), (demo_msg_wrapper, s')) ∧
    zc_put (zc s') = [].
Proof.
  destruct (zenoh_header_that_does_not_fit true alloc pool blocks_of_100 pool_ok demo_msg_wrapper (publisher 16) demo_ctx "rev"
    ltac:(by vm_compute) ltac:(by vm_compute) ltac:(by vm_compute) ltac:(by vm_compute) demo_writable 63
    ltac:(vm_compute; by eexists) ltac:(by vm_compute) ltac:(by vm_compute)) as (s' & H1 & H2 & _).
  exists s'. split; [exact H1|exact H2].
Defined.

(** Two hundred rounds later the message has not been sent. *)
Lemma zenoh_cached_form_takes_the_pool_witness :
  ∃ s', zc_Publish true alloc pool blocks_of_100 200 (cached_wrapper [replicate 100 zero], publisher 64) =
    (Ok None, (cached_wrapper [replicate 100 zero], s')) ∧ shm_loans (zc_shm (zc s')) = 200%nat.
Proof.
  exact (zenoh_cached_form_takes_the_pool true alloc pool blocks_of_100 pool_ok (cached_wrapper [replicate 100 zero]) (publisher 64) demo_ctx
    "rev" ltac:(by vm_compute) ltac:(by vm_compute) ltac:(by vm_compute) ltac:(by vm_compute) demo_writable 199 [replicate 100 zero]
    ltac:(by vm_compute) ltac:(by vm_compute) ltac:(by vm_compute) ltac:(vm_compute; by eexists) ltac:(intros i _; vm_compute; by eexists)).
Defined.

Lemma zenoh_cached_buffers_are_undefined_witness :
  (zc_Publish true alloc pool blocks_of_100 64 (cached_wrapper [lit "ol"; lit "leh"], publisher 64)).1 = Undef.
Proof.
  exact (zenoh_cached_buffers_are_undefined true alloc pool blocks_of_100 pool_ok (cached_wrapper [lit "ol"; lit "leh"]) (publisher 64) demo_ctx
    "rev" ltac:(by vm_compute) ltac:(by vm_compute) ltac:(by vm_compute) ltac:(by vm_compute) demo_writable 63 (lit "ol") (lit "leh") []
    ltac:(by vm_compute) ltac:(by split; vm_compute) ltac:(vm_compute; by eexists)).
Defined.

Lemma zenoh_message_held_serialized_is_undefined_witness :
  (zc_Publish true alloc pool blocks_of_100 64 (mkMsgWrapper (info_of "pub") None 0 {["raw" := [lit "hello"]]}, publisher 64)).1 = Undef.
Proof.
  exact (zenoh_message_held_serialized_is_undefined true alloc pool blocks_of_100 pool_ok
    (mkMsgWrapper (info_of "pub") None 0 {["raw" := [lit "hello"]]}) (publisher 64) demo_ctx
    "rev" ltac:(by vm_compute) ltac:(by vm_compute) ltac:(by vm_compute) ltac:(by vm_compute) demo_writable 63
    ltac:(by vm_compute) eq_refl ltac:(by vm_compute) ltac:(vm_compute; by eexists)).
Defined.

Lemma zenoh_short_sample_is_undefined_witness :
  (zc_handler true alloc demo_registry "channel/topic/demo%2FMsg" (lit "abc") subscriber).1 = Undef.
Proof. exact (zenoh_short_sample_is_undefined true alloc demo_registry _ (lit "abc") subscriber ltac:(by vm_compute) ltac:(unfold alloc; lia)). Defined.
