(* ===== verification/ZenohRpc.v ===== *)
(** * The zenoh rpc backend: [src/plugins/zenoh_plugin/zenoh_rpc_backend.*]

    A call is a sample under the key [req/] of its function, answered by a sample
    under the key [rsp/]: the package of the mqtt backend behind its length.
    Both can go through shared memory, by the loop of [ZenohLoop.v].  The state
    of a process is in the [World] of its calls, as that of the mqtt backend is;
    what zenoh has been given is a ghost field, and what it delivers is a step of
    the process that receives it.

    Parameters: regular expressions, executors by name, what zenoh says to a
    declaration, the order of [unordered_map], the value of a new response, the
    pool, the sizes that a type support asks for, the byte order and the addresses
    of buffers.  Sending over shared memory has fuel.  The manager is shared with
    the channel backend: here are the keys of this one.

    Theorems: a call and its response over the network; over shared memory the
    length that is written leaves the message out, and the service reads nothing;
    a status that is not OK is sent without a length, and cannot be read; calls
    that are never answered; a response answers the calls of other processes. *)

From S2P Require Import Prelude Yaml StdString Filters Channel Rpc Url RpcBackend LocalRpc BufferUtil MqttWire MqttRegistry MqttRpc ZeroCopy ZenohShm ZenohManager ZenohLoop.
Local Open Scope Z_scope.

(** ** Options *)

(** The options of a client or of a server. *)
(* @src src/src/plugins/zenoh_plugin/zenoh_rpc_backend.h:23-33 ZenohRpcBackend::Options::ClientOptions *)
Record ZenohFuncOptions := mkZenohFuncOptions { zfo_func_name : string; zfo_shm_enabled : bool }.
(* @src src/src/plugins/zenoh_plugin/zenoh_rpc_backend.h:21-34 ZenohRpcBackend::Options *)
Record ZenohRpcOptions := mkZenohRpcOptions {
  zro_timeout_executor : string;
  zro_clients : list ZenohFuncOptions;
  zro_servers : list ZenohFuncOptions
}.

Section ZenohRpcOptions.
Context `{Y : YamlOps node}.

Definition zenoh_func_options_of (n : node) : res ZenohFuncOptions :=
  f ← as_of as_string (index n "func_name");
  e ← as_of as_bool (index n "shm_enabled");
  Ok (mkZenohFuncOptions f e).

(* @src src/src/plugins/zenoh_plugin/zenoh_rpc_backend.cc:36-64 convert<ZenohRpcBackend::Options>::decode *)
Definition zenoh_rpc_decode (n : node) (rhs : ZenohRpcOptions) : res (option ZenohRpcOptions) :=
  t ← set_if n "timeout_executor" as_string (zro_timeout_executor rhs);
  cs ← each_of n "clients_options" zenoh_func_options_of (zro_clients rhs);
  ss ← each_of n "servers_options" zenoh_func_options_of (zro_servers rhs);
  Ok (Some (mkZenohRpcOptions t cs ss)).
End ZenohRpcOptions.

(* @src src/src/plugins/zenoh_plugin/zenoh_rpc_backend.cc:559-561 ZenohRpcBackend::Invoke (pattern) *)
Definition zenoh_rpc_key (limit_domain func : string) : string :=
  ("aimrt_rpc/" ++ url_encode (GetFuncNameWithoutPrefix func) ++ limit_domain)%string.

(** ** The state *)

Section ZenohRpcState.
Context {Msg : Type}.

(** What the callback of a service has captured. *)
Record ZenohReply := mkZenohReply { zrp_serialization_type : string; zrp_pattern : string; zrp_req_id_buf : bytes }.

(** The two lambdas that handle samples. *)
Inductive ZenohHandle :=
| ZServeReq (info : FuncInfo Msg)
| ZTakeRsp.

(* @src src/src/plugins/zenoh_plugin/zenoh_rpc_backend.h:65-88 ZenohRpcBackend *)
Record ZenohRpcBackend := mkZenohRpc {
  zr_options : ZenohRpcOptions;
  zr_state : State;
  zr_has_get_executor_func : bool;
  zr_limit_domain : string;
  zr_manager : ZenohManager ZenohHandle;
  zr_req_id : Z;
  zr_tool : option (RpcClientTool nat);
  zr_shm : ShmSizes;                                 (* z_node_shm_size_map_ *)
  zr_services : gmap nat (InvokeWrapper Msg ZenohReply);
  zr_calls : list nat;                               (* ghost: the services called *)
  zr_put : list (string * bytes)                     (* ghost: what zenoh has been given *)
}.

(* @src src/src/plugins/zenoh_plugin/zenoh_rpc_backend.h:37-40 ZenohRpcBackend::ZenohRpcBackend *)
Definition ZenohRpcBackend_new (limit_domain : string) : ZenohRpcBackend :=
  mkZenohRpc (mkZenohRpcOptions "" [] []) kPreInit false limit_domain ZenohManager_new 0 None ShmSizes_new ∅ [] [].

(** Whatever the options say. *)
(* @src src/src/plugins/zenoh_plugin/zenoh_rpc_backend.h:88-88 ZenohRpcBackend::shm_init_loan_size_ *)
Definition rpc_shm_init_loan_size : Z := 1024.

Implicit Types b : ZenohRpcBackend.

Definition zr_set_options x b := mkZenohRpc x (zr_state b) (zr_has_get_executor_func b) (zr_limit_domain b) (zr_manager b)
  (zr_req_id b) (zr_tool b) (zr_shm b) (zr_services b) (zr_calls b) (zr_put b).
Definition zr_set_state x b := mkZenohRpc (zr_options b) x (zr_has_get_executor_func b) (zr_limit_domain b) (zr_manager b)
  (zr_req_id b) (zr_tool b) (zr_shm b) (zr_services b) (zr_calls b) (zr_put b).
Definition zr_set_get_executor x b := mkZenohRpc (zr_options b) (zr_state b) x (zr_limit_domain b) (zr_manager b)
  (zr_req_id b) (zr_tool b) (zr_shm b) (zr_services b) (zr_calls b) (zr_put b).
Definition zr_set_manager x b := mkZenohRpc (zr_options b) (zr_state b) (zr_has_get_executor_func b) (zr_limit_domain b) x
  (zr_req_id b) (zr_tool b) (zr_shm b) (zr_services b) (zr_calls b) (zr_put b).
Definition zr_set_req_id x b := mkZenohRpc (zr_options b) (zr_state b) (zr_has_get_executor_func b) (zr_limit_domain b)
  (zr_manager b) x (zr_tool b) (zr_shm b) (zr_services b) (zr_calls b) (zr_put b).
Definition zr_set_tool x b := mkZenohRpc (zr_options b) (zr_state b) (zr_has_get_executor_func b) (zr_limit_domain b)
  (zr_manager b) (zr_req_id b) x (zr_shm b) (zr_services b) (zr_calls b) (zr_put b).
Definition zr_set_shm x b := mkZenohRpc (zr_options b) (zr_state b) (zr_has_get_executor_func b) (zr_limit_domain b)
  (zr_manager b) (zr_req_id b) (zr_tool b) x (zr_services b) (zr_calls b) (zr_put b).
Definition zr_set_services x calls b := mkZenohRpc (zr_options b) (zr_state b) (zr_has_get_executor_func b) (zr_limit_domain b)
  (zr_manager b) (zr_req_id b) (zr_tool b) (zr_shm b) x calls (zr_put b).
Definition zr_set_put x b := mkZenohRpc (zr_options b) (zr_state b) (zr_has_get_executor_func b) (zr_limit_domain b)
  (zr_manager b) (zr_req_id b) (zr_tool b) (zr_shm b) (zr_services b) (zr_calls b) x.
End ZenohRpcState.

Arguments ZenohHandle : clear implicits.
Arguments ZenohRpcBackend : clear implicits.

Class HasZenohRpc (Msg X : Type) := {
  zr : X → ZenohRpcBackend Msg;
  set_zr : ZenohRpcBackend Msg → X → X;
  zr_set_zr b x : zr (set_zr b x) = b;
  set_zr_zr x : set_zr (zr x) x = x;
  set_zr_set_zr b b' x : set_zr b (set_zr b' x) = set_zr b x
}.

(** ** Registration and life cycle *)

Section ZenohRpcLifeCycle.
Context {Msg : Type} `{YamlOps node}.
Context (find_executor : string → option bool) (regex_match : string → string → res bool).
Context (declare_publisher declare_subscriber : string → bool).
Abbreviation B := (M (ZenohRpcBackend Msg)).

Definition zr_exchange (new old : State) (what : string) : B unit :=
  b ← get;
  modify (zr_set_state new);;
  check_throw (state_eqb (zr_state b) old) what.

Definition on_zr_tool {A} (m : M (RpcClientTool nat) A) : B A := λ b,
  match zr_tool b with
  | None => (Undef, b)
  | Some t => let '(r, t') := m t in (r, zr_set_tool (Some t') b)
  end.

(* @src src/src/plugins/zenoh_plugin/zenoh_rpc_backend.cc:70-103 ZenohRpcBackend::Initialize *)
Definition zr_Initialize (options_node : option node) : B unit :=
  zr_exchange kInit kPreInit "Zenoh Rpc backend can only be initialized once.";;
  o ← lift (read_options zenoh_rpc_decode (mkZenohRpcOptions "" [] []) options_node);
  modify (λ b, zr_set_tool (Some RpcClientTool_new) (zr_set_options (default (zr_options b) o) b));;
  b ← get;
  let name := zro_timeout_executor (zr_options b) in
  if String.eqb name "" then mret tt
  else
    check_throw (zr_has_get_executor_func b) "Get executor function is not set before initialize.";;
    match find_executor name with
    | None => throw (AimRTException "Get timeout executor '{}' failed.")
    | Some support_timer_schedule =>
        on_zr_tool (RegisterTimeoutExecutor support_timer_schedule);;
        on_zr_tool RegisterTimeoutHandle
    end.

(* @src src/src/plugins/zenoh_plugin/zenoh_rpc_backend.cc:105-109 ZenohRpcBackend::Start *)
Definition zr_Start : B unit := zr_exchange kStart kInit "Method can only be called when state is 'Init'.".

(* @src src/src/plugins/zenoh_plugin/zenoh_rpc_backend.cc:111-116 ZenohRpcBackend::Shutdown *)
Definition zr_Shutdown : B unit :=
  b ← get;
  modify (zr_set_state kShutdown);;
  if state_eqb (zr_state b) kShutdown then mret tt else modify (zr_set_tool None).

(* @src src/src/plugins/zenoh_plugin/zenoh_rpc_backend.cc:807-813 ZenohRpcBackend::RegisterGetExecutorFunc *)
Definition zr_RegisterGetExecutorFunc (is_set : bool) : B unit :=
  b ← get;
  check_throw (state_eqb (zr_state b) kPreInit) "Method can only be called when state is 'PreInit'.";;
  modify (zr_set_get_executor is_set).

(** A node of a function, with the size that its publisher asks for first. *)
Definition add_node (func : string) (os : list ZenohFuncOptions) (h : ZenohHandle Msg) (role prefix : string) : B bool :=
  b ← get;
  let shm_enabled := match List.find (λ o, option_matches regex_match (zfo_func_name o) func) os with
                     | Some o => zfo_shm_enabled o
                     | None => false
                     end in
  let pattern := zenoh_rpc_key (zr_limit_domain b) func in
  modify (λ b, zr_set_manager (zm_RegisterRpcNode declare_publisher declare_subscriber pattern h role shm_enabled (zr_manager b)) b);;
  modify (λ b, zr_set_shm (set_size (prefix ++ pattern)%string rpc_shm_init_loan_size (zr_shm b)) b);;
  mret true.

(* @src src/src/plugins/zenoh_plugin/zenoh_rpc_backend.cc:118-433 ZenohRpcBackend::RegisterServiceFunc *)
Definition zr_RegisterServiceFunc (info : FuncInfo Msg) : B bool :=
  try_catch
    (b ← get;
     if negb (state_eqb (zr_state b) kInit) then mret false
     else add_node (func_name info) (zro_servers (zr_options b)) (ZServeReq info) "server" "rsp/")
    (λ _, mret false).

(* @src src/src/plugins/zenoh_plugin/zenoh_rpc_backend.cc:435-545 ZenohRpcBackend::RegisterClientFunc *)
Definition zr_RegisterClientFunc (info : FuncInfo Msg) : B bool :=
  try_catch
    (b ← get;
     if negb (state_eqb (zr_state b) kInit) then mret false
     else add_node (func_name info) (zro_clients (zr_options b)) ZTakeRsp "client" "req/")
    (λ _, mret false).
End ZenohRpcLifeCycle.

(** ** Packages *)

Section ZenohRpcWire.
Context (little : bool) (alloc : Z → Z).

(** The headers in shared memory, of sizes [uint32_t]. *)
(* @src src/src/plugins/zenoh_plugin/zenoh_rpc_backend.cc:650-671 ZenohRpcBackend::Invoke (header) *)
Definition req_header (ty pattern : string) (req_id : Z) (kvs : KeyVals) : list field :=
  FStr kUInt8 (lit ty) :: FStr kUInt8 (lit pattern) :: FU32 req_id :: meta_calls kvs.
Definition req_header_len (ty pattern : string) (kvs : KeyVals) : Z :=
  wrap32 (1 + str_size ty + 1 + str_size pattern + 4 + context_meta_kv_size kvs).

(* @src src/src/plugins/zenoh_plugin/zenoh_rpc_backend.cc:287-296 ZenohRpcBackend::RegisterServiceFunc (header) *)
Definition rsp_header (ty : string) (req_id_buf : bytes) : list field := [FStr kUInt8 (lit ty); FBuf req_id_buf; FU32 0].
Definition rsp_header_len (ty : string) : Z := wrap32 (1 + str_size ty + 4 + 4).

(** A vector for the length, of [size_t], and the package. *)
Definition pack_with_len (z_data_size : Z) (fs : list field) : res bytes :=
  let pkg_size := wrap64 (z_data_size + 4) in
  if 2 ^ 63 <=? pkg_size then Throw (RuntimeError "cannot create std::vector larger than max_size()")
  else fill little (alloc pkg_size) pkg_size (FU32 (wrap32 z_data_size) :: fs).

(* @src src/src/plugins/zenoh_plugin/zenoh_rpc_backend.cc:757-795 ZenohRpcBackend::Invoke (package) *)
Definition pack_zenoh_req (ty pattern : string) (req_id : Z) (kvs : KeyVals) (data : list bytes) : res bytes :=
  pack_with_len (wrap64 (1 + str_size ty + 1 + str_size pattern + 4 + context_meta_kv_size kvs + BufferSize data))
    (FStr kUInt8 (lit ty) :: FStr kUInt8 (lit pattern) :: FU32 req_id :: meta_calls kvs ++ data_calls data).

(* @src src/src/plugins/zenoh_plugin/zenoh_rpc_backend.cc:383-411 ZenohRpcBackend::RegisterServiceFunc (package) *)
Definition pack_zenoh_rsp (ty : string) (req_id_buf : bytes) (data : list bytes) : res bytes :=
  pack_with_len (wrap64 (1 + str_size ty + 4 + 4 + BufferSize data))
    (FStr kUInt8 (lit ty) :: FBuf req_id_buf :: FU32 0 :: data_calls data).
End ZenohRpcWire.

(** ** Calls *)

Section ZenohRpcCalls.
Context {Msg X : Type} `{HasZenohRpc Msg X} `{IterOrder}.
Context (user_client_hook : nat → nat → Z → M (World Msg X) unit).
Context (Create : TypeSupport Msg → Msg).
Context (little : bool) (alloc : Z → Z).
(** What the pool gives for the [n]th request of a size; the sizes that a type
    support asks for. *)
Context (shm_alloc : nat → Z → option (Z * bytes)).
Context (requests : TypeSupport Msg → string → Msg → list Z).

Abbreviation W := (World Msg X).
Abbreviation InvokeCallBack := (InvokeCallBack user_client_hook).

Definition on_zr {A} (m : M (ZenohRpcBackend Msg) A) : M W A :=
  zoom (λ w, zr (w_rest w)) (λ b w, set_w_rest (set_zr b (w_rest w)) w) m.

(** [z_publisher_put] *)
Definition zr_publish (key : string) (payload : bytes) : M W unit :=
  on_zr (modify (λ b, zr_set_put (zr_put b ++ [(key, payload)]) b)).

(** Is it done?  Otherwise the message goes as a vector.  The length that is
    written is that of the header. *)
(* @src src/src/plugins/zenoh_plugin/zenoh_rpc_backend.cc:612-745 ZenohRpcBackend::Invoke (shared memory) *)
Definition zr_send_shm (fuel : nat) (key : string) (header : list field) (header_len : Z)
    (serialize : M ZShm (option BufferArrayView * Z)) : M W (option bool) :=
  r ← on_zr (zoom zr_shm zr_set_shm (shm_loop little shm_alloc 32 key header header_len serialize fuel None 0));
  match r with
  | None => mret None
  | Some (SLoaned mem cache _) =>
      payload ← lift (shm_finish little header_len mem cache header_len);
      zr_publish key payload;;
      mret (Some true)
  | Some SFailed => mret (Some true)
  | Some _ => mret (Some false)
  end.

(* @src src/src/plugins/zenoh_plugin/util.h:31-50 SerializeReqSupportedZenoh *)
Definition SerializeReqSupportedZenoh (i : InvokeWrapper Msg ClientCb) (ty : string) : M ZShm (option BufferArrayView * Z) :=
  let ts := req_type_support_ref (iw_info i) in
  serialize_supported (req_serialization_cache i !! ty) (m ← iw_req i; Some (requests ts ty m, Serialize ts ty m)).

(* @src src/src/plugins/zenoh_plugin/util.h:52-71 SerializeRspSupportedZenoh *)
Definition SerializeRspSupportedZenoh (rsp : option Msg) (j : InvokeWrapper Msg ZenohReply) (ty : string)
    : M ZShm (option BufferArrayView * Z) :=
  let ts := rsp_type_support_ref (iw_info j) in
  serialize_supported (rsp_serialization_cache j !! ty) (m ← rsp; Some (requests ts ty m, Serialize ts ty m)).

(** From the record on.  When the serialization fails over shared memory the
    function returns, and does not answer. *)
(* @src src/src/plugins/zenoh_plugin/zenoh_rpc_backend.cc:612-801 ZenohRpcBackend::Invoke (send) *)
Definition zr_send_req (fuel : nat) (cw : nat) (i : InvokeWrapper Msg ClientCb) (shm_enabled : bool) (ty pattern : string) (cur_req_id : Z)
    (kvs : KeyVals) : M W (option unit) :=
  let node_pub_topic := ("req/" ++ pattern)%string in
  sent ← (if shm_enabled
          then zr_send_shm fuel node_pub_topic (req_header ty pattern cur_req_id kvs) (req_header_len ty pattern kvs)
                 (SerializeReqSupportedZenoh i ty)
          else mret (Some false));
  match sent with
  | None => mret None
  | Some true => mret (Some tt)
  | Some false =>
      buffer ← on_client cw (TrySerializeReqWithCache ty);
      match buffer with
      | None => InvokeCallBack cw STATUS_CLI_SERIALIZATION_FAILED;; mret (Some tt)
      | Some data =>
          payload ← lift (pack_zenoh_req little alloc ty pattern cur_req_id kvs data);
          zr_publish node_pub_topic payload;;
          mret (Some tt)
      end
  end.

(** Without a publisher the function returns, and does not answer. *)
(* @src src/src/plugins/zenoh_plugin/zenoh_rpc_backend.cc:547-805 ZenohRpcBackend::Invoke *)
Definition zr_Invoke (fuel : nat) (cw : nat) : M W (option unit) :=
  let done_with status := InvokeCallBack cw status;; mret (Some tt) in
  try_catch
    (b ← on_zr get;
     if negb (state_eqb (zr_state b) kStart) then done_with STATUS_CLI_BACKEND_INTERNAL_ERROR
     else
       i ← on_client cw get;
       let pattern := zenoh_rpc_key (zr_limit_domain b) (func_name (iw_info i)) in
       let node_pub_topic := ("req/" ++ pattern)%string in
       match z_pub_registry (zr_manager b) !! node_pub_topic with
       | None => mret (Some tt)
       | Some shm_enabled =>
           let cur_req_id := zr_req_id b in
           on_zr (modify (zr_set_req_id (wrap32 (cur_req_id + 1))));;
           c ← get_rctx (iw_ctx i);
           let ty := rc_GetSerializationType c in
           if 255 <? str_size ty then done_with STATUS_CLI_UNKNOWN
           else
             let kvs := map_order (rc_meta_data_map c) in
             if 255 <? Z.of_nat (length kvs) then done_with STATUS_CLI_BACKEND_INTERNAL_ERROR
             else
               ret ← on_zr (on_zr_tool (Tool_Record cur_req_id (rc_Timeout c) cw));
               if negb ret then done_with STATUS_CLI_BACKEND_INTERNAL_ERROR
               else zr_send_req fuel cw i shm_enabled ty pattern cur_req_id kvs
       end)
    (λ _, mret (Some tt)).

(** *** The server *)

(* @src src/src/plugins/zenoh_plugin/zenoh_manager.cc:121-133 ZenohManager::Publish *)
Definition zm_Publish (topic : string) (payload : bytes) : M W unit :=
  b ← on_zr get;
  match z_pub_registry (zr_manager b) !! topic with
  | None => mret tt
  | Some _ => zr_publish topic payload
  end.

(** There is no length in front. *)
(* @src src/src/plugins/zenoh_plugin/zenoh_rpc_backend.cc:815-831 ZenohRpcBackend::ReturnRspWithStatusCode *)
Definition zr_ReturnRspWithStatusCode (r : ZenohReply) (code : Z) : M W unit :=
  let ty := zrp_serialization_type r in
  payload ← lift (pack_rsp little (alloc (rsp_pkg_size ty [])) ty (zrp_req_id_buf r) code []);
  zm_Publish ("rsp/" ++ zrp_pattern r)%string payload.

(** The handler of requests, up to the call of the service, which is recorded.
    A request that cannot be read is only logged. *)
(* @src src/src/plugins/zenoh_plugin/zenoh_rpc_backend.cc:155-424 ZenohRpcBackend::RegisterServiceFunc (handle) *)
Definition zr_serve (info : FuncInfo Msg) (payload : bytes) : M W unit :=
  try_catch
    (ctx_id ← new_rctx AIMRT_RPC_SERVER_CONTEXT;
     buf_oper ← lift (open_package little (alloc (buf_len payload)) payload);
     p ← lift (parse_req little buf_oper).1;
     let '(ty, pattern, req_id_buf, kvs, remaining_buf) := p in
     update_rctx ctx_id (rc_SetMetaValue KEY_SERIALIZATION_TYPE ty);;
     mapM_ (λ kv, update_rctx ctx_id (rc_SetMetaValue kv.1 kv.2)) kvs;;
     update_rctx ctx_id (rc_SetFunctionName (func_name info));;
     update_rctx ctx_id (rc_SetMetaValue KEY_BACKEND "zenoh");;
     match Deserialize (req_type_support_ref info) ty [remaining_buf] with
     | None => throw (AimRTException "Zenoh req deserialize failed.")
     | Some req =>
         rsp ← new_obj (Create (rsp_type_support_ref info));
         on_zr (modify (λ b,
           let sw := fresh (dom (zr_services b)) in
           zr_set_services
             (<[sw := mkInvokeWrapper info (Some req) (Some rsp) ctx_id (Some (mkZenohReply ty pattern req_id_buf)) ∅ ∅]> (zr_services b))
             (zr_calls b ++ [sw]) b))
     end)
    (λ _, mret tt).

(** The callback of the wrapper at [sw]: the key is that of the request. *)
(* @src src/src/plugins/zenoh_plugin/zenoh_rpc_backend.cc:217-417 ZenohRpcBackend::RegisterServiceFunc (callback) *)
Definition zr_reply (fuel : nat) (sw : nat) (status : Z) : M W (option unit) :=
  w ← get;
  let b := zr (w_rest w) in
  match zr_services b !! sw with
  | None => undef
  | Some j =>
      match iw_callback j with
      | None => bad_function_call
      | Some r =>
          if negb (status_OK status) then zr_ReturnRspWithStatusCode r status;; mret (Some tt)
          else
            let ty := zrp_serialization_type r in
            let node_pub_topic := ("rsp/" ++ zrp_pattern r)%string in
            match z_pub_registry (zr_manager b) !! node_pub_topic with
            | None => mret (Some tt)
            | Some shm_enabled =>
                sent ← (if shm_enabled : bool
                        then zr_send_shm fuel node_pub_topic (rsp_header ty (zrp_req_id_buf r)) (rsp_header_len ty)
                               (SerializeRspSupportedZenoh (obj_at w (iw_rsp j)) j ty)
                        else mret (Some false));
                match sent with
                | None => mret None
                | Some true => mret (Some tt)
                | Some false =>
                    match TrySerializeRspWithCache (obj_at w (iw_rsp j)) ty j with
                    | (Ok (Some data), j') =>
                        on_zr (modify (λ b, zr_set_services (<[sw := j']> (zr_services b)) (zr_calls b) b));;
                        payload ← lift (pack_zenoh_rsp little alloc ty (zrp_req_id_buf r) data);
                        zr_publish node_pub_topic payload;;
                        mret (Some tt)
                    | (Ok None, _) => zr_ReturnRspWithStatusCode r STATUS_SVR_SERIALIZATION_FAILED;; mret (Some tt)
                    | (Throw e, _) => throw e
                    | (Undef, _) => undef
                    end
                end
            end
      end
  end.

(** *** The client's handler *)

(** Up to taking the record; what comes after is under a handler that answers
    the call. *)
(* @src src/src/plugins/zenoh_plugin/zenoh_rpc_backend.cc:476-536 ZenohRpcBackend::RegisterClientFunc (handle) *)
Definition zr_take_rsp (payload : bytes) : M W unit :=
  r ← try_catch
    (buf_oper ← lift (open_package little (alloc (buf_len payload)) payload);
     let '(head, buf_oper) := parse_rsp_head little buf_oper in
     h ← lift head;
     let '(ty, req_id, code) := h in
     msg_recorder ← on_zr (on_zr_tool (GetRecord req_id));
     mret (match msg_recorder with Some cw => Some (cw, ty, code, buf_oper) | None => None end))
    (λ _, mret None);
  match r with
  | None => mret tt
  | Some (cw, ty, code, buf_oper) =>
      try_catch
        (if negb (code =? 0) then InvokeCallBack cw code
         else
           i ← on_client cw get;
           remaining_buf ← lift (get_rest buf_oper).1;
           match Deserialize (rsp_type_support_ref (iw_info i)) ty [remaining_buf] with
           | None => InvokeCallBack cw STATUS_CLI_DESERIALIZATION_FAILED
           | Some m =>
               write_obj (iw_rsp i) m;;
               InvokeCallBack cw STATUS_OK
           end)
        (λ _, InvokeCallBack cw STATUS_CLI_BACKEND_INTERNAL_ERROR)
  end.

(** *** Deliveries *)

Definition zr_handler (h : ZenohHandle Msg) (payload : bytes) : M W unit :=
  match h with
  | ZServeReq info => zr_serve info payload
  | ZTakeRsp => zr_take_rsp payload
  end.

(** Zenoh delivers a sample to the process. *)
Definition zr_receive (key : string) (payload : bytes) : M W unit :=
  b ← on_zr get;
  mapM_ (λ h, zr_handler h payload) (handlers_of key (zr_manager b)).

(** A timer of the client tool fires. *)
(* @src src/src/plugins/zenoh_plugin/zenoh_rpc_backend.cc:93-96 ZenohRpcBackend::Initialize (time-out handle) *)
Definition zr_fire_timer (k : nat) : M W unit :=
  b ← on_zr get;
  match zr_tool b with
  | None => mret tt
  | Some t =>
      match ct_timers t !! k with
      | None => mret tt
      | Some (req_id, _) =>
          on_zr (on_zr_tool (modify (λ t, mkTool (ct_timeout_executor t) (ct_timeout_handle t)
                                         (delete k (ct_timers t)) (client_msg_recorder_map t))));;
          msg_recorder ← on_zr (on_zr_tool (GetRecord req_id));
          match msg_recorder with
          | Some cw => if ct_timeout_handle t then InvokeCallBack cw STATUS_TIMEOUT else bad_function_call
          | None => mret tt
          end
      end
  end.
End ZenohRpcCalls.
