(* ===== verification/ZenohRpcTheory.v ===== *)
(** * Calls over zenoh

    The theorems of the backend of [ZenohRpc.v]: what a call, a request, an answer
    and a response do, and what is never answered. *)

From S2P Require Import Prelude Yaml StdString Filters Channel Rpc Url RpcBackend LocalRpc BufferUtil MqttWire MqttRegistry MqttRpc ZeroCopy ZenohShm ZenohManager ZenohLoop ZenohRpc.
Local Open Scope Z_scope.

(** ** Packages *)

Section ZenohRpcPackages.
Context (little : bool) (alloc : Z → Z).
(** An object of less than half of the address space is inside it. *)
Context (Halloc : ∀ n, 0 ≤ n < 2 ^ 63 → at_address (alloc n) n).

(** What can be written of a request. *)
Definition req_writable (ty pattern : string) (kvs : KeyVals) : Prop :=
  str_size ty ≤ 255 ∧ str_size pattern ≤ 255 ∧ Z.of_nat (length kvs) ≤ 255 ∧ Forall kv_ok kvs.

#[export] Instance req_writable_dec ty pattern kvs : Decision (req_writable ty pattern kvs).
Proof. unfold req_writable. apply _. Defined.

Lemma req_fields_ok ty pattern id kvs data :
  req_writable ty pattern kvs → in_width 32 id → Forall field_ok (req_fields ty pattern id kvs data).
Proof using.
  intros (Hty & Hp & Hn & Hk) Hid. constructor; [by apply str8_ok|]. constructor; [by apply str8_ok|]. constructor; [done|].
  by apply metas_data_ok.
Qed.

Lemma rsp_fields_ok ty id code data :
  str_size ty ≤ 255 → in_width 32 code → Forall field_ok (rsp_fields ty (le_bytes 4 id) code data).
Proof using. intros Hty Hc. constructor; [by apply str8_ok|]. constructor; [done|]. constructor; [done|]. apply data_calls_ok. Qed.

Lemma req_package_len ty pattern id kvs data :
  req_writable ty pattern kvs → in_width 32 id → buf_len (encode_all (req_fields ty pattern id kvs data)) = req_pkg_size ty pattern kvs data.
Proof using. intros Hw Hid. unfold buf_len. rewrite encode_rooms by by apply req_fields_ok. apply req_rooms. Qed.

Lemma pack_with_len_ok fs :
  Forall field_ok fs → buf_len (encode_all fs) < 2 ^ 32 →
  pack_with_len little alloc (buf_len (encode_all fs)) fs = Ok (payload_of (buf_len (encode_all fs)) (encode_all fs)).
Proof using Halloc.
  intros Hok Hsz. pose proof (buf_len_nonneg (encode_all fs)). unfold pack_with_len.
  rewrite (wrap_small 64), (wrap_small 32), (proj2 (Z.leb_gt _ _)) by (unfold in_width; lia).
  rewrite (fill_exact little _ _ (FU32 (buf_len (encode_all fs)) :: fs)).
  - by rewrite encode_all_cons.
  - constructor; [change (in_width 32 (buf_len (encode_all fs))); unfold in_width; lia|done].
  - rewrite encode_all_cons, length_app. cbn [encode]. rewrite length_le_bytes. unfold buf_len. lia.
  - apply Halloc. lia.
Qed.

Lemma pack_zenoh_req_ok ty pattern id kvs data :
  let p := encode_all (req_fields ty pattern id kvs data) in
  req_writable ty pattern kvs → in_width 32 id → buf_len p < 2 ^ 32 →
  pack_zenoh_req little alloc ty pattern id kvs data = Ok (payload_of (buf_len p) p).
Proof using Halloc.
  intros p Hw Hid Hsz. pose proof (buf_len_nonneg p). pose proof (req_package_len ty pattern id kvs data Hw Hid) as Hl. fold p in Hl.
  unfold pack_zenoh_req. change (1 + str_size ty + _ + _ + _ + _ + _) with (req_pkg_size ty pattern kvs data). rewrite <-Hl.
  rewrite (wrap_small 64) by (unfold in_width; lia). apply pack_with_len_ok; [by apply req_fields_ok|done].
Qed.

Lemma pack_zenoh_rsp_ok ty id data :
  let p := encode_all (rsp_fields ty (le_bytes 4 id) 0 data) in
  str_size ty ≤ 255 → buf_len p < 2 ^ 32 →
  pack_zenoh_rsp little alloc ty (le_bytes 4 id) data = Ok (payload_of (buf_len p) p).
Proof using Halloc.
  intros p Hty Hsz. pose proof (buf_len_nonneg p).
  assert (buf_len p = rsp_pkg_size ty data) as Hl by by apply length_rsp.
  unfold pack_zenoh_rsp. change (1 + str_size ty + _ + _ + _) with (rsp_pkg_size ty data). rewrite <-Hl.
  rewrite (wrap_small 64) by (unfold in_width; lia). apply pack_with_len_ok; [by apply rsp_fields_ok|done].
Qed.
End ZenohRpcPackages.

(** ** A package that is longer than its vector *)

Section Claims.
Context (little : bool).
Implicit Types s : ConstBufferOperator.

(** A reader in a vector [mem], that has been told of more. *)
Record claims s (mem : bytes) (off : Z) : Prop := {
  cl_mem : cb_mem s = mem;
  cl_start : 0 ≤ cb_start s < 2 ^ 63;
  cl_cur : cb_cur s = cb_start s + off;
  cl_off : 0 ≤ off < 2 ^ 10;
  cl_end : cb_start s + 2 ^ 11 ≤ cb_end s
}.

Lemma claims_check s mem off len : claims s mem off → 0 ≤ len < 2 ^ 10 → cb_check len s = (Ok tt, s).
Proof using.
  intros [? ? Hc ? ?] Hlen. unfold cb_check. unfold_monad. rewrite Hc, (wrap_small 64) by (unfold in_width; lia).
  by rewrite (proj2 (Z.ltb_ge _ _)) by lia.
Qed.

Lemma claims_load s mem off len :
  claims s mem off → 0 ≤ len →
  cb_load len s = (if off + len <=? buf_len mem then Ok (take (Z.to_nat len) (drop (Z.to_nat off) mem)) else Undef, s).
Proof using.
  intros [<- ? Hc ? ?] Hlen. unfold cb_load, view_bytes, view_in_bounds. unfold_monad. cbn [v_ptr v_len]. rewrite Hc.
  rewrite (proj2 (Z.leb_le (cb_start s) _)), (proj2 (Z.leb_le 0 len)) by lia. cbn [andb]. unfold buf_len.
  replace (cb_start s + off - cb_start s) with off by lia.
  destruct (Z.leb_spec (off + len) (Z.of_nat (length (cb_mem s)))), (Z.leb_spec (cb_start s + off + len) (cb_start s + Z.of_nat (length (cb_mem s)))); done || lia.
Qed.

Lemma claims_advance s mem off len :
  claims s mem off → 0 ≤ len → off + len < 2 ^ 10 → ∃ s', cb_advance len s = (Ok tt, s') ∧ claims s' mem (off + len) ∧ cb_start s' = cb_start s.
Proof using.
  intros [? ? Hc ? ?] ? ?. eexists. unfold cb_advance, modify. split; [done|]. rewrite Hc, (wrap_small 64) by (unfold in_width; lia).
  split; [|done]. split; cbn; [done|lia..].
Qed.

(** A number is read where there is room for it. *)
Lemma claims_u32 s mem off :
  claims s mem off → off + 4 < 2 ^ 10 →
  (GetUint32 little s).1 = Undef ∨ ∃ n s', GetUint32 little s = (Ok n, s') ∧ claims s' mem (off + 4) ∧ off + 4 ≤ buf_len mem.
Proof using.
  intros Hs Hoff. unfold GetUint32, mbind, M_bind. rewrite (claims_check s mem off) by (done || lia).
  rewrite (claims_load s mem off) by (done || lia). destruct (Z.leb_spec (off + 4) (buf_len mem)) as [Hin|]; [|by left].
  right. set (b := take _ _).
  assert (length b = 4%nat) as Hb.
  { destruct Hs. unfold b, buf_len in *. rewrite length_take, length_drop. lia. }
  rewrite <-(app_nil_r b), GetUint32FromBuf_le by done. unfold lift.
  destruct (claims_advance s mem off 4 Hs) as (s' & -> & Hs' & _); [lia..|]. by eexists _, s'.
Qed.

(** A response that needs more than there is. *)
Lemma parse_rsp_head_beyond s k rest :
  claims s (k :: rest) 0 → buf_len (k :: rest) < 9 + u8_of_char k → (parse_rsp_head little s).1 = Undef.
Proof using.
  intros Hs Hlen. pose proof (u8_of_char_range k) as Hk. unfold in_width in Hk. change (2 ^ 8) with 256 in Hk.
  unfold parse_rsp_head, get_str, GetString, GetUint8, mbind, M_bind. rewrite (claims_check s _ 0) by (done || lia).
  rewrite (claims_load s _ 0) by (done || lia). rewrite (proj2 (Z.leb_le _ _)) by (unfold buf_len; cbn [length]; lia).
  change (take (Z.to_nat 1) _) with [k]. unfold lift at 1. destruct (claims_advance s _ 0 1 Hs) as (s1 & -> & Hs1 & _); [lia..|].
  unfold mret at 1, M_ret at 1. rewrite (claims_check s1 _ 1) by (done || lia). unfold gets, lift, get, mret, M_ret.
  destruct (claims_advance s1 _ 1 (u8_of_char k) Hs1) as (s2 & -> & Hs2 & Hst); [lia..|].
  unfold view_bytes. destruct (view_in_bounds _ _); [|done].
  destruct (claims_u32 s2 _ _ Hs2 ltac:(lia)) as [Hu|(n & s3 & -> & Hs3 & _)]; [by destruct (GetUint32 little s2) as [[]]|].
  destruct (claims_u32 s3 _ _ Hs3 ltac:(lia)) as [Hu|(n' & s4 & _ & _ & Hroom)]; [by destruct (GetUint32 little s3) as [[]]|lia].
Qed.

(** The first four bytes are taken for a length. *)
Lemma open_package_any ptr b :
  4 ≤ buf_len b → 0 ≤ ptr < 2 ^ 62 →
  let n := le_val (take 4 b) in
  open_package little ptr b = Ok (mkConstBufferOperator (ptr + 4) (ptr + 4 + n) (ptr + 4) (take (Z.to_nat n) (drop 4 b))).
Proof using.
  intros Hlen Hp n. unfold open_package. rewrite (wrap_small 64 (ptr + 4)) by (unfold in_width; lia).
  assert (length (take 4 b) = 4%nat) as Hl by (rewrite length_take; unfold buf_len in Hlen; lia).
  pose proof (le_val_range (take 4 b)) as Hn. rewrite Hl in Hn. change (256 ^ Z.of_nat 4) with (2 ^ 32) in Hn.
  rewrite (GetUint32_le little n _ []); [|exact Hn| |].
  - cbn [fst mbind res_bind]. rewrite (wrap_small 64) by (unfold in_width; lia). done.
  - split; cbn [cb_start cb_end cb_cur cb_mem]; lia.
  - unfold cb_rest; cbn [cb_cur cb_start cb_mem]. rewrite Z.sub_diag, app_nil_r. unfold n. rewrite <-Hl at 2. by rewrite le_bytes_le_val.
Qed.

(** Without its length, the response with a status is shorter than what it
    seems to say of itself, for the types of the framework. *)
Lemma status_beyond ptr ty id code :
  ty ∈ ["pb"; "json"; "ros2"] → 0 ≤ ptr < 2 ^ 62 →
  ∃ s, open_package little ptr (encode_all (rsp_fields ty (le_bytes 4 id) code [])) = Ok s ∧ (parse_rsp_head little s).1 = Undef.
Proof using.
  intros Hty Hp. set (p := encode_all _).
  assert (∃ k rest, drop 4 p = k :: rest ∧ buf_len (k :: rest) < 9 + u8_of_char k ∧ 2 ^ 12 ≤ le_val (take 4 p) ∧ 4 ≤ buf_len p)
    as (k & rest & Hdrop & Hlen & Hval & Hp4).
  { rewrite !elem_of_cons, elem_of_nil in Hty. destruct Hty as [-> | [-> | [-> |[]]]]; do 2 eexists; (split; [reflexivity|]);
      (split; [|split; [|by vm_compute]]); try by vm_compute.
    - change (buf_len _) with 7. set (k := char_of_u8 (id / 256)). pose proof (u8_of_char_range k) as Hk. unfold in_width in Hk. lia.
    - change (le_val _) with (2 + 256 * (112 + 256 * (98 + 256 * (u8_of_char (char_of_u8 id) + 256 * 0)))).
      pose proof (u8_of_char_range (char_of_u8 id)) as Hk. unfold in_width in Hk. lia. }
  eexists. split; [by apply open_package_any|]. cbn zeta. rewrite Hdrop.
  rewrite (take_ge (k :: rest)) by (unfold buf_len in *; pose proof (u8_of_char_range k) as Hk; unfold in_width in Hk; change (2 ^ 8) with 256 in Hk; lia).
  eapply parse_rsp_head_beyond; [|exact Hlen]. split; cbn [cb_mem cb_start cb_cur cb_end]; done || lia.
Qed.
End Claims.

Section ZenohCalls.
Context {Msg X : Type} `{HasZenohRpc Msg X} `{IterOrder}.
Context (user_client_hook : nat → nat → Z → M (World Msg X) unit).
Context (Create : TypeSupport Msg → Msg).
Context (little : bool) (alloc : Z → Z).
Context (shm_alloc : nat → Z → option (Z * bytes)).
Context (requests : TypeSupport Msg → string → Msg → list Z).
Context (Halloc : ∀ n, 0 ≤ n < 2 ^ 63 → at_address (alloc n) n).
Implicit Types w v : World Msg X.

Abbreviation zr_Invoke := (zr_Invoke user_client_hook little alloc shm_alloc requests).
Abbreviation zr_send_req := (zr_send_req user_client_hook little alloc shm_alloc requests).
Abbreviation zr_serve := (zr_serve Create little alloc).
Abbreviation zr_reply := (zr_reply little alloc shm_alloc requests).
Abbreviation zr_take_rsp := (zr_take_rsp user_client_hook little alloc).
Abbreviation zr_receive := (zr_receive user_client_hook Create little alloc).

Definition zr_of w : ZenohRpcBackend Msg := zr (w_rest w).
Definition with_zr (b : ZenohRpcBackend Msg) w : World Msg X := set_w_rest (set_zr b (w_rest w)) w.

Lemma zr_of_with b w : zr_of (with_zr b w) = b.
Proof. apply zr_set_zr. Qed.

Lemma with_zr_id w : with_zr (zr_of w) w = w.
Proof. unfold with_zr, zr_of. rewrite set_zr_zr. by destruct w. Qed.

Lemma with_zr_twice b b' w : with_zr b (with_zr b' w) = with_zr b w.
Proof. unfold with_zr. cbn. by rewrite set_zr_set_zr. Qed.

Lemma on_zr_eq {A} (m : M (ZenohRpcBackend Msg) A) w a b : m (zr_of w) = (a, b) → on_zr m w = (a, with_zr b w).
Proof. intros Hm. unfold on_zr, zoom. unfold zr_of in Hm. by rewrite Hm. Qed.

Lemma on_zr_get w : on_zr get w = (Ok (zr_of w), w).
Proof. erewrite on_zr_eq; [|reflexivity]. by rewrite with_zr_id. Qed.

Lemma on_zr_modify f w : on_zr (modify f) w = (Ok tt, with_zr (f (zr_of w)) w).
Proof. by apply on_zr_eq. Qed.

Definition zr_key w (func : string) : string := zenoh_rpc_key (zr_limit_domain (zr_of w)) func.

(** Zenoh is given a sample. *)
Definition put_sample (key : string) (payload : bytes) (b : ZenohRpcBackend Msg) : ZenohRpcBackend Msg :=
  zr_set_put (zr_put b ++ [(key, payload)]) b.

Lemma zr_publish_eq key payload w : zr_publish key payload w = (Ok tt, with_zr (put_sample key payload (zr_of w)) w).
Proof. apply on_zr_modify. Qed.

(** ** A call *)

(** With a call recorded. *)
Definition zr_record_call (cw : nat) (c : RpcContext) (t : RpcClientTool nat) (b : ZenohRpcBackend Msg) : ZenohRpcBackend Msg :=
  zr_set_tool (Some (mkTool (ct_timeout_executor t) (ct_timeout_handle t)
      (if ct_timeout_executor t then ct_timers t ++ [(zr_req_id b, rc_Timeout c)] else ct_timers t)
      (<[zr_req_id b := cw]> (client_msg_recorder_map t))))
    (zr_set_req_id (wrap32 (zr_req_id b + 1)) b).

(** A call that passes the checks: from a started process, of a function with a
    publisher, with a type and metadata that are not too large, and a number that
    is free. *)
Record zr_call_ok w cw (i : InvokeWrapper Msg ClientCb) (c : RpcContext) (t : RpcClientTool nat) (shm : bool) : Prop := {
  zk_client : w_clients w !! cw = Some i;
  zk_ctx : w_ctxs w !! iw_ctx i = Some c;
  zk_state : zr_state (zr_of w) = kStart;
  zk_tool : zr_tool (zr_of w) = Some t;
  zk_pub : z_pub_registry (zr_manager (zr_of w)) !! ("req/" ++ zr_key w (func_name (iw_info i)))%string = Some shm;
  zk_type : str_size (rc_GetSerializationType c) ≤ 255;
  zk_metas : Z.of_nat (length (map_order (rc_meta_data_map c))) ≤ 255;
  zk_free : client_msg_recorder_map t !! zr_req_id (zr_of w) = None
}.

(** Such a call is recorded, and sent. *)
Lemma zr_Invoke_run fuel w cw i c t shm :
  zr_call_ok w cw i c t shm →
  zr_Invoke fuel cw w =
    try_catch (zr_send_req fuel cw i shm (rc_GetSerializationType c) (zr_key w (func_name (iw_info i))) (zr_req_id (zr_of w))
                 (map_order (rc_meta_data_map c)))
      (λ _, mret (Some tt)) (with_zr (zr_record_call cw c t (zr_of w)) w).
Proof using.
  intros [Hi Hc Hst Ht Hpub Hty Hn Hfree]. unfold ZenohRpc.zr_Invoke. unfold try_catch at 1. unfold mbind at 1, M_bind at 1.
  rewrite on_zr_get, Hst. change (state_eqb kStart kStart) with true. cbn [negb]. unfold mbind at 1, M_bind at 1.
  rewrite (on_client_get _ _ _ Hi). fold (zr_key w (func_name (iw_info i))). rewrite Hpub. unfold mbind at 1, M_bind at 1.
  rewrite on_zr_modify. set (w1 := with_zr _ w). unfold mbind at 1, M_bind at 1. rewrite (get_rctx_eq _ w1 _ Hc). cbn zeta.
  rewrite (proj2 (Z.ltb_ge _ _) Hty), (proj2 (Z.ltb_ge _ _) Hn). unfold mbind at 1, M_bind at 1.
  rewrite (on_zr_eq _ w1 (Ok true) (zr_record_call cw c t (zr_of w))).
  - cbn [negb]. unfold w1. by rewrite with_zr_twice.
  - unfold w1. rewrite zr_of_with. unfold on_zr_tool. cbn [zr_tool zr_set_req_id]. rewrite Ht. unfold Tool_Record. unfold_monad.
    by rewrite Hfree.
Qed.

(** Over the network. *)
Lemma zr_send_net fuel w cw i m ty pattern id kvs data :
  let p := encode_all (req_fields ty pattern id kvs data) in
  w_clients w !! cw = Some i → iw_req i = Some m → req_serialization_cache i = ∅ →
  Serialize (req_type_support_ref (iw_info i)) ty m = Some data →
  req_writable ty pattern kvs → in_width 32 id → buf_len p < 2 ^ 32 →
  zr_send_req fuel cw i false ty pattern id kvs w =
    (Ok (Some tt), with_zr (put_sample ("req/" ++ pattern) (payload_of (buf_len p) p) (zr_of w))
                     (set_w_clients (<[cw := set_req_cache {[ty := data]} i]> (w_clients w)) w)).
Proof using Halloc.
  intros p Hi Hreq Hcache Hser Hw Hid Hsz. unfold ZenohRpc.zr_send_req. unfold mbind at 1, M_bind at 1, mret at 1, M_ret at 1.
  unfold mbind at 1, M_bind at 1. rewrite (TrySerialize_req_eq cw i m Hreq Hcache ty w Hi), Hser.
  rewrite pack_zenoh_req_ok by done. unfold lift, mbind, M_bind. by rewrite zr_publish_eq.
Qed.

(** ** A request at the server *)

(** The context a service is called with. *)
Definition zenoh_served_ctx (func ty : string) (metas : gmap string string) : RpcContext :=
  mkRpcContext (<[KEY_BACKEND := "zenoh"]> (<[KEY_FUNCTION_NAME := func]> (metas ∪ {[KEY_SERIALIZATION_TYPE := ty]})))
    0 false AIMRT_RPC_SERVER_CONTEXT.

(** With the context of a request. *)
Definition with_served_ctx (func ty : string) (metas : gmap string string) v : World Msg X :=
  set_ctx (fresh (dom (w_ctxs v))) (zenoh_served_ctx func ty metas) v.

Definition zr_serve_effect (info : FuncInfo Msg) (ty pattern : string) (req_id : Z) (metas : gmap string string) (req : Msg) v : World Msg X :=
  let ctx_id := fresh (dom (w_ctxs v)) in
  let rsp := fresh (dom (w_objs v)) in
  let b := zr_of v in
  let sw := fresh (dom (zr_services b)) in
  with_zr (zr_set_services
      (<[sw := mkInvokeWrapper info (Some req) (Some rsp) ctx_id (Some (mkZenohReply ty pattern (le_bytes 4 req_id))) ∅ ∅]> (zr_services b))
      (zr_calls b ++ [sw]) b)
    (set_w_objs (<[rsp := Create (rsp_type_support_ref info)]> (w_objs v)) (with_served_ctx (func_name info) ty metas v)).

(** The package is read as far as the length in front says. *)
Lemma zr_serve_eq info ty pattern id (metas : gmap string string) data rest v :
  let kvs := map_order metas in
  let p := encode_all (req_fields ty pattern id kvs data) in
  let payload := payload_of (buf_len p) (p ++ rest) in
  req_writable ty pattern kvs → in_width 32 id → buf_len p < 2 ^ 32 → buf_len payload < 2 ^ 63 →
  zr_serve info payload v =
    (Ok tt, match Deserialize (req_type_support_ref info) ty [concat data] with
            | Some req => zr_serve_effect info ty pattern id metas req v
            | None => with_served_ctx (func_name info) ty metas v
            end).
Proof using Halloc.
  intros kvs p payload (Hty & Hto & Hn & Hk) Hid Hsz H63. unfold payload.
  destruct (open_package_ok little (alloc (buf_len payload)) p rest Hsz) as (s & Hopen & Hwf & Hr).
  { apply Halloc. pose proof (buf_len_nonneg payload). unfold payload in *. lia. }
  pose proof (parse_req_ok little ty pattern id kvs data s Hty Hto Hn Hk Hwf Hr) as Hp.
  unfold ZenohRpc.zr_serve, try_catch, mbind, M_bind, lift. fold payload. unfold payload in *. rewrite new_rctx_eq, Hopen, Hp. set (ctx_id := fresh (dom (w_ctxs v))).
  rewrite (update_rctx_eq _ _ _ _ (set_ctx_lookup _ _ _)), set_ctx_twice.
  rewrite (set_metas_run _ _ _ _ (set_ctx_lookup _ _ _)), set_ctx_twice.
  do 2 (rewrite (update_rctx_eq _ _ _ _ (set_ctx_lookup _ _ _)), set_ctx_twice).
  cbn [rc_meta_data_map rc_SetMetaValue RpcContext_new]. subst kvs. rewrite insert_map_order, insert_empty.
  destruct (Deserialize _ _ _) as [req|]; [|done]. rewrite new_obj_eq, on_zr_modify. done.
Qed.

(** ** An answer *)

(** The serialized form of a service's response. *)
Definition zenoh_response_form (j : InvokeWrapper Msg ZenohReply) (ty : string) (m : Msg) : option BufferArrayView :=
  match rsp_serialization_cache j !! ty with
  | Some b => Some b
  | None => Serialize (rsp_type_support_ref (iw_info j)) ty m
  end.

(** A response over the network. *)
Lemma zr_reply_net fuel sw j r id m data v :
  let ty := zrp_serialization_type r in
  let p := encode_all (rsp_fields ty (le_bytes 4 id) 0 data) in
  zr_services (zr_of v) !! sw = Some j → iw_callback j = Some r → obj_at v (iw_rsp j) = Some m →
  zrp_req_id_buf r = le_bytes 4 id → str_size ty ≤ 255 → zenoh_response_form j ty m = Some data → buf_len p < 2 ^ 32 →
  z_pub_registry (zr_manager (zr_of v)) !! ("rsp/" ++ zrp_pattern r)%string = Some false →
  ∃ v', zr_reply fuel sw STATUS_OK v = (Ok (Some tt), v') ∧
    zr_put (zr_of v') = zr_put (zr_of v) ++ [(("rsp/" ++ zrp_pattern r)%string, payload_of (buf_len p) p)].
Proof using Halloc.
  intros ty p Hj Hr Hm Hbuf Hty Hform Hsz Hpub.
  unfold ZenohRpc.zr_reply, mbind at 1, M_bind at 1, get at 1. cbn zeta. fold (zr_of v). rewrite Hj, Hr.
  change (status_OK STATUS_OK) with true. cbn [negb]. rewrite Hpub. unfold mbind at 1, M_bind at 1, mret at 1, M_ret at 1.
  unfold TrySerializeRspWithCache, SerializeRspWithCache. unfold zenoh_response_form in Hform. unfold_monad. rewrite Hm, Hbuf. fold ty.
  assert (∀ j', ∃ v',
    (on_zr (modify (λ b, zr_set_services (<[sw := j']> (zr_services b)) (zr_calls b) b));;
     payload ← lift (pack_zenoh_rsp little alloc ty (le_bytes 4 id) data);
     zr_publish ("rsp/" ++ zrp_pattern r) payload;;
     mret (Some tt)) v = (Ok (Some tt), v') ∧
    zr_put (zr_of v') = zr_put (zr_of v) ++ [(("rsp/" ++ zrp_pattern r)%string, payload_of (buf_len p) p)]) as Hsend.
  { intros j'. unfold mbind, M_bind. rewrite on_zr_modify, pack_zenoh_rsp_ok by done. unfold lift. rewrite zr_publish_eq, zr_of_with, with_zr_twice.
    eexists. split; [done|]. by rewrite zr_of_with. }
  destruct (rsp_serialization_cache j !! ty) as [d|]; [injection Hform as ->; apply Hsend|]. rewrite Hform. cbn. apply Hsend.
Qed.

(** ** A response at a client *)

(** What the client's handler does with a response to a recorded call. *)
Definition zr_take_effect (cw : nat) (i : InvokeWrapper Msg ClientCb) (call a : nat) (id : Z) (t : RpcClientTool nat)
    (ty : string) (code : Z) (data : bytes) w : World Msg X :=
  let w1 := with_zr (zr_set_tool (Some (drop_record id t)) (zr_of w)) w in
  if negb (code =? 0) then refuse cw i call code w1
  else
    match Deserialize (rsp_type_support_ref (iw_info i)) ty [data] with
    | None => refuse cw i call STATUS_CLI_DESERIALIZATION_FAILED w1
    | Some m' => refuse cw i call STATUS_OK (set_w_objs (<[a := m']> (w_objs w1)) w1)
    end.

(** A process that waits for a number. *)
Record zr_waits w (id : Z) cw (i : InvokeWrapper Msg ClientCb) (call a : nat) (t : RpcClientTool nat) : Prop := {
  zw_tool : zr_tool (zr_of w) = Some t;
  zw_record : client_msg_recorder_map t !! id = Some cw;
  zw_client : w_clients w !! cw = Some i;
  zw_callback : iw_callback i = Some (Answer call);
  zw_rsp : iw_rsp i = Some a
}.

Lemma zr_take_rsp_eq cw i call a id t ty code data rest w :
  let p := encode_all (rsp_fields ty (le_bytes 4 id) code data) in
  let payload := payload_of (buf_len p) (p ++ rest) in
  zr_waits w id cw i call a t →
  str_size ty ≤ 255 → in_width 32 id → in_width 32 code → buf_len p < 2 ^ 32 → buf_len payload < 2 ^ 63 →
  zr_take_rsp payload w = (Ok tt, zr_take_effect cw i call a id t ty code (concat data) w).
Proof using Halloc.
  intros p payload [Ht Hid Hi Hcb Ha] Hty Hiw Hcw Hsz H63. unfold payload.
  destruct (open_package_ok little (alloc (buf_len payload)) p rest Hsz) as (s & Hopen & Hwf & Hr).
  { apply Halloc. pose proof (buf_len_nonneg payload). unfold payload in *. lia. }
  destruct (parse_rsp_ok little ty id code data s Hty Hiw Hcw Hwf Hr) as (s' & Hhead & Hrest).
  unfold ZenohRpc.zr_take_rsp, mbind, M_bind, lift. unfold try_catch at 1. fold payload. unfold payload in *. rewrite Hopen, Hhead.
  rewrite (on_zr_eq _ w (Ok (Some cw)) (zr_set_tool (Some (drop_record id t)) (zr_of w))).
  2: { unfold on_zr_tool. rewrite Ht. unfold GetRecord. unfold_monad. by rewrite Hid. }
  cbn [mret M_ret]. unfold zr_take_effect. set (w1 := with_zr _ w). unfold mret, M_ret, try_catch.
  destruct (code =? 0); cbn [negb]; [|by rewrite (InvokeCallBack_eq _ _ w1 _ _ _ Hi Hcb)].
  rewrite (on_client_get _ w1 _ Hi), Hrest.
  destruct (Deserialize _ ty [concat data]) as [m'|]; [|by rewrite (InvokeCallBack_eq _ _ w1 _ _ _ Hi Hcb)].
  rewrite Ha. cbn [write_obj]. unfold modify. by rewrite (InvokeCallBack_eq _ _ (set_w_objs _ w1) _ _ _ Hi Hcb).
Qed.

(** One handler of a key. *)
Lemma zr_receive_one h key payload w :
  handlers_of key (zr_manager (zr_of w)) = [h] →
  zr_receive key payload w = zr_handler user_client_hook Create little alloc h payload w.
Proof using.
  intros Hh. unfold ZenohRpc.zr_receive, mbind at 1, M_bind at 1. rewrite on_zr_get, Hh. cbn [mapM_].
  unfold mbind, M_bind. destruct (zr_handler _ _ _ _ h payload w) as [[[]| |] ?]; done.
Qed.
(** A response over the network answers the call of whoever waits for its number. *)
Lemma zr_response_run fuel v sw j r m data u id cw i call a t :
  let ty := zrp_serialization_type r in
  zr_services (zr_of v) !! sw = Some j → iw_callback j = Some r → obj_at v (iw_rsp j) = Some m →
  zrp_req_id_buf r = le_bytes 4 id → in_width 32 id → str_size ty ≤ 255 →
  zenoh_response_form j ty m = Some data → rsp_pkg_size ty data < 2 ^ 32 →
  z_pub_registry (zr_manager (zr_of v)) !! ("rsp/" ++ zrp_pattern r)%string = Some false →
  zr_waits u id cw i call a t → handlers_of ("rsp/" ++ zrp_pattern r) (zr_manager (zr_of u)) = [ZTakeRsp] →
  ∃ v' p, zr_reply fuel sw STATUS_OK v = (Ok (Some tt), v') ∧
    zr_put (zr_of v') = zr_put (zr_of v) ++ [(("rsp/" ++ zrp_pattern r)%string, p)] ∧
    zr_receive ("rsp/" ++ zrp_pattern r) p u = (Ok tt, zr_take_effect cw i call a id t ty 0 (concat data) u).
Proof using Halloc.
  intros ty Hj Hr Hm Hbuf Hid Hty Hform Hsz Hpub Hwaits Hh.
  assert (buf_len (encode_all (rsp_fields ty (le_bytes 4 id) 0 data)) = rsp_pkg_size ty data) as Hl by (by apply length_rsp).
  set (p := encode_all _) in Hl.
  destruct (zr_reply_net fuel sw j r id m data v Hj Hr Hm Hbuf Hty Hform) as (v' & Hreply & Hput); [fold ty p; lia|done|].
  exists v', (payload_of (buf_len p) p). split; [exact Hreply|]. split; [exact Hput|].
  pose proof (zr_take_rsp_eq cw i call a id t ty 0 data [] u Hwaits Hty Hid) as Htake. cbn zeta in Htake. fold p in Htake.
  rewrite app_nil_r in Htake. rewrite (zr_receive_one ZTakeRsp) by done. apply Htake; [done|lia|rewrite payload_of_len; lia].
Qed.

(** A call over the network, up to its sample. *)
Lemma zr_call_run fuel w cw i c t call a m data :
  let id := zr_req_id (zr_of w) in
  let key := zr_key w (func_name (iw_info i)) in
  let ty := rc_GetSerializationType c in
  let p := encode_all (req_fields ty key id (map_order (rc_meta_data_map c)) data) in
  zr_call_ok w cw i c t false → iw_callback i = Some (Answer call) → iw_rsp i = Some a →
  iw_req i = Some m → req_serialization_cache i = ∅ → Serialize (req_type_support_ref (iw_info i)) ty m = Some data →
  req_writable ty key (map_order (rc_meta_data_map c)) → in_width 32 id → buf_len p < 2 ^ 32 →
  ∃ w1, zr_Invoke fuel cw w = (Ok (Some tt), w1) ∧ w_answers w1 = w_answers w ∧
    zr_put (zr_of w1) = zr_put (zr_of w) ++ [(("req/" ++ key)%string, payload_of (buf_len p) p)] ∧
    zr_manager (zr_of w1) = zr_manager (zr_of w) ∧
    ∃ t', zr_waits w1 id cw (set_req_cache {[ty := data]} i) call a t'.
Proof using Halloc.
  intros id key ty p Hcall Hcb Ha Hreq Hcache Hser Hw Hid Hsz.
  pose proof (zr_Invoke_run fuel w cw i c t false Hcall) as Hrun. fold key ty id in Hrun. pose proof (zk_client _ _ _ _ _ _ Hcall) as Hi.
  set (w0 := with_zr (zr_record_call cw c t (zr_of w)) w) in *. unfold try_catch in Hrun.
  rewrite (zr_send_net fuel w0 cw i m ty key id _ data) in Hrun by done. fold p in Hrun.
  assert (zr_of w0 = zr_record_call cw c t (zr_of w)) as Hw0 by apply zr_of_with. rewrite Hw0 in Hrun.
  eexists. split; [exact Hrun|]. split; [done|]. rewrite zr_of_with. split; [done|]. split; [done|].
  eexists. split; [by rewrite zr_of_with|apply lookup_insert_eq|apply lookup_insert_eq|done|done].
Qed.

(** * What the backend does *)

(** C9: A call over the network is answered with the service's response.  Let a
    call pass the checks, on a function without shared memory, and let its request
    be written and be of less than four gigabytes.  Let another process have one
    service under the key, whose type support reads the form as [req].  Then the
    call gives zenoh one sample and is not answered yet; delivered, it calls the
    service, once, with [req] and all of the metadata of the caller.  And whatever
    response the service writes that can be serialized: when it answers, one
    sample is given to zenoh, which answers the call, once, with that response. *)
Theorem zenoh_call_is_answered fuel w v cw i call a c t m data info req :
  let key := zr_key w (func_name (iw_info i)) in
  let ty := rc_GetSerializationType c in
  let kvs := map_order (rc_meta_data_map c) in
  zr_call_ok w cw i c t false →
  iw_callback i = Some (Answer call) → iw_rsp i = Some a → iw_req i = Some m → req_serialization_cache i = ∅ →
  Serialize (req_type_support_ref (iw_info i)) ty m = Some data →
  req_writable ty key kvs → in_width 32 (zr_req_id (zr_of w)) → req_pkg_size ty key kvs data < 2 ^ 32 →
  handlers_of ("rsp/" ++ key) (zr_manager (zr_of w)) = [ZTakeRsp] →
  handlers_of ("req/" ++ key) (zr_manager (zr_of v)) = [ZServeReq info] →
  z_pub_registry (zr_manager (zr_of v)) !! ("rsp/" ++ key)%string = Some false →
  Deserialize (req_type_support_ref info) ty [concat data] = Some req →
  ∃ w1 p1 v1 sw rsp ctx r,
    zr_Invoke fuel cw w = (Ok (Some tt), w1) ∧ w_answers w1 = w_answers w ∧
    zr_put (zr_of w1) = zr_put (zr_of w) ++ [(("req/" ++ key)%string, p1)] ∧
    zr_receive ("req/" ++ key) p1 v = (Ok tt, v1) ∧ zr_calls (zr_of v1) = zr_calls (zr_of v) ++ [sw] ∧
    zr_services (zr_of v1) !! sw = Some (mkInvokeWrapper info (Some req) (Some rsp) ctx (Some r) ∅ ∅) ∧
    w_ctxs v1 !! ctx = Some (zenoh_served_ctx (func_name info) ty (rc_meta_data_map c)) ∧
    ∀ m2 data2 m3,
      Serialize (rsp_type_support_ref info) ty m2 = Some data2 → rsp_pkg_size ty data2 < 2 ^ 32 →
      Deserialize (rsp_type_support_ref (iw_info i)) ty [concat data2] = Some m3 →
      ∃ v2 p2 w2,
        zr_reply fuel sw STATUS_OK (set_w_objs (<[rsp := m2]> (w_objs v1)) v1) = (Ok (Some tt), v2) ∧
        zr_put (zr_of v2) = zr_put (zr_of v1) ++ [(("rsp/" ++ key)%string, p2)] ∧
        zr_receive ("rsp/" ++ key) p2 w1 = (Ok tt, w2) ∧
        w_answers w2 = w_answers w ++ [(call, STATUS_OK)] ∧ w_objs w2 !! a = Some m3.
Proof using Halloc.
  intros key ty kvs Hcall Hcb Ha Hreq Hcache Hser Hw Hid Hsz Hcli Hsrv Hpub Hd. set (id := zr_req_id (zr_of w)) in *.
  pose proof (req_package_len ty key id kvs data Hw Hid) as Hlen. set (p := encode_all (req_fields ty key id kvs data)) in *.
  destruct (zr_call_run fuel w cw i c t call a m data Hcall Hcb Ha Hreq Hcache Hser Hw Hid) as (w1 & Hrun & Hans & Hput & Hman & t' & Hwaits);
    [fold ty key id kvs p; lia|]. fold ty key id kvs p in Hput, Hwaits.
  pose proof (zr_serve_eq info ty key id (rc_meta_data_map c) data [] v Hw Hid) as Hserve.
  cbn zeta in Hserve. fold kvs in Hserve. fold p in Hserve. rewrite app_nil_r, Hd in Hserve.
  specialize (Hserve ltac:(lia) ltac:(rewrite payload_of_len; lia)). set (v1 := zr_serve_effect _ _ _ _ _ _ v) in Hserve.
  eexists w1, (payload_of (buf_len p) p), v1, _, _, _, (mkZenohReply ty key (le_bytes 4 id)).
  split; [exact Hrun|]. split; [exact Hans|]. split; [exact Hput|]. split; [by rewrite (zr_receive_one (ZServeReq info))|].
  assert (zr_of v1 = _) as Hv1 by apply zr_of_with. rewrite Hv1. split; [reflexivity|]. split; [apply lookup_insert_eq|].
  split; [apply lookup_insert_eq|]. intros m2 data2 m3 Hser2 Hsz2 Hd2. rewrite <-Hv1. set (v1' := set_w_objs _ v1).
  destruct (zr_response_run fuel v1' (fresh (dom (zr_services (zr_of v)))) (mkInvokeWrapper info (Some req) (Some (fresh (dom (w_objs v))))
      (fresh (dom (w_ctxs v))) (Some (mkZenohReply ty key (le_bytes 4 id))) ∅ ∅) (mkZenohReply ty key (le_bytes 4 id)) m2 data2 w1 id cw
      (set_req_cache {[ty := data]} i) call a t') as (v2 & p2 & Hreply & Hput2 & Hrecv);
    change (zr_of v1') with (zr_of v1) in *; rewrite ?Hv1; try done; [apply lookup_insert_eq|apply lookup_insert_eq|by destruct Hw|by rewrite Hman|].
  exists v2, p2. eexists. split; [exact Hreply|]. split; [by rewrite Hput2, Hv1|]. split; [exact Hrecv|].
  unfold zr_take_effect. change (negb (0 =? 0)) with false. cbv beta iota. cbn [zrp_serialization_type]. change (iw_info (set_req_cache _ i)) with (iw_info i).
  rewrite Hd2. split; [cbn; by rewrite Hans|apply lookup_insert_eq].
Qed.

(** A response answers the calls of other processes.  The clients of a function
    have one key for its responses, and each of them numbers its calls from zero:
    the response to a call answers, in every process that waits for the same
    number, the call that has it there. *)
Theorem zenoh_response_answers_every_client fuel v sw j r m data id :
  let ty := zrp_serialization_type r in
  let topic := ("rsp/" ++ zrp_pattern r)%string in
  zr_services (zr_of v) !! sw = Some j → iw_callback j = Some r → obj_at v (iw_rsp j) = Some m →
  zrp_req_id_buf r = le_bytes 4 id → in_width 32 id → str_size ty ≤ 255 →
  zenoh_response_form j ty m = Some data → rsp_pkg_size ty data < 2 ^ 32 →
  z_pub_registry (zr_manager (zr_of v)) !! topic = Some false →
  ∃ v' p, zr_reply fuel sw STATUS_OK v = (Ok (Some tt), v') ∧ zr_put (zr_of v') = zr_put (zr_of v) ++ [(topic, p)] ∧
    ∀ u cw i call a t m', zr_waits u id cw i call a t → handlers_of topic (zr_manager (zr_of u)) = [ZTakeRsp] →
      Deserialize (rsp_type_support_ref (iw_info i)) ty [concat data] = Some m' →
      ∃ u', zr_receive topic p u = (Ok tt, u') ∧ w_answers u' = w_answers u ++ [(call, STATUS_OK)] ∧ w_objs u' !! a = Some m'.
Proof using Halloc.
  intros ty topic Hj Hr Hm Hbuf Hid Hty Hform Hsz Hpub.
  assert (buf_len (encode_all (rsp_fields ty (le_bytes 4 id) 0 data)) = rsp_pkg_size ty data) as Hl by (by apply length_rsp).
  set (p := encode_all _) in Hl.
  destruct (zr_reply_net fuel sw j r id m data v Hj Hr Hm Hbuf Hty Hform) as (v' & Hreply & Hput); [fold ty p; lia|done|].
  exists v', (payload_of (buf_len p) p). split; [exact Hreply|]. split; [exact Hput|]. intros u cw i call a t m' Hwaits Hh Hd.
  pose proof (zr_take_rsp_eq cw i call a id t ty 0 data [] u Hwaits Hty Hid) as Htake. cbn zeta in Htake. fold p in Htake.
  rewrite app_nil_r in Htake. eexists. split.
  - rewrite (zr_receive_one ZTakeRsp) by done. apply Htake; [done|lia|rewrite payload_of_len; lia].
  - unfold zr_take_effect. change (negb (0 =? 0)) with false. cbv beta iota. rewrite Hd. split; [done|apply lookup_insert_eq].
Qed.

(** ** What is never answered *)

(** A call of a function that has no publisher leaves no trace: it is not
    answered, and not recorded, so that it does not time out. *)
Theorem zenoh_call_without_publisher fuel w cw i :
  w_clients w !! cw = Some i → zr_state (zr_of w) = kStart →
  z_pub_registry (zr_manager (zr_of w)) !! ("req/" ++ zr_key w (func_name (iw_info i)))%string = None →
  zr_Invoke fuel cw w = (Ok (Some tt), w).
Proof using.
  intros Hi Hst Hpub. unfold ZenohRpc.zr_Invoke, try_catch. unfold mbind at 1, M_bind at 1.
  rewrite on_zr_get, Hst. change (state_eqb kStart kStart) with true. cbn [negb]. unfold mbind at 1, M_bind at 1.
  rewrite (on_client_get _ _ _ Hi). fold (zr_key w (func_name (iw_info i))). by rewrite Hpub.
Qed.

(** A key of more than 255 bytes - the name of a function, encoded, with the
    domain - or metadata of more than 65535 cannot be written: the call is
    recorded, but neither sent nor answered. *)
Theorem zenoh_unwritable_request_never_answered fuel w cw i c t m data :
  let key := zr_key w (func_name (iw_info i)) in
  let ty := rc_GetSerializationType c in
  let kvs := map_order (rc_meta_data_map c) in
  zr_call_ok w cw i c t false →
  iw_req i = Some m → req_serialization_cache i = ∅ → Serialize (req_type_support_ref (iw_info i)) ty m = Some data →
  in_width 32 (zr_req_id (zr_of w)) → req_pkg_size ty key kvs data < 2 ^ 32 → ¬ req_writable ty key kvs →
  ∃ w1, zr_Invoke fuel cw w = (Ok (Some tt), w1) ∧ w_answers w1 = w_answers w ∧ zr_put (zr_of w1) = zr_put (zr_of w) ∧
    zr_tool (zr_of w1) = zr_tool (zr_record_call cw c t (zr_of w)).
Proof using Halloc.
  intros key ty kvs Hcall Hreq Hcache Hser Hid Hsz Hw.
  pose proof (zr_Invoke_run fuel w cw i c t false Hcall) as Hrun. fold key ty kvs in Hrun. destruct Hcall as [Hi _ _ _ _ Hty Hn _].
  set (w0 := with_zr (zr_record_call cw c t (zr_of w)) w) in *. unfold try_catch in Hrun.
  unfold ZenohRpc.zr_send_req in Hrun. unfold mbind at 1, M_bind at 1, mret at 1, M_ret at 1 in Hrun. unfold mbind at 1, M_bind at 1 in Hrun.
  rewrite (TrySerialize_req_eq cw i m Hreq Hcache ty w0 Hi), Hser in Hrun.
  assert (∃ what, pack_zenoh_req little alloc ty key (zr_req_id (zr_of w)) kvs data = Throw (RuntimeError what)) as [what Hpack].
  { pose proof (req_pkg_size_pos ty key kvs data). unfold pack_zenoh_req, pack_with_len.
    change (1 + str_size ty + _ + _ + _ + _ + _) with (req_pkg_size ty key kvs data).
    rewrite (wrap_small 64 (req_pkg_size _ _ _ _)) by (unfold in_width; lia).
    rewrite (wrap_small 64), (proj2 (Z.leb_gt _ _)), (wrap_small 32) by (unfold in_width; lia).
    apply (fill_throws _ _ _ (FU32 (req_pkg_size ty key kvs data) :: req_fields ty key (zr_req_id (zr_of w)) kvs data)).
    - constructor; [change (in_width 32 (req_pkg_size ty key kvs data)); unfold in_width; lia|].
      constructor; [done|]. constructor; [done|]. constructor; [done|]. apply metas_data_arg.
    - rewrite <-(req_rooms ty key (zr_req_id (zr_of w)) kvs data). unfold rooms. cbn [foldr].
      change (field_room (FU32 _)) with 4. fold (rooms (req_fields ty key (zr_req_id (zr_of w)) kvs data)). lia.
    - apply Halloc. lia.
    - intros Hall. apply Hw. apply Forall_cons in Hall as [_ Hall]. apply Forall_cons in Hall as [_ Hall].
      apply Forall_cons in Hall as [Hkey Hall]. apply Forall_cons in Hall as [_ Hall].
      split; [done|]. split; [|split; [done|by eapply metas_data_ok_inv]].
      unfold field_ok, str_size in *. cbn in Hkey. lia. }
  unfold lift, mbind, M_bind in Hrun. rewrite Hpack in Hrun. eexists. split; [exact Hrun|]. split; [done|].
  change (zr_of (set_w_clients _ w0)) with (zr_of w0). unfold w0. rewrite zr_of_with. done.
Qed.

(** A request that the service cannot read is only logged: the service is not
    called, and nothing is sent. *)
Theorem zenoh_unreadable_request_never_answered info ty pattern id (metas : gmap string string) data v :
  let p := encode_all (req_fields ty pattern id (map_order metas) data) in
  req_writable ty pattern (map_order metas) → in_width 32 id → buf_len p < 2 ^ 32 →
  Deserialize (req_type_support_ref info) ty [concat data] = None →
  ∃ v', zr_serve info (payload_of (buf_len p) p) v = (Ok tt, v') ∧ zr_of v' = zr_of v.
Proof using Halloc.
  intros p Hw Hid Hsz Hd. pose proof (zr_serve_eq info ty pattern id metas data [] v Hw Hid) as Hs. cbn zeta in Hs. fold p in Hs.
  rewrite app_nil_r, Hd in Hs. eexists. split; [apply Hs; [done|rewrite payload_of_len; lia]|done].
Qed.

(** A status that is not OK is sent without the length that the client reads
    first.  For the serialization types of the framework the client then reads
    beyond the end of the sample. *)
Theorem zenoh_status_is_misread fuel v sw j r status id u :
  let topic := ("rsp/" ++ zrp_pattern r)%string in
  zr_services (zr_of v) !! sw = Some j → iw_callback j = Some r → status ≠ STATUS_OK → in_width 32 status →
  zrp_serialization_type r ∈ ["pb"; "json"; "ros2"] → zrp_req_id_buf r = le_bytes 4 id →
  is_Some (z_pub_registry (zr_manager (zr_of v)) !! topic) → (∀ n, 0 ≤ alloc n < 2 ^ 62) →
  handlers_of topic (zr_manager (zr_of u)) = [ZTakeRsp] →
  ∃ v' p, zr_reply fuel sw status v = (Ok (Some tt), v') ∧ zr_put (zr_of v') = zr_put (zr_of v) ++ [(topic, p)] ∧
    (zr_receive topic p u).1 = Undef.
Proof using Halloc.
  intros topic Hj Hr Hst Hw Hty Hbuf [shm Hpub] Hat Hh.
  assert (str_size (zrp_serialization_type r) ≤ 255) as Hlen.
  { rewrite !elem_of_cons, elem_of_nil in Hty. destruct Hty as [-> | [-> | [-> |[]]]]; by vm_compute. }
  set (p := encode_all (rsp_fields (zrp_serialization_type r) (le_bytes 4 id) status [])).
  assert (zr_reply fuel sw status v = (Ok (Some tt), with_zr (put_sample topic p (zr_of v)) v)) as Hreply.
  { unfold ZenohRpc.zr_reply, mbind at 1, M_bind at 1, get at 1. cbn zeta. fold (zr_of v). rewrite Hj, Hr.
    unfold status_OK. rewrite (proj2 (Z.eqb_neq _ _) Hst). cbn [negb]. unfold zr_ReturnRspWithStatusCode, lift, mbind, M_bind. rewrite Hbuf.
    rewrite pack_rsp_eq; [|done..|apply Halloc; unfold rsp_pkg_size, BufferSize, str_size in *; cbn; lia].
    unfold zm_Publish, mbind, M_bind. fold topic. rewrite on_zr_get, Hpub. by rewrite zr_publish_eq. }
  eexists _, p. split; [exact Hreply|]. split; [by rewrite zr_of_with|].
  destruct (status_beyond little (alloc (buf_len p)) (zrp_serialization_type r) id status Hty (Hat _)) as (s & Hopen & Hhead). fold p in Hopen.
  rewrite (zr_receive_one ZTakeRsp) by done. cbn [zr_handler]. unfold ZenohRpc.zr_take_rsp, mbind, M_bind, lift. unfold try_catch at 1.
  rewrite Hopen. destruct (parse_rsp_head little s) as [head s']. cbn in Hhead. by rewrite Hhead.
Qed.

(** ** Over shared memory *)

Section OverShm.
Context (Hpool : ∀ n sz ptr mem, shm_alloc n sz = Some (ptr, mem) → loan_ok ptr mem sz).

Abbreviation zr_send_shm := (zr_send_shm little shm_alloc).
Abbreviation gives w topic :=
  (is_Some (shm_alloc (shm_loans (zr_shm (zr_of w))) (size_of topic (zr_shm (zr_of w))))).

(** What fits in the first memory is sent, behind the length of its header. *)
Lemma zr_send_shm_fits fuel topic header reqs bs w :
  let hl := buf_len (encode_all header) in
  let size := size_of topic (zr_shm (zr_of w)) in
  Forall field_ok header → contiguous reqs bs → 4 + hl + total reqs ≤ size < 2 ^ 32 → gives w topic →
  ∃ b rest, zr_send_shm (S fuel) topic header (wrap32 hl) (serialize_supported None (Some (reqs, Some bs))) w =
    (Ok (Some true), with_zr (put_sample topic (payload_of hl (encode_all header ++ rest)) (zr_set_shm b (zr_of w))) w) ∧
    buf_len (payload_of hl (encode_all header ++ rest)) < 2 ^ 63.
Proof using Hpool.
  intros hl size Hok Hcont Hsz [[ptr mem] Ha]. pose proof (buf_len_nonneg (encode_all header)) as Hn. fold hl in Hn.
  pose proof (total_nonneg _ (contiguous_nonneg _ _ Hcont)). pose proof (contiguous_total _ _ Hcont) as Htot.
  assert (in_width 32 (BufferSize bs)) as Hbs by (unfold in_width, BufferSize, buf_len in *; lia).
  rewrite (wrap_small 32 hl) by (unfold in_width; lia).
  pose proof (round_fits little shm_alloc Hpool 32 topic header hl Hok eq_refl ltac:(lia) reqs bs Hcont Hbs 0 (zr_shm (zr_of w)) ptr mem Ha
    ltac:(unfold needed; fold size; lia)) as Hround.
  assert (4 + buf_len (encode_all header ++ concat bs) ≤ size) as Hfit.
  { rewrite buf_len_app. fold hl. unfold buf_len in *. lia. }
  destruct (shm_payload little ptr mem size (encode_all header ++ concat bs) hl (Hpool _ _ _ _ Ha) Hfit ltac:(lia)) as [Hst H63].
  rewrite <-app_assoc in Hst, H63. eexists _, _. split; [|exact H63].
  unfold ZenohRpc.zr_send_shm. cbn [shm_loop].
  unfold mbind at 1, M_bind at 1. erewrite on_zr_eq.
  2: { unfold zoom, mbind, M_bind. rewrite Hround. reflexivity. }
  unfold mret at 1, M_ret at 1. unfold mbind, M_bind, lift, shm_finish. cbn [mbind res_bind]. rewrite Hst. by rewrite zr_publish_eq, zr_of_with, with_zr_twice.
Qed.

(** A request over shared memory is read without its message.  The length that
    is written is that of the header: whatever the caller asks for, the service is
    called with what its type support reads from no bytes at all, or it is not
    called and the caller is not answered. *)
Theorem zenoh_shm_request_is_read_as_empty fuel w cw i c t m data :
  let id := zr_req_id (zr_of w) in
  let key := zr_key w (func_name (iw_info i)) in
  let topic := ("req/" ++ key)%string in
  let ty := rc_GetSerializationType c in
  let kvs := map_order (rc_meta_data_map c) in
  let reqs := requests (req_type_support_ref (iw_info i)) ty m in
  zr_call_ok w cw i c t true → iw_req i = Some m → req_serialization_cache i = ∅ →
  Serialize (req_type_support_ref (iw_info i)) ty m = Some data → contiguous reqs data →
  req_writable ty key kvs → in_width 32 id →
  4 + req_pkg_size ty key kvs [] + total reqs ≤ size_of topic (zr_shm (zr_of w)) < 2 ^ 32 → gives w topic →
  ∃ w1 payload, zr_Invoke (S fuel) cw w = (Ok (Some tt), w1) ∧ w_answers w1 = w_answers w ∧
    zr_put (zr_of w1) = zr_put (zr_of w) ++ [(topic, payload)] ∧
    ∀ info v, zr_serve info payload v =
      (Ok tt, match Deserialize (req_type_support_ref info) ty [[]] with
              | Some req => zr_serve_effect info ty key id (rc_meta_data_map c) req v
              | None => with_served_ctx (func_name info) ty (rc_meta_data_map c) v
              end).
Proof using Halloc Hpool.
  intros id key topic ty kvs reqs Hcall Hreq Hcache Hser Hcont Hw Hid Hsz Hgives.
  pose proof (zr_Invoke_run (S fuel) w cw i c t true Hcall) as Hrun. fold key ty kvs id in Hrun.
  set (w0 := with_zr (zr_record_call cw c t (zr_of w)) w) in *.
  assert (zr_of w0 = zr_record_call cw c t (zr_of w)) as Hw0 by apply zr_of_with.
  pose proof (req_fields_ok ty key id kvs [] Hw Hid) as Hok. pose proof (req_package_len ty key id kvs [] Hw Hid) as Hhl.
  change (req_fields ty key id kvs []) with (req_header ty key id kvs ++ []) in Hok, Hhl. rewrite app_nil_r in Hok, Hhl.
  destruct (zr_send_shm_fits fuel topic (req_header ty key id kvs) reqs data w0 Hok Hcont) as (b & rest & Hsend & H63);
    [by rewrite Hhl, Hw0|by rewrite Hw0|].
  assert (req_header_len ty key kvs = wrap32 (buf_len (encode_all (req_header ty key id kvs)))) as Hhl'.
  { rewrite Hhl. unfold req_header_len, req_pkg_size. f_equal. change (BufferSize []) with 0. lia. }
  unfold try_catch, ZenohRpc.zr_send_req, mbind, M_bind in Hrun. fold topic in Hrun. rewrite Hhl' in Hrun.
  unfold SerializeReqSupportedZenoh in Hrun. rewrite Hcache, lookup_empty, Hreq in Hrun. cbn [mbind option_bind] in Hrun. rewrite Hser in Hrun.
  fold reqs in Hrun. rewrite Hsend in Hrun. eexists _, _. split; [exact Hrun|]. split; [done|]. rewrite zr_of_with.
  split; [cbn; by rewrite Hw0|]. intros info v.
  pose proof (zr_serve_eq info ty key id (rc_meta_data_map c) [] rest v Hw Hid) as Hserve. cbn zeta in Hserve. fold kvs in Hserve.
  change (req_fields ty key id kvs []) with (req_header ty key id kvs ++ []) in Hserve. rewrite app_nil_r in Hserve.
  apply Hserve; [|done]. rewrite Hhl. pose proof (total_nonneg _ (contiguous_nonneg _ _ Hcont)). lia.
Qed.

(** When a request cannot be serialized, a caller over the network is answered;
    over shared memory it is recorded, and neither sent nor answered. *)
Theorem zenoh_shm_unserializable_never_answered fuel w cw i c t m :
  let id := zr_req_id (zr_of w) in
  let key := zr_key w (func_name (iw_info i)) in
  let topic := ("req/" ++ key)%string in
  let ty := rc_GetSerializationType c in
  let kvs := map_order (rc_meta_data_map c) in
  zr_call_ok w cw i c t true → iw_req i = Some m → req_serialization_cache i = ∅ →
  Serialize (req_type_support_ref (iw_info i)) ty m = None → requests (req_type_support_ref (iw_info i)) ty m = [] →
  req_writable ty key kvs → in_width 32 id →
  4 + req_pkg_size ty key kvs [] ≤ size_of topic (zr_shm (zr_of w)) < 2 ^ 32 → gives w topic →
  ∃ w1, zr_Invoke (S fuel) cw w = (Ok (Some tt), w1) ∧ w_answers w1 = w_answers w ∧
    zr_put (zr_of w1) = zr_put (zr_of w) ∧ zr_tool (zr_of w1) = zr_tool (zr_record_call cw c t (zr_of w)).
Proof using Halloc Hpool.
  intros id key topic ty kvs Hcall Hreq Hcache Hser Hreqs Hw Hid Hsz [[ptr mem] Ha].
  pose proof (zr_Invoke_run (S fuel) w cw i c t true Hcall) as Hrun. fold key ty kvs id in Hrun.
  set (w0 := with_zr (zr_record_call cw c t (zr_of w)) w) in *.
  assert (zr_of w0 = zr_record_call cw c t (zr_of w)) as Hw0 by apply zr_of_with.
  pose proof (req_fields_ok ty key id kvs [] Hw Hid) as Hok. pose proof (req_package_len ty key id kvs [] Hw Hid) as Hhl.
  change (req_fields ty key id kvs []) with (req_header ty key id kvs ++ []) in Hok, Hhl. rewrite app_nil_r in Hok, Hhl.
  assert (req_header_len ty key kvs = req_pkg_size ty key kvs []) as Hhl'.
  { pose proof (req_pkg_size_pos ty key kvs []). unfold req_header_len. rewrite wrap_small; unfold req_pkg_size in *; change (BufferSize []) with 0 in *; [lia|unfold in_width; lia]. }
  assert (∃ b, zr_send_shm (S fuel) topic (req_header ty key id kvs) (req_pkg_size ty key kvs []) (serialize_supported None (Some ([], None))) w0 =
    (Ok (Some true), with_zr b w0) ∧ zr_put b = zr_put (zr_of w) ∧ zr_tool b = zr_tool (zr_record_call cw c t (zr_of w))) as (b & Hsend & Hput & Htool).
  { exists (zr_set_shm (loaned topic (zr_shm (zr_of w))) (zr_record_call cw c t (zr_of w))). split; [|done]. unfold ZenohRpc.zr_send_shm, mbind at 1, M_bind at 1. rewrite (on_zr_eq _ w0 (Ok (Some SFailed)) (zr_set_shm (loaned topic (zr_shm (zr_of w))) (zr_record_call cw c t (zr_of w)))); [reflexivity|]. unfold zoom. cbn [shm_loop]. unfold mbind, M_bind. rewrite Hw0.
    rewrite (round_with_pool little shm_alloc Hpool 32 topic _ _ Hok Hhl _ None 0 _ ptr mem Ha ltac:(cbn; lia)). reflexivity. }
  unfold try_catch, ZenohRpc.zr_send_req, mbind, M_bind in Hrun. fold topic in Hrun. rewrite Hhl' in Hrun.
  unfold SerializeReqSupportedZenoh in Hrun. rewrite Hcache, lookup_empty, Hreq in Hrun. cbn [mbind option_bind] in Hrun.
  rewrite Hser, Hreqs, Hsend in Hrun.
  eexists. split; [exact Hrun|]. split; [done|]. by rewrite zr_of_with.
Qed.
End OverShm.
End ZenohCalls.

(** * Processes *)

Module ZenohRpcDemo.
Import ChannelDemo.
#[export] Existing Instance plain_order.

#[export] Instance demo_zenoh_rpc : HasZenohRpc bytes (ZenohRpcBackend bytes) := {
  zr b := b; set_zr b _ := b;
  zr_set_zr _ _ := eq_refl; set_zr_zr _ := eq_refl; set_zr_set_zr _ _ _ := eq_refl
}.

Abbreviation Wd := (World bytes (ZenohRpcBackend bytes)).
Definition alloc (n : Z) : Z := 4096.
Lemma zrpc_alloc_ok n : 0 ≤ n < 2 ^ 63 → at_address (alloc n) n.
Proof. unfold at_address, alloc. lia. Qed.

(** A pool that gives up to 4096 bytes, whenever it is asked. *)
Definition pool (n : nat) (sz : Z) : option (Z * bytes) :=
  if bool_decide (0 ≤ sz ≤ 4096) then Some (65536, replicate (Z.to_nat sz) zero) else None.
Lemma zrpc_pool_ok n sz ptr mem : pool n sz = Some (ptr, mem) → loan_ok ptr mem sz.
Proof.
  unfold pool. case_bool_decide; [|done]. intros [= <- <-]. split; [lia| |lia]. unfold buf_len. rewrite length_replicate. lia.
Qed.

(** The type support asks for blocks of 100 bytes, for what it can serialize. *)
Definition blocks_of_100 (ts : TypeSupport bytes) (ty : string) (m : bytes) : list Z :=
  match Serialize ts ty m with Some _ => [100] | None => [] end.

Definition hook : nat → nat → Z → M Wd unit := λ _ _ _, mret tt.
Definition create : TypeSupport bytes → bytes := λ _, lit "reply".
Definition any (s : string) : bool := true.

Definition service_info : FuncInfo bytes := mkFuncInfo "pb:/pkg.Svc/Get" "srv" "mod" 1 demo_ts demo_ts.
Definition client_info : FuncInfo bytes := mkFuncInfo "pb:/pkg.Svc/Get" "cli" "mod" 1 demo_ts demo_ts.

(** Started, with a service or a client, and with shared memory or not. *)
Definition all_funcs (shm : bool) : ZenohRpcOptions := mkZenohRpcOptions "" [mkZenohFuncOptions ".*" shm] [mkZenohFuncOptions ".*" shm].
Definition ready (domain : string) (shm : bool) : ZenohRpcBackend bytes :=
  zr_set_options (all_funcs shm) (zr_Initialize (node := tree) (λ _, None) None (ZenohRpcBackend_new domain)).2.
Definition client_in (domain : string) (shm : bool) : ZenohRpcBackend bytes :=
  (zr_Start (zr_RegisterClientFunc (λ _ _, Ok true) any any client_info (ready domain shm)).2).2.
Definition client_backend : bool → ZenohRpcBackend bytes := client_in "".
Definition server_backend (shm : bool) : ZenohRpcBackend bytes :=
  (zr_Start (zr_RegisterServiceFunc (λ _ _, Ok true) any any service_info (ready "" shm)).2).2.

Definition ctx_of (ty : string) : RpcContext :=
  rc_SetMetaValue "k" "v" (rc_SetSerializationType ty (RpcContext_new AIMRT_RPC_CLIENT_CONTEXT)).
Definition call : InvokeWrapper bytes ClientCb := mkInvokeWrapper client_info (Some demo_msg) (Some 0%nat) 0 (Some (Answer 7)) ∅ ∅.
Definition client_of (ty : string) (b : ZenohRpcBackend bytes) : Wd :=
  mkWorld {[0%nat := ctx_of ty]} {[0%nat := []]} {[0%nat := call]} ∅ [] [] b.
Definition client : Wd := client_of "rev" (client_backend false).
Definition server : Wd := mkWorld ∅ ∅ ∅ ∅ [] [] (server_backend false).
Definition key : string := zenoh_rpc_key "" "pb:/pkg.Svc/Get".

(** A service that has been called, by a request of a type. *)
Definition served (ty : string) (id : Z) : InvokeWrapper bytes ZenohReply :=
  mkInvokeWrapper service_info (Some demo_msg) (Some 0%nat) 0 (Some (mkZenohReply ty key (le_bytes 4 id))) ∅ ∅.
Definition serving (ty : string) (id : Z) : Wd :=
  mkWorld ∅ {[0%nat := lit "reply"]} ∅ ∅ [] [] (zr_set_services {[0%nat := served ty id]} [0%nat] (server_backend false)).

(** After a call. *)
Definition called (ty : string) : Wd := (zr_Invoke hook true alloc pool blocks_of_100 64 0%nat (client_of ty (client_backend false))).2.

(** A domain of 300 characters. *)
Definition long_domain : string := str (replicate 300 "x"%char).

Lemma demo_call_ok ty domain shm :
  ty ∈ ["rev"; "none"] → domain ∈ [""; long_domain] →
  zr_call_ok (client_of ty (client_in domain shm)) 0 call (ctx_of ty) RpcClientTool_new shm.
Proof. rewrite !elem_of_cons, !elem_of_nil. intros [-> |[-> |[]]] [-> |[-> |[]]]; split; by destruct shm; vm_compute. Qed.

(** A client that waits, with what it has been answered before. *)
Definition waiting (answers : list (nat * Z)) : Wd := set_w_answers answers (called "rev").
Lemma demo_waits answers : ∃ i t, zr_waits (waiting answers) 0 0 i 7 0 t ∧ rsp_type_support_ref (iw_info i) = demo_ts.
Proof. eexists _, _. split; [split; by vm_compute|done]. Qed.
End ZenohRpcDemo.
Import ZenohRpcDemo.

Lemma zenoh_call_is_answered_witness :
  ∃ w1 p1 v1 v2 p2 w2 sw rsp,
    zr_Invoke hook true alloc pool blocks_of_100 64 0%nat client = (Ok (Some tt), w1) ∧
    zr_receive hook create true alloc ("req/" ++ key) p1 server = (Ok tt, v1) ∧
    zr_reply true alloc pool blocks_of_100 64 sw STATUS_OK (set_w_objs (<[rsp := lit "done"]> (w_objs v1)) v1) = (Ok (Some tt), v2) ∧
    zr_receive hook create true alloc ("rsp/" ++ key) p2 w1 = (Ok tt, w2) ∧
    w_answers w2 = [(7%nat, 0)] ∧ w_objs w2 !! 0%nat = Some (lit "done").
Proof.
  destruct (zenoh_call_is_answered hook create true alloc pool blocks_of_100 zrpc_alloc_ok 64 client server 0 call 7 0 (ctx_of "rev")
    RpcClientTool_new ChannelDemo.demo_msg [lit "olleh"] service_info ChannelDemo.demo_msg
    (demo_call_ok "rev" "" false ltac:(by left) ltac:(by left)) eq_refl eq_refl eq_refl eq_refl ltac:(by vm_compute) ltac:(bdec) ltac:(zdec) ltac:(by vm_compute)
    ltac:(by vm_compute) ltac:(by vm_compute) ltac:(by vm_compute) ltac:(by vm_compute))
    as (w1 & p1 & v1 & sw & rsp & ctx & r & H1 & _ & _ & H2 & H3 & _ & _ & Hrest).
  destruct (Hrest (lit "done") [lit "enod"] (lit "done") ltac:(by vm_compute) ltac:(by vm_compute) ltac:(by vm_compute))
    as (v2 & p2 & w2 & H4 & _ & H5 & H6 & H7).
  exists w1, p1, v1, v2, p2, w2, sw, rsp. split; [exact H1|]. split; [exact H2|]. split; [exact H4|].
  split; [exact H5|]. split; [exact H6|exact H7].
Defined.

(** Two clients wait for their call of number zero; the one response answers both. *)
Lemma zenoh_response_answers_every_client_witness :
  ∃ p u1 u2, zr_receive hook create true alloc ("rsp/" ++ key) p (waiting []) = (Ok tt, u1) ∧ w_answers u1 = [(7%nat, 0)] ∧
    zr_receive hook create true alloc ("rsp/" ++ key) p (waiting [(5%nat, 0)]) = (Ok tt, u2) ∧
    w_answers u2 = [(5%nat, 0); (7%nat, 0)].
Proof.
  destruct (zenoh_response_answers_every_client hook create true alloc pool blocks_of_100 zrpc_alloc_ok 64 (serving "rev" 0) 0 (served "rev" 0)
    (mkZenohReply "rev" key (le_bytes 4 0)) (lit "reply") [lit "ylper"] 0 ltac:(by vm_compute) eq_refl ltac:(by vm_compute) eq_refl ltac:(zdec) ltac:(zdec)
    ltac:(by vm_compute) ltac:(by vm_compute) ltac:(by vm_compute)) as (v' & p & _ & _ & Hall).
  destruct (demo_waits []) as (i & t & Hwaits & Hts), (demo_waits [(5%nat, 0)]) as (i' & t' & Hwaits' & Hts').
  destruct (Hall (waiting []) 0%nat i 7%nat 0%nat t (lit "reply") Hwaits ltac:(by vm_compute) ltac:(rewrite Hts; by vm_compute)) as (u1 & H1 & H2 & _).
  destruct (Hall (waiting [(5%nat, 0)]) 0%nat i' 7%nat 0%nat t' (lit "reply") Hwaits' ltac:(by vm_compute)
    ltac:(rewrite Hts'; by vm_compute)) as (u2 & H3 & H4 & _).
  exists p, u1, u2. split; [exact H1|]. split; [exact H2|]. split; [exact H3|exact H4].
Defined.

Lemma zenoh_call_without_publisher_witness :
  zr_Invoke hook true alloc pool blocks_of_100 64 0%nat (client_of "rev" (zr_set_manager ZenohManager_new (client_backend false))) =
    (Ok (Some tt), client_of "rev" (zr_set_manager ZenohManager_new (client_backend false))).
Proof.
  exact (zenoh_call_without_publisher hook true alloc pool blocks_of_100 64
    (client_of "rev" (zr_set_manager ZenohManager_new (client_backend false))) 0 call eq_refl ltac:(by vm_compute) ltac:(by vm_compute)).
Defined.

Lemma zenoh_unwritable_request_never_answered_witness :
  ∃ w1, zr_Invoke hook true alloc pool blocks_of_100 64 0%nat (client_of "rev" (client_in long_domain false)) = (Ok (Some tt), w1) ∧
    w_answers w1 = [] ∧ zr_put (zr_of w1) = [].
Proof.
  destruct (zenoh_unwritable_request_never_answered hook true alloc pool blocks_of_100 zrpc_alloc_ok 64
    (client_of "rev" (client_in long_domain false)) 0 call (ctx_of "rev") RpcClientTool_new ChannelDemo.demo_msg [lit "olleh"]
    (demo_call_ok "rev" long_domain false ltac:(by left) ltac:(right; by left)) eq_refl eq_refl ltac:(by vm_compute) ltac:(zdec) ltac:(by vm_compute)
    ltac:(intros (_ & Hk & _); revert Hk; by vm_compute)) as (w1 & H1 & H2 & H3 & _).
  exists w1. split; [exact H1|]. split; [exact H2|exact H3].
Defined.

Lemma zenoh_unreadable_request_never_answered_witness :
  ∃ v', zr_serve create true alloc service_info (payload_of (buf_len (encode_all (req_fields "none" key 0 (map_order ∅) [])))
    (encode_all (req_fields "none" key 0 (map_order ∅) []))) server = (Ok tt, v') ∧ zr_of v' = zr_of server.
Proof.
  exact (zenoh_unreadable_request_never_answered create true alloc zrpc_alloc_ok service_info "none" key 0 ∅ [] server
    ltac:(bdec) ltac:(zdec) ltac:(by vm_compute) ltac:(by vm_compute)).
Defined.

Lemma zenoh_status_is_misread_witness :
  ∃ v' p, zr_reply true alloc pool blocks_of_100 64 0%nat STATUS_SVR_HANDLE_FAILED (serving "pb" 0) = (Ok (Some tt), v') ∧
    zr_put (zr_of v') = [(("rsp/" ++ key)%string, p)] ∧ (zr_receive hook create true alloc ("rsp/" ++ key) p (waiting [])).1 = Undef.
Proof.
  destruct (zenoh_status_is_misread hook create true alloc pool blocks_of_100 zrpc_alloc_ok 64 (serving "pb" 0) 0 (served "pb" 0)
    (mkZenohReply "pb" key (le_bytes 4 0)) STATUS_SVR_HANDLE_FAILED 0 (waiting []) ltac:(by vm_compute) eq_refl ltac:(done) ltac:(zdec) ltac:(bdec) eq_refl
    ltac:(vm_compute; by eexists) ltac:(unfold alloc; lia) ltac:(by vm_compute)) as (v' & p & H1 & H2 & H3).
  exists v', p. split; [exact H1|]. split; [exact H2|exact H3].
Defined.

(** The message "hello" is read as the empty message. *)
Lemma zenoh_shm_request_is_read_as_empty_witness :
  ∃ w1 payload v1, zr_Invoke hook true alloc pool blocks_of_100 64 0%nat (client_of "rev" (client_backend true)) = (Ok (Some tt), w1) ∧
    zr_serve create true alloc service_info payload server = (Ok tt, v1) ∧
    (iw_req <$> zr_services (zr_of v1) !! 0%nat) = Some (Some []).
Proof.
  destruct (zenoh_shm_request_is_read_as_empty hook create true alloc pool blocks_of_100 zrpc_alloc_ok zrpc_pool_ok 63
    (client_of "rev" (client_backend true)) 0 call (ctx_of "rev") RpcClientTool_new ChannelDemo.demo_msg [lit "olleh"]
    (demo_call_ok "rev" "" true ltac:(by left) ltac:(by left)) eq_refl eq_refl ltac:(by vm_compute) ltac:(constructor; by vm_compute) ltac:(bdec) ltac:(zdec)
    ltac:(split; by vm_compute) ltac:(vm_compute; by eexists)) as (w1 & payload & H1 & _ & _ & H2).
  exists w1, payload. eexists. split; [exact H1|]. split; [exact (H2 service_info server)|]. by vm_compute.
Defined.

Lemma zenoh_shm_unserializable_never_answered_witness :
  ∃ w1, zr_Invoke hook true alloc pool blocks_of_100 64 0%nat (client_of "none" (client_backend true)) = (Ok (Some tt), w1) ∧
    w_answers w1 = [] ∧ zr_put (zr_of w1) = [].
Proof.
  destruct (zenoh_shm_unserializable_never_answered hook true alloc pool blocks_of_100 zrpc_alloc_ok zrpc_pool_ok 63
    (client_of "none" (client_backend true)) 0 call (ctx_of "none") RpcClientTool_new ChannelDemo.demo_msg
    (demo_call_ok "none" "" true ltac:(right; by left) ltac:(by left)) eq_refl eq_refl ltac:(by vm_compute) ltac:(by vm_compute) ltac:(bdec) ltac:(zdec)
    ltac:(split; by vm_compute) ltac:(vm_compute; by eexists)) as (w1 & H1 & H2 & H3 & _).
  exists w1. split; [exact H1|]. split; [exact H2|exact H3].
Defined.
