(* ===== verification/TopicLogger.v ===== *)
(** * The topic logger: [src/plugins/topic_logger_plugin/topic_logger_backend.*]

    A backend of the logger manager that collects records and publishes them,
    some in a frame, from the task of a [Timer].  The task cancels the timer when
    there is nothing to publish, and the next record resets it; [publish_flag_]
    says which of the two was last.  Records come from any thread, and the timer
    may run on several.  [tl_step] has a step for each part of the code under
    [mutex_], and for each access outside it: a call of [Log] before it takes the
    mutex, the end of a call of the timer, the hooks that start and stop.  The
    list of records and of frames taken are ghost fields.

    Theorems: every record is in a frame, waits for one or is counted as dropped,
    in order; the timer goes on as long as records wait, unless the plugin is
    started while the task cancels it; what waits at the stop stays behind;
    records before the start are not truncated. *)

From S2P Require Import Prelude Yaml StringUtil TimeUtil LogFormatter LogFilter Filters Logger Timer.
Local Open Scope Z_scope.

(** ** Options *)

(* @src src/src/plugins/topic_logger_plugin/topic_logger_backend.h:22-29 TopicLoggerBackend::Options *)
Record TopicLoggerOptions := mkTopicLoggerOptions {
  lo_module_filter : string;
  lo_interval_ms : Z;
  lo_timer_executor_name : string;
  lo_topic_name : string;
  lo_max_msg_size : Z;
  lo_max_msg_count : Z
}.

Definition SIZE_MAX : Z := 2 ^ 64 - 1.
Definition topic_logger_default : TopicLoggerOptions := mkTopicLoggerOptions "(.*)" 500 "" "" SIZE_MAX SIZE_MAX.

(* @src src/src/plugins/topic_logger_plugin/topic_logger_backend.cc:26-42 convert<TopicLoggerBackend::Options>::decode *)
Definition topic_logger_decode `{YamlOps node} (n : node) (rhs : TopicLoggerOptions) : res (option TopicLoggerOptions) :=
  if negb (IsMap n) then Ok None
  else
    interval ← set_if n "interval_ms" as_uint32 (lo_interval_ms rhs);
    filter ← set_if n "module_filter" as_string (lo_module_filter rhs);
    size ← set_if n "max_msg_size" as_uint64 (lo_max_msg_size rhs);
    count ← set_if n "max_msg_count" as_uint64 (lo_max_msg_count rhs);
    topic ← as_of as_string (index n "topic_name");
    executor ← as_of as_string (index n "timer_executor_name");
    Ok (Some (mkTopicLoggerOptions filter interval executor topic size count)).

(** ** The state *)

(* @src src/src/protocols/plugins/topic_logger_plugin/topic_logger.proto:26-50 SingleLogData *)
Record SingleLogData := mkSingle {
  sl_module_name : bytes;
  sl_thread_id : Z;
  sl_time_point : Z;
  sl_level : log_level;
  sl_line : Z;
  sl_file_name : bytes;
  sl_function_name : bytes;
  sl_message : bytes
}.

(* @src src/src/protocols/plugins/topic_logger_plugin/topic_logger.proto:55-64 LogData *)
Record LogData := mkFrame {
  fr_time_stamp : Z;
  fr_sequence_num : Z;
  fr_logs : list SingleLogData;
  fr_dropped_count : Z
}.

(** What the mutex guards; the frames taken, and the records that came, each
    with whether it was kept. *)
Record LogQueue := mkLogQueue {
  lq_current : option (list SingleLogData);    (* current_log_data_ *)
  lq_sequence_num : Z;
  lq_dropped : Z;
  lq_frames : list LogData;
  lq_seen : list (SingleLogData * bool)
}.

(* @src src/src/plugins/topic_logger_plugin/topic_logger_backend.h:75-99 TopicLoggerBackend *)
Record TopicLoggerBackend := mkTopicLogger {
  tl_options : TopicLoggerOptions;
  tl_run_flag : bool;
  tl_publish_flag : bool;
  tl_filter_map : gmap string bool;
  tl_max_msg_size : Z;
  tl_timer : option Timer;
  tl_queue : LogQueue
}.

Definition TopicLoggerBackend_new : TopicLoggerBackend :=
  mkTopicLogger topic_logger_default false false ∅ SIZE_MAX None (mkLogQueue None 0 0 [] []).

Section Setters.
Implicit Types b : TopicLoggerBackend.
Definition tl_set_options x b := mkTopicLogger x (tl_run_flag b) (tl_publish_flag b) (tl_filter_map b) (tl_max_msg_size b) (tl_timer b) (tl_queue b).
Definition tl_set_run_flag x b := mkTopicLogger (tl_options b) x (tl_publish_flag b) (tl_filter_map b) (tl_max_msg_size b) (tl_timer b) (tl_queue b).
Definition tl_set_publish_flag x b := mkTopicLogger (tl_options b) (tl_run_flag b) x (tl_filter_map b) (tl_max_msg_size b) (tl_timer b) (tl_queue b).
Definition tl_set_filter_map x b := mkTopicLogger (tl_options b) (tl_run_flag b) (tl_publish_flag b) x (tl_max_msg_size b) (tl_timer b) (tl_queue b).
Definition tl_set_max_msg_size x b := mkTopicLogger (tl_options b) (tl_run_flag b) (tl_publish_flag b) (tl_filter_map b) x (tl_timer b) (tl_queue b).
Definition tl_set_timer x b := mkTopicLogger (tl_options b) (tl_run_flag b) (tl_publish_flag b) (tl_filter_map b) (tl_max_msg_size b) x (tl_queue b).
Definition tl_set_queue x b := mkTopicLogger (tl_options b) (tl_run_flag b) (tl_publish_flag b) (tl_filter_map b) (tl_max_msg_size b) (tl_timer b) x.
End Setters.

(** ** The code *)

Section TopicLogger.
Context (regex_match : string → string → res bool).
Abbreviation B := (M TopicLoggerBackend).

(** A call on [timer_ptr], which is null before the initialization. *)
Definition on_timer {A} (m : M Timer A) : B A := λ b,
  match tl_timer b with
  | None => (Undef, b)
  | Some t => let '(r, t') := m t in (r, tl_set_timer (Some t') b)
  end.

(** An executor: null, or whether it supports timers. *)
(* @src src/src/plugins/topic_logger_plugin/topic_logger_backend.cc:47-91 TopicLoggerBackend::Initialize *)
Definition tl_Initialize `{YamlOps node} (get_executor_func : option (string → option bool)) (now : Z)
    (options_node : option node) : B unit :=
  b ← get;
  o ← lift (read_options topic_logger_decode topic_logger_default options_node);
  let o := default (tl_options b) o in
  modify (tl_set_options o);;
  check_throw (negb (String.eqb (lo_timer_executor_name o) "")) "Timer executor name is empty.";;
  timer_executor ← (match get_executor_func with
                    | Some f => mret (f (lo_timer_executor_name o))
                    | None => bad_function_call
                    end : B (option bool));
  check_throw (bool_decide (is_Some timer_executor)) "Invalid timer executor name: {}";;
  check_throw (default false timer_executor) "Timer executor {} must support timer schedule.";;
  t ← lift (CreateTimer timer_executor (lo_interval_ms o * 1000000) false now);
  modify (λ b, tl_set_run_flag true (tl_set_timer (Some t) b)).

(* @src src/src/plugins/topic_logger_plugin/topic_logger_backend.cc:144-171 TopicLoggerBackend::CheckLog *)
Definition tl_CheckLog (module_name : string) : B bool :=
  b ← get;
  zoom tl_filter_map tl_set_filter_map (check_log regex_match (lo_module_filter (tl_options b)) module_name).

(** Fields keep the width they have in the protocol. *)
(* @src src/src/plugins/topic_logger_plugin/topic_logger_backend.cc:103-115 TopicLoggerBackend::Log (single log data) *)
Definition single_log_data (d : LogDataWrapper) (max_msg_size : Z) : SingleLogData :=
  let log_data_size := Z.of_nat (length (ld_log_data d)) in
  let used_msg_size := SafeUtf8TruncationLength (ld_log_data d) (Z.to_nat (Z.min max_msg_size log_data_size)) in
  mkSingle (ld_module_name d) (wrap64 (ld_thread_id d)) (wrap64 (ld_t d)) (ld_lvl d) (wrap32 (ld_line d)) (ld_file_name d)
    (ld_function_name d) (take used_msg_size (ld_log_data d)).

(** [Log] up to the mutex: what it is to add. *)
(* @src src/src/plugins/topic_logger_plugin/topic_logger_backend.cc:95-115 TopicLoggerBackend::Log (checks) *)
Definition log_enter (d : LogDataWrapper) : B (option SingleLogData) :=
  b ← get;
  if negb (tl_run_flag b) then mret None
  else
    if_log ← tl_CheckLog (str (ld_module_name d));
    if negb if_log then mret None else mret (Some (single_log_data d (tl_max_msg_size b))).

Definition keep (x : SingleLogData) (logs : list SingleLogData) (q : LogQueue) : LogQueue :=
  mkLogQueue (Some (logs ++ [x])) (lq_sequence_num q) (lq_dropped q) (lq_frames q) (lq_seen q ++ [(x, true)]).
Definition drop_one (x : SingleLogData) (logs : list SingleLogData) (q : LogQueue) : LogQueue :=
  mkLogQueue (Some logs) (lq_sequence_num q) (wrap64 (lq_dropped q + 1)) (lq_frames q) (lq_seen q ++ [(x, false)]).

(** [Log] under the mutex. *)
(* @src src/src/plugins/topic_logger_plugin/topic_logger_backend.cc:117-137 TopicLoggerBackend::Log (mutex) *)
Definition log_add (x : SingleLogData) (now : Z) : B unit :=
  b ← get;
  let logs := default [] (lq_current (tl_queue b)) in
  if lo_max_msg_count (tl_options b) <=? Z.of_nat (length logs) then modify (tl_set_queue (drop_one x logs (tl_queue b)))
  else
    modify (tl_set_queue (keep x logs (tl_queue b)));;
    if tl_publish_flag b then mret tt
    else
      modify (tl_set_publish_flag true);;
      on_timer (timer_Reset now).

(* @src src/src/plugins/topic_logger_plugin/topic_logger_backend.cc:93-142 TopicLoggerBackend::Log *)
Definition tl_Log (now : Z) (d : LogDataWrapper) : B unit :=
  try_catch
    (x ← log_enter d;
     match x with Some x => log_add x now | None => mret tt end)
    (λ _, mret tt).

Definition take_frame (time_stamp : Z) (logs : list SingleLogData) (q : LogQueue) : LogQueue :=
  mkLogQueue None (wrap64 (lq_sequence_num q + 1)) 0
    (lq_frames q ++ [mkFrame time_stamp (lq_sequence_num q) logs (lq_dropped q)]) (lq_seen q).

(** The task under the mutex, but for the call that cancels the timer: whether
    that is made. *)
Definition task_take (time_stamp : Z) : B bool :=
  b ← get;
  match lq_current (tl_queue b) with
  | None => modify (tl_set_publish_flag false);; mret true
  | Some logs => modify (tl_set_queue (take_frame time_stamp logs (tl_queue b)));; mret false
  end.

(* @src src/src/plugins/topic_logger_plugin/topic_logger_backend.cc:59-82 TopicLoggerBackend::Initialize (timer_task) *)
Definition timer_task (time_stamp : Z) : B unit :=
  cancel ← task_take time_stamp;
  if negb cancel then mret tt else on_timer Cancel.

(* @src src/src/plugins/topic_logger_plugin/topic_logger_backend.h:55-55 TopicLoggerBackend::SetMaxMsgSize *)
Definition SetMaxMsgSize (b : TopicLoggerBackend) : TopicLoggerBackend := tl_set_max_msg_size (lo_max_msg_size (tl_options b)) b.

(* @src src/src/plugins/topic_logger_plugin/topic_logger_backend.h:57-60 TopicLoggerBackend::StartupPulisher *)
Definition StartupPulisher (now : Z) : B unit :=
  modify (tl_set_publish_flag true);;
  on_timer (timer_Reset now).

(* @src src/src/plugins/topic_logger_plugin/topic_logger_backend.h:62-66 TopicLoggerBackend::StopPulisher *)
Definition StopPulisher : B unit :=
  modify (tl_set_run_flag false);;
  modify (tl_set_publish_flag false);;
  on_timer Cancel.

(* @src src/src/plugins/topic_logger_plugin/topic_logger_backend.h:39-41 TopicLoggerBackend::Shutdown *)
Definition tl_Shutdown : B unit := modify (tl_set_run_flag false).

(** The backend as the logger manager sees it. *)
(* @src src/src/plugins/topic_logger_plugin/topic_logger_backend.h:35-70 TopicLoggerBackend *)
Definition topic_logger_base `{YamlOps node} (f : option (string → option bool)) (now : Z)
    : LoggerBackendBase TopicLoggerBackend node := {|
  lb_Type _ := "topic_logger";
  lb_AllowDuplicates _ := true;
  lb_Initialize := tl_Initialize f now;
  lb_Start := mret tt;
  lb_Shutdown := tl_Shutdown;
  lb_GenInitializationReport _ := [];
  lb_Log := tl_Log now
|}.

(** ** Threads *)

(** A backend with the calls of [Log] that wait for the mutex, the calls of the
    timer whose task holds it and is about to cancel the timer or has returned,
    and how far the hooks are that start and stop. *)
Record TopicSys := mkTopicSys {
  sy_backend : TopicLoggerBackend;
  sy_in_log : list SingleLogData;
  sy_cancelling : bool;
  sy_in_call : nat;
  sy_starting : bool;
  sy_stopping : bool
}.

Definition sy_set_backend b s := mkTopicSys b (sy_in_log s) (sy_cancelling s) (sy_in_call s) (sy_starting s) (sy_stopping s).
Definition sy_set_in_log x s := mkTopicSys (sy_backend s) x (sy_cancelling s) (sy_in_call s) (sy_starting s) (sy_stopping s).
Definition sy_set_call c n s := mkTopicSys (sy_backend s) (sy_in_log s) c n (sy_starting s) (sy_stopping s).
Definition sy_set_starting x s := mkTopicSys (sy_backend s) (sy_in_log s) (sy_cancelling s) (sy_in_call s) x (sy_stopping s).
Definition sy_set_stopping s := mkTopicSys (sy_backend s) (sy_in_log s) (sy_cancelling s) (sy_in_call s) (sy_starting s) true.

(** The executor begins the call [planned] of the timer; whether the task runs. *)
Definition call_begins (i : nat) (planned : Z) (runs : bool) (t t' : Timer) : Prop :=
  tr_scheduled t !! i = Some planned ∧ runs = negb (cancelled_ t) && (planned =? next_call_time_ t) ∧
  t' = tr_set_scheduled (take i (tr_scheduled t) ++ drop (i + 1) (tr_scheduled t)) t.

(** [careful]: the plugin is not started while the task holds the mutex.
    [StartupPulisher] and [StopPulisher] do not take it. *)
Inductive tl_step (careful : bool) (s : TopicSys) : TopicSys → Prop :=
| tl_enter d r b' :
    log_enter d (sy_backend s) = (Ok r, b') →
    tl_step careful s (sy_set_in_log (sy_in_log s ++ option_list r) (sy_set_backend b' s))
| tl_add i x now b' :
    sy_in_log s !! i = Some x → sy_cancelling s = false → log_add x now (sy_backend s) = (Ok tt, b') →
    tl_step careful s (sy_set_in_log (delete i (sy_in_log s)) (sy_set_backend b' s))
| tl_skip i planned t t' :
    tl_timer (sy_backend s) = Some t → call_begins i planned false t t' →
    tl_step careful s (sy_set_backend (tl_set_timer (Some t') (sy_backend s)) s)
| tl_task i planned t t' t'' time_stamp cancel b' :
    tl_timer (sy_backend s) = Some t → call_begins i planned true t t' → sy_cancelling s = false →
    ExecuteTask planned [] t' = (Ok tt, t'') →
    task_take time_stamp (tl_set_timer (Some t'') (sy_backend s)) = (Ok cancel, b') →
    tl_step careful s (sy_set_call cancel (if cancel then sy_in_call s else S (sy_in_call s)) (sy_set_backend b' s))
| tl_cancel b' :
    sy_cancelling s = true → on_timer Cancel (sy_backend s) = (Ok tt, b') →
    tl_step careful s (sy_set_call false (S (sy_in_call s)) (sy_set_backend b' s))
| tl_again n now b' :
    sy_in_call s = S n → on_timer (next_time now;; ExecuteLoop) (sy_backend s) = (Ok tt, b') →
    tl_step careful s (sy_set_call (sy_cancelling s) n (sy_set_backend b' s))
| tl_max_size : tl_step careful s (sy_set_backend (SetMaxMsgSize (sy_backend s)) s)
| tl_start_flag :
    sy_starting s = false → sy_stopping s = false → (careful = true → sy_cancelling s = false) →
    tl_step careful s (sy_set_starting true (sy_set_backend (tl_set_publish_flag true (sy_backend s)) s))
| tl_start_reset now b' :
    sy_starting s = true → on_timer (timer_Reset now) (sy_backend s) = (Ok tt, b') →
    tl_step careful s (sy_set_starting false (sy_set_backend b' s))
| tl_stop : tl_step careful s (sy_set_stopping (sy_set_backend (tl_set_run_flag false (sy_backend s)) s))
| tl_stop_flag : sy_stopping s = true → tl_step careful s (sy_set_backend (tl_set_publish_flag false (sy_backend s)) s)
| tl_stop_cancel b' :
    sy_stopping s = true → on_timer Cancel (sy_backend s) = (Ok tt, b') → tl_step careful s (sy_set_backend b' s).

(** As [Initialize] leaves it. *)
Definition tl_initialized (s : TopicSys) : Prop :=
  ∃ (o : TopicLoggerOptions) (t : Timer) (run : bool), cancelled_ t = true ∧ 0 ≤ period_ t ∧
    s = mkTopicSys (mkTopicLogger o run false ∅ SIZE_MAX (Some t) (mkLogQueue None 0 0 [] [])) [] false 0 false false.

(** ** What becomes of the records *)

Definition kept (seen : list (SingleLogData * bool)) : list SingleLogData := omap (λ p : SingleLogData * bool, if p.2 then Some p.1 else None) seen.
Definition dropped (seen : list (SingleLogData * bool)) : Z := Z.of_nat (length (List.filter (λ p : SingleLogData * bool, negb p.2) seen)).
Definition sum_dropped (frames : list LogData) : Z := foldr (λ f n, fr_dropped_count f + n) 0 frames.

Record queue_ok (max : Z) (q : LogQueue) : Prop := {
  qk_kept : concat (map fr_logs (lq_frames q)) ++ default [] (lq_current q) = kept (lq_seen q);
  qk_dropped : wrap64 (sum_dropped (lq_frames q) + lq_dropped q) = wrap64 (dropped (lq_seen q));
  qk_numbers : map fr_sequence_num (lq_frames q) = map (λ i, wrap64 (Z.of_nat i)) (seq 0 (length (lq_frames q)));
  qk_next : lq_sequence_num q = wrap64 (Z.of_nat (length (lq_frames q)));
  qk_bound : Forall (λ f, Z.of_nat (length (fr_logs f)) ≤ Z.max 0 max) (lq_frames q);
  qk_current : Z.of_nat (length (default [] (lq_current q))) ≤ Z.max 0 max
}.

Lemma kept_app s s' : kept (s ++ s') = kept s ++ kept s'.
Proof. apply omap_app. Qed.
Lemma dropped_snoc s x b : dropped (s ++ [(x, b)]) = dropped s + (if b then 0 else 1).
Proof. unfold dropped. rewrite List.filter_app, length_app. destruct b; cbn; lia. Qed.
Lemma sum_dropped_app fs fs' : sum_dropped (fs ++ fs') = sum_dropped fs + sum_dropped fs'.
Proof.
  induction fs as [|f fs IH]; [done|].
  change (fr_dropped_count f + sum_dropped (fs ++ fs') = fr_dropped_count f + sum_dropped fs + sum_dropped fs'). lia.
Qed.
Lemma wrap64_add_wrap a b : wrap64 (a + wrap64 b) = wrap64 (a + b).
Proof. unfold wrap. apply Zplus_mod_idemp_r. Qed.
Lemma wrap64_succ a b : wrap64 a = wrap64 b → wrap64 (a + 1) = wrap64 (b + 1).
Proof. intros Hab. rewrite !(Z.add_comm _ 1), <-(wrap64_add_wrap 1 a), Hab. apply wrap64_add_wrap. Qed.

Lemma queue_keep max x q : queue_ok max q → Z.of_nat (length (default [] (lq_current q))) < max →
  queue_ok max (keep x (default [] (lq_current q)) q).
Proof.
  intros [H1 H2 H3 H4 H5 H6] Hlt. split; cbn; [|by rewrite dropped_snoc, Z.add_0_r|done|done|done|rewrite length_app; cbn; lia].
  by rewrite kept_app, <-H1, app_assoc.
Qed.

Lemma queue_drop max x q : queue_ok max q → queue_ok max (drop_one x (default [] (lq_current q)) q).
Proof.
  intros [H1 H2 H3 H4 H5 H6]. split; cbn; [by rewrite kept_app, app_nil_r| |done..].
  rewrite dropped_snoc, wrap64_add_wrap, Z.add_assoc. by apply wrap64_succ.
Qed.

Lemma queue_take max ts logs q : lq_current q = Some logs → queue_ok max q → queue_ok max (take_frame ts logs q).
Proof.
  intros Hc [H1 H2 H3 H4 H5 H6]. rewrite Hc in *. cbn in *. split; cbn.
  - rewrite map_app, concat_app. cbn. by rewrite !app_nil_r.
  - rewrite sum_dropped_app. cbn. by rewrite !Z.add_0_r.
  - rewrite map_app, length_app, seq_app, map_app, H3. cbn. by rewrite H4.
  - rewrite H4, length_app, Z.add_comm, wrap64_add_wrap. f_equal. cbn. lia.
  - apply Forall_app. split; [done|]. by constructor.
  - lia.
Qed.

(** ** What the parts of the code do *)

Lemma on_timer_ok {A} (m : M Timer A) b a b' : on_timer m b = (Ok a, b') →
  ∃ t t', tl_timer b = Some t ∧ m t = (Ok a, t') ∧ b' = tl_set_timer (Some t') b.
Proof.
  unfold on_timer. destruct (tl_timer b) as [t|]; [|done]. destruct (m t) as [r t'] eqn:Hm. intros [= -> <-]. by eauto.
Qed.

Lemma log_enter_ok d b r b' : log_enter d b = (Ok r, b') →
  ∃ m, b' = tl_set_filter_map m b ∧ (tl_run_flag b = false → r = None).
Proof.
  unfold log_enter. rewrite get_bind. destruct (tl_run_flag b) eqn:Hrun; cbn [negb].
  2: { intros [= <- <-]. exists (tl_filter_map b). split; [by destruct b|done]. }
  intros Hr. run_step Hr E. unfold tl_CheckLog in E. rewrite get_bind in E. unfold zoom in E.
  destruct (check_log _ _ _ _) as [r0 m]. injection E as -> <-. exists m.
  destruct u; cbn [negb] in Hr; injection Hr as <- <-; by split.
Qed.

(** A record is kept, or dropped because there are as many as allowed; when the
    task has stopped the timer it is reset. *)
Lemma log_add_ok x now b b' : log_add x now b = (Ok tt, b') →
  let logs := default [] (lq_current (tl_queue b)) in
  (lo_max_msg_count (tl_options b) ≤ Z.of_nat (length logs) ∧ b' = tl_set_queue (drop_one x logs (tl_queue b)) b) ∨
  (Z.of_nat (length logs) < lo_max_msg_count (tl_options b) ∧
   ((tl_publish_flag b = true ∧ b' = tl_set_queue (keep x logs (tl_queue b)) b) ∨
    (tl_publish_flag b = false ∧ ∃ t t', tl_timer b = Some t ∧ timer_Reset now t = (Ok tt, t') ∧
       b' = tl_set_timer (Some t') (tl_set_publish_flag true (tl_set_queue (keep x logs (tl_queue b)) b))))).
Proof.
  unfold log_add. rewrite get_bind. cbn zeta. destruct (Z.leb_spec (lo_max_msg_count (tl_options b)) (Z.of_nat (length (default [] (lq_current (tl_queue b)))))) as [Hge|Hlt].
  - intros [= <-]. by left.
  - intros Hr. right. split; [done|]. rewrite (bind_run _ _ b tt (tl_set_queue (keep x (default [] (lq_current (tl_queue b))) (tl_queue b)) b)) in Hr by done. destruct (tl_publish_flag b).
    + injection Hr as <-. by left.
    + right. split; [done|]. unfold mbind, M_bind in Hr. cbn [modify] in Hr. apply on_timer_ok in Hr as (t & t' & Ht & Hm & ->). by eauto.
Qed.

Lemma task_take_ok ts b c b' : task_take ts b = (Ok c, b') →
  (c = true ∧ lq_current (tl_queue b) = None ∧ b' = tl_set_publish_flag false b) ∨
  (c = false ∧ ∃ logs, lq_current (tl_queue b) = Some logs ∧ b' = tl_set_queue (take_frame ts logs (tl_queue b)) b).
Proof.
  unfold task_take. rewrite get_bind. destruct (lq_current (tl_queue b)) as [logs|]; intros [= <- <-]; [right|left]; by eauto.
Qed.

Lemma again_ok now t t' : 0 ≤ period_ t → (next_time now;; ExecuteLoop) t = (Ok tt, t') →
  period_ t' = period_ t ∧ cancelled_ t' = cancelled_ t ∧ next_call_time_ t' ∈ tr_scheduled t'.
Proof.
  intros Hp Hr. run_step Hr E. destruct u. apply next_time_later in E as (n & _ & ->); [|done]. injection Hr as <-.
  split; [done|]. split; [done|]. cbn. apply elem_of_app. right. by left.
Qed.

Definition tl_counted (max : Z) (s : TopicSys) : Prop :=
  lo_max_msg_count (tl_options (sy_backend s)) = max ∧ queue_ok max (tl_queue (sy_backend s)).

Lemma tl_step_counted careful max s s' : tl_step careful s s' → tl_counted max s → tl_counted max s'.
Proof.
  intros Hs [Hm Hq]. destruct Hs as [d r b' H|i x now b' _ _ H|i pl t t' _ _|i pl t t' t'' ts c b' _ _ _ _ H|b' _ H|n now b' _ H
    | | |now b' _ H| | |b' _ H].
  - apply log_enter_ok in H as (m & -> & _). by split.
  - apply log_add_ok in H as [[_ ->]|[Hlt [[_ ->]|(_ & t & t' & _ & _ & ->)]]]; split; cbn; [done| |done| |done|].
    + by apply queue_drop.
    + apply queue_keep; [done|]. by rewrite <-Hm.
    + apply queue_keep; [done|]. by rewrite <-Hm.
  - by split.
  - apply task_take_ok in H as [(_ & _ & ->)|(_ & logs & Hl & ->)]; split; [done..|]. by apply queue_take.
  - apply on_timer_ok in H as (? & ? & _ & _ & ->). by split.
  - apply on_timer_ok in H as (? & ? & _ & _ & ->). by split.
  - by split.
  - by split.
  - apply on_timer_ok in H as (? & ? & _ & _ & ->). by split.
  - by split.
  - by split.
  - apply on_timer_ok in H as (? & ? & _ & _ & ->). by split.
Qed.

(** ** The timer goes on *)

(** A timer that is not cancelled is scheduled, or a call in progress will do it;
    [publish_flag_] says that it is not cancelled, and is set when records wait. *)
Record tl_alive (s : TopicSys) : Prop := {
  ta_timer : ∃ t, tl_timer (sy_backend s) = Some t ∧ 0 ≤ period_ t ∧
    (cancelled_ t = false → next_call_time_ t ∈ tr_scheduled t ∨ (0 < sy_in_call s)%nat ∨ sy_cancelling s = true) ∧
    (sy_stopping s = false → tl_publish_flag (sy_backend s) = true → sy_starting s = true ∨ cancelled_ t = false);
  ta_cancel : sy_cancelling s = true → tl_publish_flag (sy_backend s) = false;
  ta_pending : sy_stopping s = false → default [] (lq_current (tl_queue (sy_backend s))) ≠ [] →
    tl_publish_flag (sy_backend s) = true
}.

Lemma call_begins_keeps i pl runs t t' : call_begins i pl runs t t' →
  period_ t' = period_ t ∧ cancelled_ t' = cancelled_ t ∧ next_call_time_ t' = next_call_time_ t ∧
  (runs = true → cancelled_ t = false) ∧
  (runs = false → cancelled_ t = false → next_call_time_ t ∈ tr_scheduled t → next_call_time_ t ∈ tr_scheduled t').
Proof.
  intros (Hi & -> & ->). split; [done|]. split; [done|]. split; [done|]. split.
  - by intros [Hc%negb_true_iff _]%andb_true_iff.
  - intros Hr Hc Hin. rewrite Hc in Hr. apply Z.eqb_neq in Hr. cbn. rewrite <-(take_drop_middle _ i pl Hi) in Hin.
    rewrite Nat.add_1_r. rewrite elem_of_app, elem_of_cons in Hin. apply elem_of_app. naive_solver.
Qed.

Lemma reset_alive now t t' : timer_Reset now t = (Ok tt, t') →
  period_ t' = period_ t ∧ cancelled_ t' = false ∧ next_call_time_ t' ∈ tr_scheduled t'.
Proof. intros ->%reset_run. split; [done|]. split; [done|]. cbn. apply elem_of_app. right. by left. Qed.

Lemma tl_step_alive s s' : tl_step true s s' → tl_alive s → tl_alive s'.
Proof.
  intros Hs [(t & Ht & Hp & Hsch & Hflag) Hc Hpend].
  destruct Hs as [d r b' H|i x now b' _ Hfree H|i pl t1 t' Ht1 H|i pl t1 t' t'' ts c b' Ht1 Hb Hfree E H|b' Hcan H|n now b' Hn H
    | |Hst Hstop Hcare|now b' Hst H| |Hstop|b' Hstop H].
  - apply log_enter_ok in H as (m & -> & _). split; [by exists t|done|done].
  - apply log_add_ok in H as [[Hge ->]|[Hlt [[Hf ->]|(Hf & t1 & t' & Ht1 & Hr & ->)]]].
    + split; [by exists t|done|done].
    + split; [by exists t|done|done].
    + rewrite Ht in Ht1. injection Ht1 as <-. apply reset_alive in Hr as (Hp' & Hc' & Hin).
      split; [exists t'|cbn; by rewrite Hfree|done]. split; [done|]. split; [lia|]. split; [by left|by right].
  - rewrite Ht in Ht1. injection Ht1 as <-. apply call_begins_keeps in H as (Hp' & Hc' & Hn' & _ & Hin).
    split; [|done|done]. exists t'. split; [done|]. split; [lia|]. rewrite Hc', Hn'. cbn. naive_solver.
  - rewrite Ht in Ht1. injection Ht1 as <-. apply call_begins_keeps in Hb as (Hp' & Hc' & Hn' & Hrun & _).
    specialize (Hrun eq_refl). injection E as <-. apply task_take_ok in H as [(-> & Hnone & ->)|(-> & logs & Hl & ->)].
    + split; [|done|]; [|cbn in *; by rewrite Hnone]. eexists. split; [done|]. split; [cbn; lia|]. split; [by right; right|done].
    + split; [|done|done]. eexists. split; [done|]. split; [cbn; lia|]. split; [right; left; cbn; lia|].
      intros _ _. right. cbn. by rewrite Hc'.
  - apply on_timer_ok in H as (t1 & t' & Ht1 & [= <-] & ->). rewrite Ht in Ht1. injection Ht1 as <-. specialize (Hc Hcan).
    split; [|done|done]. eexists. split; [done|]. split; [done|]. cbn. split; [done|]. by rewrite Hc.
  - apply on_timer_ok in H as (t1 & t' & Ht1 & Hr & ->). rewrite Ht in Ht1. injection Ht1 as <-.
    apply again_ok in Hr as (Hp' & Hc' & Hin); [|done]. split; [|done|done]. exists t'. split; [done|]. split; [lia|].
    split; [by left|]. cbn. by rewrite Hc'.
  - split; [by exists t|done|done].
  - split; [|cbn; intros Hcan; by rewrite Hcare in Hcan|done]. exists t. split; [done|]. split; [done|]. split; [done|by left].
  - apply on_timer_ok in H as (t1 & t' & Ht1 & Hr & ->). rewrite Ht in Ht1. injection Ht1 as <-.
    apply reset_alive in Hr as (Hp' & Hc' & Hin). split; [|done|done]. exists t'. split; [done|]. split; [lia|]. split; [by left|by right].
  - split; [exists t|done|done]. by split.
  - split; [exists t|done|]; cbn; rewrite Hstop; [|done]. split; [done|]. by split.
  - apply on_timer_ok in H as (t1 & t' & Ht1 & [= <-] & ->). rewrite Ht in Ht1. injection Ht1 as <-.
    split; [|done|done]. eexists. split; [done|]. split; [done|]. cbn. split; [done|]. by rewrite Hstop.
Qed.

Lemma tl_reachable careful s0 s : rtc (tl_step careful) s0 s → tl_initialized s0 →
  tl_counted (lo_max_msg_count (tl_options (sy_backend s0))) s ∧ (careful = true → tl_alive s).
Proof.
  intros Hs (o & t & run & Hc & Hp & ->). split.
  - cbn. set (s0 := mkTopicSys _ _ _ _ _ _) in Hs.
    assert (tl_counted (lo_max_msg_count o) s0) as H0.
    { split; [done|]. split; [done..| |constructor|cbn; lia]. done. }
    clearbody s0. induction Hs as [|s1 s2 s3 H12 _ IH]; [done|]. by eapply IH, tl_step_counted.
  - intros ->. set (s0 := mkTopicSys _ _ _ _ _ _) in Hs. assert (tl_alive s0) as H0.
    { split; [|done|done]. exists t. cbn. rewrite Hc. by split. }
    clearbody s0. induction Hs as [|s1 s2 s3 H12 _ IH]; [done|]. by eapply IH, tl_step_alive.
Qed.

(** C25: Records are published.  Whatever the threads that log, those of the
    timer and the hooks do after the backend has been initialized: the records of
    the frames taken and those that wait are the records that were kept, in order;
    the counts of the frames and the one kept now are the number of records
    dropped (in 64 bits); frames are numbered from zero, and no frame has more
    records than the options allow.  If the plugin is not started just while the
    task cancels the timer, then as long as records wait and the plugin is not
    stopped either it is being started, or the timer is not cancelled and a call
    of it is in progress or scheduled; and when none is in progress the one
    scheduled takes all the records that wait, at once. *)
Theorem log_records_are_published careful s0 s :
  tl_initialized s0 → rtc (tl_step careful) s0 s →
  let q := tl_queue (sy_backend s) in
  let waiting := default [] (lq_current q) in
  (concat (map fr_logs (lq_frames q)) ++ waiting = kept (lq_seen q) ∧
   wrap64 (sum_dropped (lq_frames q) + lq_dropped q) = wrap64 (dropped (lq_seen q)) ∧
   map fr_sequence_num (lq_frames q) = map (λ i, wrap64 (Z.of_nat i)) (seq 0 (length (lq_frames q))) ∧
   Forall (λ f, Z.of_nat (length (fr_logs f)) ≤ Z.max 0 (lo_max_msg_count (tl_options (sy_backend s)))) (lq_frames q)) ∧
  (careful = true → waiting ≠ [] → sy_stopping s = false → sy_starting s = false →
   ∃ t, tl_timer (sy_backend s) = Some t ∧ cancelled_ t = false ∧ sy_cancelling s = false ∧
     ((0 < sy_in_call s)%nat ∨
      ∀ time_stamp, ∃ s', tl_step careful s s' ∧ lq_current (tl_queue (sy_backend s')) = None ∧
        lq_frames (tl_queue (sy_backend s')) =
          lq_frames q ++ [mkFrame time_stamp (lq_sequence_num q) waiting (lq_dropped q)])).
Proof.
  intros Hi Hs q waiting. destruct (tl_reachable _ _ _ Hs Hi) as [[Hm [H1 H2 H3 _ H5 _]] Halive]. split; [rewrite Hm; by split_and!|].
  intros Hcare Hw Hstop Hstart. destruct (Halive Hcare) as [(t & Ht & _ & Hsch & Hflag) Hc Hpend].
  specialize (Hpend Hstop Hw). destruct (Hflag Hstop Hpend) as [?|Hrun]; [congruence|].
  assert (sy_cancelling s = false) as Hfree.
  { destruct (sy_cancelling s) eqn:E; [|done]. rewrite (Hc eq_refl) in Hpend. done. }
  exists t. split; [done|]. split; [done|]. split; [done|]. destruct (Hsch Hrun) as [Hin|[Hin|Hin]]; [|by left|congruence]. right.
  intros ts. apply list_elem_of_lookup_1 in Hin as [i Hi'].
  destruct (lq_current q) as [logs|] eqn:Hl; [|done].
  eexists. split; [|split; [|]].
  - eapply (tl_task careful s i (next_call_time_ t) t _ _ ts false); [done| |done|done|].
    + split; [done|]. split; [by rewrite Hrun, Z.eqb_refl|done].
    + unfold task_take. rewrite get_bind. change (lq_current (tl_queue (tl_set_timer _ _))) with (lq_current q). by rewrite Hl.
  - done.
  - done.
Qed.

(** ** What is not published *)

(** The plugin has been stopped, and no call of [Log] is left. *)
Definition tl_stopped (s : TopicSys) : Prop :=
  sy_stopping s = true ∧ sy_starting s = false ∧ sy_cancelling s = false ∧ sy_in_log s = [] ∧
  tl_run_flag (sy_backend s) = false ∧ ∃ t, tl_timer (sy_backend s) = Some t ∧ 0 ≤ period_ t ∧ cancelled_ t = true.

Lemma tl_step_stopped careful s s' : tl_step careful s s' → tl_stopped s →
  tl_stopped s' ∧ tl_queue (sy_backend s') = tl_queue (sy_backend s).
Proof.
  intros Hs (Hstop & Hstart & Hcan & Hnone & Hrun & t & Ht & Hp & Hc).
  destruct Hs as [d r b' H|i x now b' Hi _ _|i pl t1 t' Ht1 H|i pl t1 t' t'' ts c b' Ht1 H _ _ _|b' H _|n now b' Hn H
    | |_ H _|now b' H _| |_|b' _ H]; try congruence.
  - apply log_enter_ok in H as (m & -> & Hr). rewrite (Hr Hrun). split; [|done]. split_and!; try done; [by rewrite Hnone|by exists t].
  - rewrite Hnone in Hi. done.
  - rewrite Ht in Ht1. injection Ht1 as <-. apply call_begins_keeps in H as (Hp' & Hc' & _). split; [|done].
    split_and!; try done. exists t'. split_and!; [done|lia|congruence].
  - rewrite Ht in Ht1. injection Ht1 as <-. apply call_begins_keeps in H as (_ & _ & _ & H & _). specialize (H eq_refl). congruence.
  - apply on_timer_ok in H as (t1 & t' & Ht1 & Hr & ->). rewrite Ht in Ht1. injection Ht1 as <-.
    apply again_ok in Hr as (Hp' & Hc' & _); [|done]. split; [|done]. split_and!; try done. exists t'. split_and!; [done|lia|congruence].
  - split; [|done]. split_and!; try done. by exists t.
  - split; [|done]. split_and!; try done. by exists t.
  - split; [|done]. split_and!; try done. by exists t.
  - apply on_timer_ok in H as (t1 & t' & Ht1 & [= <-] & ->). rewrite Ht in Ht1. injection Ht1 as <-. split; [|done].
    split_and!; try done. eexists. by split_and!.
Qed.

(** The records that wait when the plugin stops are never published. *)
Theorem records_lost_at_stop careful s s' : tl_stopped s → rtc (tl_step careful) s s' →
  tl_queue (sy_backend s') = tl_queue (sy_backend s).
Proof.
  intros Hst Hs. revert Hst. induction Hs as [|s1 s2 s3 H12 _ IH]; [done|]. intros Hst.
  destruct (tl_step_stopped _ _ _ H12 Hst) as [Hst2 Hq]. by rewrite IH, Hq.
Qed.

(** [publish_flag_] is set and the timer cancelled: records do not reset it. *)
Definition tl_jammed (s : TopicSys) : Prop :=
  sy_stopping s = false ∧ sy_starting s = false ∧ sy_cancelling s = false ∧ tl_publish_flag (sy_backend s) = true ∧
  ∃ t, tl_timer (sy_backend s) = Some t ∧ 0 ≤ period_ t ∧ cancelled_ t = true.

(** Nothing is published in such a state, which only the hooks end. *)
Theorem jammed_publishes_nothing careful s s' : tl_jammed s → tl_step careful s s' →
  lq_frames (tl_queue (sy_backend s')) = lq_frames (tl_queue (sy_backend s)) ∧
  (tl_jammed s' ∨ sy_starting s' = true ∨ sy_stopping s' = true).
Proof.
  intros (Hstop & Hstart & Hcan & Hflag & t & Ht & Hp & Hc) Hs.
  destruct Hs as [d r b' H|i x now b' Hi _ H|i pl t1 t' Ht1 H|i pl t1 t' t'' ts c b' Ht1 H _ _ _|b' H _|n now b' Hn H
    | |_ H _|now b' H _| |H|b' H _]; try congruence.
  - apply log_enter_ok in H as (m & -> & Hr). split; [done|]. left. split_and!; try done. by exists t.
  - apply log_add_ok in H as [[_ ->]|[_ [[_ ->]|(Hf & _)]]]; [| |congruence]; (split; [done|]); left; split_and!; try done; by exists t.
  - rewrite Ht in Ht1. injection Ht1 as <-. apply call_begins_keeps in H as (Hp' & Hc' & _). split; [done|].
    left. split_and!; try done. exists t'. split_and!; [done|lia|congruence].
  - rewrite Ht in Ht1. injection Ht1 as <-. apply call_begins_keeps in H as (_ & _ & _ & H & _). specialize (H eq_refl). congruence.
  - apply on_timer_ok in H as (t1 & t' & Ht1 & Hr & ->). rewrite Ht in Ht1. injection Ht1 as <-.
    apply again_ok in Hr as (Hp' & Hc' & _); [|done]. split; [done|]. left. split_and!; try done. exists t'. split_and!; [done|lia|congruence].
  - split; [done|]. left. split_and!; try done. by exists t.
  - split; [done|]. by right; left.
  - split; [done|]. by right; right.
Qed.

(** Until [SetMaxMsgSize] a message is taken whole, whatever the options say. *)
Theorem untruncated_before_start d b x b' :
  tl_max_msg_size b = SIZE_MAX → Z.of_nat (length (ld_log_data d)) < 2 ^ 64 → log_enter d b = (Ok (Some x), b') →
  sl_message x = ld_log_data d.
Proof.
  intros Hmax Hlen. unfold log_enter. rewrite get_bind. destruct (tl_run_flag b); cbn [negb]; [|done].
  intros Hr. run_step Hr E. destruct u; cbn [negb] in Hr; [|done]. injection Hr as <- _. cbn. rewrite Hmax.
  unfold SIZE_MAX. rewrite Z.min_r by lia. rewrite Nat2Z.id. unfold SafeUtf8TruncationLength.
  rewrite Nat.leb_refl. apply firstn_all.
Qed.
End TopicLogger.

(** * At a concrete input *)

Module TopicLoggerDemo.
Definition any_module (_ _ : string) : res bool := Ok true.
Definition record (text : string) : LogDataWrapper :=
  mkLogData (lit "m") 1 0 AIMRT_LOG_LEVEL_INFO 7 (lit "f.cc") (lit "f") (lit text).
Definition entry (text : string) : SingleLogData := single_log_data (record text) SIZE_MAX.

(** Frames of two records, a period of 10. *)
Definition options : TopicLoggerOptions := mkTopicLoggerOptions "(.*)" 10 "timer" "topic" 2 2.
Definition timer (next : Z) (cancelled : bool) (scheduled called : list Z) : Timer := mkTimer 10 next cancelled scheduled called.
Definition backend (run flag : bool) (cache : gmap string bool) (t : Timer) (q : LogQueue) : TopicLoggerBackend :=
  mkTopicLogger options run flag cache SIZE_MAX (Some t) q.
Definition fresh : TopicSys := mkTopicSys (backend true false ∅ (timer 0 true [] []) (mkLogQueue None 0 0 [] [])) [] false 0 false false.

Lemma fresh_initialized : tl_initialized fresh.
Proof. exists options, (timer 0 true [] []), true. split_and!; [done|cbn; lia|done]. Qed.

Definition known : gmap string bool := {["m" := true]}.
(** Two records wait, the third was dropped. *)
Definition waiting_queue : LogQueue :=
  mkLogQueue (Some [entry "a"; entry "b"]) 0 1 [] [(entry "a", true); (entry "b", true); (entry "c", false)].
Definition waiting_sys : TopicSys := mkTopicSys (backend true true known (timer 10 false [10] []) waiting_queue) [] false 0 false false.

Lemma enter_step careful text s :
  log_enter any_module (record text) (sy_backend s) = (Ok (Some (entry text)), tl_set_filter_map known (sy_backend s)) →
  tl_step any_module careful s (sy_set_in_log (sy_in_log s ++ [entry text]) (sy_set_backend (tl_set_filter_map known (sy_backend s)) s)).
Proof. exact (tl_enter any_module careful s (record text) (Some (entry text)) _). Qed.

Lemma waiting_reachable careful : rtc (tl_step any_module careful) fresh waiting_sys.
Proof.
  eapply rtc_l; [apply (enter_step careful "a"); by vm_compute|].
  eapply rtc_l; [apply (enter_step careful "b"); by vm_compute|].
  eapply rtc_l; [apply (enter_step careful "c"); by vm_compute|].
  eapply rtc_l; [apply (tl_add any_module careful _ 0 (entry "a") 0); by vm_compute|].
  eapply rtc_l; [apply (tl_add any_module careful _ 0 (entry "b") 0); by vm_compute|].
  eapply rtc_l; [apply (tl_add any_module careful _ 0 (entry "c") 0); by vm_compute|].
  vm_compute. apply rtc_refl.
Qed.

(** The first record has been published; the timer is cancelled and the second waits. *)
Definition jammed_queue : LogQueue :=
  mkLogQueue (Some [entry "b"]) 1 0 [mkFrame 5 0 [entry "a"] 0] [(entry "a", true); (entry "b", true)].
Definition jammed_sys : TopicSys :=
  mkTopicSys (backend true true known (timer 40 true [30; 40] [10; 20]) jammed_queue) [] false 0 false false.

(** On the way there: the task is about to cancel; it has. *)
Definition one_frame : LogQueue := mkLogQueue None 1 0 [mkFrame 5 0 [entry "a"] 0] [(entry "a", true)].
Definition racing_sys : TopicSys := mkTopicSys (backend true false known (timer 20 false [] [10; 20]) one_frame) [] true 0 false false.
Definition late_sys : TopicSys := mkTopicSys (backend true true known (timer 30 true [30] [10; 20]) one_frame) [] false 1 false false.

Lemma racing_reachable : rtc (tl_step any_module false) fresh racing_sys.
Proof.
  eapply rtc_l; [apply (enter_step false "a"); by vm_compute|].
  eapply rtc_l; [apply (tl_add any_module false _ 0 (entry "a") 0); by vm_compute|].
  eapply rtc_l; [apply (tl_task any_module false _ 0 10 (timer 10 false [10] []) (timer 10 false [] []) (timer 10 false [] [10]) 5 false
    (backend true true known (timer 10 false [] [10]) one_frame)); by vm_compute|].
  eapply rtc_l; [apply (tl_again any_module false _ 0 10); by vm_compute|].
  eapply rtc_l; [apply (tl_task any_module false _ 0 20 (timer 20 false [20] [10]) (timer 20 false [] [10]) (timer 20 false [] [10; 20]) 5 true
    (backend true false known (timer 20 false [] [10; 20]) one_frame)); by vm_compute|].
  apply rtc_refl.
Qed.

Lemma late_reachable : rtc (tl_step any_module false) racing_sys late_sys.
Proof.
  eapply rtc_l; [by apply tl_start_flag|].
  eapply rtc_l; [apply (tl_start_reset any_module false _ 20); by vm_compute|].
  eapply rtc_l; [apply tl_cancel; by vm_compute|].
  vm_compute. apply rtc_refl.
Qed.

Definition stopped_sys : TopicSys :=
  mkTopicSys (backend false false known (timer 10 true [10] []) waiting_queue) [] false 0 false true.
End TopicLoggerDemo.
Import TopicLoggerDemo.

(** The plugin is started while the task is about to cancel the timer: the timer
    is cancelled after it has been reset, and no record resets it any more. *)
Theorem start_may_jam : rtc (tl_step any_module false) fresh jammed_sys ∧ tl_jammed jammed_sys ∧
  lq_current (tl_queue (sy_backend jammed_sys)) = Some [entry "b"].
Proof.
  split; [|split; [|done]].
  2: { split_and!; try done. eexists. split_and!; [done|cbn; lia|done]. }
  etrans; [exact racing_reachable|]. etrans; [exact late_reachable|].
  eapply rtc_l; [apply (tl_again any_module false _ 0 20); by vm_compute|].
  eapply rtc_l; [apply (enter_step false "b"); by vm_compute|].
  eapply rtc_l; [apply (tl_add any_module false _ 0 (entry "b") 0); by vm_compute|].
  vm_compute. apply rtc_refl.
Qed.

Lemma log_records_are_published_witness :
  kept (lq_seen waiting_queue) = [entry "a"; entry "b"] ∧
  ∀ time_stamp, ∃ s', tl_step any_module true waiting_sys s' ∧ lq_current (tl_queue (sy_backend s')) = None ∧
    lq_frames (tl_queue (sy_backend s')) = [mkFrame time_stamp 0 [entry "a"; entry "b"] 1].
Proof.
  destruct (log_records_are_published any_module true fresh waiting_sys fresh_initialized (waiting_reachable true)) as [[H1 _] H2].
  split; [etrans; [symmetry; exact H1|reflexivity]|]. destruct (H2 eq_refl ltac:(discriminate) eq_refl eq_refl) as (t & _ & _ & _ & [H|H]).
  - cbn in H. lia.
  - exact H.
Defined.

Lemma records_lost_at_stop_witness :
  tl_queue (sy_backend (sy_set_backend (SetMaxMsgSize (sy_backend stopped_sys)) stopped_sys)) = waiting_queue.
Proof.
  apply (records_lost_at_stop any_module true stopped_sys).
  - split_and!; try done. eexists. split_and!; [done|cbn; lia|done].
  - apply rtc_once. constructor.
Defined.

Lemma jammed_publishes_nothing_witness :
  lq_frames (tl_queue (SetMaxMsgSize (sy_backend jammed_sys))) = [mkFrame 5 0 [entry "a"] 0].
Proof.
  refine (proj1 (jammed_publishes_nothing any_module false jammed_sys (sy_set_backend (SetMaxMsgSize (sy_backend jammed_sys)) jammed_sys) _ _)).
  - split_and!; try done. eexists. split_and!; [done|cbn; lia|done].
  - constructor.
Defined.

Lemma untruncated_before_start_witness : sl_message (entry "abc") = lit "abc".
Proof.
  by apply (untruncated_before_start any_module (record "abc") (sy_backend fresh) _
    (tl_set_filter_map known (sy_backend fresh))); vm_compute.
Defined.
