(* ===== verification/Ros2Name.v ===== *)
(** * Names for ROS 2: [src/plugins/ros2_plugin/ros2_name_encode.h], [ros2_rpc_backend.*]

    ROS 2 takes only letters, digits, [_] and [/] in names: [Ros2NameEncode]
    writes every other byte as [_] and two digits.  [GetRemappedFuncName] makes a
    name of a function from the groups that a rule finds in it, which a second
    rule refers to as [{1}].

    Parameters: [std::regex_search] with the rule of the configuration, as the
    groups of the match; [extend_name_with_sub_namespace] of rclcpp.  The fixed
    expression of a reference, [\{(\d+)\}], is searched for here.

    Theorems: decoding undoes encoding; the references of a rule are replaced by
    the groups when no group holds a brace; with one that does the loop may not
    end. *)

From S2P Require Import Prelude Url.
Local Open Scope Z_scope.

(** ** Encoding *)

(** [_XX] *)
Definition underscore (up : bool) (c : ascii) : bytes :=
  ["_"%char; char_of_u8 (ToHex (Z.shiftr (code c) 4) up); char_of_u8 (ToHex (Z.land (code c) 15) up)].

Definition ros2_plain (c : ascii) : bool := isalnum c || bool_decide (c = "/"%char).
Definition ros2_char (up : bool) (c : ascii) : bytes := if ros2_plain c then [c] else underscore up c.

(* @src src/src/plugins/ros2_plugin/ros2_name_encode.h:23-37 Ros2NameEncode *)
Definition Ros2NameEncode (str : bytes) (up : bool) : bytes := flat_map (ros2_char up) str.

(** An underscore that two characters do not follow ends the result. *)
(* @src src/src/plugins/ros2_plugin/ros2_name_encode.h:45-64 Ros2NameDecode *)
Fixpoint Ros2NameDecode (str : bytes) : bytes :=
  match str with
  | [] => []
  | c :: s =>
      if bool_decide (c = "_"%char) then
        match s with
        | a :: b :: s' => unhex a b :: Ros2NameDecode s'
        | _ => []
        end
      else c :: Ros2NameDecode s
  end.

(** Decoding undoes encoding, in either case of the digits, and what is encoded
    holds only what a name may hold. *)
Theorem ros2_name_roundtrip (s : bytes) (up : bool) :
  Ros2NameDecode (Ros2NameEncode s up) = s ∧
  Forall (λ c, isalnum c || bool_decide (c ∈ ["/"; "_"]%char) = true) (Ros2NameEncode s up).
Proof.
  assert (∀ c, ros2_plain c = true → bool_decide (c = "_"%char) = false) as Hkeep.
  { intros c Hc. assert (implb (ros2_plain c) (negb (bool_decide (c = "_"%char))) = true) as H
      by (clear Hc; revert c; apply by_all_chars; by vm_compute).
    rewrite Hc in H. by apply negb_true_iff in H. }
  induction s as [|c s [IH1 IH2]]; [by split; constructor|].
  change (Ros2NameEncode (c :: s) up) with (ros2_char up c ++ Ros2NameEncode s up). rewrite Forall_app. unfold ros2_char.
  destruct (ros2_plain c) eqn:Hc.
  - cbn [app Ros2NameDecode]. rewrite (Hkeep c Hc), IH1. split; [done|]. split; [|done]. constructor; [|constructor].
    unfold ros2_plain in Hc. apply orb_true_iff in Hc as [->|Hc%bool_decide_eq_true]; [done|]. subst c. apply orb_true_r.
  - destruct (percent_spec up c) as (a & b & Hp & Hu & Ha & Hb). injection Hp as Hpa Hpb. unfold underscore. rewrite Hpa, Hpb.
    cbn [app Ros2NameDecode]. rewrite bool_decide_eq_true_2, Hu, IH1 by done. split; [done|]. split; [|done].
    repeat constructor; [by rewrite Ha|by rewrite Hb].
Qed.

(** ** Remapping *)

Definition is_digit (c : ascii) : bool := (code "0" <=? code c) && (code c <=? code "9").
Definition brace : ascii := "{".
Definition end_brace : ascii := "}".

(** The first reference: where it begins, and its digits. *)
Fixpoint find_placeholder (s : bytes) : option (nat * bytes) :=
  match s with
  | [] => None
  | c :: s' =>
      let later := prod_map S id <$> find_placeholder s' in
      if bool_decide (c = brace) then
        match span is_digit s' with
        | (d :: ds, e :: _) => if bool_decide (e = end_brace) then Some (0%nat, d :: ds) else later
        | _ => later
        end
      else later
  end.

Definition digits_value (ds : bytes) : Z := fold_left (λ v d, 10 * v + (code d - code "0")) ds 0.

(** [std::stoul] *)
Definition stoul (ds : bytes) : res Z :=
  if digits_value ds <? 2 ^ 64 then Ok (digits_value ds) else Throw (RuntimeError "stoul").

Section Remap.
(** What [std::regex_search] finds: the match and its groups. *)
Context (regex_search : bytes → bytes → res (option (list bytes))).

(** The loop: [Ok None] is a reference to a group that is not there.  After a
    replacement the search begins at the sum of the position of the reference,
    which counts from the last beginning, and the length of the group. *)
(* @src src/src/plugins/ros2_plugin/ros2_rpc_backend.cc:283-295 Ros2RpcBackend::GetRemappedFuncName (loop) *)
Fixpoint remap_loop (fuel : nat) (groups : list bytes) (s : bytes) (search_start : nat) : option (res (option bytes)) :=
  match fuel with
  | O => None
  | S fuel' =>
      match find_placeholder (drop search_start s) with
      | None => Some (Ok (Some s))
      | Some (position, ds) =>
          match stoul ds with
          | Ok index =>
              match groups !! Z.to_nat index with
              | Some g =>
                  let at_ := (position + search_start)%nat in
                  remap_loop fuel' groups (take at_ s ++ g ++ drop (at_ + (length ds + 2)) s) (position + length g)
              | None => Some (Ok None)
              end
          | Throw e => Some (Throw e)
          | Undef => Some Undef
          end
      end
  end.

(** [input.substr(0, input.find('/'))] in front, unless it is there. *)
Definition with_msg_type (input_string replaced_func_name : bytes) : bytes :=
  let msg_type := (span (none_of ["/"%char]) input_string).1 in
  if bool_decide (take (length msg_type) replaced_func_name = msg_type) then replaced_func_name
  else msg_type ++ replaced_func_name.

(** [None]: not within [fuel] rounds. *)
(* @src src/src/plugins/ros2_plugin/ros2_rpc_backend.cc:256-309 Ros2RpcBackend::GetRemappedFuncName *)
Definition GetRemappedFuncName (fuel : nat) (input_string matching_rule remapping_rule : bytes) : option (res bytes) :=
  if bool_decide (remapping_rule = []) then Some (Ok input_string)
  else if bool_decide (matching_rule = []) then Some (Ok input_string)
  else
    match regex_search matching_rule input_string with
    | Ok None => Some (Ok input_string)
    | Ok (Some groups) =>
        match remap_loop fuel groups remapping_rule 0 with
        | None => None
        | Some (Ok (Some s)) => Some (Ok (with_msg_type input_string s))
        | Some (Ok None) => Some (Ok input_string)
        | Some (Throw _) => Some (Throw (AimRTException "Regex get exception, expr: {}, string: {}, exception info: {}"))
        | Some Undef => Some Undef
        end
    | Throw _ => Some (Throw (AimRTException "Regex get exception, expr: {}, string: {}, exception info: {}"))
    | Undef => Some Undef
    end.

(* @src src/src/plugins/ros2_plugin/ros2_rpc_backend.h:126-128 Ros2RpcBackend::CheckRosFunc *)
Definition CheckRosFunc (func_name : bytes) : bool := bool_decide (take 5 func_name = lit "ros2:").

(* @src src/src/plugins/ros2_plugin/ros2_rpc_backend.h:130-135 Ros2RpcBackend::GetRealRosFuncName *)
Definition GetRealRosFuncName (extend_name : bytes → res bytes) (func_name : bytes) : res bytes :=
  match span (none_of [":"%char]) func_name with
  | (_, _ :: rest) => extend_name (Ros2NameEncode rest true)
  | (_, []) => Throw (AimRTException "Input string does not contain delimiter: ':' ")
  end.

(** ** What a rule says *)

(** A rule: texts without braces, and references. *)
Inductive piece := PText (t : bytes) | PRef (ds : bytes).

Definition no_brace (t : bytes) : Prop := brace ∉ t.
Definition piece_ok (p : piece) : Prop :=
  match p with
  | PText t => no_brace t
  | PRef ds => ds ≠ [] ∧ Forall (λ c, is_digit c = true) ds ∧ digits_value ds < 2 ^ 64
  end.
Definition print_piece (p : piece) : bytes := match p with PText t => t | PRef ds => brace :: ds ++ [end_brace] end.
Definition rule_of (ps : list piece) : bytes := concat (map print_piece ps).

(** Its meaning. *)
Definition piece_value (groups : list bytes) (p : piece) : option bytes :=
  match p with PText t => Some t | PRef ds => groups !! Z.to_nat (digits_value ds) end.
Definition rule_value (groups : list bytes) (ps : list piece) : option bytes := concat (A := ascii) <$> mapM (piece_value groups) ps.

Lemma find_skip a b : no_brace a → find_placeholder (a ++ b) = prod_map (Nat.add (length a)) id <$> find_placeholder b.
Proof.
  induction a as [|c a IH]; intros Ha.
  - cbn. by destruct (find_placeholder b) as [[]|].
  - apply not_elem_of_cons in Ha as [Hc Ha]. cbn [app find_placeholder length].
    rewrite bool_decide_eq_false_2 by congruence. rewrite (IH Ha). by destruct (find_placeholder b) as [[]|].
Qed.

Lemma find_none a : no_brace a → find_placeholder a = None.
Proof. intros Ha. rewrite <-(app_nil_r a). by rewrite find_skip. Qed.

Lemma find_ref ds b : ds ≠ [] → Forall (λ c, is_digit c = true) ds →
  find_placeholder (brace :: ds ++ end_brace :: b) = Some (0%nat, ds).
Proof.
  intros Hne Hds. cbn [find_placeholder]. rewrite bool_decide_eq_true_2 by done.
  rewrite (span_app is_digit ds (end_brace :: b)) by done. by destruct ds.
Qed.

Lemma drop_in n (c : ascii) s : c ∈ drop n s → c ∈ s.
Proof. intros Hin. rewrite <-(take_drop n s). apply elem_of_app. by right. Qed.

Lemma remap_loop_pieces groups ps : Forall no_brace groups → Forall piece_ok ps →
  ∀ fuel made start, (length ps < fuel)%nat → no_brace made → (start ≤ length made)%nat →
  remap_loop fuel groups (made ++ rule_of ps) start = Some (Ok (app made <$> rule_value groups ps)).
Proof.
  intros Hg Hps. induction Hps as [|p ps Hp Hps IH]; intros fuel made start Hfuel Hmade Hst.
  - destruct fuel as [|fuel]; [lia|]. cbn [rule_of map concat remap_loop]. rewrite app_nil_r, find_none; [cbn; by rewrite app_nil_r|].
    intros Hin. apply Hmade. by eapply drop_in.
  - assert (no_brace (drop start made)) as Hdrop by (intros Hin; apply Hmade; by eapply drop_in).
    change (rule_of (p :: ps)) with (print_piece p ++ rule_of ps). destruct p as [t|ds]; cbn [print_piece].
    + rewrite app_assoc. rewrite (IH fuel (made ++ t) start); [|cbn in Hfuel; lia| |rewrite length_app; lia].
      * unfold rule_value. cbn [mapM piece_value mbind option_bind]. destruct (mapM _ ps); cbn; [|done]. by rewrite app_assoc.
      * intros [?|?]%elem_of_app; [by apply Hmade|by apply Hp].
    + destruct Hp as (Hne & Hds & Hv). destruct fuel as [|fuel]; [lia|]. cbn [remap_loop].
      rewrite drop_app_le by done. rewrite find_skip by done. cbn [app]. rewrite <-app_assoc. cbn [app].
      rewrite find_ref by done. cbn [fmap option_fmap option_map prod_map fst snd id]. unfold stoul. rewrite (proj2 (Z.ltb_lt _ _) Hv).
      unfold rule_value. cbn [mapM piece_value mbind option_bind]. destruct (groups !! Z.to_nat (digits_value ds)) as [g|] eqn:Hg'; [|done].
      rewrite Nat.add_0_r, length_drop. replace (length made - start + start)%nat with (length made) by lia.
      rewrite take_app_length. rewrite drop_app_add.
      replace (brace :: ds ++ end_brace :: rule_of ps) with ((brace :: ds ++ [end_brace]) ++ rule_of ps) by (cbn; by rewrite <-app_assoc).
      rewrite drop_app_length' by (cbn; rewrite length_app; cbn; lia).
      rewrite app_assoc. rewrite (IH fuel (made ++ g)); [|cbn in Hfuel; lia| |rewrite length_app; lia].
      * unfold rule_value. destruct (mapM _ ps); cbn; [|done]. by rewrite app_assoc.
      * intros [?|Hin]%elem_of_app; [by apply Hmade|]. eapply Forall_lookup_1 in Hg; [|exact Hg']. by apply Hg.
Qed.

(** C32: A function is remapped as its rule says.  When the rule consists of texts
    without opening braces and of references, and no group of the match holds an
    opening brace, the name is remapped within a round for each part and one: to
    the rule with every reference replaced by its group, with the message type in
    front if it is not there; a reference to a group that is not there leaves the
    name as it is. *)
Theorem remap_substitutes fuel input matching_rule ps groups :
  matching_rule ≠ [] → rule_of ps ≠ [] → Forall piece_ok ps → regex_search matching_rule input = Ok (Some groups) →
  Forall no_brace groups → (length ps < fuel)%nat →
  GetRemappedFuncName fuel input matching_rule (rule_of ps) =
    Some (Ok (match rule_value groups ps with Some s => with_msg_type input s | None => input end)).
Proof.
  intros Hm Hr Hps Hs Hg Hfuel. unfold GetRemappedFuncName. rewrite bool_decide_eq_false_2, bool_decide_eq_false_2, Hs by done.
  pose proof (remap_loop_pieces groups ps Hg Hps fuel [] 0 Hfuel ltac:(apply not_elem_of_nil) ltac:(cbn; lia)) as Hloop.
  cbn [app] in Hloop. rewrite Hloop. destruct (rule_value groups ps); [|done]. done.
Qed.

(** A group that is itself a reference may keep the loop going for ever: the
    search begins again before what has been replaced. *)
Theorem remap_may_not_end input matching_rule fuel :
  matching_rule ≠ [] → regex_search matching_rule input = Ok (Some [input; lit "{1}"]) →
  GetRemappedFuncName fuel input matching_rule (lit "ab{1}{1}") = None.
Proof.
  intros Hm Hs. unfold GetRemappedFuncName. rewrite bool_decide_eq_false_2, bool_decide_eq_false_2, Hs by done.
  assert (∀ fuel, remap_loop fuel [input; lit "{1}"] (lit "ab{1}{1}") 3 = None ∧
    remap_loop fuel [input; lit "{1}"] (lit "ab{1}{1}") 5 = None) as Hloop.
  { clear. intros fuel. induction fuel as [|fuel [IH3 IH5]]; [done|]. split; [exact IH5|exact IH3]. }
  assert (remap_loop fuel [input; lit "{1}"] (lit "ab{1}{1}") 0 = None) as ->; [|done].
  destruct fuel as [|fuel]; [done|]. exact (proj2 (Hloop fuel)).
Qed.
End Remap.

(** * At a concrete input *)

(** The name, and its three parts. *)
Definition demo_search (_ _ : bytes) : res (option (list bytes)) :=
  Ok (Some [lit "pb:/aaa/bbb"; lit "pb:"; lit "aaa"; lit "bbb"]).
Definition demo_rule : list piece := [PRef ["1"%char]; PText ["/"%char]; PRef ["3"%char]].

Lemma remap_substitutes_witness :
  GetRemappedFuncName demo_search 4 (lit "pb:/aaa/bbb") (lit "(.*)/(.*)/(.*)") (lit "{1}/{3}") = Some (Ok (lit "pb:/bbb")).
Proof.
  change (lit "{1}/{3}") with (rule_of demo_rule).
  rewrite (remap_substitutes demo_search 4 (lit "pb:/aaa/bbb") (lit "(.*)/(.*)/(.*)") demo_rule
    [lit "pb:/aaa/bbb"; lit "pb:"; lit "aaa"; lit "bbb"]); [reflexivity|discriminate|discriminate| |reflexivity| |cbn; lia].
  - repeat (apply Forall_cons; split); [| | |constructor].
    + split; [discriminate|]. split; [by repeat constructor|by vm_compute].
    + intros Hin%list_elem_of_singleton. discriminate.
    + split; [discriminate|]. split; [by repeat constructor|by vm_compute].
  - repeat constructor; intros Hin; apply (bool_decide_eq_true_2 _) in Hin; vm_compute in Hin; discriminate.
Defined.

Lemma remap_may_not_end_witness :
  GetRemappedFuncName (λ _ i, Ok (Some [i; lit "{1}"])) 1000 (lit "{1}") (lit "(.*)") (lit "ab{1}{1}") = None.
Proof. by apply remap_may_not_end. Defined.
