(* ===== verification/Configurator.v ===== *)
(** * The configurator: [src/runtime/core/configurator/configurator_manager.*]

    The configuration is loaded into [ori_root_options_node], of which
    [user_root_options_node] is a copy.  A manager asks for its section of [aimrt]
    and writes the options it uses into it; the section becomes one of
    [root_options_node] too, as the same node: both see what is written.  So the
    sections are cells, [cm_cells], and [root_options_node] the list of those that
    were asked for.  A module is given the path of a file with its configuration.

    Parameters: how nodes are loaded, printed and built ([yaml-cpp]), the files
    and the environment.  A look-up in a node that has no keys finds nothing.

    Theorems: the report shows the sections that were asked for, as they are used,
    and warns exactly when something that the user wrote is not there; modules get
    the files of their sections, the same ones every time. *)

From S2P Require Import Prelude Yaml StringUtil YamlTools LogFormatter Logger.

(** What is used of [yaml-cpp] to build a node: a map of pairs. *)
Class YamlBuild (node : Type) `{YamlWalkLaws node} := {
  map_node : list (string * node) → node;
  map_node_map l : IsMap (map_node l) = true;
  map_node_pairs l : pairs_of (map_node l) = l
}.

(* @src src/src/runtime/core/configurator/configurator_manager.cc:25-32 convert<ConfiguratorManager::Options>::decode *)
Definition configurator_decode `{YamlOps node} (n : node) (rhs : string) : res (option string) :=
  if negb (IsMap n) then Ok None
  else Some <$> set_if n "temp_cfg_path" as_string rhs.

(* @src src/src/runtime/core/configurator/configurator_manager.h:62-74 ConfiguratorManager *)
Record ConfiguratorManager (node : Type) := mkConfigurator {
  cm_state : State;
  cm_cfg_file_path : string;
  cm_temp_cfg_path : string;              (* options_ *)
  cm_ori : node;                          (* as it was loaded *)
  cm_cells : gmap string node;            (* sections of aimrt that were written *)
  cm_asked : list string;                 (* the keys of aimrt in root_options_node *)
  cm_modules : list string;               (* and its other keys *)
  cm_proxies : gmap string string;        (* cfg_proxy_map_: the paths *)
  cm_files : gmap string bytes            (* the temporary files *)
}.
Arguments mkConfigurator {node}.
Arguments cm_state {node}.
Arguments cm_cfg_file_path {node}.
Arguments cm_temp_cfg_path {node}.
Arguments cm_ori {node}.
Arguments cm_cells {node}.
Arguments cm_asked {node}.
Arguments cm_modules {node}.
Arguments cm_proxies {node}.
Arguments cm_files {node}.

Section Configurator.
Context {node : Type} `{YamlBuild node}.
Abbreviation CM := (ConfiguratorManager node).
Implicit Types s : CM.

(** [std::filesystem::canonical(absolute(path))], the bytes of a file, and
    [YAML::Load]. *)
Context (canonical : string → res string) (read_file : string → option bytes) (getenv : bytes → option bytes).
Context (yaml_load : bytes → res node).
(** The folder is there or is made; a file can be opened for writing. *)
Context (ensure_folder : string → res unit) (can_write : string → bool).
(** [convert<Options>::encode] *)
Context (encode_options : string → node).

Definition ConfiguratorManager_new : CM := mkConfigurator kPreInit "" "./cfg/tmp" NullNode ∅ [] [] ∅ ∅.

Definition cm_set_state x s : CM := mkConfigurator x (cm_cfg_file_path s) (cm_temp_cfg_path s) (cm_ori s) (cm_cells s) (cm_asked s) (cm_modules s) (cm_proxies s) (cm_files s).
Definition cm_set_cfg p n s : CM := mkConfigurator (cm_state s) p (cm_temp_cfg_path s) n (cm_cells s) (cm_asked s) (cm_modules s) (cm_proxies s) (cm_files s).
Definition cm_set_temp x s : CM := mkConfigurator (cm_state s) (cm_cfg_file_path s) x (cm_ori s) (cm_cells s) (cm_asked s) (cm_modules s) (cm_proxies s) (cm_files s).
Definition cm_set_cells x s : CM := mkConfigurator (cm_state s) (cm_cfg_file_path s) (cm_temp_cfg_path s) (cm_ori s) x (cm_asked s) (cm_modules s) (cm_proxies s) (cm_files s).
Definition cm_set_asked x s : CM := mkConfigurator (cm_state s) (cm_cfg_file_path s) (cm_temp_cfg_path s) (cm_ori s) (cm_cells s) x (cm_modules s) (cm_proxies s) (cm_files s).
Definition cm_set_proxies ms ps fs s : CM := mkConfigurator (cm_state s) (cm_cfg_file_path s) (cm_temp_cfg_path s) (cm_ori s) (cm_cells s) (cm_asked s) ms ps fs.

Definition cm_when_init : M CM unit :=
  s ← get; check_throw (state_eqb (cm_state s) kInit) "Method can only be called when state is 'Init'.".

(** The section [key] of [aimrt]: what was written into it, or what was loaded. *)
Definition section s (key : string) : option node :=
  match cm_cells s !! key with
  | Some n => Some n
  | None => index (cm_ori s) "aimrt" ≫= λ a, index a key
  end.

Definition add_key (k : string) (ks : list string) : list string := if bool_decide (k ∈ ks) then ks else ks ++ [k].

(* @src src/src/runtime/core/configurator/configurator_manager.cc:167-176 ConfiguratorManager::GetAimRTOptionsNode *)
Definition GetAimRTOptionsNode (key : string) : M CM (option node) :=
  cm_when_init;;
  modify (λ s, cm_set_asked (add_key key (cm_asked s)) s);;
  s ← get;
  mret (section s key).

(** What a manager does with the node that it was given: [options_node = options_]. *)
Definition write_section (key : string) (n : node) : M CM unit :=
  modify (λ s, cm_set_cells (<[key := n]> (cm_cells s)) s).

(* @src src/src/runtime/core/configurator/configurator_manager.cc:55-68 ConfiguratorManager::Initialize (load) *)
Definition load_cfg (path : string) : M CM unit :=
  modify (cm_set_cfg path NullNode);;
  if String.eqb path "" then mret tt
  else
    p ← lift (canonical path);
    match read_file p with
    | None => throw (AimRTException "Can not open cfg file '{}'.")
    | Some data => n ← lift (yaml_load (ReplaceEnvVars getenv data)); modify (cm_set_cfg p n)
    end.

(* @src src/src/runtime/core/configurator/configurator_manager.cc:38-88 ConfiguratorManager::Initialize *)
Definition cm_Initialize (cfg_file_path : string) : M CM unit :=
  s ← get;
  modify (cm_set_state kInit);;
  check_throw (state_eqb (cm_state s) kPreInit) "Configurator manager can only be initialized once.";;
  load_cfg cfg_file_path;;
  options_node ← GetAimRTOptionsNode "configurator";
  o ← lift (read_options configurator_decode "./cfg/tmp" options_node);
  let temp_cfg_path := default "./cfg/tmp" o in
  modify (cm_set_temp temp_cfg_path);;
  lift (ensure_folder temp_cfg_path);;
  write_section "configurator" (encode_options temp_cfg_path).

(* @src src/src/runtime/core/configurator/configurator_manager.cc:90-96 ConfiguratorManager::Start *)
Definition cm_Start : M CM unit :=
  s ← get;
  modify (cm_set_state kStart);;
  check_throw (state_eqb (cm_state s) kInit) "Method can only be called when state is 'Init'.".

(* @src src/src/runtime/core/configurator/configurator_manager.cc:98-105 ConfiguratorManager::Shutdown *)
Definition cm_Shutdown : M CM unit :=
  s ← get;
  modify (cm_set_state kShutdown);;
  if state_eqb (cm_state s) kShutdown then mret tt else modify (λ s, cm_set_proxies (cm_modules s) ∅ (cm_files s) s).

(** A folder and the name of a file. *)
Definition in_folder (folder name : string) : string :=
  if String.eqb folder "" || bool_decide (last (lit folder) = Some "/"%char) then (folder ++ name)%string
  else (folder ++ "/" ++ name)%string.

Definition temp_cfg_file_path s (name : string) : string :=
  in_folder (cm_temp_cfg_path s) ("temp_cfg_file_for_" ++ name ++ ".yaml").

(** The path of the proxy. *)
(* @src src/src/runtime/core/configurator/configurator_manager.cc:119-165 ConfiguratorManager::GetConfiguratorProxy *)
Definition GetConfiguratorProxy (i : ModuleDetailInfo) : M CM string :=
  cm_when_init;;
  s ← get;
  match cm_proxies s !! mi_name i with
  | Some p => mret p
  | None =>
      if negb (String.eqb (cfg_file_path i) "") then
        modify (cm_set_proxies (cm_modules s) (<[mi_name i := cfg_file_path i]> (cm_proxies s)) (cm_files s));;
        mret (cfg_file_path i)
      else
        match index (cm_ori s) (mi_name i) with
        | None => mret ""
        | Some n =>
            if IsNull n then mret ""
            else
              modify (cm_set_proxies (add_key (mi_name i) (cm_modules s)) (cm_proxies s) (cm_files s));;
              s ← get;
              let p := temp_cfg_file_path s (mi_name i) in
              check_throw (can_write p) "Can not open temp cfg file '{}'.";;
              modify (cm_set_proxies (cm_modules s) (<[mi_name i := p]> (cm_proxies s)) (<[p := dump n]> (cm_files s)));;
              mret p
        end
  end.

(** [root_options_node["aimrt"]]: a section that is not defined is not a pair. *)
(* @src src/src/runtime/core/configurator/configurator_manager.cc:111-113 ConfiguratorManager::GetRootOptionsNode *)
Definition root_aimrt s : node :=
  map_node (omap (λ k, pair k <$> section s k) (cm_asked s)).

(* @src src/src/runtime/core/configurator/configurator_manager.cc:178-197 ConfiguratorManager::GenInitializationReport *)
Definition cm_GenInitializationReport : M CM (list (string * bytes)) :=
  cm_when_init;;
  s ← get;
  check_msg ← lift (CheckYamlNodes (Some (root_aimrt s)) (index (cm_ori s) "aimrt") (lit "aimrt") 0);
  mret (("AimRT Core Option", dump (root_aimrt s)) ::
        (if bool_decide (check_msg = []) then [] else [("Configuration Warning", check_msg)])).

(** ** What managers are given, and the report *)

(** Managers ask for sections and write into those. *)
Inductive section_call := Ask (key : string) | Write (key : string) (n : node).
Definition run_section_call (c : section_call) : M CM unit :=
  match c with Ask key => _ ← GetAimRTOptionsNode key; mret tt | Write key n => write_section key n end.

(** What is in the section after the calls: the last that was written. *)
Fixpoint written (key : string) (cs : list section_call) : option node :=
  match cs with
  | [] => None
  | Write k n :: cs' => match written key cs' with Some m => Some m | None => if String.eqb k key then Some n else None end
  | Ask _ :: cs' => written key cs'
  end.
Definition asked_for (cs : list section_call) : list string :=
  omap (λ c, match c with Ask k => Some k | Write _ _ => None end) cs.

Lemma when_init_run s : cm_state s = kInit → cm_when_init s = (Ok tt, s).
Proof. intros Hst. unfold cm_when_init. by rewrite get_bind, Hst. Qed.

Lemma elem_of_add_key k k' ks : k ∈ add_key k' ks ↔ k = k' ∨ k ∈ ks.
Proof. clear. unfold add_key. case_bool_decide; [naive_solver|]. rewrite elem_of_app, list_elem_of_singleton. tauto. Qed.

Lemma add_key_NoDup k ks : NoDup ks → NoDup (add_key k ks).
Proof.
  intros Hnd. unfold add_key. case_bool_decide as Hin; [done|]. apply NoDup_app. split; [done|]. split; [|apply NoDup_singleton].
  by intros x Hx ->%list_elem_of_singleton.
Qed.

Lemma section_calls_run cs : ∀ s, cm_state s = kInit → NoDup (cm_asked s) →
  ∃ s', mapM_ run_section_call cs s = (Ok tt, s') ∧ cm_state s' = kInit ∧ cm_ori s' = cm_ori s ∧ NoDup (cm_asked s') ∧
    (∀ k, k ∈ cm_asked s' ↔ k ∈ cm_asked s ∨ k ∈ asked_for cs) ∧
    ∀ k, section s' k = match written k cs with Some n => Some n | None => section s k end.
Proof.
  induction cs as [|c cs IH]; intros s Hst Hnd.
  - exists s. split; [done|]. split; [done|]. split; [done|]. split; [done|]. split; [|done]. intros k. rewrite elem_of_nil. clear. tauto.
  - destruct c as [key|key n].
    + destruct (IH (cm_set_asked (add_key key (cm_asked s)) s) Hst (add_key_NoDup _ _ Hnd)) as (s' & Hrun & Hs1 & Hs2 & Hn & Hs3 & Hs4).
      exists s'. split; [|split; [done|]; split; [done|]; split; [done|]; split; [|done]].
      * cbn [mapM_ run_section_call]. unfold GetAimRTOptionsNode. unfold mbind, M_bind. by rewrite (when_init_run s Hst).
      * intros k. rewrite Hs3. cbn [cm_asked cm_set_asked asked_for omap list_omap]. rewrite elem_of_add_key, elem_of_cons. clear. tauto.
    + destruct (IH (cm_set_cells (<[key := n]> (cm_cells s)) s) Hst Hnd) as (s' & Hrun & Hs1 & Hs2 & Hn & Hs3 & Hs4).
      exists s'. split; [done|]. split; [done|]. split; [done|]. split; [done|]. split; [done|]. intros k. rewrite Hs4.
      cbn [written]. destruct (written k cs); [done|]. unfold section. cbn. destruct (String.eqb_spec key k) as [->|Hne].
      * by rewrite lookup_insert_eq.
      * by rewrite lookup_insert_ne.
Qed.

Lemma assoc_sections s k ks : NoDup ks → assoc k (omap (λ k, pair k <$> section s k) ks) = if decide (k ∈ ks) then section s k else None.
Proof.
  induction 1 as [|x ks Hx Hnd IH]; [done|]. cbn [omap list_omap]. destruct (decide (k = x)) as [->|Hne].
  - rewrite decide_True by (by left). destruct (section s x) eqn:Hs; cbn [fmap option_fmap option_map].
    + cbn. by rewrite String.eqb_refl.
    + rewrite IH. by rewrite decide_False.
  - assert ((if decide (k ∈ x :: ks) then section s k else None) = (if decide (k ∈ ks) then section s k else None)) as ->.
    { destruct (decide (k ∈ ks)) as [Hin|Hno]; [by rewrite decide_True by (by right)|]. rewrite decide_False; [done|].
      by intros [?|?]%elem_of_cons. }
    rewrite <-IH. destruct (section s x); [|done]. cbn. by rewrite (proj2 (String.eqb_neq _ _)).
Qed.

(** C31: What is reported of the configuration.  After the managers have asked for
    sections and written into them, [root_options_node] holds exactly the sections
    asked for, each as it was last written or as the user wrote it; the report
    prints it, and warns if and only if something that the user wrote, down to
    twenty levels, is not there - whatever was written into the sections, the
    user's configuration is compared as it was loaded. *)
Theorem configuration_reported cs s a :
  cm_state s = kInit → NoDup (cm_asked s) → index (cm_ori s) "aimrt" = Some a →
  ∃ s', mapM_ run_section_call cs s = (Ok tt, s') ∧
    (∀ k, index (root_aimrt s') k =
       if decide (k ∈ cm_asked s ∨ k ∈ asked_for cs)
       then match written k cs with Some n => Some n | None => section s k end else None) ∧
    ∀ r, (cm_GenInitializationReport s').1 = Ok r →
      ∃ warnings, r = ("AimRT Core Option", dump (root_aimrt s')) :: warnings ∧
        (warnings = [] ↔ covered 20 (root_aimrt s') a).
Proof.
  intros Hst Hnd Ha. destruct (section_calls_run cs s Hst Hnd) as (s' & Hrun & Hs1 & Hs2 & Hn & Hs3 & Hs4).
  exists s'. split; [exact Hrun|]. split.
  - intros k. rewrite index_pairs by apply map_node_map. unfold root_aimrt. rewrite map_node_pairs, assoc_sections by done.
    rewrite Hs4. destruct (decide (k ∈ cm_asked s')) as [Hin|Hno].
    + rewrite decide_True by (by apply Hs3). done.
    + rewrite decide_False by (by rewrite <-Hs3). done.
  - intros r Hr. unfold cm_GenInitializationReport in Hr. revert Hr.
    rewrite (bind_run _ _ s' tt s') by (by apply when_init_run). rewrite get_bind, Hs2, Ha.
    pose proof (no_message (root_aimrt s') a 20 (lit "aimrt")) as Hsilent.
    unfold CheckYamlNodes. change (20 - 0)%nat with 20%nat.
    destruct (CheckYamlNodes_level 20 (Some (root_aimrt s')) (Some a) (lit "aimrt")) as [msg| |]; [|done..].
    cbn. intros [= <-]. eexists. split; [done|]. rewrite <-Hsilent. case_bool_decide as Hm; [|split; [done|congruence]].
    by subst msg.
Qed.

(** ** The files of modules *)

(** A module is given the file it names, or a file that holds its section of the
    configuration, or none; and the same again when it asks again, whatever it
    names then. *)
Theorem modules_have_their_files i s p s' : cm_state s = kInit →
  GetConfiguratorProxy i s = (Ok p, s') →
  (∀ i', mi_name i' = mi_name i → p ≠ "" → GetConfiguratorProxy i' s' = (Ok p, s')) ∧
  (cm_proxies s !! mi_name i = None →
     if negb (String.eqb (cfg_file_path i) "") then p = cfg_file_path i
     else match index (cm_ori s) (mi_name i) with
          | None => p = ""
          | Some n => if IsNull n then p = "" else p = temp_cfg_file_path s (mi_name i) ∧ cm_files s' !! p = Some (dump n)
          end) ∧
  (∀ name q, cm_proxies s !! name = Some q → cm_proxies s' !! name = Some q).
Proof.
  intros Hst. unfold GetConfiguratorProxy at 1. rewrite (bind_run _ _ s tt s) by (by apply when_init_run). rewrite get_bind. unfold_monad.
  assert (∀ (i' : ModuleDetailInfo) (t : CM) (q : string), cm_state t = kInit → cm_proxies t !! mi_name i' = Some q →
    GetConfiguratorProxy i' t = (Ok q, t)) as Hagain.
  { intros i' t q Ht Hq. unfold GetConfiguratorProxy. rewrite (bind_run _ _ t tt t) by (by apply when_init_run). by rewrite get_bind, Hq. }
  assert (∀ (m : gmap string string) v name q, m !! mi_name i = None → m !! name = Some q → <[mi_name i := v]> m !! name = Some q) as Hkeep.
  { intros m v name q Hnone Hq. rewrite lookup_insert_ne; [done|]. congruence. }
  destruct (cm_proxies s !! mi_name i) as [q|] eqn:Hq.
  { intros [= <- <-]. split; [|done]. intros i' Hi _. apply Hagain; [done|]. by rewrite Hi. }
  destruct (negb (String.eqb (cfg_file_path i) "")).
  { intros [= <- <-]. split; [|split; [done|intros name q' Hq'; by apply Hkeep]]. intros i' Hi _. apply Hagain; [done|]. rewrite Hi. apply lookup_insert_eq. }
  destruct (index (cm_ori s) (mi_name i)) as [n|]; [destruct (IsNull n)|]; [by intros [= <- <-]| |by intros [= <- <-]].
  destruct (can_write _) eqn:Hw; [|done]. intros [= <- <-]. split; [|split; [|intros name q' Hq'; by apply Hkeep]].
  - intros i' Hi _. apply Hagain; [done|]. rewrite Hi. apply lookup_insert_eq.
  - intros _. split; [done|]. apply lookup_insert_eq.
Qed.
End Configurator.

(** * At a concrete input *)

Module ConfiguratorDemo.
Export YamlToolsDemo.
#[export] Instance tree_build : YamlBuild tree.
Proof. by exists TMap. Defined.

Definition loaded : tree :=
  TMap [("aimrt", TMap [("log", TMap [("core_lvl", TStr "info")]); ("logs", TNull)]); ("m", TMap [("key1", TStr "val1")])].
Definition demo_manager : ConfiguratorManager tree :=
  (cm_Initialize Ok (λ _, Some []) (λ _, None) (λ _, Ok loaded) (λ _, Ok tt) (λ p, TMap [("temp_cfg_path", TStr p)])
    "cfg.yaml" ConfiguratorManager_new).2.
Definition demo_module : ModuleDetailInfo := mkModuleInfo "m" "" 0 0 0 0 "" "" AIMRT_LOG_LEVEL_INFO true "".
Definition demo_calls : list (section_call (node := tree)) :=
  [Ask "log"; Write "log" (TMap [("core_lvl", TStr "info"); ("backends", TSeq [])])].
Definition demo_asked : ConfiguratorManager tree := (mapM_ run_section_call demo_calls demo_manager).2.

Example demo_report : (cm_GenInitializationReport demo_asked).1 =
  Ok [("AimRT Core Option", []); ("Configuration Warning", lit "- Unused options: 'aimrt.logs'! Did you mean: 'aimrt.log'?" ++ endl)].
Proof. vm_compute. reflexivity. Qed.
End ConfiguratorDemo.
Import ConfiguratorDemo.

Lemma configuration_reported_witness :
  index (root_aimrt demo_asked) "log" = Some (TMap [("core_lvl", TStr "info"); ("backends", TSeq [])]) ∧
  index (root_aimrt demo_asked) "logs" = None ∧
  ¬ covered 20 (root_aimrt demo_asked) (TMap [("log", TMap [("core_lvl", TStr "info")]); ("logs", TNull)]).
Proof.
  destruct (configuration_reported demo_calls demo_manager (TMap [("log", TMap [("core_lvl", TStr "info")]); ("logs", TNull)]))
    as (s' & Hrun & Hin & Hrep); [by vm_compute|apply (bool_decide_eq_true_1 (NoDup _)); by vm_compute|by vm_compute|].
  assert (s' = demo_asked) as -> by (unfold demo_asked; by rewrite Hrun).
  split; [rewrite Hin; by vm_compute|]. split; [rewrite Hin; by vm_compute|].
  destruct (Hrep _ demo_report) as (warnings & [= <-] & Hc). intros Hcov. apply Hc in Hcov. discriminate Hcov.
Defined.

Lemma modules_have_their_files_witness :
  GetConfiguratorProxy (λ _, true) demo_module (GetConfiguratorProxy (λ _, true) demo_module demo_manager).2 =
    (Ok "./cfg/tmp/temp_cfg_file_for_m.yaml", (GetConfiguratorProxy (λ _, true) demo_module demo_manager).2).
Proof.
  apply (modules_have_their_files (λ _, true) demo_module demo_manager "./cfg/tmp/temp_cfg_file_for_m.yaml"); by vm_compute.
Defined.
